(* ===== verification/_CoqProject ===== *)
-Q . S2P
Prelude.v
Gm.v
Sm4.v
Sm3.v
Util.v
Layout.v
QmiStructs.v
MbimStructs.v
ProxyStructs.v
QmiMsg.v
Compose.v
Cm.v
Monad.v
GmModule.v
QmiRequests.v
QmiCall.v
QmiEth.v
QmiStatus.v
QmiStatusSpec.v
QmiRegSpec.v
QmiExchange.v
WwanCM.v
WwanSpec.v
Qlist.v
Proxy.v
ProxySpec.v
Main.v
MainSpec.v
Text.v
Mbim.v
MbimMain.v
MbimSpec.v
MbimRun.v
MbimFaults.v
Resolv.v
Device.v
Options.v
OptionsSpec.v
MbimProxy.v
MbimProxySpec.v
Net.v
Qmap.v
QmapSpec.v
Udhcpc.v
UdhcpcSpec.v
Sansec.v
SansecSpec.v
SansecSys.v
ProxyInit.v
ProxyInitSpec.v
Gobi.v
GobiSpec.v
Fm.v
FmSpec.v
Ubus.v
UbusSpec.v
Dump.v
DumpSpec.v
Brothers.v
ProxyMain.v
DeviceIo.v
Dhcp.v
DhcpSpec.v
DhcpClient.v
DhcpClientSpec.v
Mnl.v
MnlSpec.v
MnlPrint.v
IfUtils.v
IfUtilsSpec.v
IfFlushSpec.v
DhcpRun.v
UdhcpcNl.v
UdhcpcNlSpec.v
MainRun.v
MainRunSpec.v
MbimDump.v
MbimDumpSpec.v
ProxySys.v
