(* ===== verification/Prelude.v ===== *)
(** * A verified model of mypackages: the Quectel connection manager and the Chinese-standard ciphers.

    The repository is a collection of OpenWrt packages.  Its own C code is the connection manager quectel-CM
    (src/mobile/quectel-CM/src), which dials a mobile modem and keeps it connected, its multiplexers, which share one
    modem between several managers, and the kernel modules for SM3 and SM4 (src/gm-test), for a cipher card (src/gm-sansec) and
    for another one (src/gm-fm).
    This library translates that code into executable definitions and proves what it guarantees and where it fails.

    ** The parts, and the files that model them

    quectel-CM is a main thread, which dials, and a reader thread, which receives what the modem sends.  The main thread calls a
    request function, which composes a message and sends it; the sender then sleeps on a condition variable until the
    reader thread has found the response among what arrives.  Events that are no response (indications, signals, alarms) go to
    the main thread through sockets.  When a call is up, the network is set up for it, by commands or over netlink.  A file X.v models, XSpec.v
    proves; small components have both in one file.

    - Foundations.  Prelude.v: words, byte buffers with checked accesses, record update, arithmetic tactics; Monad.v: the state
      monad, with frame ([keeps]) and invariant ([preserves]) rules; Layout.v: types of C and the places of their fields; Text.v: the conversions
      of printf and scanf, [fgets] and [strstr]; Util.v (util.c): byte order, C strings, relative time, the sliced wait; Resolv.v (util.c):
      /etc/resolv.conf.
    - Messages.  QmiStructs.v (MPQMI.h, MPQCTL.h, MPQMUX.h, QMIThread.h), MbimStructs.v (mbim-cm.c), ProxyStructs.v (quectel-qmi-proxy.c): the
      structs of the messages as they are declared; QmiMsg.v: QMI messages and [GetTLV]; Dump.v, DumpSpec.v (MPQMUX.c), MbimDump.v,
      MbimDumpSpec.v (mbim-cm.c): their printouts.
    - Requests.  Compose.v (QMIThread.c): the builders of QMUX messages; QmiRequests.v, QmiStatus.v (QMIThread.c): the request functions,
      on Cm.v (cm.c), the status record; QmiCall.v, QmiEth.v, QmiStatusSpec.v, QmiRegSpec.v: what they achieve; Ubus.v, UbusSpec.v (ubus.c): the
      service that shows the record.
    - Transport.  QmiExchange.v (QMIThread.c): the sender and the reader thread as a step machine; WwanCM.v, WwanSpec.v
      (QmiWwanCM.c): clients, sending and the reader thread on a qmi_wwan device; Gobi.v, GobiSpec.v (GobiNetCM.c): the same on a GobiNet device.
    - The program.  Options.v, OptionsSpec.v (main.c, util.c): the command line; Device.v, DeviceIo.v (device.c): finding the modem, its driver
      and the log of its bus; Brothers.v (main.c): stopping other programs; Main.v, MainSpec.v (main.c): the main loop in QMI mode, its
      events and its redialling; MainRun.v, MainRunSpec.v (main.c): the life of the program around that loop.
    - The MBIM mode (mbim-cm.c).  Mbim.v, MbimMain.v, MbimSpec.v, MbimRun.v, MbimFaults.v: from the messages to a run of the
      program against a reference device.
    - The network.  Net.v, Udhcpc.v, UdhcpcSpec.v (udhcpc.c): interfaces and DHCP by commands; Qmap.v, QmapSpec.v (qmap_bridge_mode.c): bridge
      mode and multiplexed interfaces; UdhcpcNl.v, UdhcpcNlSpec.v (udhcpc_netlink.c): the set-up over netlink, on Mnl.v, MnlSpec.v,
      MnlPrint.v (libmnl: messages and their printout), IfUtils.v, IfUtilsSpec.v, IfFlushSpec.v (libmnl/ifutils.c, socket.c), and Dhcp.v, DhcpSpec.v,
      DhcpClient.v, DhcpClientSpec.v, DhcpRun.v (libmnl/dhcp).
    - The multiplexers.  Qlist.v, Proxy.v, ProxySpec.v (quectel-qmi-proxy.c): the intrusive lists and the service; ProxyInit.v,
      ProxyInitSpec.v: the set-up of the modem; ProxyMain.v: the command line; ProxySys.v: the server socket, and how a manager finds it;
      MbimProxy.v, MbimProxySpec.v (quectel-mbim-proxy.c): the MBIM multiplexer.
    - Ciphers.  Gm.v, Sm4.v, Sm3.v, GmModule.v (src/gm-test/gmalg_test/src): the block cipher, the hash and their module; Sansec.v, SansecSpec.v,
      SansecSys.v (src/gm-sansec): the driver of one card, and of all; Fm.v, FmSpec.v (src/gm-fm): the modules of the Fisherman card.

    A definition has the name of the C function it translates; a state record has the name of the C struct or of the file whose
    globals it holds.  PROJECT.json maps each definition to its lines.

    ** Interfaces

    What one part needs of another, and what lies outside the repository, is a class; the theorems are proved for every
    instance, and the witnesses use concrete ones.
    - The machine: [Host] (Util.v), the byte order; [Shifter] (Sm3.v), what the processor makes of a shift by a count out of range, with its laws
      [ShifterLaws] and [MaskingShifter]; [CharSign] (Ubus.v), whether [char] is signed; [Heap] (Compose.v), which allocations succeed.
    - Between the parts: [Modem] (QmiRequests.v), the modem and the transport, instantiated in Main.v with the device of WwanCM.v; [Calls]
      (Main.v), the requests as the main loop needs them, and [Answering] (MainRunSpec.v), that they return.
    - The peer: [Arrivals] (ProxyInit.v), what the modem sends to the multiplexer; [Env] (Mbim.v) and [Works] (MbimRun.v), what an MBIM
      device sends, and that it works; [Card] (Sansec.v); [Fmk] (Fm.v), with [Sm4Card] and [Sm3Card] for a card that does what it should.
    - The system: [Fs] (Device.v), files; [Sys] (DeviceIo.v), usbfs and ethtool; [Net] (Net.v), interfaces and commands; [Procs] (Brothers.v),
      processes; [Sockets] (ProxySys.v); [Registry] (GmModule.v); [Netlink] (IfUtils.v), with [Serving] and [Dumping] for a kernel that answers.

    ** Modelling choices

    - Undefined behaviour is [None]: an access outside a buffer, the use of freed memory, a shift the C standard does not define
      (where the code does not rely on it), a lock taken twice.  A theorem that gives a result thereby excludes it.
    - A C integer is a [Z]; each conversion and each operation that can wrap is written out ([u8], [u16], [u32], [s32]).
    - A message is the list of its bytes; the place of a field is computed from the declaration of its struct (Layout.v); a buffer on the
      stack or from [malloc] has the size the code gives it, and its first content is a parameter ([junk]) wherever the code may read it
      before writing.
    - What is done to the system is a list of calls, commands or effects in their order; what the system answers may depend on that list.
    - Threads interleave at their critical sections: QmiExchange.v has a step per section, in any order; in Mbim.v the reader thread
      runs where the main thread waits.  The multiplexers are one thread each, and the events of [poll] are an input.
    - Log lines (dbg_time, printk) are left out; the printouts of messages are modelled apart from the code that calls them.
    - The programs are those of the Makefiles with the option ENABLE_UDHCPC and with the status service; the other choice the Makefile
      has for the network, netlink, is modelled besides.

    ** Fuel

    Structural recursion where the loop allows it; elsewhere a counter that a theorem shows to be enough.
    [cond_timeout_loop] runs at most 8 slices by construction of its step; the main loops take the list of what happens to them, so
    a run is as long as its input; [parse_args] needs the number of arguments, [read_lines], [conf_lines] and [fgets] the
    length of the text, [GetTLV_loop] the length of the message; the traversal of a list in Qlist.v the number of its nodes; the loops over
    netlink messages and attributes, and over DHCP options, the bytes there are, since each step consumes some.

    ** The theorems

    - Correctness of what crosses the wire: the responses belong to their requests, requests and configurations are
      read back as they were meant (round trips), on both byte orders; a netlink message stays well formed in its buffer.
    - Protocols and schedules: the reader delivers in order and wakes the sender, the multiplexers keep the queue and the routing, a
      lost connection is dialled again until it is back, the MBIM mode connects in one pass and ends on a signal, the program in QMI mode
      ends when it is told to, a lease is obtained and configured.
    - Refinement: the intrusive ring implements lists, the cipher's key schedule and the streaming hash their reference
      definitions, the card's modules one hash and the same cipher, the printout the text of the whole message.
    - Resources: a probe takes all it needs or nothing, minor numbers and cards agree, descriptors are given back.
    - Faults: theorems that exhibit what the code does wrong (a queue stuck for good, an answer to the wrong client, a use after
      free, a lease taken from a stranger, descriptors lost at every restart); PROJECT.json lists them as findings.

    ** Not modelled

    - Code that is not compiled: the parts under [#if 0], the daemon of CONFIG_BACKGROUND_WHEN_GET_IP (main.c), dhclient and the OpenWrt
      set-up of USE_DHCLIENT and QL_OPENWER_NETWORK_SETUP (udhcpc.c), QUECTEL_MBIM_PROXY in quectel-CM, and the sample client qmi_ubus.c.
    - Log lines, the usage texts, and the printouts of the DHCP client (dump_dhcp_msg, dump_dhcp_info), which are only printed.
    - Test modules of gm-test, headers of the vendors of the cards and of the kernel (fm_def.h, fm_cpc_kpub.h, fm_cpc_pub.h, ethtool-copy.h),
      fmsgd.h, which declares a program that is not here, and njmon, which is another project's program carried as a patch.
    - Shell, Lua, Makefiles, configuration, and the strongSwan patches.
    - What runs at the same time within a critical section: threads are interleaved at critical sections only, and locks other than those
      named above are taken to work. *)
From Stdlib Require Export ZArith Lia.
From stdpp Require Export base tactics option list list_numbers numbers strings gmap.
#[local] Open Scope Z_scope.

(** ** Machine words.  A C integer of width w is a [Z]; wrap-around is written out. *)
Definition u8 (x : Z) : Z := x mod 2 ^ 8.
Definition u16 (x : Z) : Z := x mod 2 ^ 16.
Definition u32 (x : Z) : Z := x mod 2 ^ 32.
Definition s32 (x : Z) : Z := let y := x mod 2 ^ 32 in if y <? 2 ^ 31 then y else y - 2 ^ 32.

Definition is_byte (b : Z) : Prop := 0 <= b < 256.
Definition is_u16 (x : Z) : Prop := 0 <= x < 2 ^ 16.
Definition is_u32 (x : Z) : Prop := 0 <= x < 2 ^ 32.

Declare Scope c_scope.
Delimit Scope c_scope with c.
Notation "x .& y" := (Z.land x y) (at level 40, left associativity) : c_scope.
Notation "x .| y" := (Z.lor x y) (at level 44, left associativity) : c_scope.
Notation "x .^ y" := (Z.lxor x y) (at level 42, left associativity) : c_scope.
Notation "x .<< n" := (Z.shiftl x n) (at level 39, left associativity) : c_scope.
Notation "x .>> n" := (Z.shiftr x n) (at level 39, left associativity) : c_scope.

(** ** Bitwise lemmas *)
Lemma bits_above (n a : Z) : 0 <= n -> 0 <= a < 2 ^ n -> forall i, n <= i -> Z.testbit a i = false.
Proof.
  intros Hn [Ha1 Ha2] i Hi. rewrite <- (Z.mod_small a (2 ^ n)) by lia.
  apply Z.mod_pow2_bits_high; lia.
Qed.

Lemma range_of_bits (n a : Z) :
  0 <= n -> (forall i, n <= i -> Z.testbit a i = false) -> 0 <= a < 2 ^ n.
Proof.
  intros Hn H. assert (E : a = a mod 2 ^ n).
  { apply Z.bits_inj'. intros i Hi. rewrite Z.testbit_mod_pow2 by lia.
    destruct (Z.ltb_spec i n); simpl; [done | apply H; lia]. }
  rewrite E. apply Z.mod_pos_bound. lia.
Qed.

Section BitRange.
Context (n a b : Z) (Hn : 0 <= n) (Ha : 0 <= a < 2 ^ n) (Hb : 0 <= b < 2 ^ n).

Lemma lxor_range : 0 <= Z.lxor a b < 2 ^ n.
Proof.
  apply range_of_bits; [done|]. intros i Hi.
  by rewrite Z.lxor_spec, !(bits_above n) by done.
Qed.

Lemma lor_range : 0 <= Z.lor a b < 2 ^ n.
Proof.
  apply range_of_bits; [done|]. intros i Hi.
  by rewrite Z.lor_spec, !(bits_above n) by done.
Qed.
End BitRange.

Lemma land_range (n a b : Z) : 0 <= n -> 0 <= b < 2 ^ n -> 0 <= Z.land a b < 2 ^ n.
Proof.
  intros Hn Hb. apply range_of_bits; [done|]. intros i Hi.
  rewrite Z.land_spec, (bits_above n b) by done. apply andb_false_r.
Qed.

(** Equalities between and/or/xor combinations, one bit at a time. *)
Ltac bitwise :=
  apply Z.bits_inj'; intros ?i ?Hi; rewrite ?Z.lxor_spec, ?Z.lor_spec, ?Z.land_spec;
  repeat match goal with
  | |- context [Z.testbit ?a ?i] => destruct (Z.testbit a i)
  end; reflexivity.

(** Disjoint bit fields: the C idiom [(hi << k) | lo] is a sum. *)
Lemma lor_shiftl_add (a b k : Z) : 0 <= k -> 0 <= b < 2 ^ k -> Z.lor (Z.shiftl a k) b = a * 2 ^ k + b.
Proof.
  intros Hk Hb. rewrite <- Z.add_nocarry_lor.
  { by rewrite Z.shiftl_mul_pow2. }
  apply Z.bits_inj'. intros i Hi. rewrite Z.land_spec, Z.bits_0.
  destruct (Z.lt_ge_cases i k).
  - by rewrite Z.shiftl_spec_low.
  - rewrite (bits_above k b) by done. apply andb_false_r.
Qed.

Lemma land_ff (a : Z) : Z.land a 255 = a mod 256.
Proof. change 255 with (Z.ones 8). by rewrite Z.land_ones. Qed.

Lemma land_ffffffff (a : Z) : Z.land a 4294967295 = a mod 2 ^ 32.
Proof. change 4294967295 with (Z.ones 32). by rewrite Z.land_ones. Qed.

Lemma u8_range x : is_byte (u8 x).
Proof. unfold is_byte, u8. apply Z.mod_pos_bound. lia. Qed.
Lemma u16_range x : is_u16 (u16 x).
Proof. apply Z.mod_pos_bound. lia. Qed.
Lemma u32_range x : is_u32 (u32 x).
Proof. apply Z.mod_pos_bound. lia. Qed.
Lemma u8_id x : is_byte x -> u8 x = x.
Proof. apply Z.mod_small. Qed.
Lemma u16_id x : is_u16 x -> u16 x = x.
Proof. apply Z.mod_small. Qed.
Lemma u32_id x : is_u32 x -> u32 x = x.
Proof. apply Z.mod_small. Qed.

Create HintDb words.
Create Rewrite HintDb wordsr.
Create Rewrite HintDb zlen.
#[export] Hint Resolve u8_range u16_range u32_range : words.
#[export] Hint Rewrite u8_id u16_id u32_id using (auto with words) : wordsr.

Lemma lxor_u32 a b : is_u32 a -> is_u32 b -> is_u32 (Z.lxor a b).
Proof. by apply lxor_range. Qed.
Lemma lor_u32 a b : is_u32 a -> is_u32 b -> is_u32 (Z.lor a b).
Proof. by apply lor_range. Qed.
Lemma shiftr_u32 a n : 0 <= n -> is_u32 a -> is_u32 (Z.shiftr a n).
Proof.
  intros Hn [H1 H2]. rewrite Z.shiftr_div_pow2 by done. split.
  - apply Z.div_pos; lia.
  - apply Z.le_lt_trans with a; [|done]. apply Z.div_le_upper_bound; nia.
Qed.
#[export] Hint Resolve lxor_u32 lor_u32 shiftr_u32 : words.

(** ** Memory.  A C buffer is the list of its bytes.  [None] is undefined behaviour:
    an access outside the buffer.  Offsets are [Z], as C's arithmetic computes them. *)
Abbreviation bytes := (list Z).
Definition zlen {A} (l : list A) : Z := Z.of_nat (length l).

Definition ld (m : bytes) (i : Z) : option Z :=
  if 0 <=? i then m !! Z.to_nat i else None.
Definition lds (m : bytes) (i n : Z) : option bytes :=
  if (0 <=? i) && (0 <=? n) && (i + n <=? zlen m)
  then Some (take (Z.to_nat n) (drop (Z.to_nat i) m)) else None.
Definition st (m : bytes) (i v : Z) : option bytes :=
  if (0 <=? i) && (i <? zlen m) then Some (<[Z.to_nat i := v]> m) else None.
Definition sts (m : bytes) (i : Z) (bs : bytes) : option bytes :=
  if (0 <=? i) && (i + zlen bs <=? zlen m)
  then Some (take (Z.to_nat i) m ++ bs ++ drop (Z.to_nat i + length bs) m) else None.

Lemma zlen_app {A} (l k : list A) : zlen (l ++ k) = zlen l + zlen k.
Proof. unfold zlen. rewrite length_app. lia. Qed.
Lemma zlen_cons {A} (x : A) l : zlen (x :: l) = 1 + zlen l.
Proof. unfold zlen. simpl. lia. Qed.
Lemma zlen_nil {A} : zlen (@nil A) = 0.
Proof. done. Qed.
Lemma zlen_replicate {A} n (x : A) : zlen (replicate n x) = Z.of_nat n.
Proof. unfold zlen. by rewrite length_replicate. Qed.
Lemma zlen_nonneg {A} (l : list A) : 0 <= zlen l.
Proof. unfold zlen. lia. Qed.
#[export] Hint Rewrite @zlen_app @zlen_cons @zlen_nil @zlen_replicate : zlen.
(** Linear arithmetic with division and modulo by constants. *)
Ltac zdm := Z.to_euclidean_division_equations; lia.
Ltac zlens := autorewrite with zlen in *.

(** Splits a boolean guard into its propositional cases and lets [lia] discard the
    impossible ones. *)
Ltac guards :=
  repeat match goal with
  | |- context [?a <=? ?b] => destruct (Z.leb_spec a b)
  | |- context [?a <? ?b] => destruct (Z.ltb_spec a b)
  | |- context [?a =? ?b] => destruct (Z.eqb_spec a b)
  end; simpl; try lia; try done.

Lemma lds_app (p bs s : bytes) i n :
  i = zlen p -> n = zlen bs -> lds (p ++ bs ++ s) i n = Some bs.
Proof.
  intros -> ->. unfold lds. zlens. pose proof (zlen_nonneg p). pose proof (zlen_nonneg bs).
  pose proof (zlen_nonneg s). guards. unfold zlen. rewrite !Nat2Z.id.
  by rewrite drop_app_length, take_app_length.
Qed.

Lemma lds_app_0 (bs s : bytes) n : n = zlen bs -> lds (bs ++ s) 0 n = Some bs.
Proof. intros ->. by apply (lds_app []). Qed.

Lemma ld_app (p : bytes) b s i : i = zlen p -> ld (p ++ b :: s) i = Some b.
Proof.
  intros ->. unfold ld, zlen. guards. rewrite Nat2Z.id. by apply list_lookup_middle.
Qed.

Lemma sts_app (p old bs s : bytes) i :
  i = zlen p -> zlen old = zlen bs -> sts (p ++ old ++ s) i bs = Some (p ++ bs ++ s).
Proof.
  intros -> Hl. unfold sts. zlens. pose proof (zlen_nonneg p). pose proof (zlen_nonneg s).
  guards. unfold zlen in *. rewrite Nat2Z.id, take_app_length.
  rewrite drop_app_ge by lia. rewrite drop_app_ge by lia.
  do 3 f_equal. by replace (_ - _ - _)%nat with 0%nat by lia.
Qed.

(** Loads after a store: of what was stored, and of what was not touched. *)
Lemma sts_app_inv m i bs m' : sts m i bs = Some m' ->
  exists p old s, m = p ++ old ++ s /\ m' = p ++ bs ++ s /\ zlen p = i /\ zlen old = zlen bs.
Proof.
  unfold sts. destruct (0 <=? i) eqn:E1; [|done]. destruct (i + zlen bs <=? zlen m) eqn:E2; [|done].
  simpl. intros [= <-]. apply Z.leb_le in E1, E2. unfold zlen in *.
  exists (take (Z.to_nat i) m), (take (length bs) (drop (Z.to_nat i) m)), (drop (Z.to_nat i + length bs) m). split_and!.
  - by rewrite <- drop_drop, take_drop, take_drop.
  - done.
  - rewrite length_take. lia.
  - rewrite length_take, length_drop. lia.
Qed.
Lemma lds_sts_same m i bs m' : sts m i bs = Some m' -> lds m' i (zlen bs) = Some bs.
Proof. intros (p & old & s & -> & -> & <- & _)%sts_app_inv. by apply lds_app. Qed.
Lemma lds_sts_other m i bs m' j n :
  sts m i bs = Some m' -> j + n <= i \/ i + zlen bs <= j -> lds m' j n = lds m j n.
Proof.
  intros (p & old & s & -> & -> & <- & Ho)%sts_app_inv Hj. unfold lds. zlens. rewrite Ho.
  destruct (Z.leb_spec 0 j); [|done]. destruct (Z.leb_spec 0 n); [|done]. cbn [andb].
  destruct (Z.leb_spec (j + n) (zlen p + (zlen bs + zlen s))); [|done]. cbn [andb]. f_equal.
  unfold zlen in *. destruct Hj as [Hj|Hj].
  - rewrite !drop_app_le, !take_app_le by (rewrite ?length_drop; lia). done.
  - rewrite !(app_assoc p), !(drop_app_ge (p ++ _)) by (rewrite length_app; lia). rewrite !length_app. by rewrite <- (Nat2Z.inj _ _ Ho).
Qed.

Lemma sts_length m i bs m' : sts m i bs = Some m' -> zlen m' = zlen m.
Proof.
  unfold sts. destruct (0 <=? i) eqn:E1; [|done]. destruct (i + zlen bs <=? zlen m) eqn:E2; [|done].
  simpl. intros [= <-]. apply Z.leb_le in E1, E2. unfold zlen in *.
  rewrite !length_app, length_take, length_drop. lia.
Qed.

Lemma sts_defined m i bs : 0 <= i -> i + zlen bs <= zlen m -> is_Some (sts m i bs).
Proof. intros. unfold sts. guards. Qed.

Lemma lds_defined m i n : 0 <= i -> 0 <= n -> i + n <= zlen m -> is_Some (lds m i n).
Proof. intros. unfold lds. guards. Qed.

Lemma ld_defined m i : 0 <= i < zlen m -> is_Some (ld m i).
Proof.
  intros. unfold ld. guards. apply lookup_lt_is_Some_2. unfold zlen in *. lia.
Qed.

Lemma lds_zlen m i n bs : lds m i n = Some bs -> zlen bs = n.
Proof.
  unfold lds. destruct (0 <=? i) eqn:E1; [|done]. destruct (0 <=? n) eqn:E3; [|done].
  destruct (i + n <=? zlen m) eqn:E2; [|done].
  simpl. intros [= <-]. apply Z.leb_le in E1, E2, E3. unfold zlen in *.
  rewrite length_take, length_drop. lia.
Qed.

(** Loads inside a range already loaded. *)
Lemma lds_sub m i n v j k :
  lds m i n = Some v -> 0 <= j -> 0 <= k -> j + k <= n ->
  lds m (i + j) k = Some (take (Z.to_nat k) (drop (Z.to_nat j) v)).
Proof.
  unfold lds. destruct (0 <=? i) eqn:E1; [|done]. destruct (0 <=? n) eqn:E3; [|done].
  destruct (i + n <=? zlen m) eqn:E2; [|done]. simpl. intros [= <-] Hj Hk Hn. apply Z.leb_le in E1, E2, E3.
  guards. f_equal. rewrite Z2Nat.inj_add, <- drop_drop by lia.
  set (l := drop _ m). replace (Z.to_nat n) with (Z.to_nat j + (Z.to_nat n - Z.to_nat j))%nat by lia.
  rewrite <- take_drop_commute, take_take. f_equal. lia.
Qed.

Lemma lds_ld m i n v j b : lds m i n = Some v -> v !! j = Some b -> ld m (i + Z.of_nat j) = Some b.
Proof.
  unfold lds, ld. destruct (0 <=? i) eqn:E1; [|done]. destruct (0 <=? n) eqn:E3; [|done].
  destruct (i + n <=? zlen m) eqn:E2; [|done]. simpl. intros [= <-] H. apply Z.leb_le in E1.
  guards. rewrite Z2Nat.inj_add, Nat2Z.id by lia.
  apply lookup_take_Some in H as [H _]. by rewrite lookup_drop in H.
Qed.

(** ** Lists *)
Lemma foldl_ext {A B} (f g : A -> B -> A) a l : (forall a b, f a b = g a b) -> foldl f a l = foldl g a l.
Proof. intros H. revert a. induction l as [|b l IH]; intros a; simpl; [done | by rewrite H]. Qed.

Lemma foldl_inv {A B} (P : A -> Prop) (f : A -> B -> A) a l :
  P a -> (forall a b, P a -> P (f a b)) -> P (foldl f a l).
Proof. intros Ha Hf. revert a Ha. induction l as [|b l IH]; intros a Ha; simpl; auto. Qed.

(** A load that succeeds still does when the buffer is longer. *)
Lemma lds_mono m e i n bs : lds m i n = Some bs -> lds (m ++ e) i n = Some bs.
Proof.
  unfold lds. destruct (0 <=? i) eqn:E1; [|done]. destruct (0 <=? n) eqn:E2; [|done].
  destruct (i + n <=? zlen m) eqn:E3; [|done]. simpl. intros [= <-].
  apply Z.leb_le in E1, E2, E3. rewrite zlen_app. pose proof (zlen_nonneg e).
  rewrite (proj2 (Z.leb_le _ _)) by lia. unfold zlen in *.
  rewrite drop_app_le by lia. rewrite take_app_le; [done|]. rewrite length_drop. lia.
Qed.

(** ** Filling a zeroed buffer.  A buffer under construction is [p ++ replicate n 0]: the bytes
    written so far and the zeros that follow. *)
Lemma sts_zeros p bs n i :
  i = zlen p -> (length bs <= n)%nat ->
  sts (p ++ replicate n 0) i bs = Some ((p ++ bs) ++ replicate (n - length bs) 0).
Proof.
  intros -> Hn. replace n with (length bs + (n - length bs))%nat at 1 by lia.
  rewrite replicate_add, sts_app by (unfold zlen; rewrite ?length_replicate; done).
  by rewrite <- app_assoc.
Qed.

Lemma sts_zeros_gap p bs n k i :
  i = zlen p + Z.of_nat k -> (k + length bs <= n)%nat ->
  sts (p ++ replicate n 0) i bs = Some ((p ++ replicate k 0 ++ bs) ++ replicate (n - k - length bs) 0).
Proof.
  intros -> Hn. replace n with (k + (n - k))%nat at 1 by lia.
  rewrite replicate_add, (app_assoc p), sts_zeros by (rewrite ?zlen_app, ?zlen_replicate; lia).
  by rewrite <- (app_assoc p).
Qed.

(** A store inside the first part of a buffer. *)
Lemma sts_prefix h s i bs h' : sts h i bs = Some h' -> sts (h ++ s) i bs = Some (h' ++ s).
Proof.
  unfold sts. destruct (0 <=? i) eqn:E1; [|done]. destruct (i + zlen bs <=? zlen h) eqn:E2; [|done].
  simpl. intros [= <-]. apply Z.leb_le in E1, E2. rewrite zlen_app. pose proof (zlen_nonneg s).
  rewrite (proj2 (Z.leb_le _ _)) by lia. unfold zlen in *.
  rewrite take_app_le, drop_app_le by lia. by rewrite <- !app_assoc.
Qed.

(** ** Record update.  [s <| f := x |>] is the record [s] with the field [f] replaced; a record type declares how it
    is rebuilt from its fields ([Eta]) and each field that changes gets its setter. *)
Class Eta (R : Type) : Type := eta : R -> R.
Class Setter {R T : Type} (f : R -> T) : Type := set_field : T -> R -> R.
Arguments set_field {R T} f {_} _ _ /.
Ltac derive_setter :=
  match goal with |- @Setter ?R ?T ?f =>
    let i := constr:(_ : Eta R) in
    let x := fresh "x" in let s := fresh "s" in
    unfold Setter; intros x s;
    let b := eval hnf in (i s) in
    match eval pattern (f s) in b with ?g _ => let r := eval cbv beta in (g x) in exact r end
  end.
Notation "s <| f := x |>" := (set_field f x s) (at level 1, left associativity, f at next level).
