(* ===== verification/Gm.v ===== *)
(** * The macros sm3.c and sm4.c share: big-endian 32-bit loads and stores.
    Both files define [GET_ULONG_BE] and [PUT_ULONG_BE] with the same text
    (sm4.c 19-37, sm3.c 21-39).  The arrays they index have a fixed size and every
    index is a constant or a bounded loop counter, so lookups are total ([!!!]). *)
From S2P Require Import Prelude.
#[local] Open Scope Z_scope.
#[local] Open Scope c_scope.

(** [GET_ULONG_BE(n,b,i)]: the casts to [unsigned int] keep each shifted byte in range. *)
Definition GET_ULONG_BE (b : bytes) (i : nat) : Z :=
  u32 ((b !!! i) .<< 24) .| u32 ((b !!! (i + 1)%nat) .<< 16)
  .| u32 ((b !!! (i + 2)%nat) .<< 8) .| u32 (b !!! (i + 3)%nat).

(** [PUT_ULONG_BE(n,b,i)]: four truncating byte stores. *)
Definition PUT_ULONG_BE (n : Z) (b : bytes) (i : nat) : bytes :=
  <[(i + 3)%nat := u8 n]> (<[(i + 2)%nat := u8 (n .>> 8)]>
  (<[(i + 1)%nat := u8 (n .>> 16)]> (<[i := u8 (n .>> 24)]> b))).

(** The value four bytes denote, and the bytes of a word. *)
Definition word_of (b0 b1 b2 b3 : Z) : Z := b0 * 2 ^ 24 + b1 * 2 ^ 16 + b2 * 2 ^ 8 + b3.
Definition word_bytes (n : Z) : bytes := [u8 (n .>> 24); u8 (n .>> 16); u8 (n .>> 8); u8 n].

Lemma be_word_sum b0 b1 b2 b3 :
  is_byte b0 -> is_byte b1 -> is_byte b2 -> is_byte b3 ->
  u32 (b0 .<< 24) .| u32 (b1 .<< 16) .| u32 (b2 .<< 8) .| u32 b3 = word_of b0 b1 b2 b3.
Proof.
  unfold is_byte, word_of. intros H0 H1 H2 H3.
  rewrite !u32_id by (unfold is_u32; rewrite ?Z.shiftl_mul_pow2 by lia; lia).
  rewrite <- !Z.lor_assoc.
  rewrite (lor_shiftl_add b2) by lia.
  rewrite (lor_shiftl_add b1) by lia.
  rewrite (lor_shiftl_add b0) by lia. lia.
Qed.

Lemma GET_ULONG_BE_app p b0 b1 b2 b3 s i :
  i = length p ->
  is_byte b0 -> is_byte b1 -> is_byte b2 -> is_byte b3 ->
  GET_ULONG_BE (p ++ b0 :: b1 :: b2 :: b3 :: s) i = word_of b0 b1 b2 b3.
Proof.
  intros -> H0 H1 H2 H3. rewrite <- be_word_sum by done. unfold GET_ULONG_BE.
  assert (E : forall k, (p ++ b0 :: b1 :: b2 :: b3 :: s) !!! (length p + k)%nat
            = (b0 :: b1 :: b2 :: b3 :: s) !!! k).
  { intros k. rewrite lookup_total_app_r by lia. f_equal. lia. }
  rewrite !E. by rewrite <- (Nat.add_0_r (length p)) at 1; rewrite E.
Qed.

Lemma PUT_ULONG_BE_app n p a0 a1 a2 a3 s i :
  i = length p ->
  PUT_ULONG_BE n (p ++ a0 :: a1 :: a2 :: a3 :: s) i = p ++ word_bytes n ++ s.
Proof.
  intros ->. unfold PUT_ULONG_BE, word_bytes.
  rewrite <- (Nat.add_0_r (length p)) at 4.
  by rewrite !insert_app_r.
Qed.

Lemma word_of_range b0 b1 b2 b3 :
  is_byte b0 -> is_byte b1 -> is_byte b2 -> is_byte b3 -> is_u32 (word_of b0 b1 b2 b3).
Proof. unfold is_byte, word_of, is_u32. lia. Qed.

Lemma word_bytes_of_word b0 b1 b2 b3 :
  is_byte b0 -> is_byte b1 -> is_byte b2 -> is_byte b3 ->
  word_bytes (word_of b0 b1 b2 b3) = [b0; b1; b2; b3].
Proof.
  unfold is_byte, word_bytes, word_of, u8. intros.
  rewrite !Z.shiftr_div_pow2 by lia. change (2 ^ 24) with 16777216; change (2 ^ 16) with 65536; change (2 ^ 8) with 256.
  repeat f_equal; zdm.
Qed.

Lemma word_bytes_spec n :
  exists b0 b1 b2 b3, word_bytes n = [b0; b1; b2; b3] /\
    is_byte b0 /\ is_byte b1 /\ is_byte b2 /\ is_byte b3 /\
    (is_u32 n -> word_of b0 b1 b2 b3 = n).
Proof.
  unfold word_bytes. do 4 eexists. split; [done|].
  do 4 (split; [apply u8_range|]). unfold is_u32, word_of, u8. intros H.
  rewrite !Z.shiftr_div_pow2 by lia.
  change (2 ^ 24) with 16777216; change (2 ^ 16) with 65536; change (2 ^ 8) with 256. zdm.
Qed.

(** Storing a word and loading it back gives the word. *)
Lemma GET_PUT_ULONG_BE n p a0 a1 a2 a3 s i :
  is_u32 n -> i = length p ->
  GET_ULONG_BE (PUT_ULONG_BE n (p ++ a0 :: a1 :: a2 :: a3 :: s) i) i = n.
Proof.
  intros Hn ->. rewrite PUT_ULONG_BE_app by done.
  destruct (word_bytes_spec n) as (b0 & b1 & b2 & b3 & -> & ? & ? & ? & ? & <-); [|done].
  by apply GET_ULONG_BE_app.
Qed.
