(* ===== verification/Sm4.v ===== *)
(** * sm4.c: the SM4 block cipher of the gmalg kernel module.
    [SboxTable], [sm4Sbox], [sm4Lt], [sm4F], [sm4CalciRK], [sm4_setkey],
    [sm4_one_round], [sm4_setkey_vpn], [sm4_set_key], [sm4_encrypt] and [sm4_decrypt]
    carry the names of the source.  The key schedule and the round loop fill arrays as the
    code does; [spec_round] and [spec_keys] are the recurrence of the standard, and
    the refinement lemmas relate the two. *)
From S2P Require Import Prelude Gm.
#[local] Open Scope Z_scope.
#[local] Open Scope c_scope.

Definition SHL (x n : Z) : Z := u32 ((x .& 4294967295) .<< n).
Definition ROTL (x n : Z) : Z := SHL x n .| (x .>> (32 - n)).

Definition SboxTable : list Z := [
  0xd6;0x90;0xe9;0xfe;0xcc;0xe1;0x3d;0xb7;0x16;0xb6;0x14;0xc2;0x28;0xfb;0x2c;0x05;
  0x2b;0x67;0x9a;0x76;0x2a;0xbe;0x04;0xc3;0xaa;0x44;0x13;0x26;0x49;0x86;0x06;0x99;
  0x9c;0x42;0x50;0xf4;0x91;0xef;0x98;0x7a;0x33;0x54;0x0b;0x43;0xed;0xcf;0xac;0x62;
  0xe4;0xb3;0x1c;0xa9;0xc9;0x08;0xe8;0x95;0x80;0xdf;0x94;0xfa;0x75;0x8f;0x3f;0xa6;
  0x47;0x07;0xa7;0xfc;0xf3;0x73;0x17;0xba;0x83;0x59;0x3c;0x19;0xe6;0x85;0x4f;0xa8;
  0x68;0x6b;0x81;0xb2;0x71;0x64;0xda;0x8b;0xf8;0xeb;0x0f;0x4b;0x70;0x56;0x9d;0x35;
  0x1e;0x24;0x0e;0x5e;0x63;0x58;0xd1;0xa2;0x25;0x22;0x7c;0x3b;0x01;0x21;0x78;0x87;
  0xd4;0x00;0x46;0x57;0x9f;0xd3;0x27;0x52;0x4c;0x36;0x02;0xe7;0xa0;0xc4;0xc8;0x9e;
  0xea;0xbf;0x8a;0xd2;0x40;0xc7;0x38;0xb5;0xa3;0xf7;0xf2;0xce;0xf9;0x61;0x15;0xa1;
  0xe0;0xae;0x5d;0xa4;0x9b;0x34;0x1a;0x55;0xad;0x93;0x32;0x30;0xf5;0x8c;0xb1;0xe3;
  0x1d;0xf6;0xe2;0x2e;0x82;0x66;0xca;0x60;0xc0;0x29;0x23;0xab;0x0d;0x53;0x4e;0x6f;
  0xd5;0xdb;0x37;0x45;0xde;0xfd;0x8e;0x2f;0x03;0xff;0x6a;0x72;0x6d;0x6c;0x5b;0x51;
  0x8d;0x1b;0xaf;0x92;0xbb;0xdd;0xbc;0x7f;0x11;0xd9;0x5c;0x41;0x1f;0x10;0x5a;0xd8;
  0x0a;0xc1;0x31;0x88;0xa5;0xcd;0x7b;0xbd;0x2d;0x74;0xd0;0x12;0xb8;0xe5;0xb4;0xb0;
  0x89;0x69;0x97;0x4a;0x0c;0x96;0x77;0x7e;0x65;0xb9;0xf1;0x09;0xc5;0x6e;0xc6;0x84;
  0x18;0xf0;0x7d;0xec;0x3a;0xdc;0x4d;0x20;0x79;0xee;0x5f;0x3e;0xd7;0xcb;0x39;0x48].

Definition FK : list Z := [0xa3b1bac6; 0x56aa3350; 0x677d9197; 0xb27022dc].

Definition CK : list Z := [
  0x00070e15;0x1c232a31;0x383f464d;0x545b6269;
  0x70777e85;0x8c939aa1;0xa8afb6bd;0xc4cbd2d9;
  0xe0e7eef5;0xfc030a11;0x181f262d;0x343b4249;
  0x50575e65;0x6c737a81;0x888f969d;0xa4abb2b9;
  0xc0c7ced5;0xdce3eaf1;0xf8ff060d;0x141b2229;
  0x30373e45;0x4c535a61;0x686f767d;0x848b9299;
  0xa0a7aeb5;0xbcc3cad1;0xd8dfe6ed;0xf4fb0209;
  0x10171e25;0x2c333a41;0x484f565d;0x646b7279].

Definition sm4Sbox (inch : Z) : Z := SboxTable !!! Z.to_nat inch.

(** The byte-wise substitution [sm4Lt] and [sm4CalciRK] both start with. *)
Definition sbox_word (ka : Z) : Z :=
  let a := PUT_ULONG_BE ka (replicate 4 0) 0 in
  let b := [sm4Sbox (a !!! 0%nat); sm4Sbox (a !!! 1%nat);
            sm4Sbox (a !!! 2%nat); sm4Sbox (a !!! 3%nat)] in
  GET_ULONG_BE b 0.

Definition sm4Lt (ka : Z) : Z :=
  let bb := sbox_word ka in
  bb .^ ROTL bb 2 .^ ROTL bb 10 .^ ROTL bb 18 .^ ROTL bb 24.

Definition sm4F (x0 x1 x2 x3 rk : Z) : Z := x0 .^ sm4Lt (x1 .^ x2 .^ x3 .^ rk).

Definition sm4CalciRK (ka : Z) : Z :=
  let bb := sbox_word ka in
  bb .^ ROTL bb 13 .^ ROTL bb 23.

(** Loop body of [sm4_setkey] on the arrays [k[36]] and [SK[32]]. *)
Definition setkey_body (s : list Z * list Z) (i : nat) : list Z * list Z :=
  let '(k, SK) := s in
  let k := <[(i + 4)%nat := (k !!! i) .^
      sm4CalciRK ((k !!! (i + 1)%nat) .^ (k !!! (i + 2)%nat) .^ (k !!! (i + 3)%nat) .^ (CK !!! i))]> k in
  (k, <[i := k !!! (i + 4)%nat]> SK).

(** [k] is uninitialised on entry: [k0] is its arbitrary content. *)
Definition sm4_setkey (k0 SK : list Z) (key : bytes) : list Z :=
  let MK := [GET_ULONG_BE key 0; GET_ULONG_BE key 4; GET_ULONG_BE key 8; GET_ULONG_BE key 12] in
  let k := <[3%nat := (MK !!! 3%nat) .^ (FK !!! 3%nat)]>
          (<[2%nat := (MK !!! 2%nat) .^ (FK !!! 2%nat)]>
          (<[1%nat := (MK !!! 1%nat) .^ (FK !!! 1%nat)]>
          (<[0%nat := (MK !!! 0%nat) .^ (FK !!! 0%nat)]> k0))) in
  snd (foldl setkey_body (k, SK) (seq 0 32)).

Definition round_body (sk : list Z) (ulbuf : list Z) (i : nat) : list Z :=
  <[(i + 4)%nat := sm4F (ulbuf !!! i) (ulbuf !!! (i + 1)%nat) (ulbuf !!! (i + 2)%nat)
                     (ulbuf !!! (i + 3)%nat) (sk !!! i)]> ulbuf.

Definition sm4_one_round (sk : list Z) (input output : bytes) : bytes :=
  let ulbuf := replicate 36 0 in
  let ulbuf := <[0%nat := GET_ULONG_BE input 0]> ulbuf in
  let ulbuf := <[1%nat := GET_ULONG_BE input 4]> ulbuf in
  let ulbuf := <[2%nat := GET_ULONG_BE input 8]> ulbuf in
  let ulbuf := <[3%nat := GET_ULONG_BE input 12]> ulbuf in
  let ulbuf := foldl (round_body sk) ulbuf (seq 0 32) in
  let output := PUT_ULONG_BE (ulbuf !!! 35%nat) output 0 in
  let output := PUT_ULONG_BE (ulbuf !!! 34%nat) output 4 in
  let output := PUT_ULONG_BE (ulbuf !!! 33%nat) output 8 in
  PUT_ULONG_BE (ulbuf !!! 32%nat) output 12.

Record vpn_sm4_ctx := { sk_enc : list Z; sk_dec : list Z }.

(** [SWAP(a[i], a[j])] *)
Definition SWAP (a : list Z) (i j : nat) : list Z :=
  let t := a !!! i in <[j := t]> (<[i := a !!! j]> a).

Definition sm4_setkey_vpn (k0 : list Z) (ctx : vpn_sm4_ctx) (key : bytes) : vpn_sm4_ctx :=
  let enc := sm4_setkey k0 (sk_enc ctx) key in
  {| sk_enc := enc;
     sk_dec := foldl (fun dec i => SWAP dec i (31 - i)) enc (seq 0 16) |}.

Definition sm4_set_key (k0 : list Z) (ctx : vpn_sm4_ctx) (in_key : bytes) (key_len : Z)
  : Z * vpn_sm4_ctx :=
  if negb (key_len =? 16) then (-1, ctx)
  else (0, sm4_setkey_vpn k0 ctx in_key).

Definition sm4_encrypt (ctx : vpn_sm4_ctx) (out inp : bytes) : bytes :=
  sm4_one_round (sk_enc ctx) inp out.
Definition sm4_decrypt (ctx : vpn_sm4_ctx) (out inp : bytes) : bytes :=
  sm4_one_round (sk_dec ctx) inp out.

(** ** The standard's recurrence *)
Definition quad : Type := Z * Z * Z * Z.
Definition spec_round (x : quad) (rk : Z) : quad :=
  let '(x0, x1, x2, x3) := x in (x1, x2, x3, sm4F x0 x1 x2 x3 rk).
Definition rev_quad (x : quad) : quad := let '(x0, x1, x2, x3) := x in (x3, x2, x1, x0).
Definition quad_u32 (x : quad) : Prop :=
  let '(x0, x1, x2, x3) := x in is_u32 x0 /\ is_u32 x1 /\ is_u32 x2 /\ is_u32 x3.

(** The first four words of a 16-byte block, and its inverse. *)
Definition quad_of (b : bytes) : quad :=
  (GET_ULONG_BE b 0, GET_ULONG_BE b 4, GET_ULONG_BE b 8, GET_ULONG_BE b 12).
Definition quad_bytes (x : quad) : bytes :=
  let '(x0, x1, x2, x3) := x in word_bytes x0 ++ word_bytes x1 ++ word_bytes x2 ++ word_bytes x3.

(** SM4 on a block with the round keys [rks]: 32 rounds, then the reverse transform. *)
Definition spec_crypt (rks : list Z) (b : bytes) : bytes :=
  quad_bytes (rev_quad (foldl spec_round (quad_of b) rks)).

(** The round keys of the standard: K_{i+4} = K_i xor T'(K_{i+1} xor K_{i+2} xor K_{i+3} xor CK_i). *)
Fixpoint spec_keys (x : quad) (cks : list Z) : list Z :=
  match cks with
  | [] => []
  | ck :: cks =>
      let '(k0, k1, k2, k3) := x in
      let k4 := k0 .^ sm4CalciRK (k1 .^ k2 .^ k3 .^ ck) in
      k4 :: spec_keys (k1, k2, k3, k4) cks
  end.

(** ** The array loops compute the recurrence *)
Section ArrayLoop.
Context (g : nat -> Z -> Z -> Z -> Z -> Z).
Let body (l : list Z) (i : nat) : list Z :=
  <[(i + 4)%nat := g i (l !!! i) (l !!! (i + 1)%nat) (l !!! (i + 2)%nat) (l !!! (i + 3)%nat)]> l.
Let step (x : quad) (i : nat) : quad :=
  let '(x0, x1, x2, x3) := x in (x1, x2, x3, g i x0 x1 x2 x3).
Let window (l : list Z) (i : nat) : quad :=
  (l !!! i, l !!! (i + 1)%nat, l !!! (i + 2)%nat, l !!! (i + 3)%nat).

Lemma array_loop_window n i l :
  (i + n + 4 <= length l)%nat ->
  window (foldl body l (seq i n)) (i + n) = foldl step (window l i) (seq i n).
Proof.
  revert i l. induction n as [|n IH]; intros i l Hl; simpl.
  - by rewrite Nat.add_0_r.
  - replace (i + S n)%nat with (S i + n)%nat by lia.
    rewrite IH by (unfold body; rewrite length_insert; lia).
    f_equal. unfold window, body, step.
    replace (S i + 1)%nat with (i + 2)%nat by lia.
    replace (S i + 2)%nat with (i + 3)%nat by lia.
    replace (S i + 3)%nat with (i + 4)%nat by lia.
    replace (S i) with (i + 1)%nat by lia.
    rewrite list_lookup_total_insert_eq by lia.
    by rewrite !list_lookup_total_insert_ne by lia.
Qed.

Lemma array_loop_length n i l : length (foldl body l (seq i n)) = length l.
Proof.
  revert i l. induction n as [|n IH]; intros i l; simpl; [done|].
  rewrite IH. apply length_insert.
Qed.
End ArrayLoop.

Lemma foldl_keys_seq (f : quad -> Z -> quad) (pre ks : list Z) x :
  foldl (fun x i => f x ((pre ++ ks) !!! i)) x (seq (length pre) (length ks)) = foldl f x ks.
Proof.
  revert pre x. induction ks as [|k ks IH]; intros pre x; [done|]. simpl.
  rewrite list_lookup_total_middle by done.
  specialize (IH (pre ++ [k]) (f x k)). rewrite <- app_assoc, length_app in IH. simpl in IH.
  by rewrite Nat.add_1_r in IH.
Qed.

Lemma ROTL_u32 x n : 0 <= n <= 32 -> is_u32 x -> is_u32 (ROTL x n).
Proof. intros. unfold ROTL, SHL. apply lor_u32; [apply u32_range | apply shiftr_u32; [lia | done]]. Qed.
#[export] Hint Resolve ROTL_u32 : words.

Lemma GET_ULONG_BE_u32 b i : is_u32 (GET_ULONG_BE b i).
Proof. unfold GET_ULONG_BE. auto 6 with words. Qed.
#[export] Hint Resolve GET_ULONG_BE_u32 : words.

Lemma sm4Lt_u32 ka : is_u32 (sm4Lt ka).
Proof.
  unfold sm4Lt, sbox_word. cbv zeta.
  repeat (apply lxor_u32 || apply ROTL_u32); lia || apply GET_ULONG_BE_u32.
Qed.

Lemma sm4F_u32 x0 x1 x2 x3 rk : is_u32 x0 -> is_u32 (sm4F x0 x1 x2 x3 rk).
Proof. intros. apply lxor_u32; [done | apply sm4Lt_u32]. Qed.

(** A block is its bytes: the shape every 16-byte array has. *)
Lemma block16 (b : bytes) :
  length b = 16%nat ->
  exists a0 a1 a2 a3 a4 a5 a6 a7 a8 a9 a10 a11 a12 a13 a14 a15,
    b = [a0; a1; a2; a3; a4; a5; a6; a7; a8; a9; a10; a11; a12; a13; a14; a15].
Proof.
  intros H. do 16 (destruct b as [|? b]; [done|]). destruct b; [|done].
  by repeat eexists.
Qed.

Lemma put_block (out : bytes) w0 w1 w2 w3 :
  length out = 16%nat ->
  PUT_ULONG_BE w3 (PUT_ULONG_BE w2 (PUT_ULONG_BE w1 (PUT_ULONG_BE w0 out 0) 4) 8) 12
  = quad_bytes (w0, w1, w2, w3).
Proof.
  intros H. destruct (block16 out H) as (?&?&?&?&?&?&?&?&?&?&?&?&?&?&?&?&->).
  reflexivity.
Qed.

Lemma quad_of_block a0 a1 a2 a3 a4 a5 a6 a7 a8 a9 a10 a11 a12 a13 a14 a15 :
  let b := [a0; a1; a2; a3; a4; a5; a6; a7; a8; a9; a10; a11; a12; a13; a14; a15] in
  Forall is_byte b ->
  quad_of b = (word_of a0 a1 a2 a3, word_of a4 a5 a6 a7, word_of a8 a9 a10 a11, word_of a12 a13 a14 a15).
Proof.
  intros b Hb. unfold b in *. rewrite !Forall_cons in Hb. destruct_and!. unfold quad_of.
  repeat f_equal.
  - by apply (GET_ULONG_BE_app []).
  - by apply (GET_ULONG_BE_app [a0; a1; a2; a3]).
  - by apply (GET_ULONG_BE_app [a0; a1; a2; a3; a4; a5; a6; a7]).
  - by apply (GET_ULONG_BE_app [a0; a1; a2; a3; a4; a5; a6; a7; a8; a9; a10; a11]).
Qed.

Lemma quad_of_bytes x : quad_u32 x -> quad_of (quad_bytes x) = x.
Proof.
  destruct x as [[[x0 x1] x2] x3]. intros (H0 & H1 & H2 & H3). unfold quad_bytes.
  destruct (word_bytes_spec x0) as (a0 & a1 & a2 & a3 & -> & ? & ? & ? & ? & E0).
  destruct (word_bytes_spec x1) as (b0 & b1 & b2 & b3 & -> & ? & ? & ? & ? & E1).
  destruct (word_bytes_spec x2) as (c0 & c1 & c2 & c3 & -> & ? & ? & ? & ? & E2).
  destruct (word_bytes_spec x3) as (d0 & d1 & d2 & d3 & -> & ? & ? & ? & ? & E3).
  simpl. rewrite quad_of_block by (repeat (apply Forall_cons_2; [done|]); constructor).
  by rewrite E0, E1, E2, E3.
Qed.

Lemma quad_bytes_of b : length b = 16%nat -> Forall is_byte b -> quad_bytes (quad_of b) = b.
Proof.
  intros H Hb. destruct (block16 b H) as (?&?&?&?&?&?&?&?&?&?&?&?&?&?&?&?&->).
  rewrite quad_of_block by done. rewrite !Forall_cons in Hb. destruct_and!.
  unfold quad_bytes. by rewrite !word_bytes_of_word by done.
Qed.

Lemma quad_of_u32 b : quad_u32 (quad_of b).
Proof. repeat split; apply GET_ULONG_BE_u32. Qed.

Lemma spec_rounds_u32 rks x : quad_u32 x -> quad_u32 (foldl spec_round x rks).
Proof.
  revert x. induction rks as [|rk rks IH]; intros x Hx; [done|]. simpl. apply IH.
  destruct x as [[[x0 x1] x2] x3]. destruct Hx as (? & ? & ? & ?).
  repeat split; try (apply sm4F_u32; done); unfold is_u32 in *; lia.
Qed.

(** The code's 32-iteration array loop is the standard's cipher. *)
Lemma sm4_one_round_refines sk inp out :
  length sk = 32%nat -> length out = 16%nat ->
  sm4_one_round sk inp out = spec_crypt sk inp.
Proof.
  intros Hsk Hout. unfold sm4_one_round, spec_crypt. rewrite put_block by done.
  set (u0 := <[3%nat := GET_ULONG_BE inp 12]> _).
  pose proof (array_loop_window (fun i a b c d => sm4F a b c d (sk !!! i)) 32 0 u0) as L.
  simpl (0 + 32)%nat in L. specialize (L ltac:(done)).
  change (foldl (round_body sk) u0 (seq 0 32)) with
    (foldl (fun l i => <[(i + 4)%nat := sm4F (l !!! i) (l !!! (i + 1)%nat) (l !!! (i + 2)%nat)
                       (l !!! (i + 3)%nat) (sk !!! i)]> l) u0 (seq 0 32)).
  set (u := foldl _ u0 (seq 0 32)) in *.
  assert (E : (u !!! 32%nat, u !!! 33%nat, u !!! 34%nat, u !!! 35%nat)
              = foldl spec_round (quad_of inp) sk).
  { etransitivity; [exact L|]. etransitivity; [|exact (foldl_keys_seq spec_round [] sk (quad_of inp))].
    simpl length. rewrite Hsk. apply foldl_ext. by intros [[[? ?] ?] ?] i. }
  by rewrite <- E.
Qed.

(** ** Decryption runs the same recurrence backwards *)
Lemma spec_round_undo x rk : spec_round (rev_quad (spec_round x rk)) rk = rev_quad x.
Proof.
  destruct x as [[[x0 x1] x2] x3]. unfold spec_round, rev_quad, sm4F.
  replace (x3 .^ x2 .^ x1 .^ rk) with (x1 .^ x2 .^ x3 .^ rk) by bitwise.
  by rewrite Z.lxor_assoc, Z.lxor_nilpotent, Z.lxor_0_r.
Qed.

Lemma spec_rounds_undo rks x :
  foldl spec_round (rev_quad (foldl spec_round x rks)) (reverse rks) = rev_quad x.
Proof.
  revert x. induction rks as [|rk rks IH]; intros x; [done|]. simpl.
  rewrite reverse_cons, foldl_app, IH. simpl. apply spec_round_undo.
Qed.

Lemma spec_crypt_undo rks b :
  length b = 16%nat -> Forall is_byte b ->
  spec_crypt (reverse rks) (spec_crypt rks b) = b.
Proof.
  intros Hl Hb. unfold spec_crypt at 1. unfold spec_crypt. rewrite quad_of_bytes.
  2:{ pose proof (spec_rounds_u32 rks (quad_of b) (quad_of_u32 b)) as H.
      destruct (foldl _ _ rks) as [[[? ?] ?] ?]. by destruct H as (? & ? & ? & ?). }
  rewrite spec_rounds_undo.
  replace (rev_quad (rev_quad (quad_of b))) with (quad_of b) by done.
  by apply quad_bytes_of.
Qed.

(** ** The key schedule *)
Lemma setkey_loop_keys n i (k SK : list Z) :
  (i + n + 4 <= length k)%nat -> (i + n <= length SK)%nat -> (i + n <= 32)%nat ->
  snd (foldl setkey_body (k, SK) (seq i n)) =
  take i SK ++ spec_keys (k !!! i, k !!! (i + 1)%nat, k !!! (i + 2)%nat, k !!! (i + 3)%nat)
                 (take n (drop i CK)) ++ drop (i + n) SK.
Proof.
  revert i k SK. induction n as [|n IH]; intros i k SK Hk HS Hi.
  - simpl. by rewrite Nat.add_0_r, take_drop.
  - rewrite <- cons_seq. simpl foldl. rewrite IH by (rewrite ?length_insert; lia).
    rewrite list_lookup_total_insert_eq by lia.
    destruct (lookup_lt_is_Some_2 CK i) as [ck Hck]; [simpl; lia|].
    rewrite (list_lookup_total_correct _ _ _ Hck). set (k4 := (k !!! i) .^ _).
    rewrite (drop_S CK ck i Hck). simpl take at 2. simpl spec_keys.
    rewrite take_S_r with (x := k4) by (apply list_lookup_insert_eq; lia).
    rewrite take_insert_ge by lia. rewrite <- app_assoc. f_equal. simpl app.
    replace (i + S n)%nat with (S (i + n)) by lia.
    rewrite drop_insert_lt by lia.
    fold k4. f_equal.
    replace (S (i + 1))%nat with (i + 2)%nat by lia.
    replace (S (i + 2))%nat with (i + 3)%nat by lia.
    replace (S (i + 3))%nat with (i + 4)%nat by lia.
    rewrite list_lookup_total_insert_eq by lia.
    rewrite !list_lookup_total_insert_ne by lia.
    by replace (S i) with (i + 1)%nat by lia.
Qed.

(** The standard's round keys for a 16-byte user key. *)
Definition spec_round_keys (key : bytes) : list Z :=
  let '(m0, m1, m2, m3) := quad_of key in
  spec_keys (m0 .^ FK !!! 0%nat, m1 .^ FK !!! 1%nat, m2 .^ FK !!! 2%nat, m3 .^ FK !!! 3%nat) CK.

Lemma sm4_setkey_spec k0 SK key :
  length k0 = 36%nat -> length SK = 32%nat -> sm4_setkey k0 SK key = spec_round_keys key.
Proof.
  intros Hk HS. unfold sm4_setkey. cbv zeta.
  rewrite setkey_loop_keys by (rewrite ?length_insert; lia).
  rewrite (drop_ge SK) by lia. rewrite app_nil_r. change (take 0 SK) with (@nil Z). rewrite app_nil_l.
  rewrite drop_0, (take_ge CK) by (simpl; lia).
  unfold spec_round_keys, quad_of. f_equal. simpl (0 + _)%nat.
  do 36 (destruct k0 as [|? k0]; [done|]). reflexivity.
Qed.

Lemma spec_keys_length x cks : length (spec_keys x cks) = length cks.
Proof.
  revert x. induction cks as [|ck cks IH]; intros [[[k0 k1] k2] k3]; simpl; [done | by rewrite IH].
Qed.

Lemma spec_round_keys_length key : length (spec_round_keys key) = 32%nat.
Proof. unfold spec_round_keys, quad_of. apply spec_keys_length. Qed.

(** The sixteen swaps reverse the round keys. *)
Lemma swaps_reverse enc :
  length enc = 32%nat ->
  foldl (fun dec i => SWAP dec i (31 - i)) enc (seq 0 16) = reverse enc.
Proof.
  intros H. do 32 (destruct enc as [|? enc]; [done|]). destruct enc; [|done]. reflexivity.
Qed.

Lemma sm4_setkey_vpn_spec k0 ctx key :
  length k0 = 36%nat -> length (sk_enc ctx) = 32%nat ->
  sm4_setkey_vpn k0 ctx key =
  {| sk_enc := spec_round_keys key; sk_dec := reverse (spec_round_keys key) |}.
Proof.
  intros Hk Hc. unfold sm4_setkey_vpn. cbv zeta.
  rewrite sm4_setkey_spec by done. by rewrite swaps_reverse by apply spec_round_keys_length.
Qed.

(** The contexts the kernel hands out: both key arrays have 32 words. *)
Definition ctx_wf (ctx : vpn_sm4_ctx) : Prop := length (sk_enc ctx) = 32%nat /\ length (sk_dec ctx) = 32%nat.

(** ** Theorems *)

(** C5: after [sm4_set_key] accepts a key, whatever the uninitialised scratch array [k0], the
    old context and the output buffers held, [sm4_decrypt] inverts [sm4_encrypt] on every
    16-byte block. *)
Theorem sm4_decrypt_encrypt k0 ctx0 ctx key key_len blk out1 out2 :
  length k0 = 36%nat -> ctx_wf ctx0 ->
  sm4_set_key k0 ctx0 key key_len = (0, ctx) ->
  length blk = 16%nat -> Forall is_byte blk -> length out1 = 16%nat -> length out2 = 16%nat ->
  sm4_decrypt ctx out2 (sm4_encrypt ctx out1 blk) = blk.
Proof.
  intros Hk [Hc _] Hset Hl Hb H1 H2. unfold sm4_set_key in Hset.
  destruct (key_len =? 16); [|done]. simpl in Hset. injection Hset as <-.
  rewrite sm4_setkey_vpn_spec by done. unfold sm4_decrypt, sm4_encrypt. cbn [sk_enc sk_dec].
  rewrite !sm4_one_round_refines by (rewrite ?length_reverse, ?spec_round_keys_length; done).
  by apply spec_crypt_undo.
Qed.

(** The key and plaintext of the standard's example (also in sm4_test.c). *)
Definition sm4_sample : bytes :=
  [0x01;0x23;0x45;0x67;0x89;0xab;0xcd;0xef;0xfe;0xdc;0xba;0x98;0x76;0x54;0x32;0x10].
Definition ctx_zero : vpn_sm4_ctx := {| sk_enc := replicate 32 0; sk_dec := replicate 32 0 |}.

Theorem sm4_decrypt_encrypt_witness :
  exists ctx, sm4_set_key (replicate 36 7) ctx_zero sm4_sample 16 = (0, ctx) /\
    sm4_decrypt ctx (replicate 16 9) (sm4_encrypt ctx (replicate 16 9) sm4_sample) = sm4_sample.
Proof.
  eexists. split; [vm_compute; reflexivity|].
  apply (sm4_decrypt_encrypt (replicate 36 7) ctx_zero _ sm4_sample 16).
  - reflexivity.
  - split; reflexivity.
  - vm_compute; reflexivity.
  - reflexivity.
  - repeat (apply Forall_cons_2; [split; [apply Z.leb_le | apply Z.ltb_lt]; reflexivity|]).
    apply Forall_nil_2.
  - reflexivity.
  - reflexivity.
Defined.

(** [sm4_set_key] accepts exactly the 16-byte keys: any other length returns -1 and leaves
    the context alone; on success encryption is the standard's cipher under the standard's
    key schedule, decryption the same cipher with the round keys reversed. *)
Theorem sm4_set_key_refines k0 ctx key key_len :
  length k0 = 36%nat -> ctx_wf ctx ->
  match sm4_set_key k0 ctx key key_len with
  | (r, ctx') =>
      (key_len <> 16 -> r = -1 /\ ctx' = ctx) /\
      (key_len = 16 -> r = 0 /\ ctx_wf ctx' /\
         forall out blk, length out = 16%nat ->
           sm4_encrypt ctx' out blk = spec_crypt (spec_round_keys key) blk /\
           sm4_decrypt ctx' out blk = spec_crypt (reverse (spec_round_keys key)) blk)
  end.
Proof.
  intros Hk [Hc Hd]. unfold sm4_set_key. destruct (Z.eqb_spec key_len 16) as [->|Hne]; cbn [negb].
  - split; [done|]. intros _. rewrite sm4_setkey_vpn_spec by done.
    split; [done|]. unfold ctx_wf. cbn [sk_enc sk_dec]. rewrite length_reverse, spec_round_keys_length.
    split; [done|]. intros out blk Hout. unfold sm4_encrypt, sm4_decrypt. cbn [sk_enc sk_dec].
    by rewrite !sm4_one_round_refines
      by (rewrite ?length_reverse, ?spec_round_keys_length; done).
  - done.
Qed.

Theorem sm4_set_key_refines_witness :
  spec_crypt (spec_round_keys sm4_sample) sm4_sample =
    [0x68;0x1e;0xdf;0x34;0xd2;0x06;0x96;0x5e;0x86;0xb3;0xe9;0x4f;0x53;0x6e;0x42;0x46] /\
  sm4_encrypt (snd (sm4_set_key (replicate 36 0) ctx_zero sm4_sample 16)) (replicate 16 0) sm4_sample
  = spec_crypt (spec_round_keys sm4_sample) sm4_sample /\
  sm4_set_key (replicate 36 0) ctx_zero sm4_sample 24 = (-1, ctx_zero).
Proof.
  pose proof (sm4_set_key_refines (replicate 36 0) ctx_zero sm4_sample 16 eq_refl
    (conj eq_refl eq_refl)) as H.
  pose proof (sm4_set_key_refines (replicate 36 0) ctx_zero sm4_sample 24 eq_refl
    (conj eq_refl eq_refl)) as H'.
  split; [vm_compute; reflexivity|].
  destruct (sm4_set_key _ _ _ 16) as [r ctx']. destruct H as [_ H].
  split.
  - destruct (H eq_refl) as (_ & _ & H1). exact (proj1 (H1 (replicate 16 0) sm4_sample eq_refl)).
  - destruct (sm4_set_key _ _ _ 24) as [r' ctx'']. destruct H' as [H' _].
    destruct (H' ltac:(lia)) as [-> ->]. reflexivity.
Defined.

(** The S-box is a permutation of the bytes. *)
Lemma sbox_nodup : NoDup SboxTable /\ length SboxTable = 256%nat.
Proof. split; [|reflexivity]. apply (bool_decide_unpack _). vm_compute. exact I. Qed.

Lemma sbox_bytes : Forall is_byte SboxTable.
Proof.
  assert (H : forallb (fun b => (0 <=? b) && (b <? 256)) SboxTable = true) by reflexivity.
  apply Forall_forall. intros b Hb. apply list_elem_of_In in Hb.
  rewrite forallb_forall in H. apply H in Hb. unfold is_byte. lia.
Qed.

(** The S-box lookup of the source is a permutation of the byte values: it stays in the
    table (no out-of-bounds read), returns a byte, and never maps two bytes to the same one. *)
Theorem sm4Sbox_permutation a b :
  is_byte a -> is_byte b ->
  is_byte (sm4Sbox a) /\ SboxTable !! Z.to_nat a = Some (sm4Sbox a) /\
  (sm4Sbox a = sm4Sbox b -> a = b).
Proof.
  unfold is_byte at 1 2. intros Ha Hb. destruct sbox_nodup as [Hnd Hlen].
  assert (La : SboxTable !! Z.to_nat a = Some (sm4Sbox a))
    by (apply list_lookup_lookup_total_lt; lia).
  assert (Lb : SboxTable !! Z.to_nat b = Some (sm4Sbox b))
    by (apply list_lookup_lookup_total_lt; lia).
  split; [|split; [done|]].
  - pose proof sbox_bytes as F. rewrite Forall_lookup in F. by eapply F.
  - intros E. rewrite <- E in Lb. pose proof (NoDup_lookup _ _ _ _ Hnd La Lb). lia.
Qed.

Theorem sm4Sbox_permutation_witness : sm4Sbox 0 = 0xd6 /\ sm4Sbox 255 = 0x48 /\ is_byte (sm4Sbox 0).
Proof.
  split; [reflexivity|]. split; [reflexivity|].
  apply (sm4Sbox_permutation 0 255); split; lia.
Defined.
