(* ===== verification/Sm3.v ===== *)
(** * sm3.c: the SM3 hash of the gmalg kernel module.
    [sm3_starts], [sm3_process], [sm3_update], [sm3_finish] and [sm3_finup] carry the names of the
    source.  The source rotates the round constant by the round number, so the counts of its
    C shifts leave the range 0..31: what such a shift yields is the
    machine's business, and the model takes the shifter as the class [Shifter].
    [spec_hash] is the standard's definition (padding, message expansion, compression) on
    whole messages; the streaming code is proved equal to it on every split of the message. *)
From S2P Require Import Prelude Gm.
#[local] Open Scope Z_scope.
#[local] Open Scope c_scope.

(** ** 32-bit shifts *)

(** [x << n] and [x >> n] on [unsigned int].  C fixes them for counts in 0..31 only. *)
Class Shifter : Type := { shl : Z -> Z -> Z; shr : Z -> Z -> Z }.
Class ShifterLaws (sh : Shifter) : Prop := {
  shl_in : forall x n, 0 <= n < 32 -> shl x n = u32 (x .<< n);
  shr_in : forall x n, 0 <= n < 32 -> shr x n = x .>> n }.
(** A machine that uses only the low five bits of the count (x86, MIPS). *)
Class MaskingShifter (sh : Shifter) : Prop := {
  shl_mask : forall x n, shl x n = shl x (n mod 32);
  shr_mask : forall x n, shr x n = shr x (n mod 32) }.

#[export] Instance x86_shifter : Shifter :=
  {| shl x n := u32 (x .<< (n mod 32)); shr x n := x .>> (n mod 32) |}.
#[export] Instance x86_laws : ShifterLaws x86_shifter.
Proof. split; intros x n H; cbn; by rewrite Z.mod_small. Qed.
#[export] Instance x86_masking : MaskingShifter x86_shifter.
Proof. split; intros x n; cbn; by rewrite Z.mod_mod. Qed.

(** A machine that uses the low eight bits and saturates (32-bit ARM register shifts). *)
Definition arm_shifter : Shifter :=
  {| shl x n := if n mod 256 <? 32 then u32 (x .<< (n mod 256)) else 0;
     shr x n := if n mod 256 <? 32 then x .>> (n mod 256) else 0 |}.
Lemma arm_laws : ShifterLaws arm_shifter.
Proof. split; intros x n H; cbn; rewrite Z.mod_small by lia; guards. Qed.

(** ** The code *)
Record vpn_sm3_ctx := { total0 : Z; total1 : Z; state : list Z; buffer : bytes }.

Definition sm3_starts (ctx : vpn_sm3_ctx) : vpn_sm3_ctx :=
  {| total0 := 0; total1 := 0;
     state := [0x7380166F; 0x4914B2B9; 0x172442D7; 0xDA8A0600;
               0xA96F30BC; 0x163138AA; 0xE38DEE4D; 0xB0FB0E4E];
     buffer := buffer ctx |}.

Definition FF0 (x y z : Z) : Z := x .^ y .^ z.
Definition FF1 (x y z : Z) : Z := (x .& y) .| (x .& z) .| (y .& z).
Definition GG0 (x y z : Z) : Z := x .^ y .^ z.
Definition GG1 (x y z : Z) : Z := (x .& y) .| (u32 (Z.lnot x) .& z).

Section Code.
Context {sh : Shifter}.

Definition SHL (x n : Z) : Z := shl (x .& 0xFFFFFFFF) n.
Definition ROTL (x n : Z) : Z := SHL x n .| shr x (32 - n).
Definition P0 (x : Z) : Z := x .^ ROTL x 9 .^ ROTL x 17.
Definition P1 (x : Z) : Z := x .^ ROTL x 15 .^ ROTL x 23.

(** Body of the expansion loop.  [W] holds the words written so far, so writing [W[j]] at
    [j = length W] appends. *)
Definition expand_body (W : list Z) (j : nat) : list Z :=
  let Temp1 := W !!! (j - 16)%nat .^ W !!! (j - 9)%nat in
  let Temp2 := ROTL (W !!! (j - 3)%nat) 15 in
  let Temp3 := Temp1 .^ Temp2 in
  let Temp4 := P1 Temp3 in
  let Temp5 := ROTL (W !!! (j - 13)%nat) 7 .^ W !!! (j - 6)%nat in
  W ++ [Temp4 .^ Temp5].

(** The registers A..H. *)
Definition regs : Type := Z * Z * Z * Z * Z * Z * Z * Z.

(** Body of the two round loops; [FF], [GG] are the functions the loop uses. *)
Definition round_body (FF GG : Z -> Z -> Z -> Z) (T W W1 : list Z) (r : regs) (j : nat) : regs :=
  let '(A, B, C, D, E, F, G, H) := r in
  let SS1 := ROTL (u32 (ROTL A 12 + E + ROTL (T !!! j) (Z.of_nat j))) 7 in
  let SS2 := SS1 .^ ROTL A 12 in
  let TT1 := u32 (FF A B C + D + SS2 + W1 !!! j) in
  let TT2 := u32 (GG E F G + H + SS1 + W !!! j) in
  (TT1, A, ROTL B 9, C, P0 TT2, E, ROTL F 19, G).

Definition sm3_process (ctx : vpn_sm3_ctx) (data : bytes) : vpn_sm3_ctx :=
  let T := replicate 16 0x79CC4519 ++ replicate 48 0x7A879D8A in
  let W := (fun i => GET_ULONG_BE data (4 * i)) <$> seq 0 16 in
  let W := foldl expand_body W (seq 16 52) in
  let W1 := (fun j => W !!! j .^ W !!! (j + 4)%nat) <$> seq 0 64 in
  let s := state ctx in
  let r0 := (s !!! 0%nat, s !!! 1%nat, s !!! 2%nat, s !!! 3%nat,
             s !!! 4%nat, s !!! 5%nat, s !!! 6%nat, s !!! 7%nat) in
  let r1 := foldl (round_body FF0 GG0 T W W1) r0 (seq 0 16) in
  let '(A, B, C, D, E, F, G, H) := foldl (round_body FF1 GG1 T W W1) r1 (seq 16 48) in
  {| total0 := total0 ctx; total1 := total1 ctx;
     state := [s !!! 0%nat .^ A; s !!! 1%nat .^ B; s !!! 2%nat .^ C; s !!! 3%nat .^ D;
               s !!! 4%nat .^ E; s !!! 5%nat .^ F; s !!! 6%nat .^ G; s !!! 7%nat .^ H];
     buffer := buffer ctx |}.

(** [while (ilen >= 64)]: the input pointer is the offset [pos]. *)
Fixpoint block_loop (fuel : nat) (ctx : vpn_sm3_ctx) (input : bytes) (pos ilen : Z)
  : option (vpn_sm3_ctx * Z * Z) :=
  match fuel with
  | O => None
  | S fuel =>
      if 64 <=? ilen then
        data ← lds input pos 64;
        block_loop fuel (sm3_process ctx data) input (pos + 64) (ilen - 64)
      else Some (ctx, pos, ilen)
  end.

(** [memcpy(ctx->buffer + left, bs, ...)] *)
Definition buffer_store (ctx : vpn_sm3_ctx) (left : Z) (bs : bytes) : option vpn_sm3_ctx :=
  b ← sts (buffer ctx) left bs;
  Some {| total0 := total0 ctx; total1 := total1 ctx; state := state ctx; buffer := b |}.

(** [sm3_update] after the counters: [left] bytes are buffered. *)
Definition update_data (ctx : vpn_sm3_ctx) (left : Z) (input : bytes) (ilen : Z) : option vpn_sm3_ctx :=
  let fill := 64 - left in
  '(ctx, pos, ilen, left) ←
    (if negb (left =? 0) && (fill <=? ilen) then
       bs ← lds input 0 fill;
       ctx ← buffer_store ctx left bs;
       Some (sm3_process ctx (buffer ctx), fill, ilen - fill, 0)
     else Some (ctx, 0, ilen, left));
  '(ctx, pos, ilen) ← block_loop (S (Z.to_nat (ilen / 64))) ctx input pos ilen;
  if 0 <? ilen then bs ← lds input pos ilen; buffer_store ctx left bs else Some ctx.

Definition sm3_update (ctx : vpn_sm3_ctx) (input : bytes) (ilen : Z) : option (Z * vpn_sm3_ctx) :=
  if ilen <=? 0 then Some (-1, ctx) else
  let left := total0 ctx .& 0x3F in
  let t0 := u32 (total0 ctx + ilen) .& 0xFFFFFFFF in
  let t1 := if t0 <? ilen then u32 (total1 ctx + 1) else total1 ctx in
  let ctx := {| total0 := t0; total1 := t1; state := state ctx; buffer := buffer ctx |} in
  ctx ← update_data ctx left input ilen;
  Some (0, ctx).

Definition sm3_padding : bytes := 0x80 :: replicate 63 0.

(** The digest is the byte string written to [output]. *)
Definition sm3_finish (ctx : vpn_sm3_ctx) : option (Z * vpn_sm3_ctx * bytes) :=
  let high := (total0 ctx .>> 29) .| u32 (total1 ctx .<< 3) in
  let low := u32 (total0 ctx .<< 3) in
  let msglen := PUT_ULONG_BE low (PUT_ULONG_BE high (replicate 8 0) 0) 4 in
  let last := total0 ctx .& 0x3F in
  let padn := if last <? 56 then 56 - last else 120 - last in
  '(_, ctx) ← sm3_update ctx sm3_padding padn;
  '(_, ctx) ← sm3_update ctx msglen 8;
  let output := foldl (fun out i => PUT_ULONG_BE (state ctx !!! i) out (4 * i))
                      (replicate 32 0) (seq 0 8) in
  Some (0, ctx, output).

Definition sm3_finup (ctx : vpn_sm3_ctx) (data : bytes) (len : Z) : option (Z * vpn_sm3_ctx * bytes) :=
  let ctx := sm3_starts ctx in
  '(_, ctx) ← sm3_update ctx data len;
  sm3_finish ctx.
End Code.

(** ** The standard *)
Definition rotl32 (x n : Z) : Z := u32 (x .<< n) .| (x .>> (32 - n)).
Definition spec_P0 (x : Z) : Z := x .^ rotl32 x 9 .^ rotl32 x 17.
Definition spec_P1 (x : Z) : Z := x .^ rotl32 x 15 .^ rotl32 x 23.
Definition spec_T (j : nat) : Z := if (j <? 16)%nat then 0x79CC4519 else 0x7A879D8A.
Definition spec_FF (j : nat) (x y z : Z) : Z :=
  if (j <? 16)%nat then x .^ y .^ z else (x .& y) .| (x .& z) .| (y .& z).
Definition spec_GG (j : nat) (x y z : Z) : Z :=
  if (j <? 16)%nat then x .^ y .^ z else (x .& y) .| (u32 (Z.lnot x) .& z).

Definition spec_next (W : list Z) (j : nat) : Z :=
  spec_P1 (W !!! (j - 16)%nat .^ W !!! (j - 9)%nat .^ rotl32 (W !!! (j - 3)%nat) 15)
  .^ rotl32 (W !!! (j - 13)%nat) 7 .^ W !!! (j - 6)%nat.
Definition spec_expand (data : bytes) : list Z :=
  foldl (fun W j => W ++ [spec_next W j]) ((fun i => GET_ULONG_BE data (4 * i)) <$> seq 0 16) (seq 16 52).

Definition spec_round (W : list Z) (r : regs) (j : nat) : regs :=
  let '(A, B, C, D, E, F, G, H) := r in
  let SS1 := rotl32 (u32 (rotl32 A 12 + E + rotl32 (spec_T j) (Z.of_nat j mod 32))) 7 in
  let SS2 := SS1 .^ rotl32 A 12 in
  let TT1 := u32 (spec_FF j A B C + D + SS2 + (W !!! j .^ W !!! (j + 4)%nat)) in
  let TT2 := u32 (spec_GG j E F G + H + SS1 + W !!! j) in
  (TT1, A, rotl32 B 9, C, spec_P0 TT2, E, rotl32 F 19, G).

(** One application of the compression function: V' = CF(V, B). *)
Definition spec_compress (s : list Z) (data : bytes) : list Z :=
  let r0 := (s !!! 0%nat, s !!! 1%nat, s !!! 2%nat, s !!! 3%nat,
             s !!! 4%nat, s !!! 5%nat, s !!! 6%nat, s !!! 7%nat) in
  let '(A, B, C, D, E, F, G, H) := foldl (spec_round (spec_expand data)) r0 (seq 0 64) in
  [A .^ s !!! 0%nat; B .^ s !!! 1%nat; C .^ s !!! 2%nat; D .^ s !!! 3%nat;
   E .^ s !!! 4%nat; F .^ s !!! 5%nat; G .^ s !!! 6%nat; H .^ s !!! 7%nat].

Definition spec_IV : list Z :=
  [0x7380166F; 0x4914B2B9; 0x172442D7; 0xDA8A0600; 0xA96F30BC; 0x163138AA; 0xE38DEE4D; 0xB0FB0E4E].

(** Bit 1, then the least number of zero bits, then the bit length on 64 bits. *)
Definition spec_pad (msg : bytes) : bytes :=
  msg ++ 0x80 :: replicate (Z.to_nat ((55 - zlen msg) mod 64)) 0
  ++ word_bytes (8 * zlen msg / 2 ^ 32) ++ word_bytes (8 * zlen msg mod 2 ^ 32).

Fixpoint spec_absorb (n : nat) (s : list Z) (bs : bytes) : list Z :=
  match n with
  | O => s
  | S n => spec_absorb n (spec_compress s (take 64 bs)) (drop 64 bs)
  end.

Definition spec_hash (msg : bytes) : bytes :=
  let p := spec_pad msg in
  spec_absorb (length p / 64) spec_IV p ≫= word_bytes.

(** ** The compression function *)
Lemma u32_shiftl_u32 x n : 0 <= n -> u32 ((x .& 0xFFFFFFFF) .<< n) = u32 (x .<< n).
Proof.
  intros Hn. rewrite land_ffffffff, !Z.shiftl_mul_pow2 by done. unfold u32.
  by rewrite Z.mul_mod_idemp_l.
Qed.

Section Compress.
Context {sh : Shifter} {laws : ShifterLaws sh}.

Lemma ROTL_in x n : 0 < n < 32 -> ROTL x n = rotl32 x n.
Proof.
  intros Hn. unfold ROTL, SHL, rotl32. rewrite shl_in, shr_in by lia.
  by rewrite u32_shiftl_u32 by lia.
Qed.

Lemma P0_spec x : P0 x = spec_P0 x.
Proof. unfold P0, spec_P0. by rewrite !ROTL_in by lia. Qed.
Lemma P1_spec x : P1 x = spec_P1 x.
Proof. unfold P1, spec_P1. by rewrite !ROTL_in by lia. Qed.

Lemma expand_spec W j : expand_body W j = W ++ [spec_next W j].
Proof.
  unfold expand_body, spec_next. cbv zeta. rewrite P1_spec, !ROTL_in by lia.
  do 2 f_equal. bitwise.
Qed.

Context {mask : MaskingShifter sh}.

(** On a masking machine the out-of-range counts come out as the rotation by [n mod 32]. *)
Lemma ROTL_mask x n : is_u32 x -> 0 <= n -> ROTL x n = rotl32 x (n mod 32).
Proof.
  intros Hx Hn. pose proof (Z.mod_pos_bound n 32 ltac:(lia)) as Hm.
  unfold ROTL, SHL, rotl32. rewrite shl_mask, shr_mask, shl_in, shr_in by (apply Z.mod_pos_bound; lia).
  rewrite u32_shiftl_u32 by lia. destruct (Z.eq_dec (n mod 32) 0) as [E|E].
  - rewrite E. replace ((32 - n) mod 32) with 0.
    2:{ rewrite Zminus_mod, E. reflexivity. }
    rewrite Z.shiftl_0_r, Z.shiftr_0_r, u32_id, Z.lor_diag by done.
    change (32 - 0) with 32. rewrite Z.shiftr_div_pow2 by lia.
    unfold is_u32 in Hx. rewrite Z.div_small by done. by rewrite Z.lor_0_r.
  - replace ((32 - n) mod 32) with (32 - n mod 32); [done | clear -E Hn; zdm].
Qed.

Lemma T_lookup j :
  (j < 64)%nat -> (replicate 16 0x79CC4519 ++ replicate 48 0x7A879D8A) !!! j = spec_T j.
Proof.
  intros Hj. unfold spec_T. destruct (Nat.ltb_spec j 16).
  - by rewrite lookup_total_app_l, lookup_total_replicate_2
      by (rewrite ?length_replicate; lia).
  - by rewrite lookup_total_app_r, lookup_total_replicate_2
      by (rewrite ?length_replicate; lia).
Qed.

Lemma spec_T_u32 j : is_u32 (spec_T j).
Proof. unfold spec_T, is_u32. destruct (j <? 16)%nat; lia. Qed.

(** One round of either loop is the standard's round. *)
Lemma round_body_spec FF GG W r j :
  (j < 64)%nat -> FF = spec_FF j -> GG = spec_GG j ->
  round_body FF GG (replicate 16 0x79CC4519 ++ replicate 48 0x7A879D8A) W
    ((fun j => W !!! j .^ W !!! (j + 4)%nat) <$> seq 0 64) r j = spec_round W r j.
Proof.
  intros Hj -> ->. destruct r as [[[[[[[A B] C] D] E] F] G] H].
  unfold round_body, spec_round. cbv zeta. rewrite T_lookup by done.
  rewrite (ROTL_mask (spec_T j)) by (apply spec_T_u32 || lia).
  rewrite P0_spec, !ROTL_in by lia.
  rewrite (list_lookup_total_fmap _ (seq 0 64)) by (rewrite length_seq; lia).
  by rewrite lookup_total_seq_lt by lia.
Qed.

Lemma rounds_spec FF GG W r i n :
  (i + n <= 64)%nat ->
  (forall j, (i <= j < i + n)%nat -> FF = spec_FF j /\ GG = spec_GG j) ->
  foldl (round_body FF GG (replicate 16 0x79CC4519 ++ replicate 48 0x7A879D8A) W
    ((fun j => W !!! j .^ W !!! (j + 4)%nat) <$> seq 0 64)) r (seq i n)
  = foldl (spec_round W) r (seq i n).
Proof.
  revert i r. induction n as [|n IH]; intros i r Hi Hf; [done|]. rewrite <- (cons_seq n i). cbn [foldl].
  destruct (Hf i) as [? ?]; [lia|]. rewrite round_body_spec by (done || lia).
  apply IH; [lia|]. intros j Hj. apply Hf. lia.
Qed.

Lemma sm3_process_spec ctx data :
  sm3_process ctx data =
  {| total0 := total0 ctx; total1 := total1 ctx;
     state := spec_compress (state ctx) data; buffer := buffer ctx |}.
Proof.
  unfold sm3_process, spec_compress, spec_expand. cbv zeta.
  rewrite (foldl_ext expand_body (fun W j => W ++ [spec_next W j])) by apply expand_spec.
  set (W := foldl _ _ (seq 16 52)).
  rewrite (rounds_spec FF0 GG0) by (try lia; intros j Hj; unfold spec_FF, spec_GG;
    rewrite (proj2 (Nat.ltb_lt j 16)) by lia; done).
  rewrite (rounds_spec FF1 GG1) by (try lia; intros j Hj; unfold spec_FF, spec_GG;
    rewrite (proj2 (Nat.ltb_ge j 16)) by lia; done).
  rewrite <- foldl_app. change (seq 0 16 ++ seq 16 48) with (seq 0 64).
  destruct (foldl (spec_round W) _ (seq 0 64)) as [[[[[[[A B] C] D] E] F] G] H].
  f_equal. by rewrite (Z.lxor_comm A), (Z.lxor_comm B), (Z.lxor_comm C), (Z.lxor_comm D),
    (Z.lxor_comm E), (Z.lxor_comm F), (Z.lxor_comm G), (Z.lxor_comm H).
Qed.
End Compress.

(** ** Streaming *)

(** [msg] cut into whole blocks and a remainder shorter than a block. *)
Definition is_split (msg : bytes) (bs : list bytes) (r : bytes) : Prop :=
  msg = concat bs ++ r /\ Forall (fun b => length b = 64%nat) bs /\ (length r < 64)%nat.

(** The state and buffer after the bytes [msg], and the counters on top. *)
Definition holds (ctx : vpn_sm3_ctx) (msg : bytes) : Prop :=
  exists bs r, is_split msg bs r /\
    state ctx = foldl spec_compress spec_IV bs /\
    take (length r) (buffer ctx) = r /\ length (buffer ctx) = 64%nat.
Definition ctx_inv (ctx : vpn_sm3_ctx) (msg : bytes) : Prop :=
  holds ctx msg /\ total0 ctx = zlen msg mod 2 ^ 32 /\ total1 ctx = (zlen msg / 2 ^ 32) mod 2 ^ 32.

Lemma split_exists l : exists bs r, is_split l bs r.
Proof.
  remember (length l) as n eqn:E. revert l E.
  induction n as [n IH] using (well_founded_induction Nat.lt_wf_0). intros l ->.
  destruct (Nat.lt_ge_cases (length l) 64) as [H|H].
  - exists [], l. by repeat split; [constructor|].
  - destruct (IH (length (drop 64 l))) with (l := drop 64 l) as (bs & r & E & F & L);
      [rewrite length_drop; lia | done |].
    exists (take 64 l :: bs), r. split; [|split; [constructor; [rewrite length_take; lia | done] | done]].
    simpl. by rewrite <- app_assoc, <- E, take_drop.
Qed.

Lemma concat_blocks_zlen bs :
  Forall (fun b : bytes => length b = 64%nat) bs -> zlen (concat bs) = 64 * zlen bs.
Proof.
  induction 1 as [|b bs Hb _ IH]; [done|]. simpl. zlens. unfold zlen at 1. rewrite Hb. lia.
Qed.

Lemma split_zlen msg bs r : is_split msg bs r -> zlen msg = 64 * zlen bs + zlen r /\ 0 <= zlen r < 64.
Proof.
  intros (-> & F & L). zlens. rewrite concat_blocks_zlen by done. unfold zlen in *. lia.
Qed.

Definition with_state (ctx : vpn_sm3_ctx) (s : list Z) : vpn_sm3_ctx :=
  {| total0 := total0 ctx; total1 := total1 ctx; state := s; buffer := buffer ctx |}.

Section Streaming.
Context {sh : Shifter} {laws : ShifterLaws sh} {mask : MaskingShifter sh}.

(** The loop consumes exactly the whole blocks, within the fuel. *)
Lemma block_loop_spec fuel ctx p bs r pos n :
  Forall (fun b => length b = 64%nat) bs -> (length r < 64)%nat -> (length bs < fuel)%nat ->
  pos = zlen p -> n = zlen (concat bs ++ r) ->
  block_loop fuel ctx (p ++ concat bs ++ r) pos n =
  Some (with_state ctx (foldl spec_compress (state ctx) bs), pos + zlen (concat bs), zlen r).
Proof.
  intros F L. revert p ctx pos n fuel. induction F as [|b bs Hb F IH];
    intros p ctx pos n fuel Hf -> ->; (destruct fuel as [|fuel]; [simpl in Hf; lia|]); simpl in Hf |- *.
  - destruct (Z.leb_spec 64 (zlen r)); [unfold zlen in *; lia|].
    rewrite zlen_nil, Z.add_0_r. by destruct ctx.
  - rewrite <- app_assoc. zlens. destruct (Z.leb_spec 64 (zlen b + (zlen (concat bs) + zlen r))).
    2:{ unfold zlen in *. lia. }
    rewrite lds_app by (unfold zlen; lia). simpl. rewrite sm3_process_spec.
    rewrite (app_assoc p b). rewrite (IH (p ++ b)).
    + simpl. do 3 f_equal. zlens. unfold zlen in *. lia.
    + lia.
    + zlens. unfold zlen in *. lia.
    + zlens. unfold zlen in *. lia.
Qed.

(** The bytes left over go to the buffer behind the [left] ones already there. *)
Lemma tail_store ctx p r left pos :
  0 <= left -> left + zlen r < 64 -> length (buffer ctx) = 64%nat -> pos = zlen p ->
  exists b, (if 0 <? zlen r then bs ← lds (p ++ r) pos (zlen r); buffer_store ctx left bs else Some ctx)
    = Some {| total0 := total0 ctx; total1 := total1 ctx; state := state ctx; buffer := b |} /\
    length b = 64%nat /\ take (Z.to_nat left + length r) b = take (Z.to_nat left) (buffer ctx) ++ r.
Proof.
  intros H0 Hl Hb ->. destruct (Z.ltb_spec 0 (zlen r)) as [Hr|Hr].
  - pose proof (lds_app p r [] (zlen p) (zlen r) eq_refl eq_refl) as Hld. rewrite app_nil_r in Hld.
    rewrite Hld. simpl. unfold buffer_store.
    assert (Hz : zlen (buffer ctx) = 64) by (unfold zlen; lia).
    unfold sts. rewrite Hz. destruct (Z.leb_spec 0 left); [|lia].
    destruct (Z.leb_spec (left + zlen r) 64); [|lia]. simpl. eexists. split; [done|].
    unfold zlen in *. split.
    + rewrite !length_app, length_take, length_drop. lia.
    + rewrite app_assoc, take_app_length'; [done|]. rewrite length_app, length_take. lia.
  - assert (r = []) as -> by (destruct r; [done | rewrite zlen_cons in Hr; pose proof (zlen_nonneg r); lia]).
    exists (buffer ctx). split; [by destruct ctx|]. split; [done|]. simpl.
    by rewrite Nat.add_0_r, app_nil_r.
Qed.

(** The two-word byte counter: the carry test [total[0] < ilen] is exact. *)
Lemma counter_spec t0 t1 n k :
  0 <= n -> 0 < k < 2 ^ 32 -> t0 = n mod 2 ^ 32 -> t1 = (n / 2 ^ 32) mod 2 ^ 32 ->
  let t0' := u32 (t0 + k) .& 0xFFFFFFFF in
  t0' = (n + k) mod 2 ^ 32 /\
  (if t0' <? k then u32 (t1 + 1) else t1) = ((n + k) / 2 ^ 32) mod 2 ^ 32.
Proof.
  intros Hn Hk -> -> t0'. unfold t0'. rewrite land_ffffffff. unfold u32.
  rewrite Z.mod_mod by lia. change (2 ^ 32) with 4294967296 in *.
  destruct (Z.ltb_spec ((n mod 4294967296 + k) mod 4294967296) k); zdm.
Qed.

Lemma left_spec t n (r : bytes) q :
  t = n mod 2 ^ 32 -> n = 64 * q + zlen r -> 0 <= zlen r < 64 -> t .& 0x3F = zlen r.
Proof.
  intros -> -> Hr. change 0x3F with (Z.ones 6). rewrite Z.land_ones by lia.
  change (2 ^ 32) with 4294967296. change (2 ^ 6) with 64. zdm.
Qed.

(** From the loop on, the whole blocks after [p] are absorbed and the remainder is buffered
    behind [left] bytes. *)
Lemma update_tail ctx p bs r left pos n fuel :
  Forall (fun b => length b = 64%nat) bs -> (length bs < fuel)%nat ->
  0 <= left -> left + zlen r < 64 -> length (buffer ctx) = 64%nat ->
  pos = zlen p -> n = zlen (concat bs ++ r) ->
  exists b,
    ('(ctx, pos, ilen) ← block_loop fuel ctx (p ++ concat bs ++ r) pos n;
     if 0 <? ilen then bs' ← lds (p ++ concat bs ++ r) pos ilen; buffer_store ctx left bs' else Some ctx) =
    Some {| total0 := total0 ctx; total1 := total1 ctx;
            state := foldl spec_compress (state ctx) bs; buffer := b |} /\
    length b = 64%nat /\ take (Z.to_nat left + length r) b = take (Z.to_nat left) (buffer ctx) ++ r.
Proof.
  intros F Hf H0 Hl Hb -> ->.
  rewrite block_loop_spec by (done || (unfold zlen in *; lia)).
  rewrite (app_assoc p).
  destruct (tail_store (with_state ctx (foldl spec_compress (state ctx) bs)) (p ++ concat bs) r left
    (zlen p + zlen (concat bs))) as (b & Hst & Hlen & Htake); [done | done | done | by zlens |].
  exists b. cbn [mbind option_bind] in Hst |- *. rewrite Hst. by split_and!.
Qed.

Lemma loop_fuel bs (r : bytes) n :
  Forall (fun b : bytes => length b = 64%nat) bs -> n = zlen (concat bs ++ r) ->
  (length bs < S (Z.to_nat (n / 64)))%nat.
Proof.
  intros F ->. rewrite zlen_app, concat_blocks_zlen by done. pose proof (zlen_nonneg r).
  unfold zlen at 1. zdm.
Qed.

Definition same_counters (c c' : vpn_sm3_ctx) : Prop := total0 c' = total0 c /\ total1 c' = total1 c.

Lemma buffer_store_fill ctx r f :
  take (length r) (buffer ctx) = r -> length (buffer ctx) = 64%nat -> zlen f = 64 - zlen r ->
  buffer_store ctx (zlen r) f =
  Some {| total0 := total0 ctx; total1 := total1 ctx; state := state ctx; buffer := r ++ f |}.
Proof.
  intros Hbuf Hblen Hf. unfold buffer_store.
  rewrite <- (take_drop (length r) (buffer ctx)), Hbuf, <- (app_nil_r (drop (length r) (buffer ctx))).
  by rewrite sts_app, app_nil_r; [|done | unfold zlen in *; rewrite length_drop; lia].
Qed.

(** The input completes the buffered block. *)
Lemma update_data_fill ctx bs r f bs2 r2 :
  is_split (concat bs ++ r) bs r -> state ctx = foldl spec_compress spec_IV bs ->
  take (length r) (buffer ctx) = r -> length (buffer ctx) = 64%nat ->
  zlen r <> 0 -> zlen f = 64 - zlen r -> is_split (concat bs2 ++ r2) bs2 r2 ->
  let input := f ++ concat bs2 ++ r2 in
  exists ctx', update_data ctx (zlen r) input (zlen input) = Some ctx' /\
    holds ctx' ((concat bs ++ r) ++ input) /\ same_counters ctx ctx'.
Proof.
  intros (_ & F & L) Hst Hbuf Hblen Hr Hf (_ & F2 & L2) input. unfold update_data, input. cbv zeta.
  rewrite (proj2 (Z.eqb_neq _ _) Hr).
  rewrite (proj2 (Z.leb_le _ _)) by (rewrite (zlen_app f); pose proof (zlen_nonneg (concat bs2 ++ r2)); lia).
  cbn [negb andb]. rewrite (lds_app_0 f) by done. cbn [mbind option_bind app].
  rewrite (buffer_store_fill ctx r f) by done.
  cbn [mbind option_bind buffer]. rewrite sm3_process_spec. cbn [buffer state total0 total1].
  destruct (update_tail
    {| total0 := total0 ctx; total1 := total1 ctx; state := spec_compress (state ctx) (r ++ f); buffer := r ++ f |}
    f bs2 r2 0 (64 - zlen r) (zlen (f ++ concat bs2 ++ r2) - (64 - zlen r))
    (S (Z.to_nat ((zlen (f ++ concat bs2 ++ r2) - (64 - zlen r)) / 64)))) as (b & -> & Hbl & Hbt);
    try done; try (rewrite (zlen_app f); lia).
  - apply (loop_fuel bs2 r2); [done|]. rewrite (zlen_app f). lia.
  - unfold zlen. lia.
  - cbn [buffer]. rewrite length_app. unfold zlen in *. lia.
  - eexists. split; [done|]. split; [|done].
    exists (bs ++ (r ++ f) :: bs2), r2. cbn [state buffer].
    split_and!; [|by rewrite foldl_app, Hst | done | done].
    split_and!; [|apply Forall_app; split; [done|]; constructor; [|done] | done].
    + rewrite concat_app. simpl. by rewrite <- !app_assoc.
    + rewrite length_app. unfold zlen in *. lia.
Qed.

(** The input does not complete a buffered block: nothing is buffered, or it is too short. *)
Lemma update_data_direct ctx bs r bs2 r2 :
  is_split (concat bs ++ r) bs r -> state ctx = foldl spec_compress spec_IV bs ->
  take (length r) (buffer ctx) = r -> length (buffer ctx) = 64%nat ->
  is_split (concat bs2 ++ r2) bs2 r2 -> r = [] \/ (bs2 = [] /\ zlen r + zlen r2 < 64) ->
  let input := concat bs2 ++ r2 in
  exists ctx', update_data ctx (zlen r) input (zlen input) = Some ctx' /\
    holds ctx' ((concat bs ++ r) ++ input) /\ same_counters ctx ctx'.
Proof.
  intros (_ & F & L) Hst Hbuf Hblen (_ & F2 & L2) Hor input. unfold update_data, input. cbv zeta.
  replace (negb (zlen r =? 0) && (64 - zlen r <=? zlen (concat bs2 ++ r2))) with false.
  2:{ destruct Hor as [-> | [-> Hlt]]; [done|]. simpl.
      rewrite (proj2 (Z.leb_gt _ _)) by lia. by rewrite andb_false_r. }
  cbn [mbind option_bind].
  destruct (update_tail ctx [] bs2 r2 (zlen r) 0 (zlen (concat bs2 ++ r2))
    (S (Z.to_nat (zlen (concat bs2 ++ r2) / 64)))) as (b & Hu & Hbl & Hbt); try done.
  - by apply (loop_fuel bs2 r2).
  - unfold zlen; lia.
  - destruct Hor as [-> | [_ ?]]; [unfold zlen; simpl; lia | done].
  - cbn [app] in Hu. rewrite Hu. eexists. split; [done|]. split; [|done].
    destruct Hor as [-> | [-> Hlt]].
    + exists (bs ++ bs2), r2. cbn [state buffer]. split_and!; try done.
      * split_and!; [by rewrite concat_app, app_nil_r, <- app_assoc | by apply Forall_app | done].
      * by rewrite foldl_app, Hst.
    + exists bs, (r ++ r2). cbn [state buffer]. split_and!; try done.
      * split_and!; [by rewrite <- app_assoc | done | rewrite length_app; unfold zlen in *; lia].
      * unfold zlen in Hbt. rewrite Nat2Z.id, Hbuf in Hbt. by rewrite length_app.
Qed.

Lemma update_data_spec ctx bs r input :
  is_split (concat bs ++ r) bs r -> state ctx = foldl spec_compress spec_IV bs ->
  take (length r) (buffer ctx) = r -> length (buffer ctx) = 64%nat ->
  exists ctx', update_data ctx (zlen r) input (zlen input) = Some ctx' /\
    holds ctx' ((concat bs ++ r) ++ input) /\ same_counters ctx ctx'.
Proof.
  intros Hs Hst Hbuf Hblen.
  destruct (decide (r = [])) as [->|Hr].
  { destruct (split_exists input) as (bs2 & r2 & Hi). pose proof Hi as (-> & _).
    apply update_data_direct; auto. }
  assert (Hr0 : zlen r <> 0) by (destruct r; [done | rewrite zlen_cons; pose proof (zlen_nonneg r); lia]).
  destruct (Z.lt_ge_cases (zlen r + zlen input) 64) as [Hlt|Hge].
  { apply (update_data_direct ctx bs r [] input); auto.
    split_and!; [done | constructor | unfold zlen in *; lia]. }
  destruct (split_exists (drop (64 - length r) input)) as (bs2 & r2 & Hi). pose proof Hi as (E & _).
  rewrite <- (take_drop (64 - length r) input), E.
  apply update_data_fill; auto; [|by rewrite <- E].
  unfold zlen in *. destruct Hs as (_ & _ & L). rewrite length_take. lia.
Qed.

Lemma sm3_update_spec ctx msg input :
  ctx_inv ctx msg -> 0 < zlen input < 2 ^ 32 ->
  exists ctx', sm3_update ctx input (zlen input) = Some (0, ctx') /\ ctx_inv ctx' (msg ++ input).
Proof.
  intros ((bs & r & Hs & Hst & Hbuf & Hblen) & Ht0 & Ht1) Hi.
  destruct (split_zlen _ _ _ Hs) as [Hz Hr]. pose proof (left_spec _ _ _ _ Ht0 Hz Hr) as Hleft.
  pose proof Hs as (Emsg & _). rewrite Emsg in Hs.
  destruct (counter_spec _ _ _ _ (zlen_nonneg _) Hi Ht0 Ht1) as [Hc0 Hc1].
  unfold sm3_update. destruct (Z.leb_spec (zlen input) 0); [lia|]. rewrite Hleft. cbv zeta.
  rewrite Hc1, Hc0.
  edestruct update_data_spec as (ctx' & -> & Hh & Hc & Hc'); [exact Hs | | | |].
  4:{ eexists. split; [reflexivity|]. split; [by rewrite Emsg|].
      rewrite Hc, Hc'. cbn [total0 total1]. by rewrite zlen_app. }
  all: done.
Qed.

(** *** Padding and the digest *)
Lemma block_loop_mono fuel ctx input e pos n res :
  block_loop fuel ctx input pos n = Some res -> block_loop fuel ctx (input ++ e) pos n = Some res.
Proof.
  revert ctx pos n. induction fuel as [|fuel IH]; intros ctx pos n; simpl; [done|].
  destruct (64 <=? n); [|done]. destruct (lds input pos 64) as [d|] eqn:E; [|done].
  rewrite (lds_mono _ _ _ _ _ E). simpl. apply IH.
Qed.

Lemma update_data_mono ctx left input e n res :
  update_data ctx left input n = Some res -> update_data ctx left (input ++ e) n = Some res.
Proof.
  assert (T : forall c p i l, (if 0 <? i then bs ← lds input p i; buffer_store c l bs else Some c) = Some res ->
    (if 0 <? i then bs ← lds (input ++ e) p i; buffer_store c l bs else Some c) = Some res).
  { intros c p i l. destruct (0 <? i); [|done]. destruct (lds input p i) as [d|] eqn:E; [|done].
    by rewrite (lds_mono _ _ _ _ _ E). }
  unfold update_data. cbv zeta. destruct (negb (left =? 0) && (64 - left <=? n)).
  - destruct (lds input 0 (64 - left)) as [d|] eqn:E; [|done]. rewrite (lds_mono _ _ _ _ _ E).
    cbn [mbind option_bind]. destruct (buffer_store ctx left d) as [c|]; [|done]. cbn [mbind option_bind].
    destruct (block_loop _ _ input _ _) as [[[c' p'] i']|] eqn:E2; [|done].
    rewrite (block_loop_mono _ _ _ e _ _ _ E2). apply T.
  - cbn [mbind option_bind].
    destruct (block_loop _ _ input _ _) as [[[c' p'] i']|] eqn:E2; [|done].
    rewrite (block_loop_mono _ _ _ e _ _ _ E2). apply T.
Qed.

(** [sm3_update] reads only the [ilen] bytes it is told of. *)
Lemma sm3_update_prefix ctx msg input e :
  ctx_inv ctx msg -> 0 < zlen input < 2 ^ 32 ->
  exists ctx', sm3_update ctx (input ++ e) (zlen input) = Some (0, ctx') /\ ctx_inv ctx' (msg ++ input).
Proof.
  intros Hc Hi. destruct (sm3_update_spec ctx msg input Hc Hi) as (ctx' & Hu & Hc').
  exists ctx'. split; [|done]. revert Hu. unfold sm3_update.
  destruct (zlen input <=? 0); [done|]. cbv zeta.
  destruct (update_data _ _ input _) as [c|] eqn:E; [|done].
  by rewrite (update_data_mono _ _ _ e _ _ E).
Qed.

Lemma spec_state_length bs : length (foldl spec_compress spec_IV bs) = 8%nat.
Proof.
  apply (foldl_inv (fun s => length s = 8%nat)); [done|]. intros s b _. unfold spec_compress.
  by destruct (foldl _ _ (seq 0 64)) as [[[[[[[A B] C] D] E] F] G] H].
Qed.

Lemma spec_absorb_blocks bs s :
  Forall (fun b => length b = 64%nat) bs ->
  spec_absorb (length (concat bs) / 64) s (concat bs) = foldl spec_compress s bs.
Proof.
  intros F. assert (E : (length (concat bs) / 64)%nat = length bs).
  { pose proof (concat_blocks_zlen bs F) as E. unfold zlen in E.
    replace (length (concat bs)) with (length bs * 64)%nat by lia. by apply Nat.div_mul. }
  rewrite E. clear E. revert s. induction F as [|b bs Hb F IH]; intros s; [done|].
  cbn [length spec_absorb concat foldl]. rewrite <- Hb.
  by rewrite take_app_length, drop_app_length.
Qed.

Lemma digest_words (s : list Z) :
  length s = 8%nat ->
  foldl (fun out i => PUT_ULONG_BE (s !!! i) out (4 * i)) (replicate 32 0) (seq 0 8) = s ≫= word_bytes.
Proof. intros H. do 8 (destruct s as [|? s]; [done|]). destruct s; [|done]. reflexivity. Qed.

Lemma padn_spec n : 0 <= n ->
  (if n mod 64 <? 56 then 56 - n mod 64 else 120 - n mod 64) = 1 + (55 - n) mod 64.
Proof. intros Hn. destruct (Z.ltb_spec (n mod 64) 56); zdm. Qed.

Lemma msglen_words h l : PUT_ULONG_BE l (PUT_ULONG_BE h (replicate 8 0) 0) 4 = word_bytes h ++ word_bytes l.
Proof. reflexivity. Qed.

Lemma msglen_spec t0 t1 n :
  0 <= n < 2 ^ 61 -> t0 = n mod 2 ^ 32 -> t1 = (n / 2 ^ 32) mod 2 ^ 32 ->
  PUT_ULONG_BE (u32 (t0 .<< 3)) (PUT_ULONG_BE ((t0 .>> 29) .| u32 (t1 .<< 3)) (replicate 8 0) 0) 4 =
  word_bytes (8 * n / 2 ^ 32) ++ word_bytes (8 * n mod 2 ^ 32).
Proof.
  intros Hn -> ->. rewrite msglen_words. f_equal; f_equal.
  - rewrite Z.lor_comm. rewrite u32_id.
    2:{ rewrite Z.shiftl_mul_pow2 by lia. unfold is_u32. change (2 ^ 32) with 4294967296 in *.
        change (2 ^ 3) with 8. change (2 ^ 61) with 2305843009213693952 in Hn. zdm. }
    rewrite lor_shiftl_add; rewrite ?Z.shiftr_div_pow2 by lia;
      change (2 ^ 32) with 4294967296 in *; change (2 ^ 3) with 8; change (2 ^ 29) with 536870912;
      change (2 ^ 61) with 2305843009213693952 in Hn; zdm.
  - unfold u32. rewrite Z.shiftl_mul_pow2 by lia. change (2 ^ 32) with 4294967296.
    change (2 ^ 3) with 8. zdm.
Qed.

Lemma sm3_finish_spec ctx msg :
  ctx_inv ctx msg -> zlen msg < 2 ^ 61 ->
  exists ctx', sm3_finish ctx = Some (0, ctx', spec_hash msg).
Proof.
  intros Hc Hm. pose proof Hc as ((bs & r & Hs & _) & Ht0 & Ht1).
  destruct (split_zlen _ _ _ Hs) as [Hz Hr]. pose proof (zlen_nonneg msg) as Hm0.
  unfold sm3_finish. cbv zeta. rewrite (msglen_spec _ _ (zlen msg)) by (done || lia).
  rewrite (left_spec _ _ _ _ Ht0 Hz Hr).
  replace (zlen r) with (zlen msg mod 64) by (rewrite Hz; zdm).
  rewrite padn_spec by done. set (k := (55 - zlen msg) mod 64).
  assert (Hk : 0 <= k < 64) by (apply Z.mod_pos_bound; lia).
  set (pad := 0x80 :: replicate (Z.to_nat k) 0).
  assert (Hpad : zlen pad = 1 + k) by (unfold pad; zlens; lia).
  assert (Epad : sm3_padding = pad ++ replicate (63 - Z.to_nat k) 0).
  { unfold pad, sm3_padding. cbn [app]. rewrite <- replicate_add. do 2 f_equal. lia. }
  rewrite Epad, <- Hpad.
  destruct (sm3_update_prefix ctx msg pad (replicate (63 - Z.to_nat k) 0) Hc) as (c1 & -> & Hc1); [lia|].
  set (ml := word_bytes (8 * zlen msg / 2 ^ 32) ++ word_bytes (8 * zlen msg mod 2 ^ 32)).
  destruct (sm3_update_spec c1 (msg ++ pad) ml Hc1) as (c2 & Hu & Hc2); [done|].
  change (zlen ml) with 8 in Hu. cbn [mbind option_bind]. rewrite Hu. cbn [mbind option_bind].
  exists c2. do 2 f_equal. destruct Hc2 as ((bs2 & r2 & Hs2 & Hst2 & _) & _).
  rewrite digest_words by (rewrite Hst2; apply spec_state_length). unfold spec_hash.
  replace (spec_pad msg) with ((msg ++ pad) ++ ml) by (unfold spec_pad; rewrite <- app_assoc; done).
  destruct (split_zlen _ _ _ Hs2) as [Hz2 Hr2]. destruct Hs2 as (E2 & F2 & L2). rewrite E2.
  rewrite !zlen_app in Hz2. change (zlen ml) with 8 in Hz2.
  assert (r2 = []) as ->.
  { destruct r2; [done|]. rewrite zlen_cons in *. subst k. pose proof (zlen_nonneg r2). zdm. }
  rewrite app_nil_r, spec_absorb_blocks by done. by rewrite Hst2.
Qed.
End Streaming.

(** ** Theorems *)

(** The kernel's hash walk: [sm3_update] on each chunk in turn, its return code ignored. *)
Fixpoint run_updates {sh : Shifter} (ctx : vpn_sm3_ctx) (chunks : list bytes) : option vpn_sm3_ctx :=
  match chunks with
  | [] => Some ctx
  | c :: cs => '(_, ctx) ← sm3_update ctx c (zlen c); run_updates ctx cs
  end.

Lemma sm3_starts_inv ctx : length (buffer ctx) = 64%nat -> ctx_inv (sm3_starts ctx) [].
Proof.
  intros H. split; [|done]. exists [], []. split_and!; try done. split_and!; [done | constructor | simpl; lia].
Qed.

Lemma run_updates_inv {sh : Shifter} {laws : ShifterLaws sh} {mask : MaskingShifter sh} ctx msg chunks :
  ctx_inv ctx msg -> Forall (fun c => zlen c < 2 ^ 32) chunks ->
  exists ctx', run_updates ctx chunks = Some ctx' /\ ctx_inv ctx' (msg ++ concat chunks).
Proof.
  intros Hc F. revert ctx msg Hc. induction F as [|c cs Hl F IH]; intros ctx msg Hc; simpl.
  - exists ctx. by rewrite app_nil_r.
  - destruct c as [|b c].
    + unfold sm3_update. simpl. by apply IH.
    + destruct (sm3_update_spec ctx msg (b :: c) Hc) as (c1 & Hu & Hc1).
      { split; [rewrite zlen_cons; pose proof (zlen_nonneg c); lia | done]. }
      rewrite Hu. cbn [mbind option_bind]. destruct (IH _ _ Hc1) as (c2 & H2 & Hc2).
      exists c2. split; [done|]. by rewrite <- app_assoc in Hc2.
Qed.

(** C6: on a machine that masks shift counts to five bits, [sm3_starts], any sequence of
    [sm3_update] calls (empty chunks included: they return -1 and change nothing) and
    [sm3_finish] compute the standard's SM3 of the concatenation of the chunks, without an
    out-of-bounds access, for every message shorter than 2^61 bytes and every previous content of
    the context. *)
Theorem sm3_streaming_correct {sh : Shifter} {laws : ShifterLaws sh} {mask : MaskingShifter sh} ctx chunks :
  length (buffer ctx) = 64%nat -> Forall (fun c => zlen c < 2 ^ 32) chunks ->
  zlen (concat chunks) < 2 ^ 61 ->
  exists ctx1 ctx2, run_updates (sm3_starts ctx) chunks = Some ctx1 /\
    sm3_finish ctx1 = Some (0, ctx2, spec_hash (concat chunks)).
Proof.
  intros Hb F Hl. destruct (run_updates_inv _ _ chunks (sm3_starts_inv ctx Hb) F) as (ctx1 & H1 & Hc1).
  destruct (sm3_finish_spec ctx1 _ Hc1 Hl) as (ctx2 & H2). by exists ctx1, ctx2.
Qed.

Definition ctx_dirty : vpn_sm3_ctx :=
  {| total0 := 5; total1 := 9; state := []; buffer := replicate 64 1 |}.
(** sm3_test.c: 16 times "abcd" and its digest. *)
Definition abcd16 : bytes := concat (replicate 16 [0x61; 0x62; 0x63; 0x64]).
Definition abcd16_digest : bytes :=
  [0xde;0xbe;0x9f;0xf9;0x22;0x75;0xb8;0xa1;0x38;0x60;0x48;0x89;0xc1;0x8e;0x5a;0x4d;
   0x6f;0xdb;0x70;0xe5;0x38;0x7e;0x57;0x65;0x29;0x3d;0xcb;0xa3;0x9c;0x0c;0x57;0x32].

Theorem sm3_streaming_correct_witness :
  spec_hash abcd16 = abcd16_digest /\
  exists ctx1 ctx2, run_updates (sm3_starts ctx_dirty) [take 5 abcd16; []; drop 5 abcd16] = Some ctx1 /\
    sm3_finish ctx1 = Some (0, ctx2, spec_hash abcd16).
Proof.
  split; [vm_compute; reflexivity|].
  apply (sm3_streaming_correct ctx_dirty [take 5 abcd16; []; drop 5 abcd16]).
  - reflexivity.
  - repeat constructor.
  - reflexivity.
Defined.

(** The one-shot [sm3_finup] starts a fresh hash, so whatever the context held it returns the
    standard's SM3 of [data]; this includes the empty message, where the inner
    [sm3_update] fails with -1 and the code ignores that. *)
Theorem sm3_finup_correct {sh : Shifter} {laws : ShifterLaws sh} {mask : MaskingShifter sh} ctx data :
  length (buffer ctx) = 64%nat -> zlen data < 2 ^ 32 ->
  exists ctx2, sm3_finup ctx data (zlen data) = Some (0, ctx2, spec_hash data).
Proof.
  intros Hb Hl. destruct (run_updates_inv _ _ [data] (sm3_starts_inv ctx Hb)) as (ctx1 & H1 & Hc1); [auto|].
  unfold sm3_finup. simpl in H1, Hc1. rewrite app_nil_r in Hc1.
  destruct (sm3_update _ data _) as [[r c]|]; [|done]. injection H1 as ->.
  apply sm3_finish_spec; [done|]. lia.
Qed.

Theorem sm3_finup_correct_witness :
  exists ctx2, sm3_finup ctx_dirty [] 0 = Some (0, ctx2, spec_hash []).
Proof. apply (sm3_finup_correct ctx_dirty []); reflexivity. Defined.

(** The digest depends on how the machine treats a shift count outside 0..31: on a
    shifter that saturates instead of masking, which satisfies every rule C gives for shifts,
    hashing "abc" does not give the standard's digest.  ([ROTL(T[j],j)] shifts by 32 - j, zero or
    negative from j = 32 on, and by j >= 32.) *)
Theorem sm3_needs_masking_shifter :
  ShifterLaws arm_shifter /\
  match sm3_finup (sh := arm_shifter) ctx_dirty [0x61; 0x62; 0x63] 3 with
  | Some (r, _, out) => r = 0 /\ out <> spec_hash [0x61; 0x62; 0x63]
  | None => False
  end.
Proof.
  split; [apply arm_laws|]. vm_compute. split; [reflexivity | discriminate].
Qed.
