(* ===== verification/Util.v ===== *)
(** * util.c: byte order, C strings, timeouts.
    The host's byte order is the class [Host]; [cpu_to_le16] and its companions are
    translated as the byte shuffles of util.c, and [ld16]/[st16] are the loads and stores of a
    [USHORT] field of a packed struct.  The lemmas show that the wire format does not depend on
    the host.  [setTimespecRelative] and [pthread_cond_timeout_np] are at the end. *)
From Stdlib Require Import Ascii.
From S2P Require Import Prelude.
#[local] Open Scope Z_scope.
#[local] Open Scope c_scope.

Class Host : Type := { is_bigendian : bool }.
#[export] Instance little_host : Host := {| is_bigendian := false |}.
Definition big_host : Host := {| is_bigendian := true |}.

(** ** Little-endian byte lists *)
Definition le16 (v : Z) : bytes := [u8 v; u8 (v .>> 8)].
Definition le32 (v : Z) : bytes := [u8 v; u8 (v .>> 8); u8 (v .>> 16); u8 (v .>> 24)].
Definition of_le (bs : bytes) : Z := foldr (fun b acc => b + 256 * acc) 0 bs.

Lemma zlen_le16 v : zlen (le16 v) = 2.
Proof. done. Qed.
Lemma zlen_le32 v : zlen (le32 v) = 4.
Proof. done. Qed.
#[export] Hint Rewrite zlen_le16 zlen_le32 : zlen.

Section Host.
Context {host : Host}.

(** The bytes of a [USHORT]/[UINT] object in memory, and the value of such bytes. *)
Definition native (bs : bytes) : bytes := if is_bigendian then reverse bs else bs.
Definition enc16 (v : Z) : bytes := native (le16 v).
Definition enc32 (v : Z) : bytes := native (le32 v).
Definition dec_native (bs : bytes) : Z := of_le (native bs).

Definition le16_to_cpu (v16 : Z) : Z :=
  if is_bigendian then let s := enc16 v16 in dec_native [s !!! 1%nat; s !!! 0%nat] else v16.
Definition cpu_to_le16 (v16 : Z) : Z :=
  if is_bigendian then let s := enc16 v16 in dec_native [s !!! 1%nat; s !!! 0%nat] else v16.
Definition ql_swap32 (v32 : Z) : Z :=
  let s := enc32 v32 in dec_native [s !!! 3%nat; s !!! 2%nat; s !!! 1%nat; s !!! 0%nat].
Definition le32_to_cpu (v32 : Z) : Z := if is_bigendian then ql_swap32 v32 else v32.
Definition cpu_to_le32 (v32 : Z) : Z := if is_bigendian then ql_swap32 v32 else v32.

(** Loads and stores of struct fields. *)
Definition ld16 (m : bytes) (i : Z) : option Z := bs ← lds m i 2; Some (dec_native bs).
Definition ld32 (m : bytes) (i : Z) : option Z := bs ← lds m i 4; Some (dec_native bs).
Definition st8 (m : bytes) (i v : Z) : option bytes := sts m i [u8 v].
Definition st16 (m : bytes) (i v : Z) : option bytes := sts m i (enc16 v).
Definition st32 (m : bytes) (i v : Z) : option bytes := sts m i (enc32 v).
(** [le16_to_cpu(p->field)], the way the code reads every wire field. *)
Definition rd16 (m : bytes) (i : Z) : option Z := v ← ld16 m i; Some (le16_to_cpu v).
Definition rd32 (m : bytes) (i : Z) : option Z := v ← ld32 m i; Some (le32_to_cpu v).

Lemma of_le_le16 v : is_u16 v -> of_le (le16 v) = v.
Proof.
  unfold is_u16, of_le, le16, u8. intros H. cbn [foldr]. rewrite Z.shiftr_div_pow2 by lia.
  change (2 ^ 8) with 256. change (2 ^ 16) with 65536 in *. zdm.
Qed.
Lemma of_le_le32 v : is_u32 v -> of_le (le32 v) = v.
Proof.
  unfold is_u32, of_le, le32, u8. intros H. cbn [foldr]. rewrite !Z.shiftr_div_pow2 by lia.
  change (2 ^ 8) with 256. change (2 ^ 16) with 65536. change (2 ^ 24) with 16777216.
  change (2 ^ 32) with 4294967296 in *. zdm.
Qed.
Lemma le16_of_le a b : is_byte a -> is_byte b -> le16 (of_le [a; b]) = [a; b].
Proof.
  unfold is_byte, le16, of_le, u8. intros. cbn [foldr]. rewrite Z.shiftr_div_pow2 by lia.
  change (2 ^ 8) with 256. f_equal; [|f_equal]; zdm.
Qed.
Lemma le32_of_le a b c d : is_byte a -> is_byte b -> is_byte c -> is_byte d ->
  le32 (of_le [a; b; c; d]) = [a; b; c; d].
Proof.
  unfold is_byte, le32, of_le, u8. intros. cbn [foldr]. rewrite !Z.shiftr_div_pow2 by lia.
  change (2 ^ 8) with 256. change (2 ^ 16) with 65536. change (2 ^ 24) with 16777216.
  f_equal; [|f_equal; [|f_equal; [|f_equal]]]; zdm.
Qed.

(** The bytes stored for [cpu_to_le16 v] are little-endian on every host, and
    [le16_to_cpu] of the field gives the little-endian value. *)
Lemma enc16_cpu_to_le16 v : enc16 (cpu_to_le16 v) = le16 v.
Proof.
  unfold cpu_to_le16, enc16, dec_native, native. destruct is_bigendian; [|done]. cbv zeta.
  change (reverse (le16 v) !!! 1%nat) with (u8 v).
  change (reverse (le16 v) !!! 0%nat) with (u8 (v .>> 8)).
  change (reverse [u8 v; u8 (v .>> 8)]) with [u8 (v .>> 8); u8 v].
  by rewrite le16_of_le by apply u8_range.
Qed.
Lemma enc32_cpu_to_le32 v : enc32 (cpu_to_le32 v) = le32 v.
Proof.
  unfold cpu_to_le32, ql_swap32, enc32, dec_native, native. destruct is_bigendian; [|done]. cbv zeta.
  change (reverse (le32 v) !!! 3%nat) with (u8 v).
  change (reverse (le32 v) !!! 2%nat) with (u8 (v .>> 8)).
  change (reverse (le32 v) !!! 1%nat) with (u8 (v .>> 16)).
  change (reverse (le32 v) !!! 0%nat) with (u8 (v .>> 24)).
  change (reverse [u8 v; u8 (v .>> 8); u8 (v .>> 16); u8 (v .>> 24)])
    with [u8 (v .>> 24); u8 (v .>> 16); u8 (v .>> 8); u8 v].
  by rewrite le32_of_le by apply u8_range.
Qed.
Lemma le16_to_cpu_native a b : is_byte a -> is_byte b -> le16_to_cpu (dec_native [a; b]) = of_le [a; b].
Proof.
  intros Ha Hb. unfold le16_to_cpu, enc16, dec_native, native. destruct is_bigendian; [|done].
  change (reverse [a; b]) with [b; a]. by rewrite le16_of_le.
Qed.
Lemma le32_to_cpu_native a b c d : is_byte a -> is_byte b -> is_byte c -> is_byte d ->
  le32_to_cpu (dec_native [a; b; c; d]) = of_le [a; b; c; d].
Proof.
  intros Ha Hb Hc Hd. unfold le32_to_cpu, ql_swap32, enc32, dec_native, native. destruct is_bigendian; [|done].
  change (reverse [a; b; c; d]) with [d; c; b; a]. by rewrite le32_of_le.
Qed.
Lemma le16_to_cpu_cpu_to_le16 v : is_u16 v -> le16_to_cpu (cpu_to_le16 v) = v.
Proof.
  intros Hv. unfold le16_to_cpu. rewrite enc16_cpu_to_le16. cbv zeta.
  unfold cpu_to_le16, dec_native, native. destruct is_bigendian; [|done].
  change (reverse [le16 v !!! 1%nat; le16 v !!! 0%nat]) with (le16 v). by apply of_le_le16.
Qed.

(** Reading back: a field that holds little-endian bytes is read as their value. *)
Lemma rd16_app p a b s i :
  is_byte a -> is_byte b -> i = zlen p -> rd16 (p ++ [a; b] ++ s) i = Some (of_le [a; b]).
Proof.
  intros Ha Hb ->. unfold rd16, ld16. rewrite lds_app by done. cbn [mbind option_bind].
  by rewrite le16_to_cpu_native.
Qed.
Lemma rd16_le16 p v s i : is_u16 v -> i = zlen p -> rd16 (p ++ le16 v ++ s) i = Some v.
Proof.
  intros Hv ->. unfold le16. rewrite rd16_app by (done || apply u8_range).
  f_equal. by apply of_le_le16.
Qed.
Lemma rd32_le32 p v s i : is_u32 v -> i = zlen p -> rd32 (p ++ le32 v ++ s) i = Some v.
Proof.
  intros Hv ->. unfold rd32, ld32. rewrite lds_app by done. cbn [mbind option_bind]. unfold le32.
  rewrite le32_to_cpu_native by apply u8_range. f_equal. by apply of_le_le32.
Qed.
Lemma st16_le_app p old v s i :
  i = zlen p -> zlen old = 2 -> st16 (p ++ old ++ s) i (cpu_to_le16 v) = Some (p ++ le16 v ++ s).
Proof. intros Hi Ho. unfold st16. rewrite enc16_cpu_to_le16. by apply sts_app. Qed.
Lemma st32_le_app p old v s i :
  i = zlen p -> zlen old = 4 -> st32 (p ++ old ++ s) i (cpu_to_le32 v) = Some (p ++ le32 v ++ s).
Proof. intros Hi Ho. unfold st32. rewrite enc32_cpu_to_le32. by apply sts_app. Qed.

(** A field that was stored is read back. *)
Lemma rd32_st32 m i v m' : is_u32 v -> st32 m i (cpu_to_le32 v) = Some m' -> rd32 m' i = Some v.
Proof.
  intros Hv. unfold st32, sts. rewrite enc32_cpu_to_le32. destruct (0 <=? i) eqn:E1; [|done].
  destruct (i + zlen (le32 v) <=? zlen m) eqn:E2; [|done]. simpl. intros [= <-]. apply Z.leb_le in E1, E2.
  apply (rd32_le32 (take (Z.to_nat i) m)); [done|]. unfold zlen in *. rewrite length_take. simpl in E2. lia.
Qed.

Lemma lds_bytes m i n bs : Forall is_byte m -> lds m i n = Some bs -> Forall is_byte bs.
Proof.
  intros Hm. unfold lds. destruct (_ && _); [|done]. intros [= <-]. by apply Forall_take, Forall_drop.
Qed.

Lemma rd32_sts_other m i bs m' j : sts m i bs = Some m' -> j + 4 <= i \/ i + zlen bs <= j -> rd32 m' j = rd32 m j.
Proof. intros H Hj. unfold rd32, ld32. by rewrite (lds_sts_other _ _ _ _ _ _ H Hj). Qed.
Lemma zlen_enc32 v : zlen (enc32 v) = 4.
Proof. unfold enc32, native. by destruct is_bigendian. Qed.
Lemma zlen_enc16 v : zlen (enc16 v) = 2.
Proof. unfold enc16, native. destruct is_bigendian; done. Qed.
Lemma enc16_two v : exists a b, enc16 v = [a; b].
Proof. unfold enc16, native, le16. destruct is_bigendian; by eexists _, _. Qed.
Lemma enc32_four v : exists a b c d, enc32 v = [a; b; c; d].
Proof. unfold enc32, native, le32. destruct is_bigendian; by eexists _, _, _, _. Qed.
Lemma enc16_bytes v : Forall is_byte (enc16 v).
Proof. unfold enc16, native, le16. destruct is_bigendian; [apply Forall_reverse|]; repeat constructor; apply u8_range. Qed.
Lemma enc32_bytes v : Forall is_byte (enc32 v).
Proof. unfold enc32, native, le32. destruct is_bigendian; [apply Forall_reverse|]; repeat constructor; apply u8_range. Qed.
Lemma dec_enc16 v : is_u16 v -> dec_native (enc16 v) = v.
Proof. intros H. unfold dec_native, enc16, native. destruct is_bigendian; [rewrite reverse_involutive|]; by apply of_le_le16. Qed.
Lemma dec_enc32 v : is_u32 v -> dec_native (enc32 v) = v.
Proof. intros H. unfold dec_native, enc32, native. destruct is_bigendian; [rewrite reverse_involutive|]; by apply of_le_le32. Qed.
Lemma ld16_enc16 p v s i : is_u16 v -> i = zlen p -> ld16 (p ++ enc16 v ++ s) i = Some v.
Proof. intros Hv ->. unfold ld16. rewrite lds_app by (try rewrite zlen_enc16; lia). cbn [mbind option_bind]. by rewrite dec_enc16. Qed.
Lemma ld32_enc32 p v s i : is_u32 v -> i = zlen p -> ld32 (p ++ enc32 v ++ s) i = Some v.
Proof. intros Hv ->. unfold ld32. rewrite lds_app by (try rewrite zlen_enc32; lia). cbn [mbind option_bind]. by rewrite dec_enc32. Qed.
Lemma rd32_st32_other m i v m' j : st32 m i v = Some m' -> j + 4 <= i \/ i + 4 <= j -> rd32 m' j = rd32 m j.
Proof. intros H Hj. apply (rd32_sts_other _ _ _ _ _ H). by rewrite zlen_enc32. Qed.
Lemma lds_st32_other m i v m' j n : st32 m i v = Some m' -> j + n <= i \/ i + 4 <= j -> lds m' j n = lds m j n.
Proof. intros H Hj. apply (lds_sts_other _ _ _ _ _ _ H). by rewrite zlen_enc32. Qed.
Lemma st32_defined m i v : 0 <= i -> i + 4 <= zlen m -> exists m', st32 m i v = Some m' /\ zlen m' = zlen m.
Proof.
  intros Hi Hm. destruct (sts_defined m i (enc32 v)) as [m' E]; [done | by rewrite zlen_enc32|].
  exists m'. split; [done | by apply (sts_length _ _ _ _ E)].
Qed.

(** Zero is the same in both byte orders. *)
Lemma rd32_defined m i : 0 <= i -> i + 4 <= zlen m -> is_Some (rd32 m i).
Proof. intros. unfold rd32, ld32. destruct (lds_defined m i 4) as [b ->]; [lia..|]. by eexists. Qed.
Lemma rd32_u32 m i v : Forall is_byte m -> rd32 m i = Some v -> is_u32 v.
Proof.
  intros Hm. unfold rd32, ld32. destruct (lds m i 4) as [bs|] eqn:E; [|done]. cbn [mbind option_bind].
  pose proof (lds_bytes _ _ _ _ Hm E) as Hb. apply lds_zlen in E. unfold zlen in E.
  destruct bs as [|a [|b [|c [|d [|]]]]]; cbn in E; try lia. rewrite !Forall_cons in Hb. destruct Hb as (?&?&?&?&_).
  rewrite le32_to_cpu_native by done. unfold is_byte, is_u32, of_le in *. cbn [foldr]. intros [= <-]. lia.
Qed.
Lemma rd32_zero m i : Forall is_byte m -> rd32 m i = Some 0 -> ld32 m i = Some 0.
Proof.
  intros Hm. unfold rd32, ld32. destruct (lds m i 4) as [bs|] eqn:E; [|done].
  pose proof (lds_bytes _ _ _ _ Hm E) as Hb. apply lds_zlen in E. unfold zlen in E.
  do 4 (destruct bs as [|? bs]; [done|]). destruct bs; [|simpl in E; lia].
  rewrite !Forall_cons in Hb. destruct Hb as (Ha & Hb & Hc & Hd & _). cbn [mbind option_bind].
  rewrite le32_to_cpu_native by done. unfold is_byte, of_le in *. cbn [foldr]. intros [= H].
  assert (z = 0 /\ z0 = 0 /\ z1 = 0 /\ z2 = 0) as (-> & -> & -> & ->) by lia.
  unfold dec_native, native. by destruct is_bigendian.
Qed.

Lemma ql_swap32_spec v : ql_swap32 v = of_le (reverse (le32 v)).
Proof. unfold ql_swap32, enc32, dec_native, native. by destruct is_bigendian. Qed.

(** The byte-order helpers are involutions on their type, [cpu_to_le*] stores the
    little-endian bytes whatever the host's byte order, and [le*_to_cpu] of a stored field is the
    value that was sent; [ql_swap32] is its own inverse. *)
Theorem wire_order_host_independent v16 v32 p s :
  is_u16 v16 -> is_u32 v32 ->
  enc16 (cpu_to_le16 v16) = le16 v16 /\ enc32 (cpu_to_le32 v32) = le32 v32 /\
  rd16 (p ++ enc16 (cpu_to_le16 v16) ++ s) (zlen p) = Some v16 /\
  rd32 (p ++ enc32 (cpu_to_le32 v32) ++ s) (zlen p) = Some v32 /\
  ql_swap32 (ql_swap32 v32) = v32.
Proof.
  intros H16 H32. rewrite enc16_cpu_to_le16, enc32_cpu_to_le32.
  rewrite rd16_le16, rd32_le32 by done. do 4 (split; [done|]).
  rewrite !ql_swap32_spec. change (reverse (le32 v32)) with [u8 (v32 .>> 24); u8 (v32 .>> 16); u8 (v32 .>> 8); u8 v32].
  rewrite le32_of_le by apply u8_range. by apply of_le_le32.
Qed.
End Host.

Theorem wire_order_host_independent_witness :
  enc16 (host := big_host) (cpu_to_le16 (host := big_host) 0x1234) = [0x34; 0x12] /\
  cpu_to_le16 (host := big_host) 0x1234 = 0x3412 /\ ql_swap32 0x12345678 = 0x78563412 /\
  rd16 (host := big_host) ([7] ++ enc16 (host := big_host) (cpu_to_le16 (host := big_host) 0x1234) ++ [9]) 1 = Some 0x1234.
Proof.
  destruct (wire_order_host_independent (host := big_host) 0x1234 0x12345678 [7] [9]) as (H1 & _ & H2 & _).
  - split; reflexivity || discriminate.
  - split; reflexivity || discriminate.
  - split; [exact H1|]. split; [reflexivity|]. split; [reflexivity | exact H2].
Defined.

(** ** Deadlines *)

(** [setTimespecRelative]: the time of day [tv] plus [msec] milliseconds. *)
Definition setTimespecRelative (tv_sec tv_usec msec : Z) : Z * Z :=
  let sec := tv_sec + Z.quot msec 1000 in
  let nsec := (tv_usec + Z.rem msec 1000 * 1000) * 1000 in
  if 1000000000 <=? nsec then (sec + 1, nsec - 1000000000) else (sec, nsec).

(** [clock_msec] of the monotonic clock, in an [unsigned long] of 64 bits. *)
Definition clock_msec (tv_sec tv_nsec : Z) : Z := (tv_sec * 1000 + Z.quot tv_nsec 1000000) mod 2 ^ 64.

Definition ETIMEDOUT : Z := 110.

(** [pthread_cond_timeout_np]: [timedwait k t] is the result of the k-th
    [pthread_cond_timedwait] of [t] milliseconds, [wait] that of the untimed one.  Returns the code and
    the number of timed waits. *)
Section CondTimeout.
Context (timedwait : nat -> Z -> Z) (wait : Z).

Fixpoint cond_timeout_loop (fuel : nat) (i t msecs : Z) (k : nat) (ret : Z) : option (Z * nat) :=
  match fuel with
  | O => None
  | S fuel =>
      if i <? msecs then
        let ret := timedwait k t in
        if negb (ret =? ETIMEDOUT) then Some (ret, S k)
        else cond_timeout_loop fuel (u32 (i + t)) t msecs (S k) ret
      else Some (ret, k)
  end.

Definition pthread_cond_timeout_np (msecs : Z) : option (Z * nat) :=
  if negb (msecs =? 0) then
    let t := msecs / 4 in
    let t := if t =? 0 then 1 else t in
    cond_timeout_loop 8 0 t msecs 0 0
  else Some (wait, O).

Lemma cond_timeout_loop_spec fuel t msecs k i ret :
  0 < t -> msecs + t < 2 ^ 32 -> i = Z.of_nat k * t ->
  (forall j, (j < k)%nat -> timedwait j t = ETIMEDOUT) -> (k <> O -> ret = ETIMEDOUT) ->
  i < msecs + t -> (k = O -> 0 < msecs) -> msecs <= Z.of_nat fuel * t + i - t -> (0 < fuel)%nat ->
  exists ret' n, cond_timeout_loop fuel i t msecs k ret = Some (ret', n) /\ (0 < n)%nat /\
    (forall j, (j < n - 1)%nat -> timedwait j t = ETIMEDOUT) /\ ret' = timedwait (n - 1)%nat t /\
    Z.of_nat n * t < msecs + t /\ (ret' = ETIMEDOUT -> msecs <= Z.of_nat n * t).
Proof.
  intros Ht Hov. revert k i ret. induction fuel as [|fuel IH]; intros k i ret Hi Hw Hret Hlt Hk Hfuel Hpos; [lia|].
  cbn [cond_timeout_loop]. destruct (Z.ltb_spec i msecs) as [Him|Him].
  - destruct (Z.eqb_spec (timedwait k t) ETIMEDOUT) as [E|E]; cbn [negb].
    + rewrite u32_id by (unfold is_u32; nia). destruct fuel as [|fuel'].
      { exfalso. nia. }
      apply IH; try lia.
      * intros j Hj. destruct (decide (j = k)) as [->|]; [done | apply Hw; lia].
    + exists (timedwait k t), (S k). replace (S k - 1)%nat with k by lia. split_and!; try done; lia.
  - destruct k as [|k]; [specialize (Hk eq_refl); lia|].
    exists ret, (S k). replace (S k - 1)%nat with k by lia. rewrite (Hret ltac:(done)).
    split_and!; try done; try lia.
    + intros j Hj. apply Hw. lia.
    + symmetry. apply Hw. lia.
Qed.

(** For every timeout below 2^31 ms the sliced wait of [pthread_cond_timeout_np] ends after at
    most seven waits; its result is that of its last wait, every earlier wait timed out, and
    it reports a timeout only when the slices waited add up to at least the requested
    time and to less than one slice more. *)
Theorem pthread_cond_timeout_np_bounds msecs :
  0 < msecs < 2 ^ 31 ->
  let t := if msecs / 4 =? 0 then 1 else msecs / 4 in
  exists ret n, pthread_cond_timeout_np msecs = Some (ret, n) /\ (1 <= n <= 7)%nat /\
    (forall j, (j < n - 1)%nat -> timedwait j t = ETIMEDOUT) /\ ret = timedwait (n - 1)%nat t /\
    Z.of_nat n * t < msecs + t /\ (ret = ETIMEDOUT -> msecs <= Z.of_nat n * t).
Proof.
  intros Hm t. assert (Ht : 0 < t /\ msecs <= 7 * t /\ t <= msecs).
  { unfold t. destruct (Z.eqb_spec (msecs / 4) 0); zdm. }
  unfold pthread_cond_timeout_np. rewrite (proj2 (Z.eqb_neq msecs 0)) by lia. cbn [negb].
  fold t. destruct (cond_timeout_loop_spec 8 t msecs 0 0 0) as (ret & n & E & Hn & Hw & Hr & Hlt & Hto);
    try lia; try done.
  rewrite E. exists ret, n. split_and!; try done; try lia. nia.
Qed.
End CondTimeout.

Theorem pthread_cond_timeout_np_bounds_witness :
  pthread_cond_timeout_np (fun k _ => if (k <? 2)%nat then ETIMEDOUT else 0) 0 5000 = Some (0, 3%nat) /\
  exists ret n, pthread_cond_timeout_np (fun _ _ => ETIMEDOUT) 0 7 = Some (ret, n) /\ (1 <= n <= 7)%nat.
Proof.
  split; [reflexivity|].
  destruct (pthread_cond_timeout_np_bounds (fun _ _ => ETIMEDOUT) 0 7) as (ret & n & E & Hn & _).
  - split; reflexivity.
  - exists ret, n. split; [exact E | exact Hn].
Defined.

Lemma setTimespecRelative_spec tv_sec tv_usec msec :
  0 <= tv_usec < 1000000 -> 0 <= msec ->
  let '(s, ns) := setTimespecRelative tv_sec tv_usec msec in
  0 <= ns < 1000000000 /\
  s * 1000000000 + ns = tv_sec * 1000000000 + tv_usec * 1000 + msec * 1000000.
Proof.
  intros Hu Hm. unfold setTimespecRelative. rewrite Z.quot_div_nonneg, Z.rem_mod_nonneg by lia.
  destruct (Z.leb_spec 1000000000 ((tv_usec + msec mod 1000 * 1000) * 1000)); zdm.
Qed.

(** ** C strings: the bytes up to the first NUL; a buffer without one is read past its end. *)
Fixpoint cstr (m : bytes) : option bytes :=
  match m with
  | [] => None
  | b :: m => if b =? 0 then Some [] else s ← cstr m; Some (b :: s)
  end.
(** The characters of a string literal. *)
Definition str (s : String.string) : bytes :=
  (fun c => Z.of_N (Ascii.N_of_ascii c)) <$> String.list_ascii_of_string s.

Definition no_nul (s : bytes) : Prop := Forall (fun b => b <> 0) s.

Lemma cstr_app s m : no_nul s -> cstr (s ++ 0 :: m) = Some s.
Proof.
  induction 1 as [|b s Hb _ IH]; [done|]. cbn [app cstr].
  rewrite (proj2 (Z.eqb_neq _ _) Hb), IH. done.
Qed.

Lemma cstr_inv m s : cstr m = Some s -> no_nul s /\ exists t, m = s ++ 0 :: t.
Proof.
  revert s. induction m as [|b m IH]; intros s; [done|]. cbn [cstr].
  destruct (Z.eqb_spec b 0) as [->|Hb].
  - intros [= <-]. split; [constructor | by exists m].
  - destruct (cstr m) as [s'|]; [|done]. intros [= <-]. destruct (IH s' eq_refl) as (F & t & ->).
    split; [by constructor | by exists t].
Qed.
