(* ===== verification/Layout.v ===== *)
(** * Data of C: types, sizes and the places of fields.
    The messages of the program are packed structs and unions read and written in place.  [ctype] has the C types their
    declarations use; [sizeof], [alignof] and [offsetof] follow the compiler's rules under [#pragma pack].  [T ∙ "f.g"] is the
    number [offsetof T "f.g"], computed when the definition that uses it is read. *)
From S2P Require Import Prelude.
From Stdlib Require Import Ascii String Sorting.Sorted.
#[local] Open Scope Z_scope.
#[local] Set Warnings "-register-all".

(** A scalar is aligned to its size.  The name of an unnamed union is empty; a flexible array has no elements. *)
Inductive ctype :=
  | Scalar (bytes : positive)
  | Array (t : ctype) (n : nat)
  | Struct (pack : positive) (fields : list (string * ctype))
  | Union (pack : positive) (fields : list (string * ctype)).

(** The typedefs of MPQMI.h and mbim-cm.c, and a pointer of a 64-bit machine. *)
Definition UCHAR : ctype := Scalar 1.
Definition CHAR : ctype := Scalar 1.
Definition SHORT : ctype := Scalar 2.
Definition USHORT : ctype := Scalar 2.
Definition INT : ctype := Scalar 4.
Definition UINT : ctype := Scalar 4.
Definition ULONG : ctype := Scalar 4.
Definition UINT64 : ctype := Scalar 8.
Definition Pointer : ctype := Scalar 8.

Definition align (o a : Z) : Z := (o + a - 1) / a * a.

(** [alignof] is the alignment of the type itself; inside a struct the pack limits it. *)
Fixpoint alignof (t : ctype) : Z :=
  match t with
  | Scalar n => Z.pos n
  | Array t _ => alignof t
  | Struct p fs | Union p fs =>
      (fix all fs := match fs with [] => 1 | (_, t) :: fs => Z.max (Z.min (Z.pos p) (alignof t)) (all fs) end) fs
  end.
Definition place (p : positive) (o : Z) (t : ctype) : Z := align o (Z.min (Z.pos p) (alignof t)).

Fixpoint sizeof (t : ctype) : Z :=
  match t with
  | Scalar n => Z.pos n
  | Array t n => Z.of_nat n * sizeof t
  | Struct p fs =>
      align ((fix all o fs := match fs with [] => o | (_, t) :: fs => all (place p o t + sizeof t) fs end) 0 fs) (alignof (Struct p fs))
  | Union p fs =>
      align ((fix all fs := match fs with [] => 0 | (_, t) :: fs => Z.max (sizeof t) (all fs) end) fs) (alignof (Union p fs))
  end.

(** A member by its name: its place and its type.  The members of an unnamed member are members. *)
Fixpoint member (t : ctype) (f : string) : option (Z * ctype) :=
  match t with
  | Struct p fs =>
      (fix find o fs :=
         match fs with
         | [] => None
         | (g, t) :: fs =>
             let o := place p o t in
             if String.eqb f g then Some (o, t) else
             match (if String.eqb g EmptyString then member t f else None) with
             | Some (o', t') => Some (o + o', t')
             | None => find (o + sizeof t) fs
             end
         end) 0 fs
  | Union p fs =>
      (fix find fs :=
         match fs with
         | [] => None
         | (g, t) :: fs =>
             if String.eqb f g then Some (0, t) else
             match (if String.eqb g EmptyString then member t f else None) with Some r => Some r | None => find fs end
         end) fs
  | _ => None
  end.
Fixpoint at_path (t : ctype) (path : list string) : option (Z * ctype) :=
  match path with
  | [] => Some (0, t)
  | f :: path => '(o, t) ← member t f; '(o', t) ← at_path t path; Some (o + o', t)
  end.
(** "a.b.c" *)
Fixpoint path_names (s acc : string) : list string :=
  match s with
  | EmptyString => [acc]
  | String c s => if Ascii.eqb c "." then acc :: path_names s EmptyString else path_names s (acc ++ String c EmptyString)
  end.
Definition offsetof (t : ctype) (path : string) : option Z := fst <$> at_path t (path_names path EmptyString).
Definition sizeof_member (t : ctype) (path : string) : option Z := (fun r => sizeof r.2) <$> at_path t (path_names path EmptyString).

Ltac the_offset t f :=
  let v := eval vm_compute in (offsetof t f) in
  lazymatch v with Some ?z => exact z | _ => fail "no such member" end.
Ltac the_size t := let v := eval vm_compute in (sizeof t) in exact v.
Notation "t ∙ f" := (ltac:(the_offset t f%string)) (at level 9, f at level 0, only parsing) : Z_scope.
Notation "'sizeof[' t ']'" := (ltac:(the_size t)) (at level 0, t at level 200, only parsing) : Z_scope.

(** ** Every member is inside its type, and the members of a struct do not meet *)

Definition all_types (P : ctype -> Prop) (fs : list (string * ctype)) : Prop := Forall (fun x => P x.2) fs.
Lemma ctype_nested (P : ctype -> Prop) :
  (forall n, P (Scalar n)) ->
  (forall t n, P t -> P (Array t n)) ->
  (forall p fs, all_types P fs -> P (Struct p fs)) -> (forall p fs, all_types P fs -> P (Union p fs)) -> forall t, P t.
Proof.
  intros Hb Ha Hs Hu. fix IH 1. intros t. destruct t as [n|t n|p fs|p fs]; [apply Hb | ..].
  - apply Ha, IH.
  - apply Hs. induction fs as [|[f t] fs IHf]; constructor; [apply IH | exact IHf].
  - apply Hu. induction fs as [|[f t] fs IHf]; constructor; [apply IH | exact IHf].
Qed.

Lemma align_ge o a : 0 <= o -> 1 <= a -> o <= align o a.
Proof. intros Ho Ha. unfold align. pose proof (Z.div_mod (o + a - 1) a). pose proof (Z.mod_pos_bound (o + a - 1) a). nia. Qed.
Lemma align_mod o a : 1 <= a -> align o a mod a = 0.
Proof. intros Ha. unfold align. apply Z.mod_mul. lia. Qed.

Lemma alignof_pos t : 1 <= alignof t.
Proof.
  induction t as [n | t n IH | p fs IH | p fs IH] using ctype_nested; [cbn; lia | exact IH | |];
    clear IH; induction fs as [|[f t] fs IH]; cbn in *; lia.
Qed.
Lemma place_ge p o t : 0 <= o -> o <= place p o t.
Proof. intros Ho. apply align_ge; [done|]. pose proof (alignof_pos t). lia. Qed.

(** The members of a struct with their places, and the end of the last. *)
Fixpoint placed (p : positive) (o : Z) (fs : list (string * ctype)) : list (string * Z * ctype) :=
  match fs with [] => [] | (f, t) :: fs => let o := place p o t in (f, o, t) :: placed p (o + sizeof t) fs end.
Fixpoint placed_end (p : positive) (o : Z) (fs : list (string * ctype)) : Z :=
  match fs with [] => o | (_, t) :: fs => placed_end p (place p o t + sizeof t) fs end.
Fixpoint widest (fs : list (string * ctype)) : Z :=
  match fs with [] => 0 | (_, t) :: fs => Z.max (sizeof t) (widest fs) end.
Lemma sizeof_struct p fs : sizeof (Struct p fs) = align (placed_end p 0 fs) (alignof (Struct p fs)).
Proof. cbn [sizeof]. f_equal. generalize 0. induction fs as [|[f t] fs IH]; intros o; [done | apply IH]. Qed.
Lemma sizeof_union p fs : sizeof (Union p fs) = align (widest fs) (alignof (Union p fs)).
Proof. cbn [sizeof]. by f_equal. Qed.

Lemma placed_end_ge p fs : all_types (fun t => 0 <= sizeof t) fs -> forall o, 0 <= o -> o <= placed_end p o fs.
Proof.
  induction 1 as [|[f t] fs Ht _ IH]; intros o Ho; cbn in *; [lia|].
  pose proof (place_ge p o t Ho). specialize (IH (place p o t + sizeof t)). lia.
Qed.
Lemma widest_nonneg fs : 0 <= widest fs.
Proof. induction fs as [|[f t] fs IH]; cbn; lia. Qed.
Lemma sizeof_nonneg t : 0 <= sizeof t.
Proof.
  induction t as [n | t n IH | p fs IH | p fs IH] using ctype_nested; [done | cbn; nia | |].
  - rewrite sizeof_struct. pose proof (placed_end_ge p fs IH 0). pose proof (align_ge (placed_end p 0 fs) _ ltac:(lia) (alignof_pos (Struct p fs))). lia.
  - rewrite sizeof_union. pose proof (widest_nonneg fs). pose proof (align_ge _ _ H (alignof_pos (Union p fs))). lia.
Qed.
Lemma all_nonneg fs : all_types (fun t => 0 <= sizeof t) fs.
Proof. apply Forall_forall. intros x _. apply sizeof_nonneg. Qed.
Lemma placed_end_inside p fs : placed_end p 0 fs <= sizeof (Struct p fs).
Proof. rewrite sizeof_struct. apply align_ge; [apply placed_end_ge; [apply all_nonneg | lia] | apply alignof_pos]. Qed.

(** The search through a list of members: what it finds is one of them, or inside one of them. *)
Fixpoint find_placed (f : string) (l : list (string * Z * ctype)) : option (Z * ctype) :=
  match l with
  | [] => None
  | (g, o, t) :: l =>
      if String.eqb f g then Some (o, t) else
      match (if String.eqb g EmptyString then member t f else None) with
      | Some (o', t') => Some (o + o', t')
      | None => find_placed f l
      end
  end.
Lemma member_struct p fs f : member (Struct p fs) f = find_placed f (placed p 0 fs).
Proof.
  cbn [member]. generalize 0. induction fs as [|[g t] fs IH]; intros o; [done|]. cbn [placed find_placed].
  destruct (String.eqb f g); [done|]. rewrite IH. done.
Qed.
Lemma member_union p fs f : member (Union p fs) f = find_placed f ((fun x => (x.1, 0, x.2)) <$> fs).
Proof.
  cbn [member]. induction fs as [|[g t] fs IH]; [done|]. cbn [fmap list_fmap find_placed fst snd].
  destruct (String.eqb f g); [done|]. rewrite IH. by destruct (if String.eqb g EmptyString then member t f else None) as [[o' t']|].
Qed.

Definition inside (o : Z) (t : ctype) (b e : Z) : Prop := b <= o /\ o + sizeof t <= e.
Definition members_inside (t : ctype) : Prop := forall f o t', member t f = Some (o, t') -> inside o t' 0 (sizeof t).
Lemma find_placed_inside f l b e r :
  Forall (fun x => inside x.1.2 x.2 b e /\ members_inside x.2) l -> find_placed f l = Some r -> inside r.1 r.2 b e.
Proof.
  induction 1 as [|[[g o] t] l [[Hb He] Hm] _ IH]; [done|]. cbn in *. destruct (String.eqb f g); [by intros [= <-]|].
  destruct (String.eqb g EmptyString); [|exact IH]. destruct (member t f) as [[o' t']|] eqn:E; [|exact IH].
  intros [= <-]. cbn. destruct (Hm _ _ _ E). unfold inside. lia.
Qed.
Lemma placed_inside p fs : forall o, 0 <= o -> Forall (fun x => inside x.1.2 x.2 o (placed_end p o fs)) (placed p o fs).
Proof.
  induction fs as [|[f t] fs IH]; intros o Ho; [constructor|]. cbn [placed placed_end].
  pose proof (place_ge p o t Ho) as Hp. pose proof (sizeof_nonneg t) as Ht. specialize (IH (place p o t + sizeof t) ltac:(lia)).
  constructor; cbn.
  - split; [done|]. apply placed_end_ge; [apply all_nonneg | lia].
  - eapply Forall_impl; [exact IH|]. intros x [Hx Hy]. split; lia.
Qed.
Lemma elem_of_placed p fs g o1 t1 : forall o, (g, o1, t1) ∈ placed p o fs -> (g, t1) ∈ fs.
Proof.
  induction fs as [|[f t] fs IH]; intros o Hin; cbn in Hin; [by apply elem_of_nil in Hin|].
  apply elem_of_cons in Hin as [[= -> -> ->]|Hin]; [left | right; by apply IH in Hin].
Qed.
Lemma widest_inside p fs g t : (g, t) ∈ fs -> sizeof t <= sizeof (Union p fs).
Proof.
  intros Hin. rewrite sizeof_union. pose proof (align_ge _ _ (widest_nonneg fs) (alignof_pos (Union p fs))).
  enough (sizeof t <= widest fs) by lia. clear H. induction fs as [|[f t1] fs IH]; [by apply elem_of_nil in Hin|]. cbn.
  apply elem_of_cons in Hin as [[= -> ->]|Hin]; [lia|]. specialize (IH Hin). lia.
Qed.

Lemma member_inside t : members_inside t.
Proof.
  induction t as [n | t n IH | p fs IH | p fs IH] using ctype_nested; [done | done | |]; intros f o t' Hm;
    [change (inside (o, t').1 (o, t').2 0 (sizeof (Struct p fs))) | change (inside (o, t').1 (o, t').2 0 (sizeof (Union p fs)))].
  - rewrite member_struct in Hm. eapply find_placed_inside; [|exact Hm]. apply Forall_forall. intros [[g o1] t1] Hin. cbn [fst snd].
    pose proof (proj1 (Forall_forall _ _) (placed_inside p fs 0 ltac:(lia)) _ Hin) as [Hb He]. pose proof (placed_end_inside p fs).
    cbn [fst snd] in *. split; [split; lia|]. apply elem_of_placed in Hin. exact (proj1 (Forall_forall _ _) IH _ Hin).
  - rewrite member_union in Hm. eapply find_placed_inside; [|exact Hm]. apply Forall_forall. intros x Hin.
    apply list_elem_of_fmap in Hin as ([g t1] & -> & Hin). cbn [fst snd]. split; [|exact (proj1 (Forall_forall _ _) IH _ Hin)].
    split; [done|]. pose proof (widest_inside p fs _ _ Hin). lia.
Qed.

(** A path that names a place names one inside the object. *)
Lemma at_path_inside path : forall t o t', at_path t path = Some (o, t') -> inside o t' 0 (sizeof t).
Proof.
  induction path as [|f path IH]; intros t o t' H; cbn in H; [injection H as <- <-; split; lia|].
  destruct (member t f) as [[o1 t1]|] eqn:Em; [|done]. cbn in H. destruct (at_path t1 path) as [[o2 t2]|] eqn:Ep; [|done].
  injection H as <- <-. destruct (member_inside t f o1 t1 Em), (IH t1 o2 t2 Ep). split; lia.
Qed.

(** The members of a struct, in order, end before the next begins, each at a multiple of its alignment. *)
Lemma placed_after p fs o : 0 <= o -> Forall (fun x => o <= x.1.2) (placed p o fs).
Proof. intros Ho. eapply Forall_impl; [by apply placed_inside|]. by intros x []. Qed.
Lemma placed_in_order p fs : forall o, 0 <= o ->
  StronglySorted (fun x y => x.1.2 + sizeof x.2 <= y.1.2) (placed p o fs) /\
  Forall (fun x => x.1.2 mod Z.min (Z.pos p) (alignof x.2) = 0) (placed p o fs).
Proof.
  induction fs as [|[f t] fs IH]; intros o Ho; [split; constructor|]. cbn [placed].
  pose proof (place_ge p o t Ho) as Hp. pose proof (sizeof_nonneg t) as Ht.
  destruct (IH (place p o t + sizeof t) ltac:(lia)) as [Hs Ha]. split; constructor; try done.
  - apply placed_after. cbn. lia.
  - cbn. apply align_mod. pose proof (alignof_pos t). lia.
Qed.
