(* ===== verification/QmiStructs.v ===== *)
(** * MPQMI.h, MPQCTL.h, MPQMUX.h: the structs of the QMI messages, as far as they are compiled.
    All are packed ([Struct 1]).  A message of the program is a [QCQMIMSG] (QMIThread.h); the members of its unions are the messages of
    the services. *)
From S2P Require Import Prelude Layout.
From Stdlib Require Import String.
#[local] Open Scope string_scope.

(** ** MPQMI.h: headers *)
Definition QCUSB_CTL_MSG_HDR : ctype := Struct 1 [
  ("IFType", UCHAR)].
Definition QCUSB_CTL_MSG : ctype := Struct 1 [
  ("IFType", UCHAR); ("Message", UCHAR)].
Definition QCQMI_HDR : ctype := Struct 1 [
  ("IFType", UCHAR); ("Length", USHORT); ("CtlFlags", UCHAR); ("QMIType", UCHAR); ("ClientId", UCHAR)].
Definition QCQMI : ctype := Struct 1 [
  ("IFType", UCHAR); ("Length", USHORT); ("CtlFlags", UCHAR); ("QMIType", UCHAR); ("ClientId", UCHAR); ("SDU", UCHAR)].
Definition QMI_SERVICE_VERSION : ctype := Struct 1 [
  ("Major", USHORT); ("Minor", USHORT); ("AddendumMajor", USHORT); ("AddendumMinor", USHORT)].
Definition QCQMUX_HDR : ctype := Struct 1 [
  ("CtlFlags", UCHAR); ("TransactionId", USHORT)].
Definition QCQMUX : ctype := Struct 1 [
  ("CtlFlags", UCHAR); ("TransactionId", USHORT); ("Message", UCHAR)].
Definition QCQMUX_MSG_HDR : ctype := Struct 1 [
  ("Type", USHORT); ("Length", USHORT)].
Definition QCQMUX_MSG_HDR_RESP : ctype := Struct 1 [
  ("Type", USHORT); ("Length", USHORT); ("TLVType", UCHAR); ("TLVLength", USHORT); ("QMUXResult", USHORT);
  ("QMUXError", USHORT)].
Definition QCQMUX_TLV : ctype := Struct 1 [
  ("Type", UCHAR); ("Length", USHORT); ("Value", UCHAR)].
Definition QMI_TLV_HDR : ctype := Struct 1 [
  ("TLVType", UCHAR); ("TLVLength", USHORT)].

(** ** MPQCTL.h: the control service *)
Definition QCQMICTL_MSG_HDR : ctype := Struct 1 [
  ("CtlFlags", UCHAR); ("TransactionId", UCHAR); ("QMICTLType", USHORT); ("Length", USHORT)].
Definition QCQMICTL_MSG_HDR_RESP : ctype := Struct 1 [
  ("CtlFlags", UCHAR); ("TransactionId", UCHAR); ("QMICTLType", USHORT); ("Length", USHORT); ("TLVType", UCHAR);
  ("TLVLength", USHORT); ("QMUXResult", USHORT); ("QMUXError", USHORT)].
Definition QCQMICTL_MSG : ctype := Struct 1 [
  ("CtlFlags", UCHAR); ("TransactionId", UCHAR); ("QMICTLType", USHORT); ("Length", USHORT); ("Payload", UCHAR)].
Definition QCQMICTL_TLV_HDR : ctype := Struct 1 [
  ("TLVType", UCHAR); ("TLVLength", USHORT)].
Definition QMICTL_SET_INSTANCE_ID_REQ_MSG : ctype := Struct 1 [
  ("CtlFlags", UCHAR); ("TransactionId", UCHAR); ("QMICTLType", USHORT); ("Length", USHORT); ("TLVType", UCHAR);
  ("TLVLength", USHORT); ("Value", UCHAR)].
Definition QMICTL_SET_INSTANCE_ID_RESP_MSG : ctype := Struct 1 [
  ("CtlFlags", UCHAR); ("TransactionId", UCHAR); ("QMICTLType", USHORT); ("Length", USHORT); ("TLVType", UCHAR);
  ("TLVLength", USHORT); ("QMIResult", USHORT); ("QMIError", USHORT); ("TLV2Type", UCHAR); ("TLV2Length", USHORT);
  ("QMI_ID", USHORT)].
Definition QMICTL_GET_VERSION_REQ_MSG : ctype := Struct 1 [
  ("CtlFlags", UCHAR); ("TransactionId", UCHAR); ("QMICTLType", USHORT); ("Length", USHORT); ("TLVType", UCHAR);
  ("TLVLength", USHORT); ("QMUXTypes", UCHAR)].
Definition QMUX_TYPE_VERSION_STRUCT : ctype := Struct 1 [
  ("QMUXType", UCHAR); ("MajorVersion", USHORT); ("MinorVersion", USHORT)].
Definition ADDENDUM_VERSION_PREAMBLE : ctype := Struct 1 [
  ("LabelLength", UCHAR); ("Label", UCHAR)].
Definition QMICTL_GET_VERSION_RESP_MSG : ctype := Struct 1 [
  ("CtlFlags", UCHAR); ("TransactionId", UCHAR); ("QMICTLType", USHORT); ("Length", USHORT); ("TLVType", UCHAR);
  ("TLVLength", USHORT); ("QMIResult", USHORT); ("QMIError", USHORT); ("TLV2Type", UCHAR); ("TLV2Length", USHORT);
  ("NumElements", UCHAR); ("TypeVersion", Array QMUX_TYPE_VERSION_STRUCT 0)].
Definition QMICTL_GET_CLIENT_ID_REQ_MSG : ctype := Struct 1 [
  ("CtlFlags", UCHAR); ("TransactionId", UCHAR); ("QMICTLType", USHORT); ("Length", USHORT); ("TLVType", UCHAR);
  ("TLVLength", USHORT); ("QMIType", UCHAR)].
Definition QMICTL_GET_CLIENT_ID_RESP_MSG : ctype := Struct 1 [
  ("CtlFlags", UCHAR); ("TransactionId", UCHAR); ("QMICTLType", USHORT); ("Length", USHORT); ("TLVType", UCHAR);
  ("TLVLength", USHORT); ("QMIResult", USHORT); ("QMIError", USHORT); ("TLV2Type", UCHAR); ("TLV2Length", USHORT);
  ("QMIType", UCHAR); ("ClientId", UCHAR)].
Definition QMICTL_RELEASE_CLIENT_ID_REQ_MSG : ctype := Struct 1 [
  ("CtlFlags", UCHAR); ("TransactionId", UCHAR); ("QMICTLType", USHORT); ("Length", USHORT); ("TLVType", UCHAR);
  ("TLVLength", USHORT); ("QMIType", UCHAR); ("ClientId", UCHAR)].
Definition QMICTL_RELEASE_CLIENT_ID_RESP_MSG : ctype := Struct 1 [
  ("CtlFlags", UCHAR); ("TransactionId", UCHAR); ("QMICTLType", USHORT); ("Length", USHORT); ("TLVType", UCHAR);
  ("TLVLength", USHORT); ("QMIResult", USHORT); ("QMIError", USHORT); ("TLV2Type", UCHAR); ("TLV2Length", USHORT);
  ("QMIType", UCHAR); ("ClientId", UCHAR)].
Definition QMICTL_REVOKE_CLIENT_ID_IND_MSG : ctype := Struct 1 [
  ("CtlFlags", UCHAR); ("TransactionId", UCHAR); ("QMICTLType", USHORT); ("Length", USHORT); ("TLVType", UCHAR);
  ("TLVLength", USHORT); ("QMIType", UCHAR); ("ClientId", UCHAR)].
Definition QMICTL_INVALID_CLIENT_ID_IND_MSG : ctype := Struct 1 [
  ("CtlFlags", UCHAR); ("TransactionId", UCHAR); ("QMICTLType", USHORT); ("Length", USHORT); ("TLVType", UCHAR);
  ("TLVLength", USHORT); ("QMIType", UCHAR); ("ClientId", UCHAR)].
Definition QMICTL_SET_DATA_FORMAT_REQ_MSG : ctype := Struct 1 [
  ("CtlFlags", UCHAR); ("TransactionId", UCHAR); ("QMICTLType", USHORT); ("Length", USHORT); ("TLVType", UCHAR);
  ("TLVLength", USHORT); ("DataFormat", UCHAR)].
Definition QMICTL_SET_DATA_FORMAT_RESP_MSG : ctype := Struct 1 [
  ("CtlFlags", UCHAR); ("TransactionId", UCHAR); ("QMICTLType", USHORT); ("Length", USHORT); ("TLVType", UCHAR);
  ("TLVLength", USHORT); ("QMIResult", USHORT); ("QMIError", USHORT)].
Definition QMICTL_SYNC_REQ_MSG : ctype := Struct 1 [
  ("CtlFlags", UCHAR); ("TransactionId", UCHAR); ("QMICTLType", USHORT); ("Length", USHORT)].
Definition QMICTL_SYNC_RESP_MSG : ctype := Struct 1 [
  ("CtlFlags", UCHAR); ("TransactionId", UCHAR); ("QMICTLType", USHORT); ("Length", USHORT); ("TLVType", UCHAR);
  ("TLVLength", USHORT); ("QMIResult", USHORT); ("QMIError", USHORT)].
Definition QMICTL_SYNC_IND_MSG : ctype := Struct 1 [
  ("CtlFlags", UCHAR); ("TransactionId", UCHAR); ("QMICTLType", USHORT); ("Length", USHORT)].
Definition QMICTL_MSG : ctype := Struct 1 [
  ("", Union 1 [
      ("QMICTLMsgHdr", QCQMICTL_MSG_HDR); ("QMICTLMsgHdrRsp", QCQMICTL_MSG_HDR_RESP);
      ("SetInstanceIdReq", QMICTL_SET_INSTANCE_ID_REQ_MSG); ("SetInstanceIdRsp", QMICTL_SET_INSTANCE_ID_RESP_MSG);
      ("GetVersionReq", QMICTL_GET_VERSION_REQ_MSG); ("GetVersionRsp", QMICTL_GET_VERSION_RESP_MSG);
      ("GetClientIdReq", QMICTL_GET_CLIENT_ID_REQ_MSG); ("GetClientIdRsp", QMICTL_GET_CLIENT_ID_RESP_MSG);
      ("ReleaseClientIdReq", QMICTL_RELEASE_CLIENT_ID_REQ_MSG); ("ReleaseClientIdRsp", QMICTL_RELEASE_CLIENT_ID_RESP_MSG);
      ("RevokeClientIdInd", QMICTL_REVOKE_CLIENT_ID_IND_MSG); ("InvalidClientIdInd", QMICTL_INVALID_CLIENT_ID_IND_MSG);
      ("SetDataFormatReq", QMICTL_SET_DATA_FORMAT_REQ_MSG); ("SetDataFormatRsp", QMICTL_SET_DATA_FORMAT_RESP_MSG);
      ("SyncReq", QMICTL_SYNC_REQ_MSG); ("SyncRsp", QMICTL_SYNC_RESP_MSG);
      ("SyncInd", QMICTL_SYNC_IND_MSG)])].

(** ** MPQMUX.h: the other services *)
Definition QMIWDS_ADMIN_SET_DATA_FORMAT : ctype := Struct 1 [
  ("Type", USHORT); ("Length", USHORT)].
Definition QMIWDS_ADMIN_SET_DATA_FORMAT_TLV_QOS : ctype := Struct 1 [
  ("TLVType", UCHAR); ("TLVLength", USHORT); ("QOSSetting", UCHAR)].
Definition QMIWDS_ADMIN_SET_DATA_FORMAT_TLV : ctype := Struct 1 [
  ("TLVType", UCHAR); ("TLVLength", USHORT); ("Value", ULONG)].
Definition QMIWDS_ENDPOINT_TLV : ctype := Struct 1 [
  ("TLVType", UCHAR); ("TLVLength", USHORT); ("ep_type", ULONG); ("iface_id", ULONG)].
Definition QMIWDS_ADMIN_SET_DATA_FORMAT_REQ_MSG : ctype := Struct 1 [
  ("Type", USHORT); ("Length", USHORT); ("QosDataFormatTlv", QMIWDS_ADMIN_SET_DATA_FORMAT_TLV_QOS);
  ("UnderlyingLinkLayerProtocolTlv", QMIWDS_ADMIN_SET_DATA_FORMAT_TLV);
  ("UplinkDataAggregationProtocolTlv", QMIWDS_ADMIN_SET_DATA_FORMAT_TLV);
  ("DownlinkDataAggregationProtocolTlv", QMIWDS_ADMIN_SET_DATA_FORMAT_TLV);
  ("DownlinkDataAggregationMaxDatagramsTlv", QMIWDS_ADMIN_SET_DATA_FORMAT_TLV);
  ("DownlinkDataAggregationMaxSizeTlv", QMIWDS_ADMIN_SET_DATA_FORMAT_TLV); ("epTlv", QMIWDS_ENDPOINT_TLV);
  ("DlMinimumPassingTlv", QMIWDS_ADMIN_SET_DATA_FORMAT_TLV);
  ("UplinkDataAggregationMaxDatagramsTlv", QMIWDS_ADMIN_SET_DATA_FORMAT_TLV);
  ("UplinkDataAggregationMaxSizeTlv", QMIWDS_ADMIN_SET_DATA_FORMAT_TLV)].
Definition QMI_U8_TLV : ctype := Struct 1 [
  ("TLVType", UCHAR); ("TLVLength", USHORT); ("TLVVaule", UCHAR)].
Definition QMI_U32_TLV : ctype := Struct 1 [
  ("TLVType", UCHAR); ("TLVLength", USHORT); ("TLVVaule", ULONG)].
Definition QMI_WDA_SET_LOOPBACK_CONFIG_REQ_MSG : ctype := Struct 1 [
  ("Type", USHORT); ("Length", USHORT); ("loopback_state", QMI_U8_TLV); ("replication_factor", QMI_U32_TLV)].
Definition QMI_WDA_SET_LOOPBACK_CONFIG_IND_MSG : ctype := Struct 1 [
  ("Type", USHORT); ("Length", USHORT); ("loopback_state", QMI_U8_TLV); ("replication_factor", QMI_U32_TLV)].
Definition QMIWDS_GET_RUNTIME_SETTINGS_REQ_MSG : ctype := Struct 1 [
  ("Type", USHORT); ("Length", USHORT); ("TLVType", UCHAR); ("TLVLength", USHORT); ("Mask", ULONG)].
Definition QMIWDS_BIND_MUX_DATA_PORT_REQ_MSG : ctype := Struct 1 [
  ("Type", USHORT); ("Length", USHORT); ("TLVType", UCHAR); ("TLVLength", USHORT); ("ep_type", ULONG);
  ("iface_id", ULONG); ("TLV2Type", UCHAR); ("TLV2Length", USHORT); ("MuxId", UCHAR); ("TLV3Type", UCHAR);
  ("TLV3Length", USHORT); ("client_type", ULONG)].
Definition QMIWDS_GET_RUNTIME_SETTINGS_TLV_MTU : ctype := Struct 1 [
  ("TLVType", UCHAR); ("TLVLength", USHORT); ("Mtu", ULONG)].
Definition QMIWDS_GET_RUNTIME_SETTINGS_TLV_IPV4_ADDR : ctype := Struct 1 [
  ("TLVType", UCHAR); ("TLVLength", USHORT); ("IPV4Address", ULONG)].
Definition QMIWDS_GET_RUNTIME_SETTINGS_TLV_IPV6_ADDR : ctype := Struct 1 [
  ("TLVType", UCHAR); ("TLVLength", USHORT); ("IPV6Address", Array UCHAR 16); ("PrefixLength", UCHAR)].
Definition QMIWDS_GET_RUNNING_SETTINGS_PCSCF_IPV6_ADDR : ctype := Struct 1 [
  ("TLVType", UCHAR); ("TLVLength", USHORT); ("PCSCFNumber", UCHAR)].
Definition QMIWDS_GET_RUNNING_SETTINGS_PCSCF_IPV4_ADDR : ctype := Struct 1 [
  ("TLVType", UCHAR); ("TLVLength", USHORT); ("PCSCFNumber", UCHAR)].
Definition QMIWDS_GET_RUNTIME_SETTINGS_RESP_MSG : ctype := Struct 1 [
  ("Type", USHORT); ("Length", USHORT); ("TLVType", UCHAR); ("TLVLength", USHORT); ("QMUXResult", USHORT);
  ("QMUXError", USHORT)].
Definition QMIWDS_IP_FAMILY_TLV : ctype := Struct 1 [
  ("TLVType", UCHAR); ("TLVLength", USHORT); ("IpFamily", UCHAR)].
Definition QMIWDS_PKT_SRVC_TLV : ctype := Struct 1 [
  ("TLVType", UCHAR); ("TLVLength", USHORT); ("ConnectionStatus", UCHAR); ("ReconfigReqd", UCHAR)].
Definition QMIWDS_CALL_END_REASON_TLV : ctype := Struct 1 [
  ("TLVType", UCHAR); ("TLVLength", USHORT); ("CallEndReason", USHORT)].
Definition QMIWDS_CALL_END_REASON_V_TLV : ctype := Struct 1 [
  ("TLVType", UCHAR); ("TLVLength", USHORT); ("CallEndReasonType", USHORT); ("CallEndReason", USHORT)].
Definition QMIWDS_SET_CLIENT_IP_FAMILY_PREF_REQ_MSG : ctype := Struct 1 [
  ("Type", USHORT); ("Length", USHORT); ("TLVType", UCHAR); ("TLVLength", USHORT); ("IpPreference", UCHAR)].
Definition QMIWDS_SET_CLIENT_IP_FAMILY_PREF_RESP_MSG : ctype := Struct 1 [
  ("Type", USHORT); ("Length", USHORT); ("TLVType", UCHAR); ("TLVLength", USHORT); ("QMUXResult", USHORT);
  ("QMUXError", USHORT)].
Definition QMIWDS_SET_AUTO_CONNECT_REQ_MSG : ctype := Struct 1 [
  ("Type", USHORT); ("Length", USHORT); ("TLVType", UCHAR); ("TLVLength", USHORT); ("autoconnect_setting", UCHAR)].
Definition QMIWDS_TECHNOLOGY_PREFERECE : ctype := Struct 1 [
  ("TLVType", UCHAR); ("TLVLength", USHORT); ("TechPreference", UCHAR)].
Definition QMIWDS_PROFILE_IDENTIFIER : ctype := Struct 1 [
  ("TLVType", UCHAR); ("TLVLength", USHORT); ("ProfileIndex", UCHAR)].
Definition QMIWDS_PROFILENAME : ctype := Struct 1 [
  ("TLVType", UCHAR); ("TLVLength", USHORT); ("ProfileName", UCHAR)].
Definition QMIWDS_PDPTYPE : ctype := Struct 1 [
  ("TLVType", UCHAR); ("TLVLength", USHORT); ("PdpType", UCHAR)].
Definition QMIWDS_USERNAME : ctype := Struct 1 [
  ("TLVType", UCHAR); ("TLVLength", USHORT); ("UserName", UCHAR)].
Definition QMIWDS_PASSWD : ctype := Struct 1 [
  ("TLVType", UCHAR); ("TLVLength", USHORT); ("Passwd", UCHAR)].
Definition QMIWDS_AUTH_PREFERENCE : ctype := Struct 1 [
  ("TLVType", UCHAR); ("TLVLength", USHORT); ("AuthPreference", UCHAR)].
Definition QMIWDS_APNNAME : ctype := Struct 1 [
  ("TLVType", UCHAR); ("TLVLength", USHORT); ("ApnName", UCHAR)].
Definition QMIWDS_AUTOCONNECT : ctype := Struct 1 [
  ("TLVType", UCHAR); ("TLVLength", USHORT); ("AutoConnect", UCHAR)].
Definition QMIWDS_START_NETWORK_INTERFACE_REQ_MSG : ctype := Struct 1 [
  ("Type", USHORT); ("Length", USHORT)].
Definition QMIWDS_CALLENDREASON : ctype := Struct 1 [
  ("TLVType", UCHAR); ("TLVLength", USHORT); ("Reason", USHORT)].
Definition QMIWDS_START_NETWORK_INTERFACE_RESP_MSG : ctype := Struct 1 [
  ("Type", USHORT); ("Length", USHORT); ("TLVType", UCHAR); ("TLVLength", USHORT); ("QMUXResult", USHORT);
  ("QMUXError", USHORT); ("TLV2Type", UCHAR); ("TLV2Length", USHORT); ("Handle", ULONG)].
Definition QMIWDS_STOP_NETWORK_INTERFACE_REQ_MSG : ctype := Struct 1 [
  ("Type", USHORT); ("Length", USHORT); ("TLVType", UCHAR); ("TLVLength", USHORT); ("Handle", ULONG)].
Definition QMIWDS_STOP_NETWORK_INTERFACE_RESP_MSG : ctype := Struct 1 [
  ("Type", USHORT); ("Length", USHORT); ("TLVType", UCHAR); ("TLVLength", USHORT); ("QMUXResult", USHORT);
  ("QMUXError", USHORT)].
Definition QMIWDS_GET_DEFAULT_SETTINGS_REQ_MSG : ctype := Struct 1 [
  ("Type", USHORT); ("Length", USHORT); ("TLVType", UCHAR); ("TLVLength", USHORT); ("ProfileType", UCHAR)].
Definition QMIWDS_GET_DEFAULT_SETTINGS_RESP_MSG : ctype := Struct 1 [
  ("Type", USHORT); ("Length", USHORT); ("TLVType", UCHAR); ("TLVLength", USHORT); ("QMUXResult", USHORT);
  ("QMUXError", USHORT)].
Definition QMIWDS_MODIFY_PROFILE_SETTINGS_REQ_MSG : ctype := Struct 1 [
  ("Type", USHORT); ("Length", USHORT); ("TLVType", UCHAR); ("TLVLength", USHORT); ("ProfileType", UCHAR);
  ("ProfileIndex", UCHAR)].
Definition QMIWDS_MODIFY_PROFILE_SETTINGS_RESP_MSG : ctype := Struct 1 [
  ("Type", USHORT); ("Length", USHORT); ("TLVType", UCHAR); ("TLVLength", USHORT); ("QMUXResult", USHORT);
  ("QMUXError", USHORT)].
Definition QMIWDS_GET_PROFILE_SETTINGS_REQ_MSG : ctype := Struct 1 [
  ("Type", USHORT); ("Length", USHORT); ("TLVType", UCHAR); ("TLVLength", USHORT); ("ProfileType", UCHAR);
  ("ProfileIndex", UCHAR)].
Definition QMIDMS_GET_DEVICE_REV_ID_REQ_MSG : ctype := Struct 1 [
  ("Type", USHORT); ("Length", USHORT)].
Definition DEVICE_REV_ID : ctype := Struct 1 [
  ("TLVType", UCHAR); ("TLVLength", USHORT); ("RevisionID", UCHAR)].
Definition QMIDMS_GET_DEVICE_REV_ID_RESP_MSG : ctype := Struct 1 [
  ("Type", USHORT); ("Length", USHORT); ("TLVType", UCHAR); ("TLVLength", USHORT); ("QMUXResult", USHORT);
  ("QMUXError", USHORT)].
Definition QMIDMS_GET_MSISDN_REQ_MSG : ctype := Struct 1 [
  ("Type", USHORT); ("Length", USHORT)].
Definition QCTLV_DEVICE_VOICE_NUMBERS : ctype := Struct 1 [
  ("TLVType", UCHAR); ("TLVLength", USHORT); ("VoideNumberString", Array UCHAR 0)].
Definition QMIDMS_GET_MSISDN_RESP_MSG : ctype := Struct 1 [
  ("Type", USHORT); ("Length", USHORT); ("TLVType", UCHAR); ("TLVLength", USHORT); ("QMUXResult", USHORT);
  ("QMUXError", USHORT)].
Definition QMIDMS_UIM_GET_IMSI_REQ_MSG : ctype := Struct 1 [
  ("Type", USHORT); ("Length", USHORT)].
Definition QMIDMS_UIM_GET_IMSI_RESP_MSG : ctype := Struct 1 [
  ("Type", USHORT); ("Length", USHORT); ("TLVType", UCHAR); ("TLVLength", USHORT); ("QMUXResult", USHORT);
  ("QMUXError", USHORT); ("TLV2Type", UCHAR); ("TLV2Length", USHORT); ("IMSI", UCHAR)].
Definition QMIDMS_GET_DEVICE_SERIAL_NUMBERS_REQ_MSG : ctype := Struct 1 [
  ("Type", USHORT); ("Length", USHORT)].
Definition QCTLV_DEVICE_SERIAL_NUMBER : ctype := Struct 1 [
  ("TLVType", UCHAR); ("TLVLength", USHORT); ("SerialNumberString", Array UCHAR 0)].
Definition QMIDMS_GET_DEVICE_SERIAL_NUMBERS_RESP_MSG : ctype := Struct 1 [
  ("Type", USHORT); ("Length", USHORT); ("TLVType", UCHAR); ("TLVLength", USHORT); ("QMUXResult", USHORT);
  ("QMUXError", USHORT)].
Definition QMIDMS_SET_OPERATING_MODE_REQ_MSG : ctype := Struct 1 [
  ("Type", USHORT); ("Length", USHORT); ("TLVType", UCHAR); ("TLVLength", USHORT); ("OperatingMode", UCHAR)].
Definition QMIDMS_SET_OPERATING_MODE_RESP_MSG : ctype := Struct 1 [
  ("Type", USHORT); ("Length", USHORT); ("TLVType", UCHAR); ("TLVLength", USHORT); ("QMUXResult", USHORT);
  ("QMUXError", USHORT)].
Definition QMIDMS_UIM_GET_STATE_REQ_MSG : ctype := Struct 1 [
  ("Type", USHORT); ("Length", USHORT)].
Definition QMIDMS_UIM_GET_STATE_RESP_MSG : ctype := Struct 1 [
  ("Type", USHORT); ("Length", USHORT); ("TLVType", UCHAR); ("TLVLength", USHORT); ("QMUXResult", USHORT);
  ("QMUXError", USHORT); ("TLV2Type", UCHAR); ("TLV2Length", USHORT); ("UIMState", UCHAR)].
Definition QMIDMS_UIM_GET_PIN_STATUS_REQ_MSG : ctype := Struct 1 [
  ("Type", USHORT); ("Length", USHORT)].
Definition QMIDMS_UIM_PIN_STATUS : ctype := Struct 1 [
  ("TLVType", UCHAR); ("TLVLength", USHORT); ("PINStatus", UCHAR); ("PINVerifyRetriesLeft", UCHAR);
  ("PINUnblockRetriesLeft", UCHAR)].
Definition QMIDMS_UIM_GET_PIN_STATUS_RESP_MSG : ctype := Struct 1 [
  ("Type", USHORT); ("Length", USHORT); ("TLVType", UCHAR); ("TLVLength", USHORT); ("QMUXResult", USHORT);
  ("QMUXError", USHORT); ("PinStatus", UCHAR)].
Definition QMIDMS_UIM_VERIFY_PIN_REQ_MSG : ctype := Struct 1 [
  ("Type", USHORT); ("Length", USHORT); ("TLVType", UCHAR); ("TLVLength", USHORT); ("PINID", UCHAR); ("PINLen", UCHAR);
  ("PINValue", UCHAR)].
Definition QMIDMS_UIM_VERIFY_PIN_RESP_MSG : ctype := Struct 1 [
  ("Type", USHORT); ("Length", USHORT); ("TLVType", UCHAR); ("TLVLength", USHORT); ("QMUXResult", USHORT);
  ("QMUXError", USHORT); ("TLV2Type", UCHAR); ("TLV2Length", USHORT); ("PINVerifyRetriesLeft", UCHAR);
  ("PINUnblockRetriesLeft", UCHAR)].
Definition QMINAS_GET_HOME_NETWORK_REQ_MSG : ctype := Struct 1 [
  ("Type", USHORT); ("Length", USHORT)].
Definition HOME_NETWORK_SYSTEMID : ctype := Struct 1 [
  ("TLVType", UCHAR); ("TLVLength", USHORT); ("SystemID", USHORT); ("NetworkID", USHORT)].
Definition HOME_NETWORK : ctype := Struct 1 [
  ("TLVType", UCHAR); ("TLVLength", USHORT); ("MobileCountryCode", USHORT); ("MobileNetworkCode", USHORT);
  ("NetworkDesclen", UCHAR); ("NetworkDesc", UCHAR)].
Definition QMINAS_DATA_CAP : ctype := Struct 1 [
  ("TLVType", UCHAR); ("TLVLength", USHORT); ("DataCapListLen", UCHAR); ("DataCap", UCHAR)].
Definition QMINAS_CURRENT_PLMN_MSG : ctype := Struct 1 [
  ("TLVType", UCHAR); ("TLVLength", USHORT); ("MobileCountryCode", USHORT); ("MobileNetworkCode", USHORT);
  ("NetworkDesclen", UCHAR); ("NetworkDesc", UCHAR)].
Definition QMINAS_GET_SERVING_SYSTEM_RESP_MSG : ctype := Struct 1 [
  ("Type", USHORT); ("Length", USHORT); ("TLVType", UCHAR); ("TLVLength", USHORT); ("QMUXResult", USHORT);
  ("QMUXError", USHORT)].
Definition SERVING_SYSTEM : ctype := Struct 1 [
  ("TLVType", UCHAR); ("TLVLength", USHORT); ("RegistrationState", UCHAR); ("CSAttachedState", UCHAR);
  ("PSAttachedState", UCHAR); ("RegistredNetwork", UCHAR); ("InUseRadioIF", UCHAR); ("RadioIF", UCHAR)].
Definition QMINAS_GET_SYS_INFO_RESP_MSG : ctype := Struct 1 [
  ("Type", USHORT); ("Length", USHORT); ("TLVType", UCHAR); ("TLVLength", USHORT); ("QMUXResult", USHORT);
  ("QMUXError", USHORT)].
Definition QMINAS_SYS_INFO_IND_MSG : ctype := Struct 1 [
  ("Type", USHORT); ("Length", USHORT)].
Definition SERVICE_STATUS_INFO : ctype := Struct 1 [
  ("TLVType", UCHAR); ("TLVLength", USHORT); ("SrvStatus", UCHAR); ("true_srv_status", UCHAR);
  ("IsPrefDataPath", UCHAR)].
Definition CDMA_SYSTEM_INFO : ctype := Struct 1 [
  ("TLVType", UCHAR); ("TLVLength", USHORT); ("SrvDomainValid", UCHAR); ("SrvDomain", UCHAR);
  ("SrvCapabilityValid", UCHAR); ("SrvCapability", UCHAR); ("RoamStatusValid", UCHAR); ("RoamStatus", UCHAR);
  ("IsSysForbiddenValid", UCHAR); ("IsSysForbidden", UCHAR); ("IsSysPrlMatchValid", UCHAR); ("IsSysPrlMatch", UCHAR);
  ("PRevInUseValid", UCHAR); ("PRevInUse", UCHAR); ("BSPRevValid", UCHAR); ("BSPRev", UCHAR);
  ("CCSSupportedValid", UCHAR); ("CCSSupported", UCHAR); ("CDMASysIdValid", UCHAR); ("SID", USHORT); ("NID", USHORT);
  ("BSInfoValid", UCHAR); ("BaseID", USHORT); ("BaseLAT", ULONG); ("BaseLONG", ULONG); ("PacketZoneValid", UCHAR);
  ("PacketZone", USHORT); ("NetworkIdValid", UCHAR); ("MCC", Array UCHAR 3); ("MNC", Array UCHAR 3)].
Definition HDR_SYSTEM_INFO : ctype := Struct 1 [
  ("TLVType", UCHAR); ("TLVLength", USHORT); ("SrvDomainValid", UCHAR); ("SrvDomain", UCHAR);
  ("SrvCapabilityValid", UCHAR); ("SrvCapability", UCHAR); ("RoamStatusValid", UCHAR); ("RoamStatus", UCHAR);
  ("IsSysForbiddenValid", UCHAR); ("IsSysForbidden", UCHAR); ("IsSysPrlMatchValid", UCHAR); ("IsSysPrlMatch", UCHAR);
  ("HdrPersonalityValid", UCHAR); ("HdrPersonality", UCHAR); ("HdrActiveProtValid", UCHAR); ("HdrActiveProt", UCHAR);
  ("is856SysIdValid", UCHAR); ("is856SysId", Array UCHAR 16)].
Definition GSM_SYSTEM_INFO : ctype := Struct 1 [
  ("TLVType", UCHAR); ("TLVLength", USHORT); ("SrvDomainValid", UCHAR); ("SrvDomain", UCHAR);
  ("SrvCapabilityValid", UCHAR); ("SrvCapability", UCHAR); ("RoamStatusValid", UCHAR); ("RoamStatus", UCHAR);
  ("IsSysForbiddenValid", UCHAR); ("IsSysForbidden", UCHAR); ("LacValid", UCHAR); ("Lac", USHORT);
  ("CellIdValid", UCHAR); ("CellId", ULONG); ("RegRejectInfoValid", UCHAR); ("RejectSrvDomain", UCHAR);
  ("RejCause", UCHAR); ("NetworkIdValid", UCHAR); ("MCC", Array UCHAR 3); ("MNC", Array UCHAR 3);
  ("EgprsSuppValid", UCHAR); ("EgprsSupp", UCHAR); ("DtmSuppValid", UCHAR); ("DtmSupp", UCHAR)].
Definition WCDMA_SYSTEM_INFO : ctype := Struct 1 [
  ("TLVType", UCHAR); ("TLVLength", USHORT); ("SrvDomainValid", UCHAR); ("SrvDomain", UCHAR);
  ("SrvCapabilityValid", UCHAR); ("SrvCapability", UCHAR); ("RoamStatusValid", UCHAR); ("RoamStatus", UCHAR);
  ("IsSysForbiddenValid", UCHAR); ("IsSysForbidden", UCHAR); ("LacValid", UCHAR); ("Lac", USHORT);
  ("CellIdValid", UCHAR); ("CellId", ULONG); ("RegRejectInfoValid", UCHAR); ("RejectSrvDomain", UCHAR);
  ("RejCause", UCHAR); ("NetworkIdValid", UCHAR); ("MCC", Array UCHAR 3); ("MNC", Array UCHAR 3);
  ("HsCallStatusValid", UCHAR); ("HsCallStatus", UCHAR); ("HsIndValid", UCHAR); ("HsInd", UCHAR); ("PscValid", UCHAR);
  ("Psc", UCHAR)].
Definition LTE_SYSTEM_INFO : ctype := Struct 1 [
  ("TLVType", UCHAR); ("TLVLength", USHORT); ("SrvDomainValid", UCHAR); ("SrvDomain", UCHAR);
  ("SrvCapabilityValid", UCHAR); ("SrvCapability", UCHAR); ("RoamStatusValid", UCHAR); ("RoamStatus", UCHAR);
  ("IsSysForbiddenValid", UCHAR); ("IsSysForbidden", UCHAR); ("LacValid", UCHAR); ("Lac", USHORT);
  ("CellIdValid", UCHAR); ("CellId", ULONG); ("RegRejectInfoValid", UCHAR); ("RejectSrvDomain", UCHAR);
  ("RejCause", UCHAR); ("NetworkIdValid", UCHAR); ("MCC", Array UCHAR 3); ("MNC", Array UCHAR 3); ("TacValid", UCHAR);
  ("Tac", USHORT)].
Definition TDSCDMA_SYSTEM_INFO : ctype := Struct 1 [
  ("TLVType", UCHAR); ("TLVLength", USHORT); ("SrvDomainValid", UCHAR); ("SrvDomain", UCHAR);
  ("SrvCapabilityValid", UCHAR); ("SrvCapability", UCHAR); ("RoamStatusValid", UCHAR); ("RoamStatus", UCHAR);
  ("IsSysForbiddenValid", UCHAR); ("IsSysForbidden", UCHAR); ("LacValid", UCHAR); ("Lac", USHORT);
  ("CellIdValid", UCHAR); ("CellId", ULONG); ("RegRejectInfoValid", UCHAR); ("RejectSrvDomain", UCHAR);
  ("RejCause", UCHAR); ("NetworkIdValid", UCHAR); ("MCC", Array UCHAR 3); ("MNC", Array UCHAR 3);
  ("HsCallStatusValid", UCHAR); ("HsCallStatus", UCHAR); ("HsIndValid", UCHAR); ("HsInd", UCHAR);
  ("CellParameterIdValid", UCHAR); ("CellParameterId", USHORT); ("CellBroadcastCapValid", UCHAR);
  ("CellBroadcastCap", ULONG); ("CsBarStatusValid", UCHAR); ("CsBarStatus", ULONG); ("PsBarStatusValid", UCHAR);
  ("PsBarStatus", ULONG); ("CipherDomainValid", UCHAR); ("CipherDomain", UCHAR)].
Definition NR5G_SYSTEM_INFO : ctype := Struct 1 [
  ("TLVType", UCHAR); ("TLVLength", USHORT); ("srv_domain_valid", UCHAR); ("srv_domain", UCHAR);
  ("srv_capability_valid", UCHAR); ("srv_capability", UCHAR); ("roam_status_valid", UCHAR); ("roam_status", UCHAR);
  ("is_sys_forbidden_valid", UCHAR); ("is_sys_forbidden", UCHAR); ("lac_valid", UCHAR); ("lac", USHORT);
  ("cell_id_valid", UCHAR); ("cell_id", ULONG); ("reg_reject_info_valid", UCHAR); ("reject_srv_domain", UCHAR);
  ("rej_cause", UCHAR); ("network_id_valid", UCHAR); ("MCC", Array UCHAR 3); ("MNC", Array UCHAR 3);
  ("tac_valid", UCHAR); ("tac", USHORT)].
Definition QMINAS_SIG_INFO_CDMA_TLV_MSG : ctype := Struct 1 [
  ("TLVType", UCHAR); ("TLVLength", USHORT); ("rssi", CHAR); ("ecio", SHORT)].
Definition QMINAS_SIG_INFO_HDR_TLV_MSG : ctype := Struct 1 [
  ("TLVType", UCHAR); ("TLVLength", USHORT); ("rssi", CHAR); ("ecio", SHORT); ("sinr", CHAR); ("io", INT)].
Definition QMINAS_SIG_INFO_GSM_TLV_MSG : ctype := Struct 1 [
  ("TLVType", UCHAR); ("TLVLength", USHORT); ("rssi", CHAR)].
Definition QMINAS_SIG_INFO_WCDMA_TLV_MSG : ctype := Struct 1 [
  ("TLVType", UCHAR); ("TLVLength", USHORT); ("rssi", CHAR); ("ecio", SHORT)].
Definition QMINAS_SIG_INFO_LTE_TLV_MSG : ctype := Struct 1 [
  ("TLVType", UCHAR); ("TLVLength", USHORT); ("rssi", CHAR); ("rsrq", CHAR); ("rsrp", SHORT); ("snr", SHORT)].
Definition QMINAS_SIG_INFO_TDSCDMA_TLV_MSG : ctype := Struct 1 [
  ("TLVType", UCHAR); ("TLVLength", USHORT); ("rscp", CHAR)].
Definition QMIUIM_GET_CARD_STATUS_RESP_MSG : ctype := Struct 1 [
  ("Type", USHORT); ("Length", USHORT); ("TLVType", UCHAR); ("TLVLength", USHORT); ("QMUXResult", USHORT);
  ("QMUXError", USHORT)].
Definition QMIUIM_CARD_STATUS : ctype := Struct 1 [
  ("TLVType", UCHAR); ("TLVLength", USHORT); ("IndexGWPri", USHORT); ("Index1XPri", USHORT); ("IndexGWSec", USHORT);
  ("Index1XSec", USHORT); ("NumSlot", UCHAR); ("CardState", UCHAR); ("UPINState", UCHAR); ("UPINRetries", UCHAR);
  ("UPUKRetries", UCHAR); ("ErrorCode", UCHAR); ("NumApp", UCHAR); ("AppType", UCHAR); ("AppState", UCHAR);
  ("PersoState", UCHAR); ("PersoFeature", UCHAR); ("PersoRetries", UCHAR); ("PersoUnblockRetries", UCHAR);
  ("AIDLength", UCHAR)].
Definition QMIUIM_PIN_STATE : ctype := Struct 1 [
  ("UnivPIN", UCHAR); ("PIN1State", UCHAR); ("PIN1Retries", UCHAR); ("PUK1Retries", UCHAR); ("PIN2State", UCHAR);
  ("PIN2Retries", UCHAR); ("PUK2Retries", UCHAR)].
Definition QMIUIM_VERIFY_PIN_REQ_MSG : ctype := Struct 1 [
  ("Type", USHORT); ("Length", USHORT); ("TLVType", UCHAR); ("TLVLength", USHORT); ("Session_Type", UCHAR);
  ("Aid_Len", UCHAR); ("TLV2Type", UCHAR); ("TLV2Length", USHORT); ("PINID", UCHAR); ("PINLen", UCHAR);
  ("PINValue", UCHAR)].
Definition QMIUIM_VERIFY_PIN_RESP_MSG : ctype := Struct 1 [
  ("Type", USHORT); ("Length", USHORT); ("TLVType", UCHAR); ("TLVLength", USHORT); ("QMUXResult", USHORT);
  ("QMUXError", USHORT); ("TLV2Type", UCHAR); ("TLV2Length", USHORT); ("PINVerifyRetriesLeft", UCHAR);
  ("PINUnblockRetriesLeft", UCHAR)].
Definition QMIUIM_READ_TRANSPARENT_REQ_MSG : ctype := Struct 1 [
  ("Type", USHORT); ("Length", USHORT); ("TLVType", UCHAR); ("TLVLength", USHORT); ("Session_Type", UCHAR);
  ("Aid_Len", UCHAR); ("TLV2Type", UCHAR); ("TLV2Length", USHORT); ("file_id", USHORT); ("path_len", UCHAR);
  ("path", Array UCHAR 0)].
Definition READ_TRANSPARENT_TLV : ctype := Struct 1 [
  ("TLVType", UCHAR); ("TLVLength", USHORT); ("Offset", USHORT); ("Length", USHORT)].
Definition QMIUIM_CONTENT : ctype := Struct 1 [
  ("TLVType", UCHAR); ("TLVLength", USHORT); ("content_len", USHORT); ("content", Array UCHAR 0)].
Definition QMIUIM_READ_TRANSPARENT_RESP_MSG : ctype := Struct 1 [
  ("Type", USHORT); ("Length", USHORT); ("TLVType", UCHAR); ("TLVLength", USHORT); ("QMUXResult", USHORT);
  ("QMUXError", USHORT)].
Definition QMUX_MSG : ctype := Struct 1 [
  ("QMUXHdr", QCQMUX_HDR);
  ("", Union 1 [
      ("QMUXMsgHdr", QCQMUX_MSG_HDR); ("QMUXMsgHdrResp", QCQMUX_MSG_HDR_RESP);
      ("GetRuntimeSettingsReq", QMIWDS_GET_RUNTIME_SETTINGS_REQ_MSG); ("GetRuntimeSettingsRsp", QMIWDS_GET_RUNTIME_SETTINGS_RESP_MSG);
      ("SetClientIpFamilyPrefReq", QMIWDS_SET_CLIENT_IP_FAMILY_PREF_REQ_MSG); ("SetClientIpFamilyPrefResp", QMIWDS_SET_CLIENT_IP_FAMILY_PREF_RESP_MSG);
      ("SetAutoConnectReq", QMIWDS_SET_AUTO_CONNECT_REQ_MSG); ("StartNwInterfaceReq", QMIWDS_START_NETWORK_INTERFACE_REQ_MSG);
      ("StartNwInterfaceResp", QMIWDS_START_NETWORK_INTERFACE_RESP_MSG); ("StopNwInterfaceReq", QMIWDS_STOP_NETWORK_INTERFACE_REQ_MSG);
      ("StopNwInterfaceResp", QMIWDS_STOP_NETWORK_INTERFACE_RESP_MSG); ("GetDefaultSettingsReq", QMIWDS_GET_DEFAULT_SETTINGS_REQ_MSG);
      ("GetDefaultSettingsResp", QMIWDS_GET_DEFAULT_SETTINGS_RESP_MSG); ("ModifyProfileSettingsReq", QMIWDS_MODIFY_PROFILE_SETTINGS_REQ_MSG);
      ("ModifyProfileSettingsResp", QMIWDS_MODIFY_PROFILE_SETTINGS_RESP_MSG); ("GetProfileSettingsReq", QMIWDS_GET_PROFILE_SETTINGS_REQ_MSG);
      ("BindMuxDataPortReq", QMIWDS_BIND_MUX_DATA_PORT_REQ_MSG); ("GetMsisdnReq", QMIDMS_GET_MSISDN_REQ_MSG);
      ("GetMsisdnRsp", QMIDMS_GET_MSISDN_RESP_MSG); ("SetOperatingModeReq", QMIDMS_SET_OPERATING_MODE_REQ_MSG);
      ("SetOperatingModeResp", QMIDMS_SET_OPERATING_MODE_RESP_MSG); ("UIMGetPinStatusReq", QMIDMS_UIM_GET_PIN_STATUS_REQ_MSG);
      ("UIMGetPinStatusResp", QMIDMS_UIM_GET_PIN_STATUS_RESP_MSG); ("UIMVerifyPinReq", QMIDMS_UIM_VERIFY_PIN_REQ_MSG);
      ("UIMVerifyPinResp", QMIDMS_UIM_VERIFY_PIN_RESP_MSG); ("UIMGetStateReq", QMIDMS_UIM_GET_STATE_REQ_MSG);
      ("UIMGetStateResp", QMIDMS_UIM_GET_STATE_RESP_MSG); ("UIMGetIMSIReq", QMIDMS_UIM_GET_IMSI_REQ_MSG);
      ("UIMGetIMSIResp", QMIDMS_UIM_GET_IMSI_RESP_MSG); ("GetServingSystemResp", QMINAS_GET_SERVING_SYSTEM_RESP_MSG);
      ("GetSysInfoResp", QMINAS_GET_SYS_INFO_RESP_MSG); ("NasSysInfoInd", QMINAS_SYS_INFO_IND_MSG);
      ("UIMGetCardStatus", QMIUIM_GET_CARD_STATUS_RESP_MSG); ("UIMUIMVerifyPinReq", QMIUIM_VERIFY_PIN_REQ_MSG);
      ("UIMUIMVerifyPinResp", QMIUIM_VERIFY_PIN_RESP_MSG); ("UIMUIMReadTransparentReq", QMIUIM_READ_TRANSPARENT_REQ_MSG);
      ("UIMUIMReadTransparentResp", QMIUIM_READ_TRANSPARENT_RESP_MSG); ("SetDataFormatReq", QMIWDS_ADMIN_SET_DATA_FORMAT_REQ_MSG);
      ("SetLoopBackReq", QMI_WDA_SET_LOOPBACK_CONFIG_REQ_MSG); ("SetLoopBackInd", QMI_WDA_SET_LOOPBACK_CONFIG_IND_MSG)])].

(** ** QMIThread.h: a message, and what the driver knows of the device *)
Definition QCQMIMSG : ctype := Struct 1 [
  ("QMIHdr", QCQMI_HDR); ("", Union 1 [
      ("CTLMsg", QMICTL_MSG); ("MUXMsg", QMUX_MSG)])].
Definition RMNET_INFO : ctype := Struct 1 [
  ("size", UINT); ("rx_urb_size", UINT); ("ep_type", UINT); ("iface_id", UINT); ("qmap_mode", UINT);
  ("qmap_version", UINT); ("dl_minimum_padding", UINT); ("ifname", Array (Array CHAR 16) 8); ("mux_id", Array UCHAR 8)].
