(* ===== verification/MbimStructs.v ===== *)
(** * mbim-cm.c: the structs of the MBIM messages.
    They are declared under [#pragma pack(4)]. *)
From S2P Require Import Prelude Layout.
From Stdlib Require Import String.
#[local] Open Scope string_scope.

(** ** The information of the services, and the messages *)
Definition MBIM_PACKET_SERVICE_INFO_T : ctype := Struct 4 [
  ("NwError", UINT); ("PacketServiceState", UINT); ("HighestAvailableDataClass", UINT); ("UplinkSpeed", UINT64);
  ("DownlinkSpeed", UINT64)].
Definition MBIM_PACKET_SERVICE_INFO_V2_T : ctype := Struct 4 [
  ("NwError", UINT); ("PacketServiceState", UINT); ("CurrentDataClass", UINT); ("UplinkSpeed", UINT64);
  ("DownlinkSpeed", UINT64); ("FrequencyRange", UINT)].
Definition MBIM_DEVICE_CAPS_INFO_T : ctype := Struct 4 [
  ("DeviceType", UINT); ("CellularClass", UINT); ("VoiceClass", UINT); ("SimClass", UINT); ("DataClass", UINT);
  ("SmsCaps", UINT); ("ControlCaps", UINT); ("MaxSessions", UINT); ("CustomDataClassOffset", UINT);
  ("CustomDataClassSize", UINT); ("DeviceIdOffset", UINT); ("DeviceIdSize", UINT); ("FirmwareInfoOffset", UINT);
  ("FirmwareInfoSize", UINT); ("HardwareInfoOffset", UINT); ("HardwareInfoSize", UINT); ("DataBuffer", Array UCHAR 0)].
Definition MBIM_SET_RADIO_STATE_T : ctype := Struct 4 [
  ("RadioState", INT)].
Definition MBIM_RADIO_STATE_INFO_T : ctype := Struct 4 [
  ("HwRadioState", INT); ("SwRadioState", INT)].
Definition MBIM_SUBSCRIBER_READY_STATUS_T : ctype := Struct 4 [
  ("ReadyState", UINT); ("SubscriberIdOffset", UINT); ("SubscriberIdSize", UINT); ("SimIccIdOffset", UINT);
  ("SimIccIdSize", UINT); ("ReadyInfo", UINT); ("ElementCount", UINT); ("TelephoneNumbersRefList", Pointer);
  ("DataBuffer", Pointer)].
Definition MBIM_REGISTRATION_STATE_INFO_T : ctype := Struct 4 [
  ("NwError", UINT); ("RegisterState", UINT); ("RegisterMode", UINT); ("AvailableDataClasses", UINT);
  ("CurrentCellularClass", UINT); ("ProviderIdOffset", UINT); ("ProviderIdSize", UINT); ("ProviderNameOffset", UINT);
  ("ProviderNameSize", UINT); ("RoamingTextOffset", UINT); ("RoamingTextSize", UINT); ("RegistrationFlag", UINT);
  ("DataBuffer", Pointer)].
Definition MBIM_REGISTRATION_STATE_INFO_V2_T : ctype := Struct 4 [
  ("NwError", UINT); ("RegisterState", UINT); ("RegisterMode", UINT); ("AvailableDataClasses", UINT);
  ("CurrentCellularClass", UINT); ("ProviderIdOffset", UINT); ("ProviderIdSize", UINT); ("ProviderNameOffset", UINT);
  ("ProviderNameSize", UINT); ("RoamingTextOffset", UINT); ("RoamingTextSize", UINT); ("RegistrationFlag", UINT);
  ("PreferredDataClass", UINT); ("DataBuffer", Pointer)].
Definition MBIM_MESSAGE_HEADER : ctype := Struct 4 [
  ("MessageType", UINT); ("MessageLength", UINT); ("TransactionId", UINT)].
Definition MBIM_FRAGMENT_HEADER : ctype := Struct 4 [
  ("TotalFragments", UINT); ("CurrentFragment", UINT)].
Definition MBIM_OPEN_MSG_T : ctype := Struct 4 [
  ("MessageHeader", MBIM_MESSAGE_HEADER); ("MaxControlTransfer", UINT)].
Definition MBIM_OPEN_DONE_T : ctype := Struct 4 [
  ("MessageHeader", MBIM_MESSAGE_HEADER); ("Status", UINT)].
Definition MBIM_CLOSE_MSG_T : ctype := Struct 4 [
  ("MessageHeader", MBIM_MESSAGE_HEADER)].
Definition MBIM_CLOSE_DONE_T : ctype := Struct 4 [
  ("MessageHeader", MBIM_MESSAGE_HEADER); ("Status", UINT)].
Definition UUID_T : ctype := Struct 4 [
  ("uuid", Array UCHAR 16)].
Definition MBIM_COMMAND_MSG_T : ctype := Struct 4 [
  ("MessageHeader", MBIM_MESSAGE_HEADER); ("FragmentHeader", MBIM_FRAGMENT_HEADER); ("DeviceServiceId", UUID_T);
  ("CID", UINT); ("CommandType", UINT); ("InformationBufferLength", UINT); ("InformationBuffer", Array UCHAR 0)].
Definition MBIM_COMMAND_DONE_T : ctype := Struct 4 [
  ("MessageHeader", MBIM_MESSAGE_HEADER); ("FragmentHeader", MBIM_FRAGMENT_HEADER); ("DeviceServiceId", UUID_T);
  ("CID", UINT); ("Status", UINT); ("InformationBufferLength", UINT); ("InformationBuffer", Array UCHAR 0)].
Definition MBIM_HOST_ERROR_MSG_T : ctype := Struct 4 [
  ("MessageHeader", MBIM_MESSAGE_HEADER); ("ErrorStatusCode", UINT)].
Definition MBIM_FUNCTION_ERROR_MSG_T : ctype := Struct 4 [
  ("MessageHeader", MBIM_MESSAGE_HEADER); ("ErrorStatusCode", UINT)].
Definition MBIM_INDICATE_STATUS_MSG_T : ctype := Struct 4 [
  ("MessageHeader", MBIM_MESSAGE_HEADER); ("FragmentHeader", MBIM_FRAGMENT_HEADER); ("DeviceServiceId", UUID_T);
  ("CID", UINT); ("InformationBufferLength", UINT); ("InformationBuffer", Array UCHAR 0)].
Definition OL_PAIR_LIST : ctype := Struct 4 [
  ("offset", UINT); ("size", UINT)].
Definition MBIM_DEVICE_SERVICE_ELEMENT_T : ctype := Struct 4 [
  ("DeviceServiceId", UUID_T); ("DssPayload", UINT); ("MaxDssInstances", UINT); ("CidCount", UINT);
  ("CidList", Array UINT 0)].
Definition MBIM_DEVICE_SERVICES_INFO_T : ctype := Struct 4 [
  ("DeviceServicesCount", UINT); ("MaxDssSessions", UINT); ("DeviceServicesRefList", Array OL_PAIR_LIST 0)].
Definition MBIM_SET_CONNECT_T : ctype := Struct 4 [
  ("SessionId", UINT); ("ActivationCommand", UINT); ("AccessStringOffset", UINT); ("AccessStringSize", UINT);
  ("UserNameOffset", UINT); ("UserNameSize", UINT); ("PasswordOffset", UINT); ("PasswordSize", UINT);
  ("Compression", UINT); ("AuthProtocol", UINT); ("IPType", UINT); ("ContextType", UUID_T);
  ("DataBuffer", Array UCHAR 0)].
Definition MBIM_CONNECT_T : ctype := Struct 4 [
  ("SessionId", UINT); ("ActivationState", UINT); ("VoiceCallState", UINT); ("IPType", UINT); ("ContextType", UUID_T);
  ("NwError", UINT)].
Definition MBIM_IPV4_ELEMENT_T : ctype := Struct 4 [
  ("OnLinkPrefixLength", UINT); ("IPv4Address", Array UCHAR 4)].
Definition MBIM_IPV6_ELEMENT_T : ctype := Struct 4 [
  ("OnLinkPrefixLength", UINT); ("IPv6Address", Array UCHAR 16)].
Definition MBIM_IP_CONFIGURATION_INFO_T : ctype := Struct 4 [
  ("SessionId", UINT); ("IPv4ConfigurationAvailable", UINT); ("IPv6ConfigurationAvailable", UINT);
  ("IPv4AddressCount", UINT); ("IPv4AddressOffset", UINT); ("IPv6AddressCount", UINT); ("IPv6AddressOffset", UINT);
  ("IPv4GatewayOffset", UINT); ("IPv6GatewayOffset", UINT); ("IPv4DnsServerCount", UINT);
  ("IPv4DnsServerOffset", UINT); ("IPv6DnsServerCount", UINT); ("IPv6DnsServerOffset", UINT); ("IPv4Mtu", UINT);
  ("IPv6Mtu", UINT); ("DataBuffer", Array UCHAR 0)].
Definition MBIM_RSRP_SNR_INFO_T : ctype := Struct 4 [
  ("RSRP", UINT); ("SNR", UINT); ("RSRPThreshold", UINT); ("SNRThreshold", UINT); ("SystemType", UINT)].
Definition MBIM_RSRP_SNR_T : ctype := Struct 4 [
  ("Elementcount", UINT); ("RsrpSnr", Array MBIM_RSRP_SNR_INFO_T 0)].
Definition MBIM_SIGNAL_STATE_INFO_T : ctype := Struct 4 [
  ("Rssi", UINT); ("ErrorRate", UINT); ("SignalStrengthInterval", UINT); ("RssiThreshold", UINT);
  ("ErrorRateThreshold", UINT)].
Definition MBIM_SIGNAL_STATE_INFO_V2_T : ctype := Struct 4 [
  ("Rssi", UINT); ("ErrorRate", UINT); ("SignalStrengthInterval", UINT); ("RssiThreshold", UINT);
  ("ErrorRateThreshold", UINT); ("RsrpSnrOffset", UINT); ("RsrpSnrSize", UINT); ("DataBuffer", Array UCHAR 0)].
Definition MBIM_SET_SIGNAL_STATE_T : ctype := Struct 4 [
  ("SignalStrengthInterval", UINT); ("RssiThreshold", UINT); ("ErrorRateThreshold", UINT)].
