(* ===== verification/ProxyStructs.v ===== *)
(** * quectel-qmi-proxy.c: the structs of the QMI messages as the multiplexer declares them again.
    The header of a QMUX message holds the transaction here; the lemma at the end shows that the places are those of QmiStructs.v. *)
From S2P Require Import Prelude Layout QmiStructs.
From Stdlib Require Import String.
#[local] Open Scope string_scope.

(** ** The declarations *)
Definition QCQMI_HDR : ctype := Struct 1 [
  ("IFType", UCHAR); ("Length", USHORT); ("CtlFlags", UCHAR); ("QMIType", UCHAR); ("ClientId", UCHAR)].
Definition QMICTL_SYNC_REQ_MSG : ctype := Struct 1 [
  ("CtlFlags", UCHAR); ("TransactionId", UCHAR); ("QMICTLType", USHORT); ("Length", USHORT)].
Definition QMICTL_SYNC_RESP_MSG : ctype := Struct 1 [
  ("CtlFlags", UCHAR); ("TransactionId", UCHAR); ("QMICTLType", USHORT); ("Length", USHORT); ("TLVType", UCHAR);
  ("TLVLength", USHORT); ("QMIResult", USHORT); ("QMIError", USHORT)].
Definition QMICTL_SYNC_IND_MSG : ctype := Struct 1 [
  ("CtlFlags", UCHAR); ("TransactionId", UCHAR); ("QMICTLType", USHORT); ("Length", USHORT)].
Definition QMICTL_GET_CLIENT_ID_REQ_MSG : ctype := Struct 1 [
  ("CtlFlags", UCHAR); ("TransactionId", UCHAR); ("QMICTLType", USHORT); ("Length", USHORT); ("TLVType", UCHAR);
  ("TLVLength", USHORT); ("QMIType", UCHAR)].
Definition QMICTL_GET_CLIENT_ID_RESP_MSG : ctype := Struct 1 [
  ("CtlFlags", UCHAR); ("TransactionId", UCHAR); ("QMICTLType", USHORT); ("Length", USHORT); ("TLVType", UCHAR);
  ("TLVLength", USHORT); ("QMIResult", USHORT); ("QMIError", USHORT); ("TLV2Type", UCHAR); ("TLV2Length", USHORT);
  ("QMIType", UCHAR); ("ClientId", UCHAR)].
Definition QMICTL_RELEASE_CLIENT_ID_REQ_MSG : ctype := Struct 1 [
  ("CtlFlags", UCHAR); ("TransactionId", UCHAR); ("QMICTLType", USHORT); ("Length", USHORT); ("TLVType", UCHAR);
  ("TLVLength", USHORT); ("QMIType", UCHAR); ("ClientId", UCHAR)].
Definition QMICTL_RELEASE_CLIENT_ID_RESP_MSG : ctype := Struct 1 [
  ("CtlFlags", UCHAR); ("TransactionId", UCHAR); ("QMICTLType", USHORT); ("Length", USHORT); ("TLVType", UCHAR);
  ("TLVLength", USHORT); ("QMIResult", USHORT); ("QMIError", USHORT); ("TLV2Type", UCHAR); ("TLV2Length", USHORT);
  ("QMIType", UCHAR); ("ClientId", UCHAR)].
Definition QCQMICTL_MSG_HDR : ctype := Struct 1 [
  ("CtlFlags", UCHAR); ("TransactionId", UCHAR); ("QMICTLType", USHORT); ("Length", USHORT)].
Definition QCQMICTL_MSG_HDR_RESP : ctype := Struct 1 [
  ("CtlFlags", UCHAR); ("TransactionId", UCHAR); ("QMICTLType", USHORT); ("Length", USHORT); ("TLVType", UCHAR);
  ("TLVLength", USHORT); ("QMUXResult", USHORT); ("QMUXError", USHORT)].
Definition QMICTL_GET_VERSION_REQ_MSG : ctype := Struct 1 [
  ("CtlFlags", UCHAR); ("TransactionId", UCHAR); ("QMICTLType", USHORT); ("Length", USHORT); ("TLVType", UCHAR);
  ("TLVLength", USHORT); ("QMUXTypes", UCHAR)].
Definition QMUX_TYPE_VERSION_STRUCT : ctype := Struct 1 [
  ("QMUXType", UCHAR); ("MajorVersion", USHORT); ("MinorVersion", USHORT)].
Definition QMICTL_GET_VERSION_RESP_MSG : ctype := Struct 1 [
  ("CtlFlags", UCHAR); ("TransactionId", UCHAR); ("QMICTLType", USHORT); ("Length", USHORT); ("TLVType", UCHAR);
  ("TLVLength", USHORT); ("QMIResult", USHORT); ("QMIError", USHORT); ("TLV2Type", UCHAR); ("TLV2Length", USHORT);
  ("NumElements", UCHAR); ("TypeVersion", Array QMUX_TYPE_VERSION_STRUCT 0)].
Definition QMICTL_MSG : ctype := Struct 1 [
  ("", Union 1 [
      ("QMICTLMsgHdr", QCQMICTL_MSG_HDR); ("QMICTLMsgHdrRsp", QCQMICTL_MSG_HDR_RESP);
      ("GetVersionReq", QMICTL_GET_VERSION_REQ_MSG); ("GetVersionRsp", QMICTL_GET_VERSION_RESP_MSG);
      ("GetClientIdReq", QMICTL_GET_CLIENT_ID_REQ_MSG); ("GetClientIdRsp", QMICTL_GET_CLIENT_ID_RESP_MSG);
      ("ReleaseClientIdRsp", QMICTL_RELEASE_CLIENT_ID_RESP_MSG); ("SyncReq", QMICTL_SYNC_REQ_MSG);
      ("SyncRsp", QMICTL_SYNC_RESP_MSG); ("SyncInd", QMICTL_SYNC_IND_MSG)])].
Definition QCQMUX_MSG_HDR : ctype := Struct 1 [
  ("CtlFlags", UCHAR); ("TransactionId", USHORT); ("Type", USHORT); ("Length", USHORT); ("payload", Array UCHAR 0)].
Definition QCQMUX_MSG_HDR_RESP : ctype := Struct 1 [
  ("CtlFlags", UCHAR); ("TransactionId", USHORT); ("Type", USHORT); ("Length", USHORT); ("TLVType", UCHAR);
  ("TLVLength", USHORT); ("QMUXResult", USHORT); ("QMUXError", USHORT)].
Definition QMIWDS_ADMIN_SET_DATA_FORMAT : ctype := Struct 1 [
  ("Type", USHORT); ("Length", USHORT)].
Definition QMIWDS_ADMIN_SET_DATA_FORMAT_TLV_QOS : ctype := Struct 1 [
  ("TLVType", UCHAR); ("TLVLength", USHORT); ("QOSSetting", UCHAR)].
Definition QMIWDS_ADMIN_SET_DATA_FORMAT_TLV : ctype := Struct 1 [
  ("TLVType", UCHAR); ("TLVLength", USHORT); ("Value", ULONG)].
Definition QMIWDS_ENDPOINT_TLV : ctype := Struct 1 [
  ("TLVType", UCHAR); ("TLVLength", USHORT); ("ep_type", ULONG); ("iface_id", ULONG)].
Definition RMNET_INFO : ctype := Struct 8 [
  ("size", UINT); ("rx_urb_size", UINT); ("ep_type", UINT); ("iface_id", UINT); ("qmap_mode", UINT);
  ("qmap_version", UINT); ("dl_minimum_padding", UINT); ("ifname", Array (Array CHAR 16) 8); ("mux_id", Array UCHAR 8)].
Definition QMIWDS_ADMIN_SET_DATA_FORMAT_REQ_MSG : ctype := Struct 1 [
  ("CtlFlags", UCHAR); ("TransactionId", USHORT); ("Type", USHORT); ("Length", USHORT);
  ("QosDataFormatTlv", QMIWDS_ADMIN_SET_DATA_FORMAT_TLV_QOS);
  ("UnderlyingLinkLayerProtocolTlv", QMIWDS_ADMIN_SET_DATA_FORMAT_TLV);
  ("UplinkDataAggregationProtocolTlv", QMIWDS_ADMIN_SET_DATA_FORMAT_TLV);
  ("DownlinkDataAggregationProtocolTlv", QMIWDS_ADMIN_SET_DATA_FORMAT_TLV);
  ("DownlinkDataAggregationMaxDatagramsTlv", QMIWDS_ADMIN_SET_DATA_FORMAT_TLV);
  ("DownlinkDataAggregationMaxSizeTlv", QMIWDS_ADMIN_SET_DATA_FORMAT_TLV); ("epTlv", QMIWDS_ENDPOINT_TLV);
  ("DlMinimumPassingTlv", QMIWDS_ADMIN_SET_DATA_FORMAT_TLV);
  ("UplinkDataAggregationMaxDatagramsTlv", QMIWDS_ADMIN_SET_DATA_FORMAT_TLV);
  ("UplinkDataAggregationMaxSizeTlv", QMIWDS_ADMIN_SET_DATA_FORMAT_TLV)].
Definition QCQMUX_TLV : ctype := Struct 1 [
  ("Type", UCHAR); ("Length", USHORT); ("Value", Array UCHAR 0)].
Definition QMUX_MSG : ctype := Struct 1 [
  ("", Union 1 [
      ("QMUXMsgHdr", QCQMUX_MSG_HDR); ("QMUXMsgHdrResp", QCQMUX_MSG_HDR_RESP);
      ("SetDataFormatReq", QMIWDS_ADMIN_SET_DATA_FORMAT_REQ_MSG)])].
Definition QCQMIMSG : ctype := Struct 1 [
  ("QMIHdr", QCQMI_HDR); ("", Union 1 [
      ("CTLMsg", QMICTL_MSG); ("MUXMsg", QMUX_MSG)])].

(** ** The same wire format *)

(** What the multiplexer reads and writes, by its path and by the manager's. *)
Definition shared_fields : list (string * string) :=
  let same := fun p => (p, p) in
  (same <$> ["QMIHdr.IFType"; "QMIHdr.Length"; "QMIHdr.CtlFlags"; "QMIHdr.QMIType"; "QMIHdr.ClientId";
     "CTLMsg.QMICTLMsgHdr.CtlFlags"; "CTLMsg.QMICTLMsgHdr.TransactionId"; "CTLMsg.QMICTLMsgHdr.QMICTLType"; "CTLMsg.QMICTLMsgHdr.Length";
     "CTLMsg.QMICTLMsgHdrRsp.QMUXResult"; "CTLMsg.QMICTLMsgHdrRsp.QMUXError"; "CTLMsg.GetVersionReq.TLVType";
     "CTLMsg.GetVersionReq.TLVLength"; "CTLMsg.GetVersionReq.QMUXTypes"; "CTLMsg.GetVersionRsp.NumElements"; "CTLMsg.GetVersionRsp.TypeVersion";
     "CTLMsg.GetClientIdReq.TLVType"; "CTLMsg.GetClientIdReq.TLVLength"; "CTLMsg.GetClientIdReq.QMIType"; "CTLMsg.GetClientIdRsp.QMIType";
     "CTLMsg.GetClientIdRsp.ClientId"; "CTLMsg.ReleaseClientIdRsp.QMIType"; "CTLMsg.ReleaseClientIdRsp.ClientId";
     "MUXMsg.QMUXMsgHdr.Type"; "MUXMsg.QMUXMsgHdr.Length"; "MUXMsg.QMUXMsgHdrResp.QMUXResult"; "MUXMsg.QMUXMsgHdrResp.QMUXError";
     "MUXMsg.SetDataFormatReq.QosDataFormatTlv.TLVType"; "MUXMsg.SetDataFormatReq.QosDataFormatTlv.TLVLength";
     "MUXMsg.SetDataFormatReq.QosDataFormatTlv.QOSSetting"; "MUXMsg.SetDataFormatReq.UnderlyingLinkLayerProtocolTlv.Value";
     "MUXMsg.SetDataFormatReq.UplinkDataAggregationProtocolTlv.Value"; "MUXMsg.SetDataFormatReq.DownlinkDataAggregationProtocolTlv.Value";
     "MUXMsg.SetDataFormatReq.DownlinkDataAggregationMaxDatagramsTlv.Value"; "MUXMsg.SetDataFormatReq.DownlinkDataAggregationMaxSizeTlv.Value";
     "MUXMsg.SetDataFormatReq.epTlv.TLVType"; "MUXMsg.SetDataFormatReq.epTlv.TLVLength"; "MUXMsg.SetDataFormatReq.epTlv.ep_type";
     "MUXMsg.SetDataFormatReq.epTlv.iface_id"; "MUXMsg.SetDataFormatReq.DlMinimumPassingTlv.Value";
     "MUXMsg.SetDataFormatReq.UplinkDataAggregationMaxDatagramsTlv.Value"; "MUXMsg.SetDataFormatReq.UplinkDataAggregationMaxSizeTlv.Value"]) ++
  [("MUXMsg.QMUXMsgHdr.CtlFlags", "MUXMsg.QMUXHdr.CtlFlags"); ("MUXMsg.QMUXMsgHdr.TransactionId", "MUXMsg.QMUXHdr.TransactionId")].

(** The two programs agree on the place and the size of every field they both use. *)
Lemma same_wire_format :
  Forall (fun x => is_Some (offsetof QCQMIMSG x.1) /\ offsetof QCQMIMSG x.1 = offsetof QmiStructs.QCQMIMSG x.2 /\
                   sizeof_member QCQMIMSG x.1 = sizeof_member QmiStructs.QCQMIMSG x.2) shared_fields.
Proof. apply (bool_decide_unpack _). by vm_compute. Qed.
