(* ===== verification/QmiMsg.v ===== *)
(** * QMI messages: MPQMI.h, MPQCTL.h, MPQMUX.h layouts and [GetTLV] of QMIThread.c.
    A message is the byte list of its packed struct [QCQMIMSG]; the fields are at the offsets
    below, those of QmiStructs.v.  [enc_tlvs] is the reference encoding of a TLV area. *)
From S2P Require Import Prelude Util Layout QmiStructs.
#[local] Open Scope Z_scope.

(** ** Offsets of the packed structs (QCQMIMSG = QCQMI_HDR; QMUX_MSG or QMICTL_MSG) *)
Definition oIFType : Z := QCQMIMSG∙"QMIHdr.IFType".
Definition oQMILength : Z := QCQMIMSG∙"QMIHdr.Length".
Definition oQMICtlFlags : Z := QCQMIMSG∙"QMIHdr.CtlFlags".
Definition oQMIType : Z := QCQMIMSG∙"QMIHdr.QMIType".
Definition oClientId : Z := QCQMIMSG∙"QMIHdr.ClientId".
Definition oMUXMsg : Z := QCQMIMSG∙"MUXMsg".
Definition oMUXCtlFlags : Z := QCQMIMSG∙"MUXMsg.QMUXHdr.CtlFlags".
Definition oTransactionId : Z := QCQMIMSG∙"MUXMsg.QMUXHdr.TransactionId".
Definition oMUXType : Z := QCQMIMSG∙"MUXMsg.QMUXMsgHdr.Type".
Definition oMUXLength : Z := QCQMIMSG∙"MUXMsg.QMUXMsgHdr.Length".
Definition oTLVs : Z := QCQMIMSG∙"MUXMsg.QMUXMsgHdrResp.TLVType".
Definition oQMUXResult : Z := QCQMIMSG∙"MUXMsg.QMUXMsgHdrResp.QMUXResult".
Definition oQMUXError : Z := QCQMIMSG∙"MUXMsg.QMUXMsgHdrResp.QMUXError".
(** A field of the message behind [pMUXMsg] or [pCTLMsg], which point behind the header of the [QCQMIMSG]. *)
Ltac the_field t f := let v := eval vm_compute in (Z.add oMUXMsg <$> offsetof t f) in
  lazymatch v with Some ?z => exact z | _ => fail "no such member" end.
Notation "'pMUXMsg->' f" := (ltac:(the_field QMUX_MSG f%string)) (at level 1, f at level 0, only parsing) : Z_scope.
Notation "'pCTLMsg->' f" := (ltac:(the_field QMICTL_MSG f%string)) (at level 1, f at level 0, only parsing) : Z_scope.
Definition sizeof_QCQMI_HDR : Z := sizeof[QCQMI_HDR].
Definition sizeof_QCQMUX_HDR : Z := sizeof[QCQMUX_HDR].
Definition sizeof_QCQMUX_MSG_HDR : Z := sizeof[QCQMUX_MSG_HDR].
Definition sizeof_QMI_TLV_HDR : Z := sizeof[QMI_TLV_HDR].

Definition QMUX_TYPE_CTL : Z := 0x00.
Definition QMUX_TYPE_WDS : Z := 0x01.
Definition QMUX_TYPE_DMS : Z := 0x02.
Definition QMUX_TYPE_NAS : Z := 0x03.
Definition QMUX_TYPE_UIM : Z := 0x0B.
Definition QMUX_TYPE_WDS_IPV6 : Z := 0x11.
Definition QMUX_TYPE_WDS_ADMIN : Z := 0x1A.
Definition IpFamilyV4 : Z := 0x04.
Definition IpFamilyV6 : Z := 0x06.
Definition USB_CTL_MSG_TYPE_QMI : Z := 0x01.
Definition WDM_DEFAULT_BUFSIZE : Z := 256.

(** ** [GetTLV] *)
Section GetTLV.
Context {host : Host}.

(** The loop of [GetTLV]: [Some None] is NULL, [Some (Some p)] a pointer into the message.  [Length]
    is a [USHORT] and wraps. *)
Fixpoint GetTLV_loop (fuel : nat) (m : bytes) (TLVType Length pTLVHdr TLVFind : Z) : option (option Z) :=
  match fuel with
  | O => None
  | S fuel =>
      if sizeof_QMI_TLV_HDR <=? Length then
        let TLVFind := TLVFind + 1 in
        hit ← (if 0x1000 <? TLVType then Some (TLVFind + 0x1000 =? TLVType)
               else t ← ld m pTLVHdr; Some (t =? TLVType));
        if hit : bool then Some (Some pTLVHdr) else
        l ← rd16 m (pTLVHdr + 1);
        GetTLV_loop fuel m TLVType (u16 (Length - (l + sizeof_QMI_TLV_HDR)))
                    (pTLVHdr + l + sizeof_QMI_TLV_HDR) TLVFind
      else Some None
  end.

(** [pQMUXMsgHdr] is an offset into [m]. *)
Definition GetTLV (m : bytes) (pQMUXMsgHdr TLVType : Z) : option (option Z) :=
  Length ← rd16 m (pQMUXMsgHdr + 2);
  GetTLV_loop (S (length m)) m TLVType Length (pQMUXMsgHdr + sizeof_QCQMUX_MSG_HDR) 0.
End GetTLV.

(** ** Reference encoding *)
Abbreviation tlv := (Z * list Z)%type.
Definition enc_tlv (x : tlv) : bytes := x.1 :: le16 (zlen x.2) ++ x.2.
Definition enc_tlvs (ts : list tlv) : bytes := ts ≫= enc_tlv.
Definition tlv_wf (x : tlv) : Prop := is_byte x.1 /\ zlen x.2 < 2 ^ 16.

(** A whole QMUX message. *)
Definition enc_qmux (qmitype client ctl tid type : Z) (area : bytes) : bytes :=
  [USB_CTL_MSG_TYPE_QMI] ++ le16 (zlen area + 12) ++ [0; qmitype; client] ++
  [ctl] ++ le16 tid ++ le16 type ++ le16 (zlen area) ++ area.

(** What [GetTLV] should return: the offset of the first TLV of the type, or of the i-th TLV. *)
Fixpoint find_type (ts : list tlv) (base type : Z) : option Z :=
  match ts with
  | [] => None
  | x :: ts => if x.1 =? type then Some base else find_type ts (base + zlen (enc_tlv x)) type
  end.
Fixpoint find_index (ts : list tlv) (base i : Z) : option Z :=
  match ts with
  | [] => None
  | x :: ts => if i =? 1 then Some base else find_index ts (base + zlen (enc_tlv x)) (i - 1)
  end.

Lemma enc_tlv_zlen x : zlen (enc_tlv x) = 3 + zlen x.2.
Proof. unfold enc_tlv. zlens. change (zlen (le16 (zlen x.2))) with 2. lia. Qed.
Lemma enc_tlvs_cons x ts : enc_tlvs (x :: ts) = enc_tlv x ++ enc_tlvs ts.
Proof. done. Qed.
Lemma enc_tlvs_app ts us : enc_tlvs (ts ++ us) = enc_tlvs ts ++ enc_tlvs us.
Proof. apply bind_app. Qed.

Section GetTLVSpec.
Context {host : Host}.

Lemma GetTLV_hit_type p x s type :
  (t ← ld (p ++ enc_tlv x ++ s) (zlen p); Some (t =? type)) = Some (x.1 =? type).
Proof. unfold enc_tlv. simpl. by rewrite ld_app. Qed.

Lemma GetTLV_len p x s : tlv_wf x -> rd16 (p ++ enc_tlv x ++ s) (zlen p + 1) = Some (zlen x.2).
Proof.
  intros [_ Hl].
  replace (p ++ enc_tlv x ++ s) with ((p ++ [x.1]) ++ le16 (zlen x.2) ++ (x.2 ++ s))
    by (unfold enc_tlv; rewrite <- !app_assoc; done).
  apply rd16_le16.
  - split; [apply zlen_nonneg | done].
  - zlens. lia.
Qed.

(** On a well-formed area the loop finds what the reference search finds. *)
Lemma GetTLV_loop_spec fuel p ts s type find L :
  Forall tlv_wf ts -> (length ts < fuel)%nat -> zlen (enc_tlvs ts) < 2 ^ 16 -> L = zlen (enc_tlvs ts) ->
  0 <= find ->
  GetTLV_loop fuel (p ++ enc_tlvs ts ++ s) type L (zlen p) find =
  Some (if 0x1000 <? type then find_index ts (zlen p) (type - 0x1000 - find) else find_type ts (zlen p) type).
Proof.
  intros F. revert fuel p find L. induction F as [|x ts Hx F IH]; intros fuel p find L Hf Hl -> Hfind;
    (destruct fuel as [|fuel]; [simpl in Hf; lia|]); cbn [GetTLV_loop].
  - change (zlen (enc_tlvs [])) with 0. simpl. by destruct (4096 <? type).
  - rewrite enc_tlvs_cons in *. rewrite zlen_app, enc_tlv_zlen in *. rewrite <- app_assoc.
    pose proof (zlen_nonneg x.2). pose proof (zlen_nonneg (enc_tlvs ts)). unfold sizeof_QMI_TLV_HDR.
    rewrite (proj2 (Z.leb_le _ _)) by lia.
    assert (Hrec : forall b : bool, b = false ->
      (if b then Some (Some (zlen p)) else
        l ← rd16 (p ++ enc_tlv x ++ enc_tlvs ts ++ s) (zlen p + 1);
        GetTLV_loop fuel (p ++ enc_tlv x ++ enc_tlvs ts ++ s) type (u16 (3 + zlen x.2 + zlen (enc_tlvs ts) - (l + 3)))
          (zlen p + l + 3) (find + 1)) =
      Some (if 0x1000 <? type then find_index ts (zlen p + zlen (enc_tlv x)) (type - 0x1000 - find - 1)
            else find_type ts (zlen p + zlen (enc_tlv x)) type)).
    { intros b ->. rewrite GetTLV_len by done. cbn [mbind option_bind].
      replace (zlen p + zlen x.2 + 3) with (zlen (p ++ enc_tlv x)) by (rewrite zlen_app, enc_tlv_zlen; lia).
      rewrite (app_assoc p). rewrite IH; try done; try lia.
      - rewrite zlen_app. by replace (type - 4096 - (find + 1)) with (type - 4096 - find - 1) by lia.
      - simpl in Hf. lia.
      - rewrite u16_id by (unfold is_u16; lia). lia. }
    cbn [find_type find_index]. destruct (Z.ltb_spec 4096 type) as [Ht|Ht].
    + cbn [mbind option_bind]. destruct (Z.eqb_spec (find + 1 + 4096) type) as [E|E].
      * rewrite (proj2 (Z.eqb_eq (type - 4096 - find) 1)) by lia. done.
      * rewrite (proj2 (Z.eqb_neq (type - 4096 - find) 1)) by lia. exact (Hrec false eq_refl).
    + rewrite GetTLV_hit_type. cbn [mbind option_bind]. destruct (x.1 =? type); [done|]. exact (Hrec false eq_refl).
Qed.
End GetTLVSpec.

Section Messages.
Context {host : Host}.

(** [GetTLV] on any message whose TLV area is well formed. *)
Lemma GetTLV_area h ts s hdr type :
  zlen h = hdr + 2 -> Forall tlv_wf ts -> zlen (enc_tlvs ts) < 2 ^ 16 ->
  GetTLV (h ++ le16 (zlen (enc_tlvs ts)) ++ enc_tlvs ts ++ s) hdr type =
  Some (if 0x1000 <? type then find_index ts (hdr + 4) (type - 0x1000) else find_type ts (hdr + 4) type).
Proof.
  intros Hh F Hl. unfold GetTLV, sizeof_QCQMUX_MSG_HDR.
  rewrite rd16_le16 by (first [lia | split; [apply zlen_nonneg | done]]). cbn [mbind option_bind].
  rewrite (app_assoc h).
  replace (hdr + 4) with (zlen (h ++ le16 (zlen (enc_tlvs ts)))) by (rewrite zlen_app; unfold zlen in *; simpl; lia).
  rewrite GetTLV_loop_spec; try done; try lia.
  - by rewrite Z.sub_0_r.
  - rewrite !length_app. assert (length ts <= length (enc_tlvs ts))%nat; [|lia].
    clear. induction ts as [|x ts IH]; [done|]. rewrite enc_tlvs_cons, length_app.
    pose proof (enc_tlv_zlen x). unfold zlen in *. simpl length. lia.
Qed.

Lemma GetTLV_enc_qmux qmitype client ctl tid ty ts type :
  Forall tlv_wf ts -> zlen (enc_tlvs ts) < 2 ^ 16 ->
  GetTLV (enc_qmux qmitype client ctl tid ty (enc_tlvs ts)) oMUXType type =
  Some (if 0x1000 <? type then find_index ts oTLVs (type - 0x1000) else find_type ts oTLVs type).
Proof.
  intros F Hl.
  set (h := [USB_CTL_MSG_TYPE_QMI] ++ le16 (zlen (enc_tlvs ts) + 12) ++ [0; qmitype; client] ++
            [ctl] ++ le16 tid ++ le16 ty).
  pose proof (GetTLV_area h ts [] oMUXType type eq_refl F Hl) as E.
  rewrite app_nil_r in E. exact E.
Qed.

Lemma rd16_bytes m i v : Forall is_byte m -> rd16 m i = Some v -> 0 <= v /\ 0 <= i /\ i + 2 <= zlen m.
Proof.
  intros F. unfold rd16, ld16, lds. destruct (0 <=? i) eqn:E1; [|done]. cbn [andb].
  destruct (0 <=? 2) eqn:E0; [|done]. destruct (i + 2 <=? zlen m) eqn:E2; [|done]. cbn [andb].
  apply Z.leb_le in E1, E2.
  assert (Hb : Forall is_byte (take (Z.to_nat 2) (drop (Z.to_nat i) m))) by (apply Forall_take; by apply Forall_drop).
  assert (Hl : length (take (Z.to_nat 2) (drop (Z.to_nat i) m)) = 2%nat).
  { rewrite length_take, length_drop. unfold zlen in *. lia. }
  destruct (take _ _) as [|a [|b [|? ?]]]; try done. rewrite !Forall_cons in Hb. destruct_and!.
  cbn [mbind option_bind]. rewrite le16_to_cpu_native by done. intros [= <-].
  unfold of_le, is_byte in *. cbn [foldr]. lia.
Qed.

(** The fuel is never what ends the loop: every turn that goes on has read the TLV header at
    [pTLVHdr] inside the message, so the pointer leaves the message first. *)
Lemma GetTLV_loop_fuel m type f1 f2 L p find :
  Forall is_byte m -> 0 <= p -> zlen m - p < Z.of_nat f1 -> zlen m - p < Z.of_nat f2 ->
  (0 < f1)%nat -> (0 < f2)%nat ->
  GetTLV_loop f1 m type L p find = GetTLV_loop f2 m type L p find.
Proof.
  intros F. revert f2 L p find. induction f1 as [|f1 IH]; intros [|f2] L p find Hp H1 H2 P1 P2; try lia.
  cbn [GetTLV_loop]. destruct (sizeof_QMI_TLV_HDR <=? L); [|done].
  match goal with |- ?a ≫= _ = _ => destruct a as [[]|]; try done end. cbn [mbind option_bind].
  destruct (rd16 m (p + 1)) as [l|] eqn:E; [|done]. cbn [mbind option_bind].
  apply rd16_bytes in E as (Hl & Hi & He); [|done]. unfold sizeof_QMI_TLV_HDR. apply IH; lia.
Qed.

(** [GetTLV] terminates on every message: the number of turns allowed by the model is never what
    ends the search, so running it longer gives the same pointer, NULL or invalid access. *)
Theorem GetTLV_terminates m hdr type extra :
  Forall is_byte m -> 0 <= hdr ->
  GetTLV m hdr type =
  (Length ← rd16 m (hdr + 2);
   GetTLV_loop (S (length m) + extra) m type Length (hdr + sizeof_QCQMUX_MSG_HDR) 0).
Proof.
  intros F Hh. unfold GetTLV. destruct (rd16 m (hdr + 2)) as [L|]; [|done]. cbn [mbind option_bind].
  apply GetTLV_loop_fuel; try done; unfold sizeof_QCQMUX_MSG_HDR, zlen; lia.
Qed.

(** On a message with a well-formed TLV area [GetTLV] makes no invalid access and returns the
    first TLV of the wanted type, or the i-th TLV for a type above 0x1000, or NULL when there is none. *)
Theorem GetTLV_correct qmitype client ctl tid ty ts type :
  Forall tlv_wf ts -> zlen (enc_tlvs ts) < 2 ^ 16 ->
  GetTLV (enc_qmux qmitype client ctl tid ty (enc_tlvs ts)) oMUXType type =
  Some (if 0x1000 <? type then find_index ts oTLVs (type - 0x1000) else find_type ts oTLVs type).
Proof. apply GetTLV_enc_qmux. Qed.

(** [GetTLV] does not check a TLV's length against what is left: when the last TLV claims
    more bytes than the message holds and is not the one searched for, the unsigned
    remaining length wraps around and the loop reads past the end of the message. *)
Theorem GetTLV_length_underflow qmitype client ctl tid ty t l v type :
  is_u16 l -> zlen v < l -> l - zlen v <= 0xFFFD -> type <= 0x1000 -> type <> t -> zlen v + 3 < 2 ^ 16 ->
  GetTLV (enc_qmux qmitype client ctl tid ty (t :: le16 l ++ v)) oMUXType type = None.
Proof.
  intros Hl16 Hl Hd Ht Htt Hv. pose proof (zlen_nonneg v). unfold is_u16 in Hl16.
  set (area := t :: le16 l ++ v).
  set (p := [USB_CTL_MSG_TYPE_QMI] ++ le16 (zlen area + 12) ++ [0; qmitype; client] ++ [ctl] ++ le16 tid ++
            le16 ty ++ le16 (zlen area)).
  assert (Ha : zlen area = 3 + zlen v) by (unfold area; zlens; change (zlen (le16 l)) with 2; lia).
  assert (Hm : enc_qmux qmitype client ctl tid ty area = p ++ area) by done.
  assert (Hp : zlen p = 13) by done.
  assert (HL : rd16 (p ++ area) (oMUXType + 2) = Some (zlen area)).
  { replace (p ++ area) with (take 11 p ++ le16 (zlen area) ++ area) by done.
    apply rd16_le16; [unfold is_u16; lia | done]. }
  assert (Ht0 : ld (p ++ area) 13 = Some t) by (by apply ld_app).
  assert (Hl0 : rd16 (p ++ area) (13 + 1) = Some l).
  { replace (p ++ area) with ((p ++ [t]) ++ le16 l ++ v) by (by rewrite <- app_assoc). by apply rd16_le16. }
  rewrite Hm. unfold GetTLV. rewrite HL. cbn [mbind option_bind].
  change (oMUXType + sizeof_QCQMUX_MSG_HDR) with 13. unfold sizeof_QMI_TLV_HDR.
  assert (Hfuel : exists f, length (p ++ area) = S f) by (exists (length (drop 1 (p ++ area))); done).
  destruct Hfuel as [f ->]. cbn [GetTLV_loop]. unfold sizeof_QMI_TLV_HDR.
  rewrite (proj2 (Z.leb_le 3 (zlen area))), (proj2 (Z.ltb_ge 0x1000 type)) by lia.
  rewrite Ht0. cbn [mbind option_bind]. rewrite (proj2 (Z.eqb_neq t type)) by congruence.
  rewrite Hl0. cbn [mbind option_bind].
  replace (u16 (zlen area - (l + 3))) with (zlen v - l + 65536).
  2:{ unfold u16. rewrite Ha. change (2 ^ 16) with 65536. zdm. }
  rewrite (proj2 (Z.leb_le 3 _)) by lia.
  replace (ld (p ++ area) (13 + l + 3)) with (@None Z); [done|].
  symmetry. unfold ld. rewrite (proj2 (Z.leb_le _ _)) by lia. apply lookup_ge_None_2.
  assert (E : zlen (p ++ area) = 16 + zlen v) by (rewrite zlen_app, Ha, Hp; lia).
  unfold zlen in E. unfold zlen in *. lia.
Qed.
End Messages.

(** A response carrying a result TLV, a 4-byte TLV of type 1 and an empty one of type 0x10. *)
Definition sample_area : list tlv := [(2, [0; 0; 0; 0]); (1, [0x78; 0x56; 0x34; 0x12]); (0x10, [])].

Theorem GetTLV_terminates_witness :
  GetTLV (host := big_host) (enc_qmux 1 2 2 5 0x20 (enc_tlvs sample_area)) oMUXType 0x44 =
  (Length ← rd16 (host := big_host) (enc_qmux 1 2 2 5 0x20 (enc_tlvs sample_area)) 11;
   GetTLV_loop (host := big_host) (S (length (enc_qmux 1 2 2 5 0x20 (enc_tlvs sample_area))) + 1000)
     (enc_qmux 1 2 2 5 0x20 (enc_tlvs sample_area)) 0x44 Length 13 0).
Proof.
  apply (GetTLV_terminates (host := big_host) _ oMUXType 0x44 1000).
  - repeat (apply Forall_cons_2; [split; [apply Z.leb_le | apply Z.ltb_lt]; reflexivity|]). apply Forall_nil_2.
  - discriminate.
Defined.

Theorem GetTLV_correct_witness :
  GetTLV (host := big_host) (enc_qmux 1 2 2 5 0x20 (enc_tlvs sample_area)) oMUXType 1 = Some (Some 20) /\
  GetTLV (enc_qmux 1 2 2 5 0x20 (enc_tlvs sample_area)) oMUXType 0x1003 = Some (Some 27) /\
  GetTLV (enc_qmux 1 2 2 5 0x20 (enc_tlvs sample_area)) oMUXType 0x1004 = Some None.
Proof.
  assert (W : Forall tlv_wf sample_area)
    by (repeat (apply Forall_cons_2; [split; [split|]; reflexivity || discriminate|]); apply Forall_nil_2).
  split_and!.
  - apply (GetTLV_correct (host := big_host) 1 2 2 5 0x20 sample_area 1 W eq_refl).
  - apply (GetTLV_correct 1 2 2 5 0x20 sample_area 0x1003 W eq_refl).
  - apply (GetTLV_correct 1 2 2 5 0x20 sample_area 0x1004 W eq_refl).
Defined.

(** An eighteen-byte message: one TLV of type 2 that claims four bytes and has two. *)
Theorem GetTLV_length_underflow_witness :
  zlen (enc_qmux 1 2 2 5 0x20 (2 :: le16 4 ++ [0; 0])) = 18 /\
  GetTLV (enc_qmux 1 2 2 5 0x20 (2 :: le16 4 ++ [0; 0])) oMUXType 1 = None.
Proof.
  split; [reflexivity|].
  apply (GetTLV_length_underflow 1 2 2 5 0x20 2 4 [0; 0] 1); try (split; reflexivity || discriminate);
    try reflexivity; discriminate.
Defined.

(** ** Reading a TLV's value the way the code's callers do: pointer, length, bytes. *)
Definition read_tlv {host : Host} (m : bytes) (type : Z) : option (option bytes) :=
  p ← GetTLV m oMUXType type;
  match p with
  | None => Some None
  | Some p => l ← rd16 m (p + 1); v ← lds m (p + 3) l; Some (Some v)
  end.
Definition tlv_value (ts : list tlv) (type : Z) : option bytes :=
  snd <$> find (fun x : tlv => x.1 =? type) ts.

Section ReadTLV.
Context {host : Host}.

Lemma find_type_value p ts s type :
  Forall tlv_wf ts ->
  match find_type ts (zlen p) type with
  | None => tlv_value ts type = None
  | Some o => exists v, tlv_value ts type = Some v /\ rd16 (p ++ enc_tlvs ts ++ s) (o + 1) = Some (zlen v) /\
                lds (p ++ enc_tlvs ts ++ s) (o + 3) (zlen v) = Some v
  end.
Proof.
  intros F. revert p. induction F as [|x ts Hx F IH]; intros p; [done|].
  unfold tlv_value. cbn [find_type find]. rewrite enc_tlvs_cons, <- app_assoc. destruct (x.1 =? type) eqn:E.
  - exists x.2. split; [done|]. split; [by apply GetTLV_len|]. unfold enc_tlv.
    replace (p ++ (x.1 :: le16 (zlen x.2) ++ x.2) ++ enc_tlvs ts ++ s) with
      ((p ++ [x.1] ++ le16 (zlen x.2)) ++ x.2 ++ (enc_tlvs ts ++ s)) by (rewrite <- !app_assoc; done).
    apply lds_app; [|done]. zlens. lia.
  - specialize (IH (p ++ enc_tlv x)). rewrite <- app_assoc, zlen_app in IH. exact IH.
Qed.

Lemma read_tlv_enc_qmux qmitype client ctl tid ty ts type :
  Forall tlv_wf ts -> zlen (enc_tlvs ts) < 2 ^ 16 -> type <= 0x1000 ->
  read_tlv (enc_qmux qmitype client ctl tid ty (enc_tlvs ts)) type = Some (tlv_value ts type).
Proof.
  intros F Hl Ht. unfold read_tlv. rewrite GetTLV_enc_qmux by done. rewrite (proj2 (Z.ltb_ge _ _)) by lia.
  cbn [mbind option_bind].
  set (p := [USB_CTL_MSG_TYPE_QMI] ++ le16 (zlen (enc_tlvs ts) + 12) ++ [0; qmitype; client] ++
            [ctl] ++ le16 tid ++ le16 ty ++ le16 (zlen (enc_tlvs ts))).
  replace (enc_qmux qmitype client ctl tid ty (enc_tlvs ts)) with (p ++ enc_tlvs ts ++ []) by (by rewrite app_nil_r).
  pose proof (find_type_value p ts [] type F) as H. change (zlen p) with oTLVs in H.
  destruct (find_type ts oTLVs type) as [o|].
  - destruct H as (v & -> & -> & H). cbn [mbind option_bind]. by rewrite H.
  - by rewrite H.
Qed.
End ReadTLV.
