(* ===== verification/Compose.v ===== *)
(** * Requests: the globals of QMIThread.c, [ComposeQMUXMsg] and the functions that fill in a message.
    A builder gets the whole 256-byte stack buffer; [pMUXMsg] points at offset 6.  It returns the
    buffer and the [USHORT] it returns in C.  [builds] is the specification of a builder: the
    TLVs it appends to an empty message.  For every builder there is such a list, and
    [ComposeQMUXMsg_builds] turns it into the exact bytes of the request. *)
From S2P Require Import Prelude Util Layout QmiStructs QmiMsg.
#[local] Open Scope Z_scope.
#[local] Open Scope c_scope.

(** [malloc] of this many bytes succeeds. *)
Class Heap : Type := { malloc_ok : Z -> bool }.

Record Globals := {
  qmiclientId : list Z;               (* int qmiclientId[QMUX_TYPE_WDS_ADMIN + 1] *)
  WdsConnectionIPv4Handle : Z;
  WdsConnectionIPv6Handle : Z;
  s_is_cdma : Z;
  s_hdr_personality : Z;
  s_9x07 : Z;
  qmap_version : Z;
  TransactionId : Z }.                (* static of GetQMUXTransactionId *)

Definition globals_init : Globals :=
  {| qmiclientId := replicate 27 0; WdsConnectionIPv4Handle := 0; WdsConnectionIPv6Handle := 0;
     s_is_cdma := 0; s_hdr_personality := 0; s_9x07 := -1; qmap_version := 5; TransactionId := 0 |}.

Definition set_TransactionId (g : Globals) (t : Z) : Globals :=
  {| qmiclientId := qmiclientId g; WdsConnectionIPv4Handle := WdsConnectionIPv4Handle g;
     WdsConnectionIPv6Handle := WdsConnectionIPv6Handle g; s_is_cdma := s_is_cdma g;
     s_hdr_personality := s_hdr_personality g; s_9x07 := s_9x07 g; qmap_version := qmap_version g;
     TransactionId := t |}.

(** The part of [PROFILE_T] the requests read; [None] is a NULL string. *)
Record PROFILE_T := {
  apn : option bytes; user : option bytes; password : option bytes;
  auth : Z; pdp : Z; curIpFamily : Z; enable_ipv4 : Z; enable_ipv6 : Z }.

Record QMAP_SETTING := {
  rx_urb_size : Z; ep_type : Z; iface_id : Z; MuxId : Z;
  ul_data_aggregation_max_datagrams : Z; ul_data_aggregation_max_size : Z; dl_minimum_padding : Z }.

Definition GetQMUXTransactionId (g : Globals) : Z * Globals :=
  let t := TransactionId g + 1 in
  let t := if 0xFFFF <? t then 1 else t in
  (u16 t, set_TransactionId g t).

(** [typedef USHORT ( *CUSTOMQMUX)(PQMUX_MSG pMUXMsg, void *arg)] *)
Definition CUSTOMQMUX : Type := Globals -> bytes -> option (bytes * Z).

Section Compose.
Context {host : Host} {heap : Heap}.

(** Result: the request on the heap, or NULL. *)
Definition ComposeQMUXMsg (g : Globals) (QMIType Type_ : Z) (customQmuxMsgFunction : option CUSTOMQMUX)
  : option (option bytes * Globals) :=
  let m := replicate (Z.to_nat WDM_DEFAULT_BUFSIZE) 0 in
  m ← st8 m oIFType USB_CTL_MSG_TYPE_QMI;
  m ← st8 m oQMICtlFlags 0x00;
  m ← st8 m oQMIType QMIType;
  cid ← qmiclientId g !! Z.to_nat QMIType;
  m ← st8 m oClientId (cid .& 0xFF);
  if cid =? 0 then Some (None, g) else
  m ← st8 m oMUXCtlFlags 0x00;
  let '(tid, g) := GetQMUXTransactionId g in
  m ← st16 m oTransactionId (cpu_to_le16 tid);
  m ← st16 m oMUXType (cpu_to_le16 Type_);
  m ← match customQmuxMsgFunction with
      | Some f => '(m, n) ← f g m; st16 m oMUXLength (cpu_to_le16 (u16 (n - sizeof_QCQMUX_MSG_HDR)))
      | None => st16 m oMUXLength (cpu_to_le16 0x0000)
      end;
  L ← rd16 m oMUXLength;
  m ← st16 m oQMILength (cpu_to_le16 (u16 (L + sizeof_QCQMUX_MSG_HDR + sizeof_QCQMUX_HDR + sizeof_QCQMI_HDR - 1)));
  Q ← rd16 m oQMILength;
  let Length := Q + 1 in
  if malloc_ok Length then p ← lds m 0 Length; Some (Some p, g)
  else Some (None, g).

(** ** Builders *)

(** Type, length 1 and a one-byte value at [p]; then [le16_to_cpu(p->TLVLength) + 3]. *)
Definition put_tlv8 (m : bytes) (p type v : Z) : option (bytes * Z) :=
  m ← st8 m p type;
  m ← st16 m (p + QMI_TLV_HDR∙"TLVLength") (cpu_to_le16 0x01);
  m ← st8 m (p + sizeof[QMI_TLV_HDR]) v;
  l ← rd16 m (p + QMI_TLV_HDR∙"TLVLength");
  Some (m, l + sizeof_QMI_TLV_HDR).

(** The same for a string: [strlen] is stored, [qstrcpy] also writes the terminating NUL. *)
Definition put_tlv_str (m : bytes) (p type : Z) (s : bytes) : option (bytes * Z) :=
  m ← st8 m p type;
  m ← st16 m (p + QMI_TLV_HDR∙"TLVLength") (cpu_to_le16 (u16 (zlen s)));
  m ← sts m (p + sizeof[QMI_TLV_HDR]) (s ++ [0]);
  l ← rd16 m (p + QMI_TLV_HDR∙"TLVLength");
  Some (m, l + sizeof_QMI_TLV_HDR).

(** [if (s) { ... TLVLength += ...; }] *)
Definition opt_tlv_str (m : bytes) (pTLV TLVLength type : Z) (s : option bytes) : option (bytes * Z) :=
  match s with
  | Some s => '(m, n) ← put_tlv_str m (pTLV + TLVLength) type s; Some (m, u16 (TLVLength + n))
  | None => Some (m, TLVLength)
  end.

(** [s == NULL || s[0] == '\0'] *)
Definition str_empty (s : option bytes) : bool :=
  match s with Some (_ :: _) => false | _ => true end.
Definition is_nonnull {A} (s : option A) : bool := match s with Some _ => true | None => false end.

(** "ctnet@mycdma.cn" and "vnet.mobi" *)
Definition ctnet_user : bytes :=
  [0x63;0x74;0x6e;0x65;0x74;0x40;0x6d;0x79;0x63;0x64;0x6d;0x61;0x2e;0x63;0x6e].
Definition ctnet_password : bytes := [0x76;0x6e;0x65;0x74;0x2e;0x6d;0x6f;0x62;0x69].

(** The credentials [WdsStartNwInterfaceReq] uses. *)
Definition start_credentials (g : Globals) (profile : PROFILE_T) : option bytes * option bytes * Z :=
  if negb (s_is_cdma g =? 0) && str_empty (user profile) && str_empty (password profile)
  then (Some ctnet_user, Some ctnet_password, 2)
  else (user profile, password profile, auth profile).

Definition WdsStartNwInterfaceReq (profile : PROFILE_T) : CUSTOMQMUX := fun g m =>
  let '(profile_user, profile_password, profile_auth) := start_credentials g profile in
  let pTLV := oTLVs in
  m ← st16 m oMUXLength 0;
  '(m, n) ← put_tlv8 m pTLV 0x30 (if s_is_cdma g =? 0 then 0x01 else 0x02);
  let TLVLength := u16 n in
  '(m, TLVLength) ← opt_tlv_str m pTLV TLVLength 0x14 (if s_is_cdma g =? 0 then apn profile else None);
  '(m, TLVLength) ← opt_tlv_str m pTLV TLVLength 0x17 profile_user;
  '(m, TLVLength) ← opt_tlv_str m pTLV TLVLength 0x18 profile_password;
  '(m, TLVLength) ← (if is_nonnull profile_user && is_nonnull profile_password then
      '(m, n) ← put_tlv8 m (pTLV + TLVLength) 0x16 profile_auth; Some (m, u16 (TLVLength + n))
    else Some (m, TLVLength));
  '(m, n) ← put_tlv8 m (pTLV + TLVLength) 0x19 (curIpFamily profile);
  let TLVLength := u16 (TLVLength + n) in
  '(m, TLVLength) ← (if negb (pdp profile =? 0) && (s_is_cdma g =? 0) then
      (* the 0x32 branch for eHRPD is under s_is_cdma, which is 0 here *)
      '(m, n) ← put_tlv8 m (pTLV + TLVLength)
          (if negb (s_is_cdma g =? 0) && (s_hdr_personality g =? 0x02) then 0x32 else 0x31)
          (if negb (s_is_cdma g =? 0) && (s_hdr_personality g =? 0x02) then 101 else pdp profile);
      Some (m, u16 (TLVLength + n))
    else Some (m, TLVLength));
  Some (m, u16 (sizeof_QCQMUX_MSG_HDR + TLVLength)).

Definition WdsStopNwInterfaceReq (arg : Z) : CUSTOMQMUX := fun g m =>
  m ← st8 m oTLVs 0x01;
  m ← st16 m (oTLVs + 1) (cpu_to_le16 0x04);
  m ← st32 m (oTLVs + 3)
        (cpu_to_le32 (if arg =? IpFamilyV4 then WdsConnectionIPv4Handle g else WdsConnectionIPv6Handle g));
  Some (m, sizeof[QMIWDS_STOP_NETWORK_INTERFACE_REQ_MSG]).

(** The builders of a single one-byte TLV. *)
Definition WdsSetClientIPFamilyPref (arg : Z) : CUSTOMQMUX := fun _ m =>
  m ← st8 m oTLVs 0x01;
  m ← st16 m (oTLVs + 1) (cpu_to_le16 0x01);
  m ← st8 m (oTLVs + 3) arg;
  Some (m, sizeof[QMIWDS_SET_CLIENT_IP_FAMILY_PREF_REQ_MSG]).
Definition WdsSetAutoConnect (arg : Z) : CUSTOMQMUX := fun _ m =>
  m ← st8 m oTLVs 0x01;
  m ← st16 m (oTLVs + 1) (cpu_to_le16 0x01);
  m ← st8 m (oTLVs + 3) arg;
  Some (m, sizeof[QMIWDS_SET_AUTO_CONNECT_REQ_MSG]).

Definition WdsSetQMUXBindMuxDataPort (q : QMAP_SETTING) : CUSTOMQMUX := fun _ m =>
  m ← st8 m pMUXMsg->"BindMuxDataPortReq.TLVType" 0x10;
  m ← st16 m pMUXMsg->"BindMuxDataPortReq.TLVLength" (cpu_to_le16 0x08);
  m ← st32 m pMUXMsg->"BindMuxDataPortReq.ep_type" (cpu_to_le32 (ep_type q));
  m ← st32 m pMUXMsg->"BindMuxDataPortReq.iface_id" (cpu_to_le32 (iface_id q));
  m ← st8 m pMUXMsg->"BindMuxDataPortReq.TLV2Type" 0x11;
  m ← st16 m pMUXMsg->"BindMuxDataPortReq.TLV2Length" (cpu_to_le16 0x01);
  m ← st8 m pMUXMsg->"BindMuxDataPortReq.MuxId" (MuxId q);
  m ← st8 m pMUXMsg->"BindMuxDataPortReq.TLV3Type" 0x13;
  m ← st16 m pMUXMsg->"BindMuxDataPortReq.TLV3Length" (cpu_to_le16 0x04);
  m ← st32 m pMUXMsg->"BindMuxDataPortReq.client_type" (cpu_to_le32 1);
  Some (m, sizeof[QMIWDS_BIND_MUX_DATA_PORT_REQ_MSG]).

(** A TLV with a 32-bit value at [p] ([QMIWDS_ADMIN_SET_DATA_FORMAT_TLV], [QMI_U32_TLV]). *)
Definition put_tlv32 (m : bytes) (p type v : Z) : option bytes :=
  m ← st8 m p type;
  m ← st16 m (p + QMI_U32_TLV∙"TLVLength") (cpu_to_le16 4);
  st32 m (p + QMI_U32_TLV∙"TLVVaule") (cpu_to_le32 v).

Definition WdaSetDataFormat (q : QMAP_SETTING) : CUSTOMQMUX := fun g m =>
  if rx_urb_size q =? 0 then
    m ← st8 m pMUXMsg->"SetDataFormatReq.QosDataFormatTlv.TLVType" 0x10;
    m ← st16 m pMUXMsg->"SetDataFormatReq.QosDataFormatTlv.TLVLength" (cpu_to_le16 0x0001);
    m ← st8 m pMUXMsg->"SetDataFormatReq.QosDataFormatTlv.QOSSetting" 0;
    m ← put_tlv32 m 17 0x11 0x01;
    m ← put_tlv32 m 24 0x13 0x00;
    Some (m, sizeof[QCQMUX_MSG_HDR] + sizeof[QMIWDS_ADMIN_SET_DATA_FORMAT_TLV_QOS] + sizeof[QMIWDS_ADMIN_SET_DATA_FORMAT_TLV]
             + sizeof[QMIWDS_ADMIN_SET_DATA_FORMAT_TLV])
  else
    m ← st8 m pMUXMsg->"SetDataFormatReq.QosDataFormatTlv.TLVType" 0x10;
    m ← st16 m pMUXMsg->"SetDataFormatReq.QosDataFormatTlv.TLVLength" (cpu_to_le16 0x0001);
    m ← st8 m pMUXMsg->"SetDataFormatReq.QosDataFormatTlv.QOSSetting" 0;
    m ← put_tlv32 m pMUXMsg->"SetDataFormatReq.UnderlyingLinkLayerProtocolTlv" 0x11 0x02;
    m ← put_tlv32 m pMUXMsg->"SetDataFormatReq.UplinkDataAggregationProtocolTlv" 0x12 (qmap_version g);
    m ← put_tlv32 m pMUXMsg->"SetDataFormatReq.DownlinkDataAggregationProtocolTlv" 0x13 (qmap_version g);
    m ← put_tlv32 m pMUXMsg->"SetDataFormatReq.DownlinkDataAggregationMaxDatagramsTlv" 0x15 (rx_urb_size q / 512);
    m ← put_tlv32 m pMUXMsg->"SetDataFormatReq.DownlinkDataAggregationMaxSizeTlv" 0x16 (rx_urb_size q);
    m ← st8 m pMUXMsg->"SetDataFormatReq.epTlv.TLVType" 0x17;
    m ← st16 m pMUXMsg->"SetDataFormatReq.epTlv.TLVLength" (cpu_to_le16 8);
    m ← st32 m pMUXMsg->"SetDataFormatReq.epTlv.ep_type" (cpu_to_le32 (ep_type q));
    m ← st32 m pMUXMsg->"SetDataFormatReq.epTlv.iface_id" (cpu_to_le32 (iface_id q));
    if ul_data_aggregation_max_datagrams q =? 0 then Some (m, QMIWDS_ADMIN_SET_DATA_FORMAT_REQ_MSG∙"DlMinimumPassingTlv") else
    m ← put_tlv32 m pMUXMsg->"SetDataFormatReq.DlMinimumPassingTlv" 0x19 (dl_minimum_padding q);
    m ← put_tlv32 m pMUXMsg->"SetDataFormatReq.UplinkDataAggregationMaxDatagramsTlv" 0x1B (ul_data_aggregation_max_datagrams q);
    m ← put_tlv32 m pMUXMsg->"SetDataFormatReq.UplinkDataAggregationMaxSizeTlv" 0x1C (ul_data_aggregation_max_size q);
    Some (m, sizeof[QMIWDS_ADMIN_SET_DATA_FORMAT_REQ_MSG]).

Definition DmsUIMVerifyPinReqSend (arg : bytes) : CUSTOMQMUX := fun _ m =>
  m ← st8 m pMUXMsg->"UIMVerifyPinReq.TLVType" 0x01;
  m ← st8 m pMUXMsg->"UIMVerifyPinReq.PINID" 0x01;
  m ← st8 m pMUXMsg->"UIMVerifyPinReq.PINLen" (zlen arg);
  m ← sts m pMUXMsg->"UIMVerifyPinReq.PINValue" (arg ++ [0]);
  m ← st16 m pMUXMsg->"UIMVerifyPinReq.TLVLength" (cpu_to_le16 (u16 (2 + zlen arg)));
  Some (m, u16 (sizeof[QMIDMS_UIM_VERIFY_PIN_REQ_MSG] + (zlen arg - 1))).

Definition UimVerifyPinReqSend (arg : bytes) : CUSTOMQMUX := fun _ m =>
  m ← st8 m pMUXMsg->"UIMUIMVerifyPinReq.TLVType" 0x01;
  m ← st16 m pMUXMsg->"UIMUIMVerifyPinReq.TLVLength" (cpu_to_le16 0x02);
  m ← st8 m pMUXMsg->"UIMUIMVerifyPinReq.Session_Type" 0x00;
  m ← st8 m pMUXMsg->"UIMUIMVerifyPinReq.Aid_Len" 0x00;
  m ← st8 m pMUXMsg->"UIMUIMVerifyPinReq.TLV2Type" 0x02;
  m ← st16 m pMUXMsg->"UIMUIMVerifyPinReq.TLV2Length" (cpu_to_le16 (u16 (2 + zlen arg)));
  m ← st8 m pMUXMsg->"UIMUIMVerifyPinReq.PINID" 0x01;
  m ← st8 m pMUXMsg->"UIMUIMVerifyPinReq.PINLen" (zlen arg);
  m ← sts m pMUXMsg->"UIMUIMVerifyPinReq.PINValue" (arg ++ [0]);
  Some (m, u16 (sizeof[QMIUIM_VERIFY_PIN_REQ_MSG] + (zlen arg - 1))).

(** The two files the callers name ([strcmp] on the argument), or neither. *)
Inductive ef := EF_ICCID | EF_IMSI | EF_OTHER.

Definition UimReadTransparentIMSIReqSend (arg : ef) : CUSTOMQMUX := fun _ m =>
  m ← st8 m pMUXMsg->"UIMUIMReadTransparentReq.TLVType" 0x01;
  m ← st16 m pMUXMsg->"UIMUIMReadTransparentReq.TLVLength" (cpu_to_le16 0x02);
  m ← match arg with
      | EF_ICCID =>
          m ← st8 m pMUXMsg->"UIMUIMReadTransparentReq.Session_Type" 0x06;
            m ← st8 m pMUXMsg->"UIMUIMReadTransparentReq.Aid_Len" 0x00;
          m ← st8 m pMUXMsg->"UIMUIMReadTransparentReq.TLV2Type" 0x02;
            m ← st16 m pMUXMsg->"UIMUIMReadTransparentReq.file_id" (cpu_to_le16 0x2FE2);
          m ← st8 m pMUXMsg->"UIMUIMReadTransparentReq.path_len" 0x02;   (* path[0] is at 24 *)
          m ← st8 m 24 0x00; st8 m 25 0x3F
      | EF_IMSI =>
          m ← st8 m pMUXMsg->"UIMUIMReadTransparentReq.Session_Type" 0x00;
            m ← st8 m pMUXMsg->"UIMUIMReadTransparentReq.Aid_Len" 0x00;
          m ← st8 m pMUXMsg->"UIMUIMReadTransparentReq.TLV2Type" 0x02;
            m ← st16 m pMUXMsg->"UIMUIMReadTransparentReq.file_id" (cpu_to_le16 0x6F07);
          m ← st8 m pMUXMsg->"UIMUIMReadTransparentReq.path_len" 0x04;   (* path[0] is at 24 *)
          m ← st8 m 24 0x00; m ← st8 m 25 0x3F; m ← st8 m 26 0xFF; st8 m 27 0x7F
      | EF_OTHER => Some m
      end;
  path_len ← ld m pMUXMsg->"UIMUIMReadTransparentReq.path_len";
  m ← st16 m pMUXMsg->"UIMUIMReadTransparentReq.TLV2Length" (cpu_to_le16 (u16 (3 + path_len)));
  m ← st8 m (pMUXMsg->"UIMUIMReadTransparentReq.path" + path_len) 0x03;
  m ← st16 m (pMUXMsg->"UIMUIMReadTransparentReq.path" + path_len + READ_TRANSPARENT_TLV∙"TLVLength") (cpu_to_le16 0x04);
  m ← st16 m (pMUXMsg->"UIMUIMReadTransparentReq.path" + path_len + READ_TRANSPARENT_TLV∙"Offset") (cpu_to_le16 0x00);
  m ← st16 m (pMUXMsg->"UIMUIMReadTransparentReq.path" + path_len + READ_TRANSPARENT_TLV∙"Length") (cpu_to_le16 0x00);
  Some (m, u16 (sizeof[QMIUIM_READ_TRANSPARENT_REQ_MSG] + path_len + sizeof[READ_TRANSPARENT_TLV])).

Definition WdsGetProfileSettingsReqSend (profile : PROFILE_T) : CUSTOMQMUX := fun _ m =>
  m ← st16 m oMUXLength (cpu_to_le16 5);
  m ← st8 m pMUXMsg->"GetProfileSettingsReq.TLVType" 0x01;
  m ← st16 m pMUXMsg->"GetProfileSettingsReq.TLVLength" (cpu_to_le16 0x02);
  m ← st8 m pMUXMsg->"GetProfileSettingsReq.ProfileType" 0x00;
  m ← st8 m pMUXMsg->"GetProfileSettingsReq.ProfileIndex" (pdp profile);
  Some (m, sizeof[QMIWDS_GET_PROFILE_SETTINGS_REQ_MSG]).

Definition WdsModifyProfileSettingsReq (profile : PROFILE_T) : CUSTOMQMUX := fun _ m =>
  m ← st16 m oMUXLength (cpu_to_le16 5);
  m ← st8 m pMUXMsg->"ModifyProfileSettingsReq.TLVType" 0x01;
  m ← st16 m pMUXMsg->"ModifyProfileSettingsReq.TLVLength" (cpu_to_le16 0x02);
  m ← st8 m pMUXMsg->"ModifyProfileSettingsReq.ProfileType" 0x00;
  m ← st8 m pMUXMsg->"ModifyProfileSettingsReq.ProfileIndex" (pdp profile);
  let pTLV := 18 in
  '(m, n) ← put_tlv8 m pTLV 0x11
     (if negb (enable_ipv4 profile =? 0) && negb (enable_ipv6 profile =? 0) then 3
      else if negb (enable_ipv6 profile =? 0) then 2 else 0);
  let TLVLength := u16 n in
  '(m, TLVLength) ← opt_tlv_str m pTLV TLVLength 0x14 (apn profile);
  '(m, TLVLength) ← opt_tlv_str m pTLV TLVLength 0x1B (user profile);
  '(m, TLVLength) ← opt_tlv_str m pTLV TLVLength 0x1C (password profile);
  '(m, TLVLength) ← (if is_nonnull (user profile) && is_nonnull (password profile) then
      '(m, n) ← put_tlv8 m (pTLV + TLVLength) 0x1D (auth profile); Some (m, u16 (TLVLength + n))
    else Some (m, TLVLength));
  Some (m, u16 (sizeof[QMIWDS_MODIFY_PROFILE_SETTINGS_REQ_MSG] + TLVLength)).

Definition WdsGetRuntimeSettingReq : CUSTOMQMUX := fun _ m =>
  m ← st8 m pMUXMsg->"GetRuntimeSettingsReq.TLVType" 0x10;
  m ← st16 m pMUXMsg->"GetRuntimeSettingsReq.TLVLength" (cpu_to_le16 0x04);
  m ← st32 m pMUXMsg->"GetRuntimeSettingsReq.Mask" (cpu_to_le32 ((1 .<< 4) .| (1 .<< 8) .| (1 .<< 13) .| (1 .<< 9)) .| (1 .<< 11) .| (1 .<< 14));
  Some (m, sizeof[QMIWDS_GET_RUNTIME_SETTINGS_REQ_MSG]).

(** The values are filled in by [requestSetLoopBackState] after the message is composed. *)
Definition WdaSetLoopBackReq : CUSTOMQMUX := fun _ m =>
  m ← st8 m pMUXMsg->"SetLoopBackReq.loopback_state.TLVType" 0x01;
  m ← st16 m pMUXMsg->"SetLoopBackReq.loopback_state.TLVLength" (cpu_to_le16 1);
  m ← st8 m pMUXMsg->"SetLoopBackReq.replication_factor.TLVType" 0x10;
  m ← st16 m pMUXMsg->"SetLoopBackReq.replication_factor.TLVLength" (cpu_to_le16 4);
  Some (m, sizeof[QMI_WDA_SET_LOOPBACK_CONFIG_REQ_MSG]).
End Compose.

(** ** Specification of the builders *)

(** The buffer after the thirteen header bytes [P] and the TLVs [ts]. *)
Definition area_buf (P : bytes) (ts : list tlv) : bytes :=
  (P ++ enc_tlvs ts) ++ replicate (243 - length (enc_tlvs ts)) 0.
Definition area_len (ts : list tlv) : Z := zlen (enc_tlvs ts).

(** [f] appends exactly the TLVs [ts] to an empty message (it may scribble on the length field, which
    [ComposeQMUXMsg] fills in afterwards) and returns the length of the QMUX message. *)
Definition builds (g : Globals) (f : CUSTOMQMUX) (ts : list tlv) : Prop :=
  forall h l0 l1, zlen h = 11 ->
    exists l0' l1', f g (area_buf (h ++ [l0; l1]) []) = Some (area_buf (h ++ [l0'; l1']) ts, 4 + area_len ts).

Lemma length_zlen {A} (l : list A) n : length l = n <-> zlen l = Z.of_nat n.
Proof. unfold zlen. lia. Qed.

Lemma enc_tlvs_one x : enc_tlvs [x] = [x.1] ++ le16 (zlen x.2) ++ x.2.
Proof. unfold enc_tlvs. simpl. by rewrite app_nil_r. Qed.

Section Area.
Context {host : Host}.

Lemma zeros_tail (P : bytes) ts us :
  (length (enc_tlvs ts) + length (enc_tlvs us) <= 243)%nat ->
  ((P ++ enc_tlvs ts) ++ enc_tlvs us) ++ replicate (243 - length (enc_tlvs ts) - length (enc_tlvs us)) 0
  = area_buf P (ts ++ us).
Proof.
  intros H. unfold area_buf. rewrite enc_tlvs_app, length_app, <- (app_assoc P).
  do 2 f_equal. lia.
Qed.

Lemma area_len_app ts us : area_len (ts ++ us) = area_len ts + area_len us.
Proof. unfold area_len. by rewrite enc_tlvs_app, zlen_app. Qed.
Lemma area_len_cons x ts : area_len (x :: ts) = 3 + zlen x.2 + area_len ts.
Proof. unfold area_len. by rewrite enc_tlvs_cons, zlen_app, enc_tlv_zlen. Qed.
Lemma area_len_one x : area_len [x] = 3 + zlen x.2.
Proof. rewrite area_len_cons. change (area_len []) with 0. lia. Qed.
Lemma area_len_nil : area_len [] = 0.
Proof. done. Qed.

Context (P : bytes) (HP : zlen P = 13).

(** Type and length stored at the end [Q] of the bytes written so far. *)
Lemma put_header Q n t l :
  (3 <= n)%nat ->
  (m ← st8 (Q ++ replicate n 0) (zlen Q) t; st16 m (zlen Q + 1) (cpu_to_le16 l)) =
  Some ((Q ++ [u8 t] ++ le16 l) ++ replicate (n - 3) 0).
Proof.
  intros Hn. unfold st8, st16. rewrite enc16_cpu_to_le16.
  rewrite sts_zeros by (simpl; lia). cbn [mbind option_bind].
  rewrite sts_zeros by (zlens; simpl; lia). rewrite <- (app_assoc Q). do 3 f_equal. simpl. lia.
Qed.

(** Reading back the length just stored. *)
Lemma read_back Q t l s i :
  i = zlen Q + 1 -> is_u16 l -> rd16 ((Q ++ [t] ++ le16 l) ++ s) i = Some l.
Proof.
  intros -> Hl. rewrite (app_assoc Q), <- app_assoc. apply rd16_le16; [done|]. zlens. lia.
Qed.

Lemma put_tlv8_area ts p t v :
  p = 13 + area_len ts -> area_len ts + 4 <= 243 ->
  put_tlv8 (area_buf P ts) p t v = Some (area_buf P (ts ++ [(u8 t, [u8 v])]), 4).
Proof.
  intros -> Hf. unfold area_len in Hf. unfold put_tlv8, area_len.
  replace (13 + zlen (enc_tlvs ts)) with (zlen (P ++ enc_tlvs ts)) by (zlens; lia).
  pose proof (put_header (P ++ enc_tlvs ts) (243 - length (enc_tlvs ts)) t 1) as E.
  unfold area_buf at 1. destruct (st8 _ _ t) as [m|]; [|by specialize (E ltac:(unfold zlen in *; lia))].
  cbn [mbind option_bind] in E |- *. rewrite E by (unfold zlen in *; lia). cbn [mbind option_bind].
  unfold st8. rewrite sts_zeros by (zlens; unfold zlen in *; simpl; lia). cbn [mbind option_bind].
  rewrite <- (app_assoc _ [u8 v]), read_back by (done || lia). cbn [mbind option_bind].
  rewrite app_assoc, <- zeros_tail by (unfold zlen in *; simpl; lia).
  do 3 f_equal; [by rewrite <- !app_assoc | f_equal; simpl; lia].
Qed.

Lemma put_tlv_str_area ts p t s :
  p = 13 + area_len ts -> area_len ts + 3 + zlen s + 1 <= 243 ->
  put_tlv_str (area_buf P ts) p t s = Some (area_buf P (ts ++ [(u8 t, s)]), 3 + zlen s).
Proof.
  intros -> Hf. unfold area_len in Hf. unfold put_tlv_str, area_len.
  pose proof (zlen_nonneg s). pose proof (zlen_nonneg (enc_tlvs ts)).
  rewrite u16_id by (unfold is_u16; lia).
  replace (13 + zlen (enc_tlvs ts)) with (zlen (P ++ enc_tlvs ts)) by (zlens; lia).
  pose proof (put_header (P ++ enc_tlvs ts) (243 - length (enc_tlvs ts)) t (zlen s)) as E.
  unfold area_buf at 1. destruct (st8 _ _ t) as [m|]; [|by specialize (E ltac:(unfold zlen in *; lia))].
  cbn [mbind option_bind] in E |- *. rewrite E by (unfold zlen in *; lia). cbn [mbind option_bind].
  rewrite sts_zeros by (rewrite ?length_app; zlens; unfold zlen in *; simpl; lia). cbn [mbind option_bind].
  rewrite <- (app_assoc _ (s ++ [0])), read_back by (done || unfold is_u16; lia). cbn [mbind option_bind].
  rewrite <- zeros_tail by (rewrite enc_tlvs_one, !length_app; unfold zlen in *; simpl; lia).
  f_equal. f_equal; [|unfold sizeof_QMI_TLV_HDR; lia]. rewrite enc_tlvs_one. cbn [fst snd].
  match goal with |- _ ++ _ ++ replicate ?a 0 = _ ++ replicate ?b 0 => replace b with (S a)
    by (rewrite !length_app; unfold zlen in *; simpl; lia); set (k := a) end.
  change (replicate (S k) 0) with ([0] ++ replicate k 0). by rewrite <- !app_assoc.
Qed.

Definition opt_tlv (t : Z) (s : option bytes) : list tlv := match s with Some s => [(t, s)] | None => [] end.

Lemma opt_tlv_str_area_at d ts L t s :
  L = area_len ts - d -> 0 <= L -> 0 <= d -> is_byte t -> area_len (ts ++ opt_tlv t s) + 1 <= 243 ->
  opt_tlv_str (area_buf P ts) (13 + d) L t s =
  Some (area_buf P (ts ++ opt_tlv t s), area_len (ts ++ opt_tlv t s) - d).
Proof.
  intros -> H0 Hd Ht Hf. rewrite area_len_app in Hf |- *. destruct s as [s|]; cbn [opt_tlv opt_tlv_str] in *.
  - rewrite (area_len_one (t, s)) in Hf |- *. cbn [snd] in *.
    rewrite put_tlv_str_area by lia. cbn [mbind option_bind]. rewrite u8_id by done.
    do 2 f_equal. pose proof (zlen_nonneg s). rewrite u16_id by (unfold is_u16; lia). lia.
  - rewrite app_nil_r. do 2 f_equal. rewrite area_len_nil. lia.
Qed.
Lemma opt_tlv_str_area ts L t s :
  L = area_len ts -> is_byte t -> area_len (ts ++ opt_tlv t s) + 1 <= 243 ->
  opt_tlv_str (area_buf P ts) 13 L t s =
  Some (area_buf P (ts ++ opt_tlv t s), area_len (ts ++ opt_tlv t s)).
Proof.
  intros -> Ht Hf. pose proof (zlen_nonneg (enc_tlvs ts)). change 13 with (13 + 0).
  rewrite (opt_tlv_str_area_at 0) by (done || (unfold area_len in *; lia)). by rewrite Z.sub_0_r.
Qed.

(** A conditional one-byte TLV. *)
Definition cond_tlv8 (b : bool) (t v : Z) : list tlv := if b then [(t, [u8 v])] else [].
Lemma cond_tlv8_area_at (b : bool) d ts L t v :
  L = area_len ts - d -> 0 <= L -> 0 <= d -> is_byte t -> area_len (ts ++ cond_tlv8 b t v) <= 243 ->
  (if b then '(m, n) ← put_tlv8 (area_buf P ts) (13 + d + L) t v; Some (m, u16 (L + n)) else Some (area_buf P ts, L))
  = Some (area_buf P (ts ++ cond_tlv8 b t v), area_len (ts ++ cond_tlv8 b t v) - d).
Proof.
  intros -> H0 Hd Ht Hf. rewrite area_len_app in Hf |- *. destruct b; cbn [cond_tlv8] in *.
  - rewrite (area_len_one (t, _)) in Hf |- *. cbn [snd] in *. change (zlen [u8 v]) with 1 in *.
    rewrite put_tlv8_area by lia. cbn [mbind option_bind]. rewrite u8_id by done.
    do 2 f_equal. rewrite u16_id by (unfold is_u16; lia). lia.
  - rewrite app_nil_r. do 2 f_equal. rewrite area_len_nil. lia.
Qed.
Lemma cond_tlv8_area (b : bool) ts L t v :
  L = area_len ts -> is_byte t -> area_len (ts ++ cond_tlv8 b t v) <= 243 ->
  (if b then '(m, n) ← put_tlv8 (area_buf P ts) (13 + L) t v; Some (m, u16 (L + n)) else Some (area_buf P ts, L))
  = Some (area_buf P (ts ++ cond_tlv8 b t v), area_len (ts ++ cond_tlv8 b t v)).
Proof.
  intros -> Ht Hf. pose proof (zlen_nonneg (enc_tlvs ts)).
  pose proof (cond_tlv8_area_at b 0 ts (area_len ts) t v) as E. rewrite Z.add_0_r, !Z.sub_0_r in E.
  apply E; done || (unfold area_len in *; lia).
Qed.
End Area.

(** *** The connection request *)
Definition start_tlvs (g : Globals) (profile : PROFILE_T) : list tlv :=
  let '(u, p, a) := start_credentials g profile in
  [(0x30, [if s_is_cdma g =? 0 then 1 else 2])] ++
  opt_tlv 0x14 (if s_is_cdma g =? 0 then apn profile else None) ++
  opt_tlv 0x17 u ++ opt_tlv 0x18 p ++
  cond_tlv8 (is_nonnull u && is_nonnull p) 0x16 a ++
  [(0x19, [u8 (curIpFamily profile)])] ++
  cond_tlv8 (negb (pdp profile =? 0) && (s_is_cdma g =? 0)) 0x31 (pdp profile).

(** *** The profile request *)
Definition modify_tlvs (profile : PROFILE_T) : list tlv :=
  [(0x01, [0; u8 (pdp profile)]);
   (0x11, [if negb (enable_ipv4 profile =? 0) && negb (enable_ipv6 profile =? 0) then 3
           else if negb (enable_ipv6 profile =? 0) then 2 else 0])] ++
  opt_tlv 0x14 (apn profile) ++ opt_tlv 0x1B (user profile) ++ opt_tlv 0x1C (password profile) ++
  cond_tlv8 (is_nonnull (user profile) && is_nonnull (password profile)) 0x1D (auth profile).

(** Sizes of areas: split sums, and every part is non-negative. *)
Lemma area_len_nonneg ts : 0 <= area_len ts.
Proof. apply zlen_nonneg. Qed.
Ltac area_lia :=
  rewrite ?area_len_app, ?area_len_cons, ?area_len_nil in *; rewrite ?area_len_app, ?area_len_cons, ?area_len_nil in *; cbn [fst snd zlen length] in *;
  repeat match goal with
  | |- context [area_len ?x] => lazymatch goal with H : 0 <= area_len x |- _ => fail | _ => pose proof (area_len_nonneg x) end
  | _ : context [area_len ?x] |- _ => lazymatch goal with H : 0 <= area_len x |- _ => fail | _ => pose proof (area_len_nonneg x) end
  end;
  unfold is_byte, is_u16, zlen in *; cbn [length] in *; lia.

(** Runs stores that continue the bytes written so far. *)
Ltac emit :=
  unfold put_tlv32, st8, st16, st32; rewrite ?enc16_cpu_to_le16, ?enc32_cpu_to_le32;
  repeat (rewrite sts_zeros by (zlens; cbn [length le16 le32]; lia); cbn [mbind option_bind]).

Section Builders.
Context {host : Host}.

Lemma scribble_length h l0 l1 v :
  zlen h = 11 -> st16 (area_buf (h ++ [l0; l1]) []) oMUXLength (cpu_to_le16 v) = Some (area_buf (h ++ le16 v) []).
Proof.
  intros Hh. unfold area_buf, st16. rewrite enc16_cpu_to_le16. change (enc_tlvs []) with (@nil Z).
  rewrite !app_nil_r, <- !app_assoc. by apply sts_app.
Qed.

Lemma cpu_to_le16_0 : cpu_to_le16 0 = 0.
Proof. unfold cpu_to_le16, enc16, dec_native, native. by destruct is_bigendian. Qed.

Lemma scribble_zero h l0 l1 :
  zlen h = 11 -> st16 (area_buf (h ++ [l0; l1]) []) oMUXLength 0 = Some (area_buf (h ++ [0; 0]) []).
Proof. intros Hh. pose proof (scribble_length h l0 l1 0 Hh) as E. by rewrite cpu_to_le16_0 in E. Qed.

Lemma u16_step ts t v : area_len ts <= 243 -> u16 (area_len ts + 4) = area_len (ts ++ [(t, [v])]).
Proof.
  intros H. pose proof (area_len_nonneg ts). rewrite area_len_app, area_len_one.
  cbn [snd]. rewrite u16_id by (unfold is_u16; lia). done.
Qed.

Lemma WdsStartNwInterfaceReq_builds g profile :
  area_len (start_tlvs g profile) <= 243 -> builds g (WdsStartNwInterfaceReq profile) (start_tlvs g profile).
Proof.
  unfold start_tlvs. destruct (start_credentials g profile) as [[u p] a] eqn:Ec. intros Hf h l0 l1 Hh.
  exists 0, 0. unfold WdsStartNwInterfaceReq. rewrite Ec. cbv zeta. unfold oTLVs.
  assert (HP : zlen (h ++ [0; 0]) = 13) by (zlens; lia).
  rewrite scribble_zero by done. cbn [mbind option_bind].
  rewrite put_tlv8_area by (done || area_lia). cbn [mbind option_bind app]. change (u8 48) with 48.
  destruct (s_is_cdma g =? 0); cbn [negb andb]; rewrite ?andb_true_r, ?andb_false_r in *;
    (do 3 (rewrite opt_tlv_str_area by (done || area_lia); cbn [mbind option_bind]));
    rewrite cond_tlv8_area by (done || area_lia); cbn [mbind option_bind];
    rewrite put_tlv8_area by (done || area_lia); cbn [mbind option_bind];
    change (u8 25) with 25; rewrite (u16_step _ 25 (u8 (curIpFamily profile))) by area_lia.
  - rewrite cond_tlv8_area by (done || area_lia). cbn [mbind option_bind]. unfold sizeof_QCQMUX_MSG_HDR.
    rewrite u16_id by area_lia. by rewrite <- !app_assoc.
  - unfold sizeof_QCQMUX_MSG_HDR. rewrite u16_id by area_lia.
    cbn [mbind option_bind cond_tlv8]. by rewrite <- !app_assoc.
Qed.

(** Builders of a fixed layout: run the stores, compare the bytes. *)
Ltac fixed_builder :=
  intros h l0 l1 Hh; exists l0, l1;
  assert (HP : zlen (h ++ [l0; l1]) = 13) by (zlens; lia);
  set (P := h ++ [l0; l1]) in *; unfold area_buf at 1;
  change (enc_tlvs []) with (@nil Z); rewrite app_nil_r; change (243 - length (@nil Z))%nat with 243%nat;
  emit; unfold area_buf; rewrite <- !app_assoc; reflexivity.

Lemma WdsStopNwInterfaceReq_builds g arg :
  builds g (WdsStopNwInterfaceReq arg)
    [(1, le32 (if arg =? IpFamilyV4 then WdsConnectionIPv4Handle g else WdsConnectionIPv6Handle g))].
Proof. unfold WdsStopNwInterfaceReq, oTLVs. fixed_builder. Qed.

Lemma WdsSetClientIPFamilyPref_builds g arg : builds g (WdsSetClientIPFamilyPref arg) [(1, [u8 arg])].
Proof. unfold WdsSetClientIPFamilyPref, oTLVs. fixed_builder. Qed.

Lemma WdsSetAutoConnect_builds g arg : builds g (WdsSetAutoConnect arg) [(1, [u8 arg])].
Proof. unfold WdsSetAutoConnect, oTLVs. fixed_builder. Qed.

Lemma WdsSetQMUXBindMuxDataPort_builds g q :
  builds g (WdsSetQMUXBindMuxDataPort q)
    [(0x10, le32 (ep_type q) ++ le32 (iface_id q)); (0x11, [u8 (MuxId q)]); (0x13, le32 1)].
Proof. unfold WdsSetQMUXBindMuxDataPort. fixed_builder. Qed.

Definition wda_tlvs (g : Globals) (q : QMAP_SETTING) : list tlv :=
  if rx_urb_size q =? 0 then [(0x10, [0]); (0x11, le32 1); (0x13, le32 0)]
  else [(0x10, [0]); (0x11, le32 2); (0x12, le32 (qmap_version g)); (0x13, le32 (qmap_version g));
        (0x15, le32 (rx_urb_size q / 512)); (0x16, le32 (rx_urb_size q));
        (0x17, le32 (ep_type q) ++ le32 (iface_id q))] ++
       (if ul_data_aggregation_max_datagrams q =? 0 then [] else
         [(0x19, le32 (dl_minimum_padding q)); (0x1B, le32 (ul_data_aggregation_max_datagrams q));
          (0x1C, le32 (ul_data_aggregation_max_size q))]).

Lemma WdaSetDataFormat_builds g q : builds g (WdaSetDataFormat q) (wda_tlvs g q).
Proof.
  unfold WdaSetDataFormat, wda_tlvs. destruct (rx_urb_size q =? 0); [fixed_builder|].
  destruct (ul_data_aggregation_max_datagrams q =? 0); fixed_builder.
Qed.

Lemma WdsGetRuntimeSettingReq_builds g :
  builds g WdsGetRuntimeSettingReq
    [(0x10, enc32 (cpu_to_le32 0x2310 .| 0x800 .| 0x4000))].
Proof.
  unfold WdsGetRuntimeSettingReq. change ((1 .<< 4) .| _ .| _ .| _) with 0x2310.
  change (1 .<< 11) with 0x800. change (1 .<< 14) with 0x4000.
  set (v := cpu_to_le32 0x2310 .| 0x800 .| 0x4000).
  assert (Hlen : length (enc32 v) = 4%nat) by (unfold enc32, native; by destruct is_bigendian).
  intros h l0 l1 Hh. exists l0, l1. assert (HP : zlen (h ++ [l0; l1]) = 13) by (zlens; lia).
  set (P := h ++ [l0; l1]) in *. unfold area_buf at 1.
  change (enc_tlvs []) with (@nil Z). rewrite app_nil_r. change (243 - length (@nil Z))%nat with 243%nat.
  emit.
  rewrite Hlen. unfold area_buf, area_len. rewrite enc_tlvs_one. cbn [fst snd].
  rewrite !length_app, !zlen_app, Hlen. unfold zlen. rewrite Hlen. by rewrite <- !app_assoc.
Qed.

Lemma WdaSetLoopBackReq_builds g :
  builds g WdaSetLoopBackReq [(0x01, [0]); (0x10, [0; 0; 0; 0])].
Proof.
  unfold WdaSetLoopBackReq. intros h l0 l1 Hh. exists l0, l1.
  assert (HP : zlen (h ++ [l0; l1]) = 13) by (zlens; lia).
  set (P := h ++ [l0; l1]) in *. unfold area_buf at 1.
  change (enc_tlvs []) with (@nil Z). rewrite app_nil_r. change (243 - length (@nil Z))%nat with 243%nat.
  emit. rewrite (sts_zeros_gap _ _ _ 1) by (zlens; cbn [length le16]; lia). cbn [mbind option_bind].
  emit. unfold area_buf. rewrite <- !app_assoc. reflexivity.
Qed.

Lemma WdsGetProfileSettingsReqSend_builds g profile :
  builds g (WdsGetProfileSettingsReqSend profile) [(0x01, [0; u8 (pdp profile)])].
Proof.
  intros h l0 l1 Hh. exists 5, 0. unfold WdsGetProfileSettingsReqSend.
  rewrite scribble_length by done. change (le16 5) with [5; 0]. cbn [mbind option_bind].
  assert (HP : zlen (h ++ [5; 0]) = 13) by (zlens; lia).
  set (P := h ++ [5; 0]) in *. unfold area_buf at 1.
  change (enc_tlvs []) with (@nil Z). rewrite app_nil_r. change (243 - length (@nil Z))%nat with 243%nat.
  emit. unfold area_buf. rewrite <- !app_assoc. reflexivity.
Qed.

Definition ef_tlvs (arg : ef) : list tlv :=
  match arg with
  | EF_ICCID => [(0x01, [6; 0]); (0x02, le16 0x2FE2 ++ [2; 0; 0x3F]); (0x03, [0; 0; 0; 0])]
  | EF_IMSI => [(0x01, [0; 0]); (0x02, le16 0x6F07 ++ [4; 0; 0x3F; 0xFF; 0x7F]); (0x03, [0; 0; 0; 0])]
  | EF_OTHER => [(0x01, [0; 0]); (0x00, [0; 0; 0]); (0x03, [0; 0; 0; 0])]
  end.

Lemma UimReadTransparentIMSIReqSend_builds g arg : builds g (UimReadTransparentIMSIReqSend arg) (ef_tlvs arg).
Proof.
  intros h l0 l1 Hh. exists l0, l1. unfold zlen in Hh.
  do 11 (destruct h as [|? h]; [simpl in Hh; lia|]). destruct h; [|simpl in Hh; lia].
  destruct host as [[]], arg; vm_compute; reflexivity.
Qed.

(** A two-byte field that was skipped, filled in later. *)
Lemma st16_fill P v s i :
  i = zlen P -> st16 (P ++ [0; 0] ++ s) i (cpu_to_le16 v) = Some (P ++ le16 v ++ s).
Proof. intros. by apply st16_le_app. Qed.

Lemma pin_tail (Q : bytes) (s : bytes) n k :
  (length s < n)%nat -> k = (n - length (s ++ [0%Z]))%nat ->
  (Q ++ s ++ [0]) ++ replicate k 0 = (Q ++ s) ++ replicate (n - length s) 0.
Proof.
  intros Hn ->. rewrite length_app. simpl. replace (n - length s)%nat with (S (n - (length s + 1)))%nat by lia.
  simpl. by rewrite <- !app_assoc.
Qed.

Lemma DmsUIMVerifyPinReqSend_builds g pin :
  zlen pin <= 200 -> builds g (DmsUIMVerifyPinReqSend pin) [(0x01, [1; u8 (zlen pin)] ++ pin)].
Proof.
  intros Hp h l0 l1 Hh. exists l0, l1. pose proof (zlen_nonneg pin).
  assert (HP : zlen (h ++ [l0; l1]) = 13) by (zlens; lia).
  set (P := h ++ [l0; l1]) in *. unfold area_buf at 1, DmsUIMVerifyPinReqSend.
  change (enc_tlvs []) with (@nil Z). rewrite app_nil_r. change (243 - length (@nil Z))%nat with 243%nat.
  unfold st8. rewrite sts_zeros by (cbn [length]; lia). cbn [mbind option_bind].
  rewrite (sts_zeros_gap _ _ _ 2) by (zlens; cbn [length]; lia). cbn [mbind option_bind].
  rewrite sts_zeros by (zlens; cbn [length]; lia). cbn [mbind option_bind].
  rewrite sts_zeros by (zlens; rewrite ?length_app; unfold zlen in *; cbn [length]; lia). cbn [mbind option_bind].
  rewrite (u16_id (2 + _)), (u16_id (10 + _)) by (unfold is_u16; lia).
  rewrite (pin_tail _ pin 238) by (rewrite ?length_app; unfold zlen in *; cbn [length]; lia).
  change (replicate 2 0) with [0; 0]. rewrite <- !app_assoc, (app_assoc P).
  rewrite st16_fill by (zlens; lia). cbn [mbind option_bind]. f_equal. f_equal.
  - unfold area_buf. rewrite enc_tlvs_one. cbn [fst snd]. rewrite !zlen_app, !length_app.
    change (zlen [1; u8 (zlen pin)]) with 2. cbn [length le16]. rewrite <- !app_assoc.
    change (u8 1) with 1. do 5 f_equal.
  - rewrite area_len_one. cbn [snd]. rewrite zlen_app. change (zlen [1; u8 (zlen pin)]) with 2. lia.
Qed.

Lemma UimVerifyPinReqSend_builds g pin :
  zlen pin <= 200 ->
  builds g (UimVerifyPinReqSend pin) [(0x01, [0; 0]); (0x02, [1; u8 (zlen pin)] ++ pin)].
Proof.
  intros Hp h l0 l1 Hh. exists l0, l1. pose proof (zlen_nonneg pin).
  assert (HP : zlen (h ++ [l0; l1]) = 13) by (zlens; lia).
  set (P := h ++ [l0; l1]) in *. unfold area_buf at 1, UimVerifyPinReqSend.
  change (enc_tlvs []) with (@nil Z). rewrite app_nil_r. change (243 - length (@nil Z))%nat with 243%nat.
  rewrite (u16_id (2 + _)), (u16_id (15 + _)) by (unfold is_u16; lia).
  emit. rewrite sts_zeros by (zlens; rewrite ?length_app; unfold zlen in *; cbn [length le16]; lia).
  cbn [mbind option_bind].
  rewrite (pin_tail _ pin 233) by (rewrite ?length_app; unfold zlen in *; cbn [length le16]; lia).
  f_equal. f_equal.
  - unfold area_buf. rewrite enc_tlvs_cons, enc_tlvs_one. unfold enc_tlv. cbn [fst snd]. rewrite !zlen_app, !length_app.
    change (zlen [1; u8 (zlen pin)]) with 2. cbn [length le16]. rewrite <- !app_assoc.
    change (u8 1) with 1. reflexivity.
  - rewrite area_len_cons, area_len_one. cbn [snd]. rewrite zlen_app. change (zlen [1; u8 (zlen pin)]) with 2.
    change (zlen [0; 0]) with 2. lia.
Qed.

Lemma WdsModifyProfileSettingsReq_builds g profile :
  area_len (modify_tlvs profile) + 1 <= 243 ->
  builds g (WdsModifyProfileSettingsReq profile) (modify_tlvs profile).
Proof.
  unfold modify_tlvs. intros Hf h l0 l1 Hh. exists 5, 0. unfold WdsModifyProfileSettingsReq. cbv zeta.
  rewrite scribble_length by done. change (le16 5) with [5; 0]. cbn [mbind option_bind].
  assert (HP : zlen (h ++ [5; 0]) = 13) by (zlens; lia).
  set (P := h ++ [5; 0]) in *.
  set (pt := if negb (enable_ipv4 profile =? 0) && negb (enable_ipv6 profile =? 0) then 3
             else if negb (enable_ipv6 profile =? 0) then 2 else 0) in *.
  assert (Hpt : u8 pt = pt) by (unfold pt; by destruct (enable_ipv4 profile =? 0), (enable_ipv6 profile =? 0)).
  assert (Hhead : forall k : bytes -> option (bytes * Z),
    (m ← st8 (area_buf P []) 13 0x01; m ← st16 m 14 (cpu_to_le16 0x02); m ← st8 m 16 0x00; m ← st8 m 17 (pdp profile); k m)
    = k (area_buf P [(1, [0; u8 (pdp profile)])])).
  { intros k. unfold area_buf. change (enc_tlvs []) with (@nil Z). rewrite app_nil_r.
    change (243 - length (@nil Z))%nat with 243%nat. emit. by rewrite <- !app_assoc. }
  rewrite Hhead. clear Hhead.
  rewrite put_tlv8_area by (done || area_lia). cbn [mbind option_bind]. change (u8 17) with 17. rewrite Hpt.
  change (u16 4) with 4. change 18 with (13 + 5).
  cbn [app] in Hf |- *.
  do 3 (rewrite (opt_tlv_str_area_at P HP 5) by (done || area_lia); cbn [mbind option_bind]).
  rewrite (cond_tlv8_area_at P HP _ 5) by (done || area_lia). cbn [mbind option_bind].
  rewrite u16_id by area_lia. rewrite <- !app_assoc. do 2 f_equal. cbn [app]. lia.
Qed.
End Builders.

(** ** The request [ComposeQMUXMsg] makes *)
Section ComposeSpec.
Context {host : Host} {heap : Heap}.

(** Reduces stores into the explicit header of a message. *)
Ltac header_store :=
  try match goal with |- context [st16 (?a ++ replicate 243 0) ?i ?v] =>
    change (st16 (a ++ replicate 243 0) i v) with (sts (a ++ replicate 243 0) i (enc16 v)) end;
  rewrite ?enc16_cpu_to_le16; erewrite sts_prefix by reflexivity; cbn [mbind option_bind].

Lemma ComposeQMUXMsg_head g QMIType Ty f cid :
  qmiclientId g !! Z.to_nat QMIType = Some cid -> cid <> 0 -> is_byte QMIType ->
  let '(tid, g') := GetQMUXTransactionId g in
  let h := [1; 0; 0; 0; QMIType; cid .& 0xFF; 0] ++ le16 tid ++ le16 Ty in
  ComposeQMUXMsg g QMIType Ty (Some f) =
  ('(m, n) ← f g' (area_buf (h ++ [0; 0]) []);
   m ← st16 m oMUXLength (cpu_to_le16 (u16 (n - sizeof_QCQMUX_MSG_HDR)));
   L ← rd16 m oMUXLength;
   m ← st16 m oQMILength (cpu_to_le16 (u16 (L + sizeof_QCQMUX_MSG_HDR + sizeof_QCQMUX_HDR + sizeof_QCQMI_HDR - 1)));
   Q ← rd16 m oQMILength;
   if malloc_ok (Q + 1) then p ← lds m 0 (Q + 1); Some (Some p, g') else Some (None, g')).
Proof.
  intros Hcid Hne HT. destruct (GetQMUXTransactionId g) as [tid g'] eqn:Et. cbv zeta.
  unfold ComposeQMUXMsg, st8, oIFType, oQMICtlFlags, oQMIType, oClientId, oMUXCtlFlags, oTransactionId, oMUXType.
  change (replicate (Z.to_nat WDM_DEFAULT_BUFSIZE) 0) with (replicate 13 0 ++ replicate 243 0).
  do 3 header_store. rewrite Hcid. cbn [mbind option_bind]. header_store.
  rewrite (proj2 (Z.eqb_neq _ _) Hne). header_store. rewrite Et. do 2 header_store.
  set (h := [1; 0; 0; 0; QMIType; cid .& 0xFF; 0] ++ le16 tid ++ le16 Ty).
  match goal with |- context [f g' (?m ++ replicate 243 0)] => replace (m ++ replicate 243 0) with (area_buf (h ++ [0; 0]) []) end.
  2:{ unfold area_buf, h. change (enc_tlvs []) with (@nil Z). rewrite app_nil_r. f_equal.
      transitivity ([1; 0; 0; 0; u8 QMIType; u8 (cid .& 0xFF); 0] ++ le16 tid ++ le16 Ty ++ [0; 0]); [|reflexivity].
      rewrite (u8_id QMIType) by done. rewrite (u8_id (cid .& 0xFF)); [done|].
      rewrite land_ff. unfold is_byte. zdm. }
  by destruct (f g' _) as [[m n]|].
Qed.

Lemma ComposeQMUXMsg_builds g QMIType Ty f ts cid :
  qmiclientId g !! Z.to_nat QMIType = Some cid -> cid <> 0 -> is_byte QMIType ->
  let '(tid, g') := GetQMUXTransactionId g in
  builds g' f ts -> area_len ts <= 243 ->
  ComposeQMUXMsg g QMIType Ty (Some f) =
  Some (if malloc_ok (13 + area_len ts)
        then Some (enc_qmux QMIType (cid .& 0xFF) 0 tid Ty (enc_tlvs ts)) else None, g').
Proof.
  intros Hcid Hne HT. pose proof (ComposeQMUXMsg_head g QMIType Ty f cid Hcid Hne HT) as H.
  destruct (GetQMUXTransactionId g) as [tid g'] eqn:Et. intros Hb Hl. rewrite H. clear H.
  set (h := [1; 0; 0; 0; QMIType; cid .& 0xFF; 0] ++ le16 tid ++ le16 Ty).
  unfold st16.
  destruct (Hb h 0 0 eq_refl) as (l0 & l1 & ->). cbn [mbind option_bind].
  pose proof (area_len_nonneg ts) as Hn. unfold sizeof_QCQMUX_MSG_HDR, sizeof_QCQMUX_HDR, sizeof_QCQMI_HDR.
  rewrite u16_id by (unfold is_u16; lia). replace (4 + area_len ts - 4) with (area_len ts) by lia.
  unfold area_buf, oMUXLength. rewrite <- !(app_assoc h), enc16_cpu_to_le16.
  rewrite <- (app_assoc [l0; l1]), sts_app by done. cbn [mbind option_bind].
  rewrite rd16_le16 by (done || (unfold is_u16; lia)). cbn [mbind option_bind].
  rewrite u16_id by (unfold is_u16; lia). unfold oQMILength. rewrite enc16_cpu_to_le16.
  replace (area_len ts + 4 + 3 + 6 - 1) with (area_len ts + 12) by lia.
  change (sts (h ++ _) 1 (le16 (area_len ts + 12))) with
    (sts ([1] ++ [0; 0] ++ ([0; QMIType; cid .& 0xFF; 0] ++ le16 tid ++ le16 Ty) ++ le16 (area_len ts) ++
       (enc_tlvs ts ++ replicate (243 - length (enc_tlvs ts)) 0)) 1 (le16 (area_len ts + 12))).
  rewrite sts_app by done. cbn [mbind option_bind].
  rewrite rd16_le16 by (done || (unfold is_u16; lia)). cbn [mbind option_bind].
  replace (area_len ts + 12 + 1) with (13 + area_len ts) by lia. destruct (malloc_ok _); [|done].
  replace ([1] ++ le16 (area_len ts + 12) ++ _) with
    (enc_qmux QMIType (cid .& 0xFF) 0 tid Ty (enc_tlvs ts) ++ replicate (243 - length (enc_tlvs ts)) 0).
  2:{ unfold enc_qmux, area_len. by rewrite <- !app_assoc. }
  rewrite lds_app_0; [done|]. unfold enc_qmux. rewrite !zlen_app. unfold area_len. zlens. lia.
Qed.
End ComposeSpec.

(** ** Theorems *)

(** Transaction identifiers of QMUX requests are never 0 and fit in 16 bits, consecutive requests
    never share one, and the counter stays in its range (it wraps from 0xFFFF to 1). *)
Theorem GetQMUXTransactionId_range g :
  0 <= TransactionId g <= 0xFFFF ->
  let '(tid, g') := GetQMUXTransactionId g in
  1 <= tid <= 0xFFFF /\ TransactionId g' = tid /\ tid <> TransactionId g /\
  qmiclientId g' = qmiclientId g.
Proof.
  intros H. unfold GetQMUXTransactionId. cbv zeta. cbn [TransactionId set_TransactionId].
  destruct (Z.ltb_spec 0xFFFF (TransactionId g + 1)); rewrite u16_id by (unfold is_u16; lia); split_and!; (lia || done).
Qed.

Theorem GetQMUXTransactionId_range_witness :
  fst (GetQMUXTransactionId (set_TransactionId globals_init 0xFFFF)) = 1 /\
  fst (GetQMUXTransactionId globals_init) <> TransactionId globals_init.
Proof.
  split; [reflexivity|].
  destruct (GetQMUXTransactionId_range globals_init) as (_ & _ & H & _); [split; discriminate | exact H].
Defined.

Lemma opt_tlv_wf t s : is_byte t -> (forall b, s = Some b -> zlen b < 2 ^ 16) -> Forall tlv_wf (opt_tlv t s).
Proof. intros Ht H. destruct s as [b|]; cbn; [|constructor]. constructor; [|constructor]. split; [done | by apply H]. Qed.

Lemma area_wf ts : Forall (fun x : tlv => is_byte x.1) ts -> area_len ts < 2 ^ 16 -> Forall tlv_wf ts.
Proof.
  induction 1 as [|x ts Hx F IH]; intros Hl; constructor; rewrite area_len_cons in Hl.
  - split; [done|]. pose proof (area_len_nonneg ts). lia.
  - apply IH. pose proof (zlen_nonneg x.2). lia.
Qed.

Lemma start_tlvs_types g profile : Forall (fun x : tlv => is_byte x.1) (start_tlvs g profile).
Proof.
  unfold start_tlvs. destruct (start_credentials g profile) as [[u p] a].
  destruct (s_is_cdma g =? 0), (apn profile), u, p, (pdp profile =? 0); cbn;
    repeat (apply Forall_cons_2; [unfold is_byte; cbn; lia|]); constructor.
Qed.

(** C8: with a WDS client and a profile that fits, the start request is a well-formed message in
    which the code's own [GetTLV] finds exactly what the profile asks for: the technology, the APN and
    the profile index only when not in CDMA mode, the credentials in use, the authentication only with
    both a user and a password, and the IP family. *)
Theorem start_request_roundtrip {host : Host} {heap : Heap} g profile cid :
  qmiclientId g !! Z.to_nat QMUX_TYPE_WDS = Some cid -> cid <> 0 ->
  area_len (start_tlvs g profile) <= 243 -> malloc_ok (13 + area_len (start_tlvs g profile)) = true ->
  exists msg, ComposeQMUXMsg g QMUX_TYPE_WDS 0x20 (Some (WdsStartNwInterfaceReq profile)) =
              Some (Some msg, snd (GetQMUXTransactionId g)) /\
    let '(u, p, a) := start_credentials g profile in
    let cdma := negb (s_is_cdma g =? 0) in
    zlen msg = 13 + area_len (start_tlvs g profile) /\
    read_tlv msg 0x30 = Some (Some [if cdma then 2 else 1]) /\
    read_tlv msg 0x14 = Some (if cdma then None else apn profile) /\
    read_tlv msg 0x17 = Some u /\ read_tlv msg 0x18 = Some p /\
    read_tlv msg 0x16 = Some (if is_nonnull u && is_nonnull p then Some [u8 a] else None) /\
    read_tlv msg 0x19 = Some (Some [u8 (curIpFamily profile)]) /\
    read_tlv msg 0x31 = Some (if cdma || (pdp profile =? 0) then None else Some [u8 (pdp profile)]).
Proof.
  intros Hcid Hne Hfit Hmal.
  pose proof (ComposeQMUXMsg_builds g QMUX_TYPE_WDS 0x20 (WdsStartNwInterfaceReq profile)
    (start_tlvs g profile) cid Hcid Hne ltac:(split; discriminate || reflexivity)) as H.
  destruct (GetQMUXTransactionId g) as [tid g'] eqn:Et.
  assert (Es : start_tlvs g' profile = start_tlvs g profile).
  { unfold GetQMUXTransactionId in Et. by injection Et as _ <-. }
  rewrite H; [|rewrite <- Es; apply WdsStartNwInterfaceReq_builds; by rewrite Es | done].
  rewrite Hmal. eexists. split; [done|].
  pose proof (area_wf _ (start_tlvs_types g profile) ltac:(lia)) as W.
  destruct (start_credentials g profile) as [[u p] a] eqn:Ec. cbv zeta. split.
  { unfold enc_qmux. rewrite !zlen_app. unfold area_len. zlens. lia. }
  rewrite !read_tlv_enc_qmux by (done || (unfold area_len in Hfit; lia)).
  unfold start_tlvs. rewrite Ec.
  destruct (s_is_cdma g =? 0), (apn profile), u, p, (pdp profile =? 0); done.
Qed.

Definition any_heap : Heap := {| malloc_ok _ := true |}.
Definition profile_sample : PROFILE_T :=
  {| apn := Some [0x33; 0x67]; user := None; password := None; auth := 0; pdp := 1; curIpFamily := IpFamilyV4;
     enable_ipv4 := 1; enable_ipv6 := 0 |}.
Definition globals_client (n cdma : Z) : Globals :=
  {| qmiclientId := replicate 27 n; WdsConnectionIPv4Handle := 0; WdsConnectionIPv6Handle := 0;
     s_is_cdma := cdma; s_hdr_personality := 0; s_9x07 := -1; qmap_version := 5; TransactionId := 8 |}.

Theorem start_request_roundtrip_witness :
  (exists msg, ComposeQMUXMsg (host := big_host) (heap := any_heap) (globals_client 3 0) QMUX_TYPE_WDS 0x20
      (Some (WdsStartNwInterfaceReq (host := big_host) profile_sample)) =
      Some (Some msg, snd (GetQMUXTransactionId (globals_client 3 0))) /\
      read_tlv (host := big_host) msg 0x14 = Some (Some [0x33; 0x67])) /\
  (exists msg, ComposeQMUXMsg (heap := any_heap) (globals_client 3 1) QMUX_TYPE_WDS 0x20
      (Some (WdsStartNwInterfaceReq profile_sample)) =
      Some (Some msg, snd (GetQMUXTransactionId (globals_client 3 1))) /\
      read_tlv msg 0x17 = Some (Some ctnet_user)).
Proof.
  split.
  - destruct (start_request_roundtrip (host := big_host) (heap := any_heap) (globals_client 3 0) profile_sample 3)
      as (msg & E & _ & _ & H & _); [reflexivity | discriminate | vm_compute; discriminate | reflexivity |].
    exists msg. split; [exact E | exact H].
  - destruct (start_request_roundtrip (heap := any_heap) (globals_client 3 1) profile_sample 3)
      as (msg & E & _ & _ & _ & H & _); [reflexivity | discriminate | vm_compute; discriminate | reflexivity |].
    exists msg. split; [exact E | exact H].
Defined.

Lemma sts_overflow m i bs : zlen m < i + zlen bs -> sts m i bs = None.
Proof. intros H. unfold sts. rewrite (proj2 (Z.leb_gt (i + zlen bs) (zlen m))) by lia. by rewrite andb_false_r. Qed.

Section Overflow.
Context {host : Host} {heap : Heap}.

Lemma put_tlv_str_overflow P ts p t s :
  zlen P = 13 -> p = 13 + area_len ts -> area_len ts + 3 <= 243 -> 243 < area_len ts + 3 + zlen s + 1 ->
  put_tlv_str (area_buf P ts) p t s = None.
Proof.
  intros HP -> Hf Ho. unfold put_tlv_str, area_len in *.
  replace (13 + zlen (enc_tlvs ts)) with (zlen (P ++ enc_tlvs ts)) by (zlens; lia).
  pose proof (put_header (P ++ enc_tlvs ts) (243 - length (enc_tlvs ts)) t (u16 (zlen s))) as E.
  unfold area_buf. destruct (st8 _ _ t) as [m|]; [|done].
  cbn [mbind option_bind] in E |- *. rewrite E by (unfold zlen in *; lia). cbn [mbind option_bind].
  rewrite sts_overflow; [done|]. zlens. unfold zlen in *. lia.
Qed.

(** The request is built in a 256-byte stack buffer and no length is checked: outside CDMA mode an
    APN of 236 bytes or more makes [qstrcpy] write past the end of the buffer. *)
Theorem start_request_apn_overflow g profile a cid :
  qmiclientId g !! Z.to_nat QMUX_TYPE_WDS = Some cid -> cid <> 0 ->
  s_is_cdma g = 0 -> apn profile = Some a -> 236 <= zlen a ->
  ComposeQMUXMsg g QMUX_TYPE_WDS 0x20 (Some (WdsStartNwInterfaceReq profile)) = None.
Proof.
  intros Hcid Hne Hcdma Hapn Ha.
  pose proof (ComposeQMUXMsg_head g QMUX_TYPE_WDS 0x20 (WdsStartNwInterfaceReq profile) cid Hcid Hne
    ltac:(split; discriminate || reflexivity)) as H.
  destruct (GetQMUXTransactionId g) as [tid g'] eqn:Et. rewrite H. clear H.
  assert (Hg' : s_is_cdma g' = 0) by (unfold GetQMUXTransactionId in Et; by injection Et as _ <-).
  set (h := [1; 0; 0; 0; QMUX_TYPE_WDS; cid .& 0xFF; 0] ++ le16 tid ++ le16 0x20).
  unfold WdsStartNwInterfaceReq. destruct (start_credentials g' profile) as [[u p] au]. cbv zeta.
  rewrite scribble_zero by done. cbn [mbind option_bind]. unfold oTLVs.
  rewrite put_tlv8_area by (done || area_lia). cbn [mbind option_bind app]. rewrite Hg', Hapn. cbn [Z.eqb]. change (u16 4) with 4.
  cbn [opt_tlv_str]. rewrite put_tlv_str_overflow; [done | done | | |]; area_lia.
Qed.
End Overflow.

Theorem start_request_apn_overflow_witness :
  ComposeQMUXMsg (heap := any_heap) (globals_client 3 0) QMUX_TYPE_WDS 0x20
    (Some (WdsStartNwInterfaceReq {| apn := Some (replicate 240 0x61); user := None; password := None; auth := 0;
       pdp := 1; curIpFamily := IpFamilyV4; enable_ipv4 := 1; enable_ipv6 := 0 |})) = None.
Proof.
  apply (start_request_apn_overflow (heap := any_heap) (globals_client 3 0) _ (replicate 240 0x61) 3);
    reflexivity || discriminate.
Defined.

(** A request for a service the program holds no client of is NULL and uses no transaction identifier. *)
Theorem compose_without_client {host : Host} {heap : Heap} g QMIType Ty custom :
  is_byte QMIType -> qmiclientId g !! Z.to_nat QMIType = Some 0 ->
  ComposeQMUXMsg g QMIType Ty custom = Some (None, g).
Proof.
  intros HT Hcid. unfold ComposeQMUXMsg, st8, oIFType, oQMICtlFlags, oQMIType, oClientId.
  change (replicate (Z.to_nat WDM_DEFAULT_BUFSIZE) 0) with (replicate 13 0 ++ replicate 243 0).
  do 3 (erewrite sts_prefix by reflexivity; cbn [mbind option_bind]). rewrite Hcid. cbn [mbind option_bind].
  by erewrite sts_prefix by reflexivity.
Qed.

Theorem compose_without_client_witness :
  ComposeQMUXMsg (heap := any_heap) globals_init QMUX_TYPE_NAS 0x24 None = Some (None, globals_init).
Proof. apply (compose_without_client (heap := any_heap)); [split; discriminate || reflexivity | reflexivity]. Defined.

(** The mask of the runtime-settings request is converted before its last two bits are added:
    on a little-endian host the request asks for the addresses, the DNS, the MTU and the P-CSCF data
    (0x6B10), on a big-endian host it carries a different mask. *)
Theorem runtime_mask_depends_on_host g g' tid cid :
  GetQMUXTransactionId g = (tid, g') ->
  qmiclientId g !! Z.to_nat QMUX_TYPE_WDS = Some cid -> cid <> 0 ->
  let request h := ComposeQMUXMsg (host := h) (heap := any_heap) g QMUX_TYPE_WDS 0x2D
                     (Some (WdsGetRuntimeSettingReq (host := h))) in
  let bytes mask := Some (Some (enc_qmux QMUX_TYPE_WDS (cid .& 0xFF) 0 tid 0x2D (enc_tlvs [(0x10, le32 mask)])), g') in
  request little_host = bytes 0x6B10 /\ request big_host = bytes 0x482310.
Proof.
  intros Et Hcid Hne request bytes. subst request bytes.
  assert (HT : is_byte QMUX_TYPE_WDS) by (split; discriminate || reflexivity).
  assert (H : forall h : Host, area_len [(0x10, enc32 (cpu_to_le32 0x2310 .| 0x800 .| 0x4000))] <= 243).
  { intros [[]]; vm_compute; discriminate. }
  split.
  - pose proof (ComposeQMUXMsg_builds (host := little_host) (heap := any_heap) g QMUX_TYPE_WDS 0x2D
      WdsGetRuntimeSettingReq [(0x10, le32 0x6B10)] cid Hcid Hne HT) as E.
    rewrite Et in E. apply (E (WdsGetRuntimeSettingReq_builds _) (H little_host)).
  - pose proof (ComposeQMUXMsg_builds (host := big_host) (heap := any_heap) g QMUX_TYPE_WDS 0x2D
      (WdsGetRuntimeSettingReq (host := big_host)) [(0x10, le32 0x482310)] cid Hcid Hne HT) as E.
    rewrite Et in E. apply (E (WdsGetRuntimeSettingReq_builds (host := big_host) _) (H big_host)).
Qed.

Theorem runtime_mask_depends_on_host_witness :
  le32 0x6B10 <> le32 0x482310 /\
  ComposeQMUXMsg (host := big_host) (heap := any_heap) (globals_client 3 0) QMUX_TYPE_WDS 0x2D
    (Some (WdsGetRuntimeSettingReq (host := big_host))) =
  Some (Some (enc_qmux QMUX_TYPE_WDS 3 0 9 0x2D (enc_tlvs [(0x10, le32 0x482310)])),
        set_TransactionId (globals_client 3 0) 9).
Proof.
  split; [discriminate|].
  apply (runtime_mask_depends_on_host (globals_client 3 0) (set_TransactionId (globals_client 3 0) 9) 9 3);
    reflexivity || discriminate.
Defined.
