(* ===== verification/Cm.v ===== *)
(** * cm.c: the status record the other threads read.
    The string fields are [char] arrays written with [memcpy(dst, src, strlen(src))]: the terminating
    NUL is not copied.  [cm_status] starts as zeros.  The read-write lock is not modelled: every function
    is one critical section, so a call is one step. *)
From S2P Require Import Prelude Util Layout QmiStructs.
#[local] Open Scope Z_scope.
#[local] Open Scope c_scope.

Definition CM_NONE : Z := 0x0.
Definition CM_CDMA : Z := 0x10.
Definition CM_HDR : Z := 0x11.
Definition CM_GSM : Z := 0x12.
Definition CM_WCDMA : Z := 0x13.
Definition CM_LTE : Z := 0x14.
Definition CM_TDSCDMA : Z := 0x15.

(** [get_class]: linear search of the table, [CM_NONE] when the string is not in it. *)
Definition clas2str : list (Z * bytes) := [
  (CM_NONE, str "UNKNOWN"); (CM_GSM, str "GPRS"); (CM_GSM, str "EDGE"); (CM_WCDMA, str "UMTS");
  (CM_GSM, str "HSDPA"); (CM_GSM, str "HSUPA"); (CM_LTE, str "LTE"); (CM_GSM, str "5G_NSA");
  (CM_GSM, str "5G_SA"); (CM_CDMA, str "1XRTT"); (CM_CDMA, str "1XEVDO"); (CM_CDMA, str "1XEVDO_REVA");
  (CM_CDMA, str "1XEVDV"); (CM_CDMA, str "3XRTT"); (CM_CDMA, str "1XEVDO_REVB")].
Definition get_class (s : bytes) : Z :=
  match find (fun x : Z * bytes => bool_decide (x.2 = s)) clas2str with
  | Some (c, _) => c
  | None => CM_NONE
  end.

Record bb := { devid : bytes; imei : bytes }.                 (* char[32], char[16] *)
Record sim := { stat : bytes; iccid : bytes; imsi : bytes }.  (* char[32] each *)
(** The six signal records of [struct sig], in the order of the class codes 0x10..0x15. *)
Record reg_state := {
  country : Z; network : Z; PSAttachedState : Z; DataCapStr : bytes (* char[16] *); cla : Z; sigs : list bytes }.
Record cm := { bb_status : bb; sim_status : sim; reg_status : reg_state; conn_status : Z }.

(** [sizeof] of the signal TLV structs, by class. *)
Definition sig_size (c : Z) : Z :=
  if c =? CM_CDMA then sizeof[QMINAS_SIG_INFO_CDMA_TLV_MSG] else if c =? CM_HDR then sizeof[QMINAS_SIG_INFO_HDR_TLV_MSG] else
  if c =? CM_GSM then sizeof[QMINAS_SIG_INFO_GSM_TLV_MSG] else
  if c =? CM_WCDMA then sizeof[QMINAS_SIG_INFO_WCDMA_TLV_MSG] else
  if c =? CM_LTE then sizeof[QMINAS_SIG_INFO_LTE_TLV_MSG] else sizeof[QMINAS_SIG_INFO_TDSCDMA_TLV_MSG].
Definition is_sig_class (c : Z) : bool := (CM_CDMA <=? c) && (c <=? CM_TDSCDMA).
Definition sig_index (c : Z) : nat := Z.to_nat (c - CM_CDMA).

Definition cm_zero : cm :=
  {| bb_status := {| devid := replicate 32 0; imei := replicate 16 0 |};
     sim_status := {| stat := replicate 32 0; iccid := replicate 32 0; imsi := replicate 32 0 |};
     reg_status := {| country := 0; network := 0; PSAttachedState := 0; DataCapStr := replicate 16 0; cla := 0;
                      sigs := [replicate 6 0; replicate 11 0; replicate 4 0; replicate 6 0; replicate 9 0; replicate 4 0] |};
     conn_status := 0 |}.

(** [if (src != NULL) memcpy(dst, src, strlen(src))] *)
Definition copy_str (dst : bytes) (src : option bytes) : option bytes :=
  match src with Some s => sts dst 0 s | None => Some dst end.

(** The readers copy [strlen] bytes of the field into the caller's buffer. *)
Definition read_str (dst : option bytes) (field : bytes) : option (option bytes) :=
  match dst with
  | Some d => s ← cstr field; d' ← sts d 0 s; Some (Some d')
  | None => Some None
  end.

Definition bb_write (b : bb) (devid_ imei_ : option bytes) : option bb :=
  d ← copy_str (devid b) devid_; i ← copy_str (imei b) imei_;
  Some {| devid := d; imei := i |}.
Definition bb_read (b : bb) (devid_ imei_ : option bytes) : option (option bytes * option bytes) :=
  d ← read_str devid_ (devid b); i ← read_str imei_ (imei b); Some (d, i).

Definition sim_write (s : sim) (stat_ iccid_ imsi_ : option bytes) : option sim :=
  c ← copy_str (iccid s) iccid_; i ← copy_str (imsi s) imsi_; t ← copy_str (stat s) stat_;
  Some {| stat := t; iccid := c; imsi := i |}.
Definition sim_read (s : sim) (stat_ iccid_ imsi_ : option bytes)
  : option (option bytes * option bytes * option bytes) :=
  c ← read_str iccid_ (iccid s); i ← read_str imsi_ (imsi s); t ← read_str stat_ (stat s);
  Some (t, c, i).

Definition opt_or (a : option Z) (b : Z) : Z := match a with Some a => a | None => b end.

(** [sig] is the memory from the signal TLV on. *)
Definition reg_state_write (r : reg_state) (country_ network_ attach : option Z) (cap : option bytes)
  (clas : Z) (sig : option bytes) : option reg_state :=
  dc ← copy_str (DataCapStr r) cap;
  '(c, ss) ← match sig with
    | None => Some (cla r, sigs r)
    | Some m =>
        if is_sig_class clas then
          s ← lds m 0 (sig_size clas);
          Some (u8 (cla r .| (1 .<< (clas - CM_CDMA))), <[sig_index clas := s]> (sigs r))
        else Some (cla r, sigs r)
    end;
  Some {| country := opt_or country_ (country r); network := opt_or network_ (network r);
          PSAttachedState := opt_or attach (PSAttachedState r); DataCapStr := dc; cla := c; sigs := ss |}.

(** Result: country, network, attach state, the capability buffer, the class and the signal record. *)
Definition reg_state_read (r : reg_state) (cap : option bytes)
  : option (Z * Z * Z * option bytes * Z * option bytes) :=
  cap ← read_str cap (DataCapStr r);
  s ← cstr (DataCapStr r);
  let clas := get_class s in
  sig ← (if is_sig_class clas then Some <$> sigs r !! sig_index clas else Some None);
  Some (country r, network r, PSAttachedState r, cap, clas, sig).

Definition cm_read (c : cm) : Z := conn_status c.
Definition cm_write (c : cm) (v : Z) : cm :=
  {| bb_status := bb_status c; sim_status := sim_status c; reg_status := reg_status c; conn_status := v |}.
Definition set_bb (c : cm) (b : bb) : cm :=
  {| bb_status := b; sim_status := sim_status c; reg_status := reg_status c; conn_status := conn_status c |}.
Definition set_sim (c : cm) (s : sim) : cm :=
  {| bb_status := bb_status c; sim_status := s; reg_status := reg_status c; conn_status := conn_status c |}.
Definition set_reg (c : cm) (r : reg_state) : cm :=
  {| bb_status := bb_status c; sim_status := sim_status c; reg_status := r; conn_status := conn_status c |}.

(** Whether [cm_init] sets the operations of the record ([read] and [write] of each part), after what [pthread_rwlock_init] returns; [main] does not look at the
    result. *)
Definition cm_init (rwlock_init : Z) : Z * bool := if negb (rwlock_init =? 0) then (-1, false) else (0, true).
Definition cm_destroy (rwlock_destroy : Z) : Z := if negb (rwlock_destroy =? 0) then -1 else 0.

(** ** Strings in the fields *)

(** A field of [n] bytes that holds the string [s]: the string, its NUL, anything. *)
Definition holds_str (field s : bytes) : Prop := cstr field = Some s.

(** Writing [new] over [old] leaves the end of [old] behind. *)
Lemma copy_str_shows field old new :
  holds_str field old -> no_nul new -> zlen new < zlen field ->
  exists field', copy_str field (Some new) = Some field' /\ zlen field' = zlen field /\
    (zlen new <= zlen old -> holds_str field' (new ++ drop (length new) old)) /\
    (Forall (fun b => b = 0) (drop (length old) field) -> zlen old <= zlen new -> holds_str field' new).
Proof.
  intros Ho Hn Hl. destruct (cstr_inv _ _ Ho) as (No & t & ->).
  destruct (sts_defined (old ++ 0 :: t) 0 new) as [f Hf]; [lia | lia |].
  exists f. cbn [copy_str]. split; [done|]. split; [by eapply sts_length|].
  unfold sts in Hf. destruct ((0 <=? 0) && _); [|done]. injection Hf as <-.
  change (Z.to_nat 0) with 0%nat. cbn [take app Nat.add]. unfold holds_str, zlen in *. split; intros H1.
  - rewrite drop_app_le by lia. rewrite app_assoc. apply cstr_app.
    apply Forall_app. split; [done | by apply Forall_drop].
  - intros H2. rewrite drop_app_length' in H1 by done. rewrite drop_app_ge by lia.
    destruct (drop (length new - length old) (0 :: t)) as [|z t'] eqn:E.
    { exfalso. apply (f_equal length) in E. rewrite length_drop in E. rewrite length_app in Hl. simpl in *. lia. }
    assert (z = 0) as ->.
    { pose proof (Forall_drop _ (length new - length old) _ H1) as F. rewrite E in F.
      by rewrite Forall_cons in F; destruct F. }
    by apply cstr_app.
Qed.

(** ** Theorems *)

(** What a status reader sees after [sim_write] of a new state: when the string is at least as
    long as the old one (and nothing else is left in the field) the new string; when it is shorter,
    the new string followed by the end of the old one, because the write does not copy the NUL. *)
Theorem sim_write_stale_tail s old new :
  holds_str (stat s) old -> no_nul new -> zlen new < zlen (stat s) -> zlen new <= zlen old ->
  exists s', sim_write s (Some new) None None = Some s' /\
    holds_str (stat s') (new ++ drop (length new) old) /\ iccid s' = iccid s /\ imsi s' = imsi s.
Proof.
  intros Ho Hn Hl Hs. destruct (copy_str_shows _ _ _ Ho Hn Hl) as (f & Hf & _ & H & _).
  unfold sim_write. cbn [copy_str mbind option_bind] in *. rewrite Hf. cbn [mbind option_bind].
  eexists. split; [reflexivity|]. cbn [stat iccid imsi]. auto.
Qed.

(** The SIM becomes ready, then asks for its PIN: the readers see "SIM_PINDY". *)
Theorem sim_write_stale_tail_witness :
  exists s1 s2, sim_write (sim_status cm_zero) (Some (str "SIM_READY")) None None = Some s1 /\
    sim_write s1 (Some (str "SIM_PIN")) None None = Some s2 /\ holds_str (stat s2) (str "SIM_PINDY").
Proof.
  eexists. destruct (sim_write_stale_tail
    {| stat := str "SIM_READY" ++ replicate 23 0; iccid := replicate 32 0; imsi := replicate 32 0 |}
    (str "SIM_READY") (str "SIM_PIN")) as (s2 & E & H & _).
  - reflexivity.
  - repeat constructor; discriminate.
  - reflexivity.
  - discriminate.
  - exists s2. split; [reflexivity|]. split; [exact E | exact H].
Defined.

Lemma copy_over field old new :
  holds_str field old -> no_nul new -> zlen new < zlen field ->
  Forall (fun b => b = 0) (drop (length old) field) ->
  exists f, copy_str field (Some new) = Some f /\ holds_str f (new ++ drop (length new) old).
Proof.
  intros Ho Hn Hl Hz. destruct (copy_str_shows _ _ _ Ho Hn Hl) as (f & Hf & _ & H1 & H2).
  exists f. split; [done|]. destruct (decide (zlen new <= zlen old)) as [Hd|Hd]; [by apply H1|].
  rewrite drop_ge by (unfold zlen in Hd; lia). rewrite app_nil_r. apply H2; [done | lia].
Qed.

(** The class and the signal record a reader gets after a new capability string [new] was written
    over [old] are those of [new] followed by the end of [old] - those of [new] only when [old] was not
    longer. *)
Theorem reg_read_after_write r old new :
  holds_str (DataCapStr r) old -> zlen (DataCapStr r) = 16 -> length (sigs r) = 6%nat ->
  Forall (fun b => b = 0) (drop (length old) (DataCapStr r)) ->
  no_nul new -> zlen new < 16 ->
  exists r' sig, reg_state_write r None None None (Some new) 0 None = Some r' /\
    let c := get_class (new ++ drop (length new) old) in
    reg_state_read r' None = Some (country r, network r, PSAttachedState r, None, c, sig) /\
    (is_sig_class c = true -> is_Some sig /\ sig = sigs r !! sig_index c) /\
    (is_sig_class c = false -> sig = None).
Proof.
  intros Ho Hl Hs Hz Hn Hnl. destruct (copy_over _ _ new Ho Hn) as (f & Hf & Hh); [by rewrite Hl | done |].
  unfold reg_state_write. rewrite Hf. cbn [mbind option_bind].
  set (c := get_class (new ++ drop (length new) old)). cbv zeta.
  exists {| country := country r; network := network r; PSAttachedState := PSAttachedState r; DataCapStr := f;
            cla := cla r; sigs := sigs r |}.
  exists (if is_sig_class c then sigs r !! sig_index c else None).
  split; [reflexivity|]. unfold reg_state_read. cbn [DataCapStr read_str mbind option_bind sigs country network PSAttachedState].
  unfold holds_str in Hh. rewrite Hh. cbn [mbind option_bind]. fold c.
  assert (Hi : is_sig_class c = true -> is_Some (sigs r !! sig_index c)).
  { intros Hc. apply lookup_lt_is_Some_2. rewrite Hs. unfold is_sig_class, sig_index, CM_CDMA, CM_TDSCDMA in *.
    apply andb_prop in Hc as [H1 H2]. apply Z.leb_le in H1, H2. lia. }
  destruct (is_sig_class c); [|done]. destruct (Hi eq_refl) as [x ->]. done.
Qed.

(** "LTE" after "HSDPA" reads as "LTEPA": no class, and the reader gets no signal record; after "EDGE" it
    would read as "LTEE". *)
Theorem reg_read_after_write_witness :
  get_class (str "LTEPA") = CM_NONE /\ get_class (str "LTE") = CM_LTE /\
  exists r' sig,
    reg_state_write {| country := 460; network := 0; PSAttachedState := 1; DataCapStr := str "HSDPA" ++ replicate 11 0;
      cla := 16; sigs := sigs (reg_status cm_zero) |} None None None (Some (str "LTE")) 0 None = Some r' /\
    reg_state_read r' None = Some (460, 0, 1, None, CM_NONE, sig) /\ sig = None.
Proof.
  split; [reflexivity|]. split; [reflexivity|].
  destruct (reg_read_after_write {| country := 460; network := 0; PSAttachedState := 1;
      DataCapStr := str "HSDPA" ++ replicate 11 0; cla := 16; sigs := sigs (reg_status cm_zero) |}
    (str "HSDPA") (str "LTE")) as (r' & sig & Hw & Hr & _ & Hn).
  - reflexivity.
  - reflexivity.
  - reflexivity.
  - repeat constructor.
  - repeat constructor; discriminate.
  - reflexivity.
  - exists r', sig. split; [exact Hw|]. split; [exact Hr | exact (Hn eq_refl)].
Defined.
