(* ===== verification/Monad.v ===== *)
(** * The state monad of the stateful C functions: a state, and [None] for undefined behaviour. *)
From S2P Require Import Prelude.
#[local] Open Scope Z_scope.

Definition M (S A : Type) : Type := S -> option (A * S).
#[export] Instance M_ret S : MRet (M S) := fun A a s => Some (a, s).
#[export] Instance M_bind S : MBind (M S) := fun A B f m s =>
  match m s with Some (a, s') => f a s' | None => None end.

Definition lift {S A} (o : option A) : M S A := fun s => match o with Some a => Some (a, s) | None => None end.
Definition gets {S A} (f : S -> A) : M S A := fun s => Some (f s, s).
Definition modify {S} (f : S -> S) : M S unit := fun s => Some (tt, f s).
Definition undefined {S A} : M S A := fun _ => None.
Definition when {S} (b : bool) (m : M S unit) : M S unit := if b then m else mret tt.

(** Unfolds the monad's operations. *)
Ltac mstep := cbn [mbind M_bind mret M_ret lift gets modify when option_bind].

Section Laws.
Context {S A B : Type}.

Lemma bind_lift (a : A) (k : A -> M S B) s : (lift (Some a) ≫= k) s = k a s.
Proof. done. Qed.
Lemma bind_gets (f : S -> A) (k : A -> M S B) s : (gets f ≫= k) s = k (f s) s.
Proof. done. Qed.
Lemma bind_modify (f : S -> S) (k : unit -> M S B) s : (modify f ≫= k) s = k tt (f s).
Proof. done. Qed.
Lemma bind_ret (a : A) (k : A -> M S B) s : (mret a ≫= k) s = k a s.
Proof. done. Qed.
Lemma bind_step (m : M S A) (k : A -> M S B) s a s' : m s = Some (a, s') -> (m ≫= k) s = k a s'.
Proof. intros E. unfold mbind, M_bind. by rewrite E. Qed.
Lemma bind_inv (m : M S A) (k : A -> M S B) s b s' :
  (m ≫= k) s = Some (b, s') -> exists a s1, m s = Some (a, s1) /\ k a s1 = Some (b, s').
Proof. unfold mbind, M_bind. destruct (m s) as [[a s1]|]; [|done]. by exists a, s1. Qed.
Lemma bind_lift_inv (o : option A) (k : A -> M S B) s b s' :
  (lift o ≫= k) s = Some (b, s') -> exists a, o = Some a /\ k a s = Some (b, s').
Proof. destruct o as [a|]; [|done]. by exists a. Qed.
End Laws.

(** ** Frames: a computation that leaves a part [P] of the state alone. *)
Definition keeps {S A X} (P : S -> X) (m : M S A) : Prop := forall s a s', m s = Some (a, s') -> P s' = P s.

Create HintDb keeps.
Section Keeps.
Context {S A B X : Type} (P : S -> X).

Lemma keeps_ret (a : A) : keeps P (mret a : M S A).
Proof. by intros s b s' [= _ <-]. Qed.
Lemma keeps_bind (m : M S A) (k : A -> M S B) : keeps P m -> (forall a, keeps P (k a)) -> keeps P (m ≫= k).
Proof.
  intros Hm Hk s b s'. unfold mbind, M_bind. destruct (m s) as [[a s1]|] eqn:E; [|done].
  intros E2. rewrite (Hk a _ _ _ E2). exact (Hm _ _ _ E).
Qed.
Lemma keeps_lift (o : option A) : keeps P (lift o : M S A).
Proof. intros s a s'. unfold lift. by destruct o; intros [= _ <-]. Qed.
Lemma keeps_gets (f : S -> A) : keeps P (gets f).
Proof. by intros s a s' [= _ <-]. Qed.
Lemma keeps_undefined : keeps P (undefined : M S A).
Proof. done. Qed.
Lemma keeps_modify (f : S -> S) : (forall s, P (f s) = P s) -> keeps P (modify f).
Proof. intros H s a s' [= _ <-]. apply H. Qed.
End Keeps.
#[export] Hint Resolve keeps_ret keeps_lift keeps_gets keeps_undefined : keeps.

(** Goes through the code of a computation; what is left are its own steps. *)
Ltac frame :=
  repeat first
    [ apply keeps_bind; [|intros ?]
    | solve [eauto with keeps nocore]
    | apply keeps_modify; intros ?; reflexivity
    | match goal with
      | |- keeps _ (if ?b then _ else _) => destruct b
      | |- keeps _ (match ?x with _ => _ end) => destruct x
      | |- keeps _ (let '(_, _) := ?x in _) => destruct x
      | |- keeps _ (when ?b _) => unfold when
      end ].

(** ** Invariants: a computation that preserves a property of the state. *)
Definition preserves {S A} (I : S -> Prop) (m : M S A) : Prop := forall s a s', m s = Some (a, s') -> I s -> I s'.

Create HintDb preserves.
Section Preserves.
Context {S A B : Type} (I : S -> Prop).

Lemma preserves_ret (a : A) : preserves I (mret a : M S A).
Proof. by intros s b s' [= _ <-]. Qed.
Lemma preserves_bind (m : M S A) (k : A -> M S B) : preserves I m -> (forall a, preserves I (k a)) -> preserves I (m ≫= k).
Proof.
  intros Hm Hk s b s'. unfold mbind, M_bind. destruct (m s) as [[a s1]|] eqn:E; [|done].
  intros E2 Hs. exact (Hk a _ _ _ E2 (Hm _ _ _ E Hs)).
Qed.
Lemma preserves_lift (o : option A) : preserves I (lift o : M S A).
Proof. intros s a s'. unfold lift. by destruct o; intros [= _ <-]. Qed.
Lemma preserves_gets (f : S -> A) : preserves I (gets f).
Proof. by intros s a s' [= _ <-]. Qed.
Lemma preserves_undefined : preserves I (undefined : M S A).
Proof. done. Qed.
Lemma preserves_modify (f : S -> S) : (forall s, I s -> I (f s)) -> preserves I (modify f).
Proof. intros H s a s' [= _ <-]. apply H. Qed.
End Preserves.
#[export] Hint Resolve preserves_ret preserves_lift preserves_gets preserves_undefined : preserves.

(** Goes through the code of a computation; what is left are its own steps. *)
Ltac invariant :=
  repeat first
    [ solve [eauto with preserves nocore]
    | apply preserves_bind; [|intros ?]
    | apply preserves_modify; intros ? ?; assumption
    | match goal with
      | |- preserves _ (if ?b then _ else _) => destruct b
      | |- preserves _ (match ?x with _ => _ end) => destruct x
      | |- preserves _ (let '(_, _) := ?x in _) => destruct x
      | |- preserves _ (when ?b _) => unfold when
      end ].
