(* ===== verification/GmModule.v ===== *)
(** * gmalg_test: the kernel module around the software ciphers (main_alg.c, rng.c, and the last functions of sm3.c and sm4.c).
    The module registers three algorithms when it is loaded and takes them back when it is removed.  What the kernel answers to a registration is the
    class [Registry]; the random bytes are the kernel's.  The random number generator is the one of a kernel after 3.18.0. *)
From S2P Require Import Prelude Monad.
#[local] Open Scope Z_scope.
#[local] Open Scope c_scope.

Inductive algorithm := Vpnrng | Sm3 | Sm4.
#[export] Instance algorithm_eq : EqDecision algorithm.
Proof. solve_decision. Defined.
Inductive kernel_call := Register (a : algorithm) (ret : Z) | Unregister (a : algorithm) | SpinLock | SpinUnlock | SpinInit | Random (n : Z).
Class Registry : Type := { reg_answer : list kernel_call -> algorithm -> Z; reg_random : list kernel_call -> Z -> bytes }.

Abbreviation MG := (M (list kernel_call)).

Section GmModule.
Context {kernel : Registry}.

Definition kcall (c : kernel_call) : MG unit := modify (fun l => l ++ [c]).
Definition register (a : algorithm) : MG Z := r ← gets (fun l => reg_answer l a); kcall (Register a r);; mret r.

(** ** rng.c *)
Definition vpn_rng_get_random (dlen : Z) : MG (Z * bytes) :=
  kcall SpinLock;;
  rdata ← gets (fun l => reg_random l dlen); kcall (Random dlen);;
  kcall SpinUnlock;;
  mret (0, rdata).
Definition _vpn_rng_init : MG Z := kcall SpinInit;; mret 0.
Definition _vpn_rng_cleanup : MG unit := kcall SpinLock;; kcall SpinUnlock.
(** A seed is ignored. *)
Definition _vpn_rng_reset (seed : bytes) : MG Z := mret 0.
Definition vpn_rng_init : MG Z := register Vpnrng.
Definition vpn_rng_exit : MG unit := kcall (Unregister Vpnrng).

(** ** sm3.c, sm4.c *)
Definition sm3_init : MG Z := register Sm3.
Definition sm3_fini : MG unit := kcall (Unregister Sm3).
Definition sm4_init : MG Z := register Sm4.
Definition sm4_fini : MG unit := kcall (Unregister Sm4).

(** ** main_alg.c *)
Definition soft_alg_init : MG Z := _ ← vpn_rng_init; _ ← sm3_init; _ ← sm4_init; mret 0.
Definition soft_alg_fini : MG unit := vpn_rng_exit;; sm3_fini;; sm4_fini.

(** ** What is registered *)
Definition registry_step (l : list algorithm) (c : kernel_call) : list algorithm :=
  match c with
  | Register a r => if r =? 0 then a :: l else l
  | Unregister a => filter (fun b => b <> a) l
  | _ => l
  end.
Definition in_registry (l : list kernel_call) : list algorithm := foldl registry_step [] l.

(** The module always loads, with the algorithms the kernel accepted; removing it leaves none of them. *)
Lemma module_life l :
  exists l1, soft_alg_init l = Some (0, l1) /\
    (forall a, a ∈ in_registry l1 <-> a ∈ in_registry l \/ exists r, Register a r ∈ drop (length l) l1 /\ r = 0) /\
    exists l2, soft_alg_fini l1 = Some (tt, l2) /\ in_registry l2 = [].
Proof.
  unfold soft_alg_init, vpn_rng_init, sm3_init, sm4_init, register, kcall, gets, modify, mret, M_ret, mbind, M_bind. cbn [fst snd].
  eexists. split; [reflexivity|]. rewrite <- !app_assoc, drop_app_length. cbn [app]. split.
  - intros a. unfold in_registry. rewrite foldl_app. cbn [foldl registry_step].
    set (r1 := reg_answer l Vpnrng). set (r2 := reg_answer _ Sm3). set (r3 := reg_answer _ Sm4). clearbody r1 r2 r3.
    generalize (foldl registry_step [] l). intros reg.
    destruct (Z.eqb_spec r1 0), (Z.eqb_spec r2 0), (Z.eqb_spec r3 0); rewrite ?elem_of_cons; split;
      intros H; repeat (destruct H as [H|H]); try (destruct H as (r & H & Hr); rewrite !elem_of_cons in H; set_solver);
      subst; try (by left); try (right; exists 0; subst; set_solver); set_solver.
  - eexists. split; [reflexivity|]. unfold in_registry. rewrite !foldl_app. cbn [foldl registry_step].
    apply elem_of_nil_inv. intros a. rewrite !list_elem_of_filter. destruct a; tauto.
Qed.
End GmModule.

(** A registration that fails is not noticed: the module loads all the same, and when it is removed an algorithm is taken back that is not
    registered. *)
Definition full : Registry := {| reg_answer _ a := if decide (a = Sm3) then -17 else 0; reg_random _ n := [] |}.
Example failure_unnoticed :
  exists l1 l2, soft_alg_init (kernel := full) [] = Some (0, l1) /\ in_registry l1 = [Sm4; Vpnrng] /\
    soft_alg_fini l1 = Some (tt, l2) /\ Unregister Sm3 ∈ l2.
Proof. eexists _, _. split_and!; [reflexivity | reflexivity | reflexivity | cbn; set_solver]. Qed.
