(* ===== verification/QmiRequests.v ===== *)
(** * QMIThread.c: the request functions of a data call.
    [World] is the state they share: the globals, the status record of cm.c, the requests sent so far and
    the settings handed to the driver.  The modem and its transport are the class [Modem]: the reply
    to a request may depend on everything sent before it.  A response pointer is [ptr]: the code frees
    responses and leaves the variable dangling ([Wild]), and using it then is undefined behaviour. *)
From S2P Require Import Prelude Util QmiMsg Compose Cm Monad Layout QmiStructs.
#[local] Open Scope Z_scope.
#[local] Open Scope c_scope.

Definition EINVAL : Z := 22.

(** [QmiThreadSendQMITimeout] as its callers see it: the return value, and the response left in
    [*ppResponse] ([None] is NULL).  The arguments are the requests sent before, the request and the timeout. *)
Class Modem : Type := { answer : list bytes -> bytes -> Z -> Z * option bytes }.

Inductive ptr := Wild | Null | Live (m : bytes).

(** The addresses kept in [profile]: [IPV4_T], [IPV6_T] and the P-CSCF fields. *)
Record IPV4_T := { Address : Z; Gateway : Z; SubnetMask : Z; DnsPrimary : Z; DnsSecondary : Z; Mtu : Z }.
Record IPV6_T := { Address6 : bytes; Gateway6 : bytes; SubnetMask6 : bytes; DnsPrimary6 : bytes;
                   DnsSecondary6 : bytes; PrefixLengthIPAddr : Z; PrefixLengthGateway : Z; Mtu6 : Z }.
Record NetCfg := { ipv4 : IPV4_T; ipv6 : IPV6_T; PCSCFIpv4 : bytes * bytes; PCSCFIpv6 : bytes * bytes }.
Definition ipv4_zero : IPV4_T :=
  {| Address := 0; Gateway := 0; SubnetMask := 0; DnsPrimary := 0; DnsSecondary := 0; Mtu := 0 |}.
Definition ipv6_zero : IPV6_T :=
  {| Address6 := replicate 16 0; Gateway6 := replicate 16 0; SubnetMask6 := replicate 16 0; DnsPrimary6 := replicate 16 0;
     DnsSecondary6 := replicate 16 0; PrefixLengthIPAddr := 0; PrefixLengthGateway := 0; Mtu6 := 0 |}.

Record World := {
  wg : Globals; wcm : cm; wsent : list bytes; wdriver : list QMAP_SETTING;
  DeviceIMEI : bytes; DeviceICCID : bytes; DeviceIMSI : bytes }.  (* static buffers of the functions *)

Definition world_init (g : Globals) : World :=
  {| wg := g; wcm := cm_zero; wsent := []; wdriver := [];
     DeviceIMEI := replicate 16 0; DeviceICCID := replicate 32 0; DeviceIMSI := replicate 32 0 |}.

Definition set_wg (w : World) (g : Globals) : World :=
  {| wg := g; wcm := wcm w; wsent := wsent w; wdriver := wdriver w;
     DeviceIMEI := DeviceIMEI w; DeviceICCID := DeviceICCID w; DeviceIMSI := DeviceIMSI w |}.
Definition set_wcm (w : World) (c : cm) : World :=
  {| wg := wg w; wcm := c; wsent := wsent w; wdriver := wdriver w;
     DeviceIMEI := DeviceIMEI w; DeviceICCID := DeviceICCID w; DeviceIMSI := DeviceIMSI w |}.
Definition push_sent (w : World) (r : bytes) : World :=
  {| wg := wg w; wcm := wcm w; wsent := wsent w ++ [r]; wdriver := wdriver w;
     DeviceIMEI := DeviceIMEI w; DeviceICCID := DeviceICCID w; DeviceIMSI := DeviceIMSI w |}.
Definition push_driver (w : World) (q : QMAP_SETTING) : World :=
  {| wg := wg w; wcm := wcm w; wsent := wsent w; wdriver := wdriver w ++ [q];
     DeviceIMEI := DeviceIMEI w; DeviceICCID := DeviceICCID w; DeviceIMSI := DeviceIMSI w |}.

(** [WdsConnectionIPv4Handle = h] or the IPv6 one, by family. *)
Definition set_handle (g : Globals) (curIpFamily h : Z) : Globals :=
  {| qmiclientId := qmiclientId g;
     WdsConnectionIPv4Handle := if curIpFamily =? IpFamilyV4 then h else WdsConnectionIPv4Handle g;
     WdsConnectionIPv6Handle := if curIpFamily =? IpFamilyV4 then WdsConnectionIPv6Handle g else h;
     s_is_cdma := s_is_cdma g; s_hdr_personality := s_hdr_personality g; s_9x07 := s_9x07 g;
     qmap_version := qmap_version g; TransactionId := TransactionId g |}.
Definition get_handle (g : Globals) (curIpFamily : Z) : Z :=
  if curIpFamily =? IpFamilyV4 then WdsConnectionIPv4Handle g else WdsConnectionIPv6Handle g.
Definition set_9x07 (g : Globals) (v : Z) : Globals :=
  {| qmiclientId := qmiclientId g; WdsConnectionIPv4Handle := WdsConnectionIPv4Handle g;
     WdsConnectionIPv6Handle := WdsConnectionIPv6Handle g; s_is_cdma := s_is_cdma g;
     s_hdr_personality := s_hdr_personality g; s_9x07 := v; qmap_version := qmap_version g;
     TransactionId := TransactionId g |}.
Definition set_cdma (g : Globals) (v : Z) : Globals :=
  {| qmiclientId := qmiclientId g; WdsConnectionIPv4Handle := WdsConnectionIPv4Handle g;
     WdsConnectionIPv6Handle := WdsConnectionIPv6Handle g; s_is_cdma := v;
     s_hdr_personality := s_hdr_personality g; s_9x07 := s_9x07 g; qmap_version := qmap_version g;
     TransactionId := TransactionId g |}.
Definition set_hdr (g : Globals) (v : Z) : Globals :=
  {| qmiclientId := qmiclientId g; WdsConnectionIPv4Handle := WdsConnectionIPv4Handle g;
     WdsConnectionIPv6Handle := WdsConnectionIPv6Handle g; s_is_cdma := s_is_cdma g;
     s_hdr_personality := v; s_9x07 := s_9x07 g; qmap_version := qmap_version g;
     TransactionId := TransactionId g |}.
Definition set_qmap_version (g : Globals) (v : Z) : Globals :=
  {| qmiclientId := qmiclientId g; WdsConnectionIPv4Handle := WdsConnectionIPv4Handle g;
     WdsConnectionIPv6Handle := WdsConnectionIPv6Handle g; s_is_cdma := s_is_cdma g;
     s_hdr_personality := s_hdr_personality g; s_9x07 := s_9x07 g; qmap_version := v;
     TransactionId := TransactionId g |}.

Abbreviation MW := (M World).

Section Requests.
Context {host : Host} {heap : Heap} {modem : Modem}.

(** [ComposeQMUXMsg] on the globals of the world. *)
Definition compose (QMIType Ty : Z) (f : option CUSTOMQMUX) : MW (option bytes) := fun w =>
  match ComposeQMUXMsg (wg w) QMIType Ty f with
  | Some (r, g) => Some (r, set_wg w g)
  | None => None
  end.

(** [old] is the value of the caller's response variable, kept when the request is NULL. *)
Definition QmiThreadSendQMITimeout (req : option bytes) (old : ptr) (msecs : Z) : MW (Z * ptr) := fun w =>
  match req with
  | None => Some ((- EINVAL, old), w)
  | Some r =>
      let '(ret, rsp) := answer (wsent w) r msecs in
      Some ((ret, match rsp with Some b => if ret =? 0 then Live b else Null | None => Null end), push_sent w r)
  end.
Definition QmiThreadSendQMI (req : option bytes) (old : ptr) : MW (Z * ptr) :=
  QmiThreadSendQMITimeout req old (30 * 1000).

(** [free(p)] *)
Definition free (p : ptr) : MW ptr :=
  match p with Wild => undefined | Null => mret Null | Live _ => mret Wild end.

(** [qmi_rsp_check_and_return()]: the continuation runs on the message of a successful response. *)
Definition qmi_rsp_check_and_return (err : Z) (pResponse : ptr) (k : bytes -> MW Z) : MW Z :=
  if err <? 0 then mret err else
  match pResponse with
  | Wild => undefined
  | Null => mret err
  | Live m =>
      result ← lift (rd16 m oQMUXResult);
      error ← lift (rd16 m oQMUXError);
      if negb (result =? 0) || negb (error =? 0) then mret error else k m
  end.

(** [GetTLV(&pResponse->MUXMsg.QMUXMsgHdr, type)] *)
Definition get_tlv (m : bytes) (type : Z) : MW (option Z) := lift (GetTLV m oMUXType type).

Definition wds_type (curIpFamily : Z) : Z :=
  if curIpFamily =? IpFamilyV4 then QMUX_TYPE_WDS else QMUX_TYPE_WDS_IPV6.

Definition QWDS_PKT_DATA_DISCONNECTED : Z := 1.
Definition QWDS_PKT_DATA_CONNECTED : Z := 2.

(** Result: the return value and [*pConnectionStatus]. *)
Definition requestQueryDataCall (old : Z) (curIpFamily : Z) : MW (Z * Z) := fun w =>
  (pRequest ← compose (wds_type curIpFamily) 0x22 None;
   '(err, pResponse) ← QmiThreadSendQMI pRequest Wild;
   (* the status variable keeps its old value on the early returns *)
   if err <? 0 then mret (err, old) else
   match pResponse with
   | Wild => undefined
   | Null => mret (err, old)
   | Live m =>
       result ← lift (rd16 m oQMUXResult);
       error ← lift (rd16 m oQMUXError);
       if negb (result =? 0) || negb (error =? 0) then mret (error, old) else
       pPktSrvc ← get_tlv m 0x01;
       status ← (match pPktSrvc with
         | None => mret QWDS_PKT_DATA_DISCONNECTED
         | Some p =>
             s ← lift (ld m (p + QMIWDS_PKT_SRVC_TLV∙"ConnectionStatus"));
             l ← lift (rd16 m (p + QMIWDS_PKT_SRVC_TLV∙"TLVLength"));
             if l =? 2 then
               r ← lift (ld m (p + QMIWDS_PKT_SRVC_TLV∙"ReconfigReqd"));
               mret (if r =? 0x01 then QWDS_PKT_DATA_DISCONNECTED else s)
             else mret s
         end : MW Z);
       when (status =? QWDS_PKT_DATA_DISCONNECTED)
         (modify (fun w => set_wg w (set_handle (wg w) curIpFamily 0)));;
       modify (fun w => set_wcm w (cm_write (wcm w) status));;
       mret (0, status)
   end : MW (Z * Z)) w.

Definition with_curIpFamily (p : PROFILE_T) (f : Z) : PROFILE_T :=
  {| apn := apn p; user := user p; password := password p; auth := auth p; pdp := pdp p;
     curIpFamily := f; enable_ipv4 := enable_ipv4 p; enable_ipv6 := enable_ipv6 p |}.

(** The reads that only feed the log messages of a failed call. *)
Definition log_call_end (m : bytes) : MW unit :=
  p ← get_tlv m 0x10;
  (match p with Some p => _ ← lift (rd16 m (p + sizeof[QMI_TLV_HDR])); mret tt | None => mret tt end : MW unit);;
  p ← get_tlv m 0x11;
  (match p with
   | Some p => _ ← lift (rd16 m (p + sizeof[QMI_TLV_HDR])); _ ← lift (rd16 m (p + 5)); mret tt
   | None => mret tt
   end : MW unit).

(** On the failure path the code frees the response and then returns
    [le16_to_cpu(pMUXMsg->QMUXMsgHdrResp.QMUXError)], a read of the freed block. *)
Definition requestSetupDataCall (profile : PROFILE_T) (curIpFamily : Z) : MW Z :=
  pRequest ← compose (wds_type curIpFamily) 0x20 (Some (WdsStartNwInterfaceReq (with_curIpFamily profile curIpFamily)));
  '(err, pResponse) ← QmiThreadSendQMITimeout pRequest Wild (120 * 1000);
  if err <? 0 then mret err else
  match pResponse with
  | Wild => undefined
  | Null => mret err
  | Live m =>
      result ← lift (rd16 m oQMUXResult);
      error ← lift (rd16 m oQMUXError);
      if negb (result =? 0) || negb (error =? 0) then
        log_call_end m;;
        p ← free pResponse;
        match p with Live m => lift (rd16 m oQMUXError) | _ => undefined end
      else
        h ← lift (rd32 m pMUXMsg->"StartNwInterfaceResp.Handle");
        modify (fun w => set_wg w (set_handle (wg w) curIpFamily h));;
        mret 0
  end.

Definition requestDeactivateDefaultPDP (curIpFamily : Z) : MW Z :=
  g ← gets wg;
  if (curIpFamily =? IpFamilyV4) && (WdsConnectionIPv4Handle g =? 0) then mret 0 else
  if (curIpFamily =? IpFamilyV6) && (WdsConnectionIPv6Handle g =? 0) then mret 0 else
  pRequest ← compose (wds_type curIpFamily) 0x21 (Some (WdsStopNwInterfaceReq curIpFamily));
  '(err, pResponse) ← QmiThreadSendQMI pRequest Wild;
  qmi_rsp_check_and_return err pResponse (fun _ =>
    modify (fun w => set_wg w (set_handle (wg w) curIpFamily 0));;
    mret 0).

(** [profile->pdp == 0] skips both profile requests. *)
Definition requestSetProfile (profile : PROFILE_T) : MW Z :=
  if pdp profile =? 0 then mret 0 else
  pRequest ← compose QMUX_TYPE_WDS 0x28 (Some (WdsModifyProfileSettingsReq profile));
  '(err, pResponse) ← QmiThreadSendQMI pRequest Wild;
  qmi_rsp_check_and_return err pResponse (fun _ => mret 0).

(** [p = GetTLV(...); if (p) x = ...] on a variable holding [old]. *)
Definition if_tlv {A} (m : bytes) (type : Z) (old : A) (k : Z -> MW A) : MW A :=
  p ← get_tlv m type;
  match p with Some p => k p | None => mret old end.

(** The P-CSCF TLVs: a count at 3, then one or two addresses of [n] bytes. *)
Definition read_pcscf (m : bytes) (n : Z) (old : bytes * bytes) (p : Z) : MW (bytes * bytes) :=
  num ← lift (ld m (p + QMIWDS_GET_RUNNING_SETTINGS_PCSCF_IPV4_ADDR∙"PCSCFNumber"));
  if num =? 1 then
    a ← lift (lds m (p + sizeof[QMIWDS_GET_RUNNING_SETTINGS_PCSCF_IPV4_ADDR]) n); mret (a, old.2)
  else if num =? 2 then
    a ← lift (lds m (p + sizeof[QMIWDS_GET_RUNNING_SETTINGS_PCSCF_IPV4_ADDR]) n);
      b ← lift (lds m (p + sizeof[QMIWDS_GET_RUNNING_SETTINGS_PCSCF_IPV4_ADDR] + n) n); mret (a, b)
  else mret old.
Definition get_pcscf (m : bytes) (type n : Z) (old : bytes * bytes) : MW (bytes * bytes) :=
  if_tlv m type old (read_pcscf m n old).

(** Stores the host-order load of the address field of an IPv4 TLV. *)
Definition get_ipv4 (m : bytes) (type old : Z) : MW Z :=
  if_tlv m type old (fun p => lift (ld32 m (p + QMIWDS_GET_RUNTIME_SETTINGS_TLV_IPV4_ADDR∙"IPV4Address"))).
Definition get_ipv6 (m : bytes) (type : Z) (old : bytes) : MW bytes :=
  if_tlv m type old (fun p => lift (lds m (p + QMIWDS_GET_RUNTIME_SETTINGS_TLV_IPV6_ADDR∙"IPV6Address") 16)).
Definition get_prefix (m : bytes) (type old : Z) : MW Z :=
  if_tlv m type old (fun p => lift (ld m (p + QMIWDS_GET_RUNTIME_SETTINGS_TLV_IPV6_ADDR∙"PrefixLength"))).

(** [memset] of the address record of the family, before anything else. *)
Definition clear_family (cfg : NetCfg) (curIpFamily : Z) : NetCfg :=
  {| ipv4 := if curIpFamily =? IpFamilyV4 then ipv4_zero else ipv4 cfg;
     ipv6 := if curIpFamily =? IpFamilyV6 then ipv6_zero else ipv6 cfg;
     PCSCFIpv4 := PCSCFIpv4 cfg; PCSCFIpv6 := PCSCFIpv6 cfg |}.

(** What a successful response writes into the profile. *)
Definition read_runtime (m : bytes) (cfg : NetCfg) (curIpFamily : Z) : MW NetCfg :=
  pcscf6 ← get_pcscf m 0x2e 16 (PCSCFIpv6 cfg);
  pcscf4 ← get_pcscf m 0x23 4 (PCSCFIpv4 cfg);
  dns1 ← get_ipv4 m 0x15 (DnsPrimary (ipv4 cfg));
  dns2 ← get_ipv4 m 0x16 (DnsSecondary (ipv4 cfg));
  gw ← get_ipv4 m 0x20 (Gateway (ipv4 cfg));
  mask ← get_ipv4 m 0x21 (SubnetMask (ipv4 cfg));
  addr ← get_ipv4 m 0x1E (Address (ipv4 cfg));
  dns61 ← get_ipv6 m 0x27 (DnsPrimary6 (ipv6 cfg));
  dns62 ← get_ipv6 m 0x28 (DnsSecondary6 (ipv6 cfg));
  gw6 ← get_ipv6 m 0x26 (Gateway6 (ipv6 cfg));
  gwlen ← get_prefix m 0x26 (PrefixLengthGateway (ipv6 cfg));
  addr6 ← get_ipv6 m 0x25 (Address6 (ipv6 cfg));
  plen ← get_prefix m 0x25 (PrefixLengthIPAddr (ipv6 cfg));
  mtu ← if_tlv m 0x29 (if curIpFamily =? IpFamilyV4 then Mtu (ipv4 cfg) else Mtu6 (ipv6 cfg))
          (fun p => lift (rd32 m (p + QMIWDS_GET_RUNTIME_SETTINGS_TLV_MTU∙"Mtu")));
  mret {| ipv4 := {| Address := addr; Gateway := gw; SubnetMask := mask; DnsPrimary := dns1; DnsSecondary := dns2;
                     Mtu := if curIpFamily =? IpFamilyV4 then mtu else Mtu (ipv4 cfg) |};
          ipv6 := {| Address6 := addr6; Gateway6 := gw6; SubnetMask6 := SubnetMask6 (ipv6 cfg);
                     DnsPrimary6 := dns61; DnsSecondary6 := dns62;
                     PrefixLengthIPAddr := plen; PrefixLengthGateway := gwlen;
                     Mtu6 := if curIpFamily =? IpFamilyV4 then Mtu6 (ipv6 cfg) else mtu |};
          PCSCFIpv4 := pcscf4; PCSCFIpv6 := pcscf6 |}.

(** Result: the return value and the profile's address records. *)
Definition requestGetIPAddress (cfg : NetCfg) (curIpFamily : Z) : MW (Z * NetCfg) :=
  g ← gets wg;
  let cfg := clear_family cfg curIpFamily in
  if (curIpFamily =? IpFamilyV4) && (WdsConnectionIPv4Handle g =? 0) then mret (0, cfg) else
  if (curIpFamily =? IpFamilyV6) && (WdsConnectionIPv6Handle g =? 0) then mret (0, cfg) else
  pRequest ← compose (wds_type curIpFamily) 0x2D (Some WdsGetRuntimeSettingReq);
  '(err, pResponse) ← QmiThreadSendQMI pRequest Wild;
  if err <? 0 then mret (err, cfg) else
  match pResponse with
  | Wild => undefined
  | Null => mret (err, cfg)
  | Live m =>
      result ← lift (rd16 m oQMUXResult);
      error ← lift (rd16 m oQMUXError);
      if negb (result =? 0) || negb (error =? 0) then mret (error, cfg) else
      cfg ← read_runtime m cfg curIpFamily;
      mret (0, cfg)
  end.

(** [strndup(s, n)]: reads up to the first NUL or [n] bytes. *)
Fixpoint strndup_at (n : nat) (m : bytes) (i : Z) : option bytes :=
  match n with
  | O => Some []
  | S n => c ← ld m i; if c =? 0 then Some [] else t ← strndup_at n m (i + 1); Some (c :: t)
  end.
Definition get_string (m : bytes) (type : Z) : MW (option bytes) :=
  if_tlv m type None (fun p =>
    n ← lift (rd16 m (p + QMI_TLV_HDR∙"TLVLength"));
    s ← lift (strndup_at (Z.to_nat n) m (p + QMIWDS_APNNAME∙"ApnName"));
    mret (Some s)).

(** The strings read are only logged: the assignments to the profile are under [#if 0]. *)
Definition requestGetProfile (profile : PROFILE_T) : MW Z :=
  if pdp profile =? 0 then mret 0 else
  pRequest ← compose QMUX_TYPE_WDS 0x2B (Some (WdsGetProfileSettingsReqSend profile));
  '(err, pResponse) ← QmiThreadSendQMI pRequest Wild;
  qmi_rsp_check_and_return err pResponse (fun m =>
    _ ← get_string m 0x14;
    _ ← get_string m 0x1B;
    _ ← get_string m 0x1C;
    _ ← if_tlv m 0x1D 0 (fun p => lift (ld m (p + QMIWDS_AUTH_PREFERENCE∙"AuthPreference")));
    mret 0).

(** The fields of the profile [requestSetEthMode] uses; the pointer [qmapnet_adapter] is only
    tested for NULL, [rmnet_size] is [rmnet_info.size]. *)
Record ETH_T := {
  qmichannel : bytes; qmap_mode : Z; qmap_size : Z; eth_qmap_version : Z; rawIP : Z; muxid : Z;
  has_qmapnet_adapter : bool; rmnet_size : Z; rmnet_rx_urb_size : Z; rmnet_ep_type : Z; rmnet_iface_id : Z;
  rmnet_qmap_version : Z }.
Definition set_rawIP (e : ETH_T) (v : Z) : ETH_T :=
  {| qmichannel := qmichannel e; qmap_mode := qmap_mode e; qmap_size := qmap_size e;
     eth_qmap_version := eth_qmap_version e; rawIP := v; muxid := muxid e;
     has_qmapnet_adapter := has_qmapnet_adapter e; rmnet_size := rmnet_size e;
     rmnet_rx_urb_size := rmnet_rx_urb_size e; rmnet_ep_type := rmnet_ep_type e;
     rmnet_iface_id := rmnet_iface_id e; rmnet_qmap_version := rmnet_qmap_version e |}.
Definition set_eth_qmap_version (e : ETH_T) (v : Z) : ETH_T :=
  {| qmichannel := qmichannel e; qmap_mode := qmap_mode e; qmap_size := qmap_size e;
     eth_qmap_version := v; rawIP := rawIP e; muxid := muxid e;
     has_qmapnet_adapter := has_qmapnet_adapter e; rmnet_size := rmnet_size e;
     rmnet_rx_urb_size := rmnet_rx_urb_size e; rmnet_ep_type := rmnet_ep_type e;
     rmnet_iface_id := rmnet_iface_id e; rmnet_qmap_version := rmnet_qmap_version e |}.

(** [strncmp(s, prefix, strlen(prefix)) == 0] on NUL-free strings. *)
Definition starts_with (prefix s : bytes) : bool := bool_decide (take (length prefix) s = prefix).
Definition qmidev_is_gobinet (c : bytes) : bool := starts_with (str "/dev/qcqmi") c.
Definition qmidev_is_qmiwwan (c : bytes) : bool := starts_with (str "/dev/cdc-wdm") c.
Definition qmidev_is_pciemhi (c : bytes) : bool := starts_with (str "/dev/mhi_") c.

Definition DATA_EP_TYPE_HSUSB : Z := 2.
Definition DATA_EP_TYPE_PCIE : Z := 3.

Definition qmap_zero : QMAP_SETTING :=
  {| rx_urb_size := 0; ep_type := 0; iface_id := 0; MuxId := 0; ul_data_aggregation_max_datagrams := 0;
     ul_data_aggregation_max_size := 0; dl_minimum_padding := 0 |}.

(** The settings of a QMAP device; both branches of [loopback_state] clear the padding. *)
Definition eth_qmap_settings (e : ETH_T) : QMAP_SETTING :=
  if qmap_mode e =? 0 then qmap_zero else
  if rmnet_size e =? 0 then
    {| rx_urb_size := u32 (qmap_size e);
       ep_type := if qmidev_is_pciemhi (qmichannel e) then DATA_EP_TYPE_PCIE else DATA_EP_TYPE_HSUSB;
       iface_id := 0x04; MuxId := u32 (muxid e); ul_data_aggregation_max_datagrams := 11;
       ul_data_aggregation_max_size := 8 * 1024; dl_minimum_padding := 16 |}
  else
    {| rx_urb_size := rmnet_rx_urb_size e; ep_type := rmnet_ep_type e; iface_id := rmnet_iface_id e;
       MuxId := u32 (muxid e); ul_data_aggregation_max_datagrams := 11;
       ul_data_aggregation_max_size := 8 * 1024; dl_minimum_padding := 0 |}.

(** The branch [if (profile->qmap_mode)]: the profile, and the globals [s_9x07] and [qmap_version]. *)
Definition eth_prepare (e : ETH_T) (g : Globals) : ETH_T * Globals :=
  if qmap_mode e =? 0 then (e, g) else
  let e := set_rawIP e 1 in
  let e := set_eth_qmap_version e (if eth_qmap_version e =? 0x09 then eth_qmap_version e else 0x05) in
  (e, set_qmap_version (set_9x07 g 1) (if rmnet_size e =? 0 then eth_qmap_version e else rmnet_qmap_version e)).

(** What a successful answer to the data-format request changes. *)
Definition eth_read_format (m : bytes) (e : ETH_T) (q : QMAP_SETTING) : MW (ETH_T * QMAP_SETTING) :=
  proto ← if_tlv m 0x11 None (fun p => v ← lift (rd32 m (p + QMIWDS_ADMIN_SET_DATA_FORMAT_TLV∙"Value")); mret (Some v));
  e ← (match proto with
    | Some v =>
        let r := if v =? 2 then 1 else 0 in
        modify (fun w => set_wg w (set_9x07 (wg w) r));; mret (set_rawIP e r)
    | None => mret e
    end : MW ETH_T);
  rx ← (if qmap_mode e =? 0 then mret (rx_urb_size q)
        else if_tlv m 0x16 (rx_urb_size q) (fun p => lift (rd32 m (p + QMIWDS_ADMIN_SET_DATA_FORMAT_TLV∙"Value"))) : MW Z);
  if ul_data_aggregation_max_datagrams q =? 0 then
    mret (e, {| rx_urb_size := rx; ep_type := ep_type q; iface_id := iface_id q; MuxId := MuxId q;
                ul_data_aggregation_max_datagrams := 0;
                ul_data_aggregation_max_size := ul_data_aggregation_max_size q;
                dl_minimum_padding := dl_minimum_padding q |})
  else
    dg ← if_tlv m 0x17 (ul_data_aggregation_max_datagrams q) (fun p =>
           v ← lift (rd32 m (p + QMIWDS_ADMIN_SET_DATA_FORMAT_TLV∙"Value"));
             mret (Z.min (ul_data_aggregation_max_datagrams q) v));
    sz ← if_tlv m 0x18 (ul_data_aggregation_max_size q) (fun p =>
           v ← lift (rd32 m (p + QMIWDS_ADMIN_SET_DATA_FORMAT_TLV∙"Value")); mret (Z.min (ul_data_aggregation_max_size q) v));
    pad ← if_tlv m 0x1A (dl_minimum_padding q) (fun p => lift (rd32 m (p + QMIWDS_ADMIN_SET_DATA_FORMAT_TLV∙"Value")));
    let q := {| rx_urb_size := rx; ep_type := ep_type q; iface_id := iface_id q; MuxId := MuxId q;
                ul_data_aggregation_max_datagrams := dg; ul_data_aggregation_max_size := sz;
                dl_minimum_padding := pad |} in
    when (1 <? dg) (modify (fun w => push_driver w q));;
    mret (e, q).

(** One request of the tail of [requestSetEthMode] whose answer is checked, or ignored; the
    continuation gets the response variable after [if (pResponse) free(pResponse)]. *)
Definition eth_checked (pRequest : option bytes) (pResponse : ptr) (k : ptr -> MW Z) : MW Z :=
  '(err, pResponse) ← QmiThreadSendQMI pRequest pResponse;
  qmi_rsp_check_and_return err pResponse (fun _ => p ← free pResponse; k p).
Definition eth_unchecked (pRequest : option bytes) (pResponse : ptr) (k : ptr -> MW Z) : MW Z :=
  '(_, pResponse) ← QmiThreadSendQMI pRequest pResponse;
  p ← free pResponse; k p.

(** From the label [skip_WdaSetDataFormat] on. *)
Definition eth_bind (QMIType : Z) (e : ETH_T) (q : QMAP_SETTING) (pResponse : ptr) (k : ptr -> MW Z) : MW Z :=
  if has_qmapnet_adapter e then
    pRequest ← compose QMIType 0xA2 (Some (WdsSetQMUXBindMuxDataPort q));
    eth_checked pRequest pResponse k
  else k pResponse.
Definition eth_auto (pResponse : ptr) : MW Z :=
  pRequest ← compose QMUX_TYPE_WDS 0x51 (Some (WdsSetAutoConnect 0));
  eth_unchecked pRequest pResponse (fun _ => mret 0).
Definition eth_ipv6 (profile : PROFILE_T) (e : ETH_T) (q : QMAP_SETTING) (pResponse : ptr) : MW Z :=
  if enable_ipv6 profile =? 0 then eth_auto pResponse else
  eth_bind QMUX_TYPE_WDS_IPV6 e q pResponse (fun pResponse =>
    pRequest ← compose QMUX_TYPE_WDS_IPV6 0x4D (Some (WdsSetClientIPFamilyPref IpFamilyV6));
    eth_checked pRequest pResponse eth_auto).
Definition eth_tail (profile : PROFILE_T) (e : ETH_T) (q : QMAP_SETTING) (pResponse : ptr) : MW Z :=
  if enable_ipv4 profile =? 0 then eth_ipv6 profile e q pResponse else
  eth_bind QMUX_TYPE_WDS e q pResponse (fun pResponse =>
    pRequest ← compose QMUX_TYPE_WDS 0x4D (Some (WdsSetClientIPFamilyPref IpFamilyV4));
    eth_unchecked pRequest pResponse (eth_ipv6 profile e q)).

(** Result: the return value and the profile as it was changed. *)
Definition requestSetEthMode (profile : PROFILE_T) (e : ETH_T) : MW (Z * ETH_T) := fun w =>
  let '(e, g) := eth_prepare e (wg w) in
  let q := eth_qmap_settings e in
  (if negb (qmap_mode e =? 0) && (qmidev_is_gobinet (qmichannel e) || (1 <? qmap_mode e)) then
     ret ← eth_tail profile e q Null; mret (ret, e)
   else
     pRequest ← compose QMUX_TYPE_WDS_ADMIN 0x20 (Some (WdaSetDataFormat q));
     '(err, pResponse) ← QmiThreadSendQMI pRequest Null;
     if err <? 0 then mret (err, e) else
     match pResponse with
     | Wild => undefined
     | Null => mret (err, e)
     | Live m =>
         result ← lift (rd16 m oQMUXResult);
         error ← lift (rd16 m oQMUXError);
         if negb (result =? 0) || negb (error =? 0) then mret (error, e) else
         '(e, q) ← eth_read_format m e q;
         p ← free pResponse;
         ret ← eth_tail profile e q p;
         mret (ret, e)
     end : MW (Z * ETH_T)) (set_wg w g).
End Requests.
