(* ===== verification/QmiCall.v ===== *)
(** * What the data-call requests of QmiRequests.v achieve, for any modem.
    [client] says that the program holds a client of a service; [is_rsp] gives the result and error
    codes of a response.  The lemma [request_ok] runs composing and sending in one step. *)
From S2P Require Import Prelude Util QmiMsg Compose Cm Monad QmiRequests.
#[local] Open Scope Z_scope.
#[local] Open Scope c_scope.

Section Spec.
Context {host : Host} {heap : Heap} {modem : Modem}.

Definition client (w : World) (T cid : Z) : Prop :=
  qmiclientId (wg w) !! Z.to_nat T = Some cid /\ cid <> 0 /\ is_byte T.
Definition is_rsp (m : bytes) (result error : Z) : Prop :=
  rd16 m oQMUXResult = Some result /\ rd16 m oQMUXError = Some error.

(** The next request of the world, and the world once it is sent. *)
Definition msg_of (w : World) (T cid Ty : Z) (ts : list tlv) : bytes :=
  enc_qmux T (cid .& 0xFF) 0 (fst (GetQMUXTransactionId (wg w))) Ty (enc_tlvs ts).
Definition next (w : World) (r : bytes) : World :=
  push_sent (set_wg w (snd (GetQMUXTransactionId (wg w)))) r.
Definition ptr_of (ret : Z) (rsp : option bytes) : ptr :=
  match rsp with Some b => if ret =? 0 then Live b else Null | None => Null end.

Lemma compose_ok w T Ty f ts cid :
  client w T cid -> (forall t, builds (set_TransactionId (wg w) t) f ts) -> area_len ts <= 243 ->
  malloc_ok (13 + area_len ts) = true ->
  compose T Ty (Some f) w = Some (Some (msg_of w T cid Ty ts), set_wg w (snd (GetQMUXTransactionId (wg w)))).
Proof.
  intros (Hc & Hn & HT) Hb Hl Hm. unfold compose, msg_of.
  pose proof (ComposeQMUXMsg_builds (wg w) T Ty f ts cid Hc Hn HT) as H.
  unfold GetQMUXTransactionId in *. cbv zeta in *. rewrite H, Hm by done. done.
Qed.

Lemma compose_plain w T Ty : compose T Ty None w = compose T Ty (Some (fun _ m => Some (m, 4))) w.
Proof.
  unfold compose. replace (ComposeQMUXMsg (wg w) T Ty (Some (fun _ m => Some (m, 4)))) with
    (ComposeQMUXMsg (wg w) T Ty None); [done|]. reflexivity.
Qed.
Lemma plain_builds g : builds g (fun _ m => Some (m, 4)) [].
Proof. intros h l0 l1 _. by exists l0, l1. Qed.

Lemma request_ok {A} w T Ty f ts cid old ms (k : Z * ptr -> MW A) :
  client w T cid -> (forall t, builds (set_TransactionId (wg w) t) f ts) -> area_len ts <= 243 ->
  malloc_ok (13 + area_len ts) = true ->
  (r ← compose T Ty (Some f); x ← QmiThreadSendQMITimeout r old ms; k x) w =
  let r := msg_of w T cid Ty ts in
  let '(ret, rsp) := answer (wsent w) r ms in k (ret, ptr_of ret rsp) (next w r).
Proof.
  intros Hc Hb Hl Hm. erewrite bind_step by (by apply compose_ok).
  unfold QmiThreadSendQMITimeout. unfold mbind, M_bind. cbn [wsent set_wg].
  by destruct (answer _ _ _) as [ret rsp].
Qed.

Lemma request_none {A} w T Ty f old ms (k : Z * ptr -> MW A) :
  qmiclientId (wg w) !! Z.to_nat T = Some 0 -> is_byte T ->
  (r ← compose T Ty f; x ← QmiThreadSendQMITimeout r old ms; k x) w = k (- EINVAL, old) w.
Proof.
  intros Hc HT. unfold compose, mbind, M_bind. rewrite compose_without_client by done. by destruct w.
Qed.

Lemma check_ok err m w k : err = 0 -> is_rsp m 0 0 -> qmi_rsp_check_and_return err (Live m) k w = k m w.
Proof. intros -> (E1 & E2). unfold qmi_rsp_check_and_return. cbn [Z.ltb Z.compare]. by rewrite E1, E2. Qed.

Lemma check_rejected m w k r e :
  is_rsp m r e -> (r <> 0 \/ e <> 0) -> qmi_rsp_check_and_return 0 (Live m) k w = Some (e, w).
Proof.
  intros (E1 & E2) H. unfold qmi_rsp_check_and_return. cbn [Z.ltb Z.compare]. rewrite E1, E2. mstep. unfold mbind, M_bind. mstep.
  destruct (Z.eqb_spec r 0), (Z.eqb_spec e 0); cbn; (done || lia).
Qed.

Lemma check_failed err p k w : err < 0 -> qmi_rsp_check_and_return err p k w = Some (err, w).
Proof. intros H. unfold qmi_rsp_check_and_return. by rewrite (proj2 (Z.ltb_lt err 0)). Qed.

Lemma wds_type_byte f : is_byte (wds_type f).
Proof. unfold wds_type. destruct (f =? IpFamilyV4); split; (discriminate || reflexivity). Qed.
Lemma get_set_handle g f f' h :
  get_handle (set_handle g f h) f' = if eqb (f =? IpFamilyV4) (f' =? IpFamilyV4) then h else get_handle g f'.
Proof. unfold get_handle, set_handle. by destruct (f =? IpFamilyV4), (f' =? IpFamilyV4). Qed.

(** A response with result and error codes [r] and [e] and the TLVs [ts]. *)
Definition response (T cid tid Ty r e : Z) (ts : list tlv) : bytes :=
  enc_qmux T cid 2 tid Ty (enc_tlvs ((0x02, le16 r ++ le16 e) :: ts)).

(** ** Responses *)
Lemma response_rsp T cid tid Ty r e ts : is_u16 r -> is_u16 e -> is_rsp (response T cid tid Ty r e ts) r e.
Proof.
  intros Hr He. unfold is_rsp, response, enc_qmux. rewrite enc_tlvs_cons. unfold enc_tlv. cbn [fst snd].
  set (L := le16 (zlen (((2 :: le16 (zlen (le16 r ++ le16 e)) ++ le16 r ++ le16 e)) ++ enc_tlvs ts))).
  set (A := le16 (_ + 12)). split.
  - change (rd16 (([USB_CTL_MSG_TYPE_QMI] ++ A ++ [0; T; cid] ++ [2] ++ le16 tid ++ le16 Ty ++ L ++ 2 :: le16 4)
      ++ le16 r ++ (le16 e ++ enc_tlvs ts)) oQMUXResult = Some r). by apply rd16_le16.
  - change (rd16 (([USB_CTL_MSG_TYPE_QMI] ++ A ++ [0; T; cid] ++ [2] ++ le16 tid ++ le16 Ty ++ L ++ 2 :: le16 4 ++ le16 r)
      ++ le16 e ++ (enc_tlvs ts)) oQMUXError = Some e). by apply rd16_le16.
Qed.

Lemma get_tlv_response T cid tid Ty r e ts type w :
  Forall tlv_wf ts -> zlen (enc_tlvs ts) < 65529 -> type <> 2 -> type <= 0x1000 ->
  let m := response T cid tid Ty r e ts in
  match tlv_value ts type with
  | None => get_tlv m type w = Some (None, w)
  | Some v => exists p, get_tlv m type w = Some (Some p, w) /\
      rd16 m (p + 1) = Some (zlen v) /\ lds m (p + 3) (zlen v) = Some v
  end.
Proof.
  intros F Hl Ht Hx m. unfold get_tlv, m, response.
  assert (F2 : Forall tlv_wf ((2, le16 r ++ le16 e) :: ts)) by (constructor; [done|done]).
  assert (Hv : tlv_value ((2, le16 r ++ le16 e) :: ts) type = tlv_value ts type).
  { unfold tlv_value. cbn [find fst]. by rewrite (proj2 (Z.eqb_neq 2 type)) by lia. }
  rewrite GetTLV_enc_qmux; [|done | rewrite enc_tlvs_cons, zlen_app, enc_tlv_zlen; change (zlen (_, _).2) with 4; lia].
  rewrite (proj2 (Z.ltb_ge 0x1000 type)) by lia.
  pose proof (find_type_value ([USB_CTL_MSG_TYPE_QMI] ++ le16 (zlen (enc_tlvs ((2, le16 r ++ le16 e) :: ts)) + 12) ++
    [0; T; cid] ++ [2] ++ le16 tid ++ le16 Ty ++ le16 (zlen (enc_tlvs ((2, le16 r ++ le16 e) :: ts)))) _ [] type F2) as H.
  rewrite app_nil_r, Hv in H. change (zlen _) with oTLVs in H at 1.
  destruct (find_type _ oTLVs type) as [o|].
  - destruct H as (v & -> & H1 & H2). exists o. rewrite <- !app_assoc in H1, H2. done.
  - by rewrite H.
Qed.

(** [if_tlv] with a reader [k] that takes the value's bytes to [val]. *)
Lemma if_tlv_response {A} T cid tid Ty r e ts type (old : A) k (val : bytes -> A) w :
  Forall tlv_wf ts -> zlen (enc_tlvs ts) < 65529 -> type <> 2 -> type <= 0x1000 ->
  (forall m p v, tlv_value ts type = Some v -> lds m (p + 3) (zlen v) = Some v -> rd16 m (p + 1) = Some (zlen v) ->
     k m p w = Some (val v, w)) ->
  let m := response T cid tid Ty r e ts in
  if_tlv m type old (k m) w = Some (match tlv_value ts type with Some v => val v | None => old end, w).
Proof.
  intros F Hl Ht Hx Hk m. unfold if_tlv. pose proof (get_tlv_response T cid tid Ty r e ts type w F Hl Ht Hx) as H.
  fold m in H. destruct (tlv_value ts type) as [v|].
  - destruct H as (p & E & H1 & H2). erewrite bind_step by exact E. by apply Hk.
  - by erewrite bind_step by exact H.
Qed.

(** ** Starting and stopping a call *)
Lemma setup_ok w profile f cid m h :
  let p := with_curIpFamily profile f in
  let ts := start_tlvs (wg w) p in
  let r := msg_of w (wds_type f) cid 0x20 ts in
  client w (wds_type f) cid -> area_len ts <= 243 -> malloc_ok (13 + area_len ts) = true ->
  answer (wsent w) r 120000 = (0, Some m) -> is_rsp m 0 0 -> rd32 m 23 = Some h ->
  requestSetupDataCall profile f w = Some (0, set_wg (next w r) (set_handle (wg (next w r)) f h)).
Proof.
  intros p ts r Hc Hl Hm Ha (E1 & E2) Hh. unfold requestSetupDataCall. change (120 * 1000) with 120000.
  erewrite (request_ok w _ _ _ ts cid); [|done | intros t; by apply WdsStartNwInterfaceReq_builds | done | done].
  fold r. cbv zeta. rewrite Ha. cbn [ptr_of]. cbn [Z.eqb Z.ltb Z.compare]. rewrite E1, E2.
  unfold mbind, M_bind. mstep. cbn [Z.eqb negb orb]. by rewrite Hh.
Qed.

Lemma deactivate_ok w f cid m :
  let r := msg_of w (wds_type f) cid 0x21 [(0x01, le32 (get_handle (wg w) f))] in
  client w (wds_type f) cid -> malloc_ok 20 = true -> get_handle (wg w) f <> 0 ->
  answer (wsent w) r 30000 = (0, Some m) -> is_rsp m 0 0 ->
  requestDeactivateDefaultPDP f w = Some (0, set_wg (next w r) (set_handle (wg (next w r)) f 0)).
Proof.
  intros r Hc Hm Hh Ha Hr. unfold requestDeactivateDefaultPDP. rewrite bind_gets.
  replace ((f =? IpFamilyV4) && (WdsConnectionIPv4Handle (wg w) =? 0)) with false.
  2:{ unfold get_handle in Hh. destruct (f =? IpFamilyV4); [|done]. symmetry. by apply Z.eqb_neq. }
  replace ((f =? IpFamilyV6) && (WdsConnectionIPv6Handle (wg w) =? 0)) with false.
  2:{ unfold get_handle in Hh. destruct (Z.eqb_spec f IpFamilyV6) as [->|]; [|done]. symmetry. by apply Z.eqb_neq. }
  unfold QmiThreadSendQMI. change (30 * 1000) with 30000.
  rewrite (request_ok w _ _ _ [(0x01, le32 (get_handle (wg w) f))] cid); [|done | | done | done].
  2:{ intros t. apply WdsStopNwInterfaceReq_builds. }
  fold r. cbv zeta. rewrite Ha. cbn [ptr_of Z.eqb]. by rewrite check_ok.
Qed.

Lemma deactivate_idle w f :
  f = IpFamilyV4 \/ f = IpFamilyV6 -> get_handle (wg w) f = 0 -> requestDeactivateDefaultPDP f w = Some (0, w).
Proof.
  intros Hf Hh. unfold requestDeactivateDefaultPDP. rewrite bind_gets. destruct Hf as [-> | ->]; cbn in *; by rewrite Hh.
Qed.
End Spec.

(** C7: a data call's handle: a start request the modem accepts leaves the modem's handle in the
    family's variable and touches no other family; hanging up then sends exactly that handle in a stop
    request of the same service and clears it; hanging up again sends nothing. *)
Theorem data_call_lifecycle {host : Host} {heap : Heap} {modem : Modem} w profile f cid m h :
  let p := with_curIpFamily profile f in
  let start := msg_of w (wds_type f) cid 0x20 (start_tlvs (wg w) p) in
  f = IpFamilyV4 \/ f = IpFamilyV6 -> client w (wds_type f) cid ->
  area_len (start_tlvs (wg w) p) <= 243 -> (forall n, malloc_ok n = true) ->
  answer (wsent w) start 120000 = (0, Some m) -> is_rsp m 0 0 -> rd32 m 23 = Some h -> h <> 0 ->
  exists w1, requestSetupDataCall profile f w = Some (0, w1) /\
    get_handle (wg w1) f = h /\
    (forall f', (f' =? IpFamilyV4) <> (f =? IpFamilyV4) -> get_handle (wg w1) f' = get_handle (wg w) f') /\
    wsent w1 = wsent w ++ [start] /\
    let stop := msg_of w1 (wds_type f) cid 0x21 [(0x01, le32 h)] in
    read_tlv stop 0x01 = Some (Some (le32 h)) /\
    forall m2, answer (wsent w1) stop 30000 = (0, Some m2) -> is_rsp m2 0 0 ->
    exists w2, requestDeactivateDefaultPDP f w1 = Some (0, w2) /\ get_handle (wg w2) f = 0 /\
      wsent w2 = wsent w1 ++ [stop] /\ requestDeactivateDefaultPDP f w2 = Some (0, w2).
Proof.
  intros p start Hf Hc Hl Hm Ha Hr Hh Hz. pose proof (setup_ok w profile f cid m h Hc Hl (Hm _) Ha Hr Hh) as E.
  eexists. split; [exact E|]. fold p start. set (w1 := set_wg _ _).
  split. { unfold w1. cbn [wg set_wg]. rewrite get_set_handle. by destruct (f =? IpFamilyV4). }
  split. { intros f' Hne. unfold w1. cbn [wg set_wg]. rewrite get_set_handle.
           destruct (f =? IpFamilyV4), (f' =? IpFamilyV4); done. }
  split; [done|]. intros stop. split.
  { apply (read_tlv_enc_qmux _ _ _ _ _ [(0x01, le32 h)] 1); [|done|done]. repeat constructor; done. }
  intros m2 Ha2 Hr2. assert (Hg : get_handle (wg w1) f = h).
  { unfold w1. cbn [wg set_wg]. rewrite get_set_handle. by destruct (f =? IpFamilyV4). }
  pose proof (deactivate_ok w1 f cid m2) as D. cbv zeta in D. rewrite Hg in D.
  specialize (D Hc (Hm _) Hz Ha2 Hr2). eexists. split; [exact D|].
  assert (Hg2 : forall w' g, get_handle (wg (set_wg w' (set_handle g f 0))) f = 0).
  { intros w' g. cbn [wg set_wg]. rewrite get_set_handle. by destruct (f =? IpFamilyV4). }
  split; [apply Hg2|]. split; [done|]. by apply deactivate_idle.
Qed.

(** A modem that always gives the same answer, and a world with a client of every service. *)
Definition fixed_modem (rsp : bytes) : Modem := {| answer _ _ _ := (0, Some rsp) |}.
Definition world_sample : World := world_init (globals_client 3 0).
Theorem data_call_lifecycle_witness :
  let rsp := response QMUX_TYPE_WDS 3 9 0x20 0 0 [(0x01, [0x78; 0x56; 0x34; 0x12])] in
  exists w1, requestSetupDataCall (heap := any_heap) (modem := fixed_modem rsp) profile_sample IpFamilyV4 world_sample =
    Some (0, w1) /\ get_handle (wg w1) IpFamilyV4 = 0x12345678.
Proof.
  set (rsp := response _ _ _ _ _ _ _). cbv zeta.
  destruct (data_call_lifecycle (heap := any_heap) (modem := fixed_modem rsp) world_sample profile_sample IpFamilyV4 3 rsp 0x12345678)
    as (w1 & E & H & _).
  - by left.
  - repeat split; discriminate || reflexivity.
  - vm_compute. discriminate.
  - done.
  - done.
  - split; vm_compute; reflexivity.
  - vm_compute. reflexivity.
  - discriminate.
  - exists w1. split; [exact E | exact H].
Defined.

(** ** Reading the addresses *)
Definition pcscf_count (v : bytes) : Z :=
  match v with n :: _ => if (n =? 1) || (n =? 2) then n else 0 | [] => 0 end.
(** The least length the code's reads of a TLV of the type need. *)
Definition min_len (type : Z) (v : bytes) : Z :=
  if bool_decide (type ∈ [0x15; 0x16; 0x20; 0x21; 0x1E; 0x29]) then 4
  else if bool_decide (type ∈ [0x27; 0x28]) then 16
  else if bool_decide (type ∈ [0x25; 0x26]) then 17
  else if type =? 0x2e then 1 + 16 * pcscf_count v
  else if type =? 0x23 then 1 + 4 * pcscf_count v else 0.
Definition runtime_wf (ts : list tlv) : Prop := Forall (fun x : tlv => min_len x.1 x.2 <= zlen x.2) ts.

(** The value of a TLV read with [f], or the old one. *)
Definition tlv_or {A} (ts : list tlv) (type : Z) (f : bytes -> A) (old : A) : A :=
  match tlv_value ts type with Some v => f v | None => old end.
Definition pcscf_of (n : nat) (old : bytes * bytes) (v : bytes) : bytes * bytes :=
  if pcscf_count v =? 1 then (take n (drop 1 v), old.2)
  else if pcscf_count v =? 2 then (take n (drop 1 v), take n (drop (1 + n) v)) else old.

Section Runtime.
Context {host : Host}.

Definition runtime_spec (ts : list tlv) (cfg : NetCfg) (f : Z) : NetCfg :=
  let addr4 type := tlv_or ts type (fun v => dec_native (take 4 v)) in
  let addr6 type := tlv_or ts type (take 16) in
  let prefix type := tlv_or ts type (fun v => nth 16 v 0) in
  let mtu := tlv_or ts 0x29 (fun v => le32_to_cpu (dec_native (take 4 v))) in
  {| ipv4 := {| Address := addr4 0x1E (Address (ipv4 cfg)); Gateway := addr4 0x20 (Gateway (ipv4 cfg));
                SubnetMask := addr4 0x21 (SubnetMask (ipv4 cfg)); DnsPrimary := addr4 0x15 (DnsPrimary (ipv4 cfg));
                DnsSecondary := addr4 0x16 (DnsSecondary (ipv4 cfg));
                Mtu := if f =? IpFamilyV4 then mtu (Mtu (ipv4 cfg)) else Mtu (ipv4 cfg) |};
     ipv6 := {| Address6 := addr6 0x25 (Address6 (ipv6 cfg)); Gateway6 := addr6 0x26 (Gateway6 (ipv6 cfg));
                SubnetMask6 := SubnetMask6 (ipv6 cfg); DnsPrimary6 := addr6 0x27 (DnsPrimary6 (ipv6 cfg));
                DnsSecondary6 := addr6 0x28 (DnsSecondary6 (ipv6 cfg));
                PrefixLengthIPAddr := prefix 0x25 (PrefixLengthIPAddr (ipv6 cfg));
                PrefixLengthGateway := prefix 0x26 (PrefixLengthGateway (ipv6 cfg));
                Mtu6 := if f =? IpFamilyV4 then Mtu6 (ipv6 cfg) else mtu (Mtu6 (ipv6 cfg)) |};
     PCSCFIpv4 := tlv_or ts 0x23 (pcscf_of 4 (PCSCFIpv4 cfg)) (PCSCFIpv4 cfg);
     PCSCFIpv6 := tlv_or ts 0x2e (pcscf_of 16 (PCSCFIpv6 cfg)) (PCSCFIpv6 cfg) |}.

Lemma tlv_value_min ts type v : runtime_wf ts -> tlv_value ts type = Some v -> min_len type v <= zlen v.
Proof.
  intros F. unfold tlv_value. destruct (find _ ts) as [x|] eqn:E; [|done]. intros [= <-].
  apply find_some in E as [Hx Ht]. apply Z.eqb_eq in Ht as <-. unfold runtime_wf in F. rewrite Forall_forall in F. by apply F, list_elem_of_In.
Qed.

Lemma lds_take m p v n : lds m p (zlen v) = Some v -> 0 <= n <= zlen v -> lds m p n = Some (take (Z.to_nat n) v).
Proof. intros H Hn. pose proof (lds_sub m p _ v 0 n H). rewrite Z.add_0_r in *. apply H0; lia. Qed.
Lemma ld32_take m p v : lds m p (zlen v) = Some v -> 4 <= zlen v -> ld32 m p = Some (dec_native (take 4 v)).
Proof. intros H Hn. unfold ld32. by rewrite (lds_take _ _ _ 4 H) by lia. Qed.
Lemma rd32_take m p v :
  lds m p (zlen v) = Some v -> 4 <= zlen v -> rd32 m p = Some (le32_to_cpu (dec_native (take 4 v))).
Proof. intros H Hn. unfold rd32. by rewrite (ld32_take _ _ v). Qed.
Lemma ld_nth m p v j : lds m p (zlen v) = Some v -> 0 <= j < zlen v -> ld m (p + j) = Some (nth (Z.to_nat j) v 0).
Proof.
  intros H Hj. rewrite <- (Z2Nat.id j) at 1 by lia. eapply lds_ld; [exact H|].
  rewrite nth_lookup. destruct (v !! Z.to_nat j) eqn:E; [done|].
  apply lookup_ge_None in E. unfold zlen in Hj. lia.
Qed.

Section Response.
Context (T cid tid Ty : Z) (ts : list tlv).
Context (F : Forall tlv_wf ts) (Hl : zlen (enc_tlvs ts) < 65529) (W : runtime_wf ts).

Lemma get_ipv4_spec w type old :
  type ∈ [0x15; 0x16; 0x20; 0x21; 0x1E] ->
  get_ipv4 (response T cid tid Ty 0 0 ts) type old w =
  Some (tlv_or ts type (fun v => dec_native (take 4 v)) old, w).
Proof.
  intros Hin. apply (if_tlv_response _ _ _ _ _ _ _ _ _ (fun m p => lift (ld32 m (p + 3)))); try done.
  1,2: set_unfold; lia.
  intros m p v Hv H _. pose proof (tlv_value_min _ _ _ W Hv) as Hm.
  rewrite (ld32_take m (p + 3) v); [done | done |].
  revert Hm. set_unfold. destruct_or! Hin; subst type; done.
Qed.

Lemma get_ipv6_spec w type old :
  type ∈ [0x25; 0x26; 0x27; 0x28] ->
  get_ipv6 (response T cid tid Ty 0 0 ts) type old w = Some (tlv_or ts type (take 16) old, w).
Proof.
  intros Hin. apply (if_tlv_response _ _ _ _ _ _ _ _ _ (fun m p => lift (lds m (p + 3) 16))); try done.
  1,2: set_unfold; lia.
  intros m p v Hv H _. pose proof (tlv_value_min _ _ _ W Hv) as Hm.
  assert (16 <= zlen v).
  { set_unfold. destruct_or! Hin; subst type; (exact Hm || (change (17 <= zlen v) in Hm; lia)). }
  rewrite (lds_take m (p + 3) v 16); [done | done | lia].
Qed.

Lemma get_prefix_spec w type old :
  type ∈ [0x25; 0x26] ->
  get_prefix (response T cid tid Ty 0 0 ts) type old w = Some (tlv_or ts type (fun v => nth 16 v 0) old, w).
Proof.
  intros Hin. apply (if_tlv_response _ _ _ _ _ _ _ _ _ (fun m p => lift (ld m (p + 19)))); try done.
  1,2: set_unfold; lia.
  intros m p v Hv H _. pose proof (tlv_value_min _ _ _ W Hv) as Hm.
  assert (17 <= zlen v) by (set_unfold; destruct_or! Hin; subst type; exact Hm).
  replace (p + 19) with (p + 3 + 16) by lia. rewrite (ld_nth m (p + 3) v 16); [done | done | lia].
Qed.

Lemma get_pcscf_spec w type n old :
  (type = 0x2e /\ n = 16%nat) \/ (type = 0x23 /\ n = 4%nat) ->
  get_pcscf (response T cid tid Ty 0 0 ts) type (Z.of_nat n) old w =
  Some (tlv_or ts type (pcscf_of n old) old, w).
Proof.
  intros Hin. unfold get_pcscf.
  apply (if_tlv_response _ _ _ _ _ _ _ _ _ (fun m => read_pcscf m (Z.of_nat n) old)); try done; try lia.
  intros m p v Hv H _. pose proof (tlv_value_min _ _ _ W Hv) as Hm.
  assert (Hm2 : 1 + Z.of_nat n * pcscf_count v <= zlen v).
  { destruct Hin as [[-> ->] | [-> ->]]; exact Hm. }
  destruct v as [|b v']; [change (pcscf_count []) with 0 in Hm2; change (zlen (@nil Z)) with 0 in Hm2; lia|]. clear Hm.
  pose proof (zlen_nonneg v') as Hz. pose proof (ld_nth m (p + 3) (b :: v') 0 H) as H0. rewrite Z.add_0_r in H0.
  change (Z.to_nat 0) with 0%nat in H0. cbn [nth] in H0.
  rewrite zlen_cons in *. unfold read_pcscf, mbind, M_bind. rewrite H0 by lia. mstep.
  unfold pcscf_of, pcscf_count in *. destruct (Z.eqb_spec b 1) as [->|N1]; cbn [orb] in *.
  - change (1 =? 1) with true. cbv iota.
    pose proof (lds_sub m (p + 3) _ _ 1 (Z.of_nat n) H) as H1. replace (p + 4) with (p + 3 + 1) by lia.
    rewrite H1 by lia. by rewrite Nat2Z.id.
  - destruct (Z.eqb_spec b 2) as [->|N2]; [|done]. change (2 =? 1) with false. change (2 =? 2) with true. cbv iota.
    pose proof (lds_sub m (p + 3) _ _ 1 (Z.of_nat n) H) as H1.
    pose proof (lds_sub m (p + 3) _ _ (1 + Z.of_nat n) (Z.of_nat n) H) as H2.
    replace (p + 4 + Z.of_nat n) with (p + 3 + (1 + Z.of_nat n)) by lia. replace (p + 4) with (p + 3 + 1) by lia.
    rewrite H1, H2 by lia. rewrite Nat2Z.id. replace (Z.to_nat (1 + Z.of_nat n)) with (1 + n)%nat by lia. done.
Qed.
End Response.
End Runtime.

Section Addresses.
Context {host : Host} {heap : Heap} {modem : Modem}.

Lemma read_runtime_spec T cid tid Ty ts cfg f w :
  Forall tlv_wf ts -> zlen (enc_tlvs ts) < 65529 -> runtime_wf ts ->
  read_runtime (response T cid tid Ty 0 0 ts) cfg f w = Some (runtime_spec ts cfg f, w).
Proof.
  intros F Hl W. unfold read_runtime. change 16 with (Z.of_nat 16) at 1. change 4 with (Z.of_nat 4) at 1.
  do 2 (erewrite bind_step by (apply get_pcscf_spec; auto)).
  do 5 (erewrite bind_step by (apply get_ipv4_spec; [assumption..|set_solver])).
  do 3 (erewrite bind_step by (apply get_ipv6_spec; [assumption..|set_solver])).
  erewrite bind_step by (apply get_prefix_spec; [assumption..|set_solver]).
  erewrite bind_step by (apply get_ipv6_spec; [assumption..|set_solver]).
  erewrite bind_step by (apply get_prefix_spec; [assumption..|set_solver]).
  erewrite bind_step.
  2:{ apply (if_tlv_response _ _ _ _ _ _ _ _ _ (fun m p => lift (rd32 m (p + 3))) (fun v => le32_to_cpu (dec_native (take 4 v))));
        [done | done | done | done |].
      intros m p v Hv H _. rewrite (rd32_take m (p + 3) v); [done | done |]. exact (tlv_value_min _ _ _ W Hv). }
  unfold runtime_spec, tlv_or. by destruct (f =? IpFamilyV4), (tlv_value ts 0x29).
Qed.
End Addresses.

(** When a call is up, [requestGetIPAddress] sends one runtime-settings request and the profile then
    holds exactly what the response says: every address, prefix, MTU and P-CSCF entry present is taken
    over, each absent IPv4 or IPv6 item of the family asked for is zero, everything else is unchanged. *)
Theorem requestGetIPAddress_correct {host : Host} {heap : Heap} {modem : Modem} w cfg f cid tid ts :
  let r := msg_of w (wds_type f) cid 0x2D [(0x10, enc32 (cpu_to_le32 0x2310 .| 0x800 .| 0x4000))] in
  f = IpFamilyV4 \/ f = IpFamilyV6 -> client w (wds_type f) cid -> get_handle (wg w) f <> 0 ->
  malloc_ok 20 = true -> answer (wsent w) r 30000 = (0, Some (response (wds_type f) cid tid 0x2D 0 0 ts)) ->
  Forall tlv_wf ts -> zlen (enc_tlvs ts) < 65529 -> runtime_wf ts ->
  requestGetIPAddress cfg f w = Some ((0, runtime_spec ts (clear_family cfg f) f), next w r).
Proof.
  intros r Hf Hc Hh Hm Ha F Hl W. unfold requestGetIPAddress. rewrite bind_gets. cbv zeta.
  assert (E : forall X Y Z : MW (Z * NetCfg),
    (if (f =? IpFamilyV4) && (WdsConnectionIPv4Handle (wg w) =? 0) then X else
     if (f =? IpFamilyV6) && (WdsConnectionIPv6Handle (wg w) =? 0) then Y else Z) = Z).
  { intros. apply Z.eqb_neq in Hh. destruct Hf as [-> | ->]; cbn in *; by rewrite Hh. }
  rewrite E. unfold QmiThreadSendQMI. change (30 * 1000) with 30000.
  rewrite (request_ok w _ _ _ [(0x10, enc32 (cpu_to_le32 0x2310 .| 0x800 .| 0x4000))] cid); [|done | | |].
  2:{ intros t. apply WdsGetRuntimeSettingReq_builds. }
  2,3: rewrite area_len_one; unfold enc32, native; cbn [snd]; destruct is_bigendian; (exact Hm || discriminate).
  fold r. cbv zeta. rewrite Ha. cbn [ptr_of Z.eqb Z.ltb Z.compare].
  destruct (response_rsp (wds_type f) cid tid 0x2D 0 0 ts) as [E1 E2]; [split; done..|].
  rewrite E1, E2, !bind_lift. cbn [Z.eqb negb orb].
  erewrite bind_step by (by apply read_runtime_spec). done.
Qed.

Definition cfg_zero : NetCfg :=
  {| ipv4 := ipv4_zero; ipv6 := ipv6_zero; PCSCFIpv4 := (replicate 4 0, replicate 4 0);
     PCSCFIpv6 := (replicate 16 0, replicate 16 0) |}.
Definition world_call (h : Z) : World := world_init (set_handle (globals_client 3 0) IpFamilyV4 h).

Theorem requestGetIPAddress_correct_witness :
  let rsp := response QMUX_TYPE_WDS 3 9 0x2D 0 0 [(0x1E, [1; 0; 0; 10]); (0x23, [1; 9; 8; 7; 6]); (0x29, [0xDC; 5; 0; 0])] in
  exists cfg w, requestGetIPAddress (heap := any_heap) (modem := fixed_modem rsp) cfg_zero IpFamilyV4 (world_call 7) =
    Some ((0, cfg), w) /\ Address (ipv4 cfg) = 0x0A000001 /\ Mtu (ipv4 cfg) = 1500 /\ fst (PCSCFIpv4 cfg) = [9; 8; 7; 6].
Proof.
  set (rsp := response _ _ _ _ _ _ _). cbv zeta. eexists _, _. split.
  - apply (requestGetIPAddress_correct (heap := any_heap) (modem := fixed_modem rsp) (world_call 7) cfg_zero IpFamilyV4 3 9
      [(0x1E, [1; 0; 0; 10]); (0x23, [1; 9; 8; 7; 6]); (0x29, [0xDC; 5; 0; 0])]).
    + by left.
    + repeat split; discriminate || reflexivity.
    + discriminate.
    + reflexivity.
    + reflexivity.
    + repeat constructor; discriminate || reflexivity.
    + reflexivity.
    + repeat constructor; vm_compute; discriminate.
  - vm_compute. auto.
Defined.

(** The status a response reports: TLV 1 when present, unless it asks for reconfiguration. *)
Definition status_of (ts : list tlv) : Z :=
  match tlv_value ts 0x01 with
  | Some [s; 1] => QWDS_PKT_DATA_DISCONNECTED
  | Some (s :: _) => s
  | _ => QWDS_PKT_DATA_DISCONNECTED
  end.

(** A successful status query returns the reported status (a two-byte TLV asking for
    reconfiguration counts as disconnected, a missing one too), publishes it in the status
    record, and forgets the handle of that family - and of no other - exactly when it is disconnected. *)
Theorem requestQueryDataCall_correct {host : Host} {heap : Heap} {modem : Modem} w old f cid tid ts :
  let r := msg_of w (wds_type f) cid 0x22 [] in
  client w (wds_type f) cid -> malloc_ok 13 = true ->
  answer (wsent w) r 30000 = (0, Some (response (wds_type f) cid tid 0x22 0 0 ts)) ->
  Forall tlv_wf ts -> zlen (enc_tlvs ts) < 65529 -> tlv_value ts 0x01 <> Some [] ->
  exists w', requestQueryDataCall old f w = Some ((0, status_of ts), w') /\
    wsent w' = wsent w ++ [r] /\ conn_status (wcm w') = status_of ts /\
    forall f', get_handle (wg w') f' =
      if eqb (f =? IpFamilyV4) (f' =? IpFamilyV4) && (status_of ts =? QWDS_PKT_DATA_DISCONNECTED) then 0
      else get_handle (wg w) f'.
Proof.
  intros r Hc Hm Ha F Hl Hne. unfold requestQueryDataCall. erewrite bind_step.
  2:{ rewrite compose_plain. apply compose_ok; [done | intros; apply plain_builds | done | done]. }
  fold r. unfold QmiThreadSendQMI, QmiThreadSendQMITimeout. change (30 * 1000) with 30000.
  erewrite bind_step; [|cbn [wsent set_wg]; rewrite Ha; reflexivity]. cbn [Z.eqb Z.ltb Z.compare].
  fold (next w r). destruct (response_rsp (wds_type f) cid tid 0x22 0 0 ts) as [E1 E2]; [split; done..|].
  rewrite E1, E2, !bind_lift. cbn [Z.eqb negb orb].
  pose proof (get_tlv_response (wds_type f) cid tid 0x22 0 0 ts 0x01 (next w r) F Hl ltac:(done) ltac:(done)) as H.
  set (m := response _ _ _ _ _ _ _) in *.
  assert (Hend : forall s w0, (when (s =? QWDS_PKT_DATA_DISCONNECTED)
         (modify (fun w => set_wg w (set_handle (wg w) f 0)));;
       modify (fun w => set_wcm w (cm_write (wcm w) s));; mret (0, s)) w0 =
    Some ((0, s), set_wcm (if s =? QWDS_PKT_DATA_DISCONNECTED then set_wg w0 (set_handle (wg w0) f 0) else w0)
                    (cm_write (wcm w0) s))).
  { intros s w0. unfold when, QWDS_PKT_DATA_DISCONNECTED. by destruct (s =? 1). }
  exists (set_wcm (if status_of ts =? QWDS_PKT_DATA_DISCONNECTED
                   then set_wg (next w r) (set_handle (wg (next w r)) f 0) else next w r)
            (cm_write (wcm (next w r)) (status_of ts))).
  split; [|split_and!].
  - rewrite <- Hend. unfold status_of in *. destruct (tlv_value ts 0x01) as [v|]; [|by erewrite bind_step by exact H].
    destruct H as (p & -> & H1 & H2) || (destruct H as (p & E & H1 & H2); erewrite bind_step by exact E).
    destruct v as [|s v]; [done|]. pose proof (lds_ld _ _ _ _ 0 s H2 eq_refl) as L0. rewrite Z.add_0_r in L0.
    unfold lift, mbind, M_bind. rewrite L0, H1. rewrite zlen_cons. pose proof (zlen_nonneg v) as Hv. destruct v as [|b [|c v]].
    + reflexivity.
    + pose proof (lds_ld _ _ _ _ 1 b H2 eq_refl) as L1. replace (p + 3 + Z.of_nat 1) with (p + 4) in L1 by lia.
      change (1 + zlen [b] =? 2) with true. cbv iota. rewrite L1. unfold mret, M_ret.
      destruct (Z.eqb_spec b 1) as [->|]; [done|]. by destruct b as [|[]|].
    + rewrite !zlen_cons in *. pose proof (zlen_nonneg v). rewrite (proj2 (Z.eqb_neq _ 2)) by lia.
      unfold mret, M_ret. by destruct b as [|[]|].
  - by destruct (status_of ts =? _).
  - done.
  - intros f'. destruct (status_of ts =? _); cbn [wg set_wcm set_wg]; [rewrite get_set_handle|];
      rewrite ?andb_true_r, ?andb_false_r; done.
Qed.

Theorem requestQueryDataCall_correct_witness :
  let rsp := response QMUX_TYPE_WDS 3 9 0x22 0 0 [(0x01, [2; 1])] in
  exists w', requestQueryDataCall (heap := any_heap) (modem := fixed_modem rsp) 2 IpFamilyV4 (world_call 7) =
    Some ((0, QWDS_PKT_DATA_DISCONNECTED), w') /\ get_handle (wg w') IpFamilyV4 = 0.
Proof.
  set (rsp := response _ _ _ _ _ _ _). cbv zeta.
  destruct (requestQueryDataCall_correct (heap := any_heap) (modem := fixed_modem rsp) (world_call 7) 2 IpFamilyV4 3 9
    [(0x01, [2; 1])]) as (w' & E & _ & _ & H).
  - repeat split; discriminate || reflexivity.
  - reflexivity.
  - reflexivity.
  - repeat constructor; discriminate || reflexivity.
  - reflexivity.
  - discriminate.
  - exists w'. split; [exact E | exact (H IpFamilyV4)].
Defined.

Section Rejected.
Context {host : Host} {heap : Heap} {modem : Modem}.

(** A start request the modem rejects: the code frees the response and then reads the error code out of it,
    so the call has undefined behaviour whatever the modem's codes. *)
Theorem setup_rejected_use_after_free w profile f cid m r e :
  let ts := start_tlvs (wg w) (with_curIpFamily profile f) in
  client w (wds_type f) cid -> area_len ts <= 243 -> malloc_ok (13 + area_len ts) = true ->
  answer (wsent w) (msg_of w (wds_type f) cid 0x20 ts) 120000 = (0, Some m) -> is_rsp m r e -> r <> 0 \/ e <> 0 ->
  requestSetupDataCall profile f w = None.
Proof.
  intros ts Hc Hl Hm Ha (E1 & E2) Hne. unfold requestSetupDataCall. change (120 * 1000) with 120000.
  erewrite (request_ok w _ _ _ ts cid); [|done | intros t; by apply WdsStartNwInterfaceReq_builds | done | done].
  cbv zeta. rewrite Ha. cbn [ptr_of Z.eqb Z.ltb Z.compare]. rewrite E1, E2, !bind_lift.
  replace (negb (r =? 0) || negb (e =? 0)) with true.
  2:{ symmetry. apply orb_true_iff. rewrite !negb_true_iff, !Z.eqb_neq. done. }
  unfold mbind at 1, M_bind at 1. by destruct (log_call_end m _) as [[[] w']|].
Qed.

(** When the modem closes the exchange without a response (the reader reports the end of the channel, so the
    wait succeeds and the response is NULL), the requests return the wait's 0: a start request, a
    stop request and an address query report success although nothing was done. *)
Theorem null_response_is_success w profile f cid cfg :
  let ts := start_tlvs (wg w) (with_curIpFamily profile f) in
  (forall hist r ms, answer hist r ms = (0, None)) -> f = IpFamilyV4 \/ f = IpFamilyV6 ->
  client w (wds_type f) cid -> area_len ts <= 243 -> (forall n, malloc_ok n = true) -> get_handle (wg w) f <> 0 ->
  (exists w', requestSetupDataCall profile f w = Some (0, w') /\ get_handle (wg w') f = get_handle (wg w) f) /\
  (exists w', requestDeactivateDefaultPDP f w = Some (0, w') /\ get_handle (wg w') f = get_handle (wg w) f) /\
  (exists w', requestGetIPAddress cfg f w = Some ((0, clear_family cfg f), w')).
Proof.
  intros ts Ha Hf Hc Hl Hm Hh.
  assert (E : forall A (X Y Z : MW A),
    (if (f =? IpFamilyV4) && (WdsConnectionIPv4Handle (wg w) =? 0) then X else
     if (f =? IpFamilyV6) && (WdsConnectionIPv6Handle (wg w) =? 0) then Y else Z) = Z).
  { intros. apply Z.eqb_neq in Hh. destruct Hf as [-> | ->]; cbn in *; by rewrite Hh. }
  assert (Hn : forall r f', get_handle (wg (next w r)) f' = get_handle (wg w) f') by done.
  split_and!.
  - unfold requestSetupDataCall.
    erewrite (request_ok w _ _ _ ts cid); [|done | intros t; by apply WdsStartNwInterfaceReq_builds | done | done].
    cbv zeta. rewrite Ha. by eexists.
  - unfold requestDeactivateDefaultPDP. rewrite bind_gets, E. unfold QmiThreadSendQMI.
    rewrite (request_ok w _ _ _ [(0x01, le32 (get_handle (wg w) f))] cid); [|done | | done | apply Hm].
    2:{ intros t. apply WdsStopNwInterfaceReq_builds. }
    cbv zeta. rewrite Ha. by eexists.
  - unfold requestGetIPAddress. rewrite bind_gets. cbv zeta. rewrite E. unfold QmiThreadSendQMI.
    rewrite (request_ok w _ _ _ [(0x10, enc32 (cpu_to_le32 0x2310 .| 0x800 .| 0x4000))] cid); [|done | | |apply Hm].
    2:{ intros t. apply WdsGetRuntimeSettingReq_builds. }
    2:{ rewrite area_len_one; unfold enc32, native; cbn [snd]; destruct is_bigendian; discriminate. }
    cbv zeta. rewrite Ha. by eexists.
Qed.
End Rejected.

Theorem setup_rejected_use_after_free_witness :
  let rsp := response QMUX_TYPE_WDS 3 9 0x20 1 14 [(0x10, [8; 0])] in
  requestSetupDataCall (heap := any_heap) (modem := fixed_modem rsp) profile_sample IpFamilyV4 world_sample = None.
Proof.
  set (rsp := response _ _ _ _ _ _ _). cbv zeta.
  apply (setup_rejected_use_after_free (heap := any_heap) (modem := fixed_modem rsp) world_sample profile_sample IpFamilyV4 3 rsp 1 14).
  - repeat split; discriminate || reflexivity.
  - vm_compute. discriminate.
  - reflexivity.
  - reflexivity.
  - split; vm_compute; reflexivity.
  - left. discriminate.
Defined.

Definition silent_modem : Modem := {| answer _ _ _ := (0, None) |}.

Theorem null_response_is_success_witness :
  exists w', requestDeactivateDefaultPDP (heap := any_heap) (modem := silent_modem) IpFamilyV4 (world_call 7) = Some (0, w') /\
    get_handle (wg w') IpFamilyV4 = 7.
Proof.
  refine (proj1 (proj2 (null_response_is_success (heap := any_heap) (modem := silent_modem) (world_call 7) profile_sample
    IpFamilyV4 3 cfg_zero _ _ _ _ _ _))).
  - done.
  - by left.
  - repeat split; discriminate || reflexivity.
  - vm_compute. discriminate.
  - done.
  - discriminate.
Defined.
