(* ===== verification/QmiEth.v ===== *)
(** * What [requestSetEthMode] sends, and its freed response variable. *)
From S2P Require Import Prelude Util QmiMsg Compose Cm Monad QmiRequests QmiCall.
#[local] Open Scope Z_scope.
#[local] Open Scope c_scope.

(** A request: service, client, message and TLVs; the requests of a plan get consecutive identifiers. *)
Record req := { q_type : Z; q_client : Z; q_msg : Z; q_tlvs : list tlv }.
Fixpoint plan_msgs (g : Globals) (l : list req) : list bytes :=
  match l with
  | [] => []
  | q :: l => enc_qmux (q_type q) (q_client q .& 0xFF) 0 (fst (GetQMUXTransactionId g)) (q_msg q) (enc_tlvs (q_tlvs q))
              :: plan_msgs (snd (GetQMUXTransactionId g)) l
  end.

Definition bind_tlvs (q : QMAP_SETTING) : list tlv :=
  [(0x10, le32 (ep_type q) ++ le32 (iface_id q)); (0x11, [u8 (MuxId q)]); (0x13, le32 1)].

(** [cw], [c6] and [ca] are the clients of WDS, of WDS for IPv6 and of WDS-admin. *)
Definition family_plan (T c f : Z) (e : ETH_T) (q : QMAP_SETTING) : list req :=
  (if has_qmapnet_adapter e then [{| q_type := T; q_client := c; q_msg := 0xA2; q_tlvs := bind_tlvs q |}] else []) ++
  [{| q_type := T; q_client := c; q_msg := 0x4D; q_tlvs := [(1, [f])] |}].
Definition tail_plan (profile : PROFILE_T) (e : ETH_T) (q : QMAP_SETTING) (cw c6 : Z) : list req :=
  (if enable_ipv4 profile =? 0 then [] else family_plan QMUX_TYPE_WDS cw IpFamilyV4 e q) ++
  (if enable_ipv6 profile =? 0 then [] else family_plan QMUX_TYPE_WDS_IPV6 c6 IpFamilyV6 e q) ++
  [{| q_type := QMUX_TYPE_WDS; q_client := cw; q_msg := 0x51; q_tlvs := [(1, [0])] |}].

(** The data format is set here only when no driver or proxy does it. *)
Definition sets_format (e : ETH_T) : bool :=
  (qmap_mode e =? 0) || (negb (qmidev_is_gobinet (qmichannel e)) && negb (1 <? qmap_mode e)).

Section Eth.
Context {host : Host} {heap : Heap} {modem : Modem}.

Definition accepts : Prop := forall hist r ms, exists T cid tid Ty, answer hist r ms = (0, Some (response T cid tid Ty 0 0 [])).

(** A state reached by sending the plan [l] from [w]. *)
Definition sent_plan (w : World) (l : list req) (w' : World) : Prop :=
  wsent w' = wsent w ++ plan_msgs (wg w) l /\ wdriver w' = wdriver w.

Lemma sent_plan_refl w : sent_plan w [] w.
Proof. split; [|done]. by rewrite app_nil_r. Qed.
Lemma sent_plan_cons w q l w' :
  sent_plan (next w (msg_of w (q_type q) (q_client q) (q_msg q) (q_tlvs q))) l w' -> sent_plan w (q :: l) w'.
Proof. intros [E1 E2]. split; [|done]. rewrite E1. cbn. by rewrite <- app_assoc. Qed.

Context (Hacc : accepts) (Hmal : forall n, malloc_ok n = true).
Context (ids : list Z).

(** With the clients [ids] the continuation [k] succeeds and sends [l], whatever its response variable. *)
Definition sends (k : ptr -> MW Z) (l : list req) : Prop :=
  forall w p, qmiclientId (wg w) = ids -> exists w', k p w = Some (0, w') /\ sent_plan w l w'.
Definition has_client (T cid : Z) : Prop := ids !! Z.to_nat T = Some cid /\ cid <> 0 /\ is_byte T.

(** A request that is accepted, whether or not the code checks the answer. *)
Lemma step_sends T Ty f ts cid k l :
  has_client T cid -> (forall g, builds g f ts) -> area_len ts <= 243 -> sends k l ->
  let q := {| q_type := T; q_client := cid; q_msg := Ty; q_tlvs := ts |} in
  sends (fun p => r ← compose T Ty (Some f); eth_checked r p k) (q :: l) /\
  (sends (fun p => r ← compose T Ty (Some f); eth_unchecked r p k) (q :: l)).
Proof.
  intros (H1 & H2 & H3) Hb Hl Hk q. split; intros w p Hids;
    assert (Hc : client w T cid) by (split_and!; [rewrite Hids|..]; done);
    unfold eth_checked, eth_unchecked, QmiThreadSendQMI; rewrite (request_ok w T Ty f ts cid) by auto; cbv zeta;
    destruct (Hacc (wsent w) (msg_of w T cid Ty ts) (30 * 1000)) as (T' & c' & t' & Ty' & ->);
    cbn [ptr_of Z.eqb]; (destruct (Hk (next w (msg_of w T cid Ty ts)) Wild Hids) as (w' & E & S));
    exists w'; (split; [|by apply sent_plan_cons]).
  - rewrite check_ok; [exact E | done | apply response_rsp; split; done].
  - exact E.
Qed.

Lemma bind_sends T cid e q k l :
  has_client T cid -> sends k l ->
  sends (fun p => eth_bind T e q p k)
    ((if has_qmapnet_adapter e then [{| q_type := T; q_client := cid; q_msg := 0xA2; q_tlvs := bind_tlvs q |}] else []) ++ l).
Proof.
  intros Hc Hk. unfold eth_bind. destruct (has_qmapnet_adapter e); [|exact Hk].
  apply step_sends; [done | intros; apply WdsSetQMUXBindMuxDataPort_builds | done | done].
Qed.

Lemma auto_sends cw :
  has_client QMUX_TYPE_WDS cw ->
  sends eth_auto [{| q_type := QMUX_TYPE_WDS; q_client := cw; q_msg := 0x51; q_tlvs := [(1, [0])] |}].
Proof.
  intros Hc. apply step_sends; [done | intros; apply WdsSetAutoConnect_builds | done |].
  intros w p _. exists w. split; [done | apply sent_plan_refl].
Qed.

Lemma tail_sends profile e q cw c6 :
  has_client QMUX_TYPE_WDS cw -> (enable_ipv6 profile <> 0 -> has_client QMUX_TYPE_WDS_IPV6 c6) ->
  sends (eth_tail profile e q) (tail_plan profile e q cw c6).
Proof.
  intros Hw H6. assert (S6 : sends (eth_ipv6 profile e q)
    ((if enable_ipv6 profile =? 0 then [] else family_plan QMUX_TYPE_WDS_IPV6 c6 IpFamilyV6 e q) ++
     [{| q_type := QMUX_TYPE_WDS; q_client := cw; q_msg := 0x51; q_tlvs := [(1, [0])] |}])).
  { unfold eth_ipv6. destruct (Z.eqb_spec (enable_ipv6 profile) 0); [by apply auto_sends|].
    unfold family_plan. rewrite <- app_assoc. apply bind_sends; [auto|].
    apply step_sends; [auto | intros; apply WdsSetClientIPFamilyPref_builds | done | by apply auto_sends]. }
  unfold eth_tail, tail_plan. destruct (enable_ipv4 profile =? 0); [exact S6|].
  unfold family_plan at 1. rewrite <- app_assoc. apply bind_sends; [done|].
  apply step_sends; [done | intros; apply WdsSetClientIPFamilyPref_builds | done | exact S6].
Qed.
End Eth.

Section Format.
Context {host : Host} {heap : Heap} {modem : Modem}.

Lemma no_tlv {A} T cid tid Ty type (old : A) k w :
  type <> 2 -> type <= 0x1000 -> if_tlv (response T cid tid Ty 0 0 []) type old k w = Some (old, w).
Proof.
  intros H1 H2. unfold if_tlv.
  pose proof (get_tlv_response T cid tid Ty 0 0 [] type w ltac:(constructor) ltac:(done) H1 H2) as H.
  cbn in H. by erewrite bind_step by exact H.
Qed.

(** An answer without TLVs changes nothing; the driver is told when aggregation is on. *)
Lemma read_format_empty T cid tid Ty e q w :
  eth_read_format (response T cid tid Ty 0 0 []) e q w =
  Some ((e, q), if 1 <? ul_data_aggregation_max_datagrams q then push_driver w q else w).
Proof.
  unfold eth_read_format. erewrite bind_step by (by apply no_tlv). cbv beta iota. rewrite bind_ret.
  erewrite bind_step; [|destruct (qmap_mode e =? 0); [reflexivity | by apply no_tlv]].
  destruct (Z.eqb_spec (ul_data_aggregation_max_datagrams q) 0) as [E|E].
  - destruct q as [a b c d dg f g]. cbn in *. subst dg. reflexivity.
  - do 3 (erewrite bind_step by (by apply no_tlv)). cbv zeta.
    destruct q as [a b c d dg f g]. cbn. by destruct (1 <? dg).
Qed.
End Format.

(** With a modem that accepts everything [requestSetEthMode] sends, in this order, the data
    format (only when neither a GobiNet driver nor the proxy of a multiplexed device does it), then for each
    enabled family the port binding (only with a QMAP adapter) and the family preference, on the family's own
    service, and last the auto-connect setting; the driver gets the aggregation settings only with the format. *)
Theorem requestSetEthMode_sends {host : Host} {heap : Heap} {modem : Modem} profile e w cw c6 ca :
  let '(e', g) := eth_prepare e (wg w) in
  let q := eth_qmap_settings e' in
  accepts -> (forall n, malloc_ok n = true) ->
  client w QMUX_TYPE_WDS cw -> (enable_ipv6 profile <> 0 -> client w QMUX_TYPE_WDS_IPV6 c6) ->
  (sets_format e = true -> client w QMUX_TYPE_WDS_ADMIN ca) ->
  exists w', requestSetEthMode profile e w = Some ((0, e'), w') /\
    wsent w' = wsent w ++ plan_msgs g
      ((if sets_format e then [{| q_type := QMUX_TYPE_WDS_ADMIN; q_client := ca; q_msg := 0x20; q_tlvs := wda_tlvs g q |}] else []) ++
       tail_plan profile e' q cw c6) /\
    wdriver w' = wdriver w ++ (if sets_format e && negb (qmap_mode e =? 0) then [q] else []).
Proof.
  destruct (eth_prepare e (wg w)) as [e' g] eqn:Ep. intros q Hacc Hmal Hw H6 Ha.
  assert (Hids : qmiclientId g = qmiclientId (wg w) /\ qmichannel e' = qmichannel e /\ qmap_mode e' = qmap_mode e).
  { unfold eth_prepare in Ep. by destruct (qmap_mode e =? 0); injection Ep as <- <-. }
  destruct Hids as (Hids & Hch & Hmo).
  pose proof (tail_sends Hacc Hmal (qmiclientId (wg w)) profile e' q cw c6 Hw H6) as S.
  unfold requestSetEthMode. rewrite Ep. fold q. rewrite Hch, Hmo.
  replace (negb (qmap_mode e =? 0) && (qmidev_is_gobinet (qmichannel e) || (1 <? qmap_mode e))) with (negb (sets_format e)).
  2:{ unfold sets_format. by destruct (qmap_mode e =? 0), (qmidev_is_gobinet _), (1 <? _). }
  destruct (sets_format e) eqn:Es; cbn [negb andb].
  - specialize (Ha eq_refl). unfold QmiThreadSendQMI.
    rewrite (request_ok (set_wg w g) _ _ _ (wda_tlvs g q) ca); [|by unfold client; cbn; rewrite Hids| | |by auto].
    2:{ intros t. exact (WdaSetDataFormat_builds (set_TransactionId g t) q). }
    2:{ unfold wda_tlvs. by destruct (rx_urb_size q =? 0), (ul_data_aggregation_max_datagrams q =? 0). }
    cbv zeta. set (r := msg_of _ _ _ _ _). set (w1 := next _ r).
    destruct (Hacc (wsent (set_wg w g)) r (30 * 1000)) as (T' & c' & t' & Ty' & ->). cbn [ptr_of Z.eqb Z.ltb Z.compare].
    destruct (response_rsp T' c' t' Ty' 0 0 []) as [E1 E2]; [split; done..|]. rewrite E1, E2, !bind_lift. cbn [Z.eqb negb orb].
    erewrite bind_step by apply read_format_empty. cbn [free]. rewrite bind_ret.
    set (w2 := if 1 <? _ then _ else w1).
    destruct (S w2 Wild) as (w' & E & W1 & W2); [unfold w2; by destruct (1 <? _)|]. exists w'.
    assert (Ew : wsent w2 = wsent w ++ [r] /\ wg w2 = snd (GetQMUXTransactionId g) :> Globals) by (unfold w2; by destruct (1 <? _)).
    destruct Ew as [Ew1 Ew2]. split_and!.
    + by erewrite bind_step by exact E.
    + rewrite W1, Ew1, Ew2. cbn. by rewrite <- app_assoc.
    + rewrite W2. unfold w2, q, eth_qmap_settings. rewrite Hmo.
      destruct (qmap_mode e =? 0); cbn; [by rewrite app_nil_r|]. by destruct (rmnet_size e' =? 0).
  - destruct (S (set_wg w g) Null) as (w' & E & W1 & W2); [done|]. exists w'. split_and!.
    + by erewrite bind_step by exact E.
    + done.
    + by rewrite W2, app_nil_r.
Qed.

(** When the data format was accepted but the program holds no WDS client, the request for the IPv4
    preference is NULL, the response variable still points to the freed response and is freed again. *)
Theorem requestSetEthMode_double_free {host : Host} {heap : Heap} {modem : Modem} profile e w ca :
  accepts -> (forall n, malloc_ok n = true) -> qmap_mode e = 0 -> has_qmapnet_adapter e = false ->
  enable_ipv4 profile <> 0 -> client w QMUX_TYPE_WDS_ADMIN ca -> qmiclientId (wg w) !! Z.to_nat QMUX_TYPE_WDS = Some 0 ->
  requestSetEthMode profile e w = None.
Proof.
  intros Hacc Hmal Hq Had H4 Ha Hw. unfold requestSetEthMode.
  assert (Ep : eth_prepare e (wg w) = (e, wg w)) by (unfold eth_prepare; by rewrite Hq).
  assert (Eq : eth_qmap_settings e = qmap_zero) by (unfold eth_qmap_settings; by rewrite Hq).
  rewrite Ep, Eq, Hq. cbn [Z.eqb negb andb]. unfold QmiThreadSendQMI.
  rewrite (request_ok (set_wg w (wg w)) _ _ _ (wda_tlvs (wg w) qmap_zero) ca); [|done| |done|by auto].
  2:{ intros t. exact (WdaSetDataFormat_builds (set_TransactionId (wg w) t) qmap_zero). }
  cbv zeta. set (r := msg_of _ _ _ _ _). set (w1 := next _ r).
  destruct (Hacc (wsent (set_wg w (wg w))) r (30 * 1000)) as (T' & c' & t' & Ty' & ->). cbn [ptr_of Z.eqb Z.ltb Z.compare].
  destruct (response_rsp T' c' t' Ty' 0 0 []) as [E1 E2]; [split; done..|]. rewrite E1, E2, !bind_lift. cbn [Z.eqb negb orb].
  erewrite bind_step by apply read_format_empty. cbn [free]. rewrite bind_ret. cbn [qmap_zero ul_data_aggregation_max_datagrams Z.ltb Z.compare].
  unfold eth_tail, eth_bind. rewrite (proj2 (Z.eqb_neq _ _) H4), Had. unfold eth_unchecked, QmiThreadSendQMI.
  unfold mbind at 1, M_bind at 1.
  rewrite (request_none w1); [done | exact Hw | split; done].
Qed.

Definition eth_sample (mode : Z) : ETH_T :=
  {| qmichannel := str "/dev/cdc-wdm0"; qmap_mode := mode; qmap_size := 4096; eth_qmap_version := 0; rawIP := 0;
     muxid := 0x81; has_qmapnet_adapter := negb (mode =? 0); rmnet_size := 0; rmnet_rx_urb_size := 0; rmnet_ep_type := 0;
     rmnet_iface_id := 0; rmnet_qmap_version := 0 |}.
Definition accepting_modem : Modem := fixed_modem (response 0 0 0 0 0 0 []).

Theorem requestSetEthMode_sends_witness :
  exists w', requestSetEthMode (heap := any_heap) (modem := accepting_modem) profile_sample (eth_sample 1) world_sample =
    Some ((0, fst (eth_prepare (eth_sample 1) (wg world_sample))), w') /\ length (wsent w') = 4%nat.
Proof.
  pose proof (requestSetEthMode_sends (heap := any_heap) (modem := accepting_modem) profile_sample (eth_sample 1) world_sample 3 3 3) as H.
  destruct H as (w' & E & S & _).
  - intros hist r ms. by exists 0, 0, 0, 0.
  - done.
  - repeat split; discriminate || reflexivity.
  - by intros [].
  - repeat split; discriminate || reflexivity.
  - exists w'. split; [exact E | rewrite S; reflexivity].
Defined.

Theorem requestSetEthMode_double_free_witness :
  let w := world_init {| qmiclientId := <[1%nat := 0]> (replicate 27 3); WdsConnectionIPv4Handle := 0; WdsConnectionIPv6Handle := 0;
     s_is_cdma := 0; s_hdr_personality := 0; s_9x07 := -1; qmap_version := 5; TransactionId := 8 |} in
  requestSetEthMode (heap := any_heap) (modem := accepting_modem) profile_sample (eth_sample 0) w = None.
Proof.
  cbv zeta. apply (requestSetEthMode_double_free (heap := any_heap) (modem := accepting_modem) profile_sample _ _ 3);
    try done.
  - intros hist r ms. by exists 0, 0, 0, 0.
Defined.
