(* ===== verification/QmiStatus.v ===== *)
(** * QMIThread.c: identity, SIM, registration and signal requests.
    Their results go to the status record of cm.c; the strings they hand over are NUL-terminated
    buffers, so the value written is the text before the NUL ([cstr]). *)
From S2P Require Import Prelude Util QmiMsg Compose Cm Monad QmiRequests Layout QmiStructs.
#[local] Open Scope Z_scope.
#[local] Open Scope c_scope.

Definition set_IMEI (w : World) (b : bytes) : World :=
  {| wg := wg w; wcm := wcm w; wsent := wsent w; wdriver := wdriver w;
     DeviceIMEI := b; DeviceICCID := DeviceICCID w; DeviceIMSI := DeviceIMSI w |}.
Definition set_ICCID (w : World) (b : bytes) : World :=
  {| wg := wg w; wcm := wcm w; wsent := wsent w; wdriver := wdriver w;
     DeviceIMEI := DeviceIMEI w; DeviceICCID := b; DeviceIMSI := DeviceIMSI w |}.
Definition set_IMSI (w : World) (b : bytes) : World :=
  {| wg := wg w; wcm := wcm w; wsent := wsent w; wdriver := wdriver w;
     DeviceIMEI := DeviceIMEI w; DeviceICCID := DeviceICCID w; DeviceIMSI := b |}.

(** [cm_status.x.write(...)] *)
Definition write_bb (devid imei : option bytes) : MW unit := fun w =>
  b ← bb_write (bb_status (wcm w)) devid imei; Some (tt, set_wcm w (set_bb (wcm w) b)).
Definition write_sim (stat iccid imsi : option bytes) : MW unit := fun w =>
  s ← sim_write (sim_status (wcm w)) stat iccid imsi; Some (tt, set_wcm w (set_sim (wcm w) s)).
Definition write_reg (country network attach : option Z) (cap : option bytes) (clas : Z) (sig : option bytes) : MW unit :=
  fun w => r ← reg_state_write (reg_status (wcm w)) country network attach cap clas sig;
           Some (tt, set_wcm w (set_reg (wcm w) r)).

Inductive SIM_Status := SIM_ABSENT | SIM_NOT_READY | SIM_READY | SIM_PIN | SIM_PUK | SIM_NETWORK_PERSONALIZATION | SIM_BAD.

(** The array of [requestGetSIMStatus] has no entry for [SIM_BAD]. *)
Definition SIM_Status_String (s : SIM_Status) : option bytes :=
  match s with
  | SIM_ABSENT => Some (str "SIM_ABSENT")
  | SIM_NOT_READY => Some (str "SIM_NOT_READY")
  | SIM_READY => Some (str "SIM_READY")
  | SIM_PIN => Some (str "SIM_PIN")
  | SIM_PUK => Some (str "SIM_PUK")
  | SIM_NETWORK_PERSONALIZATION => Some (str "SIM_NETWORK_PERSONALIZATION")
  | SIM_BAD => None
  end.

Definition QMI_PIN_STATUS_NOT_INIT : Z := 0.
Definition QMI_PIN_STATUS_NOT_VERIF : Z := 1.
Definition QMI_PIN_STATUS_VERIFIED : Z := 2.
Definition QMI_PIN_STATUS_DISABLED : Z := 3.
Definition QMI_PIN_STATUS_BLOCKED : Z := 4.
Definition QMI_PIN_STATUS_PERM_BLOCKED : Z := 5.

(** The decision of [requestGetSIMStatus] from the card and PIN states. *)
Definition sim_status_of (CardState PIN1State : Z) : SIM_Status :=
  if (CardState =? 1) && ((PIN1State =? QMI_PIN_STATUS_VERIFIED) || (PIN1State =? QMI_PIN_STATUS_DISABLED)) then SIM_READY
  else if CardState =? 1 then
    let s := if PIN1State =? QMI_PIN_STATUS_NOT_VERIF then SIM_PIN else SIM_ABSENT in
    if PIN1State =? QMI_PIN_STATUS_BLOCKED then SIM_PUK
    else if PIN1State =? QMI_PIN_STATUS_PERM_BLOCKED then SIM_BAD
    else if (PIN1State =? QMI_PIN_STATUS_NOT_INIT) || (PIN1State =? QMI_PIN_STATUS_VERIFIED) ||
            (PIN1State =? QMI_PIN_STATUS_DISABLED) then SIM_READY
    else s
  else SIM_ABSENT.

(** [s_9x07 && qmiclientId[QMUX_TYPE_UIM]] *)
Definition use_uim (g : Globals) : bool :=
  negb (s_9x07 g =? 0) &&
  match qmiclientId g !! Z.to_nat QMUX_TYPE_UIM with Some c => negb (c =? 0) | None => false end.

Definition hexdigit (n : Z) : Z := nth (Z.to_nat n) (str "0123456789ABCDEF") 0.

(** The digits are stored low nibble first. *)
Fixpoint iccid_loop (n : nat) (m : bytes) (content j : Z) (buf : bytes) : option (bytes * Z) :=
  match n with
  | O => Some (buf, j)
  | S n =>
      c ← ld m content;
      buf ← st8 buf j (hexdigit (c .& 0x0F));
      buf ← st8 buf (j + 1) (hexdigit ((c .& 0xF0) .>> 4));
      iccid_loop n m (content + 1) (j + 2) buf
  end.

(** [i] counts from 0; the first byte of the file is its length. *)
Fixpoint imsi_loop (n : nat) (m : bytes) (content i j : Z) (buf : bytes) : option (bytes * Z) :=
  match n with
  | O => Some (buf, j)
  | S n =>
      c ← ld m (content + i + 1);
      '(buf, j) ← (if i =? 0 then Some (buf, j)
                   else buf ← st8 buf j ((c .& 0x0F) + 0x30); Some (buf, j + 1));
      buf ← st8 buf j (((c .& 0xF0) .>> 4) + 0x30);
      imsi_loop n m content (i + 1) (j + 1) buf
  end.

(** *** CDMA country and network codes.  The arithmetic is on [unsigned int]. *)
Definition quectel_convert_cdma_mcc_2_ascii_mcc (mcc : Z) : Z :=
  let buf := u32 (mcc + 111) in
  if mcc =? 0x3FF then 3 else
  let d3 := buf mod 10 in
  let buf := if d3 =? 0 then u32 (buf - 10) / 10 else buf / 10 in
  let d2 := buf mod 10 in
  let buf := if d2 =? 0 then u32 (buf - 10) / 10 else buf / 10 in
  let d1 := if buf =? 10 then 0 else buf in
  if (d1 <? 10) && (d2 <? 10) && (d3 <? 10) then u16 (d1 * 100 + d2 * 10 + d3) else 0.

Definition quectel_convert_cdma_mnc_2_ascii_mnc (imsi_11_12 : Z) : Z :=
  let buf := u32 (imsi_11_12 + 11) in
  if imsi_11_12 =? 0x7F then 7 else
  let d2 := buf mod 10 in
  let buf := if d2 =? 0 then u32 (buf - 10) / 10 else buf / 10 in
  let d1 := if buf =? 10 then 0 else buf in
  if (d1 <? 10) && (d2 <? 10) then u16 (d1 * 10 + d2) else 0.

(** [atoi]: white space, a sign, digits. *)
Fixpoint atoi_digits (s : bytes) (acc : Z) : Z :=
  match s with
  | c :: s => if (0x30 <=? c) && (c <=? 0x39) then atoi_digits s (10 * acc + (c - 0x30)) else acc
  | [] => acc
  end.
Fixpoint atoi (s : bytes) : Z :=
  match s with
  | c :: t =>
      if (c =? 32) || ((9 <=? c) && (c <=? 13)) then atoi t
      else if c =? 0x2D then - atoi_digits t 0 else if c =? 0x2B then atoi_digits t 0 else atoi_digits s 0
  | [] => 0
  end.

(** Three bytes, where 0xFF (an unused digit) becomes the end of the string. *)
Definition char2ushort (b : bytes) : Z :=
  let temp := map (fun c => if c =? 0xFF then 0 else c) b ++ [0] in
  match cstr temp with Some s => u16 (atoi s) | None => 0 end.

Definition WWAN_DATA_CLASS_NONE : Z := 0x00000000.
Definition WWAN_DATA_CLASS_GPRS : Z := 0x00000001.
Definition WWAN_DATA_CLASS_EDGE : Z := 0x00000002.
Definition WWAN_DATA_CLASS_UMTS : Z := 0x00000004.
Definition WWAN_DATA_CLASS_HSDPA : Z := 0x00000008.
Definition WWAN_DATA_CLASS_HSUPA : Z := 0x00000010.
Definition WWAN_DATA_CLASS_LTE : Z := 0x00000020.
Definition WWAN_DATA_CLASS_5G_NSA : Z := 0x00000040.
Definition WWAN_DATA_CLASS_5G_SA : Z := 0x00000080.
Definition WWAN_DATA_CLASS_1XRTT : Z := 0x00010000.
Definition WWAN_DATA_CLASS_1XEVDO : Z := 0x00020000.
Definition WWAN_DATA_CLASS_1XEVDO_REVA : Z := 0x00040000.
Definition WWAN_DATA_CLASS_1XEVDV : Z := 0x00080000.
Definition WWAN_DATA_CLASS_3XRTT : Z := 0x00100000.
Definition WWAN_DATA_CLASS_1XEVDO_REVB : Z := 0x00200000.
Definition WWAN_DATA_CLASS_UMB : Z := 0x00400000.
Definition WWAN_DATA_CLASS_CUSTOM : Z := 0x80000000.

Definition class2str : list (Z * bytes) := [
  (WWAN_DATA_CLASS_NONE, str "UNKNOWN"); (WWAN_DATA_CLASS_GPRS, str "GPRS"); (WWAN_DATA_CLASS_EDGE, str "EDGE");
  (WWAN_DATA_CLASS_UMTS, str "UMTS"); (WWAN_DATA_CLASS_HSDPA, str "HSDPA"); (WWAN_DATA_CLASS_HSUPA, str "HSUPA");
  (WWAN_DATA_CLASS_LTE, str "LTE"); (WWAN_DATA_CLASS_5G_NSA, str "5G_NSA"); (WWAN_DATA_CLASS_5G_SA, str "5G_SA");
  (WWAN_DATA_CLASS_1XRTT, str "1XRTT"); (WWAN_DATA_CLASS_1XEVDO, str "1XEVDO");
  (WWAN_DATA_CLASS_1XEVDO_REVA, str "1XEVDO_REVA"); (WWAN_DATA_CLASS_1XEVDV, str "1XEVDV");
  (WWAN_DATA_CLASS_3XRTT, str "3XRTT"); (WWAN_DATA_CLASS_1XEVDO_REVB, str "1XEVDO_REVB");
  (WWAN_DATA_CLASS_UMB, str "UMB"); (WWAN_DATA_CLASS_CUSTOM, str "CUSTOM")].
Definition wwan_data_class2str (class : Z) : bytes :=
  match find (fun x : Z * bytes => x.1 =? class) class2str with
  | Some (_, s) => s
  | None => str "UNKNOWN"
  end.

(** *** System information: the local variables of [requestRegistrationState2]. *)
Definition DEVICE_CLASS_CDMA : Z := 1.
Definition DEVICE_CLASS_GSM : Z := 2.
Record SysInfo := {
  attached : Z; mcc : Z; mnc : Z; capstr : bytes; is_lte : Z; DeviceClass : Z; DataCapList : Z;
  endc_available_valid : Z; endc_available : Z; restrict_dcnr_valid : Z; restrict_dcnr : Z }.
Definition sysinfo_init : SysInfo :=
  {| attached := 0; mcc := 0; mnc := 0; capstr := str "UNKNOW"; is_lte := 0; DeviceClass := 0; DataCapList := 0;
     endc_available_valid := 0; endc_available := 0; restrict_dcnr_valid := 0; restrict_dcnr := 1 |}.
Definition with_class (s : SysInfo) (lte class caps : Z) : SysInfo :=
  {| attached := attached s; mcc := mcc s; mnc := mnc s; capstr := capstr s; is_lte := lte; DeviceClass := class;
     DataCapList := caps; endc_available_valid := endc_available_valid s; endc_available := endc_available s;
     restrict_dcnr_valid := restrict_dcnr_valid s; restrict_dcnr := restrict_dcnr s |}.
Definition with_net (s : SysInfo) (c n : Z) : SysInfo :=
  {| attached := attached s; mcc := c; mnc := n; capstr := capstr s; is_lte := is_lte s; DeviceClass := DeviceClass s;
     DataCapList := DataCapList s; endc_available_valid := endc_available_valid s; endc_available := endc_available s;
     restrict_dcnr_valid := restrict_dcnr_valid s; restrict_dcnr := restrict_dcnr s |}.
Definition with_attached (s : SysInfo) (a lte : Z) : SysInfo :=
  {| attached := a; mcc := mcc s; mnc := mnc s; capstr := capstr s; is_lte := lte; DeviceClass := DeviceClass s;
     DataCapList := DataCapList s; endc_available_valid := endc_available_valid s; endc_available := endc_available s;
     restrict_dcnr_valid := restrict_dcnr_valid s; restrict_dcnr := restrict_dcnr s |}.
Definition with_capstr (s : SysInfo) (c : bytes) : SysInfo :=
  {| attached := attached s; mcc := mcc s; mnc := mnc s; capstr := c; is_lte := is_lte s; DeviceClass := DeviceClass s;
     DataCapList := DataCapList s; endc_available_valid := endc_available_valid s; endc_available := endc_available s;
     restrict_dcnr_valid := restrict_dcnr_valid s; restrict_dcnr := restrict_dcnr s |}.
Definition with_5g (s : SysInfo) (ev e rv r : Z) : SysInfo :=
  {| attached := attached s; mcc := mcc s; mnc := mnc s; capstr := capstr s; is_lte := is_lte s;
     DeviceClass := DeviceClass s; DataCapList := DataCapList s; endc_available_valid := ev; endc_available := e;
     restrict_dcnr_valid := rv; restrict_dcnr := r |}.

Definition has_cap (caps c : Z) : bool := negb (caps .& c =? 0).

(** The capability string chosen after the loop; [hdr] is [s_hdr_personality]. *)
Definition cap_string (hdr : Z) (s : SysInfo) : bytes :=
  let caps := DataCapList s in
  let caps := if has_cap caps WWAN_DATA_CLASS_LTE && negb (endc_available_valid s =? 0) && negb (restrict_dcnr_valid s =? 0) &&
                 negb (endc_available s =? 0) && (restrict_dcnr s =? 0)
              then caps .| WWAN_DATA_CLASS_5G_NSA else caps in
  if DeviceClass s =? DEVICE_CLASS_CDMA then
    if hdr =? 2 then str "eHRPD"
    else if has_cap caps WWAN_DATA_CLASS_1XEVDO_REVB then wwan_data_class2str WWAN_DATA_CLASS_1XEVDO_REVB
    else if has_cap caps WWAN_DATA_CLASS_1XEVDO_REVA then wwan_data_class2str WWAN_DATA_CLASS_1XEVDO_REVA
    else if has_cap caps WWAN_DATA_CLASS_1XEVDO then wwan_data_class2str WWAN_DATA_CLASS_1XEVDO
    else if has_cap caps WWAN_DATA_CLASS_1XRTT then wwan_data_class2str WWAN_DATA_CLASS_1XRTT
    else if has_cap caps WWAN_DATA_CLASS_3XRTT then wwan_data_class2str WWAN_DATA_CLASS_3XRTT
    else if has_cap caps WWAN_DATA_CLASS_UMB then wwan_data_class2str WWAN_DATA_CLASS_UMB
    else capstr s
  else
    if has_cap caps WWAN_DATA_CLASS_5G_SA then wwan_data_class2str WWAN_DATA_CLASS_5G_SA
    else if has_cap caps WWAN_DATA_CLASS_5G_NSA then wwan_data_class2str WWAN_DATA_CLASS_5G_NSA
    else if has_cap caps WWAN_DATA_CLASS_LTE then wwan_data_class2str WWAN_DATA_CLASS_LTE
    else if has_cap caps WWAN_DATA_CLASS_HSDPA && has_cap caps WWAN_DATA_CLASS_HSUPA then str "HSDPA_HSUPA"
    else if has_cap caps WWAN_DATA_CLASS_HSDPA then wwan_data_class2str WWAN_DATA_CLASS_HSDPA
    else if has_cap caps WWAN_DATA_CLASS_HSUPA then wwan_data_class2str WWAN_DATA_CLASS_HSUPA
    else if has_cap caps WWAN_DATA_CLASS_UMTS then wwan_data_class2str WWAN_DATA_CLASS_UMTS
    else if has_cap caps WWAN_DATA_CLASS_EDGE then wwan_data_class2str WWAN_DATA_CLASS_EDGE
    else if has_cap caps WWAN_DATA_CLASS_GPRS then wwan_data_class2str WWAN_DATA_CLASS_GPRS
    else capstr s.

Section Status.
Context {host : Host} {heap : Heap} {modem : Modem}.

(** Compose, send with the default timeout, check: the common head of the requests. *)
Definition request (QMIType Ty : Z) (f : option CUSTOMQMUX) (k : bytes -> MW Z) : MW Z :=
  pRequest ← compose QMIType Ty f;
  '(err, pResponse) ← QmiThreadSendQMI pRequest Wild;
  qmi_rsp_check_and_return err pResponse k.

(** The TLV is used without testing the pointer. *)
Definition requestGetIMEI : MW Z :=
  request QMUX_TYPE_DMS 0x25 None (fun m =>
    pIMEI ← get_tlv m 0x11;
    match pIMEI with
    | None => undefined
    | Some p =>
        len ← lift (rd16 m (p + QCTLV_DEVICE_SERIAL_NUMBER∙"TLVLength"));
        v ← lift (lds m (p + QCTLV_DEVICE_SERIAL_NUMBER∙"SerialNumberString") len);
        old ← gets DeviceIMEI;
        buf ← lift (sts old 0 v);
        modify (fun w => set_IMEI w buf);;
        s ← lift (cstr buf);
        write_bb None (Some s);;
        mret 0
    end).

Definition pin_status_of (old : SIM_Status) (PINStatus : Z) : SIM_Status :=
  if PINStatus =? QMI_PIN_STATUS_NOT_VERIF then SIM_PIN
  else if PINStatus =? QMI_PIN_STATUS_BLOCKED then SIM_PUK
  else if PINStatus =? QMI_PIN_STATUS_PERM_BLOCKED then SIM_BAD else old.

(** Result: the return value and [*pSIMStatus]. *)
Definition requestGetPINStatus (pSIMStatus : SIM_Status) : MW (Z * SIM_Status) :=
  g ← gets wg;
  pRequest ← (if use_uim g then compose QMUX_TYPE_UIM 0x2F None else compose QMUX_TYPE_DMS 0x2B None);
  '(err, pResponse) ← QmiThreadSendQMI pRequest Wild;
  if err <? 0 then mret (err, pSIMStatus) else
  match pResponse with
  | Wild => undefined
  | Null => mret (err, pSIMStatus)
  | Live m =>
      result ← lift (rd16 m oQMUXResult);
      error ← lift (rd16 m oQMUXError);
      if negb (result =? 0) || negb (error =? 0) then mret (error, pSIMStatus) else
      s ← if_tlv m 0x11 pSIMStatus (fun p => v ← lift (ld m (p + QMIDMS_UIM_PIN_STATUS∙"PINStatus"));
        mret (pin_status_of pSIMStatus v));
      mret (0, s)
  end.

(** The card branch: the card state and the state of PIN 1, from the card status TLV. *)
Definition read_card (m : bytes) : MW (Z * Z) :=
  if_tlv m 0x10 (0x01, QMI_PIN_STATUS_NOT_VERIF) (fun p =>
    aid ← lift (ld m (p + QMIUIM_CARD_STATUS∙"AIDLength"));
    card ← lift (ld m (p + QMIUIM_CARD_STATUS∙"CardState"));
    let pPINState := p + sizeof[QMIUIM_CARD_STATUS] + aid in
    if card =? 0x01 then
      univ ← lift (ld m pPINState);
      pin ← lift (if univ =? 1 then ld m (p + QMIUIM_CARD_STATUS∙"UPINState") else
        ld m (pPINState + QMIUIM_PIN_STATE∙"PIN1State"));
      mret (card, pin)
    else mret (card, QMI_PIN_STATUS_NOT_VERIF)).

Definition requestGetSIMStatus (pSIMStatus : SIM_Status) : MW (Z * SIM_Status) :=
  g ← gets wg;
  pRequest ← (if use_uim g then compose QMUX_TYPE_UIM 0x2F None else compose QMUX_TYPE_DMS 0x44 None);
  '(err, pResponse) ← QmiThreadSendQMI pRequest Wild;
  if err <? 0 then mret (err, pSIMStatus) else
  match pResponse with
  | Wild => undefined
  | Null => mret (err, pSIMStatus)
  | Live m =>
      result ← lift (rd16 m oQMUXResult);
      error ← lift (rd16 m oQMUXError);
      if negb (result =? 0) || negb (error =? 0) then mret (error, pSIMStatus) else
      s ← (if use_uim g then '(card, pin) ← read_card m; mret (sim_status_of card pin)
           else
             st ← lift (ld m pMUXMsg->"UIMGetStateResp.UIMState");
             if st =? 0x00 then mret SIM_READY
             else if st =? 0x01 then '(_, s) ← requestGetPINStatus SIM_ABSENT; mret s
             else mret SIM_ABSENT : MW SIM_Status);
      name ← lift (SIM_Status_String s);
      write_sim (Some name) None None;;
      mret (0, s)
  end.

Definition requestEnterSimPin (pPinCode : bytes) : MW Z :=
  g ← gets wg;
  if use_uim g then request QMUX_TYPE_UIM 0x26 (Some (UimVerifyPinReqSend pPinCode)) (fun _ => mret 0)
  else request QMUX_TYPE_DMS 0x28 (Some (DmsUIMVerifyPinReqSend pPinCode)) (fun _ => mret 0).

Definition requestGetICCID : MW Z :=
  g ← gets wg;
  if negb (use_uim g) then mret 0 else
  request QMUX_TYPE_UIM 0x20 (Some (UimReadTransparentIMSIReqSend EF_ICCID)) (fun m =>
    pUimContent ← get_tlv m 0x11;
    match pUimContent with
    | None => mret 0
    | Some p =>
        n ← lift (rd16 m (p + QMIUIM_CONTENT∙"content_len"));
        old ← gets DeviceICCID;
        '(buf, j) ← lift (iccid_loop (Z.to_nat n) m (p + QMIUIM_CONTENT∙"content") 0 old);
        buf ← lift (st8 buf j 0);
        modify (fun w => set_ICCID w buf);;
        s ← lift (cstr buf);
        write_sim None (Some s) None;;
        mret 0
    end).

(** The loop's bound is [le16_to_cpu] of a single byte. *)
Definition requestGetIMSI : MW Z :=
  g ← gets wg;
  if negb (use_uim g) then mret 0 else
  request QMUX_TYPE_UIM 0x20 (Some (UimReadTransparentIMSIReqSend EF_IMSI)) (fun m =>
    pUimContent ← get_tlv m 0x11;
    match pUimContent with
    | None => mret 0
    | Some p =>
        b ← lift (ld m (p + QMIUIM_CONTENT∙"content"));
        old ← gets DeviceIMSI;
        '(buf, j) ← lift (imsi_loop (Z.to_nat (le16_to_cpu b)) m (p + QMIUIM_CONTENT∙"content") 0 0 old);
        buf ← lift (st8 buf j 0);
        modify (fun w => set_IMSI w buf);;
        s ← lift (cstr buf);
        write_sim None None (Some s);;
        mret 0
    end).

(** *** Home network *)
Definition requestGetHomeNetwork (want_network want_system : bool)
  : MW (Z * option (Z * Z) * option (Z * Z)) :=
  pRequest ← compose QMUX_TYPE_NAS 0x25 None;
  '(err, pResponse) ← QmiThreadSendQMI pRequest Wild;
  if err <? 0 then mret (err, None, None) else
  match pResponse with
  | Wild => undefined
  | Null => mret (err, None, None)
  | Live m =>
      result ← lift (rd16 m oQMUXResult);
      error ← lift (rd16 m oQMUXError);
      if negb (result =? 0) || negb (error =? 0) then mret (error, None, None) else
      home ← if_tlv m 0x01 None (fun p =>
        if want_network then
          mcc ← lift (rd16 m (p + HOME_NETWORK∙"MobileCountryCode"));
            mnc ← lift (rd16 m (p + HOME_NETWORK∙"MobileNetworkCode")); mret (Some (mcc, mnc))
        else mret None);
      sys ← if_tlv m 0x10 None (fun p =>
        if want_system then
          sid ← lift (rd16 m (p + HOME_NETWORK_SYSTEMID∙"SystemID"));
            nid ← lift (rd16 m (p + HOME_NETWORK_SYSTEMID∙"NetworkID")); mret (Some (sid, nid))
        else mret None);
      mret (0, home, sys)
  end.

(** [if (!requestGetHomeNetwork(&mcc, &mnc, NULL, NULL) && mcc) convert]; the pair is kept otherwise. *)
Definition cdma_home (mcc mnc : Z) : MW (Z * Z) :=
  '(ret, home, _) ← requestGetHomeNetwork true false;
  let '(cmcc, cmnc) := default (0, 0) home in
  if (ret =? 0) && negb (cmcc =? 0) then
    mret (quectel_convert_cdma_mcc_2_ascii_mcc cmcc, quectel_convert_cdma_mnc_2_ascii_mnc cmnc)
  else mret (mcc, mnc).

(** *** The system information response *)
Definition set_is_cdma (v : Z) : MW unit := modify (fun w => set_wg w (set_cdma (wg w) v)).
Definition set_personality (v : Z) : MW unit := modify (fun w => set_wg w (set_hdr (wg w) v)).
(** [(0 == is_lte)] *)
Definition not_lte (s : SysInfo) : Z := if is_lte s =? 0 then 1 else 0.

(** A service-status TLV: 2 means service is available. *)
Definition srv_status (m : bytes) (p : Z) (s : SysInfo) (k : MW SysInfo) : MW SysInfo :=
  v ← lift (ld m (p + SERVICE_STATUS_INFO∙"SrvStatus")); if v =? 0x02 then k else mret s.

(** The packet-switched bit of a system-information TLV. *)
Definition srv_domain (m : bytes) (p : Z) (s : SysInfo) (k : MW SysInfo) : MW SysInfo :=
  v ← lift (ld m (p + LTE_SYSTEM_INFO∙"SrvDomainValid"));
  if v =? 0x01 then d ← lift (ld m (p + LTE_SYSTEM_INFO∙"SrvDomain")); (if d .& 0x02 =? 0 then mret s else k) else mret s.

Definition network_id (m : bytes) (valid : Z) (s : SysInfo) : MW SysInfo :=
  v ← lift (ld m valid);
  if v =? 0x01 then
    c ← lift (lds m (valid + 1) 3); n ← lift (lds m (valid + 4) 3);
    mret (with_net s (char2ushort c) (char2ushort n))
  else mret s.

(** The system-information records begin alike: the fields read below have the same places in all that are read so. *)
Fact system_infos_alike :
  [GSM_SYSTEM_INFO∙"NetworkIdValid"; WCDMA_SYSTEM_INFO∙"NetworkIdValid"; TDSCDMA_SYSTEM_INFO∙"NetworkIdValid";
   LTE_SYSTEM_INFO∙"NetworkIdValid"] = replicate 4 (NR5G_SYSTEM_INFO∙"network_id_valid") /\
  [GSM_SYSTEM_INFO∙"SrvDomain"; WCDMA_SYSTEM_INFO∙"SrvDomain"; TDSCDMA_SYSTEM_INFO∙"SrvDomain"; CDMA_SYSTEM_INFO∙"SrvDomain";
   HDR_SYSTEM_INFO∙"SrvDomain"; LTE_SYSTEM_INFO∙"SrvDomain"] = replicate 6 (NR5G_SYSTEM_INFO∙"srv_domain").
Proof. done. Qed.

(** One turn's [switch] on the TLV at [p]: the system-information records ... *)
Definition sys_system_case (m : bytes) (p t : Z) (s : SysInfo) : MW SysInfo :=
  if (t =? 0x4B) || (t =? 0x17) || (t =? 0x18) || (t =? 0x25) then
    s ← srv_domain m p s (mret (with_attached s 1 (is_lte s)));
    network_id m (p + GSM_SYSTEM_INFO∙"NetworkIdValid") s
  else if t =? 0x15 then
    s ← srv_domain m p s (set_is_cdma (not_lte s);; mret (with_attached s 1 (is_lte s)));
    network_id m (p + CDMA_SYSTEM_INFO∙"NetworkIdValid") s
  else if t =? 0x16 then
    s ← srv_domain m p s (set_is_cdma (not_lte s);; mret (with_attached s 1 (is_lte s)));
    (if attached s =? 0 then mret tt else
     v ← lift (ld m (p + HDR_SYSTEM_INFO∙"HdrPersonalityValid"));
     if v =? 0x01 then h ← lift (ld m (p + HDR_SYSTEM_INFO∙"HdrPersonality"));
       when (h =? 0x03) (set_personality 0x02) else mret tt);;
    '(c, n) ← cdma_home (mcc s) (mnc s);
    mret (with_net s c n)
  else if t =? 0x19 then
    s ← srv_domain m p s (set_is_cdma 0;; mret (with_attached s 1 1));
    network_id m (p + LTE_SYSTEM_INFO∙"NetworkIdValid") s
  else mret s.

(** ... and the service-status records before them. *)
Definition sys_info_case (m : bytes) (p t : Z) (s : SysInfo) : MW SysInfo :=
  if t =? 0x10 then srv_status m p s
    (set_is_cdma (not_lte s);;
     mret (with_class s (is_lte s) DEVICE_CLASS_CDMA
       (WWAN_DATA_CLASS_1XRTT .| WWAN_DATA_CLASS_1XEVDO .| WWAN_DATA_CLASS_1XEVDO_REVA .|
        WWAN_DATA_CLASS_1XEVDV .| WWAN_DATA_CLASS_1XEVDO_REVB)))
  else if t =? 0x11 then srv_status m p s
    (set_is_cdma (not_lte s);;
     mret (with_class s (is_lte s) DEVICE_CLASS_CDMA (WWAN_DATA_CLASS_3XRTT .| WWAN_DATA_CLASS_UMB)))
  else if t =? 0x12 then srv_status m p s
    (mret (with_class s (is_lte s) DEVICE_CLASS_GSM (WWAN_DATA_CLASS_GPRS .| WWAN_DATA_CLASS_EDGE)))
  else if t =? 0x13 then srv_status m p s (mret (with_class s (is_lte s) DEVICE_CLASS_GSM WWAN_DATA_CLASS_UMTS))
  else if t =? 0x14 then srv_status m p s
    (set_is_cdma 0;; mret (with_class s 1 DEVICE_CLASS_GSM WWAN_DATA_CLASS_LTE))
  else if t =? 0x4A then srv_status m p s
    (set_is_cdma 0;; mret (with_class s 1 DEVICE_CLASS_GSM (DataCapList s .| WWAN_DATA_CLASS_5G_SA)))
  else if t =? 0x4E then
    v ← lift (ld m (p + 3)); mret (with_5g s 1 v (restrict_dcnr_valid s) (restrict_dcnr s))
  else if t =? 0x4F then
    v ← lift (ld m (p + 3)); mret (with_5g s (endc_available_valid s) (endc_available s) 1 v)
  else if t =? 0x24 then srv_status m p s (mret (with_capstr s (str "TD-SCDMA")))
  else sys_system_case m p t s.

(** [remainingLen] is signed: a TLV longer than what is left ends the loop. *)
Fixpoint sys_info_loop (fuel : nat) (m : bytes) (p remainingLen : Z) (s : SysInfo) : MW SysInfo :=
  match fuel with
  | O => undefined
  | S fuel =>
      if 0 <? remainingLen then
        t ← lift (ld m p);
        s ← sys_info_case m p t s;
        l ← lift (rd16 m (p + QMI_TLV_HDR∙"TLVLength"));
        sys_info_loop fuel m (p + sizeof[QMI_TLV_HDR] + l) (remainingLen - (l + sizeof[QMI_TLV_HDR])) s
      else mret s
  end.

(** Result: the return value and [*pPSAttachedState]. *)
Definition requestRegistrationState2 : MW (Z * Z) :=
  pRequest ← compose QMUX_TYPE_NAS 0x4D None;
  '(err, pResponse) ← QmiThreadSendQMI pRequest Wild;
  if err <? 0 then mret (err, 0) else
  match pResponse with
  | Wild => undefined
  | Null => mret (err, 0)
  | Live m =>
      result ← lift (rd16 m oQMUXResult);
      error ← lift (rd16 m oQMUXError);
      if negb (result =? 0) || negb (error =? 0) then mret (error, 0) else
      remainingLen ← lift (rd16 m oMUXLength);
      set_is_cdma 0;;
      set_personality 0;;
      s ← sys_info_loop (S (Z.to_nat remainingLen)) m oTLVs remainingLen sysinfo_init;
      g ← gets wg;
      write_reg (Some (mcc s)) (Some (mnc s)) (Some (attached s)) (Some (cap_string (s_hdr_personality g) s)) 0 None;;
      mret (0, attached s)
  end.

(** *** The older registration request *)
Definition datacap_string (c : Z) : bytes :=
  if c =? 0x01 then str "GPRS" else if c =? 0x02 then str "EDGE" else if c =? 0x03 then str "HSDPA"
  else if c =? 0x04 then str "HSUPA" else if c =? 0x05 then str "UMTS" else if c =? 0x06 then str "1XRTT"
  else if c =? 0x07 then str "1XEVDO" else if c =? 0x08 then str "1XEVDO_REVA" else if c =? 0x09 then str "GPRS"
  else if c =? 0x0A then str "1XEVDO_REVB" else if c =? 0x0B then str "LTE" else if c =? 0x0C then str "HSDPA"
  else if c =? 0x0D then str "HSDPA" else str "UNKNOW".

Record ServingSystem := { ss_reg : Z; ss_ps : Z; ss_inuse : Z; ss_radio : Z }.
(** The fields used of the serving-system TLV; the radio fields are read only when registered. *)
Definition read_serving (m : bytes) : MW (option ServingSystem) :=
  if_tlv m 0x01 None (fun p =>
    r ← lift (ld m (p + SERVING_SYSTEM∙"RegistrationState"));
    if r =? 0x01 then
      ps ← lift (ld m (p + SERVING_SYSTEM∙"PSAttachedState")); n ← lift (ld m (p + SERVING_SYSTEM∙"InUseRadioIF"));
      f ← (if n =? 0 then mret 0 else lift (ld m (p + SERVING_SYSTEM∙"RadioIF")) : MW Z);
      mret (Some {| ss_reg := r; ss_ps := ps; ss_inuse := n; ss_radio := f |})
    else mret (Some {| ss_reg := r; ss_ps := 0; ss_inuse := 0; ss_radio := 0 |})).

(** A pair of a six and 8 or 10 counts as its second entry (the code overwrites the first in the response). *)
Definition read_datacap (m : bytes) : MW bytes :=
  if_tlv m 0x11 (str "UNKNOW") (fun p =>
    n ← lift (ld m (p + QMINAS_DATA_CAP∙"DataCapListLen"));
    if n =? 0 then mret (str "UNKNOW") else
    c0 ← lift (ld m (p + QMINAS_DATA_CAP∙"DataCap"));
    c ← (if (n =? 2) && (c0 =? 0x06) then
           c1 ← lift (ld m (p + 5)); mret (if (c1 =? 0x08) || (c1 =? 0x0A) then c1 else c0)
         else mret c0 : MW Z);
    mret (datacap_string c)).

(** The network codes and the capability string are only logged. *)
Definition requestRegistrationState (pPSAttachedState : Z) : MW (Z * Z) :=
  g ← gets wg;
  if negb (s_9x07 g =? 0) then requestRegistrationState2 else
  pRequest ← compose QMUX_TYPE_NAS 0x24 None;
  '(err, pResponse) ← QmiThreadSendQMI pRequest Wild;
  if err <? 0 then mret (err, pPSAttachedState) else
  match pResponse with
  | Wild => undefined
  | Null => mret (err, pPSAttachedState)
  | Live m =>
      result ← lift (rd16 m oQMUXResult);
      error ← lift (rd16 m oQMUXError);
      if negb (result =? 0) || negb (error =? 0) then mret (error, pPSAttachedState) else
      plmn ← if_tlv m 0x12 (0, 0) (fun p => c ← lift (rd16 m (p + QMINAS_CURRENT_PLMN_MSG∙"MobileCountryCode"));
        n ← lift (rd16 m (p + QMINAS_CURRENT_PLMN_MSG∙"MobileNetworkCode")); mret (c, n));
      ss ← read_serving m;
      let a := match ss with None => 0 | Some s => if ss_reg s =? 0x01 then ss_ps s else 0x02 end in
      _ ← read_datacap m;
      set_is_cdma 0;;
      (match ss with
       | Some s =>
           if (ss_reg s =? 0x01) && negb (ss_inuse s =? 0) && ((ss_radio s =? 0x01) || (ss_radio s =? 0x02)) then
             set_is_cdma 1;;
             _ ← cdma_home plmn.1 plmn.2;
             h ← if_tlv m 0x23 0 (fun p => lift (ld m (p + 3)));
             set_personality h
           else mret tt
       | None => mret tt
       end : MW unit);;
      mret (0, a)
  end.

(** *** Signal *)
Definition signal_tlv (m : bytes) (clas : Z) : MW unit :=
  if_tlv m clas tt (fun p =>
    l ← lift (ld16 m (p + QMI_TLV_HDR∙"TLVLength"));
    if l =? 0 then mret tt else write_reg None None None None clas (Some (drop (Z.to_nat p) m))).

Definition requestGetSignalInfo : MW Z :=
  request QMUX_TYPE_NAS 0x4F None (fun m =>
    signal_tlv m 0x10;;
    signal_tlv m 0x11;;
    signal_tlv m 0x12;;
    signal_tlv m 0x13;;
    signal_tlv m 0x14;;
    signal_tlv m 0x15;;
    mret 0).

(** *** Version.  [strndup]'s allocation may fail; the string it returns ends in a NUL. *)
Definition s_9x07_of (rev : bytes) : option Z :=
  if negb (starts_with (str "EC20") rev) then Some 1 else
  c5 ← ld (rev ++ [0]) 5;
  if c5 =? 0x46 then Some 1 else
  c6 ← ld (rev ++ [0]) 6;
  Some (if c6 =? 0x46 then 1 else 0).

(** Result: the return value and [*pp_reversion]. *)
Definition requestBaseBandVersion : MW (Z * option bytes) :=
  pRequest ← compose QMUX_TYPE_DMS 0x23 None;
  '(err, pResponse) ← QmiThreadSendQMI pRequest Wild;
  if err <? 0 then mret (err, None) else
  match pResponse with
  | Wild => undefined
  | Null => mret (err, None)
  | Live m =>
      result ← lift (rd16 m oQMUXResult);
      error ← lift (rd16 m oQMUXError);
      if negb (result =? 0) || negb (error =? 0) then mret (error, None) else
      revId ← get_tlv m 0x01;
      match revId with
      | None => mret (0, None)
      | Some p =>
          n ← lift (rd16 m (p + DEVICE_REV_ID∙"TLVLength"));
          if n =? 0 then mret (0, None) else
          d ← lift (strndup_at (Z.to_nat n) m (p + DEVICE_REV_ID∙"RevisionID"));
          let DeviceRevisionID := if malloc_ok (zlen d + 1) then Some d else None in
          g ← gets wg;
          (if s_9x07 g =? -1 then
             match DeviceRevisionID with
             | None => undefined
             | Some d => v ← lift (s_9x07_of d); modify (fun w => set_wg w (set_9x07 (wg w) v))
             end
           else mret tt : MW unit);;
          write_bb DeviceRevisionID None;;
          mret (0, DeviceRevisionID)
      end
  end.

(** *** Loopback: the request is filled in without testing it for NULL. *)
Definition requestSetLoopBackState (loopback_state replication_factor : Z) : MW Z :=
  pRequest ← compose QMUX_TYPE_WDS_ADMIN 0x2F (Some WdaSetLoopBackReq);
  match pRequest with
  | None => undefined
  | Some r =>
      r ← lift (st8 r 16 loopback_state);
      r ← lift (st32 r 20 (cpu_to_le16 (u16 replication_factor)));
      '(err, pResponse) ← QmiThreadSendQMI (Some r) Wild;
      qmi_rsp_check_and_return err pResponse (fun _ => mret 0)
  end.
End Status.
