(* ===== verification/QmiStatusSpec.v ===== *)
(** * What the identity, SIM and registration requests of QmiStatus.v do. *)
From S2P Require Import Prelude Util QmiMsg Compose Cm Monad QmiRequests QmiCall QmiStatus.
#[local] Open Scope Z_scope.
#[local] Open Scope c_scope.

(** ** Digits *)
Definition digit (d : Z) : Prop := 0 <= d < 10.
Definition nibble (d : Z) : Prop := 0 <= d < 16.
Definition below (n : nat) : list Z := map Z.of_nat (seq 0 n).

(** A property of small numbers, by evaluation. *)
Lemma below_forall (n : nat) (p : Z -> bool) :
  forallb p (below n) = true -> forall d, 0 <= d < Z.of_nat n -> p d = true.
Proof.
  intros H d Hd. rewrite forallb_forall in H. apply H, in_map_iff. exists (Z.to_nat d).
  split; [lia|]. apply in_seq. lia.
Qed.

(** ** CDMA codes: the encoding of IS-2000, where the digit 0 counts as 10. *)
Definition is2000 (d : Z) : Z := if d =? 0 then 10 else d.
Definition cdma_mcc (d1 d2 d3 : Z) : Z := 100 * is2000 d1 + 10 * is2000 d2 + is2000 d3 - 111.
Definition cdma_mnc (d1 d2 : Z) : Z := 10 * is2000 d1 + is2000 d2 - 11.

(** [quectel_convert_cdma_mcc_2_ascii_mcc] and its MNC twin invert the IS-2000 encoding of every
    three-digit country code and two-digit network code. *)
Theorem cdma_code_roundtrip d1 d2 d3 :
  digit d1 -> digit d2 -> digit d3 ->
  quectel_convert_cdma_mcc_2_ascii_mcc (cdma_mcc d1 d2 d3) = 100 * d1 + 10 * d2 + d3 /\
  quectel_convert_cdma_mnc_2_ascii_mnc (cdma_mnc d1 d2) = 10 * d1 + d2.
Proof.
  intros H1 H2 H3. split; apply Z.eqb_eq.
  - refine (below_forall 10 (fun d3 => _ =? _) _ d3 H3). refine (below_forall 10 (fun d2 => forallb _ _) _ d2 H2).
    refine (below_forall 10 (fun d1 => forallb _ _) _ d1 H1). vm_compute. reflexivity.
  - refine (below_forall 10 (fun d2 => _ =? _) _ d2 H2). refine (below_forall 10 (fun d1 => forallb _ _) _ d1 H1).
    vm_compute. reflexivity.
Qed.

Theorem cdma_code_roundtrip_witness :
  quectel_convert_cdma_mcc_2_ascii_mcc 359 = 460 /\ quectel_convert_cdma_mnc_2_ascii_mnc 92 = 3.
Proof.
  change 359 with (cdma_mcc 4 6 0). change 92 with (cdma_mnc 0 3). change 460 with (100 * 4 + 10 * 6 + 0).
  split; [apply (cdma_code_roundtrip 4 6 0) | apply (cdma_code_roundtrip 0 3 0)]; split; discriminate || reflexivity.
Defined.

(** ** SIM files *)
(** Digits packed two to a byte, the first in the low half. *)
Fixpoint pack (ds : list Z) : bytes :=
  match ds with lo :: hi :: ds => (lo + 16 * hi) :: pack ds | _ => [] end.

Lemma pack_nibbles lo hi :
  nibble lo -> nibble hi ->
  ((lo + 16 * hi) .& 0x0F) = lo /\ (((lo + 16 * hi) .& 0xF0) .>> 4) = hi.
Proof.
  intros H1 H2. split; apply Z.eqb_eq.
  - refine (below_forall 16 (fun hi => _ =? _) _ hi H2). refine (below_forall 16 (fun lo => forallb _ _) _ lo H1).
    vm_compute. reflexivity.
  - refine (below_forall 16 (fun hi => _ =? _) _ hi H2). refine (below_forall 16 (fun lo => forallb _ _) _ lo H1).
    vm_compute. reflexivity.
Qed.

Lemma lds_tail m i n b v : lds m i (Z.of_nat (S n)) = Some (b :: v) -> lds m (i + 1) (Z.of_nat n) = Some v.
Proof.
  intros H. pose proof (lds_zlen _ _ _ _ H) as L. rewrite zlen_cons in L.
  rewrite (lds_sub _ _ _ _ 1 (Z.of_nat n) H) by lia. f_equal. cbn. apply take_ge. unfold zlen in L. lia.
Qed.

Lemma st8_app P x R j v : j = zlen P -> st8 (P ++ x :: R) j v = Some (P ++ u8 v :: R).
Proof. intros ->. unfold st8. by rewrite (sts_app P [x] [u8 v] R) by done. Qed.

Lemma hexdigit_u8 d : nibble d -> u8 (hexdigit d) = hexdigit d /\ hexdigit d <> 0.
Proof.
  intros H. assert (E : (u8 (hexdigit d) =? hexdigit d) && negb (hexdigit d =? 0) = true).
  { refine (below_forall 16 (fun d => _ && _) _ d H). vm_compute. reflexivity. }
  apply andb_true_iff in E as [E1 E2]. apply negb_true_iff, Z.eqb_neq in E2. apply Z.eqb_eq in E1. done.
Qed.

Lemma iccid_loop_spec n m content ds P R :
  Forall nibble ds -> length ds = (2 * n)%nat -> lds m content (Z.of_nat n) = Some (pack ds) -> (2 * n <= length R)%nat ->
  iccid_loop n m content (zlen P) (P ++ R) =
  Some (P ++ map hexdigit ds ++ drop (2 * n) R, zlen P + Z.of_nat (2 * n)).
Proof.
  revert content ds P R. induction n as [|n IH]; intros content ds P R F Hd Hm HR.
  { destruct ds; [|done]. cbn [iccid_loop map Nat.mul drop app]. do 2 f_equal. lia. }
  destruct ds as [|lo [|hi ds]]; cbn in Hd; try lia. destruct R as [|r1 [|r2 R]]; cbn in HR; try lia.
  apply Forall_cons in F as [H1 F]. apply Forall_cons in F as [H2 F].
  destruct (pack_nibbles lo hi H1 H2) as [E1 E2]. cbn [iccid_loop].
  pose proof (lds_ld _ _ _ _ 0 (lo + 16 * hi) Hm eq_refl) as L. rewrite Z.add_0_r in L. rewrite L. cbn [mbind option_bind].
  rewrite E1, E2, st8_app by done. cbn [mbind option_bind].
  replace (P ++ u8 (hexdigit lo) :: r2 :: R) with ((P ++ [u8 (hexdigit lo)]) ++ r2 :: R) by (by rewrite <- app_assoc).
  rewrite st8_app by (zlens; lia). cbn [mbind option_bind].
  replace ((P ++ [u8 (hexdigit lo)]) ++ u8 (hexdigit hi) :: R) with ((P ++ [hexdigit lo; hexdigit hi]) ++ R).
  2:{ rewrite <- !app_assoc, (proj1 (hexdigit_u8 lo H1)), (proj1 (hexdigit_u8 hi H2)). done. }
  replace (zlen P + 2) with (zlen (P ++ [hexdigit lo; hexdigit hi])) by (zlens; lia).
  rewrite (IH (content + 1) ds); [|done|lia| |lia].
  - rewrite <- !app_assoc. cbn [map app]. replace (2 * S n)%nat with (S (S (2 * n))) by lia. cbn [drop].
    do 2 f_equal. zlens. lia.
  - exact (lds_tail _ _ _ _ _ Hm).
Qed.

Lemma imsi_digit d : digit d -> u8 (d + 0x30) = d + 0x30.
Proof. intros H. apply u8_id. unfold digit, is_byte in *. lia. Qed.
Lemma digit_nibble d : digit d -> nibble d.
Proof. unfold digit, nibble. lia. Qed.

(** From the second byte of the digits on. *)
Lemma imsi_loop_spec n m content i ds P R :
  1 <= i -> Forall digit ds -> length ds = (2 * n)%nat -> lds m (content + i + 1) (Z.of_nat n) = Some (pack ds) ->
  (2 * n <= length R)%nat ->
  imsi_loop n m content i (zlen P) (P ++ R) =
  Some (P ++ map (fun d => d + 0x30) ds ++ drop (2 * n) R, zlen P + Z.of_nat (2 * n)).
Proof.
  revert i ds P R. induction n as [|n IH]; intros i ds P R Hi F Hd Hm HR.
  { destruct ds; [|done]. cbn [imsi_loop map Nat.mul drop app]. do 2 f_equal. lia. }
  destruct ds as [|lo [|hi ds]]; cbn in Hd; try lia. destruct R as [|r1 [|r2 R]]; cbn in HR; try lia.
  apply Forall_cons in F as [H1 F]. apply Forall_cons in F as [H2 F].
  destruct (pack_nibbles lo hi (digit_nibble _ H1) (digit_nibble _ H2)) as [E1 E2]. cbn [imsi_loop].
  pose proof (lds_ld _ _ _ _ 0 (lo + 16 * hi) Hm eq_refl) as L. rewrite Z.add_0_r in L. rewrite L. cbn [mbind option_bind].
  rewrite (proj2 (Z.eqb_neq i 0)) by lia. rewrite E1, E2, st8_app by done. cbn [mbind option_bind].
  replace (P ++ u8 (lo + 0x30) :: r2 :: R) with ((P ++ [u8 (lo + 0x30)]) ++ r2 :: R) by (by rewrite <- app_assoc).
  rewrite st8_app by (zlens; lia). cbn [mbind option_bind].
  replace ((P ++ [u8 (lo + 0x30)]) ++ u8 (hi + 0x30) :: R) with ((P ++ [lo + 0x30; hi + 0x30]) ++ R).
  2:{ by rewrite <- !app_assoc, !imsi_digit. }
  replace (zlen P + 1 + 1) with (zlen (P ++ [lo + 0x30; hi + 0x30])) by (zlens; lia).
  rewrite (IH (i + 1) ds); [|lia|done|lia| |lia].
  - rewrite <- !app_assoc. cbn [map app]. replace (2 * S n)%nat with (S (S (2 * n))) by lia. cbn [drop].
    do 2 f_equal. zlens. lia.
  - replace (content + (i + 1) + 1) with (content + i + 1 + 1) by lia.
    exact (lds_tail _ _ _ _ _ Hm).
Qed.

(** ** Running a request *)
Section Requests.
Context {host : Host} {heap : Heap} {modem : Modem}.

Lemma request_run w T Ty f ts cid m k :
  client w T cid -> (forall t, builds (set_TransactionId (wg w) t) f ts) -> area_len ts <= 243 ->
  malloc_ok (13 + area_len ts) = true -> answer (wsent w) (msg_of w T cid Ty ts) 30000 = (0, Some m) -> is_rsp m 0 0 ->
  request T Ty (Some f) k w = k m (next w (msg_of w T cid Ty ts)).
Proof.
  intros Hc Hb Hl Hm Ha Hr. unfold request, QmiThreadSendQMI. change (30 * 1000) with 30000.
  rewrite (request_ok w T Ty f ts cid) by done. cbv zeta. rewrite Ha. cbn [ptr_of Z.eqb]. by rewrite check_ok.
Qed.

Lemma request_plain w T Ty cid m k :
  client w T cid -> malloc_ok 13 = true -> answer (wsent w) (msg_of w T cid Ty []) 30000 = (0, Some m) -> is_rsp m 0 0 ->
  request T Ty None k w = k m (next w (msg_of w T cid Ty [])).
Proof.
  intros Hc Hm Ha Hr. rewrite <- (request_run w T Ty (fun _ m => Some (m, 4)) [] cid m k); try done.
  intros. apply plain_builds.
Qed.

Lemma le16_field v : is_u16 v -> le16_to_cpu (dec_native (le16 v)) = v.
Proof.
  intros H. pose proof (rd16_le16 [] v [] 0 H eq_refl) as E. unfold rd16, ld16 in E.
  rewrite (lds_app [] (le16 v) [] 0 2) in E by done. by injection E.
Qed.

Lemma rd16_at m i n v j u :
  lds m i n = Some v -> 0 <= j -> j + 2 <= n -> take 2 (drop (Z.to_nat j) v) = le16 u -> is_u16 u -> rd16 m (i + j) = Some u.
Proof.
  intros H Hj Hn E Hu. unfold rd16, ld16. rewrite (lds_sub _ _ _ _ j 2 H) by lia.
  change (Z.to_nat 2) with 2%nat. rewrite E. cbn [mbind option_bind]. by rewrite le16_field.
Qed.

Definition world_wf (w : World) : Prop :=
  zlen (DeviceIMEI w) = 16 /\ zlen (DeviceICCID w) = 32 /\ zlen (DeviceIMSI w) = 32 /\
  zlen (iccid (sim_status (wcm w))) = 32 /\ zlen (imsi (sim_status (wcm w))) = 32.

Lemma client_use_uim w cid : client w QMUX_TYPE_UIM cid -> s_9x07 (wg w) <> 0 -> use_uim (wg w) = true.
Proof.
  intros (H & Hn & _) H9. unfold use_uim. rewrite H. apply andb_true_iff. rewrite !negb_true_iff, !Z.eqb_neq. done.
Qed.

Lemma length_pack n ds : length ds = (2 * n)%nat -> length (pack ds) = n.
Proof.
  revert ds. induction n as [|n IH]; intros ds H; destruct ds as [|lo [|hi ds]]; cbn in *; try lia. f_equal. apply IH. lia.
Qed.

Lemma tail32 {A} (l : list A) n : zlen l = 32 -> (n < 32)%nat -> exists x r, drop n l = x :: r.
Proof.
  intros H Hn. destruct (drop n l) as [|x r] eqn:E; [|by exists x, r].
  apply (f_equal length) in E. rewrite length_drop in E. unfold zlen in H. cbn in E. lia.
Qed.
End Requests.

Lemma ef_len (a : ef) : area_len (ef_tlvs a) <= 243.
Proof. destruct a; vm_compute; discriminate. Qed.

(** The ICCID of up to fifteen bytes that the modem returns is published digit by digit, low
    half-byte first, in the status record (and kept in the static buffer, with its terminating NUL). *)
Theorem requestGetICCID_correct {host : Host} {heap : Heap} {modem : Modem} w cid tid ts n ds :
  client w QMUX_TYPE_UIM cid -> s_9x07 (wg w) <> 0 -> world_wf w -> (forall k, malloc_ok k = true) ->
  answer (wsent w) (msg_of w QMUX_TYPE_UIM cid 0x20 (ef_tlvs EF_ICCID)) 30000 =
    (0, Some (response QMUX_TYPE_UIM cid tid 0x20 0 0 ts)) ->
  Forall tlv_wf ts -> zlen (enc_tlvs ts) < 65529 ->
  (n <= 15)%nat -> Forall nibble ds -> length ds = (2 * n)%nat ->
  tlv_value ts 0x11 = Some (le16 (Z.of_nat n) ++ pack ds) ->
  exists w', requestGetICCID w = Some (0, w') /\
    sim_write (sim_status (wcm w)) None (Some (map hexdigit ds)) None = Some (sim_status (wcm w')) /\
    exists rest, DeviceICCID w' = map hexdigit ds ++ 0 :: rest.
Proof.
  intros Hc H9 (_ & Hb & _ & Hi & _) Hm Ha F Hl Hn Fd Hd Hv. unfold requestGetICCID. rewrite bind_gets.
  rewrite (client_use_uim w cid) by done. cbn [negb].
  erewrite (request_run w); [| done | intros; apply UimReadTransparentIMSIReqSend_builds | apply ef_len | apply Hm | exact Ha |].
  2:{ apply response_rsp; split; done. }
  set (w1 := next w _). set (m := response _ _ _ _ _ _ _).
  pose proof (get_tlv_response QMUX_TYPE_UIM cid tid 0x20 0 0 ts 0x11 w1 F Hl ltac:(done) ltac:(done)) as H.
  rewrite Hv in H. destruct H as (p & E & _ & Hp). fold m in E, Hp. erewrite bind_step by exact E.
  assert (Lp : length (pack ds) = n) by (by apply length_pack).
  assert (Lv : zlen (le16 (Z.of_nat n) ++ pack ds) = 2 + Z.of_nat n) by (zlens; unfold zlen; rewrite Lp; cbn; lia).
  rewrite Lv in Hp. cbv beta iota.
  pose proof (rd16_at m (p + 3) _ _ 0 (Z.of_nat n) Hp ltac:(lia) ltac:(lia) eq_refl ltac:(unfold is_u16; lia)) as R.
  rewrite Z.add_0_r in R. rewrite R, bind_lift, bind_gets, Nat2Z.id.
  pose proof (lds_sub _ _ _ _ 2 (Z.of_nat n) Hp ltac:(lia) ltac:(lia) ltac:(lia)) as Hc2.
  replace (p + 3 + 2) with (p + 5) in Hc2 by lia. rewrite Nat2Z.id in Hc2.
  change (drop (Z.to_nat 2) (le16 (Z.of_nat n) ++ pack ds)) with (pack ds) in Hc2. rewrite take_ge in Hc2 by lia.
  pose proof (iccid_loop_spec n m (p + 5) ds [] (DeviceICCID w) Fd Hd Hc2 ltac:(unfold zlen in Hb; lia)) as L.
  change (zlen []) with 0 in L. cbn [app] in L. change (DeviceICCID w1) with (DeviceICCID w). rewrite L, bind_lift.
  destruct (tail32 (DeviceICCID w) (2 * n) Hb ltac:(lia)) as (x & r & ->).
  rewrite st8_app by (unfold zlen; rewrite length_map; lia). rewrite bind_lift, bind_modify, cstr_app, bind_lift.
  2:{ apply Forall_map. eapply Forall_impl; [exact Fd|]. intros d Hd'. by apply hexdigit_u8. }
  destruct (sim_write (sim_status (wcm w)) None (Some (map hexdigit ds)) None) as [s'|] eqn:Es.
  2:{ exfalso. revert Es. unfold sim_write, copy_str. destruct (sts_defined (iccid (sim_status (wcm w))) 0 (map hexdigit ds)) as [b ->];
        [lia | unfold zlen in *; rewrite length_map; lia | done]. }
  eexists. split.
  - unfold write_sim, mbind, M_bind. change (sim_status (wcm (set_ICCID w1 _))) with (sim_status (wcm w)).
    rewrite Es. reflexivity.
  - split; [done|]. by exists r.
Qed.

Section Imsi.
Context {host : Host} {heap : Heap} {modem : Modem}.

(** Up to and including the read of the length byte; [b] is that byte. *)
Lemma requestGetIMSI_reads w cid tid ts b cs :
  client w QMUX_TYPE_UIM cid -> s_9x07 (wg w) <> 0 -> (forall k, malloc_ok k = true) ->
  let r := msg_of w QMUX_TYPE_UIM cid 0x20 (ef_tlvs EF_IMSI) in
  let m := response QMUX_TYPE_UIM cid tid 0x20 0 0 ts in
  answer (wsent w) r 30000 = (0, Some m) ->
  Forall tlv_wf ts -> zlen (enc_tlvs ts) < 65529 -> tlv_value ts 0x11 = Some (le16 (1 + zlen cs) ++ b :: cs) ->
  exists p, lds m (p + 6) (zlen cs) = Some cs /\
    requestGetIMSI w = ('(buf, j) ← lift (imsi_loop (Z.to_nat (le16_to_cpu b)) m (p + 5) 0 0 (DeviceIMSI w));
      buf ← lift (st8 buf j 0);
      modify (fun w => set_IMSI w buf);;
      s ← lift (cstr buf);
      write_sim None None (Some s);;
      mret 0) (next w r).
Proof.
  intros Hc H9 Hm r m Ha F Hl Hv. unfold requestGetIMSI. rewrite bind_gets.
  rewrite (client_use_uim w cid) by done. cbn [negb].
  erewrite (request_run w); [| done | intros; apply UimReadTransparentIMSIReqSend_builds | apply ef_len | apply Hm | exact Ha |].
  2:{ apply response_rsp; split; done. }
  pose proof (get_tlv_response QMUX_TYPE_UIM cid tid 0x20 0 0 ts 0x11 (next w r) F Hl ltac:(done) ltac:(done)) as H.
  rewrite Hv in H. destruct H as (p & E & _ & Hp). fold m in E, Hp. fold r. exists p.
  assert (Lv : zlen (le16 (1 + zlen cs) ++ b :: cs) = 3 + zlen cs) by (zlens; unfold le16; cbn; lia). rewrite Lv in Hp.
  pose proof (zlen_nonneg cs) as Hz.
  pose proof (lds_sub _ _ _ _ 3 (zlen cs) Hp ltac:(lia) ltac:(lia) ltac:(lia)) as Hcs.
  pose proof (lds_ld _ _ _ _ 2 b Hp eq_refl) as Hb. replace (p + 3 + Z.of_nat 2) with (p + 5) in Hb by lia.
  split.
  - replace (p + 6) with (p + 3 + 3) by lia. rewrite Hcs. f_equal. apply take_ge. unfold zlen. cbn. lia.
  - erewrite bind_step by exact E. cbv beta iota. by rewrite Hb, bind_lift, bind_gets.
Qed.

Lemma st8_fits buf j v buf' : st8 buf j v = Some buf' -> 0 <= j /\ j + 1 <= zlen buf /\ zlen buf' = zlen buf.
Proof.
  intros H. pose proof (sts_length _ _ _ _ H). revert H. unfold st8, sts. destruct (Z.leb_spec 0 j); [|done].
  change (zlen [u8 v]) with 1. destruct (Z.leb_spec (j + 1) (zlen buf)); [|done]. done.
Qed.

(** A loop that ends has written inside the buffer. *)
Lemma imsi_loop_fits n m content i j buf buf' j' :
  1 <= i -> j <= zlen buf -> imsi_loop n m content i j buf = Some (buf', j') -> j + 2 * Z.of_nat n <= zlen buf.
Proof.
  revert i j buf. induction n as [|n IH]; intros i j buf Hi Hj; cbn [imsi_loop]; [lia|].
  destruct (ld m (content + i + 1)) as [c|]; [|done]. cbn [mbind option_bind]. rewrite (proj2 (Z.eqb_neq i 0)) by lia.
  destruct (st8 buf j _) as [b1|] eqn:E1; [|done]. cbn [mbind option_bind].
  destruct (st8 b1 (j + 1) _) as [b2|] eqn:E2; [|done]. cbn [mbind option_bind].
  apply st8_fits in E1 as (H1 & H2 & H3), E2 as (H4 & H5 & H6). intros H. apply IH in H; lia.
Qed.
End Imsi.

(** On a little-endian host the IMSI file of 3GPP 31.102 (a length byte, the parity half-byte, then
    the digits, low half first) is published as the decimal digits of the subscriber identity. *)
Theorem requestGetIMSI_correct {heap : Heap} {modem : Modem} w cid tid ts n q ds :
  client w QMUX_TYPE_UIM cid -> s_9x07 (wg w) <> 0 -> world_wf w -> (forall k, malloc_ok k = true) ->
  answer (wsent w) (msg_of w QMUX_TYPE_UIM cid 0x20 (ef_tlvs EF_IMSI)) 30000 =
    (0, Some (response QMUX_TYPE_UIM cid tid 0x20 0 0 ts)) ->
  Forall tlv_wf ts -> zlen (enc_tlvs ts) < 65529 ->
  (n <= 15)%nat -> digit q -> Forall digit ds -> length ds = (2 * n + 1)%nat ->
  tlv_value ts 0x11 = Some (le16 (Z.of_nat n + 2) ++ (Z.of_nat n + 1) :: pack (q :: ds)) ->
  exists w', requestGetIMSI w = Some (0, w') /\
    sim_write (sim_status (wcm w)) None None (Some (map (fun d => d + 0x30) ds)) = Some (sim_status (wcm w')) /\
    exists rest, DeviceIMSI w' = map (fun d => d + 0x30) ds ++ 0 :: rest.
Proof.
  intros Hc H9 (_ & _ & Hb & _ & Hi) Hm Ha F Hl Hn Hq Fd Hd Hv.
  destruct ds as [|d1 ds]; [cbn in Hd; lia|]. apply Forall_cons in Fd as [H1 Fd].
  assert (Ed : length ds = (2 * n)%nat) by (cbn in Hd; lia).
  assert (Lc : zlen (pack (q :: d1 :: ds)) = 1 + Z.of_nat n).
  { cbn [pack]. rewrite zlen_cons. unfold zlen. rewrite (length_pack n) by done. lia. }
  pose proof (requestGetIMSI_reads w cid tid ts (Z.of_nat n + 1) (pack (q :: d1 :: ds)) Hc H9 Hm) as R. cbv zeta in R.
  rewrite Lc in R. replace (1 + (1 + Z.of_nat n)) with (Z.of_nat n + 2) in R by lia.
  destruct (R Ha F Hl Hv) as (p & Hp & ->). clear R. set (m := response _ _ _ _ _ _ _) in *. set (w1 := next w _).
  change (le16_to_cpu (Z.of_nat n + 1)) with (Z.of_nat n + 1). replace (Z.to_nat (Z.of_nat n + 1)) with (S n) by lia.
  replace (1 + Z.of_nat n) with (Z.of_nat (S n)) in Hp by lia. cbn [pack] in Hp.
  pose proof (lds_ld _ _ _ _ 0 _ Hp eq_refl) as L0. rewrite Z.add_0_r in L0.
  pose proof (lds_tail _ _ _ _ _ Hp) as Ht. replace (p + 6 + 1) with (p + 5 + 1 + 1) in Ht by lia.
  destruct (pack_nibbles q d1 (digit_nibble _ Hq) (digit_nibble _ H1)) as [_ E2].
  destruct (tail32 (DeviceIMSI w) 0 Hb ltac:(lia)) as (x & R & EB). change (DeviceIMSI w = x :: R) in EB.
  cbn [imsi_loop]. replace (p + 5 + 0 + 1) with (p + 6) by lia. rewrite L0. cbn [mbind option_bind]. rewrite E2.
  change (0 =? 0) with true. cbv iota. cbn [mbind option_bind].
  rewrite EB, (st8_app [] x R) by done. cbn [mbind option_bind].
  assert (HR : length R = 31%nat) by (rewrite EB in Hb; unfold zlen in Hb; cbn in Hb; lia).
  pose proof (imsi_loop_spec n m (p + 5) (0 + 1) ds [d1 + 0x30] R ltac:(lia) Fd Ed Ht ltac:(lia)) as L.
  rewrite (imsi_digit d1 H1). cbn [app] in L |- *. change (0 + 1) with 1 in *. change (zlen [d1 + 48]) with 1 in L. rewrite L, bind_lift.
  cbv beta iota.
  destruct (drop (2 * n) R) as [|y r] eqn:ER.
  { apply (f_equal length) in ER. rewrite length_drop in ER. cbn in ER. lia. }
  rewrite (app_comm_cons _ (y :: r)), st8_app by (rewrite zlen_cons; unfold zlen; rewrite length_map; lia).
  rewrite bind_lift, bind_modify, cstr_app, bind_lift.
  2:{ change (no_nul (map (fun d => d + 0x30) (d1 :: ds))). apply Forall_map. constructor; [unfold digit in H1; lia|]. eapply Forall_impl; [exact Fd|]. unfold digit. intros; lia. }
  cbn [map].
  destruct (sim_write (sim_status (wcm w)) None None (Some (d1 + 0x30 :: map (fun d => d + 0x30) ds))) as [s'|] eqn:Es.
  2:{ exfalso. revert Es. unfold sim_write, copy_str.
      destruct (sts_defined (imsi (sim_status (wcm w))) 0 (d1 + 0x30 :: map (fun d => d + 0x30) ds)) as [b ->];
        [lia | rewrite zlen_cons; unfold zlen in *; rewrite length_map; lia | done]. }
  eexists. split.
  - unfold write_sim, mbind, M_bind. change (sim_status (wcm (set_IMSI w1 _))) with (sim_status (wcm w)).
    rewrite Es. reflexivity.
  - split; [done|]. by exists r.
Qed.

(** On a big-endian host the loop bound [le16_to_cpu(content[0])] of the one-byte length is 256 times too
    large, so reading an IMSI overruns the 32-byte buffer. *)
Theorem requestGetIMSI_big_endian {heap : Heap} {modem : Modem} w cid tid ts b cs :
  client w QMUX_TYPE_UIM cid -> s_9x07 (wg w) <> 0 -> world_wf w -> (forall k, malloc_ok k = true) ->
  answer (wsent w) (msg_of w QMUX_TYPE_UIM cid 0x20 (ef_tlvs EF_IMSI)) 30000 =
    (0, Some (response QMUX_TYPE_UIM cid tid 0x20 0 0 ts)) ->
  Forall tlv_wf ts -> zlen (enc_tlvs ts) < 65529 -> 1 <= b < 256 ->
  tlv_value ts 0x11 = Some (le16 (1 + zlen cs) ++ b :: cs) ->
  requestGetIMSI (host := big_host) w = None.
Proof.
  intros Hc H9 (_ & _ & Hb & _) Hm Ha F Hl Hr Hv.
  destruct (requestGetIMSI_reads (host := big_host) w cid tid ts b cs Hc H9 Hm Ha F Hl Hv) as (p & _ & ->).
  assert (E : le16_to_cpu (host := big_host) b = 256 * b).
  { apply Z.eqb_eq. refine (below_forall 256 (fun b => le16_to_cpu (host := big_host) b =? 256 * b) _ b _); [|lia].
    vm_compute. reflexivity. }
  rewrite E. destruct (Z.to_nat (256 * b)) as [|k] eqn:Ek; [lia|]. cbn [imsi_loop].
  destruct (ld _ _) as [c|]; [|done]. change (0 =? 0) with true. cbv iota. cbn [mbind option_bind].
  destruct (st8 (DeviceIMSI w) 0 _) as [b1|] eqn:E1; [|done]. cbn [mbind option_bind].
  apply st8_fits in E1 as (_ & _ & L1).
  destruct (imsi_loop k _ _ _ _ b1) as [[b2 j2]|] eqn:E2; [|done].
  apply imsi_loop_fits in E2; lia.
Qed.

Definition world_uim : World := world_init (globals_client 3 0).
Definition cmcc_digits : list Z := [4; 6; 0; 0; 0; 1; 2; 3; 4; 5; 6; 7; 8; 9; 0].

Theorem requestGetICCID_correct_witness :
  let rsp := response QMUX_TYPE_UIM 3 9 0x20 0 0 [(0x11, [2; 0; 0x98; 0xF6])] in
  exists w', requestGetICCID (heap := any_heap) (modem := fixed_modem rsp) world_uim = Some (0, w') /\
    take 5 (iccid (sim_status (wcm w'))) = str "896F" ++ [0].
Proof.
  set (rsp := response _ _ _ _ _ _ _). cbv zeta.
  destruct (requestGetICCID_correct (heap := any_heap) (modem := fixed_modem rsp) world_uim 3 9 [(0x11, [2; 0; 0x98; 0xF6])]
    2 [8; 9; 6; 15]) as (w' & E & H & _).
  - repeat split; discriminate || reflexivity.
  - discriminate.
  - repeat split.
  - done.
  - reflexivity.
  - repeat constructor; discriminate || reflexivity.
  - reflexivity.
  - lia.
  - repeat constructor; discriminate || reflexivity.
  - reflexivity.
  - reflexivity.
  - exists w'. split; [exact E|]. injection H as H. rewrite <- H. reflexivity.
Defined.

Theorem requestGetIMSI_correct_witness :
  let rsp := response QMUX_TYPE_UIM 3 9 0x20 0 0 [(0x11, [9; 0; 8; 0x49; 0x06; 0x00; 0x21; 0x43; 0x65; 0x87; 0x09])] in
  exists w', requestGetIMSI (heap := any_heap) (modem := fixed_modem rsp) world_uim = Some (0, w') /\
    take 16 (imsi (sim_status (wcm w'))) = str "460001234567890" ++ [0].
Proof.
  set (rsp := response _ _ _ _ _ _ _). cbv zeta.
  destruct (requestGetIMSI_correct (heap := any_heap) (modem := fixed_modem rsp) world_uim 3 9
    [(0x11, [9; 0; 8; 0x49; 0x06; 0x00; 0x21; 0x43; 0x65; 0x87; 0x09])] 7 9 cmcc_digits) as (w' & E & H & _).
  - repeat split; discriminate || reflexivity.
  - discriminate.
  - repeat split.
  - done.
  - reflexivity.
  - repeat constructor; discriminate || reflexivity.
  - reflexivity.
  - lia.
  - split; discriminate || reflexivity.
  - repeat constructor; discriminate || reflexivity.
  - reflexivity.
  - reflexivity.
  - exists w'. split; [exact E|]. injection H as H. rewrite <- H. reflexivity.
Defined.

Theorem requestGetIMSI_big_endian_witness :
  let rsp := response QMUX_TYPE_UIM 3 9 0x20 0 0 [(0x11, [9; 0; 8; 0x49; 0x06; 0x00; 0x21; 0x43; 0x65; 0x87; 0x09])] in
  requestGetIMSI (host := big_host) (heap := any_heap) (modem := fixed_modem rsp) world_uim = None.
Proof.
  set (rsp := response _ _ _ _ _ _ _). cbv zeta.
  apply (requestGetIMSI_big_endian (heap := any_heap) (modem := fixed_modem rsp) world_uim 3 9
    [(0x11, [9; 0; 8; 0x49; 0x06; 0x00; 0x21; 0x43; 0x65; 0x87; 0x09])] 8 [0x49; 0x06; 0x00; 0x21; 0x43; 0x65; 0x87; 0x09]).
  - repeat split; discriminate || reflexivity.
  - discriminate.
  - repeat split.
  - done.
  - reflexivity.
  - repeat constructor; discriminate || reflexivity.
  - reflexivity.
  - lia.
  - reflexivity.
Defined.
