(* ===== verification/QmiRegSpec.v ===== *)
(** * Registration: what the system information decides, and what is published. *)
From S2P Require Import Prelude Util QmiMsg Compose Cm Monad QmiRequests QmiCall QmiStatus.
#[local] Open Scope Z_scope.
#[local] Open Scope c_scope.

(** ** Frames of the request functions *)
Section Frames.
Context {host : Host} {heap : Heap} {modem : Modem}.

(** A part of the world that sending a request does not touch. *)
Definition request_part {X} (P : World -> X) : Prop :=
  (forall w t, P (set_wg w (set_TransactionId (wg w) t)) = P w) /\ (forall w r, P (push_sent w r) = P w).

Lemma ComposeQMUXMsg_globals g T Ty f r g' :
  ComposeQMUXMsg g T Ty f = Some (r, g') -> g' = g \/ exists t, g' = set_TransactionId g t.
Proof.
  unfold ComposeQMUXMsg, GetQMUXTransactionId. intros H.
  repeat (apply bind_Some in H as (? & _ & H)). case_match; [injection H as _ <-; by left|].
  right. repeat (apply bind_Some in H as (? & _ & H)). cbv zeta in H.
  repeat (apply bind_Some in H as (? & _ & H)). case_match.
  - apply bind_Some in H as (? & _ & H). injection H as _ <-. by eexists.
  - injection H as _ <-. by eexists.
Qed.

Lemma keeps_compose {X} (P : World -> X) T Ty f : request_part P -> keeps P (compose T Ty f).
Proof.
  intros [HP _] w r w'. unfold compose. destruct (ComposeQMUXMsg (wg w) T Ty f) as [[r1 g]|] eqn:E; [|done].
  intros [= _ <-]. apply ComposeQMUXMsg_globals in E as [-> | [t ->]]; [by destruct w | apply HP].
Qed.

Lemma keeps_send {X} (P : World -> X) r old : request_part P -> keeps P (QmiThreadSendQMI r old).
Proof.
  intros [_ HP] w x w'. unfold QmiThreadSendQMI, QmiThreadSendQMITimeout. destruct r as [r|]; [|by intros [= _ <-]].
  destruct (answer _ _ _). intros [= _ <-]. apply HP.
Qed.
Hint Resolve keeps_compose keeps_send : keeps.

Lemma keeps_if_tlv {A X} (P : World -> X) m type (old : A) k : (forall p, keeps P (k p)) -> keeps P (if_tlv m type old k).
Proof. intros H. unfold if_tlv, get_tlv. frame. Qed.

Lemma keeps_home {X} (P : World -> X) a b : request_part P -> keeps P (requestGetHomeNetwork a b).
Proof. intros HP. unfold requestGetHomeNetwork. frame; apply keeps_if_tlv; intros p; frame. Qed.
Hint Resolve keeps_home : keeps.
Lemma keeps_cdma_home {X} (P : World -> X) c n : request_part P -> keeps P (cdma_home c n).
Proof. intros HP. unfold cdma_home. frame. Qed.

Lemma keeps_sys_info_loop {X} (P : World -> X) fuel m p L s :
  request_part P -> (forall w v, P (set_wg w (set_cdma (wg w) v)) = P w) ->
  (forall w v, P (set_wg w (set_hdr (wg w) v)) = P w) -> keeps P (sys_info_loop fuel m p L s).
Proof.
  intros HP Hc Hh. revert p L s. induction fuel as [|fuel IH]; intros p L s; cbn [sys_info_loop]; [done|].
  assert (Sc : forall v, keeps P (set_is_cdma v)) by (intros v; apply keeps_modify; auto).
  assert (Sh : forall v, keeps P (set_personality v)) by (intros v; apply keeps_modify; auto).
  assert (C : forall t s, keeps P (sys_info_case m p t s)).
  { intros t s'. unfold sys_info_case, sys_system_case, srv_status, srv_domain, network_id. frame. }
  frame.
Qed.

Lemma cdma_part : request_part (fun w => s_is_cdma (wg w)).
Proof. done. Qed.
Lemma reg_part : request_part (fun w => reg_status (wcm w)).
Proof. done. Qed.
End Frames.
#[export] Hint Resolve keeps_compose keeps_send keeps_home keeps_cdma_home cdma_part reg_part : keeps.

(** ** LTE excludes CDMA *)
Section Lte.
Context {host : Host} {heap : Heap} {modem : Modem}.

Abbreviation cdma := (fun w => s_is_cdma (wg w)).

(** Once LTE is known, [s_is_cdma] is 0. *)
Definition lte_inv (s : SysInfo) (w : World) : Prop := is_lte s <> 0 -> s_is_cdma (wg w) = 0.

(** A step of the loop body from [s]: it keeps the invariant and never forgets LTE. *)
Definition lte_step (s : SysInfo) (c : MW SysInfo) : Prop :=
  forall w s' w', c w = Some (s', w') -> lte_inv s w -> lte_inv s' w' /\ (is_lte s <> 0 -> is_lte s' <> 0).

Lemma lte_bind s c k : lte_step s c -> (forall s', lte_step s' (k s')) -> lte_step s (c ≫= k).
Proof.
  intros Hc Hk w s' w'. unfold mbind, M_bind. destruct (c w) as [[s1 w1]|] eqn:E; [|done].
  intros E2 I. destruct (Hc _ _ _ E I) as [I1 L1]. destruct (Hk _ _ _ _ E2 I1) as [I2 L2]. auto.
Qed.
Lemma lte_frame {A} s (c : MW A) (k : A -> MW SysInfo) : keeps cdma c -> (forall a, lte_step s (k a)) -> lte_step s (c ≫= k).
Proof.
  intros Hc Hk w s' w'. unfold mbind, M_bind. destruct (c w) as [[a w1]|] eqn:E; [|done].
  intros E2 I. apply (Hk a _ _ _ E2). unfold lte_inv. rewrite (Hc _ _ _ E). exact I.
Qed.
Lemma lte_same s s' : is_lte s' = is_lte s -> lte_step s (mret s').
Proof. intros E w s1 w1 [= <- <-] I. unfold lte_inv. rewrite E. auto. Qed.
(** [s_is_cdma = (0 == is_lte)] and [is_lte = 1; s_is_cdma = 0]. *)
Lemma lte_not_lte s s' : is_lte s' = is_lte s -> lte_step s (set_is_cdma (not_lte s);; mret s').
Proof.
  intros E w s1 w1 [= <- <-] I. unfold lte_inv, not_lte. rewrite E. split; [|auto].
  cbn. intros H. by rewrite (proj2 (Z.eqb_neq _ _) H).
Qed.
Lemma lte_set s s' : is_lte s' = 1 -> lte_step s (set_is_cdma 0;; mret s').
Proof. intros E w s1 w1 [= <- <-] I. unfold lte_inv. rewrite E. split; [done|lia]. Qed.

Lemma lte_srv_status m p s k : lte_step s k -> lte_step s (srv_status m p s k).
Proof. intros H. apply lte_frame; [frame|]. intros v. destruct (v =? 2); [done | by apply lte_same]. Qed.
Lemma lte_srv_domain m p s k : lte_step s k -> lte_step s (srv_domain m p s k).
Proof.
  intros H. apply lte_frame; [frame|]. intros v. destruct (v =? 1); [|by apply lte_same].
  apply lte_frame; [frame|]. intros d. destruct (_ =? 0); [by apply lte_same | done].
Qed.
Lemma lte_network_id m p s : lte_step s (network_id m p s).
Proof.
  apply lte_frame; [frame|]. intros v. destruct (v =? 1); [|by apply lte_same].
  do 2 (apply lte_frame; [frame|]; intros ?). by apply lte_same.
Qed.

Lemma sys_info_case_lte m p t s : lte_step s (sys_info_case m p t s).
Proof.
  unfold sys_info_case, sys_system_case.
  repeat match goal with |- lte_step _ (if ?b then _ else _) => destruct b end;
    try (apply lte_srv_status); try (apply lte_bind; [apply lte_srv_domain | intros s']);
    try apply lte_network_id; try (by apply lte_not_lte); try (by apply lte_set); try (by apply lte_same).
  1,2: apply lte_frame; [frame | intros v; by apply lte_same].
  apply lte_frame; [destruct (attached s' =? 0); unfold set_personality; frame|]. intros _.
  apply lte_frame; [auto with keeps|]. intros [c n]. by apply lte_same.
Qed.

Lemma sys_info_loop_lte fuel m p L s : lte_step s (sys_info_loop fuel m p L s).
Proof.
  revert p L s. induction fuel as [|fuel IH]; intros p L s; cbn [sys_info_loop]; [done|].
  destruct (0 <? L); [|by apply lte_same]. apply lte_frame; [frame|]. intros t.
  apply lte_bind; [apply sys_info_case_lte|]. intros s'. apply lte_frame; [frame|]. intros l. apply IH.
Qed.
End Lte.

(** ** The loop over a well-formed response *)
Definition sys_min (t : Z) : Z :=
  if bool_decide (t ∈ [0x10; 0x11; 0x12; 0x13; 0x14; 0x4A; 0x4E; 0x4F; 0x24]) then 1
  else if bool_decide (t ∈ [0x17; 0x18; 0x25; 0x4B; 0x19]) then 26
  else if t =? 0x15 then 42 else 0.
(** Long enough for the code's reads, and not the HDR record, which asks the modem for the home network. *)
Definition sys_ok (x : tlv) : Prop := x.1 <> 0x16 /\ sys_min x.1 <= zlen x.2.
(** LTE or 5G service. *)
Definition is_lte_tlv (x : tlv) : Prop := (x.1 = 0x14 \/ x.1 = 0x4A) /\ exists v, x.2 = 2 :: v.

Section Walk.
Context {host : Host} {heap : Heap} {modem : Modem}.

(** A step that succeeds and keeps the capability string short. *)
Definition fine (c : MW SysInfo) : Prop := forall w, exists s w', c w = Some (s, w') /\ zlen (capstr s) <= 16.

Lemma fine_ret s : zlen (capstr s) <= 16 -> fine (mret s).
Proof. intros H w. by exists s, w. Qed.
Lemma fine_bind c k : fine c -> (forall s, zlen (capstr s) <= 16 -> fine (k s)) -> fine (c ≫= k).
Proof.
  intros Hc Hk w. destruct (Hc w) as (s & w1 & E & H). destruct (Hk s H w1) as (s2 & w2 & E2 & H2).
  exists s2, w2. split; [|done]. by erewrite bind_step.
Qed.
Lemma fine_lift {A} (o : option A) k : is_Some o -> (forall a, fine (k a)) -> fine (lift o ≫= k).
Proof. intros [a ->] H w. rewrite bind_lift. apply H. Qed.
Lemma fine_set v s : zlen (capstr s) <= 16 -> fine (set_is_cdma v;; mret s).
Proof. intros H w. by eexists s, _. Qed.

Lemma fine_srv_status m p s k : is_Some (ld m (p + 3)) -> zlen (capstr s) <= 16 -> fine k -> fine (srv_status m p s k).
Proof. intros H Hs Hk. apply fine_lift; [done|]. intros v. destruct (v =? 2); [done | by apply fine_ret]. Qed.
Lemma fine_srv_domain m p s k :
  is_Some (ld m (p + 3)) -> is_Some (ld m (p + 4)) -> zlen (capstr s) <= 16 -> fine k -> fine (srv_domain m p s k).
Proof.
  intros H H4 Hs Hk. apply fine_lift; [done|]. intros v. destruct (v =? 1); [|by apply fine_ret].
  apply fine_lift; [done|]. intros d. destruct (_ =? 0); [by apply fine_ret | done].
Qed.
Lemma fine_network_id m p s :
  is_Some (ld m p) -> is_Some (lds m (p + 1) 3) -> is_Some (lds m (p + 4) 3) -> zlen (capstr s) <= 16 ->
  fine (network_id m p s).
Proof.
  intros H1 H2 H3 Hs. apply fine_lift; [done|]. intros v. destruct (v =? 1); [|by apply fine_ret].
  apply fine_lift; [done|]. intros c. apply fine_lift; [done|]. intros n. by apply fine_ret.
Qed.

Lemma sys_info_case_fine m p x s :
  sys_ok x -> lds m (p + 3) (zlen x.2) = Some x.2 -> zlen (capstr s) <= 16 -> fine (sys_info_case m p x.1 s).
Proof.
  intros [Hne Hmin] Hx Hs.
  assert (D : forall j, 3 <= j < 3 + zlen x.2 -> is_Some (ld m (p + j))).
  { intros j Hj. replace (p + j) with (p + 3 + (j - 3)) by lia. by rewrite (ld_nth m (p + 3) x.2 (j - 3)) by (done || lia). }
  assert (D3 : forall j, 3 <= j -> j + 3 <= 3 + zlen x.2 -> is_Some (lds m (p + j) 3)).
  { intros j H1 H2. replace (p + j) with (p + 3 + (j - 3)) by lia. by rewrite (lds_sub _ _ _ _ (j - 3) 3 Hx) by lia. }
  unfold sys_info_case, sys_system_case. destruct x as [t v]. cbn [fst snd] in *.
  assert (M : forall n, n <= sys_min t -> n <= zlen v) by (intros; lia).
  repeat match goal with |- context [?a =? ?b] => destruct (Z.eqb_spec a b); [subst; cbn [orb]|]; cbn [orb] end;
    try (apply fine_srv_status; [apply D; specialize (M 1 ltac:(done)); lia | done|];
         first [by apply fine_set | by apply fine_ret]);
    try (apply fine_bind; [apply fine_srv_domain; [apply D | apply D | done |];
           first [specialize (M 26 ltac:(done)); lia | specialize (M 42 ltac:(done)); lia | by apply fine_set | by apply fine_ret] |];
         intros s' Hs'; rewrite ?Z.add_assoc;
         apply fine_network_id; rewrite <- ?Z.add_assoc;
         first [apply D | apply D3 | done];
         first [specialize (M 26 ltac:(done)); lia | specialize (M 42 ltac:(done)); lia]);
    try (apply fine_lift; [apply D; specialize (M 1 ltac:(done)); lia|]; intros; by apply fine_ret);
    try done; by apply fine_ret.
Qed.
End Walk.

Section Loop.
Context {host : Host} {heap : Heap} {modem : Modem}.

Lemma sys_info_case_hit m p x s w s' w' :
  is_lte_tlv x -> lds m (p + 3) (zlen x.2) = Some x.2 -> sys_info_case m p x.1 s w = Some (s', w') -> is_lte s' = 1.
Proof.
  intros [Ht [v Hv]] Hx. pose proof (lds_ld _ _ _ _ 0 2 Hx) as L. rewrite Hv, Z.add_0_r in L. specialize (L eq_refl).
  destruct Ht as [-> | ->]; unfold sys_info_case, sys_system_case; cbn [Z.eqb Pos.eqb]; unfold srv_status; rewrite L, bind_lift;
    by intros [= <- <-].
Qed.

Lemma sys_info_loop_walk fuel P ts s w :
  Forall tlv_wf ts -> Forall sys_ok ts -> (length ts < fuel)%nat -> zlen (capstr s) <= 16 -> lte_inv s w ->
  exists s' w', sys_info_loop fuel (P ++ enc_tlvs ts) (zlen P) (zlen (enc_tlvs ts)) s w = Some (s', w') /\
    zlen (capstr s') <= 16 /\ lte_inv s' w' /\ (is_lte s <> 0 \/ Exists is_lte_tlv ts -> is_lte s' <> 0).
Proof.
  revert P ts s w. induction fuel as [|fuel IH]; intros P ts s w F Fo Hl Hs I; [lia|].
  destruct ts as [|x ts]; cbn [sys_info_loop].
  { change (0 <? zlen (enc_tlvs [])) with false. exists s, w. split; [done|]. split; [done|]. split; [done|].
    intros [H|H]; [done | by apply Exists_nil in H]. }
  apply Forall_cons in F as [Hx F]. apply Forall_cons in Fo as [Hok Fo]. cbn in Hl.
  pose proof (enc_tlv_zlen x) as Lx. pose proof (zlen_nonneg x.2). pose proof (zlen_nonneg (enc_tlvs ts)).
  rewrite enc_tlvs_cons. rewrite (zlen_app (enc_tlv x)). rewrite (proj2 (Z.ltb_lt 0 _)) by lia. cbv iota.
  assert (E1 : ld (P ++ enc_tlv x ++ enc_tlvs ts) (zlen P) = Some x.1) by (unfold enc_tlv; by apply ld_app).
  assert (E2 : lds (P ++ enc_tlv x ++ enc_tlvs ts) (zlen P + 3) (zlen x.2) = Some x.2).
  { unfold enc_tlv. replace (P ++ (x.1 :: le16 (zlen x.2) ++ x.2) ++ enc_tlvs ts) with
      ((P ++ [x.1] ++ le16 (zlen x.2)) ++ x.2 ++ enc_tlvs ts) by (rewrite <- !app_assoc; done).
    apply lds_app; [|done]. zlens. lia. }
  rewrite E1, bind_lift. destruct (sys_info_case_fine _ (zlen P) x s Hok E2 Hs w) as (s1 & w1 & Ec & Hs1).
  destruct (sys_info_case_lte _ _ _ _ _ _ _ Ec I) as [I1 L1].
  erewrite bind_step by exact Ec. rewrite (GetTLV_len P x (enc_tlvs ts)), bind_lift by done.
  specialize (IH (P ++ enc_tlv x) ts s1 w1 F Fo ltac:(lia) Hs1 I1). destruct IH as (s' & w' & E & Hs' & I' & L').
  exists s', w'. rewrite <- app_assoc in E. split.
  { rewrite <- E. f_equal; rewrite ?zlen_app; lia. }
  split; [done|]. split; [done|]. intros Hlte. apply L'. destruct Hlte as [Hlte|Hlte]; [by left; apply L1|].
  apply Exists_cons in Hlte as [Hlte|Hlte]; [left|by right].
  by rewrite (sys_info_case_hit _ _ _ _ _ _ _ Hlte E2 Ec).
Qed.

(** More fuel than the length allows changes nothing. *)
Lemma sys_info_loop_fuel m f1 f2 p L s w :
  Forall is_byte m -> Z.max 0 L < Z.of_nat f1 -> Z.max 0 L < Z.of_nat f2 ->
  sys_info_loop f1 m p L s w = sys_info_loop f2 m p L s w.
Proof.
  intros F. revert f2 p L s w. induction f1 as [|f1 IH]; intros [|f2] p L s w H1 H2; cbn [sys_info_loop]; try lia.
  destruct (Z.ltb_spec 0 L); [|done]. unfold mbind, M_bind, lift. destruct (ld m p) as [t|]; [|done].
  destruct (sys_info_case m p t s w) as [[s1 w1]|]; [|done].
  destruct (rd16 m (p + 1)) as [l|] eqn:El; [|done]. apply rd16_bytes in El as (? & _); [|done]. apply IH; lia.
Qed.
End Loop.

Lemma cap_string_len h s : zlen (capstr s) <= 16 -> zlen (cap_string h s) <= 16.
Proof. intros H. unfold cap_string. repeat case_match; try exact H; vm_compute; discriminate. Qed.

(** The loop of [requestRegistrationState2] over the TLVs of a response ends: with the fuel the model
    gives it, more fuel never changes its result. *)
Theorem sys_info_loop_terminates {host : Host} {heap : Heap} {modem : Modem} m extra p L s w :
  Forall is_byte m -> 0 <= L ->
  sys_info_loop (S (Z.to_nat L) + extra) m p L s w = sys_info_loop (S (Z.to_nat L)) m p L s w.
Proof. intros F HL. apply sys_info_loop_fuel; [done | lia | lia]. Qed.

(** The system information of a well-formed response (without the HDR record) is read without an
    invalid access, whatever its order; the attach state returned is the one published, and when any record
    reports LTE or 5G service the program leaves CDMA mode, even if CDMA service is reported too. *)
Theorem registration_lte_wins {host : Host} {heap : Heap} {modem : Modem} w cid tid ts :
  client w QMUX_TYPE_NAS cid -> malloc_ok 13 = true -> zlen (DataCapStr (reg_status (wcm w))) = 16 ->
  answer (wsent w) (msg_of w QMUX_TYPE_NAS cid 0x4D []) 30000 = (0, Some (response QMUX_TYPE_NAS cid tid 0x4D 0 0 ts)) ->
  Forall tlv_wf ts -> zlen (enc_tlvs ts) < 65529 -> Forall sys_ok ts ->
  exists a w', requestRegistrationState2 w = Some ((0, a), w') /\
    PSAttachedState (reg_status (wcm w')) = a /\
    (Exists is_lte_tlv ts -> s_is_cdma (wg w') = 0).
Proof.
  intros Hc Hm Hcap Ha F Hl Fo. unfold requestRegistrationState2. erewrite bind_step.
  2:{ rewrite compose_plain. apply compose_ok; [done | intros; apply plain_builds | done | done]. }
  fold (next w (msg_of w QMUX_TYPE_NAS cid 0x4D [])). unfold QmiThreadSendQMI, QmiThreadSendQMITimeout. change (30 * 1000) with 30000.
  erewrite bind_step; [|cbn [wsent set_wg]; rewrite Ha; reflexivity]. cbn [Z.eqb Z.ltb Z.compare].
  destruct (response_rsp QMUX_TYPE_NAS cid tid 0x4D 0 0 ts) as [E1 E2]; [split; done..|].
  rewrite E1, E2, !bind_lift. cbn [Z.eqb negb orb].
  set (rts := (2, le16 0 ++ le16 0) :: ts). set (m := response _ _ _ _ _ _ _).
  set (P := [USB_CTL_MSG_TYPE_QMI] ++ le16 (zlen (enc_tlvs rts) + 12) ++ [0; QMUX_TYPE_NAS; cid] ++
            [2] ++ le16 tid ++ le16 0x4D ++ le16 (zlen (enc_tlvs rts))).
  assert (Em : m = P ++ enc_tlvs rts) by (unfold P; by rewrite <- !app_assoc).
  assert (Lr : zlen (enc_tlvs rts) = 7 + zlen (enc_tlvs ts)) by (unfold rts; rewrite enc_tlvs_cons, zlen_app; done).
  pose proof (zlen_nonneg (enc_tlvs ts)) as Hz.
  assert (EL : rd16 m oMUXLength = Some (zlen (enc_tlvs rts))).
  { rewrite Em. unfold P. rewrite !(app_assoc _ _ (le16 (zlen (enc_tlvs rts)))), <- (app_assoc _ (le16 (zlen (enc_tlvs rts)))).
    apply rd16_le16; [unfold is_u16; lia | reflexivity]. }
  rewrite EL, bind_lift. unfold set_is_cdma, set_personality. rewrite !bind_modify.
  set (w1 := set_wg (set_wg _ _) _).
  destruct (sys_info_loop_walk (S (Z.to_nat (zlen (enc_tlvs rts)))) P rts sysinfo_init w1) as (s & w2 & E & Hs & I & HL).
  { constructor; [done|done]. }
  { constructor; [split; [done | vm_compute; discriminate] | done]. }
  { assert (zlen rts <= zlen (enc_tlvs rts)); [|unfold zlen in *; lia]. clear. induction rts as [|x l IH]; [done|].
    rewrite enc_tlvs_cons, zlen_app, zlen_cons, enc_tlv_zlen. pose proof (zlen_nonneg x.2). lia. }
  { vm_compute. discriminate. }
  { intros H. done. }
  rewrite Em. change oTLVs with (zlen P). erewrite bind_step by exact E. rewrite bind_gets.
  assert (Hr : reg_status (wcm w2) = reg_status (wcm w)).
  { rewrite (keeps_sys_info_loop (fun w => reg_status (wcm w)) _ _ _ _ _ (reg_part) (fun _ _ => eq_refl) (fun _ _ => eq_refl) _ _ _ E). done. }
  set (cap := cap_string (s_hdr_personality (wg w2)) s).
  destruct (sts_defined (DataCapStr (reg_status (wcm w))) 0 cap) as [dc Edc]; [lia | rewrite Hcap; by apply cap_string_len|].
  eexists _, _. split.
  - unfold write_reg, reg_state_write, copy_str, mbind, M_bind. rewrite Hr, Edc. reflexivity.
  - split; [done|]. intros Hex. apply I. apply HL. right. by right.
Qed.

(** On modems driven by the older request ([s_9x07] is 0) the registration result is never published:
    whatever the modem answers, the registration record of the status stays what it was. *)
Theorem registration_legacy_unpublished {host : Host} {heap : Heap} {modem : Modem} w old r w' :
  s_9x07 (wg w) = 0 -> requestRegistrationState old w = Some (r, w') ->
  reg_status (wcm w') = reg_status (wcm w).
Proof.
  intros H9. unfold requestRegistrationState. rewrite bind_gets, H9. change (negb (0 =? 0)) with false. cbv iota.
  revert r w'. match goal with |- forall r w', ?c w = _ -> _ => cut (keeps (fun w => reg_status (wcm w)) c); [intros K r w'; apply K|] end.
  unfold read_serving, read_datacap, set_is_cdma, set_personality.
  frame; try (apply keeps_if_tlv; intros p; frame).
Qed.

(** ** The card status *)
Section Card.
Context {host : Host} {heap : Heap} {modem : Modem}.

(** Card and PIN 1 state of the value of a card-status TLV. *)
Definition card_pin (v : bytes) : Z * Z :=
  let b i := nth i v 0 in
  let aid := Z.to_nat (b 21%nat) in
  (b 9%nat, if b 9%nat =? 1 then (if b (22 + aid)%nat =? 1 then b 10%nat else b (23 + aid)%nat) else QMI_PIN_STATUS_NOT_VERIF).

Lemma read_card_spec T cid tid Ty ts v w :
  Forall tlv_wf ts -> zlen (enc_tlvs ts) < 65529 -> tlv_value ts 0x10 = Some v ->
  0 <= nth 21 v 0 -> 24 + nth 21 v 0 <= zlen v ->
  read_card (response T cid tid Ty 0 0 ts) w = Some (card_pin v, w).
Proof.
  intros F Hl Hv H0 Hn. unfold read_card.
  pose proof (get_tlv_response T cid tid Ty 0 0 ts 0x10 w F Hl ltac:(done) ltac:(done)) as H. rewrite Hv in H.
  destruct H as (p & E & _ & Hp). unfold if_tlv. erewrite bind_step by exact E. cbv beta iota.
  assert (L : forall j, 0 <= j < zlen v -> ld (response T cid tid Ty 0 0 ts) (p + (3 + j)) = Some (nth (Z.to_nat j) v 0)).
  { intros j Hj. rewrite Z.add_assoc. by apply ld_nth. }
  pose proof (L 21 ltac:(lia)) as L21. pose proof (L 9 ltac:(lia)) as L9. pose proof (L 10 ltac:(lia)) as L10.
  change (3 + 21) with 24 in L21. change (3 + 9) with 12 in L9. change (3 + 10) with 13 in L10.
  rewrite L21, L9, !bind_lift. unfold card_pin. change (Z.to_nat 21) with 21%nat. change (Z.to_nat 9) with 9%nat.
  set (a := nth 21 v 0) in *.
  destruct (nth 9 v 0 =? 1); [|done].
  replace (p + 25 + a) with (p + (3 + (22 + a))) by lia. rewrite (L (22 + a)), bind_lift by lia.
  replace (p + (3 + (22 + a)) + 1) with (p + (3 + (23 + a))) by lia. rewrite (L (23 + a)), L10 by lia.
  change (Z.to_nat 10) with 10%nat.
  replace (Z.to_nat (22 + a)) with (22 + Z.to_nat a)%nat by lia. replace (Z.to_nat (23 + a)) with (23 + Z.to_nat a)%nat by lia.
  destruct (nth (22 + Z.to_nat a) v 0 =? 1); by rewrite bind_lift.
Qed.
End Card.

(** The SIM state from the card status (modern modems): the state returned is the one of the decision table
    and its name is published, except for a permanently blocked PIN, where the code indexes its table of names
    past the end. *)
Theorem requestGetSIMStatus_card {host : Host} {heap : Heap} {modem : Modem} w old cid tid ts v :
  let '(card, pin) := card_pin v in
  client w QMUX_TYPE_UIM cid -> s_9x07 (wg w) <> 0 -> malloc_ok 13 = true -> zlen (stat (sim_status (wcm w))) = 32 ->
  answer (wsent w) (msg_of w QMUX_TYPE_UIM cid 0x2F []) 30000 = (0, Some (response QMUX_TYPE_UIM cid tid 0x2F 0 0 ts)) ->
  Forall tlv_wf ts -> zlen (enc_tlvs ts) < 65529 -> tlv_value ts 0x10 = Some v ->
  0 <= nth 21 v 0 -> 24 + nth 21 v 0 <= zlen v ->
  (card = 1 -> pin = QMI_PIN_STATUS_PERM_BLOCKED -> requestGetSIMStatus old w = None) /\
  (card <> 1 \/ pin <> QMI_PIN_STATUS_PERM_BLOCKED ->
   exists name w', requestGetSIMStatus old w = Some ((0, sim_status_of card pin), w') /\
     SIM_Status_String (sim_status_of card pin) = Some name /\
     sim_write (sim_status (wcm w)) (Some name) None None = Some (sim_status (wcm w'))).
Proof.
  destruct (card_pin v) as [card pin] eqn:Ecp. intros Hc H9 Hm Hs Ha F Hl Hv H0 Hn.
  assert (Hu : use_uim (wg w) = true).
  { destruct Hc as (H1 & H2 & _). unfold use_uim. rewrite H1. apply andb_true_iff. rewrite !negb_true_iff, !Z.eqb_neq. done. }
  set (w1 := next w (msg_of w QMUX_TYPE_UIM cid 0x2F [])).
  assert (E : requestGetSIMStatus old w = (name ← lift (SIM_Status_String (sim_status_of card pin));
     write_sim (Some name) None None;; mret (0, sim_status_of card pin)) w1).
  { unfold requestGetSIMStatus. rewrite bind_gets, Hu. erewrite bind_step.
    2:{ rewrite compose_plain. apply compose_ok; [done | intros; apply plain_builds | done | done]. }
    unfold QmiThreadSendQMI, QmiThreadSendQMITimeout. change (30 * 1000) with 30000.
    erewrite bind_step; [|cbn [wsent set_wg]; rewrite Ha; reflexivity]. cbn [Z.eqb Z.ltb Z.compare].
    destruct (response_rsp QMUX_TYPE_UIM cid tid 0x2F 0 0 ts) as [E1 E2]; [split; done..|].
    rewrite E1, E2, !bind_lift. cbn [Z.eqb negb orb]. erewrite bind_step; [reflexivity|].
    erewrite bind_step by (by apply (read_card_spec _ _ _ _ _ v)). by rewrite Ecp. }
  rewrite E. split.
  - intros -> ->. done.
  - intros Hne. assert (Hname : exists name, SIM_Status_String (sim_status_of card pin) = Some name /\ zlen name <= 32).
    { unfold sim_status_of. destruct (Z.eqb_spec card 1); cbn [andb].
      - destruct (Z.eqb_spec pin QMI_PIN_STATUS_PERM_BLOCKED); [lia|].
        repeat case_match; eexists; split; try reflexivity; vm_compute; discriminate.
      - eexists. split; [reflexivity | vm_compute; discriminate]. }
    destruct Hname as (name & En & Ln). rewrite En, bind_lift.
    destruct (sts_defined (stat (sim_status (wcm w))) 0 name) as [b Eb]; [lia | lia|].
    exists name. eexists. split; [|split; [done|]].
    + unfold write_sim, mbind, M_bind. change (sim_status (wcm w1)) with (sim_status (wcm w)).
      unfold sim_write, copy_str. rewrite Eb. reflexivity.
    + unfold sim_write, copy_str. by rewrite Eb.
Qed.

(** A serial-number response without the IMEI is dereferenced all the same, and an IMEI of more than
    sixteen bytes overruns its buffer. *)
Theorem requestGetIMEI_unchecked {host : Host} {heap : Heap} {modem : Modem} w cid tid ts :
  client w QMUX_TYPE_DMS cid -> malloc_ok 13 = true -> zlen (DeviceIMEI w) = 16 ->
  answer (wsent w) (msg_of w QMUX_TYPE_DMS cid 0x25 []) 30000 = (0, Some (response QMUX_TYPE_DMS cid tid 0x25 0 0 ts)) ->
  Forall tlv_wf ts -> zlen (enc_tlvs ts) < 65529 ->
  match tlv_value ts 0x11 with None => True | Some v => 16 < zlen v end ->
  requestGetIMEI w = None.
Proof.
  intros Hc Hm Hb Ha F Hl Hv. unfold requestGetIMEI, request. erewrite bind_step.
  2:{ rewrite compose_plain. apply compose_ok; [done | intros; apply plain_builds | done | done]. }
  set (w1 := next w (msg_of w QMUX_TYPE_DMS cid 0x25 [])).
  unfold QmiThreadSendQMI, QmiThreadSendQMITimeout. change (30 * 1000) with 30000.
  erewrite bind_step; [|cbn [wsent set_wg]; rewrite Ha; reflexivity]. cbn [Z.eqb].
  rewrite check_ok; [|done|apply response_rsp; split; done].
  fold (next w (msg_of w QMUX_TYPE_DMS cid 0x25 [])). fold w1.
  pose proof (get_tlv_response QMUX_TYPE_DMS cid tid 0x25 0 0 ts 0x11 w1 F Hl ltac:(done) ltac:(done)) as H.
  destruct (tlv_value ts 0x11) as [v|]; [|by erewrite bind_step by exact H].
  destruct H as (p & E & H1 & H2). erewrite bind_step by exact E. cbv beta iota.
  rewrite H1, bind_lift, H2, bind_lift, bind_gets. unfold mbind at 1, M_bind at 1.
  change (DeviceIMEI w1) with (DeviceIMEI w). by rewrite sts_overflow by lia.
Qed.

Definition sys_sample : list tlv := [(0x10, [2; 0; 0]); (0x14, [2; 2; 1]); (0x15, 1 :: 2 :: replicate 40 0)].

Theorem sys_info_loop_terminates_witness :
  sys_info_loop (heap := any_heap) (modem := silent_modem) (S (Z.to_nat 6) + 9) ([0x14; 3; 0; 2; 2; 1]) 0 6 sysinfo_init world_sample =
  sys_info_loop (heap := any_heap) (modem := silent_modem) (S (Z.to_nat 6)) ([0x14; 3; 0; 2; 2; 1]) 0 6 sysinfo_init world_sample.
Proof.
  apply (sys_info_loop_terminates (heap := any_heap) (modem := silent_modem)).
  - repeat constructor; discriminate || reflexivity.
  - discriminate.
Defined.

Theorem registration_lte_wins_witness :
  let rsp := response QMUX_TYPE_NAS 3 9 0x4D 0 0 sys_sample in
  exists w', requestRegistrationState2 (heap := any_heap) (modem := fixed_modem rsp) world_sample = Some ((0, 1), w') /\
    s_is_cdma (wg w') = 0.
Proof.
  set (rsp := response _ _ _ _ _ _ _). cbv zeta.
  destruct (registration_lte_wins (heap := any_heap) (modem := fixed_modem rsp) world_sample 3 9 sys_sample) as (a & w' & E & Ea & Hl).
  - repeat split; discriminate || reflexivity.
  - reflexivity.
  - reflexivity.
  - reflexivity.
  - repeat constructor; discriminate || reflexivity.
  - reflexivity.
  - repeat constructor; discriminate || (vm_compute; discriminate).
  - exists w'. split.
    + rewrite E. do 3 f_equal. vm_compute in E. injection E as <- _. reflexivity.
    + apply Hl. right. left. split; [by left | by eexists].
Defined.

Theorem registration_legacy_unpublished_witness :
  let w := world_init (set_9x07 (globals_client 3 0) 0) in
  let rsp := response QMUX_TYPE_NAS 3 9 0x24 0 0 [(0x01, [1; 1; 1; 1; 1; 8]); (0x12, [0xCC; 1; 0; 0])] in
  exists w', requestRegistrationState (heap := any_heap) (modem := fixed_modem rsp) 0 w = Some ((0, 1), w') /\
    reg_status (wcm w') = reg_status (wcm w).
Proof.
  set (rsp := response _ _ _ _ _ _ _). cbv zeta. set (w := world_init _). eexists. split; [vm_compute; reflexivity|].
  apply (registration_legacy_unpublished (heap := any_heap) (modem := fixed_modem rsp) w 0 (0, 1)); vm_compute; reflexivity.
Defined.

Definition card_sample (pin : Z) : bytes := replicate 9 0 ++ [1] ++ replicate 11 0 ++ [2; 0xA0; 0; 0; pin].

Theorem requestGetSIMStatus_card_witness :
  let rsp pin := response QMUX_TYPE_UIM 3 9 0x2F 0 0 [(0x10, card_sample pin)] in
  requestGetSIMStatus (heap := any_heap) (modem := fixed_modem (rsp 5)) SIM_ABSENT world_sample = None /\
  exists w', requestGetSIMStatus (heap := any_heap) (modem := fixed_modem (rsp 1)) SIM_ABSENT world_sample = Some ((0, SIM_PIN), w').
Proof.
  cbv zeta. split.
  - set (rsp := response _ _ _ _ _ _ _).
    apply (requestGetSIMStatus_card (heap := any_heap) (modem := fixed_modem rsp) world_sample SIM_ABSENT 3 9 [(0x10, card_sample 5)] (card_sample 5));
      try reflexivity; try discriminate.
    + repeat split; discriminate || reflexivity.
    + repeat constructor; discriminate || reflexivity.
  - set (rsp := response _ _ _ _ _ _ _).
    destruct (requestGetSIMStatus_card (heap := any_heap) (modem := fixed_modem rsp) world_sample SIM_ABSENT 3 9 [(0x10, card_sample 1)] (card_sample 1))
      as [_ H]; try reflexivity; try discriminate.
    + repeat split; discriminate || reflexivity.
    + repeat constructor; discriminate || reflexivity.
    + destruct H as (name & w' & E & _); [right; discriminate|]. by exists w'.
Defined.

Theorem requestGetIMEI_unchecked_witness :
  let rsp := response QMUX_TYPE_DMS 3 9 0x25 0 0 [] in
  requestGetIMEI (heap := any_heap) (modem := fixed_modem rsp) world_sample = None.
Proof.
  set (rsp := response _ _ _ _ _ _ _). cbv zeta.
  apply (requestGetIMEI_unchecked (heap := any_heap) (modem := fixed_modem rsp) world_sample 3 9 []); try reflexivity.
  - repeat split; discriminate || reflexivity.
  - constructor.
Defined.
