(* ===== verification/QmiExchange.v ===== *)
(** * QMIThread.c: the exchange between the sender and the reader thread.
    [QmiThreadSendQMITimeout] and [QmiThreadRecvQMI] share [s_pRequest] and [s_pResponse] under one mutex,
    which the sender gives up only while it waits.  A run is a sequence of critical sections: the
    sender's start ([Send]), the reader's calls ([Recv]), and the sender's return from the wait because it was
    signalled ([Wake]), woke without a signal ([Spurious]) or ran out of time ([Timeout]).
    There is one sender: the main thread. *)
From S2P Require Import Prelude Util QmiMsg Compose Cm Monad QmiRequests Layout QmiStructs.
#[local] Open Scope Z_scope.
#[local] Open Scope c_scope.

Definition oQMICTLType : Z := pCTLMsg->"QMICTLMsgHdr.QMICTLType".
Definition QMICTL_REVOKE_CLIENT_ID_IND : Z := 0x0024.
Definition QMIWDS_GET_PKT_SRVC_STATUS_IND : Z := 0x0022.
Definition QMI_WDA_SET_LOOPBACK_CONFIG_IND : Z := 0x002F.
Definition QMINAS_SERVING_SYSTEM_IND : Z := 0x0024.
Definition QMINAS_SYS_INFO_IND : Z := 0x004D.
Definition RIL_UNSOL_RESPONSE_VOICE_NETWORK_STATE_CHANGED : Z := 0x1004.
Definition RIL_UNSOL_DATA_CALL_LIST_CHANGED : Z := 0x1005.
Definition MODEM_REPORT_RESET_EVENT : Z := 0x1006.
Definition RIL_UNSOL_LOOPBACK_CONFIG_IND : Z := 0x1007.

(** [x_wait] is the request of the call in progress and [x_signalled] that its wait was signalled; [x_events]
    are the events sent to the main thread, with their payload; [x_log] the calls that returned: request, return
    value and response; [x_seen] the messages read since the call in progress began. *)
Record X := {
  s_pRequest : option bytes; s_pResponse : option bytes; x_wait : option bytes; x_signalled : bool;
  x_events : list (Z * bytes); x_log : list (bytes * Z * option bytes); x_seen : list bytes }.
Definition x_init : X :=
  {| s_pRequest := None; s_pResponse := None; x_wait := None; x_signalled := false; x_events := []; x_log := []; x_seen := [] |}.

Section Exchange.
Context {host : Host} {heap : Heap}.

Definition is_response (pRequest pResponse : bytes) : option bool :=
  t1 ← ld pRequest oQMIType; t2 ← ld pResponse oQMIType;
  c1 ← ld pRequest oClientId; c2 ← ld pResponse oClientId;
  if (t1 =? t2) && (c1 =? c2) then
    requestTID ← (if t1 =? QMUX_TYPE_CTL then ld pRequest oTransactionId else rd16 pRequest oTransactionId);
    responseTID ← (if t1 =? QMUX_TYPE_CTL then ld pResponse oTransactionId else rd16 pResponse oTransactionId);
    Some (requestTID =? responseTID)
  else Some false.

(** [le16_to_cpu(pResponse->CTLMsg.QMICTLMsgHdrRsp.QMICTLType == QMICTL_REVOKE_CLIENT_ID_IND)]: the
    conversion is applied to the comparison. *)
Definition is_revoke (m : bytes) : option bool :=
  t ← ld16 m oQMICTLType;
  Some (negb (le16_to_cpu (if t =? QMICTL_REVOKE_CLIENT_ID_IND then 1 else 0) =? 0)).

(** The event a message that answers nothing raises, with its payload. *)
Definition event_of (m : bytes) : option (option (Z * bytes)) :=
  t ← ld m oQMIType;
  revoke ← (if t =? QMUX_TYPE_CTL then is_revoke m else Some false);
  if revoke : bool then Some (Some (MODEM_REPORT_RESET_EVENT, [])) else
  if t =? QMUX_TYPE_NAS then
    ty ← rd16 m oMUXType;
    Some (if (ty =? QMINAS_SERVING_SYSTEM_IND) || (ty =? QMINAS_SYS_INFO_IND)
          then Some (RIL_UNSOL_RESPONSE_VOICE_NETWORK_STATE_CHANGED, []) else None)
  else if t =? QMUX_TYPE_WDS then
    ty ← rd16 m oMUXType;
    Some (if ty =? QMIWDS_GET_PKT_SRVC_STATUS_IND then Some (RIL_UNSOL_DATA_CALL_LIST_CHANGED, []) else None)
  else if t =? QMUX_TYPE_WDS_ADMIN then
    ty ← rd16 m oMUXType;
    if ty =? QMI_WDA_SET_LOOPBACK_CONFIG_IND then
      ind ← lds m oMUXType 15;
      Some (Some (RIL_UNSOL_LOOPBACK_CONFIG_IND, ind))
    else Some None
  else Some None.

(** [malloc(Length + 1)] and the copy of the message. *)
Definition copy_message (m : bytes) : option (option bytes) :=
  L ← rd16 m oQMILength;
  if malloc_ok (L + 1) then b ← lds m 0 (L + 1); Some (Some b) else Some None.

Definition QmiThreadRecvQMI (x : X) (pResponse : option bytes) : option X :=
  match pResponse with
  | None =>
      Some (if is_nonnull (s_pRequest x) then
        {| s_pRequest := None; s_pResponse := None; x_wait := x_wait x; x_signalled := true;
           x_events := x_events x; x_log := x_log x; x_seen := x_seen x |}
      else x)
  | Some m =>
      matched ← match s_pRequest x with Some r => is_response r m | None => Some false end;
      if matched : bool then
        rsp ← copy_message m;
        Some {| s_pRequest := None; s_pResponse := rsp; x_wait := x_wait x; x_signalled := true;
                x_events := x_events x; x_log := x_log x; x_seen := x_seen x ++ [m] |}
      else
        ev ← event_of m;
        Some {| s_pRequest := s_pRequest x; s_pResponse := s_pResponse x; x_wait := x_wait x; x_signalled := x_signalled x;
                x_events := x_events x ++ match ev with Some e => [e] | None => [] end;
                x_log := x_log x; x_seen := x_seen x ++ [m] |}
  end.

(** [QmiThreadSendQMITimeout] up to its wait; [rc] is what [qmidev_send] returned. *)
Definition send_begin (x : X) (r : bytes) (rc : Z) : X :=
  if rc =? 0 then
    {| s_pRequest := Some r; s_pResponse := None; x_wait := Some r; x_signalled := false;
       x_events := x_events x; x_log := x_log x; x_seen := [] |}
  else
    {| s_pRequest := Some r; s_pResponse := None; x_wait := None; x_signalled := false;
       x_events := x_events x; x_log := x_log x ++ [(r, rc, None)]; x_seen := [] |}.

(** From the return [ret] of the wait on, for a caller that wants the response. *)
Definition send_end (x : X) (r : bytes) (ret : Z) : X :=
  {| s_pRequest := s_pRequest x; s_pResponse := s_pResponse x; x_wait := None; x_signalled := false;
     x_events := x_events x; x_log := x_log x ++ [(r, ret, if ret =? 0 then s_pResponse x else None)]; x_seen := x_seen x |}.

Inductive action := Send (r : bytes) (rc : Z) | Recv (m : option bytes) | Wake | Spurious | Timeout.

(** One critical section; [None] when it cannot happen (or is undefined). *)
Definition step (x : X) (a : action) : option X :=
  match a, x_wait x with
  | Send r rc, None => Some (send_begin x r rc)
  | Recv m, _ => QmiThreadRecvQMI x m
  | Wake, Some r => if x_signalled x then Some (send_end x r 0) else None
  | Spurious, Some r => Some (send_end x r 0)
  | Timeout, Some r => Some (send_end x r ETIMEDOUT)
  | _, _ => None
  end.
Fixpoint run (x : X) (l : list action) : option X :=
  match l with [] => Some x | a :: l => x ← step x a; run x l end.

(** ** Invariant *)
(** A response and the message it was copied from. *)
Definition answers_to (r b : bytes) (m : bytes) : Prop := is_response r m = Some true /\ copy_message m = Some (Some b).

Definition wait_inv (x : X) : Prop :=
  match x_wait x with
  | None => True
  | Some r => (s_pRequest x = Some r /\ s_pResponse x = None /\ x_signalled x = false) \/
      (s_pRequest x = None /\ x_signalled x = true /\
       forall b, s_pResponse x = Some b -> exists m, m ∈ x_seen x /\ answers_to r b m)
  end.
(** Every response handed to a caller answers the caller's own request. *)
Definition log_inv (x : X) : Prop :=
  Forall (fun e : bytes * Z * option bytes => let '(r, ret, rsp) := e in
    forall b, rsp = Some b -> ret = 0 /\ exists m, answers_to r b m) (x_log x).
Definition x_inv (x : X) : Prop := wait_inv x /\ log_inv x.

Lemma x_init_inv : x_inv x_init.
Proof. split; [done | constructor]. Qed.

Lemma recv_inv x m x' : QmiThreadRecvQMI x m = Some x' -> x_inv x -> x_inv x'.
Proof.
  intros E [W L]. unfold QmiThreadRecvQMI in E. destruct m as [m|].
  - destruct (match s_pRequest x with Some r => is_response r m | None => Some false end) as [[]|] eqn:Em; [| |done]; cbn [mbind option_bind] in E.
    + destruct (copy_message m) as [rsp|] eqn:Ec; [|done]. injection E as <-. split; [|done].
      unfold wait_inv in *. cbn. destruct (x_wait x) as [r|]; [|done]. right. split; [done|]. split; [done|].
      intros b ->. destruct W as [(W1 & _)|(W1 & _)]; rewrite W1 in Em; [|done].
      exists m. split; [set_solver | done].
    + destruct (event_of m) as [ev|]; [|done]. injection E as <-. split; [|done].
      unfold wait_inv in *. cbn. destruct (x_wait x) as [r|]; [|done]. destruct W as [W|(W1 & W2 & W3)]; [by left|right].
      split; [done|]. split; [done|]. intros b Hb. destruct (W3 b Hb) as (m' & Hm & Ha). exists m'. split; [set_solver | done].
  - injection E as <-. destruct (s_pRequest x) eqn:Ep; [|done]. cbn. split; [|done].
    unfold wait_inv. cbn. destruct (x_wait x); [|done]. right. by split_and!.
Qed.

Lemma step_inv x a x' : step x a = Some x' -> x_inv x -> x_inv x'.
Proof.
  intros E I. assert (Hend : forall r ret, x_wait x = Some r -> x_inv (send_end x r ret)).
  { intros r ret Hw. destruct I as [W L]. split; [done|]. unfold log_inv, send_end. cbn. apply Forall_app. split; [done|].
    constructor; [|constructor]. intros b Hb. destruct (Z.eqb_spec ret 0); [|done]. split; [done|].
    unfold wait_inv in W. rewrite Hw in W. destruct W as [(_ & W & _)|(_ & _ & W)]; [by rewrite W in Hb|].
    destruct (W b Hb) as (m & _ & Hm). by exists m. }
  unfold step in E. destruct a, (x_wait x) as [r0|] eqn:Hw; try done.
  - injection E as <-. destruct I as [W L]. unfold send_begin. destruct (rc =? 0); split; try done.
    + by left.
    + unfold log_inv. cbn. apply Forall_app. split; [done|]. constructor; [done | constructor].
  - by eapply recv_inv.
  - by eapply recv_inv.
  - destruct (x_signalled x); [|done]. injection E as <-. by apply Hend.
  - injection E as <-. by apply Hend.
  - injection E as <-. by apply Hend.
Qed.

Lemma run_inv l x x' : run x l = Some x' -> x_inv x -> x_inv x'.
Proof.
  revert x. induction l as [|a l IH]; intros x; cbn; [by intros [= <-]|].
  destruct (step x a) as [x1|] eqn:E; [|done]. cbn. intros H I. eapply IH; [exact H|]. by eapply step_inv.
Qed.
End Exchange.

Section Theorems.
Context {host : Host} {heap : Heap}.

Lemma ld_prefix m n b i : lds m 0 n = Some b -> 0 <= i < n -> ld b i = ld m i.
Proof.
  intros H Hi. unfold lds in H. destruct (0 <=? n) eqn:E; [|done]. destruct (0 + n <=? zlen m) eqn:E2; [|done].
  injection H as <-. unfold ld. destruct (0 <=? i) eqn:E3; [|done]. change (Z.to_nat 0) with 0%nat. rewrite drop_0.
  apply lookup_take_lt. lia.
Qed.

(** A response has the service and the client of its request, and its transaction identifier. *)
Lemma is_response_ids r m :
  is_response r m = Some true ->
  ld r oQMIType = ld m oQMIType /\ ld r oClientId = ld m oClientId /\
  (if bool_decide (ld r oQMIType = Some QMUX_TYPE_CTL) then ld r oTransactionId = ld m oTransactionId
   else rd16 r oTransactionId = rd16 m oTransactionId).
Proof.
  unfold is_response. destruct (ld r oQMIType) as [t1|]; [|done]. destruct (ld m oQMIType) as [t2|]; [|done].
  destruct (ld r oClientId) as [c1|]; [|done]. destruct (ld m oClientId) as [c2|]; [|done]. cbn [mbind option_bind].
  destruct (Z.eqb_spec t1 t2) as [->|]; [|done]. destruct (Z.eqb_spec c1 c2) as [->|]; [|done]. cbn [andb].
  destruct (Z.eqb_spec t2 QMUX_TYPE_CTL) as [->|Hn].
  - rewrite bool_decide_true by done. destruct (ld r oTransactionId) as [i|]; [|done].
    destruct (ld m oTransactionId) as [j|]; [|done]. cbn. intros [= E]. apply Z.eqb_eq in E as ->. done.
  - rewrite bool_decide_false by congruence. destruct (rd16 r oTransactionId) as [i|]; [|done].
    destruct (rd16 m oTransactionId) as [j|]; [|done]. cbn. intros [= E]. apply Z.eqb_eq in E as ->. done.
Qed.
End Theorems.

(** C1: in every interleaving of the sender, the reader, spurious wake-ups and timeouts, a call that returns a
    response returns 0, and the response is the copy of a message that answers that very call: the same
    service, client and transaction identifier.  No stale or foreign response is ever handed over. *)
Theorem response_belongs_to_request {host : Host} {heap : Heap} l x r ret b :
  run x_init l = Some x -> (r, ret, Some b) ∈ x_log x ->
  ret = 0 /\ exists m, is_response r m = Some true /\ copy_message m = Some (Some b) /\
    ld r oQMIType = ld m oQMIType /\ ld r oClientId = ld m oClientId /\
    (if bool_decide (ld r oQMIType = Some QMUX_TYPE_CTL) then ld r oTransactionId = ld m oTransactionId
     else rd16 r oTransactionId = rd16 m oTransactionId).
Proof.
  intros E Hin. destruct (run_inv l x_init x E x_init_inv) as [_ L]. unfold log_inv in L. rewrite Forall_forall in L.
  destruct (L _ Hin b eq_refl) as (H0 & m & H1 & H2). split; [done|]. exists m. split; [done|]. split; [done|].
  by apply is_response_ids.
Qed.

(** ** A call from its start to its end *)
Section Call.
Context {host : Host} {heap : Heap}.

(** A message that has the fields the reader looks at, and whose length does not go beyond it. *)
Definition complete (m : bytes) : Prop :=
  11 <= zlen m /\ (forall L, rd16 m oQMILength = Some L -> 0 <= L + 1 <= zlen m) /\
  (ld m oQMIType = Some QMUX_TYPE_WDS_ADMIN -> rd16 m oMUXType = Some QMI_WDA_SET_LOOPBACK_CONFIG_IND -> oMUXType + 15 <= zlen m).
(** What ends the call: an answer to the request, or the end of the channel ([None]). *)
Definition ends (r : bytes) (e : option bytes) : bool :=
  match e with Some m => bool_decide (is_response r m = Some true) | None => true end.
(** The response that the caller then gets: the message's copy, if there is memory for it. *)
Definition response_of (e : option bytes) : option bytes := m ← e; default None (copy_message m).
(** The event that anything else raises. *)
Definition raised (e : option bytes) : list (Z * bytes) :=
  match (m ← e; default None (event_of m)) with Some ev => [ev] | None => [] end.
(** The entries that raise events: all but the one that ends the call. *)
Definition others (r : bytes) (ms : list (option bytes)) : list (option bytes) :=
  match list_find (fun e => ends r e = true) ms with Some (i, _) => delete i ms | None => ms end.

Lemma rd16_defined m i : 0 <= i -> i + 2 <= zlen m -> is_Some (rd16 m i).
Proof. intros. unfold rd16, ld16. destruct (lds_defined m i 2) as [b ->]; [lia..|]. by eexists. Qed.
(** The fields are at their places. *)
Ltac place i := let v := eval vm_compute in i in change i with v; lia.
Ltac field m i := let E := fresh "E" in destruct (ld_defined m i) as [? E]; [place i | rewrite E; cbn [mbind option_bind]].
Ltac field16 m i := let E := fresh "E" in destruct (rd16_defined m i) as [? E]; [place i.. | rewrite E; cbn [mbind option_bind]].
Lemma is_response_complete r m : 9 <= zlen r -> 9 <= zlen m -> is_Some (is_response r m).
Proof.
  intros Hr Hm. unfold is_response. field r oQMIType. field m oQMIType. field r oClientId. field m oClientId.
  destruct (_ && _); [|by eexists]. destruct (_ =? QMUX_TYPE_CTL).
  - field r oTransactionId. field m oTransactionId. by eexists.
  - field16 r oTransactionId. field16 m oTransactionId. by eexists.
Qed.
Lemma is_revoke_complete m : 10 <= zlen m -> is_Some (is_revoke m).
Proof. intros Hm. unfold is_revoke, ld16. destruct (lds_defined m oQMICTLType 2) as [b ->]; [place oQMICTLType..|]. by eexists. Qed.
Lemma event_of_complete m : complete m -> is_Some (event_of m).
Proof.
  intros (Hm & _ & HL). unfold event_of. destruct (ld_defined m oQMIType) as [t Et]; [place oQMIType|]. rewrite Et in *. cbn [mbind option_bind].
  assert (is_Some (if t =? QMUX_TYPE_CTL then is_revoke m else Some false)) as [b Eb].
  { destruct (t =? QMUX_TYPE_CTL); [apply is_revoke_complete; lia | by eexists]. }
  rewrite Eb. cbn [mbind option_bind]. destruct b; [by eexists|].
  destruct (rd16_defined m oMUXType) as [ty Ety]; [place oMUXType..|]. rewrite Ety in *. cbn [mbind option_bind].
  destruct (t =? QMUX_TYPE_NAS); [by eexists|]. destruct (t =? QMUX_TYPE_WDS); [by eexists|].
  destruct (Z.eqb_spec t QMUX_TYPE_WDS_ADMIN) as [->|]; [|by eexists].
  destruct (Z.eqb_spec ty QMI_WDA_SET_LOOPBACK_CONFIG_IND) as [->|]; [|by eexists].
  destruct (lds_defined m oMUXType 15) as [i ->]; [done.. | by apply HL|]. by eexists.
Qed.
Lemma copy_complete m : complete m -> is_Some (copy_message m).
Proof.
  intros (Hm & HL & _). unfold copy_message. destruct (rd16_defined m oQMILength) as [L E]; [place oQMILength..|].
  specialize (HL L E). rewrite E. cbn [mbind option_bind]. destruct (malloc_ok _); [|by eexists].
  destruct (lds_defined m 0 (L + 1)) as [b ->]; [lia..|]. by eexists.
Qed.

(** The channel [x] after the entry [e], which does not end the call. *)
Definition after_other (x : X) (e : option bytes) : X :=
  {| s_pRequest := s_pRequest x; s_pResponse := s_pResponse x; x_wait := x_wait x; x_signalled := x_signalled x;
     x_events := x_events x ++ raised e; x_log := x_log x; x_seen := x_seen x ++ match e with Some m => [m] | None => [] end |}.
Lemma recv_other x e : from_option complete True e -> match s_pRequest x with Some r => ends r e = false /\ 9 <= zlen r | None => True end ->
  QmiThreadRecvQMI x e = Some (after_other x e).
Proof.
  intros He Hr. unfold QmiThreadRecvQMI, after_other, raised. destruct e as [m|]; cbn [mbind option_bind from_option] in *.
  - destruct (event_of_complete m He) as [ev Ev]. rewrite Ev.
    assert (match s_pRequest x with Some r => is_response r m | None => Some false end = Some false) as ->.
    { destruct (s_pRequest x) as [r|]; [|done]. destruct Hr as [Hr Hl].
      destruct (is_response_complete r m) as [[] E]; [done | destruct He; lia | | done]. unfold ends in Hr. by rewrite bool_decide_true in Hr. }
    reflexivity.
  - destruct x as [[r|] ? ? ? ? ? ?]; cbn in *; [by destruct Hr|]. by rewrite !app_nil_r.
Qed.
Lemma recv_end x r e : s_pRequest x = Some r -> from_option complete True e -> ends r e = true ->
  exists seen, QmiThreadRecvQMI x e = Some {| s_pRequest := None; s_pResponse := response_of e; x_wait := x_wait x; x_signalled := true;
    x_events := x_events x; x_log := x_log x; x_seen := seen |}.
Proof.
  intros Er He Hend. unfold QmiThreadRecvQMI, response_of. rewrite Er. destruct e as [m|]; cbn in *; [|by eexists].
  apply bool_decide_eq_true in Hend as ->. destruct (copy_complete m He) as [c ->]. by eexists.
Qed.
(** While nobody waits for an answer every message is an event. *)
Lemma recv_idle ms x : s_pRequest x = None -> Forall (from_option complete True) ms ->
  exists x', run x (map Recv ms) = Some x' /\ s_pRequest x' = None /\ s_pResponse x' = s_pResponse x /\ x_wait x' = x_wait x /\
    x_signalled x' = x_signalled x /\ x_events x' = x_events x ++ concat (map raised ms) /\ x_log x' = x_log x.
Proof.
  revert x. induction ms as [|e ms IH]; intros x Hx HF; cbn [map run].
  - exists x. cbn. by rewrite app_nil_r.
  - apply Forall_cons in HF as [He HF]. unfold step. rewrite (recv_other x e He) by by rewrite Hx. cbn [mbind option_bind].
    destruct (IH (after_other x e)) as (x' & E & H1 & H2 & H3 & H4 & H5 & H6); [done | done|].
    exists x'. split_and!; try done. rewrite H5. cbn. by rewrite <- app_assoc.
Qed.
Lemma recv_waiting ms x r : s_pRequest x = Some r -> s_pResponse x = None -> x_signalled x = false -> 9 <= zlen r -> Forall (from_option complete True) ms ->
  exists x', run x (map Recv ms) = Some x' /\ x_wait x' = x_wait x /\ x_log x' = x_log x /\ x_events x' = x_events x ++ concat (map raised (others r ms)) /\
    s_pResponse x' = (ie ← list_find (fun e => ends r e = true) ms; response_of ie.2) /\
    x_signalled x' = is_nonnull (list_find (fun e => ends r e = true) ms).
Proof.
  unfold others. revert x. induction ms as [|e ms IH]; intros x Hx Hn Hs Hr HF; cbn [map run].
  - exists x. cbn. by rewrite app_nil_r.
  - apply Forall_cons in HF as [He HF]. unfold step. cbn [list_find]. destruct (ends r e) eqn:Hend.
    + rewrite decide_True by done. destruct (recv_end x r e Hx He Hend) as [seen E]. rewrite E. cbn [mbind option_bind].
      edestruct recv_idle as (x' & Er & H1 & H2 & H3 & H4 & H5 & H6); [|exact HF|exists x'; split_and!; [exact Er | done..]]. done.
    + rewrite decide_False by done. rewrite (recv_other x e He) by by rewrite Hx. cbn [mbind option_bind].
      destruct (IH (after_other x e)) as (x' & E & H1 & H2 & H3 & H4 & H5); [done..|]. exists x'. split; [exact E|]. rewrite H3, H4, H5. split; [done|]. split; [done|].
      cbn [after_other x_events]. destruct (list_find _ ms) as [[i e']|]; cbn; (split; [by rewrite <- app_assoc | done]).
Qed.
End Call.

(** C25: a call returns, and with the right answer.  Whatever the reader reads while the call waits: the call goes on waiting until the first
    answer to its request or the end of the channel, and from then on it returns 0 with the copy of that answer (nothing at the end of the
    channel), whatever is read before it wakes up; everything else that was read has raised its event.  At any time it can return by its
    timeout, with no response, and a spurious wake-up before the answer makes it return 0 without one. *)
Theorem call_returns {host : Host} {heap : Heap} x r ms :
  x_wait x = None -> 9 <= zlen r -> Forall (from_option complete True) ms ->
  exists x', run x (Send r 0 :: map Recv ms) = Some x' /\ x_wait x' = Some r /\
    x_events x' = x_events x ++ concat (map raised (others r ms)) /\
    (let returns a ret rsp := exists x'', step x' a = Some x'' /\ x_wait x'' = None /\ x_log x'' = x_log x ++ [(r, ret, rsp)] in
     returns Timeout ETIMEDOUT None /\
     match list_find (fun e => ends r e = true) ms with
     | None => step x' Wake = None /\ returns Spurious 0 None
     | Some (_, e) => returns Wake 0 (response_of e) /\ returns Spurious 0 (response_of e)
     end).
Proof.
  intros Hw Hr HF. cbn [run]. unfold step at 1. rewrite Hw. cbn [mbind option_bind].
  destruct (recv_waiting ms (send_begin x r 0) r) as (x' & E & H1 & H2 & H3 & H4 & H5); [done..|].
  exists x'. split; [exact E|]. split; [exact H1|]. split; [exact H3|]. cbv zeta. unfold step. rewrite H1, H5.
  destruct (list_find _ ms) as [[i e]|]; cbn in *; split_and!; try done; eexists; (split; [reflexivity|]); (split; [done|]); cbn; rewrite H2, ?H4; done.
Qed.

(** Two requests in a row to the same client: the late answer to the first is not taken for the second's. *)
Definition plain_message (T cid ctl tid ty : Z) : bytes := enc_qmux T cid ctl tid ty [].
Definition late_run : list action :=
  [Send (plain_message 3 1 0 8 0x24) 0; Timeout; Send (plain_message 3 1 0 9 0x25) 0;
   Recv (Some (plain_message 3 1 2 8 0x24)); Recv (Some (plain_message 3 1 2 9 0x25)); Wake].

Definition ran (l : list action) : X := default x_init (run (heap := any_heap) x_init l).

Theorem response_belongs_to_request_witness :
  run (heap := any_heap) x_init late_run = Some (ran late_run) /\
  x_log (ran late_run) =
    [(plain_message 3 1 0 8 0x24, 110, None); (plain_message 3 1 0 9 0x25, 0, Some (plain_message 3 1 2 9 0x25))] /\
  exists m, is_response (plain_message 3 1 0 9 0x25) m = Some true.
Proof.
  assert (E : run (heap := any_heap) x_init late_run = Some (ran late_run)) by (vm_compute; reflexivity).
  split; [exact E|]. split; [vm_compute; reflexivity|].
  destruct (response_belongs_to_request (heap := any_heap) late_run (ran late_run) (plain_message 3 1 0 9 0x25) 0
    (plain_message 3 1 2 9 0x25) E) as (_ & m & H & _).
  - assert (El : x_log (ran late_run) = [(plain_message 3 1 0 8 0x24, 110, None);
      (plain_message 3 1 0 9 0x25, 0, Some (plain_message 3 1 2 9 0x25))]) by (vm_compute; reflexivity).
    rewrite El. right. left.
  - exists m. exact H.
Defined.

(** An indication, the answer, and then another message, before the caller wakes up. *)
Theorem call_returns_witness :
  let r := plain_message 3 1 0 9 0x25 in
  let ms := [Some (plain_message 3 255 4 1 0x24); Some (plain_message 3 1 2 8 0x24); Some (plain_message 3 1 2 9 0x25); Some (plain_message 1 255 4 2 0x22)] in
  exists x' x'', run (heap := any_heap) x_init (Send r 0 :: map Recv ms) = Some x' /\ step (heap := any_heap) x' Wake = Some x'' /\
    x_events x' = [(0x1004, []); (0x1004, []); (0x1005, [])] /\ x_log x'' = [(r, 0, Some (plain_message 3 1 2 9 0x25))].
Proof.
  intros r ms. destruct (call_returns (heap := any_heap) x_init r ms) as (x' & E & _ & Ev & _ & H); [done | by apply Z.leb_le | | ].
  - repeat apply Forall_cons_2; try exact (Forall_nil_2 _); cbn [from_option]; (split; [by apply Z.leb_le|]); (split; [|intros Ht; exfalso; revert Ht; vm_compute; discriminate]);
      intros L EL; (assert (L = 12) as ->; [revert EL; vm_compute; congruence|]); split; by apply Z.leb_le.
  - assert (El : list_find (fun e => ends r e = true) ms = Some (2%nat, Some (plain_message 3 1 2 9 0x25))) by (vm_compute; reflexivity).
    rewrite El in H. destruct H as [(x'' & Es & _ & Hl) _]. exists x', x''. split; [exact E|]. split; [exact Es|]. split.
    + rewrite Ev. vm_compute. reflexivity.
    + rewrite Hl. vm_compute. reflexivity.
Defined.
