(* ===== verification/WwanCM.v ===== *)
(** * QmiWwanCM.c: the qmi_wwan device.
    Control messages and the allocation of clients, on top of [QmiThreadSendQMI] (the class [Modem]); the reader
    thread, which turns what it polls into calls of [QmiThreadRecvQMI]. *)
From S2P Require Import Prelude Util QmiMsg Compose Cm Monad QmiRequests QmiExchange Layout QmiStructs.
#[local] Open Scope Z_scope.
#[local] Open Scope c_scope.

Definition ENODEV : Z := 19.
Definition oCtlCtlFlags : Z := QCQMIMSG∙"CTLMsg.QMICTLMsgHdr.CtlFlags".
Definition oCtlTransactionId : Z := QCQMIMSG∙"CTLMsg.QMICTLMsgHdr.TransactionId".
Definition oCtlType : Z := QCQMIMSG∙"CTLMsg.QMICTLMsgHdr.QMICTLType".
Definition oCtlLength : Z := QCQMIMSG∙"CTLMsg.QMICTLMsgHdr.Length".
Definition oCtlTLV : Z := QCQMIMSG∙"CTLMsg.QMICTLMsgHdrRsp.TLVType".
Definition sizeof_QCQMICTL_MSG_HDR : Z := sizeof[QCQMICTL_MSG_HDR].
Definition QMICTL_GET_VERSION_REQ : Z := 0x0021.
Definition QMICTL_GET_CLIENT_ID_REQ : Z := 0x0022.
Definition QMICTL_RELEASE_CLIENT_ID_REQ : Z := 0x0023.
Definition QMICTL_SYNC_REQ : Z := 0x0027.
Definition QMUX_TYPE_ALL : Z := 0xFF.

Definition GetQCTLTransactionId (TransactionId : Z) : Z * Z :=
  let t := TransactionId + 1 in
  let t := if 0xFF <? t then 1 else t in (u8 t, t).

(** [typedef USHORT ( *CUSTOMQCTL)(PQMICTL_MSG, void * )] *)
Definition CUSTOMQCTL : Type := bytes -> option (bytes * Z).

(** The state of this file: the world of the requests, the counter of control transactions and the
    profile's [qmap_version]. *)
Record CW := { cw_world : World; cw_tid : Z; cw_qmap_version : Z }.
Abbreviation MC := (M CW).
Definition in_world {A} (m : MW A) : MC A := fun c =>
  match m (cw_world c) with
  | Some (a, w) => Some (a, {| cw_world := w; cw_tid := cw_tid c; cw_qmap_version := cw_qmap_version c |})
  | None => None
  end.
Definition set_client (T id : Z) : MC unit := modify (fun c =>
  let w := cw_world c in let g := wg w in
  {| cw_world := set_wg w {| qmiclientId := <[Z.to_nat T := id]> (qmiclientId g);
         WdsConnectionIPv4Handle := WdsConnectionIPv4Handle g; WdsConnectionIPv6Handle := WdsConnectionIPv6Handle g;
         s_is_cdma := s_is_cdma g; s_hdr_personality := s_hdr_personality g; s_9x07 := s_9x07 g;
         qmap_version := qmap_version g; TransactionId := TransactionId g |};
     cw_tid := cw_tid c; cw_qmap_version := cw_qmap_version c |}).
Definition set_version (v : Z) : MC unit := modify (fun c =>
  {| cw_world := cw_world c; cw_tid := cw_tid c; cw_qmap_version := v |}).

Section Wwan.
Context {host : Host} {heap : Heap}.

Definition CtlGetVersionReq : CUSTOMQCTL := fun m =>
  m ← st8 m pCTLMsg->"GetVersionReq.TLVType" 0x01;
  m ← st16 m pCTLMsg->"GetVersionReq.TLVLength" (cpu_to_le16 0x0001);
  m ← st8 m pCTLMsg->"GetVersionReq.QMUXTypes" QMUX_TYPE_ALL;
  Some (m, sizeof[QMICTL_GET_VERSION_REQ_MSG]).
Definition CtlGetClientIdReq (QMIType : Z) : CUSTOMQCTL := fun m =>
  m ← st8 m pCTLMsg->"GetClientIdReq.TLVType" 0x01;
  m ← st16 m pCTLMsg->"GetClientIdReq.TLVLength" (cpu_to_le16 0x0001);
  m ← st8 m pCTLMsg->"GetClientIdReq.QMIType" QMIType;
  Some (m, sizeof[QMICTL_GET_CLIENT_ID_REQ_MSG]).
Definition CtlReleaseClientIdReq (QMIType ClientId : Z) : CUSTOMQCTL := fun m =>
  m ← st8 m pCTLMsg->"ReleaseClientIdReq.TLVType" 0x01;
  m ← st16 m pCTLMsg->"ReleaseClientIdReq.TLVLength" (cpu_to_le16 0x0002);
  m ← st8 m pCTLMsg->"ReleaseClientIdReq.QMIType" QMIType;
  m ← st8 m pCTLMsg->"ReleaseClientIdReq.ClientId" ClientId;
  Some (m, sizeof[QMICTL_RELEASE_CLIENT_ID_REQ_MSG]).

(** [junk] is what the uninitialised buffer [QMIBuf] holds.  Result: the request or NULL, and the counter. *)
Definition ComposeQCTLMsg (junk : bytes) (tid QMICTLType : Z) (customQctlMsgFunction : option CUSTOMQCTL)
  : option (option bytes * Z) :=
  m ← st8 junk oIFType USB_CTL_MSG_TYPE_QMI;
  m ← st8 m oQMICtlFlags 0x00;
  m ← st8 m oQMIType QMUX_TYPE_CTL;
  m ← st8 m oClientId 0x00;
  m ← st8 m oCtlCtlFlags 0x00;
  let '(id, tid) := GetQCTLTransactionId tid in
  m ← st8 m oCtlTransactionId id;
  m ← st16 m oCtlType (cpu_to_le16 QMICTLType);
  m ← match customQctlMsgFunction with
      | Some f => '(m, n) ← f m; st16 m oCtlLength (cpu_to_le16 (u16 (n - sizeof_QCQMICTL_MSG_HDR)))
      | None => st16 m oCtlLength (cpu_to_le16 0x0000)
      end;
  L ← rd16 m oCtlLength;
  m ← st16 m oQMILength (cpu_to_le16 (u16 (L + sizeof_QCQMICTL_MSG_HDR + sizeof_QCQMI_HDR - 1)));
  Q ← rd16 m oQMILength;
  let Length := Q + 1 in
  if malloc_ok Length then p ← lds m 0 Length; Some (Some p, tid) else Some (None, tid).

(** What poll and write do to one [QmiWwanSendQMI]: the result of poll, whether the file is
    writable, and the result of write. *)
Record SendEnv := { poll_ret : Z; pollout : bool; write_ret : Z }.

(** The request is changed in place, and the sender's [s_pRequest] points to it: the reader compares answers
    with the changed request.  Result: the return value, the request, and what was written. *)
Definition QmiWwanSendQMI (cdc_wdm_fd : Z) (e : SendEnv) (pRequest : bytes) : option (Z * bytes * option bytes) :=
  if cdc_wdm_fd =? -1 then Some (- ENODEV, pRequest, None) else
  t ← ld pRequest oQMIType;
  r ← (if t =? QMUX_TYPE_WDS_IPV6 then st8 pRequest oQMIType QMUX_TYPE_WDS else Some pRequest);
  if pollout e then
    L ← rd16 r oQMILength;
    let nwrites := L + 1 in
    out ← lds r 0 nwrites;
    Some (if write_ret e =? nwrites then 0 else write_ret e, r, Some out)
  else Some (poll_ret e, r, None).

Context {modem : Modem} (junk : bytes).

Definition compose_ctl (QMICTLType : Z) (f : option CUSTOMQCTL) : MC (option bytes) := fun c =>
  match ComposeQCTLMsg junk (cw_tid c) QMICTLType f with
  | Some (r, t) => Some (r, {| cw_world := cw_world c; cw_tid := t; cw_qmap_version := cw_qmap_version c |})
  | None => None
  end.

(** The response is never freed. *)
Definition QmiWwanGetClientID (QMIType : Z) : MC Z :=
  req ← compose_ctl QMICTL_GET_CLIENT_ID_REQ (Some (CtlGetClientIdReq QMIType));
  '(_, pResponse) ← in_world (QmiThreadSendQMI req Wild);
  match pResponse with
  | Wild => undefined
  | Null => mret 0
  | Live m =>
      QMUXResult ← lift (ld16 m pCTLMsg->"QMICTLMsgHdrRsp.QMUXResult");
      QMUXError ← lift (ld16 m pCTLMsg->"QMICTLMsgHdrRsp.QMUXError");
      ClientId ← lift (ld m pCTLMsg->"GetClientIdRsp.ClientId");
      if (cpu_to_le16 QMUXResult =? 0) && (cpu_to_le16 QMUXError =? 0) then
        t ← lift (ld m pCTLMsg->"GetClientIdRsp.QMIType");
        mret (if QMIType =? t then ClientId else 0)
      else mret 0
  end.

Definition QmiWwanReleaseClientID (QMIType ClientId : Z) : MC Z :=
  req ← compose_ctl QMICTL_RELEASE_CLIENT_ID_REQ (Some (CtlReleaseClientIdReq (u8 QMIType) (u8 ClientId)));
  _ ← in_world (QmiThreadSendQMI req Null);
  mret 0.

(** Up to ten attempts, one second apart; [n] are left. *)
Fixpoint sync_loop (n : nat) (ret : Z) : MC Z :=
  match n with
  | O => mret ret
  | S n =>
      req ← compose_ctl QMICTL_SYNC_REQ None;
      '(ret, _) ← in_world (QmiThreadSendQMITimeout req Null (1 * 1000));
      if ret =? 0 then mret 0 else sync_loop n ret
  end.

(** The versions of the services; only the one of WDS-admin matters.  [MinorVersion] is used as it is stored. *)
Fixpoint version_loop (n : nat) (m : bytes) (p : Z) : MC unit :=
  match n with
  | O => mret tt
  | S n =>
      t ← lift (ld m p);
      (if t =? QMUX_TYPE_WDS_ADMIN then
         v ← lift (ld16 m (p + QMUX_TYPE_VERSION_STRUCT∙"MinorVersion")); set_version (if 16 <? v then 1 else 0)
       else mret tt);;
      version_loop n m (p + sizeof[QMUX_TYPE_VERSION_STRUCT])
  end.

Definition get_version (qmap_mode : Z) : MC unit :=
  req ← compose_ctl QMICTL_GET_VERSION_REQ (Some CtlGetVersionReq);
  '(_, pResponse) ← in_world (QmiThreadSendQMI req Wild);
  match pResponse with
  | Wild => undefined
  | Null => mret tt
  | Live m =>
      if qmap_mode =? 0 then mret tt else
      r ← lift (ld16 m pCTLMsg->"QMICTLMsgHdrRsp.QMUXResult");
      if negb (r =? 0) then mret tt else
      e ← lift (ld16 m pCTLMsg->"QMICTLMsgHdrRsp.QMUXError");
      if negb (e =? 0) then mret tt else
      n ← lift (ld m pCTLMsg->"GetVersionRsp.NumElements");
      version_loop (Z.to_nat n) m pCTLMsg->"GetVersionRsp.TypeVersion"
  end.

Definition allocate (T service : Z) : MC unit :=
  id ← QmiWwanGetClientID service; set_client T id.

Definition QmiWwanInit (qmap_mode enable_ipv6 : Z) : MC Z :=
  let direct := (qmap_mode =? 0) || (qmap_mode =? 1) in
  ret ← (if direct then sync_loop 10 0 else mret 0);
  if negb (ret =? 0) then mret ret else
  get_version qmap_mode;;
  allocate QMUX_TYPE_WDS QMUX_TYPE_WDS;;
  when (negb (enable_ipv6 =? 0)) (allocate QMUX_TYPE_WDS_IPV6 QMUX_TYPE_WDS);;
  allocate QMUX_TYPE_DMS QMUX_TYPE_DMS;;
  allocate QMUX_TYPE_NAS QMUX_TYPE_NAS;;
  allocate QMUX_TYPE_UIM QMUX_TYPE_UIM;;
  when direct (allocate QMUX_TYPE_WDS_ADMIN QMUX_TYPE_WDS_ADMIN);;
  mret 0.

(** From index [i] on, [n] left. *)
Fixpoint deinit_loop (n : nat) (i : Z) : MC unit :=
  match n with
  | O => mret tt
  | S n =>
      id ← gets (fun c => qmiclientId (wg (cw_world c)) !!! Z.to_nat i);
      when (negb (id =? 0)) (QmiWwanReleaseClientID i id;; set_client i 0);;
      deinit_loop n (i + 1)
  end.
Definition QmiWwanDeInit : MC Z := deinit_loop 27 0;; mret 0.
End Wwan.

(** ** The reader thread *)
Definition RIL_REQUEST_QUIT : Z := 0x1000.
Definition RIL_INDICATE_DEVICE_CONNECTED : Z := 0x1002.
Definition RIL_INDICATE_DEVICE_DISCONNECTED : Z := 0x1003.
Definition SIG_EVENT_STOP : Z := 2.
Definition sizeof_QMIBuf : Z := 4096.

(** A stream descriptor in non-blocking mode: [read(fd, buf, n)] takes what is there, -1 when nothing is (0 when
    nothing is asked for). *)
Definition read_fd (avail : bytes) (n : Z) : Z * bytes * bytes :=
  if n =? 0 then (0, [], avail) else
  match avail with
  | [] => (-1, [], [])
  | _ => let k := Z.to_nat (Z.min n (zlen avail)) in (Z.of_nat k, take k avail, drop k avail)
  end.

Section Reader.
Context {host : Host}.

(** Reads one message of the proxy's stream into [buf]; the parameter [size] is not used.  Result: the return
    value, the buffer and what is left in the stream. *)
Definition qmi_proxy_read (avail buf : bytes) : option (Z * bytes * bytes) :=
  let '(n, got, rest) := read_fd avail sizeof_QCQMI_HDR in
  buf ← sts buf 0 got;
  if n =? sizeof_QCQMI_HDR then
    L ← rd16 buf oQMILength;
    let want := L + 1 - sizeof_QCQMI_HDR in
    (* a length below 5 becomes a huge size_t *)
    let '(n2, got2, rest) := read_fd rest (want mod 2 ^ 64) in
    buf ← sts buf sizeof_QCQMI_HDR got2;
    Some (n + n2, buf, rest)
  else Some (n, buf, rest).

(** What one [poll] returns: its timeout, a failure, or what the two descriptors have: whether they hung up (or
    are invalid) and, when readable, the trigger event (a short read gives none) and the data that arrived. *)
Inductive polled :=
  | PollTimeout
  | PollFail
  | Ready (ctl_hup : bool) (ctl : option (option Z)) (dev_hup : bool) (dev : option bytes).
(** What the thread does to the others: an event to the main thread, or a call of [QmiThreadRecvQMI]. *)
Inductive effect := Event (e : Z) | RecvQMI (m : option bytes).

(** [wait_for_request_quit], the static buffer, and what is left unread of the proxy's stream. *)
Record Reader := { wait_for_request_quit : bool; QMIBuf : bytes; stream : bytes }.

(** One read of the device, or of the proxy when a multiplexer is used ([direct] is false). *)
Definition device_read (direct : bool) (s : Reader) (arrived : bytes) : option (Z * bytes * bytes) :=
  if direct then
    let '(n, got, _) := read_fd arrived sizeof_QMIBuf in
    buf ← sts (QMIBuf s) 0 got; Some (n, buf, [])
  else qmi_proxy_read (stream s ++ arrived) (QMIBuf s).

(** One turn of the loop.  Result: whether it goes on, the state, and the effects. *)
Definition reader_turn (direct : bool) (s : Reader) (p : polled) : option (bool * Reader * list effect) :=
  match p with
  | PollTimeout => Some (wait_for_request_quit s, s, if wait_for_request_quit s then [RecvQMI None] else [])
  | PollFail => Some (false, s, [])
  | Ready ctl_hup ctl dev_hup dev =>
      if ctl_hup then Some (false, s, []) else
      let quit := bool_decide (ctl = Some (Some RIL_REQUEST_QUIT)) in
      let s := {| wait_for_request_quit := wait_for_request_quit s || bool_decide (ctl = Some (Some SIG_EVENT_STOP));
                  QMIBuf := QMIBuf s; stream := stream s |} in
      if quit then Some (false, s, []) else
      if dev_hup then Some (false, s, []) else
      match dev with
      | None => Some (true, s, [])
      | Some arrived =>
          '(nreads, buf, rest) ← device_read direct s arrived;
          let s := {| wait_for_request_quit := wait_for_request_quit s; QMIBuf := buf; stream := rest |} in
          if nreads <=? 0 then Some (true, s, []) else
          L ← rd16 buf oQMILength;
          Some (true, s, if nreads =? L + 1 then [RecvQMI (Some buf)] else [])
      end
  end.

Fixpoint reader_loop (direct : bool) (s : Reader) (ps : list polled) : option (bool * list effect) :=
  match ps with
  | [] => Some (true, [])
  | p :: ps =>
      '(go, s, es) ← reader_turn direct s p;
      if go : bool then '(go, es') ← reader_loop direct s ps; Some (go, es ++ es')
      else Some (false, es)
  end.

(** The whole thread on a finite sequence of polls; [opened] tells whether the device could be opened. *)
Definition QmiWwanThread (qmap_mode : Z) (opened : bool) (buf : bytes) (ps : list polled) : option (list effect) :=
  let direct := (qmap_mode =? 0) || (qmap_mode =? 1) in
  if negb opened then Some [Event RIL_INDICATE_DEVICE_DISCONNECTED] else
  '(go, es) ← reader_loop direct {| wait_for_request_quit := false; QMIBuf := buf; stream := [] |} ps;
  Some (Event RIL_INDICATE_DEVICE_CONNECTED :: es ++
        if go : bool then [] else [Event RIL_INDICATE_DEVICE_DISCONNECTED; RecvQMI None]).
End Reader.
