(* ===== verification/WwanSpec.v ===== *)
(** * What the qmi_wwan device of WwanCM.v guarantees. *)
From S2P Require Import Prelude Util QmiMsg Compose Cm Monad QmiRequests QmiCall QmiExchange WwanCM.
#[local] Open Scope Z_scope.
#[local] Open Scope c_scope.

(** ** Control requests *)
(** A control message: the header of the transport, the control header, the TLVs. *)
Definition enc_ctl (tid type : Z) (area : bytes) : bytes :=
  [USB_CTL_MSG_TYPE_QMI] ++ le16 (zlen area + 11) ++ [0; QMUX_TYPE_CTL; 0] ++
  [0; tid] ++ le16 type ++ le16 (zlen area) ++ area.

Lemma split_junk (junk : bytes) : zlen junk = 256 ->
  exists j0 j1 j2 j3 j4 j5 j6 j7 j8 j9 j10 j11 j12 j13 j14 j15 j16 r,
    junk = [j0;j1;j2;j3;j4;j5;j6;j7;j8;j9;j10;j11;j12;j13;j14;j15;j16] ++ r.
Proof.
  intros H. do 17 (destruct junk as [|? junk]; [discriminate|]). by repeat eexists.
Qed.

Section Ctl.
Context {host : Host} {heap : Heap}.

Lemma lds_prefix h s i n v : lds h i n = Some v -> lds (h ++ s) i n = Some v.
Proof. apply lds_mono. Qed.
Lemma rd16_prefix h s i v : rd16 h i = Some v -> rd16 (h ++ s) i = Some v.
Proof.
  unfold rd16, ld16. destruct (lds h i 2) as [b|] eqn:E; [|done]. by rewrite (lds_mono _ _ _ _ _ E).
Qed.

(** A store into the fixed part. *)
Ltac ctl_store := unfold st8, st16; rewrite ?enc16_cpu_to_le16; erewrite sts_prefix by reflexivity; cbn [mbind option_bind].

Lemma GetQCTLTransactionId_range tid :
  0 <= tid <= 0xFF -> 1 <= snd (GetQCTLTransactionId tid) <= 0xFF /\ fst (GetQCTLTransactionId tid) = snd (GetQCTLTransactionId tid).
Proof.
  intros H. unfold GetQCTLTransactionId. cbv zeta. cbn [fst snd]. destruct (Z.ltb_spec 0xFF (tid + 1)); [done|].
  split; [lia|]. apply u8_id. unfold is_byte. lia.
Qed.

Definition ctl_next (tid : Z) : Z := snd (GetQCTLTransactionId tid).
Definition ctl_id (tid : Z) : Z := fst (GetQCTLTransactionId tid).

(** The length fields read back. *)
Lemma ctl_length_le n : 0 <= n < 200 ->
  le16_to_cpu (dec_native (enc16 (cpu_to_le16 (u16 n)))) = n.
Proof.
  intros H. rewrite enc16_cpu_to_le16, u16_id by (unfold is_u16; lia).
  pose proof (rd16_le16 [] n [] 0 ltac:(unfold is_u16; lia) eq_refl) as E. unfold rd16, ld16 in E.
  rewrite (lds_app [] (le16 n) [] 0 2) in E by done. by injection E.
Qed.

(** The three requests with a TLV and the plain one: fully initialised, whatever the buffer held. *)
Lemma ComposeQCTLMsg_client junk tid T :
  zlen junk = 256 ->
  ComposeQCTLMsg junk tid QMICTL_GET_CLIENT_ID_REQ (Some (CtlGetClientIdReq T)) =
  Some (if malloc_ok 16 then Some (enc_ctl (ctl_id tid) QMICTL_GET_CLIENT_ID_REQ [1; 1; 0; u8 T]) else None, ctl_next tid).
Proof.
  intros H. destruct (split_junk junk H) as (j0&j1&j2&j3&j4&j5&j6&j7&j8&j9&j10&j11&j12&j13&j14&j15&j16&r&->).
  unfold ComposeQCTLMsg, CtlGetClientIdReq, oIFType, oQMICtlFlags, oQMIType, oClientId, oCtlCtlFlags, oCtlTransactionId,
    oCtlType, oCtlLength, oQMILength.
  do 5 ctl_store. change (GetQCTLTransactionId tid) with (ctl_id tid, ctl_next tid). cbv iota beta. do 5 ctl_store.
  change (u16 (10 - sizeof_QCQMICTL_MSG_HDR)) with 4. ctl_store.
  erewrite rd16_prefix by (apply (rd16_le16 (_ :: _ :: _ :: _ :: _ :: _ :: _ :: _ :: _ :: [_]) 4 _ 10); [done|reflexivity]).
  cbn [mbind option_bind]. change (u16 (4 + _ + _ - 1)) with 15. ctl_store.
  erewrite rd16_prefix by (apply (rd16_le16 [_] 15 _ 1); [done|reflexivity]).
  cbn [mbind option_bind]. change (15 + 1) with 16. destruct (malloc_ok 16); [|done].
  erewrite lds_prefix by reflexivity. cbn [mbind option_bind]. do 3 f_equal.
  unfold ctl_id, GetQCTLTransactionId. cbn [fst]. set (t := if _ <? _ then _ else _).
  assert (E : u8 (u8 t) = u8 t) by (apply u8_id, u8_range). cbn -[u8]. by rewrite E.
Qed.

Lemma ComposeQCTLMsg_release junk tid T id :
  zlen junk = 256 ->
  ComposeQCTLMsg junk tid QMICTL_RELEASE_CLIENT_ID_REQ (Some (CtlReleaseClientIdReq (u8 T) (u8 id))) =
  Some (if malloc_ok 17 then Some (enc_ctl (ctl_id tid) QMICTL_RELEASE_CLIENT_ID_REQ [1; 2; 0; u8 T; u8 id]) else None,
        ctl_next tid).
Proof.
  intros H. destruct (split_junk junk H) as (j0&j1&j2&j3&j4&j5&j6&j7&j8&j9&j10&j11&j12&j13&j14&j15&j16&r&->).
  unfold ComposeQCTLMsg, CtlReleaseClientIdReq, oIFType, oQMICtlFlags, oQMIType, oClientId, oCtlCtlFlags, oCtlTransactionId,
    oCtlType, oCtlLength, oQMILength.
  do 5 ctl_store. change (GetQCTLTransactionId tid) with (ctl_id tid, ctl_next tid). cbv iota beta. do 6 ctl_store.
  change (u16 (11 - sizeof_QCQMICTL_MSG_HDR)) with 5. ctl_store.
  erewrite rd16_prefix by (apply (rd16_le16 (_ :: _ :: _ :: _ :: _ :: _ :: _ :: _ :: _ :: [_]) 5 _ 10); [done|reflexivity]).
  cbn [mbind option_bind]. change (u16 (5 + _ + _ - 1)) with 16. ctl_store.
  erewrite rd16_prefix by (apply (rd16_le16 [_] 16 _ 1); [done|reflexivity]).
  cbn [mbind option_bind]. change (16 + 1) with 17. destruct (malloc_ok 17); [|done].
  erewrite lds_prefix by reflexivity. cbn [mbind option_bind]. do 3 f_equal.
  unfold ctl_id, GetQCTLTransactionId. cbn [fst]. set (t := if _ <? _ then _ else _).
  assert (E : forall v, u8 (u8 v) = u8 v) by (intros; apply u8_id, u8_range). cbn -[u8]. by rewrite !E.
Qed.
End Ctl.

(** ** Releasing the clients *)
(** The release requests of the clients [ids], the first of service [i]. *)
Fixpoint releases (tid i : Z) (ids : list Z) : list bytes :=
  match ids with
  | [] => []
  | id :: ids =>
      if id =? 0 then releases tid (i + 1) ids
      else enc_ctl (ctl_id tid) QMICTL_RELEASE_CLIENT_ID_REQ [1; 2; 0; u8 i; u8 id] :: releases (ctl_next tid) (i + 1) ids
  end.

Section Deinit.
Context {host : Host} {heap : Heap} {modem : Modem} (junk : bytes) (Hj : zlen junk = 256) (Hm : malloc_ok 17 = true).

Lemma release_run T id c :
  exists c', QmiWwanReleaseClientID junk T id c = Some (0, c') /\
    wsent (cw_world c') = wsent (cw_world c) ++ [enc_ctl (ctl_id (cw_tid c)) QMICTL_RELEASE_CLIENT_ID_REQ [1; 2; 0; u8 T; u8 id]] /\
    wg (cw_world c') = wg (cw_world c) /\ cw_tid c' = ctl_next (cw_tid c).
Proof.
  unfold QmiWwanReleaseClientID. erewrite bind_step.
  2:{ unfold compose_ctl. rewrite ComposeQCTLMsg_release, Hm by done. reflexivity. }
  unfold in_world, QmiThreadSendQMI, QmiThreadSendQMITimeout, mbind, M_bind. cbn [cw_world].
  destruct (answer _ _ _) as [ret rsp]. eexists. split; [reflexivity|]. done.
Qed.

Lemma deinit_loop_run P ids c :
  qmiclientId (wg (cw_world c)) = P ++ ids ->
  exists c', deinit_loop junk (length ids) (zlen P) c = Some (tt, c') /\
    qmiclientId (wg (cw_world c')) = P ++ replicate (length ids) 0 /\
    wsent (cw_world c') = wsent (cw_world c) ++ releases (cw_tid c) (zlen P) ids.
Proof.
  revert P c. induction ids as [|id ids IH]; intros P c Hc; cbn [deinit_loop length releases replicate].
  { exists c. split; [done|]. split; [done|]. by rewrite app_nil_r. }
  rewrite bind_gets, Hc.
  assert (Hl : (P ++ id :: ids) !!! Z.to_nat (zlen P) = id).
  { unfold zlen. rewrite Nat2Z.id. apply list_lookup_total_correct, list_lookup_middle. done. }
  rewrite Hl. assert (Hz : zlen P + 1 = zlen (P ++ [0])) by (zlens; lia). rewrite Hz.
  destruct (Z.eqb_spec id 0) as [->|Hne]; cbn [negb when].
  - unfold when. rewrite bind_ret. destruct (IH (P ++ [0]) c) as (c' & E & E1 & E2); [by rewrite <- app_assoc|].
    exists c'. rewrite <- app_assoc in E1. done.
  - destruct (release_run (zlen P) id c) as (c1 & R1 & R2 & R3 & R4). erewrite bind_step.
    2:{ unfold when. erewrite bind_step by exact R1. reflexivity. }
    cbn [cw_world wg set_wg]. match goal with |- context [deinit_loop _ _ _ ?c2] => destruct (IH (P ++ [0]) c2) as (c' & E & E1 & E2) end.
    { cbn. rewrite R3, Hc. unfold zlen. rewrite Nat2Z.id. rewrite insert_app_r_alt, Nat.sub_diag by lia. by rewrite <- app_assoc. }
    exists c'. rewrite <- app_assoc in E1. split; [exact E|]. split; [exact E1|].
    rewrite E2. cbn. rewrite R2, R4, <- app_assoc. done.
Qed.
End Deinit.

(** [QmiWwanDeInit] gives every client back and forgets it: one release request for each client held, in the
    order of the services, naming the index it is kept under and its identifier, fully initialised
    whatever the stack held.  (The client of the IPv6 call, allocated from the service WDS, is kept under 0x11, and
    that is the service its release names.) *)
Theorem QmiWwanDeInit_releases {host : Host} {heap : Heap} {modem : Modem} junk c :
  zlen junk = 256 -> malloc_ok 17 = true -> length (qmiclientId (wg (cw_world c))) = 27%nat ->
  exists c', QmiWwanDeInit junk c = Some (0, c') /\
    qmiclientId (wg (cw_world c')) = replicate 27 0 /\
    wsent (cw_world c') = wsent (cw_world c) ++ releases (cw_tid c) 0 (qmiclientId (wg (cw_world c))).
Proof.
  intros Hj Hm Hl. destruct (deinit_loop_run junk Hj Hm [] (qmiclientId (wg (cw_world c))) c eq_refl) as (c' & E & E1 & E2).
  rewrite Hl in *. exists c'. split; [|done]. unfold QmiWwanDeInit. by erewrite bind_step by exact E.
Qed.

Definition cw_sample : CW := {| cw_world := world_sample; cw_tid := 254; cw_qmap_version := 0 |}.

Theorem QmiWwanDeInit_releases_witness :
  exists c', QmiWwanDeInit (heap := any_heap) (modem := silent_modem) (replicate 256 0xAA) cw_sample = Some (0, c') /\
    length (wsent (cw_world c')) = 27%nat.
Proof.
  destruct (QmiWwanDeInit_releases (heap := any_heap) (modem := silent_modem) (replicate 256 0xAA) cw_sample)
    as (c' & E & _ & H); [reflexivity | reflexivity | reflexivity|].
  exists c'. split; [exact E|]. rewrite H. reflexivity.
Defined.

(** ** Sending *)
Section Send.
Context {host : Host}.

(** A message of [QCQMI_HDR] and a body, with the length the header declares. *)
Definition qmi_msg (flags T cid : Z) (body : bytes) : bytes :=
  [USB_CTL_MSG_TYPE_QMI] ++ le16 (zlen body + 5) ++ [flags; T; cid] ++ body.
Definition wire_type (T : Z) : Z := if T =? QMUX_TYPE_WDS_IPV6 then QMUX_TYPE_WDS else T.

Lemma qmi_msg_type flags T cid body : ld (qmi_msg flags T cid body) oQMIType = Some T.
Proof. reflexivity. Qed.
Lemma qmi_msg_client flags T cid body : ld (qmi_msg flags T cid body) oClientId = Some cid.
Proof. reflexivity. Qed.
Lemma qmi_msg_length flags T cid body :
  zlen body <= 65000 -> rd16 (qmi_msg flags T cid body) oQMILength = Some (zlen body + 5).
Proof.
  intros H. pose proof (zlen_nonneg body).
  apply (rd16_le16 [USB_CTL_MSG_TYPE_QMI]); [unfold is_u16; lia | reflexivity].
Qed.
Lemma qmi_msg_zlen flags T cid body : zlen (qmi_msg flags T cid body) = zlen body + 6.
Proof. unfold qmi_msg, le16. cbn [app]. zlens. lia. Qed.
Lemma qmi_msg_set_type flags T T' cid body :
  st8 (qmi_msg flags T cid body) oQMIType T' = Some (qmi_msg flags (u8 T') cid body).
Proof. unfold st8, qmi_msg. by apply (sts_app (USB_CTL_MSG_TYPE_QMI :: le16 (zlen body + 5) ++ [flags]) [T] [u8 T']). Qed.

Lemma send_prepares flags T cid body :
  (if T =? QMUX_TYPE_WDS_IPV6 then st8 (qmi_msg flags T cid body) oQMIType QMUX_TYPE_WDS
   else Some (qmi_msg flags T cid body)) = Some (qmi_msg flags (wire_type T) cid body).
Proof. unfold wire_type. destruct (T =? QMUX_TYPE_WDS_IPV6); [by rewrite qmi_msg_set_type | done]. Qed.

Lemma lds_all m : lds m 0 (zlen m) = Some m.
Proof. rewrite <- (app_nil_r m) at 1. by apply lds_app_0. Qed.

(** Only the transaction identifier follows from the bodies. *)
Lemma is_response_qmi f1 f2 T1 T2 c1 c2 tid b1 b2 :
  is_u16 tid -> T1 <> QMUX_TYPE_CTL ->
  is_response (qmi_msg f1 T1 c1 (b1 :: le16 tid ++ b2)) (qmi_msg f2 T2 c2 (b1 :: le16 tid ++ b2)) =
  Some ((T1 =? T2) && (c1 =? c2)).
Proof.
  intros Ht HT. unfold is_response. rewrite !qmi_msg_type, !qmi_msg_client. cbn [mbind option_bind].
  destruct (Z.eqb_spec T1 T2) as [->|]; [|done]. destruct (Z.eqb_spec c1 c2) as [->|]; [|done]. cbn [andb].
  rewrite (proj2 (Z.eqb_neq T2 QMUX_TYPE_CTL)) by done.
  assert (E : forall f, rd16 (qmi_msg f T2 c2 (b1 :: le16 tid ++ b2)) oTransactionId = Some tid).
  { intros f. unfold qmi_msg.
    apply (rd16_le16 ([USB_CTL_MSG_TYPE_QMI] ++ le16 (zlen (b1 :: le16 tid ++ b2) + 5) ++ [f; T2; c2] ++ [b1])); done. }
  rewrite !E. cbn [mbind option_bind]. by rewrite Z.eqb_refl.
Qed.
End Send.

(** [QmiWwanSendQMI] on a whole message and an open device: nothing is written unless the device is
    writable; then all of it is, the IPv6 marker [QMUX_TYPE_WDS_IPV6] replaced by the service WDS and
    nothing else changed, and 0 means all of it was taken.  The marker is replaced in the sender's own request, and
    that is what makes the modem's answer (which names WDS) its response. *)
Theorem QmiWwanSendQMI_wire {host : Host} fd e flags T cid tid b rest :
  fd <> -1 -> zlen rest <= 60000 -> is_u16 tid -> T <> QMUX_TYPE_CTL ->
  let m := qmi_msg flags T cid (b :: le16 tid ++ rest) in
  let w := qmi_msg flags (wire_type T) cid (b :: le16 tid ++ rest) in
  QmiWwanSendQMI fd e m =
    Some (if pollout e then (if write_ret e =? zlen m then 0 else write_ret e, w, Some w) else (poll_ret e, w, None)) /\
  is_response w (qmi_msg 0 (wire_type T) cid (b :: le16 tid ++ rest)) = Some true /\
  (T = QMUX_TYPE_WDS_IPV6 -> is_response m (qmi_msg 0 (wire_type T) cid (b :: le16 tid ++ rest)) = Some false).
Proof.
  intros Hfd Hl Ht HT. cbv zeta. set (body := b :: le16 tid ++ rest).
  assert (Hb : zlen body <= 65000) by (unfold body, le16; cbn [app]; zlens; lia).
  split.
  - unfold QmiWwanSendQMI. rewrite (proj2 (Z.eqb_neq _ _)) by done. rewrite qmi_msg_type. cbn [mbind option_bind].
    rewrite send_prepares. cbn [mbind option_bind]. destruct (pollout e); [|done].
    rewrite qmi_msg_length by done. cbn [mbind option_bind].
    replace (zlen body + 5 + 1) with (zlen (qmi_msg flags (wire_type T) cid body)) by (rewrite qmi_msg_zlen; lia).
    rewrite lds_all. cbn [mbind option_bind]. by rewrite !qmi_msg_zlen.
  - split.
    + unfold body. rewrite is_response_qmi by (done || (unfold wire_type; destruct (T =? QMUX_TYPE_WDS_IPV6); done)).
      by rewrite !Z.eqb_refl.
    + intros ->. unfold body. by rewrite is_response_qmi.
Qed.

Theorem QmiWwanSendQMI_wire_witness :
  let e := {| poll_ret := 1; pollout := true; write_ret := 13 |} in
  let body := 0 :: le16 7 ++ [0x22; 0; 0; 0] in
  QmiWwanSendQMI 3 e (qmi_msg 0 QMUX_TYPE_WDS_IPV6 4 body) =
    Some (0, qmi_msg 0 QMUX_TYPE_WDS 4 body, Some (qmi_msg 0 QMUX_TYPE_WDS 4 body)) /\
  is_response (qmi_msg 0 QMUX_TYPE_WDS 4 body) (qmi_msg 0 QMUX_TYPE_WDS 4 body) = Some true.
Proof.
  destruct (QmiWwanSendQMI_wire 3 {| poll_ret := 1; pollout := true; write_ret := 13 |} 0 QMUX_TYPE_WDS_IPV6 4 7 0
    [0x22; 0; 0; 0]) as (H1 & H2 & _); [lia | vm_compute; discriminate | unfold is_u16; lia | discriminate|].
  split; [exact H1 | exact H2].
Defined.

(** ** The reader thread *)
(** A message as it arrives: it fits the buffer and declares its own length. *)
Definition whole {host : Host} (m : bytes) : Prop :=
  sizeof_QCQMI_HDR <= zlen m <= sizeof_QMIBuf /\ rd16 m oQMILength = Some (zlen m - 1).
(** The reader hands over its buffer, which begins with the message. *)
Definition delivers (e : effect) (m : bytes) : Prop := exists pad, e = RecvQMI (Some (m ++ pad)).

(** The arrivals [cs] of a stream bring every message of [ms] no later than its turn. *)
Definition in_time (stream : bytes) (cs ms : list bytes) : Prop :=
  length cs = length ms /\ forall k, (k <= length ms)%nat -> concat (take k ms) `prefix_of` stream ++ concat (take k cs).

Definition arrives (c : bytes) : polled := Ready false None false (Some c).

Section ReaderSpec.
Context {host : Host}.

Lemma rd16_sub m i n v : lds m 0 n = Some v -> 0 <= i -> i + 2 <= n -> rd16 v i = rd16 m i.
Proof.
  intros H Hi Hn. unfold rd16, ld16. pose proof (lds_zlen _ _ _ _ H) as Hz.
  pose proof (lds_sub _ _ _ _ i 2 H Hi ltac:(lia) Hn) as E. rewrite Z.add_0_l in E. rewrite E.
  unfold lds. rewrite Hz. by guards.
Qed.

Lemma rd16_app_l m s i v : rd16 m i = Some v -> rd16 (m ++ s) i = Some v.
Proof. unfold rd16, ld16. destruct (lds m i 2) as [b|] eqn:E; [|done]. by rewrite (lds_mono _ _ _ _ _ E). Qed.

Lemma sts_front buf m : zlen m <= zlen buf -> sts buf 0 m = Some (m ++ drop (length m) buf).
Proof. intros H. unfold sts. guards. Qed.

(** [read] takes the first [n] bytes of what is there. *)
Lemma read_fd_app m rest n : n = zlen m -> 0 < n -> read_fd (m ++ rest) n = (n, m, rest).
Proof.
  intros -> H. unfold read_fd. rewrite (proj2 (Z.eqb_neq _ _)) by lia.
  destruct m as [|b m]; [unfold zlen in H; cbn in H; lia|]. rewrite <- app_comm_cons. cbv beta iota zeta. rewrite app_comm_cons.
  rewrite zlen_app. pose proof (zlen_nonneg rest). rewrite Z.min_l by lia. unfold zlen.
  by rewrite Nat2Z.id, take_app_length, drop_app_length.
Qed.

Lemma read_fd_all m n : 0 < zlen m <= n -> read_fd m n = (zlen m, m, []).
Proof.
  intros H. unfold read_fd. rewrite (proj2 (Z.eqb_neq _ _)) by lia.
  destruct m as [|b m]; [unfold zlen in H; cbn in H; lia|]. rewrite Z.min_r by lia. unfold zlen.
  by rewrite Nat2Z.id, firstn_all, skipn_all.
Qed.

(** The proxy's stream is cut into its messages. *)
Lemma qmi_proxy_read_whole m rest buf :
  whole m -> zlen buf = sizeof_QMIBuf ->
  qmi_proxy_read (m ++ rest) buf = Some (zlen m, m ++ drop (length m) buf, rest).
Proof.
  intros [[H1 H2] HL] Hb. unfold qmi_proxy_read, sizeof_QCQMI_HDR in *.
  set (h := take 6 m). set (t := drop 6 m).
  assert (Em : m = h ++ t) by (unfold h, t; by rewrite take_drop).
  assert (Hh : length h = 6%nat) by (unfold h; rewrite length_take; unfold zlen in *; lia).
  assert (Hz : zlen m = 6 + zlen t) by (rewrite Em, zlen_app; unfold zlen; lia).
  clearbody h t. subst m.
  assert (HLb : forall s, rd16 (h ++ s) oQMILength = Some (zlen (h ++ t) - 1)).
  { intros s. apply rd16_app_l. rewrite <- HL. apply (rd16_sub (h ++ t) _ 6); [|unfold oQMILength; lia..].
    apply lds_app_0. unfold zlen. lia. }
  rewrite <- app_assoc, (read_fd_app h) by (unfold zlen; lia).
  rewrite sts_front by (unfold zlen, sizeof_QMIBuf in *; lia). cbn [mbind option_bind].
  change (6 =? 6) with true. cbv iota. rewrite HLb. cbn [mbind option_bind].
  replace (zlen (h ++ t) - 1 + 1 - 6) with (zlen t) by lia. pose proof (zlen_nonneg t).
  rewrite Z.mod_small by (unfold sizeof_QMIBuf in *; lia).
  assert (Hrd : read_fd (t ++ rest) (zlen t) = (zlen t, t, rest)).
  { destruct (decide (zlen t = 0)) as [E|]; [|apply read_fd_app; lia]. rewrite E.
    destruct t; [done | unfold zlen in E; cbn in E; lia]. }
  rewrite Hrd. unfold sts. pose proof (zlen_nonneg (drop (length h) buf)).
  assert (Hd : zlen (drop (length h) buf) = sizeof_QMIBuf - 6) by (unfold zlen in *; rewrite length_drop; lia).
  rewrite zlen_app, Hd. assert (zlen h = 6) by (unfold zlen; lia).
  rewrite (proj2 (Z.leb_le _ _)) by lia. rewrite (proj2 (Z.leb_le _ _)) by lia. cbn [andb mbind option_bind].
  rewrite Hz. change (Z.to_nat 6) with 6%nat. rewrite take_app_le by lia.
  rewrite firstn_all2 by lia. rewrite drop_app_ge by lia. rewrite drop_drop, !length_app, <- app_assoc.
  replace (length h + (6 + length t - length h))%nat with (length h + length t)%nat by lia. done.
Qed.

Lemma device_read_whole (direct : bool) s m rest arrived :
  whole m -> zlen (QMIBuf s) = sizeof_QMIBuf ->
  (if direct then arrived = m /\ rest = [] else stream s ++ arrived = m ++ rest) ->
  device_read direct s arrived = Some (zlen m, m ++ drop (length m) (QMIBuf s), rest).
Proof.
  intros Hm Hb H. unfold device_read. destruct direct; [|by rewrite H, qmi_proxy_read_whole].
  destruct H as [-> ->], Hm as [[H1 H2] HL]. unfold sizeof_QCQMI_HDR in *. rewrite read_fd_all by lia.
  by rewrite sts_front by lia.
Qed.

Lemma reader_turn_whole (direct : bool) s m rest arrived :
  whole m -> zlen (QMIBuf s) = sizeof_QMIBuf ->
  (if direct then arrived = m /\ rest = [] else stream s ++ arrived = m ++ rest) ->
  exists s', reader_turn direct s (arrives arrived) = Some (true, s', [RecvQMI (Some (m ++ drop (length m) (QMIBuf s)))]) /\
    stream s' = rest /\ zlen (QMIBuf s') = sizeof_QMIBuf.
Proof.
  intros Hm Hb H. unfold reader_turn, arrives. cbv iota. rewrite bool_decide_false by done. cbv iota.
  rewrite (device_read_whole direct _ m rest) by done. destruct Hm as [[H1 H2] HL]. unfold sizeof_QCQMI_HDR in *.
  cbn [mbind option_bind wait_for_request_quit QMIBuf stream]. rewrite (proj2 (Z.leb_gt _ _)) by lia.
  rewrite (rd16_app_l _ _ _ _ HL). cbn [mbind option_bind]. rewrite Z.sub_add, Z.eqb_refl.
  eexists. split; [reflexivity|]. split; [done|]. cbn. rewrite zlen_app. unfold zlen in *. rewrite length_drop. lia.
Qed.
End ReaderSpec.

Lemma in_time_next stream c cs m ms :
  in_time stream (c :: cs) (m :: ms) ->
  exists rest, stream ++ c = m ++ rest /\ in_time rest cs ms.
Proof.
  intros [Hl H]. destruct (H 1%nat ltac:(cbn; lia)) as [rest Hr]. cbn in Hr. rewrite !app_nil_r in Hr.
  exists rest. split; [done|]. split; [by injection Hl|]. intros k Hk.
  destruct (H (S k) ltac:(cbn; lia)) as [e He]. cbn in He. rewrite app_assoc, Hr, <- !app_assoc in He.
  apply app_inv_head in He. by exists e.
Qed.

Lemma reader_loop_direct {host : Host} s ms :
  Forall whole ms -> zlen (QMIBuf s) = sizeof_QMIBuf ->
  exists es, reader_loop true s (map arrives ms) = Some (true, es) /\ Forall2 delivers es ms.
Proof.
  revert s. induction ms as [|m ms IH]; intros s Hw Hb; cbn [map reader_loop]; [by exists []|].
  inversion Hw as [|? ? Hm Hms]; subst.
  destruct (reader_turn_whole true s m [] m Hm Hb) as (s' & -> & _ & Hb'); [done|].
  destruct (IH s' Hms Hb') as (es & E & Hd). cbn [mbind option_bind]. rewrite E. eexists. split; [reflexivity|].
  constructor; [by eexists | done].
Qed.

Lemma reader_loop_proxy {host : Host} s cs ms :
  Forall whole ms -> zlen (QMIBuf s) = sizeof_QMIBuf -> in_time (stream s) cs ms ->
  exists es, reader_loop false s (map arrives cs) = Some (true, es) /\ Forall2 delivers es ms.
Proof.
  revert s cs. induction ms as [|m ms IH]; intros s cs Hw Hb Ht.
  { destruct Ht as [Hl _]. apply nil_length_inv in Hl as ->. by exists []. }
  destruct cs as [|c cs]; [by destruct Ht|]. cbn [map reader_loop].
  inversion Hw as [|? ? Hm Hms]; subst. destruct (in_time_next _ _ _ _ _ Ht) as (rest & Hr & Ht').
  destruct (reader_turn_whole false s m rest c Hm Hb Hr) as (s' & -> & Hs & Hb'). rewrite <- Hs in Ht'.
  destruct (IH s' cs Hms Hb' Ht') as (es & E & Hd). cbn [mbind option_bind]. rewrite E. eexists. split; [reflexivity|].
  constructor; [by eexists | done].
Qed.

(** The reader thread hands every message over, once and in order.  With the device itself, one
    message per read; with the multiplexer's stream, whatever the boundaries of the arrivals are, as long as a message
    has arrived in full by its turn ([in_time]: several messages may come in one arrival). *)
Theorem reader_delivers_in_order {host : Host} s ms :
  Forall whole ms -> zlen (QMIBuf s) = sizeof_QMIBuf ->
  (exists es, reader_loop true s (map arrives ms) = Some (true, es) /\ Forall2 delivers es ms) /\
  (forall cs, in_time (stream s) cs ms ->
   exists es, reader_loop false s (map arrives cs) = Some (true, es) /\ Forall2 delivers es ms).
Proof.
  intros Hw Hb. split; [by apply reader_loop_direct|]. intros cs. by apply reader_loop_proxy.
Qed.

Definition two_messages : list bytes := [qmi_msg 0 1 4 [0; 1; 0; 0x22]; qmi_msg 0 1 4 [2; 1; 0; 0x22; 0; 0]].
Definition fresh_reader : Reader :=
  {| wait_for_request_quit := false; QMIBuf := replicate 4096 0; stream := [] |}.

Lemma two_messages_whole : Forall whole two_messages.
Proof. repeat constructor; discriminate. Qed.

(** Both messages in the first arrival. *)
Theorem reader_delivers_in_order_witness :
  exists es, reader_loop false fresh_reader (map arrives [concat two_messages; []]) = Some (true, es) /\
    Forall2 delivers es two_messages.
Proof.
  destruct (reader_delivers_in_order fresh_reader two_messages two_messages_whole) as [_ H]; [reflexivity|].
  apply H. split; [reflexivity|]. intros k Hk. cbn in Hk.
  destruct k as [|[|[|k]]]; [apply prefix_nil | eexists; reflexivity | exists []; reflexivity | exfalso; lia].
Defined.

(** A message that comes in two pieces is lost: the first read takes what is there, and the rest is taken for
    the header of another message. *)
Lemma proxy_stream_desynchronises :
  let m := qmi_msg 0 1 4 [0; 1; 0; 0x22; 0; 4; 0; 1; 2; 3; 4] in
  reader_loop false fresh_reader (map arrives [take 10 m; drop 10 m]) = Some (true, []).
Proof. vm_compute. reflexivity. Qed.

(** The size of the buffer is not used: a longer message overruns it. *)
Lemma qmi_proxy_read_overflow {host : Host} flags T cid body buf :
  zlen buf = sizeof_QMIBuf -> 4090 < zlen body <= 65000 ->
  qmi_proxy_read (qmi_msg flags T cid body) buf = None.
Proof.
  intros Hb Hl. unfold qmi_proxy_read, qmi_msg, sizeof_QCQMI_HDR.
  set (h := [USB_CTL_MSG_TYPE_QMI] ++ le16 (zlen body + 5) ++ [flags; T; cid]).
  assert (E : [USB_CTL_MSG_TYPE_QMI] ++ le16 (zlen body + 5) ++ [flags; T; cid] ++ body = h ++ body).
  { unfold h. by rewrite <- !app_assoc. }
  rewrite E, (read_fd_app h) by done. assert (Hh : zlen h = 6) by reflexivity.
  rewrite sts_front by (unfold sizeof_QMIBuf in *; lia).
  cbn [mbind option_bind]. change (6 =? 6) with true. cbv iota.
  assert (EL : rd16 (h ++ drop (length h) buf) oQMILength = Some (zlen body + 5)).
  { unfold h. rewrite <- app_assoc, <- app_assoc.
    apply (rd16_le16 [USB_CTL_MSG_TYPE_QMI]); [unfold is_u16; lia | reflexivity]. }
  rewrite EL. cbn [mbind option_bind]. replace (zlen body + 5 + 1 - 6) with (zlen body) by lia.
  rewrite Z.mod_small by lia. rewrite read_fd_all by lia. unfold sts at 1. rewrite zlen_app.
  assert (Hd : zlen (drop (length h) buf) = sizeof_QMIBuf - 6).
  { unfold zlen, sizeof_QMIBuf in *. rewrite length_drop. lia. }
  rewrite Hd, Hh. unfold sizeof_QMIBuf.
  rewrite (proj2 (Z.leb_gt (6 + zlen body) _)) by lia. by rewrite andb_false_r.
Qed.

(** ** The end of the thread *)
(** A poll that ends the thread: it failed, a descriptor hung up, or the main thread asked for it. *)
Definition stops (p : polled) : bool :=
  match p with
  | PollTimeout => false
  | PollFail => true
  | Ready ctl_hup ctl dev_hup _ => ctl_hup || bool_decide (ctl = Some (Some RIL_REQUEST_QUIT)) || dev_hup
  end.

(** The calls of [QmiThreadRecvQMI] among the effects, as steps of the exchange. *)
Definition recvs (es : list effect) : list action :=
  es ≫= fun e => match e with RecvQMI m => [Recv m] | Event _ => [] end.

Lemma reader_loop_stops {host : Host} direct ps p ps' s go es :
  stops p = true -> reader_loop direct s (ps ++ p :: ps') = Some (go, es) -> go = false.
Proof.
  intros Hp. revert s es. induction ps as [|q ps IH]; intros s es; cbn [app reader_loop].
  - assert (E : exists s' es', reader_turn direct s p = Some (false, s', es')).
    { destruct p as [| |c1 c d1 d]; [done | by repeat eexists|]. unfold stops in Hp. unfold reader_turn.
      destruct c1; [by repeat eexists|]. cbn [orb] in Hp. destruct (bool_decide (c = _)); [by repeat eexists|].
      cbn [orb] in Hp. rewrite Hp. by repeat eexists. }
    destruct E as (s' & es' & ->). cbn. by intros [= <- _].
  - destruct (reader_turn direct s q) as [[[b s'] es']|]; [|done]. cbn [mbind option_bind]. destruct b.
    + destruct (reader_loop direct s' (ps ++ p :: ps')) as [[b es2]|] eqn:E; [|done]. cbn.
      intros [= <- _]. by eapply IH.
    + by intros [= <- _].
Qed.

Lemma run_app {host : Host} {heap : Heap} l1 l2 x : run x (l1 ++ l2) = run x l1 ≫= fun x => run x l2.
Proof.
  revert x. induction l1 as [|a l1 IH]; intros x; [done|]. cbn. destruct (step x a); [|done]. apply IH.
Qed.

(** The reader does not end the wait itself. *)
Lemma recvs_wait {host : Host} {heap : Heap} es x x' : run x (recvs es) = Some x' -> x_wait x' = x_wait x.
Proof.
  revert x. induction es as [|[e|m] es IH]; intros x; [by intros [= <-] | exact (IH x)|].
  cbn. destruct (QmiThreadRecvQMI x m) as [x1|] eqn:E; [|done]. cbn. intros H. rewrite (IH _ H).
  unfold QmiThreadRecvQMI in E. destruct m as [m|].
  - destruct (match s_pRequest x with Some r => is_response r m | None => _ end) as [[]|]; [| |done]; cbn [mbind option_bind] in E.
    + destruct (copy_message m); [|done]. by injection E as <-.
    + destruct (event_of m); [|done]. by injection E as <-.
  - injection E as <-. by destruct (is_nonnull _).
Qed.

(** C23: the end of the channel is never lost on a sender.  Whatever was read before, when a poll fails, a descriptor
    hangs up or the main thread asks the reader to quit, the thread ends with the event
    [RIL_INDICATE_DEVICE_DISCONNECTED], and a sender that was waiting has been signalled: its wait can
    return at once. *)
Theorem stopped_reader_wakes_sender {host : Host} {heap : Heap} qmap_mode buf ps p ps' es l x x' r :
  stops p = true -> QmiWwanThread qmap_mode true buf (ps ++ p :: ps') = Some es ->
  run x_init l = Some x -> x_wait x = Some r -> run x (recvs es) = Some x' ->
  Event RIL_INDICATE_DEVICE_DISCONNECTED ∈ es /\ s_pRequest x' = None /\
  exists x2, step x' Wake = Some x2 /\ x_wait x2 = None /\ last (x_log x2) = Some (r, 0, s_pResponse x').
Proof.
  intros Hp E Hl Hw Hr. unfold QmiWwanThread in E. cbn [negb] in E.
  destruct (reader_loop _ _ _) as [[go es1]|] eqn:Eg; [|done]. apply reader_loop_stops in Eg as ->; [|done].
  cbn [mbind option_bind] in E. injection E as <-. split; [set_solver|].
  assert (Hw' := recvs_wait _ _ _ Hr). rewrite Hw in Hw'.
  assert (I := run_inv _ _ _ Hr (run_inv _ _ _ Hl x_init_inv)). destruct I as [W _]. unfold wait_inv in W. rewrite Hw' in W.
  unfold recvs in Hr. cbn in Hr. rewrite bind_app, run_app in Hr.
  destruct (run x (es1 ≫= _)) as [x1|]; [|done]. cbn in Hr. injection Hr as Hr.
  assert (Hn : s_pRequest x' = None) by (subst x'; by destruct (s_pRequest x1) eqn:En).
  split; [done|]. destruct W as [(W1 & _)|(_ & Hs & _)]; [congruence|].
  unfold step. rewrite Hw', Hs. eexists. split; [reflexivity|]. split; [done|]. cbn. by rewrite last_snoc.
Qed.

(** The device is pulled out while a request waits. *)
Theorem stopped_reader_wakes_sender_witness :
  let req := plain_message 3 1 0 8 0x24 in
  let es := [Event RIL_INDICATE_DEVICE_CONNECTED; Event RIL_INDICATE_DEVICE_DISCONNECTED; RecvQMI None] in
  let x := ran [Send req 0] in let x' := ran [Send req 0; Recv None] in
  exists x2, step (heap := any_heap) x' Wake = Some x2 /\ last (x_log x2) = Some (req, 0, None).
Proof.
  cbv zeta. destruct (stopped_reader_wakes_sender (heap := any_heap) 0 (replicate 4096 0) [] (Ready false None true None) []
    [Event RIL_INDICATE_DEVICE_CONNECTED; Event RIL_INDICATE_DEVICE_DISCONNECTED; RecvQMI None]
    [Send (plain_message 3 1 0 8 0x24) 0] (ran [Send (plain_message 3 1 0 8 0x24) 0])
    (ran [Send (plain_message 3 1 0 8 0x24) 0; Recv None]) (plain_message 3 1 0 8 0x24))
    as (_ & _ & x2 & H & _ & H2); try reflexivity.
  exists x2. split; [exact H|exact H2].
Defined.
