(* ===== verification/Qlist.v ===== *)
(** * The intrusive list of quectel-qmi-proxy.c.
    [struct qlistnode] is a doubly linked ring in a store of nodes; a node outside the store is undefined
    behaviour ([None]).  [is_qlist] ties a ring to the list of its nodes, and the theorems show that each operation
    acts on that list as its name says, which is what lets Proxy.v keep its connections, clients and messages in
    plain lists. *)
From S2P Require Import Prelude.
#[local] Open Scope Z_scope.

Record qlistnode := { next : Z; prev : Z }.
Abbreviation store := (gmap Z qlistnode).

Definition nxt (h : store) (p : Z) : option Z := next <$> h !! p.
Definition prv (h : store) (p : Z) : option Z := prev <$> h !! p.
Definition set_next (h : store) (p v : Z) : option store :=
  n ← h !! p; Some (<[p := {| next := v; prev := prev n |}]> h).
Definition set_prev (h : store) (p v : Z) : option store :=
  n ← h !! p; Some (<[p := {| next := next n; prev := v |}]> h).

Definition qlist_init (h : store) (node : Z) : option store :=
  h ← set_next h node node;
  set_prev h node node.

Definition qlist_add_tail (h : store) (head item : Z) : option store :=
  h ← set_next h item head;
  t ← prv h head;
  h ← set_prev h item t;
  t ← prv h head;
  h ← set_next h t item;
  set_prev h head item.

Definition qlist_remove (h : store) (item : Z) : option store :=
  n ← nxt h item;
  p ← prv h item;
  h ← set_prev h n p;
  p ← prv h item;
  n ← nxt h item;
  set_next h p n.

Definition qlist_empty (h : store) (l : Z) : option bool := n ← nxt h l; Some (l =? n).
Definition qlist_head (h : store) (l : Z) : option Z := nxt h l.

(** The nodes that [qlist_for_each] visits, from [node] on. *)
Fixpoint qlist_for_each (fuel : nat) (h : store) (node l : Z) : option (list Z) :=
  match fuel with
  | O => None
  | S fuel =>
      if node =? l then Some []
      else n ← nxt h node; rest ← qlist_for_each fuel h n l; Some (node :: rest)
  end.

(** ** The ring as a list *)
Fixpoint seg (h : store) (a : Z) (l : list Z) (b : Z) : Prop :=
  match l with
  | [] => nxt h a = Some b /\ prv h b = Some a
  | x :: l => nxt h a = Some x /\ prv h x = Some a /\ seg h x l b
  end.
Definition is_qlist (h : store) (head : Z) (l : list Z) : Prop := NoDup (head :: l) /\ seg h head l head.

Lemma seg_app h a l1 x l2 b : seg h a (l1 ++ x :: l2) b <-> seg h a l1 x /\ seg h x l2 b.
Proof. revert a. induction l1 as [|y l1 IH]; intros a; cbn; [tauto|]. rewrite IH. tauto. Qed.

Lemma seg_eq h h' a l b :
  (forall p, p ∈ a :: l -> nxt h' p = nxt h p) -> (forall p, p ∈ l ++ [b] -> prv h' p = prv h p) ->
  seg h a l b -> seg h' a l b.
Proof.
  revert a. induction l as [|x l IH]; intros a Hn Hp; cbn.
  - rewrite Hn, Hp by set_solver. done.
  - rewrite Hn, Hp by set_solver. intros (H1 & H2 & H3). split_and!; [done|done|].
    apply IH; [set_solver..|done].
Qed.

Lemma seg_prev h a l b : seg h a l b -> exists t, prv h b = Some t /\ last (a :: l) = Some t.
Proof.
  revert a. induction l as [|x l IH]; intros a; cbn; [intros [_ H]; by exists a|].
  intros (_ & _ & H). destruct (IH x H) as (t & H1 & H2). by exists t.
Qed.

(** The store after a field is set. *)
Lemma set_next_spec h p v :
  is_Some (h !! p) -> exists h', set_next h p v = Some h' /\ (forall q, is_Some (h !! q) -> is_Some (h' !! q)) /\
    (forall q, nxt h' q = if decide (q = p) then Some v else nxt h q) /\ (forall q, prv h' q = prv h q) /\
    (forall q, q <> p -> h' !! q = h !! q).
Proof.
  intros [n Hn]. unfold set_next, nxt, prv. rewrite Hn. eexists. split; [reflexivity|].
  split_and!; intros q; [rewrite lookup_insert_is_Some'; tauto| | |].
  - destruct (decide (q = p)) as [->|]; [by rewrite lookup_insert_eq | by rewrite lookup_insert_ne].
  - destruct (decide (q = p)) as [->|]; [by rewrite lookup_insert_eq, Hn | by rewrite lookup_insert_ne].
  - intros. by rewrite lookup_insert_ne.
Qed.
Lemma set_prev_spec h p v :
  is_Some (h !! p) -> exists h', set_prev h p v = Some h' /\ (forall q, is_Some (h !! q) -> is_Some (h' !! q)) /\
    (forall q, prv h' q = if decide (q = p) then Some v else prv h q) /\ (forall q, nxt h' q = nxt h q) /\
    (forall q, q <> p -> h' !! q = h !! q).
Proof.
  intros [n Hn]. unfold set_prev, nxt, prv. rewrite Hn. eexists. split; [reflexivity|].
  split_and!; intros q; [rewrite lookup_insert_is_Some'; tauto| | |].
  - destruct (decide (q = p)) as [->|]; [by rewrite lookup_insert_eq | by rewrite lookup_insert_ne].
  - destruct (decide (q = p)) as [->|]; [by rewrite lookup_insert_eq, Hn | by rewrite lookup_insert_ne].
  - intros. by rewrite lookup_insert_ne.
Qed.

Lemma nxt_alloc h p q : nxt h p = Some q -> is_Some (h !! p).
Proof. unfold nxt. destruct (h !! p); [done|discriminate]. Qed.
Lemma prv_alloc h p q : prv h p = Some q -> is_Some (h !! p).
Proof. unfold prv. destruct (h !! p); [done|discriminate]. Qed.
#[export] Hint Resolve nxt_alloc prv_alloc : core.

(** Sets a field of an allocated node and names the result; [N] says what the [next] fields are, [P] the [prev] fields. *)
Ltac qset h' A N P F :=
  match goal with
  | |- context [set_next ?h ?p ?v] =>
      let E := fresh "E" in
      destruct (set_next_spec h p v) as (h' & E & A & N & P & F); [eauto|rewrite E; clear E; cbn [mbind option_bind]]
  | |- context [set_prev ?h ?p ?v] =>
      let E := fresh "E" in
      destruct (set_prev_spec h p v) as (h' & E & A & P & N & F); [eauto|rewrite E; clear E; cbn [mbind option_bind]]
  end.
(** Reads a field after the sets so far. *)
Ltac qread := rewrite ?decide_True, ?decide_False by (done || congruence).

Lemma qlist_init_ok h node :
  is_Some (h !! node) -> exists h', qlist_init h node = Some h' /\ is_qlist h' node [] /\
    forall q, q <> node -> h' !! q = h !! q.
Proof.
  intros Ha. unfold qlist_init. qset h1 A1 N1 P1 F1. qset h2 A2 N2 P2 F2. eexists. split; [reflexivity|]. split.
  - split; [repeat constructor; set_solver|]. cbn. rewrite N2, N1, P2. by rewrite !decide_True.
  - intros q Hq. by rewrite F2, F1.
Qed.

Lemma seg_alloc h a l b p : seg h a l b -> p ∈ a :: l -> is_Some (h !! p).
Proof.
  revert a. induction l as [|x l IH]; intros a; cbn.
  - intros [H _] ->%list_elem_of_singleton. eauto.
  - intros (H1 & H2 & H3) [->|Hp]%elem_of_cons; [eauto | by eapply IH].
Qed.

(** The end of a segment is moved: the last node points to [x] instead. *)
Lemma seg_move h h' a l b t x :
  NoDup (a :: l) -> last (a :: l) = Some t -> seg h a l b ->
  (forall p, p ∈ a :: l -> p <> t -> nxt h' p = nxt h p) -> nxt h' t = Some x ->
  (forall p, p ∈ l -> prv h' p = prv h p) -> prv h' x = Some t -> seg h' a l x.
Proof.
  revert a. induction l as [|y l IH]; intros a Hd Hl Hs Hn Ht Hp Hx; cbn in *.
  - by injection Hl as ->.
  - destruct Hs as (H1 & H2 & H3). apply NoDup_cons in Hd as [Hd1 Hd2].
    assert (Hty : t ∈ y :: l) by (apply last_Some_elem_of; done).
    rewrite Hn, Hp by set_solver. split_and!; [done|done|]. apply IH; [done|done|done|set_solver..].
Qed.

Lemma qlist_add_tail_ok h head l item :
  is_qlist h head l -> item ∉ head :: l -> is_Some (h !! item) ->
  exists h', qlist_add_tail h head item = Some h' /\ is_qlist h' head (l ++ [item]) /\
    forall q, q ∉ head :: item :: l -> h' !! q = h !! q.
Proof.
  intros [Hd Hs] Hi Ha. destruct (seg_prev _ _ _ _ Hs) as (t & Ht & Hlast).
  assert (Htl : t ∈ head :: l) by (by apply last_Some_elem_of).
  assert (Hat := seg_alloc _ _ _ _ _ Hs Htl). assert (Hah := seg_alloc _ _ _ _ head Hs ltac:(set_solver)).
  assert (Hit : item <> t) by set_solver. assert (Hih : item <> head) by set_solver.
  unfold qlist_add_tail. qset h1 A1 N1 P1 F1. rewrite P1, Ht. cbn [mbind option_bind]. qset h2 A2 N2 P2 F2.
  rewrite P2, P1, decide_False, Ht by done. cbn [mbind option_bind]. qset h3 A3 N3 P3 F3. qset h4 A4 N4 P4 F4.
  eexists. split; [reflexivity|]. split.
  - split; [rewrite app_comm_cons; apply NoDup_app; split_and!; [done|set_solver|apply NoDup_singleton]|].
    apply seg_app. split.
    + eapply (seg_move h); [done|done|exact Hs|intros p Hp1 Hp2| |intros p Hp|].
      * rewrite N4, N3, N2, N1. rewrite !decide_False by set_solver. done.
      * rewrite N4, N3. by rewrite decide_True.
      * rewrite P4, P3, P2, P1. apply NoDup_cons in Hd as [Hd _]. rewrite !decide_False by set_solver. done.
      * rewrite P4, P3, P2. rewrite decide_False, decide_True by done. done.
    + cbn. rewrite N4, N3, N2, N1, P4. rewrite (decide_False (P := item = t)) by done. by rewrite !decide_True by done.
  - intros q Hq. rewrite F4, F3, F2, F1 by set_solver. done.
Qed.

Lemma qlist_remove_ok h head l1 x l2 :
  is_qlist h head (l1 ++ x :: l2) ->
  exists h', qlist_remove h x = Some h' /\ is_qlist h' head (l1 ++ l2) /\
    forall q, q ∉ head :: l1 ++ l2 -> h' !! q = h !! q.
Proof.
  intros [Hd Hs]. apply seg_app in Hs as [H1 H2]. destruct (seg_prev _ _ _ _ H1) as (t & Ht & Hlast).
  assert (Htl : t ∈ head :: l1) by (by apply last_Some_elem_of).
  assert (Hd' : NoDup ((head :: l1) ++ x :: l2)) by done. apply NoDup_app in Hd' as (D1 & D2 & D3).
  apply NoDup_cons in D3 as [D3 D4]. assert (Hxt : x <> t) by set_solver.
  assert (Hat := seg_alloc _ _ _ _ _ H1 Htl). assert (Hax := seg_alloc _ _ _ _ x H2 ltac:(set_solver)).
  destruct l2 as [|y l2]; cbn in H2.
  - destruct H2 as [H2 H3]. assert (Hh : head <> x) by set_solver.
    unfold qlist_remove. rewrite H2, Ht. cbn [mbind option_bind]. qset h1 A1 N1 P1 F1.
    rewrite P1, N1, decide_False, Ht, H2 by done. cbn [mbind option_bind]. qset h2 A2 N2 P2 F2.
    eexists. split; [reflexivity|]. rewrite app_nil_r. split; [split; [done|]|].
    + eapply (seg_move h); [done|done|exact H1|intros p Hp1 Hp2| |intros p Hp|].
      * by rewrite N2, N1, decide_False.
      * by rewrite N2, decide_True.
      * rewrite P2, P1, decide_False; [done|]. apply NoDup_cons in D1 as [D1 _]. set_solver.
      * by rewrite P2, P1, decide_True.
    + intros q Hq. rewrite F2, F1 by set_solver. done.
  - destruct H2 as (H2 & H3 & H4). assert (Hxy : x <> y) by set_solver. apply NoDup_cons in D4 as [D4 D5].
    unfold qlist_remove. rewrite H2, Ht. cbn [mbind option_bind]. qset h1 A1 N1 P1 F1.
    rewrite P1, N1, decide_False, Ht, H2 by done. cbn [mbind option_bind]. qset h2 A2 N2 P2 F2.
    eexists. split; [reflexivity|]. split; [split|].
    + change (NoDup ((head :: l1) ++ y :: l2)). apply NoDup_app. split_and!; [done|set_solver|by constructor].
    + apply seg_app. split.
      * eapply (seg_move h); [done|done|exact H1|intros p Hp1 Hp2| |intros p Hp|].
        { by rewrite N2, N1, decide_False. }
        { by rewrite N2, decide_True. }
        { rewrite P2, P1, decide_False; [done|]. set_solver. }
        { by rewrite P2, P1, decide_True. }
      * eapply seg_eq; [intros p Hp..|exact H4].
        { rewrite N2, N1, decide_False; [done|]. set_solver. }
        { rewrite P2, P1, decide_False; [done|]. set_solver. }
    + intros q Hq. rewrite F2, F1 by set_solver. done.
Qed.

Lemma for_each_seg h a l b fuel :
  NoDup (a :: l) -> b ∉ a :: l -> seg h a l b -> (length l + 1 < fuel)%nat -> qlist_for_each fuel h a b = Some (a :: l).
Proof.
  revert a fuel. induction l as [|x l IH]; intros a fuel Hd Hb; cbn [seg].
  - intros [Hn _] Hf. destruct fuel as [|[|fuel]]; cbn in Hf; [lia..|]. cbn.
    rewrite (proj2 (Z.eqb_neq _ _)) by set_solver. rewrite Hn. cbn. by rewrite Z.eqb_refl.
  - intros (Hn & _ & Hs) Hf. destruct fuel as [|fuel]; [lia|]. cbn. rewrite (proj2 (Z.eqb_neq _ _)) by set_solver.
    rewrite Hn. cbn. apply NoDup_cons in Hd as [_ Hd]. rewrite (IH x fuel); [done|done|set_solver|done|].
    cbn in Hf. lia.
Qed.

Lemma qlist_for_each_ok h head l n fuel :
  is_qlist h head l -> nxt h head = Some n -> (length l < fuel)%nat -> qlist_for_each fuel h n head = Some l.
Proof.
  intros [Hd Hs] Hn Hf. apply NoDup_cons in Hd as [Hh Hd]. destruct l as [|x l].
  - destruct Hs as [Hs _]. assert (n = head) as -> by congruence. destruct fuel; [lia|]. cbn. by rewrite Z.eqb_refl.
  - destruct Hs as (Hs & _ & Hs2). assert (n = x) as -> by congruence. apply for_each_seg; [done|done|done|].
    cbn in Hf. lia.
Qed.

(** The intrusive list is a list: initialising gives the empty one, appending and removing act on it as on a list
    whatever the position, leave every node outside it alone, the emptiness test and the first element are
    right, and [qlist_for_each] ends after as many steps as there are nodes, having visited each once and in order. *)
Theorem qlist_refines_list h head l :
  is_qlist h head l ->
  (forall node, is_Some (h !! node) -> exists h', qlist_init h node = Some h' /\ is_qlist h' node [] /\
     forall q, q <> node -> h' !! q = h !! q) /\
  (forall item, item ∉ head :: l -> is_Some (h !! item) ->
     exists h', qlist_add_tail h head item = Some h' /\ is_qlist h' head (l ++ [item]) /\
       forall q, q ∉ head :: item :: l -> h' !! q = h !! q) /\
  (forall l1 x l2, l = l1 ++ x :: l2 ->
     exists h', qlist_remove h x = Some h' /\ is_qlist h' head (l1 ++ l2) /\
       forall q, q ∉ head :: l1 ++ l2 -> h' !! q = h !! q) /\
  qlist_empty h head = Some (bool_decide (l = [])) /\
  (l <> [] -> qlist_head h head = list.head l) /\
  (forall fuel, (length l < fuel)%nat -> (n ← nxt h head; qlist_for_each fuel h n head) = Some l).
Proof.
  intros H. split_and!.
  - intros. by apply qlist_init_ok.
  - intros. by apply qlist_add_tail_ok.
  - intros l1 x l2 ->. by apply qlist_remove_ok.
  - destruct H as [Hd Hs]. unfold qlist_empty. destruct l as [|x l]; cbn in Hs.
    + destruct Hs as [-> _]. cbn. by rewrite Z.eqb_refl.
    + destruct Hs as [-> _]. apply NoDup_cons in Hd as [Hd _]. cbn.
      destruct (Z.eqb_spec head x) as [->|]; [|done]. exfalso. apply Hd. left.
  - intros Hl. destruct H as [_ Hs]. destruct l as [|x l]; [done|]. by destruct Hs as [Hs _].
  - intros fuel Hf. destruct (nxt h head) as [n|] eqn:En; [cbn; by apply qlist_for_each_ok|].
    destruct H as [_ Hs], l; destruct Hs as [Hs _]; congruence.
Qed.

Definition three_nodes : store := <[1 := {| next := 1; prev := 1 |}]> (<[2 := {| next := 0; prev := 0 |}]> ∅).

Theorem qlist_refines_list_witness :
  exists h', qlist_add_tail three_nodes 1 2 = Some h' /\ is_qlist h' 1 [2].
Proof.
  assert (H : is_qlist three_nodes 1 []).
  { split; [apply NoDup_singleton|]. split; reflexivity. }
  destruct (qlist_refines_list three_nodes 1 [] H) as (_ & Hadd & _).
  destruct (Hadd 2) as (h' & E & Hq & _).
  - intros Hin. apply list_elem_of_singleton in Hin. discriminate.
  - eexists. reflexivity.
  - exists h'. split; [exact E | exact Hq].
Defined.
