(* ===== verification/Proxy.v ===== *)
(** * quectel-qmi-proxy.c: the multiplexer.
    One thread serves the modem's device and any number of local connections: control messages are passed to
    the modem one at a time, in a queue; the other messages are routed by service and client.  The intrusive lists are
    lists here (Qlist.v).  [le16toh] is [le16_to_cpu]; a message is the static buffer [qmi_buf] of which the first bytes
    were just read, so a short message is followed by what was there before. *)
From S2P Require Import Prelude Util QmiMsg Compose Monad QmiExchange WwanCM Layout ProxyStructs.
#[local] Open Scope Z_scope.
#[local] Open Scope c_scope.

Definition sizeof_qmi_buf : Z := 2048.
Definition QMICTL_CTL_FLAG_RSP : Z := 0x01.
Definition QMICTL_GET_CLIENT_ID_RESP : Z := 0x0022.
Definition QMICTL_RELEASE_CLIENT_ID_RESP : Z := 0x0023.
(** Sizes of the nodes on a 64-bit target. *)
Definition sizeof_QMI_PROXY_MSG : Z := 24.
Definition sizeof_QMI_PROXY_CLINET : Z := 24.
Definition sizeof_QMI_PROXY_CONNECTION : Z := 40.

(** [ClientFd] is a [uint8_t] in the nodes. *)
Record QMI_PROXY_MSG := { msg_ClientFd : Z; msg_qmi : bytes }.
Record QMI_PROXY_CLINET := { cl_QMIType : Z; cl_ClientId : Z }.
Record QMI_PROXY_CONNECTION := { ClientFd : Z; clients : list QMI_PROXY_CLINET }.

(** What the proxy does to the world: a message offered to the modem or to a client, a connection closed. *)
Inductive out := ToModem (m : bytes) | ToClient (fd : Z) (m : bytes) | Close (fd : Z).

(** [p_signalled]: [s_ctlcond] was signalled. *)
Record Proxy := {
  server_fd : Z; connections : list QMI_PROXY_CONNECTION; ctl_msg : list QMI_PROXY_MSG; modem_reset_flag : Z;
  s_pCtlReq : option bytes; s_pCtlRsq : option bytes; p_signalled : bool; outs : list out }.
Definition proxy_init (fd : Z) : Proxy :=
  {| server_fd := fd; connections := []; ctl_msg := []; modem_reset_flag := 0; s_pCtlReq := None; s_pCtlRsq := None;
     p_signalled := false; outs := [] |}.

Definition set_connections (c : list QMI_PROXY_CONNECTION) (p : Proxy) : Proxy :=
  {| server_fd := server_fd p; connections := c; ctl_msg := ctl_msg p; modem_reset_flag := modem_reset_flag p;
     s_pCtlReq := s_pCtlReq p; s_pCtlRsq := s_pCtlRsq p; p_signalled := p_signalled p; outs := outs p |}.
Definition set_ctl_msg (l : list QMI_PROXY_MSG) (p : Proxy) : Proxy :=
  {| server_fd := server_fd p; connections := connections p; ctl_msg := l; modem_reset_flag := modem_reset_flag p;
     s_pCtlReq := s_pCtlReq p; s_pCtlRsq := s_pCtlRsq p; p_signalled := p_signalled p; outs := outs p |}.
Definition set_reset (f : Z) (p : Proxy) : Proxy :=
  {| server_fd := server_fd p; connections := connections p; ctl_msg := ctl_msg p; modem_reset_flag := f;
     s_pCtlReq := s_pCtlReq p; s_pCtlRsq := s_pCtlRsq p; p_signalled := p_signalled p; outs := outs p |}.
Definition set_response (m : bytes) (p : Proxy) : Proxy :=
  {| server_fd := server_fd p; connections := connections p; ctl_msg := ctl_msg p; modem_reset_flag := modem_reset_flag p;
     s_pCtlReq := s_pCtlReq p; s_pCtlRsq := Some m; p_signalled := true; outs := outs p |}.
Definition emit (o : out) (p : Proxy) : Proxy :=
  {| server_fd := server_fd p; connections := connections p; ctl_msg := ctl_msg p; modem_reset_flag := modem_reset_flag p;
     s_pCtlReq := s_pCtlReq p; s_pCtlRsq := s_pCtlRsq p; p_signalled := p_signalled p; outs := outs p ++ [o] |}.
Abbreviation MP := (M Proxy).

(** Runs [f] on every element, in order. *)
Fixpoint for_each {A} (f : A -> MP A) (l : list A) : MP (list A) :=
  match l with
  | [] => mret []
  | a :: l => a ← f a; l ← for_each f l; mret (a :: l)
  end.
(** Removes the first element for which [f] holds. *)
Fixpoint remove_first {A} (f : A -> bool) (l : list A) : list A :=
  match l with [] => [] | a :: l => if f a then l else a :: remove_first f l end.
Fixpoint find_first {A} (f : A -> bool) (l : list A) : option A :=
  match l with [] => None | a :: l => if f a then Some a else find_first f l end.

Section Proxy.
Context {host : Host} {heap : Heap}.

(** [accept]'s descriptor; without memory for the connection it is neither kept nor closed. *)
Definition accept_qmi_connection (clientfd : Z) : MP unit :=
  if malloc_ok sizeof_QMI_PROXY_CONNECTION
  then modify (fun p => set_connections (connections p ++ [{| ClientFd := u8 clientfd; clients := [] |}]) p)
  else mret tt.

(** Of the queued control messages of the connection only the first is removed. *)
Definition cleanup_qmi_connection (clientfd : Z) : MP unit := modify (fun p =>
  match find_first (fun c => ClientFd c =? clientfd) (connections p) with
  | None => p
  | Some c =>
      let p := set_ctl_msg (remove_first (fun m => msg_ClientFd m =? ClientFd c) (ctl_msg p)) p in
      let p := emit (Close (ClientFd c)) p in
      set_connections (remove_first (fun c => ClientFd c =? clientfd) (connections p)) p
  end).

(** [pClient] is at the control part of the message. *)
Definition get_client_id (qmi_con : QMI_PROXY_CONNECTION) (m : bytes) : MP QMI_PROXY_CONNECTION :=
  r ← lift (ld16 m (QCQMIMSG∙"CTLMsg.QMICTLMsgHdrRsp.QMUXResult"));
  e ← lift (ld16 m (QCQMIMSG∙"CTLMsg.QMICTLMsgHdrRsp.QMUXError"));
  if (r =? 0) && (e =? 0) then
    if malloc_ok sizeof_QMI_PROXY_CLINET then
      t ← lift (ld m (QCQMIMSG∙"CTLMsg.GetClientIdRsp.QMIType"));
      c ← lift (ld m (QCQMIMSG∙"CTLMsg.GetClientIdRsp.ClientId"));
      mret {| ClientFd := ClientFd qmi_con; clients := clients qmi_con ++ [{| cl_QMIType := t; cl_ClientId := c |}] |}
    else undefined
  else mret qmi_con.

Definition is_client (t c : Z) (x : QMI_PROXY_CLINET) : bool := (t =? cl_QMIType x) && (c =? cl_ClientId x).
Definition release_client_id (qmi_con : QMI_PROXY_CONNECTION) (m : bytes) : MP QMI_PROXY_CONNECTION :=
  r ← lift (ld16 m (QCQMIMSG∙"CTLMsg.QMICTLMsgHdrRsp.QMUXResult"));
  e ← lift (ld16 m (QCQMIMSG∙"CTLMsg.QMICTLMsgHdrRsp.QMUXError"));
  if (r =? 0) && (e =? 0) then
    t ← lift (ld m (QCQMIMSG∙"CTLMsg.ReleaseClientIdRsp.QMIType"));
    c ← lift (ld m (QCQMIMSG∙"CTLMsg.ReleaseClientIdRsp.ClientId"));
    mret {| ClientFd := ClientFd qmi_con; clients := remove_first (is_client t c) (clients qmi_con) |}
  else mret qmi_con.

(** Writes the message, of the length its header declares; no caller looks at the result. *)
Definition send_qmi_to_cdc_wdm (m : bytes) : MP unit :=
  L ← lift (rd16 m oQMILength);
  out ← lift (lds m 0 (L + 1));
  modify (emit (ToModem out)).
Definition send_qmi_to_client (m : bytes) (clientFd : Z) : MP unit :=
  L ← lift (rd16 m oQMILength);
  out ← lift (lds m 0 (L + 1));
  modify (emit (ToClient clientFd out)).

(** The response of the modem goes to a connection that waits for it. *)
Definition recv_ctl_con (m : bytes) (fd : Z) (qmi_con : QMI_PROXY_CONNECTION) : MP QMI_PROXY_CONNECTION :=
  if ClientFd qmi_con =? fd then
    send_qmi_to_client m fd;;
    t ← lift (rd16 m oCtlType);
    if t =? QMICTL_GET_CLIENT_ID_RESP then get_client_id qmi_con m
    else if (t =? QMICTL_RELEASE_CLIENT_ID_RESP) || (t =? QMICTL_REVOKE_CLIENT_ID_IND) then
      c ← release_client_id qmi_con m;
      when (t =? QMICTL_REVOKE_CLIENT_ID_IND) (modify (set_reset 1));;
      mret c
    else mret qmi_con
  else mret qmi_con.

(** A control response ends the request at the head of the queue. *)
Definition recv_ctl_rsp (m : bytes) : MP unit :=
  q ← gets ctl_msg;
  match q with
  | [] => mret tt
  | msg :: _ =>
      cs ← gets connections;
      cs ← for_each (recv_ctl_con m (msg_ClientFd msg)) cs;
      modify (set_connections cs);;
      modify (fun p => set_ctl_msg (drop 1 (ctl_msg p)) p)
  end.

(** The request now at the head is passed on, when its connection still exists. *)
Definition send_head : MP unit :=
  q ← gets ctl_msg;
  match q with
  | [] => mret tt
  | msg :: _ =>
      cs ← gets connections;
      _ ← for_each (fun c => when (ClientFd c =? msg_ClientFd msg) (send_qmi_to_cdc_wdm (msg_qmi msg));; mret c) cs;
      mret tt
  end.

Definition recv_ctl (m : bytes) : MP unit :=
  f ← lift (ld m oCtlCtlFlags);
  when (f =? QMICTL_CTL_FLAG_RSP) (recv_ctl_rsp m);;
  send_head.

(** The message goes to every client of the service, or to the one it names. *)
Definition route_client (m : bytes) (fd t c : Z) (x : QMI_PROXY_CLINET) : MP QMI_PROXY_CLINET :=
  when ((t =? cl_QMIType x) && ((c =? 0) || (c =? cl_ClientId x))) (send_qmi_to_client m fd);;
  mret x.
Definition route (m : bytes) : MP unit :=
  t ← lift (ld m oQMIType);
  c ← lift (ld m oClientId);
  cs ← gets connections;
  _ ← for_each (fun con => _ ← for_each (route_client m (ClientFd con) t c) (clients con); mret con) cs;
  mret tt.

(** Before the server is open, a message is compared with the request of [send_qmi_timeout]: by the control
    or the QMUX transaction identifier, according to the message's own service. *)
Definition recv_init (m : bytes) (size : Z) : MP unit :=
  req ← gets s_pCtlReq;
  match req with
  | None => mret tt
  | Some r =>
      t ← lift (ld m oQMIType);
      same ← (if t =? QMUX_TYPE_CTL
              then a ← lift (ld r oCtlTransactionId); b ← lift (ld m oCtlTransactionId); mret (a =? b)
              else a ← lift (ld16 r oTransactionId); b ← lift (ld16 m oTransactionId); mret (a =? b));
      when same (if malloc_ok size then b ← lift (lds m 0 size); modify (set_response b) else undefined)
  end.

Definition recv_qmi (m : bytes) (size : Z) : MP unit :=
  fd ← gets server_fd;
  if fd <=? 0 then recv_init m size else
  t ← lift (ld m oQMIType);
  if t =? QMUX_TYPE_CTL then recv_ctl m else route m.

Definition send_qmi (m : bytes) (size clientfd : Z) : MP unit :=
  fd ← gets server_fd;
  if fd <=? 0 then send_qmi_to_cdc_wdm m else
  t ← lift (ld m oQMIType);
  if t =? QMUX_TYPE_CTL then
    q ← gets ctl_msg;
    when (bool_decide (length q = 0%nat)) (send_qmi_to_cdc_wdm m);;
    if malloc_ok (sizeof_QMI_PROXY_MSG + size) then
      b ← lift (lds m 0 size);
      modify (fun p => set_ctl_msg (ctl_msg p ++ [{| msg_ClientFd := u8 clientfd; msg_qmi := b |}]) p)
    else undefined
  else send_qmi_to_cdc_wdm m.

(** ** The loop *)
(** What [poll] reports for a descriptor; [Readable] carries what [read] then returns (nothing: it failed, or the end
    of the stream), [Pending] the result of [accept]. *)
Inductive revent := Idle | Hup | Readable (data : bytes) | Pending (clientfd : Z).
Inductive verdict := Next | BreakFor | Exit.

(** The descriptors of the next poll: the modem, the server when it is open, and the connections, 66 at most. *)
Definition pollfds (cdc_wdm_fd : Z) (p : Proxy) : list Z :=
  take 66 (cdc_wdm_fd :: (if 0 <? server_fd p then [server_fd p] else []) ++ map ClientFd (connections p)).

(** A message just read into [qmi_buf], when it is whole. *)
Definition whole_read (buf data : bytes) : option (option bytes) :=
  buf ← sts buf 0 data;
  L ← rd16 buf oQMILength;
  Some (if zlen data =? L + 1 then Some buf else None).

(** One descriptor.  Result: what becomes of the loop over the descriptors, and the buffer. *)
Definition handle_fd (cdc_wdm_fd : Z) (buf : bytes) (fd : Z) (e : revent) : MP (verdict * bytes) :=
  srv ← gets server_fd;
  match e with
  | Idle => mret (Next, buf)
  | Hup =>
      if fd =? cdc_wdm_fd then mret (Exit, buf)
      else if fd =? srv then mret (Next, buf)
      else cleanup_qmi_connection fd;; mret (Next, buf)
  | Pending clientfd =>
      if fd =? srv then accept_qmi_connection clientfd;; mret (Next, buf) else undefined
  | Readable data =>
      let data := take (Z.to_nat sizeof_qmi_buf) data in
      if fd =? srv then undefined else
      if fd =? cdc_wdm_fd then
        if zlen data =? 0 then mret (Exit, buf) else
        buf' ← lift (sts buf 0 data);
        w ← lift (whole_read buf data);
        match w with
        | None => mret (Next, buf')
        | Some m =>
            recv_qmi m (zlen data);;
            f ← gets modem_reset_flag;
            mret (if negb (f =? 0) then Exit else Next, m)
        end
      else
        if zlen data =? 0 then cleanup_qmi_connection fd;; mret (BreakFor, buf) else
        buf' ← lift (sts buf 0 data);
        w ← lift (whole_read buf data);
        match w with
        | None => mret (Next, buf')
        | Some m => send_qmi m (zlen data) fd;; mret (Next, m)
        end
  end.

(** The descriptors of one poll.  Result: whether the loop goes on, and the buffer. *)
Fixpoint handle_fds (cdc_wdm_fd : Z) (buf : bytes) (evs : list (Z * revent)) : MP (bool * bytes) :=
  match evs with
  | [] => mret (true, buf)
  | (fd, e) :: evs =>
      '(v, buf) ← handle_fd cdc_wdm_fd buf fd e;
      match v with
      | Next => handle_fds cdc_wdm_fd buf evs
      | BreakFor => mret (true, buf)
      | Exit => mret (false, buf)
      end
  end.

(** The end of the loop closes every connection. *)
Fixpoint close_all (fuel : nat) : MP unit :=
  match fuel with
  | O => undefined
  | S fuel =>
      cs ← gets connections;
      match cs with
      | [] => mret tt
      | c :: _ => cleanup_qmi_connection (ClientFd c);; close_all fuel
      end
  end.

(** The loop on a finite sequence of polls ([None]: the poll failed, or a signal asked the loop to quit); each gives the events of the descriptors of that
    moment, in their order.  Result: whether it is still running. *)
Fixpoint qmi_proxy_loop (cdc_wdm_fd : Z) (buf : bytes) (polls : list (option (list revent))) : MP bool :=
  let quit := n ← gets (fun p => length (connections p)); close_all (S n);; mret false in
  match polls with
  | [] => mret true
  | None :: _ => quit
  | Some es :: polls =>
      fds ← gets (pollfds cdc_wdm_fd);
      '(go, buf) ← handle_fds cdc_wdm_fd buf (zip fds es);
      if go : bool then qmi_proxy_loop cdc_wdm_fd buf polls else quit
  end.
End Proxy.
