(* ===== verification/ProxySpec.v ===== *)
(** * What the multiplexer of Proxy.v guarantees, and where its queue breaks. *)
From S2P Require Import Prelude Util QmiMsg Compose Monad QmiExchange WwanCM Proxy.
#[local] Open Scope Z_scope.
#[local] Open Scope c_scope.

(** ** Outputs *)
Definition to_modem (l : list out) : list bytes := l ≫= fun o => match o with ToModem m => [m] | _ => [] end.
Definition to_clients (l : list out) : list (Z * bytes) := l ≫= fun o => match o with ToClient fd m => [(fd, m)] | _ => [] end.
Lemma to_modem_app l1 l2 : to_modem (l1 ++ l2) = to_modem l1 ++ to_modem l2.
Proof. apply bind_app. Qed.
Lemma to_clients_app l1 l2 : to_clients (l1 ++ l2) = to_clients l1 ++ to_clients l2.
Proof. apply bind_app. Qed.

(** Appends several outputs. *)
Definition emits (os : list out) (p : Proxy) : Proxy :=
  {| server_fd := server_fd p; connections := connections p; ctl_msg := ctl_msg p; modem_reset_flag := modem_reset_flag p;
     s_pCtlReq := s_pCtlReq p; s_pCtlRsq := s_pCtlRsq p; p_signalled := p_signalled p; outs := outs p ++ os |}.
Lemma emits_nil p : emits [] p = p.
Proof. destruct p. unfold emits. cbn. by rewrite app_nil_r. Qed.
Lemma emit_emits o os p : emits os (emit o p) = emits (o :: os) p.
Proof. unfold emits, emit. cbn. by rewrite <- app_assoc. Qed.
Lemma emits_emits os os' p : emits os' (emits os p) = emits (os ++ os') p.
Proof. unfold emits. cbn. by rewrite <- app_assoc. Qed.

(** ** Messages.  A whole message [m], followed in the buffer by what was there before. *)
Definition framed {host : Host} (m : bytes) : Prop := rd16 m oQMILength = Some (zlen m - 1).

Section Spec.
Context {host : Host} {heap : Heap} (junk : bytes) (Hjunk : 24 <= zlen junk).

Definition in_buf (m : bytes) : bytes := m ++ junk.

Lemma rd16_in_buf m i v : rd16 m i = Some v -> rd16 (in_buf m) i = Some v.
Proof. unfold rd16, ld16, in_buf. destruct (lds m i 2) as [b|] eqn:E; [|done]. by rewrite (lds_mono _ _ _ _ _ E). Qed.
Lemma ld_in_buf m i v : ld m i = Some v -> ld (in_buf m) i = Some v.
Proof.
  unfold ld, in_buf. destruct (0 <=? i); [|done]. intros H. by apply lookup_app_l_Some.
Qed.
Lemma lds_in_buf m : lds (in_buf m) 0 (zlen m) = Some m.
Proof. by apply lds_app_0. Qed.

(** The fixed part of a control message is always in the buffer. *)
Lemma in_buf_defined m i : 0 <= i < 24 -> is_Some (ld (in_buf m) i).
Proof. intros H. apply ld_defined. unfold in_buf. rewrite zlen_app. pose proof (zlen_nonneg m). lia. Qed.
Lemma in_buf_ld16 m i : 0 <= i < 23 -> is_Some (ld16 (in_buf m) i).
Proof.
  intros H. unfold ld16. destruct (lds_defined (in_buf m) i 2) as [b ->]; [lia..| |by eexists].
  unfold in_buf. rewrite zlen_app. pose proof (zlen_nonneg m). lia.
Qed.

Lemma send_to_modem m p : framed m -> send_qmi_to_cdc_wdm (in_buf m) p = Some (tt, emit (ToModem m) p).
Proof.
  intros H. unfold send_qmi_to_cdc_wdm. rewrite (rd16_in_buf _ _ _ H), bind_lift, Z.sub_add, lds_in_buf, bind_lift. done.
Qed.
Lemma send_to_modem' m p : framed m -> send_qmi_to_cdc_wdm m p = Some (tt, emit (ToModem m) p).
Proof.
  intros H. unfold send_qmi_to_cdc_wdm. rewrite H, bind_lift, Z.sub_add.
  assert (E : lds m 0 (zlen m) = Some m) by (rewrite <- (app_nil_r m) at 1; by apply lds_app_0). by rewrite E, bind_lift.
Qed.
Lemma send_to_client m fd p : framed m -> send_qmi_to_client (in_buf m) fd p = Some (tt, emit (ToClient fd m) p).
Proof.
  intros H. unfold send_qmi_to_client. rewrite (rd16_in_buf _ _ _ H), bind_lift, Z.sub_add, lds_in_buf, bind_lift. done.
Qed.

(** [for_each] of a computation that emits and yields by element. *)
Lemma for_each_emits {A} (f : A -> MP A) (g : A -> A) (o : A -> list out) (l : list A) p :
  (forall a p, a ∈ l -> f a p = Some (g a, emits (o a) p)) ->
  for_each f l p = Some (map g l, emits (l ≫= o) p).
Proof.
  revert p. induction l as [|a l IH]; intros p H; cbn [for_each map]; [by rewrite emits_nil|].
  erewrite bind_step by (apply H; left). erewrite bind_step by (apply IH; intros b q Hb; apply H; by right).
  by rewrite emits_emits.
Qed.

(** ** Routing of service messages *)
Definition wants (t c : Z) (x : QMI_PROXY_CLINET) : bool := (t =? cl_QMIType x) && ((c =? 0) || (c =? cl_ClientId x)).
Definition copies (m : bytes) (t c : Z) (con : QMI_PROXY_CONNECTION) : list out :=
  clients con ≫= fun x => if wants t c x then [ToClient (ClientFd con) m] else [].

Lemma route_run m t c p :
  framed m -> ld m oQMIType = Some t -> ld m oClientId = Some c ->
  route (in_buf m) p = Some (tt, emits (connections p ≫= copies m t c) p).
Proof.
  intros Hf Ht Hc. unfold route. rewrite (ld_in_buf _ _ _ Ht), (ld_in_buf _ _ _ Hc), !bind_lift, bind_gets.
  erewrite bind_step; [reflexivity|]. apply (for_each_emits _ id). intros con q _.
  erewrite bind_step.
  2:{ apply (for_each_emits _ id (fun x => if wants t c x then [ToClient (ClientFd con) m] else [])). intros x r _.
      unfold route_client, wants. destruct (_ && _); cbn [when].
      - erewrite bind_step by (by apply send_to_client). by rewrite <- (emits_nil (emit _ _)), emit_emits.
      - rewrite bind_ret. by rewrite emits_nil. }
  done.
Qed.

(** All the clients, with the connections that hold them. *)
Definition holders (p : Proxy) : list (Z * (Z * Z)) :=
  connections p ≫= fun con => map (fun x => (ClientFd con, (cl_QMIType x, cl_ClientId x))) (clients con).

Lemma route_holders m t c p :
  connections p ≫= copies m t c =
  holders p ≫= fun h => if (t =? h.2.1) && ((c =? 0) || (c =? h.2.2)) then [ToClient h.1 m] else [].
Proof.
  unfold holders. induction (connections p) as [|con l IH]; [done|]. cbn. rewrite IH, bind_app. f_equal.
  unfold copies. induction (clients con) as [|x xs IHx]; [done|]. cbn. by rewrite IHx.
Qed.
End Spec.

(** C24: a service message of the modem is given to the clients it is for and to nobody else: one copy for each
    client of that service when it names none (a broadcast), in the order of the connections; when it names a
    client, and the identifiers handed out are distinct, one copy to the connection that holds it, or none at all when
    nobody does.  Nothing else changes. *)
Theorem route_correct {host : Host} {heap : Heap} junk m t c p :
  24 <= zlen junk -> framed m -> 0 < server_fd p -> ld m oQMIType = Some t -> t <> QMUX_TYPE_CTL -> ld m oClientId = Some c ->
  exists p', recv_qmi (in_buf junk m) (zlen m) p = Some (tt, p') /\
    connections p' = connections p /\ ctl_msg p' = ctl_msg p /\
    outs p' = outs p ++ (holders p ≫= fun h => if (t =? h.2.1) && ((c =? 0) || (c =? h.2.2)) then [ToClient h.1 m] else []) /\
    (c <> 0 -> NoDup (snd <$> holders p) ->
       (forall fd, (fd, (t, c)) ∈ holders p -> outs p' = outs p ++ [ToClient fd m]) /\
       ((t, c) ∉ snd <$> holders p -> outs p' = outs p)).
Proof.
  intros Hj Hf Hs Ht Hn Hc. set (f := fun h : Z * (Z * Z) => if (t =? h.2.1) && ((c =? 0) || (c =? h.2.2)) then [ToClient h.1 m] else []).
  assert (Hone : c <> 0 -> forall l, (t, c) ∉ snd <$> l -> l ≫= f = []).
  { intros Hc0 l. induction l as [|h l IH]; [done|]. intros Hh. cbn. rewrite IH by set_solver. unfold f.
    destruct (Z.eqb_spec t h.2.1); [|done]. destruct (Z.eqb_spec c 0); [done|]. destruct (Z.eqb_spec c h.2.2); [|done].
    exfalso. apply Hh. destruct h as [? []]; cbn in *. subst. left. }
  eexists. split.
  { unfold recv_qmi. rewrite bind_gets, (proj2 (Z.leb_gt _ _)) by done. rewrite (ld_in_buf _ _ _ _ Ht), bind_lift.
    rewrite (proj2 (Z.eqb_neq _ _)) by done. by apply route_run. }
  rewrite route_holders. fold f. split_and!; [done..|]. intros Hc0 Hd. cbn. split.
  - intros fd Hin. f_equal. induction (holders p) as [|h l IH]; [set_solver|]. cbn in *. apply NoDup_cons in Hd as [Hd1 Hd2].
    apply elem_of_cons in Hin as [<-|Hin].
    + cbn in *. rewrite Hone by done. unfold f. cbn. by rewrite !Z.eqb_refl, orb_true_r.
    + rewrite IH by done. unfold f. assert (Hne : h.2 <> (t, c)).
      { intros E. apply Hd1. rewrite E. apply list_elem_of_fmap. by exists (fd, (t, c)). }
      destruct (Z.eqb_spec t h.2.1); [|done]. destruct (Z.eqb_spec c 0); [done|]. destruct (Z.eqb_spec c h.2.2); [|done].
      destruct h as [? []]; cbn in *. congruence.
  - intros Hh. by rewrite Hone, app_nil_r.
Qed.

(** ** Control messages *)
Definition con_fds (p : Proxy) : list Z := map ClientFd (connections p).
(** The parts a step on one connection leaves alone. *)
Definition same_queues (p p' : Proxy) : Prop :=
  connections p' = connections p /\ ctl_msg p' = ctl_msg p /\ server_fd p' = server_fd p.

Section Control.
Context {host : Host} {heap : Heap} (junk : bytes) (Hjunk : 24 <= zlen junk) (Hm : forall n, malloc_ok n = true).

Lemma get_client_id_run m con p :
  exists con', get_client_id con (in_buf junk m) p = Some (con', p) /\ ClientFd con' = ClientFd con.
Proof using Hjunk Hm.
  unfold get_client_id. destruct (in_buf_ld16 junk Hjunk m 15 ltac:(lia)) as [r ->].
  destruct (in_buf_ld16 junk Hjunk m 17 ltac:(lia)) as [e ->]. rewrite !bind_lift.
  destruct (_ && _); [|by exists con]. rewrite Hm.
  destruct (in_buf_defined junk Hjunk m 22 ltac:(lia)) as [t ->].
  destruct (in_buf_defined junk Hjunk m 23 ltac:(lia)) as [c ->]. rewrite !bind_lift. by eexists.
Qed.

Lemma release_client_id_run m con p :
  exists con', release_client_id con (in_buf junk m) p = Some (con', p) /\ ClientFd con' = ClientFd con.
Proof using Hjunk.
  unfold release_client_id. destruct (in_buf_ld16 junk Hjunk m 15 ltac:(lia)) as [r ->].
  destruct (in_buf_ld16 junk Hjunk m 17 ltac:(lia)) as [e ->]. rewrite !bind_lift.
  destruct (_ && _); [|by exists con].
  destruct (in_buf_defined junk Hjunk m 22 ltac:(lia)) as [t ->].
  destruct (in_buf_defined junk Hjunk m 23 ltac:(lia)) as [c ->]. rewrite !bind_lift. by eexists.
Qed.

Lemma recv_ctl_con_run m fd con p :
  framed m ->
  exists con' p', recv_ctl_con (in_buf junk m) fd con p = Some (con', p') /\ ClientFd con' = ClientFd con /\
    same_queues p p' /\ outs p' = outs p ++ (if ClientFd con =? fd then [ToClient fd m] else []).
Proof using Hjunk Hm.
  intros Hf. unfold recv_ctl_con. destruct (ClientFd con =? fd).
  2:{ exists con, p. rewrite app_nil_r. done. }
  erewrite bind_step by (by apply send_to_client).
  assert (Ht : is_Some (rd16 (in_buf junk m) oCtlType)).
  { unfold rd16. destruct (in_buf_ld16 junk Hjunk m oCtlType ltac:(unfold oCtlType; lia)) as [v ->]. by eexists. }
  destruct Ht as [t ->]. rewrite bind_lift. destruct (t =? _).
  { destruct (get_client_id_run m con (emit (ToClient fd m) p)) as (con' & -> & E). by exists con', (emit (ToClient fd m) p). }
  destruct (_ || _); [|by exists con, (emit (ToClient fd m) p)].
  destruct (release_client_id_run m con (emit (ToClient fd m) p)) as (con' & E & E'). erewrite bind_step by exact E.
  destruct (t =? _); cbn [when].
  - rewrite bind_modify. by exists con', (set_reset 1 (emit (ToClient fd m) p)).
  - by exists con', (emit (ToClient fd m) p).
Qed.

Definition answer_outs (m : bytes) (fd : Z) (fds : list Z) : list out :=
  fds ≫= fun f => if f =? fd then [ToClient fd m] else [].

Lemma recv_ctl_cons_run m fd cs p :
  framed m ->
  exists cs' p', for_each (recv_ctl_con (in_buf junk m) fd) cs p = Some (cs', p') /\ map ClientFd cs' = map ClientFd cs /\
    same_queues p p' /\ outs p' = outs p ++ answer_outs m fd (map ClientFd cs).
Proof using Hjunk Hm.
  intros Hf. revert p. induction cs as [|con cs IH]; intros p; cbn [for_each map].
  { exists [], p. rewrite app_nil_r. done. }
  destruct (recv_ctl_con_run m fd con p Hf) as (con' & p1 & E1 & F1 & (S1 & S2 & S3) & O1). erewrite bind_step by exact E1.
  destruct (IH p1) as (cs' & p2 & E2 & F2 & (S4 & S5 & S6) & O2). erewrite bind_step by exact E2.
  exists (con' :: cs'), p2. split; [done|]. split; [cbn; by rewrite F1, F2|]. split; [split_and!; congruence|].
  rewrite O2, O1, <- app_assoc. done.
Qed.

Lemma answer_outs_one m fd fds : NoDup fds -> fd ∈ fds -> answer_outs m fd fds = [ToClient fd m].
Proof.
  induction fds as [|f fds IH]; [set_solver|]. intros [Hd1 Hd2]%NoDup_cons Hin. cbn. destruct (Z.eqb_spec f fd) as [->|Hne].
  - assert (E : answer_outs m fd fds = []); [|unfold answer_outs in E; by rewrite E].
    clear -Hd1. induction fds as [|g fds IH]; [done|]. cbn. destruct (Z.eqb_spec g fd) as [->|]; [set_solver|]. apply IH. set_solver.
  - apply IH; [done|set_solver].
Qed.

(** The next request is passed on once, when its connection exists. *)
Lemma send_head_run p :
  NoDup (con_fds p) ->
  (forall msg q, ctl_msg p = msg :: q -> framed (msg_qmi msg)) ->
  send_head p = Some (tt, emits (match ctl_msg p with
    | msg :: _ => if bool_decide (msg_ClientFd msg ∈ con_fds p) then [ToModem (msg_qmi msg)] else [] | [] => [] end) p).
Proof.
  intros Hd Hf. unfold send_head. rewrite bind_gets. destruct (ctl_msg p) as [|msg q]; [by rewrite emits_nil|].
  specialize (Hf msg q eq_refl). rewrite bind_gets.
  set (o := fun c => if ClientFd c =? msg_ClientFd msg then [ToModem (msg_qmi msg)] else []).
  erewrite bind_step.
  2:{ apply (for_each_emits _ id o). intros c r _. unfold o. destruct (_ =? _); cbn [when].
      - erewrite bind_step by (by apply send_to_modem'). by rewrite <- (emits_nil (emit _ _)), emit_emits.
      - rewrite bind_ret. by rewrite emits_nil. }
  assert (E : forall cs, NoDup (map ClientFd cs) ->
    cs ≫= o = if bool_decide (msg_ClientFd msg ∈ map ClientFd cs) then [ToModem (msg_qmi msg)] else []).
  { induction cs as [|c cs IH]; [done|]. cbn. intros [Hd1 Hd2]%NoDup_cons. rewrite (IH Hd2). unfold o.
    destruct (Z.eqb_spec (ClientFd c) (msg_ClientFd msg)) as [Ec|Ec].
    - rewrite (bool_decide_false (_ ∈ map _ _)) by (rewrite <- Ec; done). rewrite bool_decide_true by (rewrite Ec; left). done.
    - cbn. apply (f_equal (fun b : bool => if b then _ else _)). apply bool_decide_ext. set_solver. }
  rewrite E by exact Hd. done.
Qed.

(** A response of the modem to a control request. *)
Definition ctl_response (m : bytes) : Prop :=
  framed m /\ ld m oQMIType = Some QMUX_TYPE_CTL /\ ld m oCtlCtlFlags = Some QMICTL_CTL_FLAG_RSP.
Definition ctl_request (m : bytes) : Prop := framed m /\ ld m oQMIType = Some QMUX_TYPE_CTL.

(** [recv_qmi] on a control response while requests are queued. *)
Lemma recv_response_run m p msg q :
  0 < server_fd p -> ctl_response m -> ctl_msg p = msg :: q -> NoDup (con_fds p) -> msg_ClientFd msg ∈ con_fds p ->
  (forall msg' q', q = msg' :: q' -> framed (msg_qmi msg') /\ msg_ClientFd msg' ∈ con_fds p) ->
  exists p', recv_qmi (in_buf junk m) (zlen m) p = Some (tt, p') /\ server_fd p' = server_fd p /\ con_fds p' = con_fds p /\
    ctl_msg p' = q /\
    outs p' = outs p ++ [ToClient (msg_ClientFd msg) m] ++ match q with msg' :: _ => [ToModem (msg_qmi msg')] | [] => [] end.
Proof using Hjunk Hm.
  intros Hs (Hf & Ht & Hfl) Hq Hd Hin Hnext. unfold recv_qmi. rewrite bind_gets, (proj2 (Z.leb_gt _ _)) by done.
  rewrite (ld_in_buf _ _ _ _ Ht), bind_lift, Z.eqb_refl. unfold recv_ctl. rewrite (ld_in_buf _ _ _ _ Hfl), bind_lift.
  rewrite Z.eqb_refl. cbn [when].
  destruct (recv_ctl_cons_run m (msg_ClientFd msg) (connections p) p Hf) as (cs' & p1 & E1 & F1 & (S1 & S2 & S3) & O1).
  assert (E : recv_ctl_rsp (in_buf junk m) p = Some (tt, set_ctl_msg q (set_connections cs' p1))).
  { unfold recv_ctl_rsp. rewrite bind_gets, Hq, bind_gets. erewrite bind_step by exact E1. rewrite bind_modify.
    unfold modify. cbn. by rewrite S2, Hq. }
  erewrite bind_step by exact E. set (p2 := set_ctl_msg _ _).
  assert (Hc : con_fds p2 = con_fds p) by (unfold con_fds; cbn; exact F1).
  rewrite send_head_run.
  - eexists. split; [reflexivity|]. cbn [emits server_fd con_fds connections ctl_msg outs]. split; [done|]. split; [exact F1|].
    split; [done|]. rewrite Hc. change (ctl_msg p2) with q. change (outs p2) with (outs p1). rewrite O1.
    rewrite (answer_outs_one _ _ _ Hd Hin), <- app_assoc. f_equal. f_equal.
    destruct q as [|msg' q']; [done|]. destruct (Hnext msg' q' eq_refl) as [_ Hi]. by rewrite bool_decide_true.
  - by rewrite Hc.
  - change (ctl_msg p2) with q. intros msg' q' E'. by apply (Hnext msg' q').
Qed.

Lemma send_request_run m p fd :
  0 < server_fd p -> ctl_request m -> u8 fd = fd ->
  send_qmi (in_buf junk m) (zlen m) fd p =
  Some (tt, set_ctl_msg (ctl_msg p ++ [{| msg_ClientFd := fd; msg_qmi := m |}])
    (emits (if bool_decide (length (ctl_msg p) = 0%nat) then [ToModem m] else []) p)).
Proof using Hm.
  intros Hs [Hf Ht] Hfd. unfold send_qmi. rewrite bind_gets, (proj2 (Z.leb_gt _ _)) by done.
  rewrite (ld_in_buf _ _ _ _ Ht), bind_lift, Z.eqb_refl, bind_gets. rewrite Hm.
  destruct (bool_decide _) eqn:E; cbn [when].
  - erewrite bind_step by (by apply send_to_modem). rewrite lds_in_buf, bind_lift. by rewrite Hfd.
  - rewrite bind_ret, lds_in_buf, bind_lift, Hfd, emits_nil. done.
Qed.
End Control.

(** ** Histories of control messages *)
Inductive cev := CReq (fd : Z) (m : bytes) | CRsp (m : bytes).
Definition reqs (evs : list cev) : list (Z * bytes) := evs ≫= fun e => match e with CReq fd m => [(fd, m)] | _ => [] end.
Definition rsps (evs : list cev) : list bytes := evs ≫= fun e => match e with CRsp m => [m] | _ => [] end.
(** The modem answers requests it has been given: never more responses than requests. *)
Fixpoint paced (pending : nat) (evs : list cev) : Prop :=
  match evs with
  | [] => True
  | CReq _ _ :: evs => paced (S pending) evs
  | CRsp _ :: evs => match pending with O => False | S n => paced n evs end
  end.

Definition cev_ok {host : Host} (fds : list Z) (e : cev) : Prop :=
  match e with CReq fd m => fd ∈ fds /\ u8 fd = fd /\ ctl_request m | CRsp m => ctl_response m end.
Definition run_cev {host : Host} {heap : Heap} (junk : bytes) (e : cev) : MP unit :=
  match e with
  | CReq fd m => send_qmi (in_buf junk m) (zlen m) fd
  | CRsp m => recv_qmi (in_buf junk m) (zlen m)
  end.
Fixpoint run_cevs {host : Host} {heap : Heap} (junk : bytes) (evs : list cev) : MP unit :=
  match evs with [] => mret tt | e :: evs => run_cev junk e;; run_cevs junk evs end.

Definition as_msg (x : Z * bytes) : QMI_PROXY_MSG := {| msg_ClientFd := x.1; msg_qmi := x.2 |}.

(** The history so far: requests [R], responses [S]. *)
Definition fifo_inv {host : Host} (fds : list Z) (R : list (Z * bytes)) (S : list bytes) (p : Proxy) : Prop :=
  0 < server_fd p /\ con_fds p = fds /\ Forall (fun x => x.1 ∈ fds /\ framed x.2) R /\ (length S <= length R)%nat /\
  ctl_msg p = as_msg <$> drop (length S) R /\ to_modem (outs p) = take (1 + length S) (snd <$> R) /\
  to_clients (outs p) = zip (fst <$> R) S.

Lemma zip_snoc {A B} (l : list A) (k : list B) a b :
  l !! length k = Some a -> zip l (k ++ [b]) = zip l k ++ [(a, b)].
Proof.
  revert l. induction k as [|c k IH]; intros [|x l]; cbn; [done|intros [= ->]; by destruct l|done|].
  intros H. by rewrite (IH l H).
Qed.
Lemma zip_app_short {A B} (l l' : list A) (k : list B) : (length k <= length l)%nat -> zip (l ++ l') k = zip l k.
Proof.
  revert l. induction k as [|c k IH]; intros [|x l]; cbn; intros H; [by destruct l'|done|lia|].
  rewrite IH; [done|lia].
Qed.

Section Fifo.
Context {host : Host} {heap : Heap} (junk : bytes) (Hjunk : 24 <= zlen junk) (Hm : forall n, malloc_ok n = true).

Lemma fifo_request fds R S fd m p :
  fifo_inv fds R S p -> cev_ok fds (CReq fd m) ->
  exists p', run_cev junk (CReq fd m) p = Some (tt, p') /\ fifo_inv fds (R ++ [(fd, m)]) S p'.
Proof using Hm.
  intros (I1 & I2 & I3 & I4 & I5 & I6 & I7) (H1 & H2 & H3). cbn [run_cev]. rewrite send_request_run by done.
  eexists. split; [reflexivity|]. unfold fifo_inv. cbn [set_ctl_msg emits server_fd con_fds connections ctl_msg outs].
  split; [done|]. split; [done|]. split; [apply Forall_app; split; [done|]; constructor; [|constructor]; split; [done|by destruct H3]|].
  split; [rewrite length_app; lia|]. split; [|split].
  - rewrite I5, drop_app_le, fmap_app by lia. done.
  - rewrite to_modem_app, I6, I5, length_fmap, length_drop, fmap_app.
    destruct (decide (length R = length S)) as [E|E].
    + rewrite bool_decide_true by lia. rewrite !firstn_all2 by (rewrite ?length_app, length_fmap; cbn; lia). done.
    + rewrite bool_decide_false by lia. rewrite app_nil_r, take_app_le by (rewrite length_fmap; lia). done.
  - rewrite to_clients_app, I7, fmap_app, zip_app_short by (rewrite length_fmap; lia).
    destruct (bool_decide _); by rewrite app_nil_r.
Qed.

Lemma fifo_response fds R S m p :
  NoDup fds -> fifo_inv fds R S p -> (length S < length R)%nat -> cev_ok fds (CRsp m) ->
  exists p', run_cev junk (CRsp m) p = Some (tt, p') /\ fifo_inv fds R (S ++ [m]) p'.
Proof using Hjunk Hm.
  intros Hd (I1 & I2 & I3 & I4 & I5 & I6 & I7) Hlt Hr. cbn [run_cev cev_ok] in *.
  destruct (lookup_lt_is_Some_2 R (length S) Hlt) as [x Hx]. rewrite (drop_S _ _ _ Hx) in I5. cbn in I5.
  assert (Hin : forall y j, R !! j = Some y -> y.1 ∈ con_fds p /\ framed y.2).
  { intros y j Hy. rewrite I2. rewrite Forall_forall in I3. apply I3. by eapply list_elem_of_lookup_2. }
  destruct (recv_response_run junk Hjunk Hm m p _ _ I1 Hr I5) as (p' & E & S1 & S2 & S3 & S4).
  - by rewrite I2.
  - exact (proj1 (Hin _ _ Hx)).
  - intros msg' q' Eq. destruct (R !! Datatypes.S (length S)) as [y|] eqn:Ey.
    + rewrite (drop_S _ _ _ Ey) in Eq. injection Eq as <- _. destruct (Hin _ _ Ey). done.
    + apply lookup_ge_None in Ey. by rewrite drop_ge in Eq.
  - exists p'. split; [exact E|]. unfold fifo_inv. rewrite S1, S2, S3, S4, length_app. cbn [length].
    rewrite Nat.add_1_r, to_modem_app, to_clients_app, I6, I7. split; [done|]. split; [done|]. split; [done|]. split; [lia|].
    split; [done|]. split.
    + destruct (R !! Datatypes.S (length S)) as [y|] eqn:Ey.
      * rewrite (drop_S _ _ _ Ey). cbn -[take]. rewrite (take_S_r _ (1 + length S) y.2); [done|].
        rewrite list_lookup_fmap. cbn. by rewrite Ey.
      * apply lookup_ge_None in Ey. rewrite (drop_ge R) by lia. cbn -[take]. rewrite app_nil_r.
        rewrite !firstn_all2 by (rewrite length_fmap; lia). done.
    + rewrite (zip_snoc _ _ x.1) by (by rewrite list_lookup_fmap, Hx). f_equal.
      destruct (drop _ R); done.
Qed.

Lemma fifo_run fds evs R S p :
  NoDup fds -> fifo_inv fds R S p -> paced (length R - length S) evs -> Forall (cev_ok fds) evs ->
  exists p', run_cevs junk evs p = Some (tt, p') /\ fifo_inv fds (R ++ reqs evs) (S ++ rsps evs) p'.
Proof using Hjunk Hm.
  intros Hd. revert R S p. induction evs as [|e evs IH]; intros R S p I Hp He; cbn [run_cevs].
  { exists p. rewrite !app_nil_r. done. }
  inversion He as [|? ? He1 He2]; subst. pose proof I as (_ & _ & _ & I4 & _). destruct e as [fd m|m]; cbn in Hp.
  - destruct (fifo_request fds R S fd m p I He1) as (p1 & E1 & I1). erewrite bind_step by exact E1.
    destruct (IH (R ++ [(fd, m)]) S p1 I1) as (p2 & E2 & I2); [|done|].
    { rewrite length_app. cbn. by replace (length R + 1 - length S)%nat with (Datatypes.S (length R - length S)) by lia. }
    exists p2. split; [exact E2|]. by rewrite <- app_assoc in I2.
  - destruct (length R - length S)%nat as [|n] eqn:En; [done|].
    destruct (fifo_response fds R S m p Hd I ltac:(lia) He1) as (p1 & E1 & I1). erewrite bind_step by exact E1.
    destruct (IH R (S ++ [m]) p1 I1) as (p2 & E2 & I2); [|done|].
    { rewrite length_app. cbn. by replace (length R - (length S + 1))%nat with n by lia. }
    exists p2. split; [exact E2|]. by rewrite <- app_assoc in I2.
Qed.
End Fifo.

(** C4: as long as no connection is closed, the control messages are served one at a time, first come
    first served, whatever the clients: the modem has been given the answered requests and the next one and
    no other, in their order; the i-th response went to the connection of the i-th request and to no other; and the
    queue holds the requests not answered yet. *)
Theorem control_fifo {host : Host} {heap : Heap} junk evs p :
  24 <= zlen junk -> (forall n, malloc_ok n = true) -> 0 < server_fd p -> NoDup (con_fds p) ->
  ctl_msg p = [] -> outs p = [] -> Forall (cev_ok (con_fds p)) evs -> paced 0 evs ->
  exists p', run_cevs junk evs p = Some (tt, p') /\
    ctl_msg p' = as_msg <$> drop (length (rsps evs)) (reqs evs) /\
    to_modem (outs p') = take (1 + length (rsps evs)) (snd <$> reqs evs) /\
    to_clients (outs p') = zip (fst <$> reqs evs) (rsps evs).
Proof.
  intros Hj Hm Hs Hd Hq Ho He Hp. destruct (fifo_run junk Hj Hm (con_fds p) evs [] [] p Hd) as (p' & E & I); [|done|done|].
  { unfold fifo_inv. rewrite Hq, Ho. by split_and!. }
  destruct I as (_ & _ & _ & _ & I1 & I2 & I3). by exists p'.
Qed.

(** Two clients; the second asks while the first one's request is with the modem. *)
Definition ctl_msg_of (flags tid type : Z) : bytes := [1] ++ le16 11 ++ [0; 0; 0; flags; tid] ++ le16 type ++ le16 0.
Definition two_clients : Proxy :=
  set_connections [{| ClientFd := 5; clients := [] |}; {| ClientFd := 6; clients := [] |}] (proxy_init 3).
Definition two_history : list cev :=
  [CReq 5 (ctl_msg_of 0 1 0x27); CReq 6 (ctl_msg_of 0 9 0x27); CRsp (ctl_msg_of 1 1 0x27)].

Theorem control_fifo_witness :
  exists p', run_cevs (heap := any_heap) (replicate 24 0) two_history two_clients = Some (tt, p') /\
    to_clients (outs p') = [(5, ctl_msg_of 1 1 0x27)] /\
    to_modem (outs p') = [ctl_msg_of 0 1 0x27; ctl_msg_of 0 9 0x27].
Proof.
  destruct (control_fifo (heap := any_heap) (replicate 24 0) two_history two_clients) as (p' & E & _ & H1 & H2).
  - vm_compute. discriminate.
  - reflexivity.
  - reflexivity.
  - apply NoDup_cons. split; [intros H; apply list_elem_of_singleton in H; discriminate | apply NoDup_singleton].
  - reflexivity.
  - reflexivity.
  - repeat constructor.
  - exact I.
  - exists p'. split; [exact E|]. split; [exact H2 | exact H1].
Defined.

Definition one_holder : Proxy :=
  set_connections [{| ClientFd := 5; clients := [{| cl_QMIType := 1; cl_ClientId := 4 |}] |};
                   {| ClientFd := 6; clients := [{| cl_QMIType := 1; cl_ClientId := 7 |}] |}] (proxy_init 3).
Definition service_msg (T cid : Z) : bytes := [1] ++ le16 12 ++ [0; T; cid; 4; 1; 0; 0x22; 0; 0; 0].

Theorem route_correct_witness :
  exists p', recv_qmi (heap := any_heap) (in_buf (replicate 24 0) (service_msg 1 7)) 13 one_holder = Some (tt, p') /\
    outs p' = [ToClient 6 (service_msg 1 7)].
Proof.
  destruct (route_correct (heap := any_heap) (replicate 24 0) (service_msg 1 7) 1 7 one_holder) as (p' & E & _ & _ & H & _).
  - vm_compute. discriminate.
  - reflexivity.
  - reflexivity.
  - reflexivity.
  - discriminate.
  - reflexivity.
  - exists p'. split; [exact E | exact H].
Defined.

(** ** Closing *)
(** C26: the end of the loop closes every connection, in order and once each, in as many rounds as there are
    connections; so a loop that has ended has none left. *)
Theorem exit_closes_all {host : Host} {heap : Heap} cdc_wdm_fd buf polls p p' :
  (exists p1, close_all (S (length (connections p))) p = Some (tt, p1) /\ connections p1 = [] /\
     outs p1 = outs p ++ map Close (con_fds p)) /\
  (qmi_proxy_loop cdc_wdm_fd buf polls p = Some (false, p') -> connections p' = []).
Proof.
  assert (Hc : forall n p, length (connections p) = n -> exists p1, close_all (S n) p = Some (tt, p1) /\ connections p1 = [] /\
     outs p1 = outs p ++ map Close (con_fds p)).
  { clear. induction n as [|n IH]; intros p Hl.
    - exists p. apply nil_length_inv in Hl. cbn [close_all]. rewrite bind_gets, Hl. unfold con_fds. rewrite Hl, app_nil_r. done.
    - change (close_all (S (S n))) with (cs ← gets connections;
        match cs with [] => mret tt | c :: _ => cleanup_qmi_connection (ClientFd c);; close_all (S n) end : MP unit).
      rewrite bind_gets. destruct (connections p) as [|c cs] eqn:E; [done|].
      unfold cleanup_qmi_connection. rewrite bind_modify, E. cbn [find_first remove_first]. rewrite Z.eqb_refl.
      match goal with |- context [close_all (S n) ?p1] => destruct (IH p1) as (p2 & E2 & C2 & O2) end.
      { cbn. rewrite E. cbn. rewrite Z.eqb_refl. cbn in Hl. lia. }
      exists p2. split; [exact E2|]. split; [done|]. rewrite O2. unfold con_fds. cbn. rewrite E. cbn.
      by rewrite Z.eqb_refl, <- app_assoc. }
  split; [by apply Hc|]. revert buf p. induction polls as [|[es|] polls IH]; intros buf p; cbn [qmi_proxy_loop]; [done| |].
  - rewrite bind_gets. unfold mbind at 1, M_bind at 1.
    destruct (handle_fds _ _ _ p) as [[[go buf'] p1]|]; [|done]. destruct go; [apply IH|].
    rewrite bind_gets. destruct (Hc _ p1 eq_refl) as (p2 & E & C & _). erewrite bind_step by exact E. by intros [= <-].
  - rewrite bind_gets. destruct (Hc _ p eq_refl) as (p2 & E & C & _). erewrite bind_step by exact E. by intros [= <-].
Qed.

Theorem exit_closes_all_witness :
  exists p1, close_all 3 two_clients = Some (tt, p1) /\ outs p1 = [Close 5; Close 6].
Proof.
  destruct (exit_closes_all (heap := any_heap) 4 (replicate 2048 0) [] two_clients two_clients) as [(p1 & E & _ & O) _].
  exists p1. split; [exact E | exact O].
Defined.

(** ** Where the queue breaks *)
Definition run_until (m : MP unit) (p : Proxy) : Proxy := match m p with Some (_, p) => p | None => p end.
#[local] Existing Instance any_heap.

(** A client that closes with its request at the modem: the response goes to the next client in the queue,
    whose own request is dropped without having been sent. *)
Lemma cleanup_misroutes :
  let p := run_until (run_cevs (replicate 24 0) (take 2 two_history);;
    cleanup_qmi_connection 5;; run_cevs (replicate 24 0) (drop 2 two_history)) two_clients in
  outs p = [ToModem (ctl_msg_of 0 1 0x27); Close 5; ToClient 6 (ctl_msg_of 1 1 0x27)] /\ ctl_msg p = [].
Proof. vm_compute. split; reflexivity. Qed.

(** The client on 6 has a request with the modem; the one on 5 queues two and closes; the modem answers. *)
Definition stuck : Proxy :=
  run_until (
    run_cevs (replicate 24 0) [CReq 6 (ctl_msg_of 0 1 0x27); CReq 5 (ctl_msg_of 0 2 0x27); CReq 5 (ctl_msg_of 0 3 0x27)];;
    cleanup_qmi_connection 5;;
    run_cevs (replicate 24 0) [CRsp (ctl_msg_of 1 1 0x27)]) two_clients.

(** A connection that closes with two control messages queued leaves one behind, and when its turn comes
    the queue is stuck: from the state [stuck] (reached from two fresh connections by the history above) no control
    request of any client is ever passed to the modem, they only pile up. *)
Theorem control_queue_stuck {heap : Heap} junk more :
  24 <= zlen junk -> (forall n, malloc_ok n = true) ->
  Forall (fun x => ctl_request x.2 /\ u8 x.1 = x.1) more ->
  to_clients (outs stuck) = [(6, ctl_msg_of 1 1 0x27)] /\
  exists p', run_cevs junk (map (fun x => CReq x.1 x.2) more) stuck = Some (tt, p') /\
    outs p' = outs stuck /\ ctl_msg p' = ctl_msg stuck ++ (as_msg <$> more).
Proof.
  intros Hj Hm Hmore. split; [vm_compute; reflexivity|].
  assert (Hs : 0 < server_fd stuck) by reflexivity. assert (Hq : ctl_msg stuck <> []) by (vm_compute; discriminate).
  revert Hs Hq. generalize stuck. induction Hmore as [|[fd m] more [Hr Hfd] Hmore IH]; intros p Hs Hq; cbn [map run_cevs fmap list_fmap].
  { exists p. by rewrite app_nil_r. }
  cbn [fst snd] in *. erewrite bind_step by (apply send_request_run; done).
  rewrite bool_decide_false by (by destruct (ctl_msg p)). rewrite emits_nil.
  match goal with |- context [run_cevs _ _ ?p1] => destruct (IH p1) as (p' & E & O & C) end; [done|by destruct (ctl_msg p)|].
  exists p'. split; [exact E|]. split; [exact O|]. rewrite C. cbn. by rewrite <- app_assoc.
Qed.

Theorem control_queue_stuck_witness :
  exists p', run_cevs (heap := any_heap) (replicate 24 0) [CReq 6 (ctl_msg_of 0 4 0x22)] stuck = Some (tt, p') /\
    outs p' = outs stuck.
Proof.
  destruct (control_queue_stuck (heap := any_heap) (replicate 24 0) [(6, ctl_msg_of 0 4 0x22)]) as (_ & p' & E & O & _).
  - vm_compute. discriminate.
  - reflexivity.
  - repeat constructor.
  - exists p'. split; [exact E | exact O].
Defined.
