(* ===== verification/Main.v ===== *)
(** * main.c: the main thread of quectel-CM in QMI mode.
    The dispatch of the events: signals and alarms through one socket pair, the reader thread's events through another.
    The requests are behind the class [Calls], which the theorems of MainSpec.v are proved against; the
    instance at the end is the requests of QMIThread.c on the qmi_wwan device. *)
From S2P Require Import Prelude Util QmiMsg Compose Cm Monad QmiRequests QmiStatus QmiExchange WwanCM.
#[local] Open Scope Z_scope.

Definition SIG_EVENT_START : Z := 0.
Definition SIG_EVENT_CHECK : Z := 1.
(** [unsigned long] of a 64-bit target, and [alarm]'s [unsigned int]. *)
Definition ulong (x : Z) : Z := x mod 2 ^ 64.

(** What the main thread asks of the rest, on a state [W]: the requests, and the device's [deinit] (which may
    be NULL). *)
Class Calls (W : Type) : Type := {
  call_setup : PROFILE_T -> Z -> M W Z;
  call_address : NetCfg -> Z -> M W (Z * NetCfg);
  call_query : Z -> Z -> M W (Z * Z);
  call_deactivate : Z -> M W Z;
  call_registration : Z -> M W (Z * Z);
  call_signal : M W Z;
  call_deinit : option (M W Z) }.

(** What the main thread does besides the requests: the alarm, the DHCP client, and events to the reader
    thread. *)
Inductive eff := Alarm (seconds : Z) | UdhcpcStart | UdhcpcStop | ToDevice (e : Z).

(** The local variables of [qmi_main], [s_link], [main_loop], the fields of the profile that change, and the
    two sockets.  [reads] counts the readings of the clock. *)
Record MainState (W : Type) := {
  m_world : W; profile : PROFILE_T; cfg : NetCfg; loopback_state : Z; replication_factor : Z;
  PSAttachedState : Z; IPv4ConnectionStatus : Z; IPv6ConnectionStatus : Z;
  SetupCallFail : Z; SetupCallAllowTime : Z; qmierr : Z;
  s_link : Z; main_loop : Z; timer : bool; reads : nat;
  signal_q : list Z; device_q : list (Z * bytes); effects : list eff }.
Arguments m_world {W}. Arguments profile {W}. Arguments cfg {W}. Arguments loopback_state {W}.
Arguments replication_factor {W}. Arguments PSAttachedState {W}. Arguments IPv4ConnectionStatus {W}.
Arguments IPv6ConnectionStatus {W}. Arguments SetupCallFail {W}. Arguments SetupCallAllowTime {W}.
Arguments qmierr {W}. Arguments s_link {W}. Arguments main_loop {W}. Arguments timer {W}. Arguments reads {W}.
Arguments signal_q {W}. Arguments device_q {W}. Arguments effects {W}.

Definition with_auth (p : PROFILE_T) (a : Z) : PROFILE_T :=
  {| apn := apn p; user := user p; password := password p; auth := a; pdp := pdp p; curIpFamily := curIpFamily p;
     enable_ipv4 := enable_ipv4 p; enable_ipv6 := enable_ipv6 p |}.

(** The loop goes on, ends at [__main_quit], or is left for [__main_loop]: the device was unplugged, or its modem was reset (the sockets are closed
    then); [DeviceGone]: it did not come back from a reset, which ends the loop with the sockets closed. *)
Inductive verdict := Continue | QuitMain | Unplugged | AfterReset | DeviceGone.

Section Setters.
Context {W : Type} (s : MainState W).
Definition build (w : W) (p : PROFILE_T) (c : NetCfg) (lb rf ps v4 v6 fail allow err link ml : Z) (t : bool) (n : nat)
  (sq : list Z) (dq : list (Z * bytes)) (e : list eff) : MainState W :=
  {| m_world := w; profile := p; cfg := c; loopback_state := lb; replication_factor := rf; PSAttachedState := ps;
     IPv4ConnectionStatus := v4; IPv6ConnectionStatus := v6; SetupCallFail := fail; SetupCallAllowTime := allow;
     qmierr := err; s_link := link; main_loop := ml; timer := t; reads := n; signal_q := sq; device_q := dq; effects := e |}.
Definition set_world (w : W) := build w (profile s) (cfg s) (loopback_state s) (replication_factor s) (PSAttachedState s)
  (IPv4ConnectionStatus s) (IPv6ConnectionStatus s) (SetupCallFail s) (SetupCallAllowTime s) (qmierr s) (s_link s)
  (main_loop s) (timer s) (reads s) (signal_q s) (device_q s) (effects s).
Definition set_profile (p : PROFILE_T) := build (m_world s) p (cfg s) (loopback_state s) (replication_factor s)
  (PSAttachedState s) (IPv4ConnectionStatus s) (IPv6ConnectionStatus s) (SetupCallFail s) (SetupCallAllowTime s) (qmierr s)
  (s_link s) (main_loop s) (timer s) (reads s) (signal_q s) (device_q s) (effects s).
Definition set_cfg (c : NetCfg) := build (m_world s) (profile s) c (loopback_state s) (replication_factor s)
  (PSAttachedState s) (IPv4ConnectionStatus s) (IPv6ConnectionStatus s) (SetupCallFail s) (SetupCallAllowTime s) (qmierr s)
  (s_link s) (main_loop s) (timer s) (reads s) (signal_q s) (device_q s) (effects s).
Definition set_loopback (lb rf : Z) := build (m_world s) (profile s) (cfg s) lb rf
  (PSAttachedState s) (IPv4ConnectionStatus s) (IPv6ConnectionStatus s) (SetupCallFail s) (SetupCallAllowTime s) (qmierr s)
  (s_link s) (main_loop s) (timer s) (reads s) (signal_q s) (device_q s) (effects s).
Definition set_attached (ps : Z) := build (m_world s) (profile s) (cfg s) (loopback_state s) (replication_factor s)
  ps (IPv4ConnectionStatus s) (IPv6ConnectionStatus s) (SetupCallFail s) (SetupCallAllowTime s) (qmierr s)
  (s_link s) (main_loop s) (timer s) (reads s) (signal_q s) (device_q s) (effects s).
Definition set_v4 (v : Z) := build (m_world s) (profile s) (cfg s) (loopback_state s) (replication_factor s)
  (PSAttachedState s) v (IPv6ConnectionStatus s) (SetupCallFail s) (SetupCallAllowTime s) (qmierr s)
  (s_link s) (main_loop s) (timer s) (reads s) (signal_q s) (device_q s) (effects s).
Definition set_v6 (v : Z) := build (m_world s) (profile s) (cfg s) (loopback_state s) (replication_factor s)
  (PSAttachedState s) (IPv4ConnectionStatus s) v (SetupCallFail s) (SetupCallAllowTime s) (qmierr s)
  (s_link s) (main_loop s) (timer s) (reads s) (signal_q s) (device_q s) (effects s).
Definition set_fail (n : Z) := build (m_world s) (profile s) (cfg s) (loopback_state s) (replication_factor s)
  (PSAttachedState s) (IPv4ConnectionStatus s) (IPv6ConnectionStatus s) n (SetupCallAllowTime s) (qmierr s)
  (s_link s) (main_loop s) (timer s) (reads s) (signal_q s) (device_q s) (effects s).
Definition set_allow (t : Z) := build (m_world s) (profile s) (cfg s) (loopback_state s) (replication_factor s)
  (PSAttachedState s) (IPv4ConnectionStatus s) (IPv6ConnectionStatus s) (SetupCallFail s) t (qmierr s)
  (s_link s) (main_loop s) (timer s) (reads s) (signal_q s) (device_q s) (effects s).
Definition set_err (e : Z) := build (m_world s) (profile s) (cfg s) (loopback_state s) (replication_factor s)
  (PSAttachedState s) (IPv4ConnectionStatus s) (IPv6ConnectionStatus s) (SetupCallFail s) (SetupCallAllowTime s) e
  (s_link s) (main_loop s) (timer s) (reads s) (signal_q s) (device_q s) (effects s).
Definition set_link (l : Z) := build (m_world s) (profile s) (cfg s) (loopback_state s) (replication_factor s)
  (PSAttachedState s) (IPv4ConnectionStatus s) (IPv6ConnectionStatus s) (SetupCallFail s) (SetupCallAllowTime s) (qmierr s)
  l (main_loop s) (timer s) (reads s) (signal_q s) (device_q s) (effects s).
Definition set_main_loop (l : Z) := build (m_world s) (profile s) (cfg s) (loopback_state s) (replication_factor s)
  (PSAttachedState s) (IPv4ConnectionStatus s) (IPv6ConnectionStatus s) (SetupCallFail s) (SetupCallAllowTime s) (qmierr s)
  (s_link s) l (timer s) (reads s) (signal_q s) (device_q s) (effects s).
Definition set_timer (t : bool) := build (m_world s) (profile s) (cfg s) (loopback_state s) (replication_factor s)
  (PSAttachedState s) (IPv4ConnectionStatus s) (IPv6ConnectionStatus s) (SetupCallFail s) (SetupCallAllowTime s) (qmierr s)
  (s_link s) (main_loop s) t (reads s) (signal_q s) (device_q s) (effects s).
Definition set_reads (n : nat) := build (m_world s) (profile s) (cfg s) (loopback_state s) (replication_factor s)
  (PSAttachedState s) (IPv4ConnectionStatus s) (IPv6ConnectionStatus s) (SetupCallFail s) (SetupCallAllowTime s) (qmierr s)
  (s_link s) (main_loop s) (timer s) n (signal_q s) (device_q s) (effects s).
Definition set_signal_q (q : list Z) := build (m_world s) (profile s) (cfg s) (loopback_state s) (replication_factor s)
  (PSAttachedState s) (IPv4ConnectionStatus s) (IPv6ConnectionStatus s) (SetupCallFail s) (SetupCallAllowTime s) (qmierr s)
  (s_link s) (main_loop s) (timer s) (reads s) q (device_q s) (effects s).
Definition set_device_q (q : list (Z * bytes)) := build (m_world s) (profile s) (cfg s) (loopback_state s)
  (replication_factor s) (PSAttachedState s) (IPv4ConnectionStatus s) (IPv6ConnectionStatus s) (SetupCallFail s)
  (SetupCallAllowTime s) (qmierr s) (s_link s) (main_loop s) (timer s) (reads s) (signal_q s) q (effects s).
Definition add_eff (e : eff) := build (m_world s) (profile s) (cfg s) (loopback_state s) (replication_factor s)
  (PSAttachedState s) (IPv4ConnectionStatus s) (IPv6ConnectionStatus s) (SetupCallFail s) (SetupCallAllowTime s) (qmierr s)
  (s_link s) (main_loop s) (timer s) (reads s) (signal_q s) (device_q s) (effects s ++ [e]).
End Setters.

Section Main.
Context {host : Host} {W : Type} {calls : Calls W}.
(** [clock k] is the k-th value [clock_msec] returns. *)
Variable clock : nat -> Z.
Abbreviation MM := (M (MainState W)).

Definition in_calls {A} (m : M W A) : MM A := fun s =>
  match m (m_world s) with Some (a, w) => Some (a, set_world s w) | None => None end.
Definition clock_msec : MM Z :=
  k ← gets reads; modify (fun s => set_reads s (S k));; mret (clock k).
Definition set_alarm (seconds : Z) : MM unit :=
  modify (fun s => set_timer (add_eff s (Alarm seconds)) (negb (seconds =? 0))).
Definition main_send_event_to_qmidevice (e : Z) : MM unit := modify (fun s => add_eff s (ToDevice e)).
Definition send_signo_to_main (signo : Z) : MM unit := modify (fun s => set_signal_q s (signal_q s ++ [signo])).

Definition usbnet_link_state (state : Z) : MM unit := modify (fun s => set_link s (if state =? 0 then 0 else 1)).
Definition usbnet_link_change (link : Z) : MM unit :=
  l ← gets s_link;
  if l =? link then mret tt else
  modify (fun s => set_link s link);;
  modify (fun s => add_eff s (if link =? 0 then UdhcpcStop else UdhcpcStart)).

(** The profile copied for the query is dropped. *)
Definition check_ipv4_address : MM bool :=
  now ← gets cfg;
  '(err, new) ← in_calls (call_address now IpFamilyV4);
  mret (if err =? 0 then Address (ipv4 new) =? Address (ipv4 now) else false).

Definition nonempty (s : option bytes) : bool :=
  match s with Some (c :: _) => negb (c =? 0) | _ => false end.

(** [qmierr = f()] *)
Definition assign_err (m : MM Z) : MM Z := e ← m; modify (fun s => set_err s e);; mret e.
Definition setup (family : Z) : MM Z :=
  p ← gets profile; assign_err (in_calls (call_setup p family)).
Definition get_address (family : Z) : MM Z :=
  c ← gets cfg;
  '(e, c) ← in_calls (call_address c family);
  modify (fun s => set_cfg s c);; assign_err (mret e).

Definition dial_ipv4 : MM unit :=
  e ← setup IpFamilyV4;
  p ← gets profile;
  e ← (if (0 <? e) && nonempty (user p) && nonempty (password p) then
         modify (fun s => set_profile s (with_auth p (if auth p =? 1 then 2 else 1)));;
         e ← setup IpFamilyV4;
         (if negb (e =? 0) then modify (fun s => set_profile s (with_auth (profile s) (auth p))) else mret tt);;
         mret e
       else mret e);
  if e =? 0 then
    e ← get_address IpFamilyV4;
    when (e =? 0) (modify (fun s => set_v4 s QWDS_PKT_DATA_CONNECTED))
  else mret tt.
Definition dial_ipv6 : MM unit :=
  e ← setup IpFamilyV6;
  if e =? 0 then
    e ← get_address IpFamilyV6;
    when (e =? 0) (modify (fun s => set_v6 s QWDS_PKT_DATA_CONNECTED))
  else mret tt.

(** A family that is enabled and known to be disconnected. *)
Definition disconnected (s : MainState W) : bool :=
  (negb (enable_ipv4 (profile s) =? 0) && (IPv4ConnectionStatus s =? QWDS_PKT_DATA_DISCONNECTED)) ||
  (negb (enable_ipv6 (profile s) =? 0) && (IPv6ConnectionStatus s =? QWDS_PKT_DATA_DISCONNECTED)).
Definition some_connected (s : MainState W) : bool :=
  (IPv4ConnectionStatus s =? QWDS_PKT_DATA_CONNECTED) || (IPv6ConnectionStatus s =? QWDS_PKT_DATA_CONNECTED).

Definition allow_time : list Z := [5; 10; 20; 40; 60].
Definition retry_later : MM unit :=
  n ← gets SetupCallFail;
  let delay := if n <? 5 then allow_time !!! Z.to_nat n else 60 in
  modify (fun s => set_fail s (u32 (n + 1)));;
  set_alarm delay;;
  t ← clock_msec;
  modify (fun s => set_allow s (ulong (delay * 1000 + t))).

Definition handle_start : MM unit :=
  s ← gets id;
  if negb (PSAttachedState s =? 1) && (loopback_state s =? 0) then mret tt else
  t ← clock_msec;
  allow ← gets SetupCallAllowTime;
  if t <? allow then
    t ← clock_msec;
    set_alarm (u32 (ulong (allow - t + 999) / 1000))
  else
    when (negb (enable_ipv4 (profile s) =? 0) && negb (IPv4ConnectionStatus s =? QWDS_PKT_DATA_CONNECTED)) dial_ipv4;;
    when (negb (enable_ipv6 (profile s) =? 0) && negb (IPv6ConnectionStatus s =? QWDS_PKT_DATA_CONNECTED)) dial_ipv6;;
    s ← gets id;
    if disconnected s then retry_later
    else if some_connected s then
      modify (fun s => set_fail s 0);;
      t ← clock_msec;
      modify (fun s => set_allow s t)
    else mret tt.

(** [SIG_EVENT_CHECK] asks for the status of the families that are enabled ... *)
Definition check_ipv4 : MM unit :=
  old ← gets IPv4ConnectionStatus;
  '(_, v) ← in_calls (call_query old IpFamilyV4);
  modify (fun s => set_v4 s v);;
  if v =? QWDS_PKT_DATA_CONNECTED then
    same ← check_ipv4_address;
    if same : bool then mret tt else
    _ ← in_calls (call_deactivate IpFamilyV4);
    modify (fun s => set_v4 s QWDS_PKT_DATA_DISCONNECTED)
  else mret tt.
Definition check_ipv6 : MM unit :=
  old ← gets IPv6ConnectionStatus;
  '(_, v) ← in_calls (call_query old IpFamilyV6);
  modify (fun s => set_v6 s v).
Definition check_families : MM unit :=
  p ← gets profile;
  (if negb (enable_ipv4 p =? 0) then check_ipv4 else modify (fun s => set_v4 s QWDS_PKT_DATA_DISCONNECTED));;
  (if negb (enable_ipv6 p =? 0) then check_ipv6 else modify (fun s => set_v6 s QWDS_PKT_DATA_DISCONNECTED)).
(** ... and acts on them. *)
Definition check_settle : MM unit :=
  s ← gets id;
  (if (IPv4ConnectionStatus s =? QWDS_PKT_DATA_DISCONNECTED) && (IPv6ConnectionStatus s =? QWDS_PKT_DATA_DISCONNECTED)
   then usbnet_link_change 0
   else if some_connected s then usbnet_link_change 1
   else mret tt);;
  when (disconnected s) (send_signo_to_main SIG_EVENT_START).
Definition handle_check : MM unit :=
  _ ← in_calls call_signal;
  check_families;;
  check_settle.

Definition handle_stop : MM unit :=
  s ← gets id;
  when (negb (enable_ipv4 (profile s) =? 0) && (IPv4ConnectionStatus s =? QWDS_PKT_DATA_CONNECTED))
    (_ ← in_calls (call_deactivate IpFamilyV4); mret tt);;
  when (negb (enable_ipv6 (profile s) =? 0) && (IPv6ConnectionStatus s =? QWDS_PKT_DATA_CONNECTED))
    (_ ← in_calls (call_deactivate IpFamilyV6); mret tt);;
  usbnet_link_change 0;;
  (match call_deinit with Some f => _ ← in_calls f; mret tt | None => mret tt end);;
  main_send_event_to_qmidevice RIL_REQUEST_QUIT.

Definition handle_signo (signo : Z) : MM verdict :=
  set_alarm 0;;
  if signo =? SIG_EVENT_START then handle_start;; mret Continue
  else if signo =? SIG_EVENT_CHECK then handle_check;; mret Continue
  else if signo =? SIG_EVENT_STOP then handle_stop;; mret QuitMain
  else mret Continue.

(** [SetLoopBackInd]: a 4-byte header, the state in a one-byte TLV, the factor in a four-byte TLV. *)
Definition sizeof_SetLoopBackInd : Z := 15.
Definition handle_loopback (payload : bytes) : MM unit :=
  if zlen payload =? sizeof_SetLoopBackInd then
    lb ← lift (ld payload 7);
    rf ← lift (rd32 payload 11);
    modify (fun s => set_loopback s lb (s32 rf));;
    when (negb (lb =? 0)) (send_signo_to_main SIG_EVENT_START)
  else mret tt.

(** [present k]: the device's node exists in the k-th second after the modem's reset. *)
Definition handle_event (present : nat -> bool) (event : Z) (payload : bytes) : MM verdict :=
  if event =? RIL_INDICATE_DEVICE_DISCONNECTED then
    usbnet_link_change 0;;
    l ← gets main_loop;
    mret (if negb (l =? 0) then Unplugged else QuitMain)
  else if event =? RIL_UNSOL_RESPONSE_VOICE_NETWORK_STATE_CHANGED then
    old ← gets PSAttachedState;
    '(_, a) ← in_calls (call_registration old);
    modify (fun s => set_attached s a);;
    (if a =? 1 then
       s ← gets id;
       when (disconnected s) (send_signo_to_main SIG_EVENT_START)
     else t ← clock_msec; modify (fun s => set_allow s t));;
    mret Continue
  else if event =? RIL_UNSOL_DATA_CALL_LIST_CHANGED then
    s ← gets id;
    when (some_connected s) (t ← clock_msec; modify (fun s => set_allow s (ulong (t + 1000))));;
    send_signo_to_main SIG_EVENT_CHECK;;
    mret Continue
  else if event =? MODEM_REPORT_RESET_EVENT then
    main_send_event_to_qmidevice RIL_REQUEST_QUIT;;
    usbnet_link_state 0;;
    mret (if forallb present (seq 0 20) then AfterReset else DeviceGone)
  else if event =? RIL_UNSOL_LOOPBACK_CONFIG_IND then
    handle_loopback payload;; mret Continue
  else mret Continue.

(** One turn of the loop: a poll of both sockets, which times out after 15 seconds when both are empty, and one
    message of each socket that had one. *)
Definition turn (present : nat -> bool) : MM verdict :=
  sq ← gets signal_q;
  dq ← gets device_q;
  match sq, dq with
  | [], [] => send_signo_to_main SIG_EVENT_CHECK;; mret Continue
  | _, _ =>
      v ← match sq with
          | [] => mret Continue
          | signo :: rest => modify (fun s => set_signal_q s rest);; handle_signo signo
          end;
      match v with
      | Continue =>
          match dq with
          | [] => mret Continue
          | (e, payload) :: rest => modify (fun s => set_device_q s rest);; handle_event present e payload
          end
      | v => mret v
      end
  end.

(** The label [__main_quit], up to the threads and sockets. *)
Definition main_quit : MM unit := usbnet_link_change 0.

(** [ql_sigaction] and the reader thread, which write to the sockets between the turns. *)
Definition sigalrm : MM unit := modify (fun s => set_timer s false);; send_signo_to_main SIG_EVENT_START.
Definition sigterm : MM unit :=
  modify (fun s => set_main_loop s 0);; send_signo_to_main SIG_EVENT_STOP;; main_send_event_to_qmidevice SIG_EVENT_STOP.
Definition device_event (e : Z) (payload : bytes) : MM unit := modify (fun s => set_device_q s (device_q s ++ [(e, payload)])).
End Main.

(** ** On the qmi_wwan device *)
Definition QMI_ERR_OP_DEVICE_UNSUPPORTED : Z := 25.

Section Wwan.
Context {host : Host} {heap : Heap} {modem : Modem} (junk : bytes).

#[export] Instance wwan_calls : Calls CW := {
  call_setup p f := in_world (requestSetupDataCall p f);
  call_address c f := in_world (requestGetIPAddress c f);
  call_query old f := in_world (requestQueryDataCall old f);
  call_deactivate f := in_world (requestDeactivateDefaultPDP f);
  call_registration old := in_world (requestRegistrationState old);
  call_signal := in_world requestGetSignalInfo;
  call_deinit := Some (QmiWwanDeInit junk) }.

(** The request is repeated, a second apart, while the modem says it is not supported yet. *)
Fixpoint sim_loop (fuel : nat) (old : SIM_Status) : MC SIM_Status :=
  match fuel with
  | O => undefined
  | S fuel =>
      '(err, st) ← in_world (requestGetSIMStatus old);
      if err =? QMI_ERR_OP_DEVICE_UNSUPPORTED then sim_loop fuel st else mret st
  end.

(** From the reader's [RIL_INDICATE_DEVICE_CONNECTED] to the loop; [st0] is what the uninitialised [SIMStatus]
    holds.  Result: whether the loop is entered, and the profile's device settings. *)
Definition qmi_start (fuel : nat) (e : ETH_T) (pincode : option bytes) (st0 : SIM_Status) : M (MainState CW) (bool * ETH_T) :=
  p ← gets profile;
  ret ← in_calls (QmiWwanInit junk (qmap_mode e) (enable_ipv6 p));
  if negb (ret =? 0) then mret (false, e) else
  v ← gets (fun s => cw_qmap_version (m_world s));
  let e := set_eth_qmap_version e v in
  _ ← in_calls (in_world requestBaseBandVersion);
  '(_, e) ← in_calls (in_world (requestSetEthMode p e));
  in_calls (set_version (eth_qmap_version e));;
  s ← gets id;
  (if negb (loopback_state s =? 0) then
     _ ← in_calls (in_world (requestSetLoopBackState (loopback_state s) (replication_factor s)));
     modify (fun s => set_loopback s 0 (replication_factor s))
   else mret tt);;
  st ← in_calls (sim_loop fuel st0);
  (match st, pincode with
   | SIM_PIN, Some pin => _ ← in_calls (in_world (requestEnterSimPin pin)); mret tt
   | _, _ => mret tt
   end);;
  _ ← in_calls (in_world requestGetIMEI);
  (match st with
   | SIM_READY =>
       _ ← in_calls (in_world requestGetICCID);
       _ ← in_calls (in_world requestGetIMSI); mret tt
   | _ => mret tt
   end);;
  (if is_nonnull (apn p) || is_nonnull (user p) || is_nonnull (password p) then
     _ ← in_calls (in_world (requestSetProfile p)); mret tt
   else mret tt);;
  _ ← in_calls (in_world (requestGetProfile p));
  old ← gets PSAttachedState;
  '(_, a) ← in_calls (in_world (requestRegistrationState old));
  modify (fun s => set_attached s a);;
  send_signo_to_main SIG_EVENT_CHECK;;
  mret (true, e).
End Wwan.
