(* ===== verification/MainSpec.v ===== *)
(** * What the main loop of Main.v guarantees, for any implementation of its [Calls]. *)
From S2P Require Import Prelude Util QmiMsg Compose Cm Monad QmiRequests QmiStatus QmiExchange WwanCM Main.
From stdpp Require Import relations.
#[local] Open Scope Z_scope.

(** ** The DHCP client is started and stopped in turn *)
(** The starts ([true]) and stops among the effects. *)
Definition links (l : list eff) : list bool :=
  l ≫= fun e => match e with UdhcpcStart => [true] | UdhcpcStop => [false] | _ => [] end.
Fixpoint alternates (l : list bool) : Prop :=
  match l with
  | a :: ((b :: _) as l') => a <> b /\ alternates l'
  | _ => True
  end.
Definition link_inv {W} (s : MainState W) : Prop :=
  alternates (links (effects s)) /\
  s_link s = match last (links (effects s)) with None => -1 | Some true => 1 | Some false => 0 end.

Lemma links_app l k : links (l ++ k) = links l ++ links k.
Proof. apply bind_app. Qed.
Lemma alternates_snoc l b : alternates l -> last l <> Some b -> alternates (l ++ [b]).
Proof.
  induction l as [|a l IH]; [done|]. destruct l as [|a' l].
  - cbn. intros _ H. split; [congruence | done].
  - intros [H1 H2] H. split; [done|]. by apply IH.
Qed.

Section Links.
Context {host : Host} {W : Type} {calls : Calls W} (clock : nat -> Z).

(** The steps that leave the link and the DHCP client alone. *)
Lemma link_inv_eff (s s' : MainState W) es :
  effects s' = effects s ++ es -> links es = [] -> s_link s' = s_link s -> link_inv s -> link_inv s'.
Proof. unfold link_inv. intros -> H -> . by rewrite links_app, H, app_nil_r. Qed.
Lemma preserves_in_calls {A} (m : M W A) : preserves link_inv (in_calls m : M (MainState W) A).
Proof. intros s a s'. unfold in_calls. destruct (m (m_world s)) as [[b w]|]; [|done]. by intros [= _ <-]. Qed.
Lemma preserves_alarm n : preserves link_inv (set_alarm (W := W) n).
Proof. intros s a s' [= _ <-]. by apply (link_inv_eff s _ [Alarm n]). Qed.
Lemma preserves_to_device e : preserves link_inv (main_send_event_to_qmidevice (W := W) e).
Proof. intros s a s' [= _ <-]. by apply (link_inv_eff s _ [ToDevice e]). Qed.

Lemma preserves_link_change n : n = 0 \/ n = 1 -> preserves link_inv (usbnet_link_change (W := W) n).
Proof.
  intros Hn s a s'. unfold usbnet_link_change. rewrite bind_gets. destruct (Z.eqb_spec (s_link s) n) as [E|E].
  { by intros [= _ <-]. }
  rewrite bind_modify. intros [= _ <-] [I1 I2]. unfold link_inv. cbn [effects add_eff set_link build s_link].
  rewrite links_app, last_app. set (b := negb (n =? 0)).
  assert (Eb : links [if n =? 0 then UdhcpcStop else UdhcpcStart] = [b]) by (unfold b; by destruct (n =? 0)).
  rewrite Eb. cbn. split.
  - apply alternates_snoc; [done|]. intros Hl. rewrite I2, Hl in E. apply E. unfold b. by destruct Hn as [->| ->].
  - unfold b. by destruct Hn as [->| ->].
Qed.
End Links.
#[export] Hint Resolve preserves_in_calls preserves_alarm preserves_to_device : preserves.
#[export] Hint Extern 1 (preserves link_inv (usbnet_link_change _)) =>
  (apply preserves_link_change; lia) : preserves.

Section LinkSteps.
Context {host : Host} {W : Type} {calls : Calls W} (clock : nat -> Z).

Lemma preserves_clock : preserves link_inv (clock_msec (W := W) clock).
Proof. unfold clock_msec. invariant. Qed.
Hint Resolve preserves_clock : preserves.
Lemma preserves_setup f : preserves link_inv (setup (W := W) f).
Proof. unfold setup, assign_err. invariant. Qed.
Lemma preserves_get_address f : preserves link_inv (get_address (W := W) f).
Proof. unfold get_address, assign_err. invariant. Qed.
Hint Resolve preserves_setup preserves_get_address : preserves.
Lemma preserves_start : preserves link_inv (handle_start (W := W) clock).
Proof. unfold handle_start, dial_ipv4, dial_ipv6, retry_later. invariant. Qed.
Lemma preserves_check : preserves link_inv (handle_check (W := W)).
Proof. unfold handle_check, check_families, check_ipv4, check_ipv6, check_settle, check_ipv4_address, send_signo_to_main. invariant. Qed.
Lemma preserves_stop : preserves link_inv (handle_stop (W := W)).
Proof. unfold handle_stop. invariant. Qed.
Hint Resolve preserves_start preserves_check preserves_stop : preserves.
Lemma preserves_signo n : preserves link_inv (handle_signo (W := W) clock n).
Proof. unfold handle_signo. invariant. Qed.
Lemma preserves_event present e payload :
  e <> MODEM_REPORT_RESET_EVENT -> preserves link_inv (handle_event (W := W) clock present e payload).
Proof.
  intros He. unfold handle_event. rewrite (proj2 (Z.eqb_neq e MODEM_REPORT_RESET_EVENT)) by done.
  unfold handle_loopback, send_signo_to_main. invariant.
Qed.
End LinkSteps.

(** What happens in a process: a turn of the loop (one that does not handle a reset of the modem, after which the loop is
    set up anew), the expiry of a pending alarm, a terminating signal, an event of the reader thread. *)
Inductive mstep {host : Host} {W} {calls : Calls W} (clock : nat -> Z) (present : nat -> bool) : MainState W -> MainState W -> Prop :=
  | m_turn s v s' :
      (forall e payload rest, device_q s = (e, payload) :: rest -> e <> MODEM_REPORT_RESET_EVENT) ->
      turn clock present s = Some (v, s') -> mstep clock present s s'
  | m_alarm s s' : timer s = true -> sigalrm s = Some (tt, s') -> mstep clock present s s'
  | m_term s s' : sigterm s = Some (tt, s') -> mstep clock present s s'
  | m_event s s' e payload : device_event e payload s = Some (tt, s') -> mstep clock present s s'.

Lemma mstep_link_inv {host : Host} {W} {calls : Calls W} clock present (s s' : MainState W) :
  mstep clock present s s' -> link_inv s -> link_inv s'.
Proof.
  intros H. destruct H as [s v s' Hr E|s s' _ E|s s' E|s s' e payload E].
  - unfold turn in E. rewrite !bind_gets in E. intros I.
    destruct (signal_q s) as [|signo sq] eqn:Eq; destruct (device_q s) as [|[e payload] dq] eqn:Ed.
    + injection E as <- <-. exact I.
    + rewrite bind_ret, bind_modify in E. exact (preserves_event clock present e payload (Hr _ _ _ eq_refl) _ _ _ E I).
    + unfold mbind at 1, M_bind at 1 in E. rewrite bind_modify in E.
      destruct (handle_signo _ _ _) as [[u s1]|] eqn:E1; [|done].
      assert (I1 : link_inv s1) by exact (preserves_signo clock signo _ _ _ E1 I).
      destruct u; injection E as <- <-; exact I1.
    + unfold mbind at 1, M_bind at 1 in E. rewrite bind_modify in E.
      destruct (handle_signo _ _ _) as [[u s1]|] eqn:E1; [|done].
      assert (I1 : link_inv s1) by exact (preserves_signo clock signo _ _ _ E1 I).
      destruct u; [|injection E as <- <-; exact I1..].
      rewrite bind_modify in E. exact (preserves_event clock present e payload (Hr _ _ _ eq_refl) _ _ _ E I1).
  - injection E as <-. done.
  - injection E as <-. by apply (link_inv_eff s _ [ToDevice SIG_EVENT_STOP]).
  - injection E as <-. done.
Qed.

(** From the start of the program to the first reset of the modem, in every interleaving of turns, alarms, signals and
    events, and whatever the requests answer, the DHCP client is started and stopped strictly in turn, and
    [s_link] tells which came last. *)
Theorem dhcp_alternates {host : Host} {W} {calls : Calls W} clock present (s s' : MainState W) :
  effects s = [] -> s_link s = -1 -> rtc (mstep clock present) s s' ->
  alternates (links (effects s')) /\
  s_link s' = match last (links (effects s')) with None => -1 | Some true => 1 | Some false => 0 end.
Proof.
  intros H1 H2 H. assert (I : link_inv s) by (unfold link_inv; rewrite H1, H2; done). clear H1 H2.
  change (link_inv s'). induction H as [|s s1 s' Hs _ IH]; [done|]. apply IH. by eapply mstep_link_inv.
Qed.

(** ** A concrete instance, for the witnesses: a modem that answers every query as told *)
Section Demo.
Context (status setup_result : Z).
(** The world is the list of calls: (what, family). *)
Definition demo_calls : Calls (list (Z * Z)) := {|
  call_setup _ f := fun w => Some (setup_result, w ++ [(0x20, f)]);
  call_address c f := fun w => Some ((0, c), w ++ [(0x2D, f)]);
  call_query _ f := fun w => Some ((0, status), w ++ [(0x22, f)]);
  call_deactivate f := fun w => Some (0, w ++ [(0x21, f)]);
  call_registration old := fun w => Some ((0, 1), w ++ [(0x4D, 0)]);
  call_signal := fun w => Some (0, w ++ [(0x4F, 0)]);
  call_deinit := Some (fun w => Some (0, w ++ [(0, 0)])) |}.
End Demo.

Definition demo_profile : PROFILE_T :=
  {| apn := None; user := None; password := None; auth := 0; pdp := 1; curIpFamily := 0; enable_ipv4 := 1; enable_ipv6 := 0 |}.
Definition demo_cfg : NetCfg :=
  {| ipv4 := ipv4_zero; ipv6 := ipv6_zero; PCSCFIpv4 := ([], []); PCSCFIpv6 := ([], []) |}.
Definition demo_state : MainState (list (Z * Z)) :=
  build [] demo_profile demo_cfg 0 0 1 0xff 0xff 0 0 0 (-1) 0 false 0%nat [SIG_EVENT_CHECK] [] [].
Definition ran_main {W A} (m : M (MainState W) A) (s : MainState W) : MainState W :=
  match m s with Some (_, s) => s | None => s end.

Theorem dhcp_alternates_witness :
  let calls := demo_calls QWDS_PKT_DATA_CONNECTED 0 in
  let s' := ran_main (turn (calls := calls) (fun _ => 0) (fun _ => true)) demo_state in
  alternates (links (effects s')) /\ links (effects s') = [true].
Proof.
  cbv zeta. destruct (dhcp_alternates (calls := demo_calls QWDS_PKT_DATA_CONNECTED 0) (fun _ => 0) (fun _ => true) demo_state
    (ran_main (turn (calls := demo_calls QWDS_PKT_DATA_CONNECTED 0) (fun _ => 0) (fun _ => true)) demo_state)) as [H _].
  - reflexivity.
  - reflexivity.
  - apply rtc_once. apply (m_turn _ _ _ Continue); [intros e payload rest E; discriminate E | vm_compute; reflexivity].
  - split; [exact H | reflexivity].
Defined.

(** ** Redialling *)
Definition may_dial {W} (s : MainState W) : Prop := PSAttachedState s = 1 \/ loopback_state s <> 0.
Lemma may_dial_guard {W} (s : MainState W) :
  may_dial s -> negb (PSAttachedState s =? 1) && (loopback_state s =? 0) = false.
Proof.
  intros [->|H]; [done|]. apply andb_false_iff. right. by apply Z.eqb_neq.
Qed.

Section Dial.
Context {host : Host} {W : Type} {calls : Calls W} (clock : nat -> Z).

Lemma in_calls_run {A} (m : M W A) s a w : m (m_world s) = Some (a, w) -> in_calls m s = Some (a, set_world s w).
Proof. unfold in_calls. by intros ->. Qed.
Lemma clock_run (s : MainState W) : clock_msec clock s = Some (clock (reads s), set_reads s (S (reads s))).
Proof. done. Qed.

(** Every attempt to set up a call fails. *)
Definition always_fails : Prop := forall p f w, exists e w', call_setup p f w = Some (e, w') /\ e <> 0.
(** Only the world and [qmierr] differ. *)
Definition tried (s s' : MainState W) : Prop := s' = set_err (set_world s (m_world s')) (qmierr s').

Lemma tried_refl s : tried s s.
Proof. by destruct s. Qed.
Lemma tried_trans s1 s2 s3 : tried s1 s2 -> tried s2 s3 -> tried s1 s3.
Proof. unfold tried. intros -> ->. done. Qed.

Lemma setup_fails f s : always_fails -> exists e s', setup f s = Some (e, s') /\ e <> 0 /\ tried s s'.
Proof.
  intros H. unfold setup, assign_err. rewrite bind_gets. destruct (H (profile s) f (m_world s)) as (e & w & E & He).
  rewrite (bind_step _ _ _ _ _ (in_calls_run _ _ _ _ E)), bind_modify. by eexists _, _.
Qed.

Lemma with_auth_back p a : with_auth (with_auth p a) (auth p) = p.
Proof. by destruct p. Qed.

Lemma dial_ipv4_fails s : always_fails -> exists s', dial_ipv4 s = Some (tt, s') /\ tried s s'.
Proof.
  intros H. unfold dial_ipv4. destruct (setup_fails IpFamilyV4 s H) as (e & s1 & E & He & T).
  erewrite bind_step by exact E. rewrite bind_gets. destruct (_ && _ && _).
  - set (p := profile s1).
    destruct (setup_fails IpFamilyV4 (set_profile s1 (with_auth p (if auth p =? 1 then 2 else 1))) H) as (e2 & s2 & E2 & He2 & T2).
    erewrite bind_step.
    2:{ rewrite bind_modify. erewrite bind_step by exact E2. rewrite (proj2 (Z.eqb_neq _ _)) by done. cbn [negb].
        rewrite bind_modify. reflexivity. }
    rewrite (proj2 (Z.eqb_neq _ _)) by done. eexists. split; [reflexivity|]. eapply tried_trans; [exact T|].
    unfold tried in *. rewrite T2. cbn. unfold set_err, set_world, set_profile, build. cbn. rewrite with_auth_back. reflexivity.
  - rewrite bind_ret, (proj2 (Z.eqb_neq _ _)) by done. by eexists.
Qed.

Lemma dial_ipv6_fails s : always_fails -> exists s', dial_ipv6 s = Some (tt, s') /\ tried s s'.
Proof.
  intros H. unfold dial_ipv6. destruct (setup_fails IpFamilyV6 s H) as (e & s1 & E & He & T).
  erewrite bind_step by exact E. rewrite (proj2 (Z.eqb_neq _ _)) by done. by eexists.
Qed.

Lemma when_fails b (m : M (MainState W) unit) s :
  (forall s, exists s', m s = Some (tt, s') /\ tried s s') -> exists s', when b m s = Some (tt, s') /\ tried s s'.
Proof. intros H. destruct b; [apply H|]. exists s. split; [done | apply tried_refl]. Qed.

Definition delay (n : Z) : Z := if n <? 5 then allow_time !!! Z.to_nat n else 60.
Lemma delay_bounds n : 0 <= n -> 5 <= delay n <= 60.
Proof.
  intros H. unfold delay. destruct (Z.ltb_spec n 5); [|lia].
  assert (Hn : n = 0 \/ n = 1 \/ n = 2 \/ n = 3 \/ n = 4) by lia. destruct Hn as [->|[->|[->|[->| ->]]]]; vm_compute; split; discriminate.
Qed.

(** The state after a failed attempt. *)
Definition failed (s s' : MainState W) : Prop :=
  profile s' = profile s /\ PSAttachedState s' = PSAttachedState s /\ loopback_state s' = loopback_state s /\
  IPv4ConnectionStatus s' = IPv4ConnectionStatus s /\ IPv6ConnectionStatus s' = IPv6ConnectionStatus s /\
  SetupCallFail s' = u32 (SetupCallFail s + 1) /\ reads s' = S (S (reads s)) /\
  SetupCallAllowTime s' = ulong (delay (SetupCallFail s) * 1000 + clock (S (reads s))) /\
  effects s' = effects s ++ [Alarm 0; Alarm (delay (SetupCallFail s))].

Lemma start_fails s :
  always_fails -> may_dial s -> disconnected s = true -> SetupCallAllowTime s <= clock (reads s) ->
  exists s', handle_signo clock SIG_EVENT_START s = Some (Continue, s') /\ failed s s'.
Proof.
  intros H Hd Hdis Ht. unfold handle_signo, set_alarm at 1. rewrite bind_modify. change (SIG_EVENT_START =? SIG_EVENT_START) with true.
  cbv iota. set (s0 := set_timer _ _).
  assert (E : exists s', handle_start clock s0 = Some (tt, s') /\ failed s s').
  { unfold handle_start. rewrite bind_gets. change (PSAttachedState (id s0)) with (PSAttachedState s).
    change (loopback_state (id s0)) with (loopback_state s). rewrite may_dial_guard by done.
    erewrite bind_step by apply clock_run. rewrite bind_gets.
    change (reads s0) with (reads s). change (SetupCallAllowTime (set_reads s0 _)) with (SetupCallAllowTime s).
    rewrite (proj2 (Z.ltb_ge _ _)) by done.
    match goal with |- context [mbind _ (when ?b dial_ipv4) ?s1] =>
      destruct (when_fails b dial_ipv4 s1 (fun s => dial_ipv4_fails s H)) as (s2 & E2 & T2) end.
    erewrite bind_step by exact E2.
    match goal with |- context [mbind _ (when ?b dial_ipv6) ?s1] =>
      destruct (when_fails b dial_ipv6 s1 (fun s => dial_ipv6_fails s H)) as (s3 & E3 & T3) end.
    erewrite bind_step by exact E3. rewrite bind_gets.
    assert (T := tried_trans _ _ _ T2 T3). unfold tried in T.
    assert (Hdis3 : disconnected (id s3) = true) by (rewrite T; exact Hdis).
    rewrite Hdis3. unfold retry_later. rewrite bind_gets, bind_modify. unfold set_alarm. rewrite bind_modify.
    erewrite bind_step by apply clock_run. eexists. split; [reflexivity|].
    rewrite T. unfold failed. cbn. rewrite <- app_assoc. split_and!; reflexivity. }
  destruct E as (s' & E & F). erewrite bind_step by exact E. by exists s'.
Qed.
End Dial.

(** [n] START events in a row. *)
Fixpoint attempts {host : Host} {W} {calls : Calls W} (clock : nat -> Z) (n : nat) : M (MainState W) unit :=
  match n with O => mret tt | S n => handle_signo clock SIG_EVENT_START;; attempts clock n end.

(** While every attempt fails the redial backs off: the alarm is set to 5, 10, 20, 40 and then always 60 seconds,
    going on from the number of failures so far, each failed attempt leaves the statuses, the profile (its
    authentication mode too) and the registration as they were, and nothing else is done.  The attempts are the
    STARTs that come no earlier than the time allowed. *)
Theorem backoff_schedule {host : Host} {W} {calls : Calls W} clock n k (s : MainState W) :
  always_fails -> may_dial s -> disconnected s = true -> SetupCallFail s = Z.of_nat k -> Z.of_nat (k + n) < 2 ^ 32 ->
  (forall i, (i < 2 * n)%nat -> 0 <= clock (reads s + i)%nat < 2 ^ 63) ->
  ((0 < n)%nat -> SetupCallAllowTime s <= clock (reads s)) ->
  (forall i, (S i < n)%nat ->
     delay (Z.of_nat (k + i)) * 1000 + clock (reads s + 2 * i + 1)%nat <= clock (reads s + 2 * i + 2)%nat) ->
  exists s', attempts clock n s = Some (tt, s') /\
    effects s' = effects s ++ concat (map (fun i => [Alarm 0; Alarm (delay (Z.of_nat i))]) (seq k n)) /\
    SetupCallFail s' = Z.of_nat (k + n) /\ profile s' = profile s /\ PSAttachedState s' = PSAttachedState s /\
    IPv4ConnectionStatus s' = IPv4ConnectionStatus s /\ IPv6ConnectionStatus s' = IPv6ConnectionStatus s.
Proof.
  intros H. revert k s. induction n as [|n IH]; intros k s Hd Hdis Hk Hn Hc Ha Ht; cbn [attempts].
  { exists s. rewrite app_nil_r, Nat.add_0_r. done. }
  destruct (start_fails clock s H Hd Hdis (Ha ltac:(lia))) as (s1 & E & F1 & F2 & F3 & F4 & F5 & F6 & F7 & F8 & F9).
  erewrite bind_step by exact E.
  assert (Hk1 : SetupCallFail s1 = Z.of_nat (S k)) by (rewrite F6, Hk; rewrite u32_id; unfold is_u32; lia).
  destruct (IH (S k) s1) as (s' & E' & G1 & G2 & G3 & G4 & G5 & G6).
  - unfold may_dial. by rewrite F2, F3.
  - unfold disconnected in *. by rewrite F1, F4, F5.
  - exact Hk1.
  - by replace (S k + n)%nat with (k + S n)%nat by lia.
  - intros i Hi. rewrite F7. replace (S (S (reads s)) + i)%nat with (reads s + (S (S i)))%nat by lia. apply Hc. lia.
  - intros Hn0. rewrite F8, F7, Hk. pose proof (delay_bounds (Z.of_nat k) ltac:(lia)).
    pose proof (Hc 1%nat ltac:(lia)) as Hc1. rewrite Nat.add_1_r in Hc1.
    specialize (Ht 0%nat ltac:(lia)). rewrite Nat.mul_0_r, !Nat.add_0_r, Nat.add_1_r in Ht.
    unfold ulong. rewrite Z.mod_small by lia. replace (S (S (reads s))) with (reads s + 2)%nat by lia. done.
  - intros i Hi. rewrite F7. specialize (Ht (S i) ltac:(lia)). replace (S k + i)%nat with (k + S i)%nat by lia.
    replace (S (S (reads s)) + 2 * i + 1)%nat with (reads s + 2 * S i + 1)%nat by lia.
    replace (S (S (reads s)) + 2 * i + 2)%nat with (reads s + 2 * S i + 2)%nat by lia. done.
  - exists s'. split; [exact E'|]. rewrite G1, F9, G2, G3, G4, G5, G6, F1, F2, F4, F5, Hk. cbn [seq map concat].
    rewrite <- app_assoc. replace (S k + n)%nat with (k + S n)%nat by lia. done.
Qed.

Theorem backoff_schedule_witness :
  let s := ran_main (turn (calls := demo_calls QWDS_PKT_DATA_DISCONNECTED 14) (fun _ => 0) (fun _ => true)) demo_state in
  let clock k := 100000 * Z.of_nat k in
  exists s', attempts (calls := demo_calls QWDS_PKT_DATA_DISCONNECTED 14) clock 3 s = Some (tt, s') /\
    effects s' = effects s ++ [Alarm 0; Alarm 5; Alarm 0; Alarm 10; Alarm 0; Alarm 20] /\ SetupCallFail s' = 3.
Proof.
  cbv zeta. set (s := ran_main _ _). assert (Hr : reads s = 0%nat) by (vm_compute; reflexivity).
  destruct (backoff_schedule (calls := demo_calls QWDS_PKT_DATA_DISCONNECTED 14) (fun k => 100000 * Z.of_nat k) 3 0 s)
    as (s' & E & H1 & H2 & _).
  - intros p f w. exists 14. eexists. split; [reflexivity | discriminate].
  - left. vm_compute. reflexivity.
  - vm_compute. reflexivity.
  - vm_compute. reflexivity.
  - vm_compute. reflexivity.
  - intros i Hi. rewrite Hr. change (2 * 3)%nat with 6%nat in Hi. lia.
  - intros _. vm_compute. discriminate.
  - intros i Hi. rewrite Hr. pose proof (delay_bounds (Z.of_nat (0 + i)) ltac:(lia)). lia.
  - exists s'. split; [exact E|]. split; [rewrite H1; reflexivity | rewrite H2; reflexivity].
Defined.

(** A START that comes before the time allowed asks the modem for nothing: it only sets the alarm again, to the
    seconds that are left, rounded up (at least one).  When the clock passes the time allowed between the two readings
    of it, the alarm is set to 0, that is cancelled: the retry is then lost until the next check of the status. *)
Theorem start_too_early {host : Host} {W} {calls : Calls W} clock (s : MainState W) :
  let t1 := clock (reads s) in let t2 := clock (S (reads s)) in let allow := SetupCallAllowTime s in
  may_dial s -> t1 < allow -> 0 <= allow < 2 ^ 64 -> 0 <= t2 < 2 ^ 64 ->
  exists s' left, handle_signo clock SIG_EVENT_START s = Some (Continue, s') /\
    m_world s' = m_world s /\ effects s' = effects s ++ [Alarm 0; Alarm left] /\
    signal_q s' = signal_q s /\ SetupCallFail s' = SetupCallFail s /\ SetupCallAllowTime s' = allow /\
    (t2 < allow <= t2 + 4000000000 -> 1 <= left /\ 1000 * (left - 1) < allow - t2 <= 1000 * left /\ timer s' = true) /\
    (allow <= t2 < allow + 1000 -> left = 0 /\ timer s' = false).
Proof.
  intros t1 t2 allow Hd H1 Ha Ht2. exists (set_timer (add_eff (set_reads (set_timer (add_eff s (Alarm 0)) false) (S (S (reads s))))
    (Alarm (u32 (ulong (allow - t2 + 999) / 1000)))) (negb (u32 (ulong (allow - t2 + 999) / 1000) =? 0))).
  exists (u32 (ulong (allow - t2 + 999) / 1000)). split.
  { unfold handle_signo, set_alarm at 1. rewrite bind_modify. change (SIG_EVENT_START =? SIG_EVENT_START) with true. cbv iota.
    change (negb (0 =? 0)) with false. set (s0 := set_timer _ _).
    assert (E : handle_start clock s0 = Some (tt, set_timer (add_eff (set_reads s0 (S (S (reads s))))
      (Alarm (u32 (ulong (allow - t2 + 999) / 1000)))) (negb (u32 (ulong (allow - t2 + 999) / 1000) =? 0)))).
    { unfold handle_start. rewrite bind_gets. change (PSAttachedState (id s0)) with (PSAttachedState s).
      change (loopback_state (id s0)) with (loopback_state s). rewrite may_dial_guard by done.
      erewrite bind_step by apply clock_run. rewrite bind_gets.
      change (clock (reads s0)) with t1. change (SetupCallAllowTime (set_reads s0 _)) with allow.
      rewrite (proj2 (Z.ltb_lt _ _)) by done. erewrite bind_step by apply clock_run. reflexivity. }
    erewrite bind_step by exact E. reflexivity. }
  cbn -[u32 ulong Z.div]. rewrite <- app_assoc. split_and!; try done.
  - intros Hl. unfold ulong. rewrite Z.mod_small by lia. assert (Hq : 0 <= (allow - t2 + 999) / 1000 < 2 ^ 32) by zdm.
    rewrite u32_id by exact Hq. split_and!; [zdm..|]. apply negb_true_iff, Z.eqb_neq. zdm.
  - intros Hl. unfold ulong. rewrite Z.mod_small by lia. rewrite (Z.div_small _ 1000) by lia. done.
Qed.

Theorem start_too_early_witness :
  let clock k := 1000 * Z.of_nat k in
  let s := set_allow demo_state 5000 in
  exists s' left, handle_signo (calls := demo_calls 0 0) clock SIG_EVENT_START s = Some (Continue, s') /\
    effects s' = [Alarm 0; Alarm left] /\ 1 <= left.
Proof.
  cbv zeta. destruct (start_too_early (calls := demo_calls 0 0) (fun k => 1000 * Z.of_nat k) (set_allow demo_state 5000))
    as (s' & left & E & _ & H & _ & _ & _ & H2 & _).
  - left. reflexivity.
  - vm_compute. reflexivity.
  - vm_compute. split; [discriminate | reflexivity].
  - vm_compute. split; [discriminate | reflexivity].
  - exists s', left. split; [exact E|]. split; [exact H|]. apply H2. vm_compute. split; [reflexivity | discriminate].
Defined.

(** ** Checking, hanging up *)
Section Check.
Context {host : Host} {W : Type} {calls : Calls W}.

(** Asking for the statuses touches neither the link nor the sockets nor the settings. *)
Definition check_frame (s : MainState W) : Z * list Z * list (Z * bytes) * list eff * Z * Z * PROFILE_T :=
  (s_link s, signal_q s, device_q s, effects s, PSAttachedState s, SetupCallAllowTime s, profile s).
Lemma keeps_in_calls {A X} (P : MainState W -> X) (m : M W A) :
  (forall s w, P (set_world s w) = P s) -> keeps P (in_calls m).
Proof. intros H s a s'. unfold in_calls. destruct (m (m_world s)) as [[b w]|]; [|done]. intros [= _ <-]. apply H. Qed.
Hint Extern 1 (keeps _ (in_calls _)) => (apply keeps_in_calls; intros; reflexivity) : keeps.
Lemma check_families_frame : keeps check_frame (check_families (W := W)).
Proof. unfold check_families, check_ipv4, check_ipv6, check_ipv4_address. frame. Qed.

(** The state after the link was told its new state. *)
Definition link_changed (s : MainState W) (n : Z) : MainState W :=
  if s_link s =? n then s else add_eff (set_link s n) (if n =? 0 then UdhcpcStop else UdhcpcStart).
Lemma link_change_run n s : usbnet_link_change n s = Some (tt, link_changed s n).
Proof. unfold usbnet_link_change, link_changed. rewrite bind_gets. by destruct (s_link s =? n). Qed.

Definition settled (s : MainState W) : MainState W :=
  let s1 := if (IPv4ConnectionStatus s =? QWDS_PKT_DATA_DISCONNECTED) && (IPv6ConnectionStatus s =? QWDS_PKT_DATA_DISCONNECTED)
            then link_changed s 0 else if some_connected s then link_changed s 1 else s in
  if disconnected s then set_signal_q s1 (signal_q s1 ++ [SIG_EVENT_START]) else s1.
Lemma check_settle_run s : check_settle s = Some (tt, settled s).
Proof.
  unfold check_settle, settled. rewrite bind_gets. unfold id. destruct (_ && _).
  { erewrite bind_step by apply link_change_run. by destruct (disconnected s). }
  destruct (some_connected s).
  { erewrite bind_step by apply link_change_run. by destruct (disconnected s). }
  rewrite bind_ret. by destruct (disconnected s).
Qed.
Lemma check_families_disabled s s' :
  check_families s = Some (tt, s') ->
  (enable_ipv4 (profile s) = 0 -> IPv4ConnectionStatus s' = QWDS_PKT_DATA_DISCONNECTED) /\
  (enable_ipv6 (profile s) = 0 -> IPv6ConnectionStatus s' = QWDS_PKT_DATA_DISCONNECTED).
Proof.
  unfold check_families. rewrite bind_gets. intros E. split; intros H; rewrite H in E; cbn [negb Z.eqb] in E.
  - rewrite bind_modify in E. destruct (negb _); [|by injection E as <-].
    unfold check_ipv6 in E. rewrite bind_gets in E. unfold mbind, M_bind, in_calls in E.
    destruct (call_query _ _ _) as [[[a b] w]|]; [|done]. by injection E as <-.
  - unfold mbind, M_bind in E. match type of E with context [match ?m with _ => _ end] => destruct m as [[[] s3]|]; [|done] end.
    by injection E as <-.
Qed.

Lemma settled_spec s :
  IPv4ConnectionStatus (settled s) = IPv4ConnectionStatus s /\ IPv6ConnectionStatus (settled s) = IPv6ConnectionStatus s /\
  profile (settled s) = profile s /\
  s_link (settled s) = (if (IPv4ConnectionStatus s =? QWDS_PKT_DATA_DISCONNECTED) && (IPv6ConnectionStatus s =? QWDS_PKT_DATA_DISCONNECTED)
    then 0 else if some_connected s then 1 else s_link s) /\
  effects (settled s) = effects s ++ (if s_link (settled s) =? s_link s then [] else
    [if s_link (settled s) =? 0 then UdhcpcStop else UdhcpcStart]) /\
  signal_q (settled s) = signal_q s ++ (if disconnected s then [SIG_EVENT_START] else []).
Proof.
  assert (H : forall n, let s1 := link_changed s n in
    IPv4ConnectionStatus s1 = IPv4ConnectionStatus s /\ IPv6ConnectionStatus s1 = IPv6ConnectionStatus s /\
    profile s1 = profile s /\ s_link s1 = n /\ signal_q s1 = signal_q s /\
    effects s1 = effects s ++ (if n =? s_link s then [] else [if n =? 0 then UdhcpcStop else UdhcpcStart])).
  { intros n. unfold link_changed. rewrite (Z.eqb_sym n (s_link s)).
    destruct (Z.eqb_spec (s_link s) n); cbn; [rewrite app_nil_r|]; done. }
  unfold settled. set (s1 := if _ && _ then _ else _). assert (Hs : exists n, n = s_link s1 /\
    IPv4ConnectionStatus s1 = IPv4ConnectionStatus s /\ IPv6ConnectionStatus s1 = IPv6ConnectionStatus s /\
    profile s1 = profile s /\ signal_q s1 = signal_q s /\
    n = (if (IPv4ConnectionStatus s =? QWDS_PKT_DATA_DISCONNECTED) && (IPv6ConnectionStatus s =? QWDS_PKT_DATA_DISCONNECTED)
         then 0 else if some_connected s then 1 else s_link s) /\
    effects s1 = effects s ++ (if n =? s_link s then [] else [if n =? 0 then UdhcpcStop else UdhcpcStart])).
  { exists (s_link s1). unfold s1. destruct (_ && _); [destruct (H 0) as (H1 & H2 & H3 & -> & H4 & H5); done|].
    destruct (some_connected s); [destruct (H 1) as (H1 & H2 & H3 & -> & H4 & H5); done|].
    rewrite Z.eqb_refl, app_nil_r. done. }
  destruct Hs as (n & -> & H1 & H2 & H3 & H4 & H5 & H6). destruct (disconnected s); cbn; rewrite ?app_nil_r, ?H4; done.
Qed.
End Check.

(** A check of the status ends, whatever the requests answer, with the link in the state the
    statuses ask for: down when both families are disconnected, up when one is connected, unchanged when it
    is not known; a family that is not enabled counts as disconnected; the DHCP client is started or stopped only when
    that changes the link; and a START is queued exactly when a family that is enabled is disconnected. *)
Theorem check_outcome {host : Host} {W} {calls : Calls W} (s s' : MainState W) :
  handle_check s = Some (tt, s') ->
  let v4 := IPv4ConnectionStatus s' in let v6 := IPv6ConnectionStatus s' in
  (enable_ipv4 (profile s) = 0 -> v4 = QWDS_PKT_DATA_DISCONNECTED) /\
  (enable_ipv6 (profile s) = 0 -> v6 = QWDS_PKT_DATA_DISCONNECTED) /\
  s_link s' = (if (v4 =? QWDS_PKT_DATA_DISCONNECTED) && (v6 =? QWDS_PKT_DATA_DISCONNECTED) then 0
               else if (v4 =? QWDS_PKT_DATA_CONNECTED) || (v6 =? QWDS_PKT_DATA_CONNECTED) then 1 else s_link s) /\
  effects s' = effects s ++ (if s_link s' =? s_link s then [] else [if s_link s' =? 0 then UdhcpcStop else UdhcpcStart]) /\
  signal_q s' = signal_q s ++ (if disconnected s' then [SIG_EVENT_START] else []) /\ profile s' = profile s.
Proof.
  unfold handle_check. intros E. unfold mbind at 1, M_bind at 1 in E.
  destruct (in_calls call_signal s) as [[x s1]|] eqn:E1; [|done].
  assert (F1 : check_frame s1 = check_frame s) by (eapply keeps_in_calls; [|exact E1]; done).
  unfold mbind at 1, M_bind at 1 in E. destruct (check_families s1) as [[[] s2]|] eqn:E2; [|done].
  assert (F2 := check_families_frame _ _ _ E2). rewrite F1 in F2. unfold check_frame in F2. injection F2 as L Q _ O _ _ P.
  rewrite check_settle_run in E. injection E as <-.
  assert (Hp : profile s1 = profile s) by (unfold check_frame in F1; congruence).
  assert (Hen := check_families_disabled _ _ E2). rewrite Hp in Hen. destruct Hen as [D4 D6].
  destruct (settled_spec s2) as (S1 & S2 & S3 & S4 & S5 & S6). cbv zeta. unfold disconnected in *.
  rewrite S1, S2, S3, S5, S6, S4, L, Q, O, P. done.
Qed.

Theorem check_outcome_witness :
  let calls := demo_calls QWDS_PKT_DATA_DISCONNECTED 0 in
  let s' := ran_main (handle_check (calls := calls)) demo_state in
  effects s' = [UdhcpcStop] /\ signal_q s' = [SIG_EVENT_CHECK; SIG_EVENT_START].
Proof.
  cbv zeta. set (s' := ran_main _ _).
  destruct (check_outcome (calls := demo_calls QWDS_PKT_DATA_DISCONNECTED 0) demo_state s') as (_ & _ & _ & H1 & H2 & _).
  - vm_compute. reflexivity.
  - split; [rewrite H1; vm_compute; reflexivity | rewrite H2; vm_compute; reflexivity].
Defined.

(** The requests of a hang-up, by the families that are connected. *)
Definition hang_up {W} {calls : Calls W} (s : MainState W) : M W unit :=
  (if negb (enable_ipv4 (profile s) =? 0) && (IPv4ConnectionStatus s =? QWDS_PKT_DATA_CONNECTED)
   then _ ← call_deactivate IpFamilyV4; mret tt else mret tt);;
  (if negb (enable_ipv6 (profile s) =? 0) && (IPv6ConnectionStatus s =? QWDS_PKT_DATA_CONNECTED)
   then _ ← call_deactivate IpFamilyV6; mret tt else mret tt);;
  (match call_deinit with Some f => _ ← f; mret tt | None => mret tt end).

Section Stop.
Context {host : Host} {W : Type} {calls : Calls W} (clock : nat -> Z).

Lemma set_world_id (s : MainState W) : set_world s (m_world s) = s.
Proof. by destruct s. Qed.
Lemma when_in_calls {A} (b : bool) (m : M W A) (s : MainState W) w :
  (if b then _ ← m; mret tt else mret tt) (m_world s) = Some (tt, w) ->
  when b (_ ← in_calls m; mret tt) s = Some (tt, set_world s w).
Proof.
  destruct b; cbn [when].
  - unfold mbind, M_bind, in_calls. destruct (m (m_world s)) as [[a w1]|]; [|done]. by intros [= <-].
  - intros [= <-]. by destruct s.
Qed.
End Stop.

(** A STOP hangs up exactly the families that are enabled and connected, in order, brings the link
    down (stopping the DHCP client unless it is stopped already), gives the device's clients back, tells
    the reader thread to quit, and ends the loop. *)
Theorem stop_hangs_up {host : Host} {W} {calls : Calls W} clock (s : MainState W) w :
  hang_up s (m_world s) = Some (tt, w) ->
  exists s', handle_signo clock SIG_EVENT_STOP s = Some (QuitMain, s') /\ m_world s' = w /\ s_link s' = 0 /\
    effects s' = effects s ++ [Alarm 0] ++ (if s_link s =? 0 then [] else [UdhcpcStop]) ++ [ToDevice RIL_REQUEST_QUIT].
Proof.
  intros H. unfold hang_up in H. unfold mbind at 1, M_bind at 1 in H.
  match type of H with match ?m with _ => _ end = _ => destruct m as [[[] w1]|] eqn:E1; [|done] end.
  unfold mbind at 1, M_bind at 1 in H.
  match type of H with match ?m with _ => _ end = _ => destruct m as [[[] w2]|] eqn:E2; [|done] end.
  unfold handle_signo, set_alarm. rewrite bind_modify. change (SIG_EVENT_STOP =? SIG_EVENT_START) with false.
  change (SIG_EVENT_STOP =? SIG_EVENT_CHECK) with false. change (SIG_EVENT_STOP =? SIG_EVENT_STOP) with true. cbv iota.
  set (s0 := set_timer _ _).
  set (s1 := set_world s0 w1). set (s2 := set_world s1 w2). set (s3 := link_changed s2 0).
  assert (Hw : m_world s3 = w2) by (unfold s3, link_changed; by destruct (s_link s2 =? 0)).
  assert (E : handle_stop s0 = Some (tt, add_eff (set_world s3 w) (ToDevice RIL_REQUEST_QUIT))).
  { unfold handle_stop. rewrite bind_gets. erewrite bind_step by (apply (when_in_calls _ _ s0); exact E1).
    erewrite bind_step by (apply (when_in_calls _ _ s1); exact E2). erewrite bind_step by apply link_change_run.
    erewrite bind_step; [reflexivity|]. change (link_changed _ 0) with s3. rewrite <- Hw in H.
    destruct call_deinit as [f|].
    - unfold mbind, M_bind, in_calls in *. destruct (f (m_world s3)) as [[a w3]|]; [|done]. by injection H as <-.
    - injection H as <-. by rewrite set_world_id. }
  erewrite bind_step by exact E. eexists. split; [reflexivity|]. split; [done|].
  unfold s3, link_changed. change (s_link s2) with (s_link s). destruct (Z.eqb_spec (s_link s) 0) as [El|El].
  - split; [exact El|]. cbn. by rewrite <- app_assoc.
  - split; [done|]. cbn. by rewrite <- !app_assoc.
Qed.

Theorem stop_hangs_up_witness :
  let calls := demo_calls QWDS_PKT_DATA_CONNECTED 0 in
  exists s', handle_signo (calls := calls) (fun _ => 0) SIG_EVENT_STOP (set_v4 demo_state QWDS_PKT_DATA_CONNECTED) =
    Some (QuitMain, s') /\ m_world s' = [(0x21, IpFamilyV4); (0, 0)].
Proof.
  destruct (stop_hangs_up (calls := demo_calls QWDS_PKT_DATA_CONNECTED 0) (fun _ => 0)
    (set_v4 demo_state QWDS_PKT_DATA_CONNECTED) [(0x21, IpFamilyV4); (0, 0)]) as (s' & E & H & _).
  - vm_compute. reflexivity.
  - exists s'. split; [exact E | exact H].
Defined.

(** ** A network that works *)
(** The requests of a network with one IPv4 call, down ([Down]) or up ([Up]) with the address [addr]: the status tells
    which, a set-up brings it up, and nothing else changes it. *)
Record stable_network {W} (calls : Calls W) (Down Up : W -> Prop) (addr : Z) : Prop := {
  net_signal w : exists r w', call_signal w = Some (r, w') /\ (Down w -> Down w') /\ (Up w -> Up w');
  net_down old w : Down w -> exists r w', call_query old IpFamilyV4 w = Some ((r, QWDS_PKT_DATA_DISCONNECTED), w') /\ Down w';
  net_up old w : Up w -> exists r w', call_query old IpFamilyV4 w = Some ((r, QWDS_PKT_DATA_CONNECTED), w') /\ Up w';
  net_setup p w : Down w -> exists w', call_setup p IpFamilyV4 w = Some (0, w') /\ Up w';
  net_address c w : Up w -> exists c' w', call_address c IpFamilyV4 w = Some ((0, c'), w') /\ Address (ipv4 c') = addr /\ Up w' }.

Fixpoint turns {host : Host} {W} {calls : Calls W} (clock : nat -> Z) (present : nat -> bool) (n : nat) : M (MainState W) verdict :=
  match n with
  | O => mret Continue
  | S n => v ← turn clock present; match v with Continue => turns clock present n | v => mret v end
  end.

Lemma turns_step {host : Host} {W} {calls : Calls W} clock present n (s s' : MainState W) :
  turn clock present s = Some (Continue, s') -> turns clock present (S n) s = turns clock present n s'.
Proof. intros E. change (turns clock present (S n)) with
  (v ← turn clock present; match v with Continue => turns clock present n | v => mret v end : M (MainState W) verdict).
  by erewrite bind_step by exact E.
Qed.

Section Redial.
Context {host : Host} {W : Type} {calls : Calls W} (clock : nat -> Z) (Down Up : W -> Prop) (addr : Z).
Context (Hnet : stable_network calls Down Up addr).
Definition ipv4_only (s : MainState W) : Prop := enable_ipv4 (profile s) <> 0 /\ enable_ipv6 (profile s) = 0.

Lemma check_down s :
  ipv4_only s -> Down (m_world s) ->
  exists w, Down w /\ handle_check s =
    Some (tt, settled (set_v6 (set_v4 (set_world s w) QWDS_PKT_DATA_DISCONNECTED) QWDS_PKT_DATA_DISCONNECTED)).
Proof using Hnet.
  intros [H4 H6] Hd. destruct (net_signal _ _ _ _ Hnet (m_world s)) as (r & w1 & E1 & D1 & _).
  unfold handle_check. rewrite (bind_step _ _ _ _ _ (in_calls_run _ _ _ _ E1)).
  destruct (net_down _ _ _ _ Hnet (IPv4ConnectionStatus s) w1 (D1 Hd)) as (r2 & w2 & E2 & D2). exists w2. split; [done|].
  erewrite bind_step; [apply check_settle_run|]. unfold check_families. rewrite bind_gets. cbn [profile set_world build].
  rewrite (proj2 (Z.eqb_neq _ _) H4), H6. cbn [negb Z.eqb]. erewrite bind_step; [reflexivity|].
  unfold check_ipv4. rewrite bind_gets.
  rewrite (bind_step _ _ (set_world s w1) _ _ (in_calls_run (call_query _ _) (set_world s w1) _ _ E2)). reflexivity.
Qed.

Lemma check_up s :
  ipv4_only s -> Up (m_world s) -> Address (ipv4 (cfg s)) = addr ->
  exists w, Up w /\ handle_check s =
    Some (tt, settled (set_v6 (set_v4 (set_world s w) QWDS_PKT_DATA_CONNECTED) QWDS_PKT_DATA_DISCONNECTED)).
Proof using Hnet.
  intros [H4 H6] Hu Ha. destruct (net_signal _ _ _ _ Hnet (m_world s)) as (r & w1 & E1 & _ & U1).
  unfold handle_check. rewrite (bind_step _ _ _ _ _ (in_calls_run _ _ _ _ E1)).
  destruct (net_up _ _ _ _ Hnet (IPv4ConnectionStatus s) w1 (U1 Hu)) as (r2 & w2 & E2 & U2).
  destruct (net_address _ _ _ _ Hnet (cfg s) w2 U2) as (c' & w3 & E3 & A3 & U3). exists w3. split; [done|].
  erewrite bind_step; [apply check_settle_run|]. unfold check_families. rewrite bind_gets. cbn [profile set_world build].
  rewrite (proj2 (Z.eqb_neq _ _) H4), H6. cbn [negb Z.eqb]. erewrite bind_step; [reflexivity|].
  unfold check_ipv4. rewrite bind_gets.
  rewrite (bind_step _ _ (set_world s w1) _ _ (in_calls_run (call_query _ _) (set_world s w1) _ _ E2)), bind_modify.
  rewrite Z.eqb_refl. set (s2 := set_v4 _ _). unfold check_ipv4_address.
  erewrite bind_step.
  2:{ rewrite bind_gets. rewrite (bind_step _ _ s2 _ _ (in_calls_run (call_address _ _) s2 _ _ E3)). reflexivity. }
  cbn [cfg s2 set_v4 set_world build Z.eqb]. rewrite A3, Ha, Z.eqb_refl. reflexivity.
Qed.

Lemma start_up s :
  ipv4_only s -> may_dial s -> IPv4ConnectionStatus s = QWDS_PKT_DATA_DISCONNECTED ->
  Down (m_world s) -> SetupCallAllowTime s <= clock (reads s) ->
  exists s', handle_start clock s = Some (tt, s') /\ Up (m_world s') /\ Address (ipv4 (cfg s')) = addr /\
    IPv4ConnectionStatus s' = QWDS_PKT_DATA_CONNECTED /\ SetupCallFail s' = 0 /\ profile s' = profile s /\
    s_link s' = s_link s /\ signal_q s' = signal_q s /\ device_q s' = device_q s.
Proof using Hnet.
  intros [H4 H6] Hm Hv Hd Ht. unfold handle_start. rewrite bind_gets. rewrite (may_dial_guard (id s)) by done.
  erewrite bind_step by apply clock_run. rewrite bind_gets. change (SetupCallAllowTime (set_reads s _)) with (SetupCallAllowTime s).
  rewrite (proj2 (Z.ltb_ge _ _)) by done. unfold id. rewrite (proj2 (Z.eqb_neq _ _) H4), Hv, H6. cbn [negb Z.eqb andb when].
  change (QWDS_PKT_DATA_DISCONNECTED =? QWDS_PKT_DATA_CONNECTED) with false. cbn [negb when].
  set (s1 := set_reads s _). destruct (net_setup _ _ _ _ Hnet (profile s1) (m_world s1) Hd) as (w2 & E2 & U2).
  destruct (net_address _ _ _ _ Hnet (cfg s1) w2 U2) as (c' & w3 & E3 & A3 & U3).
  assert (E : dial_ipv4 s1 = Some (tt, set_v4 (set_err (set_cfg (set_world (set_err (set_world s1 w2) 0) w3) c') 0) QWDS_PKT_DATA_CONNECTED)).
  { unfold dial_ipv4. erewrite bind_step.
    2:{ unfold setup, assign_err. rewrite bind_gets. rewrite (bind_step _ _ s1 _ _ (in_calls_run (call_setup _ _) s1 _ _ E2)).
        rewrite bind_modify. reflexivity. }
    rewrite bind_gets. change (0 <? 0) with false. cbn [andb]. rewrite bind_ret. cbn [Z.eqb].
    set (s2 := set_err _ _). erewrite bind_step.
    2:{ unfold get_address. rewrite bind_gets. rewrite (bind_step _ _ s2 _ _ (in_calls_run (call_address _ _) s2 _ _ E3)).
        rewrite bind_modify. reflexivity. }
    reflexivity. }
  erewrite bind_step by exact E. rewrite bind_ret, bind_gets. unfold id.
  set (s2 := set_v4 _ _). assert (Hdis : disconnected s2 = false).
  { unfold disconnected. cbn. by rewrite H6, andb_false_r. }
  rewrite Hdis. change (some_connected s2) with true. cbv iota. rewrite bind_modify.
  erewrite bind_step by apply clock_run. eexists. split; [reflexivity|]. cbn. done.
Qed.
End Redial.

(** ** Turns with one message *)
Definition rearmed {W} (s : MainState W) : MainState W := set_timer (add_eff (set_signal_q s []) (Alarm 0)) false.

Section Turns.
Context {host : Host} {W : Type} {calls : Calls W} (clock : nat -> Z) (present : nat -> bool).

Lemma turn_signal signo (x y : MainState W) :
  signal_q x = [signo] -> device_q x = [] ->
  handle_signo clock signo (set_signal_q x []) = Some (Continue, y) -> turn clock present x = Some (Continue, y).
Proof. intros E1 E2 E3. unfold turn. rewrite !bind_gets, E1, E2. unfold mbind at 1, M_bind at 1. by rewrite bind_modify, E3. Qed.
Lemma turn_check (x y : MainState W) :
  signal_q x = [SIG_EVENT_CHECK] -> device_q x = [] -> handle_check (rearmed x) = Some (tt, y) ->
  turn clock present x = Some (Continue, y).
Proof.
  intros E1 E2 E. apply (turn_signal SIG_EVENT_CHECK); [done..|]. unfold handle_signo, set_alarm. rewrite bind_modify.
  change (SIG_EVENT_CHECK =? SIG_EVENT_START) with false. change (SIG_EVENT_CHECK =? SIG_EVENT_CHECK) with true. cbv iota.
  by erewrite bind_step by exact E.
Qed.
Lemma turn_start (x y : MainState W) :
  signal_q x = [SIG_EVENT_START] -> device_q x = [] -> handle_start clock (rearmed x) = Some (tt, y) ->
  turn clock present x = Some (Continue, y).
Proof.
  intros E1 E2 E. apply (turn_signal SIG_EVENT_START); [done..|]. unfold handle_signo, set_alarm. rewrite bind_modify.
  change (SIG_EVENT_START =? SIG_EVENT_START) with true. cbv iota. by erewrite bind_step by exact E.
Qed.
Lemma turn_idle (x : MainState W) :
  signal_q x = [] -> device_q x = [] -> turn clock present x = Some (Continue, set_signal_q x [SIG_EVENT_CHECK]).
Proof. intros E1 E2. unfold turn. rewrite !bind_gets, E1, E2. unfold send_signo_to_main. by rewrite bind_modify, E1. Qed.
End Turns.

(** What a check that finds IPv4 disconnected leaves: the link down and a START in the queue. *)
Lemma settled_down {W} (s : MainState W) :
  ipv4_only s -> IPv4ConnectionStatus s = QWDS_PKT_DATA_DISCONNECTED -> IPv6ConnectionStatus s = QWDS_PKT_DATA_DISCONNECTED ->
  settled s = set_signal_q (link_changed s 0) (signal_q s ++ [SIG_EVENT_START]).
Proof.
  intros [H4 _] E4 E6. unfold settled. assert (Hdis : disconnected s = true).
  { unfold disconnected. by rewrite (proj2 (Z.eqb_neq _ _) H4), E4. }
  rewrite Hdis, E4, E6. cbn [andb Z.eqb]. change (QWDS_PKT_DATA_DISCONNECTED =? _) with true. cbn [andb]. f_equal.
  unfold link_changed. by destruct (s_link s =? 0).
Qed.
(** What a check that finds IPv4 connected leaves: the link up. *)
Lemma settled_up {W} (s : MainState W) :
  ipv4_only s -> IPv4ConnectionStatus s = QWDS_PKT_DATA_CONNECTED -> settled s = link_changed s 1.
Proof.
  intros [_ H6] E4. unfold settled, disconnected, some_connected. by rewrite H6, E4, andb_false_r.
Qed.
(** The link aside, nothing is changed. *)
Lemma link_changed_frame {W} (s : MainState W) n :
  s_link (link_changed s n) = n /\ exists es, link_changed s n =
    build (m_world s) (profile s) (cfg s) (loopback_state s) (replication_factor s) (PSAttachedState s) (IPv4ConnectionStatus s)
      (IPv6ConnectionStatus s) (SetupCallFail s) (SetupCallAllowTime s) (qmierr s) n (main_loop s) (timer s) (reads s)
      (signal_q s) (device_q s) es.
Proof.
  unfold link_changed. destruct (Z.eqb_spec (s_link s) n) as [<-|]; [|split; [done|by eexists]].
  split; [done|]. exists (effects s). by destruct s.
Qed.

(** C3: the connection manager connects.  Registered, with the call down and redialling allowed, on a network that works, it
    takes four turns of the loop (check, start, the poll's timeout, check) to have the call up, the failures forgotten and
    the link up, with nothing left to do. *)
Theorem redial_converges {host : Host} {W} {calls : Calls W} clock present Down Up addr (s : MainState W) :
  stable_network calls Down Up addr -> ipv4_only s -> may_dial s -> Down (m_world s) ->
  signal_q s = [SIG_EVENT_CHECK] -> device_q s = [] -> SetupCallAllowTime s <= clock (reads s) ->
  exists s', turns clock present 4 s = Some (Continue, s') /\ Up (m_world s') /\
    IPv4ConnectionStatus s' = QWDS_PKT_DATA_CONNECTED /\ Address (ipv4 (cfg s')) = addr /\ s_link s' = 1 /\
    SetupCallFail s' = 0 /\ signal_q s' = [] /\ device_q s' = [].
Proof.
  intros Hnet H46 Hm Hd Hq Hdq Ht.
  destruct (check_down Down Up addr Hnet (rearmed s) H46 Hd) as (w1 & D1 & E1).
  rewrite settled_down in E1 by done. set (b0 := set_v6 _ _) in E1.
  destruct (link_changed_frame b0 0) as (_ & es & Eb). rewrite Eb in E1. clear Eb. set (b := set_signal_q _ _) in E1.
  destruct (start_up clock Down Up addr Hnet (rearmed b)) as (c & E2 & U2 & A2 & V2 & F2 & P2 & L2 & Q2 & DQ2); [done..|].
  assert (Q2' : signal_q c = []) by exact Q2. assert (DQ2' : device_q c = []) by (rewrite DQ2; exact Hdq).
  set (c1 := set_signal_q c [SIG_EVENT_CHECK]).
  assert (P3 : profile (rearmed c1) = profile s) by exact P2.
  destruct (check_up Down Up addr Hnet (rearmed c1)) as (w3 & U3 & E3); [unfold ipv4_only; by rewrite P3 | done | done|].
  rewrite settled_up in E3; [|unfold ipv4_only; cbn [profile set_v6 set_v4 set_world build]; by rewrite P3 | done].
  set (d0 := set_v6 _ _) in E3. destruct (link_changed_frame d0 1) as (_ & es' & Ed). rewrite Ed in E3. clear Ed.
  eexists. split.
  { erewrite turns_step by (apply turn_check; [exact Hq | exact Hdq | exact E1]).
    erewrite turns_step by (apply turn_start; [done | exact Hdq | exact E2]).
    erewrite turns_step by (apply turn_idle; [exact Q2' | exact DQ2']).
    erewrite turns_step by (apply turn_check; [done | exact DQ2' | exact E3]). reflexivity. }
  cbn. done.
Qed.

(** A network whose world is whether the call is up, and whose address is [a]. *)
Definition at_address (c : NetCfg) (a : Z) : NetCfg :=
  {| ipv4 := {| Address := a; Gateway := 0; SubnetMask := 0; DnsPrimary := 0; DnsSecondary := 0; Mtu := 0 |};
     ipv6 := ipv6 c; PCSCFIpv4 := PCSCFIpv4 c; PCSCFIpv6 := PCSCFIpv6 c |}.
Definition good_calls_at (a : Z) : Calls bool := {|
  call_setup _ _ := fun _ => Some (0, true);
  call_address c _ := fun w => Some ((0, at_address c a), w);
  call_query _ _ := fun w : bool => Some ((0, if w then QWDS_PKT_DATA_CONNECTED else QWDS_PKT_DATA_DISCONNECTED), w);
  call_deactivate _ := fun _ => Some (0, false);
  call_registration old := fun w => Some ((0, 1), w);
  call_signal := fun w => Some (0, w);
  call_deinit := None |}.

Lemma good_network a : stable_network (good_calls_at a) (fun w => w = false) (fun w => w = true) a.
Proof.
  split; cbn; intros; subst; repeat eexists; done.
Qed.

Theorem redial_converges_witness :
  let s := build false demo_profile demo_cfg 0 0 1 0xff 0xff 0 0 0 (-1) 0 false 0%nat [SIG_EVENT_CHECK] [] [] in
  exists s', turns (calls := good_calls_at 0x0A000001) (fun _ => 1000) (fun _ => true) 4 s = Some (Continue, s') /\
    s_link s' = 1 /\ Address (ipv4 (cfg s')) = 0x0A000001.
Proof.
  cbv zeta. destruct (redial_converges (calls := good_calls_at 0x0A000001) (fun _ => 1000) (fun _ => true)
    (fun w => w = false) (fun w => w = true) 0x0A000001
    (build false demo_profile demo_cfg 0 0 1 0xff 0xff 0 0 0 (-1) 0 false 0%nat [SIG_EVENT_CHECK] [] []))
    as (s' & E & _ & _ & HA & HL & _).
  - apply good_network.
  - split; [discriminate | reflexivity].
  - left. reflexivity.
  - reflexivity.
  - reflexivity.
  - reflexivity.
  - vm_compute. discriminate.
  - exists s'. split; [exact E|]. split; [exact HL | exact HA].
Defined.
