(* ===== verification/Text.v ===== *)
(** * Text: the formatted output and input the C code uses.
    [%d] and [%u] in decimal, [%02x] of a byte, [snprintf]'s truncation, dotted addresses, and the
    scanning of two hexadecimal digits; with the lemmas that each conversion reads back. *)
From S2P Require Import Prelude Util.
From Stdlib Require Import Ascii.
#[local] Open Scope Z_scope.

(** A character constant. *)
Definition chr (c : ascii) : Z := Z.of_N (N_of_ascii c).
Arguments chr c%_char_scope.

(** ** Decimal *)
Fixpoint dec_digits (fuel : nat) (n : Z) (acc : bytes) : bytes :=
  match fuel with
  | O => acc
  | S fuel => let acc := (48 + n mod 10) :: acc in if n / 10 =? 0 then acc else dec_digits fuel (n / 10) acc
  end.
(** [%u]: twenty digits hold every 64-bit value. *)
Definition dec (n : Z) : bytes := dec_digits 20 n [].
(** [%d] *)
Definition dec_signed (n : Z) : bytes := if n <? 0 then 45 :: dec (- n) else dec n.

Definition is_digit (c : Z) : Prop := 48 <= c <= 57.
Definition undec (acc : Z) (s : bytes) : Z := foldl (fun a c => 10 * a + (c - 48)) acc s.

Lemma undec_app acc s t : undec acc (s ++ t) = undec (undec acc s) t.
Proof. apply foldl_app. Qed.

Lemma dec_digits_spec fuel n acc :
  0 <= n < 10 ^ Z.of_nat fuel -> (0 < fuel)%nat ->
  exists s, dec_digits fuel n acc = s ++ acc /\ undec 0 s = n /\ Forall is_digit s /\ s <> [].
Proof.
  revert n acc. induction fuel as [|fuel IH]; intros n acc Hn Hf; [lia|]. cbn [dec_digits].
  rewrite Nat2Z.inj_succ, Z.pow_succ_r in Hn by lia.
  assert (Hd : is_digit (48 + n mod 10)) by (unfold is_digit; zdm).
  destruct (Z.eqb_spec (n / 10) 0) as [E|E].
  - exists [48 + n mod 10]. cbn. split_and!; try done; [zdm | by apply Forall_singleton].
  - destruct fuel as [|fuel']; [cbn in Hn; zdm|].
    destruct (IH (n / 10) ((48 + n mod 10) :: acc)) as (s & -> & Hs & Fs & _); [zdm | lia |].
    exists (s ++ [48 + n mod 10]). rewrite <- app_assoc. split_and!; [done | | | by destruct s].
    + rewrite undec_app, Hs. cbn. zdm.
    + apply Forall_app. by rewrite Forall_singleton.
Qed.

Lemma dec_spec n : 0 <= n < 2 ^ 64 -> undec 0 (dec n) = n /\ Forall is_digit (dec n) /\ dec n <> [].
Proof.
  intros Hn. destruct (dec_digits_spec 20 n []) as (s & E & H); [|lia|].
  { change (10 ^ Z.of_nat 20) with 100000000000000000000. lia. }
  unfold dec. by rewrite E, app_nil_r.
Qed.

Lemma undec_dec n : 0 <= n < 2 ^ 64 -> undec 0 (dec n) = n.
Proof. intros H. apply (dec_spec n H). Qed.
Lemma dec_inj n k : 0 <= n < 2 ^ 64 -> 0 <= k < 2 ^ 64 -> dec n = dec k -> n = k.
Proof. intros Hn Hk E. by rewrite <- (undec_dec n Hn), E, undec_dec. Qed.
Lemma dec_no_nul n : 0 <= n < 2 ^ 64 -> no_nul (dec n).
Proof. intros Hn. eapply Forall_impl; [apply (dec_spec n Hn)|]. unfold is_digit. cbn. lia. Qed.

Lemma dec_length n : zlen (dec n) <= 20.
Proof.
  unfold dec. assert (H : forall fuel n acc, (length (dec_digits fuel n acc) <= fuel + length acc)%nat).
  { induction fuel as [|fuel IH]; intros m acc; cbn [dec_digits]; [done|]. destruct (_ =? 0); [cbn; lia|].
    eapply Nat.le_trans; [apply IH | cbn; lia]. }
  specialize (H 20%nat n []). unfold zlen. cbn in H. cbn. lia.
Qed.

(** ** Hexadecimal *)
Definition hex_digit (d : Z) : Z := if d <? 10 then 48 + d else 87 + d.
(** [%02x] of a byte. *)
Definition hex2 (b : Z) : bytes := [hex_digit (b / 16); hex_digit (b mod 16)].
(** [%x] *)
Fixpoint hex_loop (fuel : nat) (n : Z) (acc : bytes) : bytes :=
  match fuel with
  | O => acc
  | S fuel => let acc := hex_digit (n mod 16) :: acc in if n / 16 =? 0 then acc else hex_loop fuel (n / 16) acc
  end.
Definition hex (n : Z) : bytes := hex_loop 8 n [].
(** [%04x] of 16 bits. *)
Definition hex4 (v : Z) : bytes := hex2 (v / 256) ++ hex2 (v mod 256).
Definition unhex (c : Z) : option Z :=
  if (48 <=? c) && (c <=? 57) then Some (c - 48)
  else if (97 <=? c) && (c <=? 102) then Some (c - 87)
  else if (65 <=? c) && (c <=? 70) then Some (c - 55)
  else None.
Definition unhex2 (a b : Z) : option Z := x ← unhex a; y ← unhex b; Some (16 * x + y).

Lemma unhex_digit d : 0 <= d < 16 -> unhex (hex_digit d) = Some d.
Proof.
  intros Hd. unfold unhex, hex_digit. destruct (Z.ltb_spec d 10).
  - replace ((48 <=? 48 + d) && (48 + d <=? 57)) with true by (symmetry; apply andb_true_iff; rewrite !Z.leb_le; lia).
    f_equal. lia.
  - replace ((48 <=? 87 + d) && (87 + d <=? 57)) with false.
    2:{ symmetry. apply andb_false_iff. rewrite !Z.leb_gt. lia. }
    replace ((97 <=? 87 + d) && (87 + d <=? 102)) with true by (symmetry; apply andb_true_iff; rewrite !Z.leb_le; lia).
    f_equal. lia.
Qed.
Lemma unhex2_hex2 b : is_byte b -> unhex2 (hex_digit (b / 16)) (hex_digit (b mod 16)) = Some b.
Proof. unfold is_byte. intros Hb. unfold unhex2. rewrite !unhex_digit by zdm. cbn. f_equal. zdm. Qed.

(** [tolower] *)
Definition tolower (c : Z) : Z := if (65 <=? c) && (c <=? 90) then c + 32 else c.
Lemma tolower_hex d : 0 <= d < 16 -> tolower (hex_digit d) = hex_digit d.
Proof.
  intros Hd. unfold tolower, hex_digit. destruct (Z.ltb_spec d 10).
  - by rewrite (proj2 (Z.leb_gt 65 (48 + d))) by lia.
  - by rewrite (proj2 (Z.leb_gt (87 + d) 90)), andb_false_r by lia.
Qed.

(** [strcasecmp] finds two strings equal. *)
Definition same_nocase (s t : bytes) : bool := bool_decide (tolower <$> s = tolower <$> t).

(** ** [snprintf]: at most [size - 1] characters. *)
Definition snprintf (size : Z) (s : bytes) : bytes := take (Z.to_nat (size - 1)) s.
Lemma snprintf_fits size s : zlen s < size -> snprintf size s = s.
Proof. intros H. unfold snprintf, zlen in *. apply take_ge. lia. Qed.

(** [%d.%d.%d.%d] *)
Definition dotted (a b c d : Z) : bytes := dec a ++ 46 :: dec b ++ 46 :: dec c ++ 46 :: dec d.

(** [strtol(s, _, 16)] on a 64-bit [long], before it saturates: optional sign and 0x. [None]: no digits. *)
Fixpoint hex_run (s : bytes) (acc : Z) : Z :=
  match s with
  | [] => acc
  | c :: s => match unhex c with Some d => hex_run s (16 * acc + d) | None => acc end
  end.
Definition hex_magnitude (s : bytes) : option Z :=
  let plain := match s with c :: _ => _ ← unhex c; Some (hex_run s 0) | [] => None end in
  match s with
  | 48 :: x :: d :: t => if ((x =? 120) || (x =? 88)) && bool_decide (is_Some (unhex d)) then Some (hex_run (d :: t) 0) else plain
  | _ => plain
  end.
Fixpoint skip_space (s : bytes) : bytes :=
  match s with
  | c :: t => if (c =? 32) || ((9 <=? c) && (c <=? 13)) then skip_space t else s
  | [] => []
  end.
Definition strtol16 (s : bytes) : option Z :=
  match skip_space s with
  | 45 :: t => m ← hex_magnitude t; Some (Z.max (- 2 ^ 63) (- m))
  | 43 :: t => m ← hex_magnitude t; Some (Z.min (2 ^ 63 - 1) m)
  | t => m ← hex_magnitude t; Some (Z.min (2 ^ 63 - 1) m)
  end.

(** [strtol(s, _, 10)] and [atoi], which is its conversion to [int]. *)
Fixpoint dec_run (s : bytes) (acc : Z) : Z :=
  match s with
  | [] => acc
  | c :: s => if (48 <=? c) && (c <=? 57) then dec_run s (10 * acc + (c - 48)) else acc
  end.
Definition dec_magnitude (s : bytes) : option Z :=
  match s with c :: _ => if (48 <=? c) && (c <=? 57) then Some (dec_run s 0) else None | [] => None end.
Definition strtol10 (s : bytes) : option Z :=
  match skip_space s with
  | 45 :: t => m ← dec_magnitude t; Some (Z.max (- 2 ^ 63) (- m))
  | 43 :: t => m ← dec_magnitude t; Some (Z.min (2 ^ 63 - 1) m)
  | t => m ← dec_magnitude t; Some (Z.min (2 ^ 63 - 1) m)
  end.
Definition atoi (s : bytes) : Z := s32 (default 0 (strtol10 s)).

Lemma dec_run_digits s acc : Forall is_digit s -> dec_run s acc = undec acc s.
Proof.
  intros Hs. revert acc. induction Hs as [|c s Hc _ IH]; intros acc; [done|]. cbn [dec_run undec foldl].
  unfold is_digit in Hc. rewrite (proj2 (Z.leb_le 48 c)), (proj2 (Z.leb_le c 57)) by lia. apply IH.
Qed.
Lemma strtol10_dec n : 0 <= n < 2 ^ 63 -> strtol10 (dec n) = Some n.
Proof.
  intros Hn. destruct (dec_spec n) as (Hu & Hd & Hne); [lia|]. unfold strtol10.
  assert (E : dec_magnitude (dec n) = Some n).
  { unfold dec_magnitude. destruct (dec n) as [|c s] eqn:En; [done|]. pose proof Hd as Hc. apply Forall_cons in Hc as [Hc _].
    unfold is_digit in Hc. rewrite (proj2 (Z.leb_le 48 c)), (proj2 (Z.leb_le c 57)) by lia. cbn [andb]. by rewrite dec_run_digits, Hu. }
  destruct (dec n) as [|c s]; [done|]. apply Forall_cons in Hd as [Hc _]. unfold is_digit in Hc. cbn [skip_space].
  rewrite (proj2 (Z.eqb_neq c 32)) by lia. rewrite (proj2 (Z.leb_gt c 13)), andb_false_r by lia. cbn [orb].
  destruct c as [|p|p]; try lia. do 6 (try destruct p as [p|p|]); try lia.
  all: rewrite E; cbn [mbind option_bind]; rewrite Z.min_r; [done | lia].
Qed.
Lemma atoi_dec n : 0 <= n < 2 ^ 31 -> atoi (dec n) = n.
Proof.
  intros Hn. unfold atoi. rewrite strtol10_dec by lia. change (default 0 (Some n)) with n. unfold s32. rewrite Z.mod_small by lia.
  by rewrite (proj2 (Z.ltb_lt _ _)) by lia.
Qed.

(** ** Lines and substrings *)
Definition newline : Z := 10.

(** [fgets(buf, n + 1, fp)]: at most [n] bytes, up to and with a newline; and what is left. *)
Fixpoint fgets (n : nat) (s : bytes) : bytes * bytes :=
  match n, s with
  | S n, c :: s => if c =? newline then ([c], s) else let '(l, s) := fgets n s in (c :: l, s)
  | _, _ => ([], s)
  end.
Lemma fgets_nonempty n s : s <> [] -> (fgets (S n) s).1 <> [].
Proof. destruct s as [|c s]; [done|]. intros _. cbn [fgets]. destruct (c =? newline); [done|]. by destruct (fgets n s). Qed.
(** The C string at the start of a buffer. *)
Fixpoint upto_nul (s : bytes) : bytes :=
  match s with c :: s => if c =? 0 then [] else c :: upto_nul s | [] => [] end.
Lemma upto_nul_id e : no_nul e -> upto_nul e = e.
Proof. induction 1 as [|c e Hc _ IH]; [done|]. cbn. rewrite (proj2 (Z.eqb_neq c 0)) by done. by rewrite IH. Qed.
Fixpoint is_prefix (p s : bytes) : bool :=
  match p, s with
  | [], _ => true
  | a :: p, b :: s => (a =? b) && is_prefix p s
  | _, [] => false
  end.
(** [strstr(s, p)] is not NULL. *)
Fixpoint strstr (s p : bytes) : bool :=
  is_prefix p s || match s with [] => false | _ :: s => strstr s p end.

Lemma is_prefix_app p s : is_prefix p (p ++ s) = true.
Proof. induction p as [|a p IH]; [done|]. cbn. by rewrite Z.eqb_refl. Qed.
Lemma is_prefix_spec p s : is_prefix p s = true <-> exists t, s = p ++ t.
Proof.
  split; [|intros [t ->]; apply is_prefix_app]. revert s. induction p as [|a p IH]; intros s; [by exists s|].
  destruct s as [|b s]; [done|]. cbn. intros [->%Z.eqb_eq H]%andb_true_iff. destruct (IH s H) as [t ->]. by exists t.
Qed.
(** [strstr] finds a substring. *)
Lemma strstr_spec s p : strstr s p = true <-> exists a b, s = a ++ p ++ b.
Proof.
  split.
  - induction s as [|c s IH]; cbn; rewrite orb_true_iff, is_prefix_spec; intros [[t E]|H]; [by exists [], t | done | by exists [], t |].
    destruct (IH H) as (a & b & ->). by exists (c :: a), b.
  - intros (a & b & ->). induction a as [|c a IH]; cbn [app].
    + destruct (p ++ b) as [|c s] eqn:E; cbn [strstr]; rewrite orb_true_iff; left; apply is_prefix_spec; by exists b.
    + cbn. rewrite IH. apply orb_true_r.
Qed.
Lemma strstr_app a p b : strstr (a ++ p ++ b) p = true.
Proof. apply strstr_spec. by exists a, b. Qed.
