(* ===== verification/Mbim.v ===== *)
(** * mbim-cm.c: messages and requests of the MBIM mode.
    The MBIM messages as byte buffers with the offsets of the packed structs, the builders, the handling of what
    the device sends ([mbim_recv_command]) and one function per request.  The two threads share
    the state [Mb]: the main thread gives the reader the processor where it waits, and the class [Env] says what
    the device does there. *)
From S2P Require Import Prelude Util Text Monad Layout MbimStructs.
#[local] Open Scope Z_scope.
#[local] Open Scope c_scope.

(** ** Constants and layout *)
Definition UUID_BASIC_CONNECT : bytes := str "a289cc33-bcbb-8b4f-b6b0-133ec2aae6df".
Definition UUID_BASIC_CONNECT_EXT : bytes := str "3d01dcc5-fef5-4d05-0d3a-bef7058e9aaf".
Definition UUID_MBIMContextTypeInternet : bytes := str "7E5E2A7E-4E6F-7272-736B-656E7E5E2A7E".
Definition MBIM_CID_DEVICE_CAPS : Z := 1.
Definition MBIM_CID_SUBSCRIBER_READY_STATUS : Z := 2.
Definition MBIM_CID_RADIO_STATE : Z := 3.
Definition MBIM_CID_REGISTER_STATE : Z := 9.
Definition MBIM_CID_PACKET_SERVICE : Z := 10.
Definition MBIM_CID_CONNECT : Z := 12.
Definition MBIM_CID_IP_CONFIGURATION : Z := 15.
Definition MBIM_CID_DEVICE_SERVICES : Z := 16.
Definition MBIM_CID_MS_VERSION : Z := 15.
Definition MBIM_CID_CMD_TYPE_QUERY : Z := 0.
Definition MBIM_CID_CMD_TYPE_SET : Z := 1.
Definition MBIM_OPEN_MSG : Z := 1.
Definition MBIM_CLOSE_MSG : Z := 2.
Definition MBIM_COMMAND_MSG : Z := 3.
Definition MBIM_OPEN_DONE : Z := 0x80000001.
Definition MBIM_CLOSE_DONE : Z := 0x80000002.
Definition MBIM_COMMAND_DONE : Z := 0x80000003.
Definition MBIM_FUNCTION_ERROR_MSG : Z := 0x80000004.
Definition MBIM_INDICATE_STATUS_MSG : Z := 0x80000007.
Definition MBIM_ERROR_NOT_OPENED : Z := 5.
Definition MBIMSubscriberReadyStateInitialized : Z := 1.
Definition MBIMRegisterStateHome : Z := 3.
Definition MBIMRegisterStateRoaming : Z := 4.
Definition MBIMPacketServiceStateUnknown : Z := 0.
Definition MBIMPacketServiceStateAttached : Z := 2.
Definition MBIMPacketServiceStateDetached : Z := 4.
Definition MBIMPacketServiceActionAttach : Z := 0.
Definition MBIMActivationStateUnknown : Z := 0.
Definition MBIMActivationStateActivated : Z := 1.
Definition MBIMActivationStateActivating : Z := 2.
Definition MBIMActivationStateDeactivated : Z := 3.
Definition MBIMActivationStateDeactivating : Z := 4.
Definition MBIMRadioOn : Z := 1.
Definition ENODEV : Z := 19.
Definition ENOMEM : Z := 12.

(** MBIM_MESSAGE_HEADER, and the command, its answer and the indication. *)
Definition oMessageType : Z := MBIM_MESSAGE_HEADER∙"MessageType".
Definition oMessageLength : Z := MBIM_MESSAGE_HEADER∙"MessageLength".
Definition oTransactionId : Z := MBIM_MESSAGE_HEADER∙"TransactionId".
Definition oMaxControlTransfer : Z := MBIM_OPEN_MSG_T∙"MaxControlTransfer".
Definition oStatus : Z := MBIM_OPEN_DONE_T∙"Status".
Definition oTotalFragments : Z := MBIM_COMMAND_MSG_T∙"FragmentHeader.TotalFragments".
Definition oCurrentFragment : Z := MBIM_COMMAND_MSG_T∙"FragmentHeader.CurrentFragment".
Definition oDeviceServiceId : Z := MBIM_COMMAND_MSG_T∙"DeviceServiceId".
Definition oCID : Z := MBIM_COMMAND_MSG_T∙"CID".
Definition oCommandType : Z := MBIM_COMMAND_MSG_T∙"CommandType".
Definition oCmdStatus : Z := MBIM_COMMAND_DONE_T∙"Status".
Definition oInformationBufferLength : Z := MBIM_COMMAND_MSG_T∙"InformationBufferLength".
Definition oInformationBuffer : Z := MBIM_COMMAND_MSG_T∙"InformationBuffer".
Definition oIndInformationBuffer : Z := MBIM_INDICATE_STATUS_MSG_T∙"InformationBuffer".
Definition sizeof_OPEN_MSG : Z := sizeof[MBIM_OPEN_MSG_T].
Definition sizeof_CLOSE_MSG : Z := sizeof[MBIM_CLOSE_MSG_T].
Definition sizeof_COMMAND_MSG : Z := sizeof[MBIM_COMMAND_MSG_T].
Definition sizeof_SET_CONNECT : Z := sizeof[MBIM_SET_CONNECT_T].
Definition sizeof_IP_CONFIGURATION_INFO : Z := sizeof[MBIM_IP_CONFIGURATION_INFO_T].
Definition sizeof_mbim_recv_buf : Z := 4096.
Definition mbim_default_timeout : Z := 10000.

(** ** UUIDs *)
(** [sscanf] of sixteen pairs of hexadecimal digits and the dashes; [None]: [d] is left indeterminate. *)
Fixpoint scan_uuid (s : bytes) (dashes : list bool) : option bytes :=
  match dashes, s with
  | [], _ => Some []
  | false :: l, a :: b :: s => v ← unhex2 a b; t ← scan_uuid s l; Some (v :: t)
  | true :: l, 45 :: s => scan_uuid s l
  | _, _ => None
  end.
Definition uuid_format : list bool :=
  let p := false in let dash := true in [p; p; p; p; dash; p; p; dash; p; p; dash; p; p; dash; p; p; p; p; p; p].
(** The lower-case copy is in a buffer of 37 characters. *)
Definition str2uuid (s : bytes) : option bytes :=
  if zlen s <=? 36 then scan_uuid (tolower <$> s) uuid_format else None.
Fixpoint print_uuid (d : bytes) (dashes : list bool) : bytes :=
  match dashes, d with
  | true :: l, _ => 45 :: print_uuid d l
  | false :: l, b :: d => hex2 b ++ print_uuid d l
  | _, _ => []
  end.
Definition uuid2str (u : bytes) : bytes := snprintf 37 (print_uuid u uuid_format).

(** ** State *)
Inductive cond := mbim_command_cond | mbim_state_cond.
(** What the program does to the outside: writes to the device (with the result of [write]), shell
    commands, the link state given to the driver, the name servers. *)
Inductive out :=
  | Wrote (m : bytes) (ret : Z) | System (cmd : bytes) | LinkState (on : bool)
  | ResolvConf (iptype : Z) (ifname : bytes) (dns1 dns2 : option bytes).
(** What happens to the reader thread or the process: a [read] that returns bytes or fails, a [poll] that fails
    or reports an error, a signal. *)
Inductive arrival := Data (bs : bytes) | ReadFails | PollFails | Signo (n : Z).

Record Status := { ReadyState : Z; RegisterState : Z; PacketServiceState : Z; ActivationState : Z }.
(** [now] and [old] are the four state variables and their [old...] twins; [waiting] is the condition the main thread
    waits for, [signalled] that it was signalled since; [allocs] and [waits] count the calls of [malloc] and
    of the waits; [trace] is the output so far. *)
Record Mb := {
  TransactionId : Z; mbim_open_state : Z; mbim_quit : Z; reader_alive : bool; now : Status; old : Status;
  mbim_ms_version : Z; bridge_mode : Z; mbim_pRequest : option bytes; mbim_pResponse : option bytes;
  waiting : option cond; signalled : bool; mbim_recv_buf : bytes; allocs : nat; waits : nat; trace : list out }.
#[export] Instance eta_Status : Eta Status := fun s =>
  {| ReadyState := ReadyState s; RegisterState := RegisterState s; PacketServiceState := PacketServiceState s;
     ActivationState := ActivationState s |}.
#[export] Instance set_ReadyState : Setter ReadyState := ltac:(derive_setter).
#[export] Instance set_RegisterState : Setter RegisterState := ltac:(derive_setter).
#[export] Instance set_PacketServiceState : Setter PacketServiceState := ltac:(derive_setter).
#[export] Instance set_ActivationState : Setter ActivationState := ltac:(derive_setter).
#[export] Instance eta_Mb : Eta Mb := fun s =>
  {| TransactionId := TransactionId s; mbim_open_state := mbim_open_state s; mbim_quit := mbim_quit s;
     reader_alive := reader_alive s; now := now s; old := old s; mbim_ms_version := mbim_ms_version s;
     bridge_mode := bridge_mode s; mbim_pRequest := mbim_pRequest s; mbim_pResponse := mbim_pResponse s;
     waiting := waiting s; signalled := signalled s; mbim_recv_buf := mbim_recv_buf s; allocs := allocs s;
     waits := waits s; trace := trace s |}.
#[export] Instance set_TransactionId : Setter TransactionId := ltac:(derive_setter).
#[export] Instance set_open_state : Setter mbim_open_state := ltac:(derive_setter).
#[export] Instance set_quit : Setter mbim_quit := ltac:(derive_setter).
#[export] Instance set_alive : Setter reader_alive := ltac:(derive_setter).
#[export] Instance set_now : Setter now := ltac:(derive_setter).
#[export] Instance set_old : Setter old := ltac:(derive_setter).
#[export] Instance set_version : Setter mbim_ms_version := ltac:(derive_setter).
#[export] Instance set_bridge : Setter bridge_mode := ltac:(derive_setter).
#[export] Instance set_pRequest : Setter mbim_pRequest := ltac:(derive_setter).
#[export] Instance set_pResponse : Setter mbim_pResponse := ltac:(derive_setter).
#[export] Instance set_waiting : Setter waiting := ltac:(derive_setter).
#[export] Instance set_signalled : Setter signalled := ltac:(derive_setter).
#[export] Instance set_recv_buf : Setter mbim_recv_buf := ltac:(derive_setter).
#[export] Instance set_allocs : Setter allocs := ltac:(derive_setter).
#[export] Instance set_waits : Setter waits := ltac:(derive_setter).
#[export] Instance set_trace : Setter trace := ltac:(derive_setter).

(** The configuration [mbim_main] derives from the profile; it does not change afterwards. *)
Record Config := {
  mbim_netcard : bytes; real_netcard : option bytes; mbim_apn : option bytes; mbim_user : option bytes;
  mbim_passwd : option bytes; mbim_iptype : Z; mbim_auth : Z; mbim_sessionID : Z; mbim_fd : Z }.

(** The environment.  [junk k i] is the byte at offset [i] of the [k]-th block before the program writes it, or of what
    follows the block in memory; [written] what [write] returns; [cmd_wait] and [state_wait] what the reader
    thread and the signal handler do during a wait (and, for the state, between the main thread's last look and
    its wait) and what the wait returns; [sysfs] the content of the bridge_mode attribute. *)
Class Env : Type := {
  alloc_ok : nat -> Z -> bool;
  junk : nat -> nat -> Z;
  written : list out -> bytes -> Z;
  cmd_wait : list out -> nat -> Z -> list arrival * Z;
  state_wait : list out -> nat -> Z -> list arrival * list arrival * Z;
  sysfs : list out -> option bytes }.
Record block := { b_id : nat; b_data : bytes }.

Abbreviation MB := (M Mb).
Definition emit (o : out) : MB unit := modify (fun s => s <| trace := trace s ++ [o] |>).

Section Mbim.
Context {host : Host} {env : Env} (cfg : Config).

(** ** Allocation.  A fresh block holds what was in memory. *)
Definition fresh (k : nat) (n : Z) : bytes := (fun i => u8 (junk k i)) <$> seq 0 (Z.to_nat n).
(** A variable on the stack counts as a block, too. *)
Definition stack_block (n : Z) : MB block :=
  k ← gets allocs; modify (fun s => s <| allocs := S k |>);; mret {| b_id := k; b_data := fresh k n |}.
Definition mbim_alloc (n : Z) : MB (option block) :=
  k ← gets allocs; b ← stack_block n; mret (if alloc_ok k n then Some b else None).
(** The [n] bytes from the start of a block on, whatever its size. *)
Definition memory_at (b : block) (n : Z) : bytes :=
  take (Z.to_nat n) (b_data b ++ ((fun i => u8 (junk (b_id b) i)) <$> seq (length (b_data b)) (Z.to_nat n))).

(** [p->field = htole32(v)] and [le32toh(p->field)]. *)
Definition put32 (m : bytes) (i v : Z) : option bytes := st32 m i (cpu_to_le32 v).

(** ** The network interface *)
Definition prefix_to_addr (prefix : Z) : option bytes :=
  if (0 <=? 32 - prefix) && (32 - prefix <? 32) then
    let addr := u32 (0xffffffff - s32 (1 .<< (32 - prefix)) + 1) in
    Some (dotted (u8 (addr .>> 24)) (u8 (addr .>> 16)) (u8 (addr .>> 8)) (u8 addr))
  else None.

Definition mysystem (cmd : bytes) : MB unit := emit (System cmd).
(** The file's first line, of at most 32 characters. *)
Fixpoint fgets_line (n : nat) (s : bytes) : bytes :=
  match n, s with
  | S n, c :: s => if c =? 10 then [c] else c :: fgets_line n s
  | _, _ => []
  end.
Definition file_get_value (content : option bytes) : Z :=
  match content with
  | None | Some [] => 0
  | Some c => match strtol16 (fgets_line 32 c) with Some v => s32 v | None => 0 end
  end.
Definition bridge_mode_detect : MB Z :=
  t ← gets trace; mret (if file_get_value (sysfs t) =? 0 then 0 else 1).

(** [%d.%d.%d.%d] and the sixteen bytes of an address at an offset. *)
Definition ipv4_text (m : bytes) (p : Z) : option bytes :=
  a ← ld m p; b ← ld m (p + 1); c ← ld m (p + 2); d ← ld m (p + 3); Some (dotted a b c d).
Definition ipv6_text (m : bytes) (p : Z) : option bytes :=
  d ← lds m p 16;
  match d with
  | [a; b; c; d; e; f; g; h; i; j; k; l; n; o; p; q] =>
      Some (hex2 a ++ hex2 b ++ 58 :: hex2 c ++ hex2 d ++ 58 :: hex2 e ++ hex2 f ++ 58 :: hex2 g ++ hex2 h ++ 58 ::
            hex2 i ++ hex2 j ++ 58 :: hex2 k ++ hex2 l ++ 58 :: hex2 n ++ hex2 o ++ 58 :: hex2 p ++ hex2 q)
  | _ => None
  end.
Definition addr_text (iptype : Z) (m : bytes) (p : Z) : option bytes :=
  if iptype =? 4 then ipv4_text m p else ipv6_text m p.
Definition opt_text (f : Z -> option bytes) (p : option Z) : option (option bytes) :=
  match p with Some p => t ← f p; Some (Some t) | None => Some None end.

Definition bridge_set_kernel_attr (m : bytes) (ipaddr gw dns : option Z) (prefix : Z) : MB unit :=
  ipstr ← lift (opt_text (ipv4_text m) ipaddr);
  gwstr ← lift (opt_text (ipv4_text m) gw);
  dnsstr ← lift (opt_text (ipv4_text m) dns);
  maskstr ← lift (prefix_to_addr prefix);
  mysystem (snprintf 256 (str "echo " ++ 34 :: default [] ipstr ++ 32 :: maskstr ++ 32 :: default [] gwstr ++ 32 :: default [] dnsstr
    ++ 34 :: str " > /sys/class/net/" ++ mbim_netcard cfg ++ str "/mbim/bridge_dhcp_info")).

Definition shell (cmd : bytes) : MB unit := mysystem (snprintf 256 cmd).
Definition ip_dev (iptype : Z) (rest : bytes) : bytes := str "ip -" ++ dec iptype ++ 32 :: rest.

(** [ipaddr], [gw], [dns1] and [dns2] are pointers into [m], or NULL. *)
Definition mbim_ifconfig (iptype : Z) (ifname m : bytes) (ipaddr gw dns1 dns2 : option Z) (prefix mtu : Z) : MB unit :=
  b ← bridge_mode_detect;
  modify (fun s => s <| bridge_mode := b |>);;
  let link_state c := shell (str "echo " ++ c :: str " > /sys/class/net/" ++ ifname ++ str "/mbim/link_state") in
  let up name := shell (str "ip link set dev " ++ name ++ str " up") in
  let down name := shell (str "ip link set dev " ++ name ++ str " down") in
  match ipaddr with
  | None =>
      link_state 48;;
      shell (str "ip address flush dev " ++ ifname);;
      down ifname;;
      match real_netcard cfg with Some r => down r | None => mret tt end;;
      emit (ResolvConf 4 ifname None None);;
      emit (ResolvConf 6 ifname None None)
  | Some p =>
      link_state 49;;
      when (negb (b =? 0)) (bridge_set_kernel_attr m ipaddr gw dns1 prefix);;
      match real_netcard cfg with Some r => up r | None => mret tt end;;
      up ifname;;
      if negb (b =? 0) then mret tt else
      shell (ip_dev iptype (str "address flush dev " ++ ifname));;
      a ← lift (addr_text iptype m p);
      shell (ip_dev iptype (str "address add " ++ a ++ 47 :: dec prefix ++ str " dev " ++ ifname));;
      match gw with
      | Some g =>
          a ← lift (addr_text iptype m g);
          shell (ip_dev iptype (str "route add default via " ++ a ++ str " dev " ++ ifname))
      | None => shell (ip_dev iptype (str "route add default dev " ++ ifname))
      end;;
      when (negb (mtu =? 0)) (shell (ip_dev iptype (str "link set dev " ++ ifname ++ str " mtu " ++ dec mtu)));;
      d1 ← lift (opt_text (addr_text iptype m) dns1);
      d2 ← lift (opt_text (addr_text iptype m) dns2);
      emit (ResolvConf iptype ifname d1 d2)
  end.
(** The call with every address NULL. *)
Definition ifconfig_down : MB unit := mbim_ifconfig 4 (mbim_netcard cfg) [] None None None None 0 0.

(** ** State changes *)
Definition notify_state_chage_ : MB unit :=
  modify (fun s => match waiting s with Some mbim_state_cond => s <| signalled := true |> | _ => s end).
(** The macro [notify_state_chage(_var, _new)] for the four state variables. *)
Definition notify_state_chage (f : Status -> Z) {_ : Setter f} (new : Z) : MB unit :=
  v ← gets (f ∘ now);
  if v =? new then mret tt else
  modify (fun s => s <| now := (now s) <| f := new |> |>);; notify_state_chage_.
Definition signal_command : MB unit :=
  modify (fun s => match waiting s with Some mbim_command_cond => s <| signalled := true |> | _ => s end).

(** ** What the device sends *)
Definition mbim_indication (m : bytes) : MB unit :=
  svc ← lift (lds m oDeviceServiceId 16);
  basic ← lift (str2uuid UUID_BASIC_CONNECT);
  if negb (bool_decide (svc = basic)) then mret tt else
  cid ← lift (rd32 m oCID);
  let info := oIndInformationBuffer in
  let packet_service := v ← lift (rd32 m (info + MBIM_PACKET_SERVICE_INFO_T∙"PacketServiceState"));
    notify_state_chage PacketServiceState v in
  if cid =? MBIM_CID_SUBSCRIBER_READY_STATUS then
    v ← lift (rd32 m info); notify_state_chage ReadyState v
  else if cid =? MBIM_CID_REGISTER_STATE then
    (* no break: the packet service case follows *)
    v ← lift (rd32 m (info + MBIM_REGISTRATION_STATE_INFO_T∙"RegisterState")); notify_state_chage RegisterState v;; packet_service
  else if cid =? MBIM_CID_PACKET_SERVICE then packet_service
  else if cid =? MBIM_CID_CONNECT then
    sid ← lift (ld32 m info);
    if sid =? u32 (mbim_sessionID cfg) then
      v ← lift (rd32 m (info + MBIM_CONNECT_T∙"ActivationState"));
      when ((v =? MBIMActivationStateDeactivated) || (v =? MBIMActivationStateDeactivating)) ifconfig_down;;
      notify_state_chage ActivationState v
    else mret tt
  else mret tt.

Definition matches (pRequest : option bytes) (m : bytes) : option bool :=
  match pRequest with
  | Some r => a ← rd32 r oTransactionId; b ← rd32 m oTransactionId; Some (a =? b)
  | None => Some false
  end.
Definition mbim_recv_command (pResponse : option bytes) : MB unit :=
  match pResponse with
  | None => signal_command
  | Some m =>
      r ← gets mbim_pRequest;
      hit ← lift (matches r m);
      if hit : bool then
        len ← lift (rd32 m oMessageLength);
        b ← mbim_alloc len;
        match b with
        | Some _ => d ← lift (lds m 0 len); modify (fun s => s <| mbim_pResponse := Some d |>)
        | None => modify (fun s => s <| mbim_pResponse := None |>)
        end;;
        signal_command
      else
        ty ← lift (rd32 m oMessageType);
        if ty =? MBIM_INDICATE_STATUS_MSG then mbim_indication m else mret tt
  end.

(** One turn of [mbim_read_thread]'s loop, and its end. *)
Definition reader_quit : MB unit :=
  modify (fun s => s <| mbim_quit := s32 (mbim_quit s + 1) |>);;
  mbim_recv_command None;;
  notify_state_chage_;;
  modify (fun s => s <| reader_alive := false |>).
Definition ql_sigaction (signo : Z) : MB unit :=
  if (signo =? 15) || (signo =? 1) || (signo =? 2) then
    modify (fun s => s <| mbim_quit := s32 (mbim_quit s + 1) |>);; notify_state_chage_
  else mret tt.
Definition arrive (a : arrival) : MB unit :=
  alive ← gets reader_alive;
  match a with
  | Signo n => ql_sigaction n
  | Data bs =>
      if negb alive then mret tt else
      let bs := take (Z.to_nat sizeof_mbim_recv_buf) bs in
      if zlen bs =? 0 then mret tt else
      modify (fun s => s <| mbim_recv_buf := bs ++ drop (length bs) (mbim_recv_buf s) |>);;
      b ← gets mbim_recv_buf;
      mbim_recv_command (Some b)
  | ReadFails => mret tt
  | PollFails => if alive : bool then reader_quit else mret tt
  end.
Fixpoint deliver (l : list arrival) : MB unit :=
  match l with [] => mret tt | a :: l => arrive a;; deliver l end.

(** ** Waiting *)
Definition next_wait : MB nat := k ← gets waits; modify (fun s => s <| waits := S k |>);; mret k.
Definition begin_wait (c : cond) : MB unit := modify (fun s => s <| waiting := Some c |> <| signalled := false |>).
Definition end_wait : MB unit := modify (fun s => s <| waiting := None |>).
(** [pthread_cond_timeout_np] on the command condition. *)
Definition wait_command (msecs : Z) : MB Z :=
  k ← next_wait; t ← gets trace;
  let '(l, ret) := cmd_wait t k msecs in
  begin_wait mbim_command_cond;; deliver l;; end_wait;; mret ret.
Definition wait_state_change (seconds : Z) : MB Z :=
  k ← next_wait; t ← gets trace;
  let '(before, during, ret) := state_wait t k (u32 (seconds * 1000)) in
  deliver before;; begin_wait mbim_state_cond;; deliver during;; end_wait;; mret ret.

(** ** Messages to the device *)
(** [htole32(TransactionId++)] *)
Definition next_TransactionId : MB Z :=
  t ← gets TransactionId; modify (fun s => s <| TransactionId := u32 (t + 1) |>);; mret t.
Definition with_data (b : block) (m : bytes) : block := {| b_id := b_id b; b_data := m |}.

(** The length is that of a command message, not of the open message. *)
Definition compose_open_command (MaxControlTransfer : Z) : MB (option block) :=
  r ← mbim_alloc sizeof_OPEN_MSG;
  match r with
  | None => mret None
  | Some b =>
      t ← next_TransactionId;
      m ← lift (m ← put32 (b_data b) oMessageType MBIM_OPEN_MSG; m ← put32 m oMessageLength sizeof_COMMAND_MSG;
                m ← put32 m oTransactionId t; put32 m oMaxControlTransfer MaxControlTransfer);
      mret (Some (with_data b m))
  end.
Definition compose_close_command : MB (option block) :=
  r ← mbim_alloc sizeof_CLOSE_MSG;
  match r with
  | None => mret None
  | Some b =>
      t ← next_TransactionId;
      m ← lift (m ← put32 (b_data b) oMessageType MBIM_CLOSE_MSG; m ← put32 m oMessageLength sizeof_CLOSE_MSG;
                put32 m oTransactionId t);
      mret (Some (with_data b m))
  end.

(** The fields of a command message; [info] is NULL or points to at least [len] bytes. *)
Definition command_fields (m : bytes) (t CID CommandType : Z) (info : option bytes) (len : Z) : option bytes :=
  m ← put32 m oMessageType MBIM_COMMAND_MSG;
  m ← put32 m oMessageLength (u32 (sizeof_COMMAND_MSG + len));
  m ← put32 m oTransactionId t;
  m ← put32 m oTotalFragments 1;
  m ← put32 m oCurrentFragment 0;
  uuid ← str2uuid UUID_BASIC_CONNECT;
  m ← sts m oDeviceServiceId uuid;
  m ← put32 m oCID CID;
  m ← put32 m oCommandType CommandType;
  match info with
  | Some i =>
      if negb (len =? 0) then
        m ← put32 m oInformationBufferLength len;
        i ← lds i 0 len;
        sts m oInformationBuffer i
      else put32 m oInformationBufferLength 0
  | None => put32 m oInformationBufferLength 0
  end.
Definition compose_basic_connect_command (CID CommandType : Z) (info : option bytes) (len : Z) : MB (option block) :=
  r ← mbim_alloc (sizeof_COMMAND_MSG + len);
  match r with
  | None => mret None
  | Some b =>
      t ← next_TransactionId;
      m ← lift (command_fields (b_data b) t CID CommandType info len);
      mret (Some (with_data b m))
  end.
Definition compose_basic_connect_ext_command (CID CommandType : Z) (info : option bytes) (len : Z) : MB (option block) :=
  r ← compose_basic_connect_command CID CommandType info len;
  match r with
  | None => mret None
  | Some b => m ← lift (uuid ← str2uuid UUID_BASIC_CONNECT_EXT; sts (b_data b) oDeviceServiceId uuid); mret (Some (with_data b m))
  end.

(** A transaction identifier of 0 is replaced before the message is sent. *)
Definition renew_tid (b : block) : MB block :=
  t ← lift (ld32 (b_data b) oTransactionId);
  if t =? 0 then
    modify (fun s => s <| TransactionId := 1 |>);;
    t ← next_TransactionId;
    m ← lift (put32 (b_data b) oTransactionId t);
    mret (with_data b m)
  else mret b.

(** Returns the code and [*ppCmdDone]. *)
Definition mbim_send_command (pRequest : option block) (msecs : Z) : MB (Z * option bytes) :=
  if mbim_fd cfg <=? 0 then mret (- ENODEV, None) else
  match pRequest with
  | None => mret (- ENOMEM, None)
  | Some b =>
      b ← renew_tid b;
      modify (fun s => s <| mbim_pRequest := Some (b_data b) |> <| mbim_pResponse := None |>);;
      len ← lift (rd32 (b_data b) oMessageLength);
      t ← gets trace;
      let m := memory_at b len in
      let ret := written t m in
      emit (Wrote m ret);;
      r ← (if u32 ret =? len then
             ret ← wait_command msecs;
             d ← gets mbim_pResponse;
             mret (ret, if ret =? 0 then d else None)
           else mret (ret, None));
      modify (fun s => s <| mbim_pRequest := None |> <| mbim_pResponse := None |>);;
      mret r
  end.

(** The message type is not converted from the wire's byte order. *)
Definition mbim_status_code (pMsgHdr : option bytes) : MB Z :=
  match pMsgHdr with
  | None => mret 0
  | Some m =>
      ty ← lift (ld32 m oMessageType);
      if (ty =? MBIM_OPEN_DONE) || (ty =? MBIM_CLOSE_DONE) then v ← lift (rd32 m oStatus); mret (s32 v)
      else if ty =? MBIM_COMMAND_DONE then v ← lift (rd32 m oCmdStatus); mret (s32 v)
      else if ty =? MBIM_FUNCTION_ERROR_MSG then
        v ← lift (rd32 m oStatus);
        when (s32 v =? MBIM_ERROR_NOT_OPENED) (modify (fun s => s <| mbim_open_state := 0 |>));;
        mret (s32 v)
      else mret 0
  end.
(** The macro [mbim_check_err]: the code to return, or the answer. *)
Definition mbim_check_err (r : Z * option bytes) : MB (Z + bytes) :=
  _ ← mbim_status_code r.2;
  mret (match r with
        | (err, Some d) => if err =? 0 then inr d else inl err
        | (err, None) => inl (if err =? 0 then 8888 else err)
        end).
(** A request: send it, check the answer, go on with the answer. *)
Definition transaction (compose : MB (option block)) (msecs : Z) (k : bytes -> MB Z) : MB Z :=
  b ← compose; r ← mbim_send_command b msecs; c ← mbim_check_err r;
  match c with inl e => mret e | inr d => k d end.
(** The common case: something is read from the information buffer when there is one, and [err], 0, is returned. *)
Definition with_info (k : MB unit) (d : bytes) : MB Z :=
  len ← lift (rd32 d oInformationBufferLength); when (negb (len =? 0)) k;; mret 0.

(** ** Requests *)
Definition mbim_open_device (MaxControlTransfer : Z) : MB Z :=
  transaction (compose_open_command MaxControlTransfer) mbim_default_timeout (fun d => v ← lift (rd32 d oStatus); mret (s32 v)).
Definition mbim_close_device : MB Z :=
  transaction compose_close_command mbim_default_timeout (fun d => v ← lift (rd32 d oStatus); mret (s32 v)).

(** [Var = le32toh(pInfo->field)] *)
Definition assign (f : Status -> Z) {_ : Setter f} (d : bytes) (off : Z) : MB unit :=
  v ← lift (rd32 d off); modify (fun s => s <| now := (now s) <| f := v |> |>).
(** Only the session of the structure on the stack is initialised. *)
Definition mbim_query_connect (sessionID : Z) : MB Z :=
  b ← stack_block sizeof_SET_CONNECT;
  set_connect ← lift (put32 (b_data b) (MBIM_SET_CONNECT_T∙"SessionId") (u32 sessionID));
  transaction (compose_basic_connect_command MBIM_CID_CONNECT MBIM_CID_CMD_TYPE_QUERY (Some set_connect) sizeof_SET_CONNECT)
    mbim_default_timeout (fun d => with_info (assign ActivationState d (oInformationBuffer + MBIM_CONNECT_T∙"ActivationState")) d).
Definition mbim_ms_version_query : MB Z :=
  transaction (compose_basic_connect_ext_command MBIM_CID_MS_VERSION MBIM_CID_CMD_TYPE_QUERY (Some [0; 1; 0; 2]) 4)
    mbim_default_timeout
    (fun d => with_info (v ← lift (ld d (oInformationBuffer + 3)); modify (fun s => s <| mbim_ms_version := v |>)) d).

(** Does the CID list of a service element name MBIM_CID_MS_VERSION, and does a service of the list? *)
Fixpoint cid_loop (n : nat) (d : bytes) (e : Z) (found : bool) : option bool :=
  match n with
  | O => Some found
  | S n => c ← rd32 d e; cid_loop n d (e + 4) (found || (c =? MBIM_CID_MS_VERSION))
  end.
Fixpoint service_loop (n : nat) (d : bytes) (ref : Z) (found : bool) : option bool :=
  match n with
  | O => Some found
  | S n =>
      offset ← rd32 d ref;
      let e := oInformationBuffer + offset in
      u ← lds d e 16;
      found ← (if same_nocase UUID_BASIC_CONNECT_EXT (uuid2str u) then
                 cnt ← rd32 d (e + MBIM_DEVICE_SERVICE_ELEMENT_T∙"CidCount");
                   cid_loop (Z.to_nat cnt) d (e + MBIM_DEVICE_SERVICE_ELEMENT_T∙"CidList") found
               else Some found);
      service_loop n d (ref + sizeof[OL_PAIR_LIST]) found
  end.
Definition mbim_v2_support (d : bytes) : option bool :=
  len ← ld32 d oInformationBufferLength;
  if len =? 0 then Some false else
  n ← rd32 d oInformationBuffer;
  service_loop (Z.to_nat n) d (oInformationBuffer + MBIM_DEVICE_SERVICES_INFO_T∙"DeviceServicesRefList") false.
Definition mbim_device_services_query : MB Z :=
  transaction (compose_basic_connect_command MBIM_CID_DEVICE_SERVICES MBIM_CID_CMD_TYPE_QUERY None 0) mbim_default_timeout
    (fun d => v2 ← lift (mbim_v2_support d); (if v2 : bool then _ ← mbim_ms_version_query; mret tt else mret tt);; mret 0).

(** Every other byte of a string, into [char tmp[32]], and its NUL. *)
Fixpoint tmp_loop (n : nat) (d : bytes) (off size i : Z) (tmp : bytes) : option bytes :=
  match n with
  | O => None
  | S n =>
      if (i <? 32) && (i <? size / 2) then
        c ← ld d (off + i * 2); tmp ← st tmp i c; tmp_loop n d off size (i + 1) tmp
      else st tmp i 0
  end.
Definition caps_string (d tmp : bytes) (field : Z) : option bytes :=
  off ← rd32 d (oInformationBuffer + field); size ← rd32 d (oInformationBuffer + field + 4);
  if negb (off =? 0) && negb (size =? 0) then tmp_loop 33 d (oInformationBuffer + off) size 0 tmp else Some tmp.
Definition mbim_device_caps_query : MB Z :=
  transaction (compose_basic_connect_command MBIM_CID_DEVICE_CAPS MBIM_CID_CMD_TYPE_QUERY None 0) mbim_default_timeout
    (fun d => with_info (b ← stack_block 32;
                         _ ← lift (tmp ← caps_string d (b_data b) (MBIM_DEVICE_CAPS_INFO_T∙"DeviceIdOffset");
                           tmp ← caps_string d tmp (MBIM_DEVICE_CAPS_INFO_T∙"FirmwareInfoOffset");
                             caps_string d tmp (MBIM_DEVICE_CAPS_INFO_T∙"HardwareInfoOffset"));
                         mret tt) d).
Definition mbim_set_radio_state (RadioState : Z) : MB Z :=
  transaction (compose_basic_connect_command MBIM_CID_RADIO_STATE MBIM_CID_CMD_TYPE_SET (Some (enc32 (cpu_to_le32 RadioState))) 4)
    mbim_default_timeout
    (fun d => with_info (_ ← lift (rd32 d oInformationBuffer);
      _ ← lift (rd32 d (oInformationBuffer + MBIM_RADIO_STATE_INFO_T∙"SwRadioState")); mret tt) d).
Definition mbim_subscriber_status_query : MB Z :=
  transaction (compose_basic_connect_command MBIM_CID_SUBSCRIBER_READY_STATUS MBIM_CID_CMD_TYPE_QUERY None 0) mbim_default_timeout
    (fun d => with_info (assign ReadyState d oInformationBuffer) d).
Definition mbim_register_state_query : MB Z :=
  transaction (compose_basic_connect_command MBIM_CID_REGISTER_STATE MBIM_CID_CMD_TYPE_QUERY None 0) mbim_default_timeout
    (fun d => with_info (assign RegisterState d (oInformationBuffer + MBIM_REGISTRATION_STATE_INFO_T∙"RegisterState")) d).
Definition mbim_packet_service_query : MB Z :=
  transaction (compose_basic_connect_command MBIM_CID_PACKET_SERVICE MBIM_CID_CMD_TYPE_QUERY None 0) mbim_default_timeout
    (fun d => with_info (assign PacketServiceState d (oInformationBuffer + MBIM_PACKET_SERVICE_INFO_T∙"PacketServiceState");;
                         len ← lift (rd32 d oInformationBufferLength);
                         (* the data class of the longer structure is printed *)
                         when (len =? sizeof[MBIM_PACKET_SERVICE_INFO_V2_T])
                           (_ ← lift (rd32 d (oInformationBuffer + MBIM_PACKET_SERVICE_INFO_V2_T∙"CurrentDataClass")); mret tt)) d).
Definition mbim_packet_service_set (action : Z) : MB Z :=
  transaction (compose_basic_connect_command MBIM_CID_PACKET_SERVICE MBIM_CID_CMD_TYPE_SET (Some (enc32 (cpu_to_le32 action))) 4)
    mbim_default_timeout
    (fun d => with_info (assign PacketServiceState d (oInformationBuffer + MBIM_PACKET_SERVICE_INFO_T∙"PacketServiceState")) d).

(** ** The connection request *)
(** The macro [_align_32]. *)
Definition align_32 (len : Z) : Z := len + (if len mod 4 =? 0 then 0 else 4 - len mod 4).
(** [s && strlen(s) > 0] *)
Definition given (s : option bytes) : option bytes := match s with Some (c :: t) => Some (c :: t) | _ => None end.
Definition size16 (s : option bytes) : Z := match given s with Some s => 2 * zlen s | None => 0 end.
(** UTF-16 of the characters. *)
Definition widen (s : bytes) : bytes := s ≫= fun c => [c; 0].
(** One of the strings: its size, its offset and its characters; [field] is the place of its offset. *)
Definition put_string (m : bytes) (field offset : Z) (s : option bytes) : option (bytes * Z) :=
  match given s with
  | Some s =>
      m ← put32 m (field + 4) (2 * zlen s);
      m ← put32 m field (offset + sizeof_SET_CONNECT);
      m ← sts m (sizeof_SET_CONNECT + offset) (widen s);
      Some (m, align_32 (offset + 2 * zlen s))
  | None => Some (m, offset)
  end.
Definition connect_buflen : Z :=
  align_32 (align_32 (align_32 (size16 (mbim_apn cfg)) + size16 (mbim_user cfg)) + size16 (mbim_passwd cfg)).
Definition connect_strings (m : bytes) : option bytes :=
  '(m, offset) ← put_string m (MBIM_SET_CONNECT_T∙"AccessStringOffset") 0 (mbim_apn cfg);
  '(m, offset) ← put_string m (MBIM_SET_CONNECT_T∙"UserNameOffset") offset (mbim_user cfg);
  '(m, _) ← put_string m (MBIM_SET_CONNECT_T∙"PasswordOffset") offset (mbim_passwd cfg);
  Some m.
(** Returns the buffer and the length of the strings, or -1. *)
Definition mbim_populate_connect_data : MB (option bytes * Z) :=
  r ← mbim_alloc (sizeof_SET_CONNECT + connect_buflen);
  match r with
  | None => mret (None, -1)
  | Some _ =>
      m ← lift (connect_strings (replicate (Z.to_nat (sizeof_SET_CONNECT + connect_buflen)) 0));
      mret (Some m, connect_buflen)
  end.
Definition connect_fields (m : bytes) (onoff sessionID : Z) : option bytes :=
  m ← put32 m (MBIM_SET_CONNECT_T∙"SessionId") (u32 sessionID);
  m ← put32 m (MBIM_SET_CONNECT_T∙"ActivationCommand") (if onoff =? 0 then 0 else 1);
  m ← put32 m (MBIM_SET_CONNECT_T∙"Compression") 0;
  m ← put32 m (MBIM_SET_CONNECT_T∙"AuthProtocol") (u32 (mbim_auth cfg));
  m ← put32 m (MBIM_SET_CONNECT_T∙"IPType") (mbim_iptype cfg);
  uuid ← str2uuid UUID_MBIMContextTypeInternet;
  sts m (MBIM_SET_CONNECT_T∙"ContextType") uuid.
Definition mbim_set_connect (onoff sessionID : Z) : MB Z :=
  '(m, buflen) ← mbim_populate_connect_data;
  match m with
  | None => mret ENOMEM
  | Some m =>
      set_connect ← lift (connect_fields m onoff sessionID);
      transaction (compose_basic_connect_command MBIM_CID_CONNECT MBIM_CID_CMD_TYPE_SET (Some set_connect) (sizeof_SET_CONNECT + buflen))
        (mbim_default_timeout * 10)
        (fun d => with_info (assign ActivationState d (oInformationBuffer + MBIM_CONNECT_T∙"ActivationState")) d)
  end.

(** [mbim_get_segment]: the characters of a UTF-16 string of [len] bytes, into a buffer of 256. *)
Fixpoint segment_loop (n : nat) (m : bytes) (p : Z) : option bytes :=
  match n with
  | O => Some []
  | S n => c ← ld m p; t ← segment_loop n m (p + 2); Some (c :: t)
  end.
Definition mbim_get_segment (m : bytes) (offset len : Z) : option bytes :=
  if len / 2 <? 256 then segment_loop (Z.to_nat (len / 2)) m offset else None.

(** ** The IP configuration *)
(** The fields of MBIM_IP_CONFIGURATION_INFO_T for one family: bits, address, gateway, DNS count and place, MTU. *)
Record ip_fields := { f_avail : Z; f_addr : Z; f_gw : Z; f_dns_count : Z; f_dns : Z; f_mtu : Z; f_size : Z }.
Definition ipv4_fields : ip_fields :=
  {| f_avail := MBIM_IP_CONFIGURATION_INFO_T∙"IPv4ConfigurationAvailable";
     f_addr := MBIM_IP_CONFIGURATION_INFO_T∙"IPv4AddressOffset";
     f_gw := MBIM_IP_CONFIGURATION_INFO_T∙"IPv4GatewayOffset";
     f_dns_count := MBIM_IP_CONFIGURATION_INFO_T∙"IPv4DnsServerCount";
     f_dns := MBIM_IP_CONFIGURATION_INFO_T∙"IPv4DnsServerOffset";
     f_mtu := MBIM_IP_CONFIGURATION_INFO_T∙"IPv4Mtu";
     f_size := 4 |}.
Definition ipv6_fields : ip_fields :=
  {| f_avail := MBIM_IP_CONFIGURATION_INFO_T∙"IPv6ConfigurationAvailable";
     f_addr := MBIM_IP_CONFIGURATION_INFO_T∙"IPv6AddressOffset";
     f_gw := MBIM_IP_CONFIGURATION_INFO_T∙"IPv6GatewayOffset";
     f_dns_count := MBIM_IP_CONFIGURATION_INFO_T∙"IPv6DnsServerCount";
     f_dns := MBIM_IP_CONFIGURATION_INFO_T∙"IPv6DnsServerOffset";
     f_mtu := MBIM_IP_CONFIGURATION_INFO_T∙"IPv6Mtu";
     f_size := 16 |}.

(** [gw], [dns1], [dns2] and [mtu] are the function's variables: what IPv4 left in them stays for IPv6. *)
Record ip_vars := { v_gw : option Z; v_dns1 : option Z; v_dns2 : option Z; v_mtu : Z }.
Definition ip_vars_init : ip_vars := {| v_gw := None; v_dns1 := None; v_dns2 := None; v_mtu := 1500 |}.
Definition family_vars (f : ip_fields) (d : bytes) (avail : Z) (v : ip_vars) : option ip_vars :=
  let info := oInformationBuffer in
  gw ← (if negb ((avail .& 2) =? 0) then o ← rd32 d (info + f_gw f); Some (Some (info + o)) else Some (v_gw v));
  dns ← (if negb ((avail .& 4) =? 0) then
           o ← rd32 d (info + f_dns f); n ← rd32 d (info + f_dns_count f);
           Some (Some (info + o), if n =? 2 then Some (info + o + f_size f) else v_dns2 v)
         else Some (v_dns1 v, v_dns2 v));
  mtu ← (if negb ((avail .& 8) =? 0) then rd32 d (info + f_mtu f) else Some (v_mtu v));
  Some {| v_gw := gw; v_dns1 := dns.1; v_dns2 := dns.2; v_mtu := mtu |}.
Definition configure_family (iptype : Z) (f : ip_fields) (d : bytes) (v : ip_vars) : MB ip_vars :=
  let info := oInformationBuffer in
  avail ← lift (rd32 d (info + f_avail f));
  if (avail .& 1) =? 0 then mret v else
  o ← lift (rd32 d (info + f_addr f));
  prefix ← lift (rd32 d (info + o));
  v ← lift (family_vars f d avail v);
  mbim_ifconfig iptype (mbim_netcard cfg) d (Some (info + o + 4)) (v_gw v) (v_dns1 v) (v_dns2 v) (u8 prefix) (v_mtu v);;
  mret v.

(** What [mbim_dump_ipconfig] reads to print one family: the DNS servers are looked at when the address or the gateway
    is there. *)
Definition dump_family (f : ip_fields) (d : bytes) : option unit :=
  let info := oInformationBuffer in
  avail ← rd32 d (info + f_avail f);
  _ ← (if negb ((avail .& 1) =? 0) then o ← rd32 d (info + f_addr f); _ ← rd32 d (info + o); lds d (info + o + 4) (f_size f) else Some []);
  _ ← (if negb ((avail .& 2) =? 0) then o ← rd32 d (info + f_gw f); lds d (info + o) (f_size f) else Some []);
  _ ← (if negb ((avail .& 3) =? 0) then
         o ← rd32 d (info + f_dns f); _ ← lds d (info + o) (f_size f);
         n ← rd32 d (info + f_dns_count f);
         if n =? 2 then lds d (info + o + f_size f) (f_size f) else Some []
       else Some []);
  _ ← rd32 d (info + f_mtu f); Some tt.
Definition mbim_dump_ipconfig (d : bytes) : option unit := _ ← dump_family ipv4_fields d; dump_family ipv6_fields d.

Definition mbim_ip_config (sessionID : Z) : MB Z :=
  b ← stack_block sizeof_IP_CONFIGURATION_INFO;
  ip_info ← lift (put32 (b_data b) 0 (u32 sessionID));
  transaction (compose_basic_connect_command MBIM_CID_IP_CONFIGURATION MBIM_CID_CMD_TYPE_QUERY (Some ip_info) sizeof_IP_CONFIGURATION_INFO)
    mbim_default_timeout
    (fun d => with_info (_ ← lift (mbim_dump_ipconfig d);
                         v ← configure_family 4 ipv4_fields d ip_vars_init;
                         _ ← configure_family 6 ipv6_fields d v; mret tt) d).
End Mbim.
