(* ===== verification/MbimMain.v ===== *)
(** * mbim-cm.c: the main loop of the MBIM mode.
    One pass of [mbim_main]'s loop is [iteration]: it brings the device from closed over ready, registered and
    attached to connected, one request where a stage is not reached, and says how long to wait for a change. *)
From S2P Require Import Prelude Util Text Compose Monad Mbim.
#[local] Open Scope Z_scope.
#[local] Open Scope c_scope.

Definition SIGTERM : Z := 15.
Definition status_init : Status := {| ReadyState := 0; RegisterState := 0; PacketServiceState := 0; ActivationState := 0 |}.

(** The paths of the profile that choose the device and the network interface. *)
Record Channel := { qmichannel : option bytes; usbnet_adapter : option bytes; qmapnet_adapter : option bytes }.
Definition config_of (p : PROFILE_T) (c : Channel) (fd : Z) : Config :=
  {| mbim_netcard := match qmapnet_adapter c with
                     | Some q => q
                     | None => match usbnet_adapter c with Some u => u | None => str "wwan0" end
                     end;
     real_netcard := match qmapnet_adapter c with Some _ => usbnet_adapter c | None => None end;
     mbim_apn := apn p; mbim_user := user p; mbim_passwd := password p;
     mbim_iptype := if (negb (enable_ipv4 p =? 0)) && (negb (enable_ipv6 p =? 0)) then 4
                    else if negb (enable_ipv6 p =? 0) then 2 else if negb (enable_ipv4 p =? 0) then 1 else 0;
     mbim_auth := auth p; mbim_sessionID := 0; mbim_fd := fd |}.

Inductive verdict := WaitFor (seconds : Z) | Leave.

Section Main.
Context {host : Host} {env : Env} (cfg : Config).

Definition mbim_reset_state : MB unit :=
  modify (fun s => s <| now := status_init |> <| old := status_init |> <| mbim_ms_version := 1 |>).

(** One variable: has it changed since the last look? *)
Definition update_one (f : Status -> Z) {_ : Setter f} : MB Z :=
  n ← gets (f ∘ now); o ← gets (f ∘ old);
  if o =? n then mret 0 else modify (fun s => s <| old := (old s) <| f := n |> |>);; mret 1.
Definition mbim_update_state : MB Z :=
  a ← update_one ReadyState; b ← update_one RegisterState; c ← update_one PacketServiceState;
  n ← gets (ActivationState ∘ now); o ← gets (ActivationState ∘ old);
  when (negb (n =? o)) (emit (LinkState (n =? MBIMActivationStateActivated)));;
  d ← update_one ActivationState;
  mret (a + b + c + d).

Definition registered (s : Status) : bool :=
  (RegisterState s =? MBIMRegisterStateHome) || (RegisterState s =? MBIMRegisterStateRoaming).

(** [retval = f(); if (retval) goto exit;]: true to go on. *)
Definition done_ok (m : MB Z) : MB bool := r ← m; mret (r =? 0).
(** [if (ok) m], for the rest of a stage. *)
Definition then_ (m k : MB bool) : MB bool := b ← m; if b : bool then k else mret false.
Definition update_ok : MB bool := _ ← mbim_update_state; mret true.

Definition opening : MB bool :=
  o ← gets mbim_open_state;
  if negb (o =? 0) then mret true else
  ifconfig_down cfg;;
  modify (fun s => s <| TransactionId := 1 |>);;
  then_ (done_ok (mbim_open_device cfg 4096)) (
  modify (fun s => s <| mbim_open_state := 1 |>);;
  mbim_reset_state;;
  then_ (done_ok (mbim_device_caps_query cfg)) (
  then_ (done_ok (mbim_device_services_query cfg)) (
  done_ok (mbim_set_radio_state cfg MBIMRadioOn)))).
Definition ready_stage : MB bool :=
  s ← gets now;
  if ReadyState s =? MBIMSubscriberReadyStateInitialized then mret true else
  then_ (done_ok (mbim_subscriber_status_query cfg)) update_ok.
Definition register_stage : MB bool :=
  s ← gets now;
  if registered s then mret true else then_ (done_ok (mbim_register_state_query cfg)) update_ok.
Definition attach_stage : MB bool :=
  s ← gets now;
  if PacketServiceState s =? MBIMPacketServiceStateAttached then mret true else
  then_ (done_ok (mbim_packet_service_query cfg)) (
  _ ← mbim_update_state;
  s ← gets now;
  then_ (if ((PacketServiceState s =? MBIMPacketServiceStateUnknown) || (PacketServiceState s =? MBIMPacketServiceStateDetached)) && registered s
         then done_ok (mbim_packet_service_set cfg MBIMPacketServiceActionAttach) else mret true)
    update_ok).
(** Returns [wait_time] after the stage, or [None] for [goto exit]. *)
Definition connect_stage (sessionID : Z) : MB (option Z) :=
  s ← gets now;
  b ← (if ActivationState s =? MBIMActivationStateUnknown
       then then_ (done_ok (mbim_query_connect cfg sessionID)) update_ok else mret true);
  if negb b then mret None else
  s ← gets now;
  if (ActivationState s =? MBIMActivationStateActivated) || (ActivationState s =? MBIMActivationStateActivating)
  then mret (Some 86400) else
  b ← then_ (done_ok (mbim_set_connect cfg 1 sessionID)) update_ok;
  if negb b then mret None else
  s ← gets now;
  if ActivationState s =? MBIMActivationStateActivated then
    b ← then_ (done_ok (mbim_ip_config cfg sessionID)) update_ok;
    mret (if b : bool then Some 86400 else None)
  else mret (Some 30).

Definition iteration (sessionID : Z) : MB verdict :=
  b ← opening;
  if negb b then mret Leave else
  b ← ready_stage;
  if negb b then mret Leave else
  s ← gets now;
  if negb (ReadyState s =? MBIMSubscriberReadyStateInitialized) then mret (WaitFor 86400) else
  b ← register_stage;
  if negb b then mret Leave else
  s ← gets now;
  if negb (registered s) then mret (WaitFor 86400) else
  b ← attach_stage;
  if negb b then mret Leave else
  s ← gets now;
  if negb (PacketServiceState s =? MBIMPacketServiceStateAttached) then mret (WaitFor 86400) else
  w ← connect_stage sessionID;
  mret (match w with Some t => WaitFor t | None => Leave end).

Definition running (s : Mb) : bool := (mbim_quit s =? 0) && reader_alive s.
(** The loop that lets changes settle: until a second passes without one. *)
Fixpoint settle (fuel : nat) : MB unit :=
  match fuel with
  | O => undefined
  | S fuel =>
      _ ← mbim_update_state;
      go ← gets running;
      if negb go then mret tt else
      r ← wait_state_change cfg 1;
      if r =? ETIMEDOUT then mret tt else settle fuel
  end.
Fixpoint main_loop (inner fuel : nat) (sessionID : Z) : MB unit :=
  match fuel with
  | O => undefined
  | S fuel =>
      go ← gets running;
      if negb go then mret tt else
      v ← iteration sessionID;
      match v with
      | Leave => mret tt
      | WaitFor t => _ ← wait_state_change cfg t; settle inner;; main_loop inner fuel sessionID
      end
  end.

(** From the label [exit] on, without the release of the resources.  The reader is killed until it has ended. *)
Definition mbim_exit (sessionID : Z) : MB unit :=
  alive ← gets reader_alive;
  if negb alive then mret tt else
  s ← gets now;
  (if (ActivationState s =? MBIMActivationStateActivated) || (ActivationState s =? MBIMActivationStateActivating)
   then _ ← mbim_set_connect cfg 0 sessionID; mret tt else mret tt);;
  _ ← mbim_close_device cfg;
  alive ← gets reader_alive;
  when alive (deliver cfg [Signo SIGTERM; PollFails]);;
  ifconfig_down cfg.

(** The static variables, with the reader thread started when the device could be opened. *)
Definition mb_init : Mb :=
  {| TransactionId := 1; mbim_open_state := 0; mbim_quit := 0; reader_alive := 0 <? mbim_fd cfg;
     now := status_init; old := status_init; mbim_ms_version := 1; bridge_mode := 0; mbim_pRequest := None;
     mbim_pResponse := None; waiting := None; signalled := false;
     mbim_recv_buf := replicate (Z.to_nat sizeof_mbim_recv_buf) 0; allocs := 0; waits := 0; trace := [] |}.
Definition mbim_main (inner fuel : nat) : MB Z :=
  (if mbim_fd cfg <=? 0 then mret tt else main_loop inner fuel (mbim_sessionID cfg));;
  mbim_exit (mbim_sessionID cfg);;
  mret 0.
End Main.
