(* ===== verification/MbimSpec.v ===== *)
(** * What the MBIM mode (Mbim.v, MbimMain.v) guarantees, and where it fails. *)
From S2P Require Import Prelude Util Text Compose Monad Mbim MbimMain.
#[local] Open Scope Z_scope.
#[local] Open Scope c_scope.

(** ** UUIDs *)
Lemma tolower_hex2 b : is_byte b -> tolower <$> hex2 b = hex2 b.
Proof. unfold is_byte, hex2. intros. cbn. by rewrite !tolower_hex by zdm. Qed.

Lemma print_uuid_lower d l : Forall is_byte d -> tolower <$> print_uuid d l = print_uuid d l.
Proof.
  revert d. induction l as [|[] l IH]; intros d Hd; [done| |].
  - cbn [print_uuid fmap list_fmap]. by rewrite IH.
  - destruct Hd as [|b d Hb Hd]; [done|]. cbn [print_uuid]. by rewrite fmap_app, tolower_hex2, IH.
Qed.

Lemma scan_print_uuid d l :
  Forall is_byte d -> length d = length (filter (eq false) l) -> scan_uuid (print_uuid d l) l = Some d.
Proof.
  revert d. induction l as [|[] l IH]; intros d Hd Hl; rewrite ?filter_cons in Hl.
  - by destruct d.
  - rewrite decide_False in Hl by done. cbn [print_uuid scan_uuid]. by rewrite IH.
  - rewrite decide_True in Hl by done. destruct Hd as [|b d Hb Hd]; [done|].
    cbn [print_uuid app hex2 scan_uuid]. rewrite unhex2_hex2 by done. cbn [mbind option_bind].
    rewrite IH by (done || by injection Hl). done.
Qed.

Lemma print_uuid_length d l :
  length d = length (filter (eq false) l) ->
  length (print_uuid d l) = (length (filter (eq true) l) + 2 * length d)%nat.
Proof.
  revert d. induction l as [|[] l IH]; intros d Hl; rewrite ?filter_cons in *.
  - by destruct d.
  - rewrite decide_False in Hl by done. rewrite decide_True by done. cbn [print_uuid length]. by rewrite IH.
  - rewrite decide_True in Hl by done. rewrite decide_False by done. destruct d as [|b d]; [done|].
    cbn [print_uuid length app hex2] in *. rewrite IH by (by injection Hl). simpl. lia.
Qed.

(** A UUID of the wire is printed as 36 characters, without truncation, and reading these back, in lower or
    upper case, gives the UUID again. *)
Theorem uuid_roundtrip u :
  Forall is_byte u -> length u = 16%nat ->
  zlen (uuid2str u) = 36 /\ str2uuid (uuid2str u) = Some u /\
  forall s, zlen s <= 36 -> same_nocase s (uuid2str u) = true -> str2uuid s = Some u.
Proof.
  intros Hu Hl. assert (Hp : length (print_uuid u uuid_format) = 36%nat).
  { rewrite print_uuid_length by (by rewrite Hl). by rewrite Hl. }
  assert (E : uuid2str u = print_uuid u uuid_format) by (apply snprintf_fits; unfold zlen; lia).
  assert (H : forall s, zlen s <= 36 -> same_nocase s (uuid2str u) = true -> str2uuid s = Some u).
  { intros s Hs. unfold same_nocase. rewrite bool_decide_eq_true, E, print_uuid_lower by done. intros Es.
    unfold str2uuid. rewrite (proj2 (Z.leb_le _ _) Hs), Es. apply scan_print_uuid; [done | by rewrite Hl]. }
  split_and!; [unfold zlen; rewrite E; lia | | exact H].
  apply H; [unfold zlen; rewrite E; lia|]. by apply bool_decide_eq_true.
Qed.

Theorem uuid_roundtrip_witness :
  str2uuid (str "A289CC33-BCBB-8B4F-B6B0-133EC2AAE6DF") = str2uuid UUID_BASIC_CONNECT.
Proof.
  destruct (uuid_roundtrip [0xa2; 0x89; 0xcc; 0x33; 0xbc; 0xbb; 0x8b; 0x4f; 0xb6; 0xb0; 0x13; 0x3e; 0xc2; 0xaa; 0xe6; 0xdf])
    as (_ & _ & H).
  - repeat constructor; discriminate || reflexivity.
  - reflexivity.
  - rewrite H; [reflexivity | discriminate | reflexivity].
Defined.

(** ** Answers *)
(** [d] is the beginning of a message with the transaction identifier of [r]. *)
Definition answers {host : Host} (r d : bytes) : Prop :=
  exists m t, lds m 0 (zlen d) = Some d /\ rd32 m oTransactionId = Some t /\ rd32 r oTransactionId = Some t.

Section Answers.
Context {host : Host} {env : Env} (cfg : Config).

(** While a request is out, the stored answer is its own. *)
Definition awaiting (r : bytes) (s : Mb) : Prop :=
  mbim_pRequest s = Some r /\ forall d, mbim_pResponse s = Some d -> answers r d.

Lemma ifconfig_awaiting r iptype ifname m a g d1 d2 p mtu :
  preserves (awaiting r) (mbim_ifconfig cfg iptype ifname m a g d1 d2 p mtu).
Proof. unfold mbim_ifconfig, shell, mysystem, bridge_mode_detect, bridge_set_kernel_attr, mysystem, emit. invariant. Qed.
Lemma notify_awaiting r : preserves (awaiting r) notify_state_chage_.
Proof. unfold notify_state_chage_. apply preserves_modify. intros s H. by destruct (waiting s) as [[]|]. Qed.
Lemma signal_awaiting r : preserves (awaiting r) signal_command.
Proof. unfold signal_command. apply preserves_modify. intros s H. by destruct (waiting s) as [[]|]. Qed.
Hint Resolve ifconfig_awaiting notify_awaiting signal_awaiting : preserves.
Lemma indication_awaiting r m : preserves (awaiting r) (mbim_indication cfg m).
Proof. unfold mbim_indication, ifconfig_down, notify_state_chage. invariant. Qed.

Lemma recv_awaiting r m : preserves (awaiting r) (mbim_recv_command cfg m).
Proof.
  destruct m as [m|]; [|apply signal_awaiting]. intros s a s' E Hs. revert E. unfold mbim_recv_command.
  rewrite bind_gets. destruct Hs as [E1 E2]. rewrite E1. unfold matches.
  destruct (rd32 r oTransactionId) as [t1|] eqn:T1; [|done]. destruct (rd32 m oTransactionId) as [t2|] eqn:T2; [|done].
  cbn [mbind option_bind]. rewrite bind_lift. destruct (Z.eqb_spec t1 t2) as [->|_].
  - destruct (rd32 m oMessageLength) as [len|] eqn:L; [|done]. rewrite bind_lift.
    intros E. refine (preserves_bind (awaiting r) _ _ _ _ _ _ _ E _); [| |by split].
    { unfold mbim_alloc, stack_block. invariant. }
    intros o; apply preserves_bind; [|intros; apply signal_awaiting].
    destruct o; [|apply preserves_modify; intros x [H1 H2]; by split].
    destruct (lds m 0 len) as [d|] eqn:D; [|done]. intros x u x' [= _ <-] [H1 H2]. split; [done|].
    intros d' [= <-]. exists m, t2. by rewrite (lds_zlen _ _ _ _ D).
  - intros E. refine (_ s a s' E (conj E1 E2)). pose proof (indication_awaiting r m). invariant.
Qed.
Hint Resolve recv_awaiting : preserves.
Lemma deliver_awaiting r l : preserves (awaiting r) (deliver cfg l).
Proof.
  induction l as [|a l IH]; [apply preserves_ret|]. apply preserves_bind; [|intros _; exact IH].
  unfold arrive, reader_quit, ql_sigaction. invariant.
Qed.

Lemma renew_tid_spec b s b' s' :
  Forall is_byte (b_data b) -> renew_tid b s = Some (b', s') ->
  exists t, rd32 (b_data b') oTransactionId = Some t /\ t <> 0 /\
    mbim_pRequest s' = mbim_pRequest s /\ trace s' = trace s.
Proof.
  intros Hb. unfold renew_tid. destruct (ld32 (b_data b) oTransactionId) as [v|] eqn:V; [|done].
  rewrite bind_lift. destruct (Z.eqb_spec v 0) as [->|Hv].
  - rewrite bind_modify. erewrite bind_step by reflexivity. cbn [TransactionId set_field set_TransactionId].
    destruct (put32 (b_data b) oTransactionId 1) as [m|] eqn:P; [|done].
    rewrite bind_lift. intros [= <- <-]. exists 1.
    cbn [b_data with_data]. by rewrite (rd32_st32 _ _ 1 _ ltac:(by split) P).
  - intros [= <- <-]. destruct (rd32 (b_data b) oTransactionId) as [t|] eqn:T.
    + exists t. split_and!; try done. intros ->. apply rd32_zero in T; [|done]. congruence.
    + unfold rd32 in T. by rewrite V in T.
Qed.

Lemma wait_command_awaiting r ms : preserves (awaiting r) (wait_command cfg ms).
Proof.
  unfold wait_command, next_wait, begin_wait, end_wait. pose proof (deliver_awaiting r). invariant.
Qed.

(** What was output stays output. *)
Lemma emit_output o o' : preserves (fun s => o ∈ trace s) (emit o').
Proof. apply preserves_modify. intros s H. cbn. apply elem_of_app. by left. Qed.
Hint Resolve emit_output : preserves.
Lemma ifconfig_output o iptype ifname m a g d1 d2 p mtu :
  preserves (fun s => o ∈ trace s) (mbim_ifconfig cfg iptype ifname m a g d1 d2 p mtu).
Proof. unfold mbim_ifconfig, shell, mysystem, bridge_mode_detect, bridge_set_kernel_attr, mysystem. invariant. Qed.
Lemma notify_output o : preserves (fun s => o ∈ trace s) notify_state_chage_.
Proof. unfold notify_state_chage_. apply preserves_modify. intros s H. by destruct (waiting s) as [[]|]. Qed.
Lemma signal_output o : preserves (fun s => o ∈ trace s) signal_command.
Proof. unfold signal_command. apply preserves_modify. intros s H. by destruct (waiting s) as [[]|]. Qed.
Hint Resolve ifconfig_output notify_output signal_output : preserves.
Lemma recv_output o m : preserves (fun s => o ∈ trace s) (mbim_recv_command cfg m).
Proof.
  unfold mbim_recv_command, mbim_indication, ifconfig_down, notify_state_chage, mbim_alloc, stack_block. invariant.
Qed.
Hint Resolve recv_output : preserves.
Lemma deliver_output o l : preserves (fun s => o ∈ trace s) (deliver cfg l).
Proof.
  induction l as [|a l IH]; [apply preserves_ret|]. apply preserves_bind; [|intros _; exact IH].
  unfold arrive, reader_quit, ql_sigaction. invariant.
Qed.
Lemma wait_command_output o ms : preserves (fun s => o ∈ trace s) (wait_command cfg ms).
Proof. unfold wait_command, next_wait, begin_wait, end_wait. pose proof (deliver_output o). invariant. Qed.

(** C10: the answer a request gets is its own: whatever the device sends while the request waits, indications,
    late or foreign answers, in any order and cut in any way, the message handed to the caller begins a
    message with the transaction identifier of the request written last, which is never 0, the
    identifier of indications. *)
Theorem mbim_response_is_own b ms s d s' :
  Forall is_byte (b_data b) -> mbim_send_command cfg (Some b) ms s = Some ((0, Some d), s') ->
  exists r t ret n, answers r d /\ rd32 r oTransactionId = Some t /\ t <> 0 /\
    Wrote (memory_at {| b_id := b_id b; b_data := r |} n) ret ∈ trace s' /\ mbim_pRequest s' = None.
Proof.
  intros Hb. unfold mbim_send_command. destruct (mbim_fd cfg <=? 0); [done|].
  intros (b1 & s1 & E & H)%bind_inv. destruct (renew_tid_spec b s b1 s1 Hb E) as (t & Ht & Ht0 & _ & _).
  assert (Eid : b_id b1 = b_id b).
  { revert E. unfold renew_tid. intros (v & _ & E)%bind_lift_inv. destruct (v =? 0); [|by injection E as ->].
    rewrite bind_modify in E. apply bind_inv in E as (? & ? & _ & E). apply bind_lift_inv in E as (? & _ & [= <- _]). done. }
  rewrite bind_modify in H. apply bind_lift_inv in H as (len & _ & H). rewrite bind_gets in H. unfold emit in H.
  rewrite bind_modify in H. set (w := written _ _) in H. set (s2 := set_field trace _ _) in H.
  assert (J : awaiting (b_data b1) s2 /\ Wrote (memory_at b1 len) w ∈ trace s2).
  { repeat split; [by intros ? | apply elem_of_app; right; by left]. }
  clearbody s2. apply bind_inv in H as ([ret o] & s3 & H & H3). rewrite bind_modify in H3. injection H3 as -> -> <-.
  destruct (u32 w =? len); [|done]. apply bind_inv in H as (r & s4 & W & H). rewrite bind_gets in H.
  injection H as -> Ho <-. destruct J as [J1 J2].
  apply (wait_command_awaiting _ _ _ _ _ W) in J1. apply (wait_command_output _ _ _ _ _ W) in J2.
  exists (b_data b1), t, w, len. split; [|rewrite <- Eid; destruct b1; by split_and!].
  destruct J1 as [_ J1]. by apply J1.
Qed.
End Answers.

(** ** The connection request *)
Lemma zlen_widen s : zlen (widen s) = 2 * zlen s.
Proof. unfold widen. induction s as [|c s IH]; [done|]. cbn [mbind list_bind app]. rewrite !zlen_cons, IH. lia. Qed.

Lemma segment_widen m t p :
  lds m p (2 * zlen t) = Some (widen t) -> segment_loop (length t) m p = Some t.
Proof.
  revert p. induction t as [|c t IH]; intros p H; [done|]. cbn [segment_loop length].
  pose proof (lds_ld m p _ _ 0 c H eq_refl) as Hc. rewrite Z.add_0_r in Hc. rewrite Hc. cbn [mbind option_bind].
  rewrite zlen_cons in H. rewrite IH; [done|].
  rewrite (lds_sub _ _ _ _ 2 (2 * zlen t) H) by (pose proof (zlen_nonneg t); lia). f_equal.
  apply take_ge. pose proof (zlen_widen t). unfold zlen in *. cbn. fold (widen t). lia.
Qed.

Lemma align_32_spec n : 0 <= n -> n <= align_32 n /\ align_32 n mod 4 = 0.
Proof. intros Hn. unfold align_32. destruct (Z.eqb_spec (n mod 4) 0); zdm. Qed.
Lemma align_32_id n : n mod 4 = 0 -> align_32 n = n.
Proof. intros H. unfold align_32. rewrite H. cbn. lia. Qed.
Lemma size16_nonneg s : 0 <= size16 s.
Proof. unfold size16. destruct (given s) as [t|]; [pose proof (zlen_nonneg t)|]; lia. Qed.
Lemma given_size s : match given s with Some t => size16 s = 2 * zlen t | None => size16 s = 0 end.
Proof. unfold size16. by destruct (given s). Qed.

(** Reads a field back through the stores that follow it. *)
Ltac load_back := unfold put32 in *;
  repeat match goal with
  | E : st32 ?m ?i ?v = Some ?m' |- context [rd32 ?m' ?j] => rewrite (rd32_st32_other m i v m' j E) by lia
  | E : st32 ?m ?i ?v = Some ?m' |- context [lds ?m' ?j ?n] => rewrite (lds_st32_other m i v m' j n E) by lia
  | E : sts ?m ?i ?bs = Some ?m', L : zlen ?bs = _ |- context [rd32 ?m' ?j] => rewrite (rd32_sts_other m i bs m' j E) by lia
  | E : sts ?m ?i ?bs = Some ?m', L : zlen ?bs = _ |- context [lds ?m' ?j ?n] =>
      rewrite (lds_sts_other m i bs m' j n E) by lia
  end;
  try match goal with
  | E : st32 ?m ?i (cpu_to_le32 ?v) = Some ?m' |- rd32 ?m' ?i = _ => rewrite (rd32_st32 m i v m' ltac:(first [assumption | apply u32_range | split; lia]) E)
  | E : sts ?m ?i ?bs = Some ?m', L : zlen ?bs = ?n |- lds ?m' ?i ?n = _ => rewrite <- L; apply (lds_sts_same m i bs m' E)
  end; try done.
Ltac offsets := unfold oMessageType, oMessageLength, oTransactionId, oTotalFragments, oCurrentFragment, oDeviceServiceId,
  oCID, oCommandType, oInformationBufferLength, oInformationBuffer, sizeof_COMMAND_MSG, MBIM_COMMAND_MSG in *.

(** A store that fits. *)
Ltac store m' E L := match goal with
  | |- context [st32 ?m ?i ?v] => destruct (st32_defined m i v) as (m' & E & L); [lia..|]; rewrite E; cbn [mbind option_bind]
  end.

Section Connect.
Context {host : Host}.

(** The string at [field] of a connection structure: [off] is where its characters are. *)
Definition string_at (m : bytes) (field off : Z) (s : option bytes) : Prop :=
  match given s with
  | Some t => rd32 m field = Some (sizeof_SET_CONNECT + off) /\ rd32 m (field + 4) = Some (2 * zlen t) /\
              lds m (sizeof_SET_CONNECT + off) (2 * zlen t) = Some (widen t)
  | None => rd32 m field = Some 0 /\ rd32 m (field + 4) = Some 0
  end.

(** What [put_string] does not touch. *)
Definition untouched (m m' : bytes) (field lo hi : Z) : Prop :=
  forall j n, j + n <= field \/ (field + 8 <= j /\ j + n <= lo) \/ hi <= j -> lds m' j n = lds m j n.

Lemma rd32_untouched m m' field lo hi j :
  untouched m m' field lo hi -> j + 4 <= field \/ (field + 8 <= j /\ j + 4 <= lo) \/ hi <= j -> rd32 m' j = rd32 m j.
Proof. intros H Hj. unfold rd32, ld32. by rewrite H. Qed.

Lemma put_string_spec m field off s :
  0 <= field -> field + 8 <= sizeof_SET_CONNECT -> 0 <= off -> off mod 4 = 0 ->
  sizeof_SET_CONNECT + off + size16 s <= zlen m < 2 ^ 32 ->
  (given s = None -> rd32 m field = Some 0 /\ rd32 m (field + 4) = Some 0) ->
  exists m', put_string m field off s = Some (m', align_32 (off + size16 s)) /\ zlen m' = zlen m /\
    string_at m' field off s /\
    untouched m m' field (sizeof_SET_CONNECT + off) (sizeof_SET_CONNECT + off + size16 s).
Proof.
  unfold sizeof_SET_CONNECT. intros Hf Hf8 Ho Ho4 Hm Hz. unfold put_string, string_at, sizeof_SET_CONNECT.
  pose proof (given_size s) as Hs.
  destruct (given s) as [t|].
  2:{ exists m. rewrite Hs, Z.add_0_r, align_32_id by done. destruct (Hz eq_refl). split_and!; done. }
  rewrite Hs in *. pose proof (zlen_nonneg t).
  destruct (st32_defined m (field + 4) (cpu_to_le32 (2 * zlen t))) as (m1 & E1 & L1); [lia..|].
  destruct (st32_defined m1 field (cpu_to_le32 (off + 60))) as (m2 & E2 & L2); [lia..|].
  destruct (sts_defined m2 (60 + off) (widen t)) as (m3 & E3); [lia | rewrite zlen_widen; lia|].
  exists m3. unfold put32. rewrite E1. cbn [mbind option_bind]. rewrite E2. cbn [mbind option_bind].
  rewrite E3. cbn [mbind option_bind].
  pose proof (sts_length _ _ _ _ E3). split_and!; [done | lia | | | | ].
  - rewrite (rd32_sts_other _ _ _ _ field E3) by (left; lia). rewrite (rd32_st32 m1 field (off + 60) m2) by (done || split; lia). by rewrite Z.add_comm.
  - rewrite (rd32_sts_other _ _ _ _ (field + 4) E3), (rd32_st32_other _ _ _ _ (field + 4) E2) by lia.
    by rewrite (rd32_st32 m (field + 4) (2 * zlen t) m1) by (done || split; lia).
  - rewrite <- zlen_widen. by apply lds_sts_same in E3.
  - intros j n Hj. rewrite (lds_sts_other _ _ _ _ j n E3), (lds_st32_other _ _ _ _ j n E2), (lds_st32_other _ _ _ _ j n E1);
      rewrite ?zlen_widen; [done | lia..].
Qed.

Definition basic_connect : bytes := [0xa2; 0x89; 0xcc; 0x33; 0xbc; 0xbb; 0x8b; 0x4f; 0xb6; 0xb0; 0x13; 0x3e; 0xc2; 0xaa; 0xe6; 0xdf].
Lemma basic_connect_uuid : str2uuid UUID_BASIC_CONNECT = Some basic_connect.
Proof. reflexivity. Qed.
Definition internet : bytes := [0x7e; 0x5e; 0x2a; 0x7e; 0x4e; 0x6f; 0x72; 0x72; 0x73; 0x6b; 0x65; 0x6e; 0x7e; 0x5e; 0x2a; 0x7e].
Lemma internet_uuid : str2uuid UUID_MBIMContextTypeInternet = Some internet.
Proof. reflexivity. Qed.

(** The fields of a command message. *)
Record command (b : bytes) (t cid ty : Z) (info : bytes) : Prop := {
  cmd_type : rd32 b oMessageType = Some MBIM_COMMAND_MSG;
  cmd_length : rd32 b oMessageLength = Some (zlen b);
  cmd_tid : rd32 b oTransactionId = Some t;
  cmd_fragments : rd32 b oTotalFragments = Some 1 /\ rd32 b oCurrentFragment = Some 0;
  cmd_service : lds b oDeviceServiceId 16 = Some basic_connect;
  cmd_cid : rd32 b oCID = Some cid;
  cmd_kind : rd32 b oCommandType = Some ty;
  cmd_info_length : rd32 b oInformationBufferLength = Some (zlen info);
  cmd_info : lds b oInformationBuffer (zlen info) = Some info }.

Lemma command_fields_spec m t CID ty info :
  is_u32 t -> is_u32 CID -> is_u32 ty -> 0 < zlen info < 2 ^ 31 -> zlen m = 48 + zlen info ->
  exists b, command_fields m t CID ty (Some info) (zlen info) = Some b /\ zlen b = zlen m /\ command b t CID ty info.
Proof.
  intros Ht HC Hty Hi Hm. unfold command_fields, put32. offsets.
  rewrite u32_id by (split; lia). rewrite basic_connect_uuid. rewrite (proj2 (Z.eqb_neq (zlen info) 0)) by lia. cbn [negb].
  replace (lds info 0 (zlen info)) with (Some info).
  2:{ symmetry. rewrite <- (app_nil_r info) at 1. by apply lds_app_0. }
  store m1 E1 L1. store m2 E2 L2. store m3 E3 L3. store m4 E4 L4. store m5 E5 L5.
  assert (Lu : zlen basic_connect = 16) by done.
  destruct (sts_defined m5 20 basic_connect) as (m6 & E6); [lia..|]. rewrite E6. cbn [mbind option_bind].
  pose proof (sts_length _ _ _ _ E6) as L6.
  store m7 E7 L7. store m8 E8 L8. store m9 E9 L9.
  destruct (sts_defined m9 48 info) as (b & E10); [lia..|]. rewrite E10. pose proof (sts_length _ _ _ _ E10) as L10.
  assert (Li : zlen info = zlen info) by done.
  exists b. split_and!; [done | lia|].
  split; offsets; try (split; load_back); load_back.
  { f_equal. lia. }
  exact (lds_sts_same _ _ _ _ E10).
Qed.

(** The same for a command without information. *)
Lemma command_fields_none m t CID ty :
  is_u32 t -> is_u32 CID -> is_u32 ty -> zlen m = 48 ->
  exists b, command_fields m t CID ty None 0 = Some b /\ zlen b = 48 /\ command b t CID ty [].
Proof.
  intros Ht HC Hty Hm. unfold command_fields, put32. offsets. rewrite Z.add_0_r, u32_id, basic_connect_uuid by (split; lia).
  store m1 E1 L1. store m2 E2 L2. store m3 E3 L3. store m4 E4 L4. store m5 E5 L5.
  assert (Lu : zlen basic_connect = 16) by done.
  destruct (sts_defined m5 20 basic_connect) as (m6 & E6); [lia..|]. rewrite E6. cbn [mbind option_bind].
  pose proof (sts_length _ _ _ _ E6) as L6.
  store m7 E7 L7. store m8 E8 L8. destruct (st32_defined m8 44 (cpu_to_le32 0)) as (b & E9 & L9); [lia..|].
  exists b. split_and!; [exact E9 | lia|].
  split; offsets; try (split; load_back); load_back.
  { f_equal. lia. }
  unfold lds. by rewrite ?L9, ?L8, ?L7, ?L6, ?L5, ?L4, ?L3, ?L2, ?L1, Hm.
Qed.

(** The strings are only moved into place by what follows. *)
Lemma string_at_mono m m' field off s :
  (forall j n, j + n <= 32 /\ 8 <= j \/ 60 <= j -> lds m' j n = lds m j n) -> 8 <= field -> field + 8 <= 32 -> 0 <= off ->
  string_at m field off s -> string_at m' field off s.
Proof.
  unfold string_at, rd32, ld32, sizeof_SET_CONNECT. intros H Hf Hf' Ho. destruct (given s) as [t|]; rewrite !H by lia; done.
Qed.

Lemma connect_fields_spec cfg m onoff sessionID :
  60 <= zlen m -> is_u32 (mbim_iptype cfg) ->
  exists m', connect_fields cfg m onoff sessionID = Some m' /\ zlen m' = zlen m /\
    rd32 m' 0 = Some (u32 sessionID) /\ rd32 m' 4 = Some (if onoff =? 0 then 0 else 1) /\ rd32 m' 32 = Some 0 /\
    rd32 m' 36 = Some (u32 (mbim_auth cfg)) /\ rd32 m' 40 = Some (mbim_iptype cfg) /\ lds m' 44 16 = Some internet /\
    forall j n, j + n <= 32 /\ 8 <= j \/ 60 <= j -> lds m' j n = lds m j n.
Proof.
  intros Hm Hip. unfold connect_fields, put32. rewrite internet_uuid.
  store m1 E1 L1. store m2 E2 L2. store m3 E3 L3. store m4 E4 L4. store m5 E5 L5.
  assert (Lu : zlen internet = 16) by done.
  destruct (sts_defined m5 44 internet) as (m6 & E6); [lia..|]. rewrite E6. pose proof (sts_length _ _ _ _ E6) as L6.
  exists m6. split_and!; [done | lia | .. | intros j n Hj]; load_back.
  destruct (onoff =? 0); load_back.
Qed.

(** What the three strings of a connection structure must be. *)
Definition carries (m : bytes) (field : Z) (s : option bytes) : Prop :=
  match given s with
  | Some t => exists off, rd32 m field = Some off /\ off mod 4 = 0 /\ rd32 m (field + 4) = Some (2 * zlen t) /\
                mbim_get_segment m off (2 * zlen t) = Some t
  | None => rd32 m field = Some 0 /\ rd32 m (field + 4) = Some 0
  end.
Lemma string_at_carries m field off s :
  off mod 4 = 0 -> (forall t, given s = Some t -> zlen t < 256) -> string_at m field off s -> carries m field s.
Proof.
  unfold string_at, carries, sizeof_SET_CONNECT. intros Ho Hs. destruct (given s) as [t|]; [|done].
  intros (H1 & H2 & H3). exists (60 + off). split_and!; try done; [zdm|].
  unfold mbim_get_segment. replace (2 * zlen t / 2) with (zlen t) by zdm.
  rewrite (proj2 (Z.ltb_lt _ _) (Hs t eq_refl)). unfold zlen at 1. rewrite Nat2Z.id. by apply segment_widen.
Qed.

Lemma string_at_untouched m m' f lo hi field off s :
  untouched m m' f lo hi -> field + 8 <= f -> f + 8 <= sizeof_SET_CONNECT + off ->
  sizeof_SET_CONNECT + off + size16 s <= lo -> string_at m field off s -> string_at m' field off s.
Proof.
  unfold string_at. pose proof (given_size s) as Hs. intros U Hf H60 Hlo. destruct (given s) as [t|].
  - by rewrite !(rd32_untouched _ _ _ _ _ _ U), (U (sizeof_SET_CONNECT + off)) by lia.
  - by rewrite !(rd32_untouched _ _ _ _ _ _ U) by lia.
Qed.
Lemma rd32_zeros n j : 0 <= j -> j + 4 <= Z.of_nat n -> rd32 (replicate n 0) j = Some 0.
Proof.
  intros Hj Hn. replace n with (Z.to_nat j + (4 + (n - 4 - Z.to_nat j)))%nat by lia. rewrite !replicate_add.
  change (replicate 4 0) with (le32 0). apply (rd32_le32 _ 0); [by split|]. rewrite zlen_replicate. lia.
Qed.

(** The buffer of [mbim_populate_connect_data]. *)
Definition short (s : option bytes) : Prop := forall t, given s = Some t -> zlen t < 256.
Lemma size16_short s : short s -> 0 <= size16 s < 512.
Proof. intros H. unfold size16. destruct (given s) as [t|] eqn:E; [|lia]. pose proof (zlen_nonneg t). pose proof (H t E). lia. Qed.
Lemma align_32_bounds n : 0 <= n -> n <= align_32 n <= n + 3 /\ align_32 n mod 4 = 0.
Proof. intros Hn. unfold align_32. destruct (Z.eqb_spec (n mod 4) 0); zdm. Qed.

Lemma connect_strings_spec cfg :
  short (mbim_apn cfg) -> short (mbim_user cfg) -> short (mbim_passwd cfg) ->
  exists m, connect_strings cfg (replicate (Z.to_nat (sizeof_SET_CONNECT + connect_buflen cfg)) 0) = Some m /\
    zlen m = sizeof_SET_CONNECT + connect_buflen cfg /\ 0 <= connect_buflen cfg < 2000 /\
    exists o2 o3, o2 mod 4 = 0 /\ o3 mod 4 = 0 /\ 0 <= o2 /\ 0 <= o3 /\
      string_at m 8 0 (mbim_apn cfg) /\ string_at m 16 o2 (mbim_user cfg) /\ string_at m 24 o3 (mbim_passwd cfg).
Proof.
  intros H1%size16_short H2%size16_short H3%size16_short. unfold connect_strings, connect_buflen, sizeof_SET_CONNECT.
  set (s1 := size16 (mbim_apn cfg)) in *. set (s2 := size16 (mbim_user cfg)) in *. set (s3 := size16 (mbim_passwd cfg)) in *.
  destruct (align_32_bounds s1) as [B1 A1]; [lia|]. set (o2 := align_32 s1) in *.
  destruct (align_32_bounds (o2 + s2)) as [B2 A2]; [lia|]. set (o3 := align_32 (o2 + s2)) in *.
  destruct (align_32_bounds (o3 + s3)) as [B3 A3]; [lia|]. set (len := align_32 (o3 + s3)) in *.
  set (z := replicate _ 0). assert (Lz : zlen z = 60 + len) by (unfold z; rewrite zlen_replicate; lia).
  assert (Z0 : forall j, 0 <= j -> j + 4 <= 60 -> rd32 z j = Some 0) by (intros; apply rd32_zeros; lia).
  destruct (put_string_spec z 8 0 (mbim_apn cfg)) as (m1 & E1 & L1 & S1 & U1); unfold sizeof_SET_CONNECT; fold s1; try lia; [done | by rewrite !Z0 by lia|].
  unfold sizeof_SET_CONNECT in *. fold s1 in E1, U1. rewrite Z.add_0_l in E1. fold o2 in E1. rewrite E1. cbn [mbind option_bind].
  destruct (put_string_spec m1 16 o2 (mbim_user cfg)) as (m2 & E2 & L2 & S2 & U2); unfold sizeof_SET_CONNECT; fold s2; try lia.
  { by rewrite !(rd32_untouched _ _ _ _ _ _ U1), !Z0 by lia. }
  unfold sizeof_SET_CONNECT in *. fold s2 in E2, U2. fold o3 in E2. rewrite E2. cbn [mbind option_bind].
  destruct (put_string_spec m2 24 o3 (mbim_passwd cfg)) as (m3 & E3 & L3 & S3 & U3); unfold sizeof_SET_CONNECT; fold s3; try lia.
  { by rewrite !(rd32_untouched _ _ _ _ _ _ U2), !(rd32_untouched _ _ _ _ _ _ U1), !Z0 by lia. }
  unfold sizeof_SET_CONNECT in *. fold s3 in E3, U3. rewrite E3. cbn [mbind option_bind].
  exists m3. split_and!; [done | lia.. |]. exists o2, o3. split_and!; try done; try lia.
  - eapply string_at_untouched; [exact U3 | unfold sizeof_SET_CONNECT; fold s1; lia..|].
    eapply string_at_untouched; [exact U2 | unfold sizeof_SET_CONNECT; fold s1; lia..| exact S1].
  - eapply string_at_untouched; [exact U3 | unfold sizeof_SET_CONNECT; fold s2; lia..| exact S2].
Qed.
End Connect.

Section ConnectRequest.
Context {host : Host} {env : Env} (cfg : Config).

Lemma fresh_length k n : 0 <= n -> zlen (fresh k n) = n.
Proof. intros Hn. unfold fresh, zlen. rewrite length_fmap, length_seq. lia. Qed.

Lemma mbim_alloc_ok n s : (forall k n, alloc_ok k n = true) ->
  mbim_alloc n s = Some (Some {| b_id := allocs s; b_data := fresh (allocs s) n |}, s <| allocs := S (allocs s) |>).
Proof. intros Ha. unfold mbim_alloc. rewrite bind_gets. erewrite bind_step by reflexivity. by rewrite Ha. Qed.
Lemma compose_command_ok CID ty info s :
  (forall k n, alloc_ok k n = true) -> is_u32 (TransactionId s) -> is_u32 CID -> is_u32 ty -> 0 < zlen info < 2 ^ 31 ->
  exists b, compose_basic_connect_command CID ty (Some info) (zlen info) s =
      Some (Some {| b_id := allocs s; b_data := b |},
            s <| allocs := S (allocs s) |> <| TransactionId := u32 (TransactionId s + 1) |>) /\
    zlen b = 48 + zlen info /\ command b (TransactionId s) CID ty info.
Proof.
  intros Ha Ht HC Hty Hi.
  destruct (command_fields_spec (fresh (allocs s) (48 + zlen info)) (TransactionId s) CID ty info) as (b & E & L & C); try done.
  { apply fresh_length. lia. }
  exists b. split_and!; [|rewrite L; apply fresh_length; lia | done].
  unfold compose_basic_connect_command. erewrite bind_step by by apply mbim_alloc_ok.
  cbv iota beta. erewrite bind_step by reflexivity. cbn [b_data TransactionId set_field set_allocs]. unfold sizeof_COMMAND_MSG.
  by rewrite E.
Qed.

Lemma compose_none_ok CID ty s :
  (forall k n, alloc_ok k n = true) -> is_u32 (TransactionId s) -> is_u32 CID -> is_u32 ty ->
  exists b, compose_basic_connect_command CID ty None 0 s =
      Some (Some {| b_id := allocs s; b_data := b |},
            s <| allocs := S (allocs s) |> <| TransactionId := u32 (TransactionId s + 1) |>) /\
    zlen b = 48 /\ command b (TransactionId s) CID ty [].
Proof.
  intros Ha Ht HC Hty.
  destruct (command_fields_none (fresh (allocs s) 48) (TransactionId s) CID ty) as (b & E & L & C); try done.
  exists b. split_and!; [|done..].
  unfold compose_basic_connect_command. erewrite bind_step by by apply mbim_alloc_ok.
  cbv iota beta. erewrite bind_step by reflexivity. cbn [b_data TransactionId set_field set_allocs]. unfold sizeof_COMMAND_MSG.
  by rewrite Z.add_0_r, E.
Qed.

(** C9: the request that starts or stops the connection.  The message composed from any profile with strings of less than
    256 characters is a set command for the connect CID whose length fields are right; its
    information buffer holds the session, the action, the authentication, the IP type and the context type, and
    reading each string where its offset and size say, with the code's own reader, gives the string back; a string
    that is not configured has offset and size 0. *)
Theorem connect_request_roundtrip onoff sessionID s :
  (forall k n, alloc_ok k n = true) -> is_u32 (TransactionId s) -> is_u32 (mbim_iptype cfg) ->
  short (mbim_apn cfg) -> short (mbim_user cfg) -> short (mbim_passwd cfg) ->
  exists m0 buflen s1 m b s2,
    mbim_populate_connect_data cfg s = Some ((Some m0, buflen), s1) /\
    connect_fields cfg m0 onoff sessionID = Some m /\
    compose_basic_connect_command MBIM_CID_CONNECT MBIM_CID_CMD_TYPE_SET (Some m) (sizeof_SET_CONNECT + buflen) s1 = Some (Some b, s2) /\
    command (b_data b) (TransactionId s) MBIM_CID_CONNECT MBIM_CID_CMD_TYPE_SET m /\
    rd32 m 0 = Some (u32 sessionID) /\ rd32 m 4 = Some (if onoff =? 0 then 0 else 1) /\
    rd32 m 36 = Some (u32 (mbim_auth cfg)) /\ rd32 m 40 = Some (mbim_iptype cfg) /\ lds m 44 16 = Some internet /\
    carries m 8 (mbim_apn cfg) /\ carries m 16 (mbim_user cfg) /\ carries m 24 (mbim_passwd cfg).
Proof.
  intros Ha Ht Hip H1 H2 H3.
  destruct (connect_strings_spec cfg H1 H2 H3) as (m0 & E0 & L0 & Hlen & o2 & o3 & A2 & A3 & P2 & P3 & S1 & S2 & S3).
  destruct (connect_fields_spec cfg m0 onoff sessionID) as (m & E & L & F0 & F4 & _ & F36 & F40 & Fu & U);
    [unfold sizeof_SET_CONNECT in *; lia | done|].
  set (s1 := s <| allocs := S (allocs s) |>).
  destruct (compose_command_ok MBIM_CID_CONNECT MBIM_CID_CMD_TYPE_SET m s1) as (b & Ec & Lb & C); try done.
  { unfold sizeof_SET_CONNECT in *. lia. }
  rewrite L, L0 in Ec.
  eexists m0, (connect_buflen cfg), s1, m, _, _. split_and!.
  - unfold mbim_populate_connect_data. erewrite bind_step by by apply mbim_alloc_ok. by rewrite E0.
  - exact E.
  - exact Ec.
  - exact C.
  - exact F0.
  - exact F4.
  - exact F36.
  - exact F40.
  - exact Fu.
  - by apply (string_at_carries m 8 0), (string_at_mono m0 m).
  - by apply (string_at_carries m 16 o2), (string_at_mono m0 m).
  - by apply (string_at_carries m 24 o3), (string_at_mono m0 m).
Qed.
End ConnectRequest.

(** ** An environment for the examples: allocation and writing succeed, nothing comes back. *)
Definition quiet : Env := {|
  alloc_ok _ _ := true; junk k i := Z.of_nat i; written _ m := zlen m; cmd_wait _ _ _ := ([], ETIMEDOUT);
  state_wait _ _ _ := ([], [], ETIMEDOUT); sysfs _ := None |}.
Definition cfg_sample : Config := {|
  mbim_netcard := str "wwan0"; real_netcard := None; mbim_apn := Some (str "cmnet"); mbim_user := None;
  mbim_passwd := Some (str "pw"); mbim_iptype := 1; mbim_auth := 2; mbim_sessionID := 0; mbim_fd := 3 |}.

Theorem connect_request_roundtrip_witness :
  exists m, mbim_get_segment m 60 10 = Some (str "cmnet") /\ mbim_get_segment m 72 4 = Some (str "pw") /\
    carries m 8 (Some (str "cmnet")) /\ carries m 24 (Some (str "pw")) /\ rd32 m 16 = Some 0.
Proof.
  destruct (connect_request_roundtrip (env := quiet) cfg_sample 1 0 (mb_init cfg_sample)) as (m0 & n & s1 & m & b & s2 & E0 & E & _ & _ & _ & _ & _ & _ & _ & H1 & H2 & H3).
  - reflexivity.
  - split; reflexivity || discriminate.
  - split; reflexivity || discriminate.
  - intros t [= <-]. reflexivity.
  - intros t [=].
  - intros t [= <-]. reflexivity.
  - exists m. split_and!; [| | exact H1 | exact H3 | exact (proj1 H2)].
    + clear - E0 E. vm_compute in E0. injection E0 as <- _ _. vm_compute in E. injection E as <-. reflexivity.
    + clear - E0 E. vm_compute in E0. injection E0 as <- _ _. vm_compute in E. injection E as <-. reflexivity.
Defined.
