(* ===== verification/MbimRun.v ===== *)
(** * The MBIM mode against a device that works.
    [device_reply] is a reference device: it opens, is ready, registered at home and attached, and connects when asked.
    [mbim_connects] runs one pass of the main loop against it. *)
From S2P Require Import Prelude Util Text Compose Monad Mbim MbimMain MbimSpec.
#[local] Open Scope Z_scope.
#[local] Open Scope c_scope.

(** ** The reference device *)
(** An IPv4 configuration: one address, a gateway, two name servers. *)
Record ip4 := { i_prefix : Z; i_mtu : Z; i_addr : Z * Z * Z * Z; i_gw : Z * Z * Z * Z; i_dns1 : Z * Z * Z * Z; i_dns2 : Z * Z * Z * Z }.
Definition quad (q : Z * Z * Z * Z) : bytes := let '(a, b, c, d) := q in [a; b; c; d].
Definition ip4_info (i : ip4) : bytes :=
  le32 0 ++ le32 15 ++ le32 0 ++ le32 1 ++ le32 60 ++ le32 0 ++ le32 0 ++ le32 68 ++ le32 0 ++ le32 2 ++ le32 72 ++
  le32 0 ++ le32 0 ++ le32 (i_mtu i) ++ le32 0 ++ le32 (i_prefix i) ++ quad (i_addr i) ++ quad (i_gw i) ++ quad (i_dns1 i) ++ quad (i_dns2 i).

Definition open_close_done (ty tid : Z) : bytes := le32 ty ++ le32 16 ++ le32 tid ++ le32 0.
Definition command_done (tid cid : Z) (info : bytes) : bytes :=
  le32 MBIM_COMMAND_DONE ++ le32 (48 + zlen info) ++ le32 tid ++ le32 1 ++ le32 0 ++ basic_connect ++ le32 cid ++ le32 0 ++
  le32 (zlen info) ++ info.
(** The information the device returns for a CID; [activate]: a set command that activates. *)
Definition device_info (i : ip4) (cid : Z) (activate : bool) : bytes :=
  if cid =? MBIM_CID_RADIO_STATE then le32 1 ++ le32 1
  else if cid =? MBIM_CID_SUBSCRIBER_READY_STATUS then le32 MBIMSubscriberReadyStateInitialized
  else if cid =? MBIM_CID_REGISTER_STATE then le32 0 ++ le32 MBIMRegisterStateHome
  else if cid =? MBIM_CID_PACKET_SERVICE then le32 0 ++ le32 MBIMPacketServiceStateAttached ++ le32 0
  else if cid =? MBIM_CID_CONNECT then
    le32 0 ++ le32 (if activate then MBIMActivationStateActivated else MBIMActivationStateDeactivated)
  else if cid =? MBIM_CID_IP_CONFIGURATION then ip4_info i
  else [].
Definition device_reply {host : Host} (i : ip4) (req : bytes) : option bytes :=
  ty ← rd32 req oMessageType; tid ← rd32 req oTransactionId;
  if ty =? MBIM_OPEN_MSG then Some (open_close_done MBIM_OPEN_DONE tid)
  else if ty =? MBIM_CLOSE_MSG then Some (open_close_done MBIM_CLOSE_DONE tid)
  else
    cid ← rd32 req oCID; kind ← rd32 req oCommandType;
    activate ← (if (cid =? MBIM_CID_CONNECT) && (kind =? MBIM_CID_CMD_TYPE_SET) then
                  c ← rd32 req (oInformationBuffer + 4); Some (negb (c =? 0)) else Some false);
    Some (command_done tid cid (device_info i cid activate)).

(** An environment where nothing fails and the device answers every request at once; what happens while the
    main thread waits for a change of state is free. *)
Class Works {host : Host} {env : Env} (i : ip4) : Prop := {
  works_alloc : forall k n, alloc_ok k n = true;
  works_write : forall t m, written t m = zlen m;
  works_reply : forall t m r k ms rsp, device_reply i m = Some rsp -> cmd_wait (t ++ [Wrote m r]) k ms = ([Data rsp], 0);
  works_plain : forall t, sysfs t = None }.

(** ** One request *)
(** The outputs other than messages. *)
Definition is_message (o : out) : bool := match o with Wrote _ _ => true | _ => false end.
Definition shown (t : list out) : list out := filter (fun o => is_message o = false) t.
Lemma shown_app t t' : shown (t ++ t') = shown t ++ shown t'.
Proof. apply filter_app. Qed.

(** The part of the state a run is followed by. *)
Record view := { v_alive : bool; v_quit : Z; v_tid : Z; v_open : Z; v_now : Status; v_old : Status; v_shown : list out }.
#[export] Instance eta_view : Eta view := fun v =>
  {| v_alive := v_alive v; v_quit := v_quit v; v_tid := v_tid v; v_open := v_open v; v_now := v_now v; v_old := v_old v; v_shown := v_shown v |}.
#[export] Instance set_v_alive : Setter v_alive := ltac:(derive_setter).
#[export] Instance set_v_quit : Setter v_quit := ltac:(derive_setter).
#[export] Instance set_v_tid : Setter v_tid := ltac:(derive_setter).
#[export] Instance set_v_open : Setter v_open := ltac:(derive_setter).
#[export] Instance set_v_now : Setter v_now := ltac:(derive_setter).
#[export] Instance set_v_old : Setter v_old := ltac:(derive_setter).
#[export] Instance set_v_shown : Setter v_shown := ltac:(derive_setter).
Record at_view (s : Mb) (v : view) : Prop := {
  at_alive : reader_alive s = v_alive v; at_quit : mbim_quit s = v_quit v; at_buf : zlen (mbim_recv_buf s) = 4096;
  at_tid : TransactionId s = v_tid v; at_open : mbim_open_state s = v_open v;
  at_now : now s = v_now v; at_old : old s = v_old v; at_shown : shown (trace s) = v_shown v }.

Section Run.
Context {host : Host} {env : Env} (cfg : Config) (i : ip4) {works : Works i} (Hfd : 0 < mbim_fd cfg).

(** The state after a request was answered. *)
Definition answered (s1 : Mb) (m rsp : bytes) : Mb :=
  s1 <| trace := trace s1 ++ [Wrote m (zlen m)] |> <| waits := S (waits s1) |> <| allocs := S (allocs s1) |>
     <| mbim_recv_buf := rsp ++ drop (length rsp) (mbim_recv_buf s1) |>
     <| mbim_pRequest := None |> <| mbim_pResponse := None |> <| waiting := None |> <| signalled := true |>.

Lemma memory_at_exact b : memory_at b (zlen (b_data b)) = b_data b.
Proof. unfold memory_at, zlen. by rewrite Nat2Z.id, take_app_length. Qed.

Lemma at_answered s v m rsp : at_view s v -> zlen rsp <= 4096 -> at_view (answered s m rsp) v.
Proof.
  intros [] Hr. split; try done.
  - cbn. rewrite zlen_app. unfold zlen in *. rewrite length_drop. lia.
  - cbn. rewrite shown_app. cbn. by rewrite app_nil_r.
Qed.

Lemma rd32_mono m e j v : rd32 m j = Some v -> rd32 (m ++ e) j = Some v.
Proof. unfold rd32, ld32. destruct (lds m j 4) as [b|] eqn:E; [|done]. by rewrite (lds_mono _ e _ _ _ E). Qed.

Lemma recv_hit s r t rsp rest :
  mbim_pRequest s = Some r -> waiting s = Some mbim_command_cond -> rd32 r oTransactionId = Some t ->
  rd32 rsp oTransactionId = Some t -> rd32 rsp oMessageLength = Some (zlen rsp) ->
  mbim_recv_command cfg (Some (rsp ++ rest)) s =
    Some (tt, s <| allocs := S (allocs s) |> <| mbim_pResponse := Some rsp |> <| signalled := true |>).
Proof.
  intros Hr Hw T1 T2 L. unfold mbim_recv_command. rewrite bind_gets, Hr. unfold matches. rewrite T1, (rd32_mono _ _ _ _ T2).
  cbn [mbind option_bind]. rewrite bind_lift, Z.eqb_refl, (rd32_mono _ _ _ _ L), bind_lift.
  erewrite bind_step by (apply mbim_alloc_ok; exact works_alloc). cbv iota beta.
  rewrite (lds_app_0 rsp rest (zlen rsp) eq_refl).
  erewrite bind_step by reflexivity. unfold signal_command, modify. cbn [waiting set_field set_allocs set_pResponse].
  by rewrite Hw.
Qed.

Lemma wait_answered ms s r t m n pre rsp :
  mbim_pRequest s = Some r -> rd32 r oTransactionId = Some t -> trace s = pre ++ [Wrote m n] ->
  device_reply i m = Some rsp -> 0 < zlen rsp <= 4096 -> reader_alive s = true ->
  rd32 rsp oTransactionId = Some t -> rd32 rsp oMessageLength = Some (zlen rsp) ->
  wait_command cfg ms s = Some (0, s <| waits := S (waits s) |> <| allocs := S (allocs s) |>
    <| mbim_recv_buf := rsp ++ drop (length rsp) (mbim_recv_buf s) |> <| mbim_pResponse := Some rsp |>
    <| waiting := None |> <| signalled := true |>).
Proof.
  intros Hr T1 Htr Hd Hl Ha T2 L. unfold wait_command. erewrite bind_step by reflexivity. rewrite bind_gets.
  cbn [trace set_field set_waits]. rewrite Htr, (works_reply _ _ _ _ _ _ Hd).
  unfold begin_wait. rewrite bind_modify. cbn [deliver]. erewrite bind_step.
  2:{ erewrite bind_step; [reflexivity|]. unfold arrive. rewrite bind_gets. cbn [reader_alive set_field set_waits set_waiting set_signalled].
      rewrite Ha. cbn [negb]. replace (take _ rsp) with rsp by (symmetry; apply take_ge; unfold zlen, sizeof_mbim_recv_buf in *; lia).
      rewrite (proj2 (Z.eqb_neq (zlen rsp) 0)) by lia. rewrite bind_modify, bind_gets.
      by apply (recv_hit _ r t). }
  unfold end_wait. by rewrite bind_modify.
Qed.

Lemma send_answered b m ms s rsp t len :
  ld32 (b_data b) oTransactionId <> Some 0 -> rd32 (b_data b) oTransactionId = Some t ->
  rd32 (b_data b) oMessageLength = Some len -> memory_at b len = m -> zlen m = len -> len < 2 ^ 32 ->
  device_reply i m = Some rsp -> 0 < zlen rsp <= 4096 ->
  rd32 rsp oMessageLength = Some (zlen rsp) -> rd32 rsp oTransactionId = Some t -> reader_alive s = true ->
  mbim_send_command cfg (Some b) ms s = Some ((0, Some rsp), answered s m rsp).
Proof.
  intros H0 Ht Hlen Hm Hz Hu Hr Hrsp Rl Rt Ha. unfold mbim_send_command. rewrite (proj2 (Z.leb_gt _ _) Hfd).
  erewrite bind_step.
  2:{ unfold renew_tid. destruct (ld32 (b_data b) oTransactionId) as [v|] eqn:V.
      - rewrite bind_lift. destruct (Z.eqb_spec v 0) as [->|]; [done|]. reflexivity.
      - unfold rd32 in Ht. by rewrite V in Ht. }
  rewrite bind_modify, Hlen, bind_lift, bind_gets, Hm. cbv zeta. rewrite works_write. unfold emit. rewrite bind_modify.
  rewrite Hz, u32_id, Z.eqb_refl by (split; [rewrite <- Hz; apply zlen_nonneg | done]).
  erewrite bind_step.
  2:{ erewrite bind_step by (eapply wait_answered; try done; reflexivity). rewrite bind_gets. reflexivity. }
  rewrite bind_modify. unfold answered. rewrite Hz. reflexivity.
Qed.

(** ** The reference device's answers *)
Lemma quad_length q : zlen (quad q) = 4.
Proof. by destruct q as [[[? ?] ?] ?]. Qed.
Lemma ip4_info_length : zlen (ip4_info i) = 80.
Proof. unfold ip4_info. rewrite !zlen_app, !quad_length. reflexivity. Qed.
Lemma device_info_length cid a : 0 <= zlen (device_info i cid a) <= 80.
Proof.
  unfold device_info. destruct (cid =? _); [done|]. do 3 (destruct (cid =? _); [done|]).
  destruct (cid =? _); [done|]. destruct (cid =? _); [by rewrite ip4_info_length | done].
Qed.
Definition done_head (tid cid : Z) (info : bytes) : bytes :=
  le32 MBIM_COMMAND_DONE ++ le32 (48 + zlen info) ++ le32 tid ++ le32 1 ++ le32 0 ++ basic_connect ++ le32 cid ++ le32 0 ++
  le32 (zlen info).
Lemma command_done_split tid cid info : command_done tid cid info = done_head tid cid info ++ info.
Proof. unfold command_done, done_head. by rewrite <- !app_assoc. Qed.
Lemma command_done_length tid cid info : zlen (command_done tid cid info) = 48 + zlen info.
Proof. rewrite command_done_split, zlen_app. done. Qed.

(** The loads from the information are loads from the answer. *)
Lemma lds_behind p m j n : 0 <= j -> lds (p ++ m) (zlen p + j) n = lds m j n.
Proof.
  intros Hj. unfold lds. rewrite zlen_app. pose proof (zlen_nonneg p).
  replace (zlen p + j + n <=? zlen p + zlen m) with (j + n <=? zlen m).
  2:{ destruct (Z.leb_spec (j + n) (zlen m)); symmetry; [apply Z.leb_le | apply Z.leb_gt]; lia. }
  rewrite (proj2 (Z.leb_le 0 (zlen p + j))), (proj2 (Z.leb_le 0 j)) by lia. destruct (_ && _); [|done]. f_equal. f_equal.
  rewrite drop_app_ge by (unfold zlen; lia). f_equal. unfold zlen. lia.
Qed.
Lemma rd32_behind p m j : 0 <= j -> rd32 (p ++ m) (zlen p + j) = rd32 m j.
Proof. intros Hj. unfold rd32, ld32. by rewrite lds_behind. Qed.
Lemma rd32_info tid cid info j : 0 <= j -> rd32 (command_done tid cid info) (oInformationBuffer + j) = rd32 info j.
Proof. intros Hj. rewrite command_done_split. exact (rd32_behind (done_head tid cid info) info j Hj). Qed.
Lemma lds_info tid cid info j n : 0 <= j -> lds (command_done tid cid info) (oInformationBuffer + j) n = lds info j n.
Proof. intros Hj. rewrite command_done_split. exact (lds_behind (done_head tid cid info) info j n Hj). Qed.
Lemma rd32_first v r : is_u32 v -> rd32 (le32 v ++ r) 0 = Some v.
Proof. intros Hv. by apply (rd32_le32 []). Qed.
Lemma rd32_info_length tid cid info : zlen info < 2 ^ 31 -> rd32 (command_done tid cid info) oInformationBufferLength = Some (zlen info).
Proof.
  intros H. unfold command_done. rewrite !app_assoc. rewrite <- (app_assoc _ _ info).
  apply rd32_le32; [pose proof (zlen_nonneg info); split; lia | done].
Qed.
Lemma rd32_done_tid tid cid info : is_u32 tid -> rd32 (command_done tid cid info) oTransactionId = Some tid.
Proof. intros H. unfold command_done. rewrite app_assoc. by apply rd32_le32. Qed.
Lemma rd32_done_length tid cid info : zlen info < 2 ^ 31 -> rd32 (command_done tid cid info) oMessageLength = Some (48 + zlen info).
Proof. intros H. unfold command_done. apply rd32_le32; [pose proof (zlen_nonneg info); split; lia | done]. Qed.
Lemma check_done tid cid info s : mbim_check_err (0, Some (command_done tid cid info)) s = Some (inr (command_done tid cid info), s).
Proof.
  unfold mbim_check_err. erewrite bind_step; [reflexivity|]. unfold mbim_status_code.
  assert (E : ld32 (command_done tid cid info) oMessageType = Some (if is_bigendian then 0x03000080 else MBIM_COMMAND_DONE)).
  { unfold ld32, command_done. rewrite lds_app_0 by done. unfold dec_native, native. by destruct is_bigendian. }
  assert (E2 : rd32 (command_done tid cid info) oCmdStatus = Some 0).
  { unfold command_done. rewrite !app_assoc. rewrite <- (app_assoc _ _ info), <- (app_assoc _ (le32 0)). by apply rd32_le32. }
  cbn [snd]. rewrite E, bind_lift, E2. by destruct is_bigendian.
Qed.

(** ** A request and its answer *)
Lemma ld32_nonzero m j t : rd32 m j = Some t -> t <> 0 -> ld32 m j <> Some 0.
Proof.
  unfold rd32. destruct (ld32 m j) as [v|]; [|done]. cbn [mbind option_bind]. intros [= <-] Ht [= ->]. apply Ht.
  unfold le32_to_cpu. destruct is_bigendian eqn:B; [|done]. unfold ql_swap32, enc32, dec_native, native. by rewrite B.
Qed.

Lemma device_reply_command b t cid ty info act :
  command b t cid ty info ->
  match (cid =? MBIM_CID_CONNECT) && (ty =? MBIM_CID_CMD_TYPE_SET) with
  | true => exists c, rd32 info 4 = Some c /\ act = negb (c =? 0)
  | false => act = false
  end ->
  device_reply i b = Some (command_done t cid (device_info i cid act)).
Proof.
  intros [Ht _ Hid _ _ Hc Hk _ Hi] Ha. unfold device_reply. rewrite Ht, Hid. cbn [mbind option_bind]. rewrite Hc, Hk.
  cbn [mbind option_bind Z.eqb MBIM_COMMAND_MSG MBIM_OPEN_MSG MBIM_CLOSE_MSG Pos.eqb].
  destruct (_ && _); [|by rewrite Ha]. destruct Ha as (c & Hr & ->).
  assert (E : rd32 b (oInformationBuffer + 4) = Some c); [|by rewrite E].
  revert Hr. unfold rd32, ld32. destruct (lds info 4 4) as [q|] eqn:Q; [|done].
  assert (8 <= zlen info).
  { unfold lds in Q. destruct (Z.leb_spec (4 + 4) (zlen info)); [lia | by rewrite andb_false_r in Q]. }
  rewrite (lds_sub _ _ _ _ 4 4 Hi) by lia. unfold lds in Q. destruct (_ && _) in Q; [|done]. injection Q as ->. done.
Qed.

Lemma transaction_command compose ms k s b s1 t cid ty info act v :
  compose s = Some (Some b, s1) -> command (b_data b) t cid ty info -> zlen (b_data b) < 2 ^ 32 -> is_u32 t -> t <> 0 ->
  match (cid =? MBIM_CID_CONNECT) && (ty =? MBIM_CID_CMD_TYPE_SET) with
  | true => exists c, rd32 info 4 = Some c /\ act = negb (c =? 0)
  | false => act = false
  end ->
  at_view s1 v -> v_alive v = true ->
  exists s2, transaction cfg compose ms k s = k (command_done t cid (device_info i cid act)) s2 /\ at_view s2 v.
Proof.
  intros Hc C Hz Ht H0 Ha Hv Hal. set (rsp := command_done _ _ _).
  pose proof (device_info_length cid act) as Hl. assert (Lr : zlen rsp = 48 + zlen (device_info i cid act)) by apply command_done_length.
  exists (answered s1 (b_data b) rsp). split; [|apply at_answered; [done | lia]].
  unfold transaction. rewrite (bind_step _ _ _ _ _ Hc).
  erewrite bind_step.
  2:{ apply (send_answered b (b_data b) ms s1 rsp t (zlen (b_data b))); try done.
      - by apply (ld32_nonzero _ _ t); [apply C|].
      - apply C.
      - apply C.
      - apply memory_at_exact.
      - by apply (device_reply_command _ _ _ ty info).
      - lia.
      - rewrite Lr. apply rd32_done_length. lia.
      - by apply rd32_done_tid.
      - by rewrite (at_alive _ _ Hv). }
  erewrite bind_step by apply check_done. reflexivity.
Qed.

(** The view after a request was composed. *)
Definition sent (v : view) : view := v <| v_tid := v_tid v + 1 |>.
Definition can_send (v : view) : Prop := 0 < v_tid v < 1000 /\ v_alive v = true.
Lemma at_sent s v : can_send v -> at_view s v ->
  at_view (s <| allocs := S (allocs s) |> <| TransactionId := u32 (TransactionId s + 1) |>) (sent v).
Proof.
  unfold can_send. intros [Hc _] []. split; try done. cbn. rewrite at_tid0. apply u32_id. split; lia.
Qed.
Lemma at_stack s v n : at_view s v -> at_view (s <| allocs := n |>) v.
Proof. by intros []. Qed.

Lemma query_none cid ms k s v :
  at_view s v -> can_send v -> is_u32 cid ->
  exists s2, transaction cfg (compose_basic_connect_command cid MBIM_CID_CMD_TYPE_QUERY None 0) ms k s =
      k (command_done (v_tid v) cid (device_info i cid false)) s2 /\ at_view s2 (sent v).
Proof.
  intros Hv Hc Hcid. pose proof (at_sent _ _ Hc Hv) as Hs. destruct Hv. destruct Hc as [Hc Hal].
  destruct (compose_none_ok cid MBIM_CID_CMD_TYPE_QUERY s) as (b & E & L & C); try done.
  { apply works_alloc. }
  { rewrite at_tid0. split; lia. }
  rewrite at_tid0 in C. rewrite at_tid0 in E, Hs.
  apply (transaction_command _ ms k s _ _ _ cid MBIM_CID_CMD_TYPE_QUERY [] false _ E C); cbn [b_data]; try done; try lia.
  - split; lia.
  - by rewrite andb_false_r.
Qed.
Lemma request_info cid ty info len act ms k s v :
  zlen info = len ->
  at_view s v -> can_send v -> is_u32 cid -> is_u32 ty -> 0 < zlen info < 2 ^ 31 ->
  match (cid =? MBIM_CID_CONNECT) && (ty =? MBIM_CID_CMD_TYPE_SET) with
  | true => exists c, rd32 info 4 = Some c /\ act = negb (c =? 0)
  | false => act = false
  end ->
  exists s2, transaction cfg (compose_basic_connect_command cid ty (Some info) len) ms k s =
      k (command_done (v_tid v) cid (device_info i cid act)) s2 /\ at_view s2 (sent v).
Proof.
  intros <- Hv Hc Hcid Hty Hi Ha. pose proof (at_sent _ _ Hc Hv) as Hs. destruct Hv. destruct Hc as [Hc Hal].
  destruct (compose_command_ok cid ty info s) as (b & E & L & C); try done.
  { apply works_alloc. }
  { rewrite at_tid0. split; lia. }
  rewrite at_tid0 in C. rewrite at_tid0 in E, Hs.
  apply (transaction_command _ ms k s _ _ _ cid ty info act _ E C); cbn [b_data]; try done; try lia. split; lia.
Qed.

(** ** The requests *)
(** [m] returns 0 and takes the view [v] to [v']. *)
Definition goes (m : MB Z) (v v' : view) : Prop :=
  forall s, at_view s v -> can_send v -> exists s', m s = Some (0, s') /\ at_view s' v'.

Lemma with_info_done tid cid info k s : zlen info < 2 ^ 31 ->
  with_info k (command_done tid cid info) s = (when (negb (zlen info =? 0)) k;; mret 0) s.
Proof. intros H. unfold with_info. by rewrite (rd32_info_length _ _ _ H), bind_lift. Qed.

Lemma assign_done f {sf : Setter f} tid cid info j n s : 0 <= j -> rd32 info j = Some n ->
  assign f (command_done tid cid info) (oInformationBuffer + j) s = Some (tt, s <| now := set_field f n (now s) |>).
Proof. intros Hj Hn. unfold assign. by rewrite (rd32_info _ _ _ _ Hj), Hn, bind_lift. Qed.

Lemma at_now_set s v n : at_view s v -> at_view (s <| now := n |>) (v <| v_now := n |>).
Proof. by intros []. Qed.

Lemma query_goes cid k v v' :
  is_u32 cid ->
  (forall s, at_view s (sent v) -> exists s', k (command_done (v_tid v) cid (device_info i cid false)) s = Some (0, s') /\ at_view s' v') ->
  goes (transaction cfg (compose_basic_connect_command cid MBIM_CID_CMD_TYPE_QUERY None 0) mbim_default_timeout k) v v'.
Proof.
  intros Hcid Hk s Hs Hc. destruct (query_none cid mbim_default_timeout k s v Hs Hc Hcid) as (s2 & -> & H2). by apply Hk.
Qed.

Lemma caps_goes v : goes (mbim_device_caps_query cfg) v (sent v).
Proof.
  apply query_goes; [by split|]. intros s Hs. rewrite with_info_done by done. by exists s.
Qed.
Lemma services_goes v : goes (mbim_device_services_query cfg) v (sent v).
Proof.
  apply query_goes; [by split|]. intros s Hs. exists s. split; [|done].
  assert (E : mbim_v2_support (command_done (v_tid v) MBIM_CID_DEVICE_SERVICES (device_info i MBIM_CID_DEVICE_SERVICES false)) = Some false);
    [|by rewrite E].
  unfold mbim_v2_support. pose proof (rd32_info_length (v_tid v) MBIM_CID_DEVICE_SERVICES [] ltac:(done)) as H.
  change (device_info i MBIM_CID_DEVICE_SERVICES false) with (@nil Z). revert H. unfold rd32.
  destruct (ld32 _ _) as [n|] eqn:N; [|done]. intros _.
  assert (n = 0) as ->; [|done].
  unfold ld32, command_done in N. rewrite !app_assoc, <- (app_assoc _ _ []), lds_app in N by done.
  injection N as <-. unfold dec_native, native. by destruct is_bigendian.
Qed.
Lemma assigned_goes f {sf : Setter f} b tid cid info j n s v :
  b = true -> at_view s v -> 0 <= j -> rd32 info j = Some n ->
  exists s', (when b (assign f (command_done tid cid info) (oInformationBuffer + j));; mret 0) s = Some (0, s') /\
    at_view s' (v <| v_now := set_field f n (v_now v) |>).
Proof.
  intros -> Hs Hj Hn. unfold when. erewrite bind_step by (by apply (assign_done f _ _ _ _ n)).
  eexists. split; [reflexivity|]. rewrite (at_now _ _ Hs). by apply at_now_set.
Qed.
Lemma subscriber_goes v :
  goes (mbim_subscriber_status_query cfg) v (sent v <| v_now := (v_now v) <| ReadyState := 1 |> |>).
Proof.
  apply query_goes; [by split|]. intros s Hs. rewrite with_info_done by done. rewrite <- (Z.add_0_r oInformationBuffer).
  apply (assigned_goes ReadyState _ _ _ _ 0 1 s (sent v)); [done..|]. by apply (rd32_first 1 []).
Qed.
Lemma register_goes v :
  goes (mbim_register_state_query cfg) v (sent v <| v_now := (v_now v) <| RegisterState := 3 |> |>).
Proof.
  apply query_goes; [by split|]. intros s Hs. rewrite with_info_done by done.
  apply (assigned_goes RegisterState _ _ _ _ 4 3 s (sent v)); [done..|]. by apply (rd32_le32 (le32 0) 3 []).
Qed.
Lemma packet_goes v :
  goes (mbim_packet_service_query cfg) v (sent v <| v_now := (v_now v) <| PacketServiceState := 2 |> |>).
Proof.
  apply query_goes; [by split|]. intros s Hs. rewrite with_info_done by done.
  replace (negb (zlen (device_info i MBIM_CID_PACKET_SERVICE false) =? 0)) with true by done.
  unfold when at 1. erewrite bind_step.
  2:{ erewrite bind_step by (apply (assign_done PacketServiceState _ _ _ 4 2); [done | by apply (rd32_le32 (le32 0) 2)]).
      rewrite rd32_info_length, bind_lift by done. reflexivity. }
  eexists. split; [reflexivity|]. rewrite (at_now _ _ Hs). by apply (at_now_set _ (sent v)).
Qed.
(** A set command whose value is one number. *)
Lemma radio_goes v : goes (mbim_set_radio_state cfg MBIMRadioOn) v (sent v).
Proof.
  intros s Hs Hc. unfold mbim_set_radio_state.
  destruct (request_info MBIM_CID_RADIO_STATE MBIM_CID_CMD_TYPE_SET (enc32 (cpu_to_le32 MBIMRadioOn)) 4 false mbim_default_timeout
    (fun d => with_info (_ ← lift (rd32 d oInformationBuffer); _ ← lift (rd32 d (oInformationBuffer + 4)); mret tt) d) s v)
    as (s2 & -> & H2); try done; try (by rewrite zlen_enc32).
  exists s2. split; [|done]. rewrite with_info_done by done. set (d := command_done _ _ _).
  assert (E0 : rd32 d oInformationBuffer = Some 1).
  { rewrite <- (Z.add_0_r oInformationBuffer). unfold d. rewrite rd32_info by done. by apply (rd32_first 1). }
  assert (E4 : rd32 d (oInformationBuffer + 4) = Some 1).
  { unfold d. rewrite rd32_info by done. by apply (rd32_le32 (le32 1) 1 []). }
  cbn -[rd32 d]. by rewrite E0, E4.
Qed.
Lemma query_connect_goes sid v :
  goes (mbim_query_connect cfg sid) v (sent v <| v_now := (v_now v) <| ActivationState := 3 |> |>).
Proof.
  intros s Hs Hc. unfold mbim_query_connect. erewrite bind_step by reflexivity. cbn [b_data].
  destruct (st32_defined (fresh (allocs s) sizeof_SET_CONNECT) 0 (cpu_to_le32 (u32 sid))) as (m & E & L); [done|by rewrite fresh_length|].
  unfold put32. rewrite E, bind_lift. rewrite fresh_length in L by done.
  destruct (request_info MBIM_CID_CONNECT MBIM_CID_CMD_TYPE_QUERY m sizeof_SET_CONNECT false mbim_default_timeout
    (fun d => with_info (assign ActivationState d (oInformationBuffer + 4)) d) (s <| allocs := S (allocs s) |>) v)
    as (s2 & -> & H2); try done; try (by rewrite L).
  { by apply at_stack. }
  rewrite with_info_done by done. apply (assigned_goes ActivationState _ _ _ _ 4 3 s2 (sent v)); [done..|]. by apply (rd32_le32 (le32 0) 3 []).
Qed.

(** *** Opening *)
Lemma rd32_open_tid ty t : is_u32 t -> rd32 (open_close_done ty t) oTransactionId = Some t.
Proof. intros Ht. unfold open_close_done. rewrite app_assoc. by apply rd32_le32. Qed.
Lemma rd32_open_status ty t : rd32 (open_close_done ty t) oStatus = Some 0.
Proof. unfold open_close_done. rewrite !app_assoc, <- (app_nil_r (_ ++ le32 0)), <- (app_assoc _ (le32 0)). by apply rd32_le32. Qed.
Lemma rd32_open_length ty t : rd32 (open_close_done ty t) oMessageLength = Some 16.
Proof. unfold open_close_done. by apply rd32_le32. Qed.
Lemma check_open t s : mbim_check_err (0, Some (open_close_done MBIM_OPEN_DONE t)) s = Some (inr (open_close_done MBIM_OPEN_DONE t), s).
Proof.
  unfold mbim_check_err. erewrite bind_step; [reflexivity|]. unfold mbim_status_code. cbn [snd].
  assert (E : ld32 (open_close_done MBIM_OPEN_DONE t) oMessageType = Some (if is_bigendian then 0x01000080 else MBIM_OPEN_DONE)).
  { unfold ld32, open_close_done. rewrite lds_app_0 by done. unfold dec_native, native. by destruct is_bigendian. }
  rewrite E, bind_lift, rd32_open_status. by destruct is_bigendian.
Qed.

Lemma open_fields m t : zlen m = 16 -> is_u32 t ->
  exists b, (m ← put32 m oMessageType MBIM_OPEN_MSG; m ← put32 m oMessageLength sizeof_COMMAND_MSG;
             m ← put32 m oTransactionId t; put32 m oMaxControlTransfer 4096) = Some b /\ zlen b = 16 /\
    rd32 b oMessageType = Some MBIM_OPEN_MSG /\ rd32 b oMessageLength = Some 48 /\ rd32 b oTransactionId = Some t.
Proof.
  intros Hm Ht. unfold put32. offsets. unfold oMaxControlTransfer, MBIM_OPEN_MSG.
  store m1 E1 L1. store m2 E2 L2. store m3 E3 L3.
  destruct (st32_defined m3 12 (cpu_to_le32 4096)) as (b & E4 & L4); [lia..|].
  exists b. split_and!; [exact E4 | lia | ..]; load_back.
Qed.
Lemma open_goes v : goes (mbim_open_device cfg 4096) v (sent v).
Proof.
  intros s Hs Hc. pose proof (at_sent _ _ Hc Hs) as H1. destruct Hc as [Hc Hal].
  destruct (open_fields (fresh (allocs s) 16) (v_tid v)) as (b & E & L & Ft & Fl & Fi); [by apply fresh_length | split; lia|].
  set (blk := {| b_id := allocs s; b_data := b |}). set (m := memory_at blk 48).
  assert (Lm : zlen m = 48).
  { unfold m, memory_at, zlen in *. rewrite length_take, length_app, length_fmap, length_seq. cbn [b_data blk]. lia. }
  assert (Em : exists e, m = b ++ e).
  { eexists. unfold m, memory_at. cbn [b_data blk b_id]. rewrite take_app_ge by (unfold zlen in L; lia). done. }
  destruct Em as [e Em]. set (rsp := open_close_done MBIM_OPEN_DONE (v_tid v)).
  assert (Hr : device_reply i m = Some rsp).
  { unfold device_reply. by rewrite Em, (rd32_mono _ _ _ _ Ft), (rd32_mono _ _ _ _ Fi). }
  eexists. split; [|apply (at_answered _ _ m rsp H1); done].
  unfold mbim_open_device, transaction. erewrite bind_step.
  2:{ unfold compose_open_command. erewrite bind_step by (apply mbim_alloc_ok; exact works_alloc).
      cbv iota beta. erewrite bind_step by reflexivity. cbn [b_data TransactionId set_field set_allocs].
      rewrite (at_tid _ _ Hs). change sizeof_OPEN_MSG with 16. rewrite E, bind_lift. reflexivity. }
  cbv iota beta. change (with_data _ b) with blk.
  erewrite bind_step.
  2:{ apply (send_answered blk m mbim_default_timeout _ rsp (v_tid v) 48); try done.
      - by apply (ld32_nonzero _ _ (v_tid v)); [|lia].
      - apply rd32_open_length.
      - apply rd32_open_tid. split; lia.
      - cbn. by rewrite (at_alive _ _ Hs). }
  erewrite bind_step by apply check_open. fold rsp. unfold rsp. by rewrite rd32_open_status, bind_lift, (at_tid _ _ Hs).
Qed.

(** *** Connecting *)
Lemma set_connect_goes onoff sid v :
  short (mbim_apn cfg) -> short (mbim_user cfg) -> short (mbim_passwd cfg) -> is_u32 (mbim_iptype cfg) ->
  goes (mbim_set_connect cfg onoff sid) v (sent v <| v_now := (v_now v) <| ActivationState := if onoff =? 0 then 3 else 1 |> |>).
Proof.
  intros H1 H2 H3 Hip s Hs Hc.
  destruct (connect_strings_spec cfg H1 H2 H3) as (m0 & E0 & L0 & Hlen & _).
  destruct (connect_fields_spec cfg m0 onoff sid) as (m & E & L & _ & F4 & _); [unfold sizeof_SET_CONNECT in *; lia | done|].
  unfold mbim_set_connect. erewrite bind_step.
  2:{ unfold mbim_populate_connect_data. erewrite bind_step by (apply mbim_alloc_ok; exact works_alloc).
      cbv iota beta. rewrite E0, bind_lift. reflexivity. }
  cbv iota beta. rewrite E, bind_lift.
  destruct (request_info MBIM_CID_CONNECT MBIM_CID_CMD_TYPE_SET m (sizeof_SET_CONNECT + connect_buflen cfg) (negb (onoff =? 0))
    (mbim_default_timeout * 10) (fun d => with_info (assign ActivationState d (oInformationBuffer + 4)) d)
    (s <| allocs := S (allocs s) |>) v) as (s2 & -> & H); try done.
  - lia.
  - by apply at_stack.
  - unfold sizeof_SET_CONNECT in *. lia.
  - eexists. split; [exact F4|]. by destruct (onoff =? 0).
  - rewrite with_info_done by (by destruct (onoff =? 0)).
    apply (assigned_goes ActivationState _ _ _ _ 4 (if onoff =? 0 then 3 else 1) s2 (sent v)); [by destruct (onoff =? 0)|done..|].
    destruct (onoff =? 0); [by apply (rd32_le32 (le32 0) 3 []) | by apply (rd32_le32 (le32 0) 1 [])].
Qed.

(** ** Outputs *)
Definition outputs (m : MB unit) (os : list out) : Prop :=
  forall s v, at_view s v -> exists s', m s = Some (tt, s') /\ at_view s' (v <| v_shown := v_shown v ++ os |>).

Lemma outputs_nil : outputs (mret tt) [].
Proof. intros s v H. exists s. split; [done|]. destruct v, H. cbn in *. split; cbn; by rewrite ?app_nil_r. Qed.
Lemma outputs_bind m k os os' : outputs m os -> outputs k os' -> outputs (m;; k) (os ++ os').
Proof.
  intros Hm Hk s v H. destruct (Hm s v H) as (s1 & E1 & H1). destruct (Hk s1 _ H1) as (s2 & E2 & H2).
  exists s2. split; [by rewrite (bind_step _ _ _ _ _ E1)|]. destruct v, H2. split; try done. cbn in *. by rewrite app_assoc.
Qed.
Lemma outputs_emit o : is_message o = false -> outputs (emit o) [o].
Proof.
  intros Ho s v []. eexists. split; [reflexivity|]. split; try done. cbn. rewrite shown_app, at_shown0. unfold shown.
  by rewrite filter_cons_True.
Qed.
Lemma outputs_shell cmd : zlen cmd < 256 -> outputs (shell cmd) [System cmd].
Proof. intros H. unfold shell, mysystem. rewrite snprintf_fits by done. by apply outputs_emit. Qed.
Lemma outputs_lift {A} (o : option A) (a : A) k os : o = Some a -> outputs (k a) os -> outputs (lift o ≫= k) os.
Proof. by intros ->. Qed.

Lemma outputs_bridge k os : outputs (k 0) os ->
  outputs (b ← bridge_mode_detect; modify (fun s => s <| bridge_mode := b |>);; k b) os.
Proof.
  intros Hk s v H. unfold bridge_mode_detect.
  erewrite bind_step by (rewrite bind_gets, works_plain; reflexivity). rewrite bind_modify. apply Hk. by destruct H.
Qed.

(** ** The interface *)
(** Interface names are shorter than 16 characters. *)
Definition good_names : Prop :=
  zlen (mbim_netcard cfg) < 16 /\ match real_netcard cfg with Some r => zlen r < 16 | None => True end.
Definition link_cmd (c : Z) : out :=
  System (str "echo " ++ c :: str " > /sys/class/net/" ++ mbim_netcard cfg ++ str "/mbim/link_state").
Definition down_commands : list out :=
  let n := mbim_netcard cfg in
  [link_cmd 48; System (str "ip address flush dev " ++ n); System (str "ip link set dev " ++ n ++ str " down")] ++
  match real_netcard cfg with Some r => [System (str "ip link set dev " ++ r ++ str " down")] | None => [] end ++
  [ResolvConf 4 n None None; ResolvConf 6 n None None].

(** The length of a command whose literals are known. *)
Ltac short_command :=
  rewrite ?zlen_app, ?zlen_cons, ?zlen_app, ?zlen_cons, ?zlen_app;
  repeat match goal with
  | |- context [zlen (str ?x)] => let y := eval vm_compute in (zlen (str x)) in change (zlen (str x)) with y
  | |- context [zlen (dec ?x)] => first [ pose proof (dec_length x); generalize dependent (zlen (dec x)); intros ]
  end; lia.
Ltac command := apply outputs_bind; [apply outputs_shell; short_command|].

Lemma ifconfig_down_outputs : good_names -> outputs (ifconfig_down cfg) down_commands.
Proof.
  intros [Hn Hr]. unfold ifconfig_down, mbim_ifconfig, down_commands, link_cmd. apply outputs_bridge. cbv zeta.
  change ([?a; ?b; ?c] ++ ?l) with ([a] ++ [b] ++ [c] ++ l).
  do 3 command.
  apply outputs_bind; [destruct (real_netcard cfg); [apply outputs_shell; short_command | apply outputs_nil]|].
  apply (outputs_bind _ _ [_] [_]); by apply outputs_emit.
Qed.

(** The commands that bring an IPv4 configuration up. *)
Definition dotted_quad (q : Z * Z * Z * Z) : bytes := let '(a, b, c, d) := q in dotted a b c d.
Definition up_commands : list out :=
  let n := mbim_netcard cfg in
  [link_cmd 49] ++
  match real_netcard cfg with Some r => [System (str "ip link set dev " ++ r ++ str " up")] | None => [] end ++
  [System (str "ip link set dev " ++ n ++ str " up");
   System (str "ip -4 address flush dev " ++ n);
   System (str "ip -4 address add " ++ dotted_quad (i_addr i) ++ 47 :: dec (i_prefix i) ++ str " dev " ++ n);
   System (str "ip -4 route add default via " ++ dotted_quad (i_gw i) ++ str " dev " ++ n);
   System (str "ip -4 link set dev " ++ n ++ str " mtu " ++ dec (i_mtu i));
   ResolvConf 4 n (Some (dotted_quad (i_dns1 i))) (Some (dotted_quad (i_dns2 i)))].

Lemma dotted_quad_length q : zlen (dotted_quad q) <= 83.
Proof. destruct q as [[[a b] c] d]. unfold dotted_quad, dotted. rewrite !zlen_app, !zlen_cons, !zlen_app, !zlen_cons, !zlen_app, zlen_cons.
  pose proof (dec_length a). pose proof (dec_length b). pose proof (dec_length c). pose proof (dec_length d). lia.
Qed.

Lemma ipv4_text_quad m p q : lds m p 4 = Some (quad q) -> ipv4_text m p = Some (dotted_quad q).
Proof.
  destruct q as [[[a b] c] d]. intros H. unfold ipv4_text, quad in *.
  pose proof (lds_ld _ _ _ _ 0 a H eq_refl) as H0. pose proof (lds_ld _ _ _ _ 1 b H eq_refl) as H1.
  pose proof (lds_ld _ _ _ _ 2 c H eq_refl) as H2. pose proof (lds_ld _ _ _ _ 3 d H eq_refl) as H3.
  rewrite Z.add_0_r in H0. change (Z.of_nat 1) with 1 in H1. change (Z.of_nat 2) with 2 in H2. change (Z.of_nat 3) with 3 in H3.
  by rewrite H0, H1, H2, H3.
Qed.

Lemma ifconfig_up_outputs m pa pg p1 p2 :
  good_names -> i_mtu i <> 0 ->
  lds m pa 4 = Some (quad (i_addr i)) -> lds m pg 4 = Some (quad (i_gw i)) ->
  lds m p1 4 = Some (quad (i_dns1 i)) -> lds m p2 4 = Some (quad (i_dns2 i)) ->
  outputs (mbim_ifconfig cfg 4 (mbim_netcard cfg) m (Some pa) (Some pg) (Some p1) (Some p2) (i_prefix i) (i_mtu i)) up_commands.
Proof.
  intros [Hn Hr] Hmtu Ha Hg H1 H2. unfold mbim_ifconfig, up_commands, link_cmd. apply outputs_bridge. cbv zeta.
  pose proof (dotted_quad_length (i_addr i)). pose proof (dotted_quad_length (i_gw i)). command.
  cbn [Z.eqb negb when].
  apply (outputs_bind _ _ [] _); [apply outputs_nil|].
  apply outputs_bind; [destruct (real_netcard cfg); [apply outputs_shell; short_command | apply outputs_nil]|].
  change (?a :: ?b :: ?c :: ?d :: ?e :: ?l) with ([a] ++ [b] ++ [c] ++ [d] ++ [e] ++ l).
  do 2 command.
  apply (outputs_lift _ (dotted_quad (i_addr i))); [by apply ipv4_text_quad|]. command.
  apply outputs_bind.
  { apply (outputs_lift _ (dotted_quad (i_gw i))); [by apply ipv4_text_quad|]. apply outputs_shell. short_command. }
  apply outputs_bind.
  { rewrite (proj2 (Z.eqb_neq _ _) Hmtu). apply outputs_shell. short_command. }
  apply (outputs_lift _ (Some (dotted_quad (i_dns1 i)))); [cbn [opt_text]; unfold addr_text; cbn; by rewrite (ipv4_text_quad _ _ _ H1)|].
  apply (outputs_lift _ (Some (dotted_quad (i_dns2 i)))); [cbn [opt_text]; unfold addr_text; cbn; by rewrite (ipv4_text_quad _ _ _ H2)|].
  by apply outputs_emit.
Qed.

(** *** The IP configuration *)
Lemma rd32_skip a m j : 4 <= j -> rd32 (le32 a ++ m) j = rd32 m (j - 4).
Proof. intros Hj. replace j with (zlen (le32 a) + (j - 4)) at 1 by (change (zlen (le32 a)) with 4; lia). apply rd32_behind. lia. Qed.
Definition good_ip : Prop := is_u32 (i_mtu i) /\ i_mtu i <> 0 /\ 0 <= i_prefix i <= 32.

(** The fields of the reference configuration. *)
Ltac ip_field := intros; unfold ip4_info; rewrite !rd32_skip by lia; apply rd32_first; split; reflexivity || discriminate.
Lemma ip4_field_4 : rd32 (ip4_info i) 4 = Some 15. Proof. ip_field. Qed.
Lemma ip4_field_8 : rd32 (ip4_info i) 8 = Some 0. Proof. ip_field. Qed.
Lemma ip4_field_16 : rd32 (ip4_info i) 16 = Some 60. Proof. ip_field. Qed.
Lemma ip4_field_28 : rd32 (ip4_info i) 28 = Some 68. Proof. ip_field. Qed.
Lemma ip4_field_36 : rd32 (ip4_info i) 36 = Some 2. Proof. ip_field. Qed.
Lemma ip4_field_40 : rd32 (ip4_info i) 40 = Some 72. Proof. ip_field. Qed.
Lemma ip4_field_56 : rd32 (ip4_info i) 56 = Some 0. Proof. ip_field. Qed.
Lemma ip4_field_mtu : good_ip -> rd32 (ip4_info i) 52 = Some (i_mtu i).
Proof. intros (H & _). unfold ip4_info. rewrite !rd32_skip by lia. by apply rd32_first. Qed.
Lemma ip4_field_prefix : good_ip -> rd32 (ip4_info i) 60 = Some (i_prefix i).
Proof. intros (_ & _ & H). unfold ip4_info. rewrite !rd32_skip by lia. apply rd32_first. split; lia. Qed.
Lemma ip4_quads :
  lds (ip4_info i) 64 4 = Some (quad (i_addr i)) /\ lds (ip4_info i) 68 4 = Some (quad (i_gw i)) /\
  lds (ip4_info i) 72 4 = Some (quad (i_dns1 i)) /\ lds (ip4_info i) 76 4 = Some (quad (i_dns2 i)).
Proof. by destruct i as [p m [[[? ?] ?] ?] [[[? ?] ?] ?] [[[? ?] ?] ?] [[[? ?] ?] ?]]. Qed.

Section Answer.
Context (tid : Z) (good : good_ip).
Let d := command_done tid MBIM_CID_IP_CONFIGURATION (ip4_info i).
Let info := oInformationBuffer.

Lemma ip_field j v : 0 <= j -> rd32 (ip4_info i) j = Some v -> rd32 d (info + j) = Some v.
Proof. intros Hj H. unfold d, info. by rewrite rd32_info. Qed.
Lemma ip_quad j q : 0 <= j -> lds (ip4_info i) j 4 = Some q -> lds d (info + j) 4 = Some q.
Proof. intros Hj H. unfold d, info. by rewrite lds_info. Qed.

Lemma dump_ok : mbim_dump_ipconfig d = Some tt.
Proof.
  destruct ip4_quads as (Qa & Qg & Q1 & Q2). unfold mbim_dump_ipconfig, dump_family, ipv4_fields, ipv6_fields.
  cbn [f_avail f_addr f_gw f_dns f_dns_count f_mtu f_size]. fold info.
  rewrite (ip_field 4 15) by (done || apply ip4_field_4). cbn -[lds rd32 d info].
  rewrite (ip_field 16 60) by (done || apply ip4_field_16). cbn -[lds rd32 d info].
  rewrite (ip_field 60 _ ltac:(done) (ip4_field_prefix good)). cbn -[lds rd32 d info].
  rewrite <- (Z.add_assoc info 60 4). rewrite (ip_quad (60 + 4) _ ltac:(done) Qa). cbn -[lds rd32 d info].
  rewrite (ip_field 28 68) by (done || apply ip4_field_28). cbn -[lds rd32 d info].
  rewrite (ip_quad 68 _ ltac:(done) Qg). cbn -[lds rd32 d info].
  rewrite (ip_field 40 72) by (done || apply ip4_field_40). cbn -[lds rd32 d info].
  rewrite (ip_quad 72 _ ltac:(done) Q1). cbn -[lds rd32 d info].
  rewrite (ip_field 36 2) by (done || apply ip4_field_36). cbn -[lds rd32 d info].
  rewrite <- (Z.add_assoc info 72 4), (ip_quad (72 + 4) _ ltac:(done) Q2). cbn -[lds rd32 d info].
  rewrite (ip_field 52 _ ltac:(done) (ip4_field_mtu good)). cbn -[lds rd32 d info].
  rewrite (ip_field 8 0) by (done || apply ip4_field_8). cbn -[lds rd32 d info].
  by rewrite (ip_field 56 0) by (done || apply ip4_field_56).
Qed.

Lemma family_ok : family_vars ipv4_fields d 15 ip_vars_init =
  Some {| v_gw := Some (info + 68); v_dns1 := Some (info + 72); v_dns2 := Some (info + 76); v_mtu := i_mtu i |}.
Proof.
  unfold family_vars, ipv4_fields. cbn [f_avail f_addr f_gw f_dns f_dns_count f_mtu f_size]. fold info. cbn -[lds rd32 d info].
  rewrite (ip_field 28 68) by (done || apply ip4_field_28). cbn -[lds rd32 d info].
  rewrite (ip_field 40 72) by (done || apply ip4_field_40). cbn -[lds rd32 d info].
  rewrite (ip_field 36 2) by (done || apply ip4_field_36). cbn -[lds rd32 d info].
  rewrite (ip_field 52 _ ltac:(done) (ip4_field_mtu good)). cbn -[lds rd32 d info]. by rewrite <- (Z.add_assoc info 72 4).
Qed.

Lemma configure_outputs : good_names ->
  outputs (v ← configure_family cfg 4 ipv4_fields d ip_vars_init; _ ← configure_family cfg 6 ipv6_fields d v; mret tt) up_commands.
Proof.
  intros Hn s v Hv. destruct ip4_quads as (Qa & Qg & Q1 & Q2). destruct good as (Hm & Hm0 & Hp).
  destruct (ifconfig_up_outputs d (info + 60 + 4) (info + 68) (info + 72) (info + 76) Hn Hm0) with (s := s) (v := v)
    as (s' & E & H); try done; try (by apply ip_quad).
  { rewrite <- (Z.add_assoc info 60 4). by apply ip_quad. }
  exists s'. split; [|done]. erewrite bind_step.
  2:{ unfold configure_family. cbv zeta. fold info. cbn [f_avail f_addr ipv4_fields].
      rewrite (ip_field 4 15) by (done || apply ip4_field_4). rewrite bind_lift. change ((15 .& 1) =? 0) with false. cbv iota.
      rewrite (ip_field 16 60) by (done || apply ip4_field_16). rewrite bind_lift.
      rewrite (ip_field 60 _ ltac:(done) (ip4_field_prefix good)), bind_lift, family_ok, bind_lift.
      cbn [v_gw v_dns1 v_dns2 v_mtu]. rewrite u8_id by (split; lia). by rewrite (bind_step _ _ _ _ _ E). }
  unfold configure_family. cbv zeta. fold info. cbn [f_avail f_addr ipv6_fields].
  by rewrite (ip_field 8 0) by (done || apply ip4_field_8).
Qed.
End Answer.

Lemma ip_config_goes sid v : good_names -> good_ip ->
  goes (mbim_ip_config cfg sid) v (sent v <| v_shown := v_shown v ++ up_commands |>).
Proof.
  intros Hn Hg s Hs Hc. unfold mbim_ip_config. erewrite bind_step by reflexivity. cbn [b_data].
  destruct (st32_defined (fresh (allocs s) sizeof_IP_CONFIGURATION_INFO) 0 (cpu_to_le32 (u32 sid))) as (m & E & L);
    [done | by rewrite fresh_length|].
  unfold put32. rewrite E, bind_lift. rewrite fresh_length in L by done.
  match goal with |- context [transaction cfg _ _ ?k _] =>
    destruct (request_info MBIM_CID_IP_CONFIGURATION MBIM_CID_CMD_TYPE_QUERY m sizeof_IP_CONFIGURATION_INFO false
      mbim_default_timeout k (s <| allocs := S (allocs s) |>) v) as (s2 & -> & H2); try done; try (by rewrite L)
  end.
  { by apply at_stack. }
  change (device_info i MBIM_CID_IP_CONFIGURATION false) with (ip4_info i).
  rewrite with_info_done, ip4_info_length by (by rewrite ip4_info_length). cbn [Z.eqb negb when].
  destruct (configure_outputs (v_tid v) Hg Hn s2 (sent v) H2) as (s' & Eo & Ho).
  exists s'. split; [|exact Ho]. erewrite bind_step; [reflexivity|]. by rewrite dump_ok, bind_lift.
Qed.

(** ** One pass of the loop *)
Lemma then_goes m k s v v' : goes m v v' -> at_view s v -> can_send v ->
  exists s', then_ (done_ok m) k s = k s' /\ at_view s' v'.
Proof.
  intros Hm Hs Hc. destruct (Hm s Hs Hc) as (s' & E & H). exists s'. split; [|done].
  unfold then_. erewrite bind_step by (unfold done_ok; erewrite bind_step by exact E; reflexivity). done.
Qed.
Lemma done_ok_goes m s v v' : goes m v v' -> at_view s v -> can_send v -> exists s', done_ok m s = Some (true, s') /\ at_view s' v'.
Proof.
  intros Hm Hs Hc. destruct (Hm s Hs Hc) as (s' & E & H). exists s'. split; [|done].
  unfold done_ok. by erewrite bind_step by exact E.
Qed.

(** The view after the changes were looked at. *)
Definition seen (v : view) : view :=
  v <| v_old := v_now v |>
    <| v_shown := v_shown v ++ (if ActivationState (v_now v) =? ActivationState (v_old v) then []
                                else [LinkState (ActivationState (v_now v) =? MBIMActivationStateActivated)]) |>.

Lemma update_one_spec f {sf : Setter f} s :
  (forall x, sf (f x) x = x) ->
  exists n, update_one f s = Some (n, s <| old := set_field f (f (now s)) (old s) |>).
Proof.
  intros Hf. unfold update_one. rewrite !bind_gets. unfold compose, "∘". destruct (Z.eqb_spec (f (old s)) (f (now s))) as [E|E].
  - exists 0. unfold mret, M_ret. do 2 f_equal. cbn. rewrite <- E. rewrite (Hf (old s)). by destruct s.
  - by exists 1.
Qed.

Lemma update_seen s v : at_view s v -> exists n s', mbim_update_state s = Some (n, s') /\ at_view s' (seen v).
Proof.
  intros H. unfold mbim_update_state.
  destruct (update_one_spec ReadyState s) as [a Ea]; [by intros []|]. erewrite bind_step by exact Ea. set (s1 := set_field old _ s).
  destruct (update_one_spec RegisterState s1) as [b Eb]; [by intros []|]. erewrite bind_step by exact Eb. set (s2 := set_field old _ s1).
  destruct (update_one_spec PacketServiceState s2) as [c Ec]; [by intros []|]. erewrite bind_step by exact Ec.
  set (s3 := set_field old _ s2). rewrite !bind_gets. unfold compose, "∘".
  set (s4 := if ActivationState (now s) =? ActivationState (old s) then s3
             else s3 <| trace := trace s ++ [LinkState (ActivationState (now s) =? MBIMActivationStateActivated)] |>).
  assert (E4 : when (negb (ActivationState (now s3) =? ActivationState (old s3)))
                 (emit (LinkState (ActivationState (now s3) =? MBIMActivationStateActivated))) s3 = Some (tt, s4)).
  { unfold s4. change (ActivationState (now s3)) with (ActivationState (now s)).
    change (ActivationState (old s3)) with (ActivationState (old s)). by destruct (_ =? _). }
  erewrite bind_step by exact E4.
  destruct (update_one_spec ActivationState s4) as [e Ee]; [by intros []|]. erewrite bind_step by exact Ee.
  eexists _, _. split; [reflexivity|].
  assert (N4 : now s4 = now s) by (unfold s4; by destruct (_ =? _)).
  destruct H. split; try (unfold s4; cbn; destruct (_ =? _); done).
  - cbn. rewrite N4. unfold s4. rewrite <- at_now0. destruct (_ =? _); cbn; by destruct (now s).
  - cbn. rewrite <- at_now0, <- at_old0. unfold s4. destruct (_ =? _); cbn.
    + by rewrite app_nil_r.
    + by rewrite shown_app, at_shown0.
Qed.

Definition view0 (tid : Z) (n : Status) (t : list out) : view :=
  {| v_alive := true; v_quit := 0; v_tid := tid; v_open := 1; v_now := n; v_old := n; v_shown := t |}.

Lemma opening_ok s v : good_names -> at_view s v -> v_alive v = true -> v_quit v = 0 -> v_open v = 0 ->
  exists s', opening cfg s = Some (true, s') /\ at_view s' (view0 5 status_init (v_shown v ++ down_commands)).
Proof.
  intros Hn Hs Hal Hq Ho. unfold opening. rewrite bind_gets, (at_open _ _ Hs), Ho. cbn [Z.eqb negb].
  destruct (ifconfig_down_outputs Hn s v Hs) as (s1 & E1 & H1). erewrite bind_step by exact E1. rewrite bind_modify.
  set (s2 := set_field TransactionId 1 s1). set (v2 := v <| v_shown := v_shown v ++ down_commands |> <| v_tid := 1 |>).
  assert (H2 : at_view s2 v2) by (by destruct H1).
  destruct (then_goes _ (modify (fun s => s <| mbim_open_state := 1 |>);; mbim_reset_state;;
    then_ (done_ok (mbim_device_caps_query cfg)) (then_ (done_ok (mbim_device_services_query cfg)) (done_ok (mbim_set_radio_state cfg MBIMRadioOn))))
    _ _ _ (open_goes v2) H2 ltac:(done)) as (s3 & -> & H3).
  rewrite bind_modify. erewrite bind_step by reflexivity.
  set (s4 := set_field mbim_ms_version 1 _). assert (H4 : at_view s4 (view0 2 status_init (v_shown v2))) by (destruct H3; split; cbn in *; congruence || done).
  destruct (then_goes _ (then_ (done_ok (mbim_device_services_query cfg)) (done_ok (mbim_set_radio_state cfg MBIMRadioOn)))
    _ _ _ (caps_goes _) H4 ltac:(done)) as (s5 & -> & H5).
  destruct (then_goes _ (done_ok (mbim_set_radio_state cfg MBIMRadioOn)) _ _ _ (services_goes _) H5 ltac:(done)) as (s6 & -> & H6).
  exact (done_ok_goes _ _ _ _ (radio_goes _) H6 ltac:(done)).
Qed.

(** A request followed by a look at the changes. *)
Lemma request_then_look m s v v' : goes m v v' -> at_view s v -> can_send v ->
  exists s', then_ (done_ok m) update_ok s = Some (true, s') /\ at_view s' (seen v').
Proof.
  intros Hm Hs Hc. destruct (then_goes m update_ok s v v' Hm Hs Hc) as (s1 & -> & H1).
  destruct (update_seen s1 v' H1) as (n & s2 & E2 & H2). exists s2. split; [|done]. unfold update_ok. by erewrite bind_step by exact E2.
Qed.

Definition at_home : Status := {| ReadyState := 1; RegisterState := 3; PacketServiceState := 2; ActivationState := 0 |}.
Definition connected : Status := {| ReadyState := 1; RegisterState := 3; PacketServiceState := 2; ActivationState := 1 |}.
Lemma connect_stage_ok sid s t :
  good_names -> good_ip -> short (mbim_apn cfg) -> short (mbim_user cfg) -> short (mbim_passwd cfg) -> is_u32 (mbim_iptype cfg) ->
  at_view s (view0 8 at_home t) ->
  exists s', connect_stage cfg sid s = Some (Some 86400, s') /\
    at_view s' (view0 11 connected (t ++ LinkState false :: LinkState true :: up_commands)).
Proof.
  intros Hn Hg H1 H2 H3 Hip Hs. unfold connect_stage. rewrite bind_gets, (at_now _ _ Hs).
  cbn [v_now view0 at_home ActivationState Z.eqb MBIMActivationStateUnknown].
  destruct (request_then_look _ _ _ _ (query_connect_goes sid _) Hs ltac:(done)) as (s1 & E1 & V1).
  erewrite bind_step by exact E1. cbn [negb]. rewrite bind_gets, (at_now _ _ V1).
  cbn [v_now seen sent view0 at_home set_field set_v_now set_v_old set_v_shown set_v_tid set_ActivationState ActivationState Z.eqb orb
       MBIMActivationStateActivated MBIMActivationStateActivating Pos.eqb].
  destruct (request_then_look _ _ _ _ (set_connect_goes 1 sid _ H1 H2 H3 Hip) V1 ltac:(done)) as (s2 & E2 & V2).
  erewrite bind_step by exact E2. cbn [negb]. rewrite bind_gets, (at_now _ _ V2).
  cbn [v_now seen sent view0 at_home set_field set_v_now set_v_old set_v_shown set_v_tid set_ActivationState ActivationState Z.eqb orb
       MBIMActivationStateActivated Pos.eqb].
  destruct (request_then_look _ _ _ _ (ip_config_goes sid _ Hn Hg) V2 ltac:(done)) as (s3 & E3 & V3).
  erewrite bind_step by exact E3. eexists. split; [reflexivity|].
  match type of V3 with at_view _ ?w => replace w with (view0 11 connected (t ++ LinkState false :: LinkState true :: up_commands)) in V3 end; [done|].
  unfold view0, seen, sent. cbn. f_equal. rewrite app_nil_r, <- !app_assoc. done.
Qed.

Lemma registered_home s : RegisterState s = 3 -> registered s = true.
Proof. unfold registered. by intros ->. Qed.

(** The pass of [mbim_connects], on views. *)
Lemma iteration_view s v sid :
  good_names -> good_ip -> short (mbim_apn cfg) -> short (mbim_user cfg) -> short (mbim_passwd cfg) -> is_u32 (mbim_iptype cfg) ->
  at_view s v -> v_alive v = true -> v_quit v = 0 -> v_open v = 0 ->
  exists s', iteration cfg sid s = Some (WaitFor 86400, s') /\
    at_view s' (view0 11 connected (v_shown v ++ down_commands ++ LinkState false :: LinkState true :: up_commands)).
Proof.
  intros Hn Hg Sa Su Sp Hip Hs Hal Hq Ho.
  destruct (opening_ok s v Hn Hs Hal Hq Ho) as (s1 & E1 & H1).
  destruct (request_then_look _ _ _ _ (subscriber_goes _) H1 ltac:(done)) as (s2 & E2 & H2).
  destruct (request_then_look _ _ _ _ (register_goes _) H2 ltac:(done)) as (s3 & E3 & H3).
  destruct (then_goes _ (_ ← mbim_update_state; s ← gets now;
    then_ (if ((PacketServiceState s =? MBIMPacketServiceStateUnknown) || (PacketServiceState s =? MBIMPacketServiceStateDetached)) && registered s
           then done_ok (mbim_packet_service_set cfg MBIMPacketServiceActionAttach) else mret true) update_ok) _ _ _ (packet_goes _) H3 ltac:(done))
    as (s4 & E4 & H4).
  destruct (update_seen _ _ H4) as (n5 & s5 & E5 & H5). destruct (update_seen _ _ H5) as (n6 & s6 & E6 & H6).
  assert (H6' : at_view s6 (view0 8 at_home (v_shown v ++ down_commands))).
  { match type of H6 with at_view _ ?w => replace w with (view0 8 at_home (v_shown v ++ down_commands)) in H6 end; [done|].
    unfold view0, seen, sent. cbn. f_equal. by rewrite !app_nil_r. }
  destruct (connect_stage_ok sid s6 _ Hn Hg Sa Su Sp Hip H6') as (s7 & E7 & H7).
  exists s7. split.
  - unfold iteration. erewrite bind_step by exact E1. cbn [negb]; cbv iota.
    erewrite bind_step by (unfold ready_stage; rewrite bind_gets, (at_now _ _ H1); exact E2). cbn [negb]; cbv iota.
    rewrite bind_gets, (at_now _ _ H2). cbn -[register_stage attach_stage connect_stage gets mbind].
    erewrite bind_step by (unfold register_stage; rewrite bind_gets, (at_now _ _ H2); exact E3). cbn [negb]; cbv iota.
    rewrite bind_gets, (registered_home (now s3)) by (by rewrite (at_now _ _ H3)). cbn [negb]; cbv iota.
    erewrite bind_step.
    2:{ unfold attach_stage. rewrite bind_gets, (at_now _ _ H3). cbn -[mbim_packet_service_query mbim_packet_service_set then_ done_ok mbim_update_state gets mbind update_ok registered].
        rewrite E4. erewrite bind_step by exact E5. rewrite bind_gets, (at_now _ _ H5).
        cbn -[mbim_packet_service_set then_ done_ok gets mbind update_ok registered]. unfold then_ at 1. rewrite bind_ret.
        unfold update_ok. erewrite bind_step by exact E6. reflexivity. }
    cbn [negb]; cbv iota. rewrite bind_gets, (at_now _ _ H6'). cbn [v_now view0 at_home PacketServiceState MBIMPacketServiceStateAttached Z.eqb Pos.eqb negb].
    by erewrite bind_step by exact E7.
  - by rewrite <- app_assoc in H7.
Qed.

(** C22: against a device that works, one pass of the loop brings a device that is not open to a
    connected one: whatever the main thread knew before, it opens the device, finds the SIM ready, the network registered and
    attached, starts the connection and configures the interface; the commands it runs are exactly
    those that take the interface down first and, after the driver was told the link state, bring it up with the
    address, prefix, gateway, MTU and name servers the device reported. A further pass then sends nothing and runs
    nothing. *)
Theorem mbim_connects s sid :
  good_names -> good_ip -> short (mbim_apn cfg) -> short (mbim_user cfg) -> short (mbim_passwd cfg) -> is_u32 (mbim_iptype cfg) ->
  running s = true -> zlen (mbim_recv_buf s) = 4096 -> mbim_open_state s = 0 ->
  exists s', iteration cfg sid s = Some (WaitFor 86400, s') /\ now s' = connected /\ old s' = connected /\
    mbim_open_state s' = 1 /\ running s' = true /\
    shown (trace s') = shown (trace s) ++ down_commands ++ LinkState false :: LinkState true :: up_commands /\
    iteration cfg sid s' = Some (WaitFor 86400, s').
Proof.
  intros Hn Hg Sa Su Sp Hip Hrun Hbuf Hopen. unfold running in Hrun. apply andb_true_iff in Hrun as [Hq%Z.eqb_eq Hal].
  destruct (iteration_view s {| v_alive := true; v_quit := 0; v_tid := TransactionId s; v_open := 0; v_now := now s; v_old := old s;
    v_shown := shown (trace s) |} sid Hn Hg Sa Su Sp Hip) as (s7 & E & H7); [by split | done..|].
  pose proof (at_now _ _ H7) as N7. cbn in N7.
  exists s7. split_and!; try apply H7; try exact E.
  - unfold running. by rewrite (at_quit _ _ H7), (at_alive _ _ H7).
  - unfold iteration. erewrite bind_step by (unfold opening; rewrite bind_gets, (at_open _ _ H7); reflexivity).
    cbn [negb]. cbv iota. erewrite bind_step by (unfold ready_stage; rewrite bind_gets, N7; reflexivity).
    cbn [negb]. cbv iota. rewrite bind_gets, N7.
    change (negb (ReadyState connected =? MBIMSubscriberReadyStateInitialized)) with false. cbv iota.
    erewrite bind_step by (unfold register_stage; rewrite bind_gets, N7; reflexivity).
    cbn [negb]. cbv iota. rewrite bind_gets, N7.
    change (negb (registered connected)) with false. cbv iota.
    erewrite bind_step by (unfold attach_stage; rewrite bind_gets, N7; reflexivity).
    cbn [negb]. cbv iota. rewrite bind_gets, N7.
    change (negb (PacketServiceState connected =? MBIMPacketServiceStateAttached)) with false. cbv iota.
    erewrite bind_step.
    2:{ unfold connect_stage. rewrite bind_gets, N7. change (ActivationState connected =? MBIMActivationStateUnknown) with false. cbv iota.
        rewrite bind_ret. cbn [negb]. cbv iota. rewrite bind_gets, N7. reflexivity. }
    reflexivity.
Qed.

(** ** Leaving *)
Lemma check_close t s : mbim_check_err (0, Some (open_close_done MBIM_CLOSE_DONE t)) s = Some (inr (open_close_done MBIM_CLOSE_DONE t), s).
Proof.
  unfold mbim_check_err. erewrite bind_step; [reflexivity|]. unfold mbim_status_code. cbn [snd].
  assert (E : ld32 (open_close_done MBIM_CLOSE_DONE t) oMessageType = Some (if is_bigendian then 0x02000080 else MBIM_CLOSE_DONE)).
  { unfold ld32, open_close_done. rewrite lds_app_0 by done. unfold dec_native, native. by destruct is_bigendian. }
  rewrite E, bind_lift, rd32_open_status. by destruct is_bigendian.
Qed.
Lemma close_goes v : goes (mbim_close_device cfg) v (sent v).
Proof.
  intros s Hs Hc. pose proof (at_sent _ _ Hc Hs) as H1. destruct Hc as [Hc Hal].
  assert (Lf : zlen (fresh (allocs s) sizeof_CLOSE_MSG) = 12) by (by apply fresh_length).
  set (f := fresh (allocs s) sizeof_CLOSE_MSG) in *.
  assert (exists b, (m ← put32 f oMessageType MBIM_CLOSE_MSG; m ← put32 m oMessageLength sizeof_CLOSE_MSG;
             put32 m oTransactionId (v_tid v)) = Some b /\ zlen b = 12 /\
    rd32 b oMessageType = Some MBIM_CLOSE_MSG /\ rd32 b oMessageLength = Some 12 /\ rd32 b oTransactionId = Some (v_tid v))
    as (b & E & L & Ft & Fl & Fi).
  { unfold put32. offsets. unfold sizeof_CLOSE_MSG, MBIM_CLOSE_MSG. store m1 E1 L1. store m2 E2 L2.
    destruct (st32_defined m2 8 (cpu_to_le32 (v_tid v))) as (b & E3 & L3); [lia..|].
    exists b. split_and!; [exact E3 | lia | ..]; load_back. }
  set (blk := {| b_id := allocs s; b_data := b |}). set (rsp := open_close_done MBIM_CLOSE_DONE (v_tid v)).
  assert (Hr : device_reply i b = Some rsp) by (unfold device_reply; by rewrite Ft, Fi).
  eexists. split; [|apply (at_answered _ _ b rsp H1); done].
  unfold mbim_close_device, transaction. erewrite bind_step.
  2:{ unfold compose_close_command. erewrite bind_step by (apply mbim_alloc_ok; exact works_alloc).
      cbv iota beta. erewrite bind_step by reflexivity. cbn [b_data TransactionId set_field set_allocs].
      rewrite (at_tid _ _ Hs). fold f. rewrite E, bind_lift. reflexivity. }
  cbv iota beta. change (with_data _ b) with blk.
  erewrite bind_step.
  2:{ apply (send_answered blk b mbim_default_timeout _ rsp (v_tid v) 12); try done.
      - by apply (ld32_nonzero _ _ (v_tid v)); [|lia].
      - rewrite <- L. apply (memory_at_exact blk).
      - apply rd32_open_length.
      - apply rd32_open_tid. split; lia.
      - cbn. by rewrite (at_alive _ _ Hs). }
  erewrite bind_step by apply check_close. fold rsp. unfold rsp. by rewrite rd32_open_status, bind_lift, (at_tid _ _ Hs).
Qed.

(** The death of the reader: [SIGTERM] is counted, and its end. *)
Lemma notify_flag s : exists b, notify_state_chage_ s = Some (tt, s <| signalled := b |>).
Proof.
  unfold notify_state_chage_, modify. destruct (waiting s) as [[]|]; [exists (signalled s) | exists true | exists (signalled s)];
    do 2 f_equal; by destruct s.
Qed.
Lemma signal_flag s : exists b, signal_command s = Some (tt, s <| signalled := b |>).
Proof.
  unfold signal_command, modify. destruct (waiting s) as [[]|]; [exists true | exists (signalled s) | exists (signalled s)];
    do 2 f_equal; by destruct s.
Qed.
Lemma signal_arrives n s v : at_view s v -> n = 15 \/ n = 1 \/ n = 2 ->
  exists s', arrive cfg (Signo n) s = Some (tt, s') /\ at_view s' (v <| v_quit := s32 (v_quit v + 1) |>).
Proof.
  intros H Hn. unfold arrive. rewrite bind_gets. unfold ql_sigaction.
  replace ((n =? 15) || (n =? 1) || (n =? 2)) with true by (by destruct Hn as [->|[->| ->]]).
  rewrite bind_modify. destruct (notify_flag (s <| mbim_quit := s32 (mbim_quit s + 1) |>)) as [b E]. rewrite E.
  eexists. split; [reflexivity|]. destruct H. split; try done. cbn -[s32]. by rewrite at_quit0.
Qed.
Lemma reader_killed s v : at_view s v -> v_alive v = true ->
  exists q s', deliver cfg [Signo SIGTERM; PollFails] s = Some (tt, s') /\ at_view s' (v <| v_alive := false |> <| v_quit := q |>).
Proof.
  intros H Ha. destruct (signal_arrives SIGTERM s v H ltac:(by left)) as (s1 & E1 & H1).
  cbn [deliver]. rewrite (bind_step _ _ _ _ _ E1).
  set (s2 := s1 <| mbim_quit := s32 (mbim_quit s1 + 1) |>). destruct (signal_flag s2) as [b2 E2].
  destruct (notify_flag (s2 <| signalled := b2 |>)) as [b3 E3].
  eexists _, _. split.
  - erewrite bind_step; [reflexivity|]. unfold arrive. rewrite bind_gets, (at_alive _ _ H1). cbn [v_alive set_field set_v_quit].
    rewrite Ha. unfold reader_quit. rewrite bind_modify. fold s2.
    erewrite bind_step by exact E2. erewrite bind_step by exact E3. reflexivity.
  - destruct H1. split; done.
Qed.

(** ** The whole program *)
Lemma exit_ok sid s v :
  good_names -> short (mbim_apn cfg) -> short (mbim_user cfg) -> short (mbim_passwd cfg) -> is_u32 (mbim_iptype cfg) ->
  at_view s v -> v_alive v = true -> 0 < v_tid v < 900 -> ActivationState (v_now v) = 1 ->
  exists s', mbim_exit cfg sid s = Some (tt, s') /\ reader_alive s' = false /\
    ActivationState (now s') = MBIMActivationStateDeactivated /\ shown (trace s') = v_shown v ++ down_commands.
Proof.
  intros Hn Sa Su Sp Hip Hs Hal Ht Hact. unfold mbim_exit. rewrite bind_gets, (at_alive _ _ Hs), Hal. cbn [negb]. cbv iota.
  rewrite bind_gets, (at_now _ _ Hs), Hact.
  change ((1 =? MBIMActivationStateActivated) || (1 =? MBIMActivationStateActivating)) with true. cbv iota.
  destruct (set_connect_goes 0 sid v Sa Su Sp Hip s Hs) as (s1 & E1 & H1); [split; [lia | done]|].
  erewrite bind_step by (erewrite bind_step by exact E1; reflexivity).
  destruct (close_goes _ s1 H1) as (s2 & E2 & H2); [split; [cbn; lia | done]|]. erewrite bind_step by exact E2.
  rewrite bind_gets, (at_alive _ _ H2). change (v_alive _) with (v_alive v). rewrite Hal. unfold when.
  destruct (reader_killed s2 _ H2 Hal) as (q & s3 & E3 & H3). erewrite bind_step by exact E3.
  destruct (ifconfig_down_outputs Hn s3 _ H3) as (s4 & E4 & H4). exists s4. split_and!; [done|..].
  - apply (at_alive _ _ H4).
  - by rewrite (at_now _ _ H4).
  - by rewrite (at_shown _ _ H4).
Qed.

(** C2: the whole program in MBIM mode, from its start to its end: on a device that works it connects and configures
    the interface, sleeps until a termination signal comes, leaves the loop after at most one more look at the
    changes, ends the connection, waits for the reader thread to be gone and takes the interface down.
    Two turns of the loop and one of its inner loop are enough. *)
Theorem mbim_main_until_signal n inner fuel :
  good_names -> good_ip -> short (mbim_apn cfg) -> short (mbim_user cfg) -> short (mbim_passwd cfg) -> is_u32 (mbim_iptype cfg) ->
  n = 15 \/ n = 1 \/ n = 2 -> (forall t k ms, exists r, state_wait t k ms = ([], [Signo n], r)) ->
  exists s', mbim_main cfg (S inner) (S (S fuel)) (mb_init cfg) = Some (0, s') /\ reader_alive s' = false /\
    ActivationState (now s') = MBIMActivationStateDeactivated /\
    shown (trace s') = down_commands ++ LinkState false :: LinkState true :: up_commands ++ down_commands.
Proof.
  intros Hn Hg Sa Su Sp Hip Hsig Hw. unfold mbim_main. rewrite (proj2 (Z.leb_gt _ _) Hfd).
  set (sid := mbim_sessionID cfg). set (v0 := {| v_alive := true; v_quit := 0; v_tid := 1; v_open := 0; v_now := status_init; v_old := status_init; v_shown := [] |}).
  assert (H0 : at_view (mb_init cfg) v0) by (split; try done; cbn; by apply Z.ltb_lt).
  destruct (iteration_view _ _ sid Hn Hg Sa Su Sp Hip H0 eq_refl eq_refl eq_refl) as (s1 & E1 & H1).
  set (v1 := view0 _ _ _) in H1.
  assert (W : exists r s2, wait_state_change cfg 86400 s1 = Some (r, s2) /\ at_view s2 (v1 <| v_quit := 1 |>)).
  { unfold wait_state_change. erewrite bind_step by reflexivity. rewrite bind_gets.
    match goal with |- context [state_wait ?t ?k ?ms] => destruct (Hw t k ms) as [r ->] end. cbn [deliver]. rewrite bind_ret.
    unfold begin_wait. rewrite bind_modify.
    match goal with |- context [(_ ≫= _) ?x] => destruct (signal_arrives n x v1) as (s' & Es & Hs') end; [by destruct H1 | done|].
    exists r. eexists. split; [erewrite bind_step by (erewrite bind_step by exact Es; reflexivity); unfold end_wait; rewrite bind_modify; reflexivity|].
    by destruct Hs'. }
  destruct W as (r & s2 & E2 & H2). destruct (update_seen s2 _ H2) as (m & s3 & E3 & H3).
  assert (Hstop : running s3 = false) by (unfold running; by rewrite (at_quit _ _ H3)).
  destruct (exit_ok sid s3 _ Hn Sa Su Sp Hip H3) as (s4 & E4 & A4 & N4 & T4); try done.
  exists s4. split_and!; [|done..|].
  - erewrite bind_step.
    2:{ cbn [main_loop]. rewrite bind_gets. unfold running at 1. rewrite (at_quit _ _ H0), (at_alive _ _ H0). cbn [v_quit v0 v_alive Z.eqb andb negb]. cbv iota.
        erewrite bind_step by exact E1. cbv iota. erewrite bind_step by exact E2.
        erewrite bind_step.
        2:{ cbn [settle]. erewrite bind_step by exact E3. rewrite bind_gets, Hstop. reflexivity. }
        rewrite bind_gets, Hstop. reflexivity. }
    by erewrite bind_step by exact E4.
  - rewrite T4. change (v_shown (seen _)) with ((down_commands ++ LinkState false :: LinkState true :: up_commands) ++ []).
    by rewrite app_nil_r, <- app_assoc.
Qed.
End Run.

(** ** A concrete device *)
Definition ip4_sample : ip4 :=
  {| i_prefix := 30; i_mtu := 1430; i_addr := (10, 33, 12, 5); i_gw := (10, 33, 12, 6); i_dns1 := (8, 8, 8, 8); i_dns2 := (1, 1, 1, 1) |}.
(** It answers every request at once; the first wait for a change ends with SIGTERM. *)
Definition prompt : Env := {|
  alloc_ok _ _ := true; junk k i := Z.of_nat (k + i); written _ m := zlen m;
  cmd_wait t _ _ := match last t with
                    | Some (Wrote m _) => match device_reply ip4_sample m with Some r => ([Data r], 0) | None => ([], ETIMEDOUT) end
                    | _ => ([], ETIMEDOUT)
                    end;
  state_wait _ _ _ := ([], [Signo 15], 0); sysfs _ := None |}.
Lemma prompt_works : Works (env := prompt) ip4_sample.
Proof. split; try done. intros t m r k ms rsp H. cbn. by rewrite last_snoc, H. Qed.

Lemma cfg_sample_good : good_names cfg_sample /\ good_ip ip4_sample.
Proof. repeat split; done. Qed.

Theorem mbim_connects_witness :
  exists s', iteration (env := prompt) cfg_sample 0 (mb_init cfg_sample) = Some (WaitFor 86400, s') /\ now s' = connected.
Proof.
  destruct (mbim_connects (env := prompt) cfg_sample ip4_sample (works := prompt_works) ltac:(done) (mb_init cfg_sample) 0) as (s' & H1 & H2 & _).
  - apply cfg_sample_good.
  - apply cfg_sample_good.
  - intros t [= <-]. reflexivity.
  - intros t [=].
  - intros t [= <-]. reflexivity.
  - split; reflexivity || discriminate.
  - reflexivity.
  - reflexivity.
  - reflexivity.
  - exists s'. split; [exact H1 | exact H2].
Defined.

Theorem mbim_main_until_signal_witness :
  exists s', mbim_main (env := prompt) cfg_sample 1 2 (mb_init cfg_sample) = Some (0, s') /\ reader_alive s' = false /\
    System (str "ip -4 address add 10.33.12.5/30 dev wwan0") ∈ shown (trace s').
Proof.
  destruct (mbim_main_until_signal (env := prompt) cfg_sample ip4_sample (works := prompt_works) ltac:(done) 15 0 0) as (s' & H1 & H2 & _ & H3).
  - apply cfg_sample_good.
  - apply cfg_sample_good.
  - intros t [= <-]. reflexivity.
  - intros t [=].
  - intros t [= <-]. reflexivity.
  - split; reflexivity || discriminate.
  - by left.
  - intros. by exists 0.
  - exists s'. split; [exact H1|]. split; [exact H2|]. rewrite H3. apply elem_of_app. right. do 2 right. apply elem_of_app. left.
    do 3 right. left.
Defined.

(** The close message of the first transaction. *)
Definition close_block : block := {| b_id := 0; b_data := le32 MBIM_CLOSE_MSG ++ le32 12 ++ le32 1 |}.
Theorem mbim_response_is_own_witness :
  exists d s2, mbim_send_command (env := prompt) cfg_sample (Some close_block) 10000 (mb_init cfg_sample) = Some ((0, Some d), s2) /\
    exists r t, answers r d /\ rd32 r oTransactionId = Some t /\ t <> 0.
Proof.
  pose proof (send_answered (env := prompt) cfg_sample ip4_sample (works := prompt_works) ltac:(done) close_block (b_data close_block)
    10000 (mb_init cfg_sample) (open_close_done MBIM_CLOSE_DONE 1) 1 12) as E.
  eexists _, _. split; [apply E; done|].
  destruct (mbim_response_is_own (env := prompt) cfg_sample close_block 10000 (mb_init cfg_sample) (open_close_done MBIM_CLOSE_DONE 1)
    (answered (mb_init cfg_sample) (b_data close_block) (open_close_done MBIM_CLOSE_DONE 1))) as (r & t & _ & _ & H1 & H2 & H3 & _).
  - repeat constructor; discriminate || reflexivity.
  - apply E; done.
  - exists r, t. split; [exact H1|]. split; [exact H2 | exact H3].
Defined.
