(* ===== verification/MbimFaults.v ===== *)
(** * Where the MBIM mode fails: an indication read twice, a buffer one byte short, a wake-up lost, and what the
    code reads beyond its blocks. *)
From S2P Require Import Prelude Util Text Compose Monad Mbim MbimMain MbimSpec MbimRun.
#[local] Open Scope Z_scope.
#[local] Open Scope c_scope.

Section Faults.
Context {host : Host} {env : Env} (cfg : Config).

Lemma notify_spec (f : Status -> Z) {sf : Setter f} v s : (forall x, sf (f x) x = x) -> (forall y x, f (sf y x) = y) ->
  exists b, notify_state_chage f v s = Some (tt, s <| now := sf v (now s) |> <| signalled := b |>).
Proof.
  intros Hf Hg. unfold notify_state_chage. rewrite bind_gets. unfold compose, "∘". destruct (Z.eqb_spec (f (now s)) v) as [<-|_].
  - exists (signalled s). unfold mret, M_ret. rewrite Hf. by destruct s.
  - rewrite bind_modify. apply notify_flag.
Qed.

(** The case of the registration indication falls through into that of the packet service, whose
    structure has its state at the same offset: the indication that the registration state is [r] also
    sets the packet service state to [r], and nothing else. So 2, searching for a network, is taken for attached. *)
Theorem register_indication_sets_packet_service m r s :
  mbim_pRequest s = None -> rd32 m oMessageType = Some MBIM_INDICATE_STATUS_MSG -> lds m oDeviceServiceId 16 = Some basic_connect ->
  rd32 m oCID = Some MBIM_CID_REGISTER_STATE -> rd32 m (oIndInformationBuffer + 4) = Some r ->
  exists b, mbim_recv_command cfg (Some m) s =
    Some (tt, s <| now := (now s) <| RegisterState := r |> <| PacketServiceState := r |> |> <| signalled := b |>).
Proof.
  intros Hq Ht Hu Hc Hr. unfold mbim_recv_command. rewrite bind_gets, Hq. cbn [matches]. rewrite bind_lift, Ht, bind_lift.
  cbn [Z.eqb MBIM_INDICATE_STATUS_MSG]. rewrite Pos.eqb_refl. unfold mbim_indication. rewrite Hu, bind_lift, basic_connect_uuid, bind_lift.
  rewrite bool_decide_eq_true_2 by done. cbn [negb]. rewrite Hc, bind_lift. cbv zeta.
  change (MBIM_CID_REGISTER_STATE =? MBIM_CID_SUBSCRIBER_READY_STATUS) with false. cbv iota. rewrite Z.eqb_refl. cbv iota.
  rewrite !Hr, bind_lift. destruct (notify_spec RegisterState r s) as [b1 E1]; [by intros []|done|].
  erewrite bind_step by exact E1. rewrite bind_lift.
  destruct (notify_spec PacketServiceState r (s <| now := (now s) <| RegisterState := r |> |> <| signalled := b1 |>)) as [b2 E2];
    [by intros []|done|]. exists b2. exact E2.
Qed.

Lemma tmp_loop_overflow n d off size i tmp :
  32 <= size / 2 -> 0 <= i <= 32 -> zlen tmp = 32 -> tmp_loop n d off size i tmp = None.
Proof.
  intros Hs. revert i tmp. induction n as [|n IH]; intros i tmp Hi Hl; [done|]. cbn [tmp_loop].
  destruct (Z.ltb_spec i 32) as [H32|H32].
  - rewrite (proj2 (Z.ltb_lt i (size / 2))) by lia. cbn [andb].
    destruct (ld d (off + i * 2)) as [c|]; [|done]. cbn [mbind option_bind]. unfold st.
    rewrite (proj2 (Z.leb_le _ _)), (proj2 (Z.ltb_lt i (zlen tmp))) by lia. cbn [andb mbind option_bind].
    apply IH; [lia|]. unfold zlen in *. by rewrite length_insert.
  - cbn [andb]. unfold st. rewrite (proj2 (Z.ltb_ge i (zlen tmp))) by lia. by rewrite andb_false_r.
Qed.
(** A device identifier, firmware or hardware string of 32 characters or more overruns [tmp] by its NUL. *)
Lemma caps_string_overflow d tmp field off size :
  zlen tmp = 32 -> rd32 d (oInformationBuffer + field) = Some off -> rd32 d (oInformationBuffer + field + 4) = Some size ->
  off <> 0 -> 64 <= size -> caps_string d tmp field = None.
Proof.
  intros Ht Ho Hs H0 H64. unfold caps_string. rewrite Ho. cbn [mbind option_bind]. rewrite Hs. cbn [mbind option_bind].
  rewrite (proj2 (Z.eqb_neq off 0)), (proj2 (Z.eqb_neq size 0)) by lia. cbn [negb andb]. apply tmp_loop_overflow; [zdm | lia | done].
Qed.

(** An indication that comes between the main thread's last look and its wait is not noticed: the variable
    changes, but nothing is signalled, and with nothing else arriving the wait runs to its end. *)
Lemma lost_wakeup m v s seconds ret :
  running s = true -> zlen (mbim_recv_buf s) = 4096 -> mbim_pRequest s = None -> waiting s = None -> 0 < zlen m <= 4096 ->
  state_wait (trace s) (waits s) (u32 (seconds * 1000)) = ([Data m], [], ret) ->
  rd32 m oMessageType = Some MBIM_INDICATE_STATUS_MSG -> lds m oDeviceServiceId 16 = Some basic_connect ->
  rd32 m oCID = Some MBIM_CID_SUBSCRIBER_READY_STATUS -> rd32 m oIndInformationBuffer = Some v ->
  exists s', wait_state_change cfg seconds s = Some (ret, s') /\ ReadyState (now s') = v /\ signalled s' = false.
Proof.
  intros Hrun Hb Hq Hw Hm He Ht Hu Hc Hv. unfold running in Hrun. apply andb_true_iff in Hrun as [_ Ha].
  unfold wait_state_change. erewrite bind_step by reflexivity. rewrite bind_gets. cbn [trace set_field set_waits]. rewrite He.
  set (s1 := s <| waits := S (waits s) |>). set (buf := m ++ drop (length m) (mbim_recv_buf s)).
  assert (E : exists b, arrive cfg (Data m) s1 = Some (tt, s1 <| mbim_recv_buf := buf |> <| now := (now s) <| ReadyState := v |> |> <| signalled := b |>)).
  { unfold arrive. rewrite bind_gets. cbn [reader_alive s1 set_field set_waits]. rewrite Ha. cbn [negb]. cbv iota.
    replace (take _ m) with m by (symmetry; apply take_ge; unfold zlen, sizeof_mbim_recv_buf in *; lia).
    rewrite (proj2 (Z.eqb_neq (zlen m) 0)) by lia. rewrite bind_modify, bind_gets.
    unfold mbim_recv_command. rewrite bind_gets. cbn [mbim_pRequest set_field set_recv_buf s1 set_waits]. rewrite Hq.
    cbn [matches]. rewrite bind_lift. cbn [mbim_recv_buf set_field set_recv_buf s1 set_waits]. fold buf.
    unfold buf. rewrite (rd32_mono _ _ _ _ Ht), bind_lift. cbn [Z.eqb MBIM_INDICATE_STATUS_MSG]. rewrite Pos.eqb_refl.
    unfold mbim_indication. rewrite (lds_mono _ _ _ _ _ Hu), bind_lift, basic_connect_uuid, bind_lift, bool_decide_eq_true_2 by done.
    cbn [negb]. rewrite (rd32_mono _ _ _ _ Hc), bind_lift. cbv zeta. rewrite Z.eqb_refl, (rd32_mono _ _ _ _ Hv), bind_lift.
    destruct (notify_spec ReadyState v (s1 <| mbim_recv_buf := m ++ drop (length m) (mbim_recv_buf s) |>)) as [b Eb]; [by intros []|done|].
    exists b. exact Eb. }
  destruct E as [b E]. eexists. split; [|split].
  - erewrite bind_step by (cbn [deliver]; erewrite bind_step by exact E; reflexivity).
    unfold begin_wait. rewrite bind_modify. cbn [deliver]. rewrite bind_ret. unfold end_wait. rewrite bind_modify. reflexivity.
  - done.
  - done.
Qed.

(** The gateway of the IPv4 configuration is used for IPv6 when IPv6 has none. *)
Lemma ipv6_keeps_ipv4_gateway d avail v : avail .& 2 = 0 -> forall v', family_vars ipv6_fields d avail v = Some v' -> v_gw v' = v_gw v.
Proof.
  intros Ha v'. unfold family_vars. rewrite Ha. change (negb (0 =? 0)) with false. cbv iota.
  intros (gw & [= <-] & H)%bind_Some. apply bind_Some in H as (dns & _ & H). by apply bind_Some in H as (mtu & _ & [= <-]).
Qed.

(** In bridge mode an IPv6 configuration is undefined: the prefix is shifted as if it were an IPv4 one. *)
Lemma bridge_ipv6_undefined prefix : 32 < prefix -> prefix_to_addr prefix = None.
Proof. intros H. unfold prefix_to_addr. by rewrite (proj2 (Z.leb_gt _ _)) by lia. Qed.

(** The open message: its length field is that of a command message, so [write] is given 32 bytes of whatever follows the
    block. *)
Lemma open_message_leaks b : zlen (b_data b) = sizeof_OPEN_MSG ->
  memory_at b sizeof_COMMAND_MSG = b_data b ++ ((fun i => u8 (junk (b_id b) i)) <$> seq 16 32).
Proof.
  intros H. unfold memory_at, sizeof_COMMAND_MSG, sizeof_OPEN_MSG in *.
  assert (Hl : length (b_data b) = 16%nat) by (unfold zlen in H; lia).
  rewrite take_app_ge by lia. rewrite Hl. change (Z.to_nat 48 - 16)%nat with 32%nat. by rewrite <- fmap_take, take_seq.
Qed.

(** A function error in place of an answer is 16 bytes, and the request looks for an information buffer in it. *)
Lemma function_error_read_past_end k d s : zlen d = 16 -> with_info k d s = None.
Proof.
  intros H. unfold with_info, rd32, ld32, lds. rewrite H. done.
Qed.
End Faults.

(** The netmask of every prefix from 1 to 32. *)
Lemma prefix_to_addr_mask prefix : 1 <= prefix <= 32 ->
  let m := 2 ^ 32 - 2 ^ (32 - prefix) in
  prefix_to_addr prefix = Some (dotted (u8 (m .>> 24)) (u8 (m .>> 16)) (u8 (m .>> 8)) (u8 m)).
Proof.
  intros H. assert (E : Forall (fun p => let m := 2 ^ 32 - 2 ^ (32 - p) in
      prefix_to_addr p = Some (dotted (u8 (m .>> 24)) (u8 (m .>> 16)) (u8 (m .>> 8)) (u8 m))) (seqZ 1 32)).
  { repeat (apply Forall_cons; split; [reflexivity|]). apply Forall_nil. done. }
  rewrite Forall_forall in E. apply E, elem_of_seqZ. lia.
Qed.

(** An indication that the network is searched for, and what it does to the state. *)
Definition searching : bytes :=
  le32 MBIM_INDICATE_STATUS_MSG ++ le32 92 ++ le32 0 ++ le32 1 ++ le32 0 ++ basic_connect ++ le32 MBIM_CID_REGISTER_STATE ++ le32 48 ++
  le32 0 ++ le32 2 ++ replicate 40 0.
Theorem register_indication_sets_packet_service_witness :
  exists s', mbim_recv_command (env := quiet) cfg_sample (Some searching) (mb_init cfg_sample) = Some (tt, s') /\
    PacketServiceState (now s') = MBIMPacketServiceStateAttached.
Proof.
  destruct (register_indication_sets_packet_service (env := quiet) cfg_sample searching 2 (mb_init cfg_sample)) as [b E];
    [reflexivity..|].
  eexists. split; [exact E | reflexivity].
Defined.
