(* ===== verification/Resolv.v ===== *)
(** * util.c: the name servers in /etc/resolv.conf.
    [update_resolv_conf] replaces the lines of one interface, marked with a tag at their end, and keeps the others: 16
    lines at most, of 253 characters at most.  The text of a file is the list of its bytes. *)
From S2P Require Import Prelude Util Compose Text.
#[local] Open Scope Z_scope.

Definition MAX_DNS : nat := 16.
Definition sizeof_dns_line : nat := 256.
Definition sizeof_dns_tag : Z := 64.
(** A trailing newline is removed, unless it is the whole line. *)
Definition chomp (l : bytes) : bytes :=
  if bool_decide (1 < length l)%nat && bool_decide (last l = Some newline) then take (length l - 1) l else l.

(** What [fopen(dns_file, "r")] finds, and whether [fopen(dns_file, "w")] succeeds. *)
Inductive reading := Content (s : bytes) | NoEntry | Unreadable.

Section Resolv.
Context {heap : Heap}.

Definition strdup (s : bytes) : option bytes := if malloc_ok (zlen s + 1) then Some s else None.

(** The lines that are kept, with the number of those that carry the tag.  Every turn takes at least one byte, so the length of
    the text is fuel enough. *)
Fixpoint read_lines (fuel : nat) (tag s : bytes) (kept : list (option bytes)) (dns_match : nat) : list (option bytes) * nat :=
  match fuel, s with
  | S fuel, _ :: _ =>
      let '(l, s) := fgets (sizeof_dns_line - 2) s in
      let l := chomp (upto_nul l) in
      if strstr l tag then read_lines fuel tag s kept (S dns_match) else
      let kept := kept ++ [strdup l] in
      if bool_decide (length kept = MAX_DNS) then (kept, dns_match) else read_lines fuel tag s kept dns_match
  | _, _ => (kept, dns_match)
  end.

Definition dns_tag (iptype : Z) (ifname : bytes) : bytes :=
  snprintf sizeof_dns_tag (str "# IPV" ++ dec_signed iptype ++ [32] ++ ifname).
Definition nameserver (dns : option bytes) (tag : bytes) : bytes :=
  match dns with Some d => str "nameserver " ++ d ++ [32] ++ tag ++ [newline] | None => [] end.
(** The lines up to the first that could not be copied. *)
Fixpoint print_lines (ls : list (option bytes)) : bytes :=
  match ls with Some l :: ls => l ++ [newline] ++ print_lines ls | _ => [] end.

(** Result: the new text of the file, or nothing when it is left alone. *)
Definition update_resolv_conf (file : reading) (writable : bool) (iptype : Z) (ifname : bytes) (dns1 dns2 : option bytes)
  : option bytes :=
  let tag := dns_tag iptype ifname in
  let rest '(dns_info, dns_match) :=
    if bool_decide (dns1 = None /\ dns_match = 0%nat) then None else
    if writable then Some (nameserver dns1 tag ++ nameserver dns2 tag ++ print_lines dns_info) else None in
  match file with
  | Content s => rest (read_lines (length s) tag s [] 0)
  | NoEntry => rest ([], 0%nat)
  | Unreadable => None
  end.
End Resolv.

(** ** Files as lists of lines *)
Definition text (ls : list bytes) : bytes := ls ≫= fun l => l ++ [newline].
Definition good_line (l : bytes) : Prop := Forall (fun c => c <> newline /\ c <> 0) l /\ (length l <= 253)%nat.
(** What becomes of an untagged line: a blank one is kept with its newline, and printed with another. *)
Definition reprint (ls : list bytes) : list bytes := ls ≫= fun l => if bool_decide (l = []) then [[]; []] else [l].
Definition untagged (tag : bytes) (ls : list bytes) : list bytes := filter (fun l => strstr l tag = false) ls.

Lemma text_cons l ls : text (l :: ls) = l ++ newline :: text ls.
Proof. unfold text. cbn. by rewrite <- app_assoc. Qed.
Lemma text_app ls ks : text (ls ++ ks) = text ls ++ text ks.
Proof. apply bind_app. Qed.

Lemma fgets_line l s n : Forall (fun c => c <> newline /\ c <> 0) l -> (length l < n)%nat -> fgets n (l ++ newline :: s) = (l ++ [newline], s).
Proof.
  intros Hl. revert n. induction Hl as [|c l [Hc _] _ IH]; intros [|n] Hn; cbn in *; try lia; [done|].
  rewrite (proj2 (Z.eqb_neq _ _) Hc), IH by lia. done.
Qed.
Lemma upto_nul_line l : Forall (fun c => c <> newline /\ c <> 0) l -> upto_nul (l ++ [newline]) = l ++ [newline].
Proof. intros F. apply upto_nul_id, Forall_app. split; [|by repeat constructor]. eapply Forall_impl; [exact F|]. by intros c []. Qed.
Lemma chomp_line l : chomp (l ++ [newline]) = if bool_decide (l = []) then [newline] else l.
Proof.
  unfold chomp. rewrite last_snoc, (bool_decide_eq_true_2 (Some _ = _)), andb_true_r, length_app by done. destruct l as [|c l]; [done|].
  rewrite bool_decide_eq_true_2 by (cbn; lia). rewrite bool_decide_eq_false_2 by done.
  replace (_ + _ - 1)%nat with (length (c :: l)) by (cbn; lia). by rewrite take_app_length.
Qed.

(** A tag starts with #, so a blank line has none. *)
Definition hash : Z := 35.
Lemma dns_tag_hash iptype ifname : exists t, dns_tag iptype ifname = hash :: t.
Proof. unfold dns_tag, snprintf, sizeof_dns_tag. by eexists. Qed.
Lemma dns_tag_length iptype ifname : (length (dns_tag iptype ifname) <= 63)%nat.
Proof. unfold dns_tag, snprintf, sizeof_dns_tag. rewrite length_take. lia. Qed.
Lemma blank_untagged l iptype ifname :
  strstr (if bool_decide (l = []) then [newline] else l) (dns_tag iptype ifname) = strstr l (dns_tag iptype ifname).
Proof. case_bool_decide as H; [|done]. subst. by destruct (dns_tag_hash iptype ifname) as [t ->]. Qed.

Section Spec.
Context {heap : Heap} (Hheap : forall n, malloc_ok n = true) (iptype : Z) (ifname : bytes).
Abbreviation tag := (dns_tag iptype ifname).
Definition keep (l : bytes) : option bytes := Some (if bool_decide (l = []) then [newline] else l).

Lemma strdup_ok l : strdup l = Some l.
Proof. unfold strdup. by rewrite Hheap. Qed.

Lemma read_lines_text fuel ls kept n :
  Forall good_line ls -> (length (text ls) <= fuel)%nat -> (length kept < MAX_DNS)%nat ->
  exists k, read_lines fuel tag (text ls) kept n =
      (kept ++ map keep (take (MAX_DNS - length kept) (untagged tag ls)), (n + k)%nat) /\
    ((length kept + length (untagged tag ls) < MAX_DNS)%nat -> k = (length ls - length (untagged tag ls))%nat).
Proof.
  intros Hl. revert fuel kept n. induction Hl as [|l ls [Hc Hlen] _ IH]; intros fuel kept n Hf Hk.
  { exists 0%nat. split; [|done]. cbn. rewrite take_nil. cbn. rewrite app_nil_r, Nat.add_0_r. by destruct fuel. }
  rewrite text_cons in *. rewrite length_app in Hf. cbn [length] in Hf. destruct fuel as [|fuel]; [lia|].
  assert (E : read_lines (S fuel) tag (l ++ newline :: text ls) kept n =
    if strstr l tag then read_lines fuel tag (text ls) kept (S n) else
    let kept := kept ++ [keep l] in
    if bool_decide (length kept = MAX_DNS) then (kept, n) else read_lines fuel tag (text ls) kept n).
  { unfold read_lines at 1. fold read_lines. destruct (l ++ newline :: text ls) as [|c s] eqn:El; [by destruct l|]. rewrite <- El.
    rewrite fgets_line by (done || (unfold sizeof_dns_line; lia)). rewrite upto_nul_line, chomp_line, blank_untagged, strdup_ok by done. done. }
  rewrite E. clear E. unfold untagged. rewrite filter_cons. fold (untagged tag ls).
  assert (Hle : (length (untagged tag ls) <= length ls)%nat) by apply length_filter.
  destruct (strstr l tag) eqn:Et.
  - rewrite decide_False by done. destruct (IH fuel kept (S n)) as (k & E & Hk'); [lia | done|]. exists (S k). rewrite E. split.
    + f_equal. lia.
    + intros H. specialize (Hk' H). cbn [length]. lia.
  - rewrite decide_True by done. cbn zeta. rewrite length_app. cbn [length].
    replace (MAX_DNS - length kept)%nat with (S (MAX_DNS - (length kept + 1)))%nat by lia. cbn [take map].
    case_bool_decide as Hm.
    + exists 0%nat. rewrite Hm, Nat.sub_diag, Nat.add_0_r. split; [done|]. cbn [length]. lia.
    + destruct (IH fuel (kept ++ [keep l]) n) as (k & E & Hk'); [lia | rewrite length_app; cbn; lia|]. exists k. rewrite E.
      rewrite length_app, <- app_assoc. cbn [length app]. split; [done|]. intros H. rewrite length_app in Hk'. cbn [length] in Hk'.
      rewrite Hk' by lia. lia.
Qed.

Lemma print_keep ls : print_lines (map keep ls) = text (reprint ls).
Proof.
  induction ls as [|l ls IH]; [done|]. unfold reprint. cbn [mbind list_bind map print_lines keep]. fold (reprint ls). rewrite IH.
  case_bool_decide; subst; [done|]. cbn [app]. by rewrite text_cons.
Qed.

(** The lines written for the servers given. *)
Definition server_line (d : bytes) : bytes := str "nameserver " ++ d ++ [32] ++ tag.
Definition server_lines (dns1 dns2 : option bytes) : list bytes := server_line <$> (option_list dns1 ++ option_list dns2).
Lemma nameserver_text d : nameserver d tag = text (server_line <$> option_list d).
Proof. destruct d as [d|]; [|done]. unfold text, server_line. cbn. by rewrite app_nil_r, <- !app_assoc. Qed.
Lemma servers_text dns1 dns2 : nameserver dns1 tag ++ nameserver dns2 tag = text (server_lines dns1 dns2).
Proof. unfold server_lines. by rewrite fmap_app, text_app, !nameserver_text. Qed.

Lemma server_lines_tagged dns1 dns2 ls : untagged tag (server_lines dns1 dns2 ++ ls) = untagged tag ls.
Proof.
  unfold untagged, server_lines. rewrite filter_app. replace (filter _ (_ <$> _)) with (@nil bytes); [done|].
  induction (option_list dns1 ++ option_list dns2) as [|d ds IH]; [done|]. cbn [fmap list_fmap]. rewrite filter_cons, decide_False; [done|].
  unfold server_line. rewrite <- (app_nil_r tag) at 1. rewrite !app_assoc, <- app_assoc. by rewrite strstr_app.
Qed.

Definition good_addr (d : bytes) : Prop := Forall (fun c => c <> newline /\ c <> 0) d /\ (length d <= 178)%nat.
Lemma server_lines_good dns1 dns2 :
  Forall (fun c => c <> newline /\ c <> 0) tag -> Forall good_addr (option_list dns1 ++ option_list dns2) -> Forall good_line (server_lines dns1 dns2).
Proof.
  intros Ht H. unfold server_lines. apply Forall_fmap. eapply Forall_impl; [exact H|]. intros d [Hc Hd]. unfold server_line. split.
  - rewrite !Forall_app. split_and!; [|done| by apply Forall_singleton | done]. by repeat constructor.
  - rewrite !length_app. pose proof (dns_tag_length iptype ifname). change (length (str "nameserver ")) with 11%nat. cbn [length]. lia.
Qed.
End Spec.

(** Setting the name servers of an interface.  The file then holds one line per server given, marked with the interface,
    followed by the lines that are not the interface's, in their order: the first 16 of them, the others
    are lost; and every blank line is doubled. *)
Theorem update_resolv_conf_sets {heap : Heap} iptype ifname dns1 dns2 ls :
  (forall n, malloc_ok n = true) -> Forall good_line ls -> dns1 <> None ->
  update_resolv_conf (Content (text ls)) true iptype ifname dns1 dns2 =
    Some (text (server_lines iptype ifname dns1 dns2 ++ reprint (take MAX_DNS (untagged (dns_tag iptype ifname) ls)))).
Proof.
  intros Hh Hl Hd. unfold update_resolv_conf.
  destruct (read_lines_text Hh iptype ifname (length (text ls)) ls [] 0) as (k & -> & _); [done | done | unfold MAX_DNS; cbn; lia|].
  rewrite bool_decide_eq_false_2 by (intros [? _]; done). by rewrite Nat.sub_0_r, app_nil_l, print_keep, app_assoc, servers_text, <- text_app.
Qed.

(** Removing the servers of an interface: nothing happens when it has none. *)
Lemma update_resolv_conf_clears {heap : Heap} iptype ifname dns2 ls :
  (forall n, malloc_ok n = true) -> Forall good_line ls -> (length (untagged (dns_tag iptype ifname) ls) < MAX_DNS)%nat ->
  update_resolv_conf (Content (text ls)) true iptype ifname None dns2 =
    if bool_decide (untagged (dns_tag iptype ifname) ls = ls) then None
    else Some (text (server_lines iptype ifname None dns2 ++ reprint (untagged (dns_tag iptype ifname) ls))).
Proof.
  intros Hh Hl Hn. unfold update_resolv_conf.
  destruct (read_lines_text Hh iptype ifname (length (text ls)) ls [] 0) as (k & -> & Hk); [done | done | unfold MAX_DNS; cbn; lia|].
  specialize (Hk Hn). cbn [app length nameserver]. rewrite Nat.sub_0_r, take_ge, print_keep by (cbn in Hn; lia).
  rewrite (nameserver_text iptype ifname dns2), <- text_app. cbn [length] in Hk. change (server_line iptype ifname <$> option_list dns2) with (server_lines iptype ifname None dns2).
  assert (E : untagged (dns_tag iptype ifname) ls = ls <-> k = 0%nat).
  { rewrite Hk. split; [intros ->; lia|]. intros H0. clear -H0. unfold untagged in *. induction ls as [|l ls IH]; [done|].
    pose proof (length_filter (fun l => strstr l (dns_tag iptype ifname) = false) ls) as Hle.
    rewrite filter_cons in *. case_decide; cbn [length] in *; [f_equal; apply IH; lia | lia]. }
  case_bool_decide as H1; case_bool_decide as H2; [done | destruct H1; tauto | tauto | done].
Qed.

Lemma reprint_id ls : [] ∉ ls -> reprint ls = ls.
Proof.
  induction ls as [|l ls IH]; [done|]. intros [H1 H2]%not_elem_of_cons. unfold reprint. cbn. fold (reprint ls). rewrite IH by done.
  by rewrite bool_decide_eq_false_2 by (intros ->; done).
Qed.
Lemma untagged_id tag ls : Forall (fun l => strstr l tag = false) ls -> untagged tag ls = ls.
Proof. induction 1 as [|l ls H _ IH]; [done|]. unfold untagged. rewrite filter_cons, decide_True by done. by f_equal. Qed.

(** C15: on a file of at most 15 non-blank lines, none of them marked for the interface, setting its servers and removing them again gives the file back
    byte by byte; and setting the same servers twice is setting them once. *)
Theorem resolv_conf_roundtrip {heap : Heap} iptype ifname dns1 dns2 ls :
  (forall n, malloc_ok n = true) -> Forall good_line ls -> [] ∉ ls -> (length ls < MAX_DNS)%nat ->
  Forall (fun c => c <> newline /\ c <> 0) (dns_tag iptype ifname) ->
  Forall (fun l => strstr l (dns_tag iptype ifname) = false) ls ->
  dns1 <> None -> Forall good_addr (option_list dns1 ++ option_list dns2) ->
  exists s, update_resolv_conf (Content (text ls)) true iptype ifname dns1 dns2 = Some s /\
    update_resolv_conf (Content s) true iptype ifname dns1 dns2 = Some s /\
    update_resolv_conf (Content s) true iptype ifname None None = Some (text ls).
Proof.
  intros Hh Hl Hb Hn Ht Hu Hd Ha. rewrite (update_resolv_conf_sets iptype ifname dns1 dns2 ls) by done.
  eexists. split; [reflexivity|]. rewrite untagged_id, take_ge, reprint_id by (done || lia).
  assert (Hg : Forall good_line (server_lines iptype ifname dns1 dns2 ++ ls)) by (apply Forall_app; auto using server_lines_good).
  split.
  - rewrite update_resolv_conf_sets by done. by rewrite server_lines_tagged, untagged_id, take_ge, reprint_id by (done || lia).
  - rewrite update_resolv_conf_clears by (rewrite ?server_lines_tagged, ?untagged_id; done).
    rewrite server_lines_tagged, untagged_id, reprint_id by done. rewrite bool_decide_eq_false_2; [done|].
    intros E. destruct dns1 as [d|]; [|done]. apply (f_equal length) in E. unfold server_lines in E. cbn in E. rewrite length_app in E. lia.
Qed.

(** The mark of an interface is looked for anywhere in a line, so the servers of wwan0.1 carry the mark of wwan0 too:
    removing those of the shorter name empties a file that holds only those of the longer one. *)
Theorem resolv_conf_prefix_interface {heap : Heap} iptype (ifname suffix : bytes) dns1 dns2 :
  (forall n, malloc_ok n = true) ->
  zlen (str "# IPV" ++ dec_signed iptype ++ [32] ++ ifname ++ suffix) < sizeof_dns_tag ->
  Forall (fun c => c <> newline /\ c <> 0) (dns_tag iptype (ifname ++ suffix)) ->
  dns1 <> None -> Forall good_addr (option_list dns1 ++ option_list dns2) ->
  exists s, update_resolv_conf NoEntry true iptype (ifname ++ suffix) dns1 dns2 = Some s /\ s <> [] /\
    update_resolv_conf (Content s) true iptype ifname None None = Some [].
Proof.
  intros Hh Hfit Ht Hd Ha. exists (text (server_lines iptype (ifname ++ suffix) dns1 dns2)).
  assert (E : dns_tag iptype (ifname ++ suffix) = dns_tag iptype ifname ++ suffix).
  { unfold dns_tag. rewrite !snprintf_fits; [by rewrite <- !app_assoc | |]; unfold zlen in *; rewrite !length_app in *; lia. }
  assert (Hnone : untagged (dns_tag iptype ifname) (server_lines iptype (ifname ++ suffix) dns1 dns2) = []).
  { clear Ha. unfold untagged, server_lines. induction (option_list dns1 ++ option_list dns2) as [|d ds IH]; [done|]. cbn [fmap list_fmap].
    rewrite filter_cons, decide_False; [exact IH|]. unfold server_line. rewrite E, !app_assoc, <- app_assoc.
    by rewrite strstr_app. }
  split_and!.
  - unfold update_resolv_conf. rewrite bool_decide_eq_false_2 by (intros [? _]; done). cbn [print_lines].
    by rewrite app_assoc, servers_text, app_nil_r.
  - destruct dns1 as [d|]; [|done]. unfold server_lines. cbn. by destruct d.
  - rewrite update_resolv_conf_clears by (rewrite ?Hnone; done || (by apply server_lines_good) || (unfold MAX_DNS; cbn; lia)).
    rewrite Hnone, bool_decide_eq_false_2; [done|]. intros H. destruct dns1 as [d|]; [|done]. discriminate H.
Qed.

(** ** Witnesses *)
Definition all_memory : Heap := {| malloc_ok := fun _ => true |}.
Definition wwan0 : bytes := str "wwan0".
Definition old_file : list bytes := [str "search lan"; str "nameserver 192.168.1.1 # IPV4 eth0"].
Definition server : bytes := str "10.0.0.53".

Theorem update_resolv_conf_sets_witness :
  update_resolv_conf (heap := all_memory) (Content (text old_file)) true 4 wwan0 (Some server) None =
    Some (text (server_lines 4 wwan0 (Some server) None ++ reprint (take MAX_DNS (untagged (dns_tag 4 wwan0) old_file)))).
Proof.
  apply (update_resolv_conf_sets (heap := all_memory) 4 wwan0 (Some server) None old_file); [done | | done].
  repeat constructor; vm_compute; (discriminate || lia || reflexivity).
Defined.
Theorem resolv_conf_roundtrip_witness :
  exists s, update_resolv_conf (heap := all_memory) (Content (text old_file)) true 4 wwan0 (Some server) None = Some s /\
    update_resolv_conf (heap := all_memory) (Content s) true 4 wwan0 (Some server) None = Some s /\
    update_resolv_conf (heap := all_memory) (Content s) true 4 wwan0 None None = Some (text old_file).
Proof.
  apply (resolv_conf_roundtrip (heap := all_memory) 4 wwan0 (Some server) None old_file).
  - done.
  - repeat constructor; vm_compute; (discriminate || lia || reflexivity).
  - intros H. repeat apply elem_of_cons in H as [H|H]; try discriminate H. by apply not_elem_of_nil in H.
  - vm_compute. lia.
  - repeat constructor; vm_compute; discriminate.
  - by repeat constructor.
  - done.
  - repeat constructor; vm_compute; (discriminate || lia).
Defined.
Theorem resolv_conf_prefix_interface_witness :
  exists s, update_resolv_conf (heap := all_memory) NoEntry true 4 (wwan0 ++ str ".1") (Some server) None = Some s /\ s <> [] /\
    update_resolv_conf (heap := all_memory) (Content s) true 4 wwan0 None None = Some [].
Proof.
  apply (resolv_conf_prefix_interface (heap := all_memory) 4 wwan0 (str ".1") (Some server) None).
  - done.
  - reflexivity.
  - repeat constructor; vm_compute; discriminate.
  - done.
  - repeat constructor; vm_compute; (discriminate || lia).
Defined.
