(* ===== verification/Device.v ===== *)
(** * device.c: finding the modem.
    The modem is looked for in sysfs; the class [Fs] says what its files hold and which paths exist.  A [mknod] call is
    returned with the result.  [None] is undefined behaviour.  The requests to the driver and the usbmon log are in
    DeviceIo.v. *)
From S2P Require Import Prelude Util QmiRequests Text.
#[local] Open Scope Z_scope.
#[local] Open Scope c_scope.

(** [f_text]: the contents of a file that can be opened; [f_access]: 0, or the [errno] of [access]; [f_dir]: the entries of
    a directory, in the order of [readdir]. *)
Class Fs : Type := { f_text : bytes -> option bytes; f_access : bytes -> Z; f_dir : bytes -> option (list bytes) }.

Definition ENOENT : Z := 2.
Definition CM_INVALID_VAL : Z := -1.
Definition CM_MAX_BUFF : nat := 256.
Definition CM_MAX_PATHLEN : Z := 256.
Definition SOFTWARE_QMI : Z := 1.
Definition SOFTWARE_MBIM : Z := 2.
Definition HARDWARE_PCIE : Z := 3.
Definition HARDWARE_USB : Z := 4.
Definition DRV_INVALID : Z := 0.
Definition USB_CLASS_COMM : Z := 2.
Definition USB_CLASS_VENDOR_SPEC : Z := 0xff.

(** [sscanf(buff, "%15[^=]=%15s", prefix, tail)]: what it leaves in the two zeroed buffers. *)
Fixpoint scan (f : Z -> bool) (n : nat) (s : bytes) : bytes * bytes :=
  match n, s with
  | S n, c :: t => if f c then let '(l, r) := scan f n t in (c :: l, r) else ([], s)
  | _, _ => ([], s)
  end.
Definition is_space (c : Z) : bool := (c =? 32) || ((9 <=? c) && (c <=? 13)).
Definition scan_setting (buff : bytes) : bytes * bytes :=
  let '(prefix, rest) := scan (fun c => negb (c =? 61)) 15 buff in
  match prefix, rest with
  | _ :: _, 61 :: rest => (prefix, (scan (fun c => negb (is_space c)) 15 (skip_space rest)).1)
  | _, _ => (prefix, [])
  end.
(** [strncasecmp(a, key, strlen(key)) == 0] *)
Definition starts_nocase (key a : bytes) : bool := same_nocase (take (length key) a) key.

Section Device.
Context {fs : Fs}.

(** The first line of a file as a number.  Without a digit the file is closed twice. *)
Definition file_get_value (fname : bytes) (strtol : bytes -> option Z) : option Z :=
  match f_text fname with
  | None => Some CM_INVALID_VAL
  | Some s =>
      let '(buff, _) := fgets 32 s in
      if bool_decide (buff = []) then Some CM_INVALID_VAL
      else num ← strtol (upto_nul buff); Some (s32 num)
  end.

(** The first entry that does not start with a dot; [buff] is what the buffer held. *)
Definition dir_get_child (dirname buff : bytes) (bufsize : Z) : bytes :=
  match f_dir dirname with
  | None => []
  | Some es =>
      match list_find (fun e => head e <> Some 46) es with
      | Some (_, e) => snprintf bufsize e
      | None => buff
      end
  end.

(** The value of a key in a file of settings; a file that cannot be opened is closed all the same. *)
Fixpoint conf_lines (fuel : nat) (key s : bytes) : Z :=
  match fuel, s with
  | S fuel, _ :: _ =>
      let '(buff, s) := fgets (CM_MAX_BUFF - 1) s in
      let '(prefix, tail) := scan_setting (upto_nul buff) in
      if starts_nocase key prefix then atoi tail else conf_lines fuel key s
  | _, _ => CM_INVALID_VAL
  end.
Definition conf_get_val (fname key : bytes) : option Z :=
  s ← f_text fname; Some (conf_lines (length s) key s).

(** The path with the directory of the control channel. *)
Definition detect_path_cdc_wdm_or_qcqmi (path : bytes) : option bytes :=
  if f_access path =? 0 then
    if f_access (path ++ str "/GobiQMI") =? 0 then Some (path ++ str "/GobiQMI")
    else if f_access (path ++ str "/usbmisc") =? 0 then Some (path ++ str "/usbmisc")
    else if f_access (path ++ str "/usb") =? 0 then Some (path ++ str "/usb")
    else None
  else None.

Definition rootdir : bytes := str "/sys/bus/usb/devices".
Definition makedev (major minor : Z) : Z := u32 (((major .& 0xfff) .<< 8) .| (minor .& 0xff) .| ((minor .& 0xfff00) .<< 12)).

(** What was found: the channel, the interface, the bus and device numbers where the code stores them. *)
Record Found := { found_channel : bytes; found_adapter : bytes; found_numbers : option (Z * Z) }.

(** The device file is missing: it is made, from the numbers in [uevent]. *)
Definition make_node (path device devname : bytes) : option (list (bytes * Z)) :=
  if f_access devname =? ENOENT then
    let uevent := snprintf (255 * 3) (path ++ [47] ++ device ++ str "/uevent") in
    major ← conf_get_val uevent (str "MAJOR");
    minor ← conf_get_val uevent (str "MINOR");
    Some [(devname, makedev major minor)]
  else Some [].

(** One directory entry.  Result: what it yields, if it is the modem, and the nodes made. *)
Definition usb_entry (usbnet_adapter : bytes) (bufsize : Z) (d_name : bytes) : option (option Found * list (bytes * Z)) :=
  let path suffix := snprintf (255 * 2) (rootdir ++ [47] ++ d_name ++ suffix) in
  idVendor ← file_get_value (path (str "/idVendor")) strtol16;
  _ ← file_get_value (path (str "/idProduct")) strtol16;
  if negb (idVendor =? 0x05c6) && negb (idVendor =? 0x2c7c) then Some (None, []) else
  busnum ← file_get_value (path (str "/busnum")) strtol10;
  devnum ← file_get_value (path (str "/devnum")) strtol10;
  let net4 := path (str ":1.4/net") in
  let netcard := dir_get_child net4 [] 33 in
  let net := if bool_decide (netcard = []) then path (str ":1.8/net") else net4 in
  let netcard := if bool_decide (netcard = []) then dir_get_child net netcard 33 else netcard in
  (* centos 2.6.x: the path is the last one looked at *)
  if bool_decide (netcard = []) && (f_access (path (str ":1.4/net:usb0")) =? 0)
     && (f_access (path (str ":1.4/GobiQMI:qcqmi0")) =? 0)
  then Some (Some {| found_channel := snprintf bufsize (str "/dev/qcqmi0"); found_adapter := snprintf bufsize (str "usb0");
                     found_numbers := None |}, [])
  else if bool_decide (netcard = []) then Some (None, []) else
  if negb (bool_decide (usbnet_adapter = [])) && negb (bool_decide (usbnet_adapter = netcard)) then Some (None, []) else
  match detect_path_cdc_wdm_or_qcqmi (take (length net - 4) net) with
  | None => Some (None, [])
  | Some path =>
      let device := dir_get_child path [] 33 in
      if bool_decide (device = []) then Some (None, []) else
      nodes ← make_node path device (snprintf 39 (str "/dev/" ++ device));
      Some (Some {| found_channel := snprintf bufsize (str "/dev/" ++ device); found_adapter := snprintf bufsize netcard;
                    found_numbers := Some (busnum, devnum) |}, nodes)
  end.

Fixpoint usb_entries (usbnet_adapter : bytes) (bufsize : Z) (es : list bytes) : option (option Found * list (bytes * Z)) :=
  match es with
  | [] => Some (None, [])
  | e :: es =>
      '(r, nodes) ← usb_entry usbnet_adapter bufsize e;
      match r with
      | Some f => Some (Some f, nodes)
      | None => '(r, nodes') ← usb_entries usbnet_adapter bufsize es; Some (r, nodes ++ nodes')
      end
  end.

(** [usbnet_adapter]: the interface asked for, or empty; the channel is empty at the start. *)
Definition qmidevice_detect (usbnet_adapter : bytes) (bufsize : Z) : option (option Found * list (bytes * Z)) :=
  match f_dir rootdir with
  | None => Some (None, [])
  | Some es =>
      '(r, nodes) ← usb_entries usbnet_adapter bufsize es;
      Some (match r with
            | Some f => if bool_decide (found_channel f = []) || bool_decide (found_adapter f = []) then None else Some f
            | None => None
            end, nodes)
  end.

(** Channel, interface and [software_interface] of a PCIe modem. *)
Definition mhidevice_detect : option (bytes * bytes * Z) :=
  adapter ← (if f_access (str "/sys/class/net/pcie_mhi0") =? 0 then Some (str "pcie_mhi0")
             else if f_access (str "/sys/class/net/rmnet_mhi0") =? 0 then Some (str "rmnet_mhi0") else None);
  if f_access (str "/dev/mhi_MBIM") =? 0 then Some (str "/dev/mhi_MBIM", adapter, SOFTWARE_MBIM)
  else if f_access (str "/dev/mhi_QMI0") =? 0 then Some (str "/dev/mhi_QMI0", adapter, SOFTWARE_QMI)
  else None.

Definition get_driver_type (usbnet_adapter : bytes) : option Z :=
  let path := snprintf (CM_MAX_PATHLEN + 1) (str "/sys/class/net/" ++ usbnet_adapter ++ str "/device/bInterfaceClass") in
  bInterfaceClass ← file_get_value path strtol16;
  Some (if bInterfaceClass =? USB_CLASS_COMM then SOFTWARE_MBIM
        else if bInterfaceClass =? USB_CLASS_VENDOR_SPEC then SOFTWARE_QMI else DRV_INVALID).
End Device.

(** ** What is found *)
Section Spec.
Context {fs : Fs}.

Lemma bind_some {A B} (o : option A) (f : A -> option B) b : (o ≫= f) = Some b -> exists a, o = Some a /\ f a = Some b.
Proof. destruct o as [a|]; [|done]. by exists a. Qed.

Lemma dir_get_child_length d : zlen (dir_get_child d [] 33) <= 32.
Proof.
  unfold dir_get_child, snprintf. destruct (f_dir d) as [es|]; [|done]. destruct (list_find _ es) as [[i e]|]; [|done].
  unfold zlen. rewrite length_take. lia.
Qed.

(** The entries before the one found yield nothing. *)
Lemma usb_entries_found wanted n es f nodes :
  usb_entries wanted n es = Some (Some f, nodes) ->
  exists pre e post made, es = pre ++ e :: post /\ usb_entry wanted n e = Some (Some f, made) /\
    Forall (fun x => exists m, usb_entry wanted n x = Some (None, m)) pre.
Proof.
  revert nodes. induction es as [|e es IH]; intros nodes; [done|]. cbn [usb_entries]. intros ([r m] & E & H)%bind_some.
  destruct r as [g|]; [injection H as -> <-; exists [], e, es, m; auto|].
  apply bind_some in H as ([r' m'] & E' & [= -> <-]). destruct (IH _ E') as (pre & x & post & made & -> & Hx & Hp).
  exists (e :: pre), x, post, made. split_and!; [done..|]. constructor; eauto.
Qed.

(** The rest of an entry, once its interface is looked up. *)
Lemma usb_entry_tail (c1 c2 : bool) net netcard wanted busnum devnum f made :
  zlen netcard <= 32 ->
  (if bool_decide (netcard = []) && c1 && c2
   then Some (Some {| found_channel := snprintf 33 (str "/dev/qcqmi0"); found_adapter := snprintf 33 (str "usb0"); found_numbers := None |}, [])
   else if bool_decide (netcard = []) then Some (None, []) else
   if negb (bool_decide (wanted = [])) && negb (bool_decide (wanted = netcard)) then Some (None, []) else
   match detect_path_cdc_wdm_or_qcqmi (take (length net - 4) net) with
   | None => Some (None, [])
   | Some path =>
       let device := dir_get_child path [] 33 in
       if bool_decide (device = []) then Some (None, []) else
       nodes ← make_node path device (snprintf 39 (str "/dev/" ++ device));
       Some (Some {| found_channel := snprintf 33 (str "/dev/" ++ device); found_adapter := snprintf 33 netcard;
                     found_numbers := Some (busnum, devnum) |}, nodes)
   end) = Some (Some f, made) ->
  (exists c, c <> [] /\ found_channel f = snprintf 33 (str "/dev/" ++ c)) /\ found_adapter f <> [] /\
  (found_numbers f <> None -> wanted = [] \/ found_adapter f = wanted).
Proof.
  intros Hl H. case_bool_decide as Hn; cbn [andb] in H.
  - destruct (c1 && c2); [|done]. injection H as <- <-. cbn. split; [by exists (str "qcqmi0")|]. done.
  - destruct (negb (bool_decide (wanted = [])) && negb (bool_decide (wanted = netcard))) eqn:Ew; [done|].
    destruct (detect_path_cdc_wdm_or_qcqmi _) as [path|]; [|done]. cbn zeta in H. case_bool_decide as Hd; [done|].
    apply bind_some in H as (nodes & _ & [= <- <-]). cbn. rewrite (snprintf_fits 33 netcard) by lia. split_and!; [eauto | done |].
    intros _. apply andb_false_iff in Ew. rewrite !negb_false_iff, !bool_decide_eq_true in Ew. destruct Ew; auto.
Qed.

(** What an entry that yields a modem looks like. *)
Lemma usb_entry_found wanted e f made :
  usb_entry wanted 33 e = Some (Some f, made) ->
  exists vendor, file_get_value (snprintf 510 (rootdir ++ [47] ++ e ++ str "/idVendor")) strtol16 = Some vendor /\
    (vendor = 0x05c6 \/ vendor = 0x2c7c) /\
    (exists c, c <> [] /\ found_channel f = snprintf 33 (str "/dev/" ++ c)) /\ found_adapter f <> [] /\
    (found_numbers f <> None -> wanted = [] \/ found_adapter f = wanted).
Proof.
  unfold usb_entry. intros (vendor & E & H)%bind_some. apply bind_some in H as (product & _ & H). exists vendor. split; [exact E|].
  assert (Hv : vendor = 0x05c6 \/ vendor = 0x2c7c).
  { destruct (Z.eqb_spec vendor 0x05c6); [by left|]. destruct (Z.eqb_spec vendor 0x2c7c); [by right|]. done. }
  split; [done|]. destruct (negb (vendor =? 0x05c6) && negb (vendor =? 0x2c7c)); [done|].
  apply bind_some in H as (busnum & _ & H). apply bind_some in H as (devnum & _ & H). cbn zeta in H.
  set (net4 := snprintf _ _) in H. set (net8 := snprintf _ (rootdir ++ [47] ++ e ++ str ":1.8/net")) in H.
  destruct (bool_decide (dir_get_child net4 [] 33 = [])) eqn:E4;
    [apply bool_decide_eq_true in E4; rewrite E4 in H; set (netcard := dir_get_child net8 [] 33) in H | set (netcard := dir_get_child net4 [] 33) in H].
  all: assert (Hl : zlen netcard <= 32) by apply dir_get_child_length; clearbody netcard; revert H; apply usb_entry_tail; [done..].
Qed.
End Spec.

(** What the detection finds is a Quectel modem, the first that qualifies in the order of the directory: its entry
    carries one of the two vendor numbers, the channel is a device under /dev, the interface has a name, and it is the
    interface asked for when one was, except on the path for old kernels, which takes usb0. *)
Theorem qmidevice_detect_sound {fs : Fs} wanted f nodes :
  qmidevice_detect wanted 33 = Some (Some f, nodes) ->
  exists es pre e post vendor, f_dir rootdir = Some es /\ es = pre ++ e :: post /\
    Forall (fun x => exists m, usb_entry wanted 33 x = Some (None, m)) pre /\
    file_get_value (snprintf 510 (rootdir ++ [47] ++ e ++ str "/idVendor")) strtol16 = Some vendor /\
    (vendor = 0x05c6 \/ vendor = 0x2c7c) /\
    (exists c, c <> [] /\ found_channel f = snprintf 33 (str "/dev/" ++ c)) /\ found_adapter f <> [] /\
    (found_numbers f <> None -> wanted = [] \/ found_adapter f = wanted).
Proof.
  unfold qmidevice_detect. destruct (f_dir rootdir) as [es|]; [|done]. intros ([r m] & E & H)%bind_some.
  destruct r as [g|]; [|done]. destruct (_ || _); [done|]. injection H as -> <-.
  destruct (usb_entries_found _ _ _ _ _ E) as (pre & e & post & made & He & Hx & Hp).
  destruct (usb_entry_found _ _ _ _ Hx) as (vendor & H). exists es, pre, e, post, vendor. tauto.
Qed.

(** A file without a number is closed twice: undefined behaviour. *)
Lemma file_get_value_closed_twice {fs : Fs} fname s :
  f_text fname = Some s -> s <> [] -> strtol10 (upto_nul (fgets 32 s).1) = None -> file_get_value fname strtol10 = None.
Proof.
  intros E Hs Hn. unfold file_get_value. rewrite E. pose proof (fgets_nonempty 31 s Hs) as Hb.
  destruct (fgets 32 s) as [buff r]. cbn [fst] in Hn, Hb. rewrite bool_decide_eq_false_2 by done. by rewrite Hn.
Qed.
