(* ===== verification/Options.v ===== *)
(** * main.c and util.c: the command line, finding the mode, and stopping another instance.
    [parse_args] is the loop over the arguments; [main] then finds the device and starts the QMI or the MBIM mode.  An
    argument is the list of its characters, without the NUL. *)
From S2P Require Import Prelude Util Compose QmiRequests Text Device.
From Stdlib Require Import Ascii.
#[local] Open Scope Z_scope.

(** What the options set: the profile, and the globals of main.c.  [muxid], [pincode] and what follows are fields of the profile
    too. *)
#[export] Instance eta_PROFILE_T : Eta PROFILE_T := fun p =>
  {| apn := apn p; user := user p; password := password p; auth := auth p; pdp := pdp p; curIpFamily := curIpFamily p;
     enable_ipv4 := enable_ipv4 p; enable_ipv6 := enable_ipv6 p |}.
#[export] Instance set_apn : Setter apn := ltac:(derive_setter).
#[export] Instance set_user : Setter user := ltac:(derive_setter).
#[export] Instance set_password : Setter password := ltac:(derive_setter).
#[export] Instance set_auth : Setter auth := ltac:(derive_setter).
#[export] Instance set_pdp : Setter pdp := ltac:(derive_setter).
#[export] Instance set_ipv4 : Setter enable_ipv4 := ltac:(derive_setter).
#[export] Instance set_ipv6 : Setter enable_ipv6 := ltac:(derive_setter).
Record Options := {
  profile : PROFILE_T; muxid : Z; pincode : option bytes; usbnet_adapter : option bytes; qmichannel : option bytes;
  replication_factor : Z; loopback_state : Z; reattach_flag : Z; enable_bridge : Z;
  logfile : option bytes; usbmon_logfile : option bytes; debug_qmi : Z; main_loop : Z }.
#[export] Instance eta_Options : Eta Options := fun o =>
  {| profile := profile o; muxid := muxid o; pincode := pincode o; usbnet_adapter := usbnet_adapter o; qmichannel := qmichannel o;
     replication_factor := replication_factor o; loopback_state := loopback_state o; reattach_flag := reattach_flag o;
     enable_bridge := enable_bridge o; logfile := logfile o; usbmon_logfile := usbmon_logfile o; debug_qmi := debug_qmi o;
     main_loop := main_loop o |}.
#[export] Instance set_profile : Setter profile := ltac:(derive_setter).
#[export] Instance set_muxid : Setter muxid := ltac:(derive_setter).
#[export] Instance set_pincode : Setter pincode := ltac:(derive_setter).
#[export] Instance set_adapter : Setter usbnet_adapter := ltac:(derive_setter).
#[export] Instance set_channel : Setter qmichannel := ltac:(derive_setter).
#[export] Instance set_replication : Setter replication_factor := ltac:(derive_setter).
#[export] Instance set_loopback : Setter loopback_state := ltac:(derive_setter).
#[export] Instance set_reattach : Setter reattach_flag := ltac:(derive_setter).
#[export] Instance set_bridge : Setter enable_bridge := ltac:(derive_setter).
#[export] Instance set_logfile : Setter logfile := ltac:(derive_setter).
#[export] Instance set_usbmon : Setter usbmon_logfile := ltac:(derive_setter).
#[export] Instance set_debug : Setter debug_qmi := ltac:(derive_setter).
#[export] Instance set_main_loop : Setter main_loop := ltac:(derive_setter).

(** The profile zeroed, with [CONFIG_DEFAULT_PDP]. *)
Definition CONFIG_DEFAULT_PDP : Z := 1.
Definition options_init : Options :=
  {| profile := {| apn := None; user := None; password := None; auth := 0; pdp := CONFIG_DEFAULT_PDP; curIpFamily := 0;
                   enable_ipv4 := 0; enable_ipv6 := 0 |};
     muxid := 0; pincode := None; usbnet_adapter := None; qmichannel := None; replication_factor := 0; loopback_state := 0;
     reattach_flag := 0; enable_bridge := 0; logfile := None; usbmon_logfile := None; debug_qmi := 0; main_loop := 0 |}.

(** The character of a string at an index (the NUL at its end). *)
Definition at_char (s : bytes) (i : nat) : Z := default 0 (s !! i).
Definition dash : Z := chr "-".

(** [has_more_argv() ? argv[opt++] : ...]: the next argument, unless it is an option. *)
Definition next_arg (args : list bytes) : option (bytes * list bytes) :=
  match args with
  | a :: rest => if at_char a 0 =? dash then None else Some (a, rest)
  | [] => None
  end.
Definition with_arg (f : bytes -> Options -> Options) (x : Options * list bytes) : Options * list bytes :=
  match next_arg x.2 with Some (a, rest) => (f a x.1, rest) | None => x end.
(** [argv[opt++][0] - '0'] *)
Definition digit (a : bytes) : Z := at_char a 0 - chr "0".

Definition set_in_profile (f : PROFILE_T -> PROFILE_T) (o : Options) : Options := o <| profile := f (profile o) |>.

(** The case of [-s]: the access point and the account; a password alone means CHAP. *)
Definition option_s (x : Options * list bytes) : Options * list bytes :=
  let x := (set_in_profile (fun p => p <| apn := Some [] |> <| user := Some [] |> <| password := Some [] |>) x.1, x.2) in
  let x := with_arg (fun a => set_in_profile (fun p => p <| apn := Some a |>)) x in
  let x := with_arg (fun a => set_in_profile (fun p => p <| user := Some a |>)) x in
  let x := with_arg (fun a => set_in_profile (fun p =>
             let p := p <| password := Some a |> in if bool_decide (a = []) then p else p <| auth := 2 |>)) x in
  with_arg (fun a => set_in_profile (fun p => p <| auth := digit a |>)) x.

(** The result of the loop: the usage text, stopping the instance of a channel, or the settings. *)
Inductive parsed := Usage | KillPdp (pdp : Z) | Parsed (o : Options).

(** One option, by its letter; [Some] goes on. *)
Definition one_option (c : Z) (x : Options * list bytes) : parsed + (Options * list bytes) :=
  if c =? chr "s" then inr (option_s x)
  else if c =? chr "m" then inr (with_arg (fun a o => o <| muxid := digit a |>) x)
  else if c =? chr "p" then inr (with_arg (fun a o => o <| pincode := Some a |>) x)
  else if c =? chr "n" then inr (with_arg (fun a => set_in_profile (fun p => p <| pdp := digit a |>)) x)
  else if c =? chr "f" then inr (with_arg (fun a o => o <| logfile := Some a |>) x)
  else if c =? chr "i" then inr (with_arg (fun a o => o <| usbnet_adapter := Some a |>) x)
  else if c =? chr "v" then inr (x.1 <| debug_qmi := 1 |>, x.2)
  else if c =? chr "l" then
    inr match next_arg x.2 with
        | Some (a, rest) =>
            let o := x.1 <| replication_factor := atoi a |> in
            (if 0 <? replication_factor o then o <| loopback_state := 1 |> else o, rest)
        | None => (x.1 <| main_loop := 1 |>, x.2)
        end
  else if c =? chr "4" then inr (set_in_profile (fun p => p <| enable_ipv4 := 1 |>) x.1, x.2)
  else if c =? chr "6" then inr (set_in_profile (fun p => p <| enable_ipv6 := 1 |>) x.1, x.2)
  else if c =? chr "d" then
    inr (with_arg (fun a o =>
           let o := o <| qmichannel := Some a |> in
           if qmidev_is_pciemhi a then o <| usbnet_adapter := Some (str "pcie_mhi0") |> else o) x)
  else if c =? chr "r" then inr (x.1 <| reattach_flag := 1 |>, x.2)
  else if c =? chr "u" then inr (with_arg (fun a o => o <| usbmon_logfile := Some a |>) x)
  else if c =? chr "b" then inr (x.1 <| enable_bridge := 1 |>, x.2)
  else if c =? chr "k" then
    inl match next_arg x.2 with Some (a, _) => KillPdp (digit a) | None => Usage end
  else inl Usage.

(** The loop; every turn takes an argument, so as many turns as arguments are enough. *)
Fixpoint parse_args (fuel : nat) (args : list bytes) (o : Options) : parsed :=
  match fuel, args with
  | S fuel, a :: args =>
      if negb (at_char a 0 =? dash) then Usage else
      match one_option (at_char a 1) (o, args) with
      | inl r => r
      | inr (o, args) => parse_args fuel args o
      end
  | _, _ => Parsed o
  end.

(** [argv] without the program's name; a last & is dropped. *)
Definition drop_ampersand (args : list bytes) : list bytes :=
  if bool_decide (last args = Some (str "&")) then take (length args - 1) args else args.
Definition default_family (o : Options) : Options :=
  if negb (enable_ipv4 (profile o) =? 1) && negb (enable_ipv6 (profile o) =? 1)
  then set_in_profile (fun p => p <| enable_ipv4 := 1 |>) o else o.
Definition parse (args : list bytes) : parsed :=
  let args := drop_ampersand args in parse_args (length args) args options_init.

(** ** Starting *)
Section Main.
Context {fs : Fs}.

(** The device the options and the detection give; [None] when none is found. *)
Record Start := { st_options : Options; hardware_interface : Z; software_interface : Z; numbers : option (Z * Z) }.
Definition fill (o : Options) (channel adapter : bytes) : Options :=
  let o := if bool_decide (qmichannel o = None) then o <| qmichannel := Some channel |> else o in
  if bool_decide (usbnet_adapter o = None) then o <| usbnet_adapter := Some adapter |> else o.

(** The adapter asked for is copied to a buffer of 33 bytes. *)
Definition find_device (o : Options) : option (option Start * list (bytes * Z)) :=
  if bool_decide (qmichannel o = None) || bool_decide (usbnet_adapter o = None) then
    let wanted := default [] (usbnet_adapter o) in
    if 33 <? zlen wanted + 1 then None else
    '(found, nodes) ← qmidevice_detect wanted 33;
    match found with
    | Some f =>
        let o := fill o (found_channel f) (found_adapter f) in
        driver ← get_driver_type (default [] (usbnet_adapter o));
        Some (Some {| st_options := o; hardware_interface := HARDWARE_USB; software_interface := driver;
                      numbers := found_numbers f |}, nodes)
    | None =>
        Some (match mhidevice_detect with
              | Some (channel, adapter, software) =>
                  Some {| st_options := fill o channel adapter; hardware_interface := HARDWARE_PCIE;
                          software_interface := software; numbers := None |}
              | None => None
              end, nodes)
    end
  else Some (Some {| st_options := o; hardware_interface := 0; software_interface := 0; numbers := None |}, []).

(** What the program does: print the usage, stop another instance, run a mode, or nothing. *)
Inductive action := PrintUsage | StopInstance (pdp : Z) | MbimMain (s : Start) | QmiMain (s : Start) | NothingToRun | NoDevice.
Definition main (args : list bytes) : option (action * list (bytes * Z)) :=
  match parse args with
  | Usage => Some (PrintUsage, [])
  | KillPdp p => Some (StopInstance p, [])
  | Parsed o =>
      '(s, nodes) ← find_device (default_family o);
      Some (match s with
            | None => NoDevice
            | Some s =>
                if software_interface s =? SOFTWARE_MBIM then MbimMain s
                else if software_interface s =? SOFTWARE_QMI then QmiMain s else NothingToRun
            end, nodes)
  end.
End Main.

(** ** Stopping the instance of a channel *)
(** The processes of /proc in the order of [glob]: the path of the command line, and what reading it into the buffer of 512 bytes gives
    ([None]: it cannot be opened; [Some None]: [read] fails, and its -1 is taken for a huge length). *)
Definition proc_entry : Type := bytes * option (option bytes).

(** The NULs between the arguments become blanks. *)
Definition unsplit (n : nat) (buf : bytes) : bytes :=
  ((fun c => if c =? 0 then 32 else c) <$> take (n - 1) buf) ++ drop (n - 1) buf.

(** The directory before [/cmdline]: the characters after the last slash but one. *)
Definition pid_of (path : bytes) : Z :=
  let dir := take (length path - 8) path in
  atoi (reverse (scan (fun c => negb (c =? 47)) (length dir) (reverse dir)).1).

(** [filter] is a buffer of 5 bytes: only one digit fits.  A command line that fills the 512-byte buffer has no NUL at its end and is read on past it. *)
Fixpoint find_process (filter program_name : bytes) (buf : bytes) (procs : list proc_entry) : option Z :=
  match procs with
  | [] => Some (-1)
  | (_, None) :: _ => Some (-1)
  | (_, Some None) :: _ => None
  | (path, Some (Some data)) :: procs =>
      buf ← sts buf 0 data;
      let buf := unsplit (length data) buf in
      cmdline ← cstr buf;
      if strstr cmdline program_name && strstr cmdline filter then Some (pid_of path)
      else find_process filter program_name buf procs
  end.
Definition getpid_by_pdp (pdp : Z) (program_name : bytes) (procs : option (list proc_entry)) : option Z :=
  let filter := str "-n " ++ dec_signed pdp in
  if 5 <? zlen filter + 1 then None else
  match procs with None => Some (-1) | Some ps => find_process filter program_name (replicate 512 0) ps end.

(** The name of the program without its directory, and the process that gets SIGINT. *)
Definition base_name (self : bytes) : bytes :=
  reverse (scan (fun c => negb (c =? 47)) (length self) (reverse self)).1.
Definition kill_data_call_pdp (pdp : Z) (self : bytes) (procs : option (list proc_entry)) : option (option Z) :=
  pid ← getpid_by_pdp pdp (base_name self) procs;
  Some (if 0 <? pid then Some pid else None).
