(* ===== verification/OptionsSpec.v ===== *)
(** * What the command line of Options.v can express, and what starts the program. *)
From S2P Require Import Prelude Util Compose QmiRequests Text Device Options.
From Stdlib Require Import Ascii.
#[local] Open Scope Z_scope.

(** ** Command lines for given settings *)
Definition letter (c : Z) : bytes := [dash; c].
Definition opt (c : Z) (v : option bytes) : list bytes := match v with Some a => [letter c; a] | None => [] end.
Definition flag (c : Z) (b : Z) : list bytes := if b =? 1 then [letter c] else [].
Definition account (p : PROFILE_T) : list bytes :=
  match apn p, user p, password p with
  | Some a, Some u, Some w => [letter (chr "s"); a; u; w; [chr "0" + auth p]]
  | _, _, _ => []
  end.
Definition render (o : Options) : list bytes :=
  account (profile o) ++ opt (chr "p") (pincode o) ++ opt (chr "f") (logfile o) ++ opt (chr "u") (usbmon_logfile o) ++
  opt (chr "d") (qmichannel o) ++ opt (chr "i") (usbnet_adapter o) ++
  (if 0 <? replication_factor o then [letter (chr "l"); dec (replication_factor o)] else []) ++
  flag (chr "v") (debug_qmi o) ++ flag (chr "4") (enable_ipv4 (profile o)) ++ flag (chr "6") (enable_ipv6 (profile o)) ++
  flag (chr "r") (reattach_flag o) ++ flag (chr "b") (enable_bridge o) ++ flag (chr "l") (main_loop o) ++
  [letter (chr "n"); [chr "0" + pdp (profile o)]; letter (chr "m"); [chr "0" + muxid o]].

(** An argument that is not taken for an option. *)
Definition plain (a : bytes) : Prop := at_char a 0 <> dash.
Definition bit (x : Z) : Prop := x = 0 \/ x = 1.
(** The settings options can express: the account is given as a whole or not at all, the numbers are digits, the loop-back
    follows its factor, and a PCIe channel brings an interface. *)
Record expressible (o : Options) : Prop := {
  ex_account : (apn (profile o) = None /\ user (profile o) = None /\ password (profile o) = None /\ auth (profile o) = 0) \/
    exists a u w, apn (profile o) = Some a /\ user (profile o) = Some u /\ password (profile o) = Some w /\ Forall plain [a; u; w] /\ 0 <= auth (profile o) <= 9;
  ex_family : curIpFamily (profile o) = 0 /\ bit (enable_ipv4 (profile o)) /\ bit (enable_ipv6 (profile o));
  ex_digits : 0 <= pdp (profile o) <= 9 /\ 0 <= muxid o <= 9;
  ex_strings : Forall plain (option_list (pincode o) ++ option_list (logfile o) ++ option_list (usbmon_logfile o) ++
                             option_list (qmichannel o) ++ option_list (usbnet_adapter o));
  ex_loop : 0 <= replication_factor o < 2 ^ 31 /\ loopback_state o = (if 0 <? replication_factor o then 1 else 0);
  ex_flags : bit (debug_qmi o) /\ bit (reattach_flag o) /\ bit (enable_bridge o) /\ bit (main_loop o);
  ex_pcie : forall c, qmichannel o = Some c -> qmidev_is_pciemhi c = true -> usbnet_adapter o <> None }.

(** ** One option at a time *)
Definition parses (args : list bytes) (o : Options) (r : parsed) : Prop :=
  forall fuel, (length args <= fuel)%nat -> parse_args fuel args o = r.

Lemma parses_nil o : parses [] o (Parsed o).
Proof. by intros [|fuel] _. Qed.

Lemma parses_option c args o o' rest r :
  one_option c (o, args) = inr (o', rest) -> (length rest <= length args)%nat -> parses rest o' r -> parses (letter c :: args) o r.
Proof.
  intros E Hl Hr [|fuel] Hf; cbn [length] in Hf; [lia|]. cbn [parse_args].
  change (negb (at_char (letter c) 0 =? dash)) with false. change (at_char (letter c) 1) with c. cbv iota. rewrite E. apply Hr. lia.
Qed.

Lemma next_plain a rest : plain a -> next_arg (a :: rest) = Some (a, rest).
Proof. intros H. unfold next_arg. by rewrite (proj2 (Z.eqb_neq _ _)). Qed.
Lemma with_plain f a o rest : plain a -> with_arg f (o, a :: rest) = (f a o, rest).
Proof. intros H. unfold with_arg. cbn [snd]. by rewrite next_plain. Qed.

Lemma parses_arg c f a rest o r :
  one_option c (o, a :: rest) = inr (with_arg f (o, a :: rest)) -> plain a -> parses rest (f a o) r -> parses (letter c :: a :: rest) o r.
Proof. intros E Ha Hr. eapply parses_option; [by rewrite E, with_plain | cbn; lia | done]. Qed.

(** An option with an argument, and one without, as updates of a field that had its initial value. *)
Lemma parses_opt c (g : option bytes -> Options -> Options) v rest o r :
  (forall x, one_option c x = inr (with_arg (fun a => g (Some a)) x)) -> g None o = o -> Forall plain (option_list v) ->
  parses rest (g v o) r -> parses (opt c v ++ rest) o r.
Proof.
  intros E E0. destruct v as [a|]; [|by rewrite E0]. intros Ha Hr. apply Forall_cons in Ha as [Ha _]. by eapply parses_arg.
Qed.

Lemma parses_flag c (g : Z -> Options -> Options) b rest o r :
  (forall x, one_option c x = inr (g 1 x.1, x.2)) -> g 0 o = o -> bit b -> parses rest (g b o) r -> parses (flag c b ++ rest) o r.
Proof. intros E E0 [-> | ->]; unfold flag; cbn [Z.eqb]; [by rewrite E0|]. intros Hr. by eapply parses_option. Qed.

Lemma plain_digit x : 0 <= x <= 9 -> plain [chr "0" + x] /\ digit [chr "0" + x] = x.
Proof.
  intros H. unfold plain, digit. change (at_char [chr "0" + x] 0) with (chr "0" + x). change (chr "0") with 48. change dash with 45. lia.
Qed.

Lemma parses_account p rest o r :
  profile o = profile options_init ->
  (apn p = None /\ user p = None /\ password p = None /\ auth p = 0) \/
    (exists a u w, apn p = Some a /\ user p = Some u /\ password p = Some w /\ Forall plain [a; u; w] /\ 0 <= auth p <= 9) ->
  parses rest (set_in_profile (fun q => q <| apn := apn p |> <| user := user p |> <| password := password p |> <| auth := auth p |>) o) r ->
  parses (account p ++ rest) o r.
Proof.
  intros Ho [(Ea & Eu & Ew & Eau)|(a & u & w & Ea & Eu & Ew & Hp & Hau)] Hr; unfold account; rewrite Ea, Eu, Ew in *.
  - rewrite Eau in Hr. cbn [app]. destruct o. cbn in *. by subst.
  - apply Forall_cons in Hp as [Ha Hp]. apply Forall_cons in Hp as [Hu Hp]. apply Forall_cons in Hp as [Hw _].
    destruct (plain_digit _ Hau) as [Hd Ed]. cbn [app].
    eapply (parses_option _ _ _ _ rest); [| cbn; lia | exact Hr].
    change (one_option (chr "s") ?x) with (inr (A := parsed) (option_s x)). unfold option_s. cbn [fst snd].
    rewrite !with_plain by done. do 2 f_equal. rewrite Ed. destruct o. cbn in Ho |- *. subst. by destruct w.
Qed.

(** The bare -l, between options. *)
Lemma parses_loop b c rest o r :
  main_loop o = 0 -> bit b -> parses (letter c :: rest) (o <| main_loop := b |>) r -> parses (flag (chr "l") b ++ letter c :: rest) o r.
Proof.
  intros E0 [-> | ->] Hr; unfold flag; cbn [Z.eqb app]; [|by eapply parses_option]. destruct o. cbn in E0, Hr. by subst.
Qed.

Lemma parses_replication n rest o r :
  0 <= n < 2 ^ 31 -> replication_factor o = 0 -> loopback_state o = 0 ->
  parses rest (o <| replication_factor := n |> <| loopback_state := if 0 <? n then 1 else 0 |>) r ->
  parses ((if 0 <? n then [letter (chr "l"); dec n] else []) ++ rest) o r.
Proof.
  intros Hn E1 E2. destruct (Z.ltb_spec 0 n) as [E|E]; intros Hr.
  2:{ assert (n = 0) as -> by lia. destruct o. cbn in *. by subst. }
  assert (Hp : plain (dec n)).
  { destruct (dec_spec n) as (_ & Hd & Hne); [lia|]. unfold plain. destruct (dec n) as [|x s]; [done|].
    apply Forall_cons in Hd as [Hx _]. unfold is_digit in Hx. change (at_char (x :: s) 0) with x. change dash with 45. lia. }
  cbn [app]. eapply parses_option; [| |exact Hr]; [|cbn; lia].
  change (one_option (chr "l") ?x) with (inr (A := parsed) match next_arg x.2 with
      | Some (a, rest) =>
          let o := x.1 <| replication_factor := atoi a |> in
          (if 0 <? replication_factor o then o <| loopback_state := 1 |> else o, rest)
      | None => (x.1 <| main_loop := 1 |>, x.2)
      end).
  cbn [fst snd]. rewrite next_plain by done. cbn zeta. rewrite atoi_dec by done.
  change (replication_factor (o <| replication_factor := n |>)) with n. by rewrite (proj2 (Z.ltb_lt _ _)).
Qed.

Lemma parses_digits p m o :
  0 <= p <= 9 -> 0 <= m <= 9 ->
  parses [letter (chr "n"); [chr "0" + p]; letter (chr "m"); [chr "0" + m]] o
    (Parsed (set_in_profile (fun q => q <| pdp := p |>) o <| muxid := m |>)).
Proof.
  intros Hp Hm. destruct (plain_digit _ Hp) as [Pp Ep], (plain_digit _ Hm) as [Pm Em].
  eapply parses_arg; [reflexivity | done |]. eapply parses_arg; [reflexivity | done |]. rewrite Ep, Em. apply parses_nil.
Qed.

(** The channel and the interface: a PCIe channel sets the interface too, which the option that follows replaces. *)
Lemma parses_device ch ad rest o r :
  qmichannel o = None -> usbnet_adapter o = None -> Forall plain (option_list ch) -> Forall plain (option_list ad) ->
  (forall c, ch = Some c -> qmidev_is_pciemhi c = true -> ad <> None) ->
  parses rest (o <| qmichannel := ch |> <| usbnet_adapter := ad |>) r -> parses (opt (chr "d") ch ++ opt (chr "i") ad ++ rest) o r.
Proof.
  intros E1 E2 Hc Ha Hp Hr. destruct ch as [c|].
  - apply Forall_cons in Hc as [Hc _]. eapply parses_arg; [reflexivity | done |]. specialize (Hp c eq_refl). destruct ad as [a|].
    + apply Forall_cons in Ha as [Ha _]. eapply parses_arg; [reflexivity | done |]. by destruct (qmidev_is_pciemhi c).
    + destruct (qmidev_is_pciemhi c); [by destruct Hp|]. destruct o. cbn in *. by subst.
  - cbn [opt app]. eapply (parses_opt _ (fun v o => o <| usbnet_adapter := v |>)); [reflexivity | | done |];
      destruct o; cbn in *; by subst.
Qed.

(** Computes the settings read so far. *)
Ltac settle := match goal with |- parses ?a ?s ?r => 
  let s' := eval cbv [set_in_profile options_init set_field set_apn set_user set_password set_auth set_pdp set_ipv4 set_ipv6 set_profile
    set_muxid set_pincode set_adapter set_channel set_replication set_loopback set_reattach set_bridge set_logfile set_usbmon set_debug
    set_main_loop apn user password auth pdp curIpFamily enable_ipv4 enable_ipv6 profile muxid pincode usbnet_adapter qmichannel
    replication_factor loopback_state reattach_flag enable_bridge logfile usbmon_logfile debug_qmi main_loop] in s in
  change (parses a s' r) end.

Lemma parse_render o : expressible o -> parse (render o) = Parsed o.
Proof.
  intros [Hacc [Hcur [H4 H6]] [Hpdp Hmux] Hstr [Hrep Hloop] (Hdbg & Hre & Hbr & Hml) Hpcie].
  rewrite !Forall_app in Hstr. destruct Hstr as (Sp & Sf & Su & Sd & Si).
  assert (Hlast : drop_ampersand (render o) = render o).
  { unfold drop_ampersand, render. rewrite !app_assoc, last_app. cbn [last]. rewrite bool_decide_eq_false_2; [done|].
    intros [= E]. revert E. change (chr "0") with 48. lia. }
  unfold parse. rewrite Hlast. cut (parses (render o) options_init (Parsed o)); [by intros H; apply H|]. unfold render.
  apply parses_account; [done | exact Hacc|]. settle.
  eapply (parses_opt _ (fun v o => o <| pincode := v |>)); [reflexivity | reflexivity | done|]. settle.
  eapply (parses_opt _ (fun v o => o <| logfile := v |>)); [reflexivity | reflexivity | done|]. settle.
  eapply (parses_opt _ (fun v o => o <| usbmon_logfile := v |>)); [reflexivity | reflexivity | done|]. settle.
  apply parses_device; [reflexivity | reflexivity | done..|]. settle. apply parses_replication; [done | reflexivity | reflexivity|]. settle.
  eapply (parses_flag _ (fun b o => o <| debug_qmi := b |>)); [reflexivity | reflexivity | done|]. settle.
  eapply (parses_flag _ (fun b => set_in_profile (fun p => p <| enable_ipv4 := b |>))); [reflexivity | reflexivity | done|]. settle.
  eapply (parses_flag _ (fun b => set_in_profile (fun p => p <| enable_ipv6 := b |>))); [reflexivity | reflexivity | done|]. settle.
  eapply (parses_flag _ (fun b o => o <| reattach_flag := b |>)); [reflexivity | reflexivity | done|]. settle.
  eapply (parses_flag _ (fun b o => o <| enable_bridge := b |>)); [reflexivity | reflexivity | done|]. settle.
  apply parses_loop; [reflexivity | done|]. settle.
  intros fuel Hf. rewrite (parses_digits _ _ _ Hpdp Hmux fuel Hf). f_equal.
  destruct o as [[]]. cbn in *. by subst.
Qed.

(** C12: every configuration the options can express is what the program reads back from its command line. *)
Theorem options_roundtrip o : expressible o -> parse (render o) = Parsed o.
Proof. apply parse_render. Qed.

(** A device named on the command line with its interface is never used: the driver, and with it the mode, is only looked up
    for a device that was searched for, so the program ends at once, without a word. *)
Theorem explicit_device_runs_nothing {fs : Fs} o :
  expressible o -> qmichannel o <> None -> usbnet_adapter o <> None -> main (render o) = Some (NothingToRun, []).
Proof.
  intros Ho Hc Ha. unfold main. rewrite parse_render by done. unfold find_device.
  assert (E : qmichannel (default_family o) = qmichannel o /\ usbnet_adapter (default_family o) = usbnet_adapter o).
  { unfold default_family. by destruct (_ && _). }
  destruct E as [-> ->]. by rewrite !bool_decide_eq_false_2.
Qed.

(** Without a device on the command line, the modem found on USB is run in the mode of its driver, with the settings given
    (IPv4 when no family is) and the channel and the interface found. *)
Theorem main_runs_detected {fs : Fs} o f nodes driver :
  expressible o -> qmichannel o = None -> usbnet_adapter o = None ->
  qmidevice_detect [] 33 = Some (Some f, nodes) -> get_driver_type (found_adapter f) = Some driver ->
  let s := {| st_options := (default_family o) <| qmichannel := Some (found_channel f) |> <| usbnet_adapter := Some (found_adapter f) |>;
              hardware_interface := HARDWARE_USB; software_interface := driver; numbers := found_numbers f |} in
  main (render o) = Some (if driver =? SOFTWARE_MBIM then MbimMain s else if driver =? SOFTWARE_QMI then QmiMain s else NothingToRun, nodes) /\
  enable_ipv4 (profile (st_options s)) = (if enable_ipv6 (profile o) =? 1 then enable_ipv4 (profile o) else 1).
Proof.
  intros Ho Hc Ha Hf Hd s. split.
  - unfold main. rewrite parse_render by done. unfold find_device.
    assert (E : qmichannel (default_family o) = qmichannel o /\ usbnet_adapter (default_family o) = usbnet_adapter o).
    { unfold default_family. by destruct (_ && _). }
    destruct E as [E1 E2]. rewrite E1, E2, Hc, Ha. rewrite bool_decide_eq_true_2 by done. cbn [orb default].
    change (33 <? zlen [] + 1) with false. cbv iota. rewrite Hf. cbn [mbind option_bind].
    assert (E : fill (default_family o) (found_channel f) (found_adapter f) = st_options s).
    { unfold fill. rewrite E1, Hc, (bool_decide_eq_true_2 (None = None)) by done.
      change (usbnet_adapter ((default_family o) <| qmichannel := Some (found_channel f) |>)) with (usbnet_adapter (default_family o)).
      by rewrite E2, Ha, bool_decide_eq_true_2. }
    rewrite E. change (default [] (usbnet_adapter (st_options s))) with (found_adapter f). by rewrite Hd.
  - destruct (ex_family o Ho) as (_ & [H4|H4] & [H6|H6]); subst s; destruct o as [[]]; cbn in *; subst; reflexivity.
Qed.

(** ** Stopping another instance *)
(** A process of /proc: its number and its arguments; the kernel ends each with a NUL, and has none for its own threads. *)
Definition cmdline_of (argv : list bytes) : bytes := argv ≫= fun a => a ++ [0].
Definition proc_of (x : Z * list bytes) : proc_entry := (str "/proc/" ++ dec x.1 ++ str "/cmdline", Some (Some (cmdline_of x.2))).
(** The arguments with blanks between them. *)
Fixpoint joined (argv : list bytes) : bytes :=
  match argv with [] => [] | [a] => a | a :: argv => a ++ 32 :: joined argv end.
Definition is_instance (name filter : bytes) (x : Z * list bytes) : bool := strstr (joined x.2) name && strstr (joined x.2) filter.
Definition readable (x : Z * list bytes) : Prop := 0 <= x.1 < 2 ^ 31 /\ Forall no_nul x.2 /\ (length (cmdline_of x.2) <= 512)%nat.

Lemma blank_id a : no_nul a -> (fun c => if c =? 0 then 32 else c) <$> a = a.
Proof. induction 1 as [|c a Hc _ IH]; [done|]. cbn. by rewrite (proj2 (Z.eqb_neq _ _) Hc), IH. Qed.
Lemma unsplit_cmdline argv rest : Forall no_nul argv -> argv <> [] ->
  unsplit (length (cmdline_of argv)) (cmdline_of argv ++ rest) = joined argv ++ 0 :: rest.
Proof.
  intros Hn Hne. assert (H : exists b, cmdline_of argv = b ++ [0] /\ (fun c => if c =? 0 then 32 else c) <$> b = joined argv).
  { induction Hn as [|a argv Ha Hn IH]; [done|]. destruct argv as [|a' argv'].
    - exists a. cbn. rewrite app_nil_r. auto using blank_id.
    - destruct IH as (b & E & Eb); [done|]. exists (a ++ 0 :: b). cbn [cmdline_of mbind list_bind] in *. rewrite E. split; [by rewrite <- !app_assoc|].
      rewrite fmap_app, fmap_cons, blank_id, Eb by done. done. }
  destruct H as (b & E & Eb). unfold unsplit. rewrite E, length_app, <- app_assoc. cbn [length app]. rewrite Nat.add_sub.
  by rewrite take_app_length, drop_app_length, Eb.
Qed.

Lemma joined_no_nul argv : Forall no_nul argv -> no_nul (joined argv).
Proof.
  induction 1 as [|a argv Ha Hn IH]; [constructor|]. destruct argv; [done|]. apply Forall_app. split; [done|]. by constructor.
Qed.

Lemma scan_stop f a c rest n : (forall x, x ∈ a -> f x = true) -> f c = false -> (length a < n)%nat -> scan f n (a ++ c :: rest) = (a, c :: rest).
Proof.
  revert n. induction a as [|x a IH]; intros [|n] Ha Hc Hn; cbn in *; try lia; [by rewrite Hc|].
  rewrite Ha by left. rewrite IH; [done | | done | lia]. intros y Hy. apply Ha. by right.
Qed.
Lemma pid_of_path n : 0 <= n < 2 ^ 31 -> pid_of (str "/proc/" ++ dec n ++ str "/cmdline") = n.
Proof.
  intros Hn. destruct (dec_spec n) as (_ & Hd & Hne); [lia|]. unfold pid_of.
  replace (take _ _) with (str "/proc/" ++ dec n).
  2:{ rewrite app_assoc, length_app. change (length (str "/cmdline")) with 8%nat. by rewrite Nat.add_sub, take_app_length. }
  rewrite reverse_app. change (reverse (str "/proc/")) with (47 :: str "corp/"). rewrite scan_stop.
  - cbn [fst]. by rewrite reverse_involutive, atoi_dec.
  - intros x Hx. rewrite elem_of_reverse in Hx. rewrite Forall_forall in Hd. specialize (Hd x Hx). unfold is_digit in Hd.
    apply negb_true_iff, Z.eqb_neq. lia.
  - done.
  - rewrite length_reverse, length_app. change (length (str "/proc/")) with 6%nat. lia.
Qed.

Lemma find_process_spec filter name buf c ps :
  Forall readable ps -> length buf = 512%nat -> cstr buf = Some c -> strstr c name && strstr c filter = false ->
  find_process filter name buf (map proc_of ps) =
    Some (match list_find (fun x => is_instance name filter x = true /\ x.2 <> []) ps with Some (_, x) => x.1 | None => -1 end).
Proof.
  intros Hr. revert buf c. induction Hr as [|[n argv] ps [Hn [Ha Hl]] _ IH]; intros buf c Hb Hc Hm; [done|].
  cbn [map find_process proc_of fst snd]. cbn [fst snd] in Ha, Hl, Hn.
  assert (Hs : sts buf 0 (cmdline_of argv) = Some (cmdline_of argv ++ drop (length (cmdline_of argv)) buf)).
  { unfold sts, zlen. rewrite (proj2 (Z.leb_le (0 + _) _)) by lia. done. }
  rewrite Hs. cbn [mbind option_bind]. destruct (decide (argv = [])) as [->|Hne].
  - change (unsplit (length (cmdline_of [])) (cmdline_of [] ++ drop (length (cmdline_of [])) buf)) with buf. rewrite Hc. cbn [mbind option_bind].
    rewrite Hm. rewrite (IH buf c) by done. cbn [list_find]. rewrite decide_False by (intros [_ H]; done).
    by destruct (list_find _ ps) as [[]|].
  - rewrite unsplit_cmdline by done. rewrite cstr_app by (by apply joined_no_nul). cbn [mbind option_bind list_find].
    fold (is_instance name filter (n, argv)). destruct (is_instance name filter (n, argv)) eqn:E.
    + change (strstr (joined argv) name && strstr (joined argv) filter) with (is_instance name filter (n, argv)). rewrite E, decide_True by done.
      cbn [fst]. by rewrite pid_of_path.
    + change (strstr (joined argv) name && strstr (joined argv) filter) with (is_instance name filter (n, argv)). rewrite E.
      rewrite decide_False by (intros [H _]; congruence).
      rewrite (IH _ (joined argv)).
      * by destruct (list_find _ ps) as [[]|].
      * rewrite length_app. cbn [length]. rewrite length_drop.
        assert (length (cmdline_of argv) = S (length (joined argv))); [|lia].
        clear -Hne. induction argv as [|a argv IH]; [done|]. destruct argv as [|b argv]; [cbn; rewrite !length_app; cbn; lia|].
        specialize (IH ltac:(done)). cbn [cmdline_of mbind list_bind joined] in *. rewrite !length_app in *. cbn [length] in *. rewrite IH. lia.
      * apply cstr_app. by apply joined_no_nul.
      * exact E.
Qed.

Lemma scan_split f n s : (scan f n s).1 ++ (scan f n s).2 = s.
Proof.
  revert s. induction n as [|n IH]; intros [|c s]; cbn; try done. destruct (f c); [|done]. specialize (IH s).
  destruct (scan f n s). cbn in *. by rewrite IH.
Qed.
Lemma base_name_suffix self : exists d, self = d ++ base_name self.
Proof.
  pose proof (scan_split (fun c => negb (c =? 47)) (length self) (reverse self)) as E. unfold base_name.
  eexists. rewrite <- reverse_app, E. by rewrite reverse_involutive.
Qed.
Lemma joined_in l1 a b l2 : exists x y, joined (l1 ++ a :: b :: l2) = x ++ a ++ 32 :: b ++ y.
Proof.
  induction l1 as [|c l1 (x & y & IH)]; cbn [app].
  - exists []. destruct l2 as [|d l2]; [exists []; cbn; by rewrite app_nil_r|]. by exists (32 :: joined (d :: l2)).
  - exists (c ++ 32 :: x), y. rewrite <- app_assoc. cbn [app]. rewrite <- IH. by destruct l1.
Qed.

Lemma filter_digit p : 0 <= p <= 9 -> str "-n " ++ dec_signed p = letter (chr "n") ++ 32 :: [chr "0" + p].
Proof.
  intros Hp. assert (H : p ∈ [0; 1; 2; 3; 4; 5; 6; 7; 8; 9]).
  { assert (p = 0 \/ p = 1 \/ p = 2 \/ p = 3 \/ p = 4 \/ p = 5 \/ p = 6 \/ p = 7 \/ p = 8 \/ p = 9) by lia. set_solver. }
  repeat (apply elem_of_cons in H as [->|H]; [done|]). by apply not_elem_of_nil in H.
Qed.

(** -k finds the instance it is for.  An instance that was started with the program's own options, and that is the first whose command line
    names the program and the channel, is the one that gets SIGINT, whatever processes there are. *)
Theorem kill_finds_instance self o ps1 n ps2 :
  expressible o -> 0 < n ->
  Forall readable (ps1 ++ (n, self :: render o) :: ps2) ->
  Forall (fun x => is_instance (base_name self) (str "-n " ++ dec_signed (pdp (profile o))) x = false) ps1 ->
  kill_data_call_pdp (pdp (profile o)) self (Some (map proc_of (ps1 ++ (n, self :: render o) :: ps2))) = Some (Some n).
Proof.
  intros Ho Hn Hr Hfirst. destruct (ex_digits o Ho) as [Hp _]. unfold kill_data_call_pdp, getpid_by_pdp.
  rewrite (proj2 (Z.ltb_ge _ _)) by (rewrite filter_digit by done; reflexivity || (unfold zlen; cbn; lia)).
  rewrite (find_process_spec _ _ _ []); [|done..|].
  2:{ rewrite filter_digit by done. apply andb_false_r. }
  rewrite (proj2 (list_find_Some _ _ (length ps1) (n, self :: render o))).
  - cbn [mbind option_bind fst]. by rewrite (proj2 (Z.ltb_lt _ _)).
  - split_and!; [by apply list_lookup_middle | | done |].
    + unfold is_instance. cbn [snd]. apply andb_true_iff. split.
      * assert (H : exists y, joined (self :: render o) = self ++ y).
        { cbn [joined]. destruct (render o) as [|r rs]; [exists []; by rewrite app_nil_r | by exists (32 :: joined (r :: rs))]. }
        destruct H as [y ->]. destruct (base_name_suffix self) as [d E]. revert E. generalize (base_name self). intros b ->.
        rewrite <- app_assoc. apply strstr_app.
      * rewrite filter_digit by done. unfold render. rewrite !app_assoc.
        match goal with |- context [self :: ?X ++ [letter (chr "n"); ?b; ?c; ?d]] =>
          destruct (joined_in (self :: X) (letter (chr "n")) b [c; d]) as (x & y & H) end.
        cbn [app] in H. rewrite H. exact (strstr_app x (letter (chr "n") ++ 32 :: [chr "0" + pdp (profile o)]) y).
    + intros j x Hj Hlt [Hm _]. rewrite lookup_app_l in Hj by done. rewrite Forall_lookup in Hfirst.
      by rewrite (Hfirst _ _ Hj) in Hm.
Qed.

(** ** Witnesses *)
Definition sample_options : Options :=
  {| profile := {| apn := Some (str "3gnet"); user := Some (str "carl"); password := Some (str "1234"); auth := 0; pdp := 2;
                   curIpFamily := 0; enable_ipv4 := 1; enable_ipv6 := 0 |};
     muxid := 0; pincode := Some (str "1234"); usbnet_adapter := None; qmichannel := None; replication_factor := 0;
     loopback_state := 0; reattach_flag := 0; enable_bridge := 0; logfile := Some (str "gobinet_log.txt"); usbmon_logfile := None;
     debug_qmi := 0; main_loop := 1 |}.
Lemma sample_expressible : expressible sample_options.
Proof.
  split; cbn.
  - right. eexists _, _, _. split_and!; try done. by repeat constructor.
  - unfold bit. lia.
  - lia.
  - by repeat constructor.
  - lia.
  - unfold bit. lia.
  - done.
Qed.
(** The third example of the usage text. *)
Example usage_example :
  parse [str "-s"; str "3gnet"; str "carl"; str "1234"; str "0"; str "-p"; str "1234"; str "-f"; str "gobinet_log.txt"] =
    Parsed (set_in_profile (fun p => p <| pdp := 1 |> <| enable_ipv4 := 0 |>) sample_options <| main_loop := 0 |>).
Proof. reflexivity. Qed.

Theorem options_roundtrip_witness : parse (render sample_options) = Parsed sample_options.
Proof. apply (options_roundtrip sample_options). apply sample_expressible. Defined.

Definition no_files : Fs := {| f_text := fun _ => None; f_access := fun _ => ENOENT; f_dir := fun _ => None |}.
Definition given_device : Options := sample_options <| usbnet_adapter := Some (str "wwan0") |> <| qmichannel := Some (str "/dev/cdc-wdm0") |>.
Lemma given_expressible : expressible given_device.
Proof.
  split; cbn.
  - right. eexists _, _, _. split_and!; try done. by repeat constructor.
  - unfold bit. lia.
  - lia.
  - by repeat constructor.
  - lia.
  - unfold bit. lia.
  - done.
Qed.
Theorem explicit_device_runs_nothing_witness : main (fs := no_files) (render given_device) = Some (NothingToRun, []).
Proof. apply (explicit_device_runs_nothing (fs := no_files) given_device); [apply given_expressible | done | done]. Defined.

(** One modem, with interface wwan0 and channel cdc-wdm0 at its interface 4. *)
Definition one_modem : Fs :=
  {| f_text := fun p => if bool_decide (p = rootdir ++ str "/1-1/idVendor") then Some (str "2c7c" ++ [newline])
                        else if bool_decide (p = rootdir ++ str "/1-1/busnum") then Some (str "1" ++ [newline])
                        else if bool_decide (p = rootdir ++ str "/1-1/devnum") then Some (str "12" ++ [newline])
                        else if bool_decide (p = str "/sys/class/net/wwan0/device/bInterfaceClass") then Some (str "ff" ++ [newline])
                        else None;
     f_access := fun p => if bool_decide (p ∈ [rootdir ++ str "/1-1:1.4"; rootdir ++ str "/1-1:1.4/usbmisc"; str "/dev/cdc-wdm0"]) then 0 else ENOENT;
     f_dir := fun p => if bool_decide (p = rootdir) then Some [str "."; str ".."; str "usb1"; str "1-1"]
                       else if bool_decide (p = rootdir ++ str "/1-1:1.4/net") then Some [str "."; str ".."; str "wwan0"]
                       else if bool_decide (p = rootdir ++ str "/1-1:1.4/usbmisc") then Some [str "."; str ".."; str "cdc-wdm0"]
                       else None |}.
Definition the_modem : Found :=
  {| found_channel := str "/dev/cdc-wdm0"; found_adapter := str "wwan0"; found_numbers := Some (1, 12) |}.
Theorem main_runs_detected_witness :
  main (fs := one_modem) (render sample_options) =
    Some (QmiMain {| st_options := sample_options <| qmichannel := Some (str "/dev/cdc-wdm0") |> <| usbnet_adapter := Some (str "wwan0") |>;
                     hardware_interface := HARDWARE_USB; software_interface := SOFTWARE_QMI; numbers := Some (1, 12) |}, []).
Proof.
  apply (main_runs_detected (fs := one_modem) sample_options the_modem [] SOFTWARE_QMI);
    [apply sample_expressible | done | done | vm_compute; reflexivity | vm_compute; reflexivity].
Defined.

Theorem kill_finds_instance_witness :
  kill_data_call_pdp 2 (str "/usr/bin/quectel-CM") (Some (map proc_of
    ([(1, [str "/sbin/init"]); (2, [])] ++ (321, str "/usr/bin/quectel-CM" :: render sample_options) :: []))) = Some (Some 321).
Proof.
  apply (kill_finds_instance (str "/usr/bin/quectel-CM") sample_options [(1, [str "/sbin/init"]); (2, [])] 321 []).
  - apply sample_expressible.
  - done.
  - repeat constructor; vm_compute; (lia || discriminate || reflexivity).
  - by repeat constructor.
Defined.

Theorem qmidevice_detect_sound_witness :
  exists es pre e post vendor, f_dir (Fs := one_modem) rootdir = Some es /\ es = pre ++ e :: post /\
    Forall (fun x => exists m, usb_entry (fs := one_modem) [] 33 x = Some (None, m)) pre /\
    file_get_value (fs := one_modem) (snprintf 510 (rootdir ++ [47] ++ e ++ str "/idVendor")) strtol16 = Some vendor /\
    (vendor = 0x05c6 \/ vendor = 0x2c7c) /\
    (exists c, c <> [] /\ found_channel the_modem = snprintf 33 (str "/dev/" ++ c)) /\ found_adapter the_modem <> [] /\
    (found_numbers the_modem <> None -> @nil Z = [] \/ found_adapter the_modem = []).
Proof. apply (qmidevice_detect_sound (fs := one_modem) [] the_modem []). vm_compute. reflexivity. Defined.
