(* ===== verification/MbimProxy.v ===== *)
(** * quectel-mbim-proxy.c: sharing one MBIM device between several managers.
    The proxy opens the device and then relays: a client's request gets the number of the client's slot as the top byte of
    its transaction identifier, and the device's answer goes back to the client of that slot with the identifier as it
    was.  A message without identifier (an indication) goes to every client.  The identifiers are read in the byte
    order of the host ([ld32]), as the code does. *)
From S2P Require Import Prelude Util Monad Layout MbimStructs.
#[local] Open Scope Z_scope.
#[local] Open Scope c_scope.

Definition CM_MAX_CLIENT : nat := 32.
Definition TID_MASK : Z := 0xFFFFFF.
Definition TID_SHIFT : Z := 24.
Definition MBIM_OPEN_MSG : Z := 1.
Definition MBIM_OPEN_DONE : Z := 0x80000001.
Definition sizeof_cm_recv_buffer : Z := 4096.
(** [offsetof(MBIM_MESSAGE_HEADER, TransactionId)], and of [Status] in [MBIM_OPEN_DONE_T]. *)
Definition oTransactionId : Z := MBIM_MESSAGE_HEADER∙"TransactionId".
Definition oStatus : Z := MBIM_OPEN_DONE_T∙"Status".
Definition sizeof_MBIM_OPEN_MSG_T : Z := sizeof[MBIM_OPEN_MSG_T].

Record CM_CLIENT_T := { client_fd : Z; client_idx : Z }.
(** What the proxy does to the world: it offers bytes to a descriptor ([non_block_write] reports success whatever [write]
    says), or closes one. *)
Inductive action := Write (fd : Z) (m : bytes) | CloseFd (fd : Z).
Record MbimProxy := {
  cm_clients : list CM_CLIENT_T; mbim_server_fd : Z; cm_recv_buffer : bytes; actions : list action }.
#[export] Instance eta_MbimProxy : Eta MbimProxy := fun s =>
  {| cm_clients := cm_clients s; mbim_server_fd := mbim_server_fd s; cm_recv_buffer := cm_recv_buffer s; actions := actions s |}.
#[export] Instance set_clients : Setter cm_clients := ltac:(derive_setter).
#[export] Instance set_server : Setter mbim_server_fd := ltac:(derive_setter).
#[export] Instance set_buffer : Setter cm_recv_buffer := ltac:(derive_setter).
#[export] Instance set_actions : Setter actions := ltac:(derive_setter).
Abbreviation MB := (M MbimProxy).

Definition act (a : action) (s : MbimProxy) : MbimProxy := s <| actions := actions s ++ [a] |>.

(** What [socket], [setsockopt] and [bind] answer to [proxy_make_server]. *)
Record ServerEnv := { srv_socket : Z; srv_setsockopt : bool; srv_bind : bool }.

(** What [poll] reports for a descriptor; [Readable] carries what [read] then returns (nothing: it failed, or the end of
    the stream), [Pending] the result of [accept]. *)
Inductive revent := Idle | Hup | Readable (data : bytes) | Pending (accepted : Z).
(** [Return]: the [return len] in the middle of the loop, past the clean-up. *)
Inductive verdict := Next | Error | Return.
Inductive loop_end := Running | Finished.

Section Proxy.
Context {host : Host}.

Definition non_block_write (fd : Z) (data : bytes) (len : Z) : MB Z :=
  m ← lift (lds data 0 len); modify (act (Write fd m));; mret len.

(** The message built on the stack. *)
Definition open_msg (MaxControlTransfer : Z) : bytes :=
  enc32 MBIM_OPEN_MSG ++ enc32 sizeof_MBIM_OPEN_MSG_T ++ enc32 1 ++ enc32 MaxControlTransfer.
Definition mbim_send_open_msg (mbim_dev_fd MaxControlTransfer : Z) : MB Z :=
  non_block_write mbim_dev_fd (open_msg MaxControlTransfer) sizeof_MBIM_OPEN_MSG_T.

(** [safe_close] of a variable that holds [fd]; the result is its new value. *)
Definition safe_close (fd : Z) : MB Z :=
  if 0 <? fd then modify (act (CloseFd fd));; mret (-1) else mret fd.

(** When [setsockopt] fails the socket is closed, and binding -1 fails. *)
Definition proxy_make_server (e : ServerEnv) : MB Z :=
  if srv_socket e <? 0 then mret (-1) else
  fd ← (if srv_setsockopt e then mret (srv_socket e) else safe_close (srv_socket e));
  if srv_setsockopt e && srv_bind e then mret fd else
  safe_close fd;; mret (-1).

(** [accepted] is the result of [accept]. *)
Definition handle_client_connect (accepted : Z) : MB Z :=
  if accepted <? 0 then mret (-1) else
  cs ← gets cm_clients;
  match list_find (fun c => client_fd c <= 0) cs with
  | Some (i, _) =>
      modify (fun s => s <| cm_clients := <[i := {| client_fd := accepted; client_idx := Z.of_nat i + 1 |}]> cs |>);;
      mret 0
  | None => modify (act (CloseFd accepted));; mret (-1)
  end.

Definition handle_client_disconnect (fd : Z) : MB unit :=
  cs ← gets cm_clients;
  match list_find (fun c => client_fd c = fd) cs with
  | Some (i, c) =>
      fd' ← safe_close (client_fd c);
      modify (fun s => s <| cm_clients := <[i := {| client_fd := fd'; client_idx := client_idx c |}]> cs |>)
  | None => mret tt
  end.

(** [pdata] is [cm_recv_buffer]: the identifier is changed there. *)
Definition handle_client_request (mbim_dev_fd fd len : Z) : MB Z :=
  cs ← gets cm_clients;
  match list_find (fun c => client_fd c = fd) cs with
  | Some (_, c) =>
      if client_idx c =? -1 then mret (-1) else
      buf ← gets cm_recv_buffer;
      t ← lift (ld32 buf oTransactionId);
      buf ← lift (st32 buf oTransactionId (u32 ((t .& TID_MASK) + (client_idx c .<< TID_SHIFT))));
      modify (fun s => s <| cm_recv_buffer := buf |>);;
      ret ← non_block_write mbim_dev_fd buf len;
      mret (if ret =? len then 0 else -1)
  | None => mret (-1)
  end.

(** An indication goes to every client. *)
Fixpoint broadcast (buf : bytes) (len : Z) (cs : list CM_CLIENT_T) : MB unit :=
  match cs with
  | [] => mret tt
  | c :: cs => when (0 <? client_fd c) (_ ← non_block_write (client_fd c) buf len; mret tt);; broadcast buf len cs
  end.

Definition handle_device_response (len : Z) : MB Z :=
  buf ← gets cm_recv_buffer;
  cs ← gets cm_clients;
  t ← lift (ld32 buf oTransactionId);
  (if t =? 0 then broadcast buf len cs else
   match list_find (fun c => client_idx c = t .>> TID_SHIFT /\ 0 < client_fd c) cs with
   | Some (_, c) =>
       buf ← lift (st32 buf oTransactionId (t .& TID_MASK));
       modify (fun s => s <| cm_recv_buffer := buf |>);;
       _ ← non_block_write (client_fd c) buf len;
       mret tt
   | None => mret tt
   end);;
  mret 0.

(** The descriptors of the next poll: the device, and when the server is open it and the clients. *)
Definition pollfds (mbim_dev_fd : Z) (s : MbimProxy) : list Z :=
  mbim_dev_fd :: (if 0 <? mbim_server_fd s
                  then mbim_server_fd s :: filter (fun fd => 0 < fd) (map client_fd (cm_clients s)) else []).

(** The device's answer before the server is open. *)
Definition open_done (env : ServerEnv) : MB verdict :=
  buf ← gets cm_recv_buffer;
  t ← lift (ld32 buf 0);
  if t =? MBIM_OPEN_DONE then
    status ← lift (ld32 buf oStatus);
    if negb (status =? 0) then mret Error else
    fd ← proxy_make_server env;
    modify (fun s => s <| mbim_server_fd := fd |>);;
    mret Next
  else mret Next.

(** One descriptor of one poll. *)
Definition handle_fd (env : ServerEnv) (mbim_dev_fd fd : Z) (e : revent) : MB verdict :=
  srv ← gets mbim_server_fd;
  match e with
  | Idle => mret Next
  | Hup =>
      if fd =? mbim_dev_fd then mret Error
      else if fd =? srv then mret Next
      else handle_client_disconnect fd;; mret Next
  | Pending accepted =>
      if fd =? srv then handle_client_connect accepted;; mret Next else undefined
  | Readable data =>
      if fd =? srv then undefined else
      let data := take (Z.to_nat sizeof_cm_recv_buffer) data in
      let len := zlen data in
      buf ← gets cm_recv_buffer;
      buf ← lift (sts buf 0 data);
      modify (fun s => s <| cm_recv_buffer := buf |>);;
      if len <=? 0 then
        if fd =? mbim_dev_fd then mret Error
        else handle_client_disconnect fd;; mret Return
      else if fd =? mbim_dev_fd then
        if srv =? -1 then open_done env else handle_device_response len;; mret Next
      else handle_client_request mbim_dev_fd fd len;; mret Next
  end.

Fixpoint handle_fds (env : ServerEnv) (mbim_dev_fd : Z) (evs : list (Z * revent)) : MB verdict :=
  match evs with
  | [] => mret Next
  | (fd, e) :: evs =>
      v ← handle_fd env mbim_dev_fd fd e;
      match v with Next => handle_fds env mbim_dev_fd evs | v => mret v end
  end.

Fixpoint close_clients (cs : list CM_CLIENT_T) : MB (list CM_CLIENT_T) :=
  match cs with
  | [] => mret []
  | c :: cs =>
      fd ← safe_close (client_fd c);
      cs ← close_clients cs;
      mret ({| client_fd := fd; client_idx := client_idx c |} :: cs)
  end.

(** The label [error]. *)
Definition loop_error (mbim_dev_fd : Z) : MB loop_end :=
  safe_close mbim_dev_fd;;
  srv ← gets mbim_server_fd;
  srv ← safe_close srv;
  modify (fun s => s <| mbim_server_fd := srv |>);;
  cs ← gets cm_clients;
  cs ← close_clients cs;
  modify (fun s => s <| cm_clients := cs |>);;
  mret Finished.

(** The loop on a finite sequence of polls ([None]: it failed or timed out). *)
Fixpoint proxy_polls (env : ServerEnv) (mbim_dev_fd : Z) (polls : list (option (list revent))) : MB loop_end :=
  match polls with
  | [] => mret Running
  | None :: _ => loop_error mbim_dev_fd
  | Some es :: polls =>
      fds ← gets (pollfds mbim_dev_fd);
      v ← handle_fds env mbim_dev_fd (zip fds es);
      match v with
      | Next => proxy_polls env mbim_dev_fd polls
      | Error => loop_error mbim_dev_fd
      | Return => mret Finished
      end
  end.
Definition proxy_loop (env : ServerEnv) (mbim_dev_fd : Z) (polls : list (option (list revent))) : MB loop_end :=
  modify (fun s => s <| mbim_server_fd := -1 |>);;
  if 0 <? mbim_dev_fd then proxy_polls env mbim_dev_fd polls else loop_error mbim_dev_fd.

(** One turn of [main]: [mbim_dev_fd] is the result of [open]; the turn goes on when it failed. *)
Definition no_clients : list CM_CLIENT_T := replicate CM_MAX_CLIENT {| client_fd := 0; client_idx := 0 |}.
Definition main_turn (env : ServerEnv) (mbim_dev_fd : Z) (polls : list (option (list revent))) : MB loop_end :=
  modify (fun s => s <| cm_clients := no_clients |>);;
  mbim_send_open_msg mbim_dev_fd sizeof_cm_recv_buffer;;
  proxy_loop env mbim_dev_fd polls.

(** [main] on a finite sequence of sessions. *)
Fixpoint main_loop (sessions : list (ServerEnv * Z * list (option (list revent)))) : MB loop_end :=
  match sessions with
  | [] => mret Running
  | (env, fd, polls) :: rest =>
      r ← main_turn env fd polls;
      match r with Running => mret Running | Finished => main_loop rest end
  end.
End Proxy.
