(* ===== verification/MbimProxySpec.v ===== *)
(** * What the MBIM proxy of MbimProxy.v guarantees, and where it fails. *)
From S2P Require Import Prelude Util Monad MbimProxy.
#[local] Open Scope Z_scope.
#[local] Open Scope c_scope.

(** Reduces a field of an updated state. *)
Ltac fields :=
  cbn [cm_clients mbim_server_fd cm_recv_buffer actions set_field set_clients set_server set_buffer set_actions act].

(** ** The table of clients *)
(** Slot [i] is free, or holds an open descriptor that no other slot holds; its number is [i + 1] once it was used. *)
Record table_wf (cs : list CM_CLIENT_T) : Prop := {
  wf_length : length cs = CM_MAX_CLIENT;
  wf_idx : forall i c, cs !! i = Some c -> client_idx c = Z.of_nat i + 1 \/ (client_idx c = 0 /\ client_fd c = 0);
  wf_distinct : forall i j c d, cs !! i = Some c -> cs !! j = Some d -> 0 < client_fd c -> client_fd c = client_fd d -> i = j }.

Definition client_fds (cs : list CM_CLIENT_T) : list Z := filter (fun fd => 0 < fd) (map client_fd cs).
Lemma elem_of_client_fds fd cs : fd ∈ client_fds cs <-> 0 < fd /\ exists i c, cs !! i = Some c /\ client_fd c = fd.
Proof.
  unfold client_fds. rewrite list_elem_of_filter. apply and_iff_compat_l. split.
  - intros (c & -> & [i Hi]%list_elem_of_lookup)%list_elem_of_fmap. eauto.
  - intros (i & c & Hi & <-). apply list_elem_of_fmap. eauto using list_elem_of_lookup_2.
Qed.

Lemma no_clients_wf : table_wf no_clients.
Proof.
  split; [done | |].
  - intros i c [-> _]%lookup_replicate. by right.
  - intros i j c d [-> _]%lookup_replicate. done.
Qed.

(** Changing a slot keeps the table well formed when its descriptor is closed or new. *)
Lemma table_wf_insert cs i fd :
  table_wf cs -> fd <= 0 \/ fd ∉ client_fds cs -> table_wf (<[i := {| client_fd := fd; client_idx := Z.of_nat i + 1 |}]> cs).
Proof.
  intros [Hl Hi Hd] Hf. split; [by rewrite length_insert | |].
  - intros j c. rewrite list_lookup_insert_Some. intros [(<- & <- & _)|[_ Hj]]; [by left | eauto].
  - assert (Hnew : forall j c, cs !! j = Some c -> 0 < client_fd c -> fd <> client_fd c).
    { intros j c Hj Hp ->. destruct Hf as [Hf|Hf]; [lia|]. apply Hf. apply elem_of_client_fds. eauto. }
    intros j k c d. rewrite !list_lookup_insert_Some. intros [(<- & <- & _)|[_ Hj]] [(<- & <- & _)|[_ Hk]]; cbn.
    + done.
    + intros Hp E. exfalso. apply (Hnew k d Hk); [lia | done].
    + intros Hp E. exfalso. by apply (Hnew j c Hj).
    + eauto.
Qed.

Lemma find_client cs i fd :
  table_wf cs -> 0 < fd -> cs !! i = Some {| client_fd := fd; client_idx := Z.of_nat i + 1 |} ->
  list_find (fun c => client_fd c = fd) cs = Some (i, {| client_fd := fd; client_idx := Z.of_nat i + 1 |}).
Proof.
  intros W Hp Hi. apply list_find_Some. split_and!; [done..|]. intros j c Hj Hlt E.
  assert (j = i); [|lia]. eapply (wf_distinct cs W); [exact Hj | exact Hi | lia | done].
Qed.

Lemma find_slot cs i fd k :
  table_wf cs -> 0 < fd -> cs !! i = Some {| client_fd := fd; client_idx := Z.of_nat i + 1 |} -> k = Z.of_nat i + 1 ->
  list_find (fun c => client_idx c = k /\ 0 < client_fd c) cs = Some (i, {| client_fd := fd; client_idx := Z.of_nat i + 1 |}).
Proof.
  intros W Hp Hi ->. apply list_find_Some. split_and!; [done..|]. intros j c Hj Hlt [E Hc].
  destruct (wf_idx cs W j c Hj) as [?|[? ?]]; lia.
Qed.

(** ** Messages in the buffer *)
Section Messages.
Context {host : Host}.

(** [m] with another transaction identifier. *)
Definition retag (m : bytes) (t : Z) : bytes := take 8 m ++ enc32 t ++ drop 12 m.

Lemma retag_zlen m t : 12 <= zlen m -> zlen (retag m t) = zlen m.
Proof. unfold retag. intros H. rewrite !zlen_app, zlen_enc32. unfold zlen in *. rewrite length_take, length_drop. lia. Qed.

Lemma st32_retag m junk t : 12 <= zlen m -> st32 (m ++ junk) oTransactionId t = Some (retag m t ++ junk).
Proof.
  intros H. unfold st32, retag.
  rewrite <- (take_drop 8 m) at 1. rewrite <- (take_drop 4 (drop 8 m)), drop_drop, <- !app_assoc.
  apply sts_app; unfold zlen, oTransactionId in *; rewrite length_take; [lia|].
  rewrite length_drop. fold (zlen (enc32 t)). pose proof (zlen_enc32 t). unfold zlen in *. lia.
Qed.

Lemma dec_native_enc32 v : is_u32 v -> dec_native (enc32 v) = v.
Proof.
  intros H. unfold dec_native, enc32, native. destruct (is_bigendian); rewrite ?reverse_involutive; by apply of_le_le32.
Qed.

Lemma ld32_retag m t : 12 <= zlen m -> is_u32 t -> ld32 (retag m t) oTransactionId = Some t.
Proof.
  intros H Ht. unfold ld32, retag. rewrite lds_app by (rewrite ?zlen_enc32; unfold zlen, oTransactionId in *; rewrite ?length_take; lia).
  cbn [mbind option_bind]. by rewrite dec_native_enc32.
Qed.

Lemma ld32_prefix m junk i t : ld32 m i = Some t -> ld32 (m ++ junk) i = Some t.
Proof.
  unfold ld32. destruct (lds m i 4) as [b|] eqn:E; [|done]. by rewrite (lds_mono _ _ _ _ _ E).
Qed.

(** A whole message at the start of the buffer. *)
Lemma read_into buf m : zlen buf = sizeof_cm_recv_buffer -> zlen m <= sizeof_cm_recv_buffer ->
  exists junk, sts buf 0 m = Some (m ++ junk) /\ zlen (m ++ junk) = sizeof_cm_recv_buffer.
Proof.
  intros Hb Hm. exists (drop (length m) buf). unfold sts. rewrite Z.add_0_l, Hb, (proj2 (Z.leb_le (zlen m) _)) by done. split; [done|].
  unfold zlen in *. rewrite length_app, length_drop. lia.
Qed.
Lemma whole_read (m : bytes) : zlen m <= sizeof_cm_recv_buffer -> take (Z.to_nat sizeof_cm_recv_buffer) m = m.
Proof. intros H. apply take_ge. unfold zlen in *. lia. Qed.

Lemma non_block_write_run fd m junk len s : len = zlen m -> non_block_write fd (m ++ junk) len s = Some (len, act (Write fd m) s).
Proof. intros ->. unfold non_block_write. by rewrite lds_app_0, bind_lift. Qed.
End Messages.
#[export] Hint Rewrite @retag_zlen using lia : zlen.

(** The identifier a client's request is passed on with. *)
Definition tag (i : nat) (t : Z) : Z := t mod 2 ^ 24 + (Z.of_nat i + 1) * 2 ^ 24.
Lemma land_mask t : t .& TID_MASK = t mod 2 ^ 24.
Proof. change TID_MASK with (Z.ones 24). by rewrite Z.land_ones. Qed.
Lemma tag_spec i t : (i < CM_MAX_CLIENT)%nat -> u32 ((t .& TID_MASK) + ((Z.of_nat i + 1) .<< TID_SHIFT)) = tag i t.
Proof.
  intros Hi. unfold CM_MAX_CLIENT in Hi. rewrite land_mask, Z.shiftl_mul_pow2 by done. unfold TID_SHIFT, tag, u32. apply Z.mod_small.
  pose proof (Z.mod_pos_bound t (2 ^ 24)). lia.
Qed.
Lemma tag_range i t : (i < CM_MAX_CLIENT)%nat -> is_u32 (tag i t) /\ tag i t <> 0.
Proof. unfold is_u32, tag, CM_MAX_CLIENT. intros Hi. pose proof (Z.mod_pos_bound t (2 ^ 24)). lia. Qed.
Lemma tag_slot i t : tag i t .>> TID_SHIFT = Z.of_nat i + 1.
Proof. unfold tag, TID_SHIFT. rewrite Z.shiftr_div_pow2 by done. zdm. Qed.
Lemma tag_tid i t : tag i t .& TID_MASK = t mod 2 ^ 24.
Proof. rewrite land_mask. unfold tag. zdm. Qed.
Lemma tag_inj i j t u : tag i t = tag j u -> i = j /\ t mod 2 ^ 24 = u mod 2 ^ 24.
Proof. unfold tag. intros H. pose proof (Z.mod_pos_bound t (2 ^ 24)). pose proof (Z.mod_pos_bound u (2 ^ 24)). lia. Qed.

(** ** Steps *)
Section Steps.
Context {host : Host} (env : ServerEnv) (dev : Z).

(** The states between two events. *)
Record serving (s : MbimProxy) : Prop := {
  sv_table : table_wf (cm_clients s);
  sv_buffer : zlen (cm_recv_buffer s) = sizeof_cm_recv_buffer;
  sv_server : 0 < mbim_server_fd s;
  sv_dev : mbim_server_fd s <> dev /\ 0 < dev;
  sv_fds : (dev ∉ client_fds (cm_clients s)) /\ (mbim_server_fd s ∉ client_fds (cm_clients s)) }.

(** The kernel gives out no descriptor that is open. *)
Definition accept_fresh (s : MbimProxy) (e : revent) : Prop :=
  match e with
  | Pending fd => fd <> 0 /\ fd <> dev /\ fd <> mbim_server_fd s /\ fd ∉ client_fds (cm_clients s)
  | _ => True
  end.
(** A run of the loop over events none of which ends it. *)
Inductive serves : MbimProxy -> list (Z * revent) -> MbimProxy -> Prop :=
  | serves_nil s : serves s [] s
  | serves_cons s fd e s1 evs s2 :
      0 < fd -> accept_fresh s e -> handle_fd env dev fd e s = Some (Next, s1) -> serves s1 evs s2 -> serves s ((fd, e) :: evs) s2.

Definition holds (s : MbimProxy) (i : nat) (fd : Z) : Prop :=
  cm_clients s !! i = Some {| client_fd := fd; client_idx := Z.of_nat i + 1 |}.

Lemma holds_lt s i fd : table_wf (cm_clients s) -> holds s i fd -> (i < CM_MAX_CLIENT)%nat.
Proof. intros W H%lookup_lt_Some. by rewrite (wf_length _ W) in H. Qed.
Lemma holds_fds s i fd : 0 < fd -> holds s i fd -> fd ∈ client_fds (cm_clients s).
Proof. intros Hp H. apply elem_of_client_fds. eauto. Qed.

(** A request of the client in slot [i]. *)
Lemma request_step s i fd m t :
  serving s -> 0 < fd -> holds s i fd -> 12 <= zlen m <= sizeof_cm_recv_buffer -> ld32 m oTransactionId = Some t ->
  exists buf, handle_fd env dev fd (Readable m) s =
      Some (Next, act (Write dev (retag m (tag i t))) (s <| cm_recv_buffer := buf |>)) /\ zlen buf = sizeof_cm_recv_buffer.
Proof.
  intros [W Hb Hs [Hsd Hd] [Hf1 Hf2]] Hp Hi Hm Ht.
  assert (Hne : fd <> dev /\ fd <> mbim_server_fd s) by (split; intros ->; eauto using holds_fds).
  destruct (read_into _ m Hb) as (junk & E & Hj); [lia|].
  exists (retag m (tag i t) ++ junk). split.
  2:{ rewrite <- Hj, !zlen_app. zlens. done. }
  unfold handle_fd. rewrite bind_gets. rewrite (proj2 (Z.eqb_neq fd (mbim_server_fd s))) by apply Hne.
  rewrite whole_read by lia. rewrite bind_gets, E, bind_lift, bind_modify. rewrite (proj2 (Z.leb_gt _ _)) by lia.
  rewrite (proj2 (Z.eqb_neq fd dev)) by apply Hne.
  erewrite bind_step; [done|]. unfold handle_client_request. rewrite bind_gets. fields.
  rewrite (find_client _ i fd) by done. cbn [client_idx]. rewrite (proj2 (Z.eqb_neq _ _)) by lia.
  rewrite bind_gets. fields. rewrite (ld32_prefix _ _ _ _ Ht), bind_lift.
  rewrite tag_spec by eauto using holds_lt. rewrite st32_retag, bind_lift, bind_modify by lia.
  erewrite bind_step by (apply non_block_write_run; zlens; done). by rewrite Z.eqb_refl.
Qed.

(** An answer of the device for slot [i]. *)
Lemma answer_step s i fd d t :
  serving s -> 0 < fd -> holds s i fd -> 12 <= zlen d <= sizeof_cm_recv_buffer -> ld32 d oTransactionId = Some (tag i t) ->
  exists buf, handle_fd env dev dev (Readable d) s =
      Some (Next, act (Write fd (retag d (t mod 2 ^ 24))) (s <| cm_recv_buffer := buf |>)) /\ zlen buf = sizeof_cm_recv_buffer.
Proof.
  intros [W Hb Hs [Hsd Hd] [Hf1 Hf2]] Hp Hi Hm Ht.
  destruct (read_into _ d Hb) as (junk & E & Hj); [lia|].
  exists (retag d (t mod 2 ^ 24) ++ junk). split.
  2:{ rewrite <- Hj, !zlen_app. zlens. done. }
  unfold handle_fd. rewrite bind_gets. rewrite (proj2 (Z.eqb_neq dev (mbim_server_fd s))) by congruence.
  rewrite whole_read by lia. rewrite bind_gets, E, bind_lift, bind_modify. rewrite (proj2 (Z.leb_gt _ _)) by lia.
  rewrite Z.eqb_refl, (proj2 (Z.eqb_neq _ (-1))) by lia.
  erewrite bind_step; [done|]. unfold handle_device_response. rewrite !bind_gets. fields.
  rewrite (ld32_prefix _ _ _ _ Ht), bind_lift. rewrite (proj2 (Z.eqb_neq _ _)) by (eapply tag_range; eauto using holds_lt).
  erewrite bind_step; [done|]. rewrite (find_slot _ i fd) by (done || apply tag_slot). cbn [client_fd].
  rewrite st32_retag, bind_lift, bind_modify, tag_tid by lia.
  erewrite bind_step by (apply non_block_write_run; zlens; done). reflexivity.
Qed.

(** [handle_client_connect] and [handle_client_disconnect] as updates of the table. *)
Lemma connect_step s fd : 0 < fd ->
  exists r s', handle_client_connect fd s = Some (r, s') /\ cm_recv_buffer s' = cm_recv_buffer s /\
    mbim_server_fd s' = mbim_server_fd s /\
    ((exists i c, cm_clients s !! i = Some c /\ client_fd c <= 0 /\
        cm_clients s' = <[i := {| client_fd := fd; client_idx := Z.of_nat i + 1 |}]> (cm_clients s) /\ actions s' = actions s) \/
     (cm_clients s' = cm_clients s /\ actions s' = actions s ++ [CloseFd fd])).
Proof.
  intros Hp. unfold handle_client_connect. rewrite (proj2 (Z.ltb_ge _ _)) by lia. rewrite bind_gets.
  destruct (list_find _ _) as [[i c]|] eqn:E.
  - apply list_find_Some in E as (Hi & Hc & _). rewrite bind_modify. eexists _, _. split; [reflexivity|]. cbn. eauto 10.
  - rewrite bind_modify. eexists _, _. split; [reflexivity|]. cbn. eauto.
Qed.

Lemma disconnect_step s fd : table_wf (cm_clients s) -> 0 < fd ->
  exists s', handle_client_disconnect fd s = Some (tt, s') /\ cm_recv_buffer s' = cm_recv_buffer s /\
    mbim_server_fd s' = mbim_server_fd s /\
    (cm_clients s' = cm_clients s \/ exists i, holds s i fd /\
        cm_clients s' = <[i := {| client_fd := -1; client_idx := Z.of_nat i + 1 |}]> (cm_clients s)).
Proof.
  intros W Hp. unfold handle_client_disconnect. rewrite bind_gets. destruct (list_find _ _) as [[i c]|] eqn:E; [|eauto 10].
  apply list_find_Some in E as (Hi & Hc & _). unfold safe_close. rewrite Hc, (proj2 (Z.ltb_lt _ _)) by done.
  erewrite bind_step by (rewrite bind_modify; reflexivity).
  destruct (wf_idx _ W i c Hi) as [Hx|[? ?]]; [|lia].
  eexists. split; [reflexivity|]. cbn. split_and!; [done..|]. right. exists i. rewrite Hx. split; [|done].
  unfold holds. rewrite Hi. destruct c; cbn in *. by subst.
Qed.

(** ** What a step leaves alone *)
Definition fixed (s : MbimProxy) := (cm_clients s, mbim_server_fd s).
Lemma non_block_write_fixed fd m len : keeps (fun s => (fixed s, cm_recv_buffer s)) (non_block_write fd m len).
Proof. unfold non_block_write. frame. Qed.
Hint Resolve non_block_write_fixed : keeps.
Lemma broadcast_fixed buf len cs : keeps (fun s => (fixed s, cm_recv_buffer s)) (broadcast buf len cs).
Proof. induction cs as [|c cs IH]; cbn [broadcast]; frame; done. Qed.

(** Storing the identifier and writing the message. *)
Definition passes {A} (m : MB A) : Prop := forall s a s',
  m s = Some (a, s') -> fixed s' = fixed s /\ zlen (cm_recv_buffer s') = zlen (cm_recv_buffer s).
Lemma passes_of_keeps {A} (m : MB A) : keeps (fun s => (fixed s, cm_recv_buffer s)) m -> passes m.
Proof. intros H s a s' E. specialize (H _ _ _ E). cbn in H. injection H as H1 H2 H3. unfold fixed. by rewrite H1, H2, H3. Qed.
Lemma passes_retagged {A} buf v (k : bytes -> MB A) s a s' :
  (forall b, passes (k b)) -> zlen buf = zlen (cm_recv_buffer s) ->
  (buf' ← lift (st32 buf oTransactionId v); modify (fun s => s <| cm_recv_buffer := buf' |>);; k buf') s = Some (a, s') ->
  fixed s' = fixed s /\ zlen (cm_recv_buffer s') = zlen (cm_recv_buffer s).
Proof.
  intros Hk Hb (b & Eb & E)%bind_lift_inv. rewrite bind_modify in E. destruct (Hk _ _ _ _ E) as [H1 H2]. rewrite H1, H2.
  split; [done|]. fields. rewrite <- Hb. by apply sts_length in Eb.
Qed.

Lemma response_passes len : passes (handle_device_response len).
Proof.
  intros s a s'. unfold handle_device_response. rewrite !bind_gets. intros (t & _ & E)%bind_lift_inv.
  apply bind_inv in E as ([] & s1 & E & [= <- <-]). destruct (t =? 0).
  - by apply (passes_of_keeps _ (broadcast_fixed _ _ _)) in E.
  - destruct (list_find _ _) as [[i c]|]; [|by injection E as <-].
    eapply passes_retagged in E; [done | | done]. intros b. apply passes_of_keeps. frame.
Qed.

Lemma request_passes fd len : passes (handle_client_request dev fd len).
Proof.
  intros s a s'. unfold handle_client_request. rewrite bind_gets. destruct (list_find _ _) as [[i c]|]; [|by intros [= _ <-]].
  destruct (client_idx c =? -1); [by intros [= _ <-]|]. rewrite bind_gets. intros (t & _ & E)%bind_lift_inv.
  eapply passes_retagged in E; [done | | done]. intros b. apply passes_of_keeps. frame.
Qed.

(** ** Every step keeps the table well formed, and a client in its slot until it hangs up. *)
Definition stays (fd : Z) (e : revent) (s s' : MbimProxy) : Prop :=
  forall i c, 0 < c -> holds s i c -> (fd, e) <> (c, Hup) -> holds s' i c.

Lemma serving_fixed fd e s s' :
  fixed s' = fixed s -> zlen (cm_recv_buffer s') = zlen (cm_recv_buffer s) -> serving s -> serving s' /\ stays fd e s s'.
Proof.
  intros [= E1 E2] E3 [? ? ? ? ?]. split; [split; rewrite ?E1, ?E2, ?E3; done|]. unfold stays, holds. by rewrite E1.
Qed.

Lemma client_fds_insert cs i x fd : fd ∈ client_fds (<[i := x]> cs) -> fd = client_fd x \/ fd ∈ client_fds cs.
Proof.
  rewrite !elem_of_client_fds. intros (Hp & j & c & Hj & <-). apply list_lookup_insert_Some in Hj as [(<- & <- & _)|[_ Hj]]; eauto 10.
Qed.

Lemma serving_table s s' i x :
  cm_clients s' = <[i := {| client_fd := x; client_idx := Z.of_nat i + 1 |}]> (cm_clients s) ->
  mbim_server_fd s' = mbim_server_fd s -> cm_recv_buffer s' = cm_recv_buffer s ->
  x <= 0 \/ (x <> dev /\ x <> mbim_server_fd s /\ x ∉ client_fds (cm_clients s)) -> serving s -> serving s'.
Proof.
  intros E1 E2 E3 Hx [W Hb Hs [Hsd Hd] [Hf1 Hf2]]. split; rewrite ?E1, ?E2, ?E3; try done.
  - apply table_wf_insert; [done|]. destruct Hx as [?|(? & ? & ?)]; eauto.
  - assert (Hn : forall f, 0 < f -> f <> x \/ x <= 0 -> f ∉ client_fds (cm_clients s) ->
      f ∉ client_fds (<[i := {| client_fd := x; client_idx := Z.of_nat i + 1 |}]> (cm_clients s))).
    { intros f Hp Hfx Hf [E|E]%client_fds_insert; [|done]. cbn in E. subst. destruct Hfx; [done|lia]. }
    destruct Hx as [Hx|(? & ? & ?)]; split; apply Hn; try lia; eauto.
Qed.

Lemma step_serving fd e s s' :
  serving s -> 0 < fd -> accept_fresh s e -> handle_fd env dev fd e s = Some (Next, s') -> serving s' /\ stays fd e s s'.
Proof.
  intros Hs Hp Ha. unfold handle_fd. rewrite bind_gets. destruct e as [| |data|x].
  - intros [= <-]. by apply serving_fixed.
  - destruct (Z.eqb_spec fd dev); [done|]. destruct (Z.eqb_spec fd (mbim_server_fd s)); [intros [= <-]; by apply serving_fixed|].
    intros ([] & s1 & E & [= <-])%bind_inv.
    destruct (disconnect_step s fd) as (s2 & E2 & H1 & H2 & H3); [apply Hs | done |]. rewrite E2 in E. injection E as ->.
    destruct H3 as [H3|(i & Hi & H3)]; [apply serving_fixed; [unfold fixed; congruence | congruence | done]|].
    split; [eapply serving_table; eauto; left; lia|]. intros j c Hc Hj Hne. unfold holds. rewrite H3.
    rewrite list_lookup_insert_ne; [done|]. intros <-. unfold holds in *. rewrite Hi in Hj. by injection Hj as ->.
  - destruct (Z.eqb_spec fd (mbim_server_fd s)); [done|]. rewrite bind_gets. intros (b & Eb & E)%bind_lift_inv. rewrite bind_modify in E.
    assert (Hb : fixed (s <| cm_recv_buffer := b |>) = fixed s) by done.
    assert (Hz : zlen b = zlen (cm_recv_buffer s)) by (by apply sts_length in Eb).
    destruct (_ <=? 0).
    { destruct (fd =? dev); [done|]. apply bind_inv in E as (? & ? & _ & E). done. }
    destruct (Z.eqb_spec fd dev).
    + rewrite (proj2 (Z.eqb_neq _ _)) in E by (destruct Hs; lia). apply bind_inv in E as (? & s1 & E & [= <-]).
      apply response_passes in E as [E1 E2]. apply serving_fixed; [congruence | by rewrite E2 | done].
    + apply bind_inv in E as (? & s1 & E & [= <-]).
      apply request_passes in E as [E1 E2]. apply serving_fixed; [congruence | by rewrite E2 | done].
  - destruct (Z.eqb_spec fd (mbim_server_fd s)); [|done]. intros (r & s1 & E & [= <-])%bind_inv. cbn in Ha.
    destruct (Z.lt_ge_cases x 0) as [Hx|Hx].
    { unfold handle_client_connect in E. rewrite (proj2 (Z.ltb_lt _ _)) in E by done. injection E as <- <-. by apply serving_fixed. }
    destruct (connect_step s x) as (r' & s2 & E2 & H1 & H2 & H3); [lia|]. rewrite E2 in E. injection E as <- <-.
    destruct H3 as [(i & c & Hi & Hc & H3 & _)|[H3 _]]; [|apply serving_fixed; [unfold fixed; congruence | congruence | done]].
    split; [eapply serving_table; eauto; naive_solver|]. intros j d Hd Hj _. unfold holds. rewrite H3.
    rewrite list_lookup_insert_ne; [done|]. intros <-. unfold holds in Hj. rewrite Hj in Hi. injection Hi as <-. cbn in Hc. lia.
Qed.

Lemma serves_serving s evs s' i fd :
  serves s evs s' -> serving s -> 0 < fd -> holds s i fd -> (fd, Hup) ∉ evs -> serving s' /\ holds s' i fd.
Proof.
  induction 1 as [s|s f e s1 evs s2 Hf Ha E _ IH]; intros Hs Hp Hi Hh; [done|].
  destruct (step_serving _ _ _ _ Hs Hf Ha E) as [Hs1 Hi1].
  apply IH; [done..| |set_solver]. apply Hi1; [done..|]. intros [= -> ->]. apply Hh. left.
Qed.
End Steps.

(** C11: a client of the proxy gets its own answers.  In any state of the loop, whatever the clients and the device
    do until then, a request of the client in slot [i] goes to the device with an identifier that no other client's request carries,
    and the device's answer under that identifier goes, as long as the client has not hung up, to that client
    and to nobody else, with the client's own identifier (its low 24 bits) and all other bytes unchanged. *)
Theorem answers_reach_requester {host : Host} env dev s i fd m t :
  serving dev s -> 0 < fd -> holds s i fd -> 12 <= zlen m <= sizeof_cm_recv_buffer -> ld32 m oTransactionId = Some t ->
  exists s1, handle_fd env dev fd (Readable m) s = Some (Next, s1) /\
    actions s1 = actions s ++ [Write dev (retag m (tag i t))] /\
    (forall j u, tag j u = tag i t -> j = i /\ u mod 2 ^ 24 = t mod 2 ^ 24) /\
    forall evs s2 d, serves env dev s1 evs s2 -> (fd, Hup) ∉ evs ->
      12 <= zlen d <= sizeof_cm_recv_buffer -> ld32 d oTransactionId = Some (tag i t) ->
      exists s3, handle_fd env dev dev (Readable d) s2 = Some (Next, s3) /\ serving dev s3 /\
        actions s3 = actions s2 ++ [Write fd (retag d (t mod 2 ^ 24))].
Proof.
  intros Hs Hp Hi Hm Ht. destruct (request_step env dev s i fd m t) as (buf & E & Hb); [done..|].
  eexists. split; [exact E|]. split_and!; [done | intros j u Hj; by apply tag_inj in Hj |]. intros evs s2 d Hr Hh Hd Htd.
  destruct (step_serving env dev fd (Readable m) s _ Hs Hp I E) as [Hs1 Hi1].
  destruct (serves_serving env dev _ _ _ i fd Hr Hs1 Hp) as [Hs2 Hi2]; [by apply Hi1 | done |].
  destruct (answer_step env dev s2 i fd d t) as (buf2 & E2 & _); [done..|]. eexists. split; [exact E2|]. split; [|done].
  eapply (step_serving env dev dev (Readable d)); [done | apply Hs2 | done | exact E2].
Qed.

(** ** A whole session *)
Section Session.
Context {host : Host} (env : ServerEnv) (dev : Z).

(** A run as the loop makes it. *)
Lemma serves_handle_fds s evs s' : serves env dev s evs s' -> handle_fds env dev evs s = Some (Next, s').
Proof. induction 1 as [|s fd e s1 evs s2 _ _ E _ IH]; [done|]. cbn [handle_fds]. by erewrite bind_step by exact E. Qed.

(** The device's acknowledgement opens the server, and then the proxy serves. *)
Lemma opened_serves s m :
  cm_clients s = no_clients -> zlen (cm_recv_buffer s) = sizeof_cm_recv_buffer -> mbim_server_fd s = -1 -> 0 < dev ->
  zlen m = 16 -> ld32 m 0 = Some MBIM_OPEN_DONE -> ld32 m oStatus = Some 0 ->
  0 < srv_socket env -> srv_socket env <> dev -> srv_setsockopt env = true -> srv_bind env = true ->
  exists s', handle_fd env dev dev (Readable m) s = Some (Next, s') /\ serving dev s' /\ actions s' = actions s.
Proof.
  intros Hc Hb Hs Hd Hm Ht Hst Hp Hne Ho Hbi.
  destruct (read_into _ m Hb) as (junk & E & Hj); [unfold sizeof_cm_recv_buffer; lia|].
  exists (s <| cm_recv_buffer := m ++ junk |> <| mbim_server_fd := srv_socket env |>). split_and!; [ | | done].
  - unfold handle_fd. rewrite bind_gets, Hs. rewrite (proj2 (Z.eqb_neq dev (-1))) by lia.
    rewrite whole_read by (unfold sizeof_cm_recv_buffer; lia). rewrite bind_gets, E, bind_lift, bind_modify, Hm.
    rewrite (proj2 (Z.leb_gt _ _)) by done. rewrite !Z.eqb_refl. unfold open_done. rewrite bind_gets. fields.
    rewrite (ld32_prefix _ _ _ _ Ht), bind_lift, Z.eqb_refl, (ld32_prefix _ _ _ _ Hst), bind_lift. cbn [negb Z.eqb].
    unfold proxy_make_server. rewrite (proj2 (Z.ltb_ge _ _)) by lia. by rewrite Ho, Hbi.
  - split; fields; rewrite ?Hc; [apply no_clients_wf | done | done | lia |].
    change (client_fds no_clients) with (@nil Z). split; apply not_elem_of_nil.
Qed.

(** The error path closes the device, the server and every client once, and leaves nothing open. *)
Lemma close_clients_run cs s :
  exists cs', close_clients cs s = Some (cs', s <| actions := actions s ++ map CloseFd (client_fds cs) |>) /\ client_fds cs' = [].
Proof.
  revert s. induction cs as [|c cs IH]; intros s.
  { exists []. split; [|done]. cbn. unfold set_actions. destruct s. cbn. by rewrite app_nil_r. }
  cbn [close_clients]. unfold safe_close, client_fds. cbn [map]. rewrite filter_cons. fold (client_fds cs).
  destruct (Z.ltb_spec 0 (client_fd c)) as [H|H].
  - rewrite decide_True by done. destruct (IH (act (CloseFd (client_fd c)) s)) as (cs' & E & Hn).
    eexists. split.
    + erewrite bind_step by (rewrite bind_modify; reflexivity). erewrite bind_step by exact E. cbn. by rewrite <- app_assoc.
    + by cbn.
  - rewrite decide_False by lia. destruct (IH s) as (cs' & E & Hn). eexists. split.
    + rewrite bind_ret. by erewrite bind_step by exact E.
    + unfold client_fds in *. cbn. rewrite decide_False by lia. done.
Qed.
End Session.

(** An error of the device, or of the poll, ends the loop with everything closed: the device, the server and each
    client's descriptor exactly once, and no client is left in the table. *)
Theorem error_closes_everything {host : Host} dev s :
  0 < dev -> 0 < mbim_server_fd s ->
  exists s', loop_error dev s = Some (Finished, s') /\
    actions s' = actions s ++ map CloseFd (dev :: mbim_server_fd s :: client_fds (cm_clients s)) /\
    mbim_server_fd s' = -1 /\ client_fds (cm_clients s') = [].
Proof.
  intros Hd Hs. unfold loop_error, safe_close. rewrite (proj2 (Z.ltb_lt 0 dev)) by done.
  erewrite bind_step by (rewrite bind_modify; reflexivity). rewrite bind_gets. fields. rewrite (proj2 (Z.ltb_lt 0 _)) by done.
  erewrite bind_step by (rewrite bind_modify; reflexivity). rewrite bind_modify, bind_gets. fields.
  match goal with |- context [close_clients ?cs ≫= ?k] =>
    match goal with |- context [(close_clients cs ≫= k) ?s0] => destruct (close_clients_run cs s0) as (cs' & E & Hn) end end.
  erewrite bind_step by exact E. rewrite bind_modify. eexists. split; [reflexivity|]. fields. split_and!; [|done..].
  by rewrite <- !app_assoc.
Qed.

(** An indication of the device goes to every client, once each, in the order of the slots and unchanged. *)
Theorem indications_reach_everyone {host : Host} env dev s d :
  serving dev s -> 12 <= zlen d <= sizeof_cm_recv_buffer -> ld32 d oTransactionId = Some 0 ->
  exists s', handle_fd env dev dev (Readable d) s = Some (Next, s') /\ cm_clients s' = cm_clients s /\
    actions s' = actions s ++ map (fun fd => Write fd d) (client_fds (cm_clients s)).
Proof.
  intros [W Hb Hs [Hsd Hd] [Hf1 Hf2]] Hm Ht.
  destruct (read_into _ d Hb) as (junk & E & Hj); [lia|].
  unfold handle_fd. rewrite bind_gets. rewrite (proj2 (Z.eqb_neq dev (mbim_server_fd s))) by congruence.
  rewrite whole_read by lia. rewrite bind_gets, E, bind_lift, bind_modify. rewrite (proj2 (Z.leb_gt _ _)) by lia.
  rewrite Z.eqb_refl, (proj2 (Z.eqb_neq _ (-1))) by lia.
  assert (Hbr : forall cs s, broadcast (d ++ junk) (zlen d) cs s =
    Some (tt, s <| actions := actions s ++ map (fun fd => Write fd d) (client_fds cs) |>)).
  { clear. induction cs as [|c cs IH]; intros s.
    - cbn. destruct s. cbn. by rewrite app_nil_r.
    - cbn [broadcast]. unfold client_fds. cbn [map]. rewrite filter_cons. fold (client_fds cs).
      destruct (Z.ltb_spec 0 (client_fd c)) as [H|H]; cbn [when].
      + rewrite decide_True by done. erewrite bind_step.
        2:{ erewrite bind_step by (by apply non_block_write_run). reflexivity. }
        rewrite IH. cbn. by rewrite <- app_assoc.
      + rewrite decide_False by lia. by rewrite bind_ret, IH. }
  eexists. split.
  { erewrite bind_step; [reflexivity|]. unfold handle_device_response. rewrite !bind_gets. fields.
    rewrite (ld32_prefix _ _ _ _ Ht), bind_lift. cbn [Z.eqb]. erewrite bind_step by apply Hbr. reflexivity. }
  done.
Qed.

(** ** After a half-closed client *)
(** No server and no client. *)
Definition dead (s : MbimProxy) : Prop := mbim_server_fd s = -1 /\ client_fds (cm_clients s) = [].

Section Dead.
Context {host : Host} (env : ServerEnv) (dev : Z) (Hbind : srv_bind env = false).

Lemma safe_close_frame fd : keeps (fun s => (cm_clients s, mbim_server_fd s)) (safe_close fd).
Proof. unfold safe_close. frame. Qed.
Hint Resolve safe_close_frame : keeps.

Lemma make_server_fails s fd s' : proxy_make_server env s = Some (fd, s') ->
  fd = -1 /\ cm_clients s' = cm_clients s.
Proof.
  intros E. assert (K : keeps (fun s => (cm_clients s, mbim_server_fd s)) (proxy_make_server env)).
  { unfold proxy_make_server. frame. }
  specialize (K _ _ _ E). injection K as K _. split; [|done]. revert E. unfold proxy_make_server. rewrite Hbind, andb_false_r.
  destruct (_ <? 0); [by intros [= <-]|]. intros (x & s1 & _ & E)%bind_inv. apply bind_inv in E as (y & s2 & _ & E). by injection E as <-.
Qed.

Lemma dead_step e s v s' : 0 < dev -> dead s -> handle_fd env dev dev e s = Some (v, s') -> dead s' /\ v <> Return.
Proof.
  intros Hd [Hs Hc]. unfold handle_fd. rewrite bind_gets, Hs, (proj2 (Z.eqb_neq dev (-1))), Z.eqb_refl by lia.
  destruct e as [| |data|x]; [by intros [= <- <-] | by intros [= <- <-] | | done].
  rewrite bind_gets. intros (b & _ & E)%bind_lift_inv. rewrite bind_modify in E.
  destruct (_ <=? 0); [by injection E as <- <-|]. rewrite Z.eqb_refl in E. unfold open_done in E. rewrite bind_gets in E.
  apply bind_lift_inv in E as (t & _ & E). destruct (_ =? MBIM_OPEN_DONE); [|by injection E as <- <-].
  apply bind_lift_inv in E as (st & _ & E). destruct (negb _); [by injection E as <- <-|].
  apply bind_inv in E as (fd & s1 & E & [= <- <-]). apply make_server_fails in E as [-> E]. split; [|done].
  split; [done|]. fields. rewrite E. exact Hc.
Qed.

Lemma dead_error fd s r s' : dead s -> loop_error fd s = Some (r, s') -> dead s'.
Proof.
  intros [Hs Hc]. unfold loop_error. intros (x & s1 & E1 & E)%bind_inv. apply safe_close_frame in E1. injection E1 as E1 E2.
  rewrite bind_gets, E2, Hs in E. apply bind_inv in E as (y & s2 & E3 & E). injection E3 as <- <-.
  rewrite bind_modify, bind_gets in E.
  match type of E with (close_clients ?cs ≫= ?k) ?s0 = _ => destruct (close_clients_run cs s0) as (cs' & E4 & Hn) end.
  erewrite bind_step in E by exact E4. injection E as <- <-. by split.
Qed.

Lemma dead_polls polls s r s' : 0 < dev -> dead s -> proxy_polls env dev polls s = Some (r, s') -> dead s'.
Proof.
  intros Hd. revert s. induction polls as [|[es|] polls IH]; intros s Hs; cbn [proxy_polls].
  - by intros [= <- <-].
  - rewrite bind_gets. unfold pollfds. rewrite (proj2 (Z.ltb_ge _ _)) by (destruct Hs; lia). destruct es as [|e es]; [apply IH, Hs|].
    cbn [zip zip_with]. intros (v & s1 & E & E2)%bind_inv. cbn [handle_fds] in E. apply bind_inv in E as (w & s2 & E & E3).
    destruct (dead_step _ _ _ _ Hd Hs E) as [Hs2 Hw].
    assert (H : dead s1 /\ v <> Return) by (destruct w; [injection E3 as <- <- | injection E3 as <- <- |]; done).
    destruct H as [H Hv]. destruct v; [by eapply IH | by eapply dead_error | done].
  - intros E. by eapply dead_error.
Qed.

Lemma dead_turn polls s r s' : main_turn env dev polls s = Some (r, s') -> dead s'.
Proof.
  unfold main_turn. rewrite bind_modify. intros (x & s1 & E1 & E)%bind_inv. apply (non_block_write_fixed _ _ _) in E1.
  cbn in E1. injection E1 as E1 _ _. unfold proxy_loop in E. rewrite bind_modify in E.
  assert (Hd : dead (s1 <| mbim_server_fd := -1 |>)) by (split; [done|]; fields; by rewrite E1).
  destruct (Z.ltb_spec 0 dev); [by eapply dead_polls in E | by eapply dead_error in E].
Qed.
End Dead.

Lemma dead_sessions {host : Host} sessions s r s' :
  sessions <> [] -> Forall (fun x => srv_bind x.1.1 = false) sessions -> main_loop sessions s = Some (r, s') -> dead s'.
Proof.
  intros Hne Hf. revert s Hne. induction Hf as [|[[env fd] polls] rest Hb Hf IH]; intros s Hne; [done|]. cbn [main_loop].
  intros (r1 & s1 & E1 & E2)%bind_inv. apply dead_turn in E1; [|done]. destruct r1; [by injection E2 as <- <-|].
  destruct rest as [|x rest]; [by injection E2 as <- <- | by eapply IH].
Qed.

(** A client that shuts down its writing side (a read of 0 without a hang-up) ends the proxy's service for good.  The loop
    returns in the middle: the client is closed, the device, the server and the other clients are not; and as the
    open server keeps its name, the server of no later session can be bound, so no client is ever served again. *)
Theorem half_closed_client_ends_service {host : Host} env dev s i fd :
  serving dev s -> 0 < fd -> holds s i fd ->
  exists s', handle_fd env dev fd (Readable []) s = Some (Return, s') /\
    actions s' = actions s ++ [CloseFd fd] /\ mbim_server_fd s' = mbim_server_fd s /\
    forall sessions r s2, sessions <> [] -> Forall (fun x => srv_bind x.1.1 = false) sessions ->
      main_loop sessions s' = Some (r, s2) -> mbim_server_fd s2 = -1 /\ client_fds (cm_clients s2) = [].
Proof.
  intros [W Hb Hs [Hsd Hd] [Hf1 Hf2]] Hp Hi.
  assert (Hne : fd <> dev /\ fd <> mbim_server_fd s) by (split; intros ->; eauto using holds_fds).
  unfold handle_fd. rewrite bind_gets, (proj2 (Z.eqb_neq fd (mbim_server_fd s))) by apply Hne.
  destruct (read_into _ [] Hb) as (junk & E & Hj); [done|]. rewrite take_nil, bind_gets, E, bind_lift, bind_modify.
  change (zlen [] <=? 0) with true. cbv iota.
  rewrite (proj2 (Z.eqb_neq fd dev)) by apply Hne. unfold handle_client_disconnect.
  eexists. split.
  { erewrite bind_step; [reflexivity|]. rewrite bind_gets. fields. rewrite (find_client _ i fd) by done. unfold safe_close. cbn [client_fd].
    rewrite (proj2 (Z.ltb_lt _ _)) by done. erewrite bind_step by (rewrite bind_modify; reflexivity). reflexivity. }
  split_and!; [done..|]. intros sessions r s2. apply dead_sessions.
Qed.

(** An answer can reach the wrong client.  When the client hangs up before its answer and a new client is given its slot,
    the answer to the first goes to the second. *)
Theorem late_answer_misrouted {host : Host} env dev s i fd x d t :
  serving dev s -> 0 < fd -> holds s i fd -> (forall j c, cm_clients s !! j = Some c -> (j < i)%nat -> 0 < client_fd c) ->
  0 < x -> accept_fresh dev s (Pending x) -> 12 <= zlen d <= sizeof_cm_recv_buffer -> ld32 d oTransactionId = Some (tag i t) ->
  exists s1 s2, serves env dev s [(fd, Hup); (mbim_server_fd s, Pending x)] s1 /\
    handle_fd env dev dev (Readable d) s1 = Some (Next, s2) /\ actions s2 = actions s1 ++ [Write x (retag d (t mod 2 ^ 24))].
Proof.
  intros Hs Hp Hi Hfull Hx Ha Hd Ht.
  assert (Hne : fd <> dev /\ fd <> mbim_server_fd s).
  { destruct Hs as [_ _ _ _ [Hf1 Hf2]]. split; intros ->; eauto using holds_fds. }
  set (s1 := act (CloseFd fd) s <| cm_clients := <[i := {| client_fd := -1; client_idx := Z.of_nat i + 1 |}]> (cm_clients s) |>).
  assert (E1 : handle_fd env dev fd Hup s = Some (Next, s1)).
  { unfold handle_fd. rewrite bind_gets, !(proj2 (Z.eqb_neq fd _)) by apply Hne. unfold handle_client_disconnect.
    erewrite bind_step; [reflexivity|]. rewrite bind_gets. rewrite (find_client _ i fd) by (apply Hs || done). unfold safe_close. cbn [client_fd].
    rewrite (proj2 (Z.ltb_lt _ _)) by done. erewrite bind_step by (rewrite bind_modify; reflexivity). reflexivity. }
  destruct (step_serving env dev fd Hup s s1 Hs Hp I E1) as [Hs1 _].
  assert (Ha1 : accept_fresh dev s1 (Pending x)).
  { destruct Ha as (A1 & A2 & A3 & A4). split_and!; [done..|]. intros [E|E]%client_fds_insert; [cbn in E; lia | done]. }
  set (s2 := s1 <| cm_clients := <[i := {| client_fd := x; client_idx := Z.of_nat i + 1 |}]> (cm_clients s1) |>).
  assert (Hlt : (i < length (cm_clients s))%nat) by by apply lookup_lt_Some in Hi.
  assert (E2 : handle_fd env dev (mbim_server_fd s) (Pending x) s1 = Some (Next, s2)).
  { unfold handle_fd. rewrite bind_gets, Z.eqb_refl. erewrite bind_step; [reflexivity|]. unfold handle_client_connect.
    rewrite (proj2 (Z.ltb_ge _ _)), bind_gets by lia.
    rewrite (proj2 (list_find_Some _ _ i {| client_fd := -1; client_idx := Z.of_nat i + 1 |})); [reflexivity|].
    split_and!; [by apply list_lookup_insert_eq | cbn; lia |]. intros j c Hj Hji Hc.
    unfold s1 in Hj. cbn in Hj. rewrite list_lookup_insert_ne in Hj by lia. specialize (Hfull _ _ Hj Hji). lia. }
  destruct (step_serving env dev _ _ _ _ Hs1 (sv_server _ _ Hs) Ha1 E2) as [Hs2 _].
  destruct (answer_step env dev s2 i x d t) as (buf & E3 & _); [done|done| |done|done|].
  { unfold holds, s2. cbn. apply list_lookup_insert_eq. by rewrite length_insert. }
  exists s2. eexists. split_and!; [|exact E3|done].
  eapply serves_cons; [done..|]. eapply serves_cons; [apply Hs | done | exact E2 | constructor].
Qed.

(** ** Witnesses: the device is descriptor 3, the server 4, and client 5 is in the first slot. *)
Definition served : MbimProxy :=
  {| cm_clients := <[0%nat := {| client_fd := 5; client_idx := 1 |}]> no_clients; mbim_server_fd := 4;
     cm_recv_buffer := replicate 4096 0; actions := [] |}.
Definition works : ServerEnv := {| srv_socket := 4; srv_setsockopt := true; srv_bind := true |}.
Definition in_use : ServerEnv := {| srv_socket := 7; srv_setsockopt := true; srv_bind := false |}.
(** A message of twelve bytes with transaction identifier [t]. *)
Definition message (t : Z) : bytes := le32 3 ++ le32 12 ++ le32 t.

Lemma served_serving : serving 3 served.
Proof.
  split.
  - apply (table_wf_insert _ 0 5 no_clients_wf). right. apply not_elem_of_nil.
  - reflexivity.
  - reflexivity.
  - split; reflexivity || done.
  - change (client_fds (cm_clients served)) with [5]. split; intros ?%list_elem_of_singleton; done.
Qed.
Lemma served_holds : holds served 0 5.
Proof. reflexivity. Qed.

Theorem answers_reach_requester_witness :
  exists s1, handle_fd works 3 5 (Readable (message 7)) served = Some (Next, s1) /\
    actions s1 = [Write 3 (retag (message 7) (tag 0 7))] /\
    (forall j u, tag j u = tag 0 7 -> j = 0%nat /\ u mod 2 ^ 24 = 7 mod 2 ^ 24) /\
    forall evs s2 d, serves works 3 s1 evs s2 -> (5, Hup) ∉ evs ->
      12 <= zlen d <= sizeof_cm_recv_buffer -> ld32 d oTransactionId = Some (tag 0 7) ->
      exists s3, handle_fd works 3 3 (Readable d) s2 = Some (Next, s3) /\ serving 3 s3 /\
        actions s3 = actions s2 ++ [Write 5 (retag d (7 mod 2 ^ 24))].
Proof.
  apply (answers_reach_requester works 3 served 0 5 (message 7) 7);
    [apply served_serving | reflexivity | reflexivity | split; vm_compute; discriminate | reflexivity].
Defined.

(** Two clients use the same identifier; each gets its answer. *)
Example two_clients :
  exists s, handle_fds works 3
    [(4, Pending 6); (5, Readable (message 7)); (6, Readable (message 7));
     (3, Readable (message (tag 1 7))); (3, Readable (message (tag 0 7)))] served = Some (Next, s) /\
  actions s = [Write 3 (message (tag 0 7)); Write 3 (message (tag 1 7)); Write 6 (message 7); Write 5 (message 7)].
Proof. eexists. split; vm_compute; reflexivity. Qed.

(** From the start of the program: the device answers the open message, the server opens, client 5 connects and asks. *)
Example first_session :
  exists s, main_loop [(works, 3, [Some [Readable (le32 MBIM_OPEN_DONE ++ le32 16 ++ le32 1 ++ le32 0)];
                                   Some [Idle; Pending 5]; Some [Idle; Idle; Readable (message 7)]])]
    {| cm_clients := []; mbim_server_fd := 0; cm_recv_buffer := replicate 4096 0; actions := [] |} = Some (Running, s) /\
  actions s = [Write 3 (open_msg 4096); Write 3 (message (tag 0 7))].
Proof. eexists. split; vm_compute; reflexivity. Qed.

Theorem error_closes_everything_witness :
  exists s', loop_error 3 served = Some (Finished, s') /\
    actions s' = actions served ++ map CloseFd (3 :: mbim_server_fd served :: client_fds (cm_clients served)) /\
    mbim_server_fd s' = -1 /\ client_fds (cm_clients s') = [].
Proof. apply (error_closes_everything 3 served); reflexivity. Defined.

Theorem indications_reach_everyone_witness :
  exists s', handle_fd works 3 3 (Readable (message 0)) served = Some (Next, s') /\ cm_clients s' = cm_clients served /\
    actions s' = actions served ++ map (fun fd => Write fd (message 0)) (client_fds (cm_clients served)).
Proof.
  apply (indications_reach_everyone works 3 served (message 0));
    [apply served_serving | split; vm_compute; discriminate | reflexivity].
Defined.

Theorem half_closed_client_ends_service_witness :
  exists s', handle_fd works 3 5 (Readable []) served = Some (Return, s') /\
    actions s' = actions served ++ [CloseFd 5] /\ mbim_server_fd s' = mbim_server_fd served /\
    forall sessions r s2, sessions <> [] -> Forall (fun x => srv_bind x.1.1 = false) sessions ->
      main_loop sessions s' = Some (r, s2) -> mbim_server_fd s2 = -1 /\ client_fds (cm_clients s2) = [].
Proof. apply (half_closed_client_ends_service works 3 served 0 5); [apply served_serving | reflexivity | reflexivity]. Defined.

(** The session after it: the device acknowledges, but the name is in use. *)
Example session_after :
  exists s, main_loop [(in_use, 8, [Some [Readable (le32 MBIM_OPEN_DONE ++ le32 16 ++ le32 1 ++ le32 0)]; None])]
    served = Some (Running, s) /\ actions s = [Write 8 (open_msg 4096); CloseFd 7; CloseFd 8].
Proof. eexists. split; vm_compute; reflexivity. Qed.

Theorem late_answer_misrouted_witness :
  exists s1 s2, serves works 3 served [(5, Hup); (mbim_server_fd served, Pending 6)] s1 /\
    handle_fd works 3 3 (Readable (message (tag 0 7))) s1 = Some (Next, s2) /\
    actions s2 = actions s1 ++ [Write 6 (retag (message (tag 0 7)) (7 mod 2 ^ 24))].
Proof.
  apply (late_answer_misrouted works 3 served 0 5 6 (message (tag 0 7)) 7);
    [apply served_serving | reflexivity | reflexivity | | reflexivity | | split; vm_compute; discriminate | reflexivity].
  - intros j c _ Hj. inversion Hj.
  - split; [done|]. split; [done|]. split; [done|]. change (client_fds (cm_clients served)) with [5].
    intros ?%list_elem_of_singleton. done.
Defined.
