(* ===== verification/Net.v ===== *)
(** * udhcpc.c: the interfaces and files of the network set-up.
    What the set-up does to the system is the list of its [effect]s; what the system answers may depend on everything
    done so far (the class [Net]).  The helpers of udhcpc.c on sockets and files are here; Qmap.v and Udhcpc.v build on them.
    ENABLE_UDHCPC is defined (the option of the package), USE_DHCLIENT and QL_OPENWER_NETWORK_SETUP are not. *)
From S2P Require Import Prelude Util Compose Monad QmiRequests Text Device.
#[local] Open Scope Z_scope.
#[local] Open Scope c_scope.

(** A command run, bytes written to an open file, the MTU or the QMAP settings of an interface. *)
Inductive effect :=
  | Run (cmd : bytes) | Wrote (file data : bytes) | SetMtu (ifname : bytes) (mtu : Z) | SetQmap (ifname : bytes) (settings : QMAP_SETTING).

(** [n_access]: 0, or the [errno] of [access(_, R_OK)]; [n_text]: what a file that can be read holds; [n_writable]: whether it can be opened for
    writing; [n_readlink]; the ioctls on an interface: its MTU, flags and address, and the driver's 512 bytes of rmnet information. *)
Class Net : Type := {
  n_access : list effect -> bytes -> Z;
  n_text : list effect -> bytes -> option bytes;
  n_writable : list effect -> bytes -> bool;
  n_readlink : list effect -> bytes -> option bytes;
  n_socket : bool;
  n_mtu : list effect -> bytes -> option Z;
  n_flags : list effect -> bytes -> option Z;
  n_address : list effect -> bytes -> option Z;
  n_rmnet : list effect -> bytes -> option bytes }.

Abbreviation MN := (M (list effect)).
Definition does (e : effect) : MN unit := modify (fun l => l ++ [e]).
Definition IFNAMSIZ : nat := 16.
Definition IFF_UP : Z := 1.

Section Net.
Context {net : Net}.

Definition ifc_init_ifr (name : bytes) : bytes := take (IFNAMSIZ - 1) name.
Definition ql_system (shell_cmd : bytes) : MN unit := does (Run shell_cmd).

Definition ql_set_mtu (ifname : bytes) (ifru_mtu : Z) : MN unit :=
  if negb n_socket then mret tt else
  let name := ifc_init_ifr ifname in
  m ← gets (fun l => n_mtu l name);
  match m with
  | Some mtu => when (negb (mtu =? ifru_mtu)) (does (SetMtu name ifru_mtu))
  | None => mret tt
  end.
(** The address of an interface, 0 when it has none. *)
Definition ifc_get_addr (name : bytes) : MN Z := a ← gets (fun l => n_address l (ifc_init_ifr name)); mret (default 0 a).
Definition ifc_get_flags (ifname : bytes) : MN Z :=
  f ← gets (fun l => n_flags l (ifc_init_ifr ifname)); mret (if n_socket then default 0 f else 0).

(** The two bytes written are the new mode and what was read after the old one. *)
Definition ql_raw_ip_mode_check (ifname : bytes) : MN Z :=
  addr ← ifc_get_addr ifname;
  if negb (addr =? 0) then mret 0 else
  let raw_ip := snprintf 128 (str "/sys/class/net/" ++ ifname ++ str "/qmi/raw_ip") in
  e ← gets (fun l => n_access l raw_ip); if negb (e =? 0) then mret 0 else
  w ← gets (fun l => n_writable l raw_ip); if negb w then mret 0 else
  t ← gets (fun l => n_text l raw_ip);
  let got := take 2 (default [] t) in
  let mode := got ++ drop (length got) [88; 0] in
  let c := mode !!! 0%nat in
  if (c =? 48) || (c =? 78) then
    ql_system (snprintf 128 (str "ifconfig " ++ ifname ++ str " down"));;
    does (Wrote raw_ip (89 :: drop 1 mode));;
    ql_system (snprintf 128 (str "ifconfig " ++ ifname ++ str " up"));;
    mret 1
  else mret 0.

(** The thread's work: the command is run to its end; without memory for its copy nothing is. *)
Definition udhcpc_thread_function (udhcpc_cmd : option bytes) : MN unit :=
  match udhcpc_cmd with Some c => does (Run c) | None => mret tt end.

Definition sizeof_RMNET_INFO : Z := 164.
Definition ql_get_driver_rmnet_info (usbnet_adapter : bytes) : MN bytes :=
  let zero := replicate (Z.to_nat sizeof_RMNET_INFO) 0 in
  if negb n_socket then mret zero else
  d ← gets (fun l => n_rmnet l (ifc_init_ifr usbnet_adapter));
  mret (match d with Some data => take (Z.to_nat sizeof_RMNET_INFO) data | None => zero end).
Definition ql_set_driver_qmap_setting (usbnet_adapter : bytes) (qmap_settings : QMAP_SETTING) : MN unit :=
  if negb n_socket then mret tt else does (SetQmap (ifc_init_ifr usbnet_adapter) qmap_settings).
End Net.

(** ** The part of [PROFILE_T] the set-up of the network reads and writes *)
Record NET_T := { qmichannel : bytes; usbnet_adapter : bytes; qmapnet_adapter : option bytes; driver_name : option bytes;
  qmap_mode : Z; qmap_size : Z; qmap_version : Z; pdp : Z; rawIP : Z; muxid : Z; enable_bridge : Z; software_interface : Z;
  ipv4 : IPV4_T; ipv6 : IPV6_T; rmnet_info : bytes }.
#[export] Instance NET_T_eta : Eta NET_T := fun s =>
  {| qmichannel := qmichannel s; usbnet_adapter := usbnet_adapter s; qmapnet_adapter := qmapnet_adapter s; driver_name := driver_name s;
     qmap_mode := qmap_mode s; qmap_size := qmap_size s; qmap_version := qmap_version s; pdp := pdp s; rawIP := rawIP s; muxid := muxid s;
     enable_bridge := enable_bridge s; software_interface := software_interface s; ipv4 := ipv4 s; ipv6 := ipv6 s; rmnet_info := rmnet_info s |}.
#[export] Instance set_qmapnet_adapter : Setter qmapnet_adapter := ltac:(derive_setter).
#[export] Instance set_driver_name : Setter driver_name := ltac:(derive_setter).
#[export] Instance set_qmap_mode : Setter qmap_mode := ltac:(derive_setter).
#[export] Instance set_qmap_size : Setter qmap_size := ltac:(derive_setter).
#[export] Instance set_qmap_version : Setter qmap_version := ltac:(derive_setter).
#[export] Instance set_muxid : Setter muxid := ltac:(derive_setter).
#[export] Instance set_rmnet_info : Setter rmnet_info := ltac:(derive_setter).

Section Link.
Context {net : Net}.

(** [snprintf] into a buffer: the text, its NUL, and what was there. *)
Definition sprint (buf text : bytes) : bytes :=
  let t := snprintf (zlen buf) text in t ++ 0 :: drop (S (length t)) buf.

(** The 128 bytes of [link_file] are written: the number, then what is left of the path and of the stack ([junk]).  [rc] is unsigned, so a
    failing [read] passes the test and the buffer is looked at as it was. *)
Definition ql_set_driver_link_state (junk : bytes) (profile : NET_T) (link_state : Z) : MN unit :=
  let path := str "/sys/class/net/" ++ usbnet_adapter profile ++ str "/link_state" in
  let link_file := sprint junk path in
  file ← lift (cstr link_file);
  w ← gets (fun l => n_writable l file); if negb w then mret tt else
  let new_state :=
    if qmap_mode profile <=? 1 then (if link_state =? 0 then 0 else 1)
    else (if link_state =? 0 then 0x80 else 0x00) + pdp profile in
  let link_file := sprint link_file (dec_signed new_state ++ [newline]) in
  does (Wrote file link_file);;
  match qmapnet_adapter profile with
  | Some a =>
      if (link_state =? 0) && negb (bool_decide (a = usbnet_adapter profile)) then
        t ← gets (fun l => n_text l file);
        let got := take (length link_file) (default [] t) in
        let link_file := got ++ drop (length got) link_file in
        when (bool_decide (t = None \/ (1 < length got)%nat) &&
              (starts_nocase (str "0" ++ [newline]) link_file || starts_nocase (str "0x0" ++ [newline]) link_file))
          (ql_system (snprintf 128 (str "ifconfig " ++ usbnet_adapter profile ++ str " down")))
      else mret tt
  | None => mret tt
  end.
End Link.
