(* ===== verification/Qmap.v ===== *)
(** * qmap_bridge_mode.c: the bridge mode, and which multiplexed interface a data call has.
    [ql_qmap_mode_detect] finds out from the driver or from sysfs whether the modem multiplexes several calls on one interface (QMAP), and
    with it the number and the interface of the call.  [None] is undefined behaviour. *)
From S2P Require Import Prelude Util Compose Monad QmiRequests Text Device Net Layout QmiStructs.
#[local] Open Scope Z_scope.
#[local] Open Scope c_scope.

Definition WDA_DL_DATA_AGG_QMAP_ENABLED : Z := 5.

(** [qmidev_is_gobinet] and [qmidev_is_qmiwwan] *)
Definition qmidev_is_gobinet (qmichannel : bytes) : bool := is_prefix (str "/dev/qcqmi") qmichannel.
Definition qmidev_is_qmiwwan (qmichannel : bytes) : bool := is_prefix (str "/dev/cdc-wdm") qmichannel.

(** Which of the two device operations is used. *)
Inductive qmi_device_ops := gobi_qmidev_ops | qmiwwan_qmidev_ops.
Definition ql_driver_type_detect (qmichannel : bytes) : qmi_device_ops :=
  if qmidev_is_gobinet qmichannel then gobi_qmidev_ops else qmiwwan_qmidev_ops.

(** [atoi] of a whole buffer: one that ends inside a number is read past its end. *)
Definition all_digits (s : bytes) : bool :=
  let s := skip_space s in
  let s := match s with c :: t => if (c =? 45) || (c =? 43) then t else s | [] => [] end in
  forallb (fun c => (48 <=? c) && (c <=? 57)) s.
Definition atoi_buf (buf : bytes) : option Z :=
  if bool_decide (upto_nul buf = buf) && all_digits buf then None else Some (atoi (upto_nul buf)).

Section Qmap.
Context {net : Net} {host : Host} {heap : Heap}.

(** The buffer, zeroed and filled, and the number of bytes read. *)
Definition ql_fread (filename : bytes) (size : nat) : MN (bytes * nat) :=
  t ← gets (fun l => n_text l filename);
  let got := take size (default [] t) in
  mret (got ++ replicate (size - length got) 0, length got).
Definition ql_fwrite (filename buf : bytes) : MN unit :=
  w ← gets (fun l => n_writable l filename); when w (does (Wrote filename buf)).

Definition ql_bridge_mode_detect (profile : NET_T) : MN bool :=
  let ifname := default (usbnet_adapter profile) (qmapnet_adapter profile) in
  let net_mode := snprintf 128 (str "/sys/class/net/" ++ ifname ++ str "/bridge_mode") in
  let net_ipv4 := snprintf 128 (str "/sys/class/net/" ++ ifname ++ str "/bridge_ipv4") in
  e ← gets (fun l => n_access l net_ipv4);
  let detect bridge_mode bridge_ipv4 :=
    '(buf, n) ← ql_fread bridge_mode 64;
    if (n =? 0)%nat || (buf !!! 0%nat =? 48) then mret false else
    (if strstr bridge_ipv4 (str "/sys/class/net/") || (qmap_mode profile =? 0) || (qmap_mode profile =? 1)
     then ql_fwrite bridge_ipv4 (snprintf 128 (str "0x" ++ hex (Address (ipv4 profile))))
     else ql_fwrite bridge_ipv4 (snprintf 128 (str "0x" ++ hex (Address (ipv4 profile)) ++ str ":" ++ dec_signed (muxid profile))));;
    mret true in
  if e =? 0 then detect net_mode net_ipv4
  else if negb (e =? ENOENT) then mret false else
  driver ← lift (driver_name profile);
  let bridge_mode := snprintf 128 (str "/sys/module/" ++ driver ++ str "/parameters/bridge_mode") in
  let bridge_ipv4 := snprintf 128 (str "/sys/module/" ++ driver ++ str "/parameters/bridge_ipv4") in
  e ← gets (fun l => n_access l bridge_mode);
  if negb (e =? 0) then mret false else detect bridge_mode bridge_ipv4.

(** 0, or 1 when the mode cannot be set. *)
Definition ql_enable_qmi_wwan_rawip_mode (profile : NET_T) : MN Z :=
  if negb (qmidev_is_qmiwwan (qmichannel profile)) then mret 0 else
  let filename := snprintf 256 (str "/sys/class/net/" ++ usbnet_adapter profile ++ str "/qmi/rawip") in
  '(buf, n) ← ql_fread filename 4;
  if (n =? 0)%nat then mret 0 else
  let c := buf !!! 0%nat in
  if (c =? 49) || (c =? 89) then mret 0 else
  w ← gets (fun l => n_writable l filename);
  if negb w then mret 1 else does (Wrote filename [89]);; mret 0.

(** All eight bytes of [enable] are written: the number and what follows it on the stack. *)
Definition ql_set_driver_bridge_mode (junk : bytes) (profile : NET_T) : MN unit :=
  name ← (if negb (qmap_mode profile =? 0) then lift (qmapnet_adapter profile) else mret (usbnet_adapter profile));
  ql_fwrite (snprintf 256 (str "/sys/class/net/" ++ name ++ str "/bridge_mode"))
    (sprint junk (dec_signed (enable_bridge profile) ++ [newline])).

(** [strdup] *)
Definition copy (s : bytes) : option bytes := if malloc_ok (zlen s + 1) then Some s else None.
(** The name of the driver is what follows the last slash of the link; a link that cannot be read has length -1. *)
Definition driver_of (link : option bytes) : option bytes :=
  l ← link;
  if 509 <? zlen l then None else
  if existsb (Z.eqb 47) l then Some (reverse (scan (fun c => negb (c =? 47)) (length l) (reverse l)).1) else None.

(** What both detections start with: the driver's name, and the driver's own information.  Result: whether it gave any. *)
Definition from_driver (profile : NET_T) : MN (NET_T * bool) :=
  let profile := profile <| qmapnet_adapter := None |> in
  let linkname := snprintf 510 (str "/sys/class/net/" ++ usbnet_adapter profile ++ str "/device/driver") in
  link ← gets (fun l => n_readlink l linkname);
  name ← lift (driver_of link);
  let profile := profile <| driver_name := copy name |> in
  info ← ql_get_driver_rmnet_info (usbnet_adapter profile);
  let profile := profile <| rmnet_info := info |> in
  size ← lift (ld32 info (RMNET_INFO∙"size"));
  if size =? 0 then mret (profile, false) else
  mode ← lift (ld32 info (RMNET_INFO∙"qmap_mode"));
  let profile := profile <| qmap_mode := s32 mode |> in
  if qmap_mode profile =? 0 then mret (profile, true) else
  let offset_id := if qmap_mode profile =? 1 then 0 else pdp profile - 1 in
  if (offset_id <? 0) || (8 <=? offset_id) then undefined else
  mux ← lift (ld info (RMNET_INFO∙"mux_id" + offset_id));
  name ← lift (cstr (drop (Z.to_nat (RMNET_INFO∙"ifname" + 16 * offset_id)) info));
  urb ← lift (ld32 info (RMNET_INFO∙"rx_urb_size")); version ← lift (ld32 info (RMNET_INFO∙"qmap_version"));
  mret ((profile <| muxid := mux |> <| qmapnet_adapter := copy name |> <| qmap_size := s32 urb |> <| qmap_version := s32 version |>), true).

(** The first of the files that is there; a NULL name is undefined. *)
Inductive search := At (f : bytes) | Nowhere | Denied | NullName.
Fixpoint first_file (l : list effect) (files : list (option bytes)) : search :=
  match files with
  | [] => Nowhere
  | None :: _ => NullName
  | Some f :: files => let e := n_access l f in if e =? 0 then At f else if e =? ENOENT then first_file l files else Denied
  end.

Definition mode_files (profile : NET_T) : list (option bytes) :=
  [ Some (snprintf 510 (str "/sys/class/net/" ++ usbnet_adapter profile ++ str "/qmap_mode"));
    (fun driver => snprintf 510 (str "/sys/module/" ++ driver ++ str "/parameters/qmap_mode")) <$> driver_name profile;
    Some (snprintf 510 (str "/sys/class/net/" ++ usbnet_adapter profile ++ str "/device/driver/module/parameters/qmap_mode")) ].

(** [sprintf] into [qmap_netcard] of 128 bytes. *)
Definition netcard (s : bytes) : option bytes := if 127 <? zlen s then None else Some s.

(** From a file with the mode. *)
Definition mode_file (profile : NET_T) (filename : bytes) (single : bool) : MN NET_T :=
  '(buf, n) ← ql_fread filename 128;
  if (n =? 0)%nat then mret profile else
  mode ← lift (atoi_buf buf);
  let profile := profile <| qmap_mode := mode |> in
  if 1 <? mode then
    card ← lift (netcard (usbnet_adapter profile ++ str "." ++ dec_signed (pdp profile)));
    mret (profile <| muxid := pdp profile + 0x80 |> <| qmapnet_adapter := copy card |>)
  else if (mode =? 1) && single then
    mret (profile <| muxid := 0x81 |> <| qmapnet_adapter := copy (usbnet_adapter profile) |>)
  else mret profile.

(** From the list of the upstream driver: lines like 0x81, five bytes each.  The two digits are taken as decimal ones. *)
Definition mux_at (buf : bytes) (i : Z) : option Z :=
  a ← ld buf (5 * i + 2); b ← ld buf (5 * i + 3); Some ((a - 48) * 16 + (b - 48)).
Definition add_mux (profile : NET_T) : MN NET_T :=
  let qmimux := snprintf 510 (str "/sys/class/net/qmimux" ++ dec_signed (pdp profile - 1)) in
  e ← gets (fun l => n_access l qmimux);
  if negb (e =? 0) then mret profile else
  '(buf, n) ← ql_fread (snprintf 510 (str "/sys/class/net/" ++ usbnet_adapter profile ++ str "/qmi/add_mux")) 128;
  if (n <? 5)%nat then mret profile else
  let profile := profile <| qmap_mode := Z.of_nat n / 5 |> in
  if 1 <? qmap_mode profile then
    mux ← lift (mux_at buf (pdp profile - 1));
    mret (profile <| muxid := mux |> <| qmapnet_adapter := copy (str "qmimux" ++ dec_signed (pdp profile - 1)) |>)
  else
    mux ← lift (mux_at buf 0);
    mret (profile <| muxid := mux |> <| qmapnet_adapter := copy (str "qmimux0") |>).

Definition qmap_defaults (profile : NET_T) : MN NET_T :=
  if qmap_mode profile =? 0 then mret profile else
  profile ← (if negb (qmap_size profile =? 0) then mret profile else
    let filename := snprintf 510 (str "/sys/class/net/" ++ usbnet_adapter profile ++ str "/qmap_size") in
    let profile := profile <| qmap_size := 16 * 1024 |> in
    e ← gets (fun l => n_access l filename);
    if negb (e =? 0) then mret profile else
    '(buf, n) ← ql_fread filename 32;
    if (n =? 0)%nat then mret profile else
    size ← lift (atoi_buf buf); mret (profile <| qmap_size := size |>));
  mret (if qmap_version profile =? 0 then profile <| qmap_version := WDA_DL_DATA_AGG_QMAP_ENABLED |> else profile).

Definition ql_qmi_qmap_mode_detect (junk : bytes) (profile : NET_T) : MN NET_T :=
  if negb (malloc_ok 1020) then undefined else
  '(profile, found) ← from_driver profile;
  profile ← (if found : bool then mret profile else
    file ← gets (fun l => first_file l (mode_files profile));
    match file with
    | NullName => undefined
    | Denied => mret profile
    | At f => mode_file profile f true
    | Nowhere => if qmidev_is_qmiwwan (qmichannel profile) then add_mux profile else mret profile
    end);
  profile ← qmap_defaults profile;
  ql_set_driver_bridge_mode junk profile;;
  mret profile.

Definition ql_mbim_qmap_mode_detect (profile : NET_T) : MN NET_T :=
  if negb (malloc_ok 1020) then undefined else
  '(profile, found) ← from_driver profile;
  if found : bool then mret profile else
  driver ← lift (driver_name profile);
  let filename := snprintf 510 (str "/sys/module/" ++ driver ++ str "/parameters/qmap_mode") in
  e ← gets (fun l => n_access l filename);
  if negb (e =? 0) then mret profile else mode_file profile filename false.

Definition ql_qmap_mode_detect (junk : bytes) (profile : NET_T) : MN NET_T :=
  if software_interface profile =? SOFTWARE_MBIM then ql_mbim_qmap_mode_detect profile
  else if software_interface profile =? SOFTWARE_QMI then ql_qmi_qmap_mode_detect junk profile
  else mret profile.
End Qmap.

(** ** Hexadecimal text reads back *)
Definition is_hex (c : Z) : Prop := exists d, 0 <= d < 16 /\ c = hex_digit d.
Lemma hex_run_app s acc c : is_hex c -> Forall is_hex s -> hex_run (s ++ [c]) acc = 16 * hex_run s acc + default 0 (unhex c).
Proof.
  intros (d & Hd & ->) Hs. revert acc. induction Hs as [|x s (e & He & ->) _ IH]; intros acc; cbn [app hex_run]; rewrite ?unhex_digit by done; [done|].
  rewrite IH. by rewrite unhex_digit.
Qed.
Lemma hex_loop_spec fuel n acc : 0 <= n < 16 ^ Z.of_nat fuel -> (0 < fuel)%nat ->
  exists s, hex_loop fuel n acc = s ++ acc /\ hex_run s 0 = n /\ Forall is_hex s /\ s <> [].
Proof.
  revert n acc. induction fuel as [|fuel IH]; intros n acc Hn Hf; [lia|]. cbn [hex_loop]. rewrite Nat2Z.inj_succ, Z.pow_succ_r in Hn by lia.
  assert (Hd : is_hex (hex_digit (n mod 16))) by (exists (n mod 16); split; [zdm | done]).
  assert (Hm : 0 <= n mod 16 < 16) by zdm. destruct (Z.eqb_spec (n / 16) 0) as [E|E].
  - exists [hex_digit (n mod 16)]. split_and!; [done | | by apply Forall_singleton | done]. cbn [hex_run]. rewrite unhex_digit by done. zdm.
  - destruct fuel as [|fuel']; [cbn in Hn; zdm|].
    destruct (IH (n / 16) (hex_digit (n mod 16) :: acc)) as (s & -> & Hs & Fs & _); [zdm | lia |].
    exists (s ++ [hex_digit (n mod 16)]). rewrite <- app_assoc. split_and!; [done | | | by destruct s].
    + rewrite hex_run_app by done. rewrite Hs, unhex_digit by done. cbn. zdm.
    + apply Forall_app. by rewrite Forall_singleton.
Qed.
Lemma strtol16_hex n : 0 <= n < 2 ^ 32 -> strtol16 (str "0x" ++ hex n) = Some n.
Proof.
  intros Hn. destruct (hex_loop_spec 8 n []) as (s & E & Hs & Fs & Hne); [change (16 ^ Z.of_nat 8) with 4294967296; lia | lia |].
  unfold hex. rewrite E, app_nil_r. change (str "0x") with [48; 120]. destruct s as [|c s]; [done|]. cbn [app].
  pose proof Fs as Hc. apply Forall_cons in Hc as [(d & Hd & Ec) _]. unfold strtol16. cbn [skip_space Z.eqb Pos.eqb Z.leb Z.compare Pos.compare Pos.compare_cont andb orb].
  unfold hex_magnitude. cbn [Z.eqb Pos.eqb andb orb]. rewrite bool_decide_eq_true_2 by (rewrite Ec, unhex_digit by done; by eexists).
  rewrite Hs. cbn [andb mbind option_bind]. rewrite Z.min_r; [done | lia].
Qed.
Lemma hex_length n : zlen (hex n) <= 8.
Proof.
  unfold hex. assert (H : forall fuel n acc, (length (hex_loop fuel n acc) <= fuel + length acc)%nat).
  { induction fuel as [|fuel IH]; intros m acc; cbn [hex_loop]; [done|]. destruct (_ =? 0); [cbn; lia|]. eapply Nat.le_trans; [apply IH | cbn; lia]. }
  specialize (H 8%nat n []). unfold zlen. cbn [length] in H. lia.
Qed.
