(* ===== verification/QmapSpec.v ===== *)
(** * What the detection of Qmap.v finds, and where it goes wrong. *)
From S2P Require Import Prelude Util Compose Monad QmiRequests Text Device Net Qmap.
#[local] Open Scope Z_scope.
#[local] Open Scope c_scope.

(** The list of multiplexed calls, as the upstream driver prints it. *)
Definition mux_line (x : Z * Z) : bytes := str "0x" ++ [hex_digit x.1; hex_digit x.2; newline].
Definition mux_list (ids : list (Z * Z)) : bytes := ids ≫= mux_line.

Lemma mux_list_length ids : length (mux_list ids) = (5 * length ids)%nat.
Proof. induction ids as [|x ids IH]; [done|]. unfold mux_list in *. cbn [mbind list_bind]. rewrite length_app, IH. cbn. lia. Qed.
Lemma mux_at_line ids i x e : ids !! i = Some x ->
  mux_at (mux_list ids ++ e) (Z.of_nat i) = Some ((hex_digit x.1 - 48) * 16 + (hex_digit x.2 - 48)).
Proof.
  intros Hi. apply list_elem_of_split_length in Hi as (p & s & -> & ->). unfold mux_at, mux_list. rewrite bind_app, <- app_assoc. fold (mux_list p).
  set (t := (mbind mux_line (x :: s) ++ e)). assert (E : forall k c, t !! k = Some c -> ld (mux_list p ++ t) (5 * Z.of_nat (length p) + Z.of_nat k) = Some c).
  { intros k c Hk. unfold ld. rewrite (proj2 (Z.leb_le _ _)) by lia. rewrite lookup_app_r by (rewrite mux_list_length; lia).
    rewrite <- Hk. f_equal. rewrite mux_list_length. lia. }
  by rewrite (E 2%nat (hex_digit x.1) eq_refl : ld _ (_ + 2) = _), (E 3%nat (hex_digit x.2) eq_refl : ld _ (_ + 3) = _).
Qed.

(** A digit is taken for what it is, a letter for 39 more. *)
Definition misread (d : Z) : Z := if d <? 10 then d else d + 39.
Lemma hex_digit_misread d : hex_digit d - 48 = misread d.
Proof. unfold hex_digit, misread. destruct (d <? 10); lia. Qed.

Section Detect.
Context {net : Net} {host : Host} {heap : Heap} (profile : NET_T) (junk link driver : bytes).

(** The upstream driver: no information of its own, no file with a mode. *)
Record upstream (ids : list (Z * Z)) : Prop := {
  up_memory n : malloc_ok n = true;
  up_driver : driver_of (Some link) = Some driver;
  up_link l p : n_readlink l p = Some link;
  up_rmnet l p : n_rmnet l p = None;
  up_files l f : Some f ∈ mode_files (profile <| driver_name := Some driver |>) -> n_access l f = ENOENT;
  up_channel : qmidev_is_qmiwwan (qmichannel profile) = true;
  up_qmimux l : n_access l (snprintf 510 (str "/sys/class/net/qmimux" ++ dec_signed (pdp profile - 1))) = 0;
  up_list l : n_text l (snprintf 510 (str "/sys/class/net/" ++ usbnet_adapter profile ++ str "/qmi/add_mux")) = Some (mux_list ids);
  up_size l : n_access l (snprintf 510 (str "/sys/class/net/" ++ usbnet_adapter profile ++ str "/qmap_size")) = ENOENT }.

Lemma from_driver_none l : (forall n, malloc_ok n = true) -> driver_of (Some link) = Some driver ->
  (forall l p, n_readlink l p = Some link) -> (forall l p, n_rmnet l p = None) ->
  from_driver profile l = Some ((profile <| qmapnet_adapter := None |> <| driver_name := Some driver |> <| rmnet_info := replicate 164 0 |>, false), l).
Proof.
  intros Hm Hd Hl Hr. unfold from_driver. rewrite bind_gets, Hl, Hd, bind_lift. unfold copy. rewrite Hm.
  assert (E : forall a, ql_get_driver_rmnet_info a l = Some (replicate 164 0, l)).
  { intros a. unfold ql_get_driver_rmnet_info. destruct n_socket; [|done]. cbn [negb]. rewrite bind_gets, Hr. done. }
  erewrite bind_step by apply E. by destruct host as [[]].
Qed.

Lemma fread_all f size t l : n_text l f = Some t -> (length t <= size)%nat ->
  ql_fread f size l = Some ((t ++ replicate (size - length t) 0, length t), l).
Proof. intros Ht Hl. unfold ql_fread. rewrite bind_gets, Ht. cbn [default]. by rewrite take_ge. Qed.
Lemma first_file_none l files : (forall f, Some f ∈ files -> n_access l f = ENOENT) -> None ∉ files -> first_file l files = Nowhere.
Proof.
  induction files as [|[f|] files IH]; intros H Hn; [done| |set_solver]. cbn [first_file]. rewrite (H f) by set_solver.
  apply IH; set_solver.
Qed.

(** The call's number and interface in the list of the driver. *)
Lemma add_mux_listed ids x l q : upstream ids -> qmichannel q = qmichannel profile -> usbnet_adapter q = usbnet_adapter profile -> pdp q = pdp profile ->
  ids !! Z.to_nat (pdp profile - 1) = Some x -> 1 <= pdp profile -> (length ids <= 25)%nat ->
  add_mux q l = Some (q <| qmap_mode := Z.of_nat (length ids) |> <| muxid := 16 * misread x.1 + misread x.2 |>
    <| qmapnet_adapter := Some (str "qmimux" ++ dec_signed (pdp profile - 1)) |>, l).
Proof.
  intros Hu Hc Ha Hp Hx H1 Hl. unfold add_mux. rewrite Hp, Ha, bind_gets, (up_qmimux _ Hu). cbn [negb Z.eqb].
  assert (Hlen : length (mux_list ids) = (5 * length ids)%nat) by apply mux_list_length.
  assert (Hi : (Z.to_nat (pdp profile - 1) < length ids)%nat) by (by eapply lookup_lt_Some).
  erewrite bind_step by (apply fread_all; [apply (up_list _ Hu) | rewrite Hlen; lia]).
  cbv beta iota. rewrite (proj2 (Nat.ltb_ge _ _)) by (rewrite Hlen; lia). rewrite Hlen.
  replace (Z.of_nat (5 * length ids) / 5) with (Z.of_nat (length ids)) by (rewrite Nat2Z.inj_mul, Z.mul_comm, Z.div_mul; lia).
  pose proof (mux_at_line ids _ x (replicate (128 - 5 * length ids) 0) Hx) as Hmux. rewrite Z2Nat.id, !hex_digit_misread in Hmux by lia.
  rewrite (Z.mul_comm _ 16) in Hmux. unfold copy. cbn [qmap_mode set_field set_qmap_mode pdp].
  rewrite !(up_memory _ Hu), Hp. destruct (Z.ltb_spec 1 (Z.of_nat (length ids))) as [Hm|Hm].
  - by rewrite Hmux, bind_lift.
  - assert (E : pdp profile - 1 = 0) by lia. rewrite E in *. by rewrite Hmux, bind_lift.
Qed.

Lemma defaults_upstream ids q l : upstream ids -> usbnet_adapter q = usbnet_adapter profile -> qmap_mode q <> 0 ->
  qmap_defaults q l = Some (q <| qmap_size := if qmap_size q =? 0 then 16384 else qmap_size q |>
    <| qmap_version := if qmap_version q =? 0 then 5 else qmap_version q |>, l).
Proof.
  intros Hu Ha Hm. unfold qmap_defaults. rewrite (proj2 (Z.eqb_neq _ _) Hm). destruct (Z.eqb_spec (qmap_size q) 0) as [Hs|Hs]; cbn [negb].
  - erewrite bind_step by (rewrite bind_gets, Ha, (up_size _ Hu); reflexivity). cbn [qmap_version set_field set_qmap_size].
    destruct (qmap_version q =? 0) eqn:Ev; [done|]. by destruct q.
  - rewrite bind_ret. destruct (qmap_version q =? 0) eqn:Ev; by destruct q.
Qed.

(** With the upstream driver the data call gets the number and the interface that the driver's list has for its place, the other
    settings keep their value or get their default, and the bridge mode is written to the interface.  A number with a
    letter is read 39 (and 624) too large: the digits are taken as decimal ones. *)
Theorem upstream_mux_detected ids x l :
  upstream ids -> 1 <= pdp profile -> ids !! Z.to_nat (pdp profile - 1) = Some x -> (length ids <= 25)%nat ->
  let card := str "qmimux" ++ dec_signed (pdp profile - 1) in
  let file := snprintf 256 (str "/sys/class/net/" ++ card ++ str "/bridge_mode") in
  exists profile' l', ql_qmi_qmap_mode_detect junk profile l = Some (profile', l') /\
    qmap_mode profile' = Z.of_nat (length ids) /\ qmapnet_adapter profile' = Some card /\ driver_name profile' = Some driver /\
    muxid profile' = 16 * x.1 + x.2 + (if x.1 <? 10 then 0 else 624) + (if x.2 <? 10 then 0 else 39) /\
    qmap_size profile' = (if qmap_size profile =? 0 then 16384 else qmap_size profile) /\
    qmap_version profile' = (if qmap_version profile =? 0 then 5 else qmap_version profile) /\
    l' = (if n_writable l file then l ++ [Wrote file (sprint junk (dec_signed (enable_bridge profile) ++ [newline]))] else l).
Proof.
  intros Hu H1 Hx Hl. cbv zeta. unfold ql_qmi_qmap_mode_detect. rewrite (up_memory _ Hu). cbn [negb].
  erewrite bind_step by (apply from_driver_none; apply Hu). cbv beta iota.
  set (q := profile <| qmapnet_adapter := None |> <| driver_name := Some driver |> <| rmnet_info := replicate 164 0 |>).
  assert (Hfiles : first_file l (mode_files q) = Nowhere).
  { apply first_file_none; [intros f Hf; by apply (up_files _ Hu) | unfold mode_files; cbn; set_solver]. }
  erewrite bind_step.
  2:{ rewrite bind_gets, Hfiles. change (qmichannel q) with (qmichannel profile). rewrite (up_channel _ Hu). by apply (add_mux_listed ids x). }
  set (q1 := q <| qmap_mode := _ |> <| muxid := _ |> <| qmapnet_adapter := _ |>).
  assert (Hi : (Z.to_nat (pdp profile - 1) < length ids)%nat) by (by eapply lookup_lt_Some).
  assert (Hm1 : qmap_mode q1 = Z.of_nat (length ids)) by done.
  erewrite bind_step by (apply (defaults_upstream ids); [done | done | lia]). set (q2 := q1 <| qmap_size := _ |> <| qmap_version := _ |>).
  unfold ql_set_driver_bridge_mode. change (qmap_mode q2) with (Z.of_nat (length ids)). rewrite (proj2 (Z.eqb_neq _ _)) by lia. cbn [negb].
  change (qmapnet_adapter q2) with (Some (str "qmimux" ++ dec_signed (pdp profile - 1))).
  match goal with |- context [n_writable l ?f] => set (file := f) end.
  exists q2, (if n_writable l file then l ++ [Wrote file (sprint junk (dec_signed (enable_bridge profile) ++ [newline]))] else l). split.
  { rewrite (bind_step _ _ _ tt (if n_writable l file then l ++ [Wrote file (sprint junk (dec_signed (enable_bridge profile) ++ [newline]))] else l)); [done|].
    rewrite bind_lift. unfold ql_fwrite. rewrite bind_gets. fold file. by destruct (n_writable l file). }
  split_and!; try done. change (muxid q2) with (16 * misread x.1 + misread x.2). unfold misread. destruct (x.1 <? 10), (x.2 <? 10); lia.
Qed.
End Detect.

(** ** The bridge mode *)
Lemma net_path_marked a : strstr (snprintf 128 (str "/sys/class/net/" ++ a)) (str "/sys/class/net/") = true.
Proof.
  unfold snprintf. change (Z.to_nat (128 - 1)) with (15 + 112)%nat. change 15%nat with (length (str "/sys/class/net/")).
  rewrite take_app_add. apply (strstr_app []).
Qed.

Section Bridge.
Context {net : Net} (profile : NET_T).
Abbreviation ifname := (default (usbnet_adapter profile) (qmapnet_adapter profile)).
Abbreviation bridge_mode := (snprintf 128 (str "/sys/class/net/" ++ ifname ++ str "/bridge_mode")).
Abbreviation bridge_ipv4 := (snprintf 128 (str "/sys/class/net/" ++ ifname ++ str "/bridge_ipv4")).

(** On an interface in bridge mode the driver is given the address of the call, in a text that reads back as that address;
    on an interface that has the mode switched off nothing is written. *)
Theorem bridge_address_roundtrip c rest l :
  0 <= Address (ipv4 profile) < 2 ^ 32 -> n_access l bridge_ipv4 = 0 -> n_text l bridge_mode = Some (c :: rest) -> n_writable l bridge_ipv4 = true ->
  exists t, ql_bridge_mode_detect profile l = Some (negb (c =? 48), if c =? 48 then l else l ++ [Wrote bridge_ipv4 t]) /\
    strtol16 t = Some (Address (ipv4 profile)).
Proof.
  intros Ha Hacc Ht Hw. exists (str "0x" ++ hex (Address (ipv4 profile))). split; [|by apply strtol16_hex].
  assert (E : snprintf 128 (str "0x" ++ hex (Address (ipv4 profile))) = str "0x" ++ hex (Address (ipv4 profile))).
  { apply snprintf_fits. rewrite zlen_app. pose proof (hex_length (Address (ipv4 profile))). change (zlen (str "0x")) with 2. lia. }
  unfold ql_bridge_mode_detect. cbv zeta. rewrite E, bind_gets, Hacc. cbn [Z.eqb].
  erewrite bind_step by (unfold ql_fread; rewrite bind_gets, Ht; reflexivity). cbv beta iota. cbn [default from_option id take app length Nat.eqb orb].
  change (_ !!! 0%nat) with c. destruct (c =? 48); cbn [negb]; [done|].
  rewrite net_path_marked. cbn [orb]. cbv iota. unfold ql_fwrite. erewrite bind_step; [reflexivity|]. rewrite bind_gets, Hw. reflexivity.
Qed.
End Bridge.

(** ** A modem with three calls, at the upstream driver *)
Definition sample_profile : NET_T :=
  {| qmichannel := str "/dev/cdc-wdm0"; usbnet_adapter := str "wwan0"; qmapnet_adapter := None; driver_name := None; qmap_mode := 0; qmap_size := 0;
     qmap_version := 0; pdp := 3; rawIP := 1; muxid := 0; enable_bridge := 1; software_interface := SOFTWARE_QMI;
     ipv4 := {| Address := 0x0a1b2c3d; Gateway := 0; SubnetMask := 0; DnsPrimary := 0; DnsSecondary := 0; Mtu := 1500 |};
     ipv6 := ipv6_zero; rmnet_info := [] |}.
Definition sample_net (files : list (bytes * bytes)) : Net := {|
  n_access := fun _ p => if bool_decide (p ∈ files.*1) then 0 else ENOENT;
  n_text := fun _ p => snd ∘ snd <$> list_find (fun x => x.1 = p) files;
  n_writable := fun _ _ => true;
  n_readlink := fun _ _ => Some (str "../../bus/usb/drivers/qmi_wwan");
  n_socket := true; n_mtu := fun _ _ => None; n_flags := fun _ _ => None; n_address := fun _ _ => None; n_rmnet := fun _ _ => None |}.
Definition mux_files (ids : list (Z * Z)) : list (bytes * bytes) :=
  [(str "/sys/class/net/qmimux2", []); (str "/sys/class/net/wwan0/qmi/add_mux", mux_list ids)].
Definition always_heap : Heap := {| malloc_ok := fun _ => true |}.

Lemma sample_upstream ids :
  upstream (net := sample_net (mux_files ids)) (heap := always_heap) sample_profile (str "../../bus/usb/drivers/qmi_wwan") (str "qmi_wwan") ids.
Proof.
  constructor; try done; try (intros; vm_compute; reflexivity).
  intros l f Hf. unfold mode_files in Hf. rewrite !elem_of_cons, elem_of_nil in Hf.
  destruct Hf as [[= ->]|[[= ->]|[[= ->]|[]]]]; vm_compute; reflexivity.
Qed.

(** The third call of 0x81, 0x82, 0x83 gets its number; that of 0x81, 0x82, 0x8a gets 177 = 0xb1. *)
Theorem upstream_mux_detected_witness :
  (exists p l, ql_qmi_qmap_mode_detect (net := sample_net (mux_files [(8, 1); (8, 2); (8, 3)])) (heap := always_heap) (replicate 8 0) sample_profile [] =
     Some (p, l) /\ muxid p = 0x83 /\ qmapnet_adapter p = Some (str "qmimux2")) /\
  (exists p l, ql_qmi_qmap_mode_detect (net := sample_net (mux_files [(8, 1); (8, 2); (8, 10)])) (heap := always_heap) (replicate 8 0) sample_profile [] =
     Some (p, l) /\ muxid p = 177).
Proof.
  split.
  - destruct (upstream_mux_detected (net := sample_net (mux_files [(8, 1); (8, 2); (8, 3)])) (heap := always_heap) sample_profile (replicate 8 0) _ _
      [(8, 1); (8, 2); (8, 3)] (8, 3) [] (sample_upstream _)) as (p & l & E & _ & Hc & _ & Hm & _); [cbn; lia | done | cbn; lia |].
    exists p, l. split; [exact E|]. split; [exact Hm | exact Hc].
  - destruct (upstream_mux_detected (net := sample_net (mux_files [(8, 1); (8, 2); (8, 10)])) (heap := always_heap) sample_profile (replicate 8 0) _ _
      [(8, 1); (8, 2); (8, 10)] (8, 10) [] (sample_upstream _)) as (p & l & E & _ & _ & _ & Hm & _); [cbn; lia | done | cbn; lia |].
    exists p, l. split; [exact E | exact Hm].
Defined.
Theorem bridge_address_roundtrip_witness : exists t,
  ql_bridge_mode_detect (net := sample_net [(str "/sys/class/net/wwan0/bridge_ipv4", []); (str "/sys/class/net/wwan0/bridge_mode", [49])]) sample_profile [] =
    Some (true, [Wrote (str "/sys/class/net/wwan0/bridge_ipv4") t]) /\ strtol16 t = Some 0x0a1b2c3d.
Proof.
  apply (bridge_address_roundtrip (net := sample_net [(str "/sys/class/net/wwan0/bridge_ipv4", []); (str "/sys/class/net/wwan0/bridge_mode", [49])])
    sample_profile 49 [] []); [cbn; lia | vm_compute; reflexivity | vm_compute; reflexivity | done].
Defined.
