(* ===== verification/Udhcpc.v ===== *)
(** * udhcpc.c: bringing the interface of a data call up and down.
    [udhcpc_start] tells the driver, brings the interface up and then, unless a bridge serves the call, runs the DHCP client for IPv4
    and sets address, route and name servers for IPv6; [udhcpc_stop] undoes it.  [dibbler_client_alive] is never set in
    this build. *)
From S2P Require Import Prelude Util Compose Monad QmiRequests Text Resolv Device Net Qmap.
#[local] Open Scope Z_scope.
#[local] Open Scope c_scope.

(** The eight groups of an address, in network order, as [%x:...:%x]. *)
Definition group (Address : bytes) (i : nat) : Z := u16 (((Address !!! (2 * i)%nat) .<< 8) + Address !!! (2 * i + 1)%nat).
Definition ipv6Str (Address : bytes) : bytes :=
  snprintf 64 (hex (group Address 0) ++ (seq 1 7 ≫= fun i => str ":" ++ hex (group Address i))).

Definition dns_file : bytes := str "/etc/resolv.conf".

Section Udhcpc.
Context {net : Net} {heap : Heap}.

(** The second server is a string on the stack; [None]: its buffer has no end. *)
Definition update_resolv (ifname : bytes) (dns1 dns2str : option bytes) : MN unit :=
  t ← gets (fun l => n_text l dns_file); e ← gets (fun l => n_access l dns_file); w ← gets (fun l => n_writable l dns_file);
  let file := match t with Some s => Content s | None => if e =? ENOENT then NoEntry else Unreadable end in
  match update_resolv_conf file w 6 ifname dns1 (Some (default [] dns2str)) with
  | Some s => _ ← lift dns2str; does (Wrote dns_file s)
  | None => mret tt
  end.

(** The IPv4 address comes from the DHCP client; when that did not get one, the driver's raw mode is switched on and it is run again. *)
Definition start_ipv4 (ifname : bytes) : MN unit :=
  let udhcpc_cmd := snprintf 128 (str "busybox udhcpc -f -n -q -t 5 -i " ++ ifname) in
  udhcpc_thread_function (copy udhcpc_cmd);;
  again ← ql_raw_ip_mode_check ifname;
  if negb (again =? 0) then udhcpc_thread_function (copy udhcpc_cmd) else mret tt.

(** [dns2str] is passed whether it was filled or not: [profile->ipv6.DnsSecondary] is an array and so never null. *)
Definition start_ipv6 (junk : bytes) (ifname : bytes) (a : IPV6_T) : MN unit :=
  ql_system (snprintf 128 (str "ip -6 address add " ++ ipv6Str (Address6 a) ++ str "/" ++ dec (PrefixLengthIPAddr a) ++ str " dev " ++ ifname));;
  ql_system (snprintf 128 (str "ip -6 route add default via " ++ ipv6Str (Gateway6 a) ++ str " dev " ++ ifname));;
  let primary := negb (DnsPrimary6 a !!! 0%nat =? 0) in
  let secondary := negb (DnsSecondary6 a !!! 0%nat =? 0) in
  if primary || secondary then
    update_resolv ifname (if primary then Some (ipv6Str (DnsPrimary6 a)) else None)
      (if secondary then Some (ipv6Str (DnsSecondary6 a)) else cstr junk)
  else mret tt.

(** [junk] and [junk2] are what the stack holds under [link_file] and [dns2str]. *)
Definition udhcpc_start (junk junk2 : bytes) (profile : NET_T) : MN unit :=
  ql_set_driver_link_state junk profile 1;;
  let ifname := default (usbnet_adapter profile) (qmapnet_adapter profile) in
  when (negb (rawIP profile =? 0) && negb (Address (ipv4 profile) =? 0) && negb (Mtu (ipv4 profile) =? 0))
    (ql_set_mtu ifname (Mtu (ipv4 profile)));;
  when (negb (bool_decide (ifname = usbnet_adapter profile)))
    (ql_system (snprintf 128 (str "ifconfig " ++ usbnet_adapter profile ++ str " up"));;
     f ← ifc_get_flags ifname;
     when (negb (f .& IFF_UP =? 0)) (ql_system (snprintf 128 (str "ifconfig " ++ ifname ++ str " down"))));;
  ql_system (snprintf 128 (str "ifconfig " ++ ifname ++ str " up"));;
  b ← ql_bridge_mode_detect profile;
  if b : bool then mret tt else
  when (negb (Address (ipv4 profile) =? 0)) (start_ipv4 ifname);;
  when (negb (Address6 (ipv6 profile) !!! 0%nat =? 0) && negb (PrefixLengthIPAddr (ipv6 profile) =? 0)) (start_ipv6 junk2 ifname (ipv6 profile)).

Definition udhcpc_stop (junk : bytes) (profile : NET_T) : MN unit :=
  ql_set_driver_link_state junk profile 0;;
  let ifname := default (usbnet_adapter profile) (qmapnet_adapter profile) in
  ql_system (snprintf 128 (str "ifconfig " ++ ifname ++ str " 0.0.0.0"));;
  ql_system (snprintf 128 (str "ifconfig " ++ ifname ++ str " down")).
End Udhcpc.
