(* ===== verification/UdhcpcSpec.v ===== *)
(** * What the network set-up of Udhcpc.v does, and the name server it makes up. *)
From S2P Require Import Prelude Util Compose Monad QmiRequests Text Resolv Device Net Qmap Udhcpc.
#[local] Open Scope Z_scope.
#[local] Open Scope c_scope.

(** ** IPv6 addresses read back *)
(** The parts of a string between colons, and the sixteen bytes of the eight numbers they are. *)
Fixpoint parts (s part : bytes) : list bytes :=
  match s with
  | [] => [part]
  | c :: s => if c =? 58 then part :: parts s [] else parts s (part ++ [c])
  end.
Definition read_ipv6 (s : bytes) : bytes := parts s [] ≫= fun p => [hex_run p 0 / 256; hex_run p 0 mod 256].

Lemma is_hex_no_colon c : is_hex c -> (c =? 58) = false.
Proof. intros (d & Hd & ->). apply Z.eqb_neq. unfold hex_digit. destruct (Z.ltb_spec d 10); lia. Qed.
Lemma parts_app h s p : Forall is_hex h -> parts (h ++ s) p = parts s (p ++ h).
Proof.
  intros Hh. revert p. induction Hh as [|c h Hc _ IH]; intros p; cbn [app parts]; [by rewrite app_nil_r|].
  rewrite is_hex_no_colon, IH by done. by rewrite <- app_assoc.
Qed.
Lemma hex_spec n : 0 <= n < 2 ^ 32 -> hex_run (hex n) 0 = n /\ Forall is_hex (hex n).
Proof.
  intros Hn. destruct (hex_loop_spec 8 n []) as (s & E & Hs & Fs & _); [change (16 ^ Z.of_nat 8) with 4294967296; lia | lia |].
  unfold hex. by rewrite E, app_nil_r.
Qed.
Lemma hex_short k n : 0 <= n < 16 ^ Z.of_nat k -> (0 < k)%nat -> (length (hex n) <= k)%nat.
Proof.
  unfold hex. intros Hn Hk. enough (H : forall fuel k n acc, 0 <= n < 16 ^ Z.of_nat k -> (0 < k)%nat -> (length (hex_loop fuel n acc) <= k + length acc)%nat).
  { specialize (H 8%nat k n [] Hn Hk). cbn [length] in H. lia. }
  clear. intros fuel. induction fuel as [|fuel IH]; intros k n acc Hn Hk; cbn [hex_loop]; [lia|].
  destruct (Z.eqb_spec (n / 16) 0) as [E|E]; [cbn [length]; lia|]. destruct k as [|[|k]]; [lia | cbn in Hn; zdm |].
  eapply Nat.le_trans; [apply (IH (S k)); [|lia] | cbn [length]; lia]. rewrite Nat2Z.inj_succ, Z.pow_succ_r in Hn by lia. zdm.
Qed.

Definition is_address (a : bytes) : Prop := length a = 16%nat /\ Forall is_byte a.
Lemma group_bytes a i : is_address a -> (i < 8)%nat ->
  0 <= group a i < 2 ^ 16 /\ group a i / 256 = a !!! (2 * i)%nat /\ group a i mod 256 = a !!! (2 * i + 1)%nat.
Proof.
  intros [Hl Hb] Hi. assert (H : forall j, (j < 16)%nat -> is_byte (a !!! j)).
  { intros j Hj. eapply Forall_lookup_1; [exact Hb|]. apply list_lookup_lookup_total_lt. lia. }
  pose proof (H (2 * i)%nat ltac:(lia)) as H0. pose proof (H (2 * i + 1)%nat ltac:(lia)) as H1. unfold is_byte in *.
  unfold group. rewrite Z.shiftl_mul_pow2 by lia. change (2 ^ 8) with 256. change (2 ^ 16) with 65536. rewrite u16_id by (unfold is_u16; lia). split_and!; zdm.
Qed.
Lemma ipv6Str_whole a : is_address a ->
  ipv6Str a = hex (group a 0) ++ (seq 1 7 ≫= fun i => str ":" ++ hex (group a i)) /\ (length (ipv6Str a) <= 39)%nat.
Proof.
  intros Ha. assert (H : forall i, (i < 8)%nat -> (length (hex (group a i)) <= 4)%nat).
  { intros i Hi. apply hex_short; [|lia]. destruct (group_bytes a i Ha Hi) as [Hr _]. exact Hr. }
  assert (Hlen : (length (hex (group a 0) ++ (seq 1 7 ≫= fun i => str ":" ++ hex (group a i))) <= 39)%nat).
  { cbn [seq mbind list_bind]. rewrite !length_app. change (length (str ":")) with 1%nat. cbn [length].
    pose proof (H 0%nat ltac:(lia)). pose proof (H 1%nat ltac:(lia)). pose proof (H 2%nat ltac:(lia)). pose proof (H 3%nat ltac:(lia)).
    pose proof (H 4%nat ltac:(lia)). pose proof (H 5%nat ltac:(lia)). pose proof (H 6%nat ltac:(lia)). pose proof (H 7%nat ltac:(lia)). lia. }
  unfold ipv6Str. rewrite snprintf_fits by (unfold zlen; lia). done.
Qed.
Lemma read_ipv6Str a : is_address a -> read_ipv6 (ipv6Str a) = a.
Proof.
  intros Ha. destruct (ipv6Str_whole a Ha) as [-> _]. destruct Ha as [Hl Hb].
  assert (Hg : forall i, (i < 8)%nat -> Forall is_hex (hex (group a i)) /\ [hex_run (hex (group a i)) 0 / 256; hex_run (hex (group a i)) 0 mod 256] = [a !!! (2 * i)%nat; a !!! (2 * i + 1)%nat]).
  { intros i Hi. destruct (group_bytes a i (conj Hl Hb) Hi) as (Hr & H1 & H2). destruct (hex_spec (group a i)) as [-> F]; [lia|]. by rewrite H1, H2. }
  unfold read_ipv6. cbn [seq mbind list_bind]. change (str ":") with [58].
  rewrite parts_app by (apply Hg; lia). cbn [app parts Z.eqb Pos.eqb].
  do 7 (rewrite parts_app by (apply Hg; lia); cbn [app parts Z.eqb Pos.eqb]). cbn [mbind list_bind].
  rewrite (proj2 (Hg 0%nat ltac:(lia))), (proj2 (Hg 1%nat ltac:(lia))), (proj2 (Hg 2%nat ltac:(lia))), (proj2 (Hg 3%nat ltac:(lia))),
    (proj2 (Hg 4%nat ltac:(lia))), (proj2 (Hg 5%nat ltac:(lia))), (proj2 (Hg 6%nat ltac:(lia))), (proj2 (Hg 7%nat ltac:(lia))).
  clear -Hl. by do 16 (destruct a as [|? a]; [done|]); destruct a.
Qed.

(** ** Bringing up an IPv6 call *)
Lemma cstr_sprint buf t : no_nul t -> cstr (sprint buf t) = Some (snprintf (zlen buf) t).
Proof. intros H. unfold sprint. apply cstr_app. unfold no_nul, snprintf in *. by apply Forall_take. Qed.

Section Start.
Context {net : Net} {heap : Heap} (junk junk2 : bytes) (profile : NET_T) (ls : list bytes).
Abbreviation card := (usbnet_adapter profile).
Abbreviation addr := (ipv6 profile).

(** The files of the bridge mode, of the interface and of its driver. *)
Definition card_file (name : bytes) : bytes := snprintf 128 (str "/sys/class/net/" ++ card ++ name).
Definition driver_file (driver name : bytes) : bytes := snprintf 128 (str "/sys/module/" ++ driver ++ name).
(** A mode that is off: an empty file, one that begins with 0, or one that cannot be read. *)
Definition mode_off (l : list effect) (file : bytes) : Prop := forall c t, n_text l file = Some (c :: t) -> c = 48.
(** No bridge: neither the interface nor its driver has such a mode; or the one that has it has it off; or what is there may not be read. *)
Inductive no_bridge (l : list effect) : Prop :=
  | NoFiles driver : n_access l (card_file (str "/bridge_ipv4")) = ENOENT -> driver_name profile = Some driver ->
      n_access l (driver_file driver (str "/parameters/bridge_mode")) <> 0 -> no_bridge l
  | DriverOff driver : n_access l (card_file (str "/bridge_ipv4")) = ENOENT -> driver_name profile = Some driver ->
      mode_off l (driver_file driver (str "/parameters/bridge_mode")) -> no_bridge l
  | CardOff : n_access l (card_file (str "/bridge_ipv4")) = 0 -> mode_off l (card_file (str "/bridge_mode")) -> no_bridge l
  | Unreadable e : n_access l (card_file (str "/bridge_ipv4")) = e -> e <> 0 -> e <> ENOENT -> no_bridge l.

(** The driver is told the state of the link when it has a file for it; what is written are the bytes of the whole buffer. *)
Definition link_file : bytes := str "/sys/class/net/" ++ card ++ str "/link_state".
Definition link_up (l : list effect) : list effect :=
  let file := snprintf (zlen junk) link_file in
  if n_writable l file then
    [Wrote file (sprint (sprint junk link_file) (dec_signed (if qmap_mode profile <=? 1 then 1 else pdp profile) ++ [newline]))]
  else [].
(** The interface of the call is the one of the modem and no bridge is on; memory suffices, and /etc/resolv.conf holds the lines [ls]. *)
Record plain_interface : Prop := {
  pi_memory n : malloc_ok n = true;
  pi_adapter : qmapnet_adapter profile = None;
  pi_name : no_nul card;
  pi_bridge l : no_bridge l;
  pi_dns l : n_text l dns_file = Some (text ls) /\ n_writable l dns_file = true;
  pi_lines : Forall good_line ls }.

Lemma off_file (l : list effect) (file : bytes) : mode_off l file ->
  exists buf n, ql_fread file 64 l = Some ((buf, n), l) /\ (n =? 0)%nat || (buf !!! 0%nat =? 48) = true.
Proof.
  intros H. unfold ql_fread. rewrite bind_gets. eexists _, _. split; [reflexivity|]. unfold mode_off in H.
  destruct (n_text l file) as [[|c t]|]; [done | | done]. specialize (H c t eq_refl) as ->. done.
Qed.
Lemma bridge_off l : qmapnet_adapter profile = None -> no_bridge l -> ql_bridge_mode_detect profile l = Some (false, l).
Proof.
  intros Ha H. unfold ql_bridge_mode_detect. cbv zeta. rewrite Ha, bind_gets. cbn [default]. fold (card_file (str "/bridge_ipv4")) (card_file (str "/bridge_mode")).
  destruct H as [driver E Ed Em | driver E Ed Em | E Em | e E H0 H1]; rewrite E.
  - change (ENOENT =? 0) with false. cbv iota. rewrite Z.eqb_refl, Ed. cbn [negb]. rewrite bind_lift, bind_gets. fold (driver_file driver (str "/parameters/bridge_mode")).
    by rewrite (proj2 (Z.eqb_neq _ _) Em).
  - change (ENOENT =? 0) with false. cbv iota. rewrite Z.eqb_refl, Ed. cbn [negb]. rewrite bind_lift, bind_gets. fold (driver_file driver (str "/parameters/bridge_mode")).
    destruct (_ =? 0); [|done]. cbn [negb]. destruct (off_file _ _ Em) as (buf & n & Ef & Eo). erewrite bind_step by exact Ef. cbv beta iota. by rewrite Eo.
  - rewrite Z.eqb_refl. destruct (off_file _ _ Em) as (buf & n & Ef & Eo). erewrite bind_step by exact Ef. cbv beta iota. by rewrite Eo.
  - rewrite (proj2 (Z.eqb_neq _ _) H0). cbv iota. by rewrite (proj2 (Z.eqb_neq _ _) H1).
Qed.

Lemma start_plain l : plain_interface -> Address (ipv4 profile) = 0 ->
  udhcpc_start junk junk2 profile l =
  (when (negb (Address6 addr !!! 0%nat =? 0) && negb (PrefixLengthIPAddr addr =? 0)) (start_ipv6 junk2 card addr))
    (l ++ link_up l ++ [Run (snprintf 128 (str "ifconfig " ++ card ++ str " up"))]).
Proof.
  intros Hp Hr. unfold udhcpc_start.
  assert (E : ql_set_driver_link_state junk profile 1 l = Some (tt, l ++ link_up l)).
  { unfold ql_set_driver_link_state. cbv zeta. fold link_file. rewrite cstr_sprint.
    - rewrite bind_lift, bind_gets. unfold link_up. destruct (n_writable l _); [|by rewrite app_nil_r]. cbn [negb]. unfold does. rewrite bind_modify.
      rewrite (pi_adapter Hp). change (1 =? 0) with false. cbv iota. by destruct (qmap_mode profile <=? 1).
    - unfold no_nul, link_file. rewrite !Forall_app. split_and!; [by repeat constructor | apply (pi_name Hp) | by repeat constructor]. }
  erewrite bind_step by exact E. cbv zeta. rewrite (pi_adapter Hp), Hr. cbn [default Z.eqb negb]. rewrite andb_false_r. cbn [andb when]. rewrite bind_ret.
  rewrite bool_decide_eq_true_2 by done. cbn [negb when]. rewrite bind_ret. unfold ql_system, does. rewrite bind_modify, <- app_assoc.
  set (l1 := l ++ link_up l ++ _). assert (B : ql_bridge_mode_detect profile l1 = Some (false, l1)).
  { apply bridge_off; [apply (pi_adapter Hp) | apply (pi_bridge Hp)]. }
  by erewrite bind_step by exact B.
Qed.

(** The second name server, as the code passes it. *)
Definition second_server : option bytes :=
  if DnsSecondary6 addr !!! 0%nat =? 0 then cstr junk2 else Some (ipv6Str (DnsSecondary6 addr)).

Lemma start_ipv6_run l d2 : plain_interface -> DnsPrimary6 addr !!! 0%nat <> 0 -> second_server = Some d2 ->
  start_ipv6 junk2 card addr l = Some (tt, l ++
    [ Run (snprintf 128 (str "ip -6 address add " ++ ipv6Str (Address6 addr) ++ str "/" ++ dec (PrefixLengthIPAddr addr) ++ str " dev " ++ card));
      Run (snprintf 128 (str "ip -6 route add default via " ++ ipv6Str (Gateway6 addr) ++ str " dev " ++ card));
      Wrote dns_file (text (server_lines 6 card (Some (ipv6Str (DnsPrimary6 addr))) (Some d2) ++ reprint (take MAX_DNS (untagged (dns_tag 6 card) ls)))) ]).
Proof.
  intros Hp H1 H2. unfold start_ipv6, ql_system, does. rewrite !bind_modify. cbv zeta. rewrite (proj2 (Z.eqb_neq _ _) H1). cbn [negb orb].
  replace (if negb (DnsSecondary6 addr !!! 0%nat =? 0) then Some (ipv6Str (DnsSecondary6 addr)) else cstr junk2) with (Some d2)
    by (rewrite <- H2; unfold second_server; by destruct (_ =? 0)).
  unfold update_resolv, does. rewrite !bind_gets. destruct (pi_dns Hp ((l ++ [Run (snprintf 128 (str "ip -6 address add " ++ ipv6Str (Address6 addr) ++ str "/" ++ dec (PrefixLengthIPAddr addr) ++ str " dev " ++ card))])
     ++ [Run (snprintf 128 (str "ip -6 route add default via " ++ ipv6Str (Gateway6 addr) ++ str " dev " ++ card))])) as [-> ->].
  cbn [default]. rewrite update_resolv_conf_sets; [| apply (pi_memory Hp) | apply (pi_lines Hp) | done].
  rewrite bind_lift. unfold modify. by rewrite <- !app_assoc.
Qed.

(** The configuration of an IPv6 call, with at least one name server, on an interface the kernel can have. *)
Record ipv6_call : Prop := {
  ic_v4 : Address (ipv4 profile) = 0; ic_name : zlen card <= 15; ic_prefix : PrefixLengthIPAddr addr <> 0;
  ic_address : is_address (Address6 addr) /\ Address6 addr !!! 0%nat <> 0; ic_gateway : is_address (Gateway6 addr);
  ic_dns : is_address (DnsPrimary6 addr) /\ DnsPrimary6 addr !!! 0%nat <> 0 }.
Definition commands (a g : bytes) : list effect :=
  [ Run (str "ifconfig " ++ card ++ str " up");
    Run (str "ip -6 address add " ++ a ++ str "/" ++ dec (PrefixLengthIPAddr addr) ++ str " dev " ++ card);
    Run (str "ip -6 route add default via " ++ g ++ str " dev " ++ card) ].
Definition published (d1 d2 : bytes) : effect :=
  Wrote dns_file (text (server_lines 6 card (Some d1) (Some d2) ++ reprint (take MAX_DNS (untagged (dns_tag 6 card) ls)))).

Lemma start_ipv6_call l d2 : plain_interface -> ipv6_call -> second_server = Some d2 ->
  udhcpc_start junk junk2 profile l =
    Some (tt, l ++ link_up l ++ commands (ipv6Str (Address6 addr)) (ipv6Str (Gateway6 addr)) ++ [published (ipv6Str (DnsPrimary6 addr)) d2]).
Proof.
  intros Hp Hc H2. rewrite start_plain by (done || apply Hc). rewrite (proj2 (Z.eqb_neq _ _) (proj2 (ic_address Hc))), (proj2 (Z.eqb_neq _ _) (ic_prefix Hc)).
  cbn [Z.eqb negb andb when]. rewrite (start_ipv6_run _ d2) by (done || apply Hc). rewrite <- !app_assoc. cbn [app]. unfold commands, published.
  pose proof (proj2 (ipv6Str_whole _ (proj1 (ic_address Hc)))) as Ha. pose proof (proj2 (ipv6Str_whole _ (ic_gateway Hc))) as Hg.
  pose proof (ic_name Hc) as Hn. pose proof (dec_length (PrefixLengthIPAddr addr)) as Hd.
  rewrite !snprintf_fits; [done|..]; rewrite !zlen_app; unfold zlen in *; repeat match goal with |- context [length (str ?x)] => change (length (str x)) with ltac:(let n := eval vm_compute in (length (str x)) in exact n) end; lia.
Qed.

(** C16: an IPv6 call with two name servers on an interface whose bridge mode is off, or which has none, tells the driver that the link is up if
    there is a file for it, brings the interface up, sets the address with its prefix and the default route, and writes both
    servers, marked for the interface, into /etc/resolv.conf before the lines of others; every address in these texts reads back as
    the one the modem gave. *)
Theorem ipv6_call_set_up l :
  plain_interface -> ipv6_call -> is_address (DnsSecondary6 addr) -> DnsSecondary6 addr !!! 0%nat <> 0 ->
  exists a g d1 d2, udhcpc_start junk junk2 profile l = Some (tt, l ++ link_up l ++ commands a g ++ [published d1 d2]) /\
    read_ipv6 a = Address6 addr /\ read_ipv6 g = Gateway6 addr /\ read_ipv6 d1 = DnsPrimary6 addr /\ read_ipv6 d2 = DnsSecondary6 addr.
Proof.
  intros Hp Hc H2 H3. do 4 eexists. split; [apply start_ipv6_call; [done | done |]; unfold second_server; by rewrite (proj2 (Z.eqb_neq _ _) H3)|].
  split_and!; apply read_ipv6Str; try done; apply Hc.
Qed.

(** With one name server, a second one is written that nobody configured: the string that happens to be on the stack. *)
Theorem made_up_name_server l j e :
  plain_interface -> ipv6_call -> DnsSecondary6 addr !!! 0%nat = 0 -> no_nul j -> junk2 = j ++ 0 :: e ->
  exists a g d1, udhcpc_start junk junk2 profile l = Some (tt, l ++ link_up l ++ commands a g ++ [published d1 j]).
Proof.
  intros Hp Hc H2 Hj Hjunk. do 3 eexists. apply start_ipv6_call; [done | done |]. unfold second_server. rewrite H2. cbn [Z.eqb].
  rewrite Hjunk. by apply cstr_app.
Qed.
End Start.

(** ** A call *)
Definition sample_v6 (second : Z) : IPV6_T :=
  {| Address6 := [0x2a; 0x01; 0; 0xfe] ++ replicate 11 0 ++ [7]; Gateway6 := [0xfe; 0x80] ++ replicate 13 0 ++ [1]; SubnetMask6 := replicate 16 0;
     DnsPrimary6 := [0x20; 0x01] ++ replicate 12 0 ++ [0x88; 0x88]; DnsSecondary6 := second :: replicate 15 0; PrefixLengthIPAddr := 64;
     PrefixLengthGateway := 64; Mtu6 := 1500 |}.
Definition sample_call (second : Z) : NET_T :=
  {| qmichannel := str "/dev/cdc-wdm0"; usbnet_adapter := str "wwan0"; qmapnet_adapter := None; driver_name := Some (str "qmi_wwan_q"); qmap_mode := 0; qmap_size := 0;
     qmap_version := 0; pdp := 1; rawIP := 1; muxid := 0; enable_bridge := 0; software_interface := SOFTWARE_QMI;
     ipv4 := ipv4_zero; ipv6 := sample_v6 second; rmnet_info := [] |}.
Definition sample_host : Net := {|
  n_access := fun _ _ => ENOENT; n_text := fun _ p => if bool_decide (p = dns_file) then Some (text [str "search lan"]) else None;
  n_writable := fun _ p => bool_decide (p = dns_file); n_readlink := fun _ _ => None;
  n_socket := true; n_mtu := fun _ _ => None; n_flags := fun _ _ => None; n_address := fun _ _ => None; n_rmnet := fun _ _ => None |}.
Definition sample_heap : Heap := {| malloc_ok := fun _ => true |}.

Lemma sample_plain second : plain_interface (net := sample_host) (heap := sample_heap) (sample_call second) [str "search lan"].
Proof.
  constructor; try done.
  - apply (bool_decide_unpack _). by vm_compute.
  - intros l. by eapply NoFiles.
  - constructor; [|constructor]. repeat split; repeat constructor; vm_compute; (discriminate || lia).
Qed.
Lemma sample_ipv6_call second : ipv6_call (sample_call second).
Proof.
  constructor; try done; repeat split; try done; try (vm_compute; (discriminate || reflexivity)); repeat constructor; done.
Qed.

Theorem ipv6_call_set_up_witness : exists a d2, read_ipv6 a = Address6 (sample_v6 0xfd) /\ read_ipv6 d2 = 0xfd :: replicate 15 0 /\
  exists g d1, udhcpc_start (net := sample_host) (heap := sample_heap) (replicate 128 0) [] (sample_call 0xfd) [] =
    Some (tt, commands (sample_call 0xfd) a g ++ [published (sample_call 0xfd) [str "search lan"] d1 d2]).
Proof.
  destruct (ipv6_call_set_up (net := sample_host) (heap := sample_heap) (replicate 128 0) [] (sample_call 0xfd) [str "search lan"] []
    (sample_plain _) (sample_ipv6_call _)) as (a & g & d1 & d2 & E & Ha & _ & _ & H2).
  - split; [done|]. repeat constructor; done.
  - done.
  - exists a, d2. split; [exact Ha|]. split; [exact H2|]. exists g, d1. exact E.
Defined.
Theorem made_up_name_server_witness : exists a g d1,
  udhcpc_start (net := sample_host) (heap := sample_heap) (replicate 128 0) (str "stack" ++ 0 :: []) (sample_call 0) [] =
    Some (tt, commands (sample_call 0) a g ++ [published (sample_call 0) [str "search lan"] d1 (str "stack")]).
Proof.
  apply (made_up_name_server (net := sample_host) (heap := sample_heap) (replicate 128 0) _ (sample_call 0) [str "search lan"] [] (str "stack") []
    (sample_plain _) (sample_ipv6_call _)); [done | repeat constructor; discriminate | done].
Defined.
