(* ===== verification/Sansec.v ===== *)
(** * swcsm40.c: the PCI driver of the SanSec cipher card.
    The driver's part for one card is the state [K]: the structure [SWXA_DEV] it allocates, what it holds of the kernel's
    resources, and the table of minor numbers all cards share.  What the kernel's functions return is the input [Answers];
    the card itself is the class [Card]: the status it shows at each read, and what it leaves in the output buffer.
    The build is that of the source: _SWXA_POLLING_ defined, a kernel of version 4.12.1 or later. *)
From S2P Require Import Prelude Util Compose Text Monad.
#[local] Open Scope Z_scope.
#[local] Open Scope c_scope.

Definition ENOMEM : Z := 12.
Definition EFAULT : Z := 14.
Definition ENOTTY : Z := 25.
Definition MAX_BUFFER_LEN : Z := 65536.
Definition MAX_DATA_BUFFER_LEN : Z := MAX_BUFFER_LEN - 256.
Definition SWXA_MAX_DEV_NUM : nat := 4.
Definition ECCref_MAX_LEN : nat := 68.
Definition OPT_ECC_INIT : Z := 0x00000511.
Definition SWXA_RESET_COMMAND : Z := 0x0F01.
Definition SWXA_GET_SUBDEVID : Z := 0x0F02.

Definition H2C_DMA_ST : Z := 0x0004.
Definition H2C_DMA_STA : Z := 0x0040.
Definition H2C_DMA_DESC : Z := 0x0090.
Definition C2H_DMA_STA : Z := 0x1040.
Definition C2H_DMA_DESC : Z := 0x1090.
Definition H2C_DESC_LOW_ADDR : Z := 0x4080.
Definition H2C_DESC_HIGH_ADDR : Z := 0x4084.
Definition H2C_DESC_NXT_CTRL : Z := 0x4088.
Definition C2H_DESC_LOW_ADDR : Z := 0x5080.
Definition C2H_DESC_HIGH_ADDR : Z := 0x5084.
Definition C2H_DESC_NXT_CTRL : Z := 0x5088.

(** ** State *)
(** The six buffers of [dma_alloc_coherent], by the field that points to them. *)
Inductive buffer := swxa_dma_buffer | swxa_dma_bufferout | swxa_dma_bufferKelIn | swxa_dma_bufferKelOut
  | swxa_des_buffer | swxa_des_bufferout.
#[export] Instance buffer_eq : EqDecision buffer.
Proof. solve_decision. Defined.

(** What the driver can hold: its structure, the enabled device, a buffer with its size, the memory region, its mapping, the
    character device, the device node. *)
Inductive resource := Structure | Enabled | Coherent (b : buffer) (size : Z) | Region | Mapping | Cdev | Node.
#[export] Instance resource_eq : EqDecision resource.
Proof. solve_decision. Defined.

Record SWXA_DEV := { swxa_iobase0 : Z; swxa_io0Len : Z; swxa_membase0 : Z; SubDevID : Z; type : Z; minor : Z;
  physical : buffer -> Z; content : buffer -> bytes; wr_mutex : bool }.
#[export] Instance SWXA_DEV_eta : Eta SWXA_DEV := fun s =>
  {| swxa_iobase0 := swxa_iobase0 s; swxa_io0Len := swxa_io0Len s; swxa_membase0 := swxa_membase0 s; SubDevID := SubDevID s;
     type := type s; minor := minor s; physical := physical s; content := content s; wr_mutex := wr_mutex s |}.
#[export] Instance set_swxa_iobase0 : Setter swxa_iobase0 := ltac:(derive_setter).
#[export] Instance set_swxa_io0Len : Setter swxa_io0Len := ltac:(derive_setter).
#[export] Instance set_swxa_membase0 : Setter swxa_membase0 := ltac:(derive_setter).
#[export] Instance set_SubDevID : Setter SubDevID := ltac:(derive_setter).
#[export] Instance set_type : Setter type := ltac:(derive_setter).
#[export] Instance set_minor : Setter minor := ltac:(derive_setter).
#[export] Instance set_physical : Setter physical := ltac:(derive_setter).
#[export] Instance set_content : Setter content := ltac:(derive_setter).
#[export] Instance set_wr_mutex : Setter wr_mutex := ltac:(derive_setter).

(** [dev] is the structure [kmalloc] gave, [drvdata] whether the PCI device points to it, [name] the name of the device node, [io] what was written
    to the card's registers, [reads] how often its status was read, [odd] the buffers freed with another size than theirs. *)
Record K := { Swxa_Dev_Stat : bytes; dev : option SWXA_DEV; drvdata : bool; held : list resource; name : bytes;
  io : list (Z * Z); reads : nat; odd : list buffer }.
#[export] Instance K_eta : Eta K := fun s =>
  {| Swxa_Dev_Stat := Swxa_Dev_Stat s; dev := dev s; drvdata := drvdata s; held := held s; name := name s; io := io s;
     reads := reads s; odd := odd s |}.
#[export] Instance set_Swxa_Dev_Stat : Setter Swxa_Dev_Stat := ltac:(derive_setter).
#[export] Instance set_dev : Setter dev := ltac:(derive_setter).
#[export] Instance set_drvdata : Setter drvdata := ltac:(derive_setter).
#[export] Instance set_held : Setter held := ltac:(derive_setter).
#[export] Instance set_name : Setter name := ltac:(derive_setter).
#[export] Instance set_io : Setter io := ltac:(derive_setter).
#[export] Instance set_reads : Setter reads := ltac:(derive_setter).
#[export] Instance set_odd : Setter odd := ltac:(derive_setter).

Abbreviation MK := (M K).

(** What the kernel returns: a NULL pointer is [None] or [false]; [coherent] gives the bus address and the content of a buffer. *)
Record Answers := { kmalloc_ok : bool; enable_rc : Z; resource_start : Z; resource_len : Z; cfg_type : Z; cfg_subdev : Z;
  coherent : buffer -> option (Z * bytes); region_ok : bool; ioremap : Z; cdev_rc : Z; garbage : SWXA_DEV }.

(** The status the card shows at the n-th read, and the output buffer it leaves for given descriptors and buffers. *)
Class Card : Type := { status : nat -> Z; runs : bytes -> bytes -> bytes -> bytes -> bytes }.

(** A list without the first occurrence of an element it has. *)
Fixpoint remove_one (r : resource) (l : list resource) : option (list resource) :=
  match l with
  | [] => None
  | x :: l => if bool_decide (x = r) then Some l else cons x <$> remove_one r l
  end.

Section Operations.
Context {host : Host} {card : Card}.

(** ** The kernel's functions, on this state *)
Definition acquire (r : resource) : MK unit := modify (fun k => k <| held := r :: held k |>).
Definition release (r : resource) : MK unit := fun k =>
  match remove_one r (held k) with Some h => Some (tt, k <| held := h |>) | None => None end.
Definition swxa_dev : MK SWXA_DEV := d ← gets dev; lift d.
Definition set_dev_field (f : SWXA_DEV -> SWXA_DEV) : MK unit := d ← swxa_dev; modify (fun k => k <| dev := Some (f d) |>).
Definition is_buffer (b : buffer) (r : resource) : bool := match r with Coherent b' _ => bool_decide (b = b') | _ => false end.
Definition dma_free (size : Z) (b : buffer) : MK unit := fun k =>
  match list_find (is_buffer b) (held k) with
  | Some (_, Coherent _ n as r) =>
      (release r;; when (negb (n =? size)) (modify (fun k => k <| odd := b :: odd k |>))) k
  | _ => None
  end.
Definition dma_free_coherent (size : Z) (b : buffer) : MK unit := _ ← swxa_dev; dma_free size b.
Definition kfree : MK unit := release Structure;; modify (fun k => k <| dev := None |>).
Definition pci_set_drvdata (b : bool) : MK unit := modify (fun k => k <| drvdata := b |>).
(** A store in one of the structure's buffers. *)
Definition put (b : buffer) (c : bytes) (d : SWXA_DEV) : SWXA_DEV :=
  d <| content := fun b' => if bool_decide (b' = b) then c else content d b' |>.
Definition in_buffer (b : buffer) (f : bytes -> option bytes) : MK unit :=
  d ← swxa_dev; c ← lift (f (content d b)); set_dev_field (put b c).
(** An address that [ioremap] did not give is no register. *)
Definition iowrite32 (v a : Z) : MK unit :=
  d ← swxa_dev; if swxa_membase0 d =? 0 then undefined else modify (fun k => k <| io := io k ++ [(swxa_membase0 d + a, u32 v)] |>).
Definition ioread32 (a : Z) : MK Z :=
  d ← swxa_dev; n ← gets reads; if swxa_membase0 d =? 0 then undefined else modify (fun k => k <| reads := S n |>);; mret (status n).
(** A mutex taken by its holder does not come back. *)
Definition mutex_lock : MK unit :=
  d ← swxa_dev; if wr_mutex d then undefined else set_dev_field (fun d => d <| wr_mutex := true |>).
Definition mutex_unlock : MK unit := set_dev_field (fun d => d <| wr_mutex := false |>).

(** ** Operations *)
Fixpoint convert (fuel : nat) (pbSrcBuffer : bytes) : bytes :=
  match fuel, pbSrcBuffer with
  | S fuel, a :: b :: c :: d :: s => d :: c :: b :: a :: convert fuel s
  | _, _ => []
  end.
(** The source buffer, of [unBuferLength] bytes; the bytes stored, or nothing and -1. *)
Definition ConvertIntEndianCode (pbSrcBuffer : bytes) : Z * option bytes :=
  if negb (zlen pbSrcBuffer .& 3 =? 0) then (-1, None) else (0, Some (convert (length pbSrcBuffer) pbSrcBuffer)).

(** [while (!(ioread32(a) & 4)) ;]: [fuel] bounds the reads, and a card that never shows the bit keeps the caller. *)
Fixpoint wait_done (fuel : nat) (a : Z) : MK unit :=
  match fuel with
  | O => undefined
  | S fuel => s ← ioread32 a; if s .& 4 =? 0 then wait_done fuel a else mret tt
  end.

(** The lengths the source passes are not used by its body. *)
Definition swxa_Dialog (fuel : nat) (nWrNum nRdNum : Z) : MK unit :=
  d ← swxa_dev;
  iowrite32 (physical d swxa_des_buffer) H2C_DESC_LOW_ADDR;; iowrite32 0 H2C_DESC_HIGH_ADDR;; iowrite32 0 H2C_DESC_NXT_CTRL;;
  iowrite32 6 H2C_DMA_DESC;; iowrite32 7 H2C_DMA_ST;; wait_done fuel H2C_DMA_STA;;
  iowrite32 (physical d swxa_des_bufferout) C2H_DESC_LOW_ADDR;; iowrite32 0 C2H_DESC_HIGH_ADDR;; iowrite32 0 C2H_DESC_NXT_CTRL;;
  iowrite32 6 C2H_DMA_DESC;; wait_done fuel C2H_DMA_STA;;
  in_buffer swxa_dma_bufferout (fun out =>
    Some (runs (content d swxa_des_buffer) (content d swxa_des_bufferout) (content d swxa_dma_buffer) out));;
  iowrite32 0x07ffffff 0x100c;; iowrite32 0xfffffe C2H_DMA_STA.

Definition words (l : list Z) : bytes := l ≫= enc32.
Definition Descriptor_H2C (d : SWXA_DEV) : bytes :=
  words [0xAD4B0002; 0x00002000; u32 (physical d swxa_dma_buffer); 0; 0x40000000; 0; 0x40000000; 0].
Definition Descriptor_C2H (d : SWXA_DEV) : bytes :=
  words [0xAD4B0003; 0x00002000; 0x40000000; 0; u32 (physical d swxa_dma_bufferout); 0; 0x40000000; 0].
Definition put_descriptors : MK unit :=
  d ← swxa_dev; in_buffer swxa_des_buffer (fun m => sts m 0 (Descriptor_H2C d));;
  in_buffer swxa_des_bufferout (fun m => sts m 0 (Descriptor_C2H d)).

(** The curve's six parameters p, a, b, x and y of the base point, and its order. *)
Definition ECC_256 : list bytes := [
  [0xff;0xff;0xff;0xff; 0x00;0x00;0x00;0x01; 0x00;0x00;0x00;0x00; 0x00;0x00;0x00;0x00; 0x00;0x00;0x00;0x00; 0xff;0xff;0xff;0xff; 0xff;0xff;0xff;0xff; 0xff;0xff;0xff;0xff];
  [0xff;0xff;0xff;0xff; 0x00;0x00;0x00;0x01; 0x00;0x00;0x00;0x00; 0x00;0x00;0x00;0x00; 0x00;0x00;0x00;0x00; 0xff;0xff;0xff;0xff; 0xff;0xff;0xff;0xff; 0xff;0xff;0xff;0xfc];
  [0x5a;0xc6;0x35;0xd8; 0xaa;0x3a;0x93;0xe7; 0xb3;0xeb;0xbd;0x55; 0x76;0x98;0x86;0xbc; 0x65;0x1d;0x06;0xb0; 0xcc;0x53;0xb0;0xf6; 0x3b;0xce;0x3c;0x3e; 0x27;0xd2;0x60;0x4b];
  [0x6b;0x17;0xd1;0xf2; 0xe1;0x2c;0x42;0x47; 0xf8;0xbc;0xe6;0xe5; 0x63;0xa4;0x40;0xf2; 0x77;0x03;0x7d;0x81; 0x2d;0xeb;0x33;0xa0; 0xf4;0xa1;0x39;0x45; 0xd8;0x98;0xc2;0x96];
  [0x4f;0xe3;0x42;0xe2; 0xfe;0x1a;0x7f;0x9b; 0x8e;0xe7;0xeb;0x4a; 0x7c;0x0f;0x9e;0x16; 0x2b;0xce;0x33;0x57; 0x6b;0x31;0x5e;0xce; 0xcb;0xb6;0x40;0x68; 0x37;0xbf;0x51;0xf5];
  [0xff;0xff;0xff;0xff; 0x00;0x00;0x00;0x00; 0xff;0xff;0xff;0xff; 0xff;0xff;0xff;0xff; 0xbc;0xe6;0xfa;0xad; 0xa7;0x17;0x9e;0x84; 0xf3;0xb9;0xca;0xc2; 0xfc;0x63;0x25;0x51]].
(** [ECCrefCurveParam] without its last field: each parameter at the end of a zeroed array. *)
Definition Ecc_Curve : bytes := ECC_256 ≫= fun x => replicate (ECCref_MAX_LEN - 32) 0 ++ x.

Definition t_ECCInit (fuel : nat) : MK Z :=
  put_descriptors;;
  in_buffer swxa_dma_buffer (fun m => st32 m 0 (4 + 103));;
  in_buffer swxa_dma_buffer (fun m => st32 m 4 2);;
  in_buffer swxa_dma_buffer (fun m => st32 m 8 OPT_ECC_INIT);;
  in_buffer swxa_dma_buffer (fun m => st32 m 12 0);;
  in_buffer swxa_dma_buffer (fun m => match (ConvertIntEndianCode Ecc_Curve).2 with Some c => sts m 16 c | None => Some m end);;
  in_buffer swxa_dma_buffer (fun m => st32 m (4 * 106) 256);;
  d ← swxa_dev;
  readbytes ← lift (ld32 (content d swxa_dma_buffer) 4); words ← lift (ld32 (content d swxa_dma_buffer) 0);
  swxa_Dialog fuel (words .<< 2) (readbytes .<< 2);;
  d ← swxa_dev; err ← lift (ld32 (content d swxa_dma_bufferout) 4);
  mret (if negb (err =? 0) then -1 else 0).

Definition swxa_reset : MK unit :=
  iowrite32 0x7ffffff 0x000c;; iowrite32 0xfffffe 0x0044;; iowrite32 0xfffffe H2C_DMA_STA;; iowrite32 0x06 0x0098;;
  iowrite32 0x7ffffff 0x100c;; iowrite32 0xfffffe 0x1044;; iowrite32 0xfffffe C2H_DMA_STA;; iowrite32 0x06 0x1098;;
  iowrite32 0x01 0x2018;; iowrite32 0x06 H2C_DMA_DESC;; iowrite32 0x06 C2H_DMA_DESC.

(** The user's bytes; [fault] is the number of bytes copied when the copy fails. *)
Definition swxa_write (fuel : nat) (buf : bytes) (count : Z) (fault : option nat) : MK Z :=
  put_descriptors;; mutex_lock;;
  let count := if MAX_DATA_BUFFER_LEN <? count then MAX_DATA_BUFFER_LEN else count in
  match fault with
  | Some n => in_buffer swxa_dma_buffer (fun m => sts m 0 (take n (take (Z.to_nat count) buf)));; mutex_unlock;; mret (- EFAULT)
  | None =>
      in_buffer swxa_dma_buffer (fun m => sts m 0 (take (Z.to_nat count) buf));;
      d ← swxa_dev; readbytes ← lift (ld32 (content d swxa_dma_buffer) 4);
      swxa_Dialog fuel count (readbytes .<< 2);; mutex_unlock;; mret 0
  end.

(** The result, and the bytes the user gets. *)
Definition swxa_read (count : Z) (fault : bool) : MK (Z * bytes) :=
  mutex_lock;; d ← swxa_dev; out ← lift (lds (content d swxa_dma_bufferout) 0 count);
  mutex_unlock;; mret (if fault then (- EFAULT, []) else (0, out)).

(** [access_ok] with the user's address. *)
Definition swxa_ioctl (cmd : Z) (access_ok : bool) : MK Z :=
  let dir := (cmd .>> 30) .& 3 in
  if negb (dir .& 2 =? 0) && negb access_ok || negb (dir .& 1 =? 0) && negb access_ok then mret (- EFAULT)
  else if cmd =? SWXA_RESET_COMMAND then swxa_reset;; mret 0
  else if cmd =? SWXA_GET_SUBDEVID then d ← swxa_dev; mret (SubDevID d)
  else mret (- ENOTTY).

(** ** Binding a card: each label of [swxa_probe] is a definition *)
Definition set_stat (n v : Z) : MK unit :=
  t ← gets Swxa_Dev_Stat; t ← lift (st t n v); modify (fun k => k <| Swxa_Dev_Stat := t |>).
Definition find_devnum : MK Z :=
  t ← gets Swxa_Dev_Stat;
  match list_find (fun c => c = 0) (take SWXA_MAX_DEV_NUM t) with
  | Some (i, _) => set_stat (Z.of_nat i) 1;; mret (Z.of_nat i)
  | None => mret (Z.of_nat SWXA_MAX_DEV_NUM)
  end.

Section Probe.
Context (devnum rc : Z).
Definition out : MK Z := set_stat devnum 0;; mret rc.
Definition free_part0 : MK Z := kfree;; out.
Definition disable_dev : MK Z := _ ← swxa_dev; release Enabled;; free_part0.
Definition disable_dev2 : MK Z := dma_free_coherent 131072 swxa_dma_buffer;; disable_dev.
Definition disable_dev3 : MK Z := dma_free_coherent MAX_BUFFER_LEN swxa_dma_bufferout;; disable_dev2.
Definition disable_dev4 : MK Z := dma_free_coherent MAX_BUFFER_LEN swxa_dma_bufferKelIn;; disable_dev3.
Definition disable_dev5 : MK Z := dma_free_coherent MAX_BUFFER_LEN swxa_dma_bufferKelOut;; disable_dev4.
Definition disable_dev6 : MK Z := dma_free_coherent MAX_BUFFER_LEN swxa_des_buffer;; disable_dev5.
Definition free_all : MK Z := dma_free_coherent MAX_BUFFER_LEN swxa_des_bufferout;; disable_dev6.
Definition fail : MK Z :=
  _ ← swxa_dev; release Cdev;; pci_set_drvdata false;; release Mapping;; release Region;; free_all.
End Probe.

(** [dma_alloc_coherent] of one buffer, with what is done when there is no memory. *)
Definition alloc (a : Answers) (b : buffer) (failed next : MK Z) : MK Z :=
  match coherent a b with
  | None => failed
  | Some (p, c) =>
      acquire (Coherent b MAX_BUFFER_LEN);;
      set_dev_field (fun d => put b c (d <| physical := fun b' => if bool_decide (b' = b) then p else physical d b' |>));;
      next
  end.
Definition node_name (type devnum : Z) : bytes :=
  str (if type =? 40 then "swcsm-pci40-" else "swcsm-pci42-") ++ [devnum + 48].

(** From the memory region on, with the device enabled and the buffers allocated. *)
Definition probe_region (fuel : nat) (a : Answers) (devnum : Z) : MK Z :=
  if negb (region_ok a) then free_all devnum (-1) else
  acquire Region;; when (negb (ioremap a =? 0)) (acquire Mapping);;
  set_dev_field (fun d => d <| swxa_membase0 := ioremap a |>);;
  pci_set_drvdata true;; set_dev_field (fun d => d <| wr_mutex := false |>);;
  swxa_reset;; acquire Cdev;;
  if negb (cdev_rc a =? 0) then fail devnum (cdev_rc a) else
  set_dev_field (fun d => d <| minor := devnum |>);;
  d ← swxa_dev;
  r ← (if type d =? 40 then t_ECCInit fuel else mret 0);
  if negb (r =? 0) then fail devnum (cdev_rc a) else
  acquire Node;; modify (fun k => k <| name := node_name (type d) devnum |>);; mret 0.

Definition swxa_probe (fuel : nat) (a : Answers) : MK Z :=
  devnum ← find_devnum;
  if negb (kmalloc_ok a) then out devnum (- ENOMEM) else
  acquire Structure;; modify (fun k => k <| dev := Some (garbage a) |>);;
  if enable_rc a <? 0 then free_part0 devnum (enable_rc a) else
  acquire Enabled;;
  set_dev_field (fun d => d <| swxa_iobase0 := resource_start a |> <| swxa_io0Len := resource_len a |>
    <| type := if cfg_type a =? 0x7021 then 42 else 40 |> <| SubDevID := cfg_subdev a |>);;
  alloc a swxa_dma_buffer (disable_dev devnum (- ENOMEM)) (
  alloc a swxa_dma_bufferout (disable_dev2 devnum (- ENOMEM)) (
  alloc a swxa_dma_bufferKelIn (disable_dev3 devnum (- ENOMEM)) (
  alloc a swxa_dma_bufferKelOut (disable_dev4 devnum (- ENOMEM)) (
  alloc a swxa_des_buffer (disable_dev5 devnum (- ENOMEM)) (
  alloc a swxa_des_bufferout (disable_dev6 devnum (- ENOMEM)) (
  probe_region fuel a devnum)))))).

Definition swxa_remove : MK unit :=
  b ← gets drvdata; if negb b then undefined else
  d ← swxa_dev;
  release Node;; release Cdev;; pci_set_drvdata false;; release Mapping;; release Region;;
  dma_free_coherent MAX_BUFFER_LEN swxa_des_bufferout;; dma_free_coherent MAX_BUFFER_LEN swxa_des_buffer;;
  dma_free_coherent MAX_BUFFER_LEN swxa_dma_bufferKelOut;; dma_free_coherent MAX_BUFFER_LEN swxa_dma_bufferKelIn;;
  dma_free_coherent MAX_BUFFER_LEN swxa_dma_bufferout;; dma_free_coherent MAX_BUFFER_LEN swxa_dma_buffer;;
  release Enabled;; kfree;; set_stat (minor d) 0.
End Operations.

(** ** Loading and unloading the module *)
(** The major number, the registered range of device numbers, the class, the driver. *)
Record Driver := { swxa_major : Z; chrdev : option Z; class : bool; driver : bool }.
Definition loaded_with : Driver := {| swxa_major := 113; chrdev := None; class := false; driver := false |}.
(** What [register_chrdev_region], [alloc_chrdev_region] (with the major number it gives) and [pci_register_driver] return. *)
Definition swxa_init (register_rc : Z) (alloc_rc : Z * Z) (pci_rc : Z) (m : Driver) : Z * Driver :=
  let start := if swxa_major m =? 0 then (0, None, 0) else
    (register_rc, if register_rc <? 0 then None else Some (swxa_major m), swxa_major m) in
  let '(rc, region, dev) := start in
  let '(rc, region, dev, major) :=
    if rc <? 0 then
      let dev := if alloc_rc.1 <? 0 then dev else alloc_rc.2 in
      (alloc_rc.1, if alloc_rc.1 <? 0 then None else Some dev, dev, dev)
    else (rc, region, dev, swxa_major m) in
  if rc <? 0 then (rc, {| swxa_major := major; chrdev := region; class := class m; driver := driver m |}) else
  if negb (pci_rc =? 0)
  then (pci_rc, {| swxa_major := major; chrdev := None; class := true; driver := driver m |})
  else (0, {| swxa_major := major; chrdev := region; class := true; driver := true |}).
Definition swxa_exit (m : Driver) : Driver :=
  {| swxa_major := swxa_major m; chrdev := None; class := false; driver := false |}.
