(* ===== verification/SansecSpec.v ===== *)
(** * What the driver of Sansec.v guarantees: a failing probe leaves nothing behind, removal undoes a probe, and a write and a
    read are one command to the card and its answer. *)
From S2P Require Import Prelude Util Compose Text Monad Sansec.
#[local] Open Scope Z_scope.
#[local] Open Scope c_scope.

(** The parts of the state that the operations on an open card leave alone. *)
Definition shared (k : K) : bytes * bool * list resource * bytes * list buffer :=
  (Swxa_Dev_Stat k, drvdata k, held k, name k, odd k).

(** ** Operations on the structure: [does m d d' a] says that [m] turns the structure [d] into [d'] and returns [a]. *)
Definition does {A} (m : MK A) (d d' : SWXA_DEV) (a : A) : Prop :=
  forall k, dev k = Some d -> exists k', m k = Some (a, k') /\ dev k' = Some d' /\ shared k' = shared k.

Section Does.
Context {host : Host} {card : Card}.

Lemma does_bind {A B} (m : MK A) (f : A -> MK B) d d1 d2 a b :
  does m d d1 a -> does (f a) d1 d2 b -> does (m ≫= f) d d2 b.
Proof.
  intros Hm Hf k Hk. destruct (Hm k Hk) as (k1 & E1 & H1 & S1). destruct (Hf k1 H1) as (k2 & E2 & H2 & S2).
  exists k2. rewrite (bind_step _ _ _ _ _ E1). split_and!; [done | done | by rewrite S2].
Qed.
Lemma does_ret {A} d (a : A) : does (mret a) d d a.
Proof. intros k Hk. by exists k. Qed.
Lemma does_lift {A} d (o : option A) a : o = Some a -> does (lift o) d d a.
Proof. intros -> k Hk. by exists k. Qed.
Lemma does_dev d : does swxa_dev d d d.
Proof. intros k Hk. exists k. unfold swxa_dev. rewrite bind_gets, Hk. done. Qed.
Lemma does_field f d : does (set_dev_field f) d (f d) tt.
Proof.
  intros k Hk. unfold set_dev_field, swxa_dev. eexists. rewrite (bind_step _ _ k d k) by (rewrite bind_gets, Hk; done). done.
Qed.
Lemma does_in_buffer b f d c : f (content d b) = Some c -> does (in_buffer b f) d (put b c d) tt.
Proof. intros E. eapply does_bind; [apply does_dev|]. eapply does_bind; [by apply does_lift | apply does_field]. Qed.
Lemma does_iowrite32 v a d : swxa_membase0 d <> 0 -> does (iowrite32 v a) d d tt.
Proof.
  intros Hm. eapply does_bind; [apply does_dev|]. rewrite (proj2 (Z.eqb_neq _ _) Hm). intros k Hk. by eexists.
Qed.
Lemma does_ioread32 a d k : swxa_membase0 d <> 0 -> dev k = Some d ->
  exists k', ioread32 a k = Some (status (reads k), k') /\ dev k' = Some d /\ shared k' = shared k /\ reads k' = S (reads k).
Proof.
  intros Hm Hk. unfold ioread32, swxa_dev. eexists. rewrite (bind_step _ _ k d k) by (rewrite bind_gets, Hk; done).
  rewrite bind_gets, (proj2 (Z.eqb_neq _ _) Hm). done.
Qed.

(** The card shows the bit within [fuel] reads, whenever one starts to read. *)
Definition ready_within (fuel : nat) : Prop := forall n, exists i, (i < fuel)%nat /\ status (n + i) .& 4 <> 0.

Lemma does_wait fuel a d : ready_within fuel -> swxa_membase0 d <> 0 -> does (wait_done fuel a) d d tt.
Proof.
  intros Hr Hm k Hk. destruct (Hr (reads k)) as (i & Hi & Hs). clear Hr. revert k i Hk Hi Hs.
  induction fuel as [|fuel IH]; intros k i Hk Hi Hs; [lia|]. cbn [wait_done].
  destruct (does_ioread32 a d k Hm Hk) as (k1 & E & H1 & S1 & R1). erewrite bind_step by exact E.
  destruct i as [|i].
  - rewrite Nat.add_0_r in Hs. rewrite (proj2 (Z.eqb_neq _ _) Hs). by exists k1.
  - destruct (status (reads k) .& 4 =? 0); [|by exists k1].
    destruct (IH k1 i H1) as (k2 & E2 & H2 & S2); [lia | rewrite R1; by replace (S (reads k) + i)%nat with (reads k + S i)%nat by lia|].
    exists k2. by rewrite S2.
Qed.
Lemma does_lock d : wr_mutex d = false -> does mutex_lock d (d <| wr_mutex := true |>) tt.
Proof. intros E. eapply does_bind; [apply does_dev|]. rewrite E. apply does_field. Qed.
Lemma does_unlock d : does mutex_unlock d (d <| wr_mutex := false |>) tt.
Proof. apply does_field. Qed.
End Does.
Create HintDb does.
#[export] Hint Resolve does_ret does_dev does_field does_in_buffer does_iowrite32 does_wait does_lock does_unlock : does.
Ltac does := repeat (eapply does_bind; [solve [eauto with does] |]); try solve [eauto with does].

(** ** The byte order of the words for the card *)
Lemma convert_involutive fuel s : (length s <= fuel)%nat -> (4 | length s)%nat -> convert fuel (convert fuel s) = s.
Proof.
  revert s. induction fuel as [fuel IH] using lt_wf_ind. intros s Hf [q Hq].
  destruct s as [|a [|b [|c [|d s]]]]; cbn [length] in *; try lia; [by destruct fuel|].
  destruct fuel as [|fuel]; [lia|]. cbn [convert]. do 4 f_equal.
  apply IH; [lia | lia |]. exists (q - 1)%nat. lia.
Qed.
Lemma convert_length fuel s : (length s <= fuel)%nat -> (4 | length s)%nat -> length (convert fuel s) = length s.
Proof.
  revert s. induction fuel as [|fuel IH]; intros s Hf [q Hq]; destruct s as [|a [|b [|c [|d s]]]]; cbn [length convert] in *; try lia.
  rewrite IH; [done | lia |]. exists (q - 1)%nat. lia.
Qed.
Lemma land_3 n : 0 <= n -> n .& 3 = n mod 4.
Proof. intros _. change 3 with (Z.ones 2). by rewrite Z.land_ones. Qed.

(** Converting twice gives the bytes back, and a length that is no number of words is refused. *)
Lemma ConvertIntEndianCode_involutive s :
  match ConvertIntEndianCode s with
  | (rc, Some t) => rc = 0 /\ length t = length s /\ ConvertIntEndianCode t = (0, Some s)
  | (rc, None) => rc = -1 /\ zlen s mod 4 <> 0
  end.
Proof.
  unfold ConvertIntEndianCode. rewrite land_3 by apply zlen_nonneg. destruct (Z.eqb_spec (zlen s mod 4) 0) as [E|E]; [|done]. cbn [negb].
  assert (H4 : (4 | length s)%nat).
  { exists (Z.to_nat (zlen s / 4)). unfold zlen in *. zdm. }
  assert (Hl : length (convert (length s) s) = length s) by by apply convert_length.
  rewrite land_3 by apply zlen_nonneg. unfold zlen in *. rewrite Hl, E. cbn. split_and!; [done | done |].
  by rewrite convert_involutive.
Qed.

Lemma enc32_swap {host : Host} v : enc32 (ql_swap32 v) = reverse (enc32 v).
Proof.
  unfold ql_swap32, enc32, dec_native, native. destruct is_bigendian.
  - change (reverse (le32 v) !!! 3%nat) with (u8 v). change (reverse (le32 v) !!! 2%nat) with (u8 (v .>> 8)).
    change (reverse (le32 v) !!! 1%nat) with (u8 (v .>> 16)). change (reverse (le32 v) !!! 0%nat) with (u8 (v .>> 24)).
    change (reverse [u8 v; u8 (v .>> 8); u8 (v .>> 16); u8 (v .>> 24)]) with [u8 (v .>> 24); u8 (v .>> 16); u8 (v .>> 8); u8 v].
    by rewrite le32_of_le by apply u8_range.
  - change (le32 v !!! 3%nat) with (u8 (v .>> 24)). change (le32 v !!! 2%nat) with (u8 (v .>> 16)).
    change (le32 v !!! 1%nat) with (u8 (v .>> 8)). change (le32 v !!! 0%nat) with (u8 v). by rewrite le32_of_le by apply u8_range.
Qed.
(** ** One command: a write and a read *)
Definition answer {card : Card} (d : SWXA_DEV) : bytes :=
  runs (content d swxa_des_buffer) (content d swxa_des_bufferout) (content d swxa_dma_buffer) (content d swxa_dma_bufferout).
(** A card that is open: its registers are mapped, nobody holds its mutex, the buffers have their size. *)
Definition mapped (d : SWXA_DEV) : Prop := swxa_membase0 d <> 0 /\ forall b, zlen (content d b) = MAX_BUFFER_LEN.
(** The bytes [bs] at the start of the buffer [b]. *)
Definition store (b : buffer) (bs : bytes) (d : SWXA_DEV) : SWXA_DEV := put b (bs ++ drop (length bs) (content d b)) d.
Definition prepared {host : Host} (d : SWXA_DEV) : SWXA_DEV :=
  store swxa_des_bufferout (Descriptor_C2H d) (store swxa_des_buffer (Descriptor_H2C d) d).

Lemma sts_0 m bs : zlen bs <= zlen m -> sts m 0 bs = Some (bs ++ drop (length bs) m).
Proof. intros H. unfold sts. by rewrite (proj2 (Z.leb_le (0 + zlen bs) _)) by lia. Qed.
Lemma zlen_words {host : Host} l : zlen (words l) = 4 * zlen l.
Proof. induction l as [|x l IH]; [done|]. unfold words in *. cbn. rewrite zlen_app, zlen_enc32, zlen_cons, IH. lia. Qed.
Lemma content_put b c d b' : content (put b c d) b' = if bool_decide (b' = b) then c else content d b'.
Proof. done. Qed.
Lemma mapped_put b c d : mapped d -> zlen c = MAX_BUFFER_LEN -> mapped (put b c d).
Proof. intros [Hm Hl] Hc. split; [done|]. intros b'. rewrite content_put. by destruct (bool_decide _). Qed.
Lemma mapped_store b bs d : mapped d -> zlen bs <= MAX_BUFFER_LEN -> mapped (store b bs d).
Proof.
  intros Hd Hb. apply mapped_put; [done|]. rewrite zlen_app. specialize (proj2 Hd b). unfold zlen in *. rewrite length_drop. lia.
Qed.

Lemma content_prepared_in {host : Host} d : content (prepared d) swxa_des_buffer = Descriptor_H2C d ++ drop 32 (content d swxa_des_buffer).
Proof. assert (E : length (Descriptor_H2C d) = 32%nat) by (apply Nat2Z.inj; apply zlen_words). by rewrite <- E. Qed.
Lemma content_prepared_out {host : Host} d :
  content (prepared d) swxa_des_bufferout = Descriptor_C2H d ++ drop 32 (content d swxa_des_bufferout).
Proof. assert (E : length (Descriptor_C2H d) = 32%nat) by (apply Nat2Z.inj; apply zlen_words). by rewrite <- E. Qed.

Lemma ld32_defined {host : Host} m i : zlen m = MAX_BUFFER_LEN -> 0 <= i -> i + 4 <= MAX_BUFFER_LEN -> exists v, ld32 m i = Some v.
Proof. intros Hm H0 H4. unfold ld32. destruct (lds_defined m i 4) as [x ->]; [lia | lia | lia |]. by eexists. Qed.

Section Command.
Context {host : Host} {card : Card} (fuel : nat).

Lemma does_store b (bs : SWXA_DEV -> bytes) d e :
  mapped d -> zlen (bs e) <= MAX_BUFFER_LEN -> does (in_buffer b (fun m => sts m 0 (bs e))) d (store b (bs e) d) tt.
Proof. intros Hd Hb. apply does_in_buffer, sts_0. by rewrite (proj2 Hd). Qed.
Lemma does_put_descriptors d : mapped d -> does put_descriptors d (prepared d) tt.
Proof.
  intros Hd. unfold put_descriptors. eapply does_bind; [apply does_dev|].
  eapply does_bind; [apply (does_store _ Descriptor_H2C)|apply (does_store _ Descriptor_C2H)];
    try (unfold Descriptor_H2C, Descriptor_C2H; by rewrite zlen_words); [done|].
  apply mapped_store; [done|]. unfold Descriptor_H2C. by rewrite zlen_words.
Qed.
Lemma mapped_prepared d : mapped d -> mapped (prepared d).
Proof.
  intros Hd. unfold prepared. apply mapped_store; [apply mapped_store; [done|]|]; unfold Descriptor_H2C, Descriptor_C2H; by rewrite zlen_words.
Qed.

Context (Hready : ready_within fuel).

Lemma does_Dialog n r d : swxa_membase0 d <> 0 -> does (swxa_Dialog fuel n r) d (put swxa_dma_bufferout (answer d) d) tt.
Proof.
  intros Hm. unfold swxa_Dialog. eapply does_bind; [apply does_dev|]. do 5 (eapply does_bind; [by apply does_iowrite32|]).
  eapply does_bind; [by apply does_wait|]. do 4 (eapply does_bind; [by apply does_iowrite32|]). eapply does_bind; [by apply does_wait|].
  eapply does_bind; [by apply does_in_buffer|]. eapply does_bind; by apply does_iowrite32.
Qed.

(** The card fills its buffer and no more. *)
Context (Hruns : forall h c i o, zlen (runs h c i o) = zlen o).

Lemma does_write_ok d buf count :
  mapped d -> wr_mutex d = false ->
  exists d1, does (swxa_write fuel buf count None) d d1 0 /\ mapped d1 /\ wr_mutex d1 = false /\ minor d1 = minor d /\
    let sent := take (Z.to_nat (Z.min count MAX_DATA_BUFFER_LEN)) buf in
    content d1 swxa_dma_buffer = sent ++ drop (length sent) (content d swxa_dma_buffer) /\
    content d1 swxa_dma_bufferout = runs (Descriptor_H2C d ++ drop 32 (content d swxa_des_buffer))
      (Descriptor_C2H d ++ drop 32 (content d swxa_des_bufferout)) (content d1 swxa_dma_buffer) (content d swxa_dma_bufferout).
Proof.
  intros Hd Hmu.
  assert (Hcount : (if MAX_DATA_BUFFER_LEN <? count then MAX_DATA_BUFFER_LEN else count) = Z.min count MAX_DATA_BUFFER_LEN) by (destruct (Z.ltb_spec MAX_DATA_BUFFER_LEN count); lia).
  unfold swxa_write. rewrite Hcount. clear Hcount. set (sent := take _ buf).
  assert (Hsent : zlen sent <= MAX_DATA_BUFFER_LEN) by (unfold zlen, sent, MAX_DATA_BUFFER_LEN, MAX_BUFFER_LEN; rewrite length_take; lia).
  pose proof (mapped_prepared d Hd) as Hp. set (d0 := (prepared d) <| wr_mutex := true |>).
  assert (H0 : mapped d0) by exact Hp. set (d1 := store swxa_dma_buffer sent d0).
  assert (H1 : mapped d1) by (apply mapped_store; [done | unfold MAX_DATA_BUFFER_LEN in Hsent; lia]).
  destruct (ld32_defined _ 4 (proj2 H1 swxa_dma_buffer)) as [w Ew]; [lia | done |].
  eexists. split; [|split; [|split; [|split; [|split]]]].
  - eapply does_bind; [by apply does_put_descriptors|]. eapply does_bind; [by apply does_lock|]. cbv zeta.
    eapply does_bind; [apply (does_store _ (fun _ => sent) d0 d0 H0); unfold MAX_DATA_BUFFER_LEN in Hsent; lia|].
    eapply does_bind; [apply does_dev|]. eapply does_bind; [by apply does_lift|].
    eapply does_bind; [apply does_Dialog, H1|]. eapply does_bind; [apply does_unlock | apply does_ret].
  - apply (mapped_put swxa_dma_bufferout (answer d1) d1 H1). unfold answer. rewrite Hruns. apply (proj2 H1).
  - done.
  - done.
  - done.
  - rewrite <- content_prepared_in, <- content_prepared_out. done.
Qed.

Lemma does_write_fault d buf count n :
  mapped d -> wr_mutex d = false ->
  exists d1, does (swxa_write fuel buf count (Some n)) d d1 (- EFAULT) /\ mapped d1 /\ wr_mutex d1 = false /\ minor d1 = minor d /\
    content d1 swxa_dma_bufferout = content d swxa_dma_bufferout.
Proof.
  intros Hd Hmu. unfold swxa_write. set (sent := take n _).
  assert (Hsent : zlen sent <= MAX_BUFFER_LEN).
  { unfold zlen, sent, MAX_DATA_BUFFER_LEN, MAX_BUFFER_LEN. rewrite !length_take. destruct (Z.ltb_spec (65536 - 256) count); lia. }
  pose proof (mapped_prepared d Hd) as Hp. set (d0 := (prepared d) <| wr_mutex := true |>). assert (H0 : mapped d0) by exact Hp.
  eexists. split; [|split; [|split; [|split]]].
  - eapply does_bind; [by apply does_put_descriptors|]. eapply does_bind; [by apply does_lock|]. cbv zeta.
    eapply does_bind; [by apply (does_store _ (fun _ => sent) d0 d0 H0)|]. eapply does_bind; [apply does_unlock | apply does_ret].
  - by apply (mapped_store swxa_dma_buffer sent d0).
  - done.
  - done.
  - done.
Qed.

Lemma does_read d count fault :
  mapped d -> wr_mutex d = false -> 0 <= count <= MAX_BUFFER_LEN ->
  does (swxa_read count fault) d d (if fault then (- EFAULT, []) else (0, take (Z.to_nat count) (content d swxa_dma_bufferout))).
Proof.
  intros Hd Hmu Hc. unfold swxa_read. eapply does_bind; [by apply does_lock|]. eapply does_bind; [apply does_dev|].
  eapply does_bind.
  { apply does_lift. unfold lds. cbn [content set_field set_wr_mutex]. rewrite (proj2 Hd).
    rewrite (proj2 (Z.leb_le 0 count)), (proj2 (Z.leb_le (0 + count) _)) by lia. done. }
  assert (E : d <| wr_mutex := true |> <| wr_mutex := false |> = d) by (destruct d; cbn in Hmu; by rewrite Hmu).
  rewrite <- E at 2. eapply does_bind; [apply does_unlock | apply does_ret].
Qed.

(** The command that loads the curve: its header, the six parameters as words of the host, and the length in bits. *)
Definition ecc_command : bytes :=
  enc32 107 ++ enc32 2 ++ enc32 OPT_ECC_INIT ++ enc32 0 ++ convert (length Ecc_Curve) Ecc_Curve ++ enc32 256.

Lemma ecc_stores m : zlen m = MAX_BUFFER_LEN ->
  exists m1 m2 m3 m4 m5, st32 m 0 107 = Some m1 /\ st32 m1 4 2 = Some m2 /\ st32 m2 8 OPT_ECC_INIT = Some m3 /\
    st32 m3 12 0 = Some m4 /\ sts m4 16 (convert (length Ecc_Curve) Ecc_Curve) = Some m5 /\
    st32 m5 (4 * 106) 256 = Some (ecc_command ++ drop 428 m).
Proof.
  intros Hm. assert (H : forall n (l : bytes), (n <= length l)%nat -> exists a b, l = a ++ b /\ zlen a = Z.of_nat n /\ b = drop n l).
  { intros n l Hn. exists (take n l), (drop n l). unfold zlen. by rewrite take_drop, length_take_le. }
  destruct (H 428%nat m) as (h & s & -> & Hh & Es); [unfold zlen, MAX_BUFFER_LEN in Hm; lia|]. rewrite <- Es. clear Es Hm.
  destruct (H 4%nat h) as (a & h1 & -> & Ha & _); [unfold zlen in *; lia|]. zlens.
  destruct (H 4%nat h1) as (b & h2 & -> & Hb & _); [unfold zlen in *; lia|]. zlens.
  destruct (H 4%nat h2) as (c & h3 & -> & Hc & _); [unfold zlen in *; lia|]. zlens.
  destruct (H 4%nat h3) as (d & h4 & -> & Hd & _); [unfold zlen in *; lia|]. zlens.
  destruct (H 408%nat h4) as (e & f & -> & He & _); [unfold zlen in *; lia|]. zlens. rewrite <- !app_assoc.
  assert (Hx : forall v, zlen (enc32 v) = 4) by apply zlen_enc32.
  exists (enc32 107 ++ b ++ c ++ d ++ e ++ f ++ s), (enc32 107 ++ enc32 2 ++ c ++ d ++ e ++ f ++ s),
    (enc32 107 ++ enc32 2 ++ enc32 OPT_ECC_INIT ++ d ++ e ++ f ++ s), (enc32 107 ++ enc32 2 ++ enc32 OPT_ECC_INIT ++ enc32 0 ++ e ++ f ++ s),
    (enc32 107 ++ enc32 2 ++ enc32 OPT_ECC_INIT ++ enc32 0 ++ convert (length Ecc_Curve) Ecc_Curve ++ f ++ s).
  unfold st32, ecc_command. rewrite <- !app_assoc.
  split_and!; [apply (sts_app []) | apply sts_app | rewrite !(app_assoc (enc32 107)); apply sts_app
    | rewrite !(app_assoc (enc32 107)), !(app_assoc (_ ++ enc32 2)); apply sts_app
    | rewrite !(app_assoc (enc32 107)), !(app_assoc (_ ++ enc32 2)), !(app_assoc (_ ++ enc32 OPT_ECC_INIT)); apply sts_app
    | rewrite !(app_assoc (enc32 107)), !(app_assoc (_ ++ enc32 2)), !(app_assoc (_ ++ enc32 OPT_ECC_INIT)), !(app_assoc (_ ++ enc32 0)); apply sts_app ];
    rewrite ?zlen_app, ?Hx, ?Ha, ?Hb, ?Hc, ?Hd, ?He; try done; lia.
Qed.

Lemma does_ECCInit d : mapped d ->
  exists d1 err, does (t_ECCInit fuel) d d1 (if err =? 0 then 0 else -1) /\ mapped d1 /\
    type d1 = type d /\ minor d1 = minor d /\ wr_mutex d1 = wr_mutex d /\
    content d1 swxa_dma_buffer = ecc_command ++ drop 428 (content d swxa_dma_buffer) /\
    content d1 swxa_dma_bufferout = runs (Descriptor_H2C d ++ drop 32 (content d swxa_des_buffer))
      (Descriptor_C2H d ++ drop 32 (content d swxa_des_bufferout)) (content d1 swxa_dma_buffer) (content d swxa_dma_bufferout) /\
    ld32 (content d1 swxa_dma_bufferout) 4 = Some err.
Proof.
  intros Hd. destruct (ecc_stores _ (proj2 Hd swxa_dma_buffer)) as (m1 & m2 & m3 & m4 & m5 & E1 & E2 & E3 & E4 & E5 & E6).
  set (m6 := ecc_command ++ _) in *. pose proof (mapped_prepared d Hd) as Hp.
  set (d0 := put swxa_dma_buffer m6 (put swxa_dma_buffer m5 (put swxa_dma_buffer m4 (put swxa_dma_buffer m3
    (put swxa_dma_buffer m2 (put swxa_dma_buffer m1 (prepared d))))))).
  assert (Hl : zlen m1 = MAX_BUFFER_LEN /\ zlen m2 = MAX_BUFFER_LEN /\ zlen m3 = MAX_BUFFER_LEN /\ zlen m4 = MAX_BUFFER_LEN /\
    zlen m5 = MAX_BUFFER_LEN /\ zlen m6 = MAX_BUFFER_LEN).
  { unfold st32 in *. pose proof (proj2 Hd swxa_dma_buffer) as L.
    pose proof (sts_length _ _ _ _ E1). pose proof (sts_length _ _ _ _ E2). pose proof (sts_length _ _ _ _ E3).
    pose proof (sts_length _ _ _ _ E4). pose proof (sts_length _ _ _ _ E5). pose proof (sts_length _ _ _ _ E6). lia. }
  destruct Hl as (L1 & L2 & L3 & L4 & L5 & L6). assert (H0 : mapped d0) by (do 6 (apply mapped_put; [|done]); done).
  destruct (ld32_defined m6 4 L6) as [w4 E7]; [lia | done |]. destruct (ld32_defined m6 0 L6) as [w0 E8]; [lia | done |].
  assert (Hr : zlen (answer d0) = MAX_BUFFER_LEN) by (unfold answer; rewrite Hruns; apply (proj2 H0)).
  destruct (ld32_defined _ 4 Hr) as [err E9]; [lia | done |].
  exists (put swxa_dma_bufferout (answer d0) d0), err. split_and!; try done.
  - eapply does_bind; [by apply does_put_descriptors|].
    eapply does_bind; [apply does_in_buffer; exact E1|]. eapply does_bind; [apply does_in_buffer; exact E2|].
    eapply does_bind; [apply does_in_buffer; exact E3|]. eapply does_bind; [apply does_in_buffer; exact E4|].
    eapply does_bind; [apply does_in_buffer; exact E5|]. eapply does_bind; [apply does_in_buffer; exact E6|].
    eapply does_bind; [apply does_dev|]. eapply does_bind; [apply does_lift; exact E7|]. eapply does_bind; [apply does_lift; exact E8|].
    eapply does_bind; [apply does_Dialog, H0|]. eapply does_bind; [apply does_dev|]. eapply does_bind; [apply does_lift; exact E9|].
    destruct (err =? 0); apply does_ret.
  - by apply mapped_put.
  - rewrite <- content_prepared_in, <- content_prepared_out. done.
Qed.

Lemma does_reset d : swxa_membase0 d <> 0 -> does swxa_reset d d tt.
Proof. intros Hm. unfold swxa_reset. do 10 (eapply does_bind; [by apply does_iowrite32|]). by apply does_iowrite32. Qed.
End Command.

(** ** Binding and unbinding *)
(** The driver holds nothing for the device. *)
Definition idle (k : K) : Prop := dev k = None /\ drvdata k = false /\ held k = [].
Definition at_rest (tbl : bytes) : K :=
  {| Swxa_Dev_Stat := tbl; dev := None; drvdata := false; held := []; name := []; io := []; reads := 0; odd := [] |}.
(** What the driver holds when it has enabled the device, with [n] buffers. *)
Definition buffers : list buffer :=
  [swxa_des_bufferout; swxa_des_buffer; swxa_dma_bufferKelOut; swxa_dma_bufferKelIn; swxa_dma_bufferout; swxa_dma_buffer].
Definition coherents (l : list buffer) : list resource := (fun b => Coherent b MAX_BUFFER_LEN) <$> l.
Definition enabled (l : list buffer) : list resource := coherents l ++ [Enabled; Structure].
(** A card the driver is bound to, with its minor number. *)
Definition bound (m : Z) (k : K) : Prop :=
  drvdata k = true /\ held k = [Node; Cdev; Mapping; Region] ++ enabled buffers /\
  exists d, dev k = Some d /\ mapped d /\ wr_mutex d = false /\ minor d = m.
(** A state in which the structure is [d], or just exists, and the resources [rs] are held. *)
Definition card_at (d : SWXA_DEV) (t : bytes) (dd : bool) (rs : list resource) (o : list buffer) (k : K) : Prop :=
  dev k = Some d /\ Swxa_Dev_Stat k = t /\ drvdata k = dd /\ held k = rs /\ odd k = o.
Definition holds (t : bytes) (dd : bool) (rs : list resource) (o : list buffer) (k : K) : Prop :=
  is_Some (dev k) /\ Swxa_Dev_Stat k = t /\ drvdata k = dd /\ held k = rs /\ odd k = o.
(** Everything is given back. *)
Definition released (t : bytes) (dd : bool) (o : list buffer) (k : K) : Prop :=
  dev k = None /\ Swxa_Dev_Stat k = t /\ drvdata k = dd /\ held k = [] /\ odd k = o.

Lemma bind_dev {A} (f : SWXA_DEV -> MK A) k d : dev k = Some d -> (swxa_dev ≫= f) k = f d k.
Proof. intros E. unfold swxa_dev. erewrite bind_step; [done|]. by rewrite bind_gets, E. Qed.
Lemma give_back_run r rs k t dd o : holds t dd (r :: rs) o k -> exists k', release r k = Some (tt, k') /\ holds t dd rs o k'.
Proof.
  intros (Hd & Ht & Hdd & Hh & Ho). unfold release. rewrite Hh. cbn [remove_one]. rewrite bool_decide_eq_true_2 by done.
  eexists. split; [done|]. split_and!; done.
Qed.
Lemma free_run b size n rs k t dd o : holds t dd (Coherent b n :: rs) o k ->
  exists k', dma_free_coherent size b k = Some (tt, k') /\ holds t dd rs (if n =? size then o else b :: o) k'.
Proof.
  intros Hk. pose proof Hk as ([d Hd] & Ht & Hdd & Hh & Ho). unfold dma_free_coherent. rewrite (bind_dev _ _ _ Hd).
  unfold dma_free. rewrite Hh. cbn [list_find is_buffer fmap option_fmap option_map]. unfold is_buffer. rewrite decide_True by (by apply bool_decide_pack).
  destruct (give_back_run _ _ _ _ _ _ Hk) as (k1 & E1 & H1). rewrite (bind_step _ _ _ _ _ E1).
  destruct H1 as (Hd1 & Ht1 & Hdd1 & Hh1 & Ho1). unfold when. destruct (n =? size); cbn [negb]; eexists; (split; [done|]); split_and!; try done.
  cbn. by rewrite Ho1.
Qed.

Lemma give_back_bind r rs k t dd o : holds t dd (r :: rs) o k ->
  exists k', holds t dd rs o k' /\ forall A (f : unit -> MK A), (release r ≫= f) k = f tt k'.
Proof. intros H. destruct (give_back_run _ _ _ _ _ _ H) as (k' & E & H'). exists k'. split; [done|]. intros. by apply bind_step. Qed.
Lemma free_bind b size n rs k t dd o : holds t dd (Coherent b n :: rs) o k ->
  exists k', holds t dd rs (if n =? size then o else b :: o) k' /\
    forall A (f : unit -> MK A), (dma_free_coherent size b ≫= f) k = f tt k'.
Proof. intros H. destruct (free_run _ size _ _ _ _ _ _ H) as (k' & E & H'). exists k'. split; [done|]. intros. by apply bind_step. Qed.
Lemma holds_drvdata b t dd rs o k : holds t dd rs o k -> holds t b rs o (k <| drvdata := b |>).
Proof. intros (? & ? & ? & ? & ?). by split_and!. Qed.

(** The way back from a failure: [unwinds m rs f] says that [m] returns [rc] and gives back the resources [rs]. *)
Section Unwind.
Context (devnum rc : Z) (t t' : bytes) (Ht : st t devnum 0 = Some t').
Definition unwinds (m : MK Z) (rs : list resource) (f : list buffer -> list buffer) : Prop :=
  forall k dd o, holds t dd rs o k -> exists k', m k = Some (rc, k') /\ released t' dd (f o) k'.

Lemma unwinds_part0 : unwinds (free_part0 devnum rc) [Structure] id.
Proof.
  intros k dd o Hk. destruct (give_back_run _ _ _ _ _ _ Hk) as (k1 & E & Hd & Hst & Hdd & Hh & Ho).
  unfold free_part0, kfree, out, set_stat. eexists. split.
  - erewrite bind_step; [|erewrite bind_step by exact E; reflexivity]. erewrite bind_step; [reflexivity|].
    rewrite bind_gets. cbn [Swxa_Dev_Stat set_field set_dev]. rewrite Hst, Ht. reflexivity.
  - by split_and!.
Qed.
Lemma unwinds_dev : unwinds (disable_dev devnum rc) (enabled []) id.
Proof.
  intros k dd o Hk. pose proof Hk as ([d Hd] & _). unfold disable_dev. rewrite (bind_dev _ _ _ Hd).
  destruct (give_back_run _ _ _ _ _ _ Hk) as (k1 & E & H1). erewrite bind_step by exact E. by apply unwinds_part0.
Qed.
Lemma unwinds_free size b m l f g :
  unwinds m (enabled l) f -> (forall o, g o = f (if MAX_BUFFER_LEN =? size then o else b :: o)) ->
  unwinds (dma_free_coherent size b;; m) (enabled (b :: l)) g.
Proof.
  intros Hm Hf k dd o Hk. destruct (free_run _ size _ _ _ _ _ _ Hk) as (k1 & E & H1). erewrite bind_step by exact E.
  rewrite Hf. by apply Hm.
Qed.
Lemma unwinds_dev2 : unwinds (disable_dev2 devnum rc) (enabled [swxa_dma_buffer]) (cons swxa_dma_buffer).
Proof. by eapply unwinds_free; [apply unwinds_dev|]. Qed.
Lemma unwinds_dev3 : unwinds (disable_dev3 devnum rc) (enabled (drop 4 buffers)) (cons swxa_dma_buffer).
Proof. by eapply unwinds_free; [apply unwinds_dev2|]. Qed.
Lemma unwinds_dev4 : unwinds (disable_dev4 devnum rc) (enabled (drop 3 buffers)) (cons swxa_dma_buffer).
Proof. by eapply unwinds_free; [apply unwinds_dev3|]. Qed.
Lemma unwinds_dev5 : unwinds (disable_dev5 devnum rc) (enabled (drop 2 buffers)) (cons swxa_dma_buffer).
Proof. by eapply unwinds_free; [apply unwinds_dev4|]. Qed.
Lemma unwinds_dev6 : unwinds (disable_dev6 devnum rc) (enabled (drop 1 buffers)) (cons swxa_dma_buffer).
Proof. by eapply unwinds_free; [apply unwinds_dev5|]. Qed.
Lemma unwinds_all : unwinds (free_all devnum rc) (enabled buffers) (cons swxa_dma_buffer).
Proof. by eapply unwinds_free; [apply unwinds_dev6|]. Qed.
Lemma unwinds_fail k dd o : holds t dd ([Cdev; Mapping; Region] ++ enabled buffers) o k ->
  exists k', fail devnum rc k = Some (rc, k') /\ released t' false (swxa_dma_buffer :: o) k'.
Proof.
  intros Hk. pose proof Hk as ([d Hd] & _). unfold fail. rewrite (bind_dev _ _ _ Hd).
  destruct (give_back_bind _ _ _ _ _ _ Hk) as (k1 & H1 & E). rewrite E. clear E.
  unfold pci_set_drvdata. rewrite bind_modify. apply holds_drvdata with (b := false) in H1.
  destruct (give_back_bind _ _ _ _ _ _ H1) as (k2 & H2 & E). rewrite E. clear E.
  destruct (give_back_bind _ _ _ _ _ _ H2) as (k3 & H3 & E). rewrite E. clear E.
  by apply unwinds_all.
Qed.
End Unwind.

(** *** The way forward *)
Definition first_free (tbl : bytes) (i : nat) : Prop :=
  length tbl = SWXA_MAX_DEV_NUM /\ exists c, list_find (fun c => c = 0) tbl = Some (i, c).
(** The register window is mapped and the buffers have the size asked for. *)
Definition answers_ok (a : Answers) : Prop :=
  ioremap a <> 0 /\ forall b p c, coherent a b = Some (p, c) -> zlen c = MAX_BUFFER_LEN.
(** The code of the first call that fails, in the order of the calls. *)
Definition expected (a : Answers) : option Z :=
  if negb (kmalloc_ok a) then Some (- ENOMEM)
  else if enable_rc a <? 0 then Some (enable_rc a)
  else if bool_decide (Exists (fun b => coherent a b = None) buffers) then Some (- ENOMEM)
  else if negb (region_ok a) then Some (-1)
  else if negb (cdev_rc a =? 0) then Some (cdev_rc a) else None.
Definition first_allocated (a : Answers) : bool :=
  kmalloc_ok a && negb (enable_rc a <? 0) && bool_decide (coherent a swxa_dma_buffer <> None).
(** After a failure: nothing is held, the minor number is free, and the first buffer was freed with another size. *)
Definition unwound (a : Answers) (k k' : K) : Prop :=
  idle k' /\ Swxa_Dev_Stat k' = Swxa_Dev_Stat k /\
  odd k' = (if first_allocated a then [swxa_dma_buffer] else []) ++ odd k.

Lemma first_free_spec tbl i : first_free tbl i ->
  (i < 4)%nat /\ tbl !! i = Some 0 /\ list_find (fun c => c = 0) (take SWXA_MAX_DEV_NUM tbl) = Some (i, 0) /\
  st tbl (Z.of_nat i) 1 = Some (<[i := 1]> tbl) /\ st (<[i := 1]> tbl) (Z.of_nat i) 0 = Some tbl.
Proof.
  intros [Hl [c Hf]]. pose proof Hf as (Hi & Hc & _)%list_find_Some. rewrite Hc in *. clear Hc c.
  assert (i < 4)%nat by (apply lookup_lt_Some in Hi; unfold SWXA_MAX_DEV_NUM in Hl; lia).
  assert (Hz : st (<[i := 1]> tbl) (Z.of_nat i) 0 = Some tbl).
  { unfold st, zlen. rewrite length_insert, Hl, Nat2Z.id, list_insert_insert_eq. rewrite list_insert_id by done. unfold SWXA_MAX_DEV_NUM. guards. }
  split_and!; try done.
  - by rewrite take_ge by lia.
  - unfold st, zlen. rewrite Hl, Nat2Z.id. unfold SWXA_MAX_DEV_NUM. guards.
Qed.

Lemma card_holds d t dd rs o k : card_at d t dd rs o k -> holds t dd rs o k.
Proof. intros (Hd & H). split; [by eexists | done]. Qed.
Lemma does_run {A} (m : MK A) d d' a t dd rs o k : does m d d' a -> card_at d t dd rs o k ->
  exists k', m k = Some (a, k') /\ card_at d' t dd rs o k'.
Proof.
  intros Hm (Hd & Ht & Hdd & Hh & Ho). destruct (Hm k Hd) as (k' & E & Hd' & S). exists k'. split; [done|].
  unfold shared in S. injection S as S1 S2 S3 _ S5. split_and!; congruence.
Qed.
Lemma card_acquire r d t dd rs o k : card_at d t dd rs o k -> card_at d t dd (r :: rs) o (k <| held := r :: held k |>).
Proof. intros (Hd & Ht & Hdd & Hh & Ho). split_and!; try done. cbn. by rewrite Hh. Qed.

Section Probe.
Context {host : Host} {card : Card} (fuel : nat) (Hready : ready_within fuel) (Hruns : forall h c i o, zlen (runs h c i o) = zlen o).
Context (a : Answers) (Ha : answers_ok a) (tbl : bytes) (i : nat) (Hi : first_free tbl i) (o : list buffer).
Abbreviation devnum := (Z.of_nat i).
Abbreviation taken := (<[i := 1]> tbl).
Definition ty : Z := if cfg_type a =? 0x7021 then 42 else 40.

(** The device enabled, with the buffers of [l] allocated. *)
Definition allocated (l : list buffer) (k : K) : Prop :=
  exists d, card_at d taken false (enabled l) o k /\ type d = ty /\ forall b, b ∈ l -> zlen (content d b) = MAX_BUFFER_LEN.

Lemma alloc_step b l failed next k p c :
  allocated l k -> coherent a b = Some (p, c) -> exists k1, alloc a b failed next k = next k1 /\ allocated (b :: l) k1.
Proof.
  intros (d & Hk & Hty & Hl) Hc. unfold alloc. rewrite Hc. eapply (card_acquire (Coherent b MAX_BUFFER_LEN)) in Hk.
  unfold acquire. rewrite bind_modify.
  destruct (does_run _ _ _ _ _ _ _ _ _ (does_field (fun d => put b c (d <| physical := fun b' => if bool_decide (b' = b) then p else physical d b' |>)) d) Hk)
    as (k1 & E & H1).
  erewrite bind_step by exact E. exists k1. split; [done|]. eexists. split; [exact H1|]. split; [done|].
  intros b' Hb'. rewrite content_put. case_bool_decide as Hbb; [by eapply (proj2 Ha)|]. apply Hl. set_solver.
Qed.

(** An answer of the card to the curve, in the error word of its buffer. *)
Definition card_says (ok : bool) : Prop :=
  exists h c x out err, zlen out = MAX_BUFFER_LEN /\ ld32 (runs h c x out) 4 = Some err /\ (err =? 0) = ok.
Definition ends (rc : Z) (first : bool) (r : option (Z * K)) : Prop :=
  exists k', r = Some (rc, k') /\ idle k' /\ Swxa_Dev_Stat k' = tbl /\ odd k' = (if first then [swxa_dma_buffer] else []) ++ o.
Lemma ends_unwind rc m rs first k :
  unwinds rc taken tbl m rs (app (if first : bool then [swxa_dma_buffer] else [])) -> holds taken false rs o k -> ends rc first (m k).
Proof. intros Hm Hk. destruct (Hm k false o Hk) as (k' & E & ? & ? & ? & ? & ?). exists k'. by split_and!. Qed.

(** The structure once its registers are mapped. *)
Lemma region_start k : allocated buffers k -> region_ok a = true -> exists d k', type d = ty /\ mapped d /\ wr_mutex d = false /\
  card_at d taken true ([Cdev; Mapping; Region] ++ enabled buffers) o k' /\
  probe_region fuel a devnum k =
    (if negb (cdev_rc a =? 0) then fail devnum (cdev_rc a) else
     set_dev_field (fun d => d <| minor := devnum |>);; d ← swxa_dev;
     r ← (if type d =? 40 then t_ECCInit fuel else mret 0);
     if negb (r =? 0) then fail devnum (cdev_rc a) else
     acquire Node;; modify (fun k => k <| name := node_name (type d) devnum |>);; mret 0) k'.
Proof.
  intros (d & Hk & Hty & Hl) Hr. unfold probe_region. rewrite Hr, (proj2 (Z.eqb_neq _ _) (proj1 Ha)). cbn [negb when].
  apply (card_acquire Region) in Hk. unfold acquire. rewrite bind_modify. apply (card_acquire Mapping) in Hk. rewrite bind_modify.
  destruct (does_run _ _ _ _ _ _ _ _ _ (does_field (fun d => d <| swxa_membase0 := ioremap a |>) d) Hk) as (k1 & E1 & H1).
  erewrite bind_step by exact E1. unfold pci_set_drvdata. rewrite bind_modify. set (d1 := d <| swxa_membase0 := ioremap a |>) in *.
  set (d2 := d1 <| wr_mutex := false |>).
  assert (H2 : card_at d1 taken true ([Mapping; Region] ++ enabled buffers) o (k1 <| drvdata := true |>)).
  { destruct H1 as (? & ? & ? & ? & ?). by split_and!. }
  destruct (does_run _ _ _ _ _ _ _ _ _ (does_field (fun d => d <| wr_mutex := false |>) d1) H2) as (k2 & E2 & H3). erewrite bind_step by exact E2.
  destruct (does_run _ d2 d2 _ _ _ _ _ _ (does_reset d2 (proj1 Ha)) H3) as (k3 & E3 & H4). erewrite bind_step by exact E3.
  apply (card_acquire Cdev) in H4. rewrite bind_modify. exists d2. eexists. split_and!; try done.
  split; [exact (proj1 Ha)|]. intros b. apply Hl. unfold buffers. destruct b; set_solver.
Qed.

Lemma region_outcome k : allocated buffers k ->
  let r := probe_region fuel a devnum k in
  if negb (region_ok a) then ends (-1) true r else if negb (cdev_rc a =? 0) then ends (cdev_rc a) true r else
  (exists k', r = Some (0, k') /\ bound devnum k' /\ Swxa_Dev_Stat k' = taken /\ odd k' = o) /\
    (cfg_type a = 0x7021 \/ card_says true) \/
  cfg_type a <> 0x7021 /\ card_says false /\ ends 0 true r.
Proof.
  intros Hk. pose proof (first_free_spec _ _ Hi) as (_ & _ & _ & _ & Hfree). cbv zeta. destruct (region_ok a) eqn:Hr; cbn [negb].
  2:{ destruct Hk as (d & Hk & _). unfold probe_region. rewrite Hr. cbn [negb]. eapply ends_unwind; [by eapply unwinds_all | by eapply card_holds]. }
  destruct (region_start k Hk Hr) as (d & k1 & Hty & Hd & Hmu & H1 & ->). clear Hk k. destruct (Z.eqb_spec (cdev_rc a) 0) as [Hc|Hc]; cbn [negb].
  2:{ destruct (unwinds_fail devnum (cdev_rc a) _ _ Hfree k1 true o (card_holds _ _ _ _ _ _ H1)) as (k' & E & ? & ? & ? & ? & ?). exists k'. by split_and!. }
  set (d1 := d <| minor := devnum |>).
  destruct (does_run _ _ _ _ _ _ _ _ _ (does_field (fun d => d <| minor := devnum |>) d) H1) as (k2 & E2 & H2). erewrite bind_step by exact E2.
  fold d1 in H2. rewrite (bind_dev _ k2 d1) by apply H2.
  assert (Hbound : forall d' k' nm, card_at d' taken true ([Cdev; Mapping; Region] ++ enabled buffers) o k' -> mapped d' -> wr_mutex d' = false ->
    minor d' = devnum -> exists k'', (acquire Node;; modify (fun k => k <| name := nm |>);; mret 0) k' = Some (0, k'') /\
      bound devnum k'' /\ Swxa_Dev_Stat k'' = taken /\ odd k'' = o).
  { intros d' k' nm Hk' Hd' Hmu' Hmin. apply (card_acquire Node) in Hk'. unfold acquire. rewrite bind_modify. rewrite bind_modify. eexists. split; [done|].
    destruct Hk' as (? & ? & ? & ? & ?). unfold bound. split_and!; try done. exists d'. by split_and!. }
  change (type d1) with (type d). rewrite Hty. unfold ty. destruct (Z.eqb_spec (cfg_type a) 0x7021) as [Ht|Ht]; cbn [Z.eqb Pos.eqb].
  { left. split; [|by left]. rewrite bind_ret. cbn [negb Z.eqb]. by apply (Hbound d1). }
  destruct (does_ECCInit fuel Hready Hruns d1 Hd) as (d2 & err & HE & Hd2 & _ & Hmin2 & Hmu2 & _ & Hout & Herr). rewrite Hout in Herr.
  assert (Hsays : card_says (err =? 0)) by (do 5 eexists; split_and!; [apply (proj2 Hd) | exact Herr | done]).
  destruct (does_run _ _ _ _ _ _ _ _ _ HE H2) as (k3 & E3 & H3). erewrite bind_step by exact E3. destruct (err =? 0); cbn [negb Z.eqb].
  - left. split; [|by right]. apply (Hbound d2); try done. by rewrite Hmu2.
  - right. split_and!; [done | done |]. rewrite ?Hc.
    destruct (unwinds_fail devnum 0 _ _ Hfree k3 true o (card_holds _ _ _ _ _ _ H3)) as (k' & E & ? & ? & ? & ? & ?). exists k'. by split_and!.
Qed.

Lemma alloc_or b l first failed next k :
  allocated l k -> unwinds (- ENOMEM) taken tbl failed (enabled l) (app (if first : bool then [swxa_dma_buffer] else [])) ->
  (coherent a b = None /\ ends (- ENOMEM) first (alloc a b failed next k)) \/
  (coherent a b <> None /\ exists k1, allocated (b :: l) k1 /\ alloc a b failed next k = next k1).
Proof.
  intros Hk Hf. destruct (coherent a b) as [[p c]|] eqn:E.
  - right. split; [done|]. destruct (alloc_step b l failed next k p c Hk E) as (k1 & -> & H1). by exists k1.
  - left. split; [done|]. unfold alloc. rewrite E. destruct Hk as (d & H & _). eapply ends_unwind; [exact Hf | by eapply card_holds].
Qed.

(** One allocation: either the way back from it, or the next. *)
Ltac next_alloc l first lem H := match goal with
  | |- context [alloc ?a ?b ?f ?n ?k] =>
      destruct (alloc_or b l first f n k) as [[?Hn ?He]|[?Hs (?k1 & ?H1 & ->)]];
        [done | by eapply lem | left; split; [by eapply H | try rewrite bool_decide_eq_true_2 by done; try rewrite bool_decide_eq_false_2 by auto; done] |]
  end.

(** The six allocations and what follows, with the device enabled. *)
Lemma alloc_outcome k : allocated [] k ->
  let r := (alloc a swxa_dma_buffer (disable_dev devnum (- ENOMEM)) (
    alloc a swxa_dma_bufferout (disable_dev2 devnum (- ENOMEM)) (
    alloc a swxa_dma_bufferKelIn (disable_dev3 devnum (- ENOMEM)) (
    alloc a swxa_dma_bufferKelOut (disable_dev4 devnum (- ENOMEM)) (
    alloc a swxa_des_buffer (disable_dev5 devnum (- ENOMEM)) (
    alloc a swxa_des_bufferout (disable_dev6 devnum (- ENOMEM)) (
    probe_region fuel a devnum)))))) k) in
  (Exists (fun b => coherent a b = None) buffers /\ ends (- ENOMEM) (bool_decide (coherent a swxa_dma_buffer <> None)) r) \/
  (~ Exists (fun b => coherent a b = None) buffers /\ coherent a swxa_dma_buffer <> None /\
    exists k', allocated buffers k' /\ r = probe_region fuel a devnum k').
Proof.
  intros Hk. pose proof (first_free_spec _ _ Hi) as (_ & _ & _ & _ & Hfree). cbv zeta.
  assert (Hex : forall b, coherent a b = None -> Exists (fun b => coherent a b = None) buffers).
  { intros b Hb. apply Exists_exists. exists b. split; [|done]. unfold buffers. destruct b; set_solver. }
  next_alloc (@nil buffer) false unwinds_dev Hex.
  next_alloc (drop 5 buffers) true unwinds_dev2 Hex. next_alloc (drop 4 buffers) true unwinds_dev3 Hex.
  next_alloc (drop 3 buffers) true unwinds_dev4 Hex. next_alloc (drop 2 buffers) true unwinds_dev5 Hex.
  next_alloc (drop 1 buffers) true unwinds_dev6 Hex.
  right. split; [|split; [done | by eexists]]. unfold buffers. rewrite !Exists_cons, Exists_nil. naive_solver.
Qed.

Lemma probe_outcome k : idle k -> Swxa_Dev_Stat k = tbl -> odd k = o ->
  let r := swxa_probe fuel a k in
  match expected a with
  | Some rc => ends rc (first_allocated a) r
  | None =>
      (exists k', r = Some (0, k') /\ bound devnum k' /\ Swxa_Dev_Stat k' = taken /\ odd k' = o) /\
        (cfg_type a = 0x7021 \/ card_says true) \/
      cfg_type a <> 0x7021 /\ card_says false /\ ends 0 true r
  end.
Proof.
  intros (Hdev & Hdd & Hheld) Htbl Ho. pose proof (first_free_spec _ _ Hi) as (_ & _ & Hfind & Hst & Hfree). cbv zeta.
  unfold swxa_probe, find_devnum. set (k0 := k <| Swxa_Dev_Stat := taken |>).
  erewrite bind_step.
  2:{ rewrite bind_gets, Htbl, Hfind. unfold set_stat. erewrite bind_step; [reflexivity|]. rewrite bind_gets, Htbl, Hst. reflexivity. }
  change (modify _ k) with (Some (tt, k0)). unfold expected, first_allocated. destruct (kmalloc_ok a); cbn [negb andb].
  2:{ unfold out, set_stat. eexists. split; [|split_and!].
      - erewrite bind_step; [reflexivity|]. rewrite bind_gets. cbn [Swxa_Dev_Stat set_field set_Swxa_Dev_Stat k0]. rewrite Hfree. reflexivity.
      - by split_and!.
      - done.
      - done. }
  unfold acquire. rewrite !bind_modify. set (k1 := set_field dev _ _).
  assert (H1 : card_at (garbage a) taken false [Structure] o k1) by (split_and!; try done; cbn; by rewrite Hheld).
  destruct (enable_rc a <? 0); cbn [negb andb].
  { eapply ends_unwind; [by eapply unwinds_part0 | by eapply card_holds]. }
  apply (card_acquire Enabled) in H1. rewrite bind_modify. set (k2 := k1 <| held := _ |>) in *.
  match goal with |- context [set_dev_field ?f] => destruct (does_run _ _ _ _ _ _ _ _ _ (does_field f (garbage a)) H1) as (k3 & E3 & H3) end.
  erewrite bind_step by exact E3. assert (H4 : allocated [] k3) by (eexists; split; [exact H3|]; split; [done | set_solver]).
  destruct (alloc_outcome k3 H4) as [[Hn He]|(Hn & Hs & k4 & H5 & ->)].
  { rewrite bool_decide_eq_true_2 by done. exact He. }
  rewrite bool_decide_eq_false_2, bool_decide_eq_true_2 by done.
  pose proof (region_outcome k4 H5) as H. cbv zeta in H. destruct (region_ok a); [|done]. cbn [negb] in *. destruct (cdev_rc a =? 0); done.
Qed.
End Probe.

(** *** Removal *)
Section Remove.
Context {host : Host} {card : Card}.

Lemma remove_bound m k : bound m k -> 0 <= m < zlen (Swxa_Dev_Stat k) ->
  exists k', swxa_remove k = Some (tt, k') /\ idle k' /\ Swxa_Dev_Stat k' = <[Z.to_nat m := 0]> (Swxa_Dev_Stat k) /\ odd k' = odd k.
Proof.
  intros (Hdd & Hheld & d & Hdev & _ & _ & Hmin) Hm. unfold swxa_remove. rewrite bind_gets, Hdd. cbn [negb]. rewrite (bind_dev _ _ _ Hdev), Hmin.
  assert (H0 : holds (Swxa_Dev_Stat k) true ([Node; Cdev; Mapping; Region] ++ enabled buffers) (odd k) k) by (split_and!; [by eexists | done..]).
  set (tbl := Swxa_Dev_Stat k) in *. set (o := odd k) in *.
  destruct (give_back_bind _ _ _ _ _ _ H0) as (k1 & H1 & E). rewrite E. clear E. destruct (give_back_bind _ _ _ _ _ _ H1) as (k2 & H2 & E).
  rewrite E. clear E. apply holds_drvdata with (b := false) in H2. unfold pci_set_drvdata. rewrite bind_modify. set (k3 := k2 <| drvdata := false |>) in *.
  destruct (give_back_bind _ _ _ _ _ _ H2) as (k4 & H4 & E). rewrite E. clear E. destruct (give_back_bind _ _ _ _ _ _ H4) as (k5 & H5 & E). rewrite E. clear E.
  destruct (free_bind _ MAX_BUFFER_LEN _ _ _ _ _ _ H5) as (k6 & H6 & E). rewrite E. clear E.
  destruct (free_bind _ MAX_BUFFER_LEN _ _ _ _ _ _ H6) as (k7 & H7 & E). rewrite E. clear E.
  destruct (free_bind _ MAX_BUFFER_LEN _ _ _ _ _ _ H7) as (k8 & H8 & E). rewrite E. clear E.
  destruct (free_bind _ MAX_BUFFER_LEN _ _ _ _ _ _ H8) as (k9 & H9 & E). rewrite E. clear E.
  destruct (free_bind _ MAX_BUFFER_LEN _ _ _ _ _ _ H9) as (k10 & H10 & E). rewrite E. clear E.
  destruct (free_bind _ MAX_BUFFER_LEN _ _ _ _ _ _ H10) as (k11 & H11 & E). rewrite E. clear E.
  destruct (give_back_bind _ _ _ _ _ _ H11) as (k12 & H12 & E). rewrite E. clear E.
  destruct (give_back_run _ _ _ _ _ _ H12) as (k13 & E & _ & Ht & Hd' & Hh & Ho).
  unfold kfree. erewrite bind_step by (erewrite bind_step by exact E; reflexivity). unfold set_stat. rewrite bind_gets. cbn [Swxa_Dev_Stat set_field set_dev].
  rewrite Ht. unfold st. rewrite (proj2 (Z.leb_le 0 m)), (proj2 (Z.ltb_lt m _)) by lia. by eexists.
Qed.
End Remove.

(** ** The theorems *)
Section Theorems.
Context {host : Host} {card : Card} (fuel : nat).

(** C13: a probe takes the first free minor number and either binds the card or, when a call of the kernel fails, returns the code of
    the first call that does and gives back everything it took and the minor number, freeing the first buffer with another size
    than it has; removing the bound card gives everything back. *)
Theorem probe_all_or_nothing a k i :
  ready_within fuel -> (forall h c x out, zlen (runs h c x out) = zlen out) -> answers_ok a -> idle k -> first_free (Swxa_Dev_Stat k) i ->
  exists rc k', swxa_probe fuel a k = Some (rc, k') /\
    match expected a with
    | Some e => rc = e /\ unwound a k k'
    | None => rc = 0 /\
        (bound (Z.of_nat i) k' /\ Swxa_Dev_Stat k' = <[i := 1]> (Swxa_Dev_Stat k) /\
         (exists k'', swxa_remove k' = Some (tt, k'') /\ idle k'' /\ Swxa_Dev_Stat k'' = Swxa_Dev_Stat k /\ odd k'' = odd k) \/
         cfg_type a <> 0x7021 /\ card_says false /\ unwound a k k')
    end.
Proof.
  intros Hready Hruns Ha Hk Hi. pose proof (first_free_spec _ _ Hi) as (H4 & Hz & _).
  pose proof (probe_outcome fuel Hready Hruns a Ha _ i Hi (odd k) k Hk eq_refl eq_refl) as H. cbv zeta in H.
  assert (Hu : forall k', (exists first, first = first_allocated a /\ idle k' /\ Swxa_Dev_Stat k' = Swxa_Dev_Stat k /\
    odd k' = (if first : bool then [swxa_dma_buffer] else []) ++ odd k) -> unwound a k k').
  { intros k' (first & -> & H1 & H2 & H3). by split_and!. }
  destruct (expected a) as [e|] eqn:He.
  { destruct H as (k' & E & H1 & H2 & H3). exists e, k'. split_and!; try done. }
  destruct H as [[(k' & E & H1 & H2 & H3) _]|(Ht & Hs & k' & E & H1 & H2 & H3)]; exists 0, k'; (split_and!; [done | done |]).
  - left. split_and!; [done | done |]. destruct (remove_bound (Z.of_nat i) k' H1) as (k'' & E2 & I2 & S2 & O2).
    { rewrite H2. unfold zlen. rewrite length_insert, (proj1 Hi). unfold SWXA_MAX_DEV_NUM. lia. }
    exists k''. split_and!; [done | done | | congruence]. rewrite S2, H2, Nat2Z.id, list_insert_insert_eq. by apply list_insert_id.
  - right. split_and!; [done | done |]. apply Hu. exists true. split_and!; try done.
    unfold expected in He. unfold first_allocated. destruct (kmalloc_ok a); [|done]. destruct (enable_rc a <? 0); [done|].
    case_bool_decide as Hex; [done|]. symmetry. cbn. apply bool_decide_eq_true_2. intros Hn. apply Hex. unfold buffers. rewrite !Exists_cons. naive_solver.
Qed.

(** When the card refuses the curve, the probe returns 0 after giving everything back, so the kernel takes the device as
    bound; its removal then reads through a null pointer. *)
Theorem refused_curve_unnoticed a k i :
  ready_within fuel -> (forall h c x out, zlen (runs h c x out) = zlen out) -> answers_ok a -> idle k -> first_free (Swxa_Dev_Stat k) i ->
  expected a = None -> cfg_type a <> 0x7021 -> ~ card_says true ->
  exists k', swxa_probe fuel a k = Some (0, k') /\ idle k' /\ Swxa_Dev_Stat k' = Swxa_Dev_Stat k /\ swxa_remove k' = None.
Proof.
  intros Hready Hruns Ha Hk Hi He Ht Hs.
  pose proof (probe_outcome fuel Hready Hruns a Ha _ i Hi (odd k) k Hk eq_refl eq_refl) as H. cbv zeta in H. rewrite He in H.
  destruct H as [[_ [H|H]]|(_ & _ & k' & E & H1 & H2 & _)]; [done | done |]. exists k'. split_and!; try done.
  unfold swxa_remove. by rewrite bind_gets, (proj1 (proj2 H1)).
Qed.

(** A write of [count] bytes hands the card a command, of 65280 bytes at most, with the descriptors of the two
    buffers; the card's answer replaces the output buffer, and a read then gives its first bytes.  Both return 0 and leave
    the mutex free, for the next command. *)
Theorem write_then_read d buf count n k :
  ready_within fuel -> (forall h c x out, zlen (runs h c x out) = zlen out) -> mapped d -> wr_mutex d = false -> dev k = Some d ->
  0 <= n <= MAX_BUFFER_LEN ->
  let command := take (Z.to_nat (Z.min count 65280)) buf in
  let reply := runs (Descriptor_H2C d ++ drop 32 (content d swxa_des_buffer)) (Descriptor_C2H d ++ drop 32 (content d swxa_des_bufferout))
    (command ++ drop (length command) (content d swxa_dma_buffer)) (content d swxa_dma_bufferout) in
  exists k1 k2 d', swxa_write fuel buf count None k = Some (0, k1) /\ swxa_read n false k1 = Some ((0, take (Z.to_nat n) reply), k2) /\
    dev k2 = Some d' /\ mapped d' /\ wr_mutex d' = false /\ shared k2 = shared k.
Proof.
  intros Hready Hruns Hd Hmu Hk Hn. cbv zeta.
  destruct (does_write_ok fuel Hready Hruns d buf count Hd Hmu) as (d1 & Hdo & Hd1 & Hmu1 & _ & Hin & Hout). cbv zeta in Hin.
  change 65280 with MAX_DATA_BUFFER_LEN. rewrite Hin in Hout. rewrite <- Hout.
  destruct (Hdo k Hk) as (k1 & E1 & Hk1 & S1). destruct (does_read d1 n false Hd1 Hmu1 Hn k1 Hk1) as (k2 & E2 & Hk2 & S2).
  exists k1, k2, d1. split_and!; try done; try apply Hd1. by rewrite S2.
Qed.
End Theorems.

(** The byte-wise conversion is the word-wise exchange [ql_swap32] of util.c, on either host; it undoes itself, and a
    length that is no number of words is refused. *)
Theorem ConvertIntEndianCode_swaps {host : Host} ws s :
  ConvertIntEndianCode (words ws) = (0, Some (words (ql_swap32 <$> ws))) /\
  match ConvertIntEndianCode s with
  | (rc, Some t) => rc = 0 /\ length t = length s /\ ConvertIntEndianCode t = (0, Some s)
  | (rc, None) => rc = -1 /\ zlen s mod 4 <> 0
  end.
Proof.
  split; [|apply ConvertIntEndianCode_involutive]. unfold ConvertIntEndianCode. rewrite land_3 by apply zlen_nonneg. rewrite zlen_words.
  rewrite (proj2 (Z.eqb_eq _ _)) by zdm. cbn [negb]. do 2 f_equal.
  enough (H : forall fuel, (length (words ws) <= fuel)%nat -> convert fuel (words ws) = words (ql_swap32 <$> ws)) by by apply H.
  induction ws as [|w ws IH]; intros fuel Hf; [by destruct fuel|]. unfold words in *. cbn [mbind list_bind fmap list_fmap] in *.
  rewrite enc32_swap. destruct (enc32_four w) as (a & b & c & d & E). rewrite E in *. destruct fuel as [|fuel]; [cbn in Hf; lia|].
  cbn [app convert]. rewrite IH by (cbn in Hf; lia). done.
Qed.

(** The parameters in a command, as the card reads them: 17 words each, the most significant first. *)
Definition command_word (m : bytes) (j : Z) : option Z := ld32 m (4 * j).
Definition parameter (m : bytes) (n : nat) : option Z :=
  foldl (fun acc j => a ← acc; w ← command_word m (4 + 17 * Z.of_nat n + Z.of_nat j); Some (a * 2 ^ 32 + w)) (Some 0) (seq 0 17).
Definition p256 : Z := 2 ^ 256 - 2 ^ 224 + 2 ^ 192 + 2 ^ 96 - 1.
Definition p256_order : Z := 0xffffffff00000000ffffffffffffffffbce6faada7179e84f3b9cac2fc632551.

Definition p256_b : Z := 0x5ac635d8aa3a93e7b3ebbd55769886bc651d06b0cc53b0f63bce3c3e27d2604b.
Definition p256_x : Z := 0x6b17d1f2e12c4247f8bce6e563a440f277037d812deb33a0f4a13945d898c296.
Definition p256_y : Z := 0x4fe342e2fe1a7f9b8ee7eb4a7c0f9e162bce33576b315ececbb6406837bf51f5.

Lemma ecc_command_p256 :
  command_word ecc_command 0 = Some 107 /\ command_word ecc_command 1 = Some 2 /\ command_word ecc_command 2 = Some OPT_ECC_INIT /\
  parameter ecc_command 0 = Some p256 /\ parameter ecc_command 1 = Some (p256 - 3) /\ parameter ecc_command 2 = Some p256_b /\
  parameter ecc_command 3 = Some p256_x /\ parameter ecc_command 4 = Some p256_y /\ parameter ecc_command 5 = Some p256_order /\
  command_word ecc_command 106 = Some 256 /\ (p256_y * p256_y) mod p256 = (p256_x * p256_x * p256_x + (p256 - 3) * p256_x + p256_b) mod p256.
Proof. split_and!; vm_compute; reflexivity. Qed.

(** On a little-endian host [t_ECCInit] sends the command OPT_ECC_INIT with the prime p of the curve P-256, a = p - 3, its b, its base
    point, which is on the curve, and the order of that point; it returns 0 just when the card's error word is 0. *)
Theorem ECCInit_sends_p256 {card : Card} fuel d k :
  ready_within fuel -> (forall h c x out, zlen (runs h c x out) = zlen out) -> mapped d -> dev k = Some d ->
  exists k' d' err command, t_ECCInit fuel k = Some (if err =? 0 then 0 else -1, k') /\ dev k' = Some d' /\
    ld32 (content d' swxa_dma_bufferout) 4 = Some err /\ content d' swxa_dma_buffer = command ++ drop 428 (content d swxa_dma_buffer) /\
    zlen command = 428 /\ command_word command 2 = Some OPT_ECC_INIT /\
    parameter command 0 = Some p256 /\ parameter command 1 = Some (p256 - 3) /\ parameter command 2 = Some p256_b /\
    parameter command 3 = Some p256_x /\ parameter command 4 = Some p256_y /\ parameter command 5 = Some p256_order /\
    (p256_y * p256_y) mod p256 = (p256_x * p256_x * p256_x + (p256 - 3) * p256_x + p256_b) mod p256.
Proof.
  intros Hready Hruns Hd Hk. destruct (does_ECCInit fuel Hready Hruns d Hd) as (d1 & err & Hdo & _ & _ & _ & _ & Hin & _ & Herr).
  destruct (Hdo k Hk) as (k1 & E1 & Hd1 & _). destruct ecc_command_p256 as (_ & _ & H2 & P0 & P1 & P2 & P3 & P4 & P5 & _ & Hc).
  exists k1, d1, err, ecc_command. split_and!; done.
Qed.

(** ** A card that answers at once, with the error word [e], and a kernel that has everything *)
Definition sample_card (e : Z) : Card :=
  {| status := fun _ => 4; runs := fun _ _ _ out => match sts out 4 (le32 e) with Some m => m | None => out end |}.
Definition zero_buffer : bytes := replicate (Z.to_nat MAX_BUFFER_LEN) 0.
Definition sample_dev : SWXA_DEV :=
  {| swxa_iobase0 := 0; swxa_io0Len := 0; swxa_membase0 := 0xe0000000; SubDevID := 0; type := 42; minor := 0;
     physical := fun _ => 0x1000000; content := fun _ => zero_buffer; wr_mutex := false |}.
Definition sample_answers (id : Z) (region : bool) : Answers :=
  {| kmalloc_ok := true; enable_rc := 0; resource_start := 0xf0000000; resource_len := 0x10000; cfg_type := id; cfg_subdev := 1;
     coherent := fun _ => Some (0x1000000, zero_buffer); region_ok := region; ioremap := 0xe0000000; cdev_rc := 0; garbage := sample_dev |}.

Lemma sample_ready e : ready_within (card := sample_card e) 1.
Proof. intros n. exists 0%nat. split; [lia | done]. Qed.
Lemma sample_runs e h c x out : zlen (runs (Card := sample_card e) h c x out) = zlen out.
Proof. cbn. destruct (sts out 4 (le32 e)) eqn:E; [by eapply sts_length | done]. Qed.
Lemma zlen_zero_buffer : zlen zero_buffer = MAX_BUFFER_LEN.
Proof. unfold zero_buffer. rewrite zlen_replicate. by apply Z2Nat.id. Qed.
Lemma sample_ok id region : answers_ok (sample_answers id region).
Proof. split; [done|]. intros b p c [= _ <-]. apply zlen_zero_buffer. Qed.
Lemma sample_says e b : 0 <= e < 2 ^ 32 -> card_says (card := sample_card e) b -> b = (e =? 0).
Proof.
  intros Hr (h & c & x & out & err & Hl & E & <-). cbn in E.
  destruct (sts_defined out 4 (le32 e)) as [m Em]; [lia | rewrite Hl; done|]. rewrite Em in E. unfold ld32 in E.
  rewrite (lds_sts_same _ _ _ _ Em : lds m 4 4 = _) in E. cbn [mbind option_bind] in E. injection E as <-. f_equal.
  change (dec_native (le32 e)) with (of_le (le32 e)). by rewrite of_le_le32.
Qed.

Lemma sample_expected id : expected (sample_answers id true) = None.
Proof. unfold expected. rewrite bool_decide_eq_false_2; [done|]. unfold buffers. rewrite !Exists_cons, Exists_nil. cbn. naive_solver. Qed.

Abbreviation sample_table := [1; 0; 0; 0].
Abbreviation sample_free := (conj eq_refl (ex_intro _ 0 eq_refl)).
Abbreviation sample_idle := (conj eq_refl (conj eq_refl eq_refl)).
(** A card gets number 1; without its memory region it gets none. *)
Theorem probe_all_or_nothing_witness :
  (exists k', swxa_probe (card := sample_card 0) 1 (sample_answers 0x7021 true) (at_rest sample_table) = Some (0, k') /\ bound 1 k') /\
  (exists k', swxa_probe (card := sample_card 0) 1 (sample_answers 0x7021 false) (at_rest sample_table) = Some (-1, k') /\ idle k').
Proof.
  split.
  - destruct (probe_all_or_nothing (card := sample_card 0) 1 (sample_answers 0x7021 true) (at_rest sample_table) 1
      (sample_ready 0) (sample_runs 0) (sample_ok _ _) sample_idle sample_free) as (rc & k' & E & -> & [(Hb & _)|(Hn & _)]); [by exists k' | done].
  - destruct (probe_all_or_nothing (card := sample_card 0) 1 (sample_answers 0x7021 false) (at_rest sample_table) 1
      (sample_ready 0) (sample_runs 0) (sample_ok _ _) sample_idle sample_free) as (rc & k' & E & -> & (Hi & _)). by exists k'.
Defined.
(** The card answers 7. *)
Theorem refused_curve_unnoticed_witness :
  exists k', swxa_probe (card := sample_card 7) 1 (sample_answers 0x7024 true) (at_rest sample_table) = Some (0, k') /\ idle k' /\
    swxa_remove k' = None.
Proof.
  destruct (refused_curve_unnoticed (card := sample_card 7) 1 (sample_answers 0x7024 true) (at_rest sample_table) 1
    (sample_ready 7) (sample_runs 7) (sample_ok _ _) sample_idle sample_free (sample_expected _)) as (k' & E & Hi & _ & Hr).
  - cbn. lia.
  - intros H. apply sample_says in H; [|lia]. discriminate H.
  - exists k'. exact (conj E (conj Hi Hr)).
Defined.
Definition sample_open : K := (at_rest sample_table) <| dev := Some sample_dev |>.
Theorem write_then_read_witness :
  exists k1 k2 reply, swxa_write (card := sample_card 0) 1 (le32 2 ++ le32 1) 8 None sample_open = Some (0, k1) /\
    swxa_read 4 false k1 = Some ((0, take 4 reply), k2) /\ zlen reply = MAX_BUFFER_LEN.
Proof.
  destruct (write_then_read (card := sample_card 0) 1 sample_dev (le32 2 ++ le32 1) 8 4 sample_open (sample_ready 0) (sample_runs 0)) as (k1 & k2 & d & E1 & E2 & _).
  { split; [done|]. intros b. apply zlen_zero_buffer. }
  { done. } { done. } { unfold MAX_BUFFER_LEN. lia. }
  exists k1, k2. eexists. split; [exact E1|]. split; [exact E2|]. rewrite (sample_runs 0). apply zlen_zero_buffer.
Defined.
Theorem ECCInit_sends_p256_witness : exists k' rc, t_ECCInit (card := sample_card 0) 1 sample_open = Some (rc, k') /\ dev k' <> None.
Proof.
  destruct (ECCInit_sends_p256 (card := sample_card 0) 1 sample_dev sample_open (sample_ready 0) (sample_runs 0)) as (k' & d' & err & H).
  { split; [done|]. intros b. apply zlen_zero_buffer. } { done. }
  destruct H as (command & E & Hd & _). exists k'. eexists. split; [exact E|]. rewrite Hd. discriminate.
Defined.
