(* ===== verification/SansecSys.v ===== *)
(** * All cards of the driver of Sansec.v together: the table of minor numbers. *)
From stdpp Require Import relations.
From S2P Require Import Prelude Util Compose Text Monad Sansec SansecSpec.
#[local] Open Scope Z_scope.

(** What a program does with an open card. *)
Inductive operation := Write (buf : bytes) (count : Z) (fault : option nat) | Read (count : Z) (fault : bool) | Ioctl (cmd : Z) (ok : bool).
(** The shared table, and the PCI devices the kernel has bound to the driver. *)
Record System := { table : bytes; cards : gmap nat K }.
Definition seen (tbl : bytes) (k : K) : K := k <| Swxa_Dev_Stat := tbl |>.

Section System.
Context {host : Host} {card : Card} (fuel : nat) (Hready : ready_within fuel) (Hruns : forall h c i o, zlen (runs h c i o) = zlen o).

Definition operate (op : operation) : MK unit :=
  match op with
  | Write buf count fault => _ ← swxa_write fuel buf count fault; mret tt
  | Read count fault => _ ← swxa_read count fault; mret tt
  | Ioctl cmd ok => _ ← swxa_ioctl cmd ok; mret tt
  end.

(** The kernel binds a device whose probe does not fail.  No more than four devices are there. *)
Inductive sys_step : System -> System -> Prop :=
  | probed s d a rc k' : cards s !! d = None -> (size (cards s) < SWXA_MAX_DEV_NUM)%nat -> answers_ok a ->
      swxa_probe fuel a (at_rest (table s)) = Some (rc, k') -> 0 <= rc ->
      sys_step s {| table := Swxa_Dev_Stat k'; cards := <[d := k']> (cards s) |}
  | refused s d a rc k' : cards s !! d = None -> (size (cards s) < SWXA_MAX_DEV_NUM)%nat -> answers_ok a ->
      swxa_probe fuel a (at_rest (table s)) = Some (rc, k') -> rc < 0 ->
      sys_step s {| table := Swxa_Dev_Stat k'; cards := cards s |}
  | used s d op k k' : cards s !! d = Some k -> operate op (seen (table s) k) = Some (tt, k') ->
      sys_step s {| table := Swxa_Dev_Stat k'; cards := <[d := k']> (cards s) |}
  | removed s d k k' : cards s !! d = Some k -> swxa_remove (seen (table s) k) = Some (tt, k') ->
      sys_step s {| table := Swxa_Dev_Stat k'; cards := delete d (cards s) |}.

(** Every device is a working card with a minor number of its own, or one whose probe failed unnoticed; a minor
    number is taken just when a card has it. *)
Record consistent (s : System) : Prop := {
  con_table : length (table s) = SWXA_MAX_DEV_NUM;
  con_cards d k : cards s !! d = Some k -> idle k \/ exists m, 0 <= m < 4 /\ bound m k;
  con_free m : (m < 4)%nat -> table s !! m <> Some 0 -> exists d k, cards s !! d = Some k /\ bound (Z.of_nat m) k;
  con_taken m d k : (m < 4)%nat -> cards s !! d = Some k -> bound (Z.of_nat m) k -> table s !! m <> Some 0;
  con_own m d d' k k' : cards s !! d = Some k -> cards s !! d' = Some k' -> bound m k -> bound m k' -> d = d' }.

Lemma bound_seen m tbl k : bound m (seen tbl k) <-> bound m k.
Proof. done. Qed.
Lemma idle_not_bound m k : idle k -> bound m k -> False.
Proof. intros (_ & H & _) (H' & _). congruence. Qed.
Lemma bound_unique m m' k : bound m k -> bound m' k -> m = m'.
Proof. intros (_ & _ & d & E & _ & _ & <-) (_ & _ & d' & E' & _ & _ & <-). congruence. Qed.

(** A read of more than the buffer is undefined. *)
Lemma read_range d count fault k r : mapped d -> wr_mutex d = false -> dev k = Some d ->
  swxa_read count fault k = Some r -> 0 <= count <= MAX_BUFFER_LEN.
Proof.
  intros Hm Hmu Hd E. destruct r as [x k']. unfold swxa_read in E. destruct (does_lock d Hmu k Hd) as (k2 & E2 & Hd2 & _).
  rewrite (bind_step _ _ _ _ _ E2), (bind_dev _ _ _ Hd2) in E. apply bind_lift_inv in E as (bs & E & _).
  unfold lds in E. cbn [content set_field set_wr_mutex] in E. rewrite (proj2 Hm) in E.
  destruct (Z.leb_spec 0 count); [|done]. destruct (Z.leb_spec (0 + count) MAX_BUFFER_LEN); [|done]. lia.
Qed.

(** An operation on a card leaves it bound. *)
Lemma does_bound {A} (f : MK A) k m d d' a r :
  does f d d' a -> dev k = Some d -> (f ≫= fun _ => mret tt) k = r -> mapped d' -> wr_mutex d' = false -> minor d' = minor d ->
  bound m k -> exists k', r = Some (tt, k') /\ bound m k' /\ Swxa_Dev_Stat k' = Swxa_Dev_Stat k.
Proof.
  intros Hf Hd <- Hm Hmu Hmin (Hdd & Hheld & e & He & _ & _ & Hem). destruct (Hf k Hd) as (k' & E & Hd' & S).
  unfold shared in S. injection S as S1 S2 S3 _ _. exists k'. rewrite (bind_step _ _ _ _ _ E). split_and!; [done | | done].
  unfold bound. rewrite S2, S3. split_and!; [done | done|]. exists d'. split_and!; try done. congruence.
Qed.
Lemma operate_bound op k k' m : operate op k = Some (tt, k') -> bound m k -> bound m k' /\ Swxa_Dev_Stat k' = Swxa_Dev_Stat k.
Proof.
  intros E Hb. pose proof Hb as (_ & _ & d & Hd & Hm & Hmu & Hmin).
  assert (Hall : exists k1, operate op k = Some (tt, k1) /\ bound m k1 /\ Swxa_Dev_Stat k1 = Swxa_Dev_Stat k).
  2:{ destruct Hall as (k1 & E1 & H1 & H2). rewrite E in E1. injection E1 as ->. done. }
  destruct op as [buf count [n|] | count fault | cmd ok]; cbn [operate] in *.
  - destruct (does_write_fault fuel d buf count n Hm Hmu) as (d1 & Hdo & Hm1 & Hmu1 & Hmin1 & _). by eapply does_bound.
  - destruct (does_write_ok fuel Hready Hruns d buf count Hm Hmu) as (d1 & Hdo & Hm1 & Hmu1 & Hmin1 & _). by eapply does_bound.
  - eapply does_bound; [|done..]. apply does_read; [done | done |].
    apply bind_inv in E as (x & k1 & E & _). by eapply read_range.
  - unfold swxa_ioctl. destruct (_ || _); [eapply does_bound; [apply does_ret | done..]|]. destruct (cmd =? SWXA_RESET_COMMAND).
    { eapply does_bound with (f := swxa_reset;; mret 0); [eapply does_bind; [apply does_reset, Hm | apply does_ret] | done..]. }
    destruct (cmd =? SWXA_GET_SUBDEVID); [|eapply does_bound; [apply does_ret | done..]].
    eapply does_bound with (f := d ← swxa_dev; mret (SubDevID d)); [eapply does_bind; [apply does_dev | apply does_ret] | done..].
Qed.
Lemma operate_idle op k k' : idle k -> operate op k = Some (tt, k') -> idle k' /\ Swxa_Dev_Stat k' = Swxa_Dev_Stat k.
Proof.
  intros (Hd & Hdd & Hh) E. assert (Hdev : forall A (f : SWXA_DEV -> MK A), (swxa_dev ≫= f) k = None).
  { intros A f. unfold mbind, M_bind, swxa_dev. by rewrite bind_gets, Hd. }
  destruct op as [buf count fault | count fault | cmd ok]; cbn [operate] in E; apply bind_inv in E as (x & k1 & E & E').
  - unfold swxa_write, put_descriptors in E. apply bind_inv in E as (y & k2 & E & _). by rewrite Hdev in E.
  - unfold swxa_read, mutex_lock in E. apply bind_inv in E as (y & k2 & E & _). by rewrite Hdev in E.
  - injection E' as <-. unfold swxa_ioctl in E. destruct (_ || _); [by injection E as <- <-|]. destruct (cmd =? SWXA_RESET_COMMAND).
    { unfold swxa_reset, iowrite32 in E. apply bind_inv in E as (y & k2 & E & _). apply bind_inv in E as (z & k3 & E & _). by rewrite Hdev in E. }
    destruct (cmd =? SWXA_GET_SUBDEVID); [by rewrite Hdev in E|]. by injection E as <- <-.
Qed.

(** With fewer than four devices a minor number is free. *)
Lemma four_taken s : consistent s -> Forall (fun c => ~ c = 0) (table s) -> (SWXA_MAX_DEV_NUM <= size (cards s))%nat.
Proof.
  intros Hc Hf. assert (Hm : forall m, (m < 4)%nat -> exists d k, cards s !! d = Some k /\ bound (Z.of_nat m) k).
  { intros m Hm. apply (con_free _ Hc); [done|]. intros E. rewrite Forall_lookup in Hf. by apply (Hf m 0). }
  destruct (Hm 0%nat) as (d0 & k0 & E0 & B0); [lia|]. destruct (Hm 1%nat) as (d1 & k1 & E1 & B1); [lia|].
  destruct (Hm 2%nat) as (d2 & k2 & E2 & B2); [lia|]. destruct (Hm 3%nat) as (d3 & k3 & E3 & B3); [lia|].
  assert (Hne : forall m m' d d' k k', cards s !! d = Some k -> cards s !! d' = Some k' -> bound m k -> bound m' k' -> m <> m' -> d <> d').
  { intros m m' d d' k k' E E' B B' Hn ->. rewrite E in E'. injection E' as ->. by eapply Hn, bound_unique. }
  rewrite <- size_dom. transitivity (size ({[d0; d1; d2; d3]} : gset nat)).
  - rewrite !size_union, !size_singleton; [done|..]; apply disjoint_singleton_r; rewrite ?not_elem_of_union, ?not_elem_of_singleton;
      split_and?; eapply not_eq_sym, Hne; eauto; done.
  - apply subseteq_size. intros d. rewrite !elem_of_union, !elem_of_singleton, elem_of_dom. intros [[[->| ->]| ->]| ->]; by eexists.
Qed.
Lemma some_free s : consistent s -> (size (cards s) < SWXA_MAX_DEV_NUM)%nat -> exists i, first_free (table s) i.
Proof.
  intros Hc Hs. destruct (list_find (fun c => c = 0) (table s)) as [[i c]|] eqn:E.
  - exists i. split; [apply (con_table _ Hc) | by exists c].
  - apply list_find_None in E. apply (four_taken s Hc) in E. lia.
Qed.

(** *** Each kind of step keeps the table and the cards consistent *)
Ltac cards_cases := repeat match goal with
  | H : <[_ := _]> _ !! _ = Some _ |- _ => apply lookup_insert_Some in H as [[<- <-]|[? H]]
  | H : delete _ _ !! _ = Some _ |- _ => apply lookup_delete_Some in H as [? H]
  end.
Ltac consistency Hc := constructor; cbn [table cards]; [rewrite ?length_insert; apply (con_table _ Hc) | intros; cards_cases ..].

Lemma consistent_idle s d k : consistent s -> (forall k0, cards s !! d = Some k0 -> idle k0) -> idle k ->
  consistent {| table := table s; cards := <[d := k]> (cards s) |}.
Proof.
  intros Hc Hold Hk. consistency Hc; try (by left); try (by exfalso; eapply idle_not_bound).
  - by apply (con_cards _ Hc) in H.
  - destruct (con_free _ Hc m H H0) as (d' & k' & E & B). exists d', k'. split; [|done]. rewrite lookup_insert_ne; [done|]. intros ->.
    by eapply idle_not_bound; [apply Hold|].
  - by eapply (con_taken _ Hc).
  - by eapply (con_own _ Hc m d0 d').
Qed.
Lemma consistent_used s d k k' m : consistent s -> cards s !! d = Some k -> bound m k -> bound m k' ->
  consistent {| table := table s; cards := <[d := k']> (cards s) |}.
Proof.
  intros Hc Hd Hk Hk'. consistency Hc.
  - destruct (con_cards _ Hc _ _ Hd) as [Hi|(m' & Hm & Hb)]; [by exfalso; eapply idle_not_bound|]. right. exists m. split; [by rewrite (bound_unique _ _ _ Hk Hb) | done].
  - by apply (con_cards _ Hc) in H.
  - destruct (con_free _ Hc m0 H H0) as (d' & k0 & E & B). destruct (decide (d = d')) as [<-|Hn].
    + rewrite Hd in E. injection E as <-. exists d, k'. rewrite lookup_insert_eq. split; [done|]. by rewrite <- (bound_unique _ _ _ Hk B).
    + exists d', k0. by rewrite lookup_insert_ne.
  - apply (con_taken _ Hc m0 d k); [done | done |]. by rewrite (bound_unique _ _ _ H1 Hk').
  - by eapply (con_taken _ Hc).
  - done.
  - apply (con_own _ Hc m0 d0 d k0 k); try done. by rewrite (bound_unique _ _ _ H2 Hk').
  - apply (con_own _ Hc m0 d d' k k'0); try done. by rewrite (bound_unique _ _ _ H1 Hk').
  - by eapply (con_own _ Hc m0 d0 d').
Qed.
Lemma consistent_bind s d k i : consistent s -> cards s !! d = None -> (i < 4)%nat -> table s !! i = Some 0 -> bound (Z.of_nat i) k ->
  consistent {| table := <[i := 1]> (table s); cards := <[d := k]> (cards s) |}.
Proof.
  intros Hc Hd Hi Hz Hk. assert (Hil : (i < length (table s))%nat) by (rewrite (con_table _ Hc); done).
  assert (Hno : forall m d' k', cards s !! d' = Some k' -> bound m k' -> bound m k -> False).
  { intros m d' k' E B B'. rewrite (bound_unique _ _ _ B' Hk) in B. by apply (con_taken _ Hc i d' k' Hi E B). }
  consistency Hc.
  - right. exists (Z.of_nat i). split; [lia | done].
  - by apply (con_cards _ Hc) in H.
  - destruct (decide (m = i)) as [->|Hn]; [exists d, k; by rewrite lookup_insert_eq|].
    rewrite list_lookup_insert_ne in H0 by done. destruct (con_free _ Hc m H H0) as (d' & k' & E & B). exists d', k'. rewrite lookup_insert_ne; [done | congruence].
  - apply (bound_unique _ _ _ Hk) in H1. apply Nat2Z.inj in H1 as <-. by rewrite list_lookup_insert_eq.
  - destruct (decide (m = i)) as [->|Hn]; [by rewrite list_lookup_insert_eq|]. rewrite list_lookup_insert_ne by done. by eapply (con_taken _ Hc).
  - done.
  - exfalso. by eapply Hno.
  - exfalso. by eapply Hno.
  - by eapply (con_own _ Hc m d0 d').
Qed.
Lemma consistent_unbind s d k m : consistent s -> cards s !! d = Some k -> bound m k ->
  consistent {| table := <[Z.to_nat m := 0]> (table s); cards := delete d (cards s) |}.
Proof.
  intros Hc Hd Hk. consistency Hc.
  - by eapply (con_cards _ Hc).
  - destruct (decide (Z.to_nat m = m0)) as [<-|Hn].
    { exfalso. apply H0. apply list_lookup_insert_eq. rewrite (con_table _ Hc). done. }
    rewrite list_lookup_insert_ne in H0 by done. destruct (con_free _ Hc m0 H H0) as (d' & k' & E & B). exists d', k'.
    rewrite lookup_delete_ne; [done|]. intros <-. rewrite Hd in E. injection E as <-. apply Hn. rewrite (bound_unique _ _ _ Hk B). lia.
  - rewrite list_lookup_insert_ne; [by eapply (con_taken _ Hc)|]. intros <-. match goal with N : d <> d0 |- _ => apply N end.
    destruct (con_cards _ Hc _ _ Hd) as [Hi|(m' & Hm & Hb)]; [by exfalso; eapply idle_not_bound|]. rewrite (bound_unique _ _ _ Hk Hb) in *.
    rewrite Z2Nat.id in * by lia. by eapply (con_own _ Hc m' d d0).
  - by eapply (con_own _ Hc m0 d0 d').
Qed.

Lemma step_consistent s s' : sys_step s s' -> consistent s -> consistent s'.
Proof.
  intros Hstep Hc. assert (Hprobe : forall a rc k' d, cards s !! d = None -> (size (cards s) < SWXA_MAX_DEV_NUM)%nat -> answers_ok a ->
    swxa_probe fuel a (at_rest (table s)) = Some (rc, k') ->
    idle k' /\ Swxa_Dev_Stat k' = table s \/
    rc = 0 /\ exists i, (i < 4)%nat /\ table s !! i = Some 0 /\ bound (Z.of_nat i) k' /\ Swxa_Dev_Stat k' = <[i := 1]> (table s)).
  { intros a rc k' d Hd Hs Ha E. destruct (some_free s Hc Hs) as [i Hi].
    pose proof (first_free_spec _ _ Hi) as (H4 & Hz & _).
    pose proof (probe_outcome fuel Hready Hruns a Ha _ i Hi [] (at_rest (table s)) (conj eq_refl (conj eq_refl eq_refl)) eq_refl eq_refl) as H.
    cbv zeta in H. rewrite E in H. destruct (expected a).
    - destruct H as (k1 & [= _ <-] & H1 & H2 & _). by left.
    - destruct H as [[(k1 & [= -> <-] & H1 & H2 & _) _]|(_ & _ & k1 & [= _ <-] & H1 & H2 & _)]; [|by left]. right. split; [done|]. by exists i. }
  destruct Hstep as [s d a rc k' Hd Hs Ha E Hrc | s d a rc k' Hd Hs Ha E Hrc | s d op k k' Hd E | s d k k' Hd E].
  - destruct (Hprobe a rc k' d Hd Hs Ha E) as [[Hi ->]|(_ & i & Hi & Hz & Hb & ->)]; [|by apply consistent_bind].
    apply consistent_idle; [done | intros k0 E0; congruence | done].
  - destruct (Hprobe a rc k' d Hd Hs Ha E) as [[_ ->]|(-> & _)]; [by destruct s | lia].
  - destruct (con_cards _ Hc _ _ Hd) as [Hi|(m & Hm & Hb)].
    + destruct (operate_idle op (seen (table s) k) k' Hi E) as [H1 ->]. apply consistent_idle; [done | | done]. intros k0 E0. congruence.
    + destruct (operate_bound op (seen (table s) k) k' m E Hb) as [H1 ->]. by apply (consistent_used s d k k' m).
  - destruct (con_cards _ Hc _ _ Hd) as [Hi|(m & Hm & Hb)].
    { unfold swxa_remove in E. rewrite bind_gets, (proj1 (proj2 Hi) : drvdata (seen (table s) k) = false) in E. done. }
    destruct (remove_bound m (seen (table s) k) Hb) as (k1 & E1 & _ & S1 & _).
    { unfold zlen. cbn. rewrite (con_table _ Hc). unfold SWXA_MAX_DEV_NUM. lia. }
    rewrite E in E1. injection E1 as <-. rewrite S1. by apply (consistent_unbind s d k m).
Qed.
Lemma reachable_consistent s : rtc sys_step {| table := [0; 0; 0; 0]; cards := ∅ |} s -> consistent s.
Proof.
  intros H. remember {| table := _; cards := _ |} as s0 eqn:E0. assert (Hc : consistent s0).
  { subst. constructor; cbn; try done. intros m Hm E. exfalso. apply E. by do 4 (destruct m as [|m]; [done|]); lia. }
  clear E0. induction H as [s|s s1 s2 H _ IH]; [done|]. by apply IH, (step_consistent s).
Qed.
End System.

(** C14: over all sequences of probes, uses and removals of at most four devices, failing ones included, the table of minor numbers
    and the cards agree: a number is taken just when a card has it, no two cards share one, every card is ready for
    its next command or holds nothing, and every card that is ready can be removed, which frees its number. *)
Theorem minor_numbers_consistent {host : Host} {card : Card} fuel s :
  ready_within fuel -> (forall h c x out, zlen (runs h c x out) = zlen out) -> rtc (sys_step fuel) {| table := [0; 0; 0; 0]; cards := ∅ |} s ->
  (forall m, (m < 4)%nat -> table s !! m <> Some 0 <-> exists d k, cards s !! d = Some k /\ bound (Z.of_nat m) k) /\
  (forall m d d' k k', cards s !! d = Some k -> cards s !! d' = Some k' -> bound m k -> bound m k' -> d = d') /\
  (forall d k, cards s !! d = Some k -> idle k \/
     exists m k', bound m k /\ swxa_remove (seen (table s) k) = Some (tt, k') /\
       sys_step fuel s {| table := <[Z.to_nat m := 0]> (table s); cards := delete d (cards s) |}).
Proof.
  intros Hready Hruns Hs. pose proof (reachable_consistent fuel Hready Hruns s Hs) as Hc. split_and!.
  - intros m Hm. split; [by apply (con_free _ Hc)|]. intros (d & k & E & B). by apply (con_taken _ Hc m d k).
  - apply (con_own _ Hc).
  - intros d k Hd. destruct (con_cards _ Hc _ _ Hd) as [Hi|(m & Hm & Hb)]; [by left|]. right. exists m.
    destruct (remove_bound m (seen (table s) k) Hb) as (k1 & E1 & _ & S1 & _).
    { unfold zlen. cbn. rewrite (con_table _ Hc). unfold SWXA_MAX_DEV_NUM. lia. }
    exists k1. split_and!; [done | done|]. replace (<[_ := 0]> _) with (Swxa_Dev_Stat k1) by done. by eapply removed.
Qed.

(** One card is bound, and can be removed. *)
Theorem minor_numbers_consistent_witness : exists s k, rtc (sys_step (card := sample_card 0) 1) {| table := [0; 0; 0; 0]; cards := ∅ |} s /\
  cards s !! 7%nat = Some k /\ bound 0 k /\ table s !! 0%nat <> Some 0.
Proof.
  destruct (probe_outcome (card := sample_card 0) 1 (sample_ready 0) (sample_runs 0) (sample_answers 0x7021 true) (sample_ok _ _) [0; 0; 0; 0] 0
    (conj eq_refl (ex_intro _ 0 eq_refl)) [] (at_rest [0; 0; 0; 0]) (conj eq_refl (conj eq_refl eq_refl)) eq_refl eq_refl)
    as [[(k & E & Hb & Ht & _) _]|(Ht & _)]; [|done].
  assert (Hs : rtc (sys_step (card := sample_card 0) 1) {| table := [0; 0; 0; 0]; cards := ∅ |} {| table := Swxa_Dev_Stat k; cards := <[7%nat := k]> ∅ |}).
  { apply rtc_once. eapply (probed 1 {| table := [0; 0; 0; 0]; cards := ∅ |} 7%nat); [done | cbn; rewrite map_size_empty; unfold SWXA_MAX_DEV_NUM; lia | apply sample_ok | exact E | done]. }
  eexists _, k. split; [exact Hs|]. split; [done|]. split; [done|].
  apply (minor_numbers_consistent (card := sample_card 0) 1 _ (sample_ready 0) (sample_runs 0) Hs); [lia|]. exists 7%nat, k. done.
Defined.
