(* ===== verification/ProxyInit.v ===== *)
(** * quectel-qmi-proxy.c: setting the modem up before the multiplexer serves it.
    The main thread sends one request after the other and waits for the loop thread (Proxy.v) to hand it the answer;
    what the modem sends while it waits is the class [Arrivals].  The wait ends with the first message that answers the request.  Also: the device
    is looked for, and opened and served until the process is told to quit. *)
From S2P Require Import Prelude Util QmiMsg Compose Monad QmiExchange WwanCM Proxy Layout ProxyStructs.
#[local] Open Scope Z_scope.
#[local] Open Scope c_scope.

Definition sizeof_QCQMIMSG : Z := sizeof[QCQMIMSG].
Definition QMICTL_GET_VERSION_REQ : Z := 0x0021.
Definition QMICTL_GET_CLIENT_ID_REQ : Z := 0x0022.
Definition QMICTL_SYNC_REQ : Z := 0x0027.
Definition QMIWDS_ADMIN_SET_DATA_FORMAT_REQ : Z := 0x0020.
Definition oResult : Z := (QCQMIMSG∙"CTLMsg.QMICTLMsgHdrRsp.QMUXResult").
Definition oError : Z := (QCQMIMSG∙"CTLMsg.QMICTLMsgHdrRsp.QMUXError").

(** The messages that reach the loop thread while a request waits, given what was sent so far: the read buffer and the
    number of bytes read. *)
Class Arrivals : Type := { arrivals : list out -> list (bytes * Z) }.

Section Tlv.
Context {host : Host}.

(** The offset of the first TLV of a type, or NULL. *)
Fixpoint find_tlv_loop (fuel : nat) (pQMI : bytes) (TLVType L Length : Z) : option (option Z) :=
  match fuel with
  | O => None
  | S fuel =>
      if Length <? L then
        t ← ld pQMI (oTLVs + Length);
        if t =? TLVType then Some (Some (oTLVs + Length)) else
        l ← rd16 pQMI (oTLVs + Length + QCQMUX_TLV∙"Length");
        find_tlv_loop fuel pQMI TLVType L (Length + (l + sizeof_QMI_TLV_HDR))
      else Some None
  end.
(** Every turn reads three more bytes of the message, so its length is fuel enough. *)
Definition qmi_find_tlv (pQMI : bytes) (TLVType : Z) : option (option Z) :=
  L ← rd16 pQMI oMUXLength;
  find_tlv_loop (S (length pQMI)) pQMI TLVType L 0.
(** [pFormat->Value] *)
Definition tlv_u32 (pQMI : bytes) (TLVType : Z) : option (option Z) :=
  p ← qmi_find_tlv pQMI TLVType;
  match p with Some p => v ← rd32 pQMI (p + QMIWDS_ADMIN_SET_DATA_FORMAT_TLV∙"Value"); Some (Some v) | None => Some None end.
End Tlv.

Section Init.
Context {host : Host} {heap : Heap} {modem : Arrivals}.

Definition begin_request (m : bytes) (p : Proxy) : Proxy :=
  {| server_fd := server_fd p; connections := connections p; ctl_msg := ctl_msg p; modem_reset_flag := modem_reset_flag p;
     s_pCtlReq := Some m; s_pCtlRsq := None; p_signalled := false; outs := outs p |}.
Definition end_request (p : Proxy) : Proxy :=
  {| server_fd := server_fd p; connections := connections p; ctl_msg := ctl_msg p; modem_reset_flag := modem_reset_flag p;
     s_pCtlReq := None; s_pCtlRsq := s_pCtlRsq p; p_signalled := p_signalled p; outs := outs p |}.
Definition open_server (fd : Z) (p : Proxy) : Proxy :=
  {| server_fd := fd; connections := connections p; ctl_msg := ctl_msg p; modem_reset_flag := modem_reset_flag p;
     s_pCtlReq := s_pCtlReq p; s_pCtlRsq := s_pCtlRsq p; p_signalled := p_signalled p; outs := outs p |}.

Fixpoint wait_response (l : list (bytes * Z)) : MP unit :=
  match l with
  | [] => mret tt
  | (m, size) :: l => s ← gets p_signalled; if s : bool then mret tt else recv_qmi m size;; wait_response l
  end.
(** Result: 0 with the response, or ETIMEDOUT. *)
Definition send_qmi_timeout (pRequest : bytes) : MP (Z * option bytes) :=
  modify (begin_request pRequest);;
  send_qmi_to_cdc_wdm pRequest;;
  l ← gets (fun p => arrivals (outs p));
  wait_response l;;
  s ← gets p_signalled; r ← gets s_pCtlRsq;
  modify end_request;;
  mret (if s : bool then (0, r) else (ETIMEDOUT, None)).

(** The length of the whole message, from the length field of a control message. *)
Definition ctl_length (m : bytes) : option bytes :=
  L ← rd16 m oCtlLength; st16 m oQMILength (cpu_to_le16 (u16 (L + sizeof_QCQMI_HDR + sizeof_QCQMICTL_MSG_HDR - 1))).
(** The type of the SYNC request is stored in the byte order of the host. *)
Definition sync_request (m : bytes) (tid : Z) : option bytes :=
  m ← st8 m oCtlTransactionId tid;
  m ← st16 m oCtlType QMICTL_SYNC_REQ;
  m ← st16 m oCtlLength 0;
  ctl_length m.
(** A request with one byte as its parameter. *)
Definition ctl_request (m : bytes) (tid type v : Z) : option bytes :=
  m ← st8 m oCtlTransactionId tid;
  m ← st16 m oCtlType (cpu_to_le16 type);
  m ← st16 m oCtlLength (cpu_to_le16 0x0004);
  m ← st8 m (QCQMIMSG∙"CTLMsg.GetClientIdReq.TLVType") 0x01;
  m ← st16 m (QCQMIMSG∙"CTLMsg.GetClientIdReq.TLVLength") (cpu_to_le16 0x0001);
  m ← st8 m (QCQMIMSG∙"CTLMsg.GetClientIdReq.QMIType") v;
  ctl_length m.
Definition format_tlv (m : bytes) (i type v : Z) : option bytes :=
  m ← st8 m i type; m ← st16 m (i + QMIWDS_ADMIN_SET_DATA_FORMAT_TLV∙"TLVLength") (cpu_to_le16 4);
    st32 m (i + QMIWDS_ADMIN_SET_DATA_FORMAT_TLV∙"Value") (cpu_to_le32 v).
(** [q] are the settings, with the driver's values where it gave some. *)
Definition format_request (m : bytes) (tid client version : Z) (q : QMAP_SETTING) : option bytes :=
  m ← st8 m oIFType USB_CTL_MSG_TYPE_QMI;
  m ← st8 m oQMICtlFlags 0x00;
  m ← st8 m oQMIType QMUX_TYPE_WDS_ADMIN;
  m ← st8 m oClientId client;
  m ← st8 m oMUXCtlFlags 0x00;
  m ← st16 m oTransactionId (cpu_to_le16 tid);
  m ← st16 m oMUXType (cpu_to_le16 QMIWDS_ADMIN_SET_DATA_FORMAT_REQ);
  m ← st16 m oMUXLength (cpu_to_le16 71);
  m ← st8 m (QCQMIMSG∙"MUXMsg.SetDataFormatReq.QosDataFormatTlv.TLVType") 0x10;
  m ← st16 m (QCQMIMSG∙"MUXMsg.SetDataFormatReq.QosDataFormatTlv.TLVLength") (cpu_to_le16 1);
  m ← st8 m (QCQMIMSG∙"MUXMsg.SetDataFormatReq.QosDataFormatTlv.QOSSetting") 0;
  m ← format_tlv m (QCQMIMSG∙"MUXMsg.SetDataFormatReq.UnderlyingLinkLayerProtocolTlv") 0x11 0x02;
  m ← format_tlv m (QCQMIMSG∙"MUXMsg.SetDataFormatReq.UplinkDataAggregationProtocolTlv") 0x12 version;
  m ← format_tlv m (QCQMIMSG∙"MUXMsg.SetDataFormatReq.DownlinkDataAggregationProtocolTlv") 0x13 version;
  m ← format_tlv m (QCQMIMSG∙"MUXMsg.SetDataFormatReq.DownlinkDataAggregationMaxDatagramsTlv") 0x15 (if 2048 <? rx_urb_size q then rx_urb_size q / 1024 else 1);
  m ← format_tlv m (QCQMIMSG∙"MUXMsg.SetDataFormatReq.DownlinkDataAggregationMaxSizeTlv") 0x16 (rx_urb_size q);
  m ← st8 m (QCQMIMSG∙"MUXMsg.SetDataFormatReq.epTlv.TLVType") 0x17;
  m ← st16 m (QCQMIMSG∙"MUXMsg.SetDataFormatReq.epTlv.TLVLength") (cpu_to_le16 8);
  m ← st32 m (QCQMIMSG∙"MUXMsg.SetDataFormatReq.epTlv.ep_type") (cpu_to_le32 (ep_type q));
  m ← st32 m (QCQMIMSG∙"MUXMsg.SetDataFormatReq.epTlv.iface_id") (cpu_to_le32 (iface_id q));
  m ← format_tlv m (QCQMIMSG∙"MUXMsg.SetDataFormatReq.DlMinimumPassingTlv") 0x19 (dl_minimum_padding q);
  m ← format_tlv m (QCQMIMSG∙"MUXMsg.SetDataFormatReq.UplinkDataAggregationMaxDatagramsTlv") 0x1B (ul_data_aggregation_max_datagrams q);
  m ← format_tlv m (QCQMIMSG∙"MUXMsg.SetDataFormatReq.UplinkDataAggregationMaxSizeTlv") 0x1C (ul_data_aggregation_max_size q);
  L ← rd16 m oMUXLength; st16 m oQMILength (cpu_to_le16 (u16 (L + sizeof_QCQMI_HDR + 7 - 1))).

(** Ten attempts at the SYNC request.  Result: of the last one, the next identifier, and the message. *)
Fixpoint sync_attempts (n : nat) (ret tid : Z) (m : bytes) : MP (Z * Z * bytes) :=
  match n with
  | O => mret (ret, tid, m)
  | S n =>
      m ← lift (sync_request m tid);
      '(ret, _) ← send_qmi_timeout m;
      if ret =? 0 then mret (0, u8 (tid + 1), m) else sync_attempts n ret (u8 (tid + 1)) m
  end.
(** A response that reports an error, at the result fields of a control or of a QMUX message. *)
Definition failed (rsp : bytes) (result error : Z) : option bool :=
  r ← ld16 rsp result; if negb (r =? 0) then Some true else e ← ld16 rsp error; Some (negb (e =? 0)).

(** The settings: the driver's (the fields of its [RMNET_INFO], when that is not empty) or the defaults. *)
Definition settings (pcie : bool) (info : bytes) : option (QMAP_SETTING * Z) :=
  size ← ld32 info (RMNET_INFO∙"size");
  let q := {| rx_urb_size := 16 * 1024; ep_type := if pcie then 3 else 2; iface_id := 4; MuxId := 0;
              ul_data_aggregation_max_datagrams := 16; ul_data_aggregation_max_size := 8 * 1024; dl_minimum_padding := 0 |} in
  if size =? 0 then Some (q, 5) else
  urb ← ld32 info (RMNET_INFO∙"rx_urb_size"); ep ← ld32 info (RMNET_INFO∙"ep_type"); iface ← ld32 info (RMNET_INFO∙"iface_id");
  version ← ld32 info (RMNET_INFO∙"qmap_version");
  Some ({| rx_urb_size := urb; ep_type := ep; iface_id := iface; MuxId := 0; ul_data_aggregation_max_datagrams := 16;
           ul_data_aggregation_max_size := 8 * 1024; dl_minimum_padding := 0 |}, version).
(** What the modem agreed to; the driver is told when more than one datagram is aggregated. *)
Definition agreed (q : QMAP_SETTING) (rsp : bytes) : option (option QMAP_SETTING) :=
  _ ← tlv_u32 rsp 0x11; _ ← tlv_u32 rsp 0x12; _ ← tlv_u32 rsp 0x13; _ ← tlv_u32 rsp 0x15; _ ← tlv_u32 rsp 0x16;
  n ← tlv_u32 rsp 0x17; s ← tlv_u32 rsp 0x18;
  let n := match n with Some n => Z.min 16 n | None => 16 end in
  let s := match s with Some s => Z.min (8 * 1024) s | None => 8 * 1024 end in
  Some (if 1 <? n then
    (* [rx_urb_size], [ep_type] and [iface_id] of the structure stay 0 *)
    Some {| rx_urb_size := 0; ep_type := 0; iface_id := 0; MuxId := 0; ul_data_aggregation_max_datagrams := n;
            ul_data_aggregation_max_size := s; dl_minimum_padding := dl_minimum_padding q |} else None).

(** Result: 0 or -1, and the settings handed to the driver.  [junk] is what the stack holds under the message. *)
Definition qmi_proxy_init (pcie : bool) (info junk : bytes) : MP (Z * option QMAP_SETTING) :=
  m ← lift (m ← st8 junk oIFType USB_CTL_MSG_TYPE_QMI; m ← st8 m oQMICtlFlags 0x00; m ← st8 m oQMIType QMUX_TYPE_CTL;
            m ← st8 m oClientId 0x00; st8 m oCtlCtlFlags 0x00);
  '(ret, tid, m) ← sync_attempts 10 0 0xC1 m;
  if negb (ret =? 0) then mret (-1, None) else
  m ← lift (ctl_request m tid QMICTL_GET_VERSION_REQ QMUX_TYPE_ALL);
  '(ret, rsp) ← send_qmi_timeout m;
  match rsp with
  | None => mret (-1, None)
  | Some rsp =>
      bad ← lift (failed rsp oResult oError); if bad : bool then mret (-1, None) else
      _ ← lift (ld rsp (QCQMIMSG∙"CTLMsg.GetVersionRsp.NumElements"));
      let tid := u8 (tid + 1) in
      m ← lift (ctl_request m tid QMICTL_GET_CLIENT_ID_REQ QMUX_TYPE_WDS_ADMIN);
      '(ret, rsp) ← send_qmi_timeout m;
      match rsp with
      | None => mret (-1, None)
      | Some rsp =>
          bad ← lift (failed rsp oResult oError); if bad : bool then mret (-1, None) else
          WDAClientId ← lift (ld rsp (QCQMIMSG∙"CTLMsg.GetClientIdRsp.ClientId"));
          let tid := u8 (tid + 1) in
          '(q, version) ← lift (settings pcie info);
          m ← lift (format_request m tid WDAClientId version q);
          '(ret, rsp) ← send_qmi_timeout m;
          match rsp with
          | None => mret (-1, None)
          | Some rsp =>
              bad ← lift (failed rsp oQMUXResult oQMUXError); if bad : bool then mret (-1, None) else
              s ← lift (agreed q rsp);
              mret (0, s)
          end
      end
  end.

(** The attempts of [main]: [present n] says whether the device is there after the n-th failure.  Result: whether the modem is set up. *)
Fixpoint init_attempts (pcie : bool) (info junk : bytes) (present : nat -> bool) (n : nat) : MP bool :=
  '(ret, _) ← qmi_proxy_init pcie info junk;
  if ret =? 0 then mret true else
  match n with
  | O => mret false
  | S n => if present n then init_attempts pcie info junk present n else mret false
  end.
(** One turn of [main]'s loop, with the device open: set-up, then the server, whatever came of it, then the loop thread to its end.  [srv] is the descriptor of
    [create_local_server], -1 when it fails. *)
Definition serve (pcie : bool) (info junk buf : bytes) (present : nat -> bool) (cdc_wdm_fd srv : Z) (polls : list (option (list revent))) : MP bool :=
  _ ← init_attempts pcie info junk present 5;
  modify (open_server srv);;
  running ← qmi_proxy_loop cdc_wdm_fd buf polls;
  when (negb running) (modify (open_server (-1));; modify (set_reset 0));;
  mret running.
End Init.
