(* ===== verification/ProxyInitSpec.v ===== *)
(** * quectel-qmi-proxy.c: setting the modem up, proved.
    The requests against the reference encoding of a message, the TLV search against the one of the connection manager,
    and the set-up against a modem that answers after it lost some of the first requests, or never. *)
From S2P Require Import Prelude Util QmiMsg Compose Monad QmiExchange WwanCM Proxy ProxySpec ProxyInit.
#[local] Open Scope Z_scope.
#[local] Open Scope c_scope.

(** ** Reference encodings *)
(** A control message, of the type as it is on the wire. *)
Definition enc_ctl (flags tid : Z) (type area : bytes) : bytes :=
  [USB_CTL_MSG_TYPE_QMI] ++ le16 (zlen area + 11) ++ [0; QMUX_TYPE_CTL; 0] ++ [flags; tid] ++ type ++ le16 (zlen area) ++ area.
Definition sync_wire {host : Host} (tid : Z) : bytes := enc_ctl 0 tid (enc16 QMICTL_SYNC_REQ) [].
Definition version_wire (tid : Z) : bytes := enc_ctl 0 tid (le16 QMICTL_GET_VERSION_REQ) (enc_tlvs [(1, [QMUX_TYPE_ALL])]).
Definition client_wire (tid : Z) : bytes := enc_ctl 0 tid (le16 QMICTL_GET_CLIENT_ID_REQ) (enc_tlvs [(1, [QMUX_TYPE_WDS_ADMIN])]).
(** The data format the proxy asks for. *)
Definition format_tlvs (version : Z) (q : QMAP_SETTING) : list tlv :=
  [(0x10, [0]); (0x11, le32 2); (0x12, le32 version); (0x13, le32 version);
   (0x15, le32 (if 2048 <? rx_urb_size q then rx_urb_size q / 1024 else 1)); (0x16, le32 (rx_urb_size q));
   (0x17, le32 (ep_type q) ++ le32 (iface_id q)); (0x19, le32 (dl_minimum_padding q));
   (0x1B, le32 (ul_data_aggregation_max_datagrams q)); (0x1C, le32 (ul_data_aggregation_max_size q))].
Definition format_wire (tid cid version : Z) (q : QMAP_SETTING) : bytes :=
  enc_qmux QMUX_TYPE_WDS_ADMIN cid 0 tid QMIWDS_ADMIN_SET_DATA_FORMAT_REQ (enc_tlvs (format_tlvs version q)).

(** The value of the first TLV of a type. *)
Fixpoint tlv_value (ts : list tlv) (type : Z) : option bytes :=
  match ts with [] => None | x :: ts => if x.1 =? type then Some x.2 else tlv_value ts type end.

(** Bytes written at known offsets: the values become variables, the rest is evaluated. *)
Ltac eval_layout :=
  repeat match goal with
  | |- context [u8 ?x] =>
      let v := eval vm_compute in (u8 x) in
      lazymatch v with
      | Z0 => change (u8 x) with v
      | Zpos ?p => change (u8 x) with v
      | _ => generalize (u8 x); intro
      end
  end; vm_compute; reflexivity.

Section Requests.
Context {host : Host}.

(** The message under construction is [sizeof (QCQMIMSG)] bytes of the stack: as a list of cells. *)
Definition cells (m : bytes) : Prop := exists f : nat -> Z, m = map f (seq 0 84).
Lemma cells_84 m : zlen m = sizeof_QCQMIMSG -> cells m.
Proof.
  intros H. exists (fun i => nth i m 0). rewrite <- (length_seq 84 0).
  apply nth_ext with 0 (nth 0 m 0).
  - rewrite length_map, !length_seq. unfold zlen, sizeof_QCQMIMSG in H. lia.
  - intros n Hn. rewrite (map_nth (fun i => nth i m 0)), seq_nth; [done|]. unfold zlen, sizeof_QCQMIMSG in H. rewrite !length_seq. lia.
Qed.
(** With the header of a control request. *)
Definition ctl_head (m : bytes) : Prop := exists a b (f : nat -> Z), m = [1; a; b; 0; 0; 0; 0] ++ map f (seq 7 77).

Lemma ctl_head_of a b s : zlen s = 77 -> ctl_head ([1; a; b; 0; 0; 0; 0] ++ s).
Proof.
  intros H. exists a, b. destruct (cells_84 (replicate 7 0 ++ s)) as [f E].
  { rewrite zlen_app, H. done. }
  exists f. f_equal. change (seq 0 84) with (seq 0 7 ++ seq 7 77) in E. rewrite map_app in E.
  by apply app_inj_1 in E as [_ E].
Qed.

Lemma format_request_wire m tid cid version q : cells m -> is_byte cid ->
  format_request m tid cid version q = Some (format_wire tid cid version q).
Proof.
  intros [f ->] Hc. rewrite <- (u8_id cid) at 2 by done.
  unfold format_request, format_tlv, st8, st16, st32, format_wire, format_tlvs.
  generalize (if 2048 <? rx_urb_size q then rx_urb_size q / 1024 else 1). intros dgrams.
  rewrite !(enc16_cpu_to_le16 tid).
  repeat match goal with |- context [enc32 (cpu_to_le32 ?v)] => rewrite (enc32_cpu_to_le32 v) end.
  unfold enc_qmux, le32, le16. destruct host as [[]]; eval_layout.
Qed.
Lemma sync_request_wire m tid : is_byte tid -> ctl_head m ->
  sync_request m tid = Some (sync_wire tid ++ drop 12 m).
Proof.
  intros Ht (a & b & f & ->). rewrite <- (u8_id tid) at 2 by done.
  unfold sync_request, ctl_length, st8, st16. destruct host as [[]]; eval_layout.
Qed.
Lemma ctl_request_wire m tid type v : is_byte tid -> ctl_head m ->
  ctl_request m tid type v = Some (enc_ctl 0 tid (le16 type) (enc_tlvs [(1, [u8 v])]) ++ drop 16 m).
Proof.
  intros Ht (a & b & f & ->). rewrite <- (u8_id tid) at 2 by done.
  unfold ctl_request, ctl_length, st8, st16, enc_ctl. rewrite !(enc16_cpu_to_le16 type). unfold le16. destruct host as [[]]; eval_layout.
Qed.

Lemma ctl_wire_head tid type area s : zlen (enc_ctl 0 tid type area ++ s) = sizeof_QCQMIMSG -> ctl_head (enc_ctl 0 tid type area ++ s).
Proof.
  intros H. unfold enc_ctl in *. set (L := le16 (zlen area + 11)) in *.
  assert (E : exists a b, L = [a; b]) by (by eexists _, _). destruct E as (a & b & E). rewrite E in *.
  rewrite <- !app_assoc in *. apply (ctl_head_of a b). unfold sizeof_QCQMIMSG in H. zlens. lia.
Qed.
Lemma ctl_head_zlen m : ctl_head m -> zlen m = sizeof_QCQMIMSG.
Proof. by intros (a & b & f & ->). Qed.
Lemma zlen_sync_wire tid : zlen (sync_wire tid) = 12.
Proof. unfold sync_wire, enc16. by destruct host as [[]]. Qed.
(** The next message is built over the one just sent. *)
Lemma sync_head m tid : ctl_head m -> ctl_head (sync_wire tid ++ drop 12 m).
Proof.
  intros H%ctl_head_zlen. apply ctl_wire_head. fold (sync_wire tid). rewrite zlen_app, zlen_sync_wire.
  unfold zlen, sizeof_QCQMIMSG in *. rewrite length_drop. lia.
Qed.
Lemma ctl_request_head m tid type v : ctl_head m ->
  ctl_head (enc_ctl 0 tid (le16 type) (enc_tlvs [(1, [v])]) ++ drop 16 m).
Proof.
  intros H%ctl_head_zlen. apply ctl_wire_head. rewrite zlen_app. change (zlen (enc_ctl _ _ _ _)) with 16.
  unfold zlen, sizeof_QCQMIMSG in *. rewrite length_drop. lia.
Qed.

(** ** The TLV search *)
Lemma ld_enc_tlv p x s : ld (p ++ enc_tlv x ++ s) (zlen p) = Some x.1.
Proof. unfold enc_tlv. simpl. by rewrite ld_app. Qed.
Lemma find_tlv_loop_spec fuel p ts s type L Length base :
  Forall tlv_wf ts -> (length ts < fuel)%nat -> base = zlen p -> base = oTLVs + Length -> L = Length + zlen (enc_tlvs ts) ->
  find_tlv_loop fuel (p ++ enc_tlvs ts ++ s) type L Length = Some (find_type ts base type).
Proof.
  intros F. revert fuel p Length base. induction F as [|x ts Hx F IH]; intros fuel p Length base Hf -> Hb ->;
    (destruct fuel as [|fuel]; [simpl in Hf; lia|]); cbn [find_tlv_loop].
  - change (zlen (enc_tlvs [])) with 0. by rewrite (proj2 (Z.ltb_ge _ _)) by lia.
  - rewrite enc_tlvs_cons, zlen_app, enc_tlv_zlen, <- app_assoc in *.
    pose proof (zlen_nonneg x.2). pose proof (zlen_nonneg (enc_tlvs ts)).
    rewrite (proj2 (Z.ltb_lt _ _)) by lia. rewrite <- Hb.
    rewrite (ld_enc_tlv p x).
    cbn [mbind option_bind find_type]. destruct (x.1 =? type); [done|].
    rewrite GetTLV_len by done. cbn [mbind option_bind]. rewrite (app_assoc p).
    apply IH; unfold sizeof_QMI_TLV_HDR in *; rewrite ?zlen_app, ?enc_tlv_zlen; simpl in Hf; lia.
Qed.

Lemma enc_tlvs_length ts : (length ts <= length (enc_tlvs ts))%nat.
Proof.
  induction ts as [|x ts IH]; [done|]. rewrite enc_tlvs_cons, length_app. pose proof (enc_tlv_zlen x).
  unfold zlen in *. simpl length. lia.
Qed.

Lemma qmi_find_tlv_found qmitype client ctl tid ty ts type :
  Forall tlv_wf ts -> zlen (enc_tlvs ts) < 2 ^ 16 ->
  qmi_find_tlv (enc_qmux qmitype client ctl tid ty (enc_tlvs ts)) type = Some (find_type ts oTLVs type).
Proof.
  intros F Hl. unfold qmi_find_tlv, enc_qmux. set (L := zlen (enc_tlvs ts)).
  set (h := [USB_CTL_MSG_TYPE_QMI] ++ le16 (L + 12) ++ [0; qmitype; client] ++ [ctl] ++ le16 tid ++ le16 ty).
  change ([USB_CTL_MSG_TYPE_QMI] ++ _) with (h ++ le16 L ++ enc_tlvs ts).
  rewrite rd16_le16 by (done || (split; [apply zlen_nonneg | done])). cbn [mbind option_bind].
  rewrite (app_assoc h), <- (app_nil_r (enc_tlvs ts)).
  apply find_tlv_loop_spec; try done.
  rewrite !length_app. pose proof (enc_tlvs_length ts). lia.
Qed.

(** The proxy's own search for a TLV and the connection manager's agree: on every message with a well-formed area they
    find the same TLV, or none. *)
Theorem qmi_find_tlv_is_GetTLV qmitype client ctl tid ty ts type :
  Forall tlv_wf ts -> zlen (enc_tlvs ts) < 2 ^ 16 -> type <= 0x1000 ->
  qmi_find_tlv (enc_qmux qmitype client ctl tid ty (enc_tlvs ts)) type =
  GetTLV (enc_qmux qmitype client ctl tid ty (enc_tlvs ts)) oMUXType type.
Proof.
  intros F Hl Ht. rewrite GetTLV_enc_qmux by done. rewrite (proj2 (Z.ltb_ge _ _)) by done.
  apply qmi_find_tlv_found; done.
Qed.

Lemma tlv_u32_found qmitype client ctl tid ty ts type :
  Forall tlv_wf ts -> zlen (enc_tlvs ts) < 2 ^ 16 ->
  (forall v, tlv_value ts type = Some v -> exists x r, v = le32 x ++ r /\ is_u32 x) ->
  tlv_u32 (enc_qmux qmitype client ctl tid ty (enc_tlvs ts)) type =
  Some (v ← tlv_value ts type; Some (of_le (take 4 v))).
Proof.
  intros F Hl H. unfold tlv_u32. rewrite qmi_find_tlv_found by done. cbn [mbind option_bind].
  unfold enc_qmux. set (L := zlen (enc_tlvs ts)) in *.
  set (h := [USB_CTL_MSG_TYPE_QMI] ++ le16 (L + 12) ++ [0; qmitype; client] ++ [ctl] ++ le16 tid ++ le16 ty).
  change ([USB_CTL_MSG_TYPE_QMI] ++ _) with (h ++ le16 L ++ enc_tlvs ts). rewrite (app_assoc h).
  assert (Hb : oTLVs = zlen (h ++ le16 L)) by done. revert Hb. generalize oTLVs (h ++ le16 L). clear h Hl. clearbody L. clear L.
  induction F as [|x ts Hx F IH]; intros b p Hb; [done|]. cbn [tlv_value find_type] in *. rewrite enc_tlvs_cons.
  destruct (x.1 =? type).
  - destruct (H _ eq_refl) as (v & r & Hv & Hu). cbn [mbind option_bind]. unfold enc_tlv. rewrite Hv.
    replace (p ++ (x.1 :: le16 (zlen (le32 v ++ r)) ++ le32 v ++ r) ++ enc_tlvs ts)
      with ((p ++ x.1 :: le16 (zlen (le32 v ++ r))) ++ le32 v ++ (r ++ enc_tlvs ts)) by (rewrite <- !app_assoc; simpl; by rewrite <- ?app_assoc).
    rewrite rd32_le32 by (try done; rewrite zlen_app, zlen_cons, zlen_le16; lia). cbn [mbind option_bind].
    change (take 4 (le32 v ++ r)) with (le32 v). by rewrite of_le_le32.
  - rewrite (app_assoc p). apply IH; [done|]. rewrite zlen_app. lia.
Qed.
End Requests.

(** ** One request *)
Definition sent (reqs : list bytes) (rsp : option bytes) (p : Proxy) : Proxy :=
  {| server_fd := server_fd p; connections := connections p; ctl_msg := ctl_msg p; modem_reset_flag := modem_reset_flag p;
     s_pCtlReq := None; s_pCtlRsq := rsp; p_signalled := bool_decide (is_Some rsp); outs := outs p ++ map ToModem reqs |}.

Lemma sent_sent l l' r r' p : sent l' r' (sent l r p) = sent (l ++ l') r' p.
Proof. unfold sent. cbn. by rewrite map_app, app_assoc. Qed.

(** The loop thread takes [m] for the answer to [req]. *)
Definition answers {host : Host} (req m : bytes) : Prop :=
  exists t, ld m oQMIType = Some t /\
    if t =? QMUX_TYPE_CTL
    then exists i, ld req oCtlTransactionId = Some i /\ ld m oCtlTransactionId = Some i
    else exists i, ld16 req oTransactionId = Some i /\ ld16 m oTransactionId = Some i.

Section Exchange.
Context {host : Host}.
#[local] Existing Instance any_heap.

Lemma ld_more m s i v : ld m i = Some v -> ld (m ++ s) i = Some v.
Proof. unfold ld. destruct (0 <=? i); [|done]. apply lookup_app_l_Some. Qed.
Lemma ld16_more m s i v : ld16 m i = Some v -> ld16 (m ++ s) i = Some v.
Proof. unfold ld16. destruct (lds m i 2) as [b|] eqn:E; [|done]. by rewrite (lds_mono _ _ _ _ _ E). Qed.

Lemma recv_init_answers req s m junk p : server_fd p <= 0 -> s_pCtlReq p = Some (req ++ s) -> answers req m ->
  recv_qmi (m ++ junk) (zlen m) p = Some (tt, set_response m p).
Proof.
  intros Hs Hr (t & Ht & Ha). unfold recv_qmi. rewrite bind_gets, (proj2 (Z.leb_le _ _)) by done.
  unfold recv_init. rewrite bind_gets, Hr, (ld_more _ _ _ _ Ht), bind_lift.
  assert (E : lds (m ++ junk) 0 (zlen m) = Some m) by by apply lds_app_0.
  destruct (t =? QMUX_TYPE_CTL); destruct Ha as (i & H1 & H2).
  - rewrite (ld_more _ s _ _ H1), (ld_more _ junk _ _ H2). rewrite (bind_step _ _ p true p) by (rewrite !bind_lift, Z.eqb_refl; done).
    cbn [when malloc_ok any_heap]. by rewrite E, bind_lift.
  - rewrite (ld16_more _ s _ _ H1), (ld16_more _ junk _ _ H2). rewrite (bind_step _ _ p true p) by (rewrite !bind_lift, Z.eqb_refl; done).
    cbn [when malloc_ok any_heap]. by rewrite E, bind_lift.
Qed.

Context {modem : Arrivals}.
Lemma send_qmi_timeout_lost req s p : framed req -> arrivals (outs p ++ [ToModem req]) = [] ->
  send_qmi_timeout (req ++ s) p = Some ((ETIMEDOUT, None), sent [req] None p).
Proof.
  intros Hf Ha. unfold send_qmi_timeout. rewrite bind_modify. erewrite bind_step by by apply (send_to_modem s req).
  rewrite bind_gets. cbn [outs emit begin_request]. rewrite Ha. cbn [wait_response]. rewrite bind_ret, !bind_gets, bind_modify. done.
Qed.
Lemma send_qmi_timeout_answered req s p m junk : framed req -> server_fd p <= 0 -> answers req m ->
  arrivals (outs p ++ [ToModem req]) = [(m ++ junk, zlen m)] ->
  send_qmi_timeout (req ++ s) p = Some ((0, Some m), sent [req] (Some m) p).
Proof.
  intros Hf Hs Hm Ha. unfold send_qmi_timeout. rewrite bind_modify. erewrite bind_step by by apply (send_to_modem s req).
  rewrite bind_gets. cbn [outs emit begin_request]. rewrite Ha. cbn [wait_response].
  erewrite bind_step.
  2:{ rewrite bind_gets. cbn [p_signalled emit begin_request]. erewrite bind_step by (by apply (recv_init_answers req s)). done. }
  rewrite !bind_gets, bind_modify. done.
Qed.

Lemma send_qmi_timeout_answered' req p m junk : framed req -> server_fd p <= 0 -> answers req m ->
  arrivals (outs p ++ [ToModem req]) = [(m ++ junk, zlen m)] ->
  send_qmi_timeout req p = Some ((0, Some m), sent [req] (Some m) p).
Proof. intros. rewrite <- (app_nil_r req) at 1. by eapply send_qmi_timeout_answered. Qed.

Lemma framed_ctl flags tid type area : zlen type = 2 -> zlen area + 11 < 2 ^ 16 -> framed (enc_ctl flags tid type area).
Proof.
  intros Ht Ha. unfold framed, enc_ctl. pose proof (zlen_nonneg area).
  rewrite (rd16_le16 [USB_CTL_MSG_TYPE_QMI]) by (done || (unfold is_u16; lia)). f_equal. zlens.
  change (zlen (le16 _)) with 2. lia.
Qed.
Lemma framed_qmux t c ctl tid ty area : zlen area + 12 < 2 ^ 16 -> framed (enc_qmux t c ctl tid ty area).
Proof.
  intros Ha. unfold framed, enc_qmux. pose proof (zlen_nonneg area).
  rewrite (rd16_le16 [USB_CTL_MSG_TYPE_QMI]) by (done || (unfold is_u16; lia)). f_equal. zlens.
  change (zlen (le16 _)) with 2. lia.
Qed.

(** ** The attempts at SYNC *)
Definition syncs (tid : Z) (n : nat) : list bytes := map (fun i => sync_wire (tid + Z.of_nat i)) (seq 0 n).
Lemma syncs_S tid n : syncs tid (S n) = sync_wire tid :: syncs (tid + 1) n.
Proof.
  unfold syncs. rewrite <- cons_seq, <- seq_shift, map_cons, map_map, Z.add_0_r. f_equal.
  apply map_ext. intros i. f_equal. lia.
Qed.
Lemma syncs_length tid n : length (syncs tid n) = n.
Proof. unfold syncs. by rewrite length_map, length_seq. Qed.
Lemma syncs_snoc tid n : syncs tid (S n) = syncs tid n ++ [sync_wire (tid + Z.of_nat n)].
Proof. unfold syncs. by rewrite seq_S, map_app. Qed.
Lemma framed_sync tid : framed (sync_wire tid).
Proof. apply framed_ctl; [by unfold enc16; destruct host as [[]] | done]. Qed.

Lemma sync_lost n ret tid m p : ctl_head m -> is_byte tid -> is_byte (tid + 1) -> arrivals (outs p ++ map ToModem (syncs tid 1)) = [] ->
  sync_attempts (S n) ret tid m p = sync_attempts n ETIMEDOUT (tid + 1) (sync_wire tid ++ drop 12 m) (sent [sync_wire tid] None p).
Proof.
  intros Hm Ht Ht1 Hl. cbn [sync_attempts]. rewrite sync_request_wire, bind_lift by done. rewrite syncs_S in Hl.
  erewrite bind_step by (apply send_qmi_timeout_lost; [apply framed_sync | exact Hl]).
  cbv beta iota. change (ETIMEDOUT =? 0) with false. cbv iota. by rewrite (u8_id (tid + 1)).
Qed.
Lemma syncs_lost_next tid p i : arrivals (outs p ++ map ToModem (syncs tid (S (S i)))) = [] ->
  arrivals (outs (sent [sync_wire tid] None p) ++ map ToModem (syncs (tid + 1) (S i))) = [].
Proof. rewrite (syncs_S tid (S i)). cbn [outs sent]. by rewrite <- app_assoc, <- map_app. Qed.

(** None of [n] requests is answered. *)
Lemma sync_attempts_lost n ret tid m p :
  ctl_head m -> 0 <= tid -> tid + Z.of_nat n < 256 -> server_fd p <= 0 -> (0 < n)%nat ->
  (forall i, (i < n)%nat -> arrivals (outs p ++ map ToModem (syncs tid (S i))) = []) ->
  exists m', sync_attempts n ret tid m p = Some ((ETIMEDOUT, tid + Z.of_nat n, m'), sent (syncs tid n) None p).
Proof.
  revert ret tid m p. induction n as [|n IH]; intros ret tid m p Hm Ht Hn Hs H0 Hl; [lia|].
  rewrite sync_lost by (try done; try (unfold is_byte; lia); apply Hl; lia). rewrite syncs_S.
  destruct (decide (n = 0)%nat) as [->|Hn0].
  - exists (sync_wire tid ++ drop 12 m). done.
  - destruct (IH ETIMEDOUT (tid + 1) (sync_wire tid ++ drop 12 m) (sent [sync_wire tid] None p)) as [m' E]; try done; try lia.
    + by apply sync_head.
    + intros i Hi. apply syncs_lost_next, Hl. lia.
    + exists m'. rewrite E, sent_sent. by replace (tid + 1 + Z.of_nat n) with (tid + Z.of_nat (S n)) by lia.
Qed.
(** The first [d] are lost, the next one is answered. *)
Lemma sync_attempts_answered d n ret tid m p a junk :
  ctl_head m -> 0 <= tid -> tid + Z.of_nat n < 256 -> server_fd p <= 0 -> (d < n)%nat ->
  (forall i, (i < d)%nat -> arrivals (outs p ++ map ToModem (syncs tid (S i))) = []) ->
  arrivals (outs p ++ map ToModem (syncs tid (S d))) = [(a ++ junk, zlen a)] -> answers (sync_wire (tid + Z.of_nat d)) a ->
  exists m', ctl_head m' /\
    sync_attempts n ret tid m p = Some ((0, tid + Z.of_nat d + 1, m'), sent (syncs tid (S d)) (Some a) p).
Proof.
  revert n ret tid m p. induction d as [|d IH]; intros n ret tid m p Hm Ht Hn Hs Hd Hl Ha Hans; (destruct n as [|n]; [lia|]).
  - exists (sync_wire tid ++ drop 12 m). split; [by apply sync_head|]. cbn [sync_attempts].
    rewrite sync_request_wire, bind_lift by (done || unfold is_byte; lia). rewrite syncs_S in *. rewrite Z.add_0_r in *.
    erewrite bind_step by (apply (send_qmi_timeout_answered _ _ _ a junk); [apply framed_sync | done | done | exact Ha]).
    cbv beta iota. change (0 =? 0) with true. cbv iota. by rewrite (u8_id (tid + 1)) by (unfold is_byte; lia).
  - rewrite sync_lost by (try done; try (unfold is_byte; lia); apply Hl; lia). rewrite (syncs_S tid).
    destruct (IH n ETIMEDOUT (tid + 1) (sync_wire tid ++ drop 12 m) (sent [sync_wire tid] None p)) as (m' & Hm' & E); try done; try lia.
    + by apply sync_head.
    + intros i Hi. apply syncs_lost_next, Hl. lia.
    + rewrite (syncs_S tid (S d)) in Ha. cbn [outs sent]. rewrite <- app_assoc, <- map_app. exact Ha.
    + by replace (tid + 1 + Z.of_nat d) with (tid + Z.of_nat (S d)) by lia.
    + exists m'. split; [done|]. rewrite E, sent_sent. by replace (tid + 1 + Z.of_nat d) with (tid + Z.of_nat (S d)) by lia.
Qed.

(** ** The answers *)
Definition accepted : tlv := (2, [0; 0; 0; 0]).
Lemma failed_ctl flags tid ty ts : failed (enc_ctl flags tid (le16 ty) (enc_tlvs (accepted :: ts))) oResult oError = Some false.
Proof.
  set (L := zlen (enc_tlvs (accepted :: ts))).
  set (h := [USB_CTL_MSG_TYPE_QMI] ++ le16 (L + 11) ++ [0; QMUX_TYPE_CTL; 0] ++ [flags; tid] ++ le16 ty ++ le16 L ++ [2] ++ le16 4).
  change (enc_ctl _ _ _ _) with (h ++ [0; 0] ++ [0; 0] ++ enc_tlvs ts). unfold failed, ld16.
  rewrite (lds_app h [0; 0] _ oResult 2) by reflexivity.
  cbn [mbind option_bind]. rewrite (app_assoc h), (lds_app (h ++ [0; 0]) [0; 0]) by reflexivity. by destruct host as [[]].
Qed.
Lemma failed_qmux t c ctl tid ty ts : failed (enc_qmux t c ctl tid ty (enc_tlvs (accepted :: ts))) oQMUXResult oQMUXError = Some false.
Proof.
  set (L := zlen (enc_tlvs (accepted :: ts))).
  set (h := [USB_CTL_MSG_TYPE_QMI] ++ le16 (L + 12) ++ [0; t; c] ++ [ctl] ++ le16 tid ++ le16 ty ++ le16 L ++ [2] ++ le16 4).
  change (enc_qmux _ _ _ _ _ _) with (h ++ [0; 0] ++ [0; 0] ++ enc_tlvs ts). unfold failed, ld16.
  rewrite (lds_app h [0; 0] _ oQMUXResult 2) by reflexivity.
  cbn [mbind option_bind]. rewrite (app_assoc h), (lds_app (h ++ [0; 0]) [0; 0]) by reflexivity. by destruct host as [[]].
Qed.
Lemma answers_ctl tid ty f a ty' f' a' : answers (enc_ctl f tid ty a) (enc_ctl f' tid ty' a').
Proof. exists QMUX_TYPE_CTL. split; [reflexivity|]. change (QMUX_TYPE_CTL =? QMUX_TYPE_CTL) with true. exists tid. split; reflexivity. Qed.
Lemma ld16_tid t c f tid ty a : ld16 (enc_qmux t c f tid ty a) oTransactionId = Some (dec_native (le16 tid)).
Proof.
  unfold enc_qmux, ld16. set (L := zlen a).
  change ([USB_CTL_MSG_TYPE_QMI] ++ _) with (([USB_CTL_MSG_TYPE_QMI] ++ le16 (L + 12) ++ [0; t; c] ++ [f]) ++ le16 tid ++ (le16 ty ++ le16 L ++ a)).
  by rewrite lds_app by reflexivity.
Qed.
Lemma answers_qmux t c f tid ty a t' c' f' ty' a' : t' <> QMUX_TYPE_CTL ->
  answers (enc_qmux t c f tid ty a) (enc_qmux t' c' f' tid ty' a').
Proof.
  intros Ht. exists t'. split; [reflexivity|]. rewrite (proj2 (Z.eqb_neq _ _)) by done.
  exists (dec_native (le16 tid)). by rewrite !ld16_tid.
Qed.

(** What the two agree on, from the TLVs of the modem's answer. *)
Definition agreement (ts : list tlv) : option QMAP_SETTING :=
  let v t := v ← tlv_value ts t; Some (of_le (take 4 v)) in
  let n := default 16 (Z.min 16 <$> v 0x17) in
  if 1 <? n then
    Some {| rx_urb_size := 0; ep_type := 0; iface_id := 0; MuxId := 0; ul_data_aggregation_max_datagrams := n;
            ul_data_aggregation_max_size := default 8192 (Z.min 8192 <$> v 0x18); dl_minimum_padding := 0 |}
  else None.
(** The values of the data format's TLVs are 32-bit words. *)
Definition word_values (ts : list tlv) : Prop :=
  forall t v, 0x11 <= t <= 0x18 -> tlv_value ts t = Some v -> exists x r, v = le32 x ++ r /\ is_u32 x.

Lemma agreed_correct q t c ctl tid ty ts :
  Forall tlv_wf ts -> zlen (enc_tlvs (accepted :: ts)) < 2 ^ 16 -> word_values ts -> dl_minimum_padding q = 0 ->
  agreed q (enc_qmux t c ctl tid ty (enc_tlvs (accepted :: ts))) = Some (agreement ts).
Proof.
  intros F Hl Hw Hq.
  assert (E : forall type, 0x11 <= type <= 0x18 ->
    tlv_u32 (enc_qmux t c ctl tid ty (enc_tlvs (accepted :: ts))) type = Some (v ← tlv_value ts type; Some (of_le (take 4 v)))).
  { intros type Ht. assert (Hv : tlv_value (accepted :: ts) type = tlv_value ts type).
    { cbn [tlv_value accepted fst]. by rewrite (proj2 (Z.eqb_neq _ _)) by lia. }
    rewrite tlv_u32_found, Hv; [done|constructor; done|done|]. intros v. rewrite Hv. by apply Hw. }
  unfold agreed. rewrite !E by lia. cbn [mbind option_bind]. rewrite Hq. unfold agreement.
  by destruct (tlv_value ts 23), (tlv_value ts 24).
Qed.
End Exchange.

(** A modem that hears nothing for the first [k] messages, and then answers every message once. *)
Definition hears_after (k : nat) (junk : bytes) (says : bytes -> bytes) : Arrivals :=
  {| arrivals o := if (length o <=? k)%nat then [] else
       match last o with Some (ToModem m) => [(says m ++ junk, zlen (says m))] | _ => [] end |}.

Lemma hears_last k junk says o m : (k <= length o)%nat ->
  @arrivals (hears_after k junk says) (o ++ [ToModem m]) = [(says m ++ junk, zlen (says m))].
Proof. intros H. cbn. rewrite length_app. cbn [length]. destruct (Nat.leb_spec (length o + 1) k); [lia|]. by rewrite last_snoc. Qed.

Lemma hears_nothing k junk says o : (length o <= k)%nat -> @arrivals (hears_after k junk says) o = [].
Proof. intros H. cbn. by rewrite (proj2 (Nat.leb_le _ _)). Qed.

Section Steps.
Context {host : Host} {modem : Arrivals}.
#[local] Existing Instance any_heap.

Lemma init_head stack : zlen stack = sizeof_QCQMIMSG -> exists m, ctl_head m /\
  (m ← st8 stack oIFType USB_CTL_MSG_TYPE_QMI; m ← st8 m oQMICtlFlags 0x00; m ← st8 m oQMIType QMUX_TYPE_CTL;
   m ← st8 m oClientId 0x00; st8 m oCtlCtlFlags 0x00) = Some m.
Proof.
  intros [f ->]%cells_84. exists ([1; f 1%nat; f 2%nat; 0; 0; 0; 0] ++ map f (seq 7 77)). split; [by exists (f 1%nat), (f 2%nat), f|].
  unfold st8. vm_compute. reflexivity.
Qed.

Lemma ld_answer f tid ty t a b c more i : i = 22 + zlen a ->
  ld (enc_ctl f tid (le16 ty) (enc_tlvs (accepted :: (t, a ++ b :: c) :: more))) i = Some b.
Proof.
  intros ->. set (L := zlen (enc_tlvs (accepted :: (t, a ++ b :: c) :: more))). set (l := zlen (a ++ b :: c)).
  set (h := [USB_CTL_MSG_TYPE_QMI] ++ le16 (L + 11) ++ [0; QMUX_TYPE_CTL; 0] ++ [f; tid] ++ le16 ty ++ le16 L ++ enc_tlv accepted ++ [t] ++ le16 l).
  change (enc_ctl _ _ _ _) with (h ++ (a ++ b :: c) ++ enc_tlvs more). rewrite <- (app_assoc a), (app_assoc h).
  apply ld_app. by rewrite zlen_app.
Qed.

(** A control request with one byte as its parameter, answered. *)
Lemma ctl_request_step {B} m tid type v p a junk (k : bytes -> Z * option bytes -> MP B) :
  is_byte tid -> u8 v = v -> ctl_head m -> server_fd p <= 0 ->
  let req := enc_ctl 0 tid (le16 type) (enc_tlvs [(1, [v])]) in
  answers req a -> arrivals (outs p ++ [ToModem req]) = [(a ++ junk, zlen a)] ->
  (m ← lift (ctl_request m tid type v); send_qmi_timeout m ≫= k m) p =
  k (req ++ drop 16 m) (0, Some a) (sent [req] (Some a) p).
Proof.
  intros Ht Hv Hm Hs req Ha Har. rewrite ctl_request_wire, bind_lift by done. rewrite Hv.
  erewrite bind_step; [reflexivity|]. apply (send_qmi_timeout_answered _ _ _ _ junk); try done. by apply framed_ctl.
Qed.
Lemma settings_padding pcie info q version : settings pcie info = Some (q, version) -> dl_minimum_padding q = 0.
Proof.
  unfold settings. destruct (ld32 info 0) as [size|]; [|done]. cbn [mbind option_bind]. destruct (size =? 0); [by intros [= <- _]|].
  by repeat match goal with |- (?o ≫= _) = _ -> _ => destruct o; [|done]; cbn [mbind option_bind] | _ => intros [= <- _] end.
Qed.


(** The data format, agreed on. *)
Lemma format_step m tid cid version q p t c ctl ty ts junk :
  ctl_head m -> is_byte cid -> server_fd p <= 0 -> dl_minimum_padding q = 0 -> t <> QMUX_TYPE_CTL ->
  Forall tlv_wf ts -> zlen (enc_tlvs (accepted :: ts)) < 2 ^ 16 -> word_values ts ->
  let req := format_wire tid cid version q in
  let a := enc_qmux t c ctl tid ty (enc_tlvs (accepted :: ts)) in
  arrivals (outs p ++ [ToModem req]) = [(a ++ junk, zlen a)] ->
  (m ← lift (format_request m tid cid version q); '(ret, rsp) ← send_qmi_timeout m;
   match rsp with
   | None => mret (-1, None)
   | Some rsp =>
       bad ← lift (failed rsp oQMUXResult oQMUXError); if bad : bool then mret (-1, None) else
       s ← lift (agreed q rsp); mret (0, s)
   end) p = Some ((0, agreement ts), sent [req] (Some a) p).
Proof.
  intros Hm Hc Hs Hq Ht F Hl Hw req a Ha. rewrite format_request_wire by (done || by apply cells_84, ctl_head_zlen).
  rewrite bind_lift. erewrite bind_step.
  2: { apply (send_qmi_timeout_answered' _ _ a junk); [by apply framed_qmux|done| |exact Ha]. by apply answers_qmux. }
  cbv beta iota. unfold a. rewrite failed_qmux, bind_lift. cbv iota.
  by rewrite (agreed_correct _ _ _ _ _ _ _ F Hl Hw Hq), bind_lift.
Qed.
End Steps.

(** C21: the modem may miss up to nine of the first messages: the set-up then sends its requests, every one as the reference
    encodes it, with consecutive transaction identifiers, and succeeds with the aggregation both sides can do. *)
Theorem qmi_proxy_init_sets_up {host : Host} k junk says pcie info stack p q version cid t1 t2 t3 t4 vs more1 more2 ts cid' :
  let modem := hears_after k junk says in let T := 0xC1 + Z.of_nat k in
  (k < 10)%nat -> zlen stack = sizeof_QCQMIMSG -> server_fd p <= 0 -> outs p = [] ->
  settings pcie info = Some (q, version) -> is_byte cid ->
  answers (sync_wire T) (says (sync_wire T)) ->
  says (version_wire (T + 1)) = enc_ctl 1 (T + 1) (le16 t1) (enc_tlvs (accepted :: (1, vs) :: more1)) ->
  vs <> [] ->
  says (client_wire (T + 2)) = enc_ctl 1 (T + 2) (le16 t2) (enc_tlvs (accepted :: (1, [t3; cid]) :: more2)) ->
  says (format_wire (T + 3) cid version q) =
    enc_qmux QMUX_TYPE_WDS_ADMIN cid' 2 (T + 3) t4 (enc_tlvs (accepted :: ts)) ->
  Forall tlv_wf ts -> zlen (enc_tlvs (accepted :: ts)) < 2 ^ 16 -> word_values ts ->
  exists p', qmi_proxy_init (heap := any_heap) pcie info stack p = Some ((0, agreement ts), p') /\
    outs p' = map ToModem (syncs 0xC1 (S k) ++ [version_wire (T + 1); client_wire (T + 2); format_wire (T + 3) cid version q]) /\
    server_fd p' = server_fd p /\ connections p' = connections p /\ ctl_msg p' = ctl_msg p.
Proof.
  intros modem T Hk Hz Hs Ho Hset Hc Hsync Hver Hvs Hcli Hfmt F Hl Hw.
  destruct (init_head stack Hz) as (m0 & Hm0 & E0). unfold qmi_proxy_init. rewrite E0, bind_lift. clear E0.
  destruct (sync_attempts_answered k 10 0 0xC1 m0 p (says (sync_wire T)) junk) as (m1 & Hm1 & E); try done; try lia.
  1: { intros i Hi. rewrite Ho. apply hears_nothing. rewrite length_app, length_map, syncs_length. cbn [length]. lia. }
  1: { rewrite Ho, syncs_snoc, map_app. apply hears_last. rewrite length_map, syncs_length. lia. }
  erewrite bind_step by exact E. cbv beta iota. change (negb (0 =? 0)) with false. cbv iota. clear E. fold T.
  set (p1 := sent _ _ p). assert (Hp1 : (k <= length (outs p1))%nat).
  { unfold p1. cbn [outs sent]. rewrite length_app, length_map, syncs_length. lia. }
  assert (HT : is_byte (T + 1)) by (unfold T, is_byte; lia).
  rewrite (ctl_request_step m1 (T + 1) _ _ _ (says (version_wire (T + 1))) junk); try done.
  2: { rewrite Hver. apply answers_ctl. }
  2: { by apply hears_last. }
  cbv beta iota. fold (version_wire (T + 1)). rewrite Hver, failed_ctl, bind_lift. cbv iota.
  destruct vs as [|v0 vs]; [done|]. rewrite (ld_answer _ _ _ _ [] v0 vs), bind_lift by done.
  cbv zeta. assert (HT2 : is_byte (T + 2)) by (unfold T, is_byte; lia). rewrite <- Z.add_assoc, (u8_id (T + (1 + 1))) by done.
  change (1 + 1) with 2.
  rewrite (ctl_request_step _ (T + 2) _ _ _ (says (client_wire (T + 2))) junk); try done.
  2: { by apply ctl_request_head. }
  2: { rewrite Hcli. apply answers_ctl. }
  2: { apply hears_last. cbn [outs sent]. rewrite length_app. lia. }
  cbv beta iota. fold (client_wire (T + 2)). rewrite Hcli, failed_ctl, bind_lift. cbv iota.
  rewrite (ld_answer _ _ _ _ [t3] cid []), bind_lift by done. cbv zeta. rewrite Hset, bind_lift. cbv beta iota.
  assert (HT3 : is_byte (T + 3)) by (unfold T, is_byte; lia). rewrite <- Z.add_assoc, (u8_id (T + (2 + 1))) by done.
  change (2 + 1) with 3. rewrite (format_step _ _ _ _ _ _ QMUX_TYPE_WDS_ADMIN cid' 2 t4 ts junk); try done.
  2: { by apply ctl_request_head, ctl_request_head. }
  2: { by eapply settings_padding. }
  2: { rewrite <- Hfmt. apply hears_last. cbn [outs sent]. rewrite !length_app. lia. }
  eexists. split; [reflexivity|]. unfold p1. rewrite !sent_sent. cbn [outs sent server_fd connections ctl_msg]. rewrite Ho.
  split_and!; reflexivity.
Qed.

(** ** A modem that takes no notice *)
(** Nothing comes back for a SYNC request. *)
Definition silent {host : Host} (modem : Arrivals) : Prop := forall o tid, arrivals (o ++ [ToModem (sync_wire tid)]) = [].

Section Silent.
Context {host : Host} {modem : Arrivals} (Hsilent : silent modem).
#[local] Existing Instance any_heap.

Lemma init_silent pcie info stack p : zlen stack = sizeof_QCQMIMSG -> server_fd p <= 0 ->
  qmi_proxy_init pcie info stack p = Some ((-1, None), sent (syncs 0xC1 10) None p).
Proof.
  intros Hz Hs. destruct (init_head stack Hz) as (m0 & Hm0 & E0). unfold qmi_proxy_init. rewrite E0, bind_lift.
  destruct (sync_attempts_lost 10 0 0xC1 m0 p) as [m' E]; try done; try lia.
  - intros i _. rewrite syncs_snoc, map_app, app_assoc. apply Hsilent.
  - erewrite bind_step by exact E. done.
Qed.
Lemma init_attempts_silent pcie info stack n p : zlen stack = sizeof_QCQMIMSG -> server_fd p <= 0 ->
  init_attempts pcie info stack (fun _ => true) n p =
  Some (false, sent (concat (replicate (S n) (syncs 0xC1 10))) None p).
Proof.
  intros Hz. revert p. induction n as [|n IH]; intros p Hs; cbn [init_attempts];
    (erewrite bind_step by by apply init_silent); cbv beta iota; change (-1 =? 0) with false; cbv iota.
  - done.
  - rewrite IH, sent_sent by done. done.
Qed.
End Silent.

(** The control message types of the protocol up to SYNC. *)
Definition ctl_types : list Z := seqZ 0x20 8.
(** A modem that answers no control message of another type. *)
Definition knows_its_types (modem : Arrivals) : Prop :=
  forall o m, ld m oQMIType = Some QMUX_TYPE_CTL -> of_le (take 2 (drop 8 m)) ∉ ctl_types -> arrivals (o ++ [ToModem m]) = [].

(** On a big-endian host the SYNC request carries the type 0x2700: a modem that answers the types of the protocol only
    lets all sixty requests of the set-up expire; the server is opened all the same. *)
Theorem big_endian_set_up_expires modem pcie info stack buf p cdc_wdm_fd srv :
  knows_its_types modem -> zlen stack = sizeof_QCQMIMSG -> server_fd p <= 0 ->
  exists p', serve (host := big_host) (heap := any_heap) pcie info stack buf (fun _ => true) cdc_wdm_fd srv [] p = Some (true, p') /\
    server_fd p' = srv /\ outs p' = outs p ++ map ToModem (concat (replicate 6 (syncs (host := big_host) 0xC1 10))).
Proof.
  intros Hm Hz Hs. unfold serve.
  erewrite bind_step.
  2: { apply init_attempts_silent; try done. intros o tid. apply Hm; [done|]. apply (bool_decide_unpack _). vm_compute. done. }
  rewrite bind_modify. cbn [qmi_proxy_loop]. rewrite bind_ret. cbv beta iota. eexists. split; [reflexivity|]. split; reflexivity.
Qed.

(** ** Concrete set-ups *)
Definition sample_ts : list tlv := [(0x17, le32 32); (0x18, le32 4096)].
Definition sample_settings : QMAP_SETTING :=
  {| rx_urb_size := 16384; ep_type := 2; iface_id := 4; MuxId := 0; ul_data_aggregation_max_datagrams := 16;
     ul_data_aggregation_max_size := 8192; dl_minimum_padding := 0 |}.
(** A modem that missed two messages. *)
Definition sample_says (m : bytes) : bytes :=
  if bool_decide (m = version_wire 0xC4) then enc_ctl 1 0xC4 (le16 0x21) (enc_tlvs [accepted; (1, [1; 0; 1; 0; 5; 0])])
  else if bool_decide (m = client_wire 0xC5) then enc_ctl 1 0xC5 (le16 0x22) (enc_tlvs [accepted; (1, [0x1A; 3])])
  else if bool_decide (m = format_wire 0xC6 3 5 sample_settings) then
    enc_qmux QMUX_TYPE_WDS_ADMIN 3 2 0xC6 0x20 (enc_tlvs (accepted :: sample_ts))
  else enc_ctl 1 0xC3 (le16 0x27) (enc_tlvs [accepted]).
Definition fresh_proxy : Proxy := proxy_init (-1).

Lemma sample_words : word_values sample_ts.
Proof.
  intros t v Ht. unfold sample_ts. cbn [tlv_value fst snd].
  destruct (0x17 =? t); [intros [= <-]; exists 32, []; split; [reflexivity | done]|].
  destruct (0x18 =? t); [intros [= <-]; exists 4096, []; split; [reflexivity | done] | done].
Qed.

Theorem qmi_proxy_init_sets_up_witness :
  agreement sample_ts = Some {| rx_urb_size := 0; ep_type := 0; iface_id := 0; MuxId := 0; ul_data_aggregation_max_datagrams := 16;
    ul_data_aggregation_max_size := 4096; dl_minimum_padding := 0 |} /\
  exists p', qmi_proxy_init (host := little_host) (heap := any_heap) (modem := hears_after 2 [] sample_says) false (replicate 24 0) (replicate 84 7) fresh_proxy
    = Some ((0, agreement sample_ts), p') /\ length (outs p') = 6%nat.
Proof.
  split; [reflexivity|].
  destruct (@qmi_proxy_init_sets_up little_host 2 [] sample_says false (replicate 24 0) (replicate 84 7) fresh_proxy sample_settings 5 3
    0x21 0x22 0x1A 0x20 [1; 0; 1; 0; 5; 0] [] [] sample_ts 3) as (p' & E & Ho & _).
  1-6: (reflexivity || lia || done).
  1: by apply answers_ctl.
  1-4: (reflexivity || done).
  1: { constructor; [done|]. by constructor. }
  1: reflexivity.
  1: exact sample_words.
  exists p'. split; [exact E|]. by rewrite Ho.
Defined.

Definition strict_modem : Arrivals :=
  {| arrivals o := match last o with
     | Some (ToModem m) => if bool_decide (of_le (take 2 (drop 8 m)) ∈ ctl_types) then [(m, zlen m)] else []
     | _ => []
     end |}.
Theorem big_endian_set_up_expires_witness :
  exists p', serve (host := big_host) (heap := any_heap) (modem := strict_modem) false [] (replicate 84 7) [] (fun _ => true) 5 6 [] fresh_proxy = Some (true, p') /\
    server_fd p' = 6 /\ length (outs p') = 60%nat.
Proof.
  destruct (big_endian_set_up_expires strict_modem false [] (replicate 84 7) [] fresh_proxy 5 6) as (p' & E & Hs & Ho).
  - intros o m _ Hm. cbn. rewrite last_snoc. by rewrite bool_decide_eq_false_2.
  - done.
  - done.
  - exists p'. split; [exact E|]. split; [exact Hs|]. by rewrite Ho.
Defined.
Theorem qmi_find_tlv_is_GetTLV_witness :
  qmi_find_tlv (enc_qmux 0x1A 3 2 9 0x20 (enc_tlvs sample_ts)) 0x18 = GetTLV (enc_qmux 0x1A 3 2 9 0x20 (enc_tlvs sample_ts)) oMUXType 0x18.
Proof. apply (@qmi_find_tlv_is_GetTLV little_host); [by repeat constructor|reflexivity|done]. Defined.
