(* ===== verification/Gobi.v ===== *)
(** * GobiNetCM.c: the GobiNet device.
    Every service has a descriptor of its own, and the driver speaks bare QMUX messages on it: the thread puts the header
    of the QMI message in front, with the service the descriptor stands for and its low byte as the client. *)
From S2P Require Import Prelude Util QmiMsg Compose Monad QmiExchange WwanCM.
#[local] Open Scope Z_scope.
#[local] Open Scope c_scope.

(** What opening the device for one service comes to: the result of [open], and whether the driver gives a client. *)
Record Opening := { opened_fd : Z; ioctl_ok : bool }.
(** What the thread does to the others (as the thread of WwanCM.v), and the descriptors it closes. *)
Inductive gobi_effect := Did (e : effect) | Closed (fd : Z).

(** [qmiclientId], [wait_for_request_quit] and the static buffer. *)
Record Gobi := { g_clients : list Z; g_wait : bool; g_buf : bytes; g_done : list gobi_effect }.
#[export] Instance Eta_Gobi : Eta Gobi := fun s =>
  {| g_clients := g_clients s; g_wait := g_wait s; g_buf := g_buf s; g_done := g_done s |}.
#[export] Instance Set_g_clients : Setter g_clients := ltac:(derive_setter).
#[export] Instance Set_g_wait : Setter g_wait := ltac:(derive_setter).
#[export] Instance Set_g_buf : Setter g_buf := ltac:(derive_setter).
#[export] Instance Set_g_done : Setter g_done := ltac:(derive_setter).
Abbreviation MG := (M Gobi).
Definition act (e : gobi_effect) : MG unit := modify (fun s => s <| g_done := g_done s ++ [e] |>).

(** What [poll] reports for a descriptor: for the channel from the main thread what a read of an event gives (a short read
    gives none), for a service what a read gives (nothing: it failed). *)
Inductive gobi_event := GIdle | GHup | GTrigger (e : option Z) | GData (data : bytes).
Inductive gobi_poll := GTimeout | GFail | GReady (evs : list gobi_event).
Inductive gobi_verdict := GNext | GBreak | GQuit.

Section Gobi.
Context {host : Host}.

(** [write_ret] is what [write] returns.  Result: the return value, and what was written where. *)
Definition GobiNetSendQMI (clients : list Z) (write_ret : Z) (pRequest : bytes) : option (Z * option (Z * bytes)) :=
  t ← ld pRequest oQMIType;
  fd ← clients !! Z.to_nat t;
  if fd <=? 0 then Some (- ENODEV, None) else
  L ← rd16 pRequest oQMILength;
  let nwrites := L + 1 - sizeof_QCQMI_HDR in
  out ← lds pRequest oMUXMsg nwrites;
  Some (if write_ret =? nwrites then 0 else write_ret, Some (fd, out)).

Definition GobiNetGetClientID (o : Opening) : MG Z :=
  if opened_fd o =? -1 then mret (-1) else
  if ioctl_ok o then mret (opened_fd o) else act (Closed (opened_fd o));; mret 0.

Definition gobi_set (T : nat) (id : Z) : MG unit := modify (fun s => s <| g_clients := <[T := id]> (g_clients s) |>).

(** From index [i] on, [n] left. *)
Fixpoint gobi_deinit_loop (n i : nat) : MG unit :=
  match n with
  | O => mret tt
  | S n =>
      id ← gets (fun s => g_clients s !!! i);
      when (negb (id =? 0)) (act (Closed id);; gobi_set i 0);;
      gobi_deinit_loop n (S i)
  end.
Definition GobiNetDeInit : MG Z := gobi_deinit_loop 27 0;; mret 0.

(** [os] gives the opening of every slot. *)
Definition gobi_allocate (os : Z -> Opening) (T : Z) : MG unit :=
  id ← GobiNetGetClientID (os T); gobi_set (Z.to_nat T) id.
Definition gobi_clients (os : Z -> Opening) (enable_ipv6 qmap_mode loopback_state : Z) : MG unit :=
  gobi_allocate os QMUX_TYPE_WDS;;
  when (negb (enable_ipv6 =? 0)) (gobi_allocate os QMUX_TYPE_WDS_IPV6);;
  gobi_allocate os QMUX_TYPE_DMS;;
  gobi_allocate os QMUX_TYPE_NAS;;
  gobi_allocate os QMUX_TYPE_UIM;;
  when ((qmap_mode =? 0) || negb (loopback_state =? 0)) (gobi_allocate os QMUX_TYPE_WDS_ADMIN).

(** The descriptors of a poll: the channel, then one for every client; the array has room for 16. *)
Definition gobi_fds (ctl : Z) (clients : list Z) : list Z := ctl :: filter (fun fd => fd <> 0) clients.
Definition gobi_pollfds (ctl : Z) : MG (list Z) :=
  l ← gets (fun s => gobi_fds ctl (g_clients s));
  if bool_decide (length l <= 16)%nat then mret l else undefined.

(** The service of the last client with this descriptor is stored in the message. *)
Fixpoint mark_service (clients : list Z) (i fd : Z) (m : bytes) : option bytes :=
  match clients with
  | [] => Some m
  | c :: clients =>
      m ← (if c =? fd then st8 m oQMIType i else Some m);
      mark_service clients (i + 1) fd m
  end.
(** The header is put in front of what was read. *)
Definition gobi_frame (clients : list Z) (fd : Z) (buf data : bytes) : option bytes :=
  m ← sts buf oMUXMsg data;
  m ← mark_service clients 0 fd m;
  m ← st8 m oIFType USB_CTL_MSG_TYPE_QMI;
  m ← st16 m oQMILength (cpu_to_le16 (u16 (zlen data + sizeof_QCQMI_HDR - 1)));
  m ← st8 m oQMICtlFlags 0x00;
  st8 m oClientId (fd .& 0xFF).

(** One descriptor; a negative one is never reported by [poll]. *)
Definition gobi_handle (ctl fd : Z) (e : gobi_event) : MG gobi_verdict :=
  match e with
  | GIdle => mret GNext
  | GHup => if fd <? 0 then undefined else mret GQuit
  | GTrigger t =>
      if negb (fd =? ctl) then undefined else
      if bool_decide (t = Some RIL_REQUEST_QUIT) then mret GQuit else
      when (bool_decide (t = Some SIG_EVENT_STOP)) (modify (fun s => s <| g_wait := true |>));; mret GNext
  | GData data =>
      if (fd =? ctl) || (fd <? 0) then undefined else
      let data := take (Z.to_nat (sizeof_QMIBuf - sizeof_QCQMI_HDR)) data in
      if zlen data =? 0 then mret GBreak else
      cs ← gets g_clients; buf ← gets g_buf;
      m ← lift (gobi_frame cs fd buf data);
      modify (fun s => s <| g_buf := m |>);;
      act (Did (RecvQMI (Some m)));;
      mret GNext
  end.
(** The descriptors of one poll.  Result: whether the thread goes on. *)
Fixpoint gobi_events (ctl : Z) (evs : list (Z * gobi_event)) : MG bool :=
  match evs with
  | [] => mret true
  | (fd, e) :: evs =>
      v ← gobi_handle ctl fd e;
      match v with GNext => gobi_events ctl evs | GBreak => mret true | GQuit => mret false end
  end.
Definition gobi_turn (ctl : Z) (p : gobi_poll) : MG bool :=
  fds ← gobi_pollfds ctl;
  match p with
  | GTimeout => w ← gets g_wait; if w : bool then act (Did (RecvQMI None));; mret true else mret false
  | GFail => mret false
  | GReady evs => gobi_events ctl (zip fds evs)
  end.
(** On a finite sequence of polls.  Result: whether the thread is still running. *)
Fixpoint gobi_loop (ctl : Z) (ps : list gobi_poll) : MG bool :=
  match ps with
  | [] => mret true
  | p :: ps => go ← gobi_turn ctl p; if go : bool then gobi_loop ctl ps else mret false
  end.

Definition GobiNetThread (ctl : Z) (os : Z -> Opening) (enable_ipv6 qmap_mode loopback_state : Z) (ps : list gobi_poll) : MG bool :=
  modify (fun s => s <| g_wait := false |>);;
  gobi_clients os enable_ipv6 qmap_mode loopback_state;;
  wds ← gets (fun s => g_clients s !!! Z.to_nat QMUX_TYPE_WDS);
  if wds =? 0 then
    _ ← GobiNetDeInit;
    act (Did (Event RIL_INDICATE_DEVICE_DISCONNECTED));;
    mret false
  else
    act (Did (Event RIL_INDICATE_DEVICE_CONNECTED));;
    go ← gobi_loop ctl ps;
    if go : bool then mret true else
    _ ← GobiNetDeInit;
    act (Did (Event RIL_INDICATE_DEVICE_DISCONNECTED));;
    act (Did (RecvQMI None));;
    mret false.
End Gobi.
