(* ===== verification/GobiSpec.v ===== *)
(** * What the GobiNet device of Gobi.v guarantees, and what it does when the device cannot be opened. *)
From S2P Require Import Prelude Util QmiMsg Compose Monad QmiExchange WwanCM WwanSpec Gobi.
#[local] Open Scope Z_scope.
#[local] Open Scope c_scope.

(** ** Requests and answers *)
(** The clients, and the one descriptor of a service. *)
Definition owns (clients : list Z) (T fd : Z) : Prop :=
  0 <= T /\ clients !! Z.to_nat T = Some fd /\ 0 < fd /\ forall i, clients !! i = Some fd -> i = Z.to_nat T.

Section Frame.
Context {host : Host}.

Lemma mark_none clients i fd m : (forall c, c ∈ clients -> c <> fd) -> mark_service clients i fd m = Some m.
Proof.
  revert i. induction clients as [|c clients IH]; intros i H; [done|]. cbn [mark_service].
  rewrite (proj2 (Z.eqb_neq _ _)) by (apply H; left). cbn. apply IH. intros c' Hc. apply H. by right.
Qed.
Lemma mark_service_owner clients i fd m T : 
  clients !! T = Some fd -> (forall j, clients !! j = Some fd -> j = T) ->
  mark_service clients i fd m = st8 m oQMIType (i + Z.of_nat T).
Proof.
  revert i T. induction clients as [|c clients IH]; intros i T HT Hu; [done|]. cbn [mark_service]. destruct T as [|T].
  - injection HT as ->. rewrite Z.eqb_refl, Z.add_0_r. destruct (st8 m oQMIType i) as [m'|]; [|done]. cbn. apply mark_none.
    intros c [j Hj]%list_elem_of_lookup ->. by specialize (Hu (S j) Hj).
  - destruct (Z.eqb_spec c fd) as [->|_]; [by specialize (Hu 0%nat eq_refl)|]. cbn [mbind option_bind].
    rewrite (IH (i + 1) T HT); [f_equal; lia|]. intros j Hj. by injection (Hu (S j) Hj).
Qed.

(** One header byte after the other. *)
Lemma gobi_frame_owner clients T fd buf data :
  owns clients T fd -> is_byte T -> zlen buf = sizeof_QMIBuf -> zlen data <= sizeof_QMIBuf - sizeof_QCQMI_HDR ->
  gobi_frame clients fd buf data =
  Some (qmi_msg 0 T (fd .& 0xFF) data ++ drop (6 + length data) buf).
Proof.
  intros (HT0 & HT & Hfd & Hu) Hb Hz Hd. unfold gobi_frame, sizeof_QMIBuf, sizeof_QCQMI_HDR in *.
  pose proof (zlen_nonneg data). rewrite <- (take_drop 6 buf) at 1.
  assert (E : exists b0 b1 b2 b3 b4 b5, take 6 buf = [b0; b1; b2; b3; b4; b5]).
  { unfold zlen in Hz. do 6 (destruct buf as [|? buf]; [simpl in Hz; lia|]). by repeat eexists. }
  destruct E as (b0 & b1 & b2 & b3 & b4 & b5 & E). rewrite E.
  rewrite <- (take_drop (length data) (drop 6 buf)), drop_drop.
  rewrite (sts_app [b0; b1; b2; b3; b4; b5]); [|done|unfold zlen in *; rewrite length_take, length_drop; lia].
  cbn [mbind option_bind]. set (R := data ++ drop (6 + length data) buf).
  rewrite (mark_service_owner clients 0 fd _ _ HT Hu). unfold st8, st16.
  rewrite Z2Nat.id, Z.add_0_l, (u8_id T) by done. rewrite enc16_cpu_to_le16, u16_id by (unfold is_u16; lia).
  replace (zlen data + 6 - 1) with (zlen data + 5) by lia. rewrite (u8_id (fd .& 255)) by (rewrite land_ff; unfold is_byte; zdm).
  do 4 (erewrite (sts_prefix _ R) by reflexivity; cbn [mbind option_bind]).
  erewrite (sts_prefix _ R) by reflexivity.
  unfold qmi_msg, R. rewrite <- !app_assoc. reflexivity.
Qed.
End Frame.

Section Answers.
Context {host : Host}.

Lemma GobiNetSendQMI_run clients w flags T cid body fd :
  owns clients T fd -> zlen body <= 65000 ->
  GobiNetSendQMI clients w (qmi_msg flags T cid body) = Some (if w =? zlen body then 0 else w, Some (fd, body)).
Proof.
  intros (_ & HT & Hfd & _) Hb. unfold GobiNetSendQMI. rewrite qmi_msg_type. cbn [mbind option_bind]. rewrite HT.
  cbn [mbind option_bind]. rewrite (proj2 (Z.leb_gt _ _)) by done. rewrite qmi_msg_length by done. cbn [mbind option_bind].
  unfold sizeof_QCQMI_HDR. replace (zlen body + 5 + 1 - 6) with (zlen body) by lia.
  assert (E : lds (qmi_msg flags T cid body) oMUXMsg (zlen body) = Some body).
  { unfold qmi_msg. rewrite <- (app_nil_r body) at 2.
    by apply (lds_app ([USB_CTL_MSG_TYPE_QMI] ++ le16 (zlen body + 5) ++ [flags; T; cid])). }
  by rewrite E.
Qed.

Lemma ld_pad m e i v : ld m i = Some v -> ld (m ++ e) i = Some v.
Proof. unfold ld. destruct (0 <=? i); [|done]. apply lookup_app_l_Some. Qed.
Lemma is_response_pad r m e v : is_response r m = Some v -> is_response r (m ++ e) = Some v.
Proof.
  unfold is_response. destruct (ld r oQMIType) as [t1|]; [|done]. cbn [mbind option_bind].
  destruct (ld m oQMIType) as [t2|] eqn:E; [|done]. rewrite (ld_pad _ e _ _ E). cbn [mbind option_bind].
  destruct (ld r oClientId) as [c1|]; [|done]. cbn [mbind option_bind].
  destruct (ld m oClientId) as [c2|] eqn:E2; [|done]. rewrite (ld_pad _ e _ _ E2). cbn [mbind option_bind].
  destruct (_ && _); [|done]. destruct (t1 =? QMUX_TYPE_CTL).
  - destruct (ld r oTransactionId); [|done]. cbn [mbind option_bind].
    destruct (ld m oTransactionId) eqn:E3; [|done]. by rewrite (ld_pad _ e _ _ E3).
  - destruct (rd16 r oTransactionId); [|done]. cbn [mbind option_bind].
    destruct (rd16 m oTransactionId) eqn:E3; [|done]. by rewrite (rd16_app_l _ e _ _ E3).
Qed.
Lemma qmi_msg_tid f T c b tid rest : is_u16 tid -> rd16 (qmi_msg f T c (b :: le16 tid ++ rest)) oTransactionId = Some tid.
Proof.
  intros H. unfold qmi_msg.
  by apply (rd16_le16 ([USB_CTL_MSG_TYPE_QMI] ++ le16 (zlen (b :: le16 tid ++ rest) + 5) ++ [f; T; c] ++ [b])).
Qed.
Lemma is_response_tid f1 f2 T1 T2 c1 c2 tid1 tid2 b1 b2 r1 r2 :
  is_u16 tid1 -> is_u16 tid2 -> T1 <> QMUX_TYPE_CTL ->
  is_response (qmi_msg f1 T1 c1 (b1 :: le16 tid1 ++ r1)) (qmi_msg f2 T2 c2 (b2 :: le16 tid2 ++ r2)) =
  Some ((T1 =? T2) && (c1 =? c2) && (tid1 =? tid2)).
Proof.
  intros H1 H2 HT. unfold is_response. rewrite !qmi_msg_type, !qmi_msg_client. cbn [mbind option_bind].
  destruct ((T1 =? T2) && (c1 =? c2)); [|done]. rewrite (proj2 (Z.eqb_neq T1 QMUX_TYPE_CTL)) by done.
  by rewrite !qmi_msg_tid.
Qed.
Lemma owns_inj clients T T' fd fd' : owns clients T fd -> owns clients T' fd' -> T = T' -> fd = fd'.
Proof. intros (_ & H & _) (_ & H' & _) ->. congruence. Qed.
End Answers.

(** C19: every service has its own channel.  A request goes bare to the descriptor of its service; what the driver then gives on the
    descriptor of any service is handed over whole, as a QMI message of that service, and it is the response to the request just
    when it comes from the same service and carries the same transaction identifier. *)
Theorem gobi_answers_own_service {host : Host} ctl clients T fd T' fd' b tid rest b' tid' rest' s :
  let body := b :: le16 tid ++ rest in let a := b' :: le16 tid' ++ rest' in
  let r := qmi_msg 0 T (fd .& 0xFF) body in
  owns clients T fd -> owns clients T' fd' -> is_byte T -> is_byte T' -> T <> QMUX_TYPE_CTL -> fd' <> ctl ->
  is_u16 tid -> is_u16 tid' -> zlen body <= 65000 -> zlen a <= sizeof_QMIBuf - sizeof_QCQMI_HDR ->
  g_clients s = clients -> zlen (g_buf s) = sizeof_QMIBuf ->
  GobiNetSendQMI clients (zlen body) r = Some (0, Some (fd, body)) /\
  exists s' m, gobi_handle ctl fd' (GData a) s = Some (GNext, s') /\
    g_done s' = g_done s ++ [Did (RecvQMI (Some m))] /\ g_clients s' = clients /\ zlen (g_buf s') = sizeof_QMIBuf /\
    lds m 0 (zlen a + 6) = Some (qmi_msg 0 T' (fd' .& 0xFF) a) /\
    is_response r m = Some ((T =? T') && (tid =? tid')).
Proof.
  intros body a r Ho Ho' HT HT' Hc Hctl Ht Ht' Hb Ha Hs Hz. split.
  { unfold r. rewrite (GobiNetSendQMI_run _ _ _ _ _ _ fd) by done. by rewrite Z.eqb_refl. }
  assert (Hn : 0 < zlen a) by (unfold a, le16; cbn [app]; zlens; pose proof (zlen_nonneg rest'); lia).
  pose proof (gobi_frame_owner clients T' fd' (g_buf s) a Ho' HT' Hz Ha) as E.
  set (m := qmi_msg 0 T' (fd' .& 0xFF) a ++ drop (6 + length a) (g_buf s)) in *.
  exists (s <| g_buf := m |> <| g_done := g_done s ++ [Did (RecvQMI (Some m))] |>), m. split_and!; try done.
  - destruct Ho' as (_ & _ & Hp & _). unfold gobi_handle. rewrite (proj2 (Z.eqb_neq _ _)) by done. rewrite (proj2 (Z.ltb_ge _ _)) by lia.
    cbn [orb]. assert (Et : take (Z.to_nat (sizeof_QMIBuf - sizeof_QCQMI_HDR)) a = a).
    { apply take_ge. unfold zlen in Ha. lia. }
    cbv zeta. rewrite Et. rewrite (proj2 (Z.eqb_neq _ _)) by lia. rewrite bind_gets, Hs, bind_gets, E, bind_lift. done.
  - cbn [set_field Set_g_buf g_buf Set_g_done]. unfold m. rewrite zlen_app, qmi_msg_zlen. unfold zlen, sizeof_QMIBuf, sizeof_QCQMI_HDR in *.
    rewrite length_drop. lia.
  - unfold m. replace (zlen a + 6) with (zlen (qmi_msg 0 T' (fd' .& 0xFF) a)) by apply qmi_msg_zlen. by apply lds_app_0.
  - unfold m. apply is_response_pad. unfold r, body, a. rewrite is_response_tid by done.
    destruct (Z.eqb_spec T T') as [HTT|]; [|done]. by rewrite (owns_inj _ _ _ _ _ Ho Ho' HTT), Z.eqb_refl.
Qed.

(** ** Descriptors *)
Definition closed (l : list gobi_effect) : list Z := l ≫= fun e => match e with Closed fd => [fd] | Did _ => [] end.
Definition live (clients : list Z) : list Z := filter (fun fd => fd <> 0) clients.
(** The descriptors that were opened and are accounted for: closed, or still there; a failed [open] gave -1. *)
Definition acct (s : Gobi) : list Z := filter (fun fd => fd <> -1) (closed (g_done s) ++ live (g_clients s)).
Definition slots (enable_ipv6 qmap_mode loopback_state : Z) : list Z :=
  [QMUX_TYPE_WDS] ++ (if negb (enable_ipv6 =? 0) then [QMUX_TYPE_WDS_IPV6] else []) ++ [QMUX_TYPE_DMS; QMUX_TYPE_NAS; QMUX_TYPE_UIM] ++
  (if (qmap_mode =? 0) || negb (loopback_state =? 0) then [QMUX_TYPE_WDS_ADMIN] else []).
Definition opened (os : Z -> Opening) (l : list Z) : list Z := filter (fun fd => fd <> -1) (map (fun T => opened_fd (os T)) l).

Lemma closed_snoc l e : closed (l ++ [e]) = closed l ++ match e with Closed fd => [fd] | Did _ => [] end.
Proof. unfold closed. rewrite bind_app. cbn. by rewrite app_nil_r. Qed.
Lemma live_insert T v clients : clients !! T = Some 0 -> live (<[T := v]> clients) ≡ₚ live [v] ++ live clients.
Proof.
  revert T. induction clients as [|c clients IH]; intros T HT; [done|]. destruct T as [|T].
  - injection HT as ->. unfold live. rewrite (filter_cons_False _ 0) by auto. by rewrite <- filter_app.
  - cbn [list_insert insert]. unfold live in *. rewrite !(filter_cons _ c). specialize (IH T HT).
    destruct (decide (c <> 0)); [|done]. rewrite <- Permutation_middle. by apply perm_skip.
Qed.
Lemma live_remove T v clients : clients !! T = Some v -> live clients ≡ₚ live [v] ++ live (<[T := 0]> clients).
Proof.
  intros HT. rewrite <- (list_insert_id clients T v HT) at 1.
  rewrite <- (list_insert_insert_eq clients T v 0).
  apply live_insert. apply list_lookup_insert_eq. by eapply lookup_lt_Some.
Qed.

Lemma acct_perm s s' l : closed (g_done s') ++ live (g_clients s') ≡ₚ l ++ closed (g_done s) ++ live (g_clients s) ->
  acct s' ≡ₚ filter (fun fd => fd <> -1) l ++ acct s.
Proof. intros H. unfold acct. by rewrite H, filter_app. Qed.

Section Conservation.
Context {host : Host}.

(** Opening one service. *)
Lemma gobi_allocate_run os T s s' u : gobi_allocate os T s = Some (u, s') -> 0 <= T ->
  g_clients s !! Z.to_nat T = Some 0 -> opened_fd (os T) <> 0 ->
  acct s' ≡ₚ opened os [T] ++ acct s /\ exists v, g_clients s' = <[Z.to_nat T := v]> (g_clients s).
Proof.
  intros E HT0 HT Ho. unfold gobi_allocate, GobiNetGetClientID in E. unfold opened. cbn [map].
  destruct (Z.eqb_spec (opened_fd (os T)) (-1)) as [Hm|Hm].
  - rewrite bind_ret in E. injection E as <- <-. split; [|by eexists].
    apply (acct_perm s _ [opened_fd (os T)]). cbn [set_field Set_g_clients g_clients g_done]. rewrite live_insert by done.
    rewrite Hm. unfold live at 1. rewrite filter_cons_True by lia. symmetry. exact (Permutation_middle (closed (g_done s)) (live (g_clients s)) _).
  - destruct (ioctl_ok (os T)).
    + rewrite bind_ret in E. injection E as <- <-. split; [|by eexists].
      apply acct_perm. cbn [set_field Set_g_clients g_clients g_done]. rewrite live_insert by done.
      unfold live at 1. rewrite filter_cons_True by done. symmetry. exact (Permutation_middle (closed (g_done s)) (live (g_clients s)) _).
    + injection E as <- <-. split; [|by eexists].
      apply acct_perm. cbn [set_field Set_g_clients Set_g_done g_clients g_done]. rewrite live_insert by done. rewrite closed_snoc.
      unfold live at 1. rewrite filter_cons_False by auto. rewrite <- app_assoc. symmetry. exact (Permutation_middle (closed (g_done s)) (live (g_clients s)) _).
Qed.

(** Everything but the start leaves the account alone. *)
Lemma act_did e : keeps (fun s => (g_clients s, closed (g_done s))) (act (Did e)).
Proof. apply keeps_modify. intros s. cbn. by rewrite closed_snoc, app_nil_r. Qed.
#[local] Hint Resolve act_did : keeps.
Lemma gobi_loop_keeps ctl ps : keeps (fun s => (g_clients s, closed (g_done s))) (gobi_loop ctl ps).
Proof.
  assert (H : forall fd e, keeps (fun s => (g_clients s, closed (g_done s))) (gobi_handle ctl fd e)) by (intros fd []; cbn [gobi_handle]; frame).
  assert (He : forall evs, keeps (fun s => (g_clients s, closed (g_done s))) (gobi_events ctl evs)).
  { intros evs. induction evs as [|[fd e] evs IH]; cbn [gobi_events]; frame. }
  induction ps as [|p ps IH]; cbn [gobi_loop]; [frame|]. unfold gobi_turn, gobi_pollfds. frame.
Qed.

Fixpoint alloc_all (os : Z -> Opening) (l : list Z) : MG unit :=
  match l with [] => mret tt | T :: l => gobi_allocate os T;; alloc_all os l end.
Lemma gobi_clients_slots os v6 qm lb s : gobi_clients os v6 qm lb s = alloc_all os (slots v6 qm lb) s.
Proof.
  unfold gobi_clients, slots.
  unfold when, mbind, M_bind.
  destruct (negb (v6 =? 0)), ((qm =? 0) || negb (lb =? 0)); cbn [app alloc_all]; unfold mbind, M_bind, mret, M_ret;
    repeat match goal with |- context [gobi_allocate os ?T ?s] => destruct (gobi_allocate os T s) as [[[] ?]|]; try reflexivity end.
Qed.

Lemma alloc_all_run os l s s' u : alloc_all os l s = Some (u, s') ->
  NoDup l -> Forall (fun T => 0 <= T /\ opened_fd (os T) <> 0 /\ g_clients s !! Z.to_nat T = Some 0) l ->
  acct s' ≡ₚ opened os l ++ acct s /\ length (g_clients s') = length (g_clients s).
Proof.
  revert s. induction l as [|T l IH]; intros s E Hn HF.
  - by injection E as _ <-.
  - apply NoDup_cons in Hn as [HT Hn]. apply Forall_cons in HF as [(H0 & Ho & Hc) HF]. cbn [alloc_all] in E.
    apply bind_inv in E as ([] & s1 & E1 & E).
    destruct (gobi_allocate_run _ _ _ _ _ E1 H0 Hc Ho) as (Hp & v & Hv).
    destruct (IH s1 E Hn) as [Hp2 Hl2].
    + apply Forall_forall. intros T' HT'. rewrite Forall_forall in HF. destruct (HF T' HT') as (H0' & Ho' & Hc').
      split_and!; [done|done|]. rewrite Hv, list_lookup_insert_ne; [done|]. intros Heq. apply HT.
      by rewrite (Z2Nat.inj T T' H0 H0' Heq).
    + split; [|by rewrite Hl2, Hv, length_insert]. rewrite Hp2, Hp. unfold opened.
      change (map (fun T => opened_fd (os T)) (T :: l)) with ([opened_fd (os T)] ++ map (fun T => opened_fd (os T)) l).
      rewrite filter_app, app_assoc. f_equiv. apply Permutation_app_comm.
Qed.

Lemma gobi_deinit_run n i s : length (g_clients s) = (i + n)%nat ->
  exists s', gobi_deinit_loop n i s = Some (tt, s') /\ acct s' ≡ₚ acct s /\
    g_clients s' = take i (g_clients s) ++ replicate n 0 /\ (exists l, g_done s' = g_done s ++ map Closed l).
Proof.
  revert i s. induction n as [|n IH]; intros i s Hl.
  - exists s. split_and!; [done|done| |by exists []; rewrite app_nil_r]. rewrite app_nil_r, take_ge by lia. done.
  - cbn [gobi_deinit_loop]. rewrite bind_gets. destruct (lookup_lt_is_Some_2 (g_clients s) i) as [fd Hfd]; [lia|].
    rewrite (list_lookup_total_correct _ _ _ Hfd). destruct (Z.eqb_spec fd 0) as [->|Hne]; cbn [negb when].
    + rewrite bind_ret. destruct (IH (S i) s) as (s' & E & Hp & Hc & Hd); [lia|]. exists s'. split_and!; [done|done| |done].
      rewrite Hc, (take_S_r _ _ _ Hfd), <- app_assoc. done.
    + set (s1 := s <| g_done := g_done s ++ [Closed fd] |> <| g_clients := <[i := 0]> (g_clients s) |>).
      rewrite (bind_step _ _ s tt s1) by done.
      destruct (IH (S i) s1) as (s' & E & Hp & Hc & l & Hd); [cbn; rewrite length_insert; lia|]. exists s'. split_and!; [done| | |].
      * rewrite Hp. apply (acct_perm s s1 []). cbn. rewrite closed_snoc, (live_remove i fd (g_clients s)) by done.
        assert (El : live [fd] = [fd]) by (unfold live; by rewrite filter_cons_True). by rewrite El, <- app_assoc.
      * rewrite Hc. cbn. rewrite (take_S_r _ _ 0) by (apply list_lookup_insert_eq; by eapply lookup_lt_Some).
        rewrite take_insert_ge by lia. by rewrite <- app_assoc.
      * exists (fd :: l). rewrite Hd. cbn. by rewrite <- app_assoc.
Qed.

Lemma gobi_clients_run os v6 qm lb s s' u : gobi_clients os v6 qm lb s = Some (u, s') ->
  g_clients s = replicate 27 0 -> Forall (fun T => opened_fd (os T) <> 0) (slots v6 qm lb) ->
  acct s' ≡ₚ opened os (slots v6 qm lb) ++ acct s /\ length (g_clients s') = 27%nat.
Proof.
  intros E Hs Ho. rewrite gobi_clients_slots in E. destruct (alloc_all_run _ _ _ _ _ E) as [Hp Hl].
  - unfold slots. destruct (negb (v6 =? 0)), ((qm =? 0) || negb (lb =? 0)); apply (bool_decide_unpack _); reflexivity.
  - apply Forall_forall. intros T HT. rewrite Forall_forall in Ho. split_and!; [|by apply Ho|].
    + unfold slots in HT. destruct (negb (v6 =? 0)), ((qm =? 0) || negb (lb =? 0)); cbn in HT; set_unfold in HT; intuition (subst; done).
    + rewrite Hs. unfold slots in HT. destruct (negb (v6 =? 0)), ((qm =? 0) || negb (lb =? 0)); cbn in HT; set_unfold in HT; intuition (subst; done).
  - split; [done|]. by rewrite Hl, Hs.
Qed.
Lemma GobiNetDeInit_run s : length (g_clients s) = 27%nat ->
  exists s', GobiNetDeInit s = Some (0, s') /\ acct s' ≡ₚ acct s /\ g_clients s' = replicate 27 0.
Proof.
  intros Hl. destruct (gobi_deinit_run 27 0 s Hl) as (s' & E & Hp & Hc & _). exists s'. unfold GobiNetDeInit.
  by rewrite (bind_step _ _ _ _ _ E).
Qed.
Lemma acct_act e s : acct (s <| g_done := g_done s ++ [Did e] |>) = acct s.
Proof. unfold acct. cbn. by rewrite closed_snoc, app_nil_r. Qed.
Lemma acct_ended s : g_clients s = replicate 27 0 -> acct s = filter (fun fd => fd <> -1) (closed (g_done s)).
Proof. intros H. unfold acct. rewrite H. change (live (replicate 27 0)) with (@nil Z). by rewrite app_nil_r. Qed.
End Conservation.

(** No descriptor is lost or closed twice.  Whatever the opens and polls give, the descriptors opened for the services are, as long as the thread
    runs, the clients' together with the closed ones; and when the thread ends, on whatever path, every one of them has been closed
    exactly once. *)
Theorem gobi_descriptors_conserved {host : Host} ctl os v6 qm lb ps s s' (running : bool) :
  g_clients s = replicate 27 0 -> closed (g_done s) = [] -> Forall (fun T => opened_fd (os T) <> 0) (slots v6 qm lb) ->
  GobiNetThread ctl os v6 qm lb ps s = Some (running, s') ->
  if running
  then filter (fun fd => fd <> -1) (closed (g_done s') ++ live (g_clients s')) ≡ₚ opened os (slots v6 qm lb)
  else filter (fun fd => fd <> -1) (closed (g_done s')) ≡ₚ opened os (slots v6 qm lb) /\ g_clients s' = replicate 27 0.
Proof.
  intros Hs Hd Ho E. unfold GobiNetThread in E. rewrite bind_modify in E. set (s0 := s <| g_wait := false |>) in E.
  apply bind_inv in E as ([] & s1 & E1 & E). destruct (gobi_clients_run _ _ _ _ s0 s1 _ E1 Hs Ho) as [Hp Hl].
  assert (H0 : acct s0 = []) by (unfold acct, s0; cbn [set_field Set_g_wait g_done g_clients]; by rewrite Hd, Hs). rewrite H0, app_nil_r in Hp.
  assert (Hend : forall s, length (g_clients s) = 27%nat -> exists s2, GobiNetDeInit s = Some (0, s2) /\ acct s2 ≡ₚ acct s /\
    g_clients s2 = replicate 27 0) by apply GobiNetDeInit_run.
  rewrite bind_gets in E. destruct (_ =? 0).
  - destruct (Hend s1 Hl) as (s2 & E2 & Hp2 & Hc2). rewrite (bind_step _ _ _ _ _ E2) in E. unfold act in E.
    rewrite bind_modify in E. injection E as <- <-. split; [|done]. rewrite <- acct_ended by done. by rewrite acct_act, Hp2.
  - unfold act in E. rewrite bind_modify in E. apply bind_inv in E as (go & s2 & E2 & E).
    assert (K := gobi_loop_keeps _ _ _ _ _ E2). injection K as Hc2 Hd2. cbn in Hd2. rewrite closed_snoc, app_nil_r in Hd2. cbn in Hc2.
    assert (Hp2 : acct s2 ≡ₚ opened os (slots v6 qm lb)) by (unfold acct; by rewrite Hc2, Hd2, <- Hp).
    destruct go; [by injection E as <- <-|]. destruct (Hend s2) as (s3 & E3 & Hp3 & Hc3); [by rewrite Hc2|].
    rewrite (bind_step _ _ _ _ _ E3), !bind_modify in E. injection E as <- <-. split; [|done].
    rewrite <- acct_ended by done. rewrite <- Hp2, <- Hp3. apply (acct_perm _ _ []).
    cbn [set_field Set_g_done g_done g_clients]. by rewrite !closed_snoc, !app_nil_r.
Qed.

(** ** Bounds *)
(** What [poll] can report for a descriptor. *)
Definition ev_ok (ctl fd : Z) (e : gobi_event) : Prop :=
  match e with GIdle => True | GHup => 0 <= fd | GTrigger _ => fd = ctl | GData _ => fd <> ctl /\ 0 <= fd end.
Definition poll_ok (ctl : Z) (clients : list Z) (p : gobi_poll) : Prop :=
  match p with GReady evs => Forall (fun x => ev_ok ctl x.1 x.2) (zip (gobi_fds ctl clients) evs) | _ => True end.

Section Bounds.
Context {host : Host}.

Lemma live_insert_le T v clients : (length (live (<[T := v]> clients)) <= S (length (live clients)))%nat.
Proof.
  revert T. induction clients as [|c clients IH]; intros T; [destruct T; apply Nat.le_0_l|]. unfold live in *. destruct T as [|T]; cbn [insert list_insert].
  - rewrite (filter_cons _ v), (filter_cons _ c). repeat case_decide; cbn [length]; lia.
  - specialize (IH T). rewrite !(filter_cons _ c). repeat case_decide; cbn [length]; [exact (le_n_S _ _ IH) | exact IH].
Qed.
Lemma alloc_all_total os l s : exists s', alloc_all os l s = Some (tt, s') /\ g_buf s' = g_buf s /\
  length (g_clients s') = length (g_clients s) /\ (length (live (g_clients s')) <= length l + length (live (g_clients s)))%nat.
Proof.
  revert s. induction l as [|T l IH]; intros s; [by exists s|].
  assert (E : exists v s1, gobi_allocate os T s = Some (tt, s1) /\ g_clients s1 = <[Z.to_nat T := v]> (g_clients s) /\ g_buf s1 = g_buf s).
  { unfold gobi_allocate, GobiNetGetClientID. destruct (_ =? -1); [by eexists _, _|]. destruct (ioctl_ok _); by eexists _, _. }
  destruct E as (v & s1 & E & Hc & Hb). destruct (IH s1) as (s' & E' & Hb' & Hl & Hn). exists s'. split_and!.
  - cbn [alloc_all]. by rewrite (bind_step _ _ _ _ _ E).
  - congruence.
  - by rewrite Hl, Hc, length_insert.
  - rewrite Hc in Hn. pose proof (live_insert_le (Z.to_nat T) v (g_clients s)). cbn [length]. lia.
Qed.

(** A state of the thread: the clients are fixed, and the buffer has its size. *)
Definition thread_ok (clients : list Z) (s : Gobi) : Prop := g_clients s = clients /\ zlen (g_buf s) = sizeof_QMIBuf.
Definition runs {A} (I : Gobi -> Prop) (m : MG A) : Prop := forall s, I s -> exists a s', m s = Some (a, s') /\ I s'.

Lemma sts_total m i bs : 0 <= i -> i + zlen bs <= zlen m -> exists m', sts m i bs = Some m' /\ zlen m' = zlen m.
Proof. intros H1 H2. destruct (sts_defined m i bs H1 H2) as [m' E]. exists m'. split; [done|]. by eapply sts_length. Qed.
Lemma mark_service_total clients i fd m : 5 <= zlen m -> exists m', mark_service clients i fd m = Some m' /\ zlen m' = zlen m.
Proof.
  revert i m. induction clients as [|c clients IH]; intros i m Hm; [by exists m|]. cbn [mark_service]. destruct (c =? fd); [|by apply IH].
  destruct (sts_total m oQMIType [u8 i]) as (m1 & E & Hl); [done|unfold oQMIType; change (zlen [u8 i]) with 1; lia|]. unfold st8. rewrite E. cbn [mbind option_bind].
  rewrite <- Hl. apply IH. lia.
Qed.
Lemma gobi_frame_total clients fd buf data : zlen buf = sizeof_QMIBuf -> zlen data <= sizeof_QMIBuf - sizeof_QCQMI_HDR ->
  exists m, gobi_frame clients fd buf data = Some m /\ zlen m = sizeof_QMIBuf.
Proof.
  unfold sizeof_QMIBuf, sizeof_QCQMI_HDR. intros Hb Hd. unfold gobi_frame, st8, st16.
  destruct (sts_total buf oMUXMsg data) as (m1 & E & H1); [done|unfold oMUXMsg; lia|]. rewrite E. cbn [mbind option_bind].
  destruct (mark_service_total clients 0 fd m1) as (m2 & E2 & H2); [lia|]. rewrite E2. cbn [mbind option_bind].
  rewrite enc16_cpu_to_le16. rewrite Hb in H1. rewrite H1 in H2. clear E E2 H1 Hb Hd m1.
  assert (St : forall m i bs, zlen m = 4096 -> 0 <= i -> i + zlen bs <= 4096 -> exists m', sts m i bs = Some m' /\ zlen m' = 4096).
  { intros m i bs Hm Hi Hl. rewrite <- Hm in Hl. destruct (sts_total m i bs Hi Hl) as (m' & E & Hm'). exists m'. split; [done|congruence]. }
  do 3 (match goal with H : zlen ?m = 4096 |- context [sts ?m ?i ?bs] =>
    destruct (St m i bs H) as (? & E & ?); [done|done|]; rewrite E; cbn [mbind option_bind]; clear E H; try clear m end).
  match goal with H : zlen ?m = 4096 |- context [sts ?m ?i ?bs] => by apply St end.
Qed.

Lemma gobi_handle_runs ctl clients fd e : ev_ok ctl fd e -> runs (thread_ok clients) (gobi_handle ctl fd e).
Proof.
  intros He s [Hc Hb]. destruct e as [| |t|data]; cbn [ev_ok gobi_handle] in *.
  - by exists GNext, s.
  - rewrite (proj2 (Z.ltb_ge _ _)) by done. by exists GQuit, s.
  - subst fd. rewrite Z.eqb_refl. cbn [negb]. case_bool_decide; [by exists GQuit, s|].
    case_bool_decide; cbn [when]; [rewrite bind_modify | rewrite bind_ret]; by eexists _, _.
  - destruct He as [He1 He2]. rewrite (proj2 (Z.eqb_neq _ _)), (proj2 (Z.ltb_ge _ _)) by done. cbn [orb]. cbv zeta.
    set (d := take _ data). destruct (zlen d =? 0); [by exists GBreak, s|]. rewrite !bind_gets.
    destruct (gobi_frame_total (g_clients s) fd (g_buf s) d Hb) as (m & E & Hm).
    { unfold d, zlen, sizeof_QMIBuf, sizeof_QCQMI_HDR. rewrite length_take. lia. }
    rewrite E, bind_lift. unfold act. rewrite !bind_modify. by eexists _, _.
Qed.
Lemma gobi_events_run ctl clients evs : Forall (fun x => ev_ok ctl x.1 x.2) evs -> runs (thread_ok clients) (gobi_events ctl evs).
Proof.
  induction 1 as [|[fd e] evs He _ IH]; intros s Hs; cbn [gobi_events]; [by exists true, s|].
  destruct (gobi_handle_runs ctl clients fd e He s Hs) as (v & s1 & E & H1). rewrite (bind_step _ _ _ _ _ E).
  destruct v; [by apply IH | by exists true, s1 | by exists false, s1].
Qed.
Lemma gobi_loop_runs ctl clients ps : (length (gobi_fds ctl clients) <= 16)%nat -> Forall (poll_ok ctl clients) ps ->
  runs (thread_ok clients) (gobi_loop ctl ps).
Proof.
  intros Hn. induction 1 as [|p ps Hp _ IH]; intros s Hs; cbn [gobi_loop]; [by exists true, s|].
  assert (E : exists go s1, gobi_turn ctl p s = Some (go, s1) /\ thread_ok clients s1).
  { unfold gobi_turn. assert (Ef : gobi_pollfds ctl s = Some (gobi_fds ctl clients, s)).
    { unfold gobi_pollfds. rewrite bind_gets, (proj1 Hs), bool_decide_eq_true_2 by done. done. }
    rewrite (bind_step _ _ _ _ _ Ef). destruct p as [| |evs].
    - rewrite bind_gets. destruct (g_wait s); [|by exists false, s]. unfold act. rewrite bind_modify. by eexists _, _.
    - by exists false, s.
    - by apply (gobi_events_run ctl clients). }
  destruct E as (go & s1 & E & H1). rewrite (bind_step _ _ _ _ _ E). destruct go; [by apply IH | by exists false, s1].
Qed.
End Bounds.

(** C20: the array of the poll and the receive buffer are never overrun.  Whatever is opened and whatever the polls report for the
    descriptors they were given, of whatever size, the thread makes no invalid access, and it never polls more than seven of the sixteen
    entries. *)
Theorem gobi_thread_in_bounds {host : Host} ctl os v6 qm lb ps s :
  g_clients s = replicate 27 0 -> zlen (g_buf s) = sizeof_QMIBuf ->
  (forall s1, gobi_clients os v6 qm lb (s <| g_wait := false |>) = Some (tt, s1) ->
     (length (gobi_fds ctl (g_clients s1)) <= 7)%nat /\
     (Forall (poll_ok ctl (g_clients s1)) ps -> exists running s', GobiNetThread ctl os v6 qm lb ps s = Some (running, s'))) /\
  is_Some (gobi_clients os v6 qm lb (s <| g_wait := false |>)).
Proof.
  intros Hs Hb. set (s0 := s <| g_wait := false |>).
  destruct (alloc_all_total os (slots v6 qm lb) s0) as (s1 & E & Hb1 & Hl1 & Hn1).
  rewrite <- gobi_clients_slots in E. split; [|by rewrite E].
  assert (Hn : (length (gobi_fds ctl (g_clients s1)) <= 7)%nat).
  { unfold gobi_fds. fold (live (g_clients s1)). cbn [length]. apply le_n_S. etrans; [exact Hn1|].
    change (g_clients s0) with (g_clients s). rewrite Hs. change (live (replicate 27 0)) with (@nil Z). unfold slots.
    destruct (negb (v6 =? 0)), ((qm =? 0) || negb (lb =? 0)); cbn [app length]; lia. }
  intros s1' E'. rewrite E in E'. injection E' as <-. split; [done|]. intros Hp.
  unfold GobiNetThread. rewrite bind_modify. fold s0. rewrite (bind_step _ _ _ _ _ E), bind_gets.
  change (g_clients s0) with (g_clients s) in Hl1. rewrite Hs in Hl1.
  assert (Hend : forall s, length (g_clients s) = 27%nat -> exists s2, GobiNetDeInit s = Some (0, s2)).
  { intros s2 H2. destruct (GobiNetDeInit_run s2 H2) as (s3 & E3 & _). by exists s3. }
  destruct (_ =? 0).
  - destruct (Hend s1 Hl1) as [s2 E2]. rewrite (bind_step _ _ _ _ _ E2). unfold act. rewrite bind_modify. by eexists _, _.
  - unfold act. rewrite bind_modify. 
    destruct (gobi_loop_runs ctl (g_clients s1) ps) with (s := s1 <| g_done := g_done s1 ++ [Did (Event RIL_INDICATE_DEVICE_CONNECTED)] |>)
      as (go & s2 & E2 & Hc2 & _); [lia|exact Hp|split; [reflexivity|]|].
    { transitivity (zlen (g_buf s0)); [exact (f_equal zlen Hb1) | exact Hb]. }
    rewrite (bind_step _ _ _ _ _ E2). destruct go; [by eexists _, _|].
    destruct (Hend s2) as [s3 E3]; [by rewrite Hc2|]. rewrite (bind_step _ _ _ _ _ E3), !bind_modify. by eexists _, _.
Qed.

(** ** A device that cannot be opened *)
Definition services : list Z := [QMUX_TYPE_WDS; QMUX_TYPE_DMS; QMUX_TYPE_NAS; QMUX_TYPE_UIM].
Definition unopened (T : Z) : Opening := {| opened_fd := -1; ioctl_ok := false |}.

(** The thread compares the WDS client with 0, but a device that cannot be opened leaves -1 there: the thread reports it as connected,
    the requests to its services are composed like any others, and every one of them fails with [ENODEV] when it is sent. *)
Theorem gobi_unopened_is_connected {host : Host} {heap : Heap} ctl v6 qm lb s g T ty ts w :
  g_clients s = replicate 27 0 -> T ∈ services -> area_len ts <= 243 -> malloc_ok (13 + area_len ts) = true ->
  exists s', GobiNetThread ctl unopened v6 qm lb [] s = Some (true, s') /\
    g_done s' = g_done s ++ [Did (Event RIL_INDICATE_DEVICE_CONNECTED)] /\
    (qmiclientId g = g_clients s' ->
     forall f, let '(tid, g') := GetQMUXTransactionId g in builds g' f ts ->
       let r := enc_qmux T 0xFF 0 tid ty (enc_tlvs ts) in
       ComposeQMUXMsg g T ty (Some f) = Some (Some r, g') /\ GobiNetSendQMI (g_clients s') w r = Some (- ENODEV, None)).
Proof.
  intros Hs HT Hl Hm.
  assert (E : exists s', GobiNetThread ctl unopened v6 qm lb [] s = Some (true, s') /\
    g_done s' = g_done s ++ [Did (Event RIL_INDICATE_DEVICE_CONNECTED)] /\
    Forall (fun T => g_clients s' !! Z.to_nat T = Some (-1)) services).
  { destruct s as [cl wt bf dn]. cbn in Hs. subst cl. unfold GobiNetThread, gobi_clients, gobi_allocate.
    destruct (negb (v6 =? 0)), ((qm =? 0) || negb (lb =? 0)); eexists; (split; [reflexivity|]); (split; [reflexivity|]); by repeat constructor. }
  destruct E as (s' & E & Hd & Hc). exists s'. split_and!; [exact E|exact Hd|]. intros Hg f.
  rewrite Forall_forall in Hc. specialize (Hc T HT).
  assert (HTb : is_byte T) by (set_unfold in HT; intuition (subst; done)).
  pose proof (ComposeQMUXMsg_builds g T ty f ts (-1)) as H. rewrite Hg in H. specialize (H Hc ltac:(done) HTb).
  destruct (GetQMUXTransactionId g) as [tid g']. intros Hb r. rewrite (H Hb Hl), Hm. split; [done|].
  unfold GobiNetSendQMI. change (ld r oQMIType) with (Some T). cbn [mbind option_bind]. by rewrite Hc.
Qed.

(** ** Concrete devices *)
Definition fresh_gobi : Gobi := {| g_clients := replicate 27 0; g_wait := false; g_buf := replicate 4096 0; g_done := [] |}.
(** The descriptors 10, 11, ... for the services; the driver gives no WDS-admin client. *)
Definition sample_os (T : Z) : Opening := {| opened_fd := 10 + T; ioctl_ok := negb (T =? QMUX_TYPE_WDS_ADMIN) |}.
Definition sample_clients : list Z := [0; 11; 12; 13; 0; 0; 0; 0; 0; 0; 0; 21; 0; 0; 0; 0; 0; 27; 0; 0; 0; 0; 0; 0; 0; 0; 0].

Lemma sample_owns T : T ∈ [1; 2; 3; 11; 17] -> owns sample_clients T (10 + T).
Proof.
  intros H. assert (Hu : forall i fd, sample_clients !! i = Some fd -> fd <> 0 -> Z.of_nat i = fd - 10).
  { intros i fd Hi Hn. do 27 (destruct i as [|i]; [injection Hi as <-; done|]). done. }
  split_and!; try (set_unfold in H; intuition (subst; done)).
  intros i Hi. assert (Hn : 10 + T <> 0) by (set_unfold in H; intuition (subst; done)). specialize (Hu i _ Hi Hn). lia.
Qed.

Theorem gobi_answers_own_service_witness :
  let r := qmi_msg 0 3 13 (0 :: le16 7 ++ [0x22; 0; 0; 0]) in
  GobiNetSendQMI sample_clients 7 r = Some (0, Some (13, 0 :: le16 7 ++ [0x22; 0; 0; 0])) /\
  exists s' m, gobi_handle 5 11 (GData (2 :: le16 7 ++ [0x22; 0; 0; 0])) (fresh_gobi <| g_clients := sample_clients |>) = Some (GNext, s') /\
    is_response r m = Some false.
Proof.
  cbv zeta. destruct (gobi_answers_own_service 5 sample_clients 3 13 1 11 0 7 [0x22; 0; 0; 0] 2 7 [0x22; 0; 0; 0] (fresh_gobi <| g_clients := sample_clients |>))
    as (H1 & s' & m & H2 & _ & _ & _ & _ & H3).
  1: apply (sample_owns 3); set_solver.
  1: apply (sample_owns 1); set_solver.
  1-6: done.
  1-2: by vm_compute.
  1-2: reflexivity.
  split; [exact H1|]. exists s', m. split; [exact H2|exact H3].
Defined.
Definition sample_run : list gobi_poll := [GReady [GTrigger (Some RIL_REQUEST_QUIT)]].
Definition sample_end : Gobi :=
  match GobiNetThread 5 sample_os 1 0 0 sample_run fresh_gobi with Some (_, s) => s | None => fresh_gobi end.
Theorem gobi_descriptors_conserved_witness :
  GobiNetThread 5 sample_os 1 0 0 sample_run fresh_gobi = Some (false, sample_end) /\
  filter (fun fd => fd <> -1) (closed (g_done sample_end)) ≡ₚ [11; 27; 12; 13; 21; 36].
Proof.
  assert (E : GobiNetThread 5 sample_os 1 0 0 sample_run fresh_gobi = Some (false, sample_end)) by (vm_compute; reflexivity).
  assert (Eo : opened sample_os (slots 1 0 0) = [11; 27; 12; 13; 21; 36]) by (vm_compute; reflexivity).
  split; [exact E|]. rewrite <- Eo.
  refine (proj1 (gobi_descriptors_conserved 5 sample_os 1 0 0 sample_run fresh_gobi sample_end false eq_refl eq_refl _ E)).
  by repeat constructor.
Defined.
Theorem gobi_thread_in_bounds_witness :
  exists s1, gobi_clients sample_os 1 0 0 fresh_gobi = Some (tt, s1) /\ g_clients s1 = sample_clients /\
    exists running s', GobiNetThread 5 sample_os 1 0 0 [GReady [GIdle; GData (replicate 5000 9)]] fresh_gobi = Some (running, s').
Proof.
  eexists. split; [reflexivity|]. split; [reflexivity|].
  destruct (gobi_thread_in_bounds 5 sample_os 1 0 0 [GReady [GIdle; GData (replicate 5000 9)]] fresh_gobi) as (H & _); [reflexivity|reflexivity|].
  apply (H (fresh_gobi <| g_clients := sample_clients |> <| g_done := [Closed 36] |>)); [reflexivity|].
  repeat constructor; done.
Defined.
Theorem gobi_unopened_is_connected_witness :
  exists s', GobiNetThread 5 unopened 0 0 0 [] fresh_gobi = Some (true, s') /\
    GobiNetSendQMI (g_clients s') 9 (enc_qmux 1 0xFF 0 1 0x20 (enc_tlvs [(1, [4])])) = Some (- ENODEV, None).
Proof.
  destruct (gobi_unopened_is_connected (heap := any_heap) 5 0 0 0 fresh_gobi globals_init 1 0x20 [(1, [4])] 9)
    as (s' & E & _ & _); [reflexivity|set_solver|by vm_compute|reflexivity|].
  exists s'. split; [exact E|]. injection E as <-. reflexivity.
Defined.
