(* ===== verification/Fm.v ===== *)
(** * gm-fm: the kernel modules that hand SM1, SM4, SM3 and random numbers to the Fisherman card.
    The card's kernel interface (fm_cpc_kpub.h, implemented by a module that is not in the sources) is the class [Fmk].  Every block cipher
    transform has a context of its own; the hash module has a single one, whatever the descriptor; the random number module
    holds a spin lock around its call. *)
From S2P Require Import Prelude Monad QmiRequests.
#[local] Open Scope Z_scope.
#[local] Open Scope c_scope.

Definition FME_OK : Z := 0.
Definition FM_ALGMODE_ECB : Z := 0.
Definition FM_ALG_SM1 : Z := 2.
Definition FM_ALG_SM4 : Z := 8.
Definition FM_HKEY_FROM_HOST : Z := 0x02ffffff.
Definition FM_DEV_TYPE_MINPCIE_1_0X : Z := 0xE500.
Definition FM_OPEN_SCH : Z := 0x10.
Definition FM_OPEN_SHARE : Z := 0x20.
Definition SM4_KEY_SIZE : Z := 16.
Definition SM4_BLOCK_SIZE : Z := 16.

(** What was done with the handles of a device: a handle was opened, with what [FMK_OpenDevice] returned, closed, or used. *)
Inductive dev_event := Opened (r h : Z) | Closed (h : Z) | Asked (h : Z).

(** The calls of the card, and the kernel's bit for a bad key length.  An operation that writes a buffer is given what it held.
    The n-th call of [FMK_OpenDevice] and of [FMK_GenRandom] may differ from the others; what the hash functions do may depend on all that was
    done with the handles before. *)
Class Fmk : Type := {
  CRYPTO_TFM_RES_BAD_KEY_LEN : Z;
  FMK_OpenDevice : nat -> Z -> Z -> Z -> Z * Z;
  FMK_CloseDevice : Z -> Z;
  FMK_Encrypt : Z -> Z -> Z -> Z -> bytes -> Z -> bytes -> bytes -> Z -> Z * bytes;
  FMK_Decrypt : Z -> Z -> Z -> Z -> bytes -> Z -> bytes -> bytes -> Z -> Z * bytes;
  FM_CPC_SM3_CTX : Type;
  FMK_SM3Init : list dev_event -> Z -> FM_CPC_SM3_CTX -> Z * FM_CPC_SM3_CTX;
  FMK_SM3Update : list dev_event -> Z -> bytes -> Z -> FM_CPC_SM3_CTX -> Z * FM_CPC_SM3_CTX;
  FMK_SM3Final : list dev_event -> Z -> bytes -> FM_CPC_SM3_CTX -> Z * bytes;
  FMK_GenRandom : nat -> Z -> Z -> bytes -> Z * bytes }.

Section Fm.
Context {card : Fmk}.

(** ** SM4 and SM1 *)
(** The transform: its context and its flags. *)
Record crypto_ctx := { key_enc : bytes; key_dec : bytes; hDev : Z; crt_flags : Z }.

(** Both set-key functions store the key twice and set the flag; they differ in what they return. *)
Definition set_key (ctx : crypto_ctx) (in_key : bytes) : option crypto_ctx :=
  k ← lds in_key 0 SM4_KEY_SIZE;
  Some {| key_enc := k; key_dec := k; hDev := hDev ctx; crt_flags := crt_flags ctx .| CRYPTO_TFM_RES_BAD_KEY_LEN |}.
Definition crypto_sm4_set_key (ctx : crypto_ctx) (in_key : bytes) (key_len : Z) : option (Z * crypto_ctx) :=
  c ← set_key ctx in_key; Some (0, c).
Definition crypto_sm1_set_key (ctx : crypto_ctx) (in_key : bytes) (key_len : Z) : option (Z * crypto_ctx) :=
  c ← set_key ctx in_key; Some (- EINVAL, c).

(** An error is printed and nothing else: the result is what the buffer then holds. *)
Definition fm_encrypt (alg : Z) (ctx : crypto_ctx) (out inp : bytes) : bytes :=
  snd (FMK_Encrypt (hDev ctx) FM_HKEY_FROM_HOST alg FM_ALGMODE_ECB inp SM4_BLOCK_SIZE out (key_enc ctx) SM4_KEY_SIZE).
Definition fm_decrypt (alg : Z) (ctx : crypto_ctx) (out inp : bytes) : bytes :=
  snd (FMK_Decrypt (hDev ctx) FM_HKEY_FROM_HOST alg FM_ALGMODE_ECB inp SM4_BLOCK_SIZE out (key_enc ctx) SM4_KEY_SIZE).
Definition sm4_encrypt : crypto_ctx -> bytes -> bytes -> bytes := fm_encrypt FM_ALG_SM4.
Definition sm4_decrypt : crypto_ctx -> bytes -> bytes -> bytes := fm_decrypt FM_ALG_SM4.
Definition sm1_encrypt : crypto_ctx -> bytes -> bytes -> bytes := fm_encrypt FM_ALG_SM1.
Definition sm1_decrypt : crypto_ctx -> bytes -> bytes -> bytes := fm_decrypt FM_ALG_SM1.

(** The device handle of a new transform. *)
Definition open_device (n : nat) : Z * Z := FMK_OpenDevice n 0 FM_DEV_TYPE_MINPCIE_1_0X (FM_OPEN_SCH .| FM_OPEN_SHARE).
Definition _vpn_sm4_init (n : nat) (ctx : crypto_ctx) : Z * crypto_ctx :=
  let '(u32Ret, h) := open_device n in
  (if u32Ret =? FME_OK then 0 else s32 u32Ret, {| key_enc := key_enc ctx; key_dec := key_dec ctx; hDev := h; crt_flags := crt_flags ctx |}).
Definition _vpn_sm4_cleanup (ctx : crypto_ctx) : Z := FMK_CloseDevice (hDev ctx).

(** ** SM3 *)
(** The global [sm3_ctx], and what was done with the handles. *)
Record shash_sm3 := { sm3_hDev : Z; SM3Ctx : FM_CPC_SM3_CTX; sm3_events : list dev_event }.
Abbreviation M3 := (M shash_sm3).
Definition set_ctx (c : FM_CPC_SM3_CTX) : M3 unit := modify (fun s => {| sm3_hDev := sm3_hDev s; SM3Ctx := c; sm3_events := sm3_events s |}).
Definition sm3_event (e : dev_event) : M3 unit :=
  modify (fun s => {| sm3_hDev := sm3_hDev s; SM3Ctx := SM3Ctx s; sm3_events := sm3_events s ++ [e] |}).
(** The handle is used for a call. *)
Definition sm3_asks {A} (f : list dev_event -> Z -> FM_CPC_SM3_CTX -> A) : M3 A :=
  a ← gets (fun s => f (sm3_events s) (sm3_hDev s) (SM3Ctx s)); h ← gets sm3_hDev; sm3_event (Asked h);; mret a.

(** The descriptor only provides a context that is not used. *)
Definition sm3_init : M3 Z :=
  '(r, c) ← sm3_asks FMK_SM3Init;
  set_ctx c;; mret (s32 r).
Definition sm3_update (data : bytes) (len : Z) : M3 Z :=
  '(r, c) ← sm3_asks (fun l h c => FMK_SM3Update l h data len c);
  set_ctx c;; mret (s32 r).
Definition sm3_final (out : bytes) : M3 (Z * bytes) :=
  '(r, out) ← sm3_asks (fun l h c => FMK_SM3Final l h out c);
  mret (s32 r, out).
Definition sm3_finup (data : bytes) (len : Z) (out : bytes) : M3 (Z * bytes) :=
  _ ← sm3_init; _ ← sm3_update data len; sm3_final out.
(** How often the device was opened. *)
Definition sm3_opens (s : shash_sm3) : nat := length (filter (fun e => match e with Opened _ _ => true | _ => false end = true) (sm3_events s)).
Definition _vpn_sm3_init : M3 Z :=
  '(r, h) ← gets (fun s => open_device (sm3_opens s));
  modify (fun s => {| sm3_hDev := h; SM3Ctx := SM3Ctx s; sm3_events := sm3_events s ++ [Opened r h] |});;
  mret (if r =? FME_OK then 0 else s32 r).
Definition _vpn_sm3_cleanup : M3 unit := h ← gets sm3_hDev; sm3_event (Closed h).

(** What the kernel calls, in any order. *)
Inductive sm3_op := TfmInit | TfmExit | Init | Update (data : bytes) | Final (out : bytes) | Finup (data out : bytes).
#[export] Instance sm3_op_eq : EqDecision sm3_op.
Proof. solve_decision. Defined.
(** Result: the return value, and the buffer of a digest. *)
Definition sm3_call (o : sm3_op) : M3 (Z * option bytes) :=
  match o with
  | TfmInit => r ← _vpn_sm3_init; mret (r, None)
  | TfmExit => _vpn_sm3_cleanup;; mret (0, None)
  | Init => r ← sm3_init; mret (r, None)
  | Update data => r ← sm3_update data (zlen data); mret (r, None)
  | Final out => '(r, d) ← sm3_final out; mret (r, Some d)
  | Finup data out => '(r, d) ← sm3_finup data (zlen data) out; mret (r, Some d)
  end.
Fixpoint sm3_calls (l : list sm3_op) : M3 (list (Z * option bytes)) :=
  match l with [] => mret [] | o :: l => r ← sm3_call o; rs ← sm3_calls l; mret (r :: rs) end.

(** ** Random numbers *)
(** [vpn_rng_ctx]: the handle, whether the lock is held, and how often the card was asked. *)
Record vpn_rng_ctx := { rng_hDev : Z; vpn_rng_lock : bool; rng_asked : nat }.
(** [spin_lock] spins for ever on a lock that is never released: there is no next state. *)
Definition spin_lock (s : vpn_rng_ctx) : option vpn_rng_ctx :=
  if vpn_rng_lock s then None else Some {| rng_hDev := rng_hDev s; vpn_rng_lock := true; rng_asked := rng_asked s |}.
Definition spin_unlock (s : vpn_rng_ctx) : vpn_rng_ctx :=
  {| rng_hDev := rng_hDev s; vpn_rng_lock := false; rng_asked := rng_asked s |}.
(** Result: the return value and the buffer, and the state; nothing when the call never returns. *)
Definition vpn_rng_get_random (rdata : bytes) (s : vpn_rng_ctx) : option (Z * bytes * vpn_rng_ctx) :=
  s ← spin_lock s;
  let '(u32Ret, r) := FMK_GenRandom (rng_asked s) (rng_hDev s) (zlen rdata) rdata in
  let s := {| rng_hDev := rng_hDev s; vpn_rng_lock := vpn_rng_lock s; rng_asked := S (rng_asked s) |} in
  if negb (u32Ret =? FME_OK) then Some (s32 u32Ret, r, s) else Some (0, r, spin_unlock s).
Definition _vpn_rng_init (n : nat) (s : vpn_rng_ctx) : Z * vpn_rng_ctx :=
  let '(u32Ret, h) := open_device n in
  if negb (u32Ret =? FME_OK) then (s32 u32Ret, {| rng_hDev := h; vpn_rng_lock := vpn_rng_lock s; rng_asked := rng_asked s |})
  else (0, {| rng_hDev := h; vpn_rng_lock := false; rng_asked := rng_asked s |}).
(** Result: what [FMK_CloseDevice] returned, and the state. *)
Definition _vpn_rng_cleanup (s : vpn_rng_ctx) : option (Z * vpn_rng_ctx) :=
  s ← spin_lock s; Some (FMK_CloseDevice (rng_hDev s), spin_unlock s).
Definition _vpn_rng_reset (seed : bytes) : Z := 0.
(** The requests of a series of callers, one after the other: the answers of those that returned. *)
Fixpoint rng_requests (l : list bytes) (s : vpn_rng_ctx) : list (Z * bytes) * option vpn_rng_ctx :=
  match l with
  | [] => ([], Some s)
  | rdata :: l =>
      match vpn_rng_get_random rdata s with
      | Some (r, b, s) => let '(rs, s) := rng_requests l s in ((r, b) :: rs, s)
      | None => ([], None)
      end
  end.
End Fm.
