(* ===== verification/FmSpec.v ===== *)
(** * The Fisherman modules of Fm.v on a card that does what its interface says: the block cipher against the software module, the hash
    module as one hash that all descriptors share, and the random number module when the card fails once. *)
From S2P Require Import Prelude Gm Sm4 Sm3 Monad Fm.
#[local] Open Scope Z_scope.
#[local] Open Scope c_scope.



(** ** The hash *)
(** A handle that is open: the last thing done to it was to open it. *)
Definition is_open (l : list dev_event) (h : Z) : bool :=
  foldl (fun b e => match e with Opened r h' => if h' =? h then r =? FME_OK else b | Closed h' => if h' =? h then false else b | Asked _ => b end) false l.
(** Only open handles are used and closed. *)
Definition proper (l : list dev_event) : Prop :=
  forall p e q, l = p ++ e :: q -> match e with Asked h | Closed h => is_open p h = true | Opened _ _ => True end.

Lemma is_open_opened l h : is_open (l ++ [Opened FME_OK h]) h = true.
Proof. unfold is_open. rewrite foldl_app. cbn [foldl]. by rewrite Z.eqb_refl. Qed.
Lemma is_open_closed l h : is_open (l ++ [Closed h]) h = false.
Proof. unfold is_open. rewrite foldl_app. cbn [foldl]. by rewrite Z.eqb_refl. Qed.
Lemma is_open_asked l h h' : is_open (l ++ [Asked h']) h = is_open l h.
Proof. unfold is_open. by rewrite foldl_app. Qed.
Lemma proper_snoc l e : proper l -> match e with Asked h | Closed h => is_open l h = true | Opened _ _ => True end -> proper (l ++ [e]).
Proof.
  intros Hl He p e' q E. destruct q as [|x q _] using rev_ind.
  - apply app_inj_tail in E as [-> ->]. exact He.
  - rewrite app_comm_cons, app_assoc in E. apply app_inj_tail in E as [E _]. by apply (Hl p e' q).
Qed.

(** A card that hashes: the context made with an open handle stands for the bytes taken so far, as long as it is used with that handle and the
    handle is open; the length is a word of 32 bits.  Opening the device works. *)
Class Sm3Card (card : Fmk) : Type := {
  takes : Z -> FM_CPC_SM3_CTX -> bytes -> Prop;
  card_starts : forall l h c, is_open l h = true -> exists c', FMK_SM3Init l h c = (FME_OK, c') /\ takes h c' [];
  card_takes : forall l h d c m, is_open l h = true -> takes h c m -> zlen (m ++ d) < 2 ^ 32 ->
    exists c', FMK_SM3Update l h d (zlen d) c = (FME_OK, c') /\ takes h c' (m ++ d);
  card_hashes : forall l h out c m, is_open l h = true -> takes h c m -> FMK_SM3Final l h out c = (FME_OK, spec_hash m);
  card_opens : forall n a b c, exists h, FMK_OpenDevice n a b c = (FME_OK, h) }.

(** One hash: whether the handle is open, and the bytes since the hash was last started by anybody ([None]: not since the handle was opened).  The
    result of a call, and what it leaves; nothing is promised for a hash without an open handle, for an update or a digest of one that was
    not started, and for 2^32 bytes and more. *)
Record one_hash := { oh_open : bool; oh_bytes : option bytes }.
Definition spec_op (o : sm3_op) (st : one_hash) : option (Z * option bytes * one_hash) :=
  match o with
  | TfmInit => Some (0, None, {| oh_open := true; oh_bytes := None |})
  | _ => if negb (oh_open st) then None else
    let hashing m := {| oh_open := true; oh_bytes := Some m |} in
    match o with
    | TfmInit | TfmExit => Some (0, None, {| oh_open := false; oh_bytes := None |})
    | Init => Some (0, None, hashing [])
    | Update d => m ← oh_bytes st; if zlen (m ++ d) <? 2 ^ 32 then Some (0, None, hashing (m ++ d)) else None
    | Final _ => m ← oh_bytes st; Some (0, Some (spec_hash m), hashing m)
    | Finup d _ => if zlen d <? 2 ^ 32 then Some (0, Some (spec_hash d), hashing d) else None
    end
  end.
Fixpoint spec_ops (l : list sm3_op) (st : one_hash) : option (list (Z * option bytes) * one_hash) :=
  match l with
  | [] => Some ([], st)
  | o :: l => '(r, st) ← spec_op o st; '(rs, st) ← spec_ops l st; Some (r :: rs, st)
  end.

Section Hash.
Context {card : Fmk} {laws : Sm3Card card}.
(** The state of the module, which has used only open handles. *)
Record stands_for (s : shash_sm3) (st : one_hash) : Prop := {
  sf_open : oh_open st = true -> is_open (sm3_events s) (sm3_hDev s) = true;
  sf_bytes m : oh_bytes st = Some m -> takes (sm3_hDev s) (SM3Ctx s) m;
  sf_proper : proper (sm3_events s) }.

(** The state after a call of the card. *)
Definition after_ask (s : shash_sm3) (c : FM_CPC_SM3_CTX) : shash_sm3 :=
  {| sm3_hDev := sm3_hDev s; SM3Ctx := c; sm3_events := sm3_events s ++ [Asked (sm3_hDev s)] |}.
Lemma asks_run {A} (f : list dev_event -> Z -> FM_CPC_SM3_CTX -> A) s :
  sm3_asks f s = Some (f (sm3_events s) (sm3_hDev s) (SM3Ctx s), after_ask s (SM3Ctx s)).
Proof. done. Qed.
Lemma after_stands s c m st : stands_for s st -> oh_open st = true -> takes (sm3_hDev s) c m ->
  stands_for (after_ask s c) {| oh_open := true; oh_bytes := Some m |}.
Proof.
  intros [Ho _ Hp] Eo Ht. split; cbn [after_ask sm3_events sm3_hDev SM3Ctx oh_open oh_bytes].
  - intros _. rewrite is_open_asked. by apply Ho.
  - by intros ? [= <-].
  - apply proper_snoc; [done | by apply Ho].
Qed.

Lemma sm3_init_run s st : stands_for s st -> oh_open st = true ->
  exists s', sm3_init s = Some (0, s') /\ stands_for s' {| oh_open := true; oh_bytes := Some [] |}.
Proof.
  intros Hs Ho. unfold sm3_init, set_ctx. erewrite bind_step by apply asks_run.
  destruct (card_starts (sm3_events s) (sm3_hDev s) (SM3Ctx s)) as (c & E & H); [by apply Hs|]. rewrite E.
  rewrite bind_modify. exists (after_ask s c). split; [done|]. by eapply after_stands.
Qed.
Lemma sm3_update_run s d m : stands_for s {| oh_open := true; oh_bytes := Some m |} -> zlen (m ++ d) < 2 ^ 32 ->
  exists s', Fm.sm3_update d (zlen d) s = Some (0, s') /\ stands_for s' {| oh_open := true; oh_bytes := Some (m ++ d) |}.
Proof.
  intros Hs Hl. unfold Fm.sm3_update, set_ctx. erewrite bind_step by apply asks_run.
  destruct (card_takes (sm3_events s) (sm3_hDev s) d (SM3Ctx s) m) as (c & E & H); [by apply Hs | by apply Hs | done|]. rewrite E.
  rewrite bind_modify. exists (after_ask s c). split; [done|]. by eapply after_stands.
Qed.
Lemma sm3_final_run s out m : stands_for s {| oh_open := true; oh_bytes := Some m |} ->
  exists s', sm3_final out s = Some ((0, spec_hash m), s') /\ stands_for s' {| oh_open := true; oh_bytes := Some m |}.
Proof.
  intros Hs. unfold sm3_final. erewrite bind_step by apply asks_run. rewrite (card_hashes _ _ _ _ m) by by apply Hs.
  exists (after_ask s (SM3Ctx s)). split; [done|]. eapply after_stands; [done | done | by apply Hs].
Qed.

Lemma sm3_calls_step o l r rs s s1 s2 : sm3_call o s = Some (r, s1) -> sm3_calls l s1 = Some (rs, s2) -> sm3_calls (o :: l) s = Some (r :: rs, s2).
Proof. intros E1 E2. cbn [sm3_calls]. by rewrite (bind_step _ _ _ _ _ E1), (bind_step _ _ _ _ _ E2). Qed.
(** A transform is opened. *)
Lemma tfm_init_run s : exists h, open_device (sm3_opens s) = (FME_OK, h) /\
  sm3_call TfmInit s = Some ((0, None), {| sm3_hDev := h; SM3Ctx := SM3Ctx s; sm3_events := sm3_events s ++ [Opened FME_OK h] |}).
Proof.
  destruct (card_opens (sm3_opens s) 0 FM_DEV_TYPE_MINPCIE_1_0X (FM_OPEN_SCH .| FM_OPEN_SHARE)) as [h E]. fold (open_device (sm3_opens s)) in E.
  exists h. split; [exact E|]. cbn [sm3_call]. unfold _vpn_sm3_init. erewrite bind_step; [|rewrite bind_gets, E, bind_modify; reflexivity]. reflexivity.
Qed.
Lemma tfm_exit_run s : sm3_call TfmExit s =
  Some ((0, None), {| sm3_hDev := sm3_hDev s; SM3Ctx := SM3Ctx s; sm3_events := sm3_events s ++ [Closed (sm3_hDev s)] |}).
Proof. done. Qed.
Lemma init_asks s : exists r s', sm3_call Init s = Some (r, s') /\ sm3_events s' = sm3_events s ++ [Asked (sm3_hDev s)].
Proof.
  unfold sm3_call, sm3_init, set_ctx. destruct (FMK_SM3Init (sm3_events s) (sm3_hDev s) (SM3Ctx s)) as [r c] eqn:E.
  eexists _, _. split.
  - erewrite bind_step; [reflexivity|]. erewrite bind_step by apply asks_run. rewrite E, bind_modify. reflexivity.
  - done.
Qed.
(** Two transforms, of which one is released: the other is used with the handle that was closed. *)
Lemma released_transform s : exists rs s', sm3_calls [TfmInit; TfmInit; TfmExit; Init] s = Some (rs, s') /\ ~ proper (sm3_events s').
Proof.
  destruct (tfm_init_run s) as (h1 & _ & E1). destruct (tfm_init_run {| sm3_hDev := h1; SM3Ctx := SM3Ctx s; sm3_events := sm3_events s ++ [Opened FME_OK h1] |})
    as (h2 & _ & E2). cbn [SM3Ctx sm3_events] in E2. eassert (E3 := tfm_exit_run _).
  edestruct init_asks as (r & s' & E4 & Ev).
  eexists _, s'. split.
  - eapply sm3_calls_step; [exact E1|]. eapply sm3_calls_step; [exact E2|]. eapply sm3_calls_step; [exact E3|]. by eapply sm3_calls_step.
  - rewrite Ev. cbn [sm3_events sm3_hDev]. intros Hp. specialize (Hp _ _ [] eq_refl). cbn beta iota in Hp. by rewrite is_open_closed in Hp.
Qed.
(** When both are released, the handle of the first was never closed, that of the second twice. *)
Lemma released_both s : exists h1 h2 rs s', sm3_calls [TfmInit; TfmInit; TfmExit; TfmExit] s = Some (rs, s') /\
  sm3_events s' = sm3_events s ++ [Opened FME_OK h1; Opened FME_OK h2; Closed h2; Closed h2].
Proof.
  destruct (tfm_init_run s) as (h1 & _ & E1). destruct (tfm_init_run {| sm3_hDev := h1; SM3Ctx := SM3Ctx s; sm3_events := sm3_events s ++ [Opened FME_OK h1] |})
    as (h2 & _ & E2). exists h1, h2. eexists _, _. split.
  - eapply sm3_calls_step; [exact E1|]. eapply sm3_calls_step; [exact E2|]. reflexivity.
  - cbn. by rewrite <- !app_assoc.
Qed.

Lemma sm3_call_run o st r st' s : spec_op o st = Some (r, st') -> stands_for s st ->
  exists s', sm3_call o s = Some (r, s') /\ stands_for s' st'.
Proof.
  intros E Hs. destruct (decide (o = TfmInit)) as [->|No].
  { injection E as <- <-. destruct (tfm_init_run s) as (h & _ & Eh). eexists. split; [exact Eh|].
    split; cbn [sm3_events sm3_hDev oh_open oh_bytes]; [intros _; apply is_open_opened | done | apply proper_snoc; [apply Hs | done]]. }
  destruct st as [[] m]; [|by destruct o]. destruct o as [| | |d|out|d out]; cbn [spec_op sm3_call oh_open oh_bytes negb] in *; try done.
  - injection E as <- <-. eexists. split; [reflexivity|]. split; cbn [after_ask sm3_events sm3_hDev SM3Ctx oh_open oh_bytes]; [done | done|]. apply proper_snoc; by apply Hs.
  - injection E as <- <-. destruct (sm3_init_run s _ Hs eq_refl) as (s' & E & H). exists s'. by rewrite (bind_step _ _ _ _ _ E).
  - destruct m as [m|]; [|done]. cbn [mbind option_bind] in E. destruct (Z.ltb_spec (zlen (m ++ d)) (2 ^ 32)); [|done]. injection E as <- <-.
    destruct (sm3_update_run s d m Hs) as (s' & E & H'); [done|]. exists s'. by rewrite (bind_step _ _ _ _ _ E).
  - destruct m as [m|]; [|done]. injection E as <- <-. destruct (sm3_final_run s out m Hs) as (s' & E & H). exists s'. by rewrite (bind_step _ _ _ _ _ E).
  - destruct (Z.ltb_spec (zlen d) (2 ^ 32)); [|done]. injection E as <- <-.
    destruct (sm3_init_run s _ Hs eq_refl) as (s1 & E1 & H1). destruct (sm3_update_run s1 d [] H1) as (s2 & E2 & H2); [done|].
    destruct (sm3_final_run s2 out d H2) as (s3 & E3 & H3).
    exists s3. split; [|exact H3]. unfold Fm.sm3_finup. rewrite (bind_step _ _ s (0, spec_hash d) s3); [done|].
    rewrite (bind_step _ _ _ _ _ E1), (bind_step _ _ _ _ _ E2). exact E3.
Qed.
End Hash.

(** C17: the module is one hash.  Whatever descriptors the calls are made for, in whatever order: while the handle that was opened last is open, the
    digest is the standard's SM3 of all bytes given since the hash was last started by any of them, a one-shot digest is that of its data, and the card
    is asked with open handles only.  That ends when any transform is released: of two transforms, the one that is left asks the card with a handle
    that is closed. *)
Theorem fm_sm3_is_one_hash {card : Fmk} {laws : Sm3Card card} l st rs st' s :
  spec_ops l st = Some (rs, st') -> stands_for s st ->
  (exists s', sm3_calls l s = Some (rs, s') /\ stands_for s' st') /\
  exists rs1 s1, sm3_calls [TfmInit; TfmInit; TfmExit; Init] s = Some (rs1, s1) /\ ~ proper (sm3_events s1).
Proof.
  intros E Hs. split.
  - revert st rs s E Hs. induction l as [|o l IH]; intros st rs s E Hs; cbn [spec_ops sm3_calls] in *.
    + injection E as <- <-. by exists s.
    + destruct (spec_op o st) as [[r st1]|] eqn:E1; [|done]. cbn [mbind option_bind] in E.
      destruct (spec_ops l st1) as [[rs1 st2]|] eqn:E2; [|done]. injection E as <- <-.
      destruct (sm3_call_run o st r st1 s E1 Hs) as (s1 & Ec & H1). destruct (IH st1 rs1 s1 E2 H1) as (s2 & Er & H2).
      exists s2. split; [by eapply sm3_calls_step | exact H2].
  - apply released_transform.
Qed.

(** Used by one descriptor at a time it computes that descriptor's digest; *)
Lemma spec_ops_app l1 l2 st rs1 st1 rs2 st2 : spec_ops l1 st = Some (rs1, st1) -> spec_ops l2 st1 = Some (rs2, st2) ->
  spec_ops (l1 ++ l2) st = Some (rs1 ++ rs2, st2).
Proof.
  revert st rs1. induction l1 as [|o l1 IH]; intros st rs1 E1 E2; cbn [spec_ops app] in *.
  - by injection E1 as <- <-.
  - destruct (spec_op o st) as [[r st']|]; [|done]. cbn [mbind option_bind] in *.
    destruct (spec_ops l1 st') as [[rs st'']|] eqn:E; [|done]. injection E1 as <- <-. by rewrite (IH _ _ E E2).
Qed.
(** The hash with some bytes taken. *)
Definition hashing (m : bytes) : one_hash := {| oh_open := true; oh_bytes := Some m |}.
Lemma spec_updates ds m : zlen (m ++ concat ds) < 2 ^ 32 ->
  spec_ops (map Update ds) (hashing m) = Some (replicate (length ds) (0, None), hashing (m ++ concat ds)).
Proof.
  revert m. induction ds as [|d ds IH]; intros m Hl; cbn [map spec_ops spec_op concat length replicate hashing oh_open oh_bytes negb] in *.
  - by rewrite app_nil_r.
  - rewrite app_assoc in Hl |- *. cbn [mbind option_bind]. destruct (Z.ltb_spec (zlen (m ++ d)) (2 ^ 32)) as [_|H].
    + cbn [mbind option_bind]. fold (hashing (m ++ d)). by rewrite IH.
    + rewrite zlen_app in Hl. unfold zlen in *. lia.
Qed.
Lemma spec_exclusive ds out st : oh_open st = true -> zlen (concat ds) < 2 ^ 32 ->
  spec_ops (Init :: map Update ds ++ [Final out]) st =
  Some ((0, None) :: replicate (length ds) (0, None) ++ [(0, Some (spec_hash (concat ds)))], hashing (concat ds)).
Proof.
  intros Ho Hl. cbn [spec_ops spec_op]. rewrite Ho. cbn [negb mbind option_bind]. fold (hashing []).
  by rewrite (spec_ops_app _ [Final out] _ _ _ [(0, Some (spec_hash (concat ds)))] (hashing (concat ds)) (spec_updates ds [] Hl)).
Qed.
(** with two at once, both get the digest of the one that started last. *)
Lemma spec_interleaved a b o1 o2 st : oh_open st = true -> zlen a < 2 ^ 32 -> zlen b < 2 ^ 32 ->
  spec_ops [Init; Update a; Init; Update b; Final o1; Final o2] st =
  Some ([(0, None); (0, None); (0, None); (0, None); (0, Some (spec_hash b)); (0, Some (spec_hash b))], hashing b).
Proof.
  intros Ho Ha Hb. apply Z.ltb_lt in Ha, Hb. cbn [spec_ops spec_op]. rewrite Ho. cbn [negb oh_open oh_bytes mbind option_bind app]. rewrite Ha.
  cbn [negb oh_open oh_bytes mbind option_bind app]. by rewrite Hb.
Qed.

(** ** Random numbers *)
Section Rng.
Context {card : Fmk}.

(** The answers of the card to a series of requests. *)
Fixpoint answers (h : Z) (n : nat) (l : list bytes) : list (Z * bytes) :=
  match l with [] => [] | x :: l => FMK_GenRandom n h (zlen x) x :: answers h (S n) l end.
Definition served (n : nat) (s : vpn_rng_ctx) : vpn_rng_ctx :=
  {| rng_hDev := rng_hDev s; vpn_rng_lock := false; rng_asked := n + rng_asked s |}.

Lemma rng_requests_served l l2 s :
  vpn_rng_lock s = false -> Forall (fun a => a.1 = FME_OK) (answers (rng_hDev s) (rng_asked s) l) ->
  rng_requests (l ++ l2) s =
  (let '(rs, s') := rng_requests l2 (served (length l) s) in (answers (rng_hDev s) (rng_asked s) l ++ rs, s')).
Proof.
  revert s. induction l as [|x l IH]; intros s Hs HF.
  - destruct s as [h k n]. cbn in Hs. subst k. cbn [answers app length served rng_hDev rng_asked Nat.add]. unfold served. cbn.
    by destruct (rng_requests l2 _).
  - cbn [answers app rng_requests length] in *. apply Forall_cons in HF as [Hx HF]. unfold vpn_rng_get_random, spin_lock. rewrite Hs.
    cbn [mbind option_bind rng_asked rng_hDev vpn_rng_lock]. destruct (FMK_GenRandom _ _ _ x) as [r b]. cbn in Hx. subst r.
    change (negb (FME_OK =? FME_OK)) with false. cbv iota.
    rewrite (IH (spin_unlock _)) by done. cbn [spin_unlock rng_hDev rng_asked].
    replace (served (length l) _) with (served (S (length l)) s); [by destruct (rng_requests l2 _)|].
    unfold served. cbn. f_equal. lia.
Qed.
End Rng.

(** One failure of the card ends the random number service.  As long as the card answers, every request is
    served and the lock is free afterwards; the first request that it refuses returns its error with the lock held, and from then on no
    request returns, nor does the clean-up. *)
Theorem fm_rng_failure_is_final {card : Fmk} l x y l2 s r b :
  vpn_rng_lock s = false -> Forall (fun a => a.1 = FME_OK) (answers (rng_hDev s) (rng_asked s) l) ->
  FMK_GenRandom (length l + rng_asked s) (rng_hDev s) (zlen x) x = (r, b) -> r <> FME_OK ->
  rng_requests l s = (answers (rng_hDev s) (rng_asked s) l, Some (served (length l) s)) /\
  rng_requests (l ++ x :: y :: l2) s = (answers (rng_hDev s) (rng_asked s) l ++ [(s32 r, b)], None) /\
  exists s', rng_requests (l ++ [x]) s = (answers (rng_hDev s) (rng_asked s) l ++ [(s32 r, b)], Some s') /\ _vpn_rng_cleanup s' = None.
Proof.
  intros Hs HF Hx Hr.
  assert (E : vpn_rng_get_random x (served (length l) s) =
    Some (s32 r, b, {| rng_hDev := rng_hDev s; vpn_rng_lock := true; rng_asked := S (length l + rng_asked s) |})).
  { unfold vpn_rng_get_random. cbn [spin_lock served vpn_rng_lock mbind option_bind rng_asked rng_hDev]. rewrite Hx.
    by rewrite (proj2 (Z.eqb_neq _ _)). }
  split_and!.
  - rewrite <- (app_nil_r l) at 1. rewrite rng_requests_served by done. cbn [rng_requests]. by rewrite app_nil_r.
  - rewrite rng_requests_served by done. cbn [rng_requests]. by rewrite E.
  - eexists. rewrite rng_requests_served by done. cbn [rng_requests]. rewrite E. split; reflexivity.
Qed.

(** ** A card *)
Definition ideal_card : Fmk := {|
  CRYPTO_TFM_RES_BAD_KEY_LEN := 0x200000;
  FMK_OpenDevice n _ _ _ := (FME_OK, Z.of_nat n + 1);
  FMK_CloseDevice _ := FME_OK;
  FMK_Encrypt _ _ _ _ inp _ _ key _ := (FME_OK, spec_crypt (spec_round_keys key) inp);
  FMK_Decrypt _ _ _ _ inp _ _ key _ := (FME_OK, spec_crypt (reverse (spec_round_keys key)) inp);
  FM_CPC_SM3_CTX := bytes;
  FMK_SM3Init l h c := if is_open l h then (FME_OK, []) else (1, c);
  FMK_SM3Update l h d _ c := if is_open l h then (FME_OK, c ++ d) else (1, c);
  FMK_SM3Final l h out c := if is_open l h then (FME_OK, spec_hash c) else (1, out);
  FMK_GenRandom n _ len _ := (if (n =? 2)%nat then 5 else FME_OK, replicate (Z.to_nat len) 4) |}.
Definition ideal_sm3 : Sm3Card ideal_card.
Proof.
  refine {| takes := (fun _ (c : bytes) m => c = m) : Z -> @FM_CPC_SM3_CTX ideal_card -> bytes -> Prop |}.
  - intros l h c Ho. exists []. cbn. by rewrite Ho.
  - intros l h d c m Ho <- _. cbn. rewrite Ho. by eexists.
  - intros l h out c m Ho <-. cbn. by rewrite Ho.
  - intros n a b c. by eexists.
Defined.

(** The module when it was loaded: no handle, a context that stands for nothing. *)
Definition hash_fresh : @shash_sm3 ideal_card := @Build_shash_sm3 ideal_card 0 ([7; 7] : bytes) [].
Definition not_open : one_hash := {| oh_open := false; oh_bytes := None |}.
Lemma hash_fresh_stands : @stands_for ideal_card ideal_sm3 hash_fresh not_open.
Proof. split; [done | done|]. intros [] e q E; discriminate E. Qed.
Theorem fm_sm3_is_one_hash_witness :
  exists s', sm3_calls (card := ideal_card) [TfmInit; Init; Update (take 5 abcd16); Update (drop 5 abcd16); Final []] hash_fresh =
    Some ([(0, None); (0, None); (0, None); (0, None); (0, Some (spec_hash abcd16))], s').
Proof.
  destruct (fm_sm3_is_one_hash (card := ideal_card) (laws := ideal_sm3) [TfmInit; Init; Update (take 5 abcd16); Update (drop 5 abcd16); Final []] not_open
    [(0, None); (0, None); (0, None); (0, None); (0, Some (spec_hash abcd16))] (hashing abcd16) hash_fresh eq_refl hash_fresh_stands) as [(s' & E & _) _].
  exists s'. exact E.
Defined.
Theorem fm_rng_failure_is_final_witness :
  rng_requests (card := ideal_card) [[0; 0]; [0]; [0]; [0]; [0]] {| rng_hDev := 1; vpn_rng_lock := false; rng_asked := 0 |} =
    ([(0, [4; 4]); (0, [4]); (5, [4])], None).
Proof.
  apply (fm_rng_failure_is_final (card := ideal_card) [[0; 0]; [0]] [0] [0] [[0]] {| rng_hDev := 1; vpn_rng_lock := false; rng_asked := 0 |} 5 [4]);
    [reflexivity | by repeat constructor | reflexivity | discriminate].
Defined.
