(* ===== verification/Ubus.v ===== *)
(** * ubus.c: the answer to the "status" method.
    The status record (Cm.v) is read into variables of the stack and put into the reply.  The message the library builds is a list of named
    values and tables; [char] is signed on some machines and not on others ([CharSign]). *)
From S2P Require Import Prelude Util QmiRequests Cm Text Layout QmiStructs.
From Stdlib Require Import String.
#[local] Open Scope Z_scope.
#[local] Open Scope c_scope.

#[local] Set Warnings "-register-all".

Class CharSign : Type := { char_signed : bool }.

(** What the reply is made of. *)
Inductive blobmsg := BString (name : string) (v : bytes) | BU16 (name : string) (v : Z) | BTable (name : string) (l : list blobmsg).

(** What the stack holds in the variables when the method is called: five strings of 32 bytes, one of 16, and the union. *)
Record stack := { k_devid : bytes; k_imei : bytes; k_iccid : bytes; k_imsi : bytes; k_stat : bytes; k_cap : bytes; k_sig : bytes }.

Definition of_char {cs : CharSign} (b : Z) : Z := if char_signed && (128 <=? b) then b - 256 else b.
Definition s16 (v : Z) : Z := if v <? 2 ^ 15 then v else v - 2 ^ 16.
Definition dbm (n : Z) : bytes := dec_signed n ++ str " dBm".
(** [%.1lf] of a number of tenths; the sign is printed for a negative zero as well. *)
Definition fixed1 (neg : bool) (tenths : Z) : bytes :=
  (if neg then [45] else []) ++ dec (tenths / 10) ++ 46 :: dec (tenths mod 10).

Section Ubus.
Context {host : Host} {cs : CharSign}.

(** The signal table.  The fields of the TLV are used as they are stored. *)
Definition signal_rssi (sig : bytes) : option blobmsg := r ← ld sig (QMINAS_SIG_INFO_CDMA_TLV_MSG∙"rssi"); Some (BString "rssi" (dbm (of_char r))).
Definition signal_table (clas : Z) (sig : bytes) : option (list blobmsg) :=
  if (clas =? CM_CDMA) || (clas =? CM_WCDMA) then
    rssi ← signal_rssi sig;
    e ← ld16 sig (QMINAS_SIG_INFO_CDMA_TLV_MSG∙"ecio"); let e := s16 e in
    (* -0.5 * ecio; for 0 it is the negative zero *)
    Some [rssi; BString "ecio" (fixed1 (0 <=? e) (5 * Z.abs e) ++ str " dBm")]
  else if (clas =? CM_HDR) || (clas =? CM_GSM) then rssi ← signal_rssi sig; Some [rssi]
  else if clas =? CM_LTE then
    rssi ← signal_rssi sig;
    rsrq ← ld sig (QMINAS_SIG_INFO_LTE_TLV_MSG∙"rsrq"); rsrp ← ld16 sig (QMINAS_SIG_INFO_LTE_TLV_MSG∙"rsrp");
    snr ← ld16 sig (QMINAS_SIG_INFO_LTE_TLV_MSG∙"snr"); let snr := s16 snr in
    Some [rssi; BString "rsrq" (dbm (of_char rsrq)); BString "rsrp" (dbm (s16 rsrp));
          BString "snr" (fixed1 (snr <? 0) (Z.abs snr) ++ str " dB")]
  else Some [].

(** Result: the reply, or nothing when the system information is not to be had. *)
Definition get_cm_status (sysinfo_ok localtime_ok : bool) (k : stack) (c : cm) : option (option (list blobmsg)) :=
  if negb sysinfo_ok then Some None else
  if negb localtime_ok then Some None else
  let conn := cm_read c in
  '(devid, imei) ← bb_read (bb_status c) (Some (k_devid k)) (Some (k_imei k));
  '(stat, iccid, imsi) ← sim_read (sim_status c) (Some (k_stat k)) (Some (k_iccid k)) (Some (k_imsi k));
  '(mcc, mnc, ps, cap, clas, sig) ← reg_state_read (reg_status c) (Some (k_cap k));
  sig ← match sig with Some s => sts (k_sig k) 0 s | None => Some (k_sig k) end;
  devid ← devid; imei ← imei; stat ← stat; iccid ← iccid; imsi ← imsi; cap ← cap;
  devid ← cstr devid; imei ← cstr imei; iccid ← cstr iccid; imsi ← cstr imsi; stat ← cstr stat;
  let head :=
    [BString "connection" (str (if conn =? QWDS_PKT_DATA_CONNECTED then "CONNECTED" else "DISCONNECTED"));
     BTable "baseband" [BString "devid" devid; BString "imei" imei];
     BTable "SIM" [BString "iccid" iccid; BString "imsi" imsi; BString "status" stat]] in
  if bool_decide (stat = str "SIM_READY") then
    cap ← cstr cap;
    signal ← signal_table clas sig;
    Some (Some (head ++
      [BTable "register" [BU16 "MCC" mcc; BU16 "MNC" mnc; BString "PS" (str (if ps =? 1 then "Attached" else "Detached")); BString "cap" cap];
       BTable "signal" signal]))
  else Some (Some head).
End Ubus.

(** ** The thread *)
(** The calls of libubus, in order, with what they return where the code looks at it. *)
Inductive uloop_call := UloopInit | IgnoreSigpipe | OnSigquit | UbusConnect (ok : bool) | AddUloop | AddObject (name method : bytes) (ok : bool) | UloopRun | UbusFree | UloopDone.
(** Without its object the service runs all the same, and answers nothing. *)
Definition server_main (added : bool) : list uloop_call := [AddObject (str "quectel") (str "status") added; UloopRun].
(** The loop ends on SIGQUIT, which the main thread sends at its end. *)
Definition ubus_main (connected added : bool) : list uloop_call :=
  [UloopInit; IgnoreSigpipe; OnSigquit; UbusConnect connected] ++
  (if connected then [AddUloop] ++ server_main added ++ [UbusFree; UloopDone] else []).
