(* ===== verification/UbusSpec.v ===== *)
(** * What the status service shows (Ubus.v).
    [Texts] are the six strings of a reply.  [cm_holds] reads them off the record, [stack_after] off the variables of the stack behind
    the strings copied over them; the reply is made of the concatenations. *)
From S2P Require Import Prelude Util QmiRequests Cm Text Ubus.
#[local] Open Scope Z_scope.
#[local] Open Scope c_scope.

Record texts := { t_devid : bytes; t_imei : bytes; t_iccid : bytes; t_imsi : bytes; t_stat : bytes; t_cap : bytes }.

Definition texts_app (t u : texts) : texts :=
  {| t_devid := t_devid t ++ t_devid u; t_imei := t_imei t ++ t_imei u; t_iccid := t_iccid t ++ t_iccid u;
     t_imsi := t_imsi t ++ t_imsi u; t_stat := t_stat t ++ t_stat u; t_cap := t_cap t ++ t_cap u |}.
Definition no_texts : texts := {| t_devid := []; t_imei := []; t_iccid := []; t_imsi := []; t_stat := []; t_cap := [] |}.

Record cm_holds (c : cm) (t : texts) : Prop := {
  h_devid : holds_str (devid (bb_status c)) (t_devid t); h_imei : holds_str (imei (bb_status c)) (t_imei t);
  h_iccid : holds_str (iccid (sim_status c)) (t_iccid t); h_imsi : holds_str (imsi (sim_status c)) (t_imsi t);
  h_stat : holds_str (stat (sim_status c)) (t_stat t); h_cap : holds_str (DataCapStr (reg_status c)) (t_cap t) }.

(** The variable has [s] copied over its beginning and holds [u] and a NUL behind it. *)
Definition behind (var s u : bytes) : Prop := cstr (drop (length s) var) = Some u.
Record stack_after (k : stack) (t u : texts) : Prop := {
  b_devid : behind (k_devid k) (t_devid t) (t_devid u); b_imei : behind (k_imei k) (t_imei t) (t_imei u);
  b_iccid : behind (k_iccid k) (t_iccid t) (t_iccid u); b_imsi : behind (k_imsi k) (t_imsi t) (t_imsi u);
  b_stat : behind (k_stat k) (t_stat t) (t_stat u); b_cap : behind (k_cap k) (t_cap t) (t_cap u) }.

Lemma behind_long var s u : behind var s u -> zlen s < zlen var.
Proof.
  unfold behind, zlen. intros H. destruct (decide (length s < length var)%nat) as [|N]; [lia|].
  rewrite drop_ge in H by lia. done.
Qed.
Lemma cstr_behind s m u : no_nul s -> cstr m = Some u -> cstr (s ++ m) = Some (s ++ u).
Proof.
  intros Hs Hm. destruct (cstr_inv _ _ Hm) as (Hu & t & ->). rewrite app_assoc. apply cstr_app. by apply Forall_app.
Qed.
Lemma read_str_behind var field s u :
  holds_str field s -> behind var s u -> exists v, read_str (Some var) field = Some (Some v) /\ cstr v = Some (s ++ u).
Proof.
  intros Hs Hu. pose proof (behind_long _ _ _ Hu) as Hl. unfold read_str. rewrite Hs. cbn [mbind option_bind].
  exists (s ++ drop (length s) var). split.
  - unfold sts. rewrite (proj2 (Z.leb_le (0 + zlen s) (zlen var))) by lia. reflexivity.
  - apply cstr_behind; [|done]. by apply (cstr_inv _ _ Hs).
Qed.

Section Status.
Context {host : Host} {cs : CharSign}.

(** The reply, from the strings in the variables, the class and the signal record. *)
Definition status_head (conn : Z) (t : texts) : list blobmsg :=
  [BString "connection" (str (if conn =? QWDS_PKT_DATA_CONNECTED then "CONNECTED" else "DISCONNECTED"));
   BTable "baseband" [BString "devid" (t_devid t); BString "imei" (t_imei t)];
   BTable "SIM" [BString "iccid" (t_iccid t); BString "imsi" (t_imsi t); BString "status" (t_stat t)]].
Definition status_register (r : reg_state) (t : texts) (signal : list blobmsg) : list blobmsg :=
  [BTable "register" [BU16 "MCC" (country r); BU16 "MNC" (network r);
     BString "PS" (str (if PSAttachedState r =? 1 then "Attached" else "Detached")); BString "cap" (t_cap t)];
   BTable "signal" signal].
Definition status_reply (c : cm) (t : texts) (signal : list blobmsg) : list blobmsg :=
  status_head (conn_status c) t ++
  if bool_decide (t_stat t = str "SIM_READY") then status_register (reg_status c) t signal else [].

(** The sizes of the six signal records. *)
Definition sigs_ok (r : reg_state) : Prop :=
  forall c, is_sig_class c = true -> exists s, sigs r !! sig_index c = Some s /\ zlen s = sig_size c.

Definition record_of (k : stack) (r : reg_state) (clas : Z) : option bytes :=
  if is_sig_class clas then s ← sigs r !! sig_index clas; sts (k_sig k) 0 s else Some (k_sig k).
Definition signal_of (k : stack) (r : reg_state) (clas : Z) : option (list blobmsg) :=
  sig ← record_of k r clas; signal_table clas sig.

Lemma sig_size_le c : 0 <= sig_size c <= 11.
Proof. unfold sig_size. repeat (case_match; try lia). Qed.

Lemma record_of_total k r clas : sigs_ok r -> zlen (k_sig k) = 11 -> exists s, record_of k r clas = Some s /\ zlen s = 11.
Proof.
  intros Hs Hk. unfold record_of. destruct (is_sig_class clas) eqn:E; [|by exists (k_sig k)].
  destruct (Hs _ E) as (s & -> & Hl). cbn [mbind option_bind]. pose proof (sig_size_le clas).
  destruct (sts_defined (k_sig k) 0 s) as [m Hm]; [lia|lia|]. exists m. split; [done|].
  rewrite (sts_length _ _ _ _ Hm). done.
Qed.
Lemma signal_table_total clas s : zlen s = 11 -> exists l, signal_table clas s = Some l.
Proof.
  intros Hl. unfold signal_table, signal_rssi.
  destruct (ld_defined s 3) as [a ->]; [lia|]. destruct (ld_defined s 4) as [b Hb]; [lia|].
  assert (forall i, 0 <= i -> i + 2 <= 11 -> exists v, ld16 s i = Some v) as H16.
  { intros i H1 H2. unfold ld16. destruct (lds_defined s i 2) as [w ->]; [lia..|]. by eexists. }
  destruct (H16 4) as [e He]; [lia|lia|]. destruct (H16 5) as [p Hp]; [lia|lia|]. destruct (H16 7) as [n Hn]; [lia|lia|].
  rewrite He, Hb, Hp, Hn. cbn [mbind option_bind]. repeat (case_match; [by eexists|]). by eexists.
Qed.

(** Every string of the reply is the text of the record followed by what the variable of the stack held behind it. *)
Lemma status_shows c k t u :
  cm_holds c t -> stack_after k t u ->
  get_cm_status true true k c =
    (let shown := texts_app t u in let clas := get_class (t_cap t) in
     if bool_decide (t_stat shown = str "SIM_READY") then
       signal ← signal_of k (reg_status c) clas; Some (Some (status_reply c shown signal))
     else record_of k (reg_status c) clas;; Some (Some (status_reply c shown []))).
Proof.
  intros [Hd Hi Hc Hm Hs Ha] [Kd Ki Kc Km Ks Ka].
  destruct (read_str_behind _ _ _ _ Hd Kd) as (vd & Ed & Cd). destruct (read_str_behind _ _ _ _ Hi Ki) as (vi & Ei & Ci).
  destruct (read_str_behind _ _ _ _ Hc Kc) as (vc & Ec & Cc). destruct (read_str_behind _ _ _ _ Hm Km) as (vm & Em & Cm).
  destruct (read_str_behind _ _ _ _ Hs Ks) as (vs & Es & Cs). destruct (read_str_behind _ _ _ _ Ha Ka) as (va & Ea & Ca).
  unfold get_cm_status, bb_read, sim_read, reg_state_read, signal_of, record_of, status_reply. cbn [negb].
  rewrite Ed, Ei, Ec, Em, Es, Ea. unfold holds_str in Ha. rewrite Ha. cbn [mbind option_bind]. 
  rewrite Cd, Ci, Cc, Cm, Cs. cbn [mbind option_bind texts_app t_stat]. 
  destruct (is_sig_class (get_class (t_cap t))).
  - destruct (sigs (reg_status c) !! sig_index (get_class (t_cap t))) as [s|]; [|by destruct (bool_decide _)].
    cbn [fmap option_fmap option_map mbind option_bind]. destruct (sts (k_sig k) 0 s) as [s'|]; [|by destruct (bool_decide _)].
    cbn [mbind option_bind]. destruct (bool_decide _); [|done]. rewrite Ca. done.
  - cbn [mbind option_bind]. destruct (bool_decide _); [|done]. rewrite Ca. done.
Qed.

(** C27: A status request is always answered when the clock is readable: connection state, the five strings and, when the
    string shown as the SIM state is SIM_READY, the registration and the signal table of the record's class.  Every string shown is the
    record's text followed by whatever the uninitialised variable on the stack held behind it, and it is that longer string
    which decides whether the SIM is ready. *)
Theorem status_shows_record_and_stack c k t u :
  cm_holds c t -> stack_after k t u -> sigs_ok (reg_status c) -> zlen (k_sig k) = 11 ->
  exists signal, signal_of k (reg_status c) (get_class (t_cap t)) = Some signal /\
    get_cm_status true true k c = Some (Some (status_reply c (texts_app t u) signal)).
Proof.
  intros Hc Hk Hs Hl. rewrite (status_shows _ _ _ _ Hc Hk). cbv zeta. unfold signal_of.
  destruct (record_of_total k _ (get_class (t_cap t)) Hs Hl) as (r & -> & Hr).
  destruct (signal_table_total (get_class (t_cap t)) r Hr) as [l Hlr]. cbn [mbind option_bind]. rewrite Hlr.
  exists l. split; [done|]. unfold status_reply. cbn [mbind option_bind]. by destruct (bool_decide _).
Qed.

(** ** What was written is what is shown *)

(** The variables of a caller that cleared them. *)
Definition stack_zero : stack :=
  {| k_devid := replicate 32 0; k_imei := replicate 16 0; k_iccid := replicate 32 0; k_imsi := replicate 32 0;
     k_stat := replicate 32 0; k_cap := replicate 32 0; k_sig := replicate 11 0 |}.

(** The writes of the requests that fill a fresh record. *)
Definition publish (t : texts) (mcc mnc ps : Z) (sig : bytes) (conn : Z) : option cm :=
  b ← bb_write (bb_status cm_zero) (Some (t_devid t)) (Some (t_imei t));
  s ← sim_write (sim_status cm_zero) (Some (t_stat t)) (Some (t_iccid t)) (Some (t_imsi t));
  r ← reg_state_write (reg_status cm_zero) (Some mcc) (Some mnc) (Some ps) (Some (t_cap t)) 0 None;
  r ← reg_state_write r None None None None CM_LTE (Some sig);
  Some (cm_write (set_reg (set_sim (set_bb cm_zero b) s) r) conn).

Record texts_ok (t : texts) : Prop := {
  o_devid : no_nul (t_devid t) /\ zlen (t_devid t) < 32; o_imei : no_nul (t_imei t) /\ zlen (t_imei t) < 16;
  o_iccid : no_nul (t_iccid t) /\ zlen (t_iccid t) < 32; o_imsi : no_nul (t_imsi t) /\ zlen (t_imsi t) < 32;
  o_stat : no_nul (t_stat t) /\ zlen (t_stat t) < 32; o_cap : no_nul (t_cap t) /\ zlen (t_cap t) < 16 }.

(** The signal record of LTE, as the indication carries it. *)
Definition lte_record (ty rssi rsrq rsrp snr : Z) : bytes := [ty] ++ le16 6 ++ [rssi; rsrq] ++ le16 rsrp ++ le16 snr.

Lemma holds_zeros n : (0 < n)%nat -> holds_str (replicate n 0) [].
Proof. by destruct n; [lia|]. Qed.
Lemma copy_zeros n s : no_nul s -> zlen s < Z.of_nat n ->
  exists f, copy_str (replicate n 0) (Some s) = Some f /\ holds_str f s /\ zlen f = Z.of_nat n.
Proof.
  intros Hs Hl. assert (zlen (replicate n 0) = Z.of_nat n) as Hn by (unfold zlen; by rewrite length_replicate).
  pose proof (zlen_nonneg s).
  destruct (copy_str_shows (replicate n 0) [] s) as (f & E & L & _ & H2); [apply holds_zeros; lia | done | lia |].
  exists f. split; [done|]. split; [|lia]. apply H2; [|done]. cbn [length drop]. by apply Forall_replicate.
Qed.
Lemma behind_zeros n s : zlen s < Z.of_nat n -> behind (replicate n 0) s [].
Proof. intros H. unfold behind, zlen in *. rewrite drop_replicate. apply holds_zeros. lia. Qed.

Lemma ld16_lte ty rssi rsrq rsrp snr rest :
  ld (lte_record ty rssi rsrq rsrp snr ++ rest) 3 = Some rssi /\ ld (lte_record ty rssi rsrq rsrp snr ++ rest) 4 = Some rsrq /\
  ld16 (lte_record ty rssi rsrq rsrp snr ++ rest) 5 = Some (dec_native (le16 rsrp)) /\
  ld16 (lte_record ty rssi rsrq rsrp snr ++ rest) 7 = Some (dec_native (le16 snr)).
Proof.
  assert (forall v, exists a b, le16 v = [a; b]) as Hle by (intros v; by eexists _, _).
  unfold lte_record. destruct (Hle rsrp) as (a & b & ->), (Hle snr) as (c & d & ->), (Hle 6) as (e & f & ->).
  unfold ld16, lds, ld, zlen. cbn [app length].
  repeat split; repeat (rewrite (proj2 (Z.leb_le _ _)) by lia || rewrite (proj2 (Z.ltb_lt _ _)) by lia); done.
Qed.

Lemma publish_holds t mcc mnc ps sig conn :
  texts_ok t -> 9 <= zlen sig ->
  exists c, publish t mcc mnc ps sig conn = Some c /\ cm_holds c t /\ conn_status c = conn /\
    country (reg_status c) = mcc /\ network (reg_status c) = mnc /\ PSAttachedState (reg_status c) = ps /\
    sigs (reg_status c) !! 4%nat = Some (take 9 sig).
Proof.
  intros [[? Hd] [? Hi] [? Hc] [? Hm] [? Hs] [? Ha]] Hl.
  destruct (copy_zeros 32 (t_devid t)) as (fd & Ed & Fd & _); [done..|].
  destruct (copy_zeros 16 (t_imei t)) as (fi & Ei & Fi & _); [done..|].
  destruct (copy_zeros 32 (t_iccid t)) as (fc & Ec & Fc & _); [done..|].
  destruct (copy_zeros 32 (t_imsi t)) as (fm & Em & Fm & _); [done..|].
  destruct (copy_zeros 32 (t_stat t)) as (fs & Es & Fs & _); [done..|].
  destruct (copy_zeros 16 (t_cap t)) as (fa & Ea & Fa & _); [done..|].
  unfold publish, bb_write, sim_write, reg_state_write. cbn [cm_zero bb_status sim_status reg_status devid imei iccid imsi stat DataCapStr].
  rewrite Ed, Ei, Ec, Em, Es, Ea. cbn [mbind option_bind copy_str DataCapStr].
  assert (lds sig 0 (sig_size CM_LTE) = Some (take 9 sig)) as ->.
  { unfold lds. change (sig_size CM_LTE) with 9. rewrite (proj2 (Z.leb_le (0 + 9) (zlen sig))) by lia. done. }
  change (is_sig_class CM_LTE) with true. cbn [mbind option_bind]. 
  eexists. split; [reflexivity|]. split; [by constructor|]. done.
Qed.

(** What the requests wrote into a fresh record - identity, SIM, registration and an LTE signal indication - is what a status request
    of a caller with cleared variables shows: every string unchanged, the operator codes, and the four signal values, the 16-bit ones as
    the processor reads the bytes of the indication. *)
Theorem published_status_is_shown t mcc mnc ps ty rssi rsrq rsrp snr conn :
  texts_ok t -> t_stat t = str "SIM_READY" -> t_cap t = str "LTE" ->
  exists c, publish t mcc mnc ps (lte_record ty rssi rsrq rsrp snr) conn = Some c /\
    get_cm_status true true stack_zero c = Some (Some (
      status_head conn t ++
      [BTable "register" [BU16 "MCC" mcc; BU16 "MNC" mnc;
         BString "PS" (str (if ps =? 1 then "Attached" else "Detached")); BString "cap" (str "LTE")];
       BTable "signal"
         [BString "rssi" (dbm (of_char rssi)); BString "rsrq" (dbm (of_char rsrq));
          BString "rsrp" (dbm (s16 (dec_native (le16 rsrp))));
          BString "snr" (fixed1 (s16 (dec_native (le16 snr)) <? 0) (Z.abs (s16 (dec_native (le16 snr)))) ++ str " dB")]])).
Proof.
  intros Ht Hs Ha. set (sig := lte_record ty rssi rsrq rsrp snr).
  assert (take 9 sig = sig /\ zlen sig = 9) as [H9 L9] by done.
  destruct (publish_holds t mcc mnc ps sig conn Ht) as (c & Ec & Hc & Hconn & Hmcc & Hmnc & Hps & Hsig); [lia|].
  exists c. split; [exact Ec|].
  assert (stack_after stack_zero t no_texts) as Hk.
  { destruct Ht as [[] [] [] [] [] []]. by constructor; apply behind_zeros; lia. }
  rewrite (status_shows _ _ _ _ Hc Hk). cbv zeta.
  assert (texts_app t no_texts = t) as -> by (destruct t; unfold texts_app; cbn; by rewrite !app_nil_r).
  rewrite Hs, Ha, bool_decide_eq_true_2 by done. change (get_class (str "LTE")) with CM_LTE.
  unfold signal_of, record_of. change (is_sig_class CM_LTE) with true. change (sig_index CM_LTE) with 4%nat.
  rewrite Hsig, H9. cbn [mbind option_bind].
  assert (sts (k_sig stack_zero) 0 sig = Some (sig ++ [0; 0])) as -> by done. cbn [mbind option_bind].
  destruct (ld16_lte ty rssi rsrq rsrp snr [0; 0]) as (E1 & E2 & E3 & E4). fold sig in E1, E2, E3, E4.
  assert (signal_table CM_LTE (sig ++ [0; 0]) = Some
      [BString "rssi" (dbm (of_char rssi)); BString "rsrq" (dbm (of_char rsrq));
       BString "rsrp" (dbm (s16 (dec_native (le16 rsrp))));
       BString "snr" (fixed1 (s16 (dec_native (le16 snr)) <? 0) (Z.abs (s16 (dec_native (le16 snr)))) ++ str " dB")]) as ->.
  { unfold signal_table, signal_rssi. rewrite E1, E2, E3, E4. reflexivity. }
  cbn [mbind option_bind]. do 2 f_equal. unfold status_reply. rewrite bool_decide_eq_true_2 by done.
  unfold status_register. by rewrite Hconn, Hmcc, Hmnc, Hps, Ha.
Qed.
End Status.

(** ** A run *)

(** A SIM that is ready, and a variable that held an exclamation mark and a NUL behind the nine bytes of its state. *)
Definition texts_eg : texts :=
  {| t_devid := str "EM20"; t_imei := str "861"; t_iccid := str "8986"; t_imsi := str "46000"; t_stat := str "SIM_READY"; t_cap := str "LTE" |}.
Definition stack_eg : stack :=
  {| k_devid := replicate 32 0; k_imei := replicate 16 0; k_iccid := replicate 32 0; k_imsi := replicate 32 0;
     k_stat := replicate 9 255 ++ str "!" ++ replicate 22 0; k_cap := replicate 32 0; k_sig := replicate 11 0 |}.
Definition cm_eg : cm :=
  {| bb_status := {| devid := str "EM20" ++ replicate 28 0; imei := str "861" ++ replicate 13 0 |};
     sim_status := {| stat := str "SIM_READY" ++ replicate 23 0; iccid := str "8986" ++ replicate 28 0; imsi := str "46000" ++ replicate 27 0 |};
     reg_status := {| country := 460; network := 0; PSAttachedState := 1; DataCapStr := str "LTE" ++ replicate 13 0; cla := 16;
                      sigs := sigs (reg_status cm_zero) |}; conn_status := 2 |}.
Definition left_eg : texts := {| t_devid := []; t_imei := []; t_iccid := []; t_imsi := []; t_stat := str "!"; t_cap := [] |}.
#[local] Instance unsigned_char : CharSign := {| char_signed := false |}.

Lemma sigs_ok_zero : sigs_ok (reg_status cm_zero).
Proof.
  intros c Hc. unfold is_sig_class, CM_CDMA, CM_TDSCDMA in Hc. apply andb_prop in Hc as [H1 H2]. apply Z.leb_le in H1, H2.
  assert (c = 16 \/ c = 17 \/ c = 18 \/ c = 19 \/ c = 20 \/ c = 21) as H by lia.
  destruct H as [-> | [-> | [-> | [-> | [-> | ->]]]]]; by eexists.
Qed.

(** The reply ends after the SIM table, and the state is shown as [SIM_READY!]. *)
Theorem status_shows_record_and_stack_witness :
  get_cm_status true true stack_eg cm_eg = Some (Some (status_head 2 (texts_app texts_eg left_eg))).
Proof.
  destruct (status_shows_record_and_stack cm_eg stack_eg texts_eg left_eg) as (signal & _ & E).
  - constructor; vm_compute; reflexivity.
  - constructor; vm_compute; reflexivity.
  - exact sigs_ok_zero.
  - reflexivity.
  - exact E.
Defined.

(** An RSSI of -60 dBm is shown as 196 dBm where [char] is unsigned. *)
Theorem published_status_is_shown_witness :
  exists c, publish texts_eg 460 0 1 (lte_record 20 196 246 65446 65526) 2 = Some c /\
    get_cm_status true true stack_zero c = Some (Some (
      status_head 2 texts_eg ++
      [BTable "register" [BU16 "MCC" 460; BU16 "MNC" 0; BString "PS" (str "Attached"); BString "cap" (str "LTE")];
       BTable "signal" [BString "rssi" (str "196 dBm"); BString "rsrq" (str "246 dBm"); BString "rsrp" (str "-90 dBm");
                        BString "snr" (str "-1.0 dB")]])).
Proof.
  destruct (published_status_is_shown texts_eg 460 0 1 20 196 246 65446 65526 2) as (c & E & R).
  - repeat constructor; discriminate.
  - reflexivity.
  - reflexivity.
  - exists c. split; [exact E | exact R].
Defined.
