(* ===== verification/Dump.v ===== *)
(** * MPQMUX.c: the printout of a message when the program runs verbosely.
    The text is collected in a buffer of 1024 bytes, which [dbg] never overruns: it appends what fits.  A message is its memory from
    the first byte on, so reading a TLV that claims more than there is ends in [None].  The mutex makes [dump_qmi] one step. *)
From S2P Require Import Prelude Util QmiMsg Text Layout QmiStructs.
#[local] Open Scope Z_scope.
#[local] Open Scope c_scope.

Definition QMICTL_FLAG_REQUEST : Z := 0x00.
Definition QMICTL_FLAG_RESPONSE : Z := 0x01.
Definition QMICTL_FLAG_INDICATION : Z := 0x02.
Definition QMUX_CTL_FLAG_MASK_TYPE : Z := 0x06.
Definition QMUX_CTL_FLAG_TYPE_CMD : Z := 0x00.
Definition QMUX_CTL_FLAG_TYPE_RSP : Z := 0x02.
Definition QMUX_CTL_FLAG_TYPE_IND : Z := 0x04.
Definition QMUX_TYPE_WMS : Z := 0x05.

(** ** The names *)
Definition qmux_ctl_QMICTLType : list (Z * bytes) := [
  (0x0020, str "QMICTL_SET_INSTANCE_ID_REQ"); (0x0020, str "QMICTL_SET_INSTANCE_ID_RESP"); (0x0021, str "QMICTL_GET_VERSION_REQ");
  (0x0021, str "QMICTL_GET_VERSION_RESP"); (0x0022, str "QMICTL_GET_CLIENT_ID_REQ"); (0x0022, str "QMICTL_GET_CLIENT_ID_RESP");
  (0x0023, str "QMICTL_RELEASE_CLIENT_ID_REQ"); (0x0023, str "QMICTL_RELEASE_CLIENT_ID_RESP"); (0x0024, str "QMICTL_REVOKE_CLIENT_ID_IND");
  (0x0025, str "QMICTL_INVALID_CLIENT_ID_IND"); (0x0026, str "QMICTL_SET_DATA_FORMAT_REQ"); (0x0026, str "QMICTL_SET_DATA_FORMAT_RESP");
  (0x0027, str "QMICTL_SYNC_REQ"); (0x0027, str "QMICTL_SYNC_RESP"); (0x0027, str "QMICTL_SYNC_IND")].
Definition qmux_CtlFlags : list (Z * bytes) := [
  (0x00, str "QMUX_CTL_FLAG_TYPE_CMD"); (0x02, str "QMUX_CTL_FLAG_TYPE_RSP"); (0x04, str "QMUX_CTL_FLAG_TYPE_IND")].
Definition qmux_wds_Type : list (Z * bytes) := [
  (0x0001, str "QMIWDS_SET_EVENT_REPORT_REQ"); (0x0001, str "QMIWDS_SET_EVENT_REPORT_RESP"); (0x0001, str "QMIWDS_EVENT_REPORT_IND");
  (0x0020, str "QMIWDS_START_NETWORK_INTERFACE_REQ"); (0x0020, str "QMIWDS_START_NETWORK_INTERFACE_RESP"); (0x0021, str "QMIWDS_STOP_NETWORK_INTERFACE_REQ");
  (0x0021, str "QMIWDS_STOP_NETWORK_INTERFACE_RESP"); (0x0022, str "QMIWDS_GET_PKT_SRVC_STATUS_REQ"); (0x0022, str "QMIWDS_GET_PKT_SRVC_STATUS_RESP");
  (0x0022, str "QMIWDS_GET_PKT_SRVC_STATUS_IND"); (0x0023, str "QMIWDS_GET_CURRENT_CHANNEL_RATE_REQ"); (0x0023, str "QMIWDS_GET_CURRENT_CHANNEL_RATE_RESP");
  (0x0024, str "QMIWDS_GET_PKT_STATISTICS_REQ"); (0x0024, str "QMIWDS_GET_PKT_STATISTICS_RESP"); (0x0028, str "QMIWDS_MODIFY_PROFILE_SETTINGS_REQ");
  (0x0028, str "QMIWDS_MODIFY_PROFILE_SETTINGS_RESP"); (0x002B, str "QMIWDS_GET_PROFILE_SETTINGS_REQ"); (0x002B, str "QMIWDS_GET_PROFILE_SETTINGS_RESP");
  (0x002C, str "QMIWDS_GET_DEFAULT_SETTINGS_REQ"); (0x002C, str "QMIWDS_GET_DEFAULT_SETTINGS_RESP"); (0x002D, str "QMIWDS_GET_RUNTIME_SETTINGS_REQ");
  (0x002D, str "QMIWDS_GET_RUNTIME_SETTINGS_RESP"); (0x002F, str "QMIWDS_GET_MIP_MODE_REQ"); (0x002F, str "QMIWDS_GET_MIP_MODE_RESP");
  (0x0037, str "QMIWDS_GET_DATA_BEARER_REQ"); (0x0037, str "QMIWDS_GET_DATA_BEARER_RESP"); (0x0038, str "QMIWDS_DUN_CALL_INFO_REQ");
  (0x0038, str "QMIWDS_DUN_CALL_INFO_RESP"); (0x0038, str "QMIWDS_DUN_CALL_INFO_IND"); (0x004D, str "QMIWDS_SET_CLIENT_IP_FAMILY_PREF_REQ");
  (0x004D, str "QMIWDS_SET_CLIENT_IP_FAMILY_PREF_RESP"); (0x0051, str "QMIWDS_SET_AUTO_CONNECT_REQ"); (0x0051, str "QMIWDS_SET_AUTO_CONNECT_RESP");
  (0x00A2, str "QMIWDS_BIND_MUX_DATA_PORT_REQ"); (0x00A2, str "QMIWDS_BIND_MUX_DATA_PORT_RESP")].
Definition qmux_dms_Type : list (Z * bytes) := [
  (0x0001, str "QMIDMS_SET_EVENT_REPORT_REQ"); (0x0001, str "QMIDMS_SET_EVENT_REPORT_RESP"); (0x0001, str "QMIDMS_EVENT_REPORT_IND");
  (0x0020, str "QMIDMS_GET_DEVICE_CAP_REQ"); (0x0020, str "QMIDMS_GET_DEVICE_CAP_RESP"); (0x0021, str "QMIDMS_GET_DEVICE_MFR_REQ");
  (0x0021, str "QMIDMS_GET_DEVICE_MFR_RESP"); (0x0022, str "QMIDMS_GET_DEVICE_MODEL_ID_REQ"); (0x0022, str "QMIDMS_GET_DEVICE_MODEL_ID_RESP");
  (0x0023, str "QMIDMS_GET_DEVICE_REV_ID_REQ"); (0x0023, str "QMIDMS_GET_DEVICE_REV_ID_RESP"); (0x0024, str "QMIDMS_GET_MSISDN_REQ");
  (0x0024, str "QMIDMS_GET_MSISDN_RESP"); (0x0025, str "QMIDMS_GET_DEVICE_SERIAL_NUMBERS_REQ"); (0x0025, str "QMIDMS_GET_DEVICE_SERIAL_NUMBERS_RESP");
  (0x0027, str "QMIDMS_UIM_SET_PIN_PROTECTION_REQ"); (0x0027, str "QMIDMS_UIM_SET_PIN_PROTECTION_RESP"); (0x0028, str "QMIDMS_UIM_VERIFY_PIN_REQ");
  (0x0028, str "QMIDMS_UIM_VERIFY_PIN_RESP"); (0x0029, str "QMIDMS_UIM_UNBLOCK_PIN_REQ"); (0x0029, str "QMIDMS_UIM_UNBLOCK_PIN_RESP");
  (0x002A, str "QMIDMS_UIM_CHANGE_PIN_REQ"); (0x002A, str "QMIDMS_UIM_CHANGE_PIN_RESP"); (0x002B, str "QMIDMS_UIM_GET_PIN_STATUS_REQ");
  (0x002B, str "QMIDMS_UIM_GET_PIN_STATUS_RESP"); (0x002C, str "QMIDMS_GET_DEVICE_HARDWARE_REV_REQ"); (0x002C, str "QMIDMS_GET_DEVICE_HARDWARE_REV_RESP");
  (0x002D, str "QMIDMS_GET_OPERATING_MODE_REQ"); (0x002D, str "QMIDMS_GET_OPERATING_MODE_RESP"); (0x002E, str "QMIDMS_SET_OPERATING_MODE_REQ");
  (0x002E, str "QMIDMS_SET_OPERATING_MODE_RESP"); (0x0031, str "QMIDMS_GET_ACTIVATED_STATUS_REQ"); (0x0031, str "QMIDMS_GET_ACTIVATED_STATUS_RESP");
  (0x0032, str "QMIDMS_ACTIVATE_AUTOMATIC_REQ"); (0x0032, str "QMIDMS_ACTIVATE_AUTOMATIC_RESP"); (0x0033, str "QMIDMS_ACTIVATE_MANUAL_REQ");
  (0x0033, str "QMIDMS_ACTIVATE_MANUAL_RESP"); (0x003C, str "QMIDMS_UIM_GET_ICCID_REQ"); (0x003C, str "QMIDMS_UIM_GET_ICCID_RESP");
  (0x0040, str "QMIDMS_UIM_GET_CK_STATUS_REQ"); (0x0040, str "QMIDMS_UIM_GET_CK_STATUS_RESP"); (0x0041, str "QMIDMS_UIM_SET_CK_PROTECTION_REQ");
  (0x0041, str "QMIDMS_UIM_SET_CK_PROTECTION_RESP"); (0x0042, str "QMIDMS_UIM_UNBLOCK_CK_REQ"); (0x0042, str "QMIDMS_UIM_UNBLOCK_CK_RESP");
  (0x0043, str "QMIDMS_UIM_GET_IMSI_REQ"); (0x0043, str "QMIDMS_UIM_GET_IMSI_RESP"); (0x0044, str "QMIDMS_UIM_GET_STATE_REQ");
  (0x0044, str "QMIDMS_UIM_GET_STATE_RESP"); (0x0045, str "QMIDMS_GET_BAND_CAP_REQ"); (0x0045, str "QMIDMS_GET_BAND_CAP_RESP")].
Definition qmux_nas_Type : list (Z * bytes) := [
  (0x0002, str "QMINAS_SET_EVENT_REPORT_REQ"); (0x0002, str "QMINAS_SET_EVENT_REPORT_RESP"); (0x0002, str "QMINAS_EVENT_REPORT_IND");
  (0x0020, str "QMINAS_GET_SIGNAL_STRENGTH_REQ"); (0x0020, str "QMINAS_GET_SIGNAL_STRENGTH_RESP"); (0x0021, str "QMINAS_PERFORM_NETWORK_SCAN_REQ");
  (0x0021, str "QMINAS_PERFORM_NETWORK_SCAN_RESP"); (0x0022, str "QMINAS_INITIATE_NW_REGISTER_REQ"); (0x0022, str "QMINAS_INITIATE_NW_REGISTER_RESP");
  (0x0023, str "QMINAS_INITIATE_ATTACH_REQ"); (0x0023, str "QMINAS_INITIATE_ATTACH_RESP"); (0x0024, str "QMINAS_GET_SERVING_SYSTEM_REQ");
  (0x0024, str "QMINAS_GET_SERVING_SYSTEM_RESP"); (0x0024, str "QMINAS_SERVING_SYSTEM_IND"); (0x0025, str "QMINAS_GET_HOME_NETWORK_REQ");
  (0x0025, str "QMINAS_GET_HOME_NETWORK_RESP"); (0x0026, str "QMINAS_GET_PREFERRED_NETWORK_REQ"); (0x0026, str "QMINAS_GET_PREFERRED_NETWORK_RESP");
  (0x0027, str "QMINAS_SET_PREFERRED_NETWORK_REQ"); (0x0027, str "QMINAS_SET_PREFERRED_NETWORK_RESP"); (0x0028, str "QMINAS_GET_FORBIDDEN_NETWORK_REQ");
  (0x0028, str "QMINAS_GET_FORBIDDEN_NETWORK_RESP"); (0x0029, str "QMINAS_SET_FORBIDDEN_NETWORK_REQ"); (0x0029, str "QMINAS_SET_FORBIDDEN_NETWORK_RESP");
  (0x002A, str "QMINAS_SET_TECHNOLOGY_PREF_REQ"); (0x002A, str "QMINAS_SET_TECHNOLOGY_PREF_RESP"); (0x0031, str "QMINAS_GET_RF_BAND_INFO_REQ");
  (0x0031, str "QMINAS_GET_RF_BAND_INFO_RESP"); (0x0044, str "QMINAS_GET_PLMN_NAME_REQ"); (0x0044, str "QMINAS_GET_PLMN_NAME_RESP");
  (0x100, str "QUECTEL_PACKET_TRANSFER_START_IND"); (0x101, str "QUECTEL_PACKET_TRANSFER_END_IND"); (0x004D, str "QMINAS_GET_SYS_INFO_REQ");
  (0x004D, str "QMINAS_GET_SYS_INFO_RESP"); (0x004D, str "QMINAS_SYS_INFO_IND")].
Definition qmux_wms_Type : list (Z * bytes) := [
  (0x0001, str "QMIWMS_SET_EVENT_REPORT_REQ"); (0x0001, str "QMIWMS_SET_EVENT_REPORT_RESP"); (0x0001, str "QMIWMS_EVENT_REPORT_IND");
  (0x0020, str "QMIWMS_RAW_SEND_REQ"); (0x0020, str "QMIWMS_RAW_SEND_RESP"); (0x0021, str "QMIWMS_RAW_WRITE_REQ");
  (0x0021, str "QMIWMS_RAW_WRITE_RESP"); (0x0022, str "QMIWMS_RAW_READ_REQ"); (0x0022, str "QMIWMS_RAW_READ_RESP");
  (0x0023, str "QMIWMS_MODIFY_TAG_REQ"); (0x0023, str "QMIWMS_MODIFY_TAG_RESP"); (0x0024, str "QMIWMS_DELETE_REQ");
  (0x0024, str "QMIWMS_DELETE_RESP"); (0x0030, str "QMIWMS_GET_MESSAGE_PROTOCOL_REQ"); (0x0030, str "QMIWMS_GET_MESSAGE_PROTOCOL_RESP");
  (0x0031, str "QMIWMS_LIST_MESSAGES_REQ"); (0x0031, str "QMIWMS_LIST_MESSAGES_RESP"); (0x0034, str "QMIWMS_GET_SMSC_ADDRESS_REQ");
  (0x0034, str "QMIWMS_GET_SMSC_ADDRESS_RESP"); (0x0035, str "QMIWMS_SET_SMSC_ADDRESS_REQ"); (0x0035, str "QMIWMS_SET_SMSC_ADDRESS_RESP");
  (0x0036, str "QMIWMS_GET_STORE_MAX_SIZE_REQ"); (0x0036, str "QMIWMS_GET_STORE_MAX_SIZE_RESP")].
Definition qmux_wds_admin_Type : list (Z * bytes) := [
  (0x0020, str "QMIWDS_ADMIN_SET_DATA_FORMAT_REQ"); (0x0020, str "QMIWDS_ADMIN_SET_DATA_FORMAT_RESP"); (0x0021, str "QMIWDS_ADMIN_GET_DATA_FORMAT_REQ");
  (0x0021, str "QMIWDS_ADMIN_GET_DATA_FORMAT_RESP"); (0x002B, str "QMIWDS_ADMIN_SET_QMAP_SETTINGS_REQ"); (0x002B, str "QMIWDS_ADMIN_SET_QMAP_SETTINGS_RESP");
  (0x002C, str "QMIWDS_ADMIN_GET_QMAP_SETTINGS_REQ"); (0x002C, str "QMIWDS_ADMIN_GET_QMAP_SETTINGS_RESP"); (0x002F, str "QMI_WDA_SET_LOOPBACK_CONFIG_REQ");
  (0x002F, str "QMI_WDA_SET_LOOPBACK_CONFIG_RESP"); (0x002F, str "QMI_WDA_SET_LOOPBACK_CONFIG_IND")].
Definition qmux_uim_Type : list (Z * bytes) := [
  (0x0020, str "QMIUIM_READ_TRANSPARENT_REQ"); (0x0020, str "QMIUIM_READ_TRANSPARENT_RESP"); (0x0020, str "QMIUIM_READ_TRANSPARENT_IND");
  (0x0021, str "QMIUIM_READ_RECORD_REQ"); (0x0021, str "QMIUIM_READ_RECORD_RESP"); (0x0021, str "QMIUIM_READ_RECORD_IND");
  (0x0022, str "QMIUIM_WRITE_TRANSPARENT_REQ"); (0x0022, str "QMIUIM_WRITE_TRANSPARENT_RESP"); (0x0022, str "QMIUIM_WRITE_TRANSPARENT_IND");
  (0x0023, str "QMIUIM_WRITE_RECORD_REQ"); (0x0023, str "QMIUIM_WRITE_RECORD_RESP"); (0x0023, str "QMIUIM_WRITE_RECORD_IND");
  (0x0025, str "QMIUIM_SET_PIN_PROTECTION_REQ"); (0x0025, str "QMIUIM_SET_PIN_PROTECTION_RESP"); (0x0025, str "QMIUIM_SET_PIN_PROTECTION_IND");
  (0x0026, str "QMIUIM_VERIFY_PIN_REQ"); (0x0026, str "QMIUIM_VERIFY_PIN_RESP"); (0x0026, str "QMIUIM_VERIFY_PIN_IND");
  (0x0027, str "QMIUIM_UNBLOCK_PIN_REQ"); (0x0027, str "QMIUIM_UNBLOCK_PIN_RESP"); (0x0027, str "QMIUIM_UNBLOCK_PIN_IND");
  (0x0028, str "QMIUIM_CHANGE_PIN_REQ"); (0x0028, str "QMIUIM_CHANGE_PIN_RESP"); (0x0028, str "QMIUIM_CHANGE_PIN_IND");
  (0x0029, str "QMIUIM_DEPERSONALIZATION_REQ"); (0x0029, str "QMIUIM_DEPERSONALIZATION_RESP"); (0x002E, str "QMIUIM_EVENT_REG_REQ");
  (0x002E, str "QMIUIM_EVENT_REG_RESP"); (0x002F, str "QMIUIM_GET_CARD_STATUS_REQ"); (0x002F, str "QMIUIM_GET_CARD_STATUS_RESP");
  (0x0032, str "QMIUIM_STATUS_CHANGE_IND")].

(** The tables, told apart by their addresses. *)
Inductive names := Ctl | Flags | Wds | Dms | Nas | Wms | Wda | Uim.
Definition table_of (t : names) : list (Z * bytes) :=
  match t with
  | Ctl => qmux_ctl_QMICTLType | Flags => qmux_CtlFlags | Wds => qmux_wds_Type | Dms => qmux_dms_Type
  | Nas => qmux_nas_Type | Wms => qmux_wms_Type | Wda => qmux_wds_admin_Type | Uim => qmux_uim_Type
  end.
Definition is_flags (t : names) : bool := match t with Flags => true | _ => false end.

Definition names_it (type : Z) (tag : option bytes) (x : Z * bytes) : bool :=
  (x.1 =? type) && match tag with Some t => strstr x.2 t | None => true end.
Definition qmi_name_get (t : names) (type : Z) (tag : option bytes) : option bytes :=
  tag ← (if is_flags t then
           s ← tag;                       (* strcmp(NULL, ...) *)
           Some (Some (if bool_decide (s = str "_REQ") then str "_CMD" else if bool_decide (s = str "_RESP") then str "_RSP" else s))
         else Some tag);
  Some match find (names_it type tag) (table_of t) with Some x => x.2 | None => str "unknow_" ++ hex type end.

(** ** The buffer *)
Definition sizeof_line : Z := 1024.
(** [snprintf] to the end of the string, with what is left of the buffer. *)
Definition dbg (line s : bytes) : bytes :=
  if zlen line <? sizeof_line then line ++ take (Z.to_nat (sizeof_line - zlen line - 1)) s else line.
(** [for (...) dbg("%02x ", ...)] *)
Definition dbg_bytes (line v : bytes) : bytes := foldl (fun line b => dbg line (hex2 b ++ str " ")) line v.

Definition tab : bytes := [9].
Definition newline : bytes := [10].

Section Dump.
Context {host : Host}.

Fixpoint dump_tlv_loop (fuel : nat) (m : bytes) (pQMUXMsgHdr TLVFind : Z) (line : bytes) : option bytes :=
  match fuel with
  | O => None
  | S fuel =>
      let TLVFind := TLVFind + 1 in
      TLVHdr ← GetTLV m pQMUXMsgHdr (0x1000 + TLVFind);
      match TLVHdr with
      | None => Some line
      | Some p =>
          t ← ld m p; l ← rd16 m (p + QMI_TLV_HDR∙"TLVLength");
          let line := dbg line (str "{" ++ hex2 t ++ str "," ++ tab ++ hex4 l ++ str "," ++ tab) in
          v ← lds m (p + sizeof_QMI_TLV_HDR) l;
          dump_tlv_loop fuel m pQMUXMsgHdr TLVFind (dbg (dbg_bytes line v) (str "}" ++ newline))
      end
  end.
Definition dump_tlv (m : bytes) (pQMUXMsgHdr : Z) (line : bytes) : option bytes :=
  dump_tlv_loop (S (length m)) m pQMUXMsgHdr 0 line.

Definition dump_ctl (m : bytes) (CTLHdr : Z) (line : bytes) : option bytes :=
  tid ← ld m (CTLHdr + QCQMICTL_MSG_HDR∙"TransactionId");
  let line := dbg line (str "TransactionId:      " ++ hex2 tid ++ newline) in
  flags ← ld m CTLHdr;
  let tag := if flags =? QMICTL_FLAG_REQUEST then Some (str "_REQ")
             else if flags =? QMICTL_FLAG_RESPONSE then Some (str "_RESP")
             else if flags =? QMICTL_FLAG_INDICATION then Some (str "_IND") else None in
  ty ← rd16 m (CTLHdr + QCQMICTL_MSG_HDR∙"QMICTLType"); name ← qmi_name_get Ctl ty tag;
  let line := dbg line (str "QMICTLType:         " ++ hex4 ty ++ tab ++ name ++ newline) in
  len ← rd16 m (CTLHdr + QCQMICTL_MSG_HDR∙"Length");
  let line := dbg line (str "Length:             " ++ hex4 len ++ newline) in
  dump_tlv m (CTLHdr + QCQMICTL_MSG_HDR∙"QMICTLType") line.

Definition service_names (serviceType : Z) : option names :=
  if serviceType =? QMUX_TYPE_DMS then Some Dms else if serviceType =? QMUX_TYPE_NAS then Some Nas
  else if (serviceType =? QMUX_TYPE_WDS) || (serviceType =? QMUX_TYPE_WDS_IPV6) then Some Wds
  else if serviceType =? QMUX_TYPE_WMS then Some Wms else if serviceType =? QMUX_TYPE_WDS_ADMIN then Some Wda
  else if serviceType =? QMUX_TYPE_UIM then Some Uim else None.

Definition qmux_tag (CtlFlags : Z) : option bytes :=
  let f := CtlFlags .& QMUX_CTL_FLAG_MASK_TYPE in
  if f =? QMUX_CTL_FLAG_TYPE_CMD then Some (str "_REQ") else if f =? QMUX_CTL_FLAG_TYPE_RSP then Some (str "_RESP")
  else if f =? QMUX_CTL_FLAG_TYPE_IND then Some (str "_IND") else None.

Definition dump_qmux (m : bytes) (serviceType QMUXHdr : Z) (line : bytes) : option bytes :=
  let QMUXMsgHdr := QMUXHdr + sizeof_QCQMUX_HDR in
  flags ← ld m QMUXHdr;
  let tag := qmux_tag flags in
  tid ← rd16 m (QMUXHdr + QCQMUX_HDR∙"TransactionId");
  let line := dbg line (str "TransactionId:    " ++ hex4 tid ++ newline) in
  ty ← rd16 m QMUXMsgHdr;
  name ← match service_names serviceType with Some t => qmi_name_get t ty tag | None => Some (str "PDS/QOS/CTL/unknown!") end;
  let line := dbg line (str "Type:               " ++ hex4 ty ++ tab ++ name ++ newline) in
  len ← rd16 m (QMUXMsgHdr + QCQMUX_MSG_HDR∙"Length");
  let line := dbg line (str "Length:             " ++ hex4 len ++ newline) in
  dump_tlv m QMUXMsgHdr line.

(** Result: the lines printed. *)
Definition dump_qmi (debug_qmi : Z) (dataBuffer : bytes) (dataLen : Z) : option (list bytes) :=
  if debug_qmi =? 0 then Some [] else
  d ← lds dataBuffer 0 (Z.max 0 dataLen);
  let line := dbg_bytes [] d in
  ty ← ld dataBuffer oQMIType;
  text ← (if ty =? QMUX_TYPE_CTL then dump_ctl dataBuffer oMUXMsg [] else dump_qmux dataBuffer ty oMUXMsg []);
  Some [line; text].
End Dump.
