(* ===== verification/DumpSpec.v ===== *)
(** * What the verbose printout shows (Dump.v).
    The reference is the whole text; the buffer keeps its first 1023 bytes. *)
From S2P Require Import Prelude Util QmiMsg Text Dump.
#[local] Open Scope Z_scope.
#[local] Open Scope c_scope.

(** ** The buffer *)
Definition kept (s : bytes) : bytes := take 1023 s.

Lemma dbg_kept t s : dbg (kept t) s = kept (t ++ s).
Proof.
  unfold dbg, kept, sizeof_line, zlen. rewrite length_take. rewrite (proj2 (Z.ltb_lt _ _)) by lia.
  destruct (decide (1023 <= length t)%nat) as [H|H].
  - rewrite (take_app_le t s 1023) by lia. rewrite (firstn_O s) || idtac.
    replace (Z.to_nat _) with 0%nat by lia. cbn [take]. by rewrite app_nil_r.
  - rewrite (take_ge t) by lia. rewrite (take_app_ge t s 1023) by lia. do 2 f_equal. lia.
Qed.

(** [%02x ] of every byte. *)
Definition hex_text (v : bytes) : bytes := v ≫= fun b => hex2 b ++ str " ".

Lemma dbg_bytes_kept t v : dbg_bytes (kept t) v = kept (t ++ hex_text v).
Proof.
  unfold dbg_bytes. revert t. induction v as [|b v IH]; intros t; [by cbn; rewrite app_nil_r|].
  cbn [foldl]. rewrite dbg_kept, IH, <- app_assoc. done.
Qed.

(** ** The TLVs *)
Definition tlv_text (x : tlv) : bytes :=
  str "{" ++ hex2 x.1 ++ str "," ++ tab ++ hex4 (zlen x.2) ++ str "," ++ tab ++ hex_text x.2 ++ str "}" ++ newline.
Definition tlvs_text (ts : list tlv) : bytes := ts ≫= tlv_text.

Lemma find_index_none ts base i : Z.of_nat (length ts) < i -> find_index ts base i = None.
Proof.
  revert base i. induction ts as [|x ts IH]; intros base i H; [done|]. cbn [find_index length] in *.
  rewrite (proj2 (Z.eqb_neq i 1)) by lia. apply IH. lia.
Qed.
Lemma find_index_at pre x ts base : find_index (pre ++ x :: ts) base (Z.of_nat (length pre) + 1) = Some (base + zlen (enc_tlvs pre)).
Proof.
  revert base. induction pre as [|y pre IH]; intros base; cbn [app find_index length].
  - change (Z.of_nat 0 + 1 =? 1) with true. f_equal. unfold zlen. cbn. lia.
  - rewrite (proj2 (Z.eqb_neq _ 1)) by lia. replace (Z.of_nat (S (length pre)) + 1 - 1) with (Z.of_nat (length pre) + 1) by lia.
    rewrite IH, enc_tlvs_cons, zlen_app. f_equal. lia.
Qed.

Section Dump.
Context {host : Host}.

(** The header of a message and its TLV area. *)
Definition area (h : bytes) (ts : list tlv) (s : bytes) : bytes := h ++ le16 (zlen (enc_tlvs ts)) ++ enc_tlvs ts ++ s.

(** One TLV in the middle of a message. *)
Lemma read_tlv_at p x s : tlv_wf x ->
  ld (p ++ enc_tlv x ++ s) (zlen p) = Some x.1 /\ rd16 (p ++ enc_tlv x ++ s) (zlen p + 1) = Some (zlen x.2) /\
  lds (p ++ enc_tlv x ++ s) (zlen p + sizeof_QMI_TLV_HDR) (zlen x.2) = Some x.2.
Proof.
  intros Hx. split; [|split].
  - unfold enc_tlv. by apply ld_app.
  - by apply GetTLV_len.
  - unfold enc_tlv. replace (p ++ (x.1 :: le16 (zlen x.2) ++ x.2) ++ s) with ((p ++ x.1 :: le16 (zlen x.2)) ++ x.2 ++ s).
    2:{ by rewrite <- !app_assoc. }
    apply lds_app; [|done]. rewrite zlen_app. done.
Qed.

Lemma area_at h pre x ts s hdr : zlen h = hdr + 2 ->
  exists p, area h (pre ++ x :: ts) s = p ++ enc_tlv x ++ (enc_tlvs ts ++ s) /\ zlen p = hdr + 4 + zlen (enc_tlvs pre).
Proof.
  intros Hh. exists (h ++ le16 (zlen (enc_tlvs (pre ++ x :: ts))) ++ enc_tlvs pre). split.
  - unfold area. rewrite enc_tlvs_app, enc_tlvs_cons, <- !app_assoc. done.
  - rewrite !zlen_app. change (zlen (le16 _)) with 2. lia.
Qed.

Lemma GetTLV_nth h ts s hdr i :
  zlen h = hdr + 2 -> Forall tlv_wf ts -> zlen (enc_tlvs ts) < 2 ^ 16 -> 0 < i ->
  GetTLV (area h ts s) hdr (0x1000 + i) = Some (find_index ts (hdr + 4) i).
Proof.
  intros Hh F L Hi. unfold area. rewrite (GetTLV_area h ts s hdr) by done. rewrite (proj2 (Z.ltb_lt _ _)) by lia.
  do 2 f_equal. lia.
Qed.

Lemma dump_tlv_loop_area fuel h pre ts s hdr t :
  zlen h = hdr + 2 -> Forall tlv_wf (pre ++ ts) -> zlen (enc_tlvs (pre ++ ts)) < 2 ^ 16 -> (length ts < fuel)%nat ->
  dump_tlv_loop fuel (area h (pre ++ ts) s) hdr (Z.of_nat (length pre)) (kept t) = Some (kept (t ++ tlvs_text ts)).
Proof.
  intros Hh. revert pre t fuel. induction ts as [|x ts IH]; intros pre t fuel F L Hf; (destruct fuel as [|fuel]; [cbn in Hf; lia|]);
    cbn [dump_tlv_loop]; rewrite GetTLV_nth by (done || lia).
  - rewrite find_index_none by (rewrite app_nil_r; lia). cbn. by rewrite app_nil_r.
  - rewrite find_index_at. cbn [mbind option_bind].
    assert (tlv_wf x) as Hx by (apply Forall_app in F as [_ F]; by apply Forall_cons in F as [? _]).
    destruct (area_at h pre x ts s hdr Hh) as (p & E & Hp).
    destruct (read_tlv_at p x (enc_tlvs ts ++ s) Hx) as (E1 & E2 & E3). rewrite <- E in E1, E2, E3. rewrite <- Hp, E1, E2.
    cbn [mbind option_bind]. rewrite E3. cbn [mbind option_bind]. rewrite dbg_kept, dbg_bytes_kept, dbg_kept.
    specialize (IH (pre ++ [x])). rewrite <- !app_assoc in IH. cbn [app] in IH.
    replace (Z.of_nat (length pre) + 1) with (Z.of_nat (length (pre ++ [x]))) by (rewrite length_app; cbn; lia).
    rewrite IH by (done || (cbn in Hf; lia)). do 2 f_equal. unfold tlvs_text, tlv_text. cbn [mbind list_bind]. 
    by rewrite <- !app_assoc.
Qed.

Lemma tlvs_shorter h ts s : (length ts < S (length (area h ts s)))%nat.
Proof.
  unfold area. rewrite !length_app. assert (length ts <= length (enc_tlvs ts))%nat; [|lia].
  induction ts as [|x ts IH]; [done|]. rewrite enc_tlvs_cons, length_app. pose proof (enc_tlv_zlen x). unfold zlen in *. cbn [length]. lia.
Qed.
Lemma dump_tlv_area h ts s hdr t :
  zlen h = hdr + 2 -> Forall tlv_wf ts -> zlen (enc_tlvs ts) < 2 ^ 16 ->
  dump_tlv (area h ts s) hdr (kept t) = Some (kept (t ++ tlvs_text ts)).
Proof. intros Hh F L. exact (dump_tlv_loop_area _ h [] ts s hdr t Hh F L (tlvs_shorter h ts s)). Qed.

(** ** Messages *)
Definition name_text (serviceType ty ctl : Z) : bytes :=
  match service_names serviceType with
  | Some t => match find (names_it ty (qmux_tag ctl)) (table_of t) with Some x => x.2 | None => str "unknow_" ++ hex ty end
  | None => str "PDS/QOS/CTL/unknown!"
  end.
Definition head_text (qmitype ctl tid ty len : Z) : bytes :=
  str "TransactionId:    " ++ hex4 tid ++ newline ++
  str "Type:               " ++ hex4 ty ++ tab ++ name_text qmitype ty ctl ++ newline ++
  str "Length:             " ++ hex4 len ++ newline.
Definition qmux_text (qmitype ctl tid ty : Z) (ts : list tlv) : bytes :=
  head_text qmitype ctl tid ty (zlen (enc_tlvs ts)) ++ tlvs_text ts.

Lemma name_of_service qmitype ty ctl t :
  service_names qmitype = Some t -> qmi_name_get t ty (qmux_tag ctl) = Some (name_text qmitype ty ctl).
Proof.
  unfold qmi_name_get, name_text. intros E. rewrite E.
  assert (is_flags t = false) as ->; [|done].
  unfold service_names in E. repeat (case_match; [by simplify_eq|]). done.
Qed.

(** The header of a message is printed whatever follows it. *)
Lemma dump_qmi_head qmitype client ctl tid ty a debug :
  debug <> 0 -> qmitype <> QMUX_TYPE_CTL -> is_u16 tid -> is_u16 ty -> zlen a < 2 ^ 16 ->
  let m := enc_qmux qmitype client ctl tid ty a in
  dump_qmi debug m (zlen a + 13) =
  (text ← dump_tlv m oMUXType (kept (head_text qmitype ctl tid ty (zlen a))); Some [kept (hex_text m); text]).
Proof.
  intros Hd Hq Ht Hy L m. unfold dump_qmi. rewrite (proj2 (Z.eqb_neq debug 0)) by done.
  set (h := [USB_CTL_MSG_TYPE_QMI] ++ le16 (zlen a + 12) ++ [0; qmitype; client; ctl]).
  pose proof (zlen_nonneg a) as H0.
  assert (zlen m = zlen a + 13) as Hm.
  { change (zlen (h ++ le16 tid ++ le16 ty ++ le16 (zlen a) ++ a) = zlen a + 13). rewrite !zlen_app. change (zlen (le16 _)) with 2.
    change (zlen h) with 7. lia. }
  assert (lds m 0 (Z.max 0 (zlen a + 13)) = Some m) as ->.
  { rewrite <- (app_nil_r m) at 1. apply lds_app_0. lia. }
  cbn [mbind option_bind].
  replace (ld m oQMIType) with (Some qmitype) by done. cbn [mbind option_bind].
  rewrite (proj2 (Z.eqb_neq qmitype QMUX_TYPE_CTL)) by done. unfold dump_qmux.
  replace (ld m oMUXMsg) with (Some ctl) by done. cbn [mbind option_bind].
  assert (rd16 m (oMUXMsg + 1) = Some tid) as -> by exact (rd16_le16 h tid _ _ Ht eq_refl).
  assert (rd16 m (oMUXMsg + sizeof_QCQMUX_HDR) = Some ty) as -> by exact (rd16_le16 (h ++ le16 tid) ty _ _ Hy eq_refl).
  assert (rd16 m (oMUXMsg + sizeof_QCQMUX_HDR + 2) = Some (zlen a)) as ->.
  { exact (rd16_le16 (h ++ le16 tid ++ le16 ty) (zlen a) _ _ (conj H0 L) eq_refl). }
  cbn [mbind option_bind].
  assert (match service_names qmitype with Some t => qmi_name_get t ty (qmux_tag ctl) | None => Some (str "PDS/QOS/CTL/unknown!") end
          = Some (name_text qmitype ty ctl)) as ->.
  { destruct (service_names qmitype) as [t|] eqn:E; [by apply name_of_service | unfold name_text; by rewrite E]. }
  cbn [mbind option_bind]. change (dbg []) with (dbg (kept [])). change (dbg_bytes []) with (dbg_bytes (kept [])). rewrite !dbg_kept, dbg_bytes_kept.
  unfold head_text. cbn [app]. by rewrite <- !app_assoc.
Qed.

(** C28: Verbose mode prints every well-formed message that is not of the control service completely and correctly - its bytes, its
    transaction, the name of its type, its length and all of its TLVs in order - cut off at 1023 characters a line, and printing
    neither overruns the buffer nor reads outside the message. *)
Theorem dump_qmi_prints qmitype client ctl tid ty ts debug :
  debug <> 0 -> qmitype <> QMUX_TYPE_CTL -> is_u16 tid -> is_u16 ty -> Forall tlv_wf ts -> zlen (enc_tlvs ts) < 2 ^ 16 ->
  dump_qmi debug (enc_qmux qmitype client ctl tid ty (enc_tlvs ts)) (zlen (enc_tlvs ts) + 13) =
  Some [kept (hex_text (enc_qmux qmitype client ctl tid ty (enc_tlvs ts))); kept (qmux_text qmitype ctl tid ty ts)].
Proof.
  intros Hd Hq Ht Hy F L. rewrite dump_qmi_head by done.
  set (h := [USB_CTL_MSG_TYPE_QMI] ++ le16 (zlen (enc_tlvs ts) + 12) ++ [0; qmitype; client; ctl] ++ le16 tid ++ le16 ty).
  assert (enc_qmux qmitype client ctl tid ty (enc_tlvs ts) = area h ts []) as -> by (unfold area; by rewrite app_nil_r).
  by rewrite dump_tlv_area.
Qed.

(** A message whose first TLV claims more bytes than the message holds: the printout reads on behind it, where the program without
    [-v] only looks for the TLVs it wants. *)
Theorem dump_qmi_reads_past qmitype client ctl tid ty t l v debug :
  debug <> 0 -> qmitype <> QMUX_TYPE_CTL -> is_u16 tid -> is_u16 ty -> is_byte t -> is_u16 l -> zlen v < l -> zlen v + 3 < 2 ^ 16 ->
  let m := enc_qmux qmitype client ctl tid ty (t :: le16 l ++ v) in
  dump_qmi debug m (zlen v + 16) = None /\ dump_qmi 0 m (zlen v + 16) = Some [] /\ GetTLV m oMUXType t = Some (Some oTLVs).
Proof.
  intros Hd Hq Ht Hy Htb Hl Hv L m. pose proof (zlen_nonneg v).
  assert (zlen (t :: le16 l ++ v) = zlen v + 3) as La.
  { change (t :: le16 l ++ v) with ((t :: le16 l) ++ v). rewrite zlen_app. change (zlen (t :: le16 l)) with 3. lia. }
  set (h := [USB_CTL_MSG_TYPE_QMI] ++ le16 (zlen (t :: le16 l ++ v) + 12) ++ [0; qmitype; client; ctl] ++ le16 tid ++ le16 ty).
  assert (rd16 m (oMUXType + 2) = Some (zlen v + 3)) as Hlen.
  { rewrite <- La. apply (rd16_le16 h); [|done]. unfold is_u16. lia. }
  assert (rd16 m (oTLVs + 1) = Some l) as Hrd.
  { exact (rd16_le16 (h ++ le16 (zlen (t :: le16 l ++ v)) ++ [t]) l v _ Hl eq_refl). }
  assert (ld m oTLVs = Some t) as Hld by done.
  assert (lds m (oTLVs + sizeof_QMI_TLV_HDR) l = None) as Hno.
  { unfold lds. assert (zlen m = zlen v + 16) as ->.
    { change (zlen (h ++ le16 (zlen (t :: le16 l ++ v)) ++ t :: le16 l ++ v) = zlen v + 16). rewrite !zlen_app, La. change (zlen h) with 11.
      change (zlen (le16 _)) with 2. lia. }
    rewrite (proj2 (Z.leb_gt (oTLVs + sizeof_QMI_TLV_HDR + l) _)) by (unfold oTLVs, sizeof_QMI_TLV_HDR; lia). by rewrite andb_false_r. }
  assert (forall ty', (0x1000 <? ty') = false \/ ty' = 0x1000 + 1 -> t = ty' \/ ty' = 0x1000 + 1 -> GetTLV m oMUXType ty' = Some (Some oTLVs)) as Hget.
  { intros ty' H1 H2. unfold GetTLV. rewrite Hlen. cbn [mbind option_bind].
    destruct (length m) as [|n] eqn:En; [done|]. cbn [GetTLV_loop]. unfold sizeof_QMI_TLV_HDR at 1. rewrite (proj2 (Z.leb_le 3 _)) by lia.
    destruct H2 as [<- | ->]; [|done]. destruct H1 as [-> | ->]; [|done].
    change (oMUXType + sizeof_QCQMUX_MSG_HDR) with oTLVs. rewrite Hld. cbn [mbind option_bind]. by rewrite Z.eqb_refl. }
  split; [|split; [done|]].
  - replace (zlen v + 16) with (zlen (t :: le16 l ++ v) + 13) by lia. unfold m. rewrite dump_qmi_head by (done || lia). fold m.
    unfold dump_tlv. cbn [dump_tlv_loop]. change (0x1000 + (0 + 1)) with (0x1000 + 1). rewrite Hget by auto. cbn [mbind option_bind].
    rewrite Hld, Hrd. cbn [mbind option_bind]. by rewrite Hno.
  - apply Hget; [left | by left]. apply Z.ltb_ge. unfold is_byte in Htb. lia.
Qed.
End Dump.

(** ** The tables *)

(** The kind of message a name ends in, as [qmux_tag] tells it. *)
Definition kind_of (name : bytes) : option bytes :=
  if strstr name (str "_REQ") then Some (str "_REQ") else if strstr name (str "_RESP") then Some (str "_RESP")
  else if strstr name (str "_IND") then Some (str "_IND") else None.
Definition finds_itself (t : names) (x : Z * bytes) : bool :=
  bool_decide (kind_of x.2 <> None) && bool_decide (qmi_name_get t x.1 (kind_of x.2) = Some x.2).
Definition message_tables : list names := [Ctl; Wds; Dms; Nas; Wms; Wda; Uim].

(** No two messages of a service are confused: every name of the tables is the one printed for its type and kind. *)
Theorem names_are_unambiguous t x : In t message_tables -> In x (table_of t) -> 
  exists tag, kind_of x.2 = Some tag /\ qmi_name_get t x.1 (Some tag) = Some x.2.
Proof.
  intros Ht Hx. assert (forallb (fun t => forallb (finds_itself t) (table_of t)) message_tables = true) as H by (vm_compute; reflexivity).
  rewrite forallb_forall in H. specialize (H t Ht). rewrite forallb_forall in H. specialize (H x Hx).
  apply andb_prop in H as [H1%bool_decide_eq_true H2%bool_decide_eq_true].
  destruct (kind_of x.2) as [tag|]; [|done]. by exists tag.
Qed.

(** ** Termination *)
Section Terminates.
Context {host : Host}.

Lemma GetTLV_loop_far fuel m k L p find q :
  Forall is_byte m -> find < k ->
  GetTLV_loop fuel m (0x1000 + k) L p find = Some (Some q) -> 0 < k -> p + 3 * (k - 1 - find) <= q.
Proof.
  intros F Hk H Hk0. revert L p find Hk H. induction fuel as [|fuel IH]; intros L p find Hk; [done|]. cbn [GetTLV_loop].
  destruct (_ <=? L); [|done]. rewrite (proj2 (Z.ltb_lt 0x1000 _)) by lia. cbn [mbind option_bind].
  destruct (Z.eqb_spec (find + 1 + 0x1000) (0x1000 + k)) as [E|E]; [intros [= <-]; lia|].
  destruct (rd16 m (p + 1)) as [l|] eqn:El; [|done]. cbn [mbind option_bind]. unfold sizeof_QMI_TLV_HDR.
  apply rd16_bytes in El as (Hl & _); [|done]. intros H. apply IH in H; lia.
Qed.

Lemma dump_tlv_loop_fuel m hdr f1 f2 find line :
  Forall is_byte m -> 0 <= hdr -> 0 <= find -> (0 < f1)%nat -> (0 < f2)%nat ->
  zlen m < Z.of_nat f1 + find -> zlen m < Z.of_nat f2 + find ->
  dump_tlv_loop f1 m hdr find line = dump_tlv_loop f2 m hdr find line.
Proof.
  intros F Hh. revert f2 find line. induction f1 as [|f1 IH]; intros [|f2] find line Hf P1 P2 H1 H2; try lia.
  cbn [dump_tlv_loop]. destruct (GetTLV m hdr (0x1000 + (find + 1))) as [[p|]|] eqn:E; [|done..]. cbn [mbind option_bind].
  destruct (ld m p) as [t|]; [|done]. destruct (rd16 m (p + 1)) as [l|] eqn:El; [|done]. cbn [mbind option_bind].
  destruct (lds m _ l) as [v|]; [|done]. cbn [mbind option_bind].
  unfold GetTLV in E. destruct (rd16 m (hdr + 2)) as [L|]; [|done]. cbn [mbind option_bind] in E.
  apply GetTLV_loop_far in E; [|done | lia..]. apply rd16_bytes in El; [|done]. unfold sizeof_QCQMUX_MSG_HDR in E.
  apply IH; lia.
Qed.

(** The printing of the TLVs ends on every message, whatever lengths it claims. *)
Theorem dump_tlv_terminates m hdr line extra :
  Forall is_byte m -> 0 <= hdr -> dump_tlv_loop (S (length m) + extra) m hdr 0 line = dump_tlv m hdr line.
Proof. intros F Hh. unfold dump_tlv. apply dump_tlv_loop_fuel; try done; unfold zlen; lia. Qed.
End Terminates.

(** ** A message *)

(** The answer of a modem to the question for its identity. *)
Definition imei_answer : list tlv := [(2, [0; 0; 0; 0]); (0x11, str "861")].

Theorem dump_qmi_prints_witness :
  dump_qmi (host := big_host) 1 (enc_qmux QMUX_TYPE_DMS 1 2 7 0x25 (enc_tlvs imei_answer)) 26 =
  Some [str "01 19 00 00 02 01 02 07 00 25 00 0d 00 02 04 00 00 00 00 00 11 03 00 38 36 31 ";
        str "TransactionId:    0007" ++ newline ++
        str "Type:               0025" ++ tab ++ str "QMIDMS_GET_DEVICE_SERIAL_NUMBERS_RESP" ++ newline ++
        str "Length:             000d" ++ newline ++
        str "{02," ++ tab ++ str "0004," ++ tab ++ str "00 00 00 00 }" ++ newline ++
        str "{11," ++ tab ++ str "0003," ++ tab ++ str "38 36 31 }" ++ newline].
Proof.
  refine (eq_trans (dump_qmi_prints (host := big_host) QMUX_TYPE_DMS 1 2 7 0x25 imei_answer 1 _ _ _ _ _ _) _).
  - discriminate.
  - discriminate.
  - split; reflexivity || discriminate.
  - split; reflexivity || discriminate.
  - repeat (apply Forall_cons_2; [split; [split|]; reflexivity || discriminate|]); apply Forall_nil_2.
  - reflexivity.
  - vm_compute. reflexivity.
Defined.

Theorem dump_qmi_reads_past_witness :
  dump_qmi 1 (enc_qmux QMUX_TYPE_DMS 1 2 7 0x25 (0x11 :: le16 15 ++ str "861")) 19 = None.
Proof.
  apply (dump_qmi_reads_past QMUX_TYPE_DMS 1 2 7 0x25 0x11 15 (str "861") 1); try discriminate; try reflexivity;
    split; reflexivity || discriminate.
Defined.
Theorem names_are_unambiguous_witness : exists tag, kind_of (str "QMIDMS_UIM_GET_STATE_REQ") = Some tag /\ 
  qmi_name_get Dms 0x44 (Some tag) = Some (str "QMIDMS_UIM_GET_STATE_REQ").
Proof. apply (names_are_unambiguous Dms (0x44, str "QMIDMS_UIM_GET_STATE_REQ")); vm_compute; tauto. Defined.
Theorem dump_tlv_terminates_witness :
  dump_tlv_loop 1000 (enc_qmux 2 1 2 7 0x25 (0x11 :: le16 15 ++ [])) oMUXType 0 [] = dump_tlv (enc_qmux 2 1 2 7 0x25 (0x11 :: le16 15 ++ [])) oMUXType [].
Proof.
  apply (dump_tlv_terminates (enc_qmux 2 1 2 7 0x25 (0x11 :: le16 15 ++ [])) oMUXType [] 983); [|discriminate].
  repeat (apply Forall_cons_2; [split; [apply Z.leb_le | apply Z.ltb_lt]; reflexivity|]). apply Forall_nil_2.
Defined.
