(* ===== verification/Brothers.v ===== *)
(** * main.c: stopping the programs that hold the QMI channel ([kill_brothers]).
    The model reads /proc - the directory in the order of [readdir], with the target of every link - and keeps the sequence of signals
    and waits.  Whether a process is still there depends on that sequence ([lives]). *)
From S2P Require Import Prelude Util Monad Text.
#[local] Open Scope Z_scope.
#[local] Open Scope c_scope.

Definition MAX_PATH : Z := 256.

Inductive signal_act := Terminate (pid : Z) | ForceKill (pid : Z) | Sleep (seconds : Z).

(** An entry of /proc: the target of [exe] and the links of [fd]; [None]: the link or the directory cannot be read. *)
Record proc_dir := { p_file : bytes; p_exe : option bytes; p_fd : option (list (bytes * option bytes)) }.

Class Procs := { self_pid : Z; self_exe : option bytes; lives : list signal_act -> Z -> bool }.

Abbreviation MA := (M (list signal_act)).
Definition act_do (a : signal_act) : MA unit := modify (fun l => l ++ [a]).

(** [readlink(path, buf, MAX_PATH)] and the NUL the code puts behind it: the outer [None] is the write behind the buffer. *)
Definition read_link (target : option bytes) : option (option bytes) :=
  match target with
  | None => Some None
  | Some t =>
      let link := take (Z.to_nat MAX_PATH) t in
      if zlen link <=? 0 then Some None else
      if zlen link <? MAX_PATH then Some (Some link) else None
  end.

(** The sum of what [match] returns for the entries; 0 when the directory cannot be opened. *)
Fixpoint ls_dir {A} (matches : A -> MA Z) (entries : list A) : MA Z :=
  match entries with
  | [] => mret 0
  | x :: entries => n ← matches x; k ← ls_dir matches entries; mret (n + k)
  end.

Section Brothers.
Context {procs : Procs}.

Definition is_same_linkfile (qmichannel : bytes) (file : bytes * option bytes) : MA Z :=
  match read_link file.2 with
  | None => (fun _ => None)
  | Some None => mret 0
  | Some (Some filename) => mret (if bool_decide (filename = qmichannel) then 1 else 0)
  end.

Definition alive (pid : Z) : MA bool := gets (fun l => lives l pid).

(** [while (kill_timeout-- && !kill(pid, 0)) { kill(pid, SIGTERM); sleep(1); }] *)
Fixpoint term_loop (kill_timeout : nat) (pid : Z) : MA unit :=
  match kill_timeout with
  | O => mret tt
  | S kill_timeout =>
      a ← alive pid;
      if a : bool then act_do (Terminate pid);; act_do (Sleep 1);; term_loop kill_timeout pid else mret tt
  end.

Definition digits_only (file : bytes) : bool := forallb (fun c => (48 <=? c) && (c <=? 57)) file.

Definition is_brother_process (qmichannel : bytes) (p : proc_dir) : MA Z :=
  if negb (digits_only (p_file p)) then mret 0 else
  match read_link (p_exe p) with
  | None => (fun _ => None)
  | Some None => mret 0
  | Some (Some _) =>
      let pid := atoi (p_file p) in
      if self_pid <=? pid then mret 0 else
      n ← match p_fd p with Some links => ls_dir (is_same_linkfile qmichannel) links | None => mret 0 end;
      if n =? 0 then mret 0 else
      term_loop 15 pid;;
      a ← alive pid;
      when a (act_do (ForceKill pid);; act_do (Sleep 1));;
      mret 1
  end.

(** [proc]: the entries of /proc, or nothing when it cannot be opened. *)
Definition kill_brothers (qmichannel : bytes) (proc : option (list proc_dir)) : MA Z :=
  match read_link self_exe with
  | None => (fun _ => None)
  | Some None => mret 0
  | Some (Some _) =>
      n ← match proc with Some ps => ls_dir (is_brother_process qmichannel) ps | None => mret 0 end;
      when (negb (n =? 0)) (act_do (Sleep 1));;
      mret 0
  end.

(** Its place in [qmi_main]: not with several data calls, whose other processes share the device. *)
Definition qmi_main_kill_brothers (qmap_mode : Z) (qmichannel : bytes) (proc : option (list proc_dir)) : MA unit :=
  when ((qmap_mode =? 0) || (qmap_mode =? 1)) (_ ← kill_brothers qmichannel proc; mret tt).
End Brothers.

(** * Who is stopped by [kill_brothers]. *)

(** A link whose target fits the code's buffer with its NUL. *)
Definition fits (target : option bytes) : bool := match target with Some t => (0 <? zlen t) && (zlen t <? MAX_PATH) | None => true end.
Definition links_of (p : proc_dir) : list (bytes * option bytes) := default [] (p_fd p).
Record proc_ok (p : proc_dir) : Prop := { ok_exe : fits (p_exe p) = true; ok_fd : forallb (fun x => fits x.2) (links_of p) = true }.

Lemma read_link_fits t : fits t = true -> read_link t = Some t.
Proof.
  destruct t as [t|]; [|done]. cbn [fits]. intros [H1%Z.ltb_lt H2%Z.ltb_lt]%andb_prop. unfold read_link.
  assert (take (Z.to_nat MAX_PATH) t = t) as -> by (apply take_ge; unfold zlen in H2; lia).
  by rewrite (proj2 (Z.leb_gt _ _)), (proj2 (Z.ltb_lt (zlen t) _)) by done.
Qed.
(** The target that is too long by one: the NUL goes behind the buffer. *)
Lemma read_link_overflow t : MAX_PATH <= zlen t -> read_link (Some t) = None.
Proof.
  intros H. unfold read_link. assert (zlen (take (Z.to_nat MAX_PATH) t) = MAX_PATH) as ->; [|done].
  unfold zlen in *. rewrite length_take. unfold MAX_PATH in *. lia.
Qed.

Lemma act_do_run a l : act_do a l = Some (tt, l ++ [a]).
Proof. done. Qed.

Section Spec.
Context {procs : Procs} (qmichannel : bytes).

(** A process with a smaller number that has the channel open. *)
Definition brother (p : proc_dir) : bool :=
  digits_only (p_file p) && bool_decide (p_exe p <> None) && (atoi (p_file p) <? self_pid) &&
  existsb (fun x => bool_decide (x.2 = Some qmichannel)) (links_of p).
Definition pid_of_dir (p : proc_dir) : Z := atoi (p_file p).

(** What is done to one process. *)
Definition aimed (pid : Z) (a : signal_act) : Prop := a = Terminate pid \/ a = ForceKill pid \/ a = Sleep 1.

Lemma same_links links l : forallb (fun x => fits x.2) links = true ->
  exists n, ls_dir (is_same_linkfile qmichannel) links l = Some (n, l) /\ 0 <= n /\
    (n =? 0) = negb (existsb (fun x => bool_decide (x.2 = Some qmichannel)) links).
Proof.
  induction links as [|[f t] links IH]; [by exists 0|]. cbn [forallb snd]. intros [H1 H2]%andb_prop.
  destruct (IH H2) as (n & E & Hn & Hz). cbn [ls_dir existsb snd].
  assert (is_same_linkfile qmichannel (f, t) l = Some (if bool_decide (t = Some qmichannel) then 1 else 0, l)) as Es.
  { unfold is_same_linkfile. cbn [snd]. rewrite read_link_fits by done. destruct t as [t|]; [|done].
    repeat case_bool_decide; simplify_eq; done. }
  erewrite bind_step by exact Es. erewrite bind_step by exact E. eexists. split; [reflexivity|].
  destruct (bool_decide _); cbn [orb negb]; [|rewrite Z.add_0_l; by split].
  split; [lia|]. apply Z.eqb_neq. lia.
Qed.

Lemma term_loop_acts n pid l : exists acts, term_loop n pid l = Some (tt, l ++ acts) /\ Forall (aimed pid) acts /\ (length acts <= 2 * n)%nat.
Proof.
  revert l. induction n as [|n IH]; intros l; [exists []; by rewrite app_nil_r|]. cbn [term_loop].
  erewrite bind_step by reflexivity. destruct (lives l pid); [|exists []; rewrite app_nil_r; repeat split; [done | cbn; lia]].
  erewrite bind_step by reflexivity. erewrite bind_step by reflexivity.
  destruct (IH ((l ++ [Terminate pid]) ++ [Sleep 1])) as (acts & E & F & L). exists (Terminate pid :: Sleep 1 :: acts). rewrite E.
  split; [by rewrite <- !app_assoc|]. split; [|cbn [length]; lia]. unfold aimed. by repeat constructor; auto.
Qed.

(** Dead is dead, and SIGKILL and a second are enough. *)
Record killable (pid : Z) : Prop := {
  stays_dead : forall l l', lives l pid = false -> lives (l ++ l') pid = false;
  dies : forall l, lives (l ++ [ForceKill pid; Sleep 1]) pid = false }.

Lemma is_brother_process_acts p l : proc_ok p ->
  exists acts, is_brother_process qmichannel p l = Some (if brother p then 1 else 0, l ++ acts) /\ Forall (aimed (pid_of_dir p)) acts /\
    (length acts <= (if brother p then 32 else 0))%nat /\
    (brother p = true -> killable (pid_of_dir p) -> lives (l ++ acts) (pid_of_dir p) = false).
Proof.
  intros [He Hf]. unfold is_brother_process, brother.
  assert (forall v, v = Some (0, l) -> exists acts, v = Some (0, l ++ acts) /\ Forall (aimed (pid_of_dir p)) acts /\ (length acts <= 0)%nat /\
    (false = true -> killable (pid_of_dir p) -> lives (l ++ acts) (pid_of_dir p) = false)) as Hno.
  { intros v ->. exists []. by rewrite app_nil_r. }
  destruct (digits_only (p_file p)); [|by apply Hno]. cbn [negb andb]. rewrite read_link_fits by done.
  destruct (p_exe p) as [exe|]; [|by apply Hno]. rewrite bool_decide_eq_true_2 by done. cbn [andb].
  rewrite (Z.ltb_antisym self_pid). destruct (self_pid <=? atoi (p_file p)); [by apply Hno|]. cbn [negb andb].
  destruct (same_links (links_of p) l Hf) as (n & En & Hn & Hz).
  assert ((match p_fd p with Some links => ls_dir (is_same_linkfile qmichannel) links | None => mret 0 end) l = Some (n, l)) as E1.
  { unfold links_of in En. by destruct (p_fd p). }
  erewrite bind_step by exact E1. rewrite Hz. destruct (existsb _ _); cbn [negb]; [|by apply Hno].
  fold (pid_of_dir p). destruct (term_loop_acts 15 (pid_of_dir p) l) as (acts & Et & Ft & Lt).
  erewrite bind_step by exact Et. erewrite bind_step by reflexivity.
  destruct (lives (l ++ acts) (pid_of_dir p)) eqn:El.
  - exists (acts ++ [ForceKill (pid_of_dir p); Sleep 1]). split.
    { cbn [when]. erewrite bind_step by (erewrite bind_step by apply act_do_run; apply act_do_run). by rewrite <- !app_assoc. }
    split; [|split].
    + apply Forall_app. split; [done|]. unfold aimed. by repeat constructor; auto.
    + rewrite length_app. cbn [length]. lia.
    + intros _ [_ K]. rewrite app_assoc. apply K.
  - exists acts. split; [reflexivity|]. split; [done|]. split; [lia|]. by intros.
Qed.

(** All the processes. *)
Definition only_at (ps : list proc_dir) (a : signal_act) : Prop := exists p, p ∈ ps /\ brother p = true /\ aimed (pid_of_dir p) a.

Lemma ls_proc ps l : Forall proc_ok ps ->
  exists n acts, ls_dir (is_brother_process qmichannel) ps l = Some (n, l ++ acts) /\ 0 <= n /\
    ((n =? 0) = negb (existsb brother ps)) /\ Forall (only_at ps) acts /\
    (length acts <= 32 * length (filter (fun p => brother p = true) ps))%nat /\
    (forall p, p ∈ ps -> brother p = true -> killable (pid_of_dir p) -> lives (l ++ acts) (pid_of_dir p) = false).
Proof.
  revert l. induction ps as [|p ps IH]; intros l F.
  { exists 0, []. rewrite app_nil_r. repeat split; try done. intros p Hp. by apply elem_of_nil in Hp. }
  apply Forall_cons in F as [Hp F]. destruct (is_brother_process_acts p l Hp) as (acts & E & Fa & La & Ka).
  destruct (IH (l ++ acts) F) as (n & acts' & E' & Hn & Hz & Fa' & La' & Ka'). cbn [ls_dir].
  erewrite bind_step by exact E. erewrite bind_step by exact E'. eexists _, (acts ++ acts'). rewrite app_assoc. split; [reflexivity|].
  cbn [existsb]. rewrite filter_cons.
  assert (Forall (only_at (p :: ps)) acts') as Ft.
  { eapply Forall_impl; [exact Fa'|]. intros a (q & Hq & H). exists q. split; [by right | done]. }
  destruct (brother p) eqn:Hb; cbn [orb].
  - split; [lia|]. split; [apply Z.eqb_neq; lia|]. split; [|split].
    + apply Forall_app. split; [|done]. eapply Forall_impl; [exact Fa|]. intros a Ha. exists p. split; [by left | done].
    + rewrite decide_True by done. rewrite length_app. cbn [length]. lia.
    + intros q [-> | Hq]%elem_of_cons Hqb K; [|rewrite <- app_assoc; rewrite app_assoc; by apply Ka'].
      apply (stays_dead _ K). by apply Ka.
  - split; [lia|]. split; [by rewrite Z.add_0_l|]. assert (acts = []) as -> by (destruct acts; [done | cbn in La; lia]).
    split; [done|]. split; [rewrite decide_False by done; exact La'|].
    intros q [-> | Hq]%elem_of_cons Hqb K; [congruence|]. rewrite app_nil_r in *. by apply Ka'.
Qed.

(** C29: The start of the QMI mode stops exactly the programs that stand in its way: signals go only to processes with a smaller number
    that have the channel open - never to the program itself -, at most sixteen to each, nothing at all is done when there is no such process,
    and afterwards all of them are gone. *)
Theorem kill_brothers_stops ps l :
  fits self_exe = true -> self_exe <> None -> Forall proc_ok ps ->
  exists acts, kill_brothers qmichannel (Some ps) l = Some (0, l ++ acts) /\
    (forall pid, Terminate pid ∈ acts \/ ForceKill pid ∈ acts ->
       pid < self_pid /\ exists p, p ∈ ps /\ brother p = true /\ pid_of_dir p = pid) /\
    (length acts <= 32 * length (filter (fun p => brother p = true) ps) + 1)%nat /\
    (existsb brother ps = false -> acts = []) /\
    (forall p, p ∈ ps -> brother p = true -> killable (pid_of_dir p) -> lives (l ++ acts) (pid_of_dir p) = false).
Proof.
  intros Hf Hs Hp. unfold kill_brothers. rewrite read_link_fits by done. destruct self_exe as [exe|]; [|done].
  destruct (ls_proc ps l Hp) as (n & acts & E & Hn & Hz & Fa & La & Ka). erewrite bind_step by exact E. rewrite Hz, negb_involutive.
  assert (forall pid a, a = Terminate pid \/ a = ForceKill pid -> a ∈ acts ->
    pid < self_pid /\ exists p, p ∈ ps /\ brother p = true /\ pid_of_dir p = pid) as Hat.
  { intros pid a Ha Hin. rewrite Forall_forall in Fa. destruct (Fa a Hin) as (p & Hps & Hb & Haim).
    assert (pid_of_dir p = pid) as Epid.
    { destruct Ha as [-> | ->]; destruct Haim as [[=] | [[=] | [=]]]; done. }
    split; [|by exists p]. unfold brother in Hb. apply andb_prop in Hb as [[_ Hlt]%andb_prop _]. apply Z.ltb_lt in Hlt.
    by rewrite <- Epid. }
  destruct (existsb brother ps) eqn:Hex; cbn [when].
  - exists (acts ++ [Sleep 1]). split; [erewrite bind_step by apply act_do_run; by rewrite app_assoc|]. split; [|split; [|split]].
    + intros pid [H|H]; apply elem_of_app in H as [H|H]; try (apply elem_of_cons in H as [H|H]; [done | by apply elem_of_nil in H]);
        (eapply Hat; [|exact H]; auto).
    + rewrite length_app. cbn [length]. lia.
    + done.
    + intros p Hin Hb K. rewrite app_assoc. apply (stays_dead _ K). by apply Ka.
  - exists acts. split; [reflexivity|]. split; [|split; [lia | split; [|done]]].
    + intros pid [H|H]; (eapply Hat; [|exact H]; auto).
    + intros _. destruct acts as [|a acts]; [done|]. apply Forall_cons in Fa as [(p & Hin & Hb & _) _]. exfalso.
      assert (existsb brother ps = true); [|congruence]. apply existsb_exists. exists p. split; [by apply list_elem_of_In | done].
Qed.
End Spec.

(** ** A run *)
(** Process 812 runs with the channel open and ignores SIGTERM; 900 looks only at its own terminal; 2000 is younger than the program. *)
Definition proc_eg : list proc_dir :=
  [ {| p_file := str "self"; p_exe := Some (str "/usr/bin/quectel-CM"); p_fd := None |};
    {| p_file := str "812"; p_exe := Some (str "/usr/bin/qmicli"); p_fd := Some [(str "0", Some (str "/dev/null")); (str "3", Some (str "/dev/cdc-wdm0"))] |};
    {| p_file := str "900"; p_exe := Some (str "/bin/ash"); p_fd := Some [(str "0", Some (str "/dev/pts/0"))] |};
    {| p_file := str "2000"; p_exe := Some (str "/usr/bin/quectel-CM"); p_fd := Some [(str "3", Some (str "/dev/cdc-wdm0"))] |} ].
Definition killed (l : list signal_act) (pid : Z) : bool := existsb (fun a => match a with ForceKill p => p =? pid | _ => false end) l.
#[local] Instance procs_eg : Procs := {| self_pid := 1000; self_exe := Some (str "/usr/bin/quectel-CM"); lives := fun l pid => negb (killed l pid) |}.

Lemma killable_eg pid : killable pid.
Proof.
  split; cbn [lives procs_eg]; unfold killed; intros l.
  - intros l' H. apply negb_false_iff in H. by rewrite existsb_app, H.
  - rewrite existsb_app. cbn [existsb]. by rewrite Z.eqb_refl, orb_true_r.
Qed.

Theorem kill_brothers_stops_witness :
  exists acts, kill_brothers (str "/dev/cdc-wdm0") (Some proc_eg) [] = Some (0, [] ++ acts) /\ lives acts 812 = false /\
    ~ (Terminate 900 ∈ acts) /\ (length acts <= 33)%nat.
Proof.
  destruct (kill_brothers_stops (str "/dev/cdc-wdm0") proc_eg []) as (acts & E & Hsig & Hlen & _ & Hgone).
  - reflexivity.
  - discriminate.
  - repeat (apply Forall_cons_2; [by split|]). apply Forall_nil_2.
  - exists acts. split; [exact E|]. split; [|split; [|exact Hlen]].
    + refine (Hgone {| p_file := str "812"; p_exe := Some (str "/usr/bin/qmicli");
        p_fd := Some [(str "0", Some (str "/dev/null")); (str "3", Some (str "/dev/cdc-wdm0"))] |} _ _ (killable_eg _)).
      * right. left.
      * vm_compute. reflexivity.
    + intros H. destruct (Hsig 900 (or_introl H)) as (_ & p & Hin & Hb & Hpid).
      repeat (apply elem_of_cons in Hin as [-> | Hin]; [vm_compute in Hb, Hpid; discriminate|]). by apply elem_of_nil in Hin.
Defined.
(** In the run itself the stubborn process gets fifteen SIGTERMs and a SIGKILL. *)
Example kill_brothers_eg :
  kill_brothers (str "/dev/cdc-wdm0") (Some proc_eg) [] =
  Some (0, concat (replicate 15 [Terminate 812; Sleep 1]) ++ [ForceKill 812; Sleep 1; Sleep 1]).
Proof. vm_compute. reflexivity. Qed.
