(* ===== verification/ProxyMain.v ===== *)
(** * quectel-qmi-proxy.c: the command line and the choice of the modem ([main] up to its loop, which is [serve] of ProxyInit.v).
    [getopt] stops at the first argument that is no option, as in the C library of the package's system.  The files are those of the
    class [Fs] (Device.v); descriptors are above 0.  [None] is a copy past the end of a buffer. *)
From S2P Require Import Prelude Util Text Device.
From Stdlib Require Import Ascii.
#[local] Open Scope Z_scope.
#[local] Open Scope c_scope.

(** [char cdc_wdm[32+1]], [char ifname[32+1]] *)
Definition name_size : Z := 33.
Definition strcpy_name (s : bytes) : option bytes := if zlen s <? name_size then Some s else None.

(** ** [getopt(argc, argv, "d:i:vh")] *)
Inductive opt := Opt (c : Z) (optarg : bytes) | Bad.
Definition takes_arg (c : Z) : bool := (c =? chr "d") || (c =? chr "i").
Definition is_flag (c : Z) : bool := (c =? chr "v") || (c =? chr "h").

(** The letters of one argument, and how the rest of the command line goes on: the flag says that the next argument was used up. *)
Fixpoint letters (s : bytes) (next : option bytes) : list opt * bool :=
  match s with
  | [] => ([], false)
  | c :: s' =>
      if takes_arg c then
        match s', next with
        | _ :: _, _ => ([Opt c s'], false)
        | [], Some a => ([Opt c a], true)
        | [], None => ([Bad], false)
        end
      else let '(l, used) := letters s' next in ((if is_flag c then Opt c [] else Bad) :: l, used)
  end.
Fixpoint getopts (fuel : nat) (args : list bytes) : list opt :=
  match fuel, args with
  | S fuel, a :: args =>
      match a with
      | 45 :: 45 :: [] => []
      | 45 :: (_ :: _) as s =>
          let '(l, used) := letters (tail a) (head args) in
          l ++ getopts fuel (if used then tail args else args)
      | _ => []
      end
  | _, _ => []
  end.

(** The switch of [main]: [None] in the result when the usage is printed and the program ends. *)
Record ProxyArgs := { cdc_wdm : bytes; ifname : bytes; verbose_debug : bool }.
Definition no_args : ProxyArgs := {| cdc_wdm := []; ifname := []; verbose_debug := false |}.
Fixpoint take_opts (l : list opt) (a : ProxyArgs) : option (option ProxyArgs) :=
  match l with
  | [] => Some (Some a)
  | Bad :: _ => Some None
  | Opt c arg :: l =>
      if c =? chr "d" then d ← strcpy_name arg; take_opts l {| cdc_wdm := d; ifname := ifname a; verbose_debug := verbose_debug a |}
      else if c =? chr "v" then take_opts l {| cdc_wdm := cdc_wdm a; ifname := ifname a; verbose_debug := true |}
      else if c =? chr "i" then i ← strcpy_name arg; take_opts l {| cdc_wdm := cdc_wdm a; ifname := i; verbose_debug := verbose_debug a |}
      else Some None
  end.

Section Detect.
Context {fs : Fs}.

(** ** The modem *)
(** [read(fd, id, 4)] into zeroed memory. *)
Definition read_id (path : bytes) : bytes := match f_text path with Some s => upto_nul (take 4 s) | None => [] end.
Definition is_quectel (idVendor : bytes) : bool := same_nocase idVendor (str "05c6") || same_nocase idVendor (str "2c7c").

(** The directory of the channel of an entry that is a modem. *)
Definition channel_dir (d_name : bytes) : option bytes :=
  let path suffix := snprintf (255 * 3) (rootdir ++ [47] ++ d_name ++ suffix) in
  if negb (is_quectel (read_id (path (str "/idVendor")))) then None else
  if f_access (path (str ":1.4/usbmisc")) =? 0 then Some (path (str ":1.4/usbmisc"))
  else if f_access (path (str ":1.4/usb")) =? 0 then Some (path (str ":1.4/usb")) else None.

(** What an entry leaves in [device_name] and [ifname]. *)
Definition scan_entry (d_name : bytes) (names : bytes * bytes) : option (bytes * bytes) :=
  match channel_dir d_name with
  | None => Some names
  | Some dir =>
      let qmifile := dir_get_child dir [] 255 in
      device_name ← strcpy_name (snprintf 255 (str "/dev/" ++ take 100 qmifile));
      ifname ← strcpy_name (dir_get_child (snprintf (255 * 3) (rootdir ++ [47] ++ d_name ++ str ":1.4/net")) [] 255);
      Some (device_name, ifname)
  end.
Fixpoint scan_entries (es : list bytes) (names : bytes * bytes) : option (bytes * bytes) :=
  match es with [] => Some names | e :: es => names ← scan_entry e names; scan_entries es names end.

(** Result: whether it succeeded, and the two buffers. *)
Definition proxy_qmidevice_detect (names : bytes * bytes) : option (bool * (bytes * bytes)) :=
  match f_dir rootdir with
  | None => Some (false, names)
  | Some es =>
      names ← scan_entries es names;
      Some (negb (bool_decide (names.1 = []) || bool_decide (names.2 = [])), names)
  end.
Definition proxy_mhidevice_detect (names : bytes * bytes) : bool * (bytes * bytes) :=
  match (if f_access (str "/sys/class/net/pcie_mhi0") =? 0 then Some (str "pcie_mhi0")
         else if f_access (str "/sys/class/net/rmnet_mhi0") =? 0 then Some (str "rmnet_mhi0") else None) with
  | None => (false, names)
  | Some ifname =>
      if f_access (str "/dev/mhi_QMI0") =? 0 then (true, (str "/dev/mhi_QMI0", ifname)) else (false, (names.1, ifname))
  end.

(** ** [main] *)
Inductive start := Usage | Failed | Serve (cdc_wdm ifname servername : bytes) (verbose : bool).

Definition servername (cdc_wdm : bytes) : bytes := str "quectel-qmi-proxy" ++ dec_signed (default 0 (last cdc_wdm) - chr "0").

Definition choose (a : ProxyArgs) : option (option (bytes * bytes)) :=
  let names := (cdc_wdm a, ifname a) in
  names ← (if bool_decide (cdc_wdm a = []) || bool_decide (ifname a = []) then
             '(ok, names) ← proxy_qmidevice_detect names;
             if ok : bool then Some (Some names) else
             let '(ok, names) := proxy_mhidevice_detect names in Some (if ok then Some names else None)
           else Some (Some names));
  Some (names ← names; if bool_decide (names.1 = []) || bool_decide (names.2 = []) then None else Some names).

Definition proxy_main (argv : list bytes) : option start :=
  a ← take_opts (getopts (length argv) (tail argv)) no_args;
  match a with
  | None => Some Usage
  | Some a =>
      names ← choose a;
      Some match names with
      | None => Failed
      | Some (dev, ifn) => if f_access dev =? 0 then Serve dev ifn (servername dev) (verbose_debug a) else Failed
      end
  end.
End Detect.

(** * Which modem the multiplexer serves. *)

Lemma strcpy_fits s : zlen s < name_size -> strcpy_name s = Some s.
Proof. intros H. unfold strcpy_name. by rewrite (proj2 (Z.ltb_lt _ _)). Qed.

Section Spec.
Context {fs : Fs}.

(** The names of an entry that is a modem. *)
Definition channel_of (dir : bytes) : bytes := snprintf 255 (str "/dev/" ++ take 100 (dir_get_child dir [] 255)).
Definition interface_of (d_name : bytes) : bytes :=
  dir_get_child (snprintf (255 * 3) (rootdir ++ [47] ++ d_name ++ str ":1.4/net")) [] 255.
Definition entry_fits (d_name : bytes) : Prop :=
  forall dir, channel_dir d_name = Some dir -> zlen (channel_of dir) < name_size /\ zlen (interface_of d_name) < name_size.

Lemma scan_entry_modem e names dir : channel_dir e = Some dir -> entry_fits e -> scan_entry e names = Some (channel_of dir, interface_of e).
Proof.
  intros E Hf. destruct (Hf _ E) as [H1 H2]. unfold scan_entry. rewrite E.
  fold (channel_of dir) (interface_of e). cbv zeta. unfold channel_of in *. rewrite strcpy_fits by done. cbn [mbind option_bind].
  fold (interface_of e). by rewrite strcpy_fits.
Qed.
Lemma scan_entries_total es names : Forall entry_fits es -> is_Some (scan_entries es names).
Proof.
  intros F. revert names. induction F as [|e es He _ IH]; intros names; [by eexists|]. cbn [scan_entries].
  destruct (channel_dir e) as [dir|] eqn:E.
  - rewrite (scan_entry_modem e names dir E He). apply IH.
  - unfold scan_entry. rewrite E. apply IH.
Qed.
Lemma scan_entries_none es names : Forall (fun x => channel_dir x = None) es -> scan_entries es names = Some names.
Proof. induction 1 as [|e es He _ IH]; [done|]. cbn [scan_entries]. unfold scan_entry. by rewrite He. Qed.
Lemma scan_entries_app es es' names : scan_entries (es ++ es') names = names ← scan_entries es names; scan_entries es' names.
Proof.
  revert names. induction es as [|e es IH]; intros names; [done|]. cbn [app scan_entries].
  destruct (scan_entry e names) as [n|]; [|done]. cbn [mbind option_bind]. apply IH.
Qed.

Lemma channel_of_nonempty dir : channel_of dir <> [].
Proof. unfold channel_of, snprintf. by destruct (take 100 _). Qed.

(** The last modem of the directory decides, whatever the buffers held. *)
Lemma detect_last pre e post dir names :
  f_dir rootdir = Some (pre ++ e :: post) -> Forall entry_fits pre -> entry_fits e -> channel_dir e = Some dir ->
  Forall (fun x => channel_dir x = None) post ->
  proxy_qmidevice_detect names = Some (negb (bool_decide (interface_of e = [])), (channel_of dir, interface_of e)).
Proof.
  intros Hd Fp Fe He Hpost. unfold proxy_qmidevice_detect. rewrite Hd, scan_entries_app.
  destruct (scan_entries_total pre names Fp) as [n ->]. cbn [mbind option_bind scan_entries].
  rewrite (scan_entry_modem e n dir He Fe). cbn [mbind option_bind]. rewrite scan_entries_none by done. cbn [mbind option_bind fst snd].
  rewrite (bool_decide_eq_false_2 (channel_of dir = [])) by apply channel_of_nonempty. done.
Qed.

(** ** The command line *)
Definition plain (s : bytes) : Prop := s <> [] /\ zlen s < name_size.

Lemma args_d prog d : plain d -> take_opts (getopts 3 (tail [prog; str "-d"; d])) no_args = 
  Some (Some {| cdc_wdm := d; ifname := []; verbose_debug := false |}).
Proof.
  intros [_ Hd]. change (take_opts [Opt (chr "d") d] no_args = Some (Some {| cdc_wdm := d; ifname := []; verbose_debug := false |})).
  unfold take_opts. change (chr "d" =? chr "d") with true. cbv iota. by rewrite strcpy_fits.
Qed.
Lemma args_di prog d i : plain d -> plain i -> take_opts (getopts 5 (tail [prog; str "-d"; d; str "-i"; i])) no_args = 
  Some (Some {| cdc_wdm := d; ifname := i; verbose_debug := false |}).
Proof.
  intros [_ Hd] [_ Hi].
  change (take_opts [Opt (chr "d") d; Opt (chr "i") i] no_args = Some (Some {| cdc_wdm := d; ifname := i; verbose_debug := false |})).
  unfold take_opts. change (chr "d" =? chr "d") with true. change (chr "i" =? chr "d") with false. change (chr "i" =? chr "v") with false.
  change (chr "i" =? chr "i") with true. cbv iota. rewrite strcpy_fits by done. cbn [mbind option_bind]. by rewrite strcpy_fits.
Qed.

(** A device and an interface given together are served as they are.  A device alone is ignored: like without any option, the
    multiplexer serves the last modem of the USB bus, and when that one has no interface and there is no PCIe modem it gives up, although other
    modems may have one. *)
Theorem proxy_main_chooses prog d i pre e post dir :
  plain d -> plain i -> f_dir rootdir = Some (pre ++ e :: post) -> Forall entry_fits pre -> entry_fits e -> channel_dir e = Some dir ->
  Forall (fun x => channel_dir x = None) post ->
  let serve dev ifn := if f_access dev =? 0 then Serve dev ifn (servername dev) false else Failed in
  proxy_main [prog; str "-d"; d; str "-i"; i] = Some (serve d i) /\
  (interface_of e <> [] ->
     proxy_main [prog; str "-d"; d] = Some (serve (channel_of dir) (interface_of e)) /\
     proxy_main [prog] = Some (serve (channel_of dir) (interface_of e))) /\
  (interface_of e = [] -> f_access (str "/dev/mhi_QMI0") <> 0 ->
     proxy_main [prog; str "-d"; d] = Some Failed /\ proxy_main [prog] = Some Failed).
Proof.
  intros Pd Pi Hd Fp Fe He Hpost serve. unfold proxy_main.
  assert (forall a, ifname a = [] -> interface_of e <> [] -> choose a = Some (Some (channel_of dir, interface_of e))) as Hgood.
  { intros a Ha Hn. unfold choose. rewrite Ha, (bool_decide_eq_true_2 ([] = [])), orb_true_r by done.
    rewrite (detect_last pre e post dir _ Hd Fp Fe He Hpost). rewrite (bool_decide_eq_false_2 (interface_of e = [])) by done.
    cbn [mbind option_bind negb fst snd]. rewrite !bool_decide_eq_false_2 by (done || apply channel_of_nonempty). done. }
  assert (forall a, ifname a = [] -> interface_of e = [] -> f_access (str "/dev/mhi_QMI0") <> 0 -> choose a = Some None) as Hbad.
  { intros a Ha Hn Hm. unfold choose. rewrite Ha, (bool_decide_eq_true_2 ([] = [])), orb_true_r by done.
    rewrite (detect_last pre e post dir _ Hd Fp Fe He Hpost). rewrite Hn, (bool_decide_eq_true_2 ([] = [])) by done.
    cbn [mbind option_bind negb]. unfold proxy_mhidevice_detect. rewrite (proj2 (Z.eqb_neq (f_access (str "/dev/mhi_QMI0")) 0) Hm).
    by repeat case_match. }
  change (length [prog; str "-d"; d; str "-i"; i]) with 5%nat. change (length [prog; str "-d"; d]) with 3%nat.
  rewrite args_di, args_d by done. cbn [mbind option_bind].
  change (take_opts (getopts (length [prog]) (tail [prog])) no_args) with (Some (Some no_args)). cbn [mbind option_bind].
  split; [|split].
  - unfold choose. cbn [cdc_wdm ifname]. destruct Pd as [Nd _], Pi as [Ni _]. rewrite !(bool_decide_eq_false_2 (_ = [])) by done.
    cbn [orb mbind option_bind fst snd]. rewrite !(bool_decide_eq_false_2 (_ = [])) by done. done.
  - intros Hn. by rewrite !Hgood.
  - intros Hn Hm. by rewrite !Hbad.
Qed.
End Spec.

(** ** Two modems *)
Definition bus (p : bytes) : bytes := rootdir ++ p.
#[local] Instance two_modems : Fs := {|
  f_text := fun p => if bool_decide (p = bus (str "/1-1/idVendor")) || bool_decide (p = bus (str "/1-2/idVendor")) then Some (str "2C7C" ++ [10]) else None;
  f_access := fun p => if bool_decide (p = bus (str "/1-1:1.4/usbmisc")) || bool_decide (p = bus (str "/1-2:1.4/usbmisc"))
                          || bool_decide (p = str "/dev/cdc-wdm0") || bool_decide (p = str "/dev/cdc-wdm1") then 0 else 2;
  f_dir := fun p =>
    if bool_decide (p = rootdir) then Some [str "usb1"; str "1-1"; str "1-2"]
    else if bool_decide (p = bus (str "/1-1:1.4/usbmisc")) then Some [str "."; str ".."; str "cdc-wdm0"]
    else if bool_decide (p = bus (str "/1-2:1.4/usbmisc")) then Some [str "."; str ".."; str "cdc-wdm1"]
    else if bool_decide (p = bus (str "/1-1:1.4/net")) then Some [str "wwan0"]
    else if bool_decide (p = bus (str "/1-2:1.4/net")) then Some [str "wwan1"] else None |}.

(** The user asks for the first modem and gets the second. *)
Theorem proxy_main_chooses_witness :
  proxy_main [str "quectel-qmi-proxy"; str "-d"; str "/dev/cdc-wdm0"] = Some (Serve (str "/dev/cdc-wdm1") (str "wwan1") (str "quectel-qmi-proxy1") false) /\
  proxy_main [str "quectel-qmi-proxy"; str "-d"; str "/dev/cdc-wdm0"; str "-i"; str "wwan0"] =
    Some (Serve (str "/dev/cdc-wdm0") (str "wwan0") (str "quectel-qmi-proxy0") false).
Proof.
  assert (forall e, In e [str "usb1"; str "1-1"; str "1-2"] -> entry_fits e) as Hf.
  { intros e [<- | [<- | [<- | []]]] dir; vm_compute; intros [= <-]; split; reflexivity. }
  destruct (proxy_main_chooses (str "quectel-qmi-proxy") (str "/dev/cdc-wdm0") (str "wwan0") [str "usb1"; str "1-1"] (str "1-2") []
              (bus (str "/1-2:1.4/usbmisc"))) as (H1 & H2 & _).
  - split; [discriminate | reflexivity].
  - split; [discriminate | reflexivity].
  - vm_compute. reflexivity.
  - apply Forall_cons_2; [apply Hf; by left|]. apply Forall_cons_2; [apply Hf; right; by left | apply Forall_nil_2].
  - apply Hf. do 2 right. by left.
  - vm_compute. reflexivity.
  - apply Forall_nil_2.
  - destruct H2 as [H2 _]; [vm_compute; discriminate|]. split; [rewrite H2; vm_compute; reflexivity | rewrite H1; vm_compute; reflexivity].
Defined.

(** The name of the server has the last digit of the device only. *)
Example servers_collide : servername (str "/dev/cdc-wdm1") = servername (str "/dev/cdc-wdm11").
Proof. reflexivity. Qed.
