(* ===== verification/DeviceIo.v ===== *)
(** * device.c: the driver of the modem and the log of its USB traffic.
    What is done to the system is the list of its calls; what they return may depend on everything done before (the class [Sys]).  A read of usbmon
    returns the text of one event. *)
From S2P Require Import Prelude Util Monad Text.
#[local] Open Scope Z_scope.
#[local] Open Scope c_scope.

Definition USBDEVFS_IOCTL : Z := 0xc0105512.
Definition USBDEVFS_GETDRIVER : Z := 0x41045508.
Definition IOCTL_USBFS_DISCONNECT : Z := 0x5516.
Definition IOCTL_USBFS_CONNECT : Z := 0x5517.
Definition SIOCETHTOOL : Z := 0x8946.
Definition IFNAMSIZ : Z := 16.

Inductive call := Open (path : bytes) (fd : Z) | Socket (fd : Z) | Close (fd : Z) | Ioctl (fd request ifno code : Z) | Write (fd : Z) (data : bytes) | Catch.

(** The descriptor an [open] or [socket] returns, what an [ioctl] returns, whether a path exists, what a read returns (nothing for an error
    or the end), and the local time as [catch_log] prints it. *)
Class Sys := {
  s_open : list call -> bytes -> Z; s_socket : list call -> Z; s_ioctl : list call -> Z -> Z; s_exists : bytes -> bool;
  s_stamp : list call -> bytes }.

Abbreviation MS := (M (list call)).
Definition doing (c : call) : MS unit := modify (fun l => l ++ [c]).

(** [%03d] *)
Definition padded (width : nat) (d : bytes) : bytes := replicate (width - length d) 48 ++ d.
Definition dec3 (n : Z) : bytes := if n <? 0 then str "-" ++ padded 2 (dec (- n)) else padded 3 (dec n).

Section Driver.
Context {sys : Sys}.

Definition open_file (path : bytes) : MS Z := fd ← gets (fun l => s_open l path); doing (Open path fd);; mret fd.
Definition open_socket : MS Z := fd ← gets s_socket; doing (Socket fd);; mret fd.
Definition ioctl (fd request ifno code : Z) : MS Z := r ← gets (fun l => s_ioctl l request); doing (Ioctl fd request ifno code);; mret r.

Definition usbfs_is_kernel_driver_alive (fd ifnum : Z) : MS Z :=
  r ← ioctl fd USBDEVFS_GETDRIVER ifnum 0; mret (if r <? 0 then 0 else 1).
Definition usbfs_detach_kernel_driver (fd ifnum : Z) : MS unit := _ ← ioctl fd USBDEVFS_IOCTL ifnum IOCTL_USBFS_DISCONNECT; mret tt.
Definition usbfs_attach_kernel_driver (fd ifnum : Z) : MS unit := _ ← ioctl fd USBDEVFS_IOCTL ifnum IOCTL_USBFS_CONNECT; mret tt.

Definition reattach_driver (busnum devnum : Z) : MS Z :=
  let ifnum := 4 in
  let devpath := snprintf 128 (str "/dev/bus/usb/" ++ dec3 busnum ++ str "/" ++ dec3 devnum) in
  fd ← open_file devpath;
  if fd <? 0 then mret (-1) else
  usbfs_detach_kernel_driver fd ifnum;; usbfs_attach_kernel_driver fd ifnum;; doing (Close fd);; mret 0.

(** [strcpy] of the name into the 16 bytes of the request. *)
Definition ql_get_netcard_driver_info (devname : bytes) : MS Z :=
  if IFNAMSIZ <=? zlen devname then (fun _ => None) else
  fd ← open_socket;
  if fd <? 0 then mret (-1) else
  r ← ioctl fd SIOCETHTOOL 0 0;
  if r <? 0 then mret (-1) else doing (Close fd);; mret 0.

(** ** The log of the USB traffic *)
Definition tsize : Z := 20.
Definition sizeof_tbuff : Z := 256 + 32.
Definition event_filter (busnum devnum : Z) : bytes := str ":" ++ dec_signed busnum ++ str ":" ++ dec3 devnum ++ str ":".

(** The thread: the events in the order of the reads; an empty one ends it.  The time is printed over the room before the event. *)
Fixpoint catch_loop (logfile_fd : Z) (filter : bytes) (events : list bytes) : MS unit :=
  match events with
  | [] => mret tt
  | e :: events =>
      let data := take (Z.to_nat (sizeof_tbuff - tsize - 1)) e in
      if bool_decide (data = []) then mret tt else
      let text := upto_nul data in
      if negb (strstr text filter) then catch_loop logfile_fd filter events else
      stamp ← gets s_stamp;
      doing (Write logfile_fd (take (Z.to_nat (tsize - 1)) stamp ++ str " " ++ text));;
      catch_loop logfile_fd filter events
  end.
Definition catch_log (busnum devnum logfile_fd : Z) (events : list bytes) : MS unit :=
  let filter := event_filter busnum devnum in
  if 10 <? zlen filter + 1 then (fun _ => None) else catch_loop logfile_fd filter events.

(** Result: what is returned, and the two descriptors of the profile. *)
Definition ql_capture_usbmon_log (busnum : Z) (log_path : bytes) : MS (Z * Z * Z) :=
  if negb (s_exists (str "/sys/module/usbmon")) then mret (-1, 0, 0) else
  if negb (s_exists (str "/sys/kernel/debug/usb")) then mret (-1, 0, 0) else
  usbmon_fd ← open_file (str "/sys/kernel/debug/usb/usbmon/" ++ dec_signed busnum ++ str "u");
  if usbmon_fd <? 0 then mret (-1, usbmon_fd, 0) else
  usbmon_logfile_fd ← open_file log_path;
  if usbmon_logfile_fd <? 0 then doing (Close usbmon_fd);; mret (-1, -1, usbmon_logfile_fd) else
  doing Catch;; mret (0, usbmon_fd, usbmon_logfile_fd).
Definition ql_stop_usbmon_log (usbmon_fd usbmon_logfile_fd : Z) : MS unit :=
  when (0 <? usbmon_fd) (doing (Close usbmon_fd));; when (0 <? usbmon_logfile_fd) (doing (Close usbmon_logfile_fd)).
End Driver.

(** * The USB log and the descriptors of device.c. *)

(** The descriptors held after a sequence of calls, the newest first. *)
Fixpoint close_one (fd : Z) (h : list Z) : list Z :=
  match h with [] => [] | x :: h => if x =? fd then h else x :: close_one fd h end.
Definition held_by (h : list Z) (c : call) : list Z :=
  match c with
  | Open _ fd | Socket fd => if fd <? 0 then h else fd :: h
  | Close fd => close_one fd h
  | _ => h
  end.
Definition held (l : list call) : list Z := foldl held_by [] l.

Lemma held_calls_app l l' : held (l ++ l') = foldl held_by (held l) l'.
Proof. apply foldl_app. Qed.
Lemma close_two a b h : close_one b (close_one a (b :: a :: h)) = h.
Proof.
  cbn. destruct (Z.eqb_spec b a) as [->|]; cbn; [by rewrite Z.eqb_refl | by rewrite !Z.eqb_refl].
Qed.

Section Spec.
Context {sys : Sys}.

(** A computation that adds [acts]. *)
Lemma doing_run c l : doing c l = Some (tt, l ++ [c]).
Proof. done. Qed.

(** C30: Every path through the functions that use a driver gives its descriptor back - detaching and attaching the driver, the driver's name, and the
    start of the USB log when it fails -, and stopping the log gives back the two that a successful start holds; the one exception is a
    failing request for the driver's name, which keeps its socket. *)
Theorem driver_descriptors busnum devnum devname log_path l :
  zlen devname < IFNAMSIZ ->
  (exists r l', reattach_driver busnum devnum l = Some (r, l') /\ held l' = held l) /\
  (exists r l', ql_get_netcard_driver_info devname l = Some (r, l') /\
     (r = 0 -> held l' = held l) /\ (r <> 0 -> held l' = held l \/ exists fd, 0 <= fd /\ held l' = fd :: held l)) /\
  (exists r mon log l', ql_capture_usbmon_log busnum log_path l = Some ((r, mon, log), l') /\
     (r <> 0 -> held l' = held l) /\
     (r = 0 -> held l' = [log; mon] ++ held l /\
        (0 < mon -> 0 < log -> exists l'', ql_stop_usbmon_log mon log l' = Some (tt, l'') /\ held l'' = held l))).
Proof.
  intros Hn. split; [|split].
  - unfold reattach_driver, open_file. set (p := snprintf 128 _). cbv zeta. clearbody p.
    erewrite bind_step by (erewrite bind_step by reflexivity; erewrite bind_step by apply doing_run; reflexivity).
    destruct (s_open l p <? 0) eqn:E.
    + eexists _, _. split; [reflexivity|]. rewrite held_calls_app. cbn. by rewrite E.
    + eexists _, _. split; [reflexivity|]. rewrite !held_calls_app. cbn. rewrite E. cbn. by rewrite Z.eqb_refl.
  - unfold ql_get_netcard_driver_info, open_socket. rewrite (proj2 (Z.leb_gt _ _)) by done.
    erewrite bind_step by (erewrite bind_step by reflexivity; erewrite bind_step by apply doing_run; reflexivity).
    destruct (s_socket l <? 0) eqn:E.
    + eexists _, _. split; [reflexivity|]. rewrite held_calls_app. cbn. rewrite E. auto.
    + erewrite bind_step by reflexivity. cbv beta. destruct (s_ioctl _ _ <? 0).
      * eexists _, _. split; [reflexivity|]. rewrite !held_calls_app. cbn. rewrite E. split; [done|]. intros _. right.
        apply Z.ltb_ge in E. by exists (s_socket l).
      * eexists _, _. split; [reflexivity|]. rewrite !held_calls_app. cbn. rewrite E. cbn. rewrite Z.eqb_refl. auto.
  - unfold ql_capture_usbmon_log. destruct (s_exists (str "/sys/module/usbmon")); [|eexists _, _, _, _; split; [reflexivity | done]].
    cbn [negb]. destruct (s_exists (str "/sys/kernel/debug/usb")); [|eexists _, _, _, _; split; [reflexivity | done]]. cbn [negb].
    unfold open_file. set (p := str "/sys/kernel/debug/usb/usbmon/" ++ _). clearbody p.
    erewrite bind_step by (erewrite bind_step by reflexivity; erewrite bind_step by apply doing_run; reflexivity).
    destruct (s_open l p <? 0) eqn:E.
    { eexists _, _, _, _. split; [reflexivity|]. rewrite held_calls_app. cbn. rewrite E. done. }
    erewrite bind_step by (erewrite bind_step by reflexivity; erewrite bind_step by apply doing_run; reflexivity).
    set (l1 := l ++ [Open p (s_open l p)]). destruct (s_open l1 log_path <? 0) eqn:E1.
    { eexists _, _, _, _. split; [reflexivity|]. split; [intros _ | done]. unfold l1 in *. rewrite !held_calls_app. cbn. rewrite E, E1. cbn. by rewrite Z.eqb_refl. }
    eexists _, _, _, _. split; [reflexivity|]. split; [done|]. intros _.
    assert (held ((l1 ++ [Open log_path (s_open l1 log_path)]) ++ [Catch]) = [s_open l1 log_path; s_open l p] ++ held l) as Hh.
    { unfold l1 in *. rewrite !held_calls_app. cbn. by rewrite E, E1. }
    split; [exact Hh|]. intros Hm Hl. unfold ql_stop_usbmon_log. rewrite (proj2 (Z.ltb_lt 0 (s_open l p))), (proj2 (Z.ltb_lt 0 (s_open l1 log_path))) by done.
    cbn [when]. erewrite bind_step by apply doing_run. eexists. split; [apply doing_run|].
    rewrite (held_calls_app _ [Close (s_open l1 log_path)]), (held_calls_app _ [Close (s_open l p)]), Hh. apply close_two.
Qed.

(** ** The log *)
Definition of_device (busnum devnum : Z) (e : bytes) : bool := strstr e (event_filter busnum devnum).
Definition event_ok (e : bytes) : Prop := e <> [] /\ no_nul e /\ zlen e <= 267.
(** A line of the log: 19 characters of time and the event. *)
Definition is_line (fd : Z) (c : call) (e : bytes) : Prop := exists t, length t = 19%nat /\ c = Write fd (t ++ str " " ++ e).

(** The log holds exactly the events of the modem, in order, each with its time, and nothing of other devices. *)
Theorem catch_log_keeps_device_events busnum devnum fd events l :
  zlen (event_filter busnum devnum) < 10 -> (forall l, length (s_stamp l) = 19%nat) -> Forall event_ok events ->
  exists acts, catch_log busnum devnum fd events l = Some (tt, l ++ acts) /\
    Forall2 (is_line fd) acts (filter (fun e => of_device busnum devnum e = true) events).
Proof.
  intros Hf Ht F. unfold catch_log. rewrite (proj2 (Z.ltb_ge 10 _)) by lia. revert l.
  induction F as [|e events (Hne & Hn & Hl) F IH]; intros l.
  { exists []. rewrite app_nil_r. split; [reflexivity | constructor]. }
  cbn [catch_loop]. assert (take (Z.to_nat (sizeof_tbuff - tsize - 1)) e = e) as ->.
  { apply take_ge. unfold zlen, sizeof_tbuff, tsize in *. lia. }
  rewrite bool_decide_eq_false_2 by done. rewrite upto_nul_id by done. rewrite filter_cons. fold (of_device busnum devnum e).
  destruct (of_device busnum devnum e); cbn [negb].
  - rewrite decide_True by done. erewrite bind_step by reflexivity. cbv beta. erewrite bind_step by apply doing_run.
    set (w := Write fd _). destruct (IH (l ++ [w])) as (acts & E & R). exists (w :: acts). rewrite E. split; [by rewrite <- app_assoc|].
    constructor; [|done]. exists (s_stamp l). split; [done|]. unfold w. rewrite take_ge; [done|]. rewrite Ht. unfold tsize. lia.
  - rewrite decide_False by done. apply IH.
Qed.
End Spec.

(** ** Runs *)
Definition next_fd (l : list call) : Z := 3 + Z.of_nat (length l).
#[local] Instance sys_eg : Sys := {|
  s_open := fun l _ => next_fd l; s_socket := next_fd; s_ioctl := fun _ r => if r =? SIOCETHTOOL then -1 else 0; s_exists := fun _ => true;
  s_stamp := fun _ => str "2020/06/22_22:50:07" |}.

Theorem driver_descriptors_witness :
  exists r l', ql_get_netcard_driver_info (str "wwan0") [] = Some (r, l') /\ (r = 0 -> held l' = []).
Proof.
  destruct (driver_descriptors 1 5 (str "wwan0") (str "/tmp/usb.log") []) as (_ & (r & l' & E & H & _) & _); [reflexivity|].
  exists r, l'. split; [exact E | exact H].
Defined.
(** The socket of a failing request is kept. *)
Example driver_info_leak : exists l', ql_get_netcard_driver_info (str "wwan0") [] = Some (-1, l') /\ held l' = [3].
Proof. eexists. split; vm_compute; reflexivity. Qed.

Theorem catch_log_keeps_device_events_witness :
  exists acts, catch_log 1 5 4 [str "ffff S Bo:1:005:2 -115 31"; str "ffff C Ci:1:002:0 0 4"] [] = Some (tt, [] ++ acts) /\
    Forall2 (is_line 4) acts [str "ffff S Bo:1:005:2 -115 31"].
Proof.
  apply (catch_log_keeps_device_events 1 5 4 [str "ffff S Bo:1:005:2 -115 31"; str "ffff C Ci:1:002:0 0 4"] []).
  - reflexivity.
  - reflexivity.
  - repeat (apply Forall_cons_2; [split; [discriminate|]; split; [repeat constructor; discriminate | discriminate]|]). apply Forall_nil_2.
Defined.
