(* ===== verification/Dhcp.v ===== *)
(** * libmnl/dhcp: messages and packets (dhcpmsg.c, packet.c, and the decoding of dhcpclient.c).
    Structures are the bytes of their memory: a [dhcp_msg] has 236 bytes before its 1024 of options, an address has 4 bytes in
    network order.  Words are added in the byte order of the host, as the code does. *)
From S2P Require Import Prelude Util Layout.
#[local] Open Scope Z_scope.
#[local] Open Scope c_scope.

Definition OP_BOOTREQUEST : Z := 1.
Definition OP_BOOTREPLY : Z := 2.
Definition FLAGS_BROADCAST : Z := 0x8000.
Definition HTYPE_ETHER : Z := 1.
Definition DHCP_MSG_FIXED_SIZE : Z := 236.
Definition sizeof_dhcp_msg : Z := 1260.
Definition PORT_BOOTP_SERVER : Z := 67.
Definition PORT_BOOTP_CLIENT : Z := 68.
Definition OPT_COOKIE : bytes := [0x63; 0x82; 0x53; 0x63].
Definition OPT_PAD : Z := 0.
Definition OPT_SUBNET_MASK : Z := 1.
Definition OPT_GATEWAY : Z := 3.
Definition OPT_DNS : Z := 6.
Definition OPT_BROADCAST_ADDR : Z := 28.
Definition OPT_REQUESTED_IP : Z := 50.
Definition OPT_LEASE_TIME : Z := 51.
Definition OPT_MESSAGE_TYPE : Z := 53.
Definition OPT_SERVER_ID : Z := 54.
Definition OPT_PARAMETER_LIST : Z := 55.
Definition OPT_END : Z := 255.
Definition DHCPDISCOVER : Z := 1.
Definition DHCPOFFER : Z := 2.
Definition DHCPREQUEST : Z := 3.
Definition DHCPACK : Z := 5.
Definition DHCPNAK : Z := 6.

(** [htons], [ntohs] and [ntohl] as what is in memory. *)
Definition be16 (v : Z) : bytes := [u8 (v .>> 8); u8 v].
Definition of_be (bs : bytes) : Z := foldl (fun acc b => 256 * acc + b) 0 bs.

(** ** The message *)
Definition dhcp_msg : ctype := (Struct 8 [
  ("op", UCHAR); ("htype", UCHAR); ("hlen", UCHAR); ("hops", UCHAR); ("xid", UINT); ("secs", USHORT); ("flags", USHORT);
  ("ciaddr", UINT); ("yiaddr", UINT); ("siaddr", UINT); ("giaddr", UINT); ("chaddr", Array UCHAR 16);
  ("sname", Array CHAR 64); ("file", Array CHAR 128); ("options", Array UCHAR 1024)])%string.
Definition oOp : Z := dhcp_msg∙"op".
Definition oHtype : Z := dhcp_msg∙"htype".
Definition oHlen : Z := dhcp_msg∙"hlen".
Definition oXid : Z := dhcp_msg∙"xid".
Definition oYiaddr : Z := dhcp_msg∙"yiaddr".
Definition oChaddr : Z := dhcp_msg∙"chaddr".
Definition oOptions : Z := dhcp_msg∙"options".

Section Dhcp.
Context {host : Host}.

(** ** dhcpmsg.c *)
(** Everything before the options. *)
Definition fixed_part (hwaddr : bytes) (xid : Z) : bytes :=
  [OP_BOOTREQUEST; HTYPE_ETHER; 6; 0] ++ enc32 xid ++ [0; 0] ++ be16 FLAGS_BROADCAST ++ replicate 16 0 ++
  (take 6 hwaddr ++ replicate 10 0) ++ replicate 64 0 ++ replicate 128 0.
Definition init_dhcp_msg (type : Z) (hwaddr : bytes) (xid : Z) (rest : bytes) : bytes * Z :=
  let options := OPT_COOKIE ++ [OPT_MESSAGE_TYPE; 1; type] ++ rest in
  (fixed_part hwaddr xid ++ options ++ replicate (1024 - length options) 0, DHCP_MSG_FIXED_SIZE + zlen options).
Definition parameter_list : bytes := [OPT_PARAMETER_LIST; 4; OPT_SUBNET_MASK; OPT_GATEWAY; OPT_DNS; OPT_BROADCAST_ADDR].
Definition init_dhcp_discover_msg (hwaddr : bytes) (xid : Z) : bytes * Z :=
  init_dhcp_msg DHCPDISCOVER hwaddr xid (parameter_list ++ [OPT_END]).
Definition init_dhcp_request_msg (hwaddr : bytes) (xid : Z) (ipaddr serveraddr : bytes) : bytes * Z :=
  init_dhcp_msg DHCPREQUEST hwaddr xid
    (parameter_list ++ [OPT_REQUESTED_IP; 4] ++ ipaddr ++ [OPT_SERVER_ID; 4] ++ serveraddr ++ [OPT_END]).

(** ** packet.c *)
Fixpoint sum_words (buffer : bytes) (sum : Z) : Z :=
  match buffer with
  | a :: b :: up => sum_words up (u32 (sum + dec_native [a; b]))
  | [a] => u32 (sum + a)
  | [] => sum
  end.
(** [while ((upper16 = (sum >> 16)) != 0) ...]: three turns are enough for 32 bits. *)
Fixpoint fold_carry (fuel : nat) (sum : Z) : Z :=
  match fuel with
  | O => sum
  | S fuel => let upper16 := sum .>> 16 in if upper16 =? 0 then sum else fold_carry fuel (u32 ((sum .& 0xffff) + upper16))
  end.
Definition checksum (buffer : bytes) (startsum : Z) : Z := fold_carry 3 (sum_words buffer startsum).
Definition finish_sum (sum : Z) : Z := u32 (Z.lnot sum) .& 0xffff.

Definition IPDEFTTL : Z := 64.
Definition IPPROTO_UDP : Z := 17.
Definition sizeof_iphdr : Z := 20.
Definition sizeof_udphdr : Z := 8.

Definition ip_header (tot_len check : Z) (saddr daddr : bytes) : bytes :=
  [0x45; 0] ++ be16 tot_len ++ [0; 0; 0; 0; IPDEFTTL; IPPROTO_UDP] ++ enc16 check ++ saddr ++ daddr.
Definition udp_header (sport dport len check : Z) : bytes := be16 sport ++ be16 dport ++ be16 len ++ enc16 check.

(** Result: the bytes handed to [sendmsg]. *)
Definition send_packet (msg : bytes) (size : Z) (saddr daddr : bytes) (sport dport : Z) : option bytes :=
  data ← lds msg 0 size;
  let tot_len := sizeof_iphdr + sizeof_udphdr + size in
  let ip_check := finish_sum (checksum (ip_header tot_len 0 saddr daddr) 0) in
  let len := sizeof_udphdr + size in
  let udpsum := checksum saddr 0 in
  let udpsum := checksum daddr udpsum in
  let udpsum := checksum (be16 IPPROTO_UDP) udpsum in
  let udpsum := checksum (be16 len) udpsum in
  let udpsum := checksum (udp_header sport dport len 0) udpsum in
  let udpsum := checksum data udpsum in
  Some (ip_header tot_len ip_check saddr daddr ++ udp_header sport dport len (finish_sum udpsum) ++ data).

(** [packet] is the structure on the stack: what was read and, behind it, what was there.  Result: the message, or nothing for -1. *)
Definition receive_packet (packet : bytes) (nread : Z) : option (option bytes) :=
  if nread <? sizeof_iphdr + sizeof_udphdr then Some None else
  v ← ld packet 0; if negb (v =? 0x45) then Some None else
  tot_len ← lds packet 2 2; let tot_len := of_be tot_len in if nread <? tot_len then Some None else
  protocol ← ld packet 9; if negb (protocol =? IPPROTO_UDP) then Some None else
  dest ← lds packet 22 2; if negb (of_be dest =? PORT_BOOTP_CLIENT) then Some None else
  ip ← lds packet 0 sizeof_iphdr; if negb (finish_sum (checksum ip 0) =? 0) then Some None else
  udp_len ← lds packet 24 2;
  let dhcp_size := of_be udp_len - sizeof_udphdr in
  if (dhcp_size <=? 0) || (nread - sizeof_iphdr - sizeof_udphdr <? dhcp_size) || (sizeof_dhcp_msg <? dhcp_size) then Some None else
  saddr ← lds packet 12 4; daddr ← lds packet 16 4;
  temp ← ld16 packet 26;
  ports ← lds packet 20 6;
  let pseudo := [0; 0] ++ udp_len ++ [0; 0; 0; 0; 0; IPPROTO_UDP; 0; 0] ++ saddr ++ daddr ++ ports ++ [0; 0] ++ drop 28 packet in
  sum ← lds pseudo 0 tot_len; let sum := finish_sum (checksum sum 0) in
  let sum := if sum =? 0 then finish_sum sum else sum in
  if negb (temp =? sum) then Some None else
  dhcp ← lds packet 28 dhcp_size; Some (Some dhcp).

(** ** dhcpclient.c: what a message says *)
Record dhcp_info := { i_type : Z; i_ipaddr : bytes; i_gateway : bytes; i_prefixLength : Z; i_dns1 : bytes; i_dns2 : bytes;
  i_serveraddr : bytes; i_lease : Z }.
Definition any : bytes := [0; 0; 0; 0].
Definition no_info : dhcp_info :=
  {| i_type := 0; i_ipaddr := any; i_gateway := any; i_prefixLength := 0; i_dns1 := any; i_dns2 := any; i_serveraddr := any; i_lease := 0 |}.

#[export] Instance eta_dhcp_info : Eta dhcp_info := fun i =>
  {| i_type := i_type i; i_ipaddr := i_ipaddr i; i_gateway := i_gateway i; i_prefixLength := i_prefixLength i; i_dns1 := i_dns1 i;
     i_dns2 := i_dns2 i; i_serveraddr := i_serveraddr i; i_lease := i_lease i |}.
#[export] Instance set_type : Setter i_type := ltac:(derive_setter).
#[export] Instance set_ipaddr : Setter i_ipaddr := ltac:(derive_setter).
#[export] Instance set_gateway : Setter i_gateway := ltac:(derive_setter).
#[export] Instance set_prefixLength : Setter i_prefixLength := ltac:(derive_setter).
#[export] Instance set_dns1 : Setter i_dns1 := ltac:(derive_setter).
#[export] Instance set_dns2 : Setter i_dns2 := ltac:(derive_setter).
#[export] Instance set_serveraddr : Setter i_serveraddr := ltac:(derive_setter).
#[export] Instance set_lease : Setter i_lease := ltac:(derive_setter).

(** [mask_to_prefix_v4] of ifutils.c: clears the lowest bit until none is left. *)
Fixpoint count_bits (fuel : nat) (mask ret : Z) : Z :=
  match fuel with
  | O => ret
  | S fuel => if mask =? 0 then ret else count_bits fuel (mask .& (mask - 1)) (ret + 1)
  end.
Definition mask_to_prefix_v4 (mask : Z) : Z := count_bits 32 mask 0.

(** One option with its value at [x]. *)
Definition decode_option (m : bytes) (opt x optlen : Z) (info : dhcp_info) : option dhcp_info :=
  if opt =? OPT_SUBNET_MASK then
    if 4 <=? optlen then mask ← ld32 m x; Some (info <| i_prefixLength := mask_to_prefix_v4 mask |>) else Some info
  else if opt =? OPT_GATEWAY then
    if 4 <=? optlen then a ← lds m x 4; Some (info <| i_gateway := a |>) else Some info
  else if opt =? OPT_DNS then
    info ← (if 4 <=? optlen then a ← lds m x 4; Some (info <| i_dns1 := a |>) else Some info);
    if 8 <=? optlen then a ← lds m (x + 4) 4; Some (info <| i_dns2 := a |>) else Some info
  else if opt =? OPT_LEASE_TIME then
    if 4 <=? optlen then a ← lds m x 4; Some (info <| i_lease := of_be a |>) else Some info
  else if opt =? OPT_SERVER_ID then
    if 4 <=? optlen then a ← lds m x 4; Some (info <| i_serveraddr := a |>) else Some info
  else if opt =? OPT_MESSAGE_TYPE then t ← ld m x; Some (info <| i_type := t |>)
  else Some info.

Fixpoint decode_options (fuel : nat) (m : bytes) (x len : Z) (info : dhcp_info) : option dhcp_info :=
  match fuel with
  | O => None
  | S fuel =>
      if negb (2 <? len) then Some info else
      opt ← ld m x;
      if opt =? OPT_PAD then decode_options fuel m (x + 1) (len - 1) info else
      if opt =? OPT_END then Some info else
      optlen ← ld m (x + 1);
      let x := x + 2 in let len := len - 2 in
      if len <? optlen then Some info else
      info ← decode_option m opt x optlen info;
      decode_options fuel m (x + optlen) (len - optlen) info
  end.

(** Result: what is returned and [info]. *)
Definition decode_dhcp_msg (msg : bytes) (len : Z) : option (Z * dhcp_info) :=
  if len <? DHCP_MSG_FIXED_SIZE + 4 then Some (-1, no_info) else
  cookie ← lds msg oOptions 4;
  if negb (bool_decide (cookie = OPT_COOKIE)) then Some (-1, no_info) else
  let len := len - (DHCP_MSG_FIXED_SIZE + 4) in
  info ← decode_options (S (Z.to_nat len)) msg (oOptions + 4) len no_info;
  yiaddr ← lds msg oYiaddr 4;
  Some (0, info <| i_ipaddr := yiaddr |>).

Definition is_valid_reply (msg reply : bytes) (sz : Z) : option bool :=
  if sz <? DHCP_MSG_FIXED_SIZE then Some false else
  op ← ld reply oOp; if negb (op =? OP_BOOTREPLY) then Some false else
  xid ← lds reply oXid 4; xid' ← lds msg oXid 4; if negb (bool_decide (xid = xid')) then Some false else
  htype ← ld reply oHtype; htype' ← ld msg oHtype; if negb (htype =? htype') then Some false else
  hlen ← ld reply oHlen; hlen' ← ld msg oHlen; if negb (hlen =? hlen') then Some false else
  ch ← lds msg oChaddr hlen'; ch' ← lds reply oChaddr hlen'; Some (bool_decide (ch = ch')).
End Dhcp.
