(* ===== verification/DhcpSpec.v ===== *)
(** * The packets and options of the DHCP client (Dhcp.v).
    The checksum is the one's complement sum: it depends only on the sum of the words ([words]), through [norm]. *)
From S2P Require Import Prelude Util Dhcp.
#[local] Open Scope Z_scope.
#[local] Open Scope c_scope.

(** ** One's complement *)
Definition norm (x : Z) : Z := if x =? 0 then 0 else (x - 1) mod 65535 + 1.

Lemma norm_range x : 0 <= x -> 0 <= norm x <= 65535.
Proof. intros H. unfold norm. destruct (Z.eqb_spec x 0); zdm. Qed.
Lemma norm_small x : 0 <= x <= 65535 -> norm x = x.
Proof. intros H. unfold norm. destruct (Z.eqb_spec x 0); [lia|]. rewrite Z.mod_small; lia. Qed.
Lemma norm_add a b : 0 <= a -> 0 <= b -> norm (norm a + b) = norm (a + b).
Proof.
  intros Ha Hb. unfold norm. destruct (Z.eqb_spec a 0) as [->|Na]; [done|].
  assert (a + b <> 0) by lia. rewrite (proj2 (Z.eqb_neq (a + b) 0)) by done.
  pose proof (Z.mod_pos_bound (a - 1) 65535 ltac:(lia)) as Hm. rewrite (proj2 (Z.eqb_neq ((a - 1) mod 65535 + 1 + b) 0)) by lia.
  f_equal. replace ((a - 1) mod 65535 + 1 + b - 1) with ((a - 1) mod 65535 + b) by lia. rewrite Z.add_mod_idemp_l by lia. f_equal. lia.
Qed.
(** A sum and its complement make 65535. *)
Lemma norm_complement x : 0 < x -> norm (x + (65535 - norm x)) = 65535.
Proof.
  intros H. unfold norm. rewrite (proj2 (Z.eqb_neq x 0)) by lia.
  pose proof (Z.mod_pos_bound (x - 1) 65535 ltac:(lia)) as Hm. rewrite (proj2 (Z.eqb_neq (_ + _) 0)) by lia.
  replace (x + (65535 - ((x - 1) mod 65535 + 1)) - 1) with (65534 + 65535 * ((x - 1) / 65535)) by zdm.
  rewrite Z.mul_comm, Z.mod_add by lia. done.
Qed.

Lemma fold_once sum : 0 <= sum < 2 ^ 32 -> sum .>> 16 <> 0 ->
  u32 ((sum .& 0xffff) + (sum .>> 16)) = sum - 65535 * (sum / 65536) /\ norm (sum - 65535 * (sum / 65536)) = norm sum.
Proof.
  intros H Hn. rewrite Z.shiftr_div_pow2 in * by lia. assert ((sum .& 0xffff) = sum mod 2 ^ 16) as -> by (apply (Z.land_ones sum 16); lia).
  change (2 ^ 16) with 65536 in *. change (2 ^ 32) with 4294967296 in *.
  assert (0 <= sum mod 65536 + sum / 65536 < 4294967296) by zdm. split.
  - unfold u32. change (2 ^ 32) with 4294967296. rewrite (Z.mod_small (sum mod 65536 + sum / 65536)) by done.
    pose proof (Z.div_mod sum 65536 ltac:(lia)). lia.
  - pose proof (Z.div_mod sum 65536 ltac:(lia)) as E. pose proof (Z.mod_pos_bound sum 65536 ltac:(lia)).
    assert (0 <= sum / 65536) by (apply Z.div_pos; lia). set (q := sum / 65536) in *.
    unfold norm. rewrite !(proj2 (Z.eqb_neq _ 0)) by lia. f_equal.
    replace (sum - 65535 * q - 1) with (sum - 1 + (- q) * 65535) by lia. by rewrite Z.mod_add.
Qed.
Lemma fold_carry_norm sum : 0 <= sum < 2 ^ 32 -> fold_carry 3 sum = norm sum.
Proof.
  assert (forall f s, 0 <= s <= 65535 -> fold_carry f s = norm s) as Hs.
  { intros f s Hs. rewrite norm_small by done. destruct f; [done|]. cbn [fold_carry].
    replace (s .>> 16) with 0; [done|]. rewrite Z.shiftr_div_pow2 by lia. change (2 ^ 16) with 65536. symmetry. apply Z.div_small. lia. }
  assert (forall f s, 0 <= s < 2 ^ 32 -> ~ s <= 65535 -> 
    fold_carry (S f) s = fold_carry f (s - 65535 * (s / 65536)) /\ norm (s - 65535 * (s / 65536)) = norm s) as Hstep.
  { intros f s H1 H2. assert (s .>> 16 <> 0) as Hn.
    { rewrite Z.shiftr_div_pow2 by lia. change (2 ^ 16) with 65536. zdm. }
    destruct (fold_once s H1 Hn) as [E1 E2]. cbn [fold_carry]. rewrite (proj2 (Z.eqb_neq _ 0)) by done. by rewrite E1. }
  intros H. destruct (decide (sum <= 65535)) as [|N]; [apply Hs; lia|].
  destruct (Hstep 2%nat sum H N) as [-> <-]. set (s1 := sum - _). assert (0 <= s1 <= 131070).
  { unfold s1. change (2 ^ 32) with 4294967296 in H. zdm. }
  destruct (decide (s1 <= 65535)) as [|N1]; [apply Hs; lia|].
  destruct (Hstep 1%nat s1 ltac:(change (2 ^ 32) with 4294967296; lia) N1) as [-> <-]. set (s2 := s1 - _). assert (0 <= s2 <= 65535).
  { unfold s2. zdm. }
  apply Hs. lia.
Qed.

(** ** The sum of the words *)
Section Words.
Context {host : Host}.

Fixpoint words (m : bytes) : Z :=
  match m with a :: b :: m => dec_native [a; b] + words m | [a] => a | [] => 0 end.

Lemma dec_native_two a b : is_byte a -> is_byte b -> 0 <= dec_native [a; b] <= 65535.
Proof.
  unfold is_byte, dec_native, native, of_le. intros Ha Hb. destruct is_bigendian.
  - change (reverse [a; b]) with [b; a]. cbn [foldr]. lia.
  - cbn [foldr]. lia.
Qed.
Lemma words_app_even k a b : length a = (2 * k)%nat -> words (a ++ b) = words a + words b.
Proof.
  revert a. induction k as [|k IH]; intros a H; [by destruct a|].
  destruct a as [|x [|y a]]; cbn in H; try lia. cbn [app words]. rewrite IH by lia. lia.
Qed.
Lemma words_bound n m : Forall is_byte m -> (length m <= 2 * n)%nat -> 0 <= words m <= 65535 * Z.of_nat n.
Proof.
  revert m. induction n as [|n IH]; intros m F H; [destruct m; [done | cbn in H; lia]|].
  destruct m as [|a [|b m]]; [cbn [words]; lia| |].
  - apply Forall_cons in F as [Ha _]. unfold is_byte in Ha. cbn [words]. lia.
  - apply Forall_cons in F as [Ha F]. apply Forall_cons in F as [Hb F]. cbn [words length] in *.
    pose proof (dec_native_two a b Ha Hb). specialize (IH m F ltac:(lia)). lia.
Qed.
Lemma sum_words_words n m s : Forall is_byte m -> (length m <= 2 * n)%nat -> 0 <= s -> s + 65535 * Z.of_nat n < 2 ^ 32 ->
  sum_words m s = s + words m.
Proof.
  revert m s. induction n as [|n IH]; intros m s F H Hs Hb; [destruct m; cbn in *; [lia | lia]|].
  destruct m as [|a [|b m]]; cbn [sum_words words]; [lia| |].
  - apply Forall_cons in F as [Ha _]. unfold is_byte in Ha. apply Z.mod_small. lia.
  - apply Forall_cons in F as [Ha F]. apply Forall_cons in F as [Hbb F]. cbn [length] in H. pose proof (dec_native_two a b Ha Hbb).
    assert (u32 (s + dec_native [a; b]) = s + dec_native [a; b]) as -> by (apply Z.mod_small; lia).
    rewrite IH by (done || lia). lia.
Qed.

(** What the checksum of the code is, for a buffer of at most 2000 bytes. *)
Lemma checksum_norm m s : Forall is_byte m -> zlen m <= 2000 -> 0 <= s <= 65535 -> checksum m s = norm (s + words m).
Proof.
  intros F H Hs. unfold checksum. pose proof (words_bound 1000 m F ltac:(unfold zlen in H; lia)).
  rewrite (sum_words_words 1000) by (first [done | unfold zlen in H; lia | change (2 ^ 32) with 4294967296; lia]).
  apply fold_carry_norm. change (2 ^ 32) with 4294967296. lia.
Qed.
Lemma finish_sum_complement s : 0 <= s <= 65535 -> finish_sum s = 65535 - s.
Proof.
  intros H. unfold finish_sum. assert (forall v, (v .& 0xffff) = v mod 2 ^ 16) as -> by (intros v; apply (Z.land_ones v 16); lia). unfold u32, Z.lnot.
  change (2 ^ 32) with 4294967296. change (2 ^ 16) with 65536. unfold Z.pred. zdm.
Qed.

Lemma be16_bytes v : Forall is_byte (be16 v).
Proof. unfold be16. repeat constructor; apply u8_range. Qed.
Lemma of_be_be16 v : is_u16 v -> of_be (be16 v) = v.
Proof.
  intros H. unfold is_u16 in H. unfold of_be, be16, u8. cbn [foldl]. rewrite Z.shiftr_div_pow2 by lia.
  change (2 ^ 8) with 256. change (2 ^ 16) with 65536 in H. zdm.
Qed.
End Words.

(** ** Packets *)
Section Packets.
Context {host : Host}.

Definition is_addr (a : bytes) : Prop := length a = 4%nat /\ Forall is_byte a.

Lemma addr_inv a : is_addr a -> exists x y z w, a = [x; y; z; w] /\ is_byte x /\ is_byte y /\ is_byte z /\ is_byte w.
Proof.
  intros [Hl F]. destruct a as [|x [|y [|z [|w [|]]]]]; try done. rewrite !Forall_cons in F.
  exists x, y, z, w. tauto.
Qed.

(** The header with its checksum adds up to 65535. *)
Definition ip_sum (tot_len : Z) (saddr daddr : bytes) : Z := words (ip_header tot_len 0 saddr daddr).

Lemma ip_header_bytes l c s d : is_addr s -> is_addr d -> Forall is_byte (ip_header l c s d).
Proof.
  intros [_ Hs] [_ Hd]. unfold ip_header. rewrite !Forall_app. split_and!; try done; try apply be16_bytes; try apply enc16_bytes.
  - repeat constructor; discriminate.
  - unfold IPDEFTTL, IPPROTO_UDP. repeat constructor; discriminate.
Qed.
Lemma ip_header_length l c s d : is_addr s -> is_addr d -> length (ip_header l c s d) = 20%nat.
Proof.
  intros [Hs _] [Hd _]. unfold ip_header. rewrite !length_app, Hs, Hd. destruct (enc16_two c) as (a & b & ->). done.
Qed.
Lemma words_ip_header l c s d : is_u16 c -> words (ip_header l c s d) = words (ip_header l 0 s d) + c.
Proof.
  intros Hc. unfold ip_header. set (h := [0x45; 0] ++ be16 l ++ [0; 0; 0; 0; IPDEFTTL; IPPROTO_UDP]).
  assert (forall c, [0x45; 0] ++ be16 l ++ [0; 0; 0; 0; IPDEFTTL; IPPROTO_UDP] ++ enc16 c ++ s ++ d = h ++ enc16 c ++ (s ++ d)) as E.
  { intros v. unfold h. by rewrite <- !app_assoc. }
  rewrite !E. rewrite !(words_app_even 5 h) by done. 
  assert (forall v, is_u16 v -> words (enc16 v ++ (s ++ d)) = v + words (s ++ d)) as Ew.
  { intros v Hv. destruct (enc16_two v) as (a & b & Ev). rewrite (words_app_even 1) by (by rewrite Ev). rewrite Ev. cbn [words]. rewrite <- Ev.
    rewrite dec_enc16 by done. lia. }
  rewrite Ew by done. rewrite Ew by (by split). lia.
Qed.
Lemma words_nonneg m : Forall is_byte m -> zlen m <= 2000 -> 0 <= words m < 65535 * 1000 + 1.
Proof. intros F H. pose proof (words_bound 1000 m F ltac:(unfold zlen in H; lia)). lia. Qed.

Lemma complement_u16 x : 0 <= x -> is_u16 (65535 - norm x).
Proof. intros H. pose proof (norm_range x H). unfold is_u16. change (2 ^ 16) with 65536. lia. Qed.

(** What [send_packet] stores in the two check fields. *)
Definition udp_sum (msg saddr daddr : bytes) (sport dport : Z) : Z :=
  words saddr + words daddr + words (be16 IPPROTO_UDP) + words (be16 (8 + zlen msg)) +
  words (udp_header sport dport (8 + zlen msg) 0) + words msg.
Definition udp_check (msg saddr daddr : bytes) (sport dport : Z) : Z := 65535 - norm (udp_sum msg saddr daddr sport dport).
Definition packet_of (msg saddr daddr : bytes) (sport dport : Z) : bytes :=
  let l := 28 + zlen msg in
  ip_header l (65535 - norm (ip_sum l saddr daddr)) saddr daddr ++
  udp_header sport dport (8 + zlen msg) (udp_check msg saddr daddr sport dport) ++ msg.

Lemma udp_header_bytes sp dp l c : Forall is_byte (udp_header sp dp l c).
Proof. unfold udp_header. rewrite !Forall_app. split_and!; (apply be16_bytes || apply enc16_bytes). Qed.
Lemma udp_header_length sp dp l c : length (udp_header sp dp l c) = 8%nat.
Proof. unfold udp_header. destruct (enc16_two c) as (a & b & ->). done. Qed.

(** The chain of checksums is the sum of all the words. *)
Lemma checksum_chain ms s : Forall (fun m => Forall is_byte m /\ zlen m <= 2000) ms -> 0 <= s ->
  foldl (fun c m => checksum m c) (norm s) ms = norm (s + foldr (fun m acc => words m + acc) 0 ms).
Proof.
  intros F. revert s. induction F as [|m ms [Hb Hl] F IH]; intros s Hs; [cbn; f_equal; lia|]. cbn [foldl foldr].
  pose proof (norm_range s Hs). pose proof (words_nonneg m Hb Hl).
  rewrite checksum_norm by (done || lia). rewrite norm_add by lia. rewrite IH by lia. f_equal. lia.
Qed.

Lemma send_packet_is msg saddr daddr sport dport :
  is_addr saddr -> is_addr daddr -> Forall is_byte msg -> zlen msg <= sizeof_dhcp_msg ->
  forall rest, send_packet (msg ++ rest) (zlen msg) saddr daddr sport dport = Some (packet_of msg saddr daddr sport dport).
Proof.
  intros Hs Hd Hm Hl rest. unfold send_packet. rewrite lds_app_0 by done. cbn [mbind option_bind]. unfold sizeof_dhcp_msg in Hl.
  set (l := sizeof_iphdr + sizeof_udphdr + zlen msg). change (sizeof_udphdr + zlen msg) with (8 + zlen msg).
  assert (finish_sum (checksum (ip_header l 0 saddr daddr) 0) = 65535 - norm (ip_sum l saddr daddr)) as ->.
  { assert (zlen (ip_header l 0 saddr daddr) = 20) as E by (unfold zlen; by rewrite ip_header_length).
    pose proof (words_nonneg _ (ip_header_bytes l 0 saddr daddr Hs Hd) ltac:(lia)).
    rewrite checksum_norm by (done || lia || by apply ip_header_bytes). rewrite Z.add_0_l. rewrite finish_sum_complement; [done|]. apply norm_range. unfold ip_sum. lia. }
  pose proof (checksum_chain [saddr; daddr; be16 IPPROTO_UDP; be16 (8 + zlen msg); udp_header sport dport (8 + zlen msg) 0; msg] 0) as Hc.
  cbn [foldl foldr] in Hc. change (norm 0) with 0 in Hc. rewrite Hc; [| | lia].
  2:{ destruct Hs as [Ls Bs], Hd as [Ld Bd]. unfold zlen.
      repeat (apply Forall_cons_2; [split; [first [done | apply be16_bytes | apply udp_header_bytes]
        | rewrite ?udp_header_length, ?Ls, ?Ld; unfold zlen in Hl; cbn; lia] |]). apply Forall_nil_2. }
  set (T := 0 + _). assert (T = udp_sum msg saddr daddr sport dport) as -> by (unfold T, udp_sum; lia).
  assert (0 <= udp_sum msg saddr daddr sport dport).
  { unfold udp_sum. destruct Hs as [Ls Bs], Hd as [Ld Bd].
    pose proof (words_nonneg saddr Bs ltac:(unfold zlen; lia)). pose proof (words_nonneg daddr Bd ltac:(unfold zlen; lia)).
    pose proof (words_nonneg _ (be16_bytes IPPROTO_UDP) ltac:(done)). pose proof (words_nonneg _ (be16_bytes (8 + zlen msg)) ltac:(done)).
    pose proof (words_nonneg _ (udp_header_bytes sport dport (8 + zlen msg) 0) ltac:(unfold zlen; rewrite udp_header_length; lia)).
    pose proof (words_nonneg msg Hm ltac:(lia)). lia. }
  rewrite finish_sum_complement by (by apply norm_range). done.
Qed.

(** ** The way back *)
Lemma udp_header_words sp dp l c : is_u16 c -> words (udp_header sp dp l c) = words (udp_header sp dp l 0) + c.
Proof.
  intros Hc. assert (forall v, udp_header sp dp l v = (be16 sp ++ be16 dp ++ be16 l) ++ enc16 v) as E.
  { intros v. unfold udp_header. by rewrite <- !app_assoc. }
  rewrite !E. assert (forall v, is_u16 v -> words ((be16 sp ++ be16 dp ++ be16 l) ++ enc16 v) = words (be16 sp ++ be16 dp ++ be16 l) + v) as Ew.
  { intros v Hv. rewrite (words_app_even 3) by done. destruct (enc16_two v) as (a & b & Ev). rewrite Ev. cbn [words]. rewrite <- Ev, dec_enc16 by done. lia. }
  rewrite Ew by done. rewrite Ew by (by split). lia.
Qed.

(** The receiver adds up the same words as the sender. *)
Lemma pseudo_words msg saddr daddr sport :
  is_addr saddr -> is_addr daddr -> 
  words ([0; 0] ++ be16 (8 + zlen msg) ++ [0; 0; 0; 0; 0; IPPROTO_UDP; 0; 0] ++ saddr ++ daddr ++
         (be16 sport ++ be16 PORT_BOOTP_CLIENT ++ be16 (8 + zlen msg)) ++ [0; 0] ++ msg) = udp_sum msg saddr daddr sport PORT_BOOTP_CLIENT.
Proof.
  intros Hs Hd. unfold udp_sum. destruct (addr_inv _ Hs) as (? & ? & ? & ? & -> & _), (addr_inv _ Hd) as (? & ? & ? & ? & -> & _).
  rewrite (words_app_even 1) by done. rewrite (words_app_even 1) by done. rewrite (words_app_even 4) by done. rewrite (words_app_even 2) by done.
  rewrite (words_app_even 2) by done. rewrite (words_app_even 3) by done. rewrite (words_app_even 1) by done.
  assert (udp_header sport PORT_BOOTP_CLIENT (8 + zlen msg) 0 = (be16 sport ++ be16 PORT_BOOTP_CLIENT ++ be16 (8 + zlen msg)) ++ [0; 0]) as ->.
  { unfold udp_header. assert (enc16 0 = [0; 0]) as -> by (unfold enc16, native, le16; by destruct is_bigendian). by rewrite <- !app_assoc. }
  rewrite (words_app_even 3 (be16 sport ++ _)) by done.
  assert (words [0; 0] = 0) as -> by (unfold words, dec_native, native; by destruct is_bigendian).
  assert (words [0; 0; 0; 0; 0; IPPROTO_UDP; 0; 0] = words (be16 IPPROTO_UDP)) as ->.
  { unfold be16. cbn [words]. assert (dec_native [0; 0] = 0) as -> by (unfold dec_native, native; by destruct is_bigendian).
    change (u8 (IPPROTO_UDP .>> 8)) with 0. change (u8 IPPROTO_UDP) with 17. unfold IPPROTO_UDP. lia. }
  rewrite (words_app_even 1 [0; 0]) by done. rewrite !(words_app_even 1 (be16 _)) by done.
  assert (words [0; 0] = 0) as -> by (unfold words, dec_native, native; by destruct is_bigendian). lia.
Qed.

(** The fields of the 28 bytes of headers. *)
Definition headers_of (msg saddr daddr : bytes) (sport : Z) : bytes :=
  ip_header (28 + zlen msg) (65535 - norm (ip_sum (28 + zlen msg) saddr daddr)) saddr daddr ++
  udp_header sport PORT_BOOTP_CLIENT (8 + zlen msg) (udp_check msg saddr daddr sport PORT_BOOTP_CLIENT).
Lemma headers_fields msg saddr daddr sport : is_addr saddr -> is_addr daddr ->
  let h := headers_of msg saddr daddr sport in
  length h = 28%nat /\ ld h 0 = Some 0x45 /\ lds h 2 2 = Some (be16 (28 + zlen msg)) /\ ld h 9 = Some IPPROTO_UDP /\
  lds h 22 2 = Some (be16 PORT_BOOTP_CLIENT) /\ lds h 24 2 = Some (be16 (8 + zlen msg)) /\ lds h 12 4 = Some saddr /\ lds h 16 4 = Some daddr /\
  lds h 26 2 = Some (enc16 (udp_check msg saddr daddr sport PORT_BOOTP_CLIENT)) /\
  lds h 20 6 = Some (be16 sport ++ be16 PORT_BOOTP_CLIENT ++ be16 (8 + zlen msg)) /\
  lds h 0 20 = Some (ip_header (28 + zlen msg) (65535 - norm (ip_sum (28 + zlen msg) saddr daddr)) saddr daddr).
Proof.
  intros Hs Hd. destruct (addr_inv _ Hs) as (? & ? & ? & ? & -> & _), (addr_inv _ Hd) as (? & ? & ? & ? & -> & _). cbv zeta.
  unfold headers_of, ip_header, udp_header, be16.
  destruct (enc16_two (65535 - norm (ip_sum (28 + zlen msg) [x; x0; x1; x2] [x3; x4; x5; x6]))) as (a & b & ->).
  destruct (enc16_two (udp_check msg [x; x0; x1; x2] [x3; x4; x5; x6] sport PORT_BOOTP_CLIENT)) as (c & d & ->).
  cbn [app]. split_and!; reflexivity.
Qed.

Lemma ld_mono h s i v : ld h i = Some v -> ld (h ++ s) i = Some v.
Proof. unfold ld. destruct (0 <=? i); [|done]. apply lookup_app_l_Some. Qed.

(** C31: A packet is received as it was sent: whatever the byte order, the ports and the addresses, the receiver accepts the headers and both
    checksums and returns the message - except in the one case of 65536 in which the sender's checksum comes out as 0, which it sends as it is and the
    receiver never accepts. *)
Theorem packet_roundtrip msg rest junk saddr daddr sport :
  is_addr saddr -> is_addr daddr -> Forall is_byte msg -> 0 < zlen msg <= sizeof_dhcp_msg ->
  exists p, send_packet (msg ++ rest) (zlen msg) saddr daddr sport PORT_BOOTP_CLIENT = Some p /\
    receive_packet (p ++ junk) (zlen p) =
      Some (if udp_check msg saddr daddr sport PORT_BOOTP_CLIENT =? 0 then None else Some msg).
Proof.
  intros Hs Hd Hm Hl. exists (packet_of msg saddr daddr sport PORT_BOOTP_CLIENT).
  split; [apply send_packet_is; by try lia|]. set (h := headers_of msg saddr daddr sport).
  assert (packet_of msg saddr daddr sport PORT_BOOTP_CLIENT = h ++ msg) as -> by (unfold packet_of, h, headers_of; by rewrite <- app_assoc).
  destruct (headers_fields msg saddr daddr sport Hs Hd) as (Lh & H0 & H2 & H9 & H22 & H24 & H12 & H16 & H26 & H20 & Hip).
  fold h in Lh, H0, H2, H9, H22, H24, H12, H16, H26, H20, Hip.
  rewrite <- app_assoc. unfold sizeof_dhcp_msg in Hl.
  assert (zlen (h ++ msg) = 28 + zlen msg) as Hlen by (rewrite zlen_app; unfold zlen at 1; rewrite Lh; lia).
  unfold receive_packet, ld16. rewrite Hlen. unfold sizeof_iphdr, sizeof_udphdr, sizeof_dhcp_msg.
  rewrite (proj2 (Z.ltb_ge (28 + zlen msg) (20 + 8))) by lia.
  rewrite (ld_mono h _ _ _ H0). cbn [mbind option_bind]. rewrite (lds_mono h _ _ _ _ H2). cbn [mbind option_bind].
  rewrite of_be_be16 by (unfold is_u16; lia). change (negb (0x45 =? 0x45)) with false. rewrite Z.ltb_irrefl. cbv iota.
  rewrite (ld_mono h _ _ _ H9). cbn [mbind option_bind]. change (negb (IPPROTO_UDP =? IPPROTO_UDP)) with false. cbv iota.
  rewrite (lds_mono h _ _ _ _ H22). cbn [mbind option_bind]. change (negb (of_be (be16 PORT_BOOTP_CLIENT) =? PORT_BOOTP_CLIENT)) with false. cbv iota.
  rewrite (lds_mono h _ _ _ _ Hip). cbn [mbind option_bind].
  (* the header adds up *)
  assert (0 < ip_sum (28 + zlen msg) saddr daddr <= 655350) as Hip0.
  { pose proof (words_bound 10 _ (ip_header_bytes (28 + zlen msg) 0 saddr daddr Hs Hd) ltac:(by rewrite ip_header_length)) as B.
    split; [|unfold ip_sum; lia]. unfold ip_sum, ip_header. rewrite (words_app_even 1) by done.
    assert (0 < words [69; 0]) as P by (unfold words, dec_native, native; by destruct is_bigendian).
    match goal with |- 0 < words [69; 0] + words ?r =>
      assert (0 <= words r) as Q; [|lia];
      refine (proj1 (words_bound 9 r _ _)) end.
    - pose proof (ip_header_bytes (28 + zlen msg) 0 saddr daddr Hs Hd) as F. unfold ip_header in F. by apply Forall_app in F as [_ F].
    - pose proof (ip_header_length (28 + zlen msg) 0 saddr daddr Hs Hd) as F. unfold ip_header in F. rewrite length_app in F. cbn [length] in F. lia. }
  rewrite checksum_norm; [|by apply ip_header_bytes | unfold zlen; rewrite ip_header_length by done; lia | lia].
  rewrite words_ip_header by (apply complement_u16; lia). fold (ip_sum (28 + zlen msg) saddr daddr).
  rewrite Z.add_0_l, norm_complement by lia. change (negb (finish_sum 65535 =? 0)) with false. cbv iota.
  (* the length and the fields *)
  rewrite (lds_mono h _ _ _ _ H24). cbn [mbind option_bind]. rewrite of_be_be16 by (unfold is_u16; change (2 ^ 16) with 65536; lia).
  rewrite (proj2 (Z.leb_gt _ _)), (proj2 (Z.ltb_ge (28 + zlen msg - 20 - 8) _)), (proj2 (Z.ltb_ge 1260 _)) by lia. cbn [orb].
  rewrite (lds_mono h _ _ _ _ H12), (lds_mono h _ _ _ _ H16), (lds_mono h _ _ _ _ H26), (lds_mono h _ _ _ _ H20). cbn [mbind option_bind].
  assert (drop 28 (h ++ msg ++ junk) = msg ++ junk) as -> by (apply drop_app_length'; lia).
  (* the data *)
  set (P := [0; 0] ++ be16 (8 + zlen msg) ++ [0; 0; 0; 0; 0; IPPROTO_UDP; 0; 0] ++ saddr ++ daddr ++
         (be16 sport ++ be16 PORT_BOOTP_CLIENT ++ be16 (8 + zlen msg)) ++ [0; 0] ++ msg).
  assert ([0; 0] ++ be16 (8 + zlen msg) ++ [0; 0; 0; 0; 0; IPPROTO_UDP; 0; 0] ++ saddr ++ daddr ++
         (be16 sport ++ be16 PORT_BOOTP_CLIENT ++ be16 (8 + zlen msg)) ++ [0; 0] ++ msg ++ junk = P ++ junk) as ->.
  { unfold P. rewrite <- !app_assoc. done. }
  assert (zlen P = 28 + zlen msg) as LP.
  { unfold P. rewrite !zlen_app. unfold zlen. destruct Hs as [-> _], Hd as [-> _]. cbn. lia. }
  assert (Forall is_byte P) as BP.
  { unfold P. destruct Hs as [_ ?], Hd as [_ ?]. rewrite !Forall_app. split_and!; try done; try apply be16_bytes; repeat constructor; discriminate. }
  rewrite lds_app_0 by done. cbn [mbind option_bind].
  rewrite (checksum_norm P) by (done || lia). rewrite Z.add_0_l. pose proof (pseudo_words msg saddr daddr sport Hs Hd) as EP. fold P in EP. rewrite EP.
  assert (0 <= udp_sum msg saddr daddr sport PORT_BOOTP_CLIENT) as HT by (rewrite <- EP; apply words_nonneg; [done | lia]).
  pose proof (norm_range _ HT) as HN. rewrite finish_sum_complement by done.
  fold (udp_check msg saddr daddr sport PORT_BOOTP_CLIENT). set (c := udp_check msg saddr daddr sport PORT_BOOTP_CLIENT).
  rewrite dec_enc16 by (unfold c, udp_check; by apply complement_u16).
  destruct (Z.eqb_spec c 0) as [->|Nc].
  - change (negb (0 =? finish_sum 0)) with true. done.
  - rewrite Z.eqb_refl. cbn [negb]. rewrite Z.add_simpl_l. 
    assert (lds (h ++ msg ++ junk) 28 (zlen msg) = Some msg) as E by (apply lds_app; [unfold zlen; by rewrite Lh | done]).
    replace (8 + zlen msg - 8) with (zlen msg) by lia. by rewrite E.
Qed.
End Packets.

(** ** Options *)
Section Options.
Context {host : Host}.

Abbreviation dhcp_opt := (Z * bytes)%type.
Definition enc_opt (o : dhcp_opt) : bytes := o.1 :: zlen o.2 :: o.2.
Definition enc_opts (os : list dhcp_opt) : bytes := os ≫= enc_opt.
Definition opt_wf (o : dhcp_opt) : Prop := 0 < o.1 < 255 /\ 0 < zlen o.2 < 256.

(** What an option means. *)
Definition apply_opt (info : dhcp_info) (o : dhcp_opt) : dhcp_info :=
  let v := o.2 in
  if o.1 =? OPT_MESSAGE_TYPE then info <| i_type := default 0 (head v) |>
  else if zlen v <? 4 then info
  else if o.1 =? OPT_SUBNET_MASK then info <| i_prefixLength := mask_to_prefix_v4 (dec_native (take 4 v)) |>
  else if o.1 =? OPT_GATEWAY then info <| i_gateway := take 4 v |>
  else if o.1 =? OPT_DNS then
    let info := info <| i_dns1 := take 4 v |> in if zlen v <? 8 then info else info <| i_dns2 := take 4 (drop 4 v) |>
  else if o.1 =? OPT_LEASE_TIME then info <| i_lease := of_be (take 4 v) |>
  else if o.1 =? OPT_SERVER_ID then info <| i_serveraddr := take 4 v |>
  else info.

Lemma lds_part p v s i n : 0 <= i -> 0 <= n -> i + n <= zlen v ->
  lds (p ++ v ++ s) (zlen p + i) n = Some (take (Z.to_nat n) (drop (Z.to_nat i) v)).
Proof.
  intros Hi Hn Hl. rewrite <- (take_drop (Z.to_nat i) v) at 1. set (a := take (Z.to_nat i) v). set (b := drop (Z.to_nat i) v).
  rewrite <- (take_drop (Z.to_nat n) b) at 1. rewrite <- !app_assoc, (app_assoc p). apply lds_app.
  - rewrite zlen_app. unfold a, zlen in *. rewrite length_take. lia.
  - unfold b, zlen in *. rewrite length_take, length_drop. lia.
Qed.

Lemma decode_option_apply p v s o info : 0 < zlen v ->
  decode_option (p ++ v ++ s) o (zlen p) (zlen v) info = Some (apply_opt info (o, v)).
Proof.
  intros Hv. unfold decode_option, apply_opt. cbn [fst snd].
  assert (ld (p ++ v ++ s) (zlen p) = Some (default 0 (head v))) as Ht.
  { destruct v as [|b v]; [done|]. cbn [app]. by apply ld_app. }
  assert (forall i, 0 <= i -> i + 4 <= zlen v -> lds (p ++ v ++ s) (zlen p + i) 4 = Some (take 4 (drop (Z.to_nat i) v))) as H4.
  { intros i H1 H2. by apply (lds_part p v s i 4). }
  assert (4 <= zlen v -> lds (p ++ v ++ s) (zlen p) 4 = Some (take 4 v)) as H40.
  { intros H. specialize (H4 0 ltac:(lia) ltac:(lia)). by rewrite Z.add_0_r in H4. }
  rewrite (Z.leb_antisym (zlen v) 4), (Z.leb_antisym (zlen v) 8).
  destruct (Z.ltb_spec (zlen v) 4) as [L|L]; cbn [negb].
  - assert ((zlen v <? 8) = true) as -> by (apply Z.ltb_lt; lia). cbn [negb mbind option_bind].
    destruct (Z.eqb_spec o OPT_MESSAGE_TYPE) as [->|]; [by rewrite Ht|].
    repeat (destruct (o =? _); [done|]). done.
  - specialize (H40 L). unfold ld32. rewrite H40. cbn [mbind option_bind].
    destruct (Z.eqb_spec o OPT_MESSAGE_TYPE) as [->|]; [by rewrite Ht|].
    destruct (o =? OPT_SUBNET_MASK); [done|]. destruct (o =? OPT_GATEWAY); [done|]. destruct (o =? OPT_DNS).
    + destruct (Z.ltb_spec (zlen v) 8) as [L8|L8]; cbn [negb]; [done|]. by rewrite (H4 4) by lia.
    + destruct (o =? OPT_LEASE_TIME); [done|]. by destruct (o =? OPT_SERVER_ID).
Qed.

Lemma enc_opts_cons o os : enc_opts (o :: os) = enc_opt o ++ enc_opts os.
Proof. done. Qed.
Lemma enc_opt_zlen o : zlen (enc_opt o) = 2 + zlen o.2.
Proof. unfold enc_opt, zlen. cbn [length]. lia. Qed.

(** The loop on the encoding of a list of options with their end mark. *)
Lemma decode_options_enc fuel p os s len info :
  Forall opt_wf os -> (length os < fuel)%nat -> zlen (enc_opts os) < len ->
  decode_options fuel (p ++ enc_opts os ++ OPT_END :: s) (zlen p) len info = Some (foldl apply_opt info os).
Proof.
  intros F. revert fuel p len info. induction F as [|[o v] os [Ho Hv] F IH]; intros fuel p len info Hf Hl;
    (destruct fuel as [|fuel]; [cbn in Hf; lia|]); cbn [decode_options foldl].
  - cbn [enc_opts mbind list_bind app]. destruct (negb (2 <? len)); [done|].
    assert (ld (p ++ OPT_END :: s) (zlen p) = Some OPT_END) as -> by (by apply ld_app). done.
  - rewrite enc_opts_cons, zlen_app, enc_opt_zlen in Hl. cbn [fst snd] in Ho, Hv, Hl. pose proof (zlen_nonneg (enc_opts os)).
    rewrite (proj2 (Z.ltb_lt 2 len)) by lia. cbn [negb]. rewrite enc_opts_cons. unfold enc_opt. cbn [fst snd].
    rewrite <- app_assoc. cbn [app].
    assert (ld (p ++ o :: zlen v :: v ++ enc_opts os ++ OPT_END :: s) (zlen p) = Some o) as -> by (by apply ld_app). cbn [mbind option_bind].
    rewrite (proj2 (Z.eqb_neq o OPT_PAD)), (proj2 (Z.eqb_neq o OPT_END)) by (unfold OPT_PAD, OPT_END; lia).
    assert (forall w, p ++ o :: zlen v :: w = (p ++ [o; zlen v]) ++ w) as Ep by (intros w; by rewrite <- app_assoc).
    assert (ld (p ++ o :: zlen v :: v ++ enc_opts os ++ OPT_END :: s) (zlen p + 1) = Some (zlen v)) as ->.
    { replace (p ++ o :: zlen v :: v ++ enc_opts os ++ OPT_END :: s) with ((p ++ [o]) ++ zlen v :: v ++ enc_opts os ++ OPT_END :: s)
        by (by rewrite <- app_assoc). apply ld_app. rewrite zlen_app. done. }
    cbn [mbind option_bind]. rewrite (proj2 (Z.ltb_ge (len - 2) (zlen v))) by lia. rewrite Ep.
    replace (zlen p + 2) with (zlen (p ++ [o; zlen v])) by (rewrite zlen_app; done).
    rewrite decode_option_apply by lia. cbn [mbind option_bind]. rewrite (app_assoc (p ++ [o; zlen v]) v).
    replace (zlen (p ++ [o; zlen v]) + zlen v) with (zlen ((p ++ [o; zlen v]) ++ v)) by (rewrite (zlen_app (p ++ _)); done).
    apply IH; cbn in Hf; lia.
Qed.

(** The decoder understands every message of a server: a message whose options are any list of non-empty options with the end mark
    behind it says what the options say in their order, and the address is the one of its header. *)
Theorem decode_dhcp_msg_correct h os s yiaddr :
  zlen h = 16 -> zlen yiaddr = 4 -> Forall opt_wf os ->
  forall gap, zlen gap = 216 ->
  let m := h ++ yiaddr ++ gap ++ OPT_COOKIE ++ enc_opts os ++ OPT_END :: s in
  forall len, 240 + zlen (enc_opts os) < len ->
  decode_dhcp_msg m len = Some (0, (foldl apply_opt no_info os) <| i_ipaddr := yiaddr |>).
Proof.
  intros Hh Hy F gap Hg m len Hl. pose proof (zlen_nonneg (enc_opts os)). unfold decode_dhcp_msg.
  change (DHCP_MSG_FIXED_SIZE + 4) with 240. rewrite (proj2 (Z.ltb_ge len 240)) by lia.
  set (p := h ++ yiaddr ++ gap). assert (zlen p = 236) as Hp by (unfold p; rewrite !zlen_app; lia).
  assert (m = p ++ OPT_COOKIE ++ (enc_opts os ++ OPT_END :: s)) as Em by (unfold m, p; by rewrite <- !app_assoc).
  assert (lds m oOptions 4 = Some OPT_COOKIE) as -> by (rewrite Em; by apply lds_app).
  cbn [mbind option_bind]. rewrite bool_decide_eq_true_2 by done. cbn [negb].
  assert (m = (p ++ OPT_COOKIE) ++ enc_opts os ++ OPT_END :: s) as Em' by (rewrite Em; by rewrite <- app_assoc).
  replace (oOptions + 4) with (zlen (p ++ OPT_COOKIE)) by (rewrite zlen_app; change (zlen OPT_COOKIE) with 4; unfold oOptions; lia).
  rewrite Em' at 1. rewrite decode_options_enc; [|done | | lia].
  2:{ assert (length os <= length (enc_opts os))%nat; [|unfold zlen in *; lia]. clear.
      induction os as [|o os IH]; [done|]. rewrite enc_opts_cons, length_app. pose proof (enc_opt_zlen o). unfold zlen in *. cbn [length]. lia. }
  cbn [mbind option_bind].
  assert (lds m oYiaddr 4 = Some yiaddr) as -> by (apply lds_app; [by rewrite Hh | by rewrite Hy]). done.
Qed.
End Options.

(** ** Bounds *)
Section Bounds.
Context {host : Host}.

Lemma decode_option_total m o x n info : 0 <= x -> 0 <= n -> x + n <= zlen m -> x < zlen m -> exists info', decode_option m o x n info = Some info'.
Proof.
  intros Hx Hn Hl Hm. unfold decode_option, ld32.
  assert (4 <= n -> is_Some (lds m x 4)) as H4 by (intros; apply lds_defined; lia).
  assert (8 <= n -> is_Some (lds m (x + 4) 4)) as H8 by (intros; apply lds_defined; lia).
  destruct (ld_defined m x ltac:(lia)) as [t Ht].
  destruct (Z.leb_spec 4 n) as [L|L]; [destruct (H4 L) as [a ->]|]; (destruct (Z.leb_spec 8 n) as [L'|L']; [destruct (H8 L') as [b ->]|]);
    rewrite ?Ht; repeat (case_match; simplify_eq; try (by eexists)); by eexists.
Qed.
Lemma decode_options_total fuel m x len info :
  Forall is_byte m -> 0 <= x -> x + len <= zlen m -> len < Z.of_nat fuel -> (0 < fuel)%nat -> exists info', decode_options fuel m x len info = Some info'.
Proof.
  intros F. revert x len info. induction fuel as [|fuel IH]; intros x len info Hx Hl Hf Hp; [lia|]. cbn [decode_options].
  destruct (Z.ltb_spec 2 len) as [L|L]; cbn [negb]; [|by eexists].
  destruct (ld_defined m x ltac:(lia)) as [o ->]. destruct (ld_defined m (x + 1) ltac:(lia)) as [n En]. rewrite En. cbn [mbind option_bind].
  destruct (o =? OPT_PAD); [apply IH; lia|]. destruct (o =? OPT_END); [by eexists|].
  destruct (Z.ltb_spec (len - 2) n) as [|L']; [by eexists|].
  assert (is_byte n) as Bn.
  { unfold ld in En. destruct (0 <=? x + 1); [|done]. rewrite Forall_forall in F. apply F. by eapply list_elem_of_lookup_2. }
  unfold is_byte in Bn. destruct (decode_option_total m o (x + 2) n info) as [i ->]; [lia..|]. cbn [mbind option_bind]. apply IH; lia.
Qed.

(** The decoder reads inside the message and ends, whatever bytes the network sent. *)
Theorem decode_dhcp_msg_total m len : Forall is_byte m -> len <= zlen m -> 20 <= zlen m -> is_Some (decode_dhcp_msg m len).
Proof.
  intros F Hl Hm. unfold decode_dhcp_msg. change (DHCP_MSG_FIXED_SIZE + 4) with 240.
  destruct (Z.ltb_spec len 240) as [|L]; [by eexists|].
  destruct (lds_defined m oOptions 4) as [c ->]; [done | done | unfold oOptions; lia|]. cbn [mbind option_bind].
  destruct (negb _); [by eexists|].
  destruct (decode_options_total (S (Z.to_nat (len - 240))) m (oOptions + 4) (len - 240) no_info F) as [i ->]; [done | unfold oOptions; lia | lia | lia |].
  cbn [mbind option_bind]. destruct (lds_defined m oYiaddr 4) as [a ->]; [done | done | unfold oYiaddr; lia|]. by eexists.
Qed.

(** ** Masks *)
(** The number of ones: the prefix length of every mask that is one. *)
Definition mask_of (n : Z) : Z := 2 ^ 32 - 2 ^ (32 - n).
Theorem mask_to_prefix_v4_correct n : 0 <= n <= 32 -> mask_to_prefix_v4 (mask_of n) = n.
Proof.
  intros H. assert (forallb (fun k => mask_to_prefix_v4 (mask_of (Z.of_nat k)) =? Z.of_nat k) (seq 0 33) = true) as E by (vm_compute; reflexivity).
  rewrite forallb_forall in E. specialize (E (Z.to_nat n)). rewrite Z2Nat.id in E by lia. apply Z.eqb_eq, E, in_seq. lia.
Qed.
End Bounds.

(** ** A lease *)
Definition offer_opts : list (Z * bytes) :=
  [(OPT_MESSAGE_TYPE, [DHCPOFFER]); (OPT_SERVER_ID, [10; 0; 0; 1]); (OPT_LEASE_TIME, [0; 0; 14; 16]); (OPT_SUBNET_MASK, [255; 255; 255; 0]);
   (OPT_GATEWAY, [10; 0; 0; 1]); (OPT_DNS, [10; 0; 0; 1; 8; 8; 8; 8])].
Theorem decode_dhcp_msg_correct_witness :
  decode_dhcp_msg (host := big_host)
    (replicate 16 0 ++ [10; 0; 0; 77] ++ replicate 216 0 ++ OPT_COOKIE ++ enc_opts offer_opts ++ OPT_END :: replicate 100 0) 300 =
  Some (0, {| i_type := DHCPOFFER; i_ipaddr := [10; 0; 0; 77]; i_gateway := [10; 0; 0; 1]; i_prefixLength := 24; i_dns1 := [10; 0; 0; 1];
              i_dns2 := [8; 8; 8; 8]; i_serveraddr := [10; 0; 0; 1]; i_lease := 3600 |}).
Proof.
  refine (eq_trans (decode_dhcp_msg_correct (host := big_host) (replicate 16 0) offer_opts (replicate 100 0) [10; 0; 0; 77] _ _ _ (replicate 216 0) _ 300 _) _).
  - reflexivity.
  - reflexivity.
  - repeat (apply Forall_cons_2; [split; split; reflexivity|]). apply Forall_nil_2.
  - reflexivity.
  - reflexivity.
  - vm_compute. reflexivity.
Defined.

Theorem packet_roundtrip_witness :
  exists p, send_packet (str "hello" ++ []) 5 [10; 0; 0; 1] [255; 255; 255; 255] 67 68 = Some p /\
    receive_packet (p ++ replicate 100 7) (zlen p) = Some (Some (str "hello")).
Proof.
  destruct (packet_roundtrip (str "hello") [] (replicate 100 7) [10; 0; 0; 1] [255; 255; 255; 255] 67) as (p & E & R).
  - split; [reflexivity|]. repeat constructor; discriminate.
  - split; [reflexivity|]. repeat constructor; discriminate.
  - repeat constructor; discriminate.
  - split; [reflexivity | discriminate].
  - exists p. split; [exact E|]. rewrite R. vm_compute. reflexivity.
Defined.
