(* ===== verification/DhcpClient.v ===== *)
(** * libmnl/dhcp/dhcpclient.c: obtaining a lease ([dhcp_init_ifc]).
    The loop is a step function on what [poll] reports; the packets sent, the time waited and the variables of the function are its
    state.  The printing of messages changes nothing the client reads again and is left out. *)
From S2P Require Import Prelude Util Dhcp.
#[local] Open Scope Z_scope.
#[local] Open Scope c_scope.

Definition STATE_SELECTING : Z := 1.
Definition STATE_REQUESTING : Z := 2.
Definition TIMEOUT_INITIAL : Z := 4000.
Definition TIMEOUT_MAX : Z := 32000.
Definition INADDR_BROADCAST : bytes := [255; 255; 255; 255].

Record client := {
  c_hwaddr : bytes; c_state : Z; c_timeout : Z; c_info : dhcp_info; c_xid : Z; c_discover : bytes; c_request : bytes; c_reply : bytes;
  c_sent : list bytes; c_waited : Z }.
#[export] Instance eta_client : Eta client := fun c =>
  {| c_hwaddr := c_hwaddr c; c_state := c_state c; c_timeout := c_timeout c; c_info := c_info c; c_xid := c_xid c; c_discover := c_discover c;
     c_request := c_request c; c_reply := c_reply c; c_sent := c_sent c; c_waited := c_waited c |}.
#[export] Instance set_c_state : Setter c_state := ltac:(derive_setter).
#[export] Instance set_c_timeout : Setter c_timeout := ltac:(derive_setter).
#[export] Instance set_c_info : Setter c_info := ltac:(derive_setter).
#[export] Instance set_c_xid : Setter c_xid := ltac:(derive_setter).
#[export] Instance set_c_discover : Setter c_discover := ltac:(derive_setter).
#[export] Instance set_c_request : Setter c_request := ltac:(derive_setter).
#[export] Instance set_c_reply : Setter c_reply := ltac:(derive_setter).
#[export] Instance set_c_sent : Setter c_sent := ltac:(derive_setter).
#[export] Instance set_c_waited : Setter c_waited := ltac:(derive_setter).

(** What [poll] and the read behind it report: nothing in time; an error, to be tried again or not; an error of the read, with the interface
    gone or not; a packet, in the structure on the stack with [junk] behind it. *)
Inductive polled := Timeout | PollError (again : bool) | ReadError (down : bool) | Readable (packet junk : bytes).

(** The function goes on; or it returned: the value, what was configured, whether the socket was closed. *)
Inductive outcome := Running (c : client) | Returned (ret : Z) (configured : option dhcp_info) (closed : bool) (c : client).

Section Client.
Context {host : Host}.

Definition send_message (c : client) (msg : bytes) (size : Z) : option client :=
  p ← send_packet msg size any INADDR_BROADCAST PORT_BOOTP_CLIENT PORT_BOOTP_SERVER; Some (c <| c_sent := c_sent c ++ [p] |>).

(** The label [transmit]. *)
Definition transmit (c : client) : option client :=
  if c_state c =? STATE_SELECTING then
    let '(msg, size) := init_dhcp_discover_msg (c_hwaddr c) (c_xid c) in send_message (c <| c_discover := msg |>) msg size
  else if c_state c =? STATE_REQUESTING then
    let '(msg, size) := init_dhcp_request_msg (c_hwaddr c) (c_xid c) (i_ipaddr (c_info c)) (i_serveraddr (c_info c)) in
    send_message (c <| c_request := msg |>) msg size
  else Some c.

Definition timed_out (c : client) : option outcome :=
  let c := c <| c_waited := c_waited c + c_timeout c |> in
  if TIMEOUT_MAX <=? c_timeout c then
    if i_type (c_info c) =? DHCPOFFER then Some (Returned 0 (Some (c_info c)) false c) else Some (Returned (-1) None true c)
  else Running <$> transmit (c <| c_timeout := c_timeout c * 2 |>).

(** A message was received: it is decoded first and checked afterwards. *)
Definition received (c : client) (dhcp : bytes) : option outcome :=
  let r := zlen dhcp in
  let c := c <| c_reply := dhcp ++ drop (length dhcp) (c_reply c) |> in
  '(_, info) ← decode_dhcp_msg (c_reply c) r;
  let c := c <| c_info := info |> in
  valid_reply ← is_valid_reply (if c_state c =? STATE_SELECTING then c_discover c else c_request c) (c_reply c) r;
  if negb valid_reply then Some (Running c) else
  if c_state c =? STATE_SELECTING then
    if i_type info =? DHCPOFFER then
      Running <$> transmit (c <| c_state := STATE_REQUESTING |> <| c_timeout := TIMEOUT_INITIAL |> <| c_xid := u32 (c_xid c + 1) |>)
    else Some (Running c)
  else if c_state c =? STATE_REQUESTING then
    if i_type info =? DHCPACK then Some (Returned 0 (Some info) true c)
    else if i_type info =? DHCPNAK then Some (Returned (-1) None true c) else Some (Running c)
  else Some (Running c).

Definition client_step (c : client) (e : polled) : option outcome :=
  match e with
  | Timeout => timed_out c
  | PollError again => if again then Some (Running c) else Some (Returned (-1) None false c)
  | ReadError down => if down then Some (Returned (-1) None false c) else Some (Running c)
  | Readable packet junk =>
      m ← receive_packet (packet ++ junk) (zlen packet);
      match m with None => Some (Running c) | Some dhcp => received c dhcp end
  end.

Fixpoint client_run (c : client) (es : list polled) : option outcome :=
  match es with
  | [] => Some (Running c)
  | e :: es => o ← client_step c e; match o with Running c => client_run c es | Returned _ _ _ _ => Some o end
  end.

(** [get_msecs] gives the first transaction; [stack] is what the function's variables hold at first. *)
Definition client_start (hwaddr : bytes) (xid : Z) (stack : bytes) : client :=
  {| c_hwaddr := hwaddr; c_state := STATE_SELECTING; c_timeout := TIMEOUT_INITIAL; c_info := no_info; c_xid := u32 xid; c_discover := stack;
     c_request := stack; c_reply := stack; c_sent := []; c_waited := 0 |}.
Definition dhcp_init_ifc (hwaddr : bytes) (msecs : Z) (stack : bytes) (es : list polled) : option outcome :=
  c ← transmit (client_start hwaddr msecs stack); client_run c es.
End Client.
