(* ===== verification/DhcpClientSpec.v ===== *)
(** * Leases obtained, refused and taken from strangers (DhcpClient.v). *)
From S2P Require Import Prelude Util Dhcp DhcpSpec DhcpClient.
#[local] Open Scope Z_scope.
#[local] Open Scope c_scope.

Section Spec.
Context {host : Host}.

(** ** The messages of a server *)
Definition reply_head (xid : bytes) : bytes := [OP_BOOTREPLY; HTYPE_ETHER; 6; 0] ++ xid ++ replicate 8 0.
Definition reply_gap (hw : bytes) : bytes := replicate 8 0 ++ (hw ++ replicate 10 0) ++ replicate 192 0.
Definition reply_msg (hw xid yiaddr : bytes) (os : list (Z * bytes)) : bytes :=
  reply_head xid ++ yiaddr ++ reply_gap hw ++ OPT_COOKIE ++ enc_opts os ++ [OPT_END].
Definition says (os : list (Z * bytes)) (yiaddr : bytes) : dhcp_info := (foldl apply_opt no_info os) <| i_ipaddr := yiaddr |>.

(** A packet that carries a message to the client's port. *)
Definition carries (p m : bytes) : Prop :=
  exists saddr daddr sport, is_addr saddr /\ is_addr daddr /\ udp_check m saddr daddr sport PORT_BOOTP_CLIENT <> 0 /\
    send_packet m (zlen m) saddr daddr sport PORT_BOOTP_CLIENT = Some p.
Lemma carries_receive p m junk : carries p m -> Forall is_byte m -> 0 < zlen m <= sizeof_dhcp_msg ->
  receive_packet (p ++ junk) (zlen p) = Some (Some m).
Proof.
  intros (sa & da & sp & Hs & Hd & Hc & E) Hm Hl. destruct (packet_roundtrip m [] junk sa da sp Hs Hd Hm Hl) as (p' & E' & R).
  rewrite app_nil_r in E'. rewrite E in E'. injection E' as <-. by rewrite R, (proj2 (Z.eqb_neq _ _) Hc).
Qed.

Record hw_ok (hw : bytes) : Prop := { hw_len : length hw = 6%nat; hw_bytes : Forall is_byte hw }.

Lemma hw_six (hw : bytes) : length hw = 6%nat -> exists a b c d e f, hw = [a; b; c; d; e; f].
Proof. intros H. destruct hw as [|a [|b [|c [|d [|e [|f [|]]]]]]]; try done. by exists a, b, c, d, e, f. Qed.

(** A reply is valid exactly when it carries the transaction and the hardware address of the message. *)
Lemma is_valid_reply_iff hw xid hw' x' yiaddr os stale rest :
  length hw = 6%nat -> length hw' = 6%nat -> length x' = 4%nat -> length yiaddr = 4%nat ->
  is_valid_reply (fixed_part hw xid ++ rest) (reply_msg hw' x' yiaddr os ++ stale) (zlen (reply_msg hw' x' yiaddr os)) =
  Some (bool_decide (x' = enc32 xid) && bool_decide (hw = hw')).
Proof.
  intros Hh Hh' Hx Hy. destruct (hw_six hw Hh) as (a & b & c & d & e & f & ->), (hw_six hw' Hh') as (a' & b' & c' & d' & e' & f' & ->).
  destruct (enc32_four xid) as (x0 & x1 & x2 & x3 & Ex). destruct x' as [|y0 [|y1 [|y2 [|y3 [|]]]]]; try done.
  destruct yiaddr as [|z0 [|z1 [|z2 [|z3 [|]]]]]; try done.
  assert (240 <= zlen (reply_msg [a'; b'; c'; d'; e'; f'] [y0; y1; y2; y3] [z0; z1; z2; z3] os)) as Hlen.
  { unfold reply_msg. rewrite !zlen_app.
    assert (zlen (reply_head [y0; y1; y2; y3]) = 16 /\ zlen (reply_gap [a'; b'; c'; d'; e'; f']) = 216) as [-> ->] by done.
    pose proof (zlen_nonneg (enc_opts os)). change (zlen OPT_COOKIE) with 4. change (zlen [OPT_END]) with 1. change (zlen [z0; z1; z2; z3]) with 4. lia. }
  unfold is_valid_reply. rewrite (proj2 (Z.ltb_ge _ DHCP_MSG_FIXED_SIZE)) by (unfold DHCP_MSG_FIXED_SIZE; lia). clear Hlen.
  set (m := reply_head [y0; y1; y2; y3] ++ [z0; z1; z2; z3] ++ reply_gap [a'; b'; c'; d'; e'; f']).
  assert (reply_msg [a'; b'; c'; d'; e'; f'] [y0; y1; y2; y3] [z0; z1; z2; z3] os ++ stale = m ++ (OPT_COOKIE ++ enc_opts os ++ [OPT_END] ++ stale)) as ->.
  { unfold reply_msg, m. by rewrite <- !app_assoc. }
  set (t := OPT_COOKIE ++ enc_opts os ++ [OPT_END] ++ stale).
  assert (ld m oOp = Some OP_BOOTREPLY /\ lds m oXid 4 = Some [y0; y1; y2; y3] /\ ld m oHtype = Some HTYPE_ETHER /\ ld m oHlen = Some 6 /\
          lds m oChaddr 6 = Some [a'; b'; c'; d'; e'; f']) as (M1 & M2 & M3 & M4 & M5) by (by repeat split).
  set (q := fixed_part [a; b; c; d; e; f] xid).
  assert (lds q oXid 4 = Some [x0; x1; x2; x3] /\ ld q oHtype = Some HTYPE_ETHER /\ ld q oHlen = Some 6 /\ lds q oChaddr 6 = Some [a; b; c; d; e; f])
    as (Q2 & Q3 & Q4 & Q5) by (unfold q, fixed_part; rewrite Ex; by repeat split).
  rewrite (ld_mono m t _ _ M1). cbn [mbind option_bind]. change (negb (OP_BOOTREPLY =? OP_BOOTREPLY)) with false. cbv iota.
  rewrite (lds_mono m t _ _ _ M2), (lds_mono q rest _ _ _ Q2). cbn [mbind option_bind]. rewrite Ex.
  case_bool_decide; cbn [negb andb]; [|done].
  rewrite (ld_mono m t _ _ M3), (ld_mono q rest _ _ Q3). cbn [mbind option_bind]. change (negb (HTYPE_ETHER =? HTYPE_ETHER)) with false. cbv iota.
  rewrite (ld_mono m t _ _ M4), (ld_mono q rest _ _ Q4). cbn [mbind option_bind]. change (negb (6 =? 6)) with false. cbv iota.
  rewrite (lds_mono q rest _ _ _ Q5), (lds_mono m t _ _ _ M5). done.
Qed.

Lemma reply_decodes hw xid yiaddr os stale : length hw = 6%nat -> length xid = 4%nat -> length yiaddr = 4%nat -> Forall opt_wf os ->
  let m := reply_msg hw xid yiaddr os in decode_dhcp_msg (m ++ stale) (zlen m) = Some (0, says os yiaddr).
Proof.
  intros Hh Hx Hy F m. unfold m, reply_msg. 
  pose proof (decode_dhcp_msg_correct (reply_head xid) os stale yiaddr) as D. unfold says.
  rewrite <- !app_assoc. cbn [app]. refine (D _ _ F (reply_gap hw) _ _ _).
  - unfold reply_head. rewrite !zlen_app. unfold zlen. rewrite Hx. done.
  - unfold zlen. by rewrite Hy.
  - unfold reply_gap. rewrite !zlen_app. unfold zlen. rewrite Hh. done.
  - rewrite !zlen_app. unfold reply_head, reply_gap. rewrite !zlen_app. unfold zlen. rewrite Hx, Hy, Hh. cbn. lia.
Qed.

(** ** Sending *)
Lemma init_msg_fits type hw xid rest : (length rest <= 1000)%nat -> length hw = 6%nat ->
  let '(m, n) := init_dhcp_msg type hw xid rest in 0 <= n /\ n <= zlen m.
Proof.
  intros H Hh. unfold init_dhcp_msg. split; [unfold DHCP_MSG_FIXED_SIZE; pose proof (zlen_nonneg (OPT_COOKIE ++ [OPT_MESSAGE_TYPE; 1; type] ++ rest)); lia|].
  destruct (hw_six hw Hh) as (a & b & c & d & e & f & ->). destruct (enc32_four xid) as (x0 & x1 & x2 & x3 & Ex).
  rewrite !zlen_app. assert (zlen (fixed_part [a; b; c; d; e; f] xid) = 236) as ->; [|unfold DHCP_MSG_FIXED_SIZE; pose proof (zlen_nonneg (replicate (1024 - length (OPT_COOKIE ++ [OPT_MESSAGE_TYPE; 1; type] ++ rest)) 0)); lia].
  unfold fixed_part. by rewrite Ex.
Qed.
Lemma send_message_total c m n : 0 <= n -> n <= zlen m ->
  exists p, send_packet m n any INADDR_BROADCAST PORT_BOOTP_CLIENT PORT_BOOTP_SERVER = Some p /\
    send_message c m n = Some (c <| c_sent := c_sent c ++ [p] |>).
Proof.
  intros H1 H2. unfold send_message, send_packet. destruct (lds_defined m 0 n) as [d ->]; [lia..|]. cbn [mbind option_bind]. by eexists.
Qed.

(** The packets of a client. *)
Definition discover_packet (hw : bytes) (xid : Z) : option bytes :=
  let '(m, n) := init_dhcp_discover_msg hw xid in send_packet m n any INADDR_BROADCAST PORT_BOOTP_CLIENT PORT_BOOTP_SERVER.
Definition request_packet (hw : bytes) (xid : Z) (ipaddr serveraddr : bytes) : option bytes :=
  let '(m, n) := init_dhcp_request_msg hw xid ipaddr serveraddr in send_packet m n any INADDR_BROADCAST PORT_BOOTP_CLIENT PORT_BOOTP_SERVER.

Lemma transmit_selecting c : c_state c = STATE_SELECTING -> length (c_hwaddr c) = 6%nat ->
  exists p, discover_packet (c_hwaddr c) (c_xid c) = Some p /\
    transmit c = Some (c <| c_discover := (init_dhcp_discover_msg (c_hwaddr c) (c_xid c)).1 |> <| c_sent := c_sent c ++ [p] |>).
Proof.
  intros Hs Hh. unfold transmit, discover_packet. rewrite Hs. change (STATE_SELECTING =? STATE_SELECTING) with true. cbv iota.
  pose proof (init_msg_fits DHCPDISCOVER (c_hwaddr c) (c_xid c) (parameter_list ++ [OPT_END]) ltac:(cbn; lia) Hh) as F.
  unfold init_dhcp_discover_msg. destruct (init_dhcp_msg _ _ _ _) as [m n]. destruct F as [F1 F2].
  destruct (send_message_total (c <| c_discover := m |>) m n F1 F2) as (p & E1 & E2). by exists p.
Qed.
Lemma transmit_requesting c : c_state c = STATE_REQUESTING -> length (c_hwaddr c) = 6%nat ->
  length (i_ipaddr (c_info c)) = 4%nat -> length (i_serveraddr (c_info c)) = 4%nat ->
  exists p, request_packet (c_hwaddr c) (c_xid c) (i_ipaddr (c_info c)) (i_serveraddr (c_info c)) = Some p /\
    transmit c = Some (c <| c_request := (init_dhcp_request_msg (c_hwaddr c) (c_xid c) (i_ipaddr (c_info c)) (i_serveraddr (c_info c))).1 |>
                         <| c_sent := c_sent c ++ [p] |>).
Proof.
  intros Hs Hh Hi Hv. unfold transmit, request_packet. rewrite Hs. change (STATE_REQUESTING =? STATE_SELECTING) with false.
  change (STATE_REQUESTING =? STATE_REQUESTING) with true. cbv iota.
  unfold init_dhcp_request_msg. set (rest := parameter_list ++ _).
  pose proof (init_msg_fits DHCPREQUEST (c_hwaddr c) (c_xid c) rest) as F. destruct (init_dhcp_msg _ _ _ _) as [m n].
  destruct F as [F1 F2]; [unfold rest; rewrite !length_app, Hi, Hv; cbn; lia | done |].
  destruct (send_message_total (c <| c_request := m |>) m n F1 F2) as (p & E1 & E2). by exists p.
Qed.

(** ** Receiving *)
(** What a server's message must be to reach the client. *)
Record server_msg (hw : bytes) (m : bytes) (xid : bytes) (yiaddr : bytes) (os : list (Z * bytes)) : Prop := {
  sm_is : m = reply_msg hw xid yiaddr os; sm_xid : length xid = 4%nat; sm_yiaddr : length yiaddr = 4%nat; sm_opts : Forall opt_wf os;
  sm_bytes : Forall is_byte m; sm_fits : zlen m <= sizeof_dhcp_msg }.

Lemma server_msg_positive hw m xid y os : server_msg hw m xid y os -> 0 < zlen m.
Proof.
  intros [-> _ _ _ _ _]. unfold reply_msg, reply_head. rewrite !zlen_app. change (zlen [OP_BOOTREPLY; HTYPE_ETHER; 6; 0]) with 4.
  pose proof (zlen_nonneg xid). pose proof (zlen_nonneg y). pose proof (zlen_nonneg (reply_gap hw)). pose proof (zlen_nonneg OPT_COOKIE).
  pose proof (zlen_nonneg (enc_opts os)). pose proof (zlen_nonneg [OPT_END]). pose proof (zlen_nonneg (replicate 8 0)). lia.
Qed.

(** A message in the mailbox: decoded, then judged by the transaction and the hardware address of the message waited for. *)
Lemma receive_step c hw' m x' y os p junk xid rest :
  carries p m -> server_msg hw' m x' y os -> length hw' = 6%nat -> length (c_hwaddr c) = 6%nat ->
  (if c_state c =? STATE_SELECTING then c_discover c else c_request c) = fixed_part (c_hwaddr c) xid ++ rest ->
  exists c', c' = c <| c_reply := m ++ drop (length m) (c_reply c) |> <| c_info := says os y |> /\
  client_step c (Readable p junk) =
    if bool_decide (x' = enc32 xid) && bool_decide (c_hwaddr c = hw') then
      if c_state c =? STATE_SELECTING then
        if i_type (says os y) =? DHCPOFFER then
          Running <$> transmit (c' <| c_state := STATE_REQUESTING |> <| c_timeout := TIMEOUT_INITIAL |> <| c_xid := u32 (c_xid c + 1) |>)
        else Some (Running c')
      else if c_state c =? STATE_REQUESTING then
        if i_type (says os y) =? DHCPACK then Some (Returned 0 (Some (says os y)) true c')
        else if i_type (says os y) =? DHCPNAK then Some (Returned (-1) None true c') else Some (Running c')
      else Some (Running c')
    else Some (Running c').
Proof.
  intros Hc Hm Hh' Hh Hmsg. eexists. split; [reflexivity|]. pose proof (server_msg_positive _ _ _ _ _ Hm) as Hpos.
  destruct Hm as [Em Hx Hy F B L]. cbn [client_step]. rewrite (carries_receive p m junk Hc B) by lia. cbn [mbind option_bind].
  unfold received. cbn [c_reply set_c_reply]. 
  change (c_reply (c <| c_reply := m ++ drop (length m) (c_reply c) |>)) with (m ++ drop (length m) (c_reply c)).
  pose proof (reply_decodes hw' x' y os (drop (length m) (c_reply c)) Hh' Hx Hy F) as D. rewrite <- Em in D. cbv zeta in D. rewrite D. clear D.
  cbn [mbind option_bind].
  match goal with |- context [is_valid_reply ?d ?r ?n] => change (is_valid_reply d r n) with
    (is_valid_reply (if c_state c =? STATE_SELECTING then c_discover c else c_request c) (m ++ drop (length m) (c_reply c)) (zlen m)) end.
  rewrite Hmsg. pose proof (is_valid_reply_iff (c_hwaddr c) xid hw' x' y os (drop (length m) (c_reply c)) rest Hh Hh' Hx Hy) as V.
  rewrite <- Em in V. rewrite V. cbn [mbind option_bind].
  destruct (bool_decide (x' = enc32 xid) && bool_decide (c_hwaddr c = hw')); reflexivity.
Qed.

(** ** Noise *)
(** Events that the client does not notice: interrupted calls and packets that are not for it. *)
Definition noise (e : polled) : Prop :=
  match e with
  | PollError again => again = true
  | ReadError down => down = false
  | Readable p junk => receive_packet (p ++ junk) (zlen p) = Some None
  | Timeout => False
  end.
Lemma run_noise c es es' : Forall noise es -> client_run c (es ++ es') = client_run c es'.
Proof.
  induction 1 as [|e es He _ IH]; [done|]. cbn [app client_run].
  assert (client_step c e = Some (Running c)) as ->; [|exact IH]. destruct e as [|again|down|p junk]; cbn in *; [done | by rewrite He | by rewrite He | by rewrite He].
Qed.

Lemma serveraddr_length os info : length (i_serveraddr info) = 4%nat -> length (i_serveraddr (foldl apply_opt info os)) = 4%nat.
Proof.
  revert info. induction os as [|[o v] os IH]; intros info H; [done|]. cbn [foldl]. apply IH. unfold apply_opt. cbn [fst snd].
  destruct (o =? OPT_MESSAGE_TYPE); [done|]. destruct (Z.ltb_spec (zlen v) 4) as [|L]; [done|].
  destruct (o =? OPT_SUBNET_MASK); [done|]. destruct (o =? OPT_GATEWAY); [done|].
  destruct (o =? OPT_DNS); [by destruct (zlen v <? 8)|]. destruct (o =? OPT_LEASE_TIME); [done|].
  destruct (o =? OPT_SERVER_ID); [|done]. cbn. rewrite length_take. unfold zlen in L. lia.
Qed.

(** The start: one discovery is sent. *)
Lemma start_selecting hw msecs stack : length hw = 6%nat ->
  exists pd, discover_packet hw (u32 msecs) = Some pd /\
    transmit (client_start hw msecs stack) =
      Some ((client_start hw msecs stack) <| c_discover := (init_dhcp_discover_msg hw (u32 msecs)).1 |> <| c_sent := [pd] |>).
Proof. intros Hh. exact (transmit_selecting (client_start hw msecs stack) eq_refl Hh). Qed.

Definition server_of (os : list (Z * bytes)) : bytes := i_serveraddr (foldl apply_opt no_info os).

(** With a server that offers an address and acknowledges the request the client obtains exactly the acknowledged lease: it broadcasts
    a discovery and then a request, in the next transaction, for the offered address and the offering server, configures what the
    acknowledgement says and closes its socket - whatever the stack held, and whatever interruptions and foreign packets come between. *)
Theorem dhcp_obtains_lease hw msecs stack n1 n2 rest p1 j1 m1 y1 os1 p2 j2 m2 y2 os2 :
  length hw = 6%nat -> Forall noise n1 -> Forall noise n2 ->
  carries p1 m1 -> server_msg hw m1 (enc32 (u32 msecs)) y1 os1 -> i_type (says os1 y1) = DHCPOFFER ->
  carries p2 m2 -> server_msg hw m2 (enc32 (u32 (u32 msecs + 1))) y2 os2 -> i_type (says os2 y2) = DHCPACK ->
  exists pd pr c, dhcp_init_ifc hw msecs stack (n1 ++ Readable p1 j1 :: n2 ++ Readable p2 j2 :: rest) =
      Some (Returned 0 (Some (says os2 y2)) true c) /\
    discover_packet hw (u32 msecs) = Some pd /\ request_packet hw (u32 (u32 msecs + 1)) y1 (server_of os1) = Some pr /\
    c_sent c = [pd; pr] /\ c_waited c = 0.
Proof.
  intros Hh N1 N2 C1 S1 T1 C2 S2 T2. unfold dhcp_init_ifc. destruct (start_selecting hw msecs stack Hh) as (pd & Epd & ->).
  cbn [mbind option_bind]. rewrite run_noise by done. cbn [client_run].
  set (c0 := _ <| c_sent := [pd] |>).
  destruct (receive_step c0 hw m1 (enc32 (u32 msecs)) y1 os1 p1 j1 (u32 msecs)
    (OPT_COOKIE ++ [OPT_MESSAGE_TYPE; 1; DHCPDISCOVER] ++ (parameter_list ++ [OPT_END]) ++
     replicate (1024 - length (OPT_COOKIE ++ [OPT_MESSAGE_TYPE; 1; DHCPDISCOVER] ++ (parameter_list ++ [OPT_END]))) 0) C1 S1 Hh Hh) as (c1 & Ec1 & ->).
  { unfold c0. cbn -[replicate]. by rewrite <- !app_assoc. }
  rewrite !bool_decide_eq_true_2 by done. cbn [andb]. change (c_state c0 =? STATE_SELECTING) with true. cbv iota.
  rewrite T1. change (DHCPOFFER =? DHCPOFFER) with true. cbv iota.
  set (c2 := c1 <| c_state := _ |> <| c_timeout := _ |> <| c_xid := _ |>).
  assert (c_info c2 = says os1 y1) as I2 by (unfold c2; by rewrite Ec1).
  assert (c_hwaddr c2 = hw /\ c_xid c2 = u32 (u32 msecs + 1) /\ c_sent c2 = [pd] /\ c_waited c2 = 0) as (W2 & X2 & Z2 & V2) by (unfold c2; by rewrite Ec1).
  destruct (transmit_requesting c2) as (pr & Epr & ->); [done | by rewrite W2 | rewrite I2; apply S1 | rewrite I2; by apply serveraddr_length |].
  rewrite W2, X2, Z2, I2 in *. cbn [fmap option_fmap option_map mbind option_bind]. rewrite run_noise by done. cbn [client_run].
  set (c3 := _ <| c_sent := [pd] ++ [pr] |>).
  change (i_ipaddr (says os1 y1)) with y1 in *. change (i_serveraddr (says os1 y1)) with (server_of os1) in *.
  set (body := (parameter_list ++ [OPT_REQUESTED_IP; 4] ++ y1 ++ [OPT_SERVER_ID; 4] ++ server_of os1 ++ [OPT_END])) in *.
  assert (c_hwaddr c3 = hw) as W3 by done.
  destruct (receive_step c3 hw m2 (enc32 (u32 (u32 msecs + 1))) y2 os2 p2 j2 (u32 (u32 msecs + 1))
    ((OPT_COOKIE ++ [OPT_MESSAGE_TYPE; 1; DHCPREQUEST] ++ body) ++ replicate (1024 - length (OPT_COOKIE ++ [OPT_MESSAGE_TYPE; 1; DHCPREQUEST] ++ body)) 0)
    C2 S2 Hh) as (c4 & Ec4 & ->); [by rewrite W3 | by rewrite W3 |].
  rewrite W3, !bool_decide_eq_true_2 by done. cbn [andb]. change (c_state c3 =? STATE_SELECTING) with false.
  change (c_state c3 =? STATE_REQUESTING) with true. cbv iota. rewrite T2. change (DHCPACK =? DHCPACK) with true. cbv iota.
  exists pd, pr, c4. split; [done|]. split; [done|]. split; [done|]. by rewrite Ec4.
Qed.

(** ** Silence *)
Lemma timeout_again c : c_state c = STATE_SELECTING -> length (c_hwaddr c) = 6%nat -> c_timeout c < TIMEOUT_MAX ->
  exists p c', discover_packet (c_hwaddr c) (c_xid c) = Some p /\ client_step c Timeout = Some (Running c') /\
    c_state c' = STATE_SELECTING /\ c_hwaddr c' = c_hwaddr c /\ c_xid c' = c_xid c /\ c_timeout c' = c_timeout c * 2 /\ c_info c' = c_info c /\
    c_sent c' = c_sent c ++ [p] /\ c_waited c' = c_waited c + c_timeout c.
Proof.
  intros Hs Hh Ht. cbn [client_step]. unfold timed_out.
  change (c_timeout (c <| c_waited := _ |>)) with (c_timeout c). rewrite (proj2 (Z.leb_gt _ _)) by done.
  set (c1 := c <| c_waited := _ |> <| c_timeout := _ |>).
  destruct (transmit_selecting c1) as (p & Ep & ->); [done..|]. by eexists _, _.
Qed.
(** Three timeouts of a client that starts waiting, and the fourth. *)
Lemma four_timeouts c : c_state c = STATE_SELECTING -> length (c_hwaddr c) = 6%nat -> c_timeout c = TIMEOUT_INITIAL ->
  exists p c', discover_packet (c_hwaddr c) (c_xid c) = Some p /\ c_sent c' = c_sent c ++ [p; p; p] /\ c_waited c' = c_waited c + 60000 /\
    client_run c (replicate 4 Timeout) = Some (
      if i_type (c_info c) =? DHCPOFFER then Returned 0 (Some (c_info c)) false c' else Returned (-1) None true c').
Proof.
  intros S0 H0 T0.
  destruct (timeout_again c S0 H0) as (p & c1 & P1 & E1 & S1 & H1 & X1 & T1 & I1 & M1 & W1); [by rewrite T0|].
  destruct (timeout_again c1 S1) as (p2 & c2 & P2 & E2 & S2 & H2 & X2 & T2 & I2 & M2 & W2); [by rewrite H1 | by rewrite T1, T0 |].
  destruct (timeout_again c2 S2) as (p3 & c3 & P3 & E3 & S3 & H3 & X3 & T3 & I3 & M3 & W3); [by rewrite H2, H1 | by rewrite T2, T1, T0 |].
  rewrite H1, X1, P1 in P2. injection P2 as <-. rewrite H2, X2, H1, X1, P1 in P3. injection P3 as <-.
  exists p, (c3 <| c_waited := c_waited c3 + c_timeout c3 |>). split; [done|].
  split; [cbn; by rewrite M3, M2, M1, <- !app_assoc|].
  split; [cbn; rewrite W3, W2, W1, T3, T2, T1, T0; unfold TIMEOUT_INITIAL; lia|].
  cbn [replicate client_run]. rewrite E1. cbn [mbind option_bind]. rewrite E2. cbn [mbind option_bind]. rewrite E3. cbn [mbind option_bind].
  cbn [client_step]. unfold timed_out. change (c_timeout (c3 <| c_waited := _ |>)) with (c_timeout c3).
  change (c_info (c3 <| c_waited := _ |>)) with (c_info c3).
  rewrite T3, T2, T1, T0, I3, I2, I1. change (TIMEOUT_MAX <=? TIMEOUT_INITIAL * 2 * 2 * 2) with true. cbv iota.
  by destruct (i_type (c_info c) =? DHCPOFFER).
Qed.

(** Without an answer the client gives up: four discoveries, one minute, the socket closed. *)
Theorem dhcp_gives_up hw msecs stack :
  length hw = 6%nat ->
  exists pd c, discover_packet hw (u32 msecs) = Some pd /\
    dhcp_init_ifc hw msecs stack (replicate 4 Timeout) = Some (Returned (-1) None true c) /\
    c_sent c = [pd; pd; pd; pd] /\ c_waited c = 60000.
Proof.
  intros Hh. unfold dhcp_init_ifc. destruct (start_selecting hw msecs stack Hh) as (pd & Epd & ->). cbn [mbind option_bind].
  set (c0 := _ <| c_sent := [pd] |>).
  destruct (four_timeouts c0) as (p & c & Ep & Es & Ew & ->); [done | done | done |].
  change (c_hwaddr c0) with hw in Ep. change (c_xid c0) with (u32 msecs) in Ep. rewrite Epd in Ep. injection Ep as <-.
  exists pd, c. by rewrite Es, Ew.
Qed.

(** C32: A message is decoded into the client's lease before it is checked: an offer of another transaction or for another machine is
    rejected as an invalid reply, and yet, when no answer follows, the client configures the address, the gateway and the servers of that
    foreign offer and keeps its socket open. *)
Theorem dhcp_takes_foreign_offer hw msecs stack p m junk hw' xid y os :
  length hw = 6%nat -> length hw' = 6%nat -> carries p m -> server_msg hw' m xid y os -> i_type (says os y) = DHCPOFFER ->
  hw' <> hw \/ xid <> enc32 (u32 msecs) ->
  exists c, dhcp_init_ifc hw msecs stack (Readable p junk :: replicate 4 Timeout) = Some (Returned 0 (Some (says os y)) false c).
Proof.
  intros Hh Hh' C S T Hf. unfold dhcp_init_ifc. destruct (start_selecting hw msecs stack Hh) as (pd & Epd & ->).
  cbn [mbind option_bind]. set (c0 := _ <| c_sent := [pd] |>). cbn [client_run].
  destruct (receive_step c0 hw' m xid y os p junk (u32 msecs)
    (OPT_COOKIE ++ [OPT_MESSAGE_TYPE; 1; DHCPDISCOVER] ++ (parameter_list ++ [OPT_END]) ++
     replicate (1024 - length (OPT_COOKIE ++ [OPT_MESSAGE_TYPE; 1; DHCPDISCOVER] ++ (parameter_list ++ [OPT_END]))) 0) C S Hh' Hh) as (c1 & Ec1 & ->).
  { unfold c0. cbn -[replicate]. by rewrite <- !app_assoc. }
  assert (bool_decide (xid = enc32 (u32 msecs)) && bool_decide (c_hwaddr c0 = hw') = false) as ->.
  { apply andb_false_iff. rewrite !bool_decide_eq_false. change (c_hwaddr c0) with hw. destruct Hf; [right; congruence | by left]. }
  cbn [mbind option_bind].
  assert (c_info c1 = says os y) as I1 by (by rewrite Ec1).
  destruct (four_timeouts c1) as (q & c & _ & _ & _ & E); [by rewrite Ec1.. |].
  rewrite E, I1, T. by exists c.
Qed.
End Spec.

(** ** Runs *)
Definition hw_eg : bytes := [2; 0; 0; 0; 0; 1].
Definition wire (m : bytes) : bytes := default [] (send_packet m (zlen m) [10; 0; 0; 1] INADDR_BROADCAST PORT_BOOTP_SERVER PORT_BOOTP_CLIENT).
Definition offer_eg : bytes := reply_msg hw_eg (enc32 1000) [10; 0; 0; 77] offer_opts.
Definition ack_opts : list (Z * bytes) := (OPT_MESSAGE_TYPE, [DHCPACK]) :: tail offer_opts.
Definition ack_eg : bytes := reply_msg hw_eg (enc32 1001) [10; 0; 0; 77] ack_opts.

Ltac server_eg := split; [reflexivity | reflexivity | reflexivity
  | repeat (apply Forall_cons_2; [split; split; reflexivity|]); apply Forall_nil_2
  | vm_compute; repeat constructor; discriminate | vm_compute; discriminate].
Ltac wire_eg := exists [10; 0; 0; 1], INADDR_BROADCAST, PORT_BOOTP_SERVER; split; [split; [reflexivity | repeat constructor; discriminate]|];
  split; [split; [reflexivity | repeat constructor; discriminate]|]; split; [vm_compute; discriminate | vm_compute; reflexivity].

Theorem dhcp_obtains_lease_witness :
  exists pr c, dhcp_init_ifc hw_eg 1000 [] [PollError true; Readable (wire offer_eg) []; Readable (wire ack_eg) []; Timeout] =
      Some (Returned 0 (Some (says ack_opts [10; 0; 0; 77])) true c) /\
    request_packet hw_eg 1001 [10; 0; 0; 77] [10; 0; 0; 1] = Some pr /\ last (c_sent c) = Some pr.
Proof.
  destruct (dhcp_obtains_lease hw_eg 1000 [] [PollError true] [] [Timeout] (wire offer_eg) [] offer_eg [10; 0; 0; 77] offer_opts
    (wire ack_eg) [] ack_eg [10; 0; 0; 77] ack_opts) as (pd & pr & c & E & _ & Er & Es & _).
  - reflexivity.
  - repeat constructor.
  - constructor.
  - wire_eg.
  - server_eg.
  - reflexivity.
  - wire_eg.
  - server_eg.
  - reflexivity.
  - exists pr, c. split; [exact E|]. split; [exact Er|]. rewrite Es. reflexivity.
Defined.

(** An offer for the machine next to it. *)
Theorem dhcp_takes_foreign_offer_witness :
  exists c, dhcp_init_ifc hw_eg 5 [] (Readable (wire (reply_msg [2; 0; 0; 0; 0; 9] (enc32 77) [10; 0; 0; 99] offer_opts)) [] :: replicate 4 Timeout) =
    Some (Returned 0 (Some (says offer_opts [10; 0; 0; 99])) false c).
Proof.
  apply (dhcp_takes_foreign_offer hw_eg 5 [] _ (reply_msg [2; 0; 0; 0; 0; 9] (enc32 77) [10; 0; 0; 99] offer_opts) [] [2; 0; 0; 0; 0; 9] (enc32 77) [10; 0; 0; 99] offer_opts).
  - reflexivity.
  - reflexivity.
  - wire_eg.
  - server_eg.
  - reflexivity.
  - left. discriminate.
Defined.

Theorem dhcp_gives_up_witness : exists pd c, discover_packet hw_eg (u32 5) = Some pd /\
  dhcp_init_ifc hw_eg 5 [] (replicate 4 Timeout) = Some (Returned (-1) None true c) /\ c_sent c = [pd; pd; pd; pd] /\ c_waited c = 60000.
Proof. apply (dhcp_gives_up hw_eg 5 []). reflexivity. Defined.
