(* ===== verification/Mnl.v ===== *)
(** * libmnl: netlink messages and their attributes (nlmsg.c, attr.c, callback.c).
    A buffer is its bytes, a pointer into it an offset; numbers are in the byte order of the host.  [None] is undefined behaviour: an access
    outside the buffer.  A function that sets [errno] returns it with its result (0: left alone). *)
From S2P Require Import Prelude Util.
#[local] Open Scope Z_scope.
#[local] Open Scope c_scope.

Definition EINTR : Z := 4.
Definition ESRCH : Z := 3.
Definition EINVAL : Z := 22.
Definition ERANGE : Z := 34.
Definition EPROTO : Z := 71.
Definition EBADMSG : Z := 74.
Definition EOPNOTSUPP : Z := 95.

Definition MNL_CB_ERROR : Z := -1.
Definition MNL_CB_STOP : Z := 0.
Definition MNL_CB_OK : Z := 1.
Definition NLMSG_NOOP : Z := 1.
Definition NLMSG_ERROR : Z := 2.
Definition NLMSG_DONE : Z := 3.
Definition NLMSG_OVERRUN : Z := 4.
Definition NLMSG_MIN_TYPE : Z := 16.
Definition NLM_F_DUMP_INTR : Z := 0x10.
Definition NLA_TYPE_MASK : Z := 0x3fff.
Definition NLA_F_NESTED : Z := 0x8000.

Definition MNL_ALIGN (len : Z) : Z := (len + 3) .& (-4).
Definition MNL_NLMSG_HDRLEN : Z := 16.
Definition MNL_ATTR_HDRLEN : Z := 4.
Definition sizeof_nlmsgerr : Z := 20.

Inductive mnl_attr_data_type :=
  | MNL_TYPE_UNSPEC | MNL_TYPE_U8 | MNL_TYPE_U16 | MNL_TYPE_U32 | MNL_TYPE_U64 | MNL_TYPE_STRING | MNL_TYPE_FLAG | MNL_TYPE_MSECS
  | MNL_TYPE_NESTED | MNL_TYPE_NESTED_COMPAT | MNL_TYPE_NUL_STRING | MNL_TYPE_BINARY | MNL_TYPE_MAX.
#[export] Instance mnl_attr_data_type_eq : EqDecision mnl_attr_data_type.
Proof. solve_decision. Defined.

Section Mnl.
Context {host : Host}.

(** ** nlmsg.c *)
Definition nlmsg_len (buf : bytes) (nlh : Z) : option Z := ld32 buf nlh.
Definition nlmsg_type (buf : bytes) (nlh : Z) : option Z := ld16 buf (nlh + 4).
Definition nlmsg_flags (buf : bytes) (nlh : Z) : option Z := ld16 buf (nlh + 6).
Definition nlmsg_seq (buf : bytes) (nlh : Z) : option Z := ld32 buf (nlh + 8).
Definition nlmsg_pid (buf : bytes) (nlh : Z) : option Z := ld32 buf (nlh + 12).
Definition set_len (buf : bytes) (nlh v : Z) : option bytes := st32 buf nlh v.

Definition mnl_nlmsg_size (len : Z) : Z := len + MNL_NLMSG_HDRLEN.
Definition mnl_nlmsg_get_payload_len (buf : bytes) (nlh : Z) : option Z := l ← nlmsg_len buf nlh; Some (l - MNL_NLMSG_HDRLEN).
Definition mnl_nlmsg_get_payload (nlh : Z) : Z := nlh + MNL_NLMSG_HDRLEN.
Definition mnl_nlmsg_get_payload_offset (nlh offset : Z) : Z := nlh + MNL_NLMSG_HDRLEN + MNL_ALIGN offset.
Definition mnl_nlmsg_get_payload_tail (buf : bytes) (nlh : Z) : option Z := l ← nlmsg_len buf nlh; Some (nlh + u32 (MNL_ALIGN l)).

Definition mnl_nlmsg_put_header (buf : bytes) : option bytes :=
  buf ← sts buf 0 (replicate (Z.to_nat MNL_NLMSG_HDRLEN) 0); set_len buf 0 MNL_NLMSG_HDRLEN.
(** Result: the buffer and the extra header. *)
Definition mnl_nlmsg_put_extra_header (buf : bytes) (nlh size : Z) : option (bytes * Z) :=
  l ← nlmsg_len buf nlh;
  let ptr := nlh + l in
  let len := MNL_ALIGN size in
  buf ← set_len buf nlh (u32 (l + len));
  buf ← sts buf ptr (replicate (Z.to_nat len) 0);
  Some (buf, ptr).

Definition mnl_nlmsg_ok (buf : bytes) (nlh len : Z) : option bool :=
  if len <? MNL_NLMSG_HDRLEN then Some false else
  l ← nlmsg_len buf nlh; Some ((MNL_NLMSG_HDRLEN <=? l) && (s32 l <=? len)).
(** Result: the next message and the length left. *)
Definition mnl_nlmsg_next (buf : bytes) (nlh len : Z) : option (Z * Z) :=
  l ← nlmsg_len buf nlh; let a := u32 (MNL_ALIGN l) in Some (nlh + a, s32 (len - a)).

Definition mnl_nlmsg_seq_ok (buf : bytes) (nlh seq : Z) : option bool :=
  s ← nlmsg_seq buf nlh; Some (if negb (s =? 0) && negb (seq =? 0) then s =? seq else true).
Definition mnl_nlmsg_portid_ok (buf : bytes) (nlh portid : Z) : option bool :=
  p ← nlmsg_pid buf nlh; Some (if negb (p =? 0) && negb (portid =? 0) then p =? portid else true).

(** ** attr.c: reading *)
Definition nla_len (buf : bytes) (attr : Z) : option Z := ld16 buf attr.
Definition nla_type (buf : bytes) (attr : Z) : option Z := ld16 buf (attr + 2).
Definition mnl_attr_get_type (buf : bytes) (attr : Z) : option Z := t ← nla_type buf attr; Some (t .& NLA_TYPE_MASK).
Definition mnl_attr_get_len (buf : bytes) (attr : Z) : option Z := nla_len buf attr.
Definition mnl_attr_get_payload_len (buf : bytes) (attr : Z) : option Z := l ← nla_len buf attr; Some (u16 (l - MNL_ATTR_HDRLEN)).
Definition mnl_attr_get_payload (attr : Z) : Z := attr + MNL_ATTR_HDRLEN.

Definition mnl_attr_ok (buf : bytes) (attr len : Z) : option bool :=
  if len <? MNL_ATTR_HDRLEN then Some false else
  l ← nla_len buf attr; Some ((MNL_ATTR_HDRLEN <=? l) && (l <=? len)).
Definition mnl_attr_next (buf : bytes) (attr : Z) : option Z := l ← nla_len buf attr; Some (attr + MNL_ALIGN l).

Definition mnl_attr_type_valid (buf : bytes) (attr max : Z) : option (Z * Z) :=
  t ← mnl_attr_get_type buf attr; Some (if max <? t then (-1, EOPNOTSUPP) else (1, 0)).

Definition __mnl_attr_validate (buf : bytes) (attr : Z) (type : mnl_attr_data_type) (exp_len : Z) : option (Z * Z) :=
  attr_len ← mnl_attr_get_payload_len buf attr;
  let attr_data := mnl_attr_get_payload attr in
  let last := if 0 <? exp_len then if exp_len <? attr_len then (-1, ERANGE) else (0, 0) else (0, 0) in
  if attr_len <? exp_len then Some (-1, ERANGE) else
  match type with
  | MNL_TYPE_FLAG => if 0 <? attr_len then Some (-1, ERANGE) else Some last
  | MNL_TYPE_NUL_STRING =>
      if attr_len =? 0 then Some (-1, ERANGE) else
      c ← ld buf (attr_data + attr_len - 1); if negb (c =? 0) then Some (-1, EINVAL) else Some last
  | MNL_TYPE_STRING => if attr_len =? 0 then Some (-1, ERANGE) else Some last
  | MNL_TYPE_NESTED => if attr_len =? 0 then Some last else if attr_len <? MNL_ATTR_HDRLEN then Some (-1, ERANGE) else Some last
  | _ => Some last
  end.
Definition mnl_attr_data_type_len (type : mnl_attr_data_type) : Z :=
  match type with MNL_TYPE_U8 => 1 | MNL_TYPE_U16 => 2 | MNL_TYPE_U32 => 4 | MNL_TYPE_U64 | MNL_TYPE_MSECS => 8 | _ => 0 end.
Definition mnl_attr_validate (buf : bytes) (attr : Z) (type : mnl_attr_data_type) : option (Z * Z) :=
  if bool_decide (type = MNL_TYPE_MAX) then Some (-1, EINVAL) else __mnl_attr_validate buf attr type (mnl_attr_data_type_len type).
Definition mnl_attr_validate2 (buf : bytes) (attr : Z) (type : mnl_attr_data_type) (exp_len : Z) : option (Z * Z) :=
  if bool_decide (type = MNL_TYPE_MAX) then Some (-1, EINVAL) else __mnl_attr_validate buf attr type exp_len.

Definition mnl_attr_get_u8 (buf : bytes) (attr : Z) : option Z := ld buf (mnl_attr_get_payload attr).
Definition mnl_attr_get_u16 (buf : bytes) (attr : Z) : option Z := ld16 buf (mnl_attr_get_payload attr).
Definition mnl_attr_get_u32 (buf : bytes) (attr : Z) : option Z := ld32 buf (mnl_attr_get_payload attr).
Definition mnl_attr_get_u64 (buf : bytes) (attr : Z) : option Z := bs ← lds buf (mnl_attr_get_payload attr) 8; Some (dec_native bs).
Definition mnl_attr_get_str (buf : bytes) (attr : Z) : option bytes := cstr (drop (Z.to_nat (mnl_attr_get_payload attr)) buf).

(** The attributes between two offsets, given to a callback until it returns [MNL_CB_STOP] or less. *)
Section Parse.
Context {D : Type} (buf : bytes) (cb : bytes -> Z -> D -> option (Z * D)).
Fixpoint attr_loop (fuel : nat) (attr tail ret : Z) (data : D) : option (Z * D) :=
  match fuel with
  | O => None
  | S fuel =>
      ok ← mnl_attr_ok buf attr (tail - attr);
      if negb ok then Some (ret, data) else
      '(ret, data) ← cb buf attr data;
      if ret <=? MNL_CB_STOP then Some (ret, data) else
      next ← mnl_attr_next buf attr; attr_loop fuel next tail ret data
  end.
Definition attr_fuel : nat := S (length buf).
Definition mnl_attr_parse (nlh offset : Z) (data : D) : option (Z * D) :=
  tail ← mnl_nlmsg_get_payload_tail buf nlh; attr_loop attr_fuel (mnl_nlmsg_get_payload_offset nlh offset) tail MNL_CB_OK data.
Definition mnl_attr_parse_nested (nested : Z) (data : D) : option (Z * D) :=
  l ← mnl_attr_get_payload_len buf nested;
  attr_loop attr_fuel (mnl_attr_get_payload nested) (mnl_attr_get_payload nested + l) MNL_CB_OK data.
Definition mnl_attr_parse_payload (payload payload_len : Z) (data : D) : option (Z * D) :=
  attr_loop attr_fuel payload (payload + payload_len) MNL_CB_OK data.
End Parse.

(** ** attr.c: writing *)
Definition mnl_attr_put (buf : bytes) (nlh type : Z) (data : bytes) : option bytes :=
  let len := zlen data in
  attr ← mnl_nlmsg_get_payload_tail buf nlh;
  let payload_len := u16 (MNL_ATTR_HDRLEN + len) in
  buf ← st16 buf (attr + 2) type;
  buf ← st16 buf attr payload_len;
  buf ← sts buf (mnl_attr_get_payload attr) data;
  let pad := MNL_ALIGN len - len in
  buf ← (if 0 <? pad then sts buf (mnl_attr_get_payload attr + len) (replicate (Z.to_nat pad) 0) else Some buf);
  l ← nlmsg_len buf nlh; set_len buf nlh (u32 (l + MNL_ALIGN payload_len)).
Definition mnl_attr_put_u8 (buf : bytes) (nlh type data : Z) : option bytes := mnl_attr_put buf nlh type [u8 data].
Definition mnl_attr_put_u16 (buf : bytes) (nlh type data : Z) : option bytes := mnl_attr_put buf nlh type (enc16 data).
Definition mnl_attr_put_u32 (buf : bytes) (nlh type data : Z) : option bytes := mnl_attr_put buf nlh type (enc32 data).
Definition enc64 (v : Z) : bytes := native (le32 v ++ le32 (v .>> 32)).
Definition mnl_attr_put_u64 (buf : bytes) (nlh type data : Z) : option bytes := mnl_attr_put buf nlh type (enc64 data).
(** [data] is the text before its end. *)
Definition mnl_attr_put_str (buf : bytes) (nlh type : Z) (data : bytes) : option bytes := mnl_attr_put buf nlh type data.
Definition mnl_attr_put_strz (buf : bytes) (nlh type : Z) (data : bytes) : option bytes := mnl_attr_put buf nlh type (data ++ [0]).

Definition mnl_attr_put_check (buf : bytes) (nlh buflen type : Z) (data : bytes) : option (bool * bytes) :=
  l ← nlmsg_len buf nlh;
  if buflen <? l + MNL_ATTR_HDRLEN + MNL_ALIGN (zlen data) then Some (false, buf) else
  buf ← mnl_attr_put buf nlh type data; Some (true, buf).
Definition mnl_attr_put_u8_check (buf : bytes) (nlh buflen type data : Z) := mnl_attr_put_check buf nlh buflen type [u8 data].
Definition mnl_attr_put_u16_check (buf : bytes) (nlh buflen type data : Z) := mnl_attr_put_check buf nlh buflen type (enc16 data).
Definition mnl_attr_put_u32_check (buf : bytes) (nlh buflen type data : Z) := mnl_attr_put_check buf nlh buflen type (enc32 data).
Definition mnl_attr_put_u64_check (buf : bytes) (nlh buflen type data : Z) := mnl_attr_put_check buf nlh buflen type (enc64 data).
Definition mnl_attr_put_str_check (buf : bytes) (nlh buflen type : Z) (data : bytes) := mnl_attr_put_check buf nlh buflen type data.
Definition mnl_attr_put_strz_check (buf : bytes) (nlh buflen type : Z) (data : bytes) := mnl_attr_put_check buf nlh buflen type (data ++ [0]).

(** Result: the buffer and the nested attribute. *)
Definition mnl_attr_nest_start (buf : bytes) (nlh type : Z) : option (bytes * Z) :=
  start ← mnl_nlmsg_get_payload_tail buf nlh;
  buf ← st16 buf (start + 2) (NLA_F_NESTED .| type);
  l ← nlmsg_len buf nlh;
  buf ← set_len buf nlh (u32 (l + MNL_ATTR_HDRLEN)); Some (buf, start).
(** [None] inside: no room. *)
Definition mnl_attr_nest_start_check (buf : bytes) (nlh buflen type : Z) : option (option (bytes * Z)) :=
  l ← nlmsg_len buf nlh;
  if buflen <? l + MNL_ATTR_HDRLEN then Some None else r ← mnl_attr_nest_start buf nlh type; Some (Some r).
Definition mnl_attr_nest_end (buf : bytes) (nlh start : Z) : option bytes :=
  tail ← mnl_nlmsg_get_payload_tail buf nlh; st16 buf start (tail - start).
Definition mnl_attr_nest_cancel (buf : bytes) (nlh start : Z) : option bytes :=
  tail ← mnl_nlmsg_get_payload_tail buf nlh;
  l ← nlmsg_len buf nlh; set_len buf nlh (u32 (l - (tail - start))).

(** ** callback.c *)
(** A callback: what it returns, [errno], its data. *)
Definition mnl_cb (D : Type) : Type := bytes -> Z -> D -> option (Z * Z * D).
Section Callback.
Context {D : Type}.
Definition mnl_cb_noop : mnl_cb D := fun _ _ data => Some (MNL_CB_OK, 0, data).
Definition mnl_cb_error : mnl_cb D := fun buf nlh data =>
  l ← nlmsg_len buf nlh;
  if l <? mnl_nlmsg_size sizeof_nlmsgerr then Some (MNL_CB_ERROR, EBADMSG, data) else
  e ← ld32 buf (mnl_nlmsg_get_payload nlh);
  let error := s32 e in
  Some (if error =? 0 then MNL_CB_STOP else MNL_CB_ERROR, if error <? 0 then - error else error, data).
Definition mnl_cb_stop : mnl_cb D := fun _ _ data => Some (MNL_CB_STOP, 0, data).
Definition default_cb_array (type : Z) : option (mnl_cb D) :=
  if type =? NLMSG_NOOP then Some mnl_cb_noop else if type =? NLMSG_ERROR then Some mnl_cb_error else
  if type =? NLMSG_DONE then Some mnl_cb_stop else if type =? NLMSG_OVERRUN then Some mnl_cb_noop else None.

Context (buf : bytes) (seq portid : Z) (cb_data : option (mnl_cb D)) (cb_ctl_array : list (option (mnl_cb D))).
(** The callback for a message, if there is one. *)
Definition choose_cb (type : Z) : option (mnl_cb D) :=
  if NLMSG_MIN_TYPE <=? type then cb_data
  else if type <? zlen cb_ctl_array then default None (cb_ctl_array !! Z.to_nat type)
  else default_cb_array type.
Fixpoint cb_loop (fuel : nat) (nlh len ret errno : Z) (data : D) : option (Z * Z * D) :=
  match fuel with
  | O => None
  | S fuel =>
      ok ← mnl_nlmsg_ok buf nlh len; if negb ok then Some (ret, errno, data) else
      p ← mnl_nlmsg_portid_ok buf nlh portid; if negb p then Some (-1, ESRCH, data) else
      s ← mnl_nlmsg_seq_ok buf nlh seq; if negb s then Some (-1, EPROTO, data) else
      flags ← nlmsg_flags buf nlh; if negb (flags .& NLM_F_DUMP_INTR =? 0) then Some (-1, EINTR, data) else
      type ← nlmsg_type buf nlh;
      '(ret, errno, data) ← (match choose_cb type with None => Some (ret, errno, data) | Some cb => cb buf nlh data end);
      if ret <=? MNL_CB_STOP then Some (ret, errno, data) else
      '(nlh, len) ← mnl_nlmsg_next buf nlh len; cb_loop fuel nlh len ret errno data
  end.
Definition __mnl_cb_run (numbytes : Z) (data : D) : option (Z * Z * D) := cb_loop (S (length buf)) 0 (s32 numbytes) MNL_CB_OK 0 data.
End Callback.
Definition mnl_cb_run2 {D} (buf : bytes) (numbytes seq portid : Z) (cb_data : option (mnl_cb D)) (data : D)
  (cb_ctl_array : list (option (mnl_cb D))) : option (Z * Z * D) :=
  __mnl_cb_run buf seq portid cb_data cb_ctl_array numbytes data.
Definition mnl_cb_run {D} (buf : bytes) (numbytes seq portid : Z) (cb_data : option (mnl_cb D)) (data : D) : option (Z * Z * D) :=
  __mnl_cb_run buf seq portid cb_data [] numbytes data.

(** ** nlmsg.c: batches *)
(** The buffer of the messages, with the place [cur] of the next one. *)
Record mnl_nlmsg_batch := { b_buf : bytes; b_limit : Z; b_buflen : Z; b_cur : Z; b_overflow : bool }.
Definition mnl_nlmsg_batch_start (buf : bytes) (limit : Z) : mnl_nlmsg_batch :=
  {| b_buf := buf; b_limit := limit; b_buflen := 0; b_cur := 0; b_overflow := false |}.
Definition mnl_nlmsg_batch_next (b : mnl_nlmsg_batch) : option (bool * mnl_nlmsg_batch) :=
  l ← nlmsg_len (b_buf b) (b_cur b);
  if b_limit b <? b_buflen b + l then
    Some (false, {| b_buf := b_buf b; b_limit := b_limit b; b_buflen := b_buflen b; b_cur := b_cur b; b_overflow := true |})
  else Some (true, {| b_buf := b_buf b; b_limit := b_limit b; b_buflen := b_buflen b + l; b_cur := b_buflen b + l; b_overflow := b_overflow b |}).
Definition mnl_nlmsg_batch_reset (b : mnl_nlmsg_batch) : option mnl_nlmsg_batch :=
  if b_overflow b then
    l ← nlmsg_len (b_buf b) (b_cur b);
    m ← lds (b_buf b) (b_cur b) l;
    if l <=? b_cur b then
      buf ← sts (b_buf b) 0 m;
      Some {| b_buf := buf; b_limit := b_limit b; b_buflen := l; b_cur := l; b_overflow := false |}
    else None
  else Some {| b_buf := b_buf b; b_limit := b_limit b; b_buflen := 0; b_cur := 0; b_overflow := false |}.
Definition mnl_nlmsg_batch_size (b : mnl_nlmsg_batch) : Z := b_buflen b.
Definition mnl_nlmsg_batch_is_empty (b : mnl_nlmsg_batch) : bool := b_buflen b =? 0.
End Mnl.
