(* ===== verification/MnlSpec.v ===== *)
(** * libmnl: what is put is what is read (Mnl.v). *)
From S2P Require Import Prelude Util Mnl.
#[local] Open Scope Z_scope.
#[local] Open Scope c_scope.

Lemma align_div n : MNL_ALIGN n = 4 * ((n + 3) / 4).
Proof.
  unfold MNL_ALIGN. change (-4) with (Z.lnot (Z.ones 2)). rewrite <- Z.ldiff_land, Z.ldiff_ones_r by lia.
  rewrite Z.shiftl_mul_pow2, Z.shiftr_div_pow2 by lia. change (2 ^ 2) with 4. lia.
Qed.
Lemma align_le n : n <= MNL_ALIGN n <= n + 3.
Proof. rewrite align_div. zdm. Qed.
Lemma mnl_align_mod n : MNL_ALIGN n mod 4 = 0.
Proof. rewrite align_div. zdm. Qed.
Lemma align_id n : n mod 4 = 0 -> MNL_ALIGN n = n.
Proof. intros H. rewrite align_div. zdm. Qed.
Lemma align_add n m : n mod 4 = 0 -> MNL_ALIGN (n + m) = n + MNL_ALIGN m.
Proof. intros H. rewrite !align_div. zdm. Qed.

Lemma s32_le n : is_u32 n -> s32 n <= n.
Proof. intros H. unfold is_u32 in H. unfold s32. cbv zeta. rewrite Z.mod_small by done. destruct (n <? 2 ^ 31); lia. Qed.

Section Spec.
Context {host : Host}.

(** ** Messages as bytes *)
Record hdr := { h_type : Z; h_flags : Z; h_seq : Z; h_pid : Z }.
Definition hdr_ok (h : hdr) : Prop := is_u16 (h_type h) /\ is_u16 (h_flags h) /\ is_u32 (h_seq h) /\ is_u32 (h_pid h).
Definition rest_of (h : hdr) : bytes := enc16 (h_type h) ++ enc16 (h_flags h) ++ enc32 (h_seq h) ++ enc32 (h_pid h).
Definition header (l : Z) (h : hdr) : bytes := enc32 l ++ rest_of h.
Definition padding (n : Z) : bytes := replicate (Z.to_nat (MNL_ALIGN n - n)) 0.
Definition attr_bytes (a : Z * bytes) : bytes := enc16 (4 + zlen a.2) ++ enc16 a.1 ++ a.2 ++ padding (zlen a.2).
Definition attrs_bytes (l : list (Z * bytes)) : bytes := concat (map attr_bytes l).
(** The message, its extra header and its attributes. *)
Definition message (h : hdr) (ex : bytes) (l : list (Z * bytes)) : bytes :=
  header (16 + zlen ex + zlen (attrs_bytes l)) h ++ ex ++ attrs_bytes l.
Definition attr_ok (a : Z * bytes) : Prop := is_u16 a.1 /\ zlen a.2 <= 65531.
Definition need (v : bytes) : Z := 4 + MNL_ALIGN (zlen v).

Lemma zlen_rest_of h : zlen (rest_of h) = 12.
Proof. unfold rest_of. by rewrite !zlen_app, !zlen_enc16, !zlen_enc32. Qed.
Lemma zlen_header l h : zlen (header l h) = 16.
Proof. unfold header. by rewrite zlen_app, zlen_enc32, zlen_rest_of. Qed.
Lemma zlen_padding n : zlen (padding n) = MNL_ALIGN n - n.
Proof. unfold padding. rewrite zlen_replicate. pose proof (align_le n). lia. Qed.
Lemma zlen_attr a : zlen (attr_bytes a) = need a.2.
Proof. unfold attr_bytes, need. rewrite !zlen_app, !zlen_enc16, zlen_padding. lia. Qed.
Lemma attrs_snoc l a : attrs_bytes (l ++ [a]) = attrs_bytes l ++ attr_bytes a.
Proof. unfold attrs_bytes. rewrite map_app, concat_app. cbn. by rewrite app_nil_r. Qed.
Lemma need_mod v : need v mod 4 = 0.
Proof. unfold need. pose proof (mnl_align_mod (zlen v)). zdm. Qed.
Lemma need_pos v : 4 <= need v.
Proof. unfold need. pose proof (align_le (zlen v)). pose proof (zlen_nonneg v). lia. Qed.
Lemma attrs_mod l : zlen (attrs_bytes l) mod 4 = 0.
Proof.
  induction l as [|a l IH]; [done|]. cbn. rewrite zlen_app, zlen_attr. pose proof (need_mod a.2). fold (attrs_bytes l). zdm.
Qed.
Lemma zlen_message h ex l : zlen (message h ex l) = 16 + zlen ex + zlen (attrs_bytes l).
Proof. unfold message. rewrite !zlen_app, zlen_header. lia. Qed.
Lemma message_mod h ex l : zlen ex mod 4 = 0 -> zlen (message h ex l) mod 4 = 0.
Proof. intros H. rewrite zlen_message. pose proof (attrs_mod l). zdm. Qed.
Lemma message_len h ex l s : is_u32 (zlen (message h ex l)) -> nlmsg_len (message h ex l ++ s) 0 = Some (zlen (message h ex l)).
Proof.
  intros H. rewrite zlen_message in *. unfold message, header, nlmsg_len. rewrite <- !app_assoc. by apply (ld32_enc32 []).
Qed.
Lemma message_tail h ex l s : is_u32 (zlen (message h ex l)) -> zlen ex mod 4 = 0 ->
  mnl_nlmsg_get_payload_tail (message h ex l ++ s) 0 = Some (zlen (message h ex l)).
Proof.
  intros H He. unfold mnl_nlmsg_get_payload_tail. rewrite message_len by done. cbn [mbind option_bind].
  rewrite align_id by (by apply message_mod). by rewrite u32_id.
Qed.

(** ** Building *)
Lemma sts_app_0 (old bs s : bytes) : zlen old = zlen bs -> sts (old ++ s) 0 bs = Some (bs ++ s).
Proof. intros H. by apply (sts_app []). Qed.
Lemma split_at {A} (l : list A) n : 0 <= n <= zlen l -> exists a b, l = a ++ b /\ zlen a = n.
Proof.
  intros H. exists (take (Z.to_nat n) l), (drop (Z.to_nat n) l). split; [by rewrite take_drop|].
  unfold zlen in *. rewrite length_take. lia.
Qed.

Lemma put_header_is buf : 16 <= zlen buf ->
  exists rest, mnl_nlmsg_put_header buf = Some (message {| h_type := 0; h_flags := 0; h_seq := 0; h_pid := 0 |} [] [] ++ rest) /\
    zlen buf = 16 + zlen rest.
Proof.
  intros H. destruct (split_at buf 16) as (a & b & -> & Ha); [pose proof (zlen_nonneg buf); lia|]. exists b.
  split; [|rewrite zlen_app; lia]. unfold mnl_nlmsg_put_header, set_len, st32.
  rewrite sts_app_0 by (by rewrite Ha). cbn [mbind option_bind app].
  change (replicate (Z.to_nat MNL_NLMSG_HDRLEN) 0 ++ b) with (replicate 4 0 ++ (replicate 12 0 ++ b)).
  rewrite sts_app_0 by (by rewrite zlen_enc32). unfold message, header, rest_of.
  cbn [h_type h_flags h_seq h_pid].
  assert (enc16 0 = [0; 0]) as -> by (unfold enc16, native; by destruct is_bigendian).
  assert (enc32 0 = [0; 0; 0; 0]) as -> by (unfold enc32, native; by destruct is_bigendian). rewrite <- !app_assoc. done.
Qed.

Lemma put_extra_header_is h l rest size : l = [] -> 0 <= size -> MNL_ALIGN size <= zlen rest -> 16 + zlen rest < 2 ^ 32 ->
  exists rest', mnl_nlmsg_put_extra_header (message h [] l ++ rest) 0 size =
      Some (message h (replicate (Z.to_nat (MNL_ALIGN size)) 0) [] ++ rest', 16) /\ zlen rest = MNL_ALIGN size + zlen rest'.
Proof.
  intros -> Hs Hr Hb. pose proof (align_le size). destruct (split_at rest (MNL_ALIGN size)) as (a & b & -> & Ha); [lia|]. exists b.
  split; [|rewrite zlen_app; lia]. pose proof (zlen_nonneg b). rewrite zlen_app in Hb. unfold mnl_nlmsg_put_extra_header.
  rewrite message_len by (split; [apply zlen_nonneg | rewrite zlen_message; done]). cbn [mbind option_bind]. rewrite zlen_message.
  change (16 + zlen [] + zlen (attrs_bytes [])) with 16. rewrite u32_id by (unfold is_u32; lia).
  unfold set_len, st32, message, header. cbn [attrs_bytes map concat]. rewrite !app_nil_r, <- !app_assoc.
  rewrite sts_app_0 by (by rewrite !zlen_enc32). cbn [mbind option_bind].
  rewrite (app_assoc (enc32 _) (rest_of h)).
  rewrite (sts_app (enc32 _ ++ rest_of h) a) by (rewrite ?zlen_app, ?zlen_enc32, ?zlen_rest_of, ?zlen_replicate; lia).
  cbn [mbind option_bind]. rewrite zlen_replicate, Z2Nat.id by lia. change (zlen []) with 0.
  rewrite Z.add_0_r, <- !app_assoc. done.
Qed.

Lemma attr_put_is h ex l rest t v :
  attr_ok (t, v) -> zlen ex mod 4 = 0 -> zlen (message h ex l) + zlen rest < 2 ^ 32 -> need v <= zlen rest ->
  exists rest', mnl_attr_put (message h ex l ++ rest) 0 t v = Some (message h ex (l ++ [(t, v)]) ++ rest') /\
    zlen rest = need v + zlen rest'.
Proof.
  intros [Ht Hv] He Hb Hn. cbn in Ht, Hv. pose proof (align_le (zlen v)). pose proof (zlen_nonneg v). unfold need in *.
  destruct (split_at rest 2) as (a & r1 & -> & Ha); [lia|]. rewrite zlen_app in Hb, Hn.
  destruct (split_at r1 2) as (b & r2 & -> & Hbl); [lia|]. rewrite zlen_app in Hb, Hn.
  destruct (split_at r2 (zlen v)) as (c & r3 & -> & Hc); [lia|]. rewrite zlen_app in Hb, Hn.
  destruct (split_at r3 (MNL_ALIGN (zlen v) - zlen v)) as (d & r4 & -> & Hd); [lia|]. rewrite zlen_app in Hb, Hn.
  exists r4. split; [|rewrite !zlen_app; lia]. set (m := message h ex l) in *.
  pose proof (zlen_nonneg m). pose proof (zlen_nonneg r4). assert (is_u32 (zlen m)) as Hm by (split; lia).
  assert (forall s, mnl_nlmsg_get_payload_tail (m ++ s) 0 = Some (zlen m)) as Htail by (intros s; by apply message_tail).
  assert (forall s, nlmsg_len (m ++ s) 0 = Some (zlen m)) as Hlen by (intros s; by apply message_len).
  unfold mnl_attr_put. rewrite Htail. cbn [mbind option_bind].
  change (MNL_ATTR_HDRLEN + zlen v) with (4 + zlen v). rewrite u16_id by (split; lia). unfold st16, mnl_attr_get_payload, MNL_ATTR_HDRLEN.
  rewrite (app_assoc m a), (sts_app (m ++ a) b) by (rewrite ?zlen_app, ?zlen_enc16; lia). cbn [mbind option_bind]. rewrite <- (app_assoc m a).
  rewrite (sts_app m a) by (rewrite ?zlen_enc16; lia). cbn [mbind option_bind].
  rewrite (app_assoc m), (app_assoc _ (enc16 t)).
  rewrite (sts_app ((m ++ enc16 (4 + zlen v)) ++ enc16 t) c v) by (rewrite ?zlen_app, ?zlen_enc16; lia). cbn [mbind option_bind].
  assert ((if 0 <? MNL_ALIGN (zlen v) - zlen v
    then sts (((m ++ enc16 (4 + zlen v)) ++ enc16 t) ++ v ++ d ++ r4) (zlen m + 4 + zlen v)
      (replicate (Z.to_nat (MNL_ALIGN (zlen v) - zlen v)) 0) else Some (((m ++ enc16 (4 + zlen v)) ++ enc16 t) ++ v ++ d ++ r4)) =
    Some (m ++ attr_bytes (t, v) ++ r4)) as ->.
  { unfold attr_bytes. cbn [fst snd]. destruct (Z.ltb_spec 0 (MNL_ALIGN (zlen v) - zlen v)).
    - rewrite (app_assoc _ v). rewrite (sts_app (((m ++ enc16 (4 + zlen v)) ++ enc16 t) ++ v) d)
        by (rewrite ?zlen_app, ?zlen_enc16, ?zlen_replicate; lia). by rewrite <- !app_assoc.
    - destruct d; [|rewrite zlen_cons in Hd; pose proof (zlen_nonneg d); lia]. unfold padding.
      replace (Z.to_nat (MNL_ALIGN (zlen v) - zlen v)) with 0%nat by lia.
      cbn [replicate]. by rewrite <- !app_assoc. }
  cbn [mbind option_bind]. rewrite Hlen. cbn [mbind option_bind].
  rewrite align_add by done. rewrite u32_id by (unfold is_u32; lia).
  assert (m = message h ex l) as Em by done. rewrite Em at 1. unfold message. unfold set_len, st32, header. rewrite <- !app_assoc.
  rewrite sts_app_0 by (by rewrite !zlen_enc32).
  unfold m. rewrite zlen_message, attrs_snoc, zlen_app, zlen_attr. cbn [snd]. unfold need. rewrite <- !app_assoc.
  do 3 f_equal. lia.
Qed.

(** ** Reading *)
Lemma read_attr p a s : attr_ok a ->
  let buf := p ++ attr_bytes a ++ s in
  nla_len buf (zlen p) = Some (4 + zlen a.2) /\ nla_type buf (zlen p) = Some a.1 /\
  mnl_attr_get_payload_len buf (zlen p) = Some (zlen a.2) /\ mnl_attr_get_type buf (zlen p) = Some (a.1 .& NLA_TYPE_MASK) /\
  lds buf (mnl_attr_get_payload (zlen p)) (zlen a.2) = Some a.2 /\ mnl_attr_next buf (zlen p) = Some (zlen p + need a.2).
Proof.
  destruct a as [t v]. intros [Ht Hv] buf. cbn [fst snd] in *. pose proof (zlen_nonneg v).
  assert (is_u16 (4 + zlen v)) as Hl by (split; lia). unfold buf, attr_bytes. cbn [fst snd]. rewrite <- !app_assoc.
  assert (nla_len (p ++ enc16 (4 + zlen v) ++ enc16 t ++ v ++ padding (zlen v) ++ s) (zlen p) = Some (4 + zlen v)) as Elen
    by (by apply ld16_enc16).
  assert (nla_type (p ++ enc16 (4 + zlen v) ++ enc16 t ++ v ++ padding (zlen v) ++ s) (zlen p) = Some t) as Etype.
  { unfold nla_type. rewrite (app_assoc p). apply ld16_enc16; [done|]. by rewrite zlen_app, zlen_enc16. }
  unfold mnl_attr_get_payload_len, mnl_attr_get_type, mnl_attr_next. rewrite Elen, Etype. cbn [mbind option_bind].
  split_and!; try done.
  - unfold MNL_ATTR_HDRLEN. replace (4 + zlen v - 4) with (zlen v) by lia. rewrite u16_id; [done | split; lia].
  - unfold mnl_attr_get_payload, MNL_ATTR_HDRLEN. rewrite (app_assoc p), (app_assoc _ (enc16 t)).
    apply lds_app; rewrite ?zlen_app, ?zlen_enc16; lia.
  - unfold need. by rewrite align_add.
Qed.

(** The attributes at an offset, one by one. *)
Section Visit.
Context {D : Type} (buf : bytes) (cb : bytes -> Z -> D -> option (Z * D)).
Fixpoint visit (l : list (Z * bytes)) (off ret : Z) (data : D) : option (Z * D) :=
  match l with
  | [] => Some (ret, data)
  | a :: l => '(ret, data) ← cb buf off data; if ret <=? MNL_CB_STOP then Some (ret, data) else visit l (off + need a.2) ret data
  end.
Lemma attr_loop_visit l p s ret data fuel :
  buf = p ++ attrs_bytes l ++ s -> Forall attr_ok l -> (length l < fuel)%nat ->
  attr_loop buf cb fuel (zlen p) (zlen p + zlen (attrs_bytes l)) ret data = visit l (zlen p) ret data.
Proof.
  intros E F. revert p E ret data fuel. induction F as [|a l Ha F IH]; intros p E ret data fuel Hf; (destruct fuel as [|fuel]; [cbn in Hf; lia|]).
  - cbn [attr_loop attrs_bytes map concat visit]. unfold mnl_attr_ok. rewrite (proj2 (Z.ltb_lt _ MNL_ATTR_HDRLEN)) by (change (zlen []) with 0; unfold MNL_ATTR_HDRLEN; lia).
    done.
  - cbn [attrs_bytes map concat] in E |- *. fold (attrs_bytes l) in E |- *. rewrite <- app_assoc in E.
    destruct (read_attr p a (attrs_bytes l ++ s) Ha) as (El & _ & _ & _ & _ & En). rewrite <- E in El, En.
    pose proof (need_pos a.2). pose proof (zlen_nonneg (attrs_bytes l)). pose proof (zlen_nonneg a.2). pose proof (align_le (zlen a.2)).
    cbn [attr_loop visit]. unfold mnl_attr_ok. rewrite zlen_app, zlen_attr.
    rewrite (proj2 (Z.ltb_ge _ MNL_ATTR_HDRLEN)) by (unfold MNL_ATTR_HDRLEN; lia). rewrite El. cbn [mbind option_bind].
    rewrite (proj2 (Z.leb_le MNL_ATTR_HDRLEN _)) by (unfold MNL_ATTR_HDRLEN; lia).
    rewrite (proj2 (Z.leb_le (4 + zlen a.2) _)) by (unfold need; lia). cbn [andb negb].
    destruct (cb buf (zlen p) data) as [[ret' data']|]; [|done]. cbn [mbind option_bind].
    destruct (ret' <=? MNL_CB_STOP); [done|]. rewrite En. cbn [mbind option_bind].
    specialize (IH (p ++ attr_bytes a)). rewrite zlen_app, zlen_attr in IH. rewrite <- (IH ltac:(by rewrite <- app_assoc) _ _ fuel) by (cbn in Hf; lia).
    f_equal. lia.
Qed.
End Visit.
Lemma attrs_length l : (length l <= length (attrs_bytes l))%nat.
Proof.
  induction l as [|a l IH]; [done|]. cbn. rewrite length_app. fold (attrs_bytes l). pose proof (zlen_attr a). pose proof (need_pos a.2).
  unfold zlen in *. lia.
Qed.
Lemma parse_visit {D} (cb : bytes -> Z -> D -> option (Z * D)) h ex l s offset data :
  let m := message h ex l in
  Forall attr_ok l -> MNL_ALIGN offset = zlen ex -> zlen ex mod 4 = 0 -> is_u32 (zlen m) ->
  mnl_attr_parse (m ++ s) cb 0 offset data = visit (m ++ s) cb l (16 + zlen ex) MNL_CB_OK data.
Proof.
  intros m F Ho He Hm. unfold mnl_attr_parse. assert (mnl_nlmsg_get_payload_tail (m ++ s) 0 = Some (zlen m)) as -> by (by apply message_tail).
  cbn [mbind option_bind].
  unfold mnl_nlmsg_get_payload_offset, MNL_NLMSG_HDRLEN. rewrite Ho, Z.add_0_l. assert (zlen m = 16 + zlen ex + zlen (attrs_bytes l)) as -> by apply zlen_message.
  set (p := header (16 + zlen ex + zlen (attrs_bytes l)) h ++ ex).
  assert (16 + zlen ex = zlen p) as -> by (unfold p; by rewrite zlen_app, zlen_header).
  apply (attr_loop_visit _ _ _ _ s); [unfold m, message, p; by rewrite <- !app_assoc | done|].
  unfold attr_fuel, m, message. rewrite !length_app. pose proof (attrs_length l). lia.
Qed.

(** A reader that keeps everything: the type without its flags, and the value. *)
Definition collect (buf : bytes) (attr : Z) (data : list (Z * bytes)) : option (Z * list (Z * bytes)) :=
  t ← mnl_attr_get_type buf attr; l ← mnl_attr_get_payload_len buf attr; v ← lds buf (mnl_attr_get_payload attr) l;
  Some (MNL_CB_OK, data ++ [(t, v)]).
Definition seen (a : Z * bytes) : Z * bytes := (a.1 .& NLA_TYPE_MASK, a.2).
Lemma visit_collect l p s data : Forall attr_ok l ->
  visit (p ++ attrs_bytes l ++ s) collect l (zlen p) MNL_CB_OK data = Some (MNL_CB_OK, data ++ map seen l).
Proof.
  intros F. revert p data. induction F as [|a l Ha F IH]; intros p data; [cbn; by rewrite app_nil_r|].
  cbn [attrs_bytes map concat visit]. fold (attrs_bytes l). rewrite <- app_assoc.
  destruct (read_attr p a (attrs_bytes l ++ s) Ha) as (_ & _ & Epl & Et & Ev & _). 
  assert (collect (p ++ attr_bytes a ++ attrs_bytes l ++ s) (zlen p) data = Some (MNL_CB_OK, data ++ [seen a])) as ->.
  { unfold collect. rewrite Et, Epl. cbn [mbind option_bind]. by rewrite Ev. }
  cbn [mbind option_bind]. specialize (IH (p ++ attr_bytes a)). rewrite zlen_app, zlen_attr, <- app_assoc in IH.
  change (MNL_CB_OK <=? MNL_CB_STOP) with false. cbn [negb]. rewrite IH. by rewrite <- app_assoc.
Qed.

(** ** The checked putters *)
(** The kinds of attribute a caller puts. *)
Inductive put := PutU8 (t v : Z) | PutU16 (t v : Z) | PutU32 (t v : Z) | PutU64 (t v : Z) | PutStr (t : Z) (s : bytes) | PutStrz (t : Z) (s : bytes).
Definition put_attr (p : put) : Z * bytes :=
  match p with
  | PutU8 t v => (t, [u8 v]) | PutU16 t v => (t, enc16 v) | PutU32 t v => (t, enc32 v) | PutU64 t v => (t, enc64 v)
  | PutStr t s => (t, s) | PutStrz t s => (t, s ++ [0])
  end.
Definition put_check (buf : bytes) (buflen : Z) (p : put) : option (bool * bytes) :=
  match p with
  | PutU8 t v => mnl_attr_put_u8_check buf 0 buflen t v | PutU16 t v => mnl_attr_put_u16_check buf 0 buflen t v
  | PutU32 t v => mnl_attr_put_u32_check buf 0 buflen t v | PutU64 t v => mnl_attr_put_u64_check buf 0 buflen t v
  | PutStr t s => mnl_attr_put_str_check buf 0 buflen t s | PutStrz t s => mnl_attr_put_strz_check buf 0 buflen t s
  end.
Fixpoint put_all (buf : bytes) (buflen : Z) (ps : list put) : option (list bool * bytes) :=
  match ps with
  | [] => Some ([], buf)
  | p :: ps => '(b, buf) ← put_check buf buflen p; '(bs, buf) ← put_all buf buflen ps; Some (b :: bs, buf)
  end.
(** Which are taken: each that still has room. *)
Fixpoint taken (used buflen : Z) (ps : list put) : list bool :=
  match ps with
  | [] => []
  | p :: ps => let n := need (put_attr p).2 in if buflen <? used + n then false :: taken used buflen ps else true :: taken (used + n) buflen ps
  end.
Fixpoint those {A} (bs : list bool) (l : list A) : list A :=
  match bs, l with b :: bs, x :: l => if b then x :: those bs l else those bs l | _, _ => [] end.

Lemma put_check_eq buf buflen p : put_check buf buflen p = mnl_attr_put_check buf 0 buflen (put_attr p).1 (put_attr p).2.
Proof. by destruct p. Qed.
Lemma put_all_is ps buflen : Forall (fun p => attr_ok (put_attr p)) ps -> buflen < 2 ^ 32 ->
  forall h ex l rest, zlen ex mod 4 = 0 -> buflen = zlen (message h ex l) + zlen rest ->
  exists rest', put_all (message h ex l ++ rest) buflen ps =
      Some (taken (zlen (message h ex l)) buflen ps,
            message h ex (l ++ those (taken (zlen (message h ex l)) buflen ps) (map put_attr ps)) ++ rest') /\
    buflen = zlen (message h ex (l ++ those (taken (zlen (message h ex l)) buflen ps) (map put_attr ps))) + zlen rest'.
Proof.
  intros F Hb. induction F as [|p ps Hp F IH]; intros h ex l rest He Hl; [exists rest; by rewrite app_nil_r|].
  cbn [put_all taken map]. rewrite put_check_eq. unfold mnl_attr_put_check. pose proof (zlen_nonneg rest).
  assert (is_u32 (zlen (message h ex l))) as Hm by (split; [apply zlen_nonneg | lia]).
  rewrite message_len by done. cbn [mbind option_bind]. replace (_ + MNL_ATTR_HDRLEN + _) with (zlen (message h ex l) + need (put_attr p).2)
    by (unfold need, MNL_ATTR_HDRLEN; lia).
  destruct (Z.ltb_spec buflen (zlen (message h ex l) + need (put_attr p).2)).
  - cbn [mbind option_bind]. destruct (IH h ex l rest He Hl) as (rest' & -> & Hr). exists rest'. cbn [mbind option_bind]. done.
  - destruct (put_attr p) as [t v] eqn:Ep. cbn [fst snd] in *.
    destruct (attr_put_is h ex l rest t v Hp He) as (r1 & -> & Hr1); [lia | lia|]. cbn [mbind option_bind].
    assert (zlen (message h ex (l ++ [(t, v)])) = zlen (message h ex l) + need v) as Hz.
    { rewrite !zlen_message, attrs_snoc, zlen_app, zlen_attr. cbn [snd]. lia. }
    destruct (IH h ex (l ++ [(t, v)]) r1 He) as (rest' & E & Hr); [lia|]. rewrite Hz in E, Hr. rewrite E. cbn [mbind option_bind those].
    exists rest'. rewrite <- app_assoc in Hr |- *. done.
Qed.
End Spec.

(** C33: Whatever is put with the checked putters, the message stays well formed and inside its buffer: an attribute is taken exactly when there is
    room for it, one that is refused changes nothing, the buffer keeps its size, and a parser reads back the attributes that were taken, in
    their order, with their values and their types (without the two flag bits). *)
Theorem checked_puts_well_formed {host : Host} buf size ps :
  Forall (fun p => attr_ok (put_attr p)) ps -> 0 <= size -> 16 + MNL_ALIGN size <= zlen buf < 2 ^ 32 ->
  exists m0 m0' m rest, mnl_nlmsg_put_header buf = Some m0 /\ mnl_nlmsg_put_extra_header m0 0 size = Some (m0', 16) /\
    put_all m0' (zlen buf) ps = Some (taken (16 + MNL_ALIGN size) (zlen buf) ps, m ++ rest) /\
    zlen (m ++ rest) = zlen buf /\ nlmsg_len (m ++ rest) 0 = Some (zlen m) /\ zlen m mod 4 = 0 /\
    mnl_nlmsg_ok (m ++ rest) 0 (zlen m) = Some true /\
    mnl_attr_parse (m ++ rest) collect 0 size [] =
      Some (MNL_CB_OK, map seen (those (taken (16 + MNL_ALIGN size) (zlen buf) ps) (map put_attr ps))).
Proof.
  intros F Hs Hb. pose proof (align_le size). destruct (put_header_is buf) as (r0 & E0 & H0); [lia|].
  set (h := {| h_type := 0; h_flags := 0; h_seq := 0; h_pid := 0 |}) in *.
  destruct (put_extra_header_is h [] r0 size eq_refl Hs) as (r1 & E1 & H1); [lia | lia|].
  set (ex := replicate (Z.to_nat (MNL_ALIGN size)) 0) in *.
  assert (zlen ex = MNL_ALIGN size) as Hex by (unfold ex; rewrite zlen_replicate; lia).
  assert (zlen ex mod 4 = 0) as He by (rewrite Hex; apply mnl_align_mod).
  destruct (put_all_is ps (zlen buf) F ltac:(lia) h ex [] r1 He) as (rest & E2 & H2).
  { rewrite zlen_message, Hex. change (zlen (attrs_bytes [])) with 0. lia. }
  assert (zlen (message h ex []) = 16 + MNL_ALIGN size) as Hz by (rewrite zlen_message, Hex; change (zlen (attrs_bytes [])) with 0; lia).
  rewrite Hz in E2, H2. cbn [app] in E2, H2.
  set (l := those _ _) in *. exists (message h [] [] ++ r0), (message h ex [] ++ r1), (message h ex l), rest. split; [exact E0|]. split; [exact E1|]. split; [exact E2|].
  pose proof (zlen_nonneg rest). assert (zlen (message h ex l) = 16 + MNL_ALIGN size + zlen (attrs_bytes l)) as Hm by (by rewrite zlen_message, Hex).
  pose proof (zlen_nonneg (attrs_bytes l)). assert (is_u32 (zlen (message h ex l))) as Hu by (split; lia).
  split; [rewrite zlen_app; lia|]. split; [by apply message_len|]. split; [by apply message_mod|]. split.
  { unfold mnl_nlmsg_ok. rewrite (proj2 (Z.ltb_ge _ MNL_NLMSG_HDRLEN)) by (unfold MNL_NLMSG_HDRLEN; lia).
    rewrite message_len by done. cbn [mbind option_bind]. rewrite (proj2 (Z.leb_le MNL_NLMSG_HDRLEN _)) by (unfold MNL_NLMSG_HDRLEN; lia).
    rewrite (proj2 (Z.leb_le _ _)) by (by apply s32_le). done. }
  assert (Forall attr_ok l) as Fl.
  { unfold l. generalize (taken (16 + MNL_ALIGN size) (zlen buf) ps). intros bs. clear -F. revert bs.
    induction F as [|p ps Hp F IH]; intros [|[] bs]; cbn; auto. }
  rewrite (parse_visit collect h ex l rest size []) by (done || lia).
  replace (16 + zlen ex) with (zlen (header (16 + zlen ex + zlen (attrs_bytes l)) h ++ ex)) by (by rewrite zlen_app, zlen_header).
  unfold message. rewrite app_assoc, <- (app_assoc _ (attrs_bytes l)). by rewrite visit_collect.
Qed.

(** ** Answers *)
Section Answers.
Context {host : Host}.

(** A message with any body. *)
Definition packet (h : hdr) (body : bytes) : bytes := header (16 + zlen body) h ++ body.
Lemma zlen_packet h body : zlen (packet h body) = 16 + zlen body.
Proof. unfold packet. by rewrite zlen_app, zlen_header. Qed.
Lemma message_packet h ex l : message h ex l = packet h (ex ++ attrs_bytes l).
Proof. unfold message, packet. rewrite zlen_app. by rewrite Z.add_assoc. Qed.

Lemma read_header p h body s : hdr_ok h -> is_u32 (16 + zlen body) ->
  let buf := p ++ packet h body ++ s in
  nlmsg_len buf (zlen p) = Some (16 + zlen body) /\ nlmsg_type buf (zlen p) = Some (h_type h) /\ nlmsg_flags buf (zlen p) = Some (h_flags h) /\
  nlmsg_seq buf (zlen p) = Some (h_seq h) /\ nlmsg_pid buf (zlen p) = Some (h_pid h).
Proof.
  intros (Ht & Hf & Hs & Hp) Hl buf. unfold buf, packet, header, rest_of. rewrite <- !app_assoc. set (e := enc32 (16 + zlen body)).
  assert (zlen e = 4) as He by apply zlen_enc32. unfold nlmsg_len, nlmsg_type, nlmsg_flags, nlmsg_seq, nlmsg_pid. split_and!.
  - by apply ld32_enc32.
  - rewrite (app_assoc p). apply ld16_enc16; [done|]. by rewrite zlen_app, He.
  - rewrite (app_assoc p), (app_assoc _ (enc16 _)). apply ld16_enc16; [done|]. rewrite !zlen_app, He, zlen_enc16. lia.
  - rewrite (app_assoc p), (app_assoc _ (enc16 _)), (app_assoc _ (enc16 _)). apply ld32_enc32; [done|].
    rewrite !zlen_app, He, !zlen_enc16. lia.
  - rewrite (app_assoc p), (app_assoc _ (enc16 _)), (app_assoc _ (enc16 _)), (app_assoc _ (enc32 _)). apply ld32_enc32; [done|].
    rewrite !zlen_app, He, !zlen_enc16, zlen_enc32. lia.
Qed.

(** A message that the tracking lets through. *)
Definition tracked (h : hdr) (seq portid : Z) : Prop :=
  hdr_ok h /\ (h_pid h = 0 \/ portid = 0 \/ h_pid h = portid) /\ (h_seq h = 0 \/ seq = 0 \/ h_seq h = seq) /\ h_flags h .& NLM_F_DUMP_INTR = 0.

Lemma same_or_zero a b : a = 0 \/ b = 0 \/ a = b -> (if negb (a =? 0) && negb (b =? 0) then a =? b else true) = true.
Proof. intros H. destruct (Z.eqb_spec a 0), (Z.eqb_spec b 0); cbn; try done. apply Z.eqb_eq. lia. Qed.

Lemma cb_step {D} (cb : option (mnl_cb D)) seq portid p h body s len ret errno data fuel :
  tracked h seq portid -> zlen body mod 4 = 0 -> 16 + zlen body <= len < 2 ^ 31 ->
  let buf := p ++ packet h body ++ s in
  cb_loop buf seq portid cb [] (S fuel) (zlen p) len ret errno data =
    ('(ret, errno, data) ← (match choose_cb cb [] (h_type h) with None => Some (ret, errno, data) | Some cb => cb buf (zlen p) data end);
     if ret <=? MNL_CB_STOP then Some (ret, errno, data) else
     cb_loop buf seq portid cb [] fuel (zlen p + (16 + zlen body)) (len - (16 + zlen body)) ret errno data).
Proof.
  intros (Hh & Hp & Hs & Hf) Hm Hl buf. change (2 ^ 31) with 2147483648 in Hl. pose proof (zlen_nonneg body).
  assert (is_u32 (16 + zlen body)) as Hu by (unfold is_u32; change (2 ^ 32) with 4294967296; lia).
  destruct (read_header p h body s Hh Hu) as (El & Et & Ef & Es & Ep). fold buf in El, Et, Ef, Es, Ep.
  cbn [cb_loop]. unfold mnl_nlmsg_ok. rewrite (proj2 (Z.ltb_ge len MNL_NLMSG_HDRLEN)) by (unfold MNL_NLMSG_HDRLEN; lia). rewrite El.
  cbn [mbind option_bind]. rewrite (proj2 (Z.leb_le MNL_NLMSG_HDRLEN _)) by (unfold MNL_NLMSG_HDRLEN; lia).
  rewrite (proj2 (Z.leb_le (s32 _) _)) by (pose proof (s32_le _ Hu); lia). cbn [andb negb].
  unfold mnl_nlmsg_portid_ok, mnl_nlmsg_seq_ok. rewrite Ep, Es. cbn [mbind option_bind]. rewrite !same_or_zero by (done || tauto).
  cbn [negb mbind option_bind]. rewrite Ef. cbn [mbind option_bind]. rewrite Hf. cbn [Z.eqb negb]. rewrite Et. cbn [mbind option_bind].
  destruct (match choose_cb cb [] (h_type h) with None => _ | Some cb => _ end) as [[[r e] d]|]; [|done]. cbn [mbind option_bind].
  destruct (r <=? MNL_CB_STOP); [done|]. unfold mnl_nlmsg_next. rewrite El. cbn [mbind option_bind].
  rewrite align_id by zdm. rewrite u32_id by done. f_equal. unfold s32. cbv zeta. rewrite Z.mod_small by lia.
  by rewrite (proj2 (Z.ltb_lt _ _)) by lia.
Qed.

(** The answer to a request: its number, an error (0: none) and the request. *)
Definition ack (h : hdr) (e : Z) (request : bytes) : bytes := packet h (enc32 (u32 e) ++ request).
Lemma s32_u32 e : - 2 ^ 31 <= e < 2 ^ 31 -> s32 (u32 e) = e.
Proof. unfold s32, u32. change (2 ^ 31) with 2147483648. change (2 ^ 32) with 4294967296. cbv zeta. intros H. destruct (_ <? _) eqn:E; [apply Z.ltb_lt in E | apply Z.ltb_ge in E]; zdm. Qed.
Lemma cb_run_ack {D} (cb : option (mnl_cb D)) h e request s seq portid data :
  tracked h seq portid -> h_type h = NLMSG_ERROR -> - 2 ^ 31 <= e < 2 ^ 31 ->
  zlen request mod 4 = 0 -> 16 <= zlen request -> 20 + zlen request < 2 ^ 31 ->
  mnl_cb_run (ack h e request ++ s) (20 + zlen request) seq portid cb data = Some (if e =? 0 then 0 else -1, Z.abs e, data).
Proof.
  intros Ht Hy He Hm Hr Hl. unfold mnl_cb_run, __mnl_cb_run, ack.
  assert (s32 (20 + zlen request) = 20 + zlen request) as -> by (rewrite <- (u32_id (20 + zlen request)) at 1; [apply s32_u32|]; unfold is_u32; lia).
  assert (zlen (enc32 (u32 e) ++ request) = 4 + zlen request) as Hz by (by rewrite zlen_app, zlen_enc32).
  pose proof (cb_step cb seq portid [] h (enc32 (u32 e) ++ request) s (20 + zlen request) MNL_CB_OK 0 data
    (length (packet h (enc32 (u32 e) ++ request) ++ s)) Ht) as E. change (zlen []) with 0 in E. cbn [app] in E. rewrite Hz in E.
  rewrite E by (zdm || lia). clear E. rewrite Hy. cbn [choose_cb].
  assert (mnl_cb_error (packet h (enc32 (u32 e) ++ request) ++ s) 0 data = Some (if e =? 0 then 0 else -1, Z.abs e, data)) as Eb.
  { unfold mnl_cb_error. destruct (read_header [] h (enc32 (u32 e) ++ request) s (proj1 Ht)) as (El & _); [unfold is_u32; rewrite Hz; lia|].
    cbn [app] in El. change (zlen []) with 0 in El. rewrite El, Hz. cbn [mbind option_bind].
    rewrite (proj2 (Z.ltb_ge _ _)) by (unfold mnl_nlmsg_size, sizeof_nlmsgerr, MNL_NLMSG_HDRLEN; lia).
    unfold packet. rewrite <- !app_assoc. rewrite ld32_enc32 by (apply u32_range || by rewrite zlen_header). cbn [mbind option_bind].
    rewrite s32_u32 by done. do 3 f_equal. destruct (Z.ltb_spec e 0); lia. }
  change (choose_cb cb [] NLMSG_ERROR) with (Some (@mnl_cb_error host D)). cbv iota. rewrite Eb. cbn [mbind option_bind].
  destruct (e =? 0); done.
Qed.
End Answers.

Theorem checked_puts_well_formed_witness :
  exists m0 m0' m rest, mnl_nlmsg_put_header (replicate 40 7) = Some m0 /\ mnl_nlmsg_put_extra_header m0 0 16 = Some (m0', 16) /\
    put_all m0' 40 [PutStr 3 (str "wwan0"); PutU32 4 1500] = Some ([false; true], m ++ rest) /\
    mnl_attr_parse (m ++ rest) collect 0 16 [] = Some (MNL_CB_OK, [(4, [220; 5; 0; 0])]).
Proof.
  destruct (checked_puts_well_formed (replicate 40 7) 16 [PutStr 3 (str "wwan0"); PutU32 4 1500]) as (m0 & m0' & m & rest & E0 & E1 & E2 & _ & _ & _ & _ & E3).
  - repeat constructor; discriminate.
  - discriminate.
  - split; [discriminate | reflexivity].
  - exists m0, m0', m, rest. split; [exact E0|]. split; [exact E1|]. split; [exact E2 | exact E3].
Defined.
