(* ===== verification/MnlPrint.v ===== *)
(** * libmnl: the printout of messages ([mnl_nlmsg_fprintf] of nlmsg.c).
    The result is the text; [None] is a printout that reads behind the buffer.  [isprint] is that of the C locale. *)
From S2P Require Import Prelude Util Text Mnl MnlSpec.
From Stdlib Require Import Ascii.
#[local] Open Scope Z_scope.
#[local] Open Scope c_scope.

Definition NLM_F_REQUEST : Z := 1.
Definition NLM_F_MULTI : Z := 2.
Definition NLM_F_ACK : Z := 4.
Definition NLM_F_ECHO : Z := 8.
Definition NLA_F_NET_BYTEORDER : Z := 0x4000.

Section MnlPrint.
Context {host : Host}.

(** [%.5u] and [%.010u]: at least so many digits. *)
Definition digits (n : nat) (v : Z) : bytes := let s := dec v in replicate (n - length s) 48 ++ s.
(** A letter for a bit that is set. *)
Definition letter (c : ascii) (flags bit : Z) : Z := if flags .& bit =? 0 then 45 else chr c.
Definition printed (c : Z) : Z := if (32 <=? c) && (c <=? 126) then c else 32.
Definition ruler : bytes := str "----------------" ++ [9] ++ str "------------------" ++ [10].

Definition show_header (len type flags seq pid : Z) : bytes :=
  ruler ++ str "|  " ++ digits 10 len ++ str "  |" ++ [9] ++ str "| message length |" ++ [10] ++
  str "| " ++ digits 5 type ++ str " | " ++
  [letter "R" flags NLM_F_REQUEST; letter "M" flags NLM_F_MULTI; letter "A" flags NLM_F_ACK; letter "E" flags NLM_F_ECHO] ++
  str " |" ++ [9] ++ str "|  type | flags  |" ++ [10] ++
  str "|  " ++ digits 10 seq ++ str "  |" ++ [9] ++ str "| sequence number|" ++ [10] ++
  str "|  " ++ digits 10 pid ++ str "  |" ++ [9] ++ str "|     port ID    |" ++ [10] ++ ruler.
Definition mnl_nlmsg_fprintf_header (buf : bytes) (nlh : Z) : option bytes :=
  len ← nlmsg_len buf nlh; type ← nlmsg_type buf nlh; flags ← nlmsg_flags buf nlh; seq ← nlmsg_seq buf nlh; pid ← nlmsg_pid buf nlh;
  Some (show_header len type flags seq pid).

(** The lines of four bytes. *)
Definition hex_row (b : bytes) : bytes := str "| " ++ concat (map (fun c => hex2 c ++ [32]) b) ++ str " |" ++ [9].
Definition control_row (b : bytes) : bytes := hex_row b ++ str "|                |" ++ [10].
Definition extra_row (b : bytes) : bytes := hex_row b ++ str "|  extra header  |" ++ [10].
Definition data_row (b : bytes) : bytes :=
  hex_row b ++ str "|      data      |" ++ [9] ++ concat (map (fun c => [32; printed c]) b) ++ [10].
(** An attribute header, in colours: bold red, green and blue. *)
Definition attr_row (len type : Z) : bytes :=
  str "|" ++ [27] ++ str "[1;31m" ++ digits 5 len ++ [27] ++ str "[0m|" ++
  [27] ++ str "[1;32m" ++ [letter "N" type NLA_F_NESTED; letter "B" type NLA_F_NET_BYTEORDER] ++ [27] ++ str "[0m|" ++
  [27] ++ str "[1;34m" ++ digits 5 (type .& NLA_TYPE_MASK) ++ [27] ++ str "[0m|" ++ [9] ++ str "|len |flags| type|" ++ [10].

(** One pass of the loop: the line, what is left of the extra header ([size_t]) and of the attribute ([int]). *)
Definition payload_row (buf : bytes) (nlh i extra rem : Z) : option (bytes * (Z * Z)) :=
  type ← nlmsg_type buf nlh;
  if type <? NLMSG_MIN_TYPE then b ← lds buf (nlh + i) 4; Some (control_row b, (extra, rem)) else
  if 0 <? extra then b ← lds buf (nlh + i) 4; Some (extra_row b, ((extra - 4) mod 2 ^ 64, rem)) else
  seems ← (if rem =? 0 then t ← nla_type buf (nlh + i); Some (negb (t .& NLA_TYPE_MASK =? 0)) else Some false);
  if seems : bool then
    l ← nla_len buf (nlh + i); t ← nla_type buf (nlh + i);
    Some (attr_row l t, (extra, if t .& NLA_F_NESTED =? 0 then s32 (MNL_ALIGN l - MNL_ATTR_HDRLEN) else rem))
  else if 0 <? rem then b ← lds buf (nlh + i) 4; Some (data_row b, (extra, rem - 4))
  else Some ([], (extra, rem)).
Fixpoint payload_loop (fuel : nat) (buf : bytes) (nlh i : Z) (left : Z * Z) : option bytes :=
  match fuel with
  | O => None
  | S fuel =>
      l ← nlmsg_len buf nlh;
      if i <? l then '(line, left) ← payload_row buf nlh i left.1 left.2; rest ← payload_loop fuel buf nlh (u32 (i + 4)) left; Some (line ++ rest)
      else Some ruler
  end.
(** A line for every four bytes; the length is an [unsigned int]. *)
Definition mnl_nlmsg_fprintf_payload (buf : bytes) (nlh extra_header_size : Z) : option bytes :=
  l ← nlmsg_len buf nlh; payload_loop (Z.to_nat (l / 4 + 1)) buf nlh MNL_NLMSG_HDRLEN (extra_header_size, 0).

Fixpoint fprintf_loop (fuel : nat) (data : bytes) (nlh len extra_header_size : Z) : option bytes :=
  match fuel with
  | O => None
  | S fuel =>
      ok ← mnl_nlmsg_ok data nlh len; if negb ok then Some [] else
      h ← mnl_nlmsg_fprintf_header data nlh; p ← mnl_nlmsg_fprintf_payload data nlh extra_header_size;
      '(nlh, len) ← mnl_nlmsg_next data nlh len; rest ← fprintf_loop fuel data nlh len extra_header_size; Some (h ++ p ++ rest)
  end.
Definition mnl_nlmsg_fprintf (data : bytes) (datalen extra_header_size : Z) : option bytes :=
  fprintf_loop (S (length data)) data 0 (s32 datalen) extra_header_size.
End MnlPrint.

(** ** What is printed of well-formed messages *)
Fixpoint rows (row : bytes -> bytes) (l : bytes) : bytes :=
  match l with a :: b :: c :: d :: l => row [a; b; c; d] ++ rows row l | _ => [] end.
Definition show_attr {host : Host} (a : Z * bytes) : bytes := attr_row (4 + zlen a.2) a.1 ++ rows data_row (a.2 ++ padding (zlen a.2)).
(** Control messages have no attributes for the printout. *)
Definition show_message {host : Host} (h : hdr) (ex : bytes) (l : list (Z * bytes)) : bytes :=
  show_header (16 + zlen ex + zlen (attrs_bytes l)) (h_type h) (h_flags h) (h_seq h) (h_pid h) ++
  (if h_type h <? NLMSG_MIN_TYPE then rows control_row (ex ++ attrs_bytes l) else rows extra_row ex ++ concat (map show_attr l)) ++ ruler.
(** An attribute the printout takes for one: its type is not 0, and it is not nested. *)
Definition plain (a : Z * bytes) : Prop := attr_ok a /\ a.1 .& NLA_TYPE_MASK <> 0 /\ a.1 .& NLA_F_NESTED = 0.

Lemma four (l : bytes) : zlen l <> 0 -> zlen l mod 4 = 0 -> exists b t, l = b ++ t /\ zlen b = 4 /\ zlen t mod 4 = 0 /\ forall row, rows row l = row b ++ rows row t.
Proof.
  intros H0 H. unfold zlen in *. destruct l as [|a [|b [|c [|d l]]]]; cbn in H0, H; try done.
  exists [a; b; c; d], l. split_and!; try done. cbn [length] in H. zdm.
Qed.

Section Spec.
Context {host : Host}.

(** One message in a buffer: [prints p left t] when the loop prints [t] from behind the part [p] of the body. *)
Section Message.
Context (pre s : bytes) (h : hdr) (body : bytes) (Hh : hdr_ok h) (Hu : 16 + zlen body < 2 ^ 31).
Let buf : bytes := pre ++ packet h body ++ s.
Definition prints (p : bytes) (left : Z * Z) (t : bytes) : Prop :=
  forall fuel, zlen body - zlen p < 4 * Z.of_nat fuel -> payload_loop fuel buf (zlen pre) (16 + zlen p) left = Some t.

Lemma head_of : nlmsg_len buf (zlen pre) = Some (16 + zlen body) /\ nlmsg_type buf (zlen pre) = Some (h_type h) /\
  nlmsg_flags buf (zlen pre) = Some (h_flags h) /\ nlmsg_seq buf (zlen pre) = Some (h_seq h) /\ nlmsg_pid buf (zlen pre) = Some (h_pid h).
Proof. apply read_header; [done|]. pose proof (zlen_nonneg body). unfold is_u32. change (2 ^ 31) with 2147483648 in Hu. lia. Qed.

Lemma prints_end left : prints body left ruler.
Proof.
  intros [|fuel] Hf; [lia|]. cbn [payload_loop]. destruct head_of as (-> & _). cbn [mbind option_bind]. by rewrite Z.ltb_irrefl.
Qed.
Lemma prints_line p b q left line left' t : body = p ++ b ++ q -> zlen b = 4 ->
  payload_row buf (zlen pre) (16 + zlen p) left.1 left.2 = Some (line, left') -> prints (p ++ b) left' t -> prints p left (line ++ t).
Proof.
  intros Eb Hb Hr Hp [|fuel] Hf; [pose proof (zlen_nonneg q); rewrite Eb, !zlen_app in Hf; lia|]. cbn [payload_loop].
  destruct head_of as (-> & _). cbn [mbind option_bind]. pose proof (zlen_nonneg q). pose proof (zlen_nonneg p).
  assert (zlen body = zlen p + (4 + zlen q)) as El by (by rewrite Eb, !zlen_app, Hb). change (2 ^ 31) with 2147483648 in Hu.
  rewrite (proj2 (Z.ltb_lt _ _)) by lia. rewrite Hr. cbn [mbind option_bind]. rewrite u32_id by (unfold is_u32; lia).
  replace (16 + zlen p + 4) with (16 + zlen (p ++ b)) by (rewrite zlen_app; lia).
  rewrite Hp by (rewrite zlen_app; lia). done.
Qed.

(** Lines that depend on a count alone, which goes down by the four bytes of each. *)
Lemma prints_rows row (left : Z -> Z * Z) K :
  (forall p b q k, body = p ++ b ++ q -> zlen b = 4 -> 4 <= k <= K ->
     payload_row buf (zlen pre) (16 + zlen p) (left k).1 (left k).2 = Some (row b, left (k - 4))) ->
  forall n x p q k t, (length x <= n)%nat -> body = p ++ x ++ q -> zlen x mod 4 = 0 -> zlen x <= k <= K -> prints (p ++ x) (left (k - zlen x)) t ->
    prints p (left k) (rows row x ++ t).
Proof.
  intros Hrow. induction n as [|n IH]; intros x p q k t Hn Eb Hx Hk Ht.
  - destruct x; [|cbn in Hn; lia]. cbn [rows app]. rewrite app_nil_r in Ht. by rewrite Z.sub_0_r in Ht.
  - destruct (decide (zlen x = 0)) as [E|E].
    { destruct x; [|unfold zlen in E; cbn in E; lia]. cbn [rows app]. rewrite app_nil_r in Ht. by rewrite Z.sub_0_r in Ht. }
    destruct (four x E Hx) as (b & y & -> & Hb & Hy & Er). rewrite Er, <- app_assoc. rewrite zlen_app in Hk, Ht. rewrite <- app_assoc in Eb.
    pose proof (zlen_nonneg y). eapply prints_line; [exact Eb | done | apply (Hrow p b (y ++ q) k Eb Hb); lia|].
    apply (IH y (p ++ b) q); [| by rewrite <- app_assoc | done | lia |].
    + rewrite length_app in Hn. unfold zlen in Hb. lia.
    + rewrite <- app_assoc. by replace (k - 4 - zlen y) with (k - (zlen b + zlen y)) by lia.
Qed.

Lemma at_body p b q : body = p ++ b ++ q -> lds buf (zlen pre + (16 + zlen p)) (zlen b) = Some b.
Proof.
  intros ->. unfold buf, packet. rewrite <- !app_assoc, (app_assoc pre), (app_assoc _ p). apply lds_app; [|done].
  rewrite !zlen_app, zlen_header. lia.
Qed.

Lemma prints_control e : h_type h < NLMSG_MIN_TYPE -> zlen body mod 4 = 0 -> prints [] (e, 0) (rows control_row body ++ ruler).
Proof.
  intros Ht Hm. eapply (prints_rows control_row (fun _ => (e, 0)) (zlen body) _ _ body [] [] (zlen body));
    [done | by rewrite app_nil_r | done | lia | apply prints_end].
  Unshelve. intros p b q k Eb Hb Hk. unfold payload_row. destruct head_of as (_ & -> & _). cbn [mbind option_bind].
  rewrite (proj2 (Z.ltb_lt _ _)) by done. rewrite <- Hb, (at_body p b q Eb). done.
Qed.

Lemma prints_extra x q t : body = x ++ q -> zlen x mod 4 = 0 -> NLMSG_MIN_TYPE <= h_type h ->
  prints x (0, 0) t -> prints [] (zlen x, 0) (rows extra_row x ++ t).
Proof.
  intros Eb Hm Ht Hp. pose proof (zlen_nonneg x). pose proof (zlen_nonneg q). assert (zlen x <= zlen body) by (rewrite Eb, zlen_app; lia).
  change (2 ^ 31) with 2147483648 in Hu.
  eapply (prints_rows extra_row (fun k => (k, 0)) (zlen x) _ _ x [] q (zlen x)); [done | done | done | lia |].
  - cbn [app]. by rewrite Z.sub_diag.
  Unshelve. intros p b r k E Hb Hk. unfold payload_row. destruct head_of as (_ & -> & _). cbn [mbind option_bind fst snd].
  rewrite (proj2 (Z.ltb_ge _ _)) by done. rewrite (proj2 (Z.ltb_lt 0 k)) by lia. rewrite <- Hb, (at_body p b r E). cbn [mbind option_bind].
  rewrite Z.mod_small by (change (2 ^ 64) with 18446744073709551616; lia). by rewrite Hb.
Qed.

Lemma prints_attr p a q t : body = p ++ attr_bytes a ++ q -> plain a -> NLMSG_MIN_TYPE <= h_type h ->
  prints (p ++ attr_bytes a) (0, 0) t -> prints p (0, 0) (show_attr a ++ t).
Proof.
  intros Eb (Ha & Hn0 & Hn) Ht Hp. unfold show_attr. rewrite <- app_assoc.
  destruct (read_attr (pre ++ header (16 + zlen body) h ++ p) a (q ++ s) Ha) as (El & Et & _).
  assert (buf = (pre ++ header (16 + zlen body) h ++ p) ++ attr_bytes a ++ q ++ s) as E0
    by (unfold buf, packet; rewrite Eb at 2; by rewrite <- !app_assoc).
  rewrite <- E0 in El, Et. rewrite !zlen_app, zlen_header in El, Et.
  set (v := a.2 ++ padding (zlen a.2)). assert (attr_bytes a = (enc16 (4 + zlen a.2) ++ enc16 a.1) ++ v) as Ea by (unfold attr_bytes; by rewrite <- app_assoc).
  assert (zlen v = MNL_ALIGN (zlen a.2)) as Hv by (unfold v; rewrite zlen_app, zlen_padding; lia).
  pose proof (align_le (zlen a.2)). pose proof (zlen_nonneg a.2). destruct Ha as [_ Hl].
  rewrite Ea in Eb, Hp. rewrite <- app_assoc in Eb.
  eapply (prints_line _ _ _ _ _ (0, zlen v)); [exact Eb | by rewrite zlen_app, !zlen_enc16 | |].
  - unfold payload_row. destruct head_of as (_ & -> & _). cbn [mbind option_bind fst snd]. rewrite (proj2 (Z.ltb_ge _ _)) by done.
    cbn [Z.ltb Z.compare Z.eqb]. rewrite El, Et. cbn [mbind option_bind]. rewrite (proj2 (Z.eqb_neq _ _) Hn0), Hn. cbn [negb Z.eqb].
    unfold MNL_ATTR_HDRLEN. rewrite align_add, <- Hv by done. do 4 f_equal. unfold s32. cbv zeta. change (2 ^ 31) with 2147483648. change (2 ^ 32) with 4294967296. rewrite Z.mod_small by lia.
    rewrite (proj2 (Z.ltb_lt _ _)) by lia. lia.
  - rewrite app_assoc in Hp.
    eapply (prints_rows data_row (fun k => (0, k)) (zlen v) _ _ v _ q (zlen v)); [done | by rewrite <- app_assoc | rewrite Hv; apply mnl_align_mod | lia |].
    + by rewrite Z.sub_diag.
  Unshelve. intros p' b r k E Hb Hk. unfold payload_row. destruct head_of as (_ & -> & _). cbn [mbind option_bind fst snd].
  rewrite (proj2 (Z.ltb_ge _ _)) by done. cbn [Z.ltb Z.compare]. rewrite (proj2 (Z.eqb_neq k 0)) by lia. cbn [mbind option_bind].
  rewrite (proj2 (Z.ltb_lt 0 k)) by lia. rewrite <- Hb, (at_body p' b r E). cbn [mbind option_bind]. by rewrite Hb.
Qed.
Lemma prints_attrs l : forall p, body = p ++ attrs_bytes l -> Forall plain l -> NLMSG_MIN_TYPE <= h_type h ->
  prints p (0, 0) (concat (map show_attr l) ++ ruler).
Proof.
  induction l as [|a l IH]; intros p Eb F Ht.
  - cbn in Eb |- *. rewrite app_nil_r in Eb. rewrite <- Eb. apply prints_end.
  - rewrite Forall_cons in F. destruct F as [Ha F]. cbn [map concat]. rewrite <- app_assoc. cbn in Eb.
    eapply prints_attr; [exact Eb | done | done |]. apply IH; [|done|done]. by rewrite <- app_assoc.
Qed.
Lemma payload_prints e t : prints [] (e, 0) t -> mnl_nlmsg_fprintf_payload buf (zlen pre) e = Some t.
Proof.
  intros Hp. unfold mnl_nlmsg_fprintf_payload. destruct head_of as (-> & _). cbn [mbind option_bind]. apply Hp.
  pose proof (zlen_nonneg body). unfold zlen at 2. cbn [length]. rewrite Z2Nat.id by zdm. zdm.
Qed.
End Message.

(** Messages one behind the other, each with an extra header of [e] bytes. *)
Definition printable (e : Z) (m : hdr * bytes * list (Z * bytes)) : Prop :=
  let '(h, ex, l) := m in
  hdr_ok h /\ zlen ex = e /\ zlen (message h ex l) < 2 ^ 31 /\ (NLMSG_MIN_TYPE <= h_type h -> Forall plain l).
Definition bytes_of (m : hdr * bytes * list (Z * bytes)) : bytes := let '(h, ex, l) := m in message h ex l.
Definition shown (m : hdr * bytes * list (Z * bytes)) : bytes := let '(h, ex, l) := m in show_message h ex l.

Lemma fprintf_message e pre s h ex l len fuel : printable e (h, ex, l) -> e mod 4 = 0 -> zlen (message h ex l) <= len < 2 ^ 31 ->
  let buf := pre ++ message h ex l ++ s in
  fprintf_loop (S fuel) buf (zlen pre) len e =
    (rest ← fprintf_loop fuel buf (zlen (pre ++ message h ex l)) (len - zlen (message h ex l)) e; Some (show_message h ex l ++ rest)).
Proof.
  intros (Hh & He & Hu & Hp) Hm Hl buf. rewrite message_packet, zlen_packet in Hu. unfold buf.
  pose proof (head_of pre s h _ Hh Hu) as (El & Et & Ef & Es & Epid). rewrite <- message_packet in El, Et, Ef, Es, Epid.
  pose proof Hu as Hb. rewrite zlen_app in El, Hb. rewrite zlen_app, zlen_message in *.
  change (2 ^ 31) with 2147483648 in *. pose proof (zlen_nonneg ex). pose proof (zlen_nonneg (attrs_bytes l)). pose proof (attrs_mod l).
  assert (is_u32 (16 + (zlen ex + zlen (attrs_bytes l)))) as Hu32 by (unfold is_u32; lia).
  assert (mnl_nlmsg_fprintf_payload (pre ++ message h ex l ++ s) (zlen pre) e =
      Some ((if h_type h <? NLMSG_MIN_TYPE then rows control_row (ex ++ attrs_bytes l) else rows extra_row ex ++ concat (map show_attr l)) ++ ruler)) as Epay.
  { rewrite message_packet. apply payload_prints; [done | by rewrite zlen_app|]. destruct (Z.ltb_spec (h_type h) NLMSG_MIN_TYPE) as [Ht|Ht].
    - apply prints_control; [done | by rewrite zlen_app | done | rewrite zlen_app; zdm].
    - rewrite <- app_assoc, <- He. eapply prints_extra; [done | by rewrite zlen_app | done | by rewrite He | done|].
      apply prints_attrs; [done | by rewrite zlen_app | done | by apply Hp | done]. }
  cbn [fprintf_loop]. unfold mnl_nlmsg_ok, mnl_nlmsg_fprintf_header, mnl_nlmsg_next. rewrite (proj2 (Z.ltb_ge len MNL_NLMSG_HDRLEN)) by (unfold MNL_NLMSG_HDRLEN; lia).
  rewrite El, Et, Ef, Es, Epid, Epay. cbn [mbind option_bind]. rewrite (proj2 (Z.leb_le MNL_NLMSG_HDRLEN _)) by (unfold MNL_NLMSG_HDRLEN; lia).
  rewrite (proj2 (Z.leb_le (s32 _) _)) by (pose proof (s32_le _ Hu32); lia). cbn [andb negb].
  rewrite align_id by zdm. rewrite u32_id by done.
  replace (s32 (len - (16 + (zlen ex + zlen (attrs_bytes l))))) with (len - (16 + zlen ex + zlen (attrs_bytes l))).
  2:{ unfold s32. cbv zeta. change (2 ^ 31) with 2147483648. change (2 ^ 32) with 4294967296. rewrite Z.mod_small by lia. rewrite (proj2 (Z.ltb_lt _ _)) by lia. lia. }
  rewrite !Z.add_assoc. destruct (fprintf_loop fuel _ _ _ e) as [t|]; [|done]. cbn [mbind option_bind]. unfold show_message. by rewrite <- !app_assoc.
Qed.

(** The text is that of each message in turn: its header; the bytes of a control message; or the extra header and every attribute with its data. *)
Theorem mnl_nlmsg_fprintf_shows e ms s : Forall (printable e) ms -> e mod 4 = 0 -> zlen (concat (map bytes_of ms)) < 2 ^ 31 ->
  mnl_nlmsg_fprintf (concat (map bytes_of ms) ++ s) (zlen (concat (map bytes_of ms))) e = Some (concat (map shown ms)).
Proof.
  intros F He Hl. unfold mnl_nlmsg_fprintf. pose proof (zlen_nonneg (concat (map bytes_of ms))).
  replace (s32 _) with (zlen (concat (map bytes_of ms))).
  2:{ unfold s32. cbv zeta. change (2 ^ 31) with 2147483648 in *. change (2 ^ 32) with 4294967296. rewrite Z.mod_small by lia. by rewrite (proj2 (Z.ltb_lt _ _)) by lia. }
  assert (forall fuel pre, (length (concat (map bytes_of ms)) < fuel)%nat ->
    fprintf_loop fuel (pre ++ concat (map bytes_of ms) ++ s) (zlen pre) (zlen (concat (map bytes_of ms))) e = Some (concat (map shown ms))) as Hloop.
  { induction F as [|[[h ex] l] ms Hm F IH]; intros [|fuel] pre Hf; try (cbn in Hf; lia).
    - done.
    - cbn [map concat bytes_of shown] in *. rewrite zlen_app in *. pose proof (zlen_nonneg (concat (map bytes_of ms))).
      pose proof (zlen_message h ex l). pose proof (zlen_nonneg ex). pose proof (zlen_nonneg (attrs_bytes l)).
      rewrite <- app_assoc. rewrite fprintf_message by (try done; lia). rewrite (app_assoc pre), Z.add_simpl_l, IH; [done | lia | lia |].
      rewrite length_app in Hf. unfold zlen in *. lia. }
  apply (Hloop _ []). rewrite length_app. lia.
Qed.
End Spec.

(** ** What is not printed, and what is read *)
(** An attribute of length 0 hides all that stands behind it: the rest of the message is an empty text. *)
Definition zero_attr : bytes := packet {| h_type := 16; h_flags := 5; h_seq := 7; h_pid := 0 |} ([0; 0; 1; 0] ++ attr_bytes (3, str "eth0")).
Example rest_is_hidden : mnl_nlmsg_fprintf zero_attr (zlen zero_attr) 0 =
  Some (show_header 28 16 5 7 0 ++ attr_row 0 1 ++ ruler).
Proof. vm_compute. reflexivity. Qed.
(** The last line of a message whose length is no multiple of four is read behind its end. *)
Definition odd_message : bytes := packet {| h_type := 2; h_flags := 0; h_seq := 7; h_pid := 0 |} [1; 2; 3; 4; 5].
Example reads_behind : mnl_nlmsg_fprintf odd_message (zlen odd_message) 0 = None.
Proof. vm_compute. reflexivity. Qed.
(** The example of nlmsg.c. *)
Example doc_example : exists h,
  mnl_nlmsg_fprintf (message h [0; 0; 0; 0; 0; 0; 0; 0; 1; 0; 0; 0; 1; 0; 0; 0] [(3, str "eth0")]) 40 16 =
  Some (show_header 40 16 5 1289148991 0 ++ extra_row [0; 0; 0; 0] ++ extra_row [0; 0; 0; 0] ++ extra_row [1; 0; 0; 0] ++ extra_row [1; 0; 0; 0] ++
    attr_row 8 3 ++ data_row (str "eth0") ++ ruler).
Proof. exists {| h_type := 16; h_flags := 5; h_seq := 1289148991; h_pid := 0 |}. vm_compute. reflexivity. Qed.
Theorem mnl_nlmsg_fprintf_shows_witness : exists ms, length ms = 2%nat /\
  mnl_nlmsg_fprintf (concat (map bytes_of ms)) 60 0 = Some (concat (map shown ms)).
Proof.
  exists [({| h_type := 2; h_flags := 0; h_seq := 7; h_pid := 9 |}, [], [(1, [1; 2; 3; 4]); (2, [5])]);
     ({| h_type := 16; h_flags := 5; h_seq := 8; h_pid := 9 |}, [], [(3, str "eth0"); (0x4001, [])])].
  match goal with |- length ?l = _ /\ _ => set (ms := l) end. split; [done|].
  replace 60 with (zlen (concat (map bytes_of ms))) by (vm_compute; reflexivity).
  rewrite <- (app_nil_r (concat (map bytes_of ms))) at 1. apply (mnl_nlmsg_fprintf_shows 0); [|done|vm_compute; done].
  repeat constructor; try done; vm_compute; intuition congruence.
Defined.
