(* ===== verification/IfUtils.v ===== *)
(** * libmnl/ifutils.c and socket.c: links, addresses and routes set over netlink.
    What is done to the system is the list of its calls; what they return may depend on everything done before (the class [Netlink]).
    An [in_addr_t] is the number in memory, an [addr_t] its 16 bytes.  The static variables of the functions are in the state.  [ERRMSG] only
    prints. *)
From S2P Require Import Prelude Util Monad Text Mnl.
#[local] Open Scope Z_scope.
#[local] Open Scope c_scope.

Definition AF_UNSPEC : Z := 0.
Definition AF_INET : Z := 2.
Definition AF_INET6 : Z := 10.
Definition AF_NETLINK : Z := 16.
Definition SOCK_DGRAM : Z := 2.
Definition SOCK_RAW : Z := 3.
Definition SOCK_CLOEXEC : Z := 0x80000.
Definition NETLINK_ROUTE : Z := 0.
Definition RTM_NEWLINK : Z := 16.
Definition RTM_NEWADDR : Z := 20.
Definition RTM_DELADDR : Z := 21.
Definition RTM_GETADDR : Z := 22.
Definition RTM_NEWROUTE : Z := 24.
Definition RTM_DELROUTE : Z := 25.
Definition NLM_F_REQUEST : Z := 1.
Definition NLM_F_ACK : Z := 4.
Definition NLM_F_REPLACE : Z := 0x100.
Definition NLM_F_DUMP : Z := 0x300.
Definition NLM_F_CREATE : Z := 0x400.
Definition IFLA_IFNAME : Z := 3.
Definition IFLA_MTU : Z := 4.
Definition IFA_ADDRESS : Z := 1.
Definition IFA_LOCAL : Z := 2.
(** The attributes of Linux 6; with the fewer of older ones nothing here is different. *)
Definition IFA_MAX : Z := 11.
Definition IFA_F_PERMANENT : Z := 0x80.
Definition RTA_DST : Z := 1.
Definition RTA_OIF : Z := 4.
Definition RTA_GATEWAY : Z := 5.
Definition RTPROT_STATIC : Z := 4.
Definition RT_TABLE_MAIN : Z := 254.
Definition RTN_UNICAST : Z := 1.
Definition RT_SCOPE_UNIVERSE : Z := 0.
Definition RT_SCOPE_LINK : Z := 253.
Definition IFF_UP : Z := 1.
Definition IFNAMSIZ : Z := 16.
Definition sizeof_ifinfomsg : Z := 16.
Definition sizeof_ifaddrmsg : Z := 8.
Definition sizeof_rtmsg : Z := 12.
Definition sizeof_rtgenmsg : Z := 1.
Definition sizeof_sockaddr_nl : Z := 12.
Definition MAX_IP_NUM : nat := 32.

Inductive action := NlOpen (fd : Z) | NlBind (fd : Z) | NlSend (fd : Z) (msg : bytes) | NlRecv (fd : Z) | NlClose (fd : Z)
  | InetOpen (fd : Z) | GetHwaddr (fd : Z) (name : bytes) | Resolv (text : bytes)
  | SetOpt (fd type : Z) (value : bytes) | GetOpt (fd type : Z).

(** [k_index]: [if_nametoindex]; [k_calloc] and [k_socket] (of its domain, type and protocol), [k_bind], [k_getsockname] (family, port and length of the
    address), [k_setsockopt], [k_getsockopt] (what it returns, and what the buffer then holds), [k_sendto], [k_recvmsg] (the
    bytes, whether more were lost, the length of the sender's address; nothing for an error); [k_hwaddr]: the ioctl for the address of an interface;
    [k_resolv]: whether /etc/resolv.conf can be opened for writing, and [k_write] whether the write succeeds; [k_time]; [k_stack]: what a buffer
    on the stack holds at first, MNL_SOCKET_BUFFER_SIZE bytes; [k_ntop6]: an IPv6 address as [inet_ntop] prints it; [k_last_first]: the compiler's
    order of the arguments of a call. *)
Class Netlink := {
  k_index : list action -> bytes -> Z; k_calloc : list action -> bool; k_socket : list action -> Z -> Z -> Z -> Z; k_bind : list action -> Z;
  k_getsockname : list action -> Z -> option (Z * Z * Z); k_setsockopt : list action -> Z -> Z -> bytes -> Z;
  k_getsockopt : list action -> Z -> Z -> bytes -> Z * bytes; k_sendto : list action -> bytes -> Z; k_recvmsg : list action -> option (bytes * bool * Z);
  k_hwaddr : list action -> bytes -> option bytes; k_resolv : list action -> bool; k_write : list action -> bool; k_time : list action -> Z;
  k_stack : bytes; k_ntop6 : bytes -> bytes; k_last_first : bool }.

Record ifstate := { f_oldstate : Z; f_oldmtu : Z; f_acts : list action }.
#[export] Instance eta_ifstate : Eta ifstate := fun s => {| f_oldstate := f_oldstate s; f_oldmtu := f_oldmtu s; f_acts := f_acts s |}.
#[export] Instance set_oldstate : Setter f_oldstate := ltac:(derive_setter).
#[export] Instance set_oldmtu : Setter f_oldmtu := ltac:(derive_setter).
#[export] Instance set_acts : Setter f_acts := ltac:(derive_setter).
Definition if_initial : ifstate := {| f_oldstate := -1; f_oldmtu := 1500; f_acts := [] |}.

Abbreviation MF := (M ifstate).
Definition act (a : action) : MF unit := modify (fun s => s <| f_acts := f_acts s ++ [a] |>).
Definition asks {A} (f : list action -> A) : MF A := gets (fun s => f (f_acts s)).

Section IfUtils.
Context {host : Host} {nl : Netlink}.

(** ** socket.c *)
Record mnl_socket := { nl_fd : Z; nl_pid : Z }.
Definition mnl_socket_get_portid (nl : mnl_socket) : Z := nl_pid nl.
Definition mnl_socket_get_fd (nl : mnl_socket) : Z := nl_fd nl.
Definition __mnl_socket_open (bus flags : Z) : MF (option mnl_socket) :=
  m ← asks k_calloc; if negb m then mret None else
  fd ← asks (fun l => k_socket l AF_NETLINK (SOCK_RAW .| flags) bus);
  if fd =? -1 then mret None else act (NlOpen fd);; mret (Some {| nl_fd := fd; nl_pid := 0 |}).
Definition mnl_socket_open (bus : Z) : MF (option mnl_socket) := __mnl_socket_open bus 0.
Definition mnl_socket_open2 (bus flags : Z) : MF (option mnl_socket) := __mnl_socket_open bus flags.
(** A socket of someone else. *)
Definition mnl_socket_fdopen (fd : Z) : MF (option mnl_socket) :=
  a ← asks (fun l => k_getsockname l fd);
  match a with
  | None => mret None
  | Some (family, pid, _) =>
      m ← asks k_calloc; if negb m then mret None else mret (Some {| nl_fd := fd; nl_pid := if family =? AF_NETLINK then pid else 0 |})
  end.
Definition mnl_socket_setsockopt (nl : mnl_socket) (type : Z) (buf : bytes) : MF Z :=
  r ← asks (fun l => k_setsockopt l (nl_fd nl) type buf); act (SetOpt (nl_fd nl) type buf);; mret r.
(** Result: what is returned and the buffer. *)
Definition mnl_socket_getsockopt (nl : mnl_socket) (type : Z) (buf : bytes) : MF (Z * bytes) :=
  r ← asks (fun l => k_getsockopt l (nl_fd nl) type buf); act (GetOpt (nl_fd nl) type);; mret r.
(** Result: what is returned and the socket with its address. *)
Definition mnl_socket_bind (nl : mnl_socket) (pid : Z) : MF (Z * mnl_socket) :=
  ret ← asks k_bind; act (NlBind (nl_fd nl));;
  let nl := {| nl_fd := nl_fd nl; nl_pid := pid |} in
  if ret <? 0 then mret (ret, nl) else
  a ← asks (fun l => k_getsockname l (nl_fd nl));
  match a with
  | None => mret (-1, nl)
  | Some (family, pid, addr_len) =>
      let nl := {| nl_fd := nl_fd nl; nl_pid := pid |} in
      if negb (addr_len =? sizeof_sockaddr_nl) then mret (-1, nl) else if negb (family =? AF_NETLINK) then mret (-1, nl) else mret (0, nl)
  end.
Definition mnl_socket_sendto (nl : mnl_socket) (msg : bytes) : MF Z :=
  r ← asks (fun l => k_sendto l msg); act (NlSend (nl_fd nl) msg);; mret r.
(** Into the buffer [buf]. *)
Definition mnl_socket_recvfrom (nl : mnl_socket) (buf : bytes) : MF (Z * bytes) :=
  r ← asks k_recvmsg; act (NlRecv (nl_fd nl));;
  match r with
  | None => mret (-1, buf)
  | Some (data, trunc, namelen) =>
      let data := take (length buf) data in
      let buf := data ++ drop (length data) buf in
      if trunc : bool then mret (-1, buf) else if negb (namelen =? sizeof_sockaddr_nl) then mret (-1, buf) else mret (zlen data, buf)
  end.
Definition mnl_socket_close (nl : mnl_socket) : MF unit := act (NlClose (nl_fd nl)).

(** ** ifutils.c *)
Definition ipaddr_to_string_v4 (ipaddr : Z) : bytes :=
  match enc32 ipaddr with [a; b; c; d] => dotted a b c d | _ => [] end.
Definition ipaddr_to_string_v6 (ipaddr : bytes) : bytes := k_ntop6 ipaddr.
Definition ifc_init_ifr (name : bytes) : bytes := take (Z.to_nat (IFNAMSIZ - 1)) name.

(** Result: what is returned and the address. *)
Definition if_get_hwaddr (name : bytes) : MF (Z * option bytes) :=
  fd ← asks (fun l => k_socket l AF_INET (SOCK_DGRAM .| SOCK_CLOEXEC) 0); if fd <? 0 then mret (-1, None) else
  act (InetOpen fd);;
  a ← asks (fun l => k_hwaddr l (ifc_init_ifr name)); act (GetHwaddr fd (ifc_init_ifr name));;
  match a with None => mret (-1, None) | Some a => mret (0, Some (take 6 a)) end.

(** The header of a request. *)
Definition start_request (type flags : Z) : MF (bytes * Z) :=
  buf ← lift (mnl_nlmsg_put_header k_stack);
  buf ← lift (st16 buf 4 type);
  buf ← lift (st16 buf 6 flags);
  seq ← asks k_time; let seq := u32 seq in
  buf ← lift (st32 buf 8 seq); mret (buf, seq).

(** The part every request ends with: a socket, the request, its answer. *)
Definition transact (buf : bytes) (seq : Z) : MF Z :=
  o ← mnl_socket_open NETLINK_ROUTE;
  match o with
  | None => mret (-1)
  | Some nl =>
      '(r, nl) ← mnl_socket_bind nl 0;
      if r <? 0 then mret (-1) else
      let portid := mnl_socket_get_portid nl in
      len ← lift (nlmsg_len buf 0); msg ← lift (lds buf 0 len);
      r ← mnl_socket_sendto nl msg; if r <? 0 then mret (-1) else
      '(ret, buf) ← mnl_socket_recvfrom nl buf; if ret =? -1 then mret (-1) else
      '(ret, _, _) ← lift (mnl_cb_run buf ret seq portid None tt);
      if ret =? -1 then mret (-1) else
      mnl_socket_close nl;; mret 0
  end.

Definition if_act_on_link (ifname : bytes) (state : Z) : MF Z :=
  oldstate ← gets f_oldstate;
  if state =? oldstate then mret 0 else
  modify (fun s => s <| f_oldstate := state |>);;
  let change := IFF_UP in
  let flags := if state =? 0 then 0 else IFF_UP in
  '(buf, seq) ← start_request RTM_NEWLINK (NLM_F_REQUEST .| NLM_F_ACK);
  '(buf, ifm) ← lift (mnl_nlmsg_put_extra_header buf 0 sizeof_ifinfomsg);
  buf ← lift (st8 buf ifm AF_UNSPEC);
  buf ← lift (st32 buf (ifm + 12) change);
  buf ← lift (st32 buf (ifm + 8) flags);
  buf ← lift (mnl_attr_put_str buf 0 IFLA_IFNAME ifname);
  transact buf seq.
Definition if_link_up (ifname : bytes) : MF Z := if_act_on_link ifname 1.
Definition if_link_down (ifname : bytes) : MF Z := if_act_on_link ifname 0.

Definition if_set_mtu (ifname : bytes) (mtu : Z) : MF Z :=
  oldmtu ← gets f_oldmtu;
  if mtu =? oldmtu then mret 0 else
  modify (fun s => s <| f_oldmtu := mtu |>);;
  iface ← asks (fun l => k_index l ifname); if iface =? 0 then mret (-1) else
  '(buf, seq) ← start_request RTM_NEWLINK (NLM_F_REQUEST .| NLM_F_ACK);
  '(buf, ifm) ← lift (mnl_nlmsg_put_extra_header buf 0 sizeof_ifinfomsg);
  buf ← lift (st8 buf ifm AF_UNSPEC);
  buf ← lift (st32 buf (ifm + 4) iface);
  buf ← lift (st32 buf (ifm + 12) 0xffffffff);
  buf ← lift (st32 buf (ifm + 8) 0); buf ← lift (st16 buf (ifm + 2) 0);
  buf ← lift (mnl_attr_put_u32 buf 0 IFLA_MTU mtu);
  transact buf seq.

(** [addr_t]: the [ip] of the union. *)
Definition addr_ip (a : bytes) : Z := dec_native (take 4 a).

Definition if_act_on_addr (operate : bool) (family : Z) (ifname ipaddr : bytes) (prefix : Z) : MF Z :=
  iface ← asks (fun l => k_index l ifname); if iface =? 0 then mret (-1) else
  '(buf, seq) ← start_request (if operate then RTM_NEWADDR else RTM_DELADDR) (NLM_F_REQUEST .| NLM_F_CREATE .| NLM_F_REPLACE .| NLM_F_ACK);
  '(buf, ifm) ← lift (mnl_nlmsg_put_extra_header buf 0 sizeof_ifaddrmsg);
  buf ← lift (st8 buf ifm family);
  buf ← lift (st8 buf (ifm + 1) prefix);
  buf ← lift (st8 buf (ifm + 2) IFA_F_PERMANENT);
  buf ← lift (st8 buf (ifm + 3) RT_SCOPE_UNIVERSE);
  buf ← lift (st32 buf (ifm + 4) iface);
  buf ← (if family =? AF_INET then
      buf ← lift (mnl_attr_put_u32 buf 0 IFA_LOCAL (addr_ip ipaddr)); lift (mnl_attr_put_u32 buf 0 IFA_ADDRESS (addr_ip ipaddr))
    else lift (mnl_attr_put buf 0 IFA_ADDRESS (take 16 ipaddr)));
  transact buf seq.
(** The union on the stack: the rest of it is what was there. *)
Definition addr_v4 (ipaddr : Z) : bytes := enc32 ipaddr ++ take 12 k_stack.
Definition if_set_addr_v4 (ifname : bytes) (ipaddr prefix : Z) : MF Z := if_act_on_addr true AF_INET ifname (addr_v4 ipaddr) prefix.
Definition if_del_addr_v4 (ifname : bytes) (ipaddr prefix : Z) : MF Z := if_act_on_addr false AF_INET ifname (addr_v4 ipaddr) prefix.
Definition if_set_addr_v6 (ifname ipaddr : bytes) (prefix : Z) : MF Z := if_act_on_addr true AF_INET6 ifname (take 16 ipaddr) prefix.
Definition if_del_addr_v6 (ifname ipaddr : bytes) (prefix : Z) : MF Z := if_act_on_addr false AF_INET6 ifname (take 16 ipaddr) prefix.

(** *** The addresses of an interface *)
Record addrinfo_t := { a_iface : Z; a_num : Z; a_addrs : list (Z * bytes) }.
Definition addrinfo_zero : addrinfo_t := {| a_iface := 0; a_num := 0; a_addrs := replicate MAX_IP_NUM (0, replicate 16 0) |}.

(** The attributes found, by their type. *)
Definition data_attr_cb (buf : bytes) (attr : Z) (tb : list (option Z)) : option (Z * list (option Z)) :=
  type ← mnl_attr_get_type buf attr;
  '(v, _) ← mnl_attr_type_valid buf attr IFA_MAX;
  if v <? 0 then Some (MNL_CB_OK, tb) else
  bad ← (if type =? IFA_ADDRESS then '(r, _) ← mnl_attr_validate buf attr MNL_TYPE_BINARY; Some (r <? 0) else Some false);
  if bad : bool then Some (MNL_CB_ERROR, tb) else Some (MNL_CB_OK, <[Z.to_nat type := Some attr]> tb).

Definition data_cb : mnl_cb addrinfo_t := fun buf nlh info =>
  let ifa := mnl_nlmsg_get_payload nlh in
  '(_, tb) ← mnl_attr_parse buf data_attr_cb nlh sizeof_ifaddrmsg (replicate (Z.to_nat (IFA_MAX + 1)) None);
  match default None (tb !! Z.to_nat IFA_ADDRESS) with
  | None => Some (MNL_CB_OK, 0, info)
  | Some attr =>
      let addr := mnl_attr_get_payload attr in
      family ← ld buf ifa; prefixlen ← ld buf (ifa + 1); index ← ld32 buf (ifa + 4);
      _ ← (if family =? AF_INET then lds buf addr 4 else if family =? AF_INET6 then lds buf addr 16 else Some []);
      '(_, old) ← a_addrs info !! Z.to_nat (a_num info);
      if negb (index =? u32 (a_iface info)) then
        Some (MNL_CB_OK, 0, {| a_iface := a_iface info; a_num := a_num info; a_addrs := <[Z.to_nat (a_num info) := (prefixlen, old)]> (a_addrs info) |})
      else
        new ← (if family =? AF_INET6 then lds buf addr 16
               else if family =? AF_INET then a ← lds buf addr 4; Some (a ++ drop 4 old) else Some old);
        Some (MNL_CB_OK, 0,
          {| a_iface := a_iface info; a_num := a_num info + 1; a_addrs := <[Z.to_nat (a_num info) := (prefixlen, new)]> (a_addrs info) |})
  end.

(** The loop over the datagrams of the answer; [fuel] bounds their number. *)
Fixpoint dump_loop (fuel : nat) (nl : mnl_socket) (buf : bytes) (ret seq portid : Z) (info : addrinfo_t) : MF (Z * addrinfo_t) :=
  match fuel with
  | O => undefined
  | S fuel =>
      if ret <=? 0 then mret (ret, info) else
      '(ret, _, info) ← lift (mnl_cb_run buf ret seq portid (Some data_cb) info);
      if ret <=? MNL_CB_STOP then mret (ret, info) else
      '(ret, buf) ← mnl_socket_recvfrom nl buf; dump_loop fuel nl buf ret seq portid info
  end.
Definition if_get_addr (fuel : nat) (ifname : bytes) (proto : Z) (info : addrinfo_t) : MF (Z * addrinfo_t) :=
  iface ← asks (fun l => k_index l ifname);
  let info := {| a_iface := iface; a_num := a_num info; a_addrs := a_addrs info |} in
  if iface =? 0 then mret (-1, info) else
  '(buf, seq) ← start_request RTM_GETADDR (NLM_F_REQUEST .| NLM_F_DUMP);
  '(buf, rt) ← lift (mnl_nlmsg_put_extra_header buf 0 sizeof_rtgenmsg);
  buf ← (if proto =? AF_INET then lift (st8 buf rt AF_INET) else if proto =? AF_INET6 then lift (st8 buf rt AF_INET6) else mret buf);
  o ← mnl_socket_open NETLINK_ROUTE;
  match o with
  | None => mret (-1, info)
  | Some nl =>
      '(r, nl) ← mnl_socket_bind nl 0;
      if r <? 0 then mret (-1, info) else
      let portid := mnl_socket_get_portid nl in
      len ← lift (nlmsg_len buf 0); msg ← lift (lds buf 0 len);
      r ← mnl_socket_sendto nl msg; if r <? 0 then mret (-1, info) else
      '(ret, buf) ← mnl_socket_recvfrom nl buf;
      '(ret, info) ← dump_loop fuel nl buf ret seq portid info;
      if ret =? -1 then mret (-1, info) else
      mnl_socket_close nl;; mret (0, info)
  end.

Fixpoint delete_all (delete : Z * bytes -> MF Z) (addrs : list (Z * bytes)) : MF unit :=
  match addrs with [] => mret tt | a :: addrs => _ ← delete a; delete_all delete addrs end.
Definition if_flush_v4_addr (fuel : nat) (ifname : bytes) : MF Z :=
  '(_, info) ← if_get_addr fuel ifname AF_INET addrinfo_zero;
  delete_all (fun a => if_del_addr_v4 ifname (addr_ip a.2) a.1) (take (Z.to_nat (a_num info)) (a_addrs info));; mret 0.
Definition if_flush_v6_addr (fuel : nat) (ifname : bytes) : MF Z :=
  '(_, info) ← if_get_addr fuel ifname AF_INET6 addrinfo_zero;
  delete_all (fun a => if_del_addr_v6 ifname a.2 a.1) (take (Z.to_nat (a_num info)) (a_addrs info));; mret 0.

(** *** Routes *)
Definition if_act_on_route (operate : bool) (family : Z) (ifname dstaddr : bytes) (prefix : Z) (gwaddr : option bytes) : MF Z :=
  iface ← asks (fun l => k_index l ifname); if iface =? 0 then mret (-1) else
  '(buf, seq) ← start_request (if operate then RTM_NEWROUTE else RTM_DELROUTE) (NLM_F_REQUEST .| NLM_F_CREATE .| NLM_F_ACK);
  '(buf, rtm) ← lift (mnl_nlmsg_put_extra_header buf 0 sizeof_rtmsg);
  buf ← lift (st8 buf rtm family);
  buf ← lift (st8 buf (rtm + 1) prefix);
  buf ← lift (st8 buf (rtm + 2) 0);
  buf ← lift (st8 buf (rtm + 3) 0);
  buf ← lift (st8 buf (rtm + 5) RTPROT_STATIC);
  buf ← lift (st8 buf (rtm + 4) RT_TABLE_MAIN);
  buf ← lift (st8 buf (rtm + 7) RTN_UNICAST);
  buf ← lift (st8 buf (rtm + 6) (match gwaddr with Some _ => RT_SCOPE_UNIVERSE | None => RT_SCOPE_LINK end));
  buf ← lift (st32 buf (rtm + 8) 0);
  buf ← lift (if family =? AF_INET then mnl_attr_put_u32 buf 0 RTA_DST (addr_ip dstaddr) else mnl_attr_put buf 0 RTA_DST (take 16 dstaddr));
  buf ← lift (mnl_attr_put_u32 buf 0 RTA_OIF iface);
  buf ← lift (match gwaddr with
    | None => Some buf
    | Some gw => if family =? AF_INET then mnl_attr_put_u32 buf 0 RTA_GATEWAY (addr_ip gw) else mnl_attr_put buf 0 RTA_GATEWAY (take 16 gw) end);
  transact buf seq.
Definition in6addr_any : bytes := replicate 16 0.
Definition if_set_default_route_v4 (ifname : bytes) : MF Z := if_act_on_route true AF_INET ifname in6addr_any 0 None.
Definition if_del_default_route_v4 (ifname : bytes) : MF Z := if_act_on_route false AF_INET ifname in6addr_any 0 None.
Definition if_set_default_route_v6 (ifname : bytes) : MF Z := if_act_on_route true AF_INET6 ifname in6addr_any 0 None.
Definition if_del_default_route_v6 (ifname : bytes) : MF Z := if_act_on_route false AF_INET6 ifname in6addr_any 0 None.
Definition gw_v4 (gwaddr : Z) : bytes := enc32 gwaddr ++ replicate 12 0.
Definition if_set_route_gw_v4 (ifname : bytes) (gwaddr : Z) : MF Z := if_act_on_route true AF_INET ifname in6addr_any 0 (Some (gw_v4 gwaddr)).
Definition if_del_route_gw_v4 (ifname : bytes) (gwaddr : Z) : MF Z := if_act_on_route false AF_INET ifname in6addr_any 0 (Some (gw_v4 gwaddr)).
Definition if_set_route_gw_v6 (ifname gwaddr : bytes) : MF Z := if_act_on_route true AF_INET6 ifname in6addr_any 0 (Some (take 16 gwaddr)).
Definition if_del_route_gw_v6 (ifname gwaddr : bytes) : MF Z := if_act_on_route false AF_INET6 ifname in6addr_any 0 (Some (take 16 gwaddr)).

(** *** Name servers and the whole network *)
Definition name_server (dns : bytes) : bytes := snprintf 128 (str "nameserver " ++ dns ++ [10]).
Definition if_set_dns (dns1 dns2 : option bytes) : MF Z :=
  ok ← asks k_resolv; if negb ok then mret (-1) else
  let buf := match dns1 with Some d => name_server d | None => [] end in
  let buf := match dns2 with Some d => name_server d | None => buf end in
  w ← asks k_write;
  act (Resolv (if w : bool then buf else []));;
  mret (if w && bool_decide (buf <> []) then 0 else -1).
(** Both texts are in one static buffer: it holds the one converted last. *)
Definition both {A} (text : A -> bytes) (dns1 dns2 : A) : option bytes * option bytes :=
  let buf := if k_last_first then text dns1 else text dns2 in (Some buf, Some buf).

Definition if_set_network_v4 (ifname : bytes) (ipaddr prefix gwaddr dns1 dns2 : Z) : MF Z :=
  _ ← if_link_up ifname; _ ← if_set_addr_v4 ifname ipaddr prefix; _ ← if_set_default_route_v4 ifname;
  let '(d1, d2) := both ipaddr_to_string_v4 dns1 dns2 in
  _ ← if_set_dns d1 d2; mret 0.
Definition if_set_network_v6 (ifname ipaddr : bytes) (prefix : Z) (gwaddr dns1 dns2 : bytes) : MF Z :=
  _ ← if_link_up ifname; _ ← if_set_addr_v6 ifname ipaddr prefix; _ ← if_set_default_route_v6 ifname;
  let '(d1, d2) := both ipaddr_to_string_v6 dns1 dns2 in
  _ ← if_set_dns d1 d2; mret 0.
End IfUtils.
