(* ===== verification/IfUtilsSpec.v ===== *)
(** * Requests over netlink: what reaches the kernel (IfUtils.v).
    A kernel that answers is the class [Serving]; a request is a [request] and its bytes are [wire]. *)
From S2P Require Import Prelude Util Monad Text Mnl MnlSpec IfUtils.
#[local] Open Scope Z_scope.
#[local] Open Scope c_scope.

(** ** What was done *)
Definition sent (l : list action) : list bytes := omap (fun a => match a with NlSend _ m => Some m | _ => None end) l.
Definition resolv (l : list action) : list bytes := omap (fun a => match a with Resolv t => Some t | _ => None end) l.
(** Sockets opened less sockets closed. *)
Definition held (l : list action) : Z :=
  foldr (fun a n => match a with NlOpen _ | InetOpen _ => 1 | NlClose _ => -1 | _ => 0 end + n) 0 l.
Lemma sent_app l k : sent (l ++ k) = sent l ++ sent k.
Proof. apply omap_app. Qed.
Lemma resolv_app l k : resolv (l ++ k) = resolv l ++ resolv k.
Proof. apply omap_app. Qed.
Lemma held_app l k : held (l ++ k) = held l + held k.
Proof. unfold held. induction l as [|a l IH]; [done|]. cbn [app foldr]. rewrite IH. lia. Qed.

Section Requests.
Context {host : Host}.

Inductive request :=
  | Link (name : bytes) (up : bool)
  | Mtu (index mtu : Z)
  | Addr (new : bool) (family index prefix : Z) (addr : bytes)
  | Route (new : bool) (family index prefix : Z) (dst : bytes) (gw : option bytes).
Definition request_hdr (r : request) (seq : Z) : hdr :=
  let '(t, f) := match r with
    | Link _ _ | Mtu _ _ => (RTM_NEWLINK, 5)
    | Addr new _ _ _ _ => (if new then RTM_NEWADDR else RTM_DELADDR, 0x505)
    | Route new _ _ _ _ _ => (if new then RTM_NEWROUTE else RTM_DELROUTE, 0x405) end in
  {| h_type := t; h_flags := f; h_seq := seq; h_pid := 0 |}.
(** [ifinfomsg], [ifaddrmsg] and [rtmsg]. *)
Definition request_extra (r : request) : bytes :=
  match r with
  | Link _ up => [0; 0; 0; 0; 0; 0; 0; 0] ++ enc32 (if up then 1 else 0) ++ enc32 1
  | Mtu index _ => [0; 0; 0; 0] ++ enc32 index ++ [0; 0; 0; 0; 255; 255; 255; 255]
  | Addr _ family index prefix _ => [u8 family; u8 prefix; 0x80; 0] ++ enc32 index
  | Route _ family _ prefix _ gw => [u8 family; u8 prefix; 0; 0; 254; 4; match gw with Some _ => 0 | None => 253 end; 1; 0; 0; 0; 0]
  end.
(** An IPv4 address is named twice. *)
Definition request_attrs (r : request) : list (Z * bytes) :=
  match r with
  | Link name _ => [(3, name)]
  | Mtu _ mtu => [(4, enc32 mtu)]
  | Addr _ family _ _ a => if family =? AF_INET then [(2, a); (1, a)] else [(1, a)]
  | Route _ _ index _ dst gw => [(1, dst); (4, enc32 index)] ++ match gw with Some g => [(5, g)] | None => [] end
  end.
Definition wire (seq : Z) (r : request) : bytes := message (request_hdr r seq) (request_extra r) (request_attrs r).

Lemma extra_mod r : zlen (request_extra r) mod 4 = 0.
Proof. destruct r; cbn [request_extra]; rewrite ?zlen_app, ?zlen_enc32; done. Qed.

(** ** Filling the extra header *)
Lemma store_extra h ex ex' rest i j bs : j = 16 + i -> sts ex i bs = Some ex' ->
  sts (message h ex [] ++ rest) j bs = Some (message h ex' [] ++ rest).
Proof.
  intros -> E. pose proof (sts_length _ _ _ _ E) as El. destruct (sts_app_inv _ _ _ _ E) as (p & old & s & -> & -> & Ep & Eo).
  unfold message. rewrite El. set (k := header _ h). cbn [attrs_bytes map concat]. rewrite !app_nil_r, <- !app_assoc, (app_assoc k).
  rewrite (sts_app (k ++ p) old) by (rewrite ?zlen_app; unfold k; rewrite ?zlen_header; lia). by rewrite <- !app_assoc.
Qed.

Section Kernel.
Context {nl : Netlink}.

(** A kernel that gives sockets and answers each request that asks for it, with an error or none.  [sv_pid]: the port of a socket, given what was done before;
    after an error the whole request comes back, and its header alone otherwise; [sv_flags]: the flags of the answer. *)
Class Serving := {
  sv_pid : list action -> Z -> Z; sv_error : list action -> bytes -> Z; sv_flags : list action -> bytes -> Z;
  sv_pid_ok : forall l fd, is_u32 (sv_pid l fd);
  sv_error_ok : forall l m, 0 <= sv_error l m < 4096;
  sv_flags_ok : forall l m, is_u16 (sv_flags l m) /\ sv_flags l m .& NLM_F_DUMP_INTR = 0;
  sv_stack : 4096 <= zlen k_stack <= 8192;
  sv_calloc : forall l, k_calloc l = true;
  sv_socket : forall l domain type protocol, 0 <= k_socket l domain type protocol;
  sv_bind : forall l, k_bind l = 0;
  sv_name : forall l fd, k_getsockname l fd = Some (AF_NETLINK, sv_pid l fd, sizeof_sockaddr_nl);
  sv_send : forall l m, 0 <= k_sendto l m;
  sv_answer : forall l fd h ex attrs, hdr_ok h -> h_flags h .& NLM_F_ACK <> 0 -> zlen (message h ex attrs) <= 8192 ->
    let m := message h ex attrs in
    k_recvmsg (l ++ [NlSend fd m]) =
      Some (ack {| h_type := NLMSG_ERROR; h_flags := sv_flags l m; h_seq := h_seq h; h_pid := sv_pid l fd |} (- sv_error l m)
        (if sv_error l m =? 0 then take 16 m else m), false, sizeof_sockaddr_nl) }.
Context {serving : Serving}.

Definition doing_acts (fd : Z) (m : bytes) : list action := [NlOpen fd; NlBind fd; NlSend fd m; NlRecv fd].
(** The request went out once, on a socket of its own, which is closed when the kernel agreed. *)
Definition performed (s : ifstate) (m : bytes) (ret : Z) (s' : ifstate) : Prop :=
  exists fd e, 0 <= e < 4096 /\ e = sv_error (f_acts s ++ [NlOpen fd; NlBind fd]) m /\ ret = (if e =? 0 then 0 else -1) /\
    s' = s <| f_acts := f_acts s ++ doing_acts fd m ++ (if e =? 0 then [NlClose fd] else []) |>.

Lemma act_run a s : act a s = Some (tt, s <| f_acts := f_acts s ++ [a] |>).
Proof. done. Qed.
Lemma acts_twice (s : ifstate) l k : s <| f_acts := l |> <| f_acts := k |> = s <| f_acts := k |>.
Proof. by destruct s. Qed.

(** The descriptors that the next sockets get. *)
Definition nl_next (l : list action) : Z := k_socket l AF_NETLINK SOCK_RAW NETLINK_ROUTE.
Definition inet_next (l : list action) : Z := k_socket l AF_INET (SOCK_DGRAM .| SOCK_CLOEXEC) 0.

Lemma open_serves s : let fd := nl_next (f_acts s) in
  mnl_socket_open NETLINK_ROUTE s = Some (Some {| nl_fd := fd; nl_pid := 0 |}, s <| f_acts := f_acts s ++ [NlOpen fd] |>).
Proof.
  unfold mnl_socket_open, __mnl_socket_open. erewrite bind_step by reflexivity. rewrite sv_calloc. cbn [negb]. erewrite bind_step by reflexivity.
  change (SOCK_RAW .| 0) with SOCK_RAW. fold (nl_next (f_acts s)). assert (0 <= nl_next (f_acts s)) by apply sv_socket. rewrite (proj2 (Z.eqb_neq _ (-1))) by lia. by erewrite bind_step by apply act_run.
Qed.
Lemma bind_serves s fd pid :
  mnl_socket_bind {| nl_fd := fd; nl_pid := pid |} 0 s =
    Some ((0, {| nl_fd := fd; nl_pid := sv_pid (f_acts s ++ [NlBind fd]) fd |}), s <| f_acts := f_acts s ++ [NlBind fd] |>).
Proof.
  unfold mnl_socket_bind. erewrite bind_step by reflexivity. erewrite bind_step by apply act_run. cbn [nl_fd]. rewrite sv_bind.
  change (0 <? 0) with false. cbv iota. erewrite bind_step by reflexivity. cbv beta. rewrite sv_name. by destruct s.
Qed.
Lemma recv_serves s fd pid buf data : k_recvmsg (f_acts s) = Some (data, false, sizeof_sockaddr_nl) -> zlen data <= zlen buf ->
  mnl_socket_recvfrom {| nl_fd := fd; nl_pid := pid |} buf s =
    Some ((zlen data, data ++ drop (length data) buf), s <| f_acts := f_acts s ++ [NlRecv fd] |>).
Proof.
  intros E Hl. unfold mnl_socket_recvfrom. erewrite bind_step by reflexivity. erewrite bind_step by apply act_run. rewrite E. cbv beta iota zeta.
  rewrite take_ge by (unfold zlen in *; lia). done.
Qed.

Lemma transact_serves s h ex attrs rest seq :
  hdr_ok h -> h_flags h .& NLM_F_ACK <> 0 -> h_seq h = seq -> is_u32 seq -> zlen ex mod 4 = 0 ->
  zlen (message h ex attrs) + zlen rest = zlen k_stack -> 20 <= zlen rest ->
  exists ret s', transact (message h ex attrs ++ rest) seq s = Some (ret, s') /\ performed s (message h ex attrs) ret s'.
Proof.
  intros Hh Hf Hseq Hsq He Hl Hrest. set (m := message h ex attrs) in *. pose proof sv_stack as Hst. pose proof (zlen_nonneg rest). pose proof (zlen_nonneg m).
  assert (is_u32 (zlen m)) as Hu by (unfold is_u32; change (2 ^ 32) with 4294967296; lia).
  set (fd := nl_next (f_acts s)). assert (0 <= fd) as Hfd by apply sv_socket.
  set (s1 := s <| f_acts := f_acts s ++ [NlOpen fd] |>). set (s2 := s1 <| f_acts := f_acts s1 ++ [NlBind fd] |>).
  assert (f_acts s2 = f_acts s ++ [NlOpen fd; NlBind fd]) as E2 by (unfold s2, s1; destruct s; cbn; by rewrite <- app_assoc).
  set (s3 := s2 <| f_acts := f_acts s2 ++ [NlSend fd m] |>). set (s4 := s3 <| f_acts := f_acts s3 ++ [NlRecv fd] |>).
  set (e := sv_error (f_acts s2) m). pose proof (sv_error_ok (f_acts s2) m) as Hee. fold e in Hee.
  set (pid := sv_pid (f_acts s2) fd). set (echo := if e =? 0 then take 16 m else m).
  set (a := ack {| h_type := NLMSG_ERROR; h_flags := sv_flags (f_acts s2) m; h_seq := h_seq h; h_pid := pid |} (- e) echo).
  assert (16 <= zlen m) as H16 by (unfold m; rewrite zlen_message; pose proof (zlen_nonneg ex); pose proof (zlen_nonneg (attrs_bytes attrs)); lia).
  assert (16 <= zlen echo <= zlen m /\ zlen echo mod 4 = 0) as [He1 He2].
  { unfold echo. destruct (e =? 0); [|split; [lia | by apply message_mod]]. assert (zlen (take 16 m) = 16) as ->; [|by split].
    unfold zlen in *. rewrite length_take. lia. }
  assert (zlen a = 20 + zlen echo) as Ha by (unfold a, ack; rewrite zlen_packet, zlen_app, zlen_enc32; lia).
  exists (if e =? 0 then 0 else -1), (if e =? 0 then s4 <| f_acts := f_acts s4 ++ [NlClose fd] |> else s4). split.
  - unfold transact. erewrite bind_step by apply open_serves. fold fd. fold s1. cbv beta iota.
    erewrite bind_step by apply bind_serves. fold s2. cbv beta iota zeta. change (0 <? 0) with false. cbv iota.
    assert (sv_pid (f_acts s1 ++ [NlBind fd]) fd = pid) as -> by (unfold pid, s2; by destruct s1).
    erewrite bind_step by (unfold lift; unfold m; rewrite message_len by done; reflexivity). cbv beta.
    erewrite bind_step by (unfold lift; rewrite lds_app_0 by done; reflexivity). cbv beta. fold m.
    erewrite bind_step by (unfold mnl_socket_sendto; erewrite bind_step by reflexivity; erewrite bind_step by apply act_run; reflexivity).
    cbv beta. cbn [nl_fd]. fold s3. rewrite (proj2 (Z.ltb_ge _ 0)) by apply sv_send.
    erewrite bind_step.
    2: { apply (recv_serves _ _ _ _ a); [|rewrite zlen_app; lia].
         assert (f_acts s3 = f_acts s2 ++ [NlSend fd m]) as -> by (unfold s3; by destruct s2). apply sv_answer; [done | done | fold m; lia]. }
    fold s4. cbv beta iota. rewrite Ha, (proj2 (Z.eqb_neq (20 + zlen echo) (-1))) by lia. cbv iota.
    erewrite bind_step.
    2: { unfold lift. unfold a. change (mnl_socket_get_portid _) with pid. rewrite cb_run_ack; [reflexivity | | done | | done | lia | change (2 ^ 31) with 2147483648; lia].
         - split; [|split; [|split]]; cbn; try tauto; [|apply sv_flags_ok].
           split_and!; cbn; [split; [done | reflexivity] | apply sv_flags_ok | by rewrite Hseq | apply sv_pid_ok].
         - change (2 ^ 31) with 2147483648. lia. }
    cbv beta iota. destruct (Z.eqb_spec e 0) as [->|N].
    + rewrite Z.opp_0. change (0 =? 0) with true. cbv iota. change (0 =? -1) with false. cbv iota. erewrite bind_step by apply act_run. done.
    + rewrite (proj2 (Z.eqb_neq (- e) 0)) by lia. done.
  - exists fd, e. split; [done|]. split; [unfold e; by rewrite E2|]. split; [done|]. unfold s4, s3, s2, s1, doing_acts. destruct s.
    destruct (e =? 0); cbn; rewrite <- ?app_assoc; done.
Qed.

(** ** The requests *)
Lemma start_request_is s type flags : is_u16 type -> is_u16 flags ->
  let h := {| h_type := type; h_flags := flags; h_seq := u32 (k_time (f_acts s)); h_pid := 0 |} in
  exists rest, start_request type flags s = Some ((message h [] [] ++ rest, h_seq h), s) /\ 16 + zlen rest = zlen k_stack.
Proof.
  intros Ht Hf h. pose proof sv_stack. destruct (put_header_is k_stack) as (rest & E & Hl); [lia|]. exists rest. split; [|lia].
  unfold start_request. rewrite E, bind_lift. unfold message, header, rest_of, st16, st32. cbn [attrs_bytes map concat h_type h_flags h_seq h_pid].
  set (len := enc32 _). assert (zlen len = 4) by apply zlen_enc32. rewrite !app_nil_r, <- !app_assoc.
  rewrite (sts_app len (enc16 0)) by (rewrite ?zlen_enc16; done). rewrite bind_lift, (app_assoc len (enc16 type)).
  rewrite (sts_app (len ++ enc16 type) (enc16 0)) by (rewrite ?zlen_app, ?zlen_enc16; lia). rewrite bind_lift.
  unfold asks. rewrite bind_gets, (app_assoc _ (enc16 flags)).
  rewrite (sts_app ((len ++ enc16 type) ++ enc16 flags) (enc32 0)) by (rewrite ?zlen_app, ?zlen_enc16, ?zlen_enc32; lia). rewrite bind_lift.
  by rewrite <- !app_assoc.
Qed.

(** The buffer after the header and an extra header of zeros. *)
Lemma extra_is h rest size : 0 <= size <= 16 -> 16 + zlen rest = zlen k_stack ->
  exists rest', mnl_nlmsg_put_extra_header (message h [] [] ++ rest) 0 size =
      Some (message h (replicate (Z.to_nat (MNL_ALIGN size)) 0) [] ++ rest', 16) /\ 16 + MNL_ALIGN size + zlen rest' = zlen k_stack.
Proof.
  intros Hs Hr. pose proof sv_stack. pose proof (align_le size).
  destruct (put_extra_header_is h [] rest size eq_refl) as (rest' & E & Hl); [lia | lia | change (2 ^ 32) with 4294967296; lia|].
  exists rest'. split; [done | lia].
Qed.
(** An attribute put into the stack buffer. *)
Lemma put_is h ex l rest t v : attr_ok (t, v) -> zlen ex mod 4 = 0 -> zlen (message h ex l) + zlen rest = zlen k_stack ->
  zlen (message h ex l) + need v <= 4096 ->
  exists rest', mnl_attr_put (message h ex l ++ rest) 0 t v = Some (message h ex (l ++ [(t, v)]) ++ rest') /\
    zlen (message h ex (l ++ [(t, v)])) + zlen rest' = zlen k_stack.
Proof.
  intros Ha He Hl Hn. pose proof sv_stack.
  destruct (attr_put_is h ex l rest t v Ha He) as (rest' & E & Hr); [change (2 ^ 32) with 4294967296; lia | lia|].
  exists rest'. split; [done|]. rewrite !zlen_message, attrs_snoc, zlen_app, zlen_attr in *. cbn [snd]. lia.
Qed.

Ltac begin_request s type flags h r L :=
  let E := fresh in
  destruct (start_request_is s type flags) as (r & E & L); [(assumption || (split; done))..|]; erewrite bind_step by exact E; clear E; cbv beta iota;
  set (h := {| h_type := type |}) in *.
Ltac extra_header h r r' L' L :=
  let E := fresh in
  match goal with |- context [mnl_nlmsg_put_extra_header _ 0 ?size] =>
    destruct (extra_is h r size) as (r' & E & L'); [by split | exact L|]; rewrite E, bind_lift; clear E; cbv beta iota;
    let n := eval vm_compute in (Z.to_nat (MNL_ALIGN size)) in change (Z.to_nat (MNL_ALIGN size)) with n; cbn [replicate]
  end.
Ltac field i := erewrite (store_extra _ _ _ _ i) by reflexivity; rewrite bind_lift.
Ltac extra_is_request q r tac :=
  match goal with |- context [message _ ?ex [] ++ r] => assert (ex = request_extra q) as -> by tac end.
Ltac put_more r r' L' E :=
  match goal with |- context [mnl_attr_put (message ?h ?ex ?l ++ r) 0 ?t ?v] =>
    destruct (put_is h ex l r t v) as (r' & E & L'); [| apply extra_mod | | |]
  end.
Ltac put_one r r' L' := let E := fresh in put_more r r' L' E; [| | | rewrite E, bind_lift; clear E].

Definition extra_size (q : request) : Z := match q with Link _ _ | Mtu _ _ => 16 | Addr _ _ _ _ _ => 8 | Route _ _ _ _ _ _ => 12 end.
Lemma zlen_extra q : zlen (request_extra q) = extra_size q.
Proof. destruct q; cbn [request_extra]; by rewrite ?zlen_app, ?zlen_enc32. Qed.
Lemma zlen_attrs_cons a l : zlen (attrs_bytes (a :: l)) = need a.2 + zlen (attrs_bytes l).
Proof. unfold attrs_bytes. cbn [map concat]. by rewrite zlen_app, zlen_attr. Qed.
Lemma first_length h q : zlen (message h (request_extra q) []) = 16 + extra_size q.
Proof. rewrite zlen_message, zlen_extra. change (zlen (attrs_bytes [])) with 0. lia. Qed.
(** Requests whose answer has room in the buffer, however much of them it repeats. *)
Definition small (q : request) : Prop :=
  match q with
  | Link name _ => zlen name <= 1000 | Mtu _ _ => True | Addr _ _ _ _ a => zlen a <= 16
  | Route _ _ _ _ dst gw => zlen dst <= 16 /\ (forall g, gw = Some g -> zlen g <= 16)
  end.
Lemma wire_small seq q : small q -> zlen (wire seq q) <= 2000.
Proof.
  intros H. unfold wire. rewrite zlen_message, zlen_extra. destruct q as [name up|index mtu|new family index prefix a|new family index prefix dst gw]; cbn [request_attrs extra_size].
  - cbn in H. rewrite zlen_attrs_cons. change (zlen (attrs_bytes [])) with 0. unfold need. cbn [snd]. pose proof (align_le (zlen name)). lia.
  - rewrite zlen_attrs_cons. change (zlen (attrs_bytes [])) with 0. unfold need. cbn [snd]. rewrite zlen_enc32. change (MNL_ALIGN 4) with 4. lia.
  - cbn in H. pose proof (align_le (zlen a)).
    destruct (family =? AF_INET); rewrite !zlen_attrs_cons; change (zlen (attrs_bytes [])) with 0; unfold need; cbn [snd]; lia.
  - destruct H as [Hd Hg]. pose proof (align_le (zlen dst)). destruct gw as [g|]; cbn [app].
    + specialize (Hg g eq_refl). pose proof (align_le (zlen g)). rewrite !zlen_attrs_cons. change (zlen (attrs_bytes [])) with 0. unfold need. cbn [snd].
      rewrite zlen_enc32. change (MNL_ALIGN 4) with 4. lia.
    + rewrite !zlen_attrs_cons. change (zlen (attrs_bytes [])) with 0. unfold need. cbn [snd]. rewrite zlen_enc32. change (MNL_ALIGN 4) with 4. lia.
Qed.
Lemma request_sent s q rest seq :
  is_u32 seq -> small q -> zlen (wire seq q) + zlen rest = zlen k_stack ->
  exists ret s', transact (wire seq q ++ rest) seq s = Some (ret, s') /\ performed s (wire seq q) ret s'.
Proof.
  intros Hs Hq Hl. pose proof (wire_small seq q Hq). pose proof sv_stack.
  apply transact_serves; [by destruct q as [| |[]|[]] | destruct q; cbn; try destruct new; discriminate | by destruct q | done | apply extra_mod | done | unfold wire in *; lia].
Qed.
Ltac finish_request := apply request_sent; [apply u32_range | | done].

Lemma link_up_sends name (up : bool) s : zlen name <= 1000 -> f_oldstate s <> (if up then 1 else 0) ->
  exists ret s', if_act_on_link name (if up then 1 else 0) s = Some (ret, s') /\
    performed (s <| f_oldstate := if up then 1 else 0 |>) (wire (u32 (k_time (f_acts s))) (Link name up)) ret s'.
Proof.
  intros Hn Ho. set (v := if up then 1 else 0) in *. unfold if_act_on_link. rewrite bind_gets, (proj2 (Z.eqb_neq _ _)) by done.
  rewrite bind_modify. set (s1 := s <| f_oldstate := v |>).
  begin_request s1 RTM_NEWLINK 5 h r1 L1.
  extra_header h r1 r2 L2 L1.
  destruct (enc32_four (if v =? 0 then 0 else IFF_UP)) as (a & b & c & d & Ef). destruct (enc32_four IFF_UP) as (a' & b' & c' & d' & Eu).
  unfold st8, st32. rewrite Ef, Eu. field 0. field 12. field 8.
  extra_is_request (Link name up) r2 ltac:(cbn [request_extra]; replace (if up then 1 else 0) with (if v =? 0 then 0 else IFF_UP) by (by destruct up); change (enc32 1) with (enc32 IFF_UP); by rewrite Ef, Eu).
  unfold mnl_attr_put_str. put_one r2 r3 L3; [by split; [|cbn; lia] | by rewrite first_length | rewrite first_length; unfold need; cbn; pose proof (align_le (zlen name)); lia |].
  change h with (request_hdr (Link name up) (u32 (k_time (f_acts s)))) in *. finish_request. done.
Qed.

Lemma enc32_zero : enc32 0 = [0; 0; 0; 0].
Proof. unfold enc32, native. by destruct is_bigendian. Qed.
Lemma enc16_zero : enc16 0 = [0; 0].
Proof. unfold enc16, native. by destruct is_bigendian. Qed.
Lemma enc32_ones : enc32 0xffffffff = [255; 255; 255; 255].
Proof. unfold enc32, native. by destruct is_bigendian. Qed.

Lemma set_mtu_sends ifname mtu s :
  f_oldmtu s <> mtu -> k_index (f_acts s) ifname <> 0 ->
  exists ret s', if_set_mtu ifname mtu s = Some (ret, s') /\
    performed (s <| f_oldmtu := mtu |>) (wire (u32 (k_time (f_acts s))) (Mtu (k_index (f_acts s) ifname) mtu)) ret s'.
Proof.
  intros Ho Hi. unfold if_set_mtu. rewrite bind_gets, (proj2 (Z.eqb_neq _ _)) by done. rewrite bind_modify. set (s1 := s <| f_oldmtu := mtu |>).
  unfold asks at 1. rewrite bind_gets. change (f_acts s1) with (f_acts s). set (iface := k_index _ _) in *. rewrite (proj2 (Z.eqb_neq _ _)) by done.
  begin_request s1 RTM_NEWLINK 5 h r1 L1. extra_header h r1 r2 L2 L1.
  destruct (enc32_four iface) as (a & b & c & d & Ef).
  unfold st8, st16, st32. rewrite Ef, enc32_ones, enc32_zero, enc16_zero. field 0. field 4. field 12. field 8. field 2.
  extra_is_request (Mtu iface mtu) r2 ltac:(cbn [request_extra]; by rewrite Ef).
  unfold mnl_attr_put_u32. put_one r2 r3 L3; [by split; [|cbn; rewrite zlen_enc32] | by rewrite first_length | by rewrite first_length; unfold need; rewrite zlen_enc32 |].
  change h with (request_hdr (Mtu iface mtu) (u32 (k_time (f_acts s)))) in *. finish_request. done.
Qed.

Lemma addr_ip_v4 ip rest : is_u32 ip -> addr_ip (enc32 ip ++ rest) = ip.
Proof. intros H. unfold addr_ip. pose proof (zlen_enc32 ip). rewrite take_app_le by (unfold zlen in *; lia). rewrite take_ge by (unfold zlen in *; lia). by apply dec_enc32. Qed.

Lemma addr_sends new family ifname (a v : bytes) prefix s :
  (if family =? AF_INET then v = enc32 (addr_ip a) else v = take 16 a /\ zlen v = 16) ->
  k_index (f_acts s) ifname <> 0 ->
  exists ret s', if_act_on_addr new family ifname a prefix s = Some (ret, s') /\
    performed s (wire (u32 (k_time (f_acts s))) (Addr new family (k_index (f_acts s) ifname) prefix v)) ret s'.
Proof.
  intros Hv Hi. unfold if_act_on_addr, asks at 1. rewrite bind_gets. set (iface := k_index _ _) in *. rewrite (proj2 (Z.eqb_neq _ _)) by done.
  assert (is_u16 (if new then RTM_NEWADDR else RTM_DELADDR)) as Hty by (by destruct new).
  begin_request s (if new then RTM_NEWADDR else RTM_DELADDR) 0x505 h r1 L1. extra_header h r1 r2 L2 L1.
  destruct (enc32_four iface) as (x & y & z & w & Ef).
  unfold st8, st32. rewrite Ef. field 0. field 1. field 2. field 3. field 4.
  set (q := Addr new family iface prefix v).
  extra_is_request q r2 ltac:(cbn [request_extra q]; by rewrite Ef).
  assert (h = request_hdr q (u32 (k_time (f_acts s)))) as Eh by done. clearbody h. subst h.
  set (h := request_hdr q _) in *.
  assert (exists r, (if family =? AF_INET then
      (buf ← lift (mnl_attr_put_u32 (message h (request_extra q) [] ++ r2) 0 IFA_LOCAL (addr_ip a));
       lift (mnl_attr_put_u32 buf 0 IFA_ADDRESS (addr_ip a)))
    else lift (mnl_attr_put (message h (request_extra q) [] ++ r2) 0 IFA_ADDRESS (take 16 a))) s =
    Some (wire (u32 (k_time (f_acts s))) q ++ r, s) /\ zlen (wire (u32 (k_time (f_acts s))) q) + zlen r = zlen k_stack) as (r & Eb & Lr).
  { unfold wire. fold h. destruct (family =? AF_INET) eqn:Ff.
    - assert (zlen v = 4) as L by (by rewrite Hv, zlen_enc32). unfold mnl_attr_put_u32. rewrite <- Hv.
      put_one r2 r3 L3; [by split; [|cbn; rewrite L] | by rewrite first_length | by rewrite first_length; unfold need; rewrite L|].
      put_more r3 r4 L4 E4; [by split; [|cbn; rewrite L] | done | rewrite zlen_message, zlen_extra; cbn [app]; rewrite zlen_attrs_cons; unfold need; cbn [snd]; by rewrite L|].
      rewrite E4. exists r4. assert (request_attrs q = [(2, v); (1, v)]) as -> by (unfold q; cbn [request_attrs]; by rewrite Ff). done.
    - destruct Hv as [Hv L]. rewrite <- Hv.
      put_more r2 r3 L3 E3; [by split; [|cbn; rewrite L] | by rewrite first_length | by rewrite first_length; unfold need; rewrite L|].
      rewrite E3. exists r3. assert (request_attrs q = [(1, v)]) as -> by (unfold q; cbn [request_attrs]; by rewrite Ff). done. }
  erewrite bind_step by exact Eb. finish_request. unfold q, small. destruct (family =? AF_INET); [rewrite Hv, zlen_enc32; lia | destruct Hv; lia].
Qed.

Ltac sizes q n := change (extra_size q) with n; change (zlen (attrs_bytes [])) with 0; change (MNL_ALIGN 4) with 4.
(** Routes to everywhere, as the code asks for them: through a gateway or over the link. *)
Lemma route_sends new family ifname (gw : option bytes) g s :
  g = (if family =? AF_INET then (fun a => enc32 (addr_ip a)) <$> gw else take 16 <$> gw) ->
  (forall v, g = Some v -> zlen v <= 16) -> k_index (f_acts s) ifname <> 0 ->
  let dst := if family =? AF_INET then [0; 0; 0; 0] else replicate 16 0 in
  exists ret s', if_act_on_route new family ifname in6addr_any 0 gw s = Some (ret, s') /\
    performed s (wire (u32 (k_time (f_acts s))) (Route new family (k_index (f_acts s) ifname) 0 dst g)) ret s'.
Proof.
  intros Hg Hl Hi dst. unfold if_act_on_route, asks at 1. rewrite bind_gets. set (iface := k_index _ _) in *. rewrite (proj2 (Z.eqb_neq _ _)) by done.
  assert (is_u16 (if new then RTM_NEWROUTE else RTM_DELROUTE)) as Hty by (by destruct new).
  begin_request s (if new then RTM_NEWROUTE else RTM_DELROUTE) 0x405 h r1 L1. extra_header h r1 r2 L2 L1.
  unfold st8, st32. rewrite enc32_zero. field 0. field 1. field 2. field 3. field 5. field 4. field 7. field 6. field 8.
  set (q := Route new family iface 0 dst g).
  extra_is_request q r2 ltac:(cbn [request_extra q]; rewrite Hg; by destruct gw, (family =? AF_INET)).
  assert (h = request_hdr q (u32 (k_time (f_acts s)))) as Eh by done. clearbody h. subst h. set (h := request_hdr q _) in *.
  assert ((if family =? AF_INET then mnl_attr_put_u32 (message h (request_extra q) [] ++ r2) 0 RTA_DST (addr_ip in6addr_any)
    else mnl_attr_put (message h (request_extra q) [] ++ r2) 0 RTA_DST (take 16 in6addr_any)) =
    mnl_attr_put (message h (request_extra q) [] ++ r2) 0 RTA_DST dst) as ->.
  { unfold dst. destruct (family =? AF_INET); [|done]. unfold mnl_attr_put_u32.
    assert (addr_ip in6addr_any = 0) as -> by (unfold addr_ip, dec_native, native; by destruct is_bigendian). by rewrite enc32_zero. }
  assert (zlen dst <= 16) as Ld by (unfold dst; by destruct (family =? AF_INET)). pose proof (align_le (zlen dst)).
  put_one r2 r3 L3; [by split; [|cbn; lia] | by rewrite first_length | rewrite first_length; unfold need; cbn; lia|].
  match goal with |- context [mnl_attr_put_u32 ?b 0 RTA_OIF iface] =>
    change (mnl_attr_put_u32 b 0 RTA_OIF iface) with (mnl_attr_put b 0 RTA_OIF (enc32 iface)) end.
  put_one r3 r4 L4; [by split; [|cbn; rewrite zlen_enc32] | done | rewrite zlen_message, zlen_extra; cbn [app]; rewrite zlen_attrs_cons; unfold need; cbn [snd]; rewrite zlen_enc32; sizes q 12; lia|].
  match goal with |- context [message h (request_extra q) ?l ++ r4] => set (attrs := l) in * end.
  assert (exists r, match gw with
    | None => Some (message h (request_extra q) attrs ++ r4)
    | Some gw => if family =? AF_INET then mnl_attr_put_u32 (message h (request_extra q) attrs ++ r4) 0 RTA_GATEWAY (addr_ip gw)
        else mnl_attr_put (message h (request_extra q) attrs ++ r4) 0 RTA_GATEWAY (take 16 gw) end =
    Some (wire (u32 (k_time (f_acts s))) q ++ r) /\ zlen (wire (u32 (k_time (f_acts s))) q) + zlen r = zlen k_stack) as (r & -> & Lr);
    [|rewrite bind_lift; finish_request; by split].
  unfold wire. fold h. destruct gw as [gw|].
  - assert (exists v, g = Some v /\ (if family =? AF_INET then mnl_attr_put_u32 (message h (request_extra q) attrs ++ r4) 0 RTA_GATEWAY (addr_ip gw)
      else mnl_attr_put (message h (request_extra q) attrs ++ r4) 0 RTA_GATEWAY (take 16 gw)) =
      mnl_attr_put (message h (request_extra q) attrs ++ r4) 0 RTA_GATEWAY v) as (v & Ev & ->).
    { rewrite Hg. destruct (family =? AF_INET); by eexists. }
    specialize (Hl v Ev). pose proof (align_le (zlen v)).
    put_more r4 r5 L5 E5; [by split; [|cbn; lia] | done | |].
    { rewrite zlen_message, zlen_extra. unfold attrs. cbn [app]. rewrite !zlen_attrs_cons. unfold need. cbn [snd]. rewrite zlen_enc32. sizes q 12. lia. }
    rewrite E5. exists r5. assert (request_attrs q = attrs ++ [(5, v)]) as -> by (unfold q; cbn [request_attrs]; by rewrite Ev). done.
  - exists r4. assert (request_attrs q = attrs) as -> by (unfold q; cbn [request_attrs]; rewrite Hg; by destruct (family =? AF_INET)). done.
Qed.

(** What a request adds to the calls: the request itself, and a socket that stays open when the kernel refused it. *)
Lemma performed_sent s m ret s' : performed s m ret s' ->
  sent (f_acts s') = sent (f_acts s) ++ [m] /\ resolv (f_acts s') = resolv (f_acts s) /\
  held (f_acts s') = held (f_acts s) + (if ret =? 0 then 0 else 1) /\ f_oldstate s' = f_oldstate s.
Proof.
  intros (fd & e & He & _ & -> & ->). destruct s as [o t l]. cbn. rewrite sent_app, resolv_app, held_app.
  destruct (e =? 0); cbn; rewrite ?app_nil_r; split_and!; try done; lia.
Qed.
Lemma performed_ok s m ret s' : (forall l m, sv_error l m = 0) -> performed s m ret s' -> ret = 0.
Proof. intros H (fd & e & _ & -> & -> & _). by rewrite H. Qed.
End Kernel.
End Requests.

(** ** The static variable *)
Section Sticks.
Context {host : Host} {nl : Netlink}.
Lemma link_sets_state name v s r s' : if_act_on_link name v s = Some (r, s') -> f_oldstate s' = v.
Proof.
  unfold if_act_on_link. rewrite bind_gets. destruct (Z.eqb_spec v (f_oldstate s)) as [->|]; [by intros [= _ <-]|]. rewrite bind_modify. intros E.
  assert (forall k, keeps f_oldstate k -> k (s <| f_oldstate := v |>) = Some (r, s') -> f_oldstate s' = v) as H by (intros k Hk Ek; by rewrite (Hk _ _ _ Ek)).
  refine (H _ _ E). unfold start_request, asks. repeat (progress frame; cbv zeta).
Qed.
End Sticks.

(** The state of the link is remembered once for all interfaces and before it is set: after a link was set up or down - with success or not -
    the same for any other interface, or once more, reports success and does nothing. *)
Theorem link_state_sticks {host : Host} {nl : Netlink} a b state s r s' :
  if_act_on_link a state s = Some (r, s') -> if_act_on_link b state s' = Some (0, s').
Proof.
  intros E. unfold if_act_on_link. rewrite bind_gets. rewrite (link_sets_state _ _ _ _ _ E). by rewrite Z.eqb_refl.
Qed.

(** ** A whole network *)
(** Requests that went out and were served: every socket is closed again. *)
Definition served (s s' : ifstate) (ms : list bytes) : Prop :=
  sent (f_acts s') = sent (f_acts s) ++ ms /\ resolv (f_acts s') = resolv (f_acts s) /\ held (f_acts s') = held (f_acts s).
Section Network.
Context {host : Host} {nl : Netlink} {serving : Serving} (Hok : forall l m, sv_error l m = 0).
Lemma performed_served s m ret s' : performed s m ret s' -> served s s' [m].
Proof.
  intros H. unfold served. destruct (performed_sent _ _ _ _ H) as (-> & -> & -> & _). rewrite (performed_ok _ _ _ _ Hok H). change (0 =? 0) with true. split_and!; try done. lia.
Qed.
Lemma served_trans s1 s2 s3 l k : served s1 s2 l -> served s2 s3 k -> served s1 s3 (l ++ k).
Proof. intros (A1 & A2 & A3) (B1 & B2 & B3). unfold served. by rewrite B1, B2, B3, A1, A2, A3, app_assoc. Qed.
End Network.

(** The set-up of a network, whether or not the link is thought to be up. *)
Lemma link_up_agrees {host : Host} {nl : Netlink} {serving : Serving} ifname s : (forall l m, sv_error l m = 0) -> zlen ifname <= 1000 ->
  exists s' t, if_link_up ifname s = Some (0, s') /\ f_oldstate s' = 1 /\
    served s s' (if f_oldstate s =? 1 then [] else [wire t (Link ifname true)]).
Proof.
  intros Hok Hn. destruct (Z.eqb_spec (f_oldstate s) 1) as [E|N].
  - exists s, 0. unfold if_link_up, if_act_on_link. rewrite bind_gets, E. split; [done|]. split; [done|]. unfold served. by rewrite app_nil_r.
  - destruct (link_up_sends ifname true s Hn N) as (r & s' & E & P). exists s', (u32 (k_time (f_acts s))).
    destruct (performed_sent _ _ _ _ P) as (_ & _ & _ & Ho). pose proof (performed_served Hok _ _ _ _ P) as A.
    rewrite (performed_ok _ _ _ _ Hok P) in E. split; [exact E|]. split; [by rewrite Ho|]. exact A.
Qed.
Lemma network_v4_is {host : Host} {nl : Netlink} {serving : Serving} ifname idx ipaddr prefix gwaddr dns1 dns2 s :
  (forall l m, sv_error l m = 0) -> (forall l, k_index l ifname = idx) -> idx <> 0 -> (forall l, k_resolv l = true) ->
  (forall l, k_write l = true) -> is_u32 ipaddr -> zlen ifname <= 1000 ->
  exists s' t1 t2 t3, if_set_network_v4 ifname ipaddr prefix gwaddr dns1 dns2 s = Some (0, s') /\
    sent (f_acts s') = sent (f_acts s) ++ (if f_oldstate s =? 1 then [] else [wire t1 (Link ifname true)]) ++
      [wire t2 (Addr true AF_INET idx prefix (enc32 ipaddr)); wire t3 (Route true AF_INET idx 0 [0; 0; 0; 0] None)] /\
    resolv (f_acts s') = resolv (f_acts s) ++ [name_server (ipaddr_to_string_v4 (if k_last_first then dns1 else dns2))] /\
    held (f_acts s') = held (f_acts s).
Proof.
  intros Hok Hidx Hi Hr Hw Hu Hn. unfold if_set_network_v4.
  destruct (link_up_agrees ifname s Hok Hn) as (s1 & t1 & E1 & _ & P1). erewrite bind_step by exact E1.
  destruct (addr_sends true AF_INET ifname (addr_v4 ipaddr) (enc32 ipaddr) prefix s1) as (r2 & s2 & E2 & P2);
    [unfold addr_v4; by rewrite addr_ip_v4 | by rewrite Hidx |]. erewrite bind_step by exact E2.
  destruct (route_sends true AF_INET ifname None None s2) as (r3 & s3 & E3 & P3); [done | done | by rewrite Hidx |].
  erewrite bind_step by exact E3. rewrite Hidx in P2, P3.
  pose proof (served_trans _ _ _ _ _ P1 (served_trans _ _ _ _ _ (performed_served Hok _ _ _ _ P2) (performed_served Hok _ _ _ _ P3))) as (As & Ar & Ah).
  cbn [app] in As. unfold both. set (d := ipaddr_to_string_v4 (if k_last_first then dns1 else dns2)).
  assert ((if k_last_first then ipaddr_to_string_v4 dns1 else ipaddr_to_string_v4 dns2) = d) as -> by (unfold d; by destruct k_last_first).
  unfold if_set_dns, asks. erewrite bind_step.
  2: { rewrite bind_gets, Hr. cbn [negb]. rewrite bind_gets, Hw. erewrite bind_step by apply act_run. reflexivity. }
  exists (s3 <| f_acts := f_acts s3 ++ [Resolv (name_server d)] |>), t1. eexists _, _. split; [reflexivity|]. destruct s3 as [o3 m3 l3]. cbn [f_acts set_field set_acts] in *.
  rewrite sent_app, resolv_app, held_app, As, Ar, Ah. split_and!; [cbn; by rewrite !app_nil_r | done |].
  match goal with |- _ + held [Resolv ?t] = _ => change (held [Resolv t]) with 0 end. by rewrite Z.add_0_r.
Qed.

(** C34: With a kernel that agrees to everything, the set-up of an IPv4 network brings the link up, gives it the address and the prefix, and a
    default route over the interface itself, each in one request whose bytes are these, and every socket is closed; the gateway
    is not used at all, and of the two name servers only one is left in /etc/resolv.conf - the one whose text was made last, for the
    two texts share their buffer. *)
Theorem set_network_v4_requests {host : Host} {nl : Netlink} {serving : Serving} ifname idx ipaddr prefix gwaddr dns1 dns2 s :
  (forall l m, sv_error l m = 0) -> (forall l, k_index l ifname = idx) -> idx <> 0 -> (forall l, k_resolv l = true) ->
  (forall l, k_write l = true) -> is_u32 ipaddr -> zlen ifname <= 1000 -> f_oldstate s <> 1 ->
  exists s' t1 t2 t3, if_set_network_v4 ifname ipaddr prefix gwaddr dns1 dns2 s = Some (0, s') /\
    sent (f_acts s') = sent (f_acts s) ++
      [wire t1 (Link ifname true); wire t2 (Addr true AF_INET idx prefix (enc32 ipaddr)); wire t3 (Route true AF_INET idx 0 [0; 0; 0; 0] None)] /\
    resolv (f_acts s') = resolv (f_acts s) ++ [name_server (ipaddr_to_string_v4 (if k_last_first then dns1 else dns2))] /\
    held (f_acts s') = held (f_acts s).
Proof.
  intros Hok Hidx Hi Hr Hw Hu Hn Ho. destruct (network_v4_is ifname idx ipaddr prefix gwaddr dns1 dns2 s Hok Hidx Hi Hr Hw Hu Hn) as (s' & t1 & t2 & t3 & E & S & R & H).
  rewrite (proj2 (Z.eqb_neq _ _)) in S by done. by exists s', t1, t2, t3.
Qed.
