(* ===== verification/IfFlushSpec.v ===== *)
(** * Flushing the addresses of an interface (IfUtils.v): the dump of the kernel is read and each address of the interface is deleted. *)
From S2P Require Import Prelude Util Monad Text Mnl MnlSpec IfUtils IfUtilsSpec.
#[local] Open Scope Z_scope.
#[local] Open Scope c_scope.

(** ** Reading one address *)
(** A record of the dump: the address is the last attribute of type 1. *)
Record daddr := { d_family : Z; d_prefix : Z; d_flags : Z; d_scope : Z; d_index : Z; d_before : list (Z * bytes); d_ip : bytes; d_after : list (Z * bytes) }.
Definition ip_length (family : Z) : Z := if family =? AF_INET then 4 else 16.
Definition masked (a : Z * bytes) : Z := a.1 .& NLA_TYPE_MASK.

Section Dump.
Context {host : Host}.

Definition d_attrs (d : daddr) : list (Z * bytes) := d_before d ++ (IFA_ADDRESS, d_ip d) :: d_after d.
Definition d_extra (d : daddr) : bytes := [d_family d; d_prefix d; d_flags d; d_scope d] ++ enc32 (d_index d).
Definition daddr_ok (family : Z) (d : daddr) : Prop :=
  d_family d = family /\ is_u32 (d_index d) /\ zlen (d_ip d) = ip_length family /\ Forall is_byte (d_ip d) /\
  Forall attr_ok (d_before d) /\ Forall attr_ok (d_after d) /\ Forall (fun a => masked a <> IFA_ADDRESS) (d_after d).

Lemma zlen_d_extra d : zlen (d_extra d) = 8.
Proof. unfold d_extra. by rewrite zlen_app, zlen_enc32. Qed.

(** The attributes of a message anywhere in a buffer. *)
Lemma parse_visit_at {D} (cb : bytes -> Z -> D -> option (Z * D)) p h ex l s offset data :
  let buf := p ++ message h ex l ++ s in
  hdr_ok h -> Forall attr_ok l -> MNL_ALIGN offset = zlen ex -> zlen ex mod 4 = 0 -> is_u32 (zlen (message h ex l)) ->
  mnl_attr_parse buf cb (zlen p) offset data = visit buf cb l (zlen p + 16 + zlen ex) MNL_CB_OK data.
Proof.
  intros buf Hh F Ho He Hm. assert (nlmsg_len buf (zlen p) = Some (zlen (message h ex l))) as El.
  { unfold buf. rewrite zlen_message, message_packet. rewrite zlen_message in Hm.
    destruct (read_header p h (ex ++ attrs_bytes l) s Hh) as (-> & _); rewrite zlen_app, Z.add_assoc; done. }
  unfold mnl_attr_parse, mnl_nlmsg_get_payload_tail. rewrite El. cbn [mbind option_bind]. rewrite align_id by (by apply message_mod).
  rewrite u32_id by done. unfold mnl_nlmsg_get_payload_offset, MNL_NLMSG_HDRLEN. rewrite Ho, zlen_message.
  set (q := p ++ header (16 + zlen ex + zlen (attrs_bytes l)) h ++ ex).
  assert (zlen p + 16 + zlen ex = zlen q) as -> by (unfold q; rewrite !zlen_app, zlen_header; lia).
  replace (zlen p + (16 + zlen ex + zlen (attrs_bytes l))) with (zlen q + zlen (attrs_bytes l)) by (unfold q; rewrite !zlen_app, zlen_header; lia).
  apply (attr_loop_visit _ _ _ _ s); [unfold buf, message, q; by rewrite <- !app_assoc | done|].
  unfold attr_fuel, buf, message. rewrite !length_app. pose proof (attrs_length l). lia.
Qed.

(** Where the last attribute with an address is. *)
Fixpoint place (l : list (Z * bytes)) (off : Z) (acc : option Z) : option Z :=
  match l with [] => acc | a :: l => place l (off + need a.2) (if masked a =? IFA_ADDRESS then Some off else acc) end.
Lemma place_app l k off acc : place (l ++ k) off acc = place k (off + zlen (attrs_bytes l)) (place l off acc).
Proof.
  revert off acc. induction l as [|a l IH]; intros off acc; [cbn; by rewrite Z.add_0_r|]. cbn [app place]. rewrite IH, zlen_attrs_cons. f_equal. lia.
Qed.
Lemma place_none l off acc : Forall (fun a => masked a <> IFA_ADDRESS) l -> place l off acc = acc.
Proof. intros F. revert off acc. induction F as [|a l Ha F IH]; intros off acc; [done|]. cbn [place]. rewrite (proj2 (Z.eqb_neq _ _)) by done. apply IH. Qed.

Lemma data_attr_cb_at p a s tb : attr_ok a ->
  data_attr_cb (p ++ attr_bytes a ++ s) (zlen p) tb =
    Some (MNL_CB_OK, if IFA_MAX <? masked a then tb else <[Z.to_nat (masked a) := Some (zlen p)]> tb).
Proof.
  intros Ha. destruct (read_attr p a s Ha) as (_ & _ & El & Et & _ & _). unfold data_attr_cb, mnl_attr_type_valid. rewrite Et. cbn [mbind option_bind].
  fold (masked a). destruct (IFA_MAX <? masked a); [done|]. cbn [mbind option_bind]. change (1 <? 0) with false. cbv iota.
  unfold mnl_attr_validate. rewrite bool_decide_eq_false_2 by done. unfold __mnl_attr_validate. rewrite El. cbn [mbind option_bind mnl_attr_data_type_len].
  change (0 <? 0) with false. cbv iota. rewrite (proj2 (Z.ltb_ge _ 0)) by apply zlen_nonneg. cbn [mbind option_bind].
  by destruct (masked a =? IFA_ADDRESS).
Qed.
Lemma masked_nonneg a : attr_ok a -> 0 <= masked a.
Proof. intros [[H _] _]. apply Z.land_nonneg. by left. Qed.
Lemma visit_place l p s ret tb : Forall attr_ok l -> length tb = Z.to_nat (IFA_MAX + 1) ->
  exists ret' tb', visit (p ++ attrs_bytes l ++ s) data_attr_cb l (zlen p) ret tb = Some (ret', tb') /\
    default None (tb' !! Z.to_nat IFA_ADDRESS) = place l (zlen p) (default None (tb !! Z.to_nat IFA_ADDRESS)).
Proof.
  intros F. revert p ret tb. induction F as [|a l Ha F IH]; intros p ret tb Hl; [by eexists _, _|].
  cbn [attrs_bytes map concat visit place]. fold (attrs_bytes l). rewrite <- app_assoc, data_attr_cb_at by done. cbn [mbind option_bind].
  change (MNL_CB_OK <=? MNL_CB_STOP) with false. cbv iota. set (tb1 := if IFA_MAX <? masked a then tb else _).
  destruct (IH (p ++ attr_bytes a) MNL_CB_OK tb1) as (ret' & tb' & E & Ep); [unfold tb1; by destruct (_ <? _); rewrite ?length_insert|].
  rewrite zlen_app, zlen_attr, <- app_assoc in E. rewrite zlen_app, zlen_attr in Ep. exists ret', tb'. split; [exact E|]. rewrite Ep. f_equal.
  unfold tb1. pose proof (masked_nonneg a Ha). change (Z.to_nat (IFA_MAX + 1)) with 12%nat in Hl. unfold IFA_MAX, IFA_ADDRESS.
  destruct (Z.ltb_spec 11 (masked a)); [by rewrite (proj2 (Z.eqb_neq (masked a) 1)) by lia|].
  destruct (Z.eqb_spec (masked a) 1) as [->|N]; [by rewrite list_lookup_insert_eq by (change (Z.to_nat 1) with 1%nat; lia)|].
  by rewrite list_lookup_insert_ne by lia.
Qed.

Lemma place_attrs family d p : daddr_ok family d -> place (d_attrs d) p None = Some (p + zlen (attrs_bytes (d_before d))).
Proof.
  intros (_ & _ & _ & _ & _ & _ & Ha). unfold d_attrs. rewrite place_app. cbn [place]. change (masked (IFA_ADDRESS, d_ip d)) with 1.
  change (1 =? IFA_ADDRESS) with true. cbv iota. by rewrite place_none.
Qed.
Lemma d_attrs_ok family d : daddr_ok family d -> Forall attr_ok (d_attrs d).
Proof.
  intros (_ & _ & Hl & _ & Hb & Ha & _). unfold d_attrs. apply Forall_app. split; [done|]. constructor; [|done]. split; cbn; [done|].
  rewrite Hl. unfold ip_length. destruct (_ =? _); lia.
Qed.

(** What the callback makes of one address. *)
Definition address_of (d : daddr) (old : bytes) : bytes := if d_family d =? AF_INET then d_ip d ++ drop 4 old else d_ip d.
Definition noted (info : addrinfo_t) (d : daddr) (old : bytes) : addrinfo_t :=
  if d_index d =? u32 (a_iface info) then
    {| a_iface := a_iface info; a_num := a_num info + 1; a_addrs := <[Z.to_nat (a_num info) := (d_prefix d, address_of d old)]> (a_addrs info) |}
  else {| a_iface := a_iface info; a_num := a_num info; a_addrs := <[Z.to_nat (a_num info) := (d_prefix d, old)]> (a_addrs info) |}.

Lemma ld_extra p hd d s : zlen hd = 16 -> is_u32 (d_index d) ->
  let buf := (p ++ hd ++ d_extra d) ++ s in
  ld buf (zlen p + 16) = Some (d_family d) /\ ld buf (zlen p + 16 + 1) = Some (d_prefix d) /\ ld32 buf (zlen p + 16 + 4) = Some (d_index d).
Proof.
  intros Hh Hu buf. unfold buf, d_extra. rewrite <- !app_assoc. cbn [app]. rewrite (app_assoc p). set (q := p ++ hd).
  assert (zlen q = zlen p + 16) as <- by (unfold q; rewrite zlen_app; lia). split_and!.
  - by apply ld_app.
  - rewrite (cons_middle _ q), (app_assoc q). apply ld_app. by rewrite zlen_app.
  - rewrite (app_assoc q [_; _; _; _] _ : q ++ d_family d :: d_prefix d :: d_flags d :: d_scope d :: enc32 (d_index d) ++ s = _).
    apply ld32_enc32; [done|]. by rewrite zlen_app.
Qed.
Lemma data_cb_at p h d s family info pf old :
  let m := message h (d_extra d) (d_attrs d) in
  hdr_ok h -> daddr_ok family d -> family = AF_INET \/ family = AF_INET6 -> is_u32 (zlen m) -> a_addrs info !! Z.to_nat (a_num info) = Some (pf, old) ->
  data_cb (p ++ m ++ s) (zlen p) info = Some (MNL_CB_OK, 0, noted info d old).
Proof.
  intros m Hh Hd Hf Hm Hi. unfold data_cb. unfold m. rewrite (parse_visit_at data_attr_cb p h (d_extra d) (d_attrs d)); [|done | | | | done];
    [|by eapply d_attrs_ok | by rewrite zlen_d_extra | by rewrite zlen_d_extra]. rewrite zlen_d_extra.
  set (hd := header (16 + zlen (d_extra d) + zlen (attrs_bytes (d_attrs d))) h).
  assert (p ++ message h (d_extra d) (d_attrs d) ++ s = (p ++ hd ++ d_extra d) ++ attrs_bytes (d_attrs d) ++ s) as Eb
    by (unfold message; rewrite <- !app_assoc; done).
  assert (zlen (p ++ hd ++ d_extra d) = zlen p + 16 + 8) as Hz by (rewrite !zlen_app, zlen_d_extra; unfold hd; rewrite zlen_header; lia).
  rewrite Eb, <- Hz. destruct (visit_place (d_attrs d) (p ++ hd ++ d_extra d) s MNL_CB_OK (replicate (Z.to_nat (IFA_MAX + 1)) None)) as (r & tb & -> & Et);
    [by eapply d_attrs_ok | done|]. cbn [mbind option_bind]. change (default None _) with (@None Z) in Et at 2. rewrite (place_attrs family) in Et by done.
  rewrite Et. set (q := (p ++ hd ++ d_extra d) ++ attrs_bytes (d_before d)).
  assert ((p ++ hd ++ d_extra d) ++ attrs_bytes (d_attrs d) ++ s = q ++ attr_bytes (IFA_ADDRESS, d_ip d) ++ attrs_bytes (d_after d) ++ s) as Eq.
  { unfold q, d_attrs, attrs_bytes. rewrite map_app, concat_app. cbn [map concat]. by rewrite <- !app_assoc. }
  assert (zlen (p ++ hd ++ d_extra d) + zlen (attrs_bytes (d_before d)) = zlen q) as -> by (unfold q; by rewrite (zlen_app (p ++ hd ++ d_extra d))).
  destruct Hd as (Hfam & Hidx & Hlen & Hb & Fb & Fa & Hn).
  destruct (read_attr q (IFA_ADDRESS, d_ip d) (attrs_bytes (d_after d) ++ s)) as (_ & _ & _ & _ & Ev & _).
  { split; cbn; [done|]. rewrite Hlen. unfold ip_length. destruct (_ =? _); lia. }
  cbn [fst snd] in Ev. rewrite <- Eq in Ev. clear Eq Eb. set (buf := (p ++ hd ++ d_extra d) ++ attrs_bytes (d_attrs d) ++ s) in *.
  destruct (ld_extra p hd d (attrs_bytes (d_attrs d) ++ s)) as (E0 & E1 & E4); [by unfold hd; rewrite zlen_header | done|].
  fold buf in E0, E1, E4. unfold mnl_nlmsg_get_payload, MNL_NLMSG_HDRLEN. rewrite E0, E1, E4. cbn [mbind option_bind].
  rewrite Hlen in Ev. unfold ip_length in Ev. rewrite Hfam. unfold noted, address_of. rewrite Hfam.
  destruct Hf as [-> | ->].
  - change (AF_INET =? AF_INET) with true in *. cbv iota in Ev |- *. rewrite Ev. cbn [mbind option_bind]. rewrite Hi. cbn [mbind option_bind].
    change (AF_INET =? AF_INET6) with false. cbv iota. destruct (d_index d =? _); done.
  - change (AF_INET6 =? AF_INET) with false in *. change (AF_INET6 =? AF_INET6) with true. cbv iota in Ev |- *. rewrite Ev. cbn [mbind option_bind].
    rewrite Hi. cbn [mbind option_bind]. destruct (d_index d =? _); done.
Qed.

(** ** A whole dump *)
Definition dump_hdr (type seq pid : Z) : hdr := {| h_type := type; h_flags := 2; h_seq := seq; h_pid := pid |}.
Definition dump_msg (seq pid : Z) (d : daddr) : bytes := message (dump_hdr RTM_NEWADDR seq pid) (d_extra d) (d_attrs d).
Definition done_msg (seq pid : Z) : bytes := MnlSpec.packet (dump_hdr NLMSG_DONE seq pid) [0; 0; 0; 0].
(** A datagram of addresses, and the last one, with the end of the dump. *)
Definition dump_part (seq pid : Z) (l : list daddr) : bytes := concat (map (dump_msg seq pid) l).
Definition dump_reply (seq pid : Z) (l : list daddr) : bytes := dump_part seq pid l ++ done_msg seq pid.

(** The array: the addresses found, and room that was never written to but for the prefixes. *)
Definition untouched (rest : list (Z * bytes)) : Prop := Forall (fun a => a.2 = replicate 16 0) rest.
Definition found (iface : Z) (done rest : list (Z * bytes)) : addrinfo_t := {| a_iface := iface; a_num := zlen done; a_addrs := done ++ rest |}.
Definition own (iface : Z) (l : list daddr) : list daddr := filter (fun d => d_index d = iface) l.
Definition entry (d : daddr) : Z * bytes := (d_prefix d, address_of d (replicate 16 0)).

Lemma noted_found iface done r rest d : is_u32 iface -> untouched (r :: rest) ->
  exists rest', noted (found iface done (r :: rest)) d r.2 = found iface (done ++ map entry (own iface [d])) rest' /\ untouched rest' /\
    (length (own iface [d]) + length rest' = S (length rest))%nat.
Proof.
  intros Hi U. apply Forall_cons in U as [Hr U]. rewrite Hr. unfold noted, found. cbn [a_iface a_num a_addrs]. rewrite u32_id by done.
  assert (Z.to_nat (zlen done) = length done) as -> by (unfold zlen; lia).
  assert (forall e, <[length done := e]> (done ++ r :: rest) = done ++ e :: rest) as Hins.
  { intros e. rewrite insert_app_r_alt by lia. by rewrite Nat.sub_diag. }
  unfold own. destruct (Z.eqb_spec (d_index d) iface) as [E|N].
  - rewrite filter_cons_True, filter_nil by done. exists rest. rewrite Hins. cbn [map length]. rewrite zlen_app, <- app_assoc. split_and!; done.
  - rewrite filter_cons_False, filter_nil by done. exists ((d_prefix d, replicate 16 0) :: rest). rewrite Hins. cbn [map length]. rewrite app_nil_r.
    split_and!; [done | by constructor | done].
Qed.
Lemma own_cons iface d l : own iface (d :: l) = own iface [d] ++ own iface l.
Proof. unfold own. by rewrite <- filter_app. Qed.

Lemma zlen_done_msg seq pid : zlen (done_msg seq pid) = 20.
Proof. unfold done_msg. by rewrite zlen_packet. Qed.
Lemma part_length seq pid l : 24 * Z.of_nat (length l) <= zlen (dump_part seq pid l).
Proof.
  induction l as [|d l IH]; [done|]. unfold dump_part in *. cbn [map concat length]. rewrite zlen_app. unfold dump_msg at 1.
  rewrite zlen_message, zlen_d_extra. pose proof (zlen_nonneg (attrs_bytes (d_attrs d))). lia.
Qed.

(** The callbacks for the addresses of a datagram, which goes on with [k] bytes. *)
Lemma part_run seq pid family l :
  Forall (daddr_ok family) l -> family = AF_INET \/ family = AF_INET6 -> is_u32 seq -> is_u32 pid ->
  forall p t k iface done rest fuel, is_u32 iface -> untouched rest -> 0 <= k ->
  (length (own iface l) < length rest)%nat -> zlen (dump_part seq pid l) + k < 2 ^ 31 ->
  exists rest', cb_loop (p ++ dump_part seq pid l ++ t) seq pid (Some data_cb) [] (length l + fuel) (zlen p) (zlen (dump_part seq pid l) + k) MNL_CB_OK 0
      (found iface done rest) =
    cb_loop (p ++ dump_part seq pid l ++ t) seq pid (Some data_cb) [] fuel (zlen p + zlen (dump_part seq pid l)) k MNL_CB_OK 0
      (found iface (done ++ map entry (own iface l)) rest') /\ untouched rest' /\ (length (own iface l) + length rest' = length rest)%nat.
Proof.
  intros F Hf Hs Hp. change (2 ^ 31) with 2147483648.
  assert (forall t, is_u16 t -> tracked (dump_hdr t seq pid) seq pid) as Htr by (intros t Ht; split_and!; try tauto; by split_and!).
  induction F as [|d l Hd F IH]; intros p t k iface done rest fuel Hi U Hk Hro Hsz.
  - exists rest. cbn. by rewrite app_nil_r, Z.add_0_r.
  - unfold dump_part in *. cbn [map concat length] in Hsz |- *. rewrite zlen_app in Hsz |- *. rewrite <- app_assoc. fold (dump_part seq pid l) in *. set (R := dump_part seq pid l) in *.
    assert (dump_msg seq pid d = MnlSpec.packet (dump_hdr RTM_NEWADDR seq pid) (d_extra d ++ attrs_bytes (d_attrs d))) as Ed by apply message_packet.
    set (body := d_extra d ++ attrs_bytes (d_attrs d)) in *. assert (zlen (dump_msg seq pid d) = 16 + zlen body) as Hz by (by rewrite Ed, zlen_packet).
    pose proof (zlen_nonneg R). pose proof (zlen_nonneg body).
    rewrite own_cons, length_app in Hro. destruct rest as [|r rest]; [cbn in Hro; lia|].
    assert (cb_loop (p ++ dump_msg seq pid d ++ R ++ t) seq pid (Some data_cb) [] (S (length l + fuel)) (zlen p) (zlen (dump_msg seq pid d) + zlen R + k) MNL_CB_OK 0
      (found iface done (r :: rest)) =
      cb_loop (p ++ dump_msg seq pid d ++ R ++ t) seq pid (Some data_cb) [] (length l + fuel) (zlen p + zlen (dump_msg seq pid d)) (zlen R + k) MNL_CB_OK 0
      (noted (found iface done (r :: rest)) d r.2)) as Estep.
    { assert (data_cb (p ++ dump_msg seq pid d ++ R ++ t) (zlen p) (found iface done (r :: rest)) =
        Some (MNL_CB_OK, 0, noted (found iface done (r :: rest)) d r.2)) as Ecb.
      { apply (data_cb_at p _ d (R ++ t) family _ r.1 r.2); [apply Htr; done | done | done |
          fold (dump_msg seq pid d); unfold is_u32; change (2 ^ 32) with 4294967296; lia |].
        cbn [found a_addrs a_num]. rewrite lookup_app_r by (unfold zlen; lia). replace (_ - _)%nat with 0%nat by (unfold zlen; lia). by destruct r. }
      rewrite Ed in Ecb |- *.
      rewrite cb_step; [|by apply Htr | unfold body; rewrite zlen_app, zlen_d_extra; pose proof (attrs_mod (d_attrs d)); zdm |
        rewrite zlen_packet; change (2 ^ 31) with 2147483648; lia].
      change (choose_cb (Some data_cb) [] (h_type (dump_hdr RTM_NEWADDR seq pid))) with (Some data_cb). cbv iota. rewrite Ecb.
      cbn [mbind option_bind]. change (MNL_CB_OK <=? MNL_CB_STOP) with false. cbv iota. rewrite zlen_packet. f_equal. lia. }
    destruct (noted_found iface done r rest d Hi U) as (rest1 & En & U1 & L1). rewrite En in Estep.
    destruct (IH (p ++ dump_msg seq pid d) t k iface (done ++ map entry (own iface [d])) rest1 fuel Hi U1 Hk) as (rest' & E & U' & L');
      [cbn [length] in Hro; lia | lia|].
    exists rest'. rewrite own_cons, map_app, (app_assoc done), length_app. split; [|split; [done | cbn [length]; lia]].
    cbn [Nat.add]. rewrite Estep. rewrite zlen_app, <- app_assoc in E. rewrite E, Z.add_assoc. done.
Qed.

Lemma s32_small n : 0 <= n < 2 ^ 31 -> s32 n = n.
Proof.
  intros H. rewrite <- (u32_id n) at 1; [apply s32_u32|]; unfold is_u32; change (2 ^ 31) with 2147483648 in *; change (2 ^ 32) with 4294967296; lia.
Qed.
(** A datagram of the dump asks for another one; the last one does not. *)
Lemma cb_run_part seq pid family l iface done rest t :
  Forall (daddr_ok family) l -> family = AF_INET \/ family = AF_INET6 -> is_u32 seq -> is_u32 pid -> is_u32 iface -> untouched rest ->
  (length (own iface l) < length rest)%nat -> zlen (dump_part seq pid l) <= 4096 ->
  exists rest', mnl_cb_run (dump_part seq pid l ++ t) (zlen (dump_part seq pid l)) seq pid (Some data_cb) (found iface done rest) =
    Some (MNL_CB_OK, 0, found iface (done ++ map entry (own iface l)) rest') /\ untouched rest' /\ (length (own iface l) + length rest' = length rest)%nat.
Proof.
  intros F Hf Hs Hp Hi U Hro Hz. pose proof (part_length seq pid l) as Hl. set (R := dump_part seq pid l) in *. pose proof (zlen_nonneg R).
  destruct (part_run seq pid family l F Hf Hs Hp [] t 0 iface done rest (S (length (R ++ t)) - length l) Hi U) as (rest' & E & H'); [lia | done | fold R; change (2 ^ 31) with 2147483648; lia|].
  exists rest'. split; [|exact H']. fold R in E. rewrite Z.add_0_r in E. cbn [app] in E. change (zlen []) with 0 in E.
  assert (length l <= length (R ++ t))%nat by (rewrite length_app; unfold zlen in Hl; lia).
  replace (length l + (S (length (R ++ t)) - length l))%nat with (S (length (R ++ t))) in E by lia.
  unfold mnl_cb_run, __mnl_cb_run. rewrite s32_small by (change (2 ^ 31) with 2147483648; lia). rewrite E.
  replace (S (length (R ++ t)) - length l)%nat with (S (length (R ++ t) - length l)) by lia. done.
Qed.
Lemma cb_run_last seq pid family l iface done rest t :
  Forall (daddr_ok family) l -> family = AF_INET \/ family = AF_INET6 -> is_u32 seq -> is_u32 pid -> is_u32 iface -> untouched rest ->
  (length (own iface l) < length rest)%nat -> zlen (dump_reply seq pid l) <= 4096 ->
  exists rest' n, mnl_cb_run (dump_reply seq pid l ++ t) (zlen (dump_reply seq pid l)) seq pid (Some data_cb) (found iface done rest) =
    Some (0, n, found iface (done ++ map entry (own iface l)) rest').
Proof.
  intros F Hf Hs Hp Hi U Hro Hz. pose proof (part_length seq pid l) as Hl. unfold dump_reply in *. rewrite <- app_assoc.
  rewrite zlen_app, zlen_done_msg in *. set (R := dump_part seq pid l) in *. pose proof (zlen_nonneg R). set (u := done_msg seq pid ++ t).
  destruct (part_run seq pid family l F Hf Hs Hp [] u 20 iface done rest (S (length (R ++ u)) - length l) Hi U) as (rest' & E & H'); [lia | done | fold R; change (2 ^ 31) with 2147483648; lia|].
  exists rest', 0. fold R in E. cbn [app] in E. change (zlen []) with 0 in E.
  assert (length l <= length (R ++ u))%nat by (rewrite length_app; unfold zlen in Hl; lia).
  replace (length l + (S (length (R ++ u)) - length l))%nat with (S (length (R ++ u))) in E by lia.
  unfold mnl_cb_run, __mnl_cb_run. rewrite s32_small by (change (2 ^ 31) with 2147483648; lia). rewrite E.
  replace (S (length (R ++ u)) - length l)%nat with (S (length (R ++ u) - length l)) by lia. rewrite Z.add_0_l. unfold u, done_msg.
  rewrite cb_step; [done | by split_and!; try tauto; split_and! | done | by split].
Qed.
End Dump.

(** ** Flushing *)
Section Flush.
Context {host : Host} {nl : Netlink} {serving : Serving}.

Definition get_request (seq family : Z) : bytes :=
  message {| h_type := RTM_GETADDR; h_flags := 0x301; h_seq := seq; h_pid := 0 |} [family; 0; 0; 0] [].
(** A kernel that answers a request for the addresses of a family with all of them, in as many datagrams as it likes: the last one says that the
    dump is done, with or without addresses before. *)
Class Dumping := {
  dp_parts : Z -> list (list daddr); dp_last : Z -> list daddr;
  dp_some : forall family, Forall (fun l => l <> []) (dp_parts family);
  dp_ok : forall family, Forall (daddr_ok family) (concat (dp_parts family) ++ dp_last family);
  dp_fits : forall seq pid family, Forall (fun l => zlen (dump_part seq pid l) <= 4096) (dp_parts family) /\ zlen (dump_reply seq pid (dp_last family)) <= 4096;
  dp_answer : forall l fd seq family n d, is_u32 seq -> family = AF_INET \/ family = AF_INET6 ->
    (map (dump_part seq (sv_pid l fd)) (dp_parts family) ++ [dump_reply seq (sv_pid l fd) (dp_last family)]) !! n = Some d ->
    k_recvmsg (l ++ NlSend fd (get_request seq family) :: replicate n (NlRecv fd)) = Some (d, false, sizeof_sockaddr_nl) }.
Context {dumping : Dumping}.
Definition dp_list (family : Z) : list daddr := concat (dp_parts family) ++ dp_last family.

Lemma own_app iface l k : own iface (l ++ k) = own iface l ++ own iface k.
Proof. apply filter_app. Qed.

(** The loop from the [n]th datagram on, which is in the buffer. *)
Lemma dump_loop_reads seq family iface fd base ps :
  family = AF_INET \/ family = AF_INET6 -> is_u32 seq -> is_u32 iface -> let pid := sv_pid base fd in
  forall n fuel done rest tail d s, drop n (dp_parts family) = ps -> (length ps < fuel)%nat -> untouched rest ->
  (length (own iface (concat ps ++ dp_last family)) < length rest)%nat ->
  (map (dump_part seq pid) (dp_parts family) ++ [dump_reply seq pid (dp_last family)]) !! n = Some d -> 4096 <= zlen (d ++ tail) ->
  f_acts s = base ++ NlSend fd (get_request seq family) :: replicate (S n) (NlRecv fd) ->
  exists rest' s', dump_loop fuel {| nl_fd := fd; nl_pid := pid |} (d ++ tail) (zlen d) seq pid (found iface done rest) s =
      Some ((0, found iface (done ++ map entry (own iface (concat ps ++ dp_last family))) rest'), s') /\
    f_acts s' = f_acts s ++ replicate (length ps) (NlRecv fd).
Proof.
  intros Hf Hs Hi pid. pose proof (dp_ok family) as Hok. destruct (dp_fits seq pid family) as [Hfit Hlast].
  pose proof (sv_pid_ok base fd) as Hpid. fold pid in Hpid.
  induction ps as [|l ps IH]; intros n fuel done rest tail d s Hn Hfu U Hro Hd Ht Ha; (destruct fuel as [|fuel]; [cbn in Hfu; lia|]).
  - assert (length (dp_parts family) <= n)%nat as Hle by (apply (f_equal length) in Hn; rewrite length_drop in Hn; cbn in Hn; lia).
    pose proof (lookup_lt_Some _ _ _ Hd) as Hlt. rewrite length_app, length_map in Hlt. cbn [length] in Hlt.
    rewrite lookup_app_r in Hd by (rewrite length_map; lia). rewrite length_map in Hd. replace (n - length (dp_parts family))%nat with 0%nat in Hd by lia.
    injection Hd as <-. cbn [concat app] in Hro |- *. apply Forall_app in Hok as [_ Hok].
    destruct (cb_run_last seq pid family (dp_last family) iface done rest tail Hok Hf Hs Hpid Hi U Hro Hlast) as (rest' & e & E).
    exists rest', s. cbn [length replicate]. rewrite app_nil_r. split; [|done]. cbn [dump_loop].
    assert (20 <= zlen (dump_reply seq pid (dp_last family))) by (unfold dump_reply; rewrite zlen_app, zlen_done_msg; pose proof (zlen_nonneg (dump_part seq pid (dp_last family))); lia).
    rewrite (proj2 (Z.leb_gt _ 0)) by lia. rewrite E. by rewrite bind_lift.
  - assert (dp_parts family !! n = Some l) as Hl by (by rewrite <- (Nat.add_0_r n), <- lookup_drop, Hn).
    pose proof (lookup_lt_Some _ _ _ Hl) as Hlt. rewrite lookup_app_l in Hd by (by rewrite length_map). rewrite list_lookup_fmap, Hl in Hd. injection Hd as <-.
    assert (drop (S n) (dp_parts family) = ps) as Hn' by (rewrite <- (Nat.add_1_r n), <- drop_drop, Hn; done).
    cbn [concat] in Hro |- *. rewrite <- app_assoc in Hro |- *. rewrite own_app, length_app in Hro.
    assert (Forall (daddr_ok family) l) as Hlok.
    { apply Forall_app in Hok as [Hok _]. apply Forall_concat in Hok. by eapply Forall_lookup_1. }
    assert (zlen (dump_part seq pid l) <= 4096) as Hz by (by eapply (Forall_lookup_1 _ _ _ _ Hfit)).
    assert (l <> []) as Hne by (by eapply (Forall_lookup_1 _ _ _ _ (dp_some family))).
    destruct (cb_run_part seq pid family l iface done rest tail Hlok Hf Hs Hpid Hi U) as (rest1 & E & U1 & L1); [lia | done|].
    cbn [dump_loop]. pose proof (part_length seq pid l). assert (0 < length l)%nat by (destruct l; [done | cbn; lia]).
    rewrite (proj2 (Z.leb_gt _ 0)) by lia. rewrite E, bind_lift. change (MNL_CB_OK <=? MNL_CB_STOP) with false. cbv iota.
    assert (exists d', (map (dump_part seq pid) (dp_parts family) ++ [dump_reply seq pid (dp_last family)]) !! S n = Some d') as [d' Hd'].
    { apply lookup_lt_is_Some_2. rewrite length_app, length_map. cbn [length]. lia. }
    assert (zlen d' <= 4096) as Hz'.
    { eapply (Forall_lookup_1 (fun d => zlen d <= 4096)); [|exact Hd']. apply Forall_app. split; [by apply Forall_fmap | by apply Forall_singleton]. }
    erewrite bind_step by (apply (recv_serves s fd pid _ d'); [rewrite Ha; by apply dp_answer | lia]). cbv beta iota.
    set (s1 := s <| f_acts := _ |>). assert (f_acts s1 = f_acts s ++ [NlRecv fd]) as E1 by (unfold s1; by destruct s). clearbody s1.
    destruct (IH (S n) fuel (done ++ map entry (own iface l)) rest1 (drop (length d') (dump_part seq pid l ++ tail)) d' s1 Hn') as (rest' & s' & E' & Ea');
      [cbn in Hfu; lia | done | lia | done | rewrite zlen_app; unfold zlen in *; rewrite length_drop; lia | by rewrite E1, Ha, <- app_assoc, (replicate_S_end (S n)) |].
    exists rest', s'. rewrite E', (own_app iface l), map_app, (app_assoc done). split; [done|]. rewrite Ea', E1, <- app_assoc. done.
Qed.

Lemma if_get_addr_is fuel ifname family iface s :
  family = AF_INET \/ family = AF_INET6 -> k_index (f_acts s) ifname = iface -> iface <> 0 -> is_u32 iface ->
  (length (own iface (dp_list family)) < MAX_IP_NUM)%nat -> (length (dp_parts family) < fuel)%nat ->
  exists fd seq rest s', if_get_addr fuel ifname family addrinfo_zero s = Some ((0, found iface (map entry (own iface (dp_list family))) rest), s') /\
    f_acts s' = f_acts s ++ [NlOpen fd; NlBind fd; NlSend fd (get_request seq family)] ++ replicate (S (length (dp_parts family))) (NlRecv fd) ++ [NlClose fd].
Proof.
  intros Hf Hidx Hi Hu Hlen Hfu. unfold if_get_addr, asks at 1. rewrite bind_gets, Hidx.
  rewrite (proj2 (Z.eqb_neq _ _)) by done. change ({| a_iface := iface; a_num := _; a_addrs := _ |}) with (found iface [] (replicate MAX_IP_NUM (0, replicate 16 0))).
  destruct (start_request_is s RTM_GETADDR 0x301) as (r1 & E & L1); [done..|]. erewrite bind_step by exact E. clear E. cbv beta iota.
  set (h := {| h_type := RTM_GETADDR |}) in *.
  destruct (extra_is h r1 sizeof_rtgenmsg) as (r2 & E & L2); [done | exact L1|]. rewrite E, bind_lift. clear E. cbv beta iota.
  change (replicate (Z.to_nat (MNL_ALIGN sizeof_rtgenmsg)) 0) with [0; 0; 0; 0].
  assert ((if family =? AF_INET then lift (st8 (message h [0; 0; 0; 0] [] ++ r2) 16 AF_INET)
    else if family =? AF_INET6 then lift (st8 (message h [0; 0; 0; 0] [] ++ r2) 16 AF_INET6) else mret (message h [0; 0; 0; 0] [] ++ r2)) s =
    Some (message h [family; 0; 0; 0] [] ++ r2, s)) as E0.
  { unfold st8. destruct Hf as [-> | ->].
    - change (AF_INET =? AF_INET) with true. cbv iota. by rewrite (store_extra _ _ [AF_INET; 0; 0; 0] _ 0).
    - change (AF_INET6 =? AF_INET) with false. change (AF_INET6 =? AF_INET6) with true. cbv iota. by rewrite (store_extra _ _ [AF_INET6; 0; 0; 0] _ 0). }
  erewrite bind_step by exact E0. clear E0. set (seq := h_seq h) in *. set (fd := nl_next (f_acts s)).
  change (message h [family; 0; 0; 0] []) with (get_request seq family).
  assert (zlen (get_request seq family) = 20) as Hz by (unfold get_request; by rewrite zlen_message).
  erewrite bind_step by apply open_serves. cbv beta iota. erewrite bind_step by apply bind_serves. cbv beta iota zeta. change (0 <? 0) with false. cbv iota.
  fold fd. set (s2 := set_field f_acts _ (set_field _ _ _)).
  assert (f_acts s2 = f_acts s ++ [NlOpen fd; NlBind fd]) as E2 by (unfold s2; destruct s; cbn; by rewrite <- app_assoc).
  match goal with |- context [sv_pid ?l fd] => replace (sv_pid l fd) with (sv_pid (f_acts s2) fd) by (unfold s2; by destruct s) end. clearbody s2.
  set (pid := sv_pid (f_acts s2) fd).
  erewrite bind_step by (unfold lift, get_request; rewrite message_len by (fold (get_request seq family); rewrite Hz; done); reflexivity). cbv beta.
  fold (get_request seq family). erewrite bind_step by (unfold lift; rewrite lds_app_0 by done; reflexivity). cbv beta.
  erewrite bind_step by (unfold mnl_socket_sendto; erewrite bind_step by reflexivity; erewrite bind_step by apply act_run; reflexivity).
  cbv beta. cbn [nl_fd]. rewrite (proj2 (Z.ltb_ge _ 0)) by apply sv_send. set (s3 := set_field f_acts _ s2).
  assert (f_acts s3 = f_acts s2 ++ [NlSend fd (get_request seq family)]) as E3 by (unfold s3; by destruct s2). clearbody s3.
  assert (zlen (get_request seq family ++ r2) = zlen k_stack) as Hbuf by (rewrite zlen_app, Hz; change (MNL_ALIGN sizeof_rtgenmsg) with 4 in L2; lia).
  pose proof sv_stack. destruct (dp_fits seq pid family) as [Hfit Hlast].
  destruct (map (dump_part seq pid) (dp_parts family) ++ [dump_reply seq pid (dp_last family)]) as [|d0 ds] eqn:Ed; [by destruct (map _ _)|].
  assert (zlen d0 <= 4096) as Hz0.
  { assert (Forall (fun d => zlen d <= 4096) (d0 :: ds)) as F by (rewrite <- Ed; apply Forall_app; split; [by apply Forall_fmap | by apply Forall_singleton]).
    by apply Forall_cons in F as [? _]. }
  assert (k_recvmsg (f_acts s3) = Some (d0, false, sizeof_sockaddr_nl)) as Er.
  { rewrite E3. apply (dp_answer _ fd seq family 0%nat); [apply u32_range | done |]. fold pid. by rewrite Ed. }
  erewrite bind_step by (apply (recv_serves s3 fd pid _ d0 Er); lia).
  cbv beta iota. set (s4 := set_field f_acts _ s3). assert (f_acts s4 = f_acts s3 ++ [NlRecv fd]) as E4 by (unfold s4; by destruct s3). clearbody s4.
  change (mnl_socket_get_portid _) with pid.
  destruct (dump_loop_reads seq family iface fd (f_acts s2) (dp_parts family) Hf (u32_range _) Hu 0 fuel [] (replicate MAX_IP_NUM (0, replicate 16 0))
    (drop (length d0) (get_request seq family ++ r2)) d0 s4) as (rest & s5 & El & Ea);
    [done | done | by apply Forall_replicate | by rewrite length_replicate | fold pid; by rewrite Ed | rewrite zlen_app; unfold zlen in *; rewrite length_drop; lia |
     by rewrite E4, E3, <- app_assoc |].
  fold pid in El. erewrite bind_step by exact El. cbv beta iota. change (0 =? -1) with false. cbv iota.
  exists fd, seq, rest. eexists. split; [by erewrite bind_step by apply act_run|]. destruct s5 as [o m l]. cbn [f_acts set_field set_acts] in Ea |- *.
  cbn. rewrite Ea, E4, E3, E2, <- !app_assoc. done.
Qed.

Lemma sent_reads n fd : sent (replicate n (NlRecv fd)) = [].
Proof. induction n as [|n IH]; [done | exact IH]. Qed.

(** The requests that delete a list of addresses. *)
Definition deletes (family iface : Z) : list bytes -> list daddr -> Prop :=
  Forall2 (fun m d => exists t, m = wire t (Addr false family iface (d_prefix d) (d_ip d))).

Lemma delete_all_sends family iface (delete : Z * bytes -> MF Z) l s :
  Forall (fun d => forall s, exists ret s' t, delete (entry d) s = Some (ret, s') /\
    performed s (wire t (Addr false family iface (d_prefix d) (d_ip d))) ret s') l ->
  exists s' ms, delete_all delete (map entry l) s = Some (tt, s') /\ sent (f_acts s') = sent (f_acts s) ++ ms /\ deletes family iface ms l.
Proof.
  intros F. revert s. induction F as [|d l Hd F IH]; intros s; [exists s, []; rewrite app_nil_r; repeat constructor|].
  destruct (Hd s) as (ret & s1 & t & E1 & P1). destruct (IH s1) as (s' & ms & E2 & Hs & D). exists s', (wire t (Addr false family iface (d_prefix d) (d_ip d)) :: ms).
  cbn [map delete_all]. erewrite bind_step by exact E1. split; [exact E2|]. destruct (performed_sent _ _ _ _ P1) as (E & _).
  rewrite Hs, E, <- app_assoc. split; [done|]. constructor; [by exists t | exact D].
Qed.

Lemma enc32_dec ip : zlen ip = 4 -> Forall is_byte ip -> enc32 (dec_native ip) = ip.
Proof.
  intros Hl F. destruct ip as [|a [|b [|c [|d [|]]]]]; try (unfold zlen in Hl; cbn in Hl; lia). rewrite !Forall_cons in F. destruct F as (Ha & Hb & Hc & Hd & _).
  unfold enc32, dec_native, native. destruct is_bigendian; [|by apply le32_of_le]. change (reverse [a; b; c; d]) with [d; c; b; a]. by rewrite le32_of_le.
Qed.
Lemma own_ok family iface : Forall (daddr_ok family) (own iface (dp_list family)).
Proof. apply Forall_forall. intros d Hd%list_elem_of_filter. destruct Hd as [_ Hd]. eapply Forall_forall; [apply (dp_ok family) | exact Hd]. Qed.
Lemma take_found iface l rest : take (Z.to_nat (a_num (found iface l rest))) (a_addrs (found iface l rest)) = l.
Proof. cbn. unfold zlen. by rewrite Nat2Z.id, take_app_length. Qed.
End Flush.

(** C35: Flushing an interface deletes its addresses and no others: the kernel is asked for the addresses of the family, all the datagrams of its
    answer are read - the last one may be nothing but the end of the dump -, and then there is one request for each address of
    the interface, in the order of the dump, with its prefix and all its bytes, whatever the other attributes of the records are; the
    result is success whatever the kernel says to them.  The dump must list fewer of them than the array holds. *)
Theorem flush_deletes_own_addresses {host : Host} {nl : Netlink} {serving : Serving} {dumping : Dumping} fuel ifname iface s :
  (forall l, k_index l ifname = iface) -> iface <> 0 -> is_u32 iface ->
  ((length (own iface (dp_list AF_INET)) < MAX_IP_NUM)%nat -> (length (dp_parts AF_INET) < fuel)%nat ->
    exists s' seq ms, if_flush_v4_addr fuel ifname s = Some (0, s') /\
      sent (f_acts s') = sent (f_acts s) ++ get_request seq AF_INET :: ms /\ deletes AF_INET iface ms (own iface (dp_list AF_INET))) /\
  ((length (own iface (dp_list AF_INET6)) < MAX_IP_NUM)%nat -> (length (dp_parts AF_INET6) < fuel)%nat ->
    exists s' seq ms, if_flush_v6_addr fuel ifname s = Some (0, s') /\
      sent (f_acts s') = sent (f_acts s) ++ get_request seq AF_INET6 :: ms /\ deletes AF_INET6 iface ms (own iface (dp_list AF_INET6))).
Proof.
  intros Hidx Hi Hu. split; intros Hl Hfu.
  - destruct (if_get_addr_is fuel ifname AF_INET iface s) as (fd & seq & rest & s1 & E & Ea); [by left | done..|].
    unfold if_flush_v4_addr. erewrite bind_step by exact E. cbv beta iota. rewrite take_found.
    destruct (delete_all_sends AF_INET iface (fun a => if_del_addr_v4 ifname (addr_ip a.2) a.1) (own iface (dp_list AF_INET)) s1) as (s' & ms & E2 & Hs & D).
    { eapply Forall_impl; [apply own_ok|]. intros d (Hf & _ & Hlen & Hb & _) s2. unfold if_del_addr_v4, entry, address_of. cbn [fst snd]. rewrite Hf.
      change (AF_INET =? AF_INET) with true. cbv iota. assert (zlen (d_ip d) = 4) as L4 by exact Hlen.
      assert (addr_ip (d_ip d ++ drop 4 (replicate 16 0)) = dec_native (d_ip d)) as ->.
      { unfold addr_ip. rewrite take_app_le by (unfold zlen in L4; lia). by rewrite take_ge by (unfold zlen in L4; lia). }
      destruct (addr_sends false AF_INET ifname (addr_v4 (dec_native (d_ip d))) (d_ip d) (d_prefix d) s2) as (ret & s3 & E3 & P3); [|by rewrite Hidx|].
      - unfold addr_v4. rewrite enc32_dec by done. unfold addr_ip. rewrite take_app_le by (unfold zlen in L4; lia).
        rewrite take_ge by (unfold zlen in L4; lia). cbn. by rewrite enc32_dec.
      - rewrite Hidx in P3. by eexists ret, s3, _. }
    erewrite bind_step by exact E2. exists s', seq, ms. split; [done|]. split; [|exact D]. rewrite Hs, Ea, !sent_app, sent_reads, <- !app_assoc. done.
  - destruct (if_get_addr_is fuel ifname AF_INET6 iface s) as (fd & seq & rest & s1 & E & Ea); [by right | done..|].
    unfold if_flush_v6_addr. erewrite bind_step by exact E. cbv beta iota. rewrite take_found.
    destruct (delete_all_sends AF_INET6 iface (fun a => if_del_addr_v6 ifname a.2 a.1) (own iface (dp_list AF_INET6)) s1) as (s' & ms & E2 & Hs & D).
    { eapply Forall_impl; [apply own_ok|]. intros d (Hf & _ & Hlen & Hb & _) s2. unfold if_del_addr_v6, entry, address_of. cbn [fst snd]. rewrite Hf.
      change (AF_INET6 =? AF_INET) with false. cbv iota. assert (zlen (d_ip d) = 16) as L by exact Hlen.
      destruct (addr_sends false AF_INET6 ifname (take 16 (d_ip d)) (d_ip d) (d_prefix d) s2) as (ret & s3 & E3 & P3); [|by rewrite Hidx|].
      - change (AF_INET6 =? AF_INET) with false. cbv iota. by rewrite !take_ge by (rewrite ?length_take; unfold zlen in L; lia).
      - rewrite Hidx in P3. by eexists ret, s3, _. }
    erewrite bind_step by exact E2. exists s', seq, ms. split; [done|]. split; [|exact D]. rewrite Hs, Ea, !sent_app, sent_reads, <- !app_assoc. done.
Qed.

(** ** A kernel *)
Section Example.
#[local] Instance eg_host : Host := little_host.
Definition eg_lo : daddr :=
  {| d_family := 2; d_prefix := 8; d_flags := 128; d_scope := 254; d_index := 1; d_before := []; d_ip := [127; 0; 0; 1]; d_after := [] |}.
Definition eg_wwan : daddr :=
  {| d_family := 2; d_prefix := 24; d_flags := 128; d_scope := 0; d_index := 5; d_before := []; d_ip := [10; 0; 0; 77];
     d_after := [(2, [10; 0; 0; 77]); (3, str "wwan0")] |}.
(** The addresses come in two datagrams, and the end of the dump in one of its own. *)
Definition eg_parts (family : Z) : list (list daddr) := if family =? AF_INET then [[eg_lo]; [eg_wwan]] else [].
(** A port for every socket that is held. *)
Definition eg_pid (l : list action) (fd : Z) : Z := u32 (1000 + held l).
(** The request whose answer is read, what was done before it, and how much of the answer was read. *)
Fixpoint pending (l : list action) (n : nat) : option (list action * Z * bytes * nat) :=
  match l with NlRecv _ :: l => pending l (S n) | NlSend fd m :: l => Some (reverse l, fd, m, n) | _ => None end.
Definition eg_answer (l : list action) : option (bytes * bool * Z) :=
  '(base, fd, m, n) ← pending (reverse l) 0;
  flags ← nlmsg_flags m 0; seq ← nlmsg_seq m 0;
  if negb (flags .& NLM_F_ACK =? 0) then
    if (n =? 0)%nat then Some (ack {| h_type := NLMSG_ERROR; h_flags := 0x100; h_seq := seq; h_pid := eg_pid base fd |} 0 (take 16 m), false, 12) else None
  else
    family ← ld m 16;
    d ← (map (dump_part seq (eg_pid base fd)) (eg_parts family) ++ [dump_reply seq (eg_pid base fd) []]) !! n; Some (d, false, 12).
#[local] Instance eg_kernel : Netlink := {|
  k_index := fun _ _ => 5; k_calloc := fun _ => true; k_socket := fun _ _ _ _ => 3; k_bind := fun _ => 0; k_getsockname := fun l fd => Some (16, eg_pid l fd, 12);
  k_setsockopt := fun _ _ _ _ => 0; k_getsockopt := fun _ _ _ b => (0, b);
  k_sendto := fun _ m => zlen m; k_recvmsg := eg_answer; k_hwaddr := fun _ _ => Some [2; 0; 0; 0; 0; 1]; k_resolv := fun _ => true; k_write := fun _ => true;
  k_time := fun _ => 1000; k_stack := replicate (Z.to_nat 4096) 7; k_ntop6 := fun a => a; k_last_first := true |}.

Lemma eg_read h ex l : hdr_ok h -> zlen (message h ex l) <= 8192 ->
  nlmsg_flags (message h ex l) 0 = Some (h_flags h) /\ nlmsg_seq (message h ex l) 0 = Some (h_seq h).
Proof.
  intros Hh Hl. rewrite zlen_message in Hl. destruct (read_header [] h (ex ++ attrs_bytes l) [] Hh) as (_ & _ & E1 & E2 & _).
  { unfold is_u32. change (2 ^ 32) with 4294967296. rewrite zlen_app. pose proof (zlen_nonneg ex). pose proof (zlen_nonneg (attrs_bytes l)). lia. }
  rewrite app_nil_r in E1, E2. cbn [app] in E1, E2. change (zlen []) with 0 in E1, E2. by rewrite message_packet.
Qed.
Lemma pending_is base fd m n : pending (reverse (base ++ NlSend fd m :: replicate n (NlRecv fd))) 0 = Some (base, fd, m, n).
Proof.
  rewrite reverse_app, reverse_cons, reverse_replicate, <- app_assoc. cbn [app].
  assert (forall j k, pending (replicate j (NlRecv fd) ++ NlSend fd m :: reverse base) k = Some (base, fd, m, (j + k)%nat)) as ->; [|by rewrite Nat.add_0_r].
  induction j as [|j IH]; intros k; cbn [replicate app pending]; [by rewrite reverse_involutive|]. rewrite IH. do 2 f_equal. lia.
Qed.
#[local] Instance eg_serving : Serving.
Proof.
  refine {| sv_pid := eg_pid; sv_error := fun _ _ => 0; sv_flags := fun _ _ => 0x100 |}; try done.
  - intros l fd. apply u32_range.
  - intros l m. unfold k_sendto, eg_kernel. apply zlen_nonneg.
  - intros l fd h ex attrs Hh Hf Hl m. unfold k_recvmsg, eg_kernel, eg_answer. pose proof (pending_is l fd m 0) as E0. cbn [replicate] in E0. rewrite E0. cbn [mbind option_bind].
    destruct (eg_read h ex attrs Hh Hl) as [E1 E2]. unfold m. rewrite E1, E2. cbn [mbind option_bind].
    by rewrite (proj2 (Z.eqb_neq _ _)) by done.
Defined.
Lemma eg_sizes seq pid family : Forall (fun l => zlen (dump_part seq pid l) <= 4096) (eg_parts family).
Proof.
  assert (zlen (dump_part seq pid [eg_lo]) = 32 /\ zlen (dump_part seq pid [eg_wwan]) = 52) as [E1 E2].
  { unfold dump_part, dump_msg. cbn [map concat]. by rewrite !app_nil_r, !zlen_message, !zlen_d_extra. }
  unfold eg_parts. destruct (family =? AF_INET); repeat constructor; lia.
Qed.
#[local] Instance eg_dumping : Dumping.
Proof.
  refine {| dp_parts := eg_parts; dp_last := fun _ => [] |}.
  - intros family. unfold eg_parts. destruct (family =? AF_INET); by repeat constructor.
  - intros family. unfold eg_parts. destruct (Z.eqb_spec family AF_INET) as [->|]; [|by constructor].
    repeat constructor; cbn; try done; discriminate.
  - intros seq pid family. split; [apply eg_sizes|]. unfold dump_reply, dump_part. cbn [map concat app]. by rewrite zlen_done_msg.
  - intros l fd seq family n d Hs Hf Hd. unfold k_recvmsg, eg_kernel, eg_answer. rewrite pending_is. cbn [mbind option_bind]. unfold get_request.
    destruct (eg_read {| h_type := RTM_GETADDR; h_flags := 0x301; h_seq := seq; h_pid := 0 |} [family; 0; 0; 0] []) as [-> ->];
      [by split_and! | by rewrite zlen_message |]. cbn [mbind option_bind h_flags h_seq].
    change (negb (769 .& NLM_F_ACK =? 0)) with false. cbv iota.
    assert (ld (message {| h_type := RTM_GETADDR; h_flags := 769; h_seq := seq; h_pid := 0 |} [family; 0; 0; 0] []) 16 = Some family) as ->
      by (unfold message; apply ld_app; by rewrite zlen_header).
    cbn [mbind option_bind]. change (eg_pid l fd) with (sv_pid l fd). by rewrite Hd.
Defined.

Theorem flush_deletes_own_addresses_witness :
  exists s' seq ms, if_flush_v4_addr 3 (str "wwan0") if_initial = Some (0, s') /\
    sent (f_acts s') = get_request seq AF_INET :: ms /\ deletes AF_INET 5 ms [eg_wwan].
Proof.
  destruct (flush_deletes_own_addresses 3 (str "wwan0") 5 if_initial) as [H _].
  - reflexivity.
  - discriminate.
  - split; [discriminate | reflexivity].
  - destruct H as (s' & seq & ms & E & S & D); [vm_compute; lia | vm_compute; lia|]. exists s', seq, ms. split; [exact E|]. split; [exact S | exact D].
Defined.

Theorem set_network_v4_requests_witness :
  exists s' t1 t2 t3, if_set_network_v4 (str "wwan0") 0x4d00000a 24 0x100000a 0x8080808 0x1010101 if_initial = Some (0, s') /\
    sent (f_acts s') = [wire t1 (Link (str "wwan0") true); wire t2 (Addr true AF_INET 5 24 [10; 0; 0; 77]); wire t3 (Route true AF_INET 5 0 [0; 0; 0; 0] None)] /\
    resolv (f_acts s') = [str "nameserver 8.8.8.8" ++ [10]] /\ held (f_acts s') = 0.
Proof.
  destruct (set_network_v4_requests (str "wwan0") 5 0x4d00000a 24 0x100000a 0x8080808 0x1010101 if_initial) as (s' & t1 & t2 & t3 & E & S & R & H).
  - reflexivity.
  - reflexivity.
  - discriminate.
  - reflexivity.
  - reflexivity.
  - split; [discriminate | reflexivity].
  - discriminate.
  - discriminate.
  - exists s', t1, t2, t3. split; [exact E|]. split; [exact S|]. split; [exact R | exact H].
Defined.
Theorem link_state_sticks_witness :
  exists r s', if_act_on_link (str "wwan0") 1 if_initial = Some (r, s') /\ if_act_on_link (str "wwan0.1") 1 s' = Some (0, s').
Proof.
  destruct (link_up_sends (str "wwan0") true if_initial) as (r & s' & E & _); [discriminate | discriminate|].
  exists r, s'. split; [exact E | apply (link_state_sticks (str "wwan0") (str "wwan0.1") 1 if_initial r s' E)].
Defined.
End Example.
