(* ===== verification/DhcpRun.v ===== *)
(** * libmnl/dhcp: the whole of [do_dhcp] (dhcpclient.c), from the interface to its lease.
    The exchange of DhcpClient.v between the set-up of the interface and [dhcp_configure], over the kernel of IfUtils.v; the raw socket of packet.c.
    [events] is what the exchange meets. *)
From S2P Require Import Prelude Util Monad Text Dhcp DhcpSpec DhcpClient DhcpClientSpec Mnl MnlSpec IfUtils IfUtilsSpec IfFlushSpec.
#[local] Open Scope Z_scope.
#[local] Open Scope c_scope.

Section Run.
Context {host : Host} {nl : Netlink}.

(** An address as the number in memory. *)
Definition in_addr (a : bytes) : Z := dec_native a.
Definition dhcp_configure (ifname : bytes) (info : dhcp_info) : MF Z :=
  if_set_network_v4 ifname (in_addr (i_ipaddr info)) (i_prefixLength info) (in_addr (i_gateway info)) (in_addr (i_dns1 info)) (in_addr (i_dns2 info)).

(** [dhcp_init_ifc] with the calls before and after the exchange.  Result: what is returned, and the lease [get_dhcp_info] tells afterwards;
    nothing while the exchange goes on. *)
Definition init_ifc (ifname : bytes) (msecs : Z) (stack : bytes) (last_good_info : dhcp_info) (events : list polled) : MF (option (Z * dhcp_info)) :=
  '(r, hwaddr) ← if_get_hwaddr ifname;
  match hwaddr with
  | None => mret (Some (-1, last_good_info))
  | Some hwaddr =>
      if_index ← asks (fun l => k_index l ifname); if if_index =? 0 then mret (Some (-1, last_good_info)) else
      o ← lift (dhcp_init_ifc hwaddr msecs stack events);
      match o with
      | Running _ => mret None
      | Returned ret configured _ _ =>
          match configured with
          | None => mret (Some (ret, last_good_info))
          | Some info => r ← dhcp_configure ifname info; mret (Some (r, info))
          end
      end
  end.
Definition do_dhcp (iname : bytes) (msecs : Z) (stack : bytes) (last_good_info : dhcp_info) (events : list polled) : MF (option (Z * dhcp_info)) :=
  r ← if_set_addr_v4 iname 0 32; if negb (r =? 0) then mret (Some (-1, last_good_info)) else
  r ← if_link_up iname; if negb (r =? 0) then mret (Some (-1, last_good_info)) else
  init_ifc iname msecs stack last_good_info events.
End Run.

Lemma dec_native_u32 {host : Host} a : zlen a = 4 -> Forall is_byte a -> is_u32 (dec_native a).
Proof.
  intros Hl F. destruct a as [|x [|y [|z [|w [|]]]]]; try (unfold zlen in Hl; cbn in Hl; lia). rewrite !Forall_cons in F. destruct F as (Hx & Hy & Hz & Hw & _).
  unfold is_byte in *. unfold is_u32, dec_native, native. change (2 ^ 32) with 4294967296.
  destruct is_bigendian; [change (reverse [x; y; z; w]) with [w; z; y; x]|]; unfold of_le; cbn [foldr]; lia.
Qed.

Lemma server_yiaddr {host : Host} hw m xid y os : server_msg hw m xid y os -> zlen y = 4 /\ Forall is_byte y.
Proof. intros [-> _ Hy _ F _]. unfold reply_msg in F. rewrite !Forall_app in F. split; [unfold zlen; by rewrite Hy | tauto]. Qed.

(** C36: From the interface to its lease: with a kernel that agrees to everything and a server that offers an address and acknowledges the request for
    it, [do_dhcp] clears the address of the interface, brings it up, and gives it exactly the acknowledged address with its prefix and a default route,
    in four requests to the kernel, whatever interruptions and foreign packets come in between; the lease is what [get_dhcp_info] then tells; the gateway
    of the lease is in none of the requests, and the socket that asked for the hardware address stays open. *)
Theorem dhcp_configures_lease {host : Host} {nl : Netlink} {serving : Serving}
    ifname idx hw msecs stack old n1 n2 rest p1 j1 m1 y1 os1 p2 j2 m2 y2 os2 s :
  (forall l m, sv_error l m = 0) -> (forall l, k_index l ifname = idx) -> idx <> 0 -> (forall l, k_resolv l = true) ->
  (forall l, k_write l = true) -> (forall l, k_hwaddr l (ifc_init_ifr ifname) = Some hw) -> zlen ifname <= 1000 -> f_oldstate s <> 1 ->
  length hw = 6%nat -> Forall noise n1 -> Forall noise n2 ->
  carries p1 m1 -> server_msg hw m1 (enc32 (u32 msecs)) y1 os1 -> i_type (says os1 y1) = DHCPOFFER ->
  carries p2 m2 -> server_msg hw m2 (enc32 (u32 (u32 msecs + 1))) y2 os2 -> i_type (says os2 y2) = DHCPACK ->
  let lease := says os2 y2 in
  exists s' t1 t2 t3 t4, do_dhcp ifname msecs stack old (n1 ++ Readable p1 j1 :: n2 ++ Readable p2 j2 :: rest) s = Some (Some (0, lease), s') /\
    sent (f_acts s') = sent (f_acts s) ++
      [wire t1 (Addr true AF_INET idx 32 [0; 0; 0; 0]); wire t2 (Link ifname true); wire t3 (Addr true AF_INET idx (i_prefixLength lease) y2);
       wire t4 (Route true AF_INET idx 0 [0; 0; 0; 0] None)] /\
    resolv (f_acts s') = resolv (f_acts s) ++ [name_server (ipaddr_to_string_v4 (dec_native (if k_last_first then i_dns1 lease else i_dns2 lease)))] /\
    held (f_acts s') = held (f_acts s) + 1.
Proof.
  intros Hok Hidx Hi Hr Hw Hhw Hn Ho Hh N1 N2 C1 S1 T1 C2 S2 T2 lease. unfold do_dhcp.
  assert (zlen y2 = 4 /\ Forall is_byte y2) as [Hy F2] by (by apply (server_yiaddr _ _ _ _ _ S2)).
  destruct (addr_sends true AF_INET ifname (addr_v4 0) [0; 0; 0; 0] 32 s) as (r1 & s1 & E1 & P1);
    [unfold addr_v4; change (AF_INET =? AF_INET) with true; cbv iota; by rewrite addr_ip_v4, enc32_zero | by rewrite Hidx |].
  erewrite bind_step by exact E1. rewrite (performed_ok _ _ _ _ Hok P1). change (negb (0 =? 0)) with false. cbv iota.
  assert (f_oldstate s1 = f_oldstate s) as Eo by (by destruct (performed_sent _ _ _ _ P1) as (_ & _ & _ & E)).
  destruct (link_up_agrees ifname s1 Hok Hn) as (s2 & t2 & E2 & Eo2 & A2). rewrite Eo, (proj2 (Z.eqb_neq _ _)) in A2 by done.
  erewrite bind_step by exact E2. change (negb (0 =? 0)) with false. cbv iota. unfold init_ifc.
  assert (if_get_hwaddr ifname s2 = Some ((0, Some (take 6 hw)), s2 <| f_acts := f_acts s2 ++
    [InetOpen (inet_next (f_acts s2)); GetHwaddr (inet_next (f_acts s2)) (ifc_init_ifr ifname)] |>)) as Eh.
  { unfold if_get_hwaddr, asks. rewrite bind_gets. rewrite (proj2 (Z.ltb_ge _ 0)) by apply sv_socket. erewrite bind_step by apply act_run.
    rewrite bind_gets, Hhw. erewrite bind_step by apply act_run. destruct s2. cbn. by rewrite <- app_assoc. }
  rewrite take_ge in Eh by lia. set (s3 := s2 <| f_acts := _ |>) in Eh. erewrite bind_step by exact Eh. cbv beta iota.
  unfold asks at 1. rewrite bind_gets, Hidx, (proj2 (Z.eqb_neq _ _)) by done.
  destruct (dhcp_obtains_lease hw msecs stack n1 n2 rest p1 j1 m1 y1 os1 p2 j2 m2 y2 os2) as (pd & pr & c & -> & _); [done..|].
  rewrite bind_lift. unfold dhcp_configure, in_addr. change (says os2 y2) with lease. change (i_ipaddr lease) with y2.
  destruct (network_v4_is ifname idx (dec_native y2) (i_prefixLength lease) (dec_native (i_gateway lease)) (dec_native (i_dns1 lease)) (dec_native (i_dns2 lease)) s3 Hok Hidx Hi Hr Hw)
    as (s4 & t0 & t3 & t4 & E4 & Es & Er & Ehd); [by apply dec_native_u32 | done |].
  erewrite bind_step by exact E4. exists s4, (u32 (k_time (f_acts s))), t2, t3, t4. split; [done|].
  rewrite Hidx in P1. pose proof (served_trans _ _ _ _ _ (performed_served Hok _ _ _ _ P1) A2) as (As & Ar & Ah).
  assert (f_oldstate s3 = 1) as E3 by (unfold s3; by destruct s2). rewrite E3 in Es. change (1 =? 1) with true in Es. cbv iota in Es.
  assert (f_acts s3 = f_acts s2 ++ [InetOpen (inet_next (f_acts s2)); GetHwaddr (inet_next (f_acts s2)) (ifc_init_ifr ifname)]) as Ea by (unfold s3; by destruct s2).
  rewrite Ea in Es, Er, Ehd. rewrite sent_app, As in Es. rewrite resolv_app, Ar in Er. rewrite held_app, Ah in Ehd.
  rewrite Es, Er, Ehd, enc32_dec by done. split_and!; [cbn; by rewrite <- !app_assoc | rewrite app_nil_r; by destruct k_last_first | done].
Qed.

Theorem dhcp_configures_lease_witness :
  exists s' t1 t2 t3 t4, do_dhcp (host := little_host) (nl := eg_kernel) (str "wwan0") 1000 [] no_info
      [PollError true; Readable (DhcpClientSpec.wire offer_eg) []; Readable (DhcpClientSpec.wire ack_eg) []; Timeout] if_initial =
      Some (Some (0, says (host := little_host) ack_opts [10; 0; 0; 77]), s') /\
    sent (f_acts s') =
      [wire (host := little_host) t1 (Addr true AF_INET 5 32 [0; 0; 0; 0]); wire (host := little_host) t2 (Link (str "wwan0") true);
       wire (host := little_host) t3 (Addr true AF_INET 5 24 [10; 0; 0; 77]); wire (host := little_host) t4 (Route true AF_INET 5 0 [0; 0; 0; 0] None)] /\
    resolv (f_acts s') = [str "nameserver 10.0.0.1" ++ [10]] /\ held (f_acts s') = 1.
Proof.
  destruct (dhcp_configures_lease (host := little_host) (nl := eg_kernel) (serving := eg_serving) (str "wwan0") 5 hw_eg 1000 [] no_info
    [PollError true] [] [Timeout] (DhcpClientSpec.wire offer_eg) [] offer_eg [10; 0; 0; 77] offer_opts
    (DhcpClientSpec.wire ack_eg) [] ack_eg [10; 0; 0; 77] ack_opts if_initial) as (s' & t1 & t2 & t3 & t4 & E & S & R & H).
  - reflexivity.
  - reflexivity.
  - discriminate.
  - reflexivity.
  - reflexivity.
  - reflexivity.
  - discriminate.
  - discriminate.
  - reflexivity.
  - repeat constructor.
  - constructor.
  - wire_eg.
  - server_eg.
  - reflexivity.
  - wire_eg.
  - server_eg.
  - reflexivity.
  - exists s', t1, t2, t3, t4. split; [exact E|]. split; [exact S|]. split; [exact R | exact H].
Defined.
