(* ===== verification/UdhcpcNl.v ===== *)
(** * udhcpc_netlink.c: the set-up of the network over netlink, the other half of the Makefile's choice (Udhcpc.v is the default).
    Its state is that of the files (Net.v) and that of the links (IfUtils.v).  The two texts about IPv4 forwarding and the printing of the addresses
    change nothing and are left out. *)
From S2P Require Import Prelude Util Monad Compose QmiRequests Text Device Net Qmap Mnl IfUtils Dhcp.
#[local] Open Scope Z_scope.
#[local] Open Scope c_scope.

Abbreviation MX := (M (list effect * ifstate)).
Definition on_files {A} (m : M (list effect) A) : MX A := fun '(f, s) => '(a, f) ← m f; Some (a, (f, s)).
Definition on_links {A} (m : MF A) : MX A := fun '(f, s) => '(a, s) ← m s; Some (a, (f, s)).

Section UdhcpcNl.
Context {host : Host} {net : Net} {heap : Heap} {nl : Netlink}.

Definition ntohl (v : Z) : Z := if is_bigendian then v else ql_swap32 v.

(** The two bytes written are the new mode and what was read after the old one. *)
Definition nl_raw_ip_mode_check (ifname : bytes) : MX Z :=
  let raw_ip := snprintf 128 (str "/sys/class/net/" ++ ifname ++ str "/qmi/raw_ip") in
  e ← on_files (gets (fun l => n_access l raw_ip)); if negb (e =? 0) then mret 0 else
  w ← on_files (gets (fun l => n_writable l raw_ip)); if negb w then mret 0 else
  t ← on_files (gets (fun l => n_text l raw_ip));
  let got := take 2 (default [] t) in
  let mode := got ++ drop (length got) [88; 0] in
  let c := mode !!! 0%nat in
  if (c =? 48) || (c =? 78) then
    _ ← on_links (if_link_down ifname);
    on_files (does (Wrote raw_ip (89 :: drop 1 mode)));;
    _ ← on_links (if_link_up ifname);
    mret 1
  else mret 0.

(** The 128 bytes of [link_file] are written: the number, then what is left of the path and of the stack ([junk]).  [rc] is unsigned, so a
    failing [read] passes the test; [strcasecmp] compares the end of the text too. *)
Definition nl_set_driver_link_state (junk : bytes) (profile : NET_T) (link_state : Z) : MX unit :=
  let link_file := sprint junk (str "/sys/class/net/" ++ usbnet_adapter profile ++ str "/link_state") in
  file ← lift (cstr link_file);
  w ← on_files (gets (fun l => n_writable l file)); if negb w then mret tt else
  let new_state :=
    if qmap_mode profile <=? 1 then (if link_state =? 0 then 0 else 1)
    else (if link_state =? 0 then 0x80 else 0x00) + pdp profile in
  let link_file := sprint link_file (dec_signed new_state ++ [newline]) in
  on_files (does (Wrote file link_file));;
  if (link_state =? 0) && (1 <? qmap_mode profile) then
    t ← on_files (gets (fun l => n_text l file));
    let got := take (length link_file) (default [] t) in
    let link_file := got ++ drop (length got) link_file in
    if bool_decide (t = None \/ (1 < length got)%nat) &&
        (starts_nocase (str "0" ++ [newline; 0]) link_file || starts_nocase (str "0x0" ++ [newline; 0]) link_file) then
      _ ← on_links (if_link_down (usbnet_adapter profile)); mret tt
    else mret tt
  else mret tt.

Definition nl_udhcpc_start (junk : bytes) (profile : NET_T) : MX unit :=
  nl_set_driver_link_state junk profile 1;;
  _ ← nl_raw_ip_mode_check (usbnet_adapter profile);
  let ifname := default (usbnet_adapter profile) (qmapnet_adapter profile) in
  when (negb (rawIP profile =? 0) && negb (Address (ipv4 profile) =? 0) && negb (Mtu (ipv4 profile) =? 0))
    (_ ← on_links (if_set_mtu ifname (Mtu (ipv4 profile))); mret tt);;
  when (negb (bool_decide (ifname = usbnet_adapter profile))) (_ ← on_links (if_link_up (usbnet_adapter profile)); mret tt);;
  _ ← on_links (if_link_up ifname);
  b ← on_files (ql_bridge_mode_detect profile);
  if b : bool then mret tt else
  when (negb (Address (ipv4 profile) =? 0))
    (_ ← on_links (if_set_network_v4 ifname (ntohl (Address (ipv4 profile))) (mask_to_prefix_v4 (SubnetMask (ipv4 profile)))
      (ntohl (Gateway (ipv4 profile))) (ntohl (DnsPrimary (ipv4 profile))) (ntohl (DnsSecondary (ipv4 profile)))); mret tt);;
  when (negb (Address6 (ipv6 profile) !!! 0%nat =? 0) && negb (PrefixLengthIPAddr (ipv6 profile) =? 0))
    (_ ← on_links (if_set_network_v6 ifname (Address6 (ipv6 profile)) (PrefixLengthIPAddr (ipv6 profile))
      (Gateway6 (ipv6 profile)) (DnsPrimary6 (ipv6 profile)) (DnsSecondary6 (ipv6 profile))); mret tt).

(** [fuel] bounds the datagrams of a dump. *)
Definition nl_udhcpc_stop (fuel : nat) (junk : bytes) (profile : NET_T) : MX unit :=
  nl_set_driver_link_state junk profile 0;;
  let ifname := default (usbnet_adapter profile) (qmapnet_adapter profile) in
  _ ← on_links (if_link_down ifname);
  _ ← on_links (if_flush_v4_addr fuel ifname);
  _ ← on_links (if_flush_v6_addr fuel ifname); mret tt.
End UdhcpcNl.
