(* ===== verification/UdhcpcNlSpec.v ===== *)
(** * The set-up over netlink with a multiplexed interface (UdhcpcNl.v). *)
From S2P Require Import Prelude Util Monad Compose QmiRequests Text Device Net Qmap Mnl MnlSpec IfUtils IfUtilsSpec IfFlushSpec Dhcp UdhcpcNl.
#[local] Open Scope Z_scope.
#[local] Open Scope c_scope.

Section Spec.
Context {host : Host} {net : Net} {heap : Heap} {nl : Netlink} {serving : Serving}.

(** The requests a computation sends, in their order. *)
Definition sends (s s' : ifstate) (rs : list request) : Prop :=
  exists ms, sent (f_acts s') = sent (f_acts s) ++ ms /\ Forall2 (fun m r => exists t, m = wire t r) ms rs.
Lemma sends_refl s s' : sent (f_acts s') = sent (f_acts s) -> sends s s' [].
Proof. intros E. exists []. rewrite app_nil_r. by split; [|constructor]. Qed.
Lemma sends_trans s1 s2 s3 l k : sends s1 s2 l -> sends s2 s3 k -> sends s1 s3 (l ++ k).
Proof. intros (m & E & F) (m' & E' & F'). exists (m ++ m'). rewrite E', E, app_assoc. split; [done | by apply Forall2_app]. Qed.
Lemma performed_sends s t r ret s' : performed s (wire t r) ret s' -> sends s s' [r] /\ f_oldstate s' = f_oldstate s.
Proof.
  intros P. destruct (performed_sent _ _ _ _ P) as (E & _ & _ & Ho). split; [|done]. exists [wire t r]. split; [done|]. constructor; [by exists t | constructor].
Qed.

(** A computation that returns, sends some requests of a kind and leaves the link's state as it says. *)
Definition runs {A} (m : MF A) (s : ifstate) (K : request -> Prop) (old : Z) (Q : list request -> Prop) : Prop :=
  exists a s' rs, m s = Some (a, s') /\ sends s s' rs /\ Forall K rs /\ Q rs /\ f_oldstate s' = old.

Context (K : request -> Prop) (usbnet : bytes) (K_link : forall n up, K (Link n up) <-> n = usbnet).
Context (K_mtu : forall i m, K (Mtu i m)) (K_addr : forall a b c d e, K (Addr a b c d e)) (K_route : forall a b c d e f, K (Route a b c d e f)).

(** Bringing up an interface when another one has been: nothing. *)
Lemma up_again name s : f_oldstate s = 1 -> if_link_up name s = Some (0, s).
Proof. intros E. unfold if_link_up, if_act_on_link. by rewrite bind_gets, E. Qed.
Lemma up_first s : zlen usbnet <= 1000 -> runs (if_link_up usbnet) s K 1 (fun _ => True).
Proof.
  intros Hn. destruct (Z.eqb_spec (f_oldstate s) 1) as [E|N].
  - exists 0, s, []. rewrite up_again by done. split_and!; try done; by apply sends_refl.
  - destruct (link_up_sends usbnet true s Hn N) as (r & s' & E & P). destruct (performed_sends _ _ _ _ _ P) as [H Ho].
    exists r, s', [Link usbnet true]. split; [exact E|]. split; [exact H|]. split; [repeat constructor; by apply K_link|]. split; [done|]. by rewrite Ho.
Qed.
Lemma down_first s : zlen usbnet <= 1000 -> runs (if_link_down usbnet) s K 0 (fun _ => True).
Proof.
  intros Hn. destruct (Z.eqb_spec (f_oldstate s) 0) as [E|N].
  - exists 0, s, []. unfold if_link_down, if_act_on_link. rewrite bind_gets, E. split_and!; try done; by apply sends_refl.
  - destruct (link_up_sends usbnet false s Hn N) as (r & s' & E & P). destruct (performed_sends _ _ _ _ _ P) as [H Ho].
    exists r, s', [Link usbnet false]. split; [exact E|]. split; [exact H|]. split; [repeat constructor; by apply K_link|]. split; [done|]. by rewrite Ho.
Qed.
Lemma mtu_any name mtu s : (forall l, k_index l name <> 0) -> runs (if_set_mtu name mtu) s K (f_oldstate s) (fun _ => True).
Proof.
  intros Hi. destruct (Z.eqb_spec mtu (f_oldmtu s)) as [E|N].
  - exists 0, s, []. unfold if_set_mtu. rewrite bind_gets, <- E, Z.eqb_refl. split_and!; try done; by apply sends_refl.
  - destruct (set_mtu_sends name mtu s) as (r & s' & E & P); [congruence | by apply Hi|]. destruct (performed_sends _ _ _ _ _ P) as [H Ho].
    eexists r, s', _. split; [exact E|]. split; [exact H|]. split; [repeat constructor; apply K_mtu|]. split; [done|]. by rewrite Ho.
Qed.

Lemma dns_any d1 d2 s : exists r s', if_set_dns d1 d2 s = Some (r, s') /\ sends s s' [] /\ f_oldstate s' = f_oldstate s.
Proof.
  unfold if_set_dns, asks. rewrite bind_gets. destruct (k_resolv (f_acts s)); cbn [negb].
  - rewrite bind_gets. eexists _, _. split; [by erewrite bind_step by apply act_run|]. split; [|by destruct s]. apply sends_refl. destruct s. cbn.
    rewrite sent_app. cbn. by rewrite app_nil_r.
  - eexists _, s. split; [done|]. split; [by apply sends_refl | done].
Qed.
Definition has (r : request) (rs : list request) : Prop := r ∈ rs.

(** The network of an interface whose link is thought to be up: its address and its route. *)
Lemma network_any name family (addr : MF Z) (route : MF Z) d1 d2 s idx prefix v dst :
  f_oldstate s = 1 ->
  (forall s, exists ret s' t, addr s = Some (ret, s') /\ performed s (wire t (Addr true family idx prefix v)) ret s') ->
  (forall s, exists ret s' t, route s = Some (ret, s') /\ performed s (wire t (Route true family idx 0 dst None)) ret s') ->
  runs (_ ← if_link_up name; _ ← addr; _ ← route; _ ← if_set_dns d1 d2; mret 0) s K 1 (has (Addr true family idx prefix v)).
Proof.
  intros Ho Ha Hr. destruct (Ha s) as (r1 & s1 & t1 & E1 & P1). destruct (Hr s1) as (r2 & s2 & t2 & E2 & P2).
  destruct (dns_any d1 d2 s2) as (r3 & s3 & E3 & S3 & O3). destruct (performed_sends _ _ _ _ _ P1) as [S1 O1]. destruct (performed_sends _ _ _ _ _ P2) as [S2 O2].
  exists 0, s3, [Addr true family idx prefix v; Route true family idx 0 dst None]. split.
  { erewrite bind_step by (by apply up_again). erewrite bind_step by exact E1. erewrite bind_step by exact E2. by erewrite bind_step by exact E3. }
  split; [exact (sends_trans _ _ _ _ _ S1 (sends_trans _ _ _ _ _ S2 S3))|].
  split; [repeat constructor; [apply K_addr | apply K_route]|]. split; [by apply list_elem_of_here | congruence].
Qed.

(** ** Both states *)
Abbreviation both_state := (list effect * ifstate)%type.
Definition sends_only {A} (m : MX A) (st : both_state) (Q : ifstate -> list request -> Prop) : Prop :=
  exists a f' s' rs, m st = Some (a, (f', s')) /\ sends st.2 s' rs /\ Forall K rs /\ Q s' rs.
Definition any_end (s : ifstate) (rs : list request) : Prop := True.

Lemma so_links {A} (m : MF A) f s old Q : runs m s K old Q -> sends_only (on_links m) (f, s) (fun s' rs => f_oldstate s' = old /\ Q rs).
Proof. intros (a & s' & rs & E & H & F & HQ & Ho). exists a, f, s', rs. unfold on_links. rewrite E. done. Qed.
Lemma so_files {A} (m : M (list effect) A) f s a f' : m f = Some (a, f') -> sends_only (on_files m) (f, s) (fun s' rs => s' = s /\ rs = []).
Proof. intros E. exists a, f', s, []. unfold on_files. rewrite E. split_and!; try done. by apply sends_refl. Qed.
Lemma so_ret {A} (a : A) st : sends_only (mret a : MX A) st (fun s' rs => s' = st.2 /\ rs = []).
Proof. destruct st as [f s]. exists a, f, s, []. split_and!; try done. by apply sends_refl. Qed.
Lemma so_bind {A B} (m : MX A) (k : A -> MX B) st Q R :
  sends_only m st Q -> (forall a f s rs, Q s rs -> sends_only (k a) (f, s) (fun s' rs' => R s' (rs ++ rs'))) -> sends_only (m ≫= k) st R.
Proof.
  intros (a & f & s & rs & E & H & F & HQ) Hk. destruct (Hk a f s rs HQ) as (b & f' & s' & rs' & E' & H' & F' & HR).
  exists b, f', s', (rs ++ rs'). split; [by erewrite bind_step by exact E|]. split; [by eapply sends_trans|]. split; [by apply Forall_app | exact HR].
Qed.
Lemma so_weaken {A} (m : MX A) st (Q R : ifstate -> list request -> Prop) : sends_only m st Q -> (forall s rs, Q s rs -> R s rs) -> sends_only m st R.
Proof. intros (a & f & s & rs & E & H & F & HQ) HR. exists a, f, s, rs. auto. Qed.

Lemma so_step {A B} (m : MX A) (k : A -> MX B) a st st' R : m st = Some (a, st') -> st'.2 = st.2 -> sends_only (k a) st' R -> sends_only (m ≫= k) st R.
Proof. intros E Es (b & f & s & rs & E' & H). exists b, f, s, rs. erewrite bind_step by exact E. rewrite <- Es. by split. Qed.
Lemma raw_ip_any st : zlen usbnet <= 1000 -> sends_only (nl_raw_ip_mode_check usbnet) st any_end.
Proof.
  intros Hn. unfold nl_raw_ip_mode_check. destruct st as [f s].
  assert (forall f s, sends_only (mret 0 : MX Z) (f, s) any_end) as H0 by (intros; by eapply so_weaken; [apply so_ret|]).
  eapply so_bind; [eapply so_files; reflexivity|]. intros e f1 s1 rs _. destruct (negb (e =? 0)); [by eapply so_weaken; [apply H0|]|].
  eapply so_bind; [eapply so_files; reflexivity|]. intros w f2 s2 rs2 _. destruct (negb w); [by eapply so_weaken; [apply H0|]|].
  eapply so_bind; [eapply so_files; reflexivity|]. intros t f3 s3 rs3 _.
  destruct (_ || _); [|by eapply so_weaken; [apply H0|]].
  eapply so_bind; [by apply so_links, down_first|]. intros ? f4 s4 rs4 _. eapply so_bind; [eapply so_files; reflexivity|]. intros ? f5 s5 rs5 _.
  eapply so_bind; [by apply so_links, up_first|]. intros ? f6 s6 rs6 _. by eapply so_weaken; [apply so_ret|].
Qed.
Lemma link_state_one junk profile st : length junk = 128%nat -> no_nul (usbnet_adapter profile) -> sends_only (nl_set_driver_link_state junk profile 1) st any_end.
Proof.
  intros Hj Hn. unfold nl_set_driver_link_state. destruct st as [f s].
  assert (exists file, cstr (sprint junk (str "/sys/class/net/" ++ usbnet_adapter profile ++ str "/link_state")) = Some file) as [file ->].
  { unfold sprint. eexists. apply cstr_app. unfold snprintf. apply Forall_take, Forall_app. split; [repeat constructor; discriminate|].
    apply Forall_app. split; [done | repeat constructor; discriminate]. }
  eapply so_bind; [exact (so_ret file (f, s))|]. intros file' f0 s0 rs0 _.
  eapply so_bind; [eapply so_files; reflexivity|]. intros w f1 s1 rs1 _. destruct (negb w); [by eapply so_weaken; [apply so_ret|]|].
  eapply so_bind; [eapply so_files; reflexivity|]. intros ? f2 s2 rs2 _. change (1 =? 0) with false. cbn [andb]. by eapply so_weaken; [apply so_ret|].
Qed.
End Spec.

Definition names_only (usbnet : bytes) (r : request) : Prop := match r with Link n _ => n = usbnet | _ => True end.

(** On an interface of a data call that is multiplexed over another one (QMAP), the set-up over netlink never brings up the link of the interface it
    configures: whatever the kernel and the files say, every link request of the whole run names the interface below - for the
    state that [if_act_on_link] remembers is already up -, while the address is given to the interface of the call. *)
Theorem qmap_link_never_up {host : Host} {net : Net} {heap : Heap} {nl : Netlink} {serving : Serving} junk profile q idx f s :
  qmapnet_adapter profile = Some q -> q <> usbnet_adapter profile -> no_nul (usbnet_adapter profile) -> zlen (usbnet_adapter profile) <= 1000 ->
  length junk = 128%nat -> (forall l, k_index l q = idx) -> idx <> 0 -> (forall f, exists f', ql_bridge_mode_detect profile f = Some (false, f')) ->
  is_u32 (ntohl (Address (ipv4 profile))) -> zlen (Address6 (ipv6 profile)) = 16 ->
  exists f' s' rs, nl_udhcpc_start junk profile (f, s) = Some (tt, (f', s')) /\ sends s s' rs /\
    Forall (names_only (usbnet_adapter profile)) rs /\
    (Address (ipv4 profile) <> 0 ->
      has (Addr true AF_INET idx (mask_to_prefix_v4 (SubnetMask (ipv4 profile))) (enc32 (ntohl (Address (ipv4 profile))))) rs).
Proof.
  intros Hq Hne Hnn Hl Hj Hidx Hi Hb Hu H6. set (usb := usbnet_adapter profile) in *.
  set (r4 := Addr true AF_INET idx _ _). set (K := names_only usb).
  assert (forall n up, K (Link n up) <-> n = usb) as K1 by done. assert (forall i m, K (Mtu i m)) as K2 by done.
  assert (forall a b c d e, K (Addr a b c d e)) as K3 by done. assert (forall a b c d e f, K (Route a b c d e f)) as K4 by done.
  enough (sends_only K (nl_udhcpc_start junk profile) (f, s) (fun _ rs => Address (ipv4 profile) <> 0 -> has r4 rs)) as ([] & f' & s' & rs & E & H & F & HQ)
    by (by exists f', s', rs).
  unfold nl_udhcpc_start. rewrite Hq. cbn [default]. rewrite (bool_decide_eq_false_2 (q = _)) by done. cbn [negb].
  eapply so_bind; [by apply link_state_one|]. intros ? f1 s1 rs1 _.
  eapply so_bind; [by eapply raw_ip_any|]. intros ? f2 s2 rs2 _.
  eapply (so_bind _ _ _ _ any_end).
  { destruct (_ && _); [|by eapply so_weaken; [apply so_ret|]]. cbn [when]. eapply so_bind; [eapply so_links, mtu_any; [done | by intros l; rewrite Hidx]|].
    intros ? f3 s3 rs3 _. by eapply so_weaken; [apply so_ret|]. }
  intros ? f3 s3 rs3 _. cbn [when].
  eapply (so_bind _ _ _ _ (fun s _ => f_oldstate s = 1)).
  { eapply so_bind; [by eapply so_links, up_first|]. intros ? f4 s4 rs4 [Ho _]. eapply so_weaken; [apply so_ret|]. cbn. by intros s' rs [-> _]. }
  intros ? f4 s4 rs4 Ho4. eapply (so_bind _ _ _ _ (fun s _ => f_oldstate s = 1)).
  { eapply so_weaken; [eapply (so_links K _ _ _ 1 (fun _ => True))|by intros s' rs []]. exists 0, s4, []. split; [by apply up_again|]. split_and!; try done. by apply sends_refl. }
  intros ? f5 s5 rs5 Ho5. destruct (Hb f5) as (f6 & Eb).
  eapply so_step; [unfold on_files; by rewrite Eb | done|]. cbv iota.
  set (Q := fun (s' : ifstate) rs => f_oldstate s' = 1 /\ (Address (ipv4 profile) <> 0 -> has r4 rs)).
  eapply (so_bind _ _ _ _ Q).
  { destruct (Z.eqb_spec (Address (ipv4 profile)) 0) as [E0|N0]; cbn [negb when].
    - eapply so_weaken; [apply so_ret|]. cbn. intros s' rs [-> ->]. split; [done|]. by intros [].
    - eapply so_bind; [eapply so_links|]; [|intros ? f7 s7 rs7 [Ho7 H7]; eapply so_weaken; [apply so_ret|]; cbn; intros s' rs [-> ->]; split; [exact Ho7|]; intros _; rewrite app_nil_r; exact H7].
      unfold if_set_network_v4, both, r4. eapply network_any with (dst := [0; 0; 0; 0]); [done.. | |].
      + intros s7. destruct (addr_sends true AF_INET q (addr_v4 (ntohl (Address (ipv4 profile)))) (enc32 (ntohl (Address (ipv4 profile))))
          (mask_to_prefix_v4 (SubnetMask (ipv4 profile))) s7) as (r & s8 & E8 & P8).
        * change (AF_INET =? AF_INET) with true. cbv iota. unfold addr_v4. by rewrite addr_ip_v4.
        * by rewrite Hidx.
        * rewrite Hidx in P8. by eexists r, s8, _.
      + intros s7. destruct (route_sends true AF_INET q None None s7) as (r & s8 & E8 & P8); [done | done | by rewrite Hidx|].
        rewrite Hidx in P8. by eexists r, s8, _. }
  intros ? f7 s7 rs7 [Ho7 H7].
  assert (forall rs', Address (ipv4 profile) <> 0 -> has r4 (rs1 ++ rs2 ++ rs3 ++ rs4 ++ rs5 ++ rs7 ++ rs')) as Hin.
  { intros rs' N. specialize (H7 N). unfold has in *. rewrite !elem_of_app. tauto. }
  destruct (_ && _); cbn [when]; [|eapply so_weaken; [apply so_ret|]; intros s' rs' _; apply Hin].
  eapply so_bind; [eapply so_links|]; [|intros ? f8 s8 rs8 _; eapply so_weaken; [apply so_ret|]; intros s' rs' _; rewrite ?app_assoc; rewrite <- ?app_assoc; apply Hin].
  unfold if_set_network_v6, both. eapply network_any with (dst := replicate 16 0); [done.. | |].
  + intros s8. destruct (addr_sends true AF_INET6 q (take 16 (Address6 (ipv6 profile))) (Address6 (ipv6 profile)) (PrefixLengthIPAddr (ipv6 profile)) s8) as (r & s9 & E9 & P9).
    * change (AF_INET6 =? AF_INET) with false. cbv iota. rewrite !take_ge by (rewrite ?length_take; unfold zlen in H6; lia). done.
    * by rewrite Hidx.
    * rewrite Hidx in P9. by eexists r, s9, _.
  + intros s8. destruct (route_sends true AF_INET6 q None None s8) as (r & s9 & E9 & P9); [done | done | by rewrite Hidx|].
    rewrite Hidx in P9. by eexists r, s9, _.
Qed.

(** ** A QMAP call *)
Section Example.
#[local] Instance eg_heap : Heap := {| malloc_ok := fun _ => true |}.
#[local] Instance eg_net : Net := {|
  n_access := fun _ _ => 2; n_text := fun _ _ => None; n_writable := fun _ _ => false; n_readlink := fun _ _ => None; n_socket := true;
  n_mtu := fun _ _ => None; n_flags := fun _ _ => None; n_address := fun _ _ => None; n_rmnet := fun _ _ => None |}.
Definition qmap_call : NET_T :=
  {| qmichannel := str "/dev/cdc-wdm0"; usbnet_adapter := str "wwan0"; qmapnet_adapter := Some (str "wwan0_1"); driver_name := Some (str "qmi_wwan_q");
     qmap_mode := 4; qmap_size := 0; qmap_version := 5; pdp := 1; rawIP := 1; muxid := 0x81; enable_bridge := 0; software_interface := 1;
     ipv4 := {| Address := 0x0a00004d; Gateway := 0x0a000001; SubnetMask := 0xffffff00; DnsPrimary := 0x08080808; DnsSecondary := 0; QmiRequests.Mtu := 1400 |};
     ipv6 := ipv6_zero; rmnet_info := [] |}.

Theorem qmap_link_never_up_witness :
  exists f' s' rs, nl_udhcpc_start (host := little_host) (nl := eg_kernel) (replicate 128 0) qmap_call ([], if_initial) = Some (tt, (f', s')) /\
    sends (host := little_host) if_initial s' rs /\ Forall (names_only (str "wwan0")) rs /\
    (0x0a00004d <> 0 -> has (Addr true AF_INET 5 24 [10; 0; 0; 77]) rs).
Proof.
  apply (qmap_link_never_up (host := little_host) (nl := eg_kernel) (serving := eg_serving) (replicate 128 0) qmap_call (str "wwan0_1") 5 [] if_initial).
  - reflexivity.
  - discriminate.
  - repeat constructor; discriminate.
  - discriminate.
  - reflexivity.
  - reflexivity.
  - discriminate.
  - intros f. exists f. reflexivity.
  - split; [discriminate | reflexivity].
  - reflexivity.
Defined.
End Example.
