(* ===== verification/MainRun.v ===== *)
(** * main.c: the whole of [qmi_main], from the label [__main_loop] over the loop of Main.v to the end of the program.
    What the program does around the loop - sockets, threads, other programs, waits - is a list of acts.  One pass through the label is
    described by a [Pass]: what the system answers on the way to the loop.  The inputs of the loop are the polls and what happens between them. *)
From S2P Require Import Prelude Util Text QmiMsg Compose Cm Monad QmiRequests QmiStatus QmiExchange WwanCM Device Options Brothers Main.
#[local] Open Scope Z_scope.

Inductive run_act :=
  | Reattach | Slept (seconds : Z) | OpenPair (a b : Z) | Detect | MakeNode (path : bytes) (dev : Z) | UseDevice (gobinet : bool) | Signalled (acts : list signal_act)
  | StartReader | StartUbus | JoinReader | KillUbus | JoinUbus | CmDestroy | CloseFd (fd : Z).

(** [qmi_main] between its passes: the state of the loop, the fields of the profile that choose the device, the globals [signal_control_fd] and
    [qmidevice_control_fd], the device's settings ([settings]). *)
Record Life (W E : Type) := {
  l_main : MainState W; l_channel : option bytes; l_adapter : option bytes; l_busnum : Z; l_devnum : Z;
  l_signal_fd : Z * Z; l_device_fd : Z * Z; l_settings : E; l_acts : list run_act }.
Arguments l_main {W E}. Arguments l_channel {W E}. Arguments l_adapter {W E}. Arguments l_busnum {W E}. Arguments l_devnum {W E}.
Arguments l_signal_fd {W E}. Arguments l_device_fd {W E}. Arguments l_settings {W E}. Arguments l_acts {W E}.
#[export] Instance life_eta {W E} : Eta (Life W E) := fun s =>
  Build_Life W E (l_main s) (l_channel s) (l_adapter s) (l_busnum s) (l_devnum s) (l_signal_fd s) (l_device_fd s) (l_settings s) (l_acts s).
#[export] Instance set_l_main {W E} : Setter (@l_main W E) := ltac:(derive_setter).
#[export] Instance set_l_channel {W E} : Setter (@l_channel W E) := ltac:(derive_setter).
#[export] Instance set_l_adapter {W E} : Setter (@l_adapter W E) := ltac:(derive_setter).
#[export] Instance set_l_busnum {W E} : Setter (@l_busnum W E) := ltac:(derive_setter).
#[export] Instance set_l_devnum {W E} : Setter (@l_devnum W E) := ltac:(derive_setter).
#[export] Instance set_l_signal_fd {W E} : Setter (@l_signal_fd W E) := ltac:(derive_setter).
#[export] Instance set_l_device_fd {W E} : Setter (@l_device_fd W E) := ltac:(derive_setter).
#[export] Instance set_l_settings {W E} : Setter (@l_settings W E) := ltac:(derive_setter).
#[export] Instance set_l_acts {W E} : Setter (@l_acts W E) := ltac:(derive_setter).

(** What reaches the process: the alarm's expiry, a terminating signal, an event of the reader thread; a poll that succeeds or times out, one
    that fails, one that tells an error on a socket. *)
Inductive input := Alrm | Term | Arrives (e : Z) (payload : bytes) | Poll (present : nat -> bool) | PollFails | PollErr (hup : bool).

(** [p_lost]: what arrives before the new sockets exist; [p_early]: what arrives between the start of the reader thread and the loop;
    [p_detect]: sysfs at the successive detections. *)
Record Pass := {
  p_lost : list input; p_reattach : Z; p_signal_pair : option (Z * Z); p_device_pair : option (Z * Z); p_detect : list Fs;
  p_proc : option (list proc_dir); p_reader : Z; p_ubus : Z; p_first : option Z; p_early : list input }.

(** How [enter] ends: in the loop, with the program, or not: no device is there yet. *)
Inductive entry := InLoop | Returned (r : Z) | Looking.
(** How the program stands: it has ended at [__main_quit] (with its sockets open there, or closed by a reset), has returned before its loop,
    looks for a device, or runs. *)
Inductive outcome := Quit (closed_before : bool) | Failed (r : Z) | Searching | Running.

Section Life.
Context {host : Host} {W E : Type} {calls : Calls W} {procs : Procs} (clock : nat -> Z) (reattach_flag qmap_mode : Z).
(** From the reader's first event to the loop: [qmi_start] of Main.v on a qmi_wwan device. *)
Variable start : E -> M (MainState W) (bool * E).
Abbreviation ML := (M (Life W E)).

Definition in_main {A} (m : M (MainState W) A) : ML A := fun s =>
  match m (l_main s) with Some (a, t) => Some (a, s <| l_main := t |>) | None => None end.
Definition act (a : run_act) : ML unit := modify (fun s => s <| l_acts := l_acts s ++ [a] |>).
Fixpoint acts (l : list run_act) : ML unit := match l with [] => mret tt | a :: l => act a;; acts l end.

(** A signal while no loop will read it: the handler still clears [main_loop]. *)
Definition lost (i : input) : MainState W -> MainState W :=
  match i with Alrm => fun s => set_timer s false | Term => fun s => set_main_loop s 0 | _ => id end.
Definition arrive (i : input) : M (MainState W) unit :=
  match i with Alrm => sigalrm | Term => sigterm | Arrives e payload => device_event e payload | _ => mret tt end.
Fixpoint arrive_all (l : list input) : M (MainState W) unit :=
  match l with [] => mret tt | i :: l => arrive i;; arrive_all l end.

(** The search for a device: the name given with -i is not asked for, and [main_loop] is not looked at. *)
Definition found_device (f : Found) : ML unit :=
  modify (fun s => s <| l_channel := Some (found_channel f) |>
    <| l_adapter := match l_adapter s with Some a => Some a | None => Some (found_adapter f) end |>
    <| l_busnum := from_option fst (l_busnum s) (found_numbers f) |>
    <| l_devnum := from_option snd (l_devnum s) (found_numbers f) |>).
Fixpoint look (systems : list Fs) : ML bool :=
  match systems with
  | [] => mret false
  | fs :: systems =>
      act Detect;;
      '(r, nodes) ← lift (qmidevice_detect (fs := fs) [] 33);
      acts ((fun n => MakeNode n.1 n.2) <$> nodes);;
      match r with Some f => found_device f;; mret true | None => look systems end
  end.

Definition enter (p : Pass) : ML entry :=
  modify (fun s => s <| l_main := foldl (flip lost) (l_main s) (p_lost p) |>);;
  when (negb (reattach_flag =? 0)) (act Reattach;; when (p_reattach p =? 0) (act (Slept 2)));;
  match p_signal_pair p with
  | None => mret (Returned (-1))
  | Some sp =>
      act (OpenPair sp.1 sp.2);; modify (fun s => s <| l_signal_fd := sp |>);; in_main (modify (fun t => set_signal_q t []));;
      match p_device_pair p with
      | None => mret (Returned 0)
      | Some dp =>
          act (OpenPair dp.1 dp.2);; modify (fun s => s <| l_device_fd := dp |>);; in_main (modify (fun t => set_device_q t []));;
          c ← gets l_channel;
          found ← match c with Some _ => mret true | None => look (p_detect p) end;
          if negb found then mret Looking else
          c ← gets l_channel;
          channel ← lift c;
          act (UseDevice (qmidev_is_gobinet channel));;
          '(_, signals) ← lift (qmi_main_kill_brothers qmap_mode channel (p_proc p) []);
          act (Signalled signals);;
          if negb (p_reader p =? 0) then mret (Returned 0) else
          act StartReader;;
          if negb (p_ubus p =? 0) then mret (Returned 0) else
          act StartUbus;;
          if negb (bool_decide (p_first p = Some RIL_INDICATE_DEVICE_CONNECTED)) then mret (Returned 0) else
          in_main (arrive_all (p_early p));;
          e ← gets l_settings;
          '(started, e) ← in_main (start e);
          modify (fun s => s <| l_settings := e |>);;
          mret (if started : bool then InLoop else Returned 0)
      end
  end.

Definition step (i : input) : M (MainState W) verdict :=
  match i with
  | Poll present => turn clock present
  | PollFails => mret QuitMain
  | PollErr hup => main_send_event_to_qmidevice RIL_REQUEST_QUIT;; mret (if hup then QuitMain else Continue)
  | i => arrive i;; mret Continue
  end.
(** The seconds waited for the device after a reset. *)
Definition waited (i : input) : nat :=
  match i with Poll present => from_option (fun x => S x.1) 20%nat (list_find (fun k => present k = false) (seq 0 20)) | _ => 0%nat end.
Fixpoint loop (ins : list input) : ML (verdict * nat) :=
  match ins with
  | [] => mret (Continue, 0%nat)
  | i :: ins => v ← in_main (step i); match v with Continue => loop ins | v => mret (v, waited i) end
  end.

Definition close_sockets : ML unit :=
  s ← gets id;
  acts [CloseFd (l_signal_fd s).1; CloseFd (l_signal_fd s).2; CloseFd (l_device_fd s).1; CloseFd (l_device_fd s).2].
(** The label [__main_quit]. *)
Definition quit : ML unit :=
  in_main main_quit;;
  acts [JoinReader; KillUbus; JoinUbus; CmDestroy];;
  close_sockets.
Definition after_reset (seconds : nat) : ML unit := close_sockets;; acts (replicate seconds (Slept 1)).
(** [save_usbnet_adapter] of [qmi_main] is NULL: an interface given with -i is forgotten. *)
Definition unplugged : ML unit := act JoinReader;; modify (fun s => s <| l_channel := None |> <| l_adapter := None |>).

Fixpoint qmi_main (passes : list (Pass * list input)) : ML outcome :=
  match passes with
  | [] => mret Running
  | (p, ins) :: passes =>
      e ← enter p;
      match e with
      | Returned r => mret (Failed r)
      | Looking => mret Searching
      | InLoop =>
          '(v, n) ← loop ins;
          match v with
          | Continue => mret Running
          | QuitMain => quit;; mret (Quit false)
          | Unplugged => unplugged;; qmi_main passes
          | AfterReset => after_reset n;; qmi_main passes
          | DeviceGone => after_reset n;; quit;; mret (Quit true)
          end
      end
  end.
End Life.

(** What [main] (Options.v) hands over, with the local variables as they are set before the label: the clock is read once; [attached] is what the uninitialised
    [PSAttachedState] holds. *)
Definition locals {W} (clock : nat -> Z) (o : Options) (w : W) (attached : Z) : MainState W :=
  build w (Options.profile o) {| ipv4 := ipv4_zero; ipv6 := ipv6_zero; PCSCFIpv4 := ([], []); PCSCFIpv6 := ([], []) |}
    (Options.loopback_state o) (Options.replication_factor o) attached 0xff 0xff 0 (ulong (clock 0%nat)) 0 (-1) (Options.main_loop o) false 1%nat [] [] [].
Definition life_init {W E} (clock : nat -> Z) (s : Start) (w : W) (attached : Z) (settings : E) : Life W E :=
  let o := st_options s in
  {| l_main := locals clock o w attached; l_channel := Options.qmichannel o; l_adapter := Options.usbnet_adapter o;
     l_busnum := from_option fst 0 (numbers s); l_devnum := from_option snd 0 (numbers s); l_signal_fd := (0, 0); l_device_fd := (0, 0);
     l_settings := settings; l_acts := [] |}.
