(* ===== verification/MainRunSpec.v ===== *)
(** * The life of the program in QMI mode (MainRun.v): it ends when it is told to, and what its restarts cost. *)
From S2P Require Import Prelude Util Text QmiMsg Compose Cm Monad QmiRequests QmiStatus QmiExchange WwanCM Device Options OptionsSpec Brothers Main MainSpec MainRun.
#[local] Open Scope Z_scope.

(** ** Requests that return *)
(** Whatever they answer, the requests come back. *)
Class Answering {W} (calls : Calls W) : Prop := {
  ans_setup p f w : is_Some (call_setup p f w);
  ans_address c f w : is_Some (call_address c f w);
  ans_query old f w : is_Some (call_query old f w);
  ans_deactivate f w : is_Some (call_deactivate f w);
  ans_registration old w : is_Some (call_registration old w);
  ans_signal w : is_Some (call_signal w);
  ans_deinit f w : call_deinit = Some f -> is_Some (f w) }.

(** A computation that returns and adds to the queue of signals; the events of the device and [main_loop] stay. *)
Definition extends {W A} (m : M (MainState W) A) : Prop := forall s, exists a s' q,
  m s = Some (a, s') /\ signal_q s' = signal_q s ++ q /\ device_q s' = device_q s /\ main_loop s' = main_loop s.

Create HintDb extends.
Section Extends.
Context {W A B : Type}.

Lemma extends_ret (a : A) : extends (mret a : M (MainState W) A).
Proof. intros s. exists a, s, []. by rewrite app_nil_r. Qed.
Lemma extends_gets (f : MainState W -> A) : extends (gets f).
Proof. intros s. exists (f s), s, []. by rewrite app_nil_r. Qed.
Lemma extends_modify (f : MainState W -> MainState W) :
  (forall s, exists q, signal_q (f s) = signal_q s ++ q /\ device_q (f s) = device_q s /\ main_loop (f s) = main_loop s) -> extends (modify f).
Proof. intros H s. destruct (H s) as (q & H1 & H2 & H3). by exists tt, (f s), q. Qed.
Lemma extends_bind (m : M (MainState W) A) (k : A -> M (MainState W) B) : extends m -> (forall a, extends (k a)) -> extends (m ≫= k).
Proof.
  intros Hm Hk s. destruct (Hm s) as (a & s1 & q1 & E1 & Q1 & D1 & L1). destruct (Hk a s1) as (b & s2 & q2 & E2 & Q2 & D2 & L2).
  exists b, s2, (q1 ++ q2). rewrite (bind_step _ _ _ _ _ E1). split; [done|]. split; [by rewrite Q2, Q1, app_assoc|]. by rewrite D2, L2.
Qed.
Lemma extends_lift (o : option A) : is_Some o -> extends (lift o : M (MainState W) A).
Proof. intros [a ->] s. exists a, s, []. by rewrite app_nil_r. Qed.
Lemma extends_in_calls (m : M W A) : (forall w, is_Some (m w)) -> extends (in_calls m).
Proof.
  intros H s. unfold in_calls. destruct (H (m_world s)) as [[a w] ->]. exists a, (set_world s w), []. by rewrite app_nil_r.
Qed.
End Extends.
Lemma extends_send {W} signo : extends (send_signo_to_main (W := W) signo).
Proof. apply extends_modify. intros s. by exists [signo]. Qed.
#[export] Hint Resolve extends_ret extends_gets extends_send : extends.

(** Goes through the code of a computation; what is left are its own steps. *)
Ltac extend :=
  repeat first
    [ solve [eauto with extends nocore]
    | apply extends_bind; [|intros ?]
    | apply extends_modify; intros ?; exists []; rewrite app_nil_r; done
    | match goal with
      | |- extends (if ?b then _ else _) => destruct b
      | |- extends (match ?x with _ => _ end) => destruct x eqn:?
      | |- extends (let '(_, _) := ?x in _) => destruct x
      | |- extends (when ?b _) => unfold when
      end ].

Section Handlers.
Context {host : Host} {W : Type} {calls : Calls W} {answering : Answering calls} (clock : nat -> Z).

Lemma extends_link_change n : extends (usbnet_link_change (W := W) n).
Proof. unfold usbnet_link_change. extend. Qed.
Lemma extends_alarm n : extends (set_alarm (W := W) n).
Proof. unfold set_alarm. extend. Qed.
Lemma extends_clock : extends (clock_msec (W := W) clock).
Proof. unfold clock_msec. extend. Qed.
Lemma extends_setup f : extends (setup (W := W) f).
Proof using answering. unfold setup, assign_err. extend. apply extends_in_calls. intros w. apply ans_setup. Qed.
Lemma extends_get_address f : extends (get_address (W := W) f).
Proof using answering. unfold get_address, assign_err. extend. apply extends_in_calls. intros w. apply ans_address. Qed.
Lemma extends_query old f : extends (in_calls (call_query (W := W) old f)).
Proof using answering. apply extends_in_calls. intros w. apply ans_query. Qed.
Lemma extends_deactivate f : extends (in_calls (call_deactivate (W := W) f)).
Proof using answering. apply extends_in_calls. intros w. apply ans_deactivate. Qed.
Lemma extends_registration old : extends (in_calls (call_registration (W := W) old)).
Proof using answering. apply extends_in_calls. intros w. apply ans_registration. Qed.
Lemma extends_signal : extends (in_calls (call_signal (W := W))).
Proof using answering. apply extends_in_calls. intros w. apply ans_signal. Qed.
Lemma extends_address c f : extends (in_calls (call_address (W := W) c f)).
Proof using answering. apply extends_in_calls. intros w. apply ans_address. Qed.
Hint Resolve extends_link_change extends_alarm extends_clock extends_setup extends_get_address extends_query extends_deactivate
  extends_registration extends_signal extends_address : extends.

Lemma extends_start : extends (handle_start (W := W) clock).
Proof using answering. unfold handle_start, dial_ipv4, dial_ipv6, retry_later, assign_err. extend. Qed.
Lemma extends_check : extends (handle_check (W := W)).
Proof using answering. unfold handle_check, check_families, check_ipv4, check_ipv6, check_settle, check_ipv4_address. extend. Qed.
Lemma extends_stop : extends (handle_stop (W := W)).
Proof using answering.
  unfold handle_stop, main_send_event_to_qmidevice. extend. apply extends_in_calls. intros w. by apply ans_deinit.
Qed.
Lemma extends_loopback payload : extends (handle_loopback (W := W) payload).
Proof.
  unfold handle_loopback, sizeof_SetLoopBackInd. destruct (Z.eqb_spec (zlen payload) 15) as [H|_]; [|extend].
  apply extends_bind; [apply extends_lift, ld_defined; lia | intros lb].
  apply extends_bind; [apply extends_lift, rd32_defined; lia | intros rf]. extend.
Qed.
Lemma extends_signo signo : extends (handle_signo (W := W) clock signo).
Proof using answering.
  pose proof extends_start. pose proof extends_check. pose proof extends_stop. unfold handle_signo. extend.
Qed.
Lemma extends_event present e payload : extends (handle_event (W := W) clock present e payload).
Proof using answering. pose proof extends_loopback. unfold handle_event, main_send_event_to_qmidevice, usbnet_link_state. extend. Qed.
End Handlers.

(** ** A terminating signal ends the loop *)
(** No event in the queue resets the modem: the handler of a reset closes the sockets, and with them the signals. *)
Definition no_reset (q : list (Z * bytes)) : Prop := Forall (fun e => e.1 <> MODEM_REPORT_RESET_EVENT) q.
(** At most [n] signals are in front of the STOP. *)
Definition stopping {W} (n : nat) (s : MainState W) : Prop :=
  main_loop s = 0 /\ no_reset (device_q s) /\ exists before after, signal_q s = before ++ SIG_EVENT_STOP :: after /\ (length before <= n)%nat.
Definition calm (i : input) : Prop := match i with Arrives e _ => e <> MODEM_REPORT_RESET_EVENT | _ => True end.
Definition is_poll (i : input) : bool := match i with Poll _ => true | _ => false end.
Definition polls (l : list input) : nat := length (filter (fun i => is_poll i = true) l).

(** What a computation can result in. *)
Definition only {S A} (P : A -> Prop) (m : M S A) : Prop := forall s a s', m s = Some (a, s') -> P a.
Lemma only_bind {S A B} (P : B -> Prop) (m : M S A) k : (forall a, only P (k a)) -> only P (m ≫= k).
Proof. intros H s b s' (a & s1 & _ & E)%bind_inv. exact (H a _ _ _ E). Qed.
Lemma only_ret {S A} (P : A -> Prop) (a : A) : P a -> only P (mret a : M S A).
Proof. by intros H s b s' [= <- _]. Qed.
Ltac result :=
  repeat first
    [ apply only_ret; done
    | apply only_bind; intros ?
    | match goal with |- only _ (match ?x with _ => _ end) => destruct x end ].

Section Stopping.
Context {host : Host} {W : Type} {calls : Calls W} {answering : Answering calls} (clock : nat -> Z).

Lemma signo_verdict signo : only (fun v => v = if signo =? SIG_EVENT_STOP then QuitMain else Continue) (handle_signo (W := W) clock signo).
Proof.
  unfold handle_signo. apply only_bind. intros _. destruct (Z.eqb_spec signo SIG_EVENT_STOP) as [-> | Hs]; [result|].
  destruct (signo =? SIG_EVENT_START); [result|]. destruct (signo =? SIG_EVENT_CHECK); result.
Qed.
Lemma event_continues present e payload :
  e <> MODEM_REPORT_RESET_EVENT -> e <> RIL_INDICATE_DEVICE_DISCONNECTED ->
  only (fun v => v = Continue) (handle_event (W := W) clock present e payload).
Proof.
  intros H1 H2. unfold handle_event. rewrite (proj2 (Z.eqb_neq e MODEM_REPORT_RESET_EVENT)), (proj2 (Z.eqb_neq e RIL_INDICATE_DEVICE_DISCONNECTED)) by done.
  result.
Qed.
Lemma event_verdict present e payload (s : MainState W) v s' :
  e <> MODEM_REPORT_RESET_EVENT -> main_loop s = 0 -> handle_event clock present e payload s = Some (v, s') -> v = Continue \/ v = QuitMain.
Proof.
  intros He Hl. destruct (decide (e = RIL_INDICATE_DEVICE_DISCONNECTED)) as [-> | Hd].
  - unfold handle_event. rewrite Z.eqb_refl. intros (? & s1 & E1 & E)%bind_inv. rewrite bind_gets in E.
    destruct (extends_link_change 0 s) as (? & s2 & ? & E2 & _ & _ & Hm).
    rewrite E1 in E2. injection E2 as -> ->. rewrite Hm, Hl in E. injection E as <- _. by right.
  - intros E. left. by apply (event_continues present e payload He Hd _ _ _ E).
Qed.

(** A turn takes one signal from the queue, and handlers only add behind the STOP. *)
Lemma turn_stopping present n (s : MainState W) : stopping n s ->
  exists v s', turn clock present s = Some (v, s') /\ (v = QuitMain \/ (v = Continue /\ exists m, n = S m /\ stopping m s')).
Proof using answering.
  intros (Hl & Hd & before & after & Hq & Hn). unfold turn. rewrite !bind_gets.
  assert (exists signo rest, signal_q s = signo :: rest /\ (signo = SIG_EVENT_STOP \/
    exists m before, n = S m /\ rest = before ++ SIG_EVENT_STOP :: after /\ (length before <= m)%nat)) as (signo & rest & Eq & Hs).
  { rewrite Hq. destruct before as [|b before]; [by eexists _, _; split; [reflexivity | left]|]. eexists b, _. split; [reflexivity|].
    cbn [length] in Hn. right. exists (n - 1)%nat, before. split; [lia|]. split; [done | lia]. }
  rewrite Eq. destruct (extends_signo clock signo (set_signal_q s rest)) as (v & s1 & q & E1 & Q1 & D1 & L1).
  change (signal_q (set_signal_q s rest)) with rest in Q1. change (device_q (set_signal_q s rest)) with (device_q s) in D1.
  change (main_loop (set_signal_q s rest)) with (main_loop s) in L1.
  pose proof (signo_verdict signo _ _ _ E1) as Hv. cbv beta in Hv.
  erewrite bind_step by (rewrite bind_modify; exact E1). destruct Hs as [-> | (m & before' & -> & Er & Hm)].
  { rewrite Z.eqb_refl in Hv. subst v. cbv iota. eexists _, _. split; [reflexivity | by left]. }
  destruct (signo =? SIG_EVENT_STOP); subst v; cbv iota; [eexists _, _; split; [reflexivity | by left]|].
  destruct (device_q s) as [|[e payload] dq] eqn:Ed.
  - eexists _, _. split; [reflexivity|]. right. split; [done|]. exists m. split; [done|]. split; [congruence|]. rewrite D1. split; [done|].
    exists before', (after ++ q). rewrite Q1, Er, <- app_assoc. done.
  - apply Forall_cons in Hd as [He Hd]. cbn in He.
    destruct (extends_event clock present e payload (set_device_q s1 dq)) as (v & s2 & q2 & E2 & Q2 & D2 & L2).
    rewrite bind_modify. exists v, s2. split; [exact E2|].
    assert (main_loop (set_device_q s1 dq) = 0) as Hl1 by (change (main_loop s1 = 0); congruence).
    destruct (event_verdict present e payload _ _ _ He Hl1 E2) as [-> | ->]; [right | by left]. split; [done|]. exists m. split; [done|].
    split; [congruence|]. rewrite D2. split; [exact Hd|]. exists before', (after ++ q ++ q2). rewrite Q2.
    change (signal_q (set_device_q s1 dq)) with (signal_q s1). rewrite Q1, Er, <- !app_assoc. done.
Qed.

Lemma step_stopping i n (s : MainState W) : calm i -> stopping n s ->
  exists v s', step clock i s = Some (v, s') /\
    (v = QuitMain \/ (v = Continue /\ exists m, n = ((if is_poll i then 1 else 0) + m)%nat /\ stopping m s')).
Proof using answering.
  intros Hc Hs. pose proof Hs as (Hl & Hd & before & after & Hq & Hn).
  assert (forall q, signal_q s ++ q = before ++ SIG_EVENT_STOP :: after ++ q) as Hadd by (intros; by rewrite Hq, <- app_assoc).
  destruct i as [| |e payload|present| |hup]; cbn [step is_poll arrive].
  - eexists _, _. split; [reflexivity|]. right. split; [done|]. exists n. split; [done|]. split; [done|]. split; [done|].
    eexists _, _. split; [apply Hadd | done].
  - eexists _, _. split; [reflexivity|]. right. split; [done|]. exists n. split; [done|]. split; [done|]. split; [done|].
    eexists _, _. split; [apply Hadd | done].
  - eexists _, _. split; [reflexivity|]. right. split; [done|]. exists n. split; [done|]. split; [done|]. split; [|by eexists _, _].
    unfold no_reset. cbn. apply Forall_app. split; [done | by repeat constructor].
  - destruct (turn_stopping present n s Hs) as (v & s' & E & H). by exists v, s'.
  - eexists _, _. split; [reflexivity | by left].
  - destruct hup; (eexists _, _; split; [reflexivity|]); [by left|]. right. split; [done|]. exists n. split; [done|]. exact Hs.
Qed.

Context {E : Type}.
Lemma loop_stopping ins : forall n (s : Life W E), Forall calm ins -> stopping n (l_main s) -> (n < polls ins)%nat ->
  exists k t, loop clock ins s = Some ((QuitMain, k), s <| l_main := t |>).
Proof using answering.
  induction ins as [|i ins IH]; intros n s Hc Hs Hp; [cbn in Hp; lia|]. apply Forall_cons in Hc as [Hi Hc]. cbn [loop].
  destruct (step_stopping i n (l_main s) Hi Hs) as (v & t & Et & H).
  erewrite bind_step by (unfold in_main; rewrite Et; reflexivity). destruct H as [-> | (-> & m & -> & Hm)].
  - eexists _, t. reflexivity.
  - cbv iota. destruct (IH m (s <| l_main := t |>)) as (k & t' & El); [done | done | |exists k, t'; exact El].
    unfold polls in *. rewrite filter_cons in Hp. destruct (is_poll i); [rewrite decide_True in Hp by done; cbn [length] in Hp; lia|].
    rewrite decide_False in Hp by done. cbn in Hp. lia.
Qed.
Lemma term_stopping (s : MainState W) : no_reset (device_q s) -> exists t, sigterm s = Some (tt, t) /\ stopping (length (signal_q s)) t.
Proof. intros H. eexists. split; [reflexivity|]. split; [done|]. split; [done|]. by eexists _, []. Qed.
Lemma loop_app l1 l2 k (s s1 : Life W E) :
  loop clock l1 s = Some ((Continue, k), s1) -> loop clock (l1 ++ l2) s = loop clock l2 s1.
Proof.
  revert s. induction l1 as [|i l1 IH]; intros s; [by intros [= _ <-]|]. cbn [loop app]. intros (v & s2 & E1 & E2)%bind_inv.
  rewrite (bind_step _ _ _ _ _ E1). destruct v; [by apply IH | injection E2; done..].
Qed.

(** ** The end of the program *)
Definition closed (s : Life W E) : list run_act :=
  [CloseFd (l_signal_fd s).1; CloseFd (l_signal_fd s).2; CloseFd (l_device_fd s).1; CloseFd (l_device_fd s).2].
Lemma acts_run l (s : Life W E) : acts l s = Some (tt, s <| l_acts := l_acts s ++ l |>).
Proof.
  revert s. induction l as [|a l IH]; intros s; [cbn; rewrite app_nil_r; by destruct s|]. cbn [acts]. unfold act. rewrite bind_modify, IH.
  cbn. by rewrite <- app_assoc.
Qed.
Lemma quit_run (s : Life W E) : quit s = Some (tt,
  s <| l_main := link_changed (l_main s) 0 |> <| l_acts := l_acts s ++ [JoinReader; KillUbus; JoinUbus; CmDestroy] ++ closed s |>).
Proof.
  unfold quit, in_main, main_quit. erewrite bind_step by (rewrite link_change_run; reflexivity).
  erewrite bind_step by apply acts_run. unfold close_sockets. rewrite bind_gets, acts_run. cbn. by rewrite <- app_assoc.
Qed.
End Stopping.

(** ** What is held *)
(** The acts that take or give back a descriptor or a thread. *)
Definition counts (a : run_act) : bool :=
  match a with OpenPair _ _ | CloseFd _ | StartReader | JoinReader | StartUbus | JoinUbus => true | _ => false end.
Definition ledger (l : list run_act) : list run_act := filter (fun a => counts a = true) l.
#[global] Arguments ledger : simpl never.
Definition tally (f : run_act -> Z) (l : list run_act) : Z := foldr (fun a n => f a + n) 0 l.
Definition descriptors : list run_act -> Z := tally (fun a => match a with OpenPair _ _ => 2 | CloseFd _ => -1 | _ => 0 end).
Definition reader_threads : list run_act -> Z := tally (fun a => match a with StartReader => 1 | JoinReader => -1 | _ => 0 end).
Definition ubus_threads : list run_act -> Z := tally (fun a => match a with StartUbus => 1 | JoinUbus => -1 | _ => 0 end).
Definition joined : list run_act -> Z := tally (fun a => match a with JoinReader => 1 | _ => 0 end).

Lemma ledger_app l k : ledger (l ++ k) = ledger l ++ ledger k.
Proof. apply filter_app. Qed.
Lemma tally_app f l k : tally f (l ++ k) = tally f l + tally f k.
Proof. induction l as [|a l IH]; cbn; [done|]. unfold tally in *. lia. Qed.
Lemma tally_ledger f l : (forall a, counts a = false -> f a = 0) -> tally f (ledger l) = tally f l.
Proof.
  intros H. induction l as [|a l IH]; [done|]. unfold ledger, tally in *. rewrite filter_cons. destruct (counts a) eqn:E.
  - rewrite decide_True by done. cbn. by rewrite IH.
  - rewrite decide_False by done. cbn [foldr]. rewrite IH, H by done. lia.
Qed.

Section Ledger.
Context {host : Host} {W E : Type} {calls : Calls W} {procs : Procs} (clock : nat -> Z) (reattach_flag qmap_mode : Z).
Context (start : E -> M (MainState W) (bool * E)).
Definition held_part (s : Life W E) := (ledger (l_acts s), l_signal_fd s, l_device_fd s).

Lemma keeps_act a : counts a = false -> keeps held_part (act (W := W) (E := E) a).
Proof.
  intros H s x s' [= _ <-]. unfold held_part. cbn. rewrite ledger_app. unfold ledger at 2. rewrite filter_cons, decide_False by (by rewrite H).
  by rewrite app_nil_r.
Qed.
Lemma keeps_in_main {A} (m : M (MainState W) A) : keeps held_part (in_main (E := E) m).
Proof. intros s x s'. unfold in_main. destruct (m (l_main s)) as [[a t]|]; [|done]. by intros [= _ <-]. Qed.
Lemma keeps_nodes nodes : keeps held_part (acts (W := W) (E := E) ((fun n => MakeNode n.1 n.2) <$> nodes)).
Proof.
  induction nodes as [|n nodes IH]; [apply keeps_ret|]. cbn [fmap list_fmap acts]. apply keeps_bind; [by apply keeps_act | intros _; exact IH].
Qed.
Lemma keeps_look systems : keeps held_part (look (W := W) (E := E) systems).
Proof.
  induction systems as [|fs systems IH]; [apply keeps_ret|]. cbn [look]. pose proof (keeps_act Detect eq_refl). pose proof keeps_nodes.
  unfold found_device. frame.
Qed.

Lemma bind_keeps {A B} (m : M (Life W E) A) (k : A -> M (Life W E) B) s b s' :
  (m ≫= k) s = Some (b, s') -> keeps held_part m -> exists a s1, held_part s1 = held_part s /\ k a s1 = Some (b, s').
Proof. intros (a & s1 & E1 & E2)%bind_inv H. exists a, s1. split; [exact (H _ _ _ E1) | exact E2]. Qed.

Ltac pass H := apply bind_keeps in H as (? & ? & ? & H); [|first [by apply keeps_act | apply keeps_in_main | apply keeps_lift | apply keeps_gets | apply keeps_look
  | solve [frame; first [by apply keeps_act | apply keeps_look]]]].

(** A pass that gets to the loop has opened two pairs of sockets and started both threads. *)
Lemma enter_ledger p s s' : enter reattach_flag qmap_mode start p s = Some (InLoop, s') -> exists a b c d,
  l_signal_fd s' = (a, b) /\ l_device_fd s' = (c, d) /\ ledger (l_acts s') = ledger (l_acts s) ++ [OpenPair a b; OpenPair c d; StartReader; StartUbus].
Proof.
  unfold enter. intros H. pass H. pass H.
  destruct (p_signal_pair p) as [[a b]|]; [|done]. apply bind_inv in H as (? & ? & [= _ <-] & H). rewrite bind_modify in H. pass H.
  destruct (p_device_pair p) as [[c d]|]; [|done]. apply bind_inv in H as (? & ? & [= _ <-] & H). rewrite bind_modify in H. pass H.
  pass H. pass H.
  match type of H with context[if negb ?f then _ else _] => destruct f; [|done] end. cbn [negb] in H. pass H. pass H. pass H. pass H.
  match type of H with context[let '(_, _) := ?x in _] => destruct x end. pass H.
  destruct (negb (p_reader p =? 0)); [done|]. apply bind_inv in H as (? & ? & [= _ <-] & H).
  destruct (negb (p_ubus p =? 0)); [done|]. apply bind_inv in H as (? & ? & [= _ <-] & H).
  destruct (negb (bool_decide _)); [done|]. pass H. pass H. pass H.
  match type of H with context[let '(_, _) := ?x in _] => destruct x as [[|] ?] end.
  2:{ by apply bind_inv in H as (? & ? & _ & [= ]). }
  apply bind_inv in H as (? & ? & [= _ <-] & [= <-]). unfold held_part in *. cbn in *. rewrite !ledger_app in *. exists a, b, c, d.
  repeat match goal with H : (_, _, _) = (_, _, _) |- _ => injection H as ? ? ? end.
  split; [congruence|]. split; [congruence|].
  repeat match goal with E : ledger _ = _ |- _ => rewrite E; clear E end. by rewrite <- !app_assoc.
Qed.

Lemma after_reset_run n (s : Life W E) : after_reset n s = Some (tt, s <| l_acts := l_acts s ++ closed s ++ replicate n (Slept 1) |>).
Proof.
  unfold after_reset, close_sockets. erewrite bind_step by (rewrite bind_gets; apply acts_run). rewrite acts_run. cbn. by rewrite <- app_assoc.
Qed.
Lemma ledger_waits n : ledger (replicate n (Slept 1)) = [].
Proof. induction n; [done|]. cbn [replicate]. unfold ledger. by rewrite filter_cons, decide_False. Qed.
Lemma loop_frame ins s v s' : loop clock ins s = Some (v, s') -> held_part s' = held_part s.
Proof.
  revert s. induction ins as [|i ins IH]; intros s; cbn [loop]; [by intros [= _ <-]|]. intros (r & s1 & E1 & E2)%bind_inv.
  pose proof (keeps_in_main _ _ _ _ E1) as H. destruct r; [rewrite (IH _ E2); exact H | injection E2 as _ <-; exact H..].
Qed.

(** What the life up to an end at [__main_quit] adds to the four counts, with [u] unpluggings and [r] resets of the modem on the way. *)
Definition cost (b : bool) (u r : Z) (l l' : list run_act) : Prop :=
  joined l' = joined l + u + 1 /\ descriptors l' = descriptors l + 4 * u - (if b then 4 else 0) /\
  reader_threads l' = reader_threads l + r /\ ubus_threads l' = ubus_threads l + u + r.
Lemma tallies (l l' x : list run_act) : ledger l' = ledger l ++ x ->
  joined l' = joined l + joined x /\ descriptors l' = descriptors l + descriptors x /\
  reader_threads l' = reader_threads l + reader_threads x /\ ubus_threads l' = ubus_threads l + ubus_threads x.
Proof.
  intros H. unfold joined, descriptors, reader_threads, ubus_threads.
  repeat match goal with |- context[tally ?f l'] => rewrite <- (tally_ledger f l'), H, tally_app by (by intros []) end.
  rewrite !(tally_ledger _ l) by (by intros []). done.
Qed.

Lemma settle_cost (b : bool) u r l l' x : ledger l' = ledger l ++ x ->
  joined x = u + 1 /\ descriptors x = 4 * u - (if b then 4 else 0) /\ reader_threads x = r /\ ubus_threads x = u + r -> cost b u r l l'.
Proof. intros H. destruct (tallies _ _ _ H) as (H1 & H2 & H3 & H4). unfold cost. rewrite H1, H2, H3, H4. lia. Qed.

Lemma round_cost b u r du dr l l1 l' x : cost b u r l1 l' -> ledger l1 = ledger l ++ x ->
  joined x = du /\ descriptors x = 4 * du /\ reader_threads x = dr /\ ubus_threads x = du + dr -> cost b (u + du) (r + dr) l l'.
Proof. intros C H. destruct (tallies _ _ _ H) as (H1 & H2 & H3 & H4). unfold cost in *. lia. Qed.

(** C38: What a restart costs.  When the program ends, every time the modem was unplugged has left the four descriptors of the control sockets
    open, and every restart - after an unplugging or a reset - has left a thread of the ubus service running; after a reset the reader thread is
    not waited for either.  Without a restart everything is given back; and when the modem does not come back from a reset, the
    four descriptors are closed twice. *)
Theorem restarts_cost passes s b s' :
  qmi_main clock reattach_flag qmap_mode start passes s = Some (Quit b, s') ->
  exists u r, 0 <= u /\ 0 <= r /\ u + r < Z.of_nat (length passes) /\ cost b u r (l_acts s) (l_acts s').
Proof.
  revert s. induction passes as [|[p ins] passes IH]; intros s; [done|]. cbn [qmi_main]. intros (e & s1 & E1 & H)%bind_inv.
  destruct e; [|discriminate H..]. destruct (enter_ledger p s s1 E1) as (a1 & b1 & c1 & d1 & S1 & D1 & L1).
  apply bind_inv in H as ([v n] & s2 & E2 & H). pose proof (loop_frame _ _ _ _ E2) as F. injection F as F1 F2 F3. rewrite L1 in F1.
  assert (closed s2 = [CloseFd a1; CloseFd b1; CloseFd c1; CloseFd d1]) as Hc by (unfold closed; by rewrite F2, F3, S1, D1).
  destruct v; [discriminate H|..].
  - erewrite bind_step in H by apply quit_run. injection H as <- <-. exists 0, 0. split; [lia|]. split; [lia|]. split; [cbn [length]; lia|].
    rewrite Hc. apply settle_cost with (x := [OpenPair a1 b1; OpenPair c1 d1; StartReader; StartUbus; JoinReader; JoinUbus; CloseFd a1; CloseFd b1; CloseFd c1; CloseFd d1]); [|done].
    cbn [l_acts set_field set_l_acts set_l_main]. rewrite !ledger_app, F1, <- !app_assoc. done.
  - erewrite bind_step in H by (unfold unplugged, act; rewrite bind_modify; reflexivity). destruct (IH _ H) as (u & r & Hu & Hr & Hl & C).
    exists (u + 1), (r + 0). split; [lia|]. split; [lia|]. split; [cbn [length]; lia|].
    eapply (round_cost _ _ _ _ _ _ _ _ [OpenPair a1 b1; OpenPair c1 d1; StartReader; StartUbus; JoinReader]); [exact C | | done].
    cbn [l_acts set_field set_l_acts set_l_channel set_l_adapter]. rewrite !ledger_app, F1, <- !app_assoc. done.
  - erewrite bind_step in H by apply after_reset_run. destruct (IH _ H) as (u & r & Hu & Hr & Hl & C).
    exists (u + 0), (r + 1). split; [lia|]. split; [lia|]. split; [cbn [length]; lia|].
    eapply (round_cost _ _ _ _ _ _ _ _ ([OpenPair a1 b1; OpenPair c1 d1; StartReader; StartUbus] ++ closed s2)); [exact C | | by rewrite Hc].
    cbn [l_acts set_field set_l_acts]. rewrite !ledger_app, F1, ledger_waits, app_nil_r, Hc, <- !app_assoc. done.
  - erewrite bind_step in H by apply after_reset_run. erewrite bind_step in H by apply quit_run. injection H as <- <-.
    exists 0, 0. split; [lia|]. split; [lia|]. split; [cbn [length]; lia|].
    eapply (settle_cost _ _ _ _ _ ([OpenPair a1 b1; OpenPair c1 d1; StartReader; StartUbus] ++ closed s2 ++ [JoinReader; JoinUbus] ++ closed s2)); [| by rewrite Hc].
    transitivity (ledger ((l_acts s2 ++ closed s2 ++ replicate n (Slept 1)) ++ [JoinReader; KillUbus; JoinUbus; CmDestroy] ++ closed s2)); [done|].
    rewrite !ledger_app, F1, ledger_waits, Hc, <- !app_assoc. done.
Qed.

(** C37: A terminating signal ends the program, whatever the requests answer and whatever else arrives, short of an event that the modem was reset:
    with [n] signals waiting before it, the loop turns at most [n + 1] times more; then the link is down, both threads are waited
    for, the sockets of the pass are closed in the order they were opened, and nothing of what the pass has taken is left. *)
Theorem term_ends_program {answering : Answering calls} p before after rest s s1 k s2 :
  enter reattach_flag qmap_mode start p s = Some (InLoop, s1) -> loop clock before s1 = Some ((Continue, k), s2) ->
  no_reset (device_q (l_main s2)) -> Forall calm after -> (length (signal_q (l_main s2)) < polls after)%nat ->
  exists s' a b c d, qmi_main clock reattach_flag qmap_mode start ((p, before ++ Term :: after) :: rest) s = Some (Quit false, s') /\
    s_link (l_main s') = 0 /\
    ledger (l_acts s') = ledger (l_acts s) ++ [OpenPair a b; OpenPair c d; StartReader; StartUbus; JoinReader; JoinUbus; CloseFd a; CloseFd b; CloseFd c; CloseFd d].
Proof.
  intros E1 E2 Hd Hc Hp. destruct (enter_ledger p s s1 E1) as (a & b & c & d & S1 & D1 & L1).
  pose proof (loop_frame _ _ _ _ E2) as F. injection F as F1 F2 F3. rewrite L1 in F1.
  destruct (term_stopping (l_main s2) Hd) as (t & Et & Hs).
  set (s3 := s2 <| l_main := t |>). destruct (loop_stopping clock after _ s3 Hc Hs Hp) as (n & t' & El).
  assert (loop clock (before ++ Term :: after) s1 = Some (QuitMain, n, s2 <| l_main := t' |>)) as E3.
  { rewrite (loop_app clock _ _ _ _ _ E2). cbn [loop step arrive].
    erewrite bind_step by (unfold in_main; rewrite (bind_step _ _ _ _ _ Et); reflexivity). exact El. }
  eexists _, a, b, c, d. split.
  { cbn [qmi_main]. rewrite (bind_step _ _ _ _ _ E1), (bind_step _ _ _ _ _ E3). erewrite bind_step by apply quit_run. reflexivity. }
  split; [cbn; unfold link_changed; destruct (Z.eqb_spec (s_link t') 0) as [Hl|]; [exact Hl | done]|].
  transitivity (ledger (l_acts s2 ++ [JoinReader; KillUbus; JoinUbus; CmDestroy] ++ closed s2)); [done|].
  rewrite !ledger_app, F1, <- !app_assoc. unfold closed. by rewrite F2, F3, S1, D1.
Qed.
End Ledger.

(** ** Runs *)
#[local] Instance lone_program : Procs := {| self_pid := 1000; self_exe := Some (str "/usr/bin/quectel-CM"); lives := fun _ _ => false |}.
#[local] Instance answering_eg : Answering (good_calls_at 0x0A000001).
Proof. split; cbn; intros; solve [done | by eexists]. Qed.
(** The command line of [sample_options], on a system with one modem. *)
Definition started : Start :=
  {| st_options := set_channel (Some (str "/dev/cdc-wdm0")) (set_adapter (Some (str "wwan0")) sample_options);
     hardware_interface := HARDWARE_USB; software_interface := SOFTWARE_QMI; numbers := Some (1, 12) |}.
Definition life_eg : Life bool unit := life_init (fun _ => 1000) started false 1 tt.
(** The numbers of the descriptors of a pass that starts at [fd]. *)
Definition pass_eg (fd : Z) (lost : list input) : Pass :=
  {| p_lost := lost; p_reattach := 0; p_signal_pair := Some (fd, fd + 1); p_device_pair := Some (fd + 2, fd + 3); p_detect := [no_files; one_modem];
     p_proc := Some []; p_reader := 0; p_ubus := 0; p_first := Some RIL_INDICATE_DEVICE_CONNECTED; p_early := [] |}.
Definition start_eg (e : unit) : M (MainState bool) (bool * unit) := send_signo_to_main SIG_EVENT_CHECK;; mret (true, e).
Abbreviation run_eg := (qmi_main (calls := good_calls_at 0x0A000001) (fun _ => 1000) 0 0 start_eg).
Definition always (n : nat) : bool := true.
Definition turns_eg (n : nat) : list input := replicate n (Poll always).

(** The modem is unplugged, the second detection finds it again, it is reset, and the program is told to end. *)
Definition replugged : list (Pass * list input) :=
  [ (pass_eg 3 [], turns_eg 4 ++ [Arrives RIL_INDICATE_DEVICE_DISCONNECTED []; Poll always]);
    (pass_eg 10 [], turns_eg 4 ++ [Arrives MODEM_REPORT_RESET_EVENT []; Poll always]);
    (pass_eg 17 [], turns_eg 4 ++ Term :: turns_eg 2) ].
Theorem restarts_cost_witness :
  exists s' u r, run_eg replugged life_eg = Some (Quit false, s') /\ 0 <= u /\ 0 <= r /\ u + r < 3 /\ cost false u r [] (l_acts s').
Proof.
  destruct (run_eg replugged life_eg) as [[o s']|] eqn:E; [|by vm_compute in E].
  assert (o = Quit false) as -> by (vm_compute in E; by injection E as <- _).
  destruct (restarts_cost (calls := good_calls_at 0x0A000001) (fun _ => 1000) 0 0 start_eg _ _ _ _ E) as (u & r & H).
  exists s', u, r. split; [reflexivity | exact H].
Defined.
Example replugged_eg : exists s', run_eg replugged life_eg = Some (Quit false, s') /\
  (descriptors (l_acts s'), reader_threads (l_acts s'), ubus_threads (l_acts s')) = (4, 1, 2).
Proof. eexists. split; [vm_compute; reflexivity | reflexivity]. Qed.

Definition after_eg : list input := [Arrives RIL_UNSOL_DATA_CALL_LIST_CHANGED []; Poll always; Alrm; Poll always; Poll always].
Theorem term_ends_program_witness :
  exists s' a b c d, run_eg [(pass_eg 3 [], turns_eg 4 ++ Term :: after_eg)] life_eg = Some (Quit false, s') /\ s_link (l_main s') = 0 /\
    ledger (l_acts s') = [OpenPair a b; OpenPair c d; StartReader; StartUbus; JoinReader; JoinUbus; CloseFd a; CloseFd b; CloseFd c; CloseFd d].
Proof.
  destruct (enter 0 0 start_eg (pass_eg 3 []) life_eg) as [[e s1]|] eqn:E1; [|by vm_compute in E1].
  assert (e = InLoop) as -> by (vm_compute in E1; by injection E1 as <- _).
  destruct (loop (calls := good_calls_at 0x0A000001) (fun _ => 1000) (turns_eg 4) s1) as [[[v k] s2]|] eqn:E2;
    [|vm_compute in E1; injection E1 as <-; by vm_compute in E2].
  assert (v = Continue /\ device_q (l_main s2) = [] /\ length (signal_q (l_main s2)) = 0%nat) as (-> & Hd & Hq).
  { vm_compute in E1. injection E1 as <-. vm_compute in E2. injection E2 as <- _ <-. done. }
  apply (term_ends_program (calls := good_calls_at 0x0A000001) (fun _ => 1000) 0 0 start_eg _ _ after_eg [] _ _ _ _ E1 E2).
  - rewrite Hd. apply Forall_nil_2.
  - by repeat constructor.
  - rewrite Hq. vm_compute. lia.
Defined.

(** ** What is lost *)
(** A terminating signal while the program waits for a modem that was reset: the sockets are closed, [main_loop] is not looked at again, and the
    program goes on. *)
Example term_lost_in_reset : exists s',
  run_eg [(pass_eg 3 [], [Arrives MODEM_REPORT_RESET_EVENT []; Poll always]); (pass_eg 10 [Term], turns_eg 50)] life_eg = Some (Running, s') /\
  main_loop (l_main s') = 0 /\ s_link (l_main s') = 1.
Proof. eexists. split; [vm_compute; reflexivity|]. done. Qed.
(** The search for the device does not end on a terminating signal, and does not wait between two attempts. *)
Lemma search_goes_on {W E} n (s : Life W E) :
  look (replicate n no_files) s = Some (false, s <| l_acts := l_acts s ++ replicate n Detect |>).
Proof.
  revert s. induction n as [|n IH]; intros s; [cbn; rewrite app_nil_r; by destruct s|]. cbn [replicate look]. unfold act at 1. rewrite bind_modify.
  assert (qmidevice_detect (fs := no_files) [] 33 = Some (None, [])) as -> by reflexivity. rewrite bind_lift. cbn [fmap list_fmap acts].
  rewrite bind_ret, IH. cbn. by rewrite <- app_assoc.
Qed.
(** The interface given with -i is not asked for again. *)
Example interface_forgotten : exists s',
  run_eg [(pass_eg 3 [], [Arrives RIL_INDICATE_DEVICE_DISCONNECTED []; Poll always]); (pass_eg 10 [], [])]
    (set_l_adapter (Some (str "wwan7")) life_eg) = Some (Running, s') /\ l_adapter s' = Some (str "wwan0").
Proof. eexists. split; [vm_compute; reflexivity|]. done. Qed.
