(* ===== verification/MbimDump.v ===== *)
(** * mbim-cm.c: the printout of a message ([mbim_dump]).
    It runs for every message with -v, and without it for every answer that carries an error.  A message is its memory from the first byte on: a
    printout that reads behind it is [None].  The result is the list of the lines. *)
From S2P Require Import Prelude Util Text Mbim Layout MbimStructs.
#[local] Open Scope Z_scope.
#[local] Open Scope c_scope.

(** ** The names *)
(** The functions that [enumstrfunc] makes, and those written out. *)
Definition name_of (table : list (Z * bytes)) (unknown : bytes) (v : Z) : bytes :=
  match find (fun x => x.1 =? v) table with Some x => x.2 | None => unknown end.

Definition UUID_BASIC_CONNECT_CIDs : list (Z * bytes) := [
  (1, str "MBIM_CID_DEVICE_CAPS"); (2, str "MBIM_CID_SUBSCRIBER_READY_STATUS"); (3, str "MBIM_CID_RADIO_STATE"); (4, str "MBIM_CID_PIN");
  (5, str "MBIM_CID_PIN_LIS"); (6, str "MBIM_CID_HOME_PROVIDER"); (7, str "MBIM_CID_PREFERRED_PROVIDERS"); (8, str "MBIM_CID_VISIBLE_PROVIDERS");
  (9, str "MBIM_CID_REGISTER_STATE"); (10, str "MBIM_CID_PACKET_SERVICE"); (11, str "MBIM_CID_SIGNAL_STATE"); (12, str "MBIM_CID_CONNECT");
  (13, str "MBIM_CID_PROVISIONED_CONTEXTS"); (14, str "MBIM_CID_SERVICE_ACTIVATION"); (15, str "MBIM_CID_IP_CONFIGURATION");
  (16, str "MBIM_CID_DEVICE_SERVICES"); (19, str "MBIM_CID_DEVICE_SERVICE_SUBSCRIBE_LIST"); (20, str "MBIM_CID_PACKET_STATISTICS");
  (21, str "MBIM_CID_NETWORK_IDLE_HINT"); (22, str "MBIM_CID_EMERGENCY_MODE"); (23, str "MBIM_CID_IP_PACKET_FILTERS");
  (24, str "MBIM_CID_MULTICARRIER_PROVIDERS")].
Definition CID2Str : Z -> bytes := name_of UUID_BASIC_CONNECT_CIDs (str "CID2Unknow").
Definition UUID_BASIC_CONNECT_EXT_CIDs : list (Z * bytes) := [
  (1, str "MBIM_CID_MS_PROVISIONED_CONTEXT_V2"); (2, str "MBIM_CID_MS_NETWORK_BLACKLIST"); (3, str "MBIM_CID_MS_LTE_ATTACH_CONFIG");
  (4, str "MBIM_CID_MS_LTE_ATTACH_STATUS"); (5, str "MBIM_CID_MS_SYS_CAPS"); (6, str "MBIM_CID_MS_DEVICE_CAPS_V2");
  (7, str "MBIM_CID_MS_DEVICE_SLOT_MAPPING"); (8, str "MBIM_CID_MS_SLOT_INFO_STATUS"); (9, str "MBIM_CID_MS_PCO"); (10, str "MBIM_CID_MS_DEVICE_RESET");
  (11, str "MBIM_CID_MS_BASE_STATIONS_INFO"); (12, str "MBIM_CID_MS_LOCATION_INFO_STATUS"); (13, str "MBIM_CID_NOT_DEFINED");
  (14, str "MBIM_CID_MS_PIN_EX"); (15, str "MBIM_CID_MS_VERSION")].
Definition MS_CID2Str : Z -> bytes := name_of UUID_BASIC_CONNECT_EXT_CIDs (str "MS_CID2Unknow").
Definition MBIM_MSGS : list (Z * bytes) := [
  (1, str "MBIM_OPEN_MSG"); (2, str "MBIM_CLOSE_MSG"); (3, str "MBIM_COMMAND_MSG"); (4, str "MBIM_HOST_ERROR_MSG"); (0x80000001, str "MBIM_OPEN_DONE");
  (0x80000002, str "MBIM_CLOSE_DONE"); (0x80000003, str "MBIM_COMMAND_DONE"); (0x80000004, str "MBIM_FUNCTION_ERROR_MSG");
  (0x80000007, str "MBIM_INDICATE_STATUS_MSG")].
Definition MBIMMSGTypeStr : Z -> bytes := name_of MBIM_MSGS (str "MBIMMSGTypeUnknow").
Definition MBIMPacketServiceStateStr : Z -> bytes := name_of
  [(0, str "Unknown"); (1, str "Attaching"); (2, str "Attached"); (3, str "Detaching"); (4, str "Detached")] (str "Undefined").
Definition MBIMDataClassStr : Z -> bytes := name_of [
  (0x0, str "None"); (0x1, str "GPRS"); (0x2, str "EDGE"); (0x4, str "UMTS"); (0x8, str "HSDPA"); (0x10, str "HSUPA"); (0x20, str "LTE");
  (0x40, str "5G_NSA"); (0x80, str "5G_SA"); (0x10000, str "1XRTT"); (0x20000, str "1XEVDO"); (0x40000, str "1XEVDORevA"); (0x80000, str "1XEVDV");
  (0x100000, str "3XRTT"); (0x200000, str "1XEVDORevB"); (0x400000, str "UMB"); (0x80000000, str "Custom")] (str "Unknow").
Definition MBIMSubscriberReadyStateStr : Z -> bytes := name_of [
  (0, str "NotInitialized"); (1, str "Initialized"); (2, str "NotInserted"); (3, str "BadSim"); (4, str "Failure"); (5, str "NotActivated");
  (6, str "DeviceLocked")] (str "Undefined").
Definition MBIMRegisterStateStr : Z -> bytes := name_of [
  (0, str "Unknown"); (1, str "Deregistered"); (2, str "Searching"); (3, str "Home"); (4, str "Roaming"); (5, str "Partner"); (6, str "Denied")]
  (str "Undefined").
Definition MBIMRegisterModeStr : Z -> bytes := name_of [(0, str "Unknown"); (1, str "Automatic"); (2, str "Manual")] (str "Undefined").
Definition MBIMContextIPTypeStr : Z -> bytes := name_of [
  (0, str "MBIMContextIPTypeDefault"); (1, str "MBIMContextIPTypeIPv4"); (2, str "MBIMContextIPTypeIPv6"); (3, str "MBIMContextIPTypeIPv4v6");
  (4, str "MBIMContextIPTypeIPv4AndIPv6")] (str "MBIMContextIPTypeUnknow").
Definition MBIMActivationStateStr : Z -> bytes := name_of [
  (0, str "Unknown"); (1, str "Activated"); (2, str "Activating"); (3, str "Deactivated"); (4, str "Deactivating")] (str "Undefined").
Definition MBIMVoiceCallStateStr : Z -> bytes := name_of [(0, str "None"); (1, str "InProgress"); (2, str "HangUp")] (str "Undefined").

Definition services : list (bytes * bytes) := [
  (UUID_BASIC_CONNECT, str "UUID_BASIC_CONNECT"); (UUID_BASIC_CONNECT_EXT, str "UUID_BASIC_CONNECT_EXT");
  (str "533fbeeb-14fe-4467-9f90-33a223e56c3f", str "UUID_SMS"); (str "e550a0c8-5e82-479e-82f7-10abf4c3351f", str "UUID_USSD");
  (str "4bf38476-1e6a-41db-b1d8-bed289c25bdb", str "UUID_PHONEBOOK"); (str "d8f20131-fcb5-4e17-8602-d6ed3816164c", str "UUID_STK");
  (str "1d2b5ff7-0aa1-48b2-aa52-50f15767174e", str "UUID_AUTH"); (str "c08a26dd-7718-4382-8482-6e0d583c4d0e", str "UUID_DSS");
  (str "d1a30bc2-f97a-6e43-bf65-c7e24fb0f0d3", str "uuid_ext_qmux"); (str "883b7c26-985f-43fa-9804-27d7fb80959c", str "uuid_mshsd");
  (str "2d0c12c9-0e6a-495a-915c-8d174fe5d63c", str "uuid_qmbe"); (str "e9f7dea2-feaf-4009-93ce-90a3694103b6", str "UUID_MSFWID");
  (str "5967bdcc-7fd2-49a2-9f5c-b2e70e527db3", str "uuid_atds"); (str "6427015f-579d-48f5-8c54-f43ed1e76f83", str "uuid_qdu");
  (str "c2f6588e-f037-4bc9-8665-f4d44bd09367", str "UUID_MS_UICC_LOW_LEVEL"); (str "68223D04-9F6C-4E0F-822D-28441FB72340", str "UUID_MS_SARControl");
  (str "8d8b9eba-37be-449b-8f1e-61cb034a702e", str "UUID_VOICEEXTENSIONS")].
Definition DeviceServiceId2str (u : bytes) : bytes :=
  match find (fun x => same_nocase (uuid2str u) x.1) services with Some x => x.2 | None => uuid2str u end.

(** ** The fields *)
Definition hex8 (v : Z) : bytes := hex4 (v / 65536) ++ hex4 (v mod 65536).
(** [%02X:] *)
Definition hex_upper (b : Z) : bytes := (fun c => if 97 <=? c then c - 32 else c) <$> hex2 b.
(** "<direction> <name> = <value>" *)
Definition line (direction : bytes) (name value : bytes) : bytes := direction ++ str " " ++ name ++ str " = " ++ value.
Definition named (s : bytes) (v : Z) : bytes := s ++ str " (" ++ dec v ++ str ")".
Definition s64 (v : Z) : Z := if v <? 2 ^ 63 then v else v - 2 ^ 64.

Section Dump.
Context {host : Host} (direction : bytes) (m : bytes).
Abbreviation lines := (option (list bytes)).

Definition u32_line (name : bytes) (p : Z) : lines := v ← rd32 m p; Some [line direction name (dec v)].
Definition named_line (name : bytes) (f : Z -> bytes) (p : Z) : lines := v ← rd32 m p; Some [line direction name (f v)].
Definition both_line (name : bytes) (f : Z -> bytes) (p : Z) : lines := v ← rd32 m p; Some [line direction name (named (f v) v)].
Definition u64_line (name : bytes) (p : Z) : lines :=
  lo ← rd32 m p; hi ← rd32 m (p + 4); Some [line direction name (dec_signed (s64 (hi * 2 ^ 32 + lo)))].
Definition text_line (name : bytes) (base field_offset field_len : Z) : lines :=
  o ← rd32 m field_offset; n ← rd32 m field_len; t ← mbim_get_segment m (base + o) n; Some [line direction name (upto_nul t)].
(** One printout after the other. *)
Fixpoint sequence (l : list lines) : lines :=
  match l with [] => Some [] | x :: l => a ← x; b ← sequence l; Some (a ++ b) end.

Definition mbim_dump_header : lines := sequence [
  Some [direction ++ str " Header:"]; u32_line (str "MessageLength") oMessageLength;
  t ← rd32 m oMessageType; Some [line direction (str "MessageType") (str " " ++ MBIMMSGTypeStr t ++ str " (0x" ++ hex8 t ++ str ")")];
  u32_line (str "TransactionId") oTransactionId; Some [direction ++ str " Contents:"]].

Definition service_line : lines :=
  u ← lds m oDeviceServiceId 16; Some [line direction (str "DeviceServiceId") (DeviceServiceId2str u ++ str " (" ++ uuid2str u ++ str ")")].
Definition mbim_dump_command_msg : lines := sequence [
  service_line; both_line (str "CID") CID2Str oCID;
  both_line (str "CommandType") (fun v => if v =? 0 then str "query" else str "set") oCommandType;
  u32_line (str "InformationBufferLength") oInformationBufferLength].
Definition mbim_dump_command_done : lines := sequence [
  service_line; both_line (str "CID") CID2Str oCID; u32_line (str "Status") oCmdStatus;
  u32_line (str "InformationBufferLength") oInformationBufferLength].
Definition oIndInformationBufferLength : Z := MBIM_INDICATE_STATUS_MSG_T∙"InformationBufferLength".
Definition is_service (uuid : bytes) : option bool :=
  u ← lds m oDeviceServiceId 16; b ← str2uuid uuid; Some (bool_decide (u = b)).
Definition mbim_dump_indicate_msg : lines := sequence [
  service_line;
  (ext ← is_service UUID_BASIC_CONNECT_EXT; both_line (str "CID") (if ext : bool then MS_CID2Str else CID2Str) oCID);
  u32_line (str "InformationBufferLength") oIndInformationBufferLength].

(** ** The information buffers, [info] bytes into the message *)
Section Info.
Context (info : Z).
Definition mbim_dump_connect : lines := sequence [
  u32_line (str "SessionId") info;
    both_line (str "ActivationState") MBIMActivationStateStr (info + MBIM_CONNECT_T∙"ActivationState");
  named_line (str "IPType") MBIMContextIPTypeStr (info + MBIM_CONNECT_T∙"IPType");
  named_line (str "VoiceCallState") MBIMVoiceCallStateStr (info + MBIM_CONNECT_T∙"VoiceCallState");
  (u ← lds m (info + MBIM_CONNECT_T∙"ContextType") 16; Some [line direction (str "ContextType") (uuid2str u)]);
  u32_line (str "NwError") (info + MBIM_CONNECT_T∙"NwError")].
Definition mbim_dump_signal_state : lines := sequence [
  u32_line (str "Rssi") info; u32_line (str "ErrorRate") (info + MBIM_SIGNAL_STATE_INFO_T∙"ErrorRate");
  u32_line (str "SignalStrengthInterval") (info + MBIM_SIGNAL_STATE_INFO_T∙"SignalStrengthInterval");
  u32_line (str "RssiThreshold") (info + MBIM_SIGNAL_STATE_INFO_T∙"RssiThreshold");
  u32_line (str "ErrorRateThreshold") (info + MBIM_SIGNAL_STATE_INFO_T∙"ErrorRateThreshold")].
Definition mbim_dump_packet_service : lines := sequence [
  u32_line (str "NwError") info;
  named_line (str "PacketServiceState") MBIMPacketServiceStateStr (info + MBIM_PACKET_SERVICE_INFO_T∙"PacketServiceState");
  named_line (str "HighestAvailableDataClass") MBIMDataClassStr (info + MBIM_PACKET_SERVICE_INFO_T∙"HighestAvailableDataClass");
  u64_line (str "UplinkSpeed") (info + MBIM_PACKET_SERVICE_INFO_T∙"UplinkSpeed");
  u64_line (str "DownlinkSpeed") (info + MBIM_PACKET_SERVICE_INFO_T∙"DownlinkSpeed")].
(** The loop over the telephone numbers reads the first one each time. *)
Definition mbim_dump_subscriber_status : lines := sequence [
  named_line (str "ReadyState") MBIMSubscriberReadyStateStr info;
  text_line (str "SIMICCID") info
      (info + MBIM_SUBSCRIBER_READY_STATUS_T∙"SimIccIdOffset") (info + MBIM_SUBSCRIBER_READY_STATUS_T∙"SimIccIdSize");
  text_line (str "SubscriberID") info
      (info + MBIM_SUBSCRIBER_READY_STATUS_T∙"SubscriberIdOffset") (info + MBIM_SUBSCRIBER_READY_STATUS_T∙"SubscriberIdSize");
  (n ← rd32 m (info + MBIM_SUBSCRIBER_READY_STATUS_T∙"ElementCount");
   if n =? 0 then Some [] else
   t ← text_line (str "Number") info (info + MBIM_SUBSCRIBER_READY_STATUS_T∙"TelephoneNumbersRefList") (info + 32);
   Some (concat (replicate (Z.to_nat n) t)))].
Definition mbim_dump_regiester_status : lines := sequence [
  u32_line (str "NwError") info;
  named_line (str "RegisterState") MBIMRegisterStateStr (info + MBIM_REGISTRATION_STATE_INFO_T∙"RegisterState");
  named_line (str "RegisterMode") MBIMRegisterModeStr (info + MBIM_REGISTRATION_STATE_INFO_T∙"RegisterMode")].

(** The IP configuration: what one family prints, with the text of an address given. *)
Definition hex_line (name : bytes) (p : Z) : lines := v ← rd32 m p; Some [line direction name (str "0x" ++ hex v)].
Definition address (f : ip_fields) (show : bytes -> bytes) (field extra : Z) (name : bytes) : lines :=
  o ← rd32 m (info + field); a ← lds m (info + o + extra) (f_size f); Some [line direction name (show a)].
Definition dump_ip_family (f : ip_fields) (show : bytes -> bytes) (show_dns2 : bytes -> bytes -> bytes) (ip mtu : bytes) : lines :=
  avail ← rd32 m (info + f_avail f);
  a ← (if (avail .& 1) =? 0 then Some [] else
         o ← rd32 m (info + f_addr f); prefix ← rd32 m (info + o); a ← lds m (info + o + 4) (f_size f);
         Some [line direction ip (show a ++ str "/" ++ dec (u8 prefix))]);
  g ← (if (avail .& 2) =? 0 then Some [] else address f show (f_gw f) 0 (str "gw"));
  d ← (if (avail .& 3) =? 0 then Some [] else
         o ← rd32 m (info + f_dns f); d1 ← lds m (info + o) (f_size f); n ← rd32 m (info + f_dns_count f);
         if n =? 2 then d2 ← lds m (info + o + f_size f) (f_size f); Some [line direction (str "dns1") (show d1); line direction (str "dns2") (show_dns2 d1 d2)]
         else Some [line direction (str "dns1") (show d1)]);
  v ← rd32 m (info + f_mtu f);
  Some (a ++ g ++ d ++ (if v =? 0 then [] else [line direction mtu (dec v)])).
End Info.

Definition show4 (a : bytes) : bytes := match a with [a; b; c; d] => dotted a b c d | _ => [] end.
Fixpoint show6 (a : bytes) : bytes :=
  match a with
  | [x; y] => hex2 x ++ hex2 y
  | x :: y :: a => hex2 x ++ hex2 y ++ str ":" ++ show6 a
  | _ => []
  end.
(** The second IPv6 server is printed with four bytes of the first. *)
Definition mixed (d1 d2 : bytes) : bytes := take 4 d2 ++ take 4 (drop 4 d1) ++ drop 8 d2.
Definition dump_ipconfig (info : Z) : lines := sequence [
  u32_line (str "SessionId") info;
    hex_line (str "IPv4ConfigurationAvailable") (info + MBIM_IP_CONFIGURATION_INFO_T∙"IPv4ConfigurationAvailable");
      hex_line (str "IPv6ConfigurationAvailable") (info + MBIM_IP_CONFIGURATION_INFO_T∙"IPv6ConfigurationAvailable");
  hex_line (str "IPv4AddressCount") (info + MBIM_IP_CONFIGURATION_INFO_T∙"IPv4AddressCount");
    hex_line (str "IPv4AddressOffset") (info + MBIM_IP_CONFIGURATION_INFO_T∙"IPv4AddressOffset");
  hex_line (str "IPv6AddressCount") (info + MBIM_IP_CONFIGURATION_INFO_T∙"IPv6AddressCount");
    hex_line (str "IPv6AddressOffset") (info + MBIM_IP_CONFIGURATION_INFO_T∙"IPv6AddressOffset");
  dump_ip_family info ipv4_fields show4 (fun _ d2 => show4 d2) (str "IPv4") (str "ipv4 mtu");
  dump_ip_family info ipv6_fields show6 (fun d1 d2 => show6 (mixed d1 d2)) (str "IPv6") (str "ipv6 mtu")].

(** ** A message *)
Definition dump_command_info : lines :=
  basic ← is_service UUID_BASIC_CONNECT; cid ← rd32 m oCID;
  if negb basic then Some [] else
  if (cid =? MBIM_CID_CONNECT) || (cid =? MBIM_CID_IP_CONFIGURATION) then u32_line (str "SessionId") oInformationBuffer else Some [].
Definition dump_done_info : lines :=
  len ← rd32 m oInformationBufferLength;
  if len =? 0 then Some [] else
  basic ← is_service UUID_BASIC_CONNECT; cid ← rd32 m oCID;
  if negb basic then Some [] else
  let info := oInformationBuffer in
  if cid =? MBIM_CID_CONNECT then mbim_dump_connect info
  else if cid =? MBIM_CID_IP_CONFIGURATION then dump_ipconfig info
  else if cid =? MBIM_CID_PACKET_SERVICE then mbim_dump_packet_service info
  else if cid =? MBIM_CID_SUBSCRIBER_READY_STATUS then mbim_dump_subscriber_status info
  else if cid =? MBIM_CID_REGISTER_STATE then mbim_dump_regiester_status info
  else Some [].
Definition MBIM_CID_SIGNAL_STATE : Z := 11.
Definition dump_indicate_info : lines :=
  len ← rd32 m oIndInformationBufferLength;
  if len =? 0 then Some [] else
  basic ← is_service UUID_BASIC_CONNECT; cid ← rd32 m oCID;
  if negb basic then Some [] else
  let info := oIndInformationBuffer in
  if cid =? MBIM_CID_CONNECT then mbim_dump_connect info
  else if cid =? MBIM_CID_SIGNAL_STATE then mbim_dump_signal_state info
  else if cid =? MBIM_CID_SUBSCRIBER_READY_STATUS then mbim_dump_subscriber_status info
  else if cid =? MBIM_CID_REGISTER_STATE then mbim_dump_regiester_status info
  else if cid =? MBIM_CID_PACKET_SERVICE then mbim_dump_packet_service info
  else Some [].
Definition dump_contents : lines :=
  t ← rd32 m oMessageType;
  if t =? MBIM_OPEN_MSG then u32_line (str "MaxControlTransfer") oMaxControlTransfer
  else if (t =? MBIM_OPEN_DONE) || (t =? MBIM_CLOSE_DONE) then u32_line (str "Status") oStatus
  else if t =? MBIM_COMMAND_MSG then sequence [mbim_dump_command_msg; dump_command_info]
  else if t =? MBIM_COMMAND_DONE then sequence [mbim_dump_command_done; dump_done_info]
  else if t =? MBIM_INDICATE_STATUS_MSG then sequence [mbim_dump_indicate_msg; dump_indicate_info]
  else if t =? MBIM_FUNCTION_ERROR_MSG then u32_line (str "ErrorStatusCode") oStatus
  else Some [].
End Dump.

(** The bytes in the buffer of 4096: [snprintf] appends what fits. *)
Definition sizeof_tmp : Z := 4096.
Definition tmp_put (tmp : bytes) (b : Z) : bytes := tmp ++ take (Z.to_nat (sizeof_tmp - zlen tmp - 1)) (hex_upper b ++ str ":").
(** Whether the direction is "<" is read from the type without regard to the byte order of the host; in the buffer it is read with it. *)
Definition mbim_dump {host : Host} (m : bytes) (mbim_verbose : Z) : option (list bytes) :=
  raw ← ld32 m oMessageType;
  let direction := if (raw .& 0x80000000) =? 0 then str ">" else str "<" in
  if mbim_verbose =? 0 then Some [] else
  t ← rd32 m oMessageType; n ← rd32 m oMessageLength;
  data ← lds m 0 (Z.min n 4096);
  sequence [
    Some [foldl tmp_put (if (t .& 0x80000000) =? 0 then str ">" else str "<") data];
    mbim_dump_header direction m; dump_contents direction m].
(** Its place in [mbim_check_err]. *)
Definition check_err_dump {host : Host} (debug err status : Z) (pCmdDone : option bytes) : option (list bytes) :=
  match pCmdDone with
  | Some m => if negb (err =? 0) || negb (status =? 0) then mbim_dump m (if debug =? 0 then 1 else 0) else Some []
  | None => Some []
  end.
