(* ===== verification/MbimDumpSpec.v ===== *)
(** * The printout of MBIM messages (MbimDump.v) stays inside the message when the lengths and offsets of the message do. *)
From S2P Require Import Prelude Util Text Mbim MbimSpec MbimRun MbimDump.
#[local] Open Scope Z_scope.
#[local] Open Scope c_scope.

Lemma is_Some_bind {A B} (o : option A) (f : A -> option B) : is_Some o -> (forall a, o = Some a -> is_Some (f a)) -> is_Some (o ≫= f).
Proof. intros [a ->] H. by apply H. Qed.
Lemma sequence_defined l : Forall is_Some l -> is_Some (sequence l).
Proof.
  induction 1 as [|x l [a ->] _ IH]; [by eexists|]. cbn [sequence]. apply is_Some_bind; [by eexists|]. intros ? [= <-].
  apply is_Some_bind; [done|]. intros b _. by eexists.
Qed.

(** ** The messages whose printout stays inside *)
Section Fits.
Context {host : Host} (m : bytes).

(** A string of [n] bytes at offset [o]: it fits into the buffer of 256 and into the message. *)
Definition text_fits (base field_offset field_len : Z) : bool :=
  match rd32 m field_offset, rd32 m field_len with
  | Some o, Some n => (n / 2 <? 256) && ((n / 2 =? 0) || (base + o + 2 * (n / 2) - 1 <=? zlen m))
  | _, _ => false
  end.
Definition subscriber_fits (info : Z) : bool :=
  (info + 28 <=? zlen m) && text_fits info (info + 12) (info + 16) && text_fits info (info + 4) (info + 8) &&
  match rd32 m (info + 24) with
  | Some n => (n =? 0) || ((info + 36 <=? zlen m) && text_fits info (info + 28) (info + 32))
  | None => false
  end.
(** [size] bytes at the offset in a field. *)
Definition block_fits (info field size : Z) : bool :=
  match rd32 m (info + field) with Some o => info + o + size <=? zlen m | None => false end.
Definition family_fits (info : Z) (f : ip_fields) : bool :=
  match rd32 m (info + f_avail f), rd32 m (info + f_dns_count f) with
  | Some avail, Some count =>
      (((avail .& 1) =? 0) || block_fits info (f_addr f) (4 + f_size f)) &&
      (((avail .& 2) =? 0) || block_fits info (f_gw f) (f_size f)) &&
      (((avail .& 3) =? 0) || block_fits info (f_dns f) (if count =? 2 then 2 * f_size f else f_size f))
  | _, _ => false
  end.
Definition ipconfig_fits (info : Z) : bool := (info + 60 <=? zlen m) && family_fits info ipv4_fields && family_fits info ipv6_fields.

(** The information of an answer and of an indication, by the CID. *)
Definition info_fits (done : bool) (info cid : Z) : bool :=
  if cid =? MBIM_CID_CONNECT then info + 36 <=? zlen m
  else if cid =? MBIM_CID_PACKET_SERVICE then info + 28 <=? zlen m
  else if cid =? MBIM_CID_SUBSCRIBER_READY_STATUS then subscriber_fits info
  else if cid =? MBIM_CID_REGISTER_STATE then info + 12 <=? zlen m
  else if cid =? MBIM_CID_IP_CONFIGURATION then negb done || ipconfig_fits info
  else if cid =? MBIM_CID_SIGNAL_STATE then done || (info + 20 <=? zlen m)
  else true.
Definition contents_fit (t : Z) : bool :=
  if t =? MBIM_COMMAND_MSG then
    (48 <=? zlen m) && match rd32 m oCID with Some cid =>
      negb ((cid =? MBIM_CID_CONNECT) || (cid =? MBIM_CID_IP_CONFIGURATION)) || (52 <=? zlen m) | None => false end
  else if t =? MBIM_COMMAND_DONE then
    (48 <=? zlen m) && match rd32 m oInformationBufferLength, rd32 m oCID with
      Some len, Some cid => (len =? 0) || info_fits true oInformationBuffer cid | _, _ => false end
  else if t =? MBIM_INDICATE_STATUS_MSG then
    (44 <=? zlen m) && match rd32 m oIndInformationBufferLength, rd32 m oCID with
      Some len, Some cid => (len =? 0) || info_fits false oIndInformationBuffer cid | _, _ => false end
  else if (t =? MBIM_OPEN_MSG) || (t =? MBIM_OPEN_DONE) || (t =? MBIM_CLOSE_DONE) || (t =? MBIM_FUNCTION_ERROR_MSG) then 16 <=? zlen m
  else true.
Definition message_fits : bool :=
  (12 <=? zlen m) && match rd32 m oMessageType, rd32 m oMessageLength with
                     | Some t, Some n => (n <=? zlen m) && contents_fit t | _, _ => false end.
End Fits.

Create HintDb dump.
Section Safe.
Context {host : Host} (dir m : bytes) (Hm : Forall is_byte m).

Lemma u32_line_defined name p : 0 <= p -> p + 4 <= zlen m -> is_Some (u32_line dir m name p).
Proof. intros. unfold u32_line. apply is_Some_bind; [by apply rd32_defined | by eexists]. Qed.
Lemma named_line_defined name f p : 0 <= p -> p + 4 <= zlen m -> is_Some (named_line dir m name f p).
Proof. intros. unfold named_line. apply is_Some_bind; [by apply rd32_defined | by eexists]. Qed.
Lemma both_line_defined name f p : 0 <= p -> p + 4 <= zlen m -> is_Some (both_line dir m name f p).
Proof. intros. unfold both_line. apply is_Some_bind; [by apply rd32_defined | by eexists]. Qed.
Lemma hex_line_defined name p : 0 <= p -> p + 4 <= zlen m -> is_Some (hex_line dir m name p).
Proof. intros. unfold hex_line. apply is_Some_bind; [by apply rd32_defined | by eexists]. Qed.
Lemma u64_line_defined name p : 0 <= p -> p + 8 <= zlen m -> is_Some (u64_line dir m name p).
Proof.
  intros. unfold u64_line. apply is_Some_bind; [apply rd32_defined; lia|]. intros lo _.
  apply is_Some_bind; [apply rd32_defined; lia | by eexists].
Qed.
Lemma segment_defined n p : 0 <= p -> (n = 0%nat \/ p + 2 * Z.of_nat n - 1 <= zlen m) -> is_Some (segment_loop n m p).
Proof.
  revert p. induction n as [|n IH]; intros p Hp Hn; [by eexists|]. cbn [segment_loop]. apply is_Some_bind; [apply ld_defined; lia|]. intros c _.
  apply is_Some_bind; [apply IH; lia | by eexists].
Qed.
Lemma text_line_defined name base fo fl : 0 <= base -> text_fits m base fo fl = true -> is_Some (text_line dir m name base fo fl).
Proof using Hm.
  intros Hb H. unfold text_line, text_fits in *. destruct (rd32 m fo) as [o|] eqn:Eo; [|done]. destruct (rd32 m fl) as [n|] eqn:En; [|done].
  pose proof (rd32_u32 _ _ _ Hm Eo) as [Ho _]. pose proof (rd32_u32 _ _ _ Hm En) as [Hn _]. apply andb_prop in H as [H1 H2].
  apply is_Some_bind; [by eexists|]. intros ? [= <-]. apply is_Some_bind; [by eexists|]. intros ? [= <-]. unfold mbim_get_segment. rewrite H1.
  apply is_Some_bind; [|by eexists]. apply segment_defined; [lia|]. apply orb_prop in H2. pose proof (Z.div_pos n 2 Hn ltac:(lia)). lia.
Qed.
End Safe.
#[export] Hint Resolve u32_line_defined named_line_defined both_line_defined hex_line_defined u64_line_defined text_line_defined : dump.
(** A printout made of lines at known offsets. *)
Ltac printed := apply sequence_defined; repeat (apply Forall_cons_2); try apply Forall_nil_2;
  try solve [eauto with dump | by eexists
            | first [apply u32_line_defined | apply named_line_defined | apply both_line_defined | apply hex_line_defined | apply u64_line_defined]; lia].

Section Printouts.
Context {host : Host} (dir m : bytes) (Hm : Forall is_byte m).

Lemma is_service_defined uuid u : str2uuid uuid = Some u -> 36 <= zlen m -> is_Some (is_service m uuid).
Proof.
  intros E H. unfold is_service. apply is_Some_bind; [apply lds_defined; unfold oDeviceServiceId; lia|]. intros a _. rewrite E. by eexists.
Qed.
Lemma basic_defined : 36 <= zlen m -> is_Some (is_service m UUID_BASIC_CONNECT).
Proof. eapply is_service_defined. vm_compute. reflexivity. Qed.
Lemma ext_defined : 36 <= zlen m -> is_Some (is_service m UUID_BASIC_CONNECT_EXT).
Proof. eapply is_service_defined. vm_compute. reflexivity. Qed.
Lemma service_line_defined : 36 <= zlen m -> is_Some (service_line dir m).
Proof. intros. unfold service_line. apply is_Some_bind; [apply lds_defined; unfold oDeviceServiceId; lia | by eexists]. Qed.

Lemma header_defined : 12 <= zlen m -> is_Some (mbim_dump_header dir m).
Proof.
  intros. unfold mbim_dump_header, oMessageType, oMessageLength, oTransactionId. printed.
Qed.
Lemma connect_defined info : 0 <= info -> info + 36 <= zlen m -> is_Some (mbim_dump_connect dir m info).
Proof. intros. unfold mbim_dump_connect. printed. apply is_Some_bind; [apply lds_defined; lia | by eexists]. Qed.
Lemma signal_defined info : 0 <= info -> info + 20 <= zlen m -> is_Some (mbim_dump_signal_state dir m info).
Proof. intros. unfold mbim_dump_signal_state. printed. Qed.
Lemma packet_defined info : 0 <= info -> info + 28 <= zlen m -> is_Some (mbim_dump_packet_service dir m info).
Proof. intros. unfold mbim_dump_packet_service. printed. Qed.
Lemma register_defined info : 0 <= info -> info + 12 <= zlen m -> is_Some (mbim_dump_regiester_status dir m info).
Proof. intros. unfold mbim_dump_regiester_status. printed. Qed.
Lemma subscriber_defined info : 0 <= info -> subscriber_fits m info = true -> is_Some (mbim_dump_subscriber_status dir m info).
Proof using Hm.
  intros Hi H. unfold subscriber_fits in H. apply andb_prop in H as [[[Hz H1]%andb_prop H2]%andb_prop H3]. apply Z.leb_le in Hz.
  unfold mbim_dump_subscriber_status. printed. apply is_Some_bind; [apply rd32_defined; lia|]. intros n En. rewrite En in H3.
  destruct (n =? 0); [by eexists|]. cbn [orb] in H3. apply andb_prop in H3 as [_ H3].
  apply is_Some_bind; [by apply text_line_defined | by eexists].
Qed.

Lemma block_read info field size extra n : 0 <= info -> 0 <= extra -> 0 <= n -> extra + n <= size -> block_fits m info field size = true ->
  exists o, rd32 m (info + field) = Some o /\ 0 <= o /\ is_Some (lds m (info + o + extra) n).
Proof using Hm.
  intros Hi He Hn Hs H. unfold block_fits in H. destruct (rd32 m (info + field)) as [o|] eqn:E; [|done]. apply Z.leb_le in H.
  pose proof (rd32_u32 _ _ _ Hm E) as [Ho _]. exists o. split; [done|]. split; [done|]. apply lds_defined; lia.
Qed.
Lemma family_defined info f show show2 ip mtu :
  0 <= info -> 0 <= f_size f -> 0 <= f_mtu f -> info + f_mtu f + 4 <= zlen m -> family_fits m info f = true ->
  is_Some (dump_ip_family dir m info f show show2 ip mtu).
Proof using Hm.
  intros Hi Hs Hmtu Hz H. unfold family_fits, dump_ip_family in *. destruct (rd32 m (info + f_avail f)) as [avail|]; [|done].
  destruct (rd32 m (info + f_dns_count f)) as [count|] eqn:Ec; [|done]. apply andb_prop in H as [[H1 H2]%andb_prop H3].
  apply is_Some_bind; [by eexists|]. intros ? [= <-]. apply is_Some_bind.
  { destruct ((avail .& 1) =? 0); [by eexists|]. cbn [orb] in H1.
    destruct (block_read info (f_addr f) (4 + f_size f) 4 (f_size f) Hi ltac:(lia) Hs ltac:(lia) H1) as (o & E & Ho & R).
    assert (is_Some (rd32 m (info + o))) as [p Ep].
    { apply rd32_defined; [lia|]. unfold block_fits in H1. rewrite E in H1. apply Z.leb_le in H1. lia. }
    rewrite E. cbn [mbind option_bind]. rewrite Ep. cbn [mbind option_bind]. destruct R as [a ->]. by eexists. }
  intros a _. apply is_Some_bind.
  { destruct ((avail .& 2) =? 0); [by eexists|]. cbn [orb] in H2. unfold address.
    destruct (block_read info (f_gw f) (f_size f) 0 (f_size f) Hi ltac:(lia) Hs ltac:(lia) H2) as (o & -> & _ & R).
    cbn [mbind option_bind]. destruct R as [b ->]. by eexists. }
  intros g _. apply is_Some_bind.
  { destruct ((avail .& 3) =? 0); [by eexists|]. cbn [orb] in H3. 
    destruct (block_read info (f_dns f) (if count =? 2 then 2 * f_size f else f_size f) 0 (f_size f) Hi ltac:(lia) Hs ltac:(destruct (count =? 2); lia) H3) as (o & E & Ho & R).
    rewrite Z.add_0_r in R. rewrite E. cbn [mbind option_bind]. destruct R as [d1 ->]. cbn [mbind option_bind].
    destruct (count =? 2); [|by eexists].
    destruct (block_read info (f_dns f) (2 * f_size f) (f_size f) (f_size f) Hi Hs Hs ltac:(lia) H3) as (o' & E' & _ & R').
    rewrite E in E'. injection E' as <-. destruct R' as [d2 ->]. by eexists. }
  intros d _. apply is_Some_bind; [apply rd32_defined; lia | by eexists].
Qed.
Lemma ipconfig_defined info : 0 <= info -> ipconfig_fits m info = true -> is_Some (dump_ipconfig dir m info).
Proof using Hm.
  intros Hi H. unfold ipconfig_fits in H. apply andb_prop in H as [[Hz H4]%andb_prop H6]. apply Z.leb_le in Hz.
  unfold dump_ipconfig. printed; (apply family_defined; [lia | done | done | cbn; lia | done]).
Qed.
End Printouts.

(** ** The whole message *)
Section Whole.
Context {host : Host} (m : bytes) (Hm : Forall is_byte m).

Lemma info_dumped dir info cid : 0 <= info -> info_fits m true info cid = true ->
  is_Some (if cid =? MBIM_CID_CONNECT then mbim_dump_connect dir m info
    else if cid =? MBIM_CID_IP_CONFIGURATION then dump_ipconfig dir m info
    else if cid =? MBIM_CID_PACKET_SERVICE then mbim_dump_packet_service dir m info
    else if cid =? MBIM_CID_SUBSCRIBER_READY_STATUS then mbim_dump_subscriber_status dir m info
    else if cid =? MBIM_CID_REGISTER_STATE then mbim_dump_regiester_status dir m info else Some []).
Proof using Hm.
  intros Hi H. unfold info_fits in H. cbn [negb orb] in H.
  destruct (Z.eqb_spec cid MBIM_CID_CONNECT); [apply connect_defined; lia|].
  destruct (Z.eqb_spec cid MBIM_CID_IP_CONFIGURATION) as [->|]; [by apply ipconfig_defined|].
  destruct (cid =? MBIM_CID_PACKET_SERVICE); [apply packet_defined; lia|].
  destruct (cid =? MBIM_CID_SUBSCRIBER_READY_STATUS); [by apply subscriber_defined|].
  destruct (cid =? MBIM_CID_REGISTER_STATE); [apply register_defined; lia | by eexists].
Qed.
Lemma info_indicated dir info cid : 0 <= info -> info_fits m false info cid = true ->
  is_Some (if cid =? MBIM_CID_CONNECT then mbim_dump_connect dir m info
    else if cid =? MBIM_CID_SIGNAL_STATE then mbim_dump_signal_state dir m info
    else if cid =? MBIM_CID_SUBSCRIBER_READY_STATUS then mbim_dump_subscriber_status dir m info
    else if cid =? MBIM_CID_REGISTER_STATE then mbim_dump_regiester_status dir m info
    else if cid =? MBIM_CID_PACKET_SERVICE then mbim_dump_packet_service dir m info else Some []).
Proof using Hm.
  intros Hi H. unfold info_fits in H. cbn [negb orb] in H.
  destruct (Z.eqb_spec cid MBIM_CID_CONNECT); [apply connect_defined; lia|].
  destruct (Z.eqb_spec cid MBIM_CID_SIGNAL_STATE) as [->|]; [apply signal_defined; [done|]; by apply Z.leb_le|].
  destruct (Z.eqb_spec cid MBIM_CID_SUBSCRIBER_READY_STATUS) as [->|]; [by apply subscriber_defined|].
  destruct (Z.eqb_spec cid MBIM_CID_REGISTER_STATE) as [->|]; [apply register_defined; [done|]; by apply Z.leb_le|].
  destruct (cid =? MBIM_CID_PACKET_SERVICE); [apply packet_defined; lia | by eexists].
Qed.

Lemma command_defined dir : contents_fit m MBIM_COMMAND_MSG = true -> is_Some (sequence [mbim_dump_command_msg dir m; dump_command_info dir m]).
Proof.
  unfold contents_fit. rewrite Z.eqb_refl. intros [Hz%Z.leb_le H]%andb_prop. printed.
  - unfold mbim_dump_command_msg, oCID, oCommandType, oInformationBufferLength. printed. apply service_line_defined. lia.
  - unfold dump_command_info. apply is_Some_bind; [apply basic_defined; lia|]. intros b _. destruct (rd32 m oCID) as [cid|]; [|done].
    cbn [mbind option_bind]. destruct b; cbn [negb]; [|by eexists].
    destruct ((cid =? MBIM_CID_CONNECT) || (cid =? MBIM_CID_IP_CONFIGURATION)); [|by eexists]. cbn [negb orb] in H. apply Z.leb_le in H.
    apply u32_line_defined; unfold oInformationBuffer; lia.
Qed.
Lemma done_defined dir : contents_fit m MBIM_COMMAND_DONE = true -> is_Some (sequence [mbim_dump_command_done dir m; dump_done_info dir m]).
Proof using Hm.
  change (contents_fit m MBIM_COMMAND_DONE) with ((48 <=? zlen m) && match rd32 m oInformationBufferLength, rd32 m oCID with
      Some len, Some cid => (len =? 0) || info_fits m true oInformationBuffer cid | _, _ => false end).
  intros [Hz%Z.leb_le H]%andb_prop. printed.
  - unfold mbim_dump_command_done, oCID, oCmdStatus, oInformationBufferLength. printed. apply service_line_defined. lia.
  - unfold dump_done_info. destruct (rd32 m oInformationBufferLength) as [len|]; [|done]. cbn [mbind option_bind].
    destruct (rd32 m oCID) as [cid|]; [|done]. destruct (len =? 0); [by eexists|]. cbn [orb] in H.
    apply is_Some_bind; [apply basic_defined; lia|]. intros b _. cbn [mbind option_bind]. destruct b; cbn [negb]; [|by eexists].
    by apply info_dumped.
Qed.
Lemma indicate_defined dir : contents_fit m MBIM_INDICATE_STATUS_MSG = true -> is_Some (sequence [mbim_dump_indicate_msg dir m; dump_indicate_info dir m]).
Proof using Hm.
  change (contents_fit m MBIM_INDICATE_STATUS_MSG) with ((44 <=? zlen m) && match rd32 m oIndInformationBufferLength, rd32 m oCID with
      Some len, Some cid => (len =? 0) || info_fits m false oIndInformationBuffer cid | _, _ => false end).
  intros [Hz%Z.leb_le H]%andb_prop. printed.
  - unfold mbim_dump_indicate_msg, oIndInformationBufferLength. printed; [apply service_line_defined; lia|].
    apply is_Some_bind; [apply ext_defined; lia|]. intros b _. apply both_line_defined; unfold oCID; lia.
  - unfold dump_indicate_info. destruct (rd32 m oIndInformationBufferLength) as [len|]; [|done]. cbn [mbind option_bind].
    destruct (rd32 m oCID) as [cid|]; [|done]. destruct (len =? 0); [by eexists|]. cbn [orb] in H.
    apply is_Some_bind; [apply basic_defined; lia|]. intros b _. cbn [mbind option_bind]. destruct b; cbn [negb]; [|by eexists].
    by apply info_indicated.
Qed.

Lemma contents_defined dir t : rd32 m oMessageType = Some t -> contents_fit m t = true -> is_Some (dump_contents dir m).
Proof using Hm.
  intros Et H. unfold dump_contents. rewrite Et. cbn [mbind option_bind].
  destruct (Z.eqb_spec t MBIM_COMMAND_MSG) as [->|H1]; [by apply command_defined|].
  destruct (Z.eqb_spec t MBIM_COMMAND_DONE) as [->|H2]; [by apply done_defined|].
  destruct (Z.eqb_spec t MBIM_INDICATE_STATUS_MSG) as [->|H3]; [by apply indicate_defined|].
  unfold contents_fit in H. rewrite !(proj2 (Z.eqb_neq _ _)) in H by done.
  destruct (t =? MBIM_OPEN_MSG), (t =? MBIM_OPEN_DONE), (t =? MBIM_CLOSE_DONE), (t =? MBIM_FUNCTION_ERROR_MSG); cbn [orb] in *;
    first [by eexists | apply Z.leb_le in H; apply u32_line_defined; unfold oMaxControlTransfer, oStatus; lia].
Qed.

(** The buffer holds the beginning of the text. *)
(** What the buffer holds besides its NUL. *)
Definition room : nat := Z.to_nat (sizeof_tmp - 1).
Definition hex_text (b : Z) : bytes := hex_upper b ++ str ":".
Lemma put_beginning n (t s : bytes) : take n t ++ take (n - length (take n t)) s = take n (t ++ s).
Proof.
  rewrite take_app, length_take. destruct (Nat.le_ge_cases n (length t)).
  - rewrite Nat.min_l by done. by replace (n - n)%nat with (n - length t)%nat by lia.
  - by rewrite Nat.min_r.
Qed.
Lemma tmp_put_text t b : tmp_put (take room t) b = take room (t ++ hex_text b).
Proof.
  rewrite <- put_beginning. unfold tmp_put, hex_text, zlen. do 2 f_equal. rewrite length_take. unfold room, sizeof_tmp. lia.
Qed.
Lemma tmp_text data t : foldl tmp_put (take room t) data = take room (t ++ (data ≫= hex_text)).
Proof.
  revert t. induction data as [|b data IH]; intros t; [by rewrite app_nil_r|]. cbn [foldl]. rewrite tmp_put_text, IH. by rewrite <- app_assoc.
Qed.

(** C39: The printout of a message never reads outside it when the lengths and offsets in the message lie inside it - every answer without information,
    such as one that only tells an error, among them -, and its first line is the beginning of the bytes in hexadecimal, cut to the buffer. *)
Theorem mbim_dump_safe mbim_verbose : message_fits m = true ->
  exists n sign ls, rd32 m oMessageLength = Some n /\ (sign = str ">" \/ sign = str "<") /\
    mbim_dump m mbim_verbose =
      Some (if mbim_verbose =? 0 then [] else take room (sign ++ (take (Z.to_nat n) (take 4096 m) ≫= hex_text)) :: ls).
Proof using Hm.
  unfold message_fits. intros [Hz%Z.leb_le H]%andb_prop. destruct (rd32 m oMessageType) as [t|] eqn:Et; [|done].
  destruct (rd32 m oMessageLength) as [n|] eqn:En; [|done]. apply andb_prop in H as [Hn%Z.leb_le H].
  pose proof (rd32_u32 _ _ _ Hm En) as [Hn0 _]. unfold mbim_dump. unfold rd32 in Et. destruct (ld32 m oMessageType) as [raw|] eqn:Er; [|done].
  assert (rd32 m oMessageType = Some t) as Et' by (unfold rd32; by rewrite Er).
  cbn [mbind option_bind]. set (dir := if (raw .& 0x80000000) =? 0 then _ else _).
  destruct (header_defined dir m Hz) as [hd Eh]. destruct (contents_defined dir t Et' H) as [ct Ec].
  exists n, (if (t .& 0x80000000) =? 0 then str ">" else str "<"), (hd ++ ct ++ []). split; [done|].
  split; [destruct ((t .& 0x80000000) =? 0); auto|]. destruct (mbim_verbose =? 0); [done|]. rewrite Et'. cbn [mbind option_bind]. rewrite En. cbn [mbind option_bind].
  assert (lds m 0 (Z.min n 4096) = Some (take (Z.to_nat n) (take 4096 m))) as ->.
  { unfold lds. guards. cbn [Z.to_nat drop]. rewrite take_take. f_equal. f_equal. lia. }
  cbn [mbind option_bind sequence]. rewrite Eh, Ec. cbn [mbind option_bind app].
  rewrite <- tmp_text. do 3 f_equal. by destruct ((t .& 0x80000000) =? 0).
Qed.
End Whole.

(** ** Printouts *)
Definition answer_eg : bytes := command_done 7 MBIM_CID_IP_CONFIGURATION (ip4_info ip4_sample).
Theorem mbim_dump_safe_witness : exists n sign ls, rd32 answer_eg oMessageLength = Some n /\ (sign = str ">" \/ sign = str "<") /\
  mbim_dump answer_eg 1 = Some (take room (sign ++ (take (Z.to_nat n) (take 4096 answer_eg) ≫= hex_text)) :: ls).
Proof.
  apply (mbim_dump_safe answer_eg) with (mbim_verbose := 1).
  - apply Forall_forall. intros x Hx. assert (forallb (fun x => (0 <=? x) && (x <? 256)) answer_eg = true) as F by (vm_compute; reflexivity).
    rewrite forallb_forall in F. apply list_elem_of_In in Hx. specialize (F x Hx). unfold is_byte. lia.
  - vm_compute. reflexivity.
Defined.
(** What the printout of an IP configuration says. *)
Example answer_printed : exists hex, mbim_dump answer_eg 1 = Some (hex :: [
  str "< Header:"; str "< MessageLength = 128"; str "< MessageType =  MBIM_COMMAND_DONE (0x80000003)"; str "< TransactionId = 7"; str "< Contents:";
  str "< DeviceServiceId = UUID_BASIC_CONNECT (a289cc33-bcbb-8b4f-b6b0-133ec2aae6df)"; str "< CID = MBIM_CID_IP_CONFIGURATION (15)";
  str "< Status = 0"; str "< InformationBufferLength = 80"; str "< SessionId = 0"; str "< IPv4ConfigurationAvailable = 0xf";
  str "< IPv6ConfigurationAvailable = 0x0"; str "< IPv4AddressCount = 0x1"; str "< IPv4AddressOffset = 0x3c"; str "< IPv6AddressCount = 0x0";
  str "< IPv6AddressOffset = 0x0"; str "< IPv4 = 10.33.12.5/30"; str "< gw = 10.33.12.6"; str "< dns1 = 8.8.8.8"; str "< dns2 = 1.1.1.1";
  str "< ipv4 mtu = 1430"]).
Proof. eexists. vm_compute. reflexivity. Qed.
(** An answer that tells an error and claims information it does not carry is read behind its end. *)
Definition short_error : bytes :=
  le32 MBIM_COMMAND_DONE ++ le32 48 ++ le32 7 ++ le32 1 ++ le32 0 ++ basic_connect ++ le32 MBIM_CID_PACKET_SERVICE ++ le32 2 ++ le32 28.
Example short_error_overread : check_err_dump 0 0 2 (Some short_error) = None.
Proof. vm_compute. reflexivity. Qed.
(** On a big-endian host every message from the device is printed as one to it. *)
Example direction_big_endian : exists hex rest, mbim_dump (host := big_host) answer_eg 1 = Some (hex :: str "> Header:" :: rest).
Proof. eexists _, _. vm_compute. reflexivity. Qed.
(** The second name server of IPv6, 2001:db8::2 after 2001:4860:4860::8888. *)
Example second_server : show6 (mixed [0x20; 1; 0x48; 0x60; 0x48; 0x60; 0; 0; 0; 0; 0; 0; 0; 0; 0x88; 0x88] [0x20; 1; 0x0d; 0xb8; 0; 0; 0; 0; 0; 0; 0; 0; 0; 0; 0; 2]) =
  str "2001:0db8:4860:0000:0000:0000:0000:0002".
Proof. vm_compute. reflexivity. Qed.

(** ** The reading without the text *)
(** [mbim_dump_ipconfig] of Mbim.v, which only reads, is defined exactly where the printout is. *)
Lemma is_Some_bind_iff {A B C} (o : option A) (f : A -> option B) (g : A -> option C) :
  (forall a, is_Some (f a) <-> is_Some (g a)) -> is_Some (o ≫= f) <-> is_Some (o ≫= g).
Proof. intros H. destruct o; [apply H | split; by intros [? [=]]]. Qed.
Lemma is_Some_last {A B} (o : option A) (f : A -> option B) : (forall a, is_Some (f a)) -> is_Some (o ≫= f) <-> is_Some o.
Proof. intros H. destruct o; [split; [by eexists | intros _; apply H] | split; by intros [? [=]]]. Qed.
Lemma is_Some_two {A B C D} (o : option A) (p : option B) (f : A -> option C) (g : B -> option D) :
  (is_Some o <-> is_Some p) -> (forall a b, is_Some (f a) <-> is_Some (g b)) -> is_Some (o ≫= f) <-> is_Some (p ≫= g).
Proof.
  intros H1 H2. destruct o as [a|], p as [b|]; [apply H2 | | | split; by intros [? [=]]]; exfalso.
  - destruct (proj1 H1) as [? [=]]. by eexists.
  - destruct (proj2 H1) as [? [=]]. by eexists.
Qed.
Lemma dump_family_abstracts {host : Host} dir m f show show2 ip mtu :
  is_Some (dump_family f m) <-> is_Some (dump_ip_family dir m oInformationBuffer f show show2 ip mtu).
Proof.
  unfold dump_family, dump_ip_family, address. cbv zeta. apply is_Some_bind_iff. intros avail.
  apply is_Some_two; [|intros ? a; apply is_Some_two; [|intros ? g; apply is_Some_two; [|intros ? d]]].
  - destruct ((avail .& 1) =? 0); cbn [negb]; [split; by eexists|]. apply is_Some_bind_iff. intros o. apply is_Some_bind_iff. intros p.
    symmetry. apply is_Some_last. by eexists.
  - destruct ((avail .& 2) =? 0); cbn [negb]; [split; by eexists|]. apply is_Some_bind_iff. intros o. rewrite Z.add_0_r.
    symmetry. apply is_Some_last. by eexists.
  - destruct ((avail .& 3) =? 0); cbn [negb]; [split; by eexists|]. apply is_Some_bind_iff. intros o. apply is_Some_bind_iff. intros d1.
    apply is_Some_bind_iff. intros n. destruct (n =? 2); [symmetry; apply is_Some_last; by eexists | split; by eexists].
  - destruct (rd32 m _); [split; by eexists | split; by intros [? [=]]].
Qed.
Lemma ipconfig_abstracts {host : Host} dir m : oInformationBuffer + 60 <= zlen m ->
  mbim_dump_ipconfig m = Some tt <-> is_Some (dump_ipconfig dir m oInformationBuffer).
Proof.
  intros Hz. unfold mbim_dump_ipconfig, dump_ipconfig.
  pose proof (dump_family_abstracts dir m ipv4_fields show4 (fun _ d2 => show4 d2) (str "IPv4") (str "ipv4 mtu")) as H4.
  pose proof (dump_family_abstracts dir m ipv6_fields show6 (fun d1 d2 => show6 (mixed d1 d2)) (str "IPv6") (str "ipv6 mtu")) as H6.
  cbn [sequence].
  destruct (u32_line_defined dir m (str "SessionId") oInformationBuffer) as [l0 ->]; [unfold oInformationBuffer in *; lia..|].
  repeat match goal with |- context[hex_line dir m ?n ?p] =>
    destruct (hex_line_defined dir m n p) as [? ->]; [unfold oInformationBuffer in *; lia..|] end.
  cbn [mbind option_bind]. split.
  - intros H. destruct (dump_family ipv4_fields m) as [[]|] eqn:E4; [|done]. cbn [mbind option_bind] in H. rewrite H in H6.
    destruct (proj1 H4) as [? ->]; [by eexists|]. destruct (proj1 H6) as [? ->]; [by eexists|]. by eexists.
  - intros [r H]. destruct (dump_ip_family dir m oInformationBuffer ipv4_fields _ _ _ _) as [a|]; [|done]. cbn [mbind option_bind] in H.
    destruct (dump_ip_family dir m oInformationBuffer ipv6_fields _ _ _ _) as [b|]; [|done].
    destruct (proj2 H4) as [[] ->]; [by eexists|]. destruct (proj2 H6) as [[] ->]; [by eexists|]. done.
Qed.
