(* ===== verification/ProxySys.v ===== *)
(** * quectel-qmi-proxy.c and QmiWwanCM.c: the calls of the system around the QMI multiplexer.
    Where a manager finds the multiplexer of its modem: the local socket that [create_local_server] binds and [qmi_proxy_open] connects to.  And the requests of
    the multiplexer to the network driver.  What is done is the list of calls; what they return is the class [Sockets].  [None] is a copy past the
    end of a structure. *)
From S2P Require Import Prelude Util QmiMsg Compose Cm Monad QmiRequests QmiExchange WwanCM Text Device ProxyMain Layout ProxyStructs.
From Stdlib Require Import Ascii.
#[local] Open Scope Z_scope.
#[local] Open Scope c_scope.

Definition AF_LOCAL : Z := 1.
Definition AF_INET : Z := 2.
Definition IFNAMSIZ : Z := 16.
(** [sun_path] of [struct sockaddr_un], which stands behind the family. *)
Definition sizeof_sun_path : Z := 108.
Definition SIOCDEVPRIVATE_RMNET_INFO : Z := 0x89F3.
Definition SIOCDEVPRIVATE_QMAP : Z := 0x89F2.
Definition sizeof_RMNET_INFO : Z := sizeof[RMNET_INFO].

Inductive sock_call :=
  | SockOpen (family fd : Z) | SetReuse (fd : Z) | Bind (fd : Z) (addr : bytes) | Listen (fd : Z) | Connect (fd : Z) (addr : bytes)
  | NoBlock (fd : Z) | OpenDevice (path : bytes) (fd : Z) | DriverIoctl (fd request : Z) (ifr_name : bytes) | CloseSock (fd : Z).

Class Sockets := {
  n_socket : list sock_call -> Z; n_setsockopt : list sock_call -> bool; n_bind : list sock_call -> bytes -> bool;
  n_connect : list sock_call -> bytes -> bool; n_open : list sock_call -> bytes -> Z;
  (* what the driver writes into the 512 bytes of [data] *)
  n_rmnet_info : list sock_call -> bytes -> option bytes}.

Abbreviation MK := (M (list sock_call)).
Definition call (c : sock_call) : MK unit := modify (fun l => l ++ [c]).

(** The address of an abstract name: the family, a NUL, and the name; its length is what [alen] tells. *)
Definition local_address {host : Host} (name : bytes) : option bytes :=
  if sizeof_sun_path - 1 <? zlen name then None else Some (enc16 AF_LOCAL ++ 0 :: name).

Section Sys.
Context {host : Host} {sockets : Sockets}.

Definition open_sock (family : Z) : MK Z := fd ← gets n_socket; call (SockOpen family fd);; mret fd.

Definition create_local_server (name : bytes) : MK Z :=
  sockfd ← open_sock AF_LOCAL;
  if sockfd <? 0 then mret (-1) else
  addr ← lift (local_address name);
  ok ← gets n_setsockopt; call (SetReuse sockfd);;
  if negb ok then mret (-1) else
  ok ← gets (fun l => n_bind l addr); call (Bind sockfd addr);;
  if negb ok then call (CloseSock sockfd);; mret (-1) else
  call (NoBlock sockfd);; call (Listen sockfd);; mret sockfd.

Definition qmi_proxy_open (name : bytes) : MK Z :=
  sockfd ← open_sock AF_LOCAL;
  if sockfd <? 0 then mret sockfd else
  addr ← lift (local_address name);
  ok ← gets (fun l => n_connect l addr); call (Connect sockfd addr);;
  if negb ok then call (CloseSock sockfd);; mret (-1) else
  call (SetReuse sockfd);; mret sockfd.

(** The begin of [QmiWwanThread]: the device itself, or the multiplexer of its number.  Result: the descriptor and the event for the main thread. *)
Definition wwan_servername (cdc_wdm : bytes) : option bytes :=
  c ← last cdc_wdm;
  let name := str "quectel-qmi-proxy" ++ dec_signed (c - chr "0") in if 32 <? zlen name + 1 then None else Some name.
Definition wwan_open (qmap_mode : Z) (cdc_wdm : bytes) : MK (Z * Z) :=
  servername ← lift (wwan_servername cdc_wdm);
  fd ← (if (qmap_mode =? 0) || (qmap_mode =? 1) then fd ← gets (fun l => n_open l cdc_wdm); call (OpenDevice cdc_wdm fd);; mret fd
        else qmi_proxy_open servername);
  if fd =? -1 then mret (fd, RIL_INDICATE_DEVICE_DISCONNECTED) else
  call (NoBlock fd);; mret (fd, RIL_INDICATE_DEVICE_CONNECTED).

(** ** The driver *)
(** [strncpy] of 16 bytes and the NUL at their end. *)
Definition ifr_name (ifname : bytes) : bytes :=
  let name := take (Z.to_nat (IFNAMSIZ - 1)) ifname in name ++ replicate (Z.to_nat IFNAMSIZ - length name) 0.

Definition ql_get_driver_rmnet_info (ifname : bytes) : MK bytes :=
  let rmnet_info := replicate (Z.to_nat sizeof_RMNET_INFO) 0 in
  fd ← open_sock AF_INET;
  if fd <=? 0 then mret rmnet_info else
  r ← gets (fun l => n_rmnet_info l (ifr_name ifname)); call (DriverIoctl fd SIOCDEVPRIVATE_RMNET_INFO (ifr_name ifname));;
  call (CloseSock fd);;
  match r with
  | None => mret rmnet_info
  | Some data => d ← lift (lds data 0 sizeof_RMNET_INFO); mret d
  end.
Definition ql_set_driver_qmap_setting (ifname : bytes) : MK unit :=
  fd ← open_sock AF_INET;
  if fd <=? 0 then mret tt else
  call (DriverIoctl fd SIOCDEVPRIVATE_QMAP (ifr_name ifname));; call (CloseSock fd).
End Sys.

(** ** Where the manager and the multiplexer meet *)
(** The descriptors held after a sequence of calls, the newest first. *)
Definition holds (h : list Z) (c : sock_call) : list Z :=
  match c with
  | SockOpen _ fd | OpenDevice _ fd => if fd <? 0 then h else fd :: h
  | CloseSock fd => match h with x :: h' => if x =? fd then h' else h | [] => [] end
  | _ => h
  end.
Definition sockets_held (l : list sock_call) : list Z := foldl holds [] l.
Lemma held_snoc l c : sockets_held (l ++ [c]) = holds (sockets_held l) c.
Proof. unfold sockets_held. by rewrite foldl_app. Qed.

Lemma dec_at_most_3 n : 0 <= n < 1000 -> (length (dec n) <= 3)%nat.
Proof.
  intros H. unfold dec. cbn [dec_digits]. destruct (n / 10 =? 0); [cbn; lia|]. cbn [dec_digits].
  destruct (n / 10 / 10 =? 0); [cbn; lia|]. cbn [dec_digits].
  replace (n / 10 / 10 / 10 =? 0) with true; [cbn; lia|]. symmetry. apply Z.eqb_eq. zdm.
Qed.
Lemma name_length c : is_byte c -> zlen (str "quectel-qmi-proxy" ++ dec_signed (c - chr "0")) <= 20.
Proof.
  intros Hc. change (chr "0") with 48. unfold is_byte in Hc. rewrite zlen_app. change (zlen (str "quectel-qmi-proxy")) with 17.
  unfold dec_signed, zlen. destruct (Z.ltb_spec (c - 48) 0).
  - cbn [length]. unfold dec. cbn [dec_digits]. destruct (- (c - 48) / 10 =? 0); [cbn; lia|]. cbn [dec_digits].
    replace (- (c - 48) / 10 / 10 =? 0) with true; [cbn; lia|]. symmetry. apply Z.eqb_eq. zdm.
  - pose proof (dec_at_most_3 (c - 48)). lia.
Qed.

Section Meet.
Context {host : Host} {sockets : Sockets}.

Lemma call_run c l : call c l = Some (tt, l ++ [c]).
Proof. done. Qed.
Lemma open_sock_run f l : open_sock f l = Some (n_socket l, l ++ [SockOpen f (n_socket l)]).
Proof. done. Qed.

Lemma server_spec name addr l : local_address name = Some addr ->
  exists fd l', create_local_server name l = Some (fd, l') /\
    (0 <= fd -> Bind fd addr ∈ l' /\ Listen fd ∈ l' /\ sockets_held l' = fd :: sockets_held l) /\
    (fd < 0 -> sockets_held l' = sockets_held l \/ exists s, 0 <= s /\ sockets_held l' = s :: sockets_held l).
Proof.
  intros Ha. unfold create_local_server. erewrite bind_step by apply open_sock_run. set (s := n_socket l). destruct (Z.ltb_spec s 0) as [E|E].
  { eexists _, _. split; [reflexivity|]. split; [lia|]. intros _. left. rewrite held_snoc. cbn. by rewrite (proj2 (Z.ltb_lt _ _)). }
  assert (sockets_held (l ++ [SockOpen AF_LOCAL s]) = s :: sockets_held l) as H1.
  { rewrite held_snoc. cbn. by rewrite (proj2 (Z.ltb_ge _ _)). }
  rewrite Ha, bind_lift, bind_gets. erewrite bind_step by apply call_run. set (l1 := l ++ _) in *. destruct (n_setsockopt l1); cbn [negb].
  2:{ eexists _, _. split; [reflexivity|]. split; [lia|]. intros _. right. exists s. by rewrite held_snoc. }
  rewrite bind_gets. erewrite bind_step by apply call_run. set (l2 := l1 ++ _). destruct (n_bind l2 addr); cbn [negb].
  - do 2 (erewrite bind_step by apply call_run). eexists _, _. split; [reflexivity|]. split; [|lia]. intros _.
    split; [set_solver|]. split; [set_solver|]. unfold l2. rewrite !held_snoc. exact H1.
  - erewrite bind_step by apply call_run. eexists _, _. split; [reflexivity|]. split; [lia|]. intros _. left. unfold l2. rewrite !held_snoc, H1.
    cbn. by rewrite Z.eqb_refl.
Qed.
Lemma client_spec name addr k : local_address name = Some addr -> (forall k, -1 <= n_socket k) ->
  exists fd k', qmi_proxy_open name k = Some (fd, k') /\ -1 <= fd /\
    (0 <= fd -> Connect fd addr ∈ k' /\ sockets_held k' = fd :: sockets_held k) /\ (fd < 0 -> sockets_held k' = sockets_held k).
Proof.
  intros Ha Hs. unfold qmi_proxy_open. erewrite bind_step by apply open_sock_run. specialize (Hs k). set (s := n_socket k) in *.
  destruct (Z.ltb_spec s 0) as [E|E].
  { eexists _, _. split; [reflexivity|]. split; [done|]. split; [lia|]. intros _. rewrite held_snoc. cbn. by rewrite (proj2 (Z.ltb_lt _ _)). }
  assert (sockets_held (k ++ [SockOpen AF_LOCAL s]) = s :: sockets_held k) as H1.
  { rewrite held_snoc. cbn. by rewrite (proj2 (Z.ltb_ge _ _)). }
  rewrite Ha, bind_lift, bind_gets. erewrite bind_step by apply call_run. set (k1 := k ++ _) in *. destruct (n_connect k1 addr); cbn [negb].
  - erewrite bind_step by apply call_run. eexists _, _. split; [reflexivity|]. split; [lia|]. split; [|lia]. intros _.
    split; [set_solver|]. rewrite !held_snoc. exact H1.
  - erewrite bind_step by apply call_run. eexists _, _. split; [reflexivity|]. split; [lia|]. split; [lia|]. intros _.
    rewrite !held_snoc, H1. cbn. by rewrite Z.eqb_refl.
Qed.

(** C40: A manager finds the multiplexer of its modem: when the server of the device listens, the thread of a manager with several data calls on the same device
    connects to the very address the server is bound to, on either byte order; it tells its main thread whether that worked; and neither leaves a
    descriptor behind when it fails, except the server when the option of its socket is refused. *)
Theorem client_meets_server pre c qmap_mode l k :
  let dev := pre ++ [c] in
  is_byte c -> 2 <= qmap_mode -> (forall k, -1 <= n_socket k) ->
  exists addr fd l' fd' e k', local_address (servername dev) = Some addr /\
    create_local_server (servername dev) l = Some (fd, l') /\ wwan_open qmap_mode dev k = Some ((fd', e), k') /\
    (0 <= fd -> Bind fd addr ∈ l' /\ Listen fd ∈ l' /\ sockets_held l' = fd :: sockets_held l) /\
    (fd < 0 -> sockets_held l' = sockets_held l \/ exists s, 0 <= s /\ sockets_held l' = s :: sockets_held l) /\
    (0 <= fd' -> e = RIL_INDICATE_DEVICE_CONNECTED /\ Connect fd' addr ∈ k' /\ sockets_held k' = fd' :: sockets_held k) /\
    (fd' < 0 -> e = RIL_INDICATE_DEVICE_DISCONNECTED /\ sockets_held k' = sockets_held k).
Proof.
  intros dev Hc Hq Hs. pose proof (name_length c Hc) as Hn.
  assert (wwan_servername dev = Some (servername dev)) as Ew.
  { unfold wwan_servername, servername, dev. rewrite last_snoc. cbn [mbind option_bind default]. by rewrite (proj2 (Z.ltb_ge _ _)) by lia. }
  assert (zlen (servername dev) <= 20) as Hl by (unfold servername, dev; rewrite last_snoc; exact Hn).
  destruct (local_address (servername dev)) as [addr|] eqn:Ea.
  2:{ unfold local_address, sizeof_sun_path in Ea. by rewrite (proj2 (Z.ltb_ge _ _)) in Ea by lia. }
  destruct (server_spec _ addr l Ea) as (fd & l' & E1 & H1 & H2). destruct (client_spec _ addr k Ea Hs) as (fd' & k' & E2 & Hb & H3 & H4).
  unfold wwan_open. rewrite Ew, bind_lift, (proj2 (Z.eqb_neq qmap_mode 0)), (proj2 (Z.eqb_neq qmap_mode 1)) by lia. cbn [orb].
  rewrite (bind_step _ _ _ _ _ E2). destruct (Z.eqb_spec fd' (-1)) as [Ef|Ef].
  - exists addr, fd, l', fd', RIL_INDICATE_DEVICE_DISCONNECTED, k'. repeat (split; [done|]). split; [lia|]. intros H. split; [done | by apply H4].
  - erewrite bind_step by apply call_run. exists addr, fd, l', fd', RIL_INDICATE_DEVICE_CONNECTED, (k' ++ [NoBlock fd']).
    repeat (split; [done|]). split; [|lia]. intros H. destruct (H3 H) as [H5 H6]. split; [done|]. split; [set_solver|]. by rewrite held_snoc.
Qed.
End Meet.

(** ** A run *)
#[local] Instance all_well : Sockets := {|
  n_socket := fun l => 3 + Z.of_nat (length l); n_setsockopt := fun _ => true; n_bind := fun _ _ => true; n_connect := fun _ _ => true;
  n_open := fun _ _ => 3; n_rmnet_info := fun _ _ => None |}.
Theorem client_meets_server_witness : exists addr fd l' fd' e k',
  create_local_server (str "quectel-qmi-proxy2") [] = Some (fd, l') /\ wwan_open 2 (str "/dev/cdc-wdm2") [] = Some ((fd', e), k') /\
  Bind fd addr ∈ l' /\ Connect fd' addr ∈ k' /\ addr = enc16 AF_LOCAL ++ 0 :: str "quectel-qmi-proxy2".
Proof.
  destruct (client_meets_server (str "/dev/cdc-wdm") 50 2 [] []) as (addr & fd & l' & fd' & e & k' & Ea & E1 & E2 & H1 & _ & H2 & _).
  - split; [discriminate | reflexivity].
  - discriminate.
  - intros k. cbn. lia.
  - exists addr, fd, l', fd', e, k'. split; [exact E1|]. split; [exact E2|].
    assert (fd = 3) as -> by (vm_compute in E1; by injection E1 as <- _). assert (fd' = 3) as -> by (vm_compute in E2; by injection E2 as <- _ _).
    split; [apply H1; discriminate|]. split; [apply H2; discriminate|]. vm_compute in Ea. by injection Ea as <-.
Defined.
(** Only the last digit tells the multiplexers apart: the one of the eleventh device would take the address of the first, and so would that of a PCIe modem. *)
Example same_server : servername (str "/dev/cdc-wdm10") = servername (str "/dev/cdc-wdm0") /\ servername (str "/dev/mhi_QMI0") = servername (str "/dev/cdc-wdm0").
Proof. split; vm_compute; reflexivity. Qed.

(** The driver's answer: its first 164 bytes, or zeroes; the socket is given back unless its number is 0. *)
Lemma rmnet_info_spec {host : Host} {sockets : Sockets} ifname l : (forall l n d, n_rmnet_info l n = Some d -> zlen d = 512) ->
  exists info l', ql_get_driver_rmnet_info ifname l = Some (info, l') /\ zlen info = sizeof_RMNET_INFO /\
    (n_socket l <> 0 -> sockets_held l' = sockets_held l).
Proof.
  intros Hd. unfold ql_get_driver_rmnet_info. erewrite bind_step by apply open_sock_run. set (s := n_socket l). destruct (Z.leb_spec s 0) as [E|E].
  { eexists _, _. split; [reflexivity|]. split; [done|]. intros H. rewrite held_snoc. cbn. by rewrite (proj2 (Z.ltb_lt _ _)) by lia. }
  set (l1 := l ++ _). rewrite bind_gets. do 2 (erewrite bind_step by apply call_run).
  assert (sockets_held ((l1 ++ [DriverIoctl s SIOCDEVPRIVATE_RMNET_INFO (ifr_name ifname)]) ++ [CloseSock s]) = sockets_held l) as Hl.
  { unfold l1. rewrite !held_snoc. cbn. rewrite (proj2 (Z.ltb_ge _ _)) by lia. by rewrite Z.eqb_refl. }
  destruct (n_rmnet_info l1 _) as [d|] eqn:Er.
  - destruct (lds_defined d 0 sizeof_RMNET_INFO) as [i Ei]; [done | done | rewrite (Hd _ _ _ Er); unfold sizeof_RMNET_INFO; lia|].
    rewrite Ei, bind_lift. eexists _, _. split; [reflexivity|]. split; [by apply lds_zlen in Ei | done].
  - eexists _, _. split; [reflexivity|]. by split.
Qed.
